(* ===== verification/_CoqProject ===== *)
-Q . S2P
Prelude.v
State.v
Errors.v
Serialize.v
Crc.v
Layer.v
Wire.v
WireExt.v
ExtWalk.v
Frame.v
FrameView.v
Parser.v
Security.v
Codec.v
Window.v
Rtt.v
LinkedList.v
HashTable.v
Route.v
Fragment.v
Reliable.v
Transport.v
Acks.v
Receive.v
Send.v
TransportLogic.v
Delivery.v
TransportInv.v
ReceiveInv.v
SendInv.v
TransportApi.v
Datalink.v
ReplayTable.v
DatalinkInv.v
DatalinkSend.v
DatalinkSafe.v
DatalinkStream.v
Network.v
NetworkInv.v
NetworkPath.v
NetworkSend.v
DatalinkLink.v
Stack.v
Memory.v
Mempool.v
Allocator.v
AllocatorInv.v
TieredPool.v
TieredPoolInv.v
PacketPool.v
Config.v
Instance.v
InstanceInv.v
Runtime.v
RuntimeInv.v
SendApi.v
SendApiInv.v
Mutex.v
Threads.v
MempoolTs.v
ListTs.v
