(* ===== verification/Prelude.v ===== *)
(** * Verification of the xgen-link (XGL) protocol stack

    xgen-link is a layered communication stack in C for microcontrollers: an
    application message goes through the transport layer (sessions, sliding
    window, reliable queue, fragmentation), the network layer (routing, TTL) and
    the data link layer (frames, parsing, authentication, replay protection) to a
    byte-oriented driver.  An instance owns the three layers, the routes and the
    memory pools; the application creates it from a configuration, sends through
    it and drives it from a main loop.  This development models what the stack
    does with bytes, packet numbers, memory and time, and proves what makes each
    part correct, up to the way of a packet through a network of nodes.

    ** Files and sources

    Every definition that models code carries a comment with the source lines it
    translates (below src/src/ and src/include/ of the repository).  In the order
    of _CoqProject:

    Foundations
    - [Prelude]: machine integers, checked memory access, record update,
      arithmetic and list lemmas, tactics; models no code of its own.
    - [State]: the state monad [ST] of computations that may be undefined, and its
      weakest preconditions ([wp], tactic [wp_step]).
    - [Errors]: the error codes (include/xgl/xgl_error.h, core/xgl_error.c).

    Bytes
    - [Serialize]: little-endian fields (wire/xgl_serialize.c).
    - [Crc]: the table-driven CRC-16/Modbus and CRC-8 (wire/xgl_crc.c).
    - [Layer]: packets, counters and the interfaces of the layers
      (xgl_packet_pool.h, xgl_layer_interface.h).
    - [Wire], [WireExt], [ExtWalk]: base header, TLV extensions, authentication
      trailer; the values of the extensions; loops over extensions
      (wire/xgl_wire.c, xgl_wire_ext.c, xgl_wire_ack_ext.c).
    - [Frame], [FrameView]: building and serializing frames, plain, authenticated
      and in place (wire/xgl_frame*.c); frames in longer buffers.
    - [Parser]: the byte-fed receiver state machine (wire/xgl_parser*.c).

    Parts of the layers
    - [Security]: the replay window (security/xgl_security.c).
    - [Codec]: the codec registry (codec/xgl_codec.c).
    - [Window], [Rtt]: the sender's window, the round-trip time estimator
      (transport/xgl_window.c, xgl_rtt.c).
    - [LinkedList], [HashTable]: the intrusive list and the chained table, pointer
      by pointer (core/xgl_list.c, xgl_hashtable.c).
    - [Route]: the routing table, an array with an optional hash index
      (network/xgl_route*.c).
    - [Fragment]: reassembly of fragmented messages (transport/xgl_fragment*.c).
    - [Reliable]: the packets that wait for an ACK, on a list and in index
      chains (transport/xgl_reliable*.c).

    The transport layer (transport/xgl_transport*.c)
    - [Transport], [Acks], [Receive], [Send]: the context with its peers; ACKs and
      retransmission; the receive path; the send path.
    - [TransportLogic], [Delivery]: rules for its operations; in-order delivery.
    - [TransportInv], [ReceiveInv], [SendInv]: the invariant of the context and that every
      operation keeps it.
    - [TransportApi]: initialisation, destruction, the functions other layers
      call, and safety of every sequence of calls.

    The data link layer (datalink/xgl_datalink*.c)
    - [Datalink]: transmission, validation, replay windows, the receive loop.
    - [ReplayTable]: its windows refine one memory of accepted packets.
    - [DatalinkInv], [DatalinkSend], [DatalinkSafe], [DatalinkStream]: the invariant, the send
      path, every sequence of calls, and the layer as a filter of a byte stream.

    The network layer (network/xgl_network*.c)
    - [Network]: packets to frames along routes, delivery, forwarding.
    - [NetworkInv], [NetworkPath], [NetworkSend]: what a node decides about a frame, a
      frame on its way over several nodes, packets on their way down.

    The layers together
    - [DatalinkLink], [Stack]: one frame across the data link; a packet from the
      network layer of one node to the network layer of another.

    Memory (memory/*.c)
    - [Memory]: a byte memory with addresses, [malloc] as an oracle.
    - [Mempool], [TieredPool] with [TieredPoolInv], [PacketPool]: blocks of one size, of three sizes,
      packets with shared data.
    - [Allocator], [AllocatorInv]: the allocator interface and the tracking
      allocator's accounts.

    The instance (api/*.c)
    - [Config]: presets and validation (xgl_config.c).
    - [Instance], [InstanceInv]: creation, initialisation with its chain of clean-ups,
      destruction, statistics (xgl_instance*.c, xgl_stats.c).
    - [Runtime], [RuntimeInv]: a turn of the main loop and the next deadline
      (xgl_runtime.c).
    - [SendApi], [SendApiInv]: the send functions of the application (xgl_send.c,
      xgl_send_zerocopy.c).

    Threads (platform/xgl_mutex.c, memory/xgl_mempool_ts.c, core/xgl_list_ts.c)
    - [Mutex]: the library's mutex over the operating system's, which is a
      parameter with the laws that POSIX documents.
    - [Threads]: functions as sequences of atomic accesses, and a machine that
      interleaves them; functions between lock and unlock are linearizable.
    - [MempoolTs], [ListTs]: the thread-safe pool and list.

    ** How the parts interact

    [Frame] calls [Wire] and [Crc]; [Parser] calls [Wire], and accepts exactly what
    [Frame] produces.  [Route] is a client of the finite-map lemmas of [HashTable];
    [LinkedList] justifies that [Fragment] and [Reliable] treat their intrusive lists
    as sequences; [Reliable] takes the ACK ranges that [WireExt] decodes.

    Each layer runs in a state monad over a world of its own: its context, the
    answers that the allocator, the driver and the next layer will give, and a trace of what
    the layer did to its surroundings (packets handed down, frames handed up, bytes
    transmitted, callbacks).  A layer never calls itself through another one
    within a call, so the layers compose by relating the trace of one with the
    input of the next: [Stack] feeds what the network layer hands down to
    [Datalink], the transmitted bytes, forwarded by any nodes, to the receiving
    data link, and what that passes up to the receiving network layer.  Functions of
    the application and of drivers are known by address; what they answer is
    part of the world.

    An instance is the record behind a handle.  The contexts of the layers are
    its parts; a pointer from one part to another (statistics, route table, codec registry) is modelled
    by the object pointed to, and the copy that a layer holds is the live one.

    ** Conventions

    - A machine integer is a [Z] with the wrap-around of its type written out
      ([u8] .. [u64]); signed overflow is undefined ([int32]).  In the protocol layers
      [size_t] is unbounded, because the code checks the lengths it adds; in the
      memory, instance and application components, where it does not always, [size_t] wraps at
      2^64.
    - A buffer is the list of its bytes; every access is checked and [None] is
      undefined behaviour (out of bounds, null dereference, use after free), so a
      statement "[f x = Some r]" also says that [f] is safe on [x].  Memory that
      nobody wrote holds [None] bytes or arbitrary ones.
    - A pointer that the code compares with NULL is an [option] ([ptr], [NULL],
      [Ptr]); in the memory components it is an address, NULL being 0.
    - Allocation is an oracle ([heap_answers], [alloc_world]): every theorem holds for
      every pattern of memory exhaustion.  The allocators, the block pools and an
      instance's own buffers live on a heap with addresses ([Memory.c_heap]), where
      a leak or a double release shows.  The packets, routes and transport state
      only ask [heap_answers]; of these parts [InstanceInv] shows that they hold
      nothing when the structure that owns them is freed ([Instance.iw_freed]).
    - A copy between two buffers reads one and writes the other.  Where the source lies
      in the destination (the payload of an authenticated zero-copy send) the
      copy is checked for overlap ([Frame.memcpy_within]).
    - Time and randomness are arguments.  Functions of the application (drivers,
      authentication, codecs) are parameters; what is assumed of them is a
      hypothesis by name (e.g. [Wire.provider_sound]) with a concrete instance
      in the witness.
    - The build of the instance is the one without XGL_THREAD_SAFE.
    - A function that several threads run is split into atomic accesses in any way
      that computes, without interference, what its sequential model computes.
    - Loops are structural recursions on the number of iterations left, or have
      fuel and a theorem that the fuel is enough: the cursor loop is bounded by
      the length of the extensions, the window loop by the window size, the
      chain loops of [Reliable] by the number of packets in the heap, the
      pointer loops of [LinkedList] and of the pools by the length of the list, the drain loop
      of [Receive] by the packets in the reordering buffer; allocators that
      track allocators by [Instance.TRACKER_DEPTH].

    ** What the theorems show

    - Bytes: encoders and decoders are inverse, decoders accept only canonical
      input and never read out of bounds ([Wire], [WireExt], [Frame]); the CRC
      is polynomial division and detects every burst of up to 16 bits ([Crc]);
      corruption of a header is rejected.
    - Frames: the parser finds exactly the valid frames of a byte stream, across
      noise between them, delivers only valid frames, and never writes outside
      its cache ([Parser]); the authentication tag survives the fields that hops
      change ([Wire]).
    - Packet numbers: a number is accepted at most once ([Security], [ReplayTable]); the window
      keeps at most its size in flight and its base moves over acknowledged
      packets only ([Window], up to the wrap of the packet numbers, and with the flaw
      that it admits ACKs of packets that were never sent).
    - Memory and data: reassembly delivers exactly the messages that were sent,
      whatever the order, duplication and interleaving of fragments, within its
      memory limits, and completes ([Fragment]); the reliable queue neither
      leaks nor uses freed packets, removes exactly what is acknowledged and
      gives up after its retries ([Reliable], for timeouts below 2^30 ms; from there on
      the back-off overflows, [Reliable.calc_backoff_overflows]); tables and lists refine finite
      maps and sequences ([HashTable], [Route], [Codec], [LinkedList]).
    - Numbers: the RTT estimator stays in its bounds, does not overflow for
      samples below the stated bound and converges on a constant sample ([Rtt]).
    - Layers: every sequence of calls of the transport and of the data link layer
      is defined and keeps the layer's invariant ([TransportApi] for the same timeouts,
      [DatalinkSafe]); reliable unfragmented
      data is delivered in order and once ([Delivery]); the data link passes up exactly what
      its filter accepts ([DatalinkStream]); a node delivers, forwards or drops as its routes say, and forwarding
      ends ([NetworkInv], [NetworkPath]).
    - The stack: a packet that fits its route crosses the network, over any nodes, with
      all its fields but the TTL and the session epoch, which is not transmitted
      ([Stack.packet_crosses_network]).
    - Memory pools: blocks that are handed out are disjoint and in the pool,
      what is freed is handed out again, the accounts are exact
      ([Mempool], [TieredPoolInv], [PacketPool], [AllocatorInv]).
    - The instance: [Config] accepts exactly the stated configurations; initialisation
      leaves the layers ready or nothing held, destruction returns the
      memory, and no part of a structure holds any when it is freed ([InstanceInv]); the deadline for the main loop is exact
      ([RuntimeInv]); a zero-copy send transmits exactly the frame of its data or
      nothing ([SendApiInv], with the flaws that a send that signs copies the payload
      onto itself, which C does not define, and that its frames all have
      the same packet number, so that only the first is received).
    - Threads: whatever threads do with a thread-safe pool or list, and however
      their accesses interleave, each call takes effect at one moment between
      its call and its return, no two threads are inside at once, no thread
      waits for ever, and every run ends ([MempoolTs], [ListTs]).

    ** Not modelled

    The locking of an instance under XGL_THREAD_SAFE (api/*.c), and accesses of
    the users to the blocks and nodes they hold, which go on outside the lock.  The
    platform services (platform/*.c: clocks, timers, atomics, and the mutexes of
    FreeRTOS and Windows), which the stack only calls and which call the
    operating system.  Logging and the version string, which compute nothing, and
    the examples.  The components are listed in the manifest. *)
From stdpp Require Export base list numbers option tactics gmap.
From Stdlib Require Export ZArith Lia.

Declare Scope xgl_scope.
Delimit Scope xgl_scope with xgl.
Global Open Scope Z_scope.
Global Open Scope xgl_scope.

(** ** Records with field update

    [r <| f := v |>] is the C assignment [r.f = v].  A record type only has to
    provide its eta-expansion ([EtaRecord]); the setter of a field is built
    from it when it is needed. *)
Class EtaRecord (R : Type) : Type := Eta { eta_record : R -> R }.
Class SetField {R T : Type} (proj : R -> T) : Type := Setter { set_field : T -> R -> R }.
Arguments set_field {R T} proj {_} v r.
Arguments Eta {R} _.
Arguments Setter {R T} proj _.

Ltac build_setter proj :=
  match goal with
  | |- @SetField ?R ?T proj =>
      let e := constr:(_ : EtaRecord R) in
      let e := eval hnf in (eta_record (EtaRecord := e)) in
      let s := eval pattern proj in e in
      match s with
      | ?F _ => let b := eval cbv beta in (fun v : T => F (fun _ : R => v)) in
                exact (Setter proj b)
      end
  end.
#[export] Hint Extern 1 (SetField ?p) => build_setter p : typeclass_instances.
Notation "r <| f := v |>" := (set_field f v r) (at level 1, left associativity)
  : xgl_scope.

(** ** Machine integers

    A [w]-bit unsigned value is a [Z] in [0 .. 2^w - 1]; [u8] .. [u64] are the
    conversions of C, which wrap.  [i32] is the two's complement reading of a
    32-bit value (conversion to [int32_t]). *)
Definition u8 (z : Z) : Z := z mod 256.
Definition u16 (z : Z) : Z := z mod 65536.
Definition u32 (z : Z) : Z := z mod 4294967296.
Definition u64 (z : Z) : Z := z mod 18446744073709551616.
Definition i32 (z : Z) : Z :=
  let r := u32 z in if r <? 2147483648 then r else r - 4294967296.

(** The result of a signed 32-bit operation: overflow is undefined behaviour. *)
Definition int32 (z : Z) : option Z :=
  if (-2147483648 <=? z) && (z <=? 2147483647) then Some z else None.

Definition UINT8_MAX : Z := 255.
Definition UINT16_MAX : Z := 65535.
Definition UINT32_MAX : Z := 4294967295.

(** Decidable range predicates, the type invariants of the integer fields. *)
Definition is_u8 (z : Z) : bool := (0 <=? z) && (z <? 256).
Definition is_u16 (z : Z) : bool := (0 <=? z) && (z <? 65536).
Definition is_u32 (z : Z) : bool := (0 <=? z) && (z <? 4294967296).
Definition is_u64 (z : Z) : bool := (0 <=? z) && (z <? 18446744073709551616).

Lemma is_u8_spec z : is_u8 z = true <-> 0 <= z < 256.
Proof. unfold is_u8. lia. Qed.
Lemma is_u16_spec z : is_u16 z = true <-> 0 <= z < 65536.
Proof. unfold is_u16. lia. Qed.
Lemma is_u32_spec z : is_u32 z = true <-> 0 <= z < 4294967296.
Proof. unfold is_u32. lia. Qed.
Lemma is_u64_spec z : is_u64 z = true <-> 0 <= z < 18446744073709551616.
Proof. unfold is_u64. lia. Qed.

(** [zlia]: linear arithmetic that knows the wrap-around conversions, [/] and
    [mod] by constants, and the range predicates. *)
Ltac unwrap_ints :=
  unfold u8, u16, u32, u64, UINT8_MAX, UINT16_MAX, UINT32_MAX,
    is_u8, is_u16, is_u32, is_u64 in *.
Ltac zlia := unwrap_ints; Z.div_mod_to_equations; lia.

Lemma u8_small z : 0 <= z < 256 -> u8 z = z.
Proof. intros. zlia. Qed.
Lemma u16_small z : 0 <= z < 65536 -> u16 z = z.
Proof. intros. zlia. Qed.
Lemma u32_small z : 0 <= z < 4294967296 -> u32 z = z.
Proof. intros. zlia. Qed.
Lemma u64_small z : 0 <= z < 18446744073709551616 -> u64 z = z.
Proof. intros. zlia. Qed.
Lemma int32_ok z : -2147483648 <= z <= 2147483647 -> int32 z = Some z.
Proof. intros. unfold int32. destruct (_ && _) eqn:E; [done|lia]. Qed.
Lemma u8_range z : 0 <= u8 z < 256.
Proof. zlia. Qed.
Lemma u16_range z : 0 <= u16 z < 65536.
Proof. zlia. Qed.
Lemma u32_range z : 0 <= u32 z < 4294967296.
Proof. zlia. Qed.
Lemma u64_range z : 0 <= u64 z < 18446744073709551616.
Proof. zlia. Qed.

(** ** Bits

    The bit operations the code uses, reduced to arithmetic where the operands
    do not overlap. *)
Lemma land_255 z : Z.land z 255 = z mod 256.
Proof. change 255 with (Z.ones 8). rewrite Z.land_ones by lia. done. Qed.

Lemma shiftr_div z n : 0 <= n -> Z.shiftr z n = z / 2 ^ n.
Proof. intros. by apply Z.shiftr_div_pow2. Qed.

Lemma testbit_small z n i : 0 <= z < 2 ^ n -> n <= i -> Z.testbit z i = false.
Proof.
  intros [H0 H1] Hi. destruct (decide (z = 0)) as [->|Hz]; [apply Z.bits_0|].
  apply Z.bits_above_log2; [lia|].
  apply Z.lt_le_trans with n; [|done]. apply Z.log2_lt_pow2; lia.
Qed.

Lemma lor_shiftl_add a b n :
  0 <= n -> 0 <= a < 2 ^ n -> Z.lor a (Z.shiftl b n) = a + b * 2 ^ n.
Proof.
  intros Hn Ha. rewrite <- Z.shiftl_mul_pow2 by done.
  assert (Z.land a (Z.shiftl b n) = 0) as H0.
  { apply Z.bits_inj'; intros i Hi.
    rewrite Z.land_spec, Z.bits_0, Z.shiftl_spec by done.
    destruct (decide (i < n)).
    - rewrite (Z.testbit_neg_r b (i - n)) by lia. apply andb_false_r.
    - by rewrite (testbit_small a n i) by lia. }
  rewrite <- Z.lxor_lor, <- Z.add_nocarry_lxor by done. done.
Qed.

Lemma lor_bound a b n :
  0 <= n -> 0 <= a < 2 ^ n -> 0 <= b < 2 ^ n -> 0 <= Z.lor a b < 2 ^ n.
Proof.
  intros Hn Ha Hb. assert (0 <= Z.lor a b) by (apply Z.lor_nonneg; lia).
  split; [done|]. destruct (decide (Z.lor a b = 0)) as [->|Hz]; [lia|].
  apply Z.log2_lt_pow2; [lia|].
  rewrite Z.log2_lor by lia. 
  destruct (decide (a = 0)) as [->|]; destruct (decide (b = 0)) as [->|];
    change (Z.log2 0) with 0; rewrite ?Z.lor_0_l, ?Z.lor_0_r in *; try lia.
  - assert (Z.log2 b < n) by (apply Z.log2_lt_pow2; lia). pose proof (Z.log2_nonneg b). lia.
  - assert (Z.log2 a < n) by (apply Z.log2_lt_pow2; lia). pose proof (Z.log2_nonneg a). lia.
  - assert (Z.log2 a < n) by (apply Z.log2_lt_pow2; lia).
    assert (Z.log2 b < n) by (apply Z.log2_lt_pow2; lia). lia.
Qed.

Lemma lxor_bound a b n :
  0 <= n -> 0 <= a < 2 ^ n -> 0 <= b < 2 ^ n -> 0 <= Z.lxor a b < 2 ^ n.
Proof.
  intros Hn Ha Hb.
  assert (0 <= Z.lxor a b) by (apply Z.lxor_nonneg; lia).
  split; [done|]. destruct (decide (Z.lxor a b = 0)) as [->|Hz]; [lia|].
  destruct (Z.lt_ge_cases (Z.lxor a b) (2 ^ n)) as [|Hge]; [done|].
  exfalso. pose proof (Z.bit_log2 (Z.lxor a b) ltac:(lia)) as Hbit.
  assert (n <= Z.log2 (Z.lxor a b)).
  { apply Z.log2_le_pow2 in Hge; lia. }
  rewrite Z.lxor_spec, (testbit_small a n), (testbit_small b n) in Hbit by lia.
  done.
Qed.

Lemma land_bound a b n :
  0 <= n -> 0 <= a < 2 ^ n -> 0 <= b -> 0 <= Z.land a b < 2 ^ n.
Proof.
  intros Hn Ha Hb. assert (0 <= Z.land a b) by (apply Z.land_nonneg; lia).
  split; [done|]. destruct (Z.lt_ge_cases (Z.land a b) (2 ^ n)) as [|Hge]; [done|].
  exfalso. assert (Z.land a b <> 0) by lia.
  pose proof (Z.bit_log2 (Z.land a b) ltac:(lia)) as Hbit.
  assert (n <= Z.log2 (Z.land a b)) by (apply Z.log2_le_pow2 in Hge; lia).
  rewrite Z.land_spec, (testbit_small a n) in Hbit by lia. done.
Qed.

(** ** Memory

    A byte buffer is the list of its bytes; its length is the size of the
    object.  Every access is checked: [None] is undefined behaviour (an access
    outside the object), so "[f x <> None]" says that [f] is memory safe on
    [x].  [M] is stdpp's option monad: [x ← m; k]. *)
Abbreviation bytes := (list Z).
Abbreviation M := option.
Abbreviation ret := (@Some _).
Definition zlen {A} (l : list A) : Z := Z.of_nat (length l).
Abbreviation bytes_ok := (Forall (fun b => 0 <= b < 256)).

(** A pointer that the code compares with NULL. *)
Abbreviation ptr := option.
Abbreviation NULL := None.
Abbreviation Ptr := (@Some _).

(** The [n] elements from index [off] on. *)
Abbreviation slice buf off n := (take (Z.to_nat n) (drop (Z.to_nat off) buf)).

(** [buf[i]] *)
Definition rd {A} (buf : list A) (i : Z) : M A :=
  if 0 <=? i then buf !! Z.to_nat i else None.
(** [buf[i] = v] *)
Definition wr {A} (buf : list A) (i : Z) (v : A) : M (list A) :=
  if (0 <=? i) && (i <? zlen buf) then Some (<[Z.to_nat i := v]> buf) else None.
(** the [n] bytes at [&buf[off]] *)
Definition rd_bytes {A} (buf : list A) (off n : Z) : M (list A) :=
  if (0 <=? off) && (0 <=? n) && (off + n <=? zlen buf)
  then Some (take (Z.to_nat n) (drop (Z.to_nat off) buf)) else None.
(** [memcpy(&buf[off], src, |src|)] *)
Definition wr_bytes {A} (buf : list A) (off : Z) (src : list A) : M (list A) :=
  if (0 <=? off) && (off + zlen src <=? zlen buf)
  then Some (take (Z.to_nat off) buf ++ src ++ drop (Z.to_nat (off + zlen src)) buf)
  else None.
(** [memset(&buf[off], v, n)] *)
Definition memset (buf : bytes) (off v n : Z) : M bytes :=
  wr_bytes buf off (replicate (Z.to_nat n) v).

(** [for (; n > 0; n--, i++) buf[i - 1] = buf[i]]: close a gap in an array. *)
Fixpoint shift_down_loop {A} (buf : list A) (n : nat) (i : Z) : M (list A) :=
  match n with
  | O => ret buf
  | S n => v ← rd buf i; buf ← wr buf (i - 1) v; shift_down_loop buf n (i + 1)
  end.
(** [for (; n > 0; n--, i--) buf[i] = buf[i - 1]]: open a gap. *)
Fixpoint shift_up_loop {A} (buf : list A) (n : nat) (i : Z) : M (list A) :=
  match n with
  | O => ret buf
  | S n => v ← rd buf (i - 1); buf ← wr buf i v; shift_up_loop buf n (i - 1)
  end.

Section Memory.
Context {A : Type}.
Implicit Types (buf src pre old mid post : list A).

Lemma zlen_app buf src : zlen (buf ++ src) = zlen buf + zlen src.
Proof. unfold zlen. rewrite length_app. lia. Qed.
Lemma zlen_cons (x : A) buf : zlen (x :: buf) = 1 + zlen buf.
Proof. unfold zlen. cbn. lia. Qed.
Lemma zlen_nil : zlen (@nil A) = 0.
Proof. done. Qed.
Lemma zlen_nonneg buf : 0 <= zlen buf.
Proof. unfold zlen. lia. Qed.
Lemma zlen_0_nil buf : zlen buf <= 0 -> buf = [].
Proof. destruct buf; [done|]. unfold zlen. cbn. lia. Qed.
Lemma zlen_insert buf i v : zlen (<[i := v]> buf) = zlen buf.
Proof. unfold zlen. by rewrite length_insert. Qed.
Lemma zlen_take buf n : 0 <= n <= zlen buf -> zlen (take (Z.to_nat n) buf) = n.
Proof. unfold zlen. rewrite length_take. lia. Qed.
Lemma zlen_drop buf n : 0 <= n <= zlen buf -> zlen (drop (Z.to_nat n) buf) = zlen buf - n.
Proof. unfold zlen. rewrite length_drop. lia. Qed.

Lemma rd_lookup buf i : 0 <= i -> rd buf i = buf !! Z.to_nat i.
Proof. unfold rd. intros. by destruct (Z.leb_spec 0 i); [|lia]. Qed.
Lemma rd_is_Some buf i : 0 <= i < zlen buf -> exists v, rd buf i = Some v.
Proof.
  intros [H0 H1]. rewrite rd_lookup by done. apply lookup_lt_is_Some_2.
  unfold zlen in H1. lia.
Qed.
Lemma rd_Some_inv buf i v : rd buf i = Some v -> 0 <= i < zlen buf.
Proof.
  unfold rd. destruct (Z.leb_spec 0 i); [|done].
  intros Hl%lookup_lt_Some. unfold zlen. lia.
Qed.
Lemma wr_Some buf i v : 0 <= i < zlen buf -> wr buf i v = Some (<[Z.to_nat i := v]> buf).
Proof. intros. unfold wr. destruct (_ && _) eqn:E; [done|lia]. Qed.
Lemma wr_inv buf i v buf' :
  wr buf i v = Some buf' -> 0 <= i < zlen buf /\ buf' = <[Z.to_nat i := v]> buf.
Proof. unfold wr. destruct (_ && _) eqn:E; [|done]. intros [= <-]. split; [lia|done]. Qed.
Lemma rd_bytes_Some buf off n :
  0 <= off -> 0 <= n -> off + n <= zlen buf ->
  rd_bytes buf off n = Some (take (Z.to_nat n) (drop (Z.to_nat off) buf)).
Proof. intros. unfold rd_bytes. destruct (_ && _) eqn:E; [done|lia]. Qed.
Lemma rd_bytes_inv buf off n bs :
  rd_bytes buf off n = Some bs ->
  0 <= off /\ 0 <= n /\ off + n <= zlen buf /\
  bs = take (Z.to_nat n) (drop (Z.to_nat off) buf) /\ zlen bs = n.
Proof.
  unfold rd_bytes. destruct (_ && _) eqn:E; [|done]. intros [= <-].
  repeat split; try lia. unfold zlen in *. rewrite length_take, length_drop. lia.
Qed.
Lemma wr_bytes_Some buf off src :
  0 <= off -> off + zlen src <= zlen buf ->
  wr_bytes buf off src =
    Some (take (Z.to_nat off) buf ++ src ++ drop (Z.to_nat (off + zlen src)) buf).
Proof. intros. unfold wr_bytes. destruct (_ && _) eqn:E; [done|lia]. Qed.
Lemma wr_bytes_inv buf off src buf' :
  wr_bytes buf off src = Some buf' ->
  0 <= off /\ off + zlen src <= zlen buf /\
  buf' = take (Z.to_nat off) buf ++ src ++ drop (Z.to_nat (off + zlen src)) buf.
Proof. unfold wr_bytes. destruct (_ && _) eqn:E; [|done]. intros [= <-]. split_and!; [lia|lia|done]. Qed.
Lemma wr_bytes_zlen buf off src buf' :
  wr_bytes buf off src = Some buf' -> zlen buf' = zlen buf.
Proof.
  intros (?&?&->)%wr_bytes_inv. pose proof (zlen_nonneg src).
  rewrite !zlen_app, zlen_take, zlen_drop by lia. lia.
Qed.

(** Writing in the middle of a buffer split at the offset. *)
Lemma wr_bytes_app pre old post src :
  length old = length src ->
  wr_bytes (pre ++ old ++ post) (zlen pre) src = Some (pre ++ src ++ post).
Proof.
  intros Hl. rewrite wr_bytes_Some.
  - f_equal. unfold zlen.
    rewrite !Nat2Z.id, take_app_length, Z2Nat.inj_add, !Nat2Z.id by lia.
    rewrite <- drop_drop, drop_app_length, <- Hl, drop_app_length. done.
  - apply zlen_nonneg.
  - rewrite !zlen_app. unfold zlen. lia.
Qed.
Lemma rd_bytes_app pre mid post :
  rd_bytes (pre ++ mid ++ post) (zlen pre) (zlen mid) = Some mid.
Proof.
  rewrite rd_bytes_Some by (rewrite ?zlen_app; unfold zlen; lia).
  unfold zlen. by rewrite !Nat2Z.id, drop_app_length, take_app_length.
Qed.
Lemma rd_bytes_prefix pre post n :
  n = zlen pre -> rd_bytes (pre ++ post) 0 n = Some pre.
Proof. intros ->. apply (rd_bytes_app [] pre post). Qed.
Lemma wr_bytes_prefix old post src n :
  length old = length src -> n = 0 -> wr_bytes (old ++ post) n src = Some (src ++ post).
Proof. intros Hl ->. apply (wr_bytes_app [] old post src Hl). Qed.
Lemma take_to_nat buf n : n = zlen buf -> take (Z.to_nat n) buf = buf.
Proof. intros ->. unfold zlen. rewrite Nat2Z.id. apply firstn_all. Qed.
Lemma drop_to_nat_0 buf : drop (Z.to_nat 0) buf = buf.
Proof. done. Qed.
Lemma rd_at pre x post i : i = zlen pre -> rd (pre ++ x :: post) i = Some x.
Proof.
  intros ->. rewrite rd_lookup by apply zlen_nonneg. unfold zlen. rewrite Nat2Z.id.
  by rewrite lookup_app_r, Nat.sub_diag by lia.
Qed.
Lemma wr_at pre x post i v :
  i = zlen pre -> wr (pre ++ x :: post) i v = Some (pre ++ v :: post).
Proof.
  intros ->. pose proof (zlen_nonneg pre). pose proof (zlen_nonneg post).
  rewrite wr_Some by (rewrite zlen_app, zlen_cons; lia).
  unfold zlen. by rewrite Nat2Z.id, insert_app_r_alt, Nat.sub_diag by lia.
Qed.
Lemma rd_app_r pre buf i :
  0 <= i -> rd (pre ++ buf) (zlen pre + i) = rd buf i.
Proof.
  intros. pose proof (zlen_nonneg pre).
  rewrite !rd_lookup by lia. unfold zlen in *.
  rewrite lookup_app_r by lia. f_equal. lia.
Qed.
Lemma rd_app_l pre buf i : i < zlen pre -> rd (pre ++ buf) i = rd pre i.
Proof.
  intros. unfold rd. destruct (Z.leb_spec 0 i); [|done].
  apply lookup_app_l. unfold zlen in *. lia.
Qed.
Lemma rd_wr_bytes buf off src buf' x :
  wr_bytes buf off src = Some buf' ->
  rd buf' x = if decide (off <= x < off + zlen src) then rd src (x - off) else rd buf x.
Proof.
  intros (Ho & Hl & ->)%wr_bytes_inv. pose proof (zlen_nonneg src). unfold rd.
  destruct (Z.leb_spec 0 x) as [Hx|Hx]; [|rewrite decide_False by lia; done].
  assert (length (take (Z.to_nat off) buf) = Z.to_nat off) as Ht.
  { rewrite length_take. unfold zlen in *. lia. }
  destruct (decide (off <= x < off + zlen src)) as [Hin|Hout].
  - replace (0 <=? x - off) with true by lia. rewrite lookup_app_r, Ht by lia.
    rewrite lookup_app_l by (unfold zlen in *; lia). f_equal. lia.
  - destruct (decide (x < off)).
    + rewrite lookup_app_l by lia. apply lookup_take_lt. lia.
    + rewrite lookup_app_r, Ht by lia. rewrite lookup_app_r by (unfold zlen in *; lia).
      rewrite lookup_drop. f_equal. unfold zlen in *. lia.
Qed.
Lemma shift_down_spec rest : forall pre x post,
  exists z, shift_down_loop (pre ++ x :: rest ++ post) (length rest) (zlen pre + 1) =
            Some (pre ++ rest ++ z :: post).
Proof.
  induction rest as [|y rest IH]; intros pre x post; [by exists x|]. cbn [length shift_down_loop app].
  assert (rd (pre ++ x :: y :: rest ++ post) (zlen pre + 1) = Some y) as ->.
  { replace (pre ++ x :: y :: rest ++ post) with ((pre ++ [x]) ++ y :: rest ++ post)
      by (by rewrite <- app_assoc).
    apply rd_at. by rewrite zlen_app. }
  cbn [mbind option_bind]. rewrite wr_at by lia. cbn [mbind option_bind].
  destruct (IH (pre ++ [y]) y post) as [z Hz]. exists z. rewrite zlen_app in Hz.
  change (zlen [y]) with 1 in Hz. rewrite <- !app_assoc in Hz. exact Hz.
Qed.
Lemma shift_up_spec rest : forall pre x post,
  exists z, shift_up_loop (pre ++ rest ++ x :: post) (length rest) (zlen pre + zlen rest) =
            Some (pre ++ z :: rest ++ post).
Proof.
  induction rest as [|y rest IH] using rev_ind; intros pre x post; [by exists x|].
  rewrite length_app, Nat.add_1_r, <- !app_assoc. cbn [shift_up_loop app].
  rewrite zlen_app. change (zlen [y]) with 1.
  replace (zlen pre + (zlen rest + 1) - 1) with (zlen pre + zlen rest) by lia.
  assert (rd (pre ++ rest ++ y :: x :: post) (zlen pre + zlen rest) = Some y) as ->.
  { rewrite app_assoc. apply rd_at. by rewrite zlen_app. }
  cbn [mbind option_bind].
  assert (wr (pre ++ rest ++ y :: x :: post) (zlen pre + (zlen rest + 1)) y =
          Some (pre ++ rest ++ y :: y :: post)) as ->.
  { replace (pre ++ rest ++ y :: x :: post) with ((pre ++ rest ++ [y]) ++ x :: post)
      by (by rewrite <- !app_assoc).
    rewrite wr_at by (rewrite !zlen_app; change (zlen [y]) with 1; lia). by rewrite <- !app_assoc. }
  cbn [mbind option_bind]. destruct (IH pre y (y :: post)) as [z Hz]. by exists z.
Qed.
End Memory.

Lemma Forall_sublist {A} (P : A -> Prop) l1 l2 : Forall P l2 -> l1 `sublist_of` l2 -> Forall P l1.
Proof. rewrite !Forall_forall. intros Hl Hsub x Hx. apply Hl. by eapply sublist_subseteq. Qed.

Lemma bytes_ok_insert (buf : bytes) i v :
  bytes_ok buf -> 0 <= v < 256 -> bytes_ok (<[i := v]> buf).
Proof. intros. by apply Forall_insert. Qed.
Lemma bytes_ok_wr (buf : bytes) i v buf' :
  wr buf i v = Some buf' -> bytes_ok buf -> 0 <= v < 256 -> bytes_ok buf'.
Proof. intros [_ ->]%wr_inv ??. by apply bytes_ok_insert. Qed.
Lemma bytes_ok_wr_bytes (buf : bytes) off src buf' :
  wr_bytes buf off src = Some buf' -> bytes_ok buf -> bytes_ok src -> bytes_ok buf'.
Proof.
  intros (_&_&->)%wr_bytes_inv ??. rewrite !Forall_app. split_and!;
    eauto using Forall_take, Forall_drop.
Qed.
Lemma bytes_ok_rd (buf : bytes) i v : rd buf i = Some v -> bytes_ok buf -> 0 <= v < 256.
Proof.
  unfold rd. destruct (0 <=? i); [|done]. intros Hl Hb.
  exact (Forall_lookup_1 _ _ _ _ Hb Hl).
Qed.
Lemma bytes_ok_rd_bytes (buf : bytes) off n bs :
  rd_bytes buf off n = Some bs -> bytes_ok buf -> bytes_ok bs.
Proof. intros (_&_&_&->&_)%rd_bytes_inv ?. eauto using Forall_take, Forall_drop. Qed.

(** [&buf[off]] passed to a function that writes through it: the callee works on
    the object from [off] on. *)
Definition at_offset {A R} (buf : list A) (off : Z) (f : list A -> M (R * list A))
  : M (R * list A) :=
  if (0 <=? off) && (off <=? zlen buf)
  then '(r, suffix) ← f (drop (Z.to_nat off) buf);
       ret (r, take (Z.to_nat off) buf ++ suffix)
  else None.
Lemma at_offset_app {A R} (pre suf : list A) (f : list A -> M (R * list A)) :
  at_offset (pre ++ suf) (zlen pre) f = ('(r, suf') ← f suf; ret (r, pre ++ suf')).
Proof.
  unfold at_offset. rewrite zlen_app. pose proof (zlen_nonneg pre). pose proof (zlen_nonneg suf).
  replace (_ && _) with true by lia. unfold zlen. rewrite Nat2Z.id.
  by rewrite drop_app_length, take_app_length.
Qed.

(** ** Allocation

    [xgl_alloc] calls a user supplied [malloc]; its answers are a stream given
    to the model: [true] succeeds, [false] returns NULL; an exhausted stream
    means success.  A request for 0 bytes returns NULL without a call
    ([xgl_allocator.c]). *)
Abbreviation heap_answers := (list bool).
Definition alloc_answer (size : Z) (env : heap_answers) : bool * heap_answers :=
  if size =? 0 then (false, env)
  else match env with [] => (true, []) | a :: rest => (a, rest) end.

(** ** NULL objects

    An operation on an object is a function of that object.  [at_ptr] adds the
    guard [if (p == NULL) return v;] that opens the entry points of the C API. *)
Definition at_ptr {S R} (on_null : R) (f : S -> R) (p : ptr S) : R :=
  match p with NULL => on_null | Ptr s => f s end.
Definition at_ptr_st {S R} (on_null : R) (f : S -> R * S) (p : ptr S) : R * ptr S :=
  match p with NULL => (on_null, NULL) | Ptr s => let '(r, s') := f s in (r, Ptr s') end.

(** ** Automation

    [msimpl] runs the monad and the checked accesses as far as the known
    bounds allow; [minv] takes a successful run apart. *)
Create HintDb xgl.
Create Rewrite HintDb zlen.
#[export] Hint Resolve u8_range u16_range u32_range u64_range : xgl.
#[export] Hint Resolve bytes_ok_wr bytes_ok_wr_bytes bytes_ok_rd bytes_ok_rd_bytes
  bytes_ok_insert Forall_take Forall_drop : xgl.
#[export] Hint Rewrite @zlen_app @zlen_cons @zlen_nil @zlen_insert : zlen.

Lemma bind_Some_eq {A B} (m : M A) (f : A -> M B) x : m = Some x -> m ≫= f = f x.
Proof. by intros ->. Qed.

Ltac minv :=
  repeat match goal with
  | H : _ ≫= _ = Some _ |- _ => apply bind_Some in H as (? & ? & H)
  | H : Some _ = Some _ |- _ => injection H as H
  | H : (_, _) = (_, _) |- _ => injection H as H
  | H : None = Some _ |- _ => discriminate H
  end.

(** Case analysis on the test of the next [if] or [match] of the goal. *)
(** Case analysis on the comparisons of a boolean goal. *)
Ltac zbool :=
  cbn beta;
  repeat match goal with
         | |- context [Z.ltb ?a ?b] => destruct (Z.ltb_spec a b)
         | |- context [Z.leb ?a ?b] => destruct (Z.leb_spec a b)
         | |- context [Z.eqb ?a ?b] => destruct (Z.eqb_spec a b)
         end; cbn; try done; lia.
Ltac case_if :=
  match goal with
  | |- context [if ?b then _ else _] => destruct b eqn:?
  end.
Ltac case_if_in H :=
  match type of H with
  | context [if ?b then _ else _] => destruct b eqn:?
  end.
