(* ===== verification/State.v ===== *)
(** * Stateful computations that may be undefined

    The state monad in which the layers run, and its weakest-precondition
    calculus: [wp m Q s] says that [m] is defined in the state [s] and that its
    answer and the state after it satisfy [Q]. *)
From S2P Require Import Prelude.

Definition ST (S A : Type) : Type := S -> option (A * S).
#[export] Instance ST_ret S : MRet (ST S) := fun A x s => Some (x, s).
#[export] Instance ST_bind S : MBind (ST S) := fun A B f m s =>
  match m s with Some (a, s) => f a s | None => None end.
(** A computation without state. *)
Definition lift {S A} (m : M A) : ST S A := fun s => x ← m; Some (x, s).
Definition gets {S A} (f : S -> A) : ST S A := fun s => Some (f s, s).
Definition modify {S} (f : S -> S) : ST S unit := fun s => Some (tt, f s).

Section calculus.
  Context {S : Type}.

Definition wp {A} (m : ST S A) (Q : A -> S -> Prop) (s : S) : Prop :=
  match m s with Some (a, s') => Q a s' | None => False end.

Lemma wp_run {A} (m : ST S A) Q s : wp m Q s <-> exists a s', m s = Some (a, s') /\ Q a s'.
Proof.
  unfold wp. destruct (m s) as [[a s']|]; split; [by eauto|by intros (? & ? & [= <- <-] & ?)|done|].
  by intros (? & ? & ? & _).
Qed.
Lemma wp_ret {A} (a : A) Q s : Q a s -> wp (mret a) Q s.
Proof. done. Qed.
Lemma wp_bind {A B} (m : ST S A) (f : A -> ST S B) Q s :
  wp m (fun a s' => wp (f a) Q s') s -> wp (m ≫= f) Q s.
Proof. unfold wp, mbind, ST_bind. by destruct (m s) as [[a s']|]. Qed.
Lemma wp_mono {A} (m : ST S A) (P Q : A -> S -> Prop) s :
  wp m P s -> (forall a s', P a s' -> Q a s') -> wp m Q s.
Proof. unfold wp. destruct (m s) as [[a s']|]; auto. Qed.
Lemma wp_and {A} (m : ST S A) (P Q : A -> S -> Prop) s :
  wp m P s -> wp m Q s -> wp m (fun a s' => P a s' /\ Q a s') s.
Proof. unfold wp. by destruct (m s) as [[a s']|]. Qed.
Lemma wp_lift {A} (m : M A) a Q s : m = Some a -> Q a s -> wp (lift m) Q s.
Proof. by intros ->. Qed.
Lemma wp_gets {A} (f : S -> A) Q s : Q (f s) s -> wp (gets f) Q s.
Proof. done. Qed.
Lemma wp_modify f Q s : Q tt (f s) -> wp (modify f) Q s.
Proof. done. Qed.
End calculus.

(** One step of a proof; a layer adds the rules of its own operations. *)
Ltac st_step :=
  lazymatch goal with
  | |- wp (_ ≫= _) _ _ => apply wp_bind
  | |- wp (mret _) _ _ => apply wp_ret
  | |- wp (gets _) _ _ => apply wp_gets
  | |- wp (modify _) _ _ => apply wp_modify
  | |- wp (lift (Some _)) _ _ => eapply wp_lift; [reflexivity|]
  end.
