(* ===== verification/Errors.v ===== *)
(** * Error codes (include/xgl/xgl_error.h, src/core/xgl_error.c)

    The enumeration of the protocol's error codes, their numeric values and the
    message table searched by [xgl_error_string]. *)
From stdpp Require Import strings.
From S2P Require Import Prelude.

(** src/include/xgl/xgl_error.h:18-62: xgl_error_t *)
Inductive xgl_error_t : Type :=
  | XGL_OK
  | XGL_ERR_INVALID_PARAM
  | XGL_ERR_NULL_POINTER
  | XGL_ERR_NOT_INITIALIZED
  | XGL_ERR_ALREADY_INITIALIZED
  | XGL_ERR_NOT_FOUND
  | XGL_ERR_NO_MEMORY
  | XGL_ERR_POOL_EXHAUSTED
  | XGL_ERR_BUFFER_TOO_SMALL
  | XGL_ERR_ROUTE_NOT_FOUND
  | XGL_ERR_TX_FAILED
  | XGL_ERR_TIMEOUT
  | XGL_ERR_ACK_TIMEOUT
  | XGL_ERR_TTL_EXPIRED
  | XGL_ERR_INVALID_FRAME
  | XGL_ERR_CRC_FAILED
  | XGL_ERR_INVALID_VERSION
  | XGL_ERR_INVALID_DATA_TYPE
  | XGL_ERR_SEQUENCE_ERROR
  | XGL_ERR_BUSY
  | XGL_ERR_QUEUE_FULL
  | XGL_ERR_WINDOW_FULL.

#[export] Instance xgl_error_t_eq_dec : EqDecision xgl_error_t.
Proof. solve_decision. Defined.

(** The numeric value of each enumerator. *)
(** src/include/xgl/xgl_error.h:18-62: xgl_error_t *)
Definition error_code (e : xgl_error_t) : Z :=
  match e with
  | XGL_OK => 0
  | XGL_ERR_INVALID_PARAM => 1
  | XGL_ERR_NULL_POINTER => 2
  | XGL_ERR_NOT_INITIALIZED => 3
  | XGL_ERR_ALREADY_INITIALIZED => 4
  | XGL_ERR_NOT_FOUND => 5
  | XGL_ERR_NO_MEMORY => 100
  | XGL_ERR_POOL_EXHAUSTED => 101
  | XGL_ERR_BUFFER_TOO_SMALL => 102
  | XGL_ERR_ROUTE_NOT_FOUND => 200
  | XGL_ERR_TX_FAILED => 201
  | XGL_ERR_TIMEOUT => 202
  | XGL_ERR_ACK_TIMEOUT => 203
  | XGL_ERR_TTL_EXPIRED => 204
  | XGL_ERR_INVALID_FRAME => 300
  | XGL_ERR_CRC_FAILED => 301
  | XGL_ERR_INVALID_VERSION => 302
  | XGL_ERR_INVALID_DATA_TYPE => 303
  | XGL_ERR_SEQUENCE_ERROR => 304
  | XGL_ERR_BUSY => 400
  | XGL_ERR_QUEUE_FULL => 401
  | XGL_ERR_WINDOW_FULL => 402
  end.

(** src/src/core/xgl_error.c:15-55: error_strings *)
Definition error_strings : list (xgl_error_t * string) := [
  (XGL_OK, "Success");
  (XGL_ERR_INVALID_PARAM, "Invalid parameter");
  (XGL_ERR_NULL_POINTER, "Null pointer");
  (XGL_ERR_NOT_INITIALIZED, "Not initialized");
  (XGL_ERR_ALREADY_INITIALIZED, "Already initialized");
  (XGL_ERR_NOT_FOUND, "Not found");
  (XGL_ERR_NO_MEMORY, "Out of memory");
  (XGL_ERR_POOL_EXHAUSTED, "Memory pool exhausted");
  (XGL_ERR_BUFFER_TOO_SMALL, "Buffer too small");
  (XGL_ERR_ROUTE_NOT_FOUND, "Route not found");
  (XGL_ERR_TX_FAILED, "Transmission failed");
  (XGL_ERR_TIMEOUT, "Operation timeout");
  (XGL_ERR_ACK_TIMEOUT, "ACK timeout");
  (XGL_ERR_TTL_EXPIRED, "TTL expired");
  (XGL_ERR_INVALID_FRAME, "Invalid frame");
  (XGL_ERR_CRC_FAILED, "CRC check failed");
  (XGL_ERR_INVALID_VERSION, "Invalid version");
  (XGL_ERR_INVALID_DATA_TYPE, "Invalid data type");
  (XGL_ERR_SEQUENCE_ERROR, "Packet number/window error");
  (XGL_ERR_BUSY, "Resource busy");
  (XGL_ERR_QUEUE_FULL, "Queue full");
  (XGL_ERR_WINDOW_FULL, "Sliding window full")
]%string.

(** The linear search compares the numeric codes, so it is defined on any
    integer a caller casts to [xgl_error_t]. *)
(** src/src/core/xgl_error.c:67-77: xgl_error_string *)
Fixpoint search_error (code : Z) (table : list (xgl_error_t * string)) : string :=
  match table with
  | [] => "Unknown error"
  | (e, message) :: rest =>
      if error_code e =? code then message else search_error code rest
  end.
Definition xgl_error_string (code : Z) : string := search_error code error_strings.

(** [err == XGL_OK] *)
Definition is_ok (e : xgl_error_t) : bool :=
  match e with XGL_OK => true | _ => false end.

Lemma is_ok_spec e : is_ok e = true <-> e = XGL_OK.
Proof. by destruct e. Qed.

#[export] Instance error_code_inj : Inj (=) (=) error_code.
Proof. intros [] []; cbn; congruence. Qed.

(** Every enumerator has an entry, no two enumerators share a message, and
    every other code maps to the fallback. *)
Lemma error_string_faithful :
  (forall e1 e2, xgl_error_string (error_code e1) = xgl_error_string (error_code e2) ->
     e1 = e2) /\
  (forall e, xgl_error_string (error_code e) <> "Unknown error"%string) /\
  (forall z, (forall e, z <> error_code e) -> xgl_error_string z = "Unknown error"%string).
Proof.
  split_and!.
  - intros [] []; vm_compute; congruence.
  - intros []; vm_compute; congruence.
  - intros z Hz. unfold xgl_error_string, error_strings. cbn [search_error].
    assert (forall e, (error_code e =? z) = false) as Hne
      by (intros e; specialize (Hz e); lia).
    by rewrite !Hne.
Qed.
