(* ===== verification/Serialize.v ===== *)
(** * Little-endian integers (src/wire/xgl_serialize.c)

    The byte-wise writers and readers of 16- and 32-bit integers, refined to
    the reference encoding [le_bytes] / [le_value] that the other wire
    components reason with. *)
From S2P Require Import Prelude.

(** ** Reference encoding *)
Fixpoint le_bytes (n : nat) (v : Z) : bytes :=
  match n with
  | O => []
  | S n => v mod 256 :: le_bytes n (v / 256)
  end.
Fixpoint le_value (bs : bytes) : Z :=
  match bs with
  | [] => 0
  | b :: bs => b + 256 * le_value bs
  end.

(** ** The code *)

(** src/src/wire/xgl_serialize.c:18-26: xgl_serialize_u16_le *)
Definition xgl_serialize_u16_le (buffer : bytes) (off value : Z) : M bytes :=
  buffer ← wr buffer off (u8 (Z.land value 0xFF));
  wr buffer (off + 1) (u8 (Z.land (Z.shiftr value 8) 0xFF)).

(** src/src/wire/xgl_serialize.c:32-43: xgl_deserialize_u16_le *)
Definition xgl_deserialize_u16_le (buffer : bytes) (off : Z) : M Z :=
  let value := 0 in
  b0 ← rd buffer off;
  let value := u16 (Z.lor value b0) in
  b1 ← rd buffer (off + 1);
  let value := u16 (Z.lor value (Z.shiftl b1 8)) in
  ret value.

(** src/src/wire/xgl_serialize.c:53-63: xgl_serialize_u32_le *)
Definition xgl_serialize_u32_le (buffer : bytes) (off value : Z) : M bytes :=
  buffer ← wr buffer off (u8 (Z.land value 0xFF));
  buffer ← wr buffer (off + 1) (u8 (Z.land (Z.shiftr value 8) 0xFF));
  buffer ← wr buffer (off + 2) (u8 (Z.land (Z.shiftr value 16) 0xFF));
  wr buffer (off + 3) (u8 (Z.land (Z.shiftr value 24) 0xFF)).

(** src/src/wire/xgl_serialize.c:69-83: xgl_deserialize_u32_le *)
Definition xgl_deserialize_u32_le (buffer : bytes) (off : Z) : M Z :=
  let value := 0 in
  b0 ← rd buffer off;
  let value := u32 (Z.lor value b0) in
  b1 ← rd buffer (off + 1);
  let value := u32 (Z.lor value (u32 (Z.shiftl b1 8))) in
  b2 ← rd buffer (off + 2);
  let value := u32 (Z.lor value (u32 (Z.shiftl b2 16))) in
  b3 ← rd buffer (off + 3);
  let value := u32 (Z.lor value (u32 (Z.shiftl b3 24))) in
  ret value.

(** The entry points: a NULL buffer is left alone, and reads as 0. *)
(** src/src/wire/xgl_serialize.c:18-26: xgl_serialize_u16_le *)
Definition xgl_serialize_u16_le_p (buffer : ptr bytes) (value : Z) : M (ptr bytes) :=
  at_ptr (Some NULL) (fun b => Ptr <$> xgl_serialize_u16_le b 0 value) buffer.
(** src/src/wire/xgl_serialize.c:32-43: xgl_deserialize_u16_le *)
Definition xgl_deserialize_u16_le_p (buffer : ptr bytes) : M Z :=
  at_ptr (Some 0) (fun b => xgl_deserialize_u16_le b 0) buffer.
(** src/src/wire/xgl_serialize.c:53-63: xgl_serialize_u32_le *)
Definition xgl_serialize_u32_le_p (buffer : ptr bytes) (value : Z) : M (ptr bytes) :=
  at_ptr (Some NULL) (fun b => Ptr <$> xgl_serialize_u32_le b 0 value) buffer.
(** src/src/wire/xgl_serialize.c:69-83: xgl_deserialize_u32_le *)
Definition xgl_deserialize_u32_le_p (buffer : ptr bytes) : M Z :=
  at_ptr (Some 0) (fun b => xgl_deserialize_u32_le b 0) buffer.

(** ** The reference encoding is a bijection *)
Lemma le_bytes_length n v : length (le_bytes n v) = n.
Proof. revert v. induction n; intros; cbn; auto. Qed.
Lemma le_bytes_zlen n v : zlen (le_bytes n v) = Z.of_nat n.
Proof. unfold zlen. by rewrite le_bytes_length. Qed.
Lemma le_bytes_ok n v : bytes_ok (le_bytes n v).
Proof.
  revert v. induction n; intros; cbn; constructor; [|done].
  apply Z.mod_pos_bound. lia.
Qed.
Lemma le_value_bound bs : bytes_ok bs -> 0 <= le_value bs < 256 ^ zlen bs.
Proof.
  induction 1 as [|b bs Hb _ IH]; [change (zlen (@nil Z)) with 0; cbn; lia|].
  rewrite zlen_cons, Z.pow_add_r by (pose proof (zlen_nonneg bs); lia). change (256 ^ 1) with 256. cbn [le_value]. lia.
Qed.
Lemma le_value_le_bytes n v : le_value (le_bytes n v) = v mod 256 ^ Z.of_nat n.
Proof.
  revert v. induction n as [|n IH]; intros v.
  { change (256 ^ Z.of_nat 0) with 1. rewrite Z.mod_1_r. done. }
  cbn [le_bytes le_value]. rewrite IH, Nat2Z.inj_succ, Z.pow_succ_r by lia.
  symmetry. rewrite Z.add_comm. rewrite Z.rem_mul_r by (try lia; apply Z.pow_pos_nonneg; lia). lia.
Qed.
Lemma le_value_le_bytes_small n v :
  0 <= v < 256 ^ Z.of_nat n -> le_value (le_bytes n v) = v.
Proof. intros. rewrite le_value_le_bytes. by apply Z.mod_small. Qed.
Lemma le_value_u16 v : 0 <= v < 65536 -> le_value (le_bytes 2 v) = v.
Proof. by apply (le_value_le_bytes_small 2). Qed.
Lemma le_value_u32 v : 0 <= v < 4294967296 -> le_value (le_bytes 4 v) = v.
Proof. by apply (le_value_le_bytes_small 4). Qed.
Lemma le_value_u64 v : 0 <= v < 18446744073709551616 -> le_value (le_bytes 8 v) = v.
Proof. by apply (le_value_le_bytes_small 8). Qed.
Lemma le_bytes_le_value bs : bytes_ok bs -> le_bytes (length bs) (le_value bs) = bs.
Proof.
  induction 1 as [|b bs Hb Hbs IH]; [done|]. cbn [length le_value le_bytes].
  rewrite (Z.mul_comm 256), Z.mod_add, Z.mod_small, Z.div_add, Z.div_small by lia.
  rewrite Z.add_0_l. by rewrite IH.
Qed.
#[export] Hint Resolve le_bytes_ok : xgl.
#[export] Hint Rewrite le_bytes_zlen : zlen.

(** ** Writing and reading byte by byte is writing and reading a block *)
Lemma wr_bytes_cons (buf : bytes) off x l :
  wr_bytes buf off (x :: l) = (b ← wr buf off x; wr_bytes b (off + 1) l).
Proof.
  destruct (decide (0 <= off < zlen buf)) as [Hin|Hout].
  - rewrite (wr_Some buf off x Hin). cbn. unfold wr_bytes.
    rewrite zlen_insert, zlen_cons.
    replace (off + (1 + zlen l)) with (off + 1 + zlen l) by lia.
    replace (0 <=? off + 1) with (0 <=? off) by lia.
    case_if; [|done]. f_equal.
    replace (Z.to_nat (off + 1)) with (S (Z.to_nat off)) by lia. unfold zlen in *.
    rewrite (take_S_r _ _ x) by (apply list_lookup_insert_eq; lia).
    rewrite take_insert_ge, <- app_assoc by lia. cbn. do 3 f_equal.
    rewrite drop_insert_lt; [done|lia].
  - unfold wr. replace ((0 <=? off) && (off <? zlen buf)) with false by lia. cbn.
    unfold wr_bytes. rewrite zlen_cons. pose proof (zlen_nonneg l).
    by replace (_ && _) with false by lia.
Qed.
Lemma wr_bytes_singleton (buf : bytes) off x : wr_bytes buf off [x] = wr buf off x.
Proof.
  rewrite wr_bytes_cons. destruct (wr buf off x) as [b|] eqn:E; [|done]. cbn.
  apply wr_inv in E as [Hb ->].
  rewrite wr_bytes_Some by (rewrite ?zlen_insert, ?zlen_nil; lia). f_equal.
  rewrite zlen_nil, Z.add_0_r. apply take_drop.
Qed.
(** Filling a buffer from left to right: [filled] has been written, [free] is
    still to be overwritten. *)
Lemma wr_bytes_next (filled free rest src : bytes) off :
  off = zlen filled -> (length src <= length free)%nat ->
  wr_bytes (filled ++ free ++ rest) off src =
    Some ((filled ++ src) ++ drop (length src) free ++ rest).
Proof.
  intros -> Hl. rewrite <- (take_drop (length src) free) at 1. rewrite <- !app_assoc.
  apply wr_bytes_app. rewrite length_take. lia.
Qed.
Lemma rd_bytes_0 (buf : bytes) off :
  rd_bytes buf off 0 = if (0 <=? off) && (off <=? zlen buf) then Some [] else None.
Proof. unfold rd_bytes. rewrite Z.add_0_r. cbn. by rewrite andb_true_r. Qed.
Lemma rd_bytes_cons (buf : bytes) off n :
  0 <= n ->
  rd_bytes buf off (1 + n) = (x ← rd buf off; l ← rd_bytes buf (off + 1) n; ret (x :: l)).
Proof.
  intros Hn. destruct (decide (0 <= off < zlen buf)) as [Hin|Hout].
  - destruct (rd_is_Some buf off Hin) as [x Hx]. rewrite Hx. cbn.
    rewrite rd_lookup in Hx by lia. unfold rd_bytes.
    replace (off + 1 + n) with (off + (1 + n)) by lia.
    replace (_ && _) with (off + (1 + n) <=? zlen buf) by lia.
    replace (_ && _ && _) with (off + (1 + n) <=? zlen buf) by lia.
    case_if; [|done]. cbn. f_equal.
    rewrite !Z2Nat.inj_add by lia. change (Z.to_nat 1) with 1%nat.
    rewrite (drop_S _ _ _ Hx). cbn. by rewrite Nat.add_1_r.
  - unfold rd. destruct (0 <=? off) eqn:E0; unfold rd_bytes.
    + replace (_ && _) with false by lia.
      rewrite (proj2 (lookup_ge_None _ _)); [done|]. unfold zlen in *. lia.
    + by rewrite E0.
Qed.

Lemma shiftr_byte v k : 0 <= k -> u8 (Z.land (Z.shiftr v k) 0xFF) = v / 2 ^ k mod 256.
Proof. intros. rewrite land_255, shiftr_div by done. apply u8_small. apply Z.mod_pos_bound. lia. Qed.

Lemma serialize_u16_le_spec buf off v :
  xgl_serialize_u16_le buf off v = wr_bytes buf off (le_bytes 2 v).
Proof.
  unfold xgl_serialize_u16_le. cbn [le_bytes]. rewrite wr_bytes_cons.
  rewrite (land_255 v), shiftr_byte, (u8_small (v mod 256)) by zlia. destruct (wr _ _ _); [cbn|done].
  by rewrite wr_bytes_singleton.
Qed.
Lemma serialize_u32_le_spec buf off v :
  xgl_serialize_u32_le buf off v = wr_bytes buf off (le_bytes 4 v).
Proof.
  unfold xgl_serialize_u32_le. cbn [le_bytes]. rewrite !Z.div_div by lia.
  rewrite wr_bytes_cons, (land_255 v), !shiftr_byte, (u8_small (v mod 256)) by zlia.
  destruct (wr buf _ _) as [b1|]; [cbn|done]. rewrite wr_bytes_cons.
  destruct (wr b1 _ _) as [b2|]; [cbn|done]. rewrite wr_bytes_cons.
  replace (off + 1 + 1) with (off + 2) by lia.
  destruct (wr b2 _ _) as [b3|]; [cbn|done]. rewrite wr_bytes_singleton.
  by replace (off + 2 + 1) with (off + 3) by lia.
Qed.

(** [|=] on disjoint bit ranges is addition. *)
Lemma lor_byte a b n :
  0 <= n -> 0 <= a < 2 ^ n -> Z.lor a (Z.shiftl b n) = a + b * 2 ^ n.
Proof. apply lor_shiftl_add. Qed.

Lemma deserialize_u16_le_spec buf off :
  bytes_ok buf ->
  xgl_deserialize_u16_le buf off = le_value <$> rd_bytes buf off 2.
Proof.
  intros Hok. change 2 with (1 + (1 + 0)). rewrite !rd_bytes_cons, rd_bytes_0 by lia.
  unfold xgl_deserialize_u16_le.
  destruct (rd buf off) as [b0|] eqn:E0; [cbn|done].
  destruct (rd buf (off + 1)) as [b1|] eqn:E1; [cbn|done].
  pose proof (rd_Some_inv _ _ _ E1). replace (_ && _) with true by lia. cbn. f_equal.
  pose proof (bytes_ok_rd _ _ _ E0 Hok). pose proof (bytes_ok_rd _ _ _ E1 Hok).
  rewrite Z.lor_0_l. rewrite (u16_small b0), lor_shiftl_add by lia. rewrite u16_small by lia. lia.
Qed.
Lemma deserialize_u32_le_spec buf off :
  bytes_ok buf ->
  xgl_deserialize_u32_le buf off = le_value <$> rd_bytes buf off 4.
Proof.
  intros Hok. change 4 with (1 + (1 + (1 + (1 + 0)))).
  rewrite !rd_bytes_cons, rd_bytes_0 by lia.
  replace (off + 1 + 1) with (off + 2) by lia. replace (off + 2 + 1) with (off + 3) by lia.
  unfold xgl_deserialize_u32_le.
  destruct (rd buf off) as [b0|] eqn:E0; [cbn|done].
  destruct (rd buf (off + 1)) as [b1|] eqn:E1; [cbn|done].
  destruct (rd buf (off + 2)) as [b2|] eqn:E2; [cbn|done].
  destruct (rd buf (off + 3)) as [b3|] eqn:E3; [cbn|done].
  pose proof (rd_Some_inv _ _ _ E3). replace (_ && _) with true by lia. cbn. f_equal.
  pose proof (bytes_ok_rd _ _ _ E0 Hok). pose proof (bytes_ok_rd _ _ _ E1 Hok).
  pose proof (bytes_ok_rd _ _ _ E2 Hok). pose proof (bytes_ok_rd _ _ _ E3 Hok).
  rewrite Z.lor_0_l, (u32_small b0) by lia.
  rewrite (u32_small (Z.shiftl b1 8)), (u32_small (Z.shiftl b2 16)), (u32_small (Z.shiftl b3 24))
    by (rewrite Z.shiftl_mul_pow2; lia).
  rewrite (lor_shiftl_add b0) by lia. rewrite (u32_small (b0 + _)) by lia.
  rewrite (lor_shiftl_add _ b2) by lia. rewrite (u32_small (_ + b2 * _)) by lia.
  rewrite (lor_shiftl_add _ b3) by lia. rewrite u32_small by lia. lia.
Qed.

(** What the wire components use: a field written into the middle of a buffer
    is read back, and nothing else changes. *)
Lemma read_back buf off n v buf' :
  wr_bytes buf off (le_bytes n v) = Some buf' ->
  rd_bytes buf' off (Z.of_nat n) = Some (le_bytes n v).
Proof.
  intros (Hoff & Hfit & ->)%wr_bytes_inv.
  rewrite le_bytes_zlen in Hfit.
  pose proof (rd_bytes_app (take (Z.to_nat off) buf) (le_bytes n v)
    (drop (Z.to_nat (off + zlen (le_bytes n v))) buf)) as Hrd.
  rewrite zlen_take in Hrd by lia. rewrite !le_bytes_zlen in Hrd. by rewrite le_bytes_zlen.
Qed.

(** One step of a left-to-right encoder. *)
Ltac fill_next :=
  first [ rewrite serialize_u16_le_spec | rewrite serialize_u32_le_spec
        | rewrite <- wr_bytes_singleton ];
  rewrite wr_bytes_next by (reflexivity || (cbn; lia));
  cbn [mbind option_bind].
