(* ===== verification/Crc.v ===== *)
(** * CRC8 (MAXIM) and CRC16 (MODBUS) (src/wire/xgl_crc.c)

    The table-driven routines, proved equal to the bitwise polynomial division
    they stand for ([crc_bit]), and the error detection that the frame formats
    rely on: any corruption confined to two consecutive bytes changes the
    CRC16, and a message followed by its own CRC16 has residue 0. *)
From S2P Require Import Prelude Serialize.

(** ** The code *)

(** src/src/wire/xgl_crc.c:20-53: crc8_maxim_table *)
Definition crc8_maxim_table : list Z := [
  0x00; 0x5E; 0xBC; 0xE2; 0x61; 0x3F; 0xDD; 0x83;
  0xC2; 0x9C; 0x7E; 0x20; 0xA3; 0xFD; 0x1F; 0x41;
  0x9D; 0xC3; 0x21; 0x7F; 0xFC; 0xA2; 0x40; 0x1E;
  0x5F; 0x01; 0xE3; 0xBD; 0x3E; 0x60; 0x82; 0xDC;
  0x23; 0x7D; 0x9F; 0xC1; 0x42; 0x1C; 0xFE; 0xA0;
  0xE1; 0xBF; 0x5D; 0x03; 0x80; 0xDE; 0x3C; 0x62;
  0xBE; 0xE0; 0x02; 0x5C; 0xDF; 0x81; 0x63; 0x3D;
  0x7C; 0x22; 0xC0; 0x9E; 0x1D; 0x43; 0xA1; 0xFF;
  0x46; 0x18; 0xFA; 0xA4; 0x27; 0x79; 0x9B; 0xC5;
  0x84; 0xDA; 0x38; 0x66; 0xE5; 0xBB; 0x59; 0x07;
  0xDB; 0x85; 0x67; 0x39; 0xBA; 0xE4; 0x06; 0x58;
  0x19; 0x47; 0xA5; 0xFB; 0x78; 0x26; 0xC4; 0x9A;
  0x65; 0x3B; 0xD9; 0x87; 0x04; 0x5A; 0xB8; 0xE6;
  0xA7; 0xF9; 0x1B; 0x45; 0xC6; 0x98; 0x7A; 0x24;
  0xF8; 0xA6; 0x44; 0x1A; 0x99; 0xC7; 0x25; 0x7B;
  0x3A; 0x64; 0x86; 0xD8; 0x5B; 0x05; 0xE7; 0xB9;
  0x8C; 0xD2; 0x30; 0x6E; 0xED; 0xB3; 0x51; 0x0F;
  0x4E; 0x10; 0xF2; 0xAC; 0x2F; 0x71; 0x93; 0xCD;
  0x11; 0x4F; 0xAD; 0xF3; 0x70; 0x2E; 0xCC; 0x92;
  0xD3; 0x8D; 0x6F; 0x31; 0xB2; 0xEC; 0x0E; 0x50;
  0xAF; 0xF1; 0x13; 0x4D; 0xCE; 0x90; 0x72; 0x2C;
  0x6D; 0x33; 0xD1; 0x8F; 0x0C; 0x52; 0xB0; 0xEE;
  0x32; 0x6C; 0x8E; 0xD0; 0x53; 0x0D; 0xEF; 0xB1;
  0xF0; 0xAE; 0x4C; 0x12; 0x91; 0xCF; 0x2D; 0x73;
  0xCA; 0x94; 0x76; 0x28; 0xAB; 0xF5; 0x17; 0x49;
  0x08; 0x56; 0xB4; 0xEA; 0x69; 0x37; 0xD5; 0x8B;
  0x57; 0x09; 0xEB; 0xB5; 0x36; 0x68; 0x8A; 0xD4;
  0x95; 0xCB; 0x29; 0x77; 0xF4; 0xAA; 0x48; 0x16;
  0xE9; 0xB7; 0x55; 0x0B; 0x88; 0xD6; 0x34; 0x6A;
  0x2B; 0x75; 0x97; 0xC9; 0x4A; 0x14; 0xF6; 0xA8;
  0x74; 0x2A; 0xC8; 0x96; 0x15; 0x4B; 0xA9; 0xF7;
  0xB6; 0xE8; 0x0A; 0x54; 0xD7; 0x89; 0x6B; 0x35
].

(** src/src/wire/xgl_crc.c:64-97: crc16_modbus_table *)
Definition crc16_modbus_table : list Z := [
  0x0000; 0xC0C1; 0xC181; 0x0140; 0xC301; 0x03C0; 0x0280; 0xC241;
  0xC601; 0x06C0; 0x0780; 0xC741; 0x0500; 0xC5C1; 0xC481; 0x0440;
  0xCC01; 0x0CC0; 0x0D80; 0xCD41; 0x0F00; 0xCFC1; 0xCE81; 0x0E40;
  0x0A00; 0xCAC1; 0xCB81; 0x0B40; 0xC901; 0x09C0; 0x0880; 0xC841;
  0xD801; 0x18C0; 0x1980; 0xD941; 0x1B00; 0xDBC1; 0xDA81; 0x1A40;
  0x1E00; 0xDEC1; 0xDF81; 0x1F40; 0xDD01; 0x1DC0; 0x1C80; 0xDC41;
  0x1400; 0xD4C1; 0xD581; 0x1540; 0xD701; 0x17C0; 0x1680; 0xD641;
  0xD201; 0x12C0; 0x1380; 0xD341; 0x1100; 0xD1C1; 0xD081; 0x1040;
  0xF001; 0x30C0; 0x3180; 0xF141; 0x3300; 0xF3C1; 0xF281; 0x3240;
  0x3600; 0xF6C1; 0xF781; 0x3740; 0xF501; 0x35C0; 0x3480; 0xF441;
  0x3C00; 0xFCC1; 0xFD81; 0x3D40; 0xFF01; 0x3FC0; 0x3E80; 0xFE41;
  0xFA01; 0x3AC0; 0x3B80; 0xFB41; 0x3900; 0xF9C1; 0xF881; 0x3840;
  0x2800; 0xE8C1; 0xE981; 0x2940; 0xEB01; 0x2BC0; 0x2A80; 0xEA41;
  0xEE01; 0x2EC0; 0x2F80; 0xEF41; 0x2D00; 0xEDC1; 0xEC81; 0x2C40;
  0xE401; 0x24C0; 0x2580; 0xE541; 0x2700; 0xE7C1; 0xE681; 0x2640;
  0x2200; 0xE2C1; 0xE381; 0x2340; 0xE101; 0x21C0; 0x2080; 0xE041;
  0xA001; 0x60C0; 0x6180; 0xA141; 0x6300; 0xA3C1; 0xA281; 0x6240;
  0x6600; 0xA6C1; 0xA781; 0x6740; 0xA501; 0x65C0; 0x6480; 0xA441;
  0x6C00; 0xACC1; 0xAD81; 0x6D40; 0xAF01; 0x6FC0; 0x6E80; 0xAE41;
  0xAA01; 0x6AC0; 0x6B80; 0xAB41; 0x6900; 0xA9C1; 0xA881; 0x6840;
  0x7800; 0xB8C1; 0xB981; 0x7940; 0xBB01; 0x7BC0; 0x7A80; 0xBA41;
  0xBE01; 0x7EC0; 0x7F80; 0xBF41; 0x7D00; 0xBDC1; 0xBC81; 0x7C40;
  0xB401; 0x74C0; 0x7580; 0xB541; 0x7700; 0xB7C1; 0xB681; 0x7640;
  0x7200; 0xB2C1; 0xB381; 0x7340; 0xB101; 0x71C0; 0x7080; 0xB041;
  0x5000; 0x90C1; 0x9181; 0x5140; 0x9301; 0x53C0; 0x5280; 0x9241;
  0x9601; 0x56C0; 0x5780; 0x9741; 0x5500; 0x95C1; 0x9481; 0x5440;
  0x9C01; 0x5CC0; 0x5D80; 0x9D41; 0x5F00; 0x9FC1; 0x9E81; 0x5E40;
  0x5A00; 0x9AC1; 0x9B81; 0x5B40; 0x9901; 0x59C0; 0x5880; 0x9841;
  0x8801; 0x48C0; 0x4980; 0x8941; 0x4B00; 0x8BC1; 0x8A81; 0x4A40;
  0x4E00; 0x8EC1; 0x8F81; 0x4F40; 0x8D01; 0x4DC0; 0x4C80; 0x8C41;
  0x4400; 0x84C1; 0x8581; 0x4540; 0x8701; 0x47C0; 0x4680; 0x8641;
  0x8201; 0x42C0; 0x4380; 0x8341; 0x4100; 0x81C1; 0x8081; 0x4040
].

(** The loop of the update functions, [n] bytes from [data[i]] on. *)
(** src/src/wire/xgl_crc.c:118-122: xgl_crc8_maxim_update *)
Fixpoint crc8_loop (n : nat) (crc : Z) (data : bytes) (i : Z) : M Z :=
  match n with
  | O => ret crc
  | S n =>
      d ← rd data i;
      crc ← rd crc8_maxim_table (Z.lxor crc d);
      crc8_loop n crc data (i + 1)
  end.

(** src/src/wire/xgl_crc.c:113-123: xgl_crc8_maxim_update *)
Definition xgl_crc8_maxim_update (crc : Z) (data : ptr bytes) (off len : Z) : M Z :=
  match data with
  | NULL => ret crc
  | Ptr data => crc8_loop (Z.to_nat len) crc data off
  end.

(** src/src/wire/xgl_crc.c:106-108: xgl_crc8_maxim *)
Definition xgl_crc8_maxim (data : ptr bytes) (off len : Z) : M Z :=
  xgl_crc8_maxim_update 0x00 data off len.

(** src/src/wire/xgl_crc.c:144-149: xgl_crc16_modbus_update *)
Fixpoint crc16_loop (n : nat) (crc : Z) (data : bytes) (i : Z) : M Z :=
  match n with
  | O => ret crc
  | S n =>
      d ← rd data i;
      let index := u8 (Z.lxor crc d) in
      t ← rd crc16_modbus_table index;
      let crc := Z.lxor (Z.shiftr crc 8) t in
      crc16_loop n crc data (i + 1)
  end.

(** src/src/wire/xgl_crc.c:139-150: xgl_crc16_modbus_update *)
Definition xgl_crc16_modbus_update (crc : Z) (data : ptr bytes) (off len : Z) : M Z :=
  match data with
  | NULL => ret crc
  | Ptr data => crc16_loop (Z.to_nat len) crc data off
  end.

(** src/src/wire/xgl_crc.c:132-134: xgl_crc16_modbus *)
Definition xgl_crc16_modbus (data : ptr bytes) (off len : Z) : M Z :=
  xgl_crc16_modbus_update 0xFFFF data off len.

(** ** Reference: bitwise division by the (reflected) polynomial *)
Definition crc_bit (poly x : Z) : Z :=
  if Z.odd x then Z.lxor (Z.shiftr x 1) poly else Z.shiftr x 1.
Definition crc_byte (poly crc b : Z) : Z := Nat.iter 8 (crc_bit poly) (Z.lxor crc b).
Definition crc_ref (poly init : Z) (data : bytes) : Z := fold_left (crc_byte poly) data init.
(** 0x31 and 0x8005 with their bits reversed *)
Definition MAXIM_POLY : Z := 0x8C.
Definition MODBUS_POLY : Z := 0xA001.
Definition crc16 : Z -> bytes -> Z := crc_ref MODBUS_POLY.

Lemma crc_bit_lxor poly a b :
  crc_bit poly (Z.lxor a b) = Z.lxor (crc_bit poly a) (crc_bit poly b).
Proof.
  unfold crc_bit. rewrite <- !Z.bit0_odd, Z.lxor_spec, Z.shiftr_lxor.
  destruct (Z.testbit a 0), (Z.testbit b 0); cbn [xorb].
  - rewrite (Z.lxor_comm (Z.shiftr b 1)), Z.lxor_assoc, <- (Z.lxor_assoc poly).
    by rewrite Z.lxor_nilpotent, Z.lxor_0_l.
  - by rewrite !Z.lxor_assoc, (Z.lxor_comm poly).
  - by rewrite Z.lxor_assoc.
  - done.
Qed.
Lemma iter_crc_bit_lxor poly n a b :
  Nat.iter n (crc_bit poly) (Z.lxor a b) =
  Z.lxor (Nat.iter n (crc_bit poly) a) (Nat.iter n (crc_bit poly) b).
Proof. induction n as [|n IH]; [done|]. by rewrite !Nat.iter_succ, IH, crc_bit_lxor. Qed.
Lemma crc_bit_shiftl poly h k :
  0 <= k -> crc_bit poly (Z.shiftl h (k + 1)) = Z.shiftl h k.
Proof.
  intros. unfold crc_bit. rewrite <- Z.bit0_odd, Z.shiftl_spec_low by lia.
  rewrite Z.shiftr_shiftl_l by lia. f_equal. lia.
Qed.
Lemma iter_crc_bit_shiftl poly n h :
  Nat.iter n (crc_bit poly) (Z.shiftl h (Z.of_nat n)) = h.
Proof.
  induction n as [|n IH]; [apply Z.shiftl_0_r|].
  rewrite Nat.iter_succ_r, Nat2Z.inj_succ, <- Z.add_1_r, crc_bit_shiftl by lia. done.
Qed.

Lemma split_byte x : x = Z.lxor (x mod 256) (Z.shiftl (Z.shiftr x 8) 8).
Proof.
  change 256 with (2 ^ 8). rewrite <- Z.land_ones by lia.
  apply Z.bits_inj'. intros i Hi. rewrite Z.lxor_spec, Z.land_spec, Z.shiftl_spec by lia.
  destruct (decide (i < 8)).
  - rewrite Z.ones_spec_low, (Z.testbit_neg_r _ (i - 8)) by lia.
    by rewrite andb_true_r, xorb_false_r.
  - rewrite Z.ones_spec_high, Z.shiftr_spec by lia.
    rewrite andb_false_r, xorb_false_l. f_equal. lia.
Qed.

Lemma iter8_split poly x :
  Nat.iter 8 (crc_bit poly) x =
  Z.lxor (Nat.iter 8 (crc_bit poly) (x mod 256)) (Z.shiftr x 8).
Proof.
  rewrite (split_byte x) at 1. rewrite iter_crc_bit_lxor. f_equal.
  apply (iter_crc_bit_shiftl poly 8).
Qed.

(** The tables hold the remainder of every byte. *)
Definition table_matches (poly : Z) (table : list Z) : bool :=
  forallb (fun n => match table !! n with
                    | Some t => t =? Nat.iter 8 (crc_bit poly) (Z.of_nat n)
                    | None => false
                    end) (seq 0 256).
Lemma table_matches_rd poly table i :
  table_matches poly table = true -> 0 <= i < 256 ->
  rd table i = Some (Nat.iter 8 (crc_bit poly) i).
Proof.
  unfold table_matches. rewrite forallb_forall. intros Ht Hi.
  specialize (Ht (Z.to_nat i)). rewrite in_seq in Ht. specialize (Ht ltac:(lia)).
  rewrite rd_lookup by lia. destruct (table !! _) as [t|]; [|done].
  rewrite Z2Nat.id in Ht by lia. f_equal. lia.
Qed.
Lemma crc8_table_correct : table_matches MAXIM_POLY crc8_maxim_table = true.
Proof. vm_compute. done. Qed.
Lemma crc16_table_correct : table_matches MODBUS_POLY crc16_modbus_table = true.
Proof. vm_compute. done. Qed.

(** ** The code computes the reference *)
Lemma crc_bit_bound poly n x :
  1 <= n -> 0 <= poly < 2 ^ n -> 0 <= x < 2 ^ n -> 0 <= crc_bit poly x < 2 ^ n.
Proof.
  intros Hn Hp Hx. unfold crc_bit. rewrite shiftr_div by lia. change (2 ^ 1) with 2.
  assert (0 <= x / 2 < 2 ^ n) by (split; [apply Z.div_pos; lia|]; apply Z.div_lt_upper_bound; lia).
  case_if; [apply lxor_bound; lia|done].
Qed.
Lemma iter_crc_bit_bound poly n k x :
  1 <= n -> 0 <= poly < 2 ^ n -> 0 <= x < 2 ^ n -> 0 <= Nat.iter k (crc_bit poly) x < 2 ^ n.
Proof. intros. induction k; [done|]. rewrite Nat.iter_succ. by apply crc_bit_bound. Qed.
Lemma crc_byte_bound poly n crc b :
  8 <= n -> 0 <= poly < 2 ^ n -> 0 <= crc < 2 ^ n -> 0 <= b < 256 ->
  0 <= crc_byte poly crc b < 2 ^ n.
Proof.
  intros. apply iter_crc_bit_bound; [lia|done|]. apply lxor_bound; [lia|done|].
  split; [lia|]. apply Z.lt_le_trans with (2 ^ 8); [lia|]. apply Z.pow_le_mono_r; lia.
Qed.
Lemma crc_ref_bound poly n init data :
  8 <= n -> 0 <= poly < 2 ^ n -> 0 <= init < 2 ^ n -> bytes_ok data ->
  0 <= crc_ref poly init data < 2 ^ n.
Proof.
  intros Hn Hp Hi Hd. revert init Hi. induction Hd as [|b data Hb _ IH]; intros init Hi; [done|].
  cbn. apply IH. by apply crc_byte_bound.
Qed.
Lemma crc16_range init data :
  0 <= init < 65536 -> bytes_ok data -> 0 <= crc16 init data < 65536.
Proof. intros. by apply (crc_ref_bound MODBUS_POLY 16). Qed.
Lemma crc_ref_app poly init d1 d2 :
  crc_ref poly init (d1 ++ d2) = crc_ref poly (crc_ref poly init d1) d2.
Proof. apply fold_left_app. Qed.

Lemma crc16_app c d1 d2 : crc16 c (d1 ++ d2) = crc16 (crc16 c d1) d2.
Proof. apply crc_ref_app. Qed.

Lemma crc16_step crc b :
  0 <= crc < 65536 -> 0 <= b < 256 ->
  (t ← rd crc16_modbus_table (u8 (Z.lxor crc b)); ret (Z.lxor (Z.shiftr crc 8) t)) =
  Some (crc_byte MODBUS_POLY crc b).
Proof.
  intros Hc Hb. rewrite (table_matches_rd MODBUS_POLY) by (apply crc16_table_correct || apply u8_range).
  cbn [mbind option_bind]. f_equal. unfold crc_byte. rewrite (iter8_split _ (Z.lxor crc b)), Z.shiftr_lxor.
  rewrite (shiftr_div b), (Z.div_small b), Z.lxor_0_r by lia. apply Z.lxor_comm.
Qed.

(** The loop over [len] bytes at [off] is the reference on these bytes. *)
Lemma crc16_loop_spec n crc data i :
  0 <= crc < 65536 -> bytes_ok data -> 0 <= i -> i + Z.of_nat n <= zlen data ->
  crc16_loop n crc data i = Some (crc16 crc (take n (drop (Z.to_nat i) data))).
Proof.
  intros Hc Hd. revert crc i Hc. induction n as [|n IH]; intros crc i Hc Hi Hn; [done|].
  cbn [crc16_loop].
  destruct (rd_is_Some data i ltac:(lia)) as [d Hrd]. rewrite Hrd. cbn [mbind option_bind].
  pose proof (bytes_ok_rd _ _ _ Hrd Hd) as Hdb.
  pose proof (crc16_step crc d Hc Hdb) as Hstep.
  destruct (rd crc16_modbus_table _) as [t|]; [|done]. cbn in Hstep |- *.
  injection Hstep as Hstep. rewrite Hstep. rewrite rd_lookup in Hrd by lia.
  rewrite IH by (try lia; by apply (crc_byte_bound _ 16)).
  rewrite (drop_S _ _ _ Hrd).
  replace (Z.to_nat (i + 1)) with (S (Z.to_nat i)) by lia. done.
Qed.

Lemma crc16_modbus_update_spec crc data off len :
  0 <= crc < 65536 -> bytes_ok data -> 0 <= off -> 0 <= len -> off + len <= zlen data ->
  xgl_crc16_modbus_update crc (Ptr data) off len =
    Some (crc16 crc (take (Z.to_nat len) (drop (Z.to_nat off) data))).
Proof. intros. apply crc16_loop_spec; try done. lia. Qed.
Lemma crc16_modbus_spec data off len :
  bytes_ok data -> 0 <= off -> 0 <= len -> off + len <= zlen data ->
  xgl_crc16_modbus (Ptr data) off len =
    Some (crc16 0xFFFF (take (Z.to_nat len) (drop (Z.to_nat off) data))).
Proof. intros. by apply crc16_modbus_update_spec. Qed.

Lemma crc8_step crc b :
  0 <= crc < 256 -> 0 <= b < 256 ->
  rd crc8_maxim_table (Z.lxor crc b) = Some (crc_byte MAXIM_POLY crc b).
Proof.
  intros. apply table_matches_rd; [apply crc8_table_correct|]. by apply (lxor_bound _ _ 8).
Qed.
Lemma crc8_loop_spec n crc data i :
  0 <= crc < 256 -> bytes_ok data -> 0 <= i -> i + Z.of_nat n <= zlen data ->
  crc8_loop n crc data i = Some (crc_ref MAXIM_POLY crc (take n (drop (Z.to_nat i) data))).
Proof.
  intros Hc Hd. revert crc i Hc. induction n as [|n IH]; intros crc i Hc Hi Hn; [done|].
  cbn [crc8_loop].
  destruct (rd_is_Some data i ltac:(lia)) as [d Hrd]. rewrite Hrd. cbn [mbind option_bind].
  pose proof (bytes_ok_rd _ _ _ Hrd Hd) as Hdb. rewrite crc8_step by done.
  cbn [mbind option_bind]. rewrite rd_lookup in Hrd by lia.
  rewrite IH by (try lia; by apply (crc_byte_bound _ 8)).
  rewrite (drop_S _ _ _ Hrd).
  replace (Z.to_nat (i + 1)) with (S (Z.to_nat i)) by lia. done.
Qed.
Lemma crc8_maxim_update_spec crc data off len :
  0 <= crc < 256 -> bytes_ok data -> 0 <= off -> 0 <= len -> off + len <= zlen data ->
  xgl_crc8_maxim_update crc (Ptr data) off len =
    Some (crc_ref MAXIM_POLY crc (take (Z.to_nat len) (drop (Z.to_nat off) data))).
Proof. intros. apply crc8_loop_spec; try done. lia. Qed.

(** ** Error detection *)
Lemma crc_bit_inj_0 z : 0 <= z < 65536 -> crc_bit MODBUS_POLY z = 0 -> z = 0.
Proof.
  unfold crc_bit, MODBUS_POLY. rewrite shiftr_div by lia. change (2 ^ 1) with 2. intros Hz.
  destruct (Z.odd z) eqn:Ho; rewrite Zodd_mod in Ho || rewrite Zodd_mod in Ho.
  - intros Hx%Z.lxor_eq. zlia.
  - assert (z mod 2 = 0) by (pose proof (Z.mod_pos_bound z 2); lia). intros. zlia.
Qed.
Lemma iter_crc_bit_inj n x y :
  0 <= x < 65536 -> 0 <= y < 65536 ->
  Nat.iter n (crc_bit MODBUS_POLY) x = Nat.iter n (crc_bit MODBUS_POLY) y -> x = y.
Proof.
  intros Hx Hy Heq. apply Z.lxor_eq.
  assert (0 <= Z.lxor x y < 65536) as Hb by (by apply (lxor_bound _ _ 16)).
  assert (Nat.iter n (crc_bit MODBUS_POLY) (Z.lxor x y) = 0) as H0
    by (rewrite iter_crc_bit_lxor, Heq; apply Z.lxor_nilpotent).
  clear Heq. induction n as [|n IH]; [done|]. rewrite Nat.iter_succ in H0. apply IH, crc_bit_inj_0; [|done].
  by apply (iter_crc_bit_bound _ 16).
Qed.
Lemma crc_byte_inj c1 c2 b :
  0 <= c1 < 65536 -> 0 <= c2 < 65536 -> 0 <= b < 256 ->
  crc_byte MODBUS_POLY c1 b = crc_byte MODBUS_POLY c2 b -> c1 = c2.
Proof.
  intros H1 H2 Hb Heq. apply iter_crc_bit_inj in Heq; try (apply (lxor_bound _ _ 16); lia).
  apply (f_equal (fun z => Z.lxor z b)) in Heq.
  by rewrite !Z.lxor_assoc, Z.lxor_nilpotent, !Z.lxor_0_r in Heq.
Qed.
Lemma crc16_suffix_inj c1 c2 data :
  0 <= c1 < 65536 -> 0 <= c2 < 65536 -> bytes_ok data ->
  crc16 c1 data = crc16 c2 data -> c1 = c2.
Proof.
  intros H1 H2 Hd. revert c1 c2 H1 H2. induction Hd as [|b data Hb Hd IH]; intros c1 c2 H1 H2; [done|].
  cbn. intros Heq%IH; try (by apply (crc_byte_bound _ 16)). by apply crc_byte_inj in Heq.
Qed.

(** Two bytes at once: the register absorbs them as one 16-bit word. *)
Lemma crc16_pair c a b :
  crc16 c [a; b] =
    Nat.iter 16 (crc_bit MODBUS_POLY) (Z.lxor (Z.lxor c a) (Z.shiftl b 8)).
Proof.
  cbn [crc16 crc_ref fold_left]. unfold crc16, crc_ref. cbn [fold_left]. unfold crc_byte.
  change 16%nat with (8 + 8)%nat. rewrite Nat.iter_add. f_equal.
  rewrite (iter_crc_bit_lxor _ 8 (Z.lxor c a)). f_equal.
  symmetry. apply (iter_crc_bit_shiftl _ 8).
Qed.
Lemma shiftl8_bound b : 0 <= b < 256 -> 0 <= Z.shiftl b 8 < 65536.
Proof. intros. rewrite Z.shiftl_mul_pow2 by lia. lia. Qed.
Lemma crc16_burst_inj c m1 m2 :
  0 <= c < 65536 -> bytes_ok m1 -> bytes_ok m2 -> length m1 = length m2 ->
  (length m1 <= 2)%nat -> crc16 c m1 = crc16 c m2 -> m1 = m2.
Proof.
  intros Hc H1 H2 Hl Hlen Heq.
  destruct m1 as [|a [|b []]], m2 as [|a' [|b' []]]; cbn in Hl, Hlen; try lia; try done.
  - apply Forall_cons in H1 as [H1 _]. apply Forall_cons in H2 as [H2 _].
    apply iter_crc_bit_inj in Heq; try (apply (lxor_bound _ _ 16); lia).
    apply (f_equal (Z.lxor c)) in Heq.
    by rewrite <- !Z.lxor_assoc, Z.lxor_nilpotent, !Z.lxor_0_l in Heq; subst.
  - rewrite !Forall_cons in H1, H2. destruct H1 as (Ha & Hb & _), H2 as (Ha' & Hb' & _).
    rewrite !crc16_pair in Heq.
    apply iter_crc_bit_inj in Heq;
      try (apply (lxor_bound _ _ 16); [lia|apply (lxor_bound _ _ 16); lia|by apply shiftl8_bound]).
    rewrite !Z.lxor_assoc in Heq. apply (f_equal (Z.lxor c)) in Heq.
    rewrite <- !(Z.lxor_assoc c c), Z.lxor_nilpotent, !Z.lxor_0_l in Heq.
    assert (forall p q, 0 <= p < 256 -> Z.lxor p (Z.shiftl q 8) = p + q * 256) as Hadd.
    { intros p q Hp. rewrite (split_byte (p + q * 256)) at 1.
      rewrite Z.mod_add, Z.mod_small, shiftr_div by lia. change (2 ^ 8) with 256.
      by rewrite Z.div_add, Z.div_small, Z.add_0_l by lia. }
    rewrite !Hadd in Heq by done.
    assert (b = b') by lia. assert (a = a') by lia. congruence.
Qed.
Lemma crc16_residue c data :
  0 <= c < 65536 -> bytes_ok data ->
  crc16 c (data ++ le_bytes 2 (crc16 c data)) = 0.
Proof.
  intros Hc Hd. rewrite crc16_app.
  pose proof (crc16_range c data Hc Hd) as Hr. set (r := crc16 c data) in *.
  cbn [le_bytes]. rewrite (Z.mod_small (r / 256)) by zlia.
  rewrite crc16_pair, Z.lxor_assoc, <- shiftr_div with (n := 8) by lia.
  change (2 ^ 8) with 256. rewrite <- split_byte, Z.lxor_nilpotent.
  by apply Nat.iter_invariant; [intros ? ->|].
Qed.

(** ** Properties *)

(** C35. The table-driven CRC routines compute the bitwise polynomial division
    they are named after: on any block inside the data object, CRC16 with
    polynomial 0x8005 (reflected 0xA001) and CRC8 with 0x31 (reflected 0x8C),
    from any starting register, without reading outside the data or tables. *)
Theorem crc_update_is_polynomial_division (crc : Z) (data : bytes) (off len : Z) :
  bytes_ok data -> 0 <= off -> 0 <= len -> off + len <= zlen data ->
  let block := take (Z.to_nat len) (drop (Z.to_nat off) data) in
  (0 <= crc < 65536 ->
   xgl_crc16_modbus_update crc (Ptr data) off len = Some (crc_ref MODBUS_POLY crc block) /\
   0 <= crc_ref MODBUS_POLY crc block < 65536) /\
  (0 <= crc < 256 ->
   xgl_crc8_maxim_update crc (Ptr data) off len = Some (crc_ref MAXIM_POLY crc block) /\
   0 <= crc_ref MAXIM_POLY crc block < 256).
Proof.
  intros Hd Ho Hl Hfit block.
  assert (bytes_ok block) by (unfold block; auto with xgl).
  split; intros Hc; split.
  - by apply crc16_modbus_update_spec.
  - by apply (crc_ref_bound _ 16).
  - by apply crc8_maxim_update_spec.
  - by apply (crc_ref_bound _ 8).
Qed.
Lemma crc_update_is_polynomial_division_witness :
  (* the CRC catalogue's check values on 123456789 *)
  xgl_crc16_modbus (Ptr [49; 50; 51; 52; 53; 54; 55; 56; 57]) 0 9 = Some 0x4B37 /\
  xgl_crc8_maxim (Ptr [49; 50; 51; 52; 53; 54; 55; 56; 57]) 0 9 = Some 0xA1 /\
  xgl_crc16_modbus_update 0xFFFF (Ptr [49; 50; 51]) 1 2 =
    Some (crc_ref MODBUS_POLY 0xFFFF [50; 51]).
Proof.
  split; [vm_compute; reflexivity|]. split; [vm_compute; reflexivity|].
  exact (proj1 (proj1 (crc_update_is_polynomial_division 0xFFFF [49; 50; 51] 1 2
    ltac:(repeat constructor; lia) ltac:(lia) ltac:(lia) ltac:(vm_compute; congruence))
    ltac:(lia))).
Defined.

(** C36. Error detection of the CRC16: two messages of the same length that differ
    only inside a window of two consecutive bytes never have the same CRC, and
    a message followed by its own CRC (little-endian) has CRC 0. *)
Theorem crc16_detects_bursts (pre m1 m2 post : bytes) :
  bytes_ok (pre ++ m1 ++ post) -> bytes_ok m2 ->
  length m1 = length m2 -> (length m1 <= 2)%nat ->
  (xgl_crc16_modbus (Ptr (pre ++ m1 ++ post)) 0 (zlen (pre ++ m1 ++ post)) =
   xgl_crc16_modbus (Ptr (pre ++ m2 ++ post)) 0 (zlen (pre ++ m2 ++ post)) -> m1 = m2) /\
  (forall r, xgl_crc16_modbus (Ptr pre) 0 (zlen pre) = Some r ->
     xgl_crc16_modbus (Ptr (pre ++ le_bytes 2 r)) 0 (zlen pre + 2) = Some 0).
Proof.
  intros H1 H2 Hl Hn. rewrite !Forall_app in H1. destruct H1 as (Hpre & Hm1 & Hpost).
  assert (forall d, bytes_ok d -> xgl_crc16_modbus (Ptr d) 0 (zlen d) = Some (crc16 0xFFFF d)) as Hall.
  { intros d Hd. rewrite crc16_modbus_spec by (done || lia || (pose proof (zlen_nonneg d); lia)).
    unfold zlen. rewrite Nat2Z.id. cbn [drop Z.to_nat]. by rewrite firstn_all. }
  split.
  - rewrite !Hall by (rewrite !Forall_app; auto). intros [= Heq].
    rewrite !crc16_app in Heq.
    assert (0 <= crc16 65535 pre < 65536) by (apply crc16_range; [lia|done]).
    eapply (crc16_burst_inj (crc16 65535 pre)); try done.
    eapply crc16_suffix_inj with (data := post); try done; by apply crc16_range.
  - intros r. rewrite Hall by done. intros [= <-].
    replace (zlen pre + 2) with (zlen (pre ++ le_bytes 2 (crc16 65535 pre)))
      by (rewrite zlen_app, le_bytes_zlen; done).
    rewrite Hall by (rewrite Forall_app; auto with xgl).
    f_equal. apply crc16_residue; [lia|done].
Qed.
Lemma crc16_detects_bursts_witness :
  xgl_crc16_modbus (Ptr [1; 2; 3; 4]) 0 4 <> xgl_crc16_modbus (Ptr [1; 7; 9; 4]) 0 4.
Proof.
  intros Heq.
  discriminate (proj1 (crc16_detects_bursts [1] [2; 3] [7; 9] [4]
    ltac:(repeat constructor; lia) ltac:(repeat constructor; lia) eq_refl ltac:(cbn; lia)) Heq).
Defined.

(** Clients reason with the lemmas above; conversion should not unfold it. *)
#[global] Opaque crc16.
