(* ===== verification/Layer.v ===== *)
(** * Packets and layers (include/xgl/internal/xgl_packet_pool.h,
    include/xgl/internal/xgl_layer_interface.h, include/xgl/xgl_types.h)

    The data that the layers pass to each other and the function tables through
    which they call each other. *)
From S2P Require Import Prelude Errors.

(** Reliability classes of [xgl_packet_t.reliable]. *)
Definition XGL_RELIABILITY_NONE : Z := 0x00.
Definition XGL_RELIABILITY_ACK_ELICITING : Z := 0x40.
Definition XGL_RELIABILITY_ACK_ONLY : Z := 0x80.
Definition XGL_SESSION_ID_MASK : Z := 0x3F.
(** A buffer on the stack, for a frame or for the output of a codec. *)
Definition XGL_DATALINK_STACK_BUFFER_SIZE : Z := 512.
Definition XGL_DATALINK_MAX_FRAME_SIZE : Z := 2048.

(** The functions of a driver are known by their address. *)
(** src/include/xgl/xgl_types.h:56-75: xgl_phy_ops_t *)
Record xgl_phy_ops_t := mk_phy { phy_tx : ptr Z; phy_rx : ptr Z; phy_user_data : Z }.

(** [owned_data] is NULL for borrowed data. *)
(** src/include/xgl/xgl_types.h:160-165: xgl_packet_data_t *)
Record xgl_packet_data_t := mk_packet_data {
  pd_ref_count : Z;
  pd_data_len : Z;
  pd_data : ptr bytes;
  pd_owned_data : ptr bytes
}.

(** The list node of the packet pool's free list is left out. *)
(** src/include/xgl/internal/xgl_packet_pool.h:27-77: xgl_packet_t *)
Record xgl_packet_t := mk_xgl_packet {
  pk_source_id : Z;
  pk_target_id : Z;
  pk_session_id : Z;
  pk_connection_id : Z;
  pk_packet_number : Z;
  pk_session_epoch : Z;
  pk_version : Z;
  pk_packet_type : Z;
  pk_flags : Z;
  pk_data_type : Z;
  pk_reliable : Z;
  pk_fragment : bool;
  pk_encrypt : Z;
  pk_priority : Z;
  pk_ttl : Z;
  pk_traffic_class : Z;
  pk_compress : Z;
  pk_data : ptr xgl_packet_data_t;
  pk_extensions : ptr bytes;
  pk_extensions_len : Z;
  pk_retry_count : Z;
  pk_wait_time_ms : Z;
  pk_send_timestamp : Z;
  pk_phy : ptr xgl_phy_ops_t
}.
#[export] Instance eta_xgl_packet : EtaRecord xgl_packet_t := Eta (fun p =>
  mk_xgl_packet (pk_source_id p) (pk_target_id p) (pk_session_id p) (pk_connection_id p)
    (pk_packet_number p) (pk_session_epoch p) (pk_version p) (pk_packet_type p) (pk_flags p)
    (pk_data_type p) (pk_reliable p) (pk_fragment p) (pk_encrypt p) (pk_priority p) (pk_ttl p)
    (pk_traffic_class p) (pk_compress p) (pk_data p) (pk_extensions p) (pk_extensions_len p)
    (pk_retry_count p) (pk_wait_time_ms p) (pk_send_timestamp p) (pk_phy p)).
(** A packet whose designated initializer names no field: all zero. *)
Definition zero_packet : xgl_packet_t :=
  mk_xgl_packet 0 0 0 0 0 0 0 0 0 0 0 false 0 0 0 0 0 NULL NULL 0 0 0 0 NULL.

(** src/include/xgl/xgl_types.h:363-378: xgl_layer_stats_t *)
Record xgl_layer_stats_t := mk_layer_stats {
  ls_tx_packets : Z;
  ls_tx_bytes : Z;
  ls_tx_errors : Z;
  ls_rx_packets : Z;
  ls_rx_bytes : Z;
  ls_rx_errors : Z;
  ls_rx_dropped : Z
}.
#[export] Instance eta_layer_stats : EtaRecord xgl_layer_stats_t := Eta (fun s =>
  mk_layer_stats (ls_tx_packets s) (ls_tx_bytes s) (ls_tx_errors s) (ls_rx_packets s)
    (ls_rx_bytes s) (ls_rx_errors s) (ls_rx_dropped s)).
Definition zero_layer_stats : xgl_layer_stats_t := mk_layer_stats 0 0 0 0 0 0 0.

(** The functions of a layer are known by their address; [ctx] is opaque and
    left out. *)
(** src/include/xgl/internal/xgl_layer_interface.h:82-87: xgl_layer_interface_t *)
Record xgl_layer_interface_t := mk_layer {
  li_send : ptr Z;
  li_receive : ptr Z;
  li_report_error : ptr Z
}.

(** What a layer reports to another; the message is for the log. *)
(** src/include/xgl/internal/xgl_layer_interface.h:52-55: xgl_layer_error_info_t *)
Record xgl_layer_error_info_t := mk_error_info { ei_error : xgl_error_t }.
