(* ===== verification/Wire.v ===== *)
(** * Wire format: base header, TLV extensions, authentication trailer
    (include/xgl/internal/xgl_wire.h, src/wire/xgl_wire.c)

    The 24-byte header codec and its CRC, the extension writer and cursor, and
    the signing and checking of the authentication trailer over the canonical
    AAD (TTL and header CRC zeroed). *)
From S2P Require Import Prelude Errors Serialize Crc.

(** ** Constants *)
Definition XGL_WIRE_MAGIC_0 : Z := 0xA5.
Definition XGL_WIRE_MAGIC_1 : Z := 0x5A.
Definition XGL_WIRE_VERSION : Z := 2.
Definition XGL_WIRE_BASE_HEADER_SIZE : Z := 24.
Definition XGL_WIRE_EXT_HEADER_SIZE : Z := 2.
Definition XGL_FRAGMENT_EXT_VALUE_SIZE : Z := 12.
Definition XGL_FRAGMENT_EXT_SIZE : Z := XGL_WIRE_EXT_HEADER_SIZE + XGL_FRAGMENT_EXT_VALUE_SIZE.
Definition XGL_SESSION_EXT_VALUE_SIZE : Z := 12.
Definition XGL_SESSION_EXT_SIZE : Z := XGL_WIRE_EXT_HEADER_SIZE + XGL_SESSION_EXT_VALUE_SIZE.
Definition XGL_AUTH_TAG_MAX_LEN : Z := 32.

(** The packet types and extension types travel as bytes that need not name an
    enumerator, so they are the integers of the C enums. *)
Definition XGL_PACKET_TYPE_INVALID : Z := 0.
Definition XGL_PACKET_TYPE_DATA : Z := 1.
Definition XGL_PACKET_TYPE_ACK : Z := 2.
Definition XGL_PACKET_TYPE_CONTROL : Z := 3.
Definition XGL_PACKET_TYPE_HANDSHAKE : Z := 4.
Definition XGL_PACKET_TYPE_ROUTE : Z := 5.
Definition XGL_PACKET_TYPE_PROBE : Z := 6.
Definition XGL_PACKET_TYPE_CLOSE : Z := 7.

Definition XGL_WIRE_FLAG_ACK_ELICITING : Z := 0x01.
Definition XGL_WIRE_FLAG_HAS_EXTENSIONS : Z := 0x02.
Definition XGL_WIRE_FLAG_FRAGMENTED : Z := 0x04.
Definition XGL_WIRE_FLAG_ENCRYPTED : Z := 0x08.
Definition XGL_WIRE_FLAG_AUTHENTICATED : Z := 0x10.
Definition XGL_WIRE_FLAG_CONTROL : Z := 0x20.

Definition XGL_WIRE_EXT_SESSION : Z := 1.
Definition XGL_WIRE_EXT_ACK_RANGE : Z := 2.
Definition XGL_WIRE_EXT_SACK : Z := 3.
Definition XGL_WIRE_EXT_FRAGMENT : Z := 4.
Definition XGL_WIRE_EXT_SECURITY : Z := 5.
Definition XGL_WIRE_EXT_ROUTE : Z := 6.
Definition XGL_WIRE_EXT_TIMESTAMP : Z := 7.
Definition XGL_WIRE_EXT_DATA_TYPE : Z := 8.

(** ** Data *)

(** src/include/xgl/internal/xgl_wire.h:66-79: xgl_wire_header_t *)
Record xgl_wire_header_t := mk_wire_header {
  wh_version : Z;
  wh_header_len : Z;
  wh_packet_type : Z;
  wh_flags : Z;
  wh_ttl : Z;
  wh_traffic_class : Z;
  wh_source_id : Z;
  wh_target_id : Z;
  wh_connection_id : Z;
  wh_packet_number : Z;
  wh_payload_len : Z;
  wh_header_crc16 : Z
}.
#[export] Instance eta_wire_header : EtaRecord xgl_wire_header_t := Eta (fun h =>
  mk_wire_header (wh_version h) (wh_header_len h) (wh_packet_type h) (wh_flags h)
    (wh_ttl h) (wh_traffic_class h) (wh_source_id h) (wh_target_id h)
    (wh_connection_id h) (wh_packet_number h) (wh_payload_len h) (wh_header_crc16 h)).
Definition zero_wire_header : xgl_wire_header_t := mk_wire_header 0 0 0 0 0 0 0 0 0 0 0 0.

(** A TLV as the cursor reports it; [e_value] is the value's bytes inside the
    buffer the cursor walks. *)
(** src/include/xgl/internal/xgl_wire.h:81-86: xgl_wire_ext_t *)
Record xgl_wire_ext_t := mk_wire_ext {
  e_type : Z;
  e_len : Z;
  e_value : ptr bytes;
  e_valid : bool
}.
Definition zero_wire_ext : xgl_wire_ext_t := mk_wire_ext 0 0 NULL false.

(** src/include/xgl/internal/xgl_wire.h:93-97: xgl_wire_ext_cursor_t *)
Record xgl_wire_ext_cursor_t := mk_cursor {
  c_buffer : ptr bytes;
  c_len : Z;
  c_offset : Z
}.
#[export] Instance eta_cursor : EtaRecord xgl_wire_ext_cursor_t := Eta (fun c =>
  mk_cursor (c_buffer c) (c_len c) (c_offset c)).

(** The application's authentication callbacks: [sign] gets the key id, the
    AAD, the payload and the capacity of the tag buffer, and returns its error
    code, the bytes it wrote to the tag buffer and the tag length it reported;
    [verify] gets key id, AAD, payload and tag. *)
(** src/include/xgl/xgl_types.h:250-288: xgl_auth_provider_t *)
Record xgl_auth_provider_t := mk_auth_provider {
  ap_sign : ptr (Z -> bytes -> bytes -> Z -> xgl_error_t * bytes * Z);
  ap_verify : ptr (Z -> bytes -> bytes -> bytes -> xgl_error_t * bool);
  ap_tag_len : Z
}.

(** ** The header codec *)

(** src/src/wire/xgl_wire.c:11-17: wire_header_crc16 *)
Definition wire_header_crc16 (buffer : bytes) : M Z :=
  crc_input ← rd_bytes buffer 0 XGL_WIRE_BASE_HEADER_SIZE;
  crc_input ← wr crc_input 22 0;
  crc_input ← wr crc_input 23 0;
  xgl_crc16_modbus (Ptr crc_input) 0 XGL_WIRE_BASE_HEADER_SIZE.

(** src/src/wire/xgl_wire.c:19-22: wire_packet_type_valid *)
Definition wire_packet_type_valid (packet_type : Z) : bool :=
  (XGL_PACKET_TYPE_INVALID <? packet_type) && (packet_type <=? XGL_PACKET_TYPE_CLOSE).

(** The semantic checks shared by the encoder and the decoder. *)
(** src/src/wire/xgl_wire.c:68-72: xgl_wire_encode_header *)
Definition wire_header_rejected (h : xgl_wire_header_t) : bool :=
  negb (wh_version h =? XGL_WIRE_VERSION) ||
  (wh_header_len h <? XGL_WIRE_BASE_HEADER_SIZE) ||
  negb (wire_packet_type_valid (wh_packet_type h)) ||
  (wh_source_id h =? 0) || (wh_target_id h =? 0).

(** src/src/wire/xgl_wire.c:57-93: xgl_wire_encode_header *)
Definition xgl_wire_encode_header (buffer : bytes) (buffer_size : Z)
    (header : xgl_wire_header_t) : M (xgl_error_t * bytes) :=
  if buffer_size <? XGL_WIRE_BASE_HEADER_SIZE then ret (XGL_ERR_BUFFER_TOO_SMALL, buffer)
  else if wire_header_rejected header then ret (XGL_ERR_INVALID_PARAM, buffer)
  else
    buffer ← memset buffer 0 0 XGL_WIRE_BASE_HEADER_SIZE;
    buffer ← wr buffer 0 XGL_WIRE_MAGIC_0;
    buffer ← wr buffer 1 XGL_WIRE_MAGIC_1;
    buffer ← wr buffer 2 (wh_version header);
    buffer ← wr buffer 3 (wh_header_len header);
    buffer ← wr buffer 4 (wh_packet_type header);
    buffer ← wr buffer 5 (wh_flags header);
    buffer ← wr buffer 6 (wh_ttl header);
    buffer ← wr buffer 7 (wh_traffic_class header);
    buffer ← xgl_serialize_u16_le buffer 8 (wh_source_id header);
    buffer ← xgl_serialize_u16_le buffer 10 (wh_target_id header);
    buffer ← xgl_serialize_u32_le buffer 12 (wh_connection_id header);
    buffer ← xgl_serialize_u32_le buffer 16 (wh_packet_number header);
    buffer ← xgl_serialize_u16_le buffer 20 (wh_payload_len header);
    crc ← wire_header_crc16 buffer;
    buffer ← xgl_serialize_u16_le buffer 22 crc;
    ret (XGL_OK, buffer).

(** src/src/wire/xgl_wire.c:57-62: xgl_wire_encode_header *)
Definition xgl_wire_encode_header_p (buffer : ptr bytes) (buffer_size : Z)
    (header : ptr xgl_wire_header_t) : M (xgl_error_t * ptr bytes) :=
  match buffer, header with
  | Ptr b, Ptr h => '(err, b) ← xgl_wire_encode_header b buffer_size h; ret (err, Ptr b)
  | _, _ => ret (XGL_ERR_NULL_POINTER, buffer)
  end.

(** [header] is the out-parameter: its old contents stay on the early returns. *)
(** src/src/wire/xgl_wire.c:95-139: xgl_wire_decode_header *)
Definition xgl_wire_decode_header (header : xgl_wire_header_t) (buffer : bytes)
    (buffer_size : Z) : M (xgl_error_t * xgl_wire_header_t) :=
  if buffer_size <? XGL_WIRE_BASE_HEADER_SIZE then ret (XGL_ERR_BUFFER_TOO_SMALL, header)
  else
    m0 ← rd buffer 0;
    m1 ← rd buffer 1;
    if negb (m0 =? XGL_WIRE_MAGIC_0) || negb (m1 =? XGL_WIRE_MAGIC_1)
    then ret (XGL_ERR_INVALID_FRAME, header)
    else
      expected_crc ← wire_header_crc16 buffer;
      actual_crc ← xgl_deserialize_u16_le buffer 22;
      if negb (expected_crc =? actual_crc) then ret (XGL_ERR_CRC_FAILED, header)
      else
        version ← rd buffer 2;
        header_len ← rd buffer 3;
        packet_type ← rd buffer 4;
        flags ← rd buffer 5;
        ttl ← rd buffer 6;
        traffic_class ← rd buffer 7;
        source_id ← xgl_deserialize_u16_le buffer 8;
        target_id ← xgl_deserialize_u16_le buffer 10;
        connection_id ← xgl_deserialize_u32_le buffer 12;
        packet_number ← xgl_deserialize_u32_le buffer 16;
        payload_len ← xgl_deserialize_u16_le buffer 20;
        let header := mk_wire_header version header_len packet_type flags ttl traffic_class
          source_id target_id connection_id packet_number payload_len actual_crc in
        if wire_header_rejected header then ret (XGL_ERR_INVALID_FRAME, header)
        else ret (XGL_OK, header).

(** src/src/wire/xgl_wire.c:95-100: xgl_wire_decode_header *)
Definition xgl_wire_decode_header_p (header : ptr xgl_wire_header_t) (buffer : ptr bytes)
    (buffer_size : Z) : M (xgl_error_t * ptr xgl_wire_header_t) :=
  match header, buffer with
  | Ptr h, Ptr b => '(err, h) ← xgl_wire_decode_header h b buffer_size; ret (err, Ptr h)
  | _, _ => ret (XGL_ERR_NULL_POINTER, header)
  end.

(** ** Extensions *)

(** [bytes_written] is passed in and returned, unchanged on the error paths. *)
(** src/src/wire/xgl_wire.c:141-172: xgl_wire_encode_ext *)
Definition xgl_wire_encode_ext (buffer : bytes) (buffer_size type : Z) (value : ptr bytes)
    (value_len bytes_written : Z) : M (xgl_error_t * Z * bytes) :=
  if (type =? 0) || (UINT8_MAX <? value_len)
  then ret (XGL_ERR_INVALID_PARAM, bytes_written, buffer)
  else
    let required_size := XGL_WIRE_EXT_HEADER_SIZE + value_len in
    let write (copy : bytes -> M bytes) :=
      if buffer_size <? required_size
      then ret (XGL_ERR_BUFFER_TOO_SMALL, bytes_written, buffer)
      else
        buffer ← wr buffer 0 type;
        buffer ← wr buffer 1 (u8 value_len);
        buffer ← copy buffer;
        ret (XGL_OK, required_size, buffer) in
    if 0 <? value_len then
      match value with
      | NULL => ret (XGL_ERR_NULL_POINTER, bytes_written, buffer)
      | Ptr value =>
          write (fun buffer => src ← rd_bytes value 0 value_len; wr_bytes buffer 2 src)
      end
    else write (fun buffer => ret buffer).

(** src/src/wire/xgl_wire.c:141-149: xgl_wire_encode_ext *)
Definition xgl_wire_encode_ext_p (buffer : ptr bytes) (buffer_size type : Z)
    (value : ptr bytes) (value_len : Z) (bytes_written : ptr Z)
    : M (xgl_error_t * ptr Z * ptr bytes) :=
  match buffer, bytes_written with
  | Ptr b, Ptr n =>
      '(err, n, b) ← xgl_wire_encode_ext b buffer_size type value value_len n;
      ret (err, Ptr n, Ptr b)
  | _, _ => ret (XGL_ERR_NULL_POINTER, bytes_written, buffer)
  end.

(** src/src/wire/xgl_wire.c:174-186: xgl_wire_ext_cursor_init *)
Definition xgl_wire_ext_cursor_init (cursor : xgl_wire_ext_cursor_t) (buffer : ptr bytes)
    (len : Z) : xgl_error_t * xgl_wire_ext_cursor_t :=
  if bool_decide (buffer = NULL) && (0 <? len) then (XGL_ERR_NULL_POINTER, cursor)
  else (XGL_OK, mk_cursor buffer len 0).

(** [cursor->buffer[i]]: dereferencing NULL is undefined. *)
Definition cursor_byte (cursor : xgl_wire_ext_cursor_t) (i : Z) : M Z :=
  buffer ← c_buffer cursor; rd buffer i.
Definition cursor_bytes (cursor : xgl_wire_ext_cursor_t) (off n : Z) : M bytes :=
  buffer ← c_buffer cursor; rd_bytes buffer off n.

(** src/src/wire/xgl_wire.c:188-218: xgl_wire_ext_cursor_next *)
Definition xgl_wire_ext_cursor_next (cursor : xgl_wire_ext_cursor_t)
    : M (xgl_error_t * xgl_wire_ext_t * xgl_wire_ext_cursor_t) :=
  let ext := zero_wire_ext in
  if c_offset cursor =? c_len cursor then ret (XGL_ERR_NOT_FOUND, ext, cursor)
  else if c_len cursor - c_offset cursor <? XGL_WIRE_EXT_HEADER_SIZE
  then ret (XGL_ERR_INVALID_FRAME, ext, cursor)
  else
    type ← cursor_byte cursor (c_offset cursor);
    value_len ← cursor_byte cursor (c_offset cursor + 1);
    let ext_len := XGL_WIRE_EXT_HEADER_SIZE + value_len in
    if (type =? 0) || (c_len cursor - c_offset cursor <? ext_len)
    then ret (XGL_ERR_INVALID_FRAME, ext, cursor)
    else
      value ← cursor_bytes cursor (c_offset cursor + XGL_WIRE_EXT_HEADER_SIZE) value_len;
      ret (XGL_OK, mk_wire_ext type value_len (Ptr value) true,
           cursor <| c_offset := c_offset cursor + ext_len |>).

(** ** Authentication trailer *)

(** src/src/wire/xgl_wire.c:24-29: wire_auth_aad_has_frame_header *)
Definition wire_auth_aad_has_frame_header (aad : bytes) (aad_len : Z) : M bool :=
  if XGL_WIRE_BASE_HEADER_SIZE <=? aad_len then
    a0 ← rd aad 0;
    if a0 =? XGL_WIRE_MAGIC_0 then a1 ← rd aad 1; ret (a1 =? XGL_WIRE_MAGIC_1)
    else ret false
  else ret false.

(** Returns the error code and the object that [*prepared_aad] points to. *)
(** src/src/wire/xgl_wire.c:31-55: wire_auth_canonical_aad *)
Definition wire_auth_canonical_aad (aad : bytes) (aad_len : Z) (canonical : bytes)
    (canonical_size : Z) : M (xgl_error_t * bytes) :=
  framed ← wire_auth_aad_has_frame_header aad aad_len;
  if negb framed then ret (XGL_OK, aad)
  else if canonical_size <? aad_len then ret (XGL_ERR_BUFFER_TOO_SMALL, aad)
  else
    src ← rd_bytes aad 0 aad_len;
    canonical ← wr_bytes canonical 0 src;
    canonical ← wr canonical 6 0;
    canonical ← wr canonical 22 0;
    canonical ← wr canonical 23 0;
    ret (XGL_OK, canonical).

(** src/src/wire/xgl_wire.c:220-278: xgl_wire_append_auth_trailer *)
Definition xgl_wire_append_auth_trailer (buffer : bytes)
    (buffer_size aad_len payload_len key_id : Z) (provider : ptr xgl_auth_provider_t)
    (frame_len : Z) : M (xgl_error_t * Z * bytes) :=
  match provider with
  | NULL => ret (XGL_ERR_NULL_POINTER, frame_len, buffer)
  | Ptr p =>
  match ap_sign p with
  | NULL => ret (XGL_ERR_NULL_POINTER, frame_len, buffer)
  | Ptr sign =>
    if (ap_tag_len p =? 0) || (XGL_AUTH_TAG_MAX_LEN <? ap_tag_len p)
    then ret (XGL_ERR_INVALID_PARAM, frame_len, buffer)
    else
      let tag_offset := aad_len + payload_len in
      if buffer_size <? tag_offset then ret (XGL_ERR_BUFFER_TOO_SMALL, frame_len, buffer)
      else if buffer_size - tag_offset <? ap_tag_len p
      then ret (XGL_ERR_BUFFER_TOO_SMALL, frame_len, buffer)
      else
        '(err, signing_aad) ←
          wire_auth_canonical_aad buffer aad_len (replicate 255 0) UINT8_MAX;
        if negb (is_ok err) then ret (err, frame_len, buffer)
        else
          aad ← rd_bytes signing_aad 0 aad_len;
          payload ← rd_bytes buffer aad_len payload_len;
          let '(err, tag, tag_len) := sign key_id aad payload (buffer_size - tag_offset) in
          buffer ← wr_bytes buffer tag_offset tag;
          if negb (is_ok err) then ret (err, frame_len, buffer)
          else if negb (tag_len =? ap_tag_len p)
          then ret (XGL_ERR_INVALID_FRAME, frame_len, buffer)
          else if (tag_len =? 0) || (buffer_size <? tag_offset + tag_len)
          then ret (XGL_ERR_BUFFER_TOO_SMALL, frame_len, buffer)
          else ret (XGL_OK, tag_offset + tag_len, buffer)
  end end.

(** src/src/wire/xgl_wire.c:280-324: xgl_wire_verify_auth_trailer *)
Definition xgl_wire_verify_auth_trailer (buffer : bytes)
    (frame_len aad_len payload_len key_id : Z) (provider : ptr xgl_auth_provider_t)
    (valid : bool) : M (xgl_error_t * bool) :=
  match provider with
  | NULL => ret (XGL_ERR_NULL_POINTER, valid)
  | Ptr p =>
  match ap_verify p with
  | NULL => ret (XGL_ERR_NULL_POINTER, valid)
  | Ptr verify =>
    if (ap_tag_len p =? 0) || (XGL_AUTH_TAG_MAX_LEN <? ap_tag_len p)
    then ret (XGL_ERR_INVALID_PARAM, valid)
    else
      let valid := false in
      let tag_offset := aad_len + payload_len in
      if frame_len <=? tag_offset then ret (XGL_ERR_INVALID_FRAME, valid)
      else if negb (frame_len - tag_offset =? ap_tag_len p)
      then ret (XGL_ERR_INVALID_FRAME, valid)
      else
        '(err, verifying_aad) ←
          wire_auth_canonical_aad buffer aad_len (replicate 255 0) UINT8_MAX;
        if negb (is_ok err) then ret (err, valid)
        else
          aad ← rd_bytes verifying_aad 0 aad_len;
          payload ← rd_bytes buffer aad_len payload_len;
          tag ← rd_bytes buffer tag_offset (frame_len - tag_offset);
          ret (verify key_id aad payload tag)
  end end.

(** src/src/wire/xgl_wire.c:220-230: xgl_wire_append_auth_trailer *)
Definition xgl_wire_append_auth_trailer_p (buffer : ptr bytes)
    (buffer_size aad_len payload_len key_id : Z) (provider : ptr xgl_auth_provider_t)
    (frame_len : ptr Z) : M (xgl_error_t * ptr Z * ptr bytes) :=
  match buffer, frame_len with
  | Ptr b, Ptr n =>
      '(err, n, b) ← xgl_wire_append_auth_trailer b buffer_size aad_len payload_len key_id
        provider n;
      ret (err, Ptr n, Ptr b)
  | _, _ => ret (XGL_ERR_NULL_POINTER, frame_len, buffer)
  end.
(** src/src/wire/xgl_wire.c:280-290: xgl_wire_verify_auth_trailer *)
Definition xgl_wire_verify_auth_trailer_p (buffer : ptr bytes)
    (frame_len aad_len payload_len key_id : Z) (provider : ptr xgl_auth_provider_t)
    (valid : ptr bool) : M (xgl_error_t * ptr bool) :=
  match buffer, valid with
  | Ptr b, Ptr v =>
      '(err, v) ← xgl_wire_verify_auth_trailer b frame_len aad_len payload_len key_id provider v;
      ret (err, Ptr v)
  | _, _ => ret (XGL_ERR_NULL_POINTER, valid)
  end.

(** ** The header: layout, type invariant, codec lemmas *)

Definition wire_header_ok (h : xgl_wire_header_t) : bool :=
  is_u8 (wh_version h) && is_u8 (wh_header_len h) && is_u8 (wh_packet_type h) &&
  is_u8 (wh_flags h) && is_u8 (wh_ttl h) && is_u8 (wh_traffic_class h) &&
  is_u16 (wh_source_id h) && is_u16 (wh_target_id h) &&
  is_u32 (wh_connection_id h) && is_u32 (wh_packet_number h) && is_u16 (wh_payload_len h).

(** The 22 bytes in front of the CRC field, the CRC over them (with the field
    itself zero), and the whole header. *)
Definition header_prefix (h : xgl_wire_header_t) : bytes :=
  [XGL_WIRE_MAGIC_0; XGL_WIRE_MAGIC_1; wh_version h; wh_header_len h; wh_packet_type h;
   wh_flags h; wh_ttl h; wh_traffic_class h] ++
  le_bytes 2 (wh_source_id h) ++ le_bytes 2 (wh_target_id h) ++
  le_bytes 4 (wh_connection_id h) ++ le_bytes 4 (wh_packet_number h) ++
  le_bytes 2 (wh_payload_len h).
Definition header_crc (h : xgl_wire_header_t) : Z := crc16 0xFFFF (header_prefix h ++ [0; 0]).
Definition header_bytes (h : xgl_wire_header_t) : bytes :=
  header_prefix h ++ le_bytes 2 (header_crc h).

Lemma wire_header_ok_spec h :
  wire_header_ok h = true <->
  (0 <= wh_version h < 256 /\ 0 <= wh_header_len h < 256 /\ 0 <= wh_packet_type h < 256 /\
   0 <= wh_flags h < 256 /\ 0 <= wh_ttl h < 256 /\ 0 <= wh_traffic_class h < 256) /\
  (0 <= wh_source_id h < 65536 /\ 0 <= wh_target_id h < 65536 /\
   0 <= wh_connection_id h < 4294967296 /\ 0 <= wh_packet_number h < 4294967296 /\
   0 <= wh_payload_len h < 65536).
Proof. unfold wire_header_ok. unwrap_ints. rewrite !andb_true_iff. lia. Qed.

Lemma header_prefix_length h : length (header_prefix h) = 22%nat.
Proof. done. Qed.
Lemma header_bytes_length h : length (header_bytes h) = 24%nat.
Proof. done. Qed.
Lemma header_bytes_zlen h : zlen (header_bytes h) = 24.
Proof. done. Qed.
Lemma header_bytes_set_crc h c : header_bytes (h <| wh_header_crc16 := c |>) = header_bytes h.
Proof. done. Qed.
Lemma header_prefix_ok h : wire_header_ok h = true -> bytes_ok (header_prefix h).
Proof.
  intros [(?&?&?&?&?&?) _]%wire_header_ok_spec. unfold header_prefix. apply Forall_app; split.
  - repeat constructor; unfold XGL_WIRE_MAGIC_0, XGL_WIRE_MAGIC_1; lia.
  - rewrite !Forall_app. auto 10 using le_bytes_ok.
Qed.
Lemma header_crc_range h : wire_header_ok h = true -> 0 <= header_crc h < 65536.
Proof.
  intros. unfold header_crc. apply crc16_range; [lia|]. apply Forall_app; split; [by apply header_prefix_ok|].
  repeat constructor; lia.
Qed.
Lemma header_bytes_ok h : wire_header_ok h = true -> bytes_ok (header_bytes h).
Proof. intros. apply Forall_app; split; [by apply header_prefix_ok|apply le_bytes_ok]. Qed.
#[export] Hint Resolve header_bytes_ok header_prefix_ok : xgl.
#[export] Hint Rewrite header_bytes_zlen : zlen.

(** A buffer of at least [n] bytes has [n] first elements. *)
Lemma split_at {A} (l : list A) n :
  0 <= n <= zlen l -> exists l1 l2, l = l1 ++ l2 /\ length l1 = Z.to_nat n.
Proof.
  intros. exists (take (Z.to_nat n) l), (drop (Z.to_nat n) l).
  rewrite take_drop, length_take. unfold zlen in *. split; [done|lia].
Qed.

Ltac explode l :=
  repeat (let b := fresh "b" in destruct l as [|b l]; [cbn in *; lia|]);
  destruct l; [|cbn in *; lia].

Lemma wire_header_crc16_spec pre c0 c1 rest :
  length pre = 22%nat -> bytes_ok pre ->
  wire_header_crc16 (pre ++ [c0; c1] ++ rest) = Some (crc16 0xFFFF (pre ++ [0; 0])).
Proof.
  intros Hl Hok. unfold wire_header_crc16.
  assert (zlen pre = 22) as Hz by (unfold zlen; lia).
  rewrite app_assoc, (rd_bytes_prefix (pre ++ [c0; c1])) by (autorewrite with zlen; rewrite Hz; done).
  cbn [mbind option_bind].
  rewrite wr_Some by (autorewrite with zlen; lia). cbn [mbind option_bind].
  rewrite wr_Some by (autorewrite with zlen; lia). cbn [mbind option_bind].
  rewrite !insert_app_r_alt by lia. rewrite Hl.
  change (<[(Z.to_nat 23 - 22)%nat:=0]> (<[(Z.to_nat 22 - 22)%nat:=0]> [c0; c1])) with [0; 0].
  assert (bytes_ok (pre ++ [0; 0])) by (apply Forall_app; split; [done|repeat constructor; lia]).
  rewrite crc16_modbus_spec; try done; unfold XGL_WIRE_BASE_HEADER_SIZE; try (autorewrite with zlen; lia).
  f_equal. rewrite drop_to_nat_0. by rewrite take_to_nat by (autorewrite with zlen; lia).
Qed.
Lemma header_crc_spec h c0 c1 rest :
  wire_header_ok h = true ->
  wire_header_crc16 (header_prefix h ++ [c0; c1] ++ rest) = Some (header_crc h).
Proof. intros. apply wire_header_crc16_spec; [done|by apply header_prefix_ok]. Qed.

Lemma encode_header_run old rest size h :
  length old = 24%nat -> 24 <= size -> wire_header_ok h = true -> wire_header_rejected h = false ->
  xgl_wire_encode_header (old ++ rest) size h = Some (XGL_OK, header_bytes h ++ rest).
Proof.
  intros Hold Hsize Hok Hrej. unfold xgl_wire_encode_header.
  unfold XGL_WIRE_BASE_HEADER_SIZE. replace (size <? 24) with false by lia. rewrite Hrej.
  unfold memset. rewrite wr_bytes_prefix by (rewrite ?length_replicate; done).
  cbn [mbind option_bind]. 
  change (replicate (Z.to_nat 24) 0 ++ rest) with ([] ++ replicate 24 0 ++ rest).
  do 13 fill_next.
  match goal with |- context [wire_header_crc16 ?b] =>
    change b with (header_prefix h ++ [0; 0] ++ rest) end.
  rewrite header_crc_spec by done. cbn [mbind option_bind].
  unfold header_bytes. generalize (header_crc h). intros crc. fill_next. reflexivity.
Qed.

Lemma encode_header_spec buffer size h :
  size <= zlen buffer -> wire_header_ok h = true ->
  xgl_wire_encode_header buffer size h =
    if size <? 24 then Some (XGL_ERR_BUFFER_TOO_SMALL, buffer)
    else if wire_header_rejected h then Some (XGL_ERR_INVALID_PARAM, buffer)
    else Some (XGL_OK, header_bytes h ++ drop 24 buffer).
Proof.
  intros Hsize Hok. destruct (size <? 24) eqn:Hs.
  { unfold xgl_wire_encode_header, XGL_WIRE_BASE_HEADER_SIZE. by rewrite Hs. }
  destruct (wire_header_rejected h) eqn:Hr.
  { unfold xgl_wire_encode_header, XGL_WIRE_BASE_HEADER_SIZE. by rewrite Hs, Hr. }
  rewrite <- (take_drop 24 buffer) at 1. apply encode_header_run; [|lia|done|done].
  rewrite length_take. unfold zlen in *. lia.
Qed.

(** Reading a field of a buffer cut at the field. *)
Lemma deserialize_u16_at pre m post i :
  i = zlen pre -> length m = 2%nat -> bytes_ok (pre ++ m ++ post) ->
  xgl_deserialize_u16_le (pre ++ m ++ post) i = Some (le_value m).
Proof.
  intros -> Hm Hok. rewrite deserialize_u16_le_spec by done.
  replace 2 with (zlen m) by (unfold zlen; lia). by rewrite rd_bytes_app.
Qed.
Lemma deserialize_u32_at pre m post i :
  i = zlen pre -> length m = 4%nat -> bytes_ok (pre ++ m ++ post) ->
  xgl_deserialize_u32_le (pre ++ m ++ post) i = Some (le_value m).
Proof.
  intros -> Hm Hok. rewrite deserialize_u32_le_spec by done.
  replace 4 with (zlen m) by (unfold zlen; lia). by rewrite rd_bytes_app.
Qed.

(** The decoder as a function of the fields it reads. *)
Lemma decode_header_reads old b size m0 m1 v hl pt fl tl tc s t c p l k crc :
  24 <= size ->
  rd b 0 = Some m0 -> rd b 1 = Some m1 -> rd b 2 = Some v -> rd b 3 = Some hl ->
  rd b 4 = Some pt -> rd b 5 = Some fl -> rd b 6 = Some tl -> rd b 7 = Some tc ->
  xgl_deserialize_u16_le b 8 = Some s -> xgl_deserialize_u16_le b 10 = Some t ->
  xgl_deserialize_u32_le b 12 = Some c -> xgl_deserialize_u32_le b 16 = Some p ->
  xgl_deserialize_u16_le b 20 = Some l -> xgl_deserialize_u16_le b 22 = Some k ->
  wire_header_crc16 b = Some crc ->
  let h := mk_wire_header v hl pt fl tl tc s t c p l k in
  xgl_wire_decode_header old b size =
    if negb (m0 =? XGL_WIRE_MAGIC_0) || negb (m1 =? XGL_WIRE_MAGIC_1)
    then Some (XGL_ERR_INVALID_FRAME, old)
    else if negb (crc =? k) then Some (XGL_ERR_CRC_FAILED, old)
    else if wire_header_rejected h then Some (XGL_ERR_INVALID_FRAME, h)
    else Some (XGL_OK, h).
Proof.
  intros Hsize R0 R1 R2 R3 R4 R5 R6 R7 R8 R10 R12 R16 R20 R22 Rcrc h.
  unfold xgl_wire_decode_header, XGL_WIRE_BASE_HEADER_SIZE.
  replace (size <? 24) with false by lia.
  rewrite R0, R1. cbn [mbind option_bind]. case_if; [done|].
  rewrite Rcrc, R22. cbn [mbind option_bind]. case_if; [done|].
  rewrite R2, R3, R4, R5, R6, R7, R8, R10, R12, R16, R20. cbn [mbind option_bind].
  subst h. by case_if.
Qed.

(** The decoder on a buffer split into its fields. *)
Lemma decode_header_run old size m0 m1 v hl pt fl tl tc s t c p l k rest :
  let pre := [m0; m1; v; hl; pt; fl; tl; tc] ++ s ++ t ++ c ++ p ++ l in
  let h := mk_wire_header v hl pt fl tl tc (le_value s) (le_value t) (le_value c) (le_value p)
             (le_value l) (le_value k) in
  length s = 2%nat -> length t = 2%nat -> length c = 4%nat -> length p = 4%nat ->
  length l = 2%nat -> length k = 2%nat -> bytes_ok (pre ++ k ++ rest) -> 24 <= size ->
  xgl_wire_decode_header old (pre ++ k ++ rest) size =
    if negb (m0 =? XGL_WIRE_MAGIC_0) || negb (m1 =? XGL_WIRE_MAGIC_1)
    then Some (XGL_ERR_INVALID_FRAME, old)
    else if negb (crc16 0xFFFF (pre ++ [0; 0]) =? le_value k)
    then Some (XGL_ERR_CRC_FAILED, old)
    else if wire_header_rejected h then Some (XGL_ERR_INVALID_FRAME, h)
    else Some (XGL_OK, h).
Proof.
  intros pre h Hs Ht Hc Hp Hl Hk Hok Hsize.
  set (a := [m0; m1; v; hl; pt; fl; tl; tc]) in *.
  assert (length pre = 22%nat) as Hpre
    by (unfold pre; rewrite !length_app, Hs, Ht, Hc, Hp, Hl; done).
  apply decode_header_reads; try reflexivity; try done.
  - replace (pre ++ k ++ rest) with (a ++ s ++ (t ++ c ++ p ++ l) ++ k ++ rest) in *
      by (unfold pre; rewrite <- !app_assoc; done).
    apply deserialize_u16_at; try done.
  - replace (pre ++ k ++ rest) with ((a ++ s) ++ t ++ (c ++ p ++ l) ++ k ++ rest) in *
      by (unfold pre; rewrite <- !app_assoc; done).
    apply deserialize_u16_at; try done. unfold zlen. rewrite length_app, Hs. done.
  - replace (pre ++ k ++ rest) with ((a ++ s ++ t) ++ c ++ (p ++ l) ++ k ++ rest) in *
      by (unfold pre; rewrite <- !app_assoc; done).
    apply deserialize_u32_at; try done. unfold zlen. rewrite !length_app, Hs, Ht. done.
  - replace (pre ++ k ++ rest) with ((a ++ s ++ t ++ c) ++ p ++ l ++ k ++ rest) in *
      by (unfold pre; rewrite <- !app_assoc; done).
    apply deserialize_u32_at; try done. unfold zlen. rewrite !length_app, Hs, Ht, Hc. done.
  - replace (pre ++ k ++ rest) with ((a ++ s ++ t ++ c ++ p) ++ l ++ k ++ rest) in *
      by (unfold pre; rewrite <- !app_assoc; done).
    apply deserialize_u16_at; try done. unfold zlen. rewrite !length_app, Hs, Ht, Hc, Hp. done.
  - apply deserialize_u16_at; try done. unfold zlen. by rewrite Hpre.
  - destruct k as [|k0 [|k1 []]]; [done..| |done].
    apply wire_header_crc16_spec; [done|]. by apply Forall_app in Hok as [? _].
Qed.

(** Cutting any buffer of at least 24 bytes into the header's fields. *)
Lemma header_fields (b : bytes) :
  24 <= zlen b -> exists m0 m1 v hl pt fl tl tc s t c p l k rest,
    b = ([m0; m1; v; hl; pt; fl; tl; tc] ++ s ++ t ++ c ++ p ++ l) ++ k ++ rest /\
    length s = 2%nat /\ length t = 2%nat /\ length c = 4%nat /\ length p = 4%nat /\
    length l = 2%nat /\ length k = 2%nat.
Proof.
  intros Hb. destruct (split_at b 24) as (b1 & rest & -> & Hl); [pose proof (zlen_nonneg b); lia|].
  change (Z.to_nat 24) with 24%nat in Hl.
  do 24 (destruct b1 as [|? b1]; [discriminate|]). destruct b1; [|discriminate].
  eexists _, _, _, _, _, _, _, _, [_; _], [_; _], [_; _; _; _], [_; _; _; _], [_; _], [_; _], rest.
  split; [reflexivity|done].
Qed.

Lemma decode_header_safe old b size :
  bytes_ok b -> size <= zlen b -> xgl_wire_decode_header old b size <> None.
Proof.
  intros Hok Hsize. destruct (decide (size < 24)).
  { unfold xgl_wire_decode_header, XGL_WIRE_BASE_HEADER_SIZE. by replace (size <? 24) with true by lia. }
  destruct (header_fields b) as (m0&m1&v&hl&pt&fl&tl&tc&s&t&c&p&l&k&rest&->&?&?&?&?&?&?); [lia|].
  rewrite decode_header_run by (done || lia). by repeat case_if.
Qed.

Lemma decode_header_inv old b size h :
  bytes_ok b -> size <= zlen b -> xgl_wire_decode_header old b size = Some (XGL_OK, h) ->
  24 <= size /\ wire_header_ok h = true /\ wire_header_rejected h = false /\
  wh_header_crc16 h = header_crc h /\ take 24 b = header_bytes h.
Proof.
  intros Hok Hsize Hdec. destruct (decide (size < 24)).
  { unfold xgl_wire_decode_header, XGL_WIRE_BASE_HEADER_SIZE in Hdec.
    by replace (size <? 24) with true in Hdec by lia. }
  destruct (header_fields b) as (m0&m1&v&hl&pt&fl&tl&tc&s&t&c&p&l&k&rest&->&Hs&Ht&Hc&Hp&Hl&Hk); [lia|].
  rewrite decode_header_run in Hdec by (done || lia).
  case_if_in Hdec; [done|]. case_if_in Hdec; [done|]. case_if_in Hdec; [done|].
  injection Hdec as <-.
  rewrite !Forall_app in Hok. destruct Hok as ((Ha & Hs' & Ht' & Hc' & Hp' & Hl') & Hk' & _).
  rewrite !Forall_cons in Ha. destruct Ha as (?&?&?&?&?&?&?&?&_).
  pose proof (le_bytes_le_value s Hs') as Es. pose proof (le_bytes_le_value t Ht') as Et.
  pose proof (le_bytes_le_value c Hc') as Ec. pose proof (le_bytes_le_value p Hp') as Ep.
  pose proof (le_bytes_le_value l Hl') as El. pose proof (le_bytes_le_value k Hk') as Ek.
  rewrite Hs in Es. rewrite Ht in Et. rewrite Hc in Ec. rewrite Hp in Ep. rewrite Hl in El.
  rewrite Hk in Ek.
  apply le_value_bound in Hs', Ht', Hc', Hp', Hl'.
  unfold zlen in Hs', Ht', Hc', Hp', Hl'. rewrite ?Hs, ?Ht, ?Hc, ?Hp, ?Hl in *.
  assert (m0 = XGL_WIRE_MAGIC_0) as -> by lia. assert (m1 = XGL_WIRE_MAGIC_1) as -> by lia.
  match goal with |- context [wire_header_ok ?h'] => set (h := h') end.
  assert (header_prefix h = [XGL_WIRE_MAGIC_0; XGL_WIRE_MAGIC_1; v; hl; pt; fl; tl; tc] ++
    s ++ t ++ c ++ p ++ l) as Hpre.
  { unfold header_prefix, h. cbn [wh_version wh_header_len wh_packet_type wh_flags wh_ttl
      wh_traffic_class wh_source_id wh_target_id wh_connection_id wh_packet_number wh_payload_len].
    by rewrite Es, Et, Ec, Ep, El. }
  assert (header_crc h = le_value k) as Hcrc by (unfold header_crc; rewrite Hpre; lia).
  split_and!; [lia| |assumption|by rewrite Hcrc| ].
  - apply wire_header_ok_spec. cbn. split_and!; lia.
  - rewrite app_assoc, take_app_length' by (rewrite length_app, Hk, !length_app, Hs, Ht, Hc, Hp, Hl; done).
    unfold header_bytes. by rewrite Hpre, Hcrc, Ek.
Qed.

Lemma decode_header_bytes old h rest size :
  wire_header_ok h = true -> wire_header_rejected h = false -> bytes_ok rest -> 24 <= size ->
  xgl_wire_decode_header old (header_bytes h ++ rest) size =
    Some (XGL_OK, h <| wh_header_crc16 := header_crc h |>).
Proof.
  intros Hok Hrej Hrest Hsize.
  pose proof (header_crc_range h Hok). pose proof (header_prefix_ok h Hok) as Hpre.
  pose proof Hok as Hok'. apply wire_header_ok_spec in Hok' as [? (?&?&?&?&?)].
  unfold header_bytes. rewrite <- app_assoc. unfold header_prefix at 1.
  rewrite decode_header_run; try done.
  - rewrite !le_value_u16, !le_value_u32 by done.
    change (negb (XGL_WIRE_MAGIC_0 =? XGL_WIRE_MAGIC_0) ||
            negb (XGL_WIRE_MAGIC_1 =? XGL_WIRE_MAGIC_1)) with false. cbn iota.
    match goal with |- context [negb (?x =? ?y)] => replace (negb (x =? y)) with false end.
    2:{ change (header_crc h) with (crc16 65535 (header_prefix h ++ [0; 0])). unfold header_prefix.
        by rewrite Z.eqb_refl. }
    change (wire_header_rejected _) with (wire_header_rejected h) at 1. rewrite Hrej. done.
  - apply Forall_app; split; [exact Hpre|]. apply Forall_app; auto with xgl.
Qed.

(** ** Extensions: reference encoding and the cursor *)

Abbreviation tlv := (Z * bytes)%type.
Definition tlv_ok (x : tlv) : Prop := 1 <= x.1 < 256 /\ zlen x.2 <= 255 /\ bytes_ok x.2.
Definition tlv_bytes (x : tlv) : bytes := x.1 :: zlen x.2 :: x.2.
Definition tlvs_bytes (l : list tlv) : bytes := concat (map tlv_bytes l).

(** The reference parser; [fuel] at least the length of the input is enough,
    since every extension takes two bytes or more. *)
Fixpoint parse_tlvs (fuel : nat) (bs : bytes) : option (list tlv) :=
  match bs with
  | [] => Some []
  | [_] => None
  | t :: n :: rest =>
      match fuel with
      | O => None
      | S fuel =>
          if (t =? 0) || (zlen rest <? n) then None
          else l ← parse_tlvs fuel (drop (Z.to_nat n) rest);
               Some ((t, take (Z.to_nat n) rest) :: l)
      end
  end.
Definition parse_exts (bs : bytes) : option (list tlv) := parse_tlvs (length bs) bs.

Lemma parse_tlvs_encode l fuel :
  Forall tlv_ok l -> (length (tlvs_bytes l) <= fuel)%nat -> parse_tlvs fuel (tlvs_bytes l) = Some l.
Proof.
  intros Hl. revert fuel. induction Hl as [|[t v] l (Ht & Hn & Hv) Hl IH]; intros fuel Hfuel.
  { by destruct fuel. }
  unfold tlvs_bytes in *. cbn [map concat tlv_bytes fst snd app length] in *.
  rewrite length_app in Hfuel. destruct fuel as [|fuel]; [lia|]. cbn [parse_tlvs].
  rewrite zlen_app. pose proof (zlen_nonneg (concat (map tlv_bytes l))).
  replace (_ || _) with false by lia. unfold zlen. rewrite Nat2Z.id.
  rewrite drop_app_length, take_app_length. rewrite IH by lia. done.
Qed.
Lemma parse_tlvs_sound fuel bs l :
  bytes_ok bs -> parse_tlvs fuel bs = Some l -> bs = tlvs_bytes l /\ Forall tlv_ok l.
Proof.
  revert bs l. induction fuel as [|fuel IH]; intros [|t [|n rest]] l Hbs Hp; cbn in Hp; try done.
  - by injection Hp as <-.
  - by injection Hp as <-.
  - destruct ((t =? 0) || (zlen rest <? n)) eqn:Hc; [done|].
    apply bind_Some in Hp as (l' & Hp & [= <-]).
    rewrite !Forall_cons in Hbs. destruct Hbs as (Ht & Hn & Hrest).
    apply IH in Hp as [Hd Hl']; [|by apply Forall_drop].
    assert (zlen (take (Z.to_nat n) rest) = n) as Hz by (apply zlen_take; lia).
    split.
    + unfold tlvs_bytes. cbn [map concat tlv_bytes fst snd app]. rewrite Hz.
      fold (tlvs_bytes l'). by rewrite <- Hd, take_drop.
    + constructor; [|done]. split_and!; cbn [fst snd]; [lia|lia|lia|by apply Forall_take].
Qed.

(** Extending the input after a complete parse changes nothing before it. *)
Lemma tlvs_bytes_app l1 l2 : tlvs_bytes (l1 ++ l2) = tlvs_bytes l1 ++ tlvs_bytes l2.
Proof. unfold tlvs_bytes. by rewrite map_app, concat_app. Qed.
Lemma tlvs_bytes_ok l : Forall tlv_ok l -> bytes_ok (tlvs_bytes l).
Proof.
  induction 1 as [|[t v] l (Ht & Hn & Hv) _ IH]; [constructor|].
  unfold tlvs_bytes. cbn [map concat tlv_bytes fst snd app] in *. pose proof (zlen_nonneg v).
  constructor; [lia|]. constructor; [lia|]. by apply Forall_app.
Qed.

(** [cursor_at c rest]: the cursor is inside its buffer and [rest] is what it
    still has to deliver. *)
Definition cursor_at (c : xgl_wire_ext_cursor_t) (rest : bytes) : Prop :=
  exists b, c_buffer c = Ptr b /\ bytes_ok b /\ 0 <= c_offset c <= c_len c /\
    c_len c <= zlen b /\
    rest = take (Z.to_nat (c_len c - c_offset c)) (drop (Z.to_nat (c_offset c)) b).

Lemma cursor_init_at old b len :
  bytes_ok b -> 0 <= len <= zlen b ->
  exists c, xgl_wire_ext_cursor_init old (Ptr b) len = (XGL_OK, c) /\
    cursor_at c (take (Z.to_nat len) b).
Proof.
  intros Hb Hlen. exists (mk_cursor (Ptr b) len 0). split; [done|].
  exists b. cbn [c_buffer c_offset c_len]. rewrite Z.sub_0_r, drop_to_nat_0. split_and!; done || lia.
Qed.
Lemma cursor_at_zlen c rest : cursor_at c rest -> zlen rest = c_len c - c_offset c.
Proof.
  intros (b & _ & _ & ? & ? & ->). rewrite zlen_take; [done|]. rewrite zlen_drop; lia.
Qed.

(** What one call of [next] does, on every input. *)
Lemma cursor_next_spec c rest :
  cursor_at c rest ->
  match rest with
  | [] => xgl_wire_ext_cursor_next c = Some (XGL_ERR_NOT_FOUND, zero_wire_ext, c)
  | [_] => xgl_wire_ext_cursor_next c = Some (XGL_ERR_INVALID_FRAME, zero_wire_ext, c)
  | t :: n :: r =>
      if (t =? 0) || (zlen r <? n)
      then xgl_wire_ext_cursor_next c = Some (XGL_ERR_INVALID_FRAME, zero_wire_ext, c)
      else exists c',
        xgl_wire_ext_cursor_next c =
          Some (XGL_OK, mk_wire_ext t n (Ptr (take (Z.to_nat n) r)) true, c') /\
        cursor_at c' (drop (Z.to_nat n) r)
  end.
Proof.
  intros Hat. pose proof (cursor_at_zlen _ _ Hat) as Hlen.
  destruct Hat as (b & Hb & Hok & Hoff & Hfit & Hrest).
  unfold xgl_wire_ext_cursor_next, XGL_WIRE_EXT_HEADER_SIZE.
  destruct rest as [|t [|n r]].
  { rewrite zlen_nil in Hlen. by replace (_ =? _) with true by lia. }
  { rewrite zlen_cons, zlen_nil in Hlen. replace (_ =? _) with false by lia.
    by replace (_ <? _) with true by lia. }
  rewrite !zlen_cons in Hlen. pose proof (zlen_nonneg r).
  replace (c_offset c =? c_len c) with false by lia.
  replace (c_len c - c_offset c <? 2) with false by lia.
  assert (forall i, 0 <= i < c_len c - c_offset c ->
    rd b (c_offset c + i) = rd (t :: n :: r) i) as Hrd.
  { intros i Hi. rewrite Hrest, !rd_lookup by lia.
    rewrite lookup_take_lt, lookup_drop by lia. f_equal. lia. }
  unfold cursor_byte. rewrite Hb. cbn [mbind option_bind].
  pose proof (Hrd 0 ltac:(lia)) as H0. rewrite Z.add_0_r in H0. rewrite H0.
  rewrite (Hrd 1) by lia.
  change (rd (t :: n :: r) 0) with (Some t). change (rd (t :: n :: r) 1) with (Some n).
  cbn [mbind option_bind].
  assert (bytes_ok (t :: n :: r)) as Hokr by (rewrite Hrest; auto with xgl).
  rewrite !Forall_cons in Hokr. destruct Hokr as (Ht & Hn & Hr).
  replace (c_len c - c_offset c <? 2 + n) with (zlen r <? n) by lia.
  destruct ((t =? 0) || (zlen r <? n)) eqn:Hc; [done|].
  assert (r = take (Z.to_nat (c_len c - (c_offset c + 2))) (drop (Z.to_nat (c_offset c + 2)) b)) as Hr'.
  { apply (f_equal (drop 2)) in Hrest. change (drop 2 (t :: n :: r)) with r in Hrest.
    rewrite skipn_firstn_comm, drop_drop in Hrest.
    rewrite Hrest. f_equal; [lia|]. f_equal. lia. }
  eexists. split.
  - unfold cursor_bytes. rewrite Hb. cbn [mbind option_bind].
    rewrite rd_bytes_Some by lia. cbn [mbind option_bind].
    replace (take (Z.to_nat n) (drop (Z.to_nat (c_offset c + 2)) b)) with (take (Z.to_nat n) r);
      [reflexivity|]. rewrite Hr', take_take. f_equal. lia.
  - exists b. cbn. split_and!; try done; try lia.
    rewrite Hr' at 1. rewrite skipn_firstn_comm, drop_drop. f_equal; [lia|]. f_equal. lia.
Qed.

(** The loop every client of the cursor runs, collecting the extensions. *)
Fixpoint cursor_collect (fuel : nat) (c : xgl_wire_ext_cursor_t) : M (xgl_error_t * list tlv) :=
  match fuel with
  | O => None
  | S fuel =>
      '(err, ext, c) ← xgl_wire_ext_cursor_next c;
      match err with
      | XGL_OK =>
          value ← e_value ext;
          '(err, l) ← cursor_collect fuel c;
          ret (err, (e_type ext, value) :: l)
      | _ => ret (err, [])
      end
  end.
Lemma cursor_collect_spec fuel n c rest :
  cursor_at c rest -> (length rest <= n)%nat -> (length rest < fuel)%nat ->
  exists l, cursor_collect fuel c =
    Some (match parse_tlvs n rest with Some _ => XGL_ERR_NOT_FOUND | None => XGL_ERR_INVALID_FRAME end, l) /\
    (forall l', parse_tlvs n rest = Some l' -> l = l').
Proof.
  revert n c rest. induction fuel as [|fuel IH]; intros n c rest Hat Hn Hfuel; [lia|].
  pose proof (cursor_next_spec c rest Hat) as Hnext. destruct rest as [|t [|k r]].
  - cbn [cursor_collect]. rewrite Hnext. cbn. exists []. by destruct n; split; try done; intros ? [= <-].
  - cbn [cursor_collect]. rewrite Hnext. cbn. exists []. destruct n; done.
  - destruct n as [|n]; [cbn in Hn; lia|]. cbn [cursor_collect parse_tlvs].
    destruct ((t =? 0) || (zlen r <? k)).
    + rewrite Hnext. cbn. by exists [].
    + destruct Hnext as (c' & Hnext & Hat'). rewrite Hnext. cbn [mbind option_bind e_value e_type].
      edestruct (IH n c') as (l & Hl & Hl'); [exact Hat'| | |].
      1,2: rewrite length_drop; cbn in Hn, Hfuel; lia.
      rewrite Hl. destruct (parse_tlvs n _) as [l0|]; cbn.
      * specialize (Hl' l0 eq_refl) as ->. eexists. split; [done|]. by intros ? [= <-].
      * eexists. by split.
Qed.

Lemma encode_ext_run old rest size type v bw :
  length old = (2 + length v)%nat -> type <> 0 -> zlen v <= 255 -> 2 + zlen v <= size ->
  xgl_wire_encode_ext (old ++ rest) size type (Ptr v) (zlen v) bw =
    Some (XGL_OK, 2 + zlen v, tlv_bytes (type, v) ++ rest).
Proof.
  intros Hold Ht Hv Hsize. unfold xgl_wire_encode_ext, XGL_WIRE_EXT_HEADER_SIZE, UINT8_MAX.
  pose proof (zlen_nonneg v). replace (_ || _) with false by lia.
  replace (size <? _) with false by lia.
  rewrite !u8_small by lia. change (old ++ rest) with ([] ++ old ++ rest).
  assert (rd_bytes v 0 (zlen v) = Some v) as Hrd
    by (rewrite <- (app_nil_r v) at 1; by apply rd_bytes_prefix).
  assert (forall k : bytes -> M bytes,
    (b ← wr ([] ++ old ++ rest) 0 type; b ← wr b 1 (zlen v); k b) =
    k ([type; zlen v] ++ drop 2 old ++ rest)) as Hwr.
  { intros k. destruct old as [|o0 [|o1 old]]; [cbn in Hold; lia..|].
    rewrite <- wr_bytes_singleton, wr_bytes_next by (done || (cbn; lia)). cbn [mbind option_bind].
    rewrite <- wr_bytes_singleton, wr_bytes_next by (done || (cbn; lia)). done. }
  destruct (0 <? zlen v) eqn:Hpos.
  - rewrite Hrd. cbn [mbind option_bind].
    transitivity (b ← (b ← wr ([] ++ old ++ rest) 0 type; b ← wr b 1 (zlen v); wr_bytes b 2 v);
      ret (XGL_OK, 2 + zlen v, b)).
    { destruct (wr _ 0 _) as [b0|]; [cbn|done]. by destruct (wr b0 _ _). }
    rewrite Hwr, wr_bytes_next by (try done; rewrite length_drop; lia). cbn [mbind option_bind].
    rewrite drop_drop, drop_ge by lia. unfold tlv_bytes. cbn. done.
  - assert (v = []) as -> by (apply zlen_0_nil; lia).
    transitivity (b ← (b ← wr ([] ++ old ++ rest) 0 type; b ← wr b 1 0; ret b);
      ret (XGL_OK, 2 + zlen (@nil Z), b)).
    { destruct (wr _ 0 _) as [b0|]; [cbn|done]. by destruct (wr b0 _ _). }
    rewrite Hwr. cbn [mbind option_bind]. by rewrite drop_ge by (cbn in Hold; lia).
Qed.

(** The value may be followed by more of its buffer. *)
Lemma encode_ext_prefix buffer size type v rest bw :
  xgl_wire_encode_ext buffer size type (Ptr (v ++ rest)) (zlen v) bw =
  xgl_wire_encode_ext buffer size type (Ptr v) (zlen v) bw.
Proof.
  unfold xgl_wire_encode_ext. case_if; [done|]. case_if; [|done].
  assert (forall b, rd_bytes (v ++ b) 0 (zlen v) = Some v) as Hrd by (intros; by apply rd_bytes_prefix).
  rewrite Hrd. pose proof (Hrd []) as Hv. rewrite app_nil_r in Hv. by rewrite Hv.
Qed.

(** ** The canonical AAD *)
Definition has_frame_header (aad : bytes) : bool :=
  (24 <=? zlen aad) && bool_decide (aad !! 0%nat = Some XGL_WIRE_MAGIC_0) &&
  bool_decide (aad !! 1%nat = Some XGL_WIRE_MAGIC_1).
(** TTL and header CRC change on every hop: they are signed as zero. *)
Definition canon (aad : bytes) : bytes :=
  if has_frame_header aad then <[23%nat := 0]> (<[22%nat := 0]> (<[6%nat := 0]> aad)) else aad.

Lemma has_frame_header_spec buffer aad_len :
  0 <= aad_len <= zlen buffer ->
  wire_auth_aad_has_frame_header buffer aad_len =
    Some (has_frame_header (take (Z.to_nat aad_len) buffer)).
Proof.
  intros Hlen. unfold wire_auth_aad_has_frame_header, has_frame_header, XGL_WIRE_BASE_HEADER_SIZE.
  rewrite zlen_take by done. destruct (24 <=? aad_len) eqn:H24; [|done].
  destruct (rd_is_Some buffer 0) as [a0 H0]; [lia|]. destruct (rd_is_Some buffer 1) as [a1 H1]; [lia|].
  rewrite H0, H1. cbn [mbind option_bind]. rewrite rd_lookup in H0, H1 by lia.
  rewrite !lookup_take_lt by lia. change (Z.to_nat 0) with 0%nat in H0.
  change (Z.to_nat 1) with 1%nat in H1. rewrite H0, H1. cbn [andb].
  destruct (Z.eqb_spec a0 XGL_WIRE_MAGIC_0) as [->|].
  - rewrite bool_decide_eq_true_2 by done. cbn. f_equal.
    destruct (Z.eqb_spec a1 XGL_WIRE_MAGIC_1) as [->|];
      [by rewrite bool_decide_eq_true_2|by rewrite bool_decide_eq_false_2 by congruence].
  - by rewrite bool_decide_eq_false_2 by congruence.
Qed.

Lemma canon_length aad : length (canon aad) = length aad.
Proof. unfold canon. case_if; by rewrite ?length_insert. Qed.

Lemma canonical_aad_spec buffer aad_len :
  0 <= aad_len <= zlen buffer ->
  if has_frame_header (take (Z.to_nat aad_len) buffer) && (255 <? aad_len)
  then wire_auth_canonical_aad buffer aad_len (replicate 255 0) UINT8_MAX =
         Some (XGL_ERR_BUFFER_TOO_SMALL, buffer)
  else exists prepared,
    wire_auth_canonical_aad buffer aad_len (replicate 255 0) UINT8_MAX = Some (XGL_OK, prepared) /\
    rd_bytes prepared 0 aad_len = Some (canon (take (Z.to_nat aad_len) buffer)).
Proof.
  intros Hlen. unfold wire_auth_canonical_aad. rewrite has_frame_header_spec by done.
  cbn [mbind option_bind]. unfold canon.
  set (aad := take (Z.to_nat aad_len) buffer).
  assert (zlen aad = aad_len) as Hz by (by apply zlen_take).
  assert (rd_bytes buffer 0 aad_len = Some aad) as Hrd by (by rewrite rd_bytes_Some by lia).
  destruct (has_frame_header aad) eqn:Hh; cbn [andb negb].
  - unfold UINT8_MAX. destruct (255 <? aad_len) eqn:Hbig; [done|].
    rewrite Hrd. cbn [mbind option_bind].
    assert (24 <= aad_len) by (unfold has_frame_header in Hh; lia).
    rewrite <- (take_drop (length aad) (replicate 255 0)).
    rewrite wr_bytes_prefix
      by (rewrite ?length_take, ?length_replicate; unfold zlen in *; lia).
    cbn [mbind option_bind].
    rewrite !wr_Some by (autorewrite with zlen; pose proof (zlen_nonneg (drop (length aad) (replicate 255 0))); lia).
    cbn [mbind option_bind].
    rewrite !wr_Some by (autorewrite with zlen; pose proof (zlen_nonneg (drop (length aad) (replicate 255 0))); lia).
    cbn [mbind option_bind].
    rewrite !wr_Some by (autorewrite with zlen; pose proof (zlen_nonneg (drop (length aad) (replicate 255 0))); lia).
    cbn [mbind option_bind].
    change (Z.to_nat 6) with 6%nat. change (Z.to_nat 22) with 22%nat. change (Z.to_nat 23) with 23%nat.
    rewrite !insert_app_l by (rewrite ?length_insert; unfold zlen in *; lia).
    eexists. split; [done|]. apply rd_bytes_prefix. by autorewrite with zlen.
  - eexists. split; [done|]. exact Hrd.
Qed.

(** Changing the TTL and CRC bytes does not change the canonical AAD. *)
Lemma canon_hop_bytes aad x y z :
  has_frame_header aad = true ->
  canon (<[23%nat := z]> (<[22%nat := y]> (<[6%nat := x]> aad))) = canon aad.
Proof.
  intros Hh. unfold canon.
  assert (has_frame_header (<[23%nat := z]> (<[22%nat := y]> (<[6%nat := x]> aad))) = true) as Hh'.
  { unfold has_frame_header in *. rewrite !zlen_insert.
    by rewrite !list_lookup_insert_ne by lia. }
  rewrite Hh, Hh'.
  apply list_eq. intros i.
  destruct (decide (i = 23%nat)) as [->|].
  { destruct (decide (23 < length aad)%nat); [|by rewrite !lookup_ge_None_2 by (rewrite !length_insert; lia)].
    by rewrite !list_lookup_insert_eq by (rewrite ?length_insert; lia). }
  rewrite !(list_lookup_insert_ne _ 23) by done.
  destruct (decide (i = 22%nat)) as [->|].
  { destruct (decide (22 < length aad)%nat); [|by rewrite !lookup_ge_None_2 by (rewrite !length_insert; lia)].
    by rewrite !list_lookup_insert_eq by (rewrite ?length_insert; lia). }
  rewrite !(list_lookup_insert_ne _ 22) by done.
  destruct (decide (i = 6%nat)) as [->|].
  { destruct (decide (6 < length aad)%nat); [|by rewrite !lookup_ge_None_2 by (rewrite !length_insert; lia)].
    by rewrite !list_lookup_insert_eq by (rewrite ?length_insert; lia). }
  by rewrite !list_lookup_insert_ne by done.
Qed.

(** Both trailer functions on a frame of the right shape: the callback sees the
    canonical AAD, the payload and the tag. *)
Lemma append_auth_run buffer size aad_len payload_len key flen p sign tag :
  ap_sign p = Ptr sign -> 1 <= ap_tag_len p <= XGL_AUTH_TAG_MAX_LEN ->
  size <= zlen buffer -> 0 <= aad_len -> 0 <= payload_len ->
  (has_frame_header (take (Z.to_nat aad_len) buffer) = true -> aad_len <= 255) ->
  let off := aad_len + payload_len in
  off + ap_tag_len p <= size -> zlen tag = ap_tag_len p ->
  sign key (canon (take (Z.to_nat aad_len) buffer)) (slice buffer aad_len payload_len) (size - off)
    = (XGL_OK, tag, ap_tag_len p) ->
  xgl_wire_append_auth_trailer buffer size aad_len payload_len key (Ptr p) flen =
    Some (XGL_OK, off + ap_tag_len p,
          take (Z.to_nat off) buffer ++ tag ++ drop (Z.to_nat (off + ap_tag_len p)) buffer).
Proof.
  intros Hsign Htag Hsize Haad Hpl Hhdr off Hfit Htl Hs.
  unfold xgl_wire_append_auth_trailer. rewrite Hsign. unfold XGL_AUTH_TAG_MAX_LEN in *. fold off.
  replace ((ap_tag_len p =? 0) || (32 <? ap_tag_len p)) with false by lia.
  replace (size <? off) with false by lia.
  replace (size - off <? ap_tag_len p) with false by lia.
  pose proof (canonical_aad_spec buffer aad_len ltac:(lia)) as Hcan.
  replace (_ && (255 <? aad_len)) with false in Hcan
    by (destruct (has_frame_header _); [specialize (Hhdr eq_refl); lia|done]).
  destruct Hcan as (prepared & -> & Hprep). cbn [mbind option_bind is_ok negb].
  rewrite Hprep. cbn [mbind option_bind]. rewrite rd_bytes_Some by lia. cbn [mbind option_bind].
  rewrite Hs, wr_bytes_Some by lia. cbn [mbind option_bind is_ok negb].
  rewrite Z.eqb_refl, Htl. cbn [negb].
  by replace ((ap_tag_len p =? 0) || (size <? off + ap_tag_len p)) with false by lia.
Qed.

Lemma verify_auth_run buffer n aad_len payload_len key p verify v :
  ap_verify p = Ptr verify -> 1 <= ap_tag_len p <= XGL_AUTH_TAG_MAX_LEN ->
  n = aad_len + payload_len + ap_tag_len p -> n <= zlen buffer -> 0 <= aad_len -> 0 <= payload_len ->
  (has_frame_header (take (Z.to_nat aad_len) buffer) = true -> aad_len <= 255) ->
  xgl_wire_verify_auth_trailer buffer n aad_len payload_len key (Ptr p) v =
    Some (verify key (canon (take (Z.to_nat aad_len) buffer)) (slice buffer aad_len payload_len)
            (slice buffer (aad_len + payload_len) (ap_tag_len p))).
Proof.
  intros Hverify Htag -> Hn Haad Hpl Hhdr. set (off := aad_len + payload_len) in *.
  unfold xgl_wire_verify_auth_trailer. rewrite Hverify. unfold XGL_AUTH_TAG_MAX_LEN in *. fold off.
  replace ((ap_tag_len p =? 0) || (32 <? ap_tag_len p)) with false by lia.
  replace (off + ap_tag_len p - off) with (ap_tag_len p) by lia. rewrite Z.eqb_refl. cbn [negb].
  replace (off + ap_tag_len p <=? off) with false by lia.
  pose proof (canonical_aad_spec buffer aad_len ltac:(lia)) as Hcan.
  replace (_ && (255 <? aad_len)) with false in Hcan
    by (destruct (has_frame_header _); [specialize (Hhdr eq_refl); lia|done]).
  destruct Hcan as (prepared & -> & Hprep). cbn [mbind option_bind is_ok negb].
  rewrite Hprep. cbn [mbind option_bind]. by rewrite !rd_bytes_Some by lia.
Qed.

(** A hop changes only header bytes that the canonical AAD hides. *)
Definition hop (x y z : Z) (frame : bytes) : bytes :=
  <[23%nat := z]> (<[22%nat := y]> (<[6%nat := x]> frame)).
Lemma hop_zlen x y z frame : zlen (hop x y z frame) = zlen frame.
Proof. unfold hop. by rewrite !zlen_insert. Qed.
Lemma hop_take x y z frame n :
  24 <= n -> take (Z.to_nat n) (hop x y z frame) = hop x y z (take (Z.to_nat n) frame).
Proof. intros. unfold hop. by rewrite !take_insert_lt by lia. Qed.
Lemma hop_drop x y z frame n :
  24 <= n -> drop (Z.to_nat n) (hop x y z frame) = drop (Z.to_nat n) frame.
Proof. intros. unfold hop. by rewrite !drop_insert_lt by lia. Qed.
Lemma hop_has_frame_header x y z aad :
  has_frame_header (hop x y z aad) = has_frame_header aad.
Proof.
  unfold has_frame_header. rewrite hop_zlen. unfold hop.
  by rewrite !list_lookup_insert_ne by lia.
Qed.

(** ** Properties *)

(** C18. Header round trip: for a header whose fields fit their C types and that
    passes the encoder's checks, [xgl_wire_encode_header] writes exactly 24
    bytes and leaves the rest of the buffer alone, and
    [xgl_wire_decode_header] gives back every field, with the CRC filled in;
    a short buffer and a rejected header leave the buffer unchanged. *)
Theorem header_encode_decode_roundtrip (buffer : bytes) (size : Z) (h old : xgl_wire_header_t) :
  bytes_ok buffer -> size <= zlen buffer -> wire_header_ok h = true ->
  if size <? 24
  then xgl_wire_encode_header buffer size h = Some (XGL_ERR_BUFFER_TOO_SMALL, buffer)
  else if wire_header_rejected h
  then xgl_wire_encode_header buffer size h = Some (XGL_ERR_INVALID_PARAM, buffer)
  else exists written, length written = 24%nat /\ bytes_ok written /\
    xgl_wire_encode_header buffer size h = Some (XGL_OK, written ++ drop 24 buffer) /\
    xgl_wire_decode_header old (written ++ drop 24 buffer) size =
      Some (XGL_OK, h <| wh_header_crc16 := header_crc h |>).
Proof.
  intros Hb Hs Hok. pose proof (encode_header_spec buffer size h Hs Hok) as Henc.
  destruct (size <? 24) eqn:Hsz; [done|]. destruct (wire_header_rejected h) eqn:Hr; [done|].
  exists (header_bytes h). split_and!; [done|by apply header_bytes_ok|done|].
  apply decode_header_bytes; auto with xgl. lia.
Qed.
Lemma header_encode_decode_roundtrip_witness :
  let h := mk_wire_header 2 24 1 0 8 0 1 2 7 42 3 0 in
  exists written, length written = 24%nat /\ bytes_ok written /\
    xgl_wire_encode_header (replicate 24 0) 24 h = Some (XGL_OK, written ++ []) /\
    xgl_wire_decode_header zero_wire_header (written ++ []) 24 =
      Some (XGL_OK, h <| wh_header_crc16 := header_crc h |>).
Proof.
  exact (header_encode_decode_roundtrip (replicate 24 0) 24 (mk_wire_header 2 24 1 0 8 0 1 2 7 42 3 0)
    zero_wire_header ltac:(repeat constructor; lia) ltac:(vm_compute; congruence) eq_refl).
Defined.

(** Canonicity and memory safety of the header decoder: it never reads
    outside the buffer, whatever the bytes, and what it accepts is exactly the
    image of the encoder: the 24 bytes are the encoding of the header it
    returns, whose fields fit their types and pass the semantic checks. *)
Theorem header_decode_canonical (old : xgl_wire_header_t) (buffer : bytes) (size : Z) :
  bytes_ok buffer -> size <= zlen buffer ->
  exists err h, xgl_wire_decode_header old buffer size = Some (err, h) /\
    (err = XGL_OK ->
       wire_header_ok h = true /\ wire_header_rejected h = false /\
       xgl_wire_encode_header buffer size h = Some (XGL_OK, buffer)).
Proof.
  intros Hok Hsize. destruct (xgl_wire_decode_header old buffer size) as [[err h]|] eqn:Hd.
  2: by destruct (decode_header_safe old buffer size Hok Hsize).
  exists err, h. split; [done|]. intros ->.
  apply decode_header_inv in Hd as (Hs & Hh & Hr & _ & Hb); try done.
  split_and!; try done. rewrite encode_header_spec, Hr by done.
  replace (size <? 24) with false by lia. by rewrite <- Hb, take_drop.
Qed.
Lemma header_decode_canonical_witness :
  exists err h, xgl_wire_decode_header zero_wire_header (replicate 30 7) 30 = Some (err, h) /\
    (err = XGL_OK -> wire_header_ok h = true /\ wire_header_rejected h = false /\
       xgl_wire_encode_header (replicate 30 7) 30 h = Some (XGL_OK, replicate 30 7)).
Proof.
  exact (header_decode_canonical zero_wire_header (replicate 30 7) 30
    ltac:(repeat constructor; lia) ltac:(vm_compute; congruence)).
Defined.

(** C19. Corruption of a header is rejected: if an accepted header is changed in a
    window of at most two consecutive bytes, either inside its first 22 bytes
    or inside the CRC field, the decoder does not accept the result. *)
Theorem header_corruption_rejected (old : xgl_wire_header_t) (pre m1 m2 post : bytes)
    (size : Z) (h h' : xgl_wire_header_t) :
  bytes_ok (pre ++ m1 ++ post) -> bytes_ok m2 -> length m1 = length m2 -> (length m1 <= 2)%nat ->
  (length pre + length m1 <= 22)%nat \/ (length pre = 22)%nat ->
  size <= zlen (pre ++ m1 ++ post) -> m1 <> m2 ->
  xgl_wire_decode_header old (pre ++ m1 ++ post) size = Some (XGL_OK, h) ->
  xgl_wire_decode_header old (pre ++ m2 ++ post) size <> Some (XGL_OK, h').
Proof.
  intros Hok Hok2 Hl Hn Hwin Hsize Hne D1 D2. apply Hne.
  assert (bytes_ok (pre ++ m2 ++ post)) as Hok2'.
  { apply Forall_app in Hok as [? [_ ?]%Forall_app]. by rewrite !Forall_app. }
  assert (zlen (pre ++ m2 ++ post) = zlen (pre ++ m1 ++ post)) as Hz
    by (unfold zlen; rewrite !length_app; lia).
  apply decode_header_inv in D1 as (Hs & Hh & _ & _ & B1); try done.
  apply decode_header_inv in D2 as (_ & Hh' & _ & _ & B2); try done; [|lia].
  assert (length (pre ++ m1 ++ post) >= 24)%nat as Hlen by (unfold zlen in *; lia).
  rewrite !length_app in Hlen. unfold header_bytes in B1, B2.
  destruct Hwin as [Hwin|Hwin].
  - (* inside the prefix: the same CRC over two prefixes *)
    replace post with (take (22 - length pre - length m1) post ++
      drop (22 - length pre - length m1) post) in B1, B2 by apply take_drop.
    set (p1 := take _ post) in *. set (p2 := drop _ post) in *.
    assert (length p1 = 22 - length pre - length m1)%nat as Hp1 by (unfold p1; rewrite length_take; lia).
    rewrite take_app_ge, take_app_ge, take_app_ge in B1, B2 by lia.
    rewrite !app_assoc in B1, B2.
    apply app_inj_1 in B1 as [P1 C1]; [|rewrite !length_app, header_prefix_length; lia].
    apply app_inj_1 in B2 as [P2 C2]; [|rewrite !length_app, header_prefix_length; lia].
    rewrite <- Hl in C2. rewrite C2 in C1. apply (f_equal le_value) in C1.
    rewrite !le_value_u16 in C1 by (by apply header_crc_range).
    unfold header_crc in C1. rewrite <- P1, <- P2, <- !app_assoc, !crc16_app in C1.
    rewrite !Forall_app in Hok, Hok2'. destruct Hok as (Hp & Hm & Hpost).
    assert (bytes_ok p1) as Hp1ok by (unfold p1; auto with xgl).
    pose proof (crc16_range 65535 pre ltac:(lia) Hp) as R0.
    pose proof (crc16_range _ m1 R0 Hm) as R1. pose proof (crc16_range _ m2 R0 Hok2) as R2.
    pose proof (crc16_range _ p1 R1 Hp1ok) as R3. pose proof (crc16_range _ p1 R2 Hp1ok) as R4.
    apply crc16_suffix_inj in C1; [|done|done|repeat constructor; lia].
    apply crc16_suffix_inj in C1; [|done|done|done].
    symmetry in C1. by apply crc16_burst_inj in C1.
  - (* inside the CRC field *)
    rewrite take_app_ge in B1, B2 by lia.
    apply app_inj_1 in B1 as [P1 C1]; [|done]. apply app_inj_1 in B2 as [P2 C2]; [|done].
    assert (header_crc h = header_crc h') as E by (unfold header_crc; congruence).
    rewrite E, <- C2, Hwin, !take_app in C1. rewrite !(take_ge m1), !(take_ge m2) in C1 by lia.
    by apply app_inj_1 in C1 as [C1 _]; [|done].
Qed.
Lemma header_corruption_rejected_witness :
  let good := header_bytes (mk_wire_header 2 24 1 0 8 0 1 2 7 42 3 0) in
  xgl_wire_decode_header zero_wire_header (take 6 good ++ [9] ++ drop 7 good) 24 <>
    Some (XGL_OK, zero_wire_header).
Proof.
  exact (header_corruption_rejected zero_wire_header
    (take 6 (header_bytes (mk_wire_header 2 24 1 0 8 0 1 2 7 42 3 0))) [8] [9]
    (drop 7 (header_bytes (mk_wire_header 2 24 1 0 8 0 1 2 7 42 3 0))) 24
    (mk_wire_header 2 24 1 0 8 0 1 2 7 42 3 (header_crc (mk_wire_header 2 24 1 0 8 0 1 2 7 42 3 0)))
    zero_wire_header
    ltac:(apply (header_bytes_ok (mk_wire_header 2 24 1 0 8 0 1 2 7 42 3 0)); reflexivity)
    ltac:(repeat constructor; lia) eq_refl ltac:(cbn; lia) ltac:(cbn; lia)
    ltac:(vm_compute; congruence) ltac:(congruence) ltac:(vm_compute; reflexivity)).
Defined.

(** C26. The extension cursor is total and exact: on any bytes the loop over
    [xgl_wire_ext_cursor_next] ends within one step per byte without reading
    outside the buffer, with NOT_FOUND after delivering exactly the TLVs the
    bytes encode, or with INVALID_FRAME when they encode none; and it reads
    back whatever list of TLVs was encoded. *)
Theorem ext_cursor_total_and_exact (old : xgl_wire_ext_cursor_t) (buf : bytes) (l : list tlv) :
  bytes_ok buf -> Forall tlv_ok l ->
  (exists c, xgl_wire_ext_cursor_init old (Ptr buf) (zlen buf) = (XGL_OK, c) /\
   exists err out, cursor_collect (S (length buf)) c = Some (err, out) /\
     (err = XGL_ERR_NOT_FOUND /\ tlvs_bytes out = buf /\ Forall tlv_ok out \/
      err = XGL_ERR_INVALID_FRAME /\ (forall l', Forall tlv_ok l' -> tlvs_bytes l' <> buf))) /\
  (exists c, xgl_wire_ext_cursor_init old (Ptr (tlvs_bytes l)) (zlen (tlvs_bytes l)) = (XGL_OK, c) /\
     cursor_collect (S (length (tlvs_bytes l))) c = Some (XGL_ERR_NOT_FOUND, l)).
Proof.
  intros Hok Hl.
  assert (forall b, bytes_ok b -> exists c,
    xgl_wire_ext_cursor_init old (Ptr b) (zlen b) = (XGL_OK, c) /\
    exists out, cursor_collect (S (length b)) c =
      Some (match parse_exts b with Some _ => XGL_ERR_NOT_FOUND | None => XGL_ERR_INVALID_FRAME end, out) /\
      (forall l', parse_exts b = Some l' -> out = l')) as Hrun.
  { intros b Hb. destruct (cursor_init_at old b (zlen b) Hb) as (c & Hc & Hat);
      [pose proof (zlen_nonneg b); lia|].
    exists c. split; [done|]. rewrite take_to_nat in Hat by done.
    apply cursor_collect_spec; [done|lia|lia]. }
  split.
  - destruct (Hrun buf Hok) as (c & Hc & out & Hcol & Hout). exists c. split; [done|].
    eexists _, out. split; [done|]. destruct (parse_exts buf) as [l'|] eqn:Hp.
    + left. rewrite (Hout l' eq_refl). apply parse_tlvs_sound in Hp as [-> ?]; done.
    + right. split; [done|]. intros l' Hl' <-. unfold parse_exts in Hp.
      by rewrite parse_tlvs_encode in Hp.
  - destruct (Hrun (tlvs_bytes l) (tlvs_bytes_ok l Hl)) as (c & Hc & out & Hcol & Hout).
    exists c. split; [done|].
    assert (parse_exts (tlvs_bytes l) = Some l) as Hp by (by apply parse_tlvs_encode).
    rewrite Hp in Hcol, Hout. by rewrite (Hout l eq_refl) in Hcol.
Qed.
Lemma ext_cursor_total_and_exact_witness :
  (exists c, xgl_wire_ext_cursor_init (mk_cursor NULL 0 0) (Ptr [8; 1; 3; 2; 9]) 5 = (XGL_OK, c) /\
   exists err out, cursor_collect 6 c = Some (err, out) /\
     (err = XGL_ERR_NOT_FOUND /\ tlvs_bytes out = [8; 1; 3; 2; 9] /\ Forall tlv_ok out \/
      err = XGL_ERR_INVALID_FRAME /\
      (forall l', Forall tlv_ok l' -> tlvs_bytes l' <> [8; 1; 3; 2; 9]))) /\
  (exists c, xgl_wire_ext_cursor_init (mk_cursor NULL 0 0) (Ptr [8; 1; 3]) 3 = (XGL_OK, c) /\
     cursor_collect 4 c = Some (XGL_ERR_NOT_FOUND, [(8, [3])])).
Proof.
  exact (ext_cursor_total_and_exact (mk_cursor NULL 0 0) [8; 1; 3; 2; 9] [(8, [3])]
    ltac:(repeat constructor; lia)
    ltac:(repeat constructor; cbn; try lia; vm_compute; congruence)).
Defined.

(** The law an authentication provider is documented to have: with room for a
    tag, [sign] writes a tag of the fixed length that [verify] accepts on the
    same key, AAD and payload. *)
Definition provider_sound (p : xgl_auth_provider_t) : Prop :=
  1 <= ap_tag_len p <= XGL_AUTH_TAG_MAX_LEN /\
  exists sign verify, ap_sign p = Ptr sign /\ ap_verify p = Ptr verify /\
    forall key aad payload room, ap_tag_len p <= room ->
      exists tag, sign key aad payload room = (XGL_OK, tag, ap_tag_len p) /\
        zlen tag = ap_tag_len p /\ bytes_ok tag /\ verify key aad payload tag = (XGL_OK, true).

(** C20. Authentication survives forwarding: a frame signed by
    [xgl_wire_append_auth_trailer] keeps its header and payload bytes, gets
    the tag behind them, and still verifies after a hop has changed the TTL
    byte and recomputed the two bytes of the header CRC to anything. *)
Theorem auth_trailer_survives_hops (buffer : bytes)
    (size aad_len payload_len key flen x y z : Z) (p : xgl_auth_provider_t) :
  provider_sound p -> size <= zlen buffer -> 24 <= aad_len <= 255 -> 0 <= payload_len ->
  has_frame_header (take (Z.to_nat aad_len) buffer) = true ->
  aad_len + payload_len + ap_tag_len p <= size ->
  exists frame n,
    xgl_wire_append_auth_trailer buffer size aad_len payload_len key (Ptr p) flen =
      Some (XGL_OK, n, frame) /\
    n = aad_len + payload_len + ap_tag_len p /\
    take (Z.to_nat (aad_len + payload_len)) frame = take (Z.to_nat (aad_len + payload_len)) buffer /\
    xgl_wire_verify_auth_trailer (hop x y z frame) n aad_len payload_len key (Ptr p) false
      = Some (XGL_OK, true).
Proof.
  intros (Htag & sign & verify & Hsign & Hverify & Hlaw) Hsize Haad Hpl Hhdr Hfit.
  destruct (Hlaw key (canon (take (Z.to_nat aad_len) buffer)) (slice buffer aad_len payload_len)
    (size - (aad_len + payload_len)) ltac:(lia)) as (tag & Hs & Htl & _ & Hv).
  set (off := aad_len + payload_len) in *.
  set (frame := take (Z.to_nat off) buffer ++ tag ++ drop (Z.to_nat (off + ap_tag_len p)) buffer).
  assert (zlen frame = zlen buffer) as Hfz
    by (unfold frame; rewrite !zlen_app, zlen_take, zlen_drop by lia; lia).
  assert (length (take (Z.to_nat off) buffer) = Z.to_nat off) as Hlt
    by (rewrite length_take; unfold zlen in *; lia).
  assert (take (Z.to_nat off) frame = take (Z.to_nat off) buffer) as Htk
    by (by apply take_app_length').
  assert (take (Z.to_nat aad_len) frame = take (Z.to_nat aad_len) buffer) as Hta.
  { apply (f_equal (take (Z.to_nat aad_len))) in Htk. rewrite !take_take in Htk.
    by replace (Z.to_nat aad_len `min` Z.to_nat off)%nat with (Z.to_nat aad_len) in Htk by lia. }
  exists frame, (off + ap_tag_len p). split_and!; [|done|done|].
  { eapply append_auth_run; try done; lia. }
  rewrite (verify_auth_run _ _ _ _ _ _ verify); rewrite ?hop_zlen; try done; try lia.
  rewrite hop_take, !hop_drop, Hta by lia. unfold hop at 1. rewrite canon_hop_bytes by done.
  rewrite <- Hv. f_equal. f_equal.
  - apply (f_equal (drop (Z.to_nat aad_len))) in Htk. rewrite !skipn_firstn_comm in Htk.
    by replace (Z.to_nat off - Z.to_nat aad_len)%nat with (Z.to_nat payload_len) in Htk by lia.
  - fold off. unfold frame. rewrite drop_app_length' by done. apply take_app_length'.
    unfold zlen in *. lia.
Qed.

Definition xor_provider : xgl_auth_provider_t :=
  let mac key aad payload := [u8 (fold_left Z.lxor (aad ++ payload) (u8 key))] in
  mk_auth_provider
    (Ptr (fun key aad payload room => (XGL_OK, mac key aad payload, 1)))
    (Ptr (fun key aad payload tag => (XGL_OK, bool_decide (tag = mac key aad payload)))) 1.
Lemma xor_provider_sound : provider_sound xor_provider.
Proof.
  split; [vm_compute; split; congruence|]. eexists _, _. split_and!; [done|done|].
  intros key aad payload room _. eexists. split_and!; [done|done| |].
  - constructor; [apply u8_range|constructor].
  - by rewrite bool_decide_eq_true_2.
Defined.
Lemma auth_trailer_survives_hops_witness :
  let h := header_bytes (mk_wire_header 2 24 1 16 8 0 1 2 7 42 3 0) in
  exists frame n,
    xgl_wire_append_auth_trailer (h ++ [1; 2; 3; 0]) 28 24 3 77 (Ptr xor_provider) 0 =
      Some (XGL_OK, n, frame) /\ n = 24 + 3 + 1 /\
    take (Z.to_nat (24 + 3)) frame = take (Z.to_nat (24 + 3)) (h ++ [1; 2; 3; 0]) /\
    xgl_wire_verify_auth_trailer (hop 7 8 9 frame) n 24 3 77 (Ptr xor_provider) false = Some (XGL_OK, true).
Proof.
  exact (auth_trailer_survives_hops
    (header_bytes (mk_wire_header 2 24 1 16 8 0 1 2 7 42 3 0) ++ [1; 2; 3; 0]) 28 24 3 77 0 7 8 9
    xor_provider xor_provider_sound ltac:(vm_compute; congruence) ltac:(lia) ltac:(lia)
    ltac:(vm_compute; reflexivity) ltac:(vm_compute; congruence)).
Defined.

(** The CRC of a header is never computed symbolically. *)
#[global] Opaque header_crc.
