(* ===== verification/WireExt.v ===== *)
(** * Extension values (src/wire/xgl_wire_ext.c, src/wire/xgl_wire_ack_ext.c)

    The codecs of the values carried in TLV extensions: fragment, session,
    security, route, ACK ranges and SACK bitmap.  Each writer is shown to emit
    a fixed layout in front of an untouched rest, each reader to accept exactly
    that layout. *)
From S2P Require Import Prelude Errors Serialize Wire.

(** ** 64-bit integers *)

(** src/src/wire/xgl_wire_ext.c:9-13: wire_serialize_u64_le *)
Fixpoint serialize_u64_loop (n : nat) (i : Z) (buffer : bytes) (off value : Z) : M bytes :=
  match n with
  | O => ret buffer
  | S n =>
      buffer ← wr buffer (off + i) (u8 (Z.land (Z.shiftr value (8 * i)) 0xFF));
      serialize_u64_loop n (i + 1) buffer off value
  end.
(** src/src/wire/xgl_wire_ext.c:9-13: wire_serialize_u64_le *)
Definition wire_serialize_u64_le (buffer : bytes) (off value : Z) : M bytes :=
  serialize_u64_loop 8 0 buffer off value.

(** src/src/wire/xgl_wire_ext.c:15-21: wire_deserialize_u64_le *)
Fixpoint deserialize_u64_loop (n : nat) (i : Z) (value : Z) (buffer : bytes) (off : Z) : M Z :=
  match n with
  | O => ret value
  | S n =>
      b ← rd buffer (off + i);
      deserialize_u64_loop n (i + 1) (Z.lor value (u64 (Z.shiftl b (8 * i)))) buffer off
  end.
(** src/src/wire/xgl_wire_ext.c:15-21: wire_deserialize_u64_le *)
Definition wire_deserialize_u64_le (buffer : bytes) (off : Z) : M Z :=
  deserialize_u64_loop 8 0 0 buffer off.

(** ** Fragment, session, security and route values

    Every writer returns (error, [*bytes_written], buffer); every reader
    returns its out-parameters, [None] where they are left unassigned. *)

(** src/src/wire/xgl_wire_ext.c:23-43: xgl_wire_encode_fragment_ext_value *)
Definition xgl_wire_encode_fragment_ext_value (buffer : bytes)
    (buffer_size message_id fragment_offset message_len bytes_written : Z)
    : M (xgl_error_t * Z * bytes) :=
  if buffer_size <? XGL_FRAGMENT_EXT_VALUE_SIZE
  then ret (XGL_ERR_BUFFER_TOO_SMALL, bytes_written, buffer)
  else
    buffer ← xgl_serialize_u32_le buffer 0 message_id;
    buffer ← xgl_serialize_u32_le buffer 4 fragment_offset;
    buffer ← xgl_serialize_u32_le buffer 8 message_len;
    ret (XGL_OK, XGL_FRAGMENT_EXT_VALUE_SIZE, buffer).

(** src/src/wire/xgl_wire_ext.c:45-64: xgl_wire_decode_fragment_ext_value *)
Definition xgl_wire_decode_fragment_ext_value (buffer : bytes) (buffer_size : Z)
    : M (xgl_error_t * option (Z * Z * Z)) :=
  if negb (buffer_size =? XGL_FRAGMENT_EXT_VALUE_SIZE) then ret (XGL_ERR_INVALID_FRAME, None)
  else
    message_id ← xgl_deserialize_u32_le buffer 0;
    fragment_offset ← xgl_deserialize_u32_le buffer 4;
    message_len ← xgl_deserialize_u32_le buffer 8;
    ret (XGL_OK, Some (message_id, fragment_offset, message_len)).

(** src/src/wire/xgl_wire_ext.c:66-84: xgl_wire_encode_session_ext_value *)
Definition xgl_wire_encode_session_ext_value (buffer : bytes)
    (buffer_size session_epoch incarnation_id bytes_written : Z) : M (xgl_error_t * Z * bytes) :=
  if buffer_size <? XGL_SESSION_EXT_VALUE_SIZE
  then ret (XGL_ERR_BUFFER_TOO_SMALL, bytes_written, buffer)
  else
    buffer ← xgl_serialize_u32_le buffer 0 session_epoch;
    buffer ← wire_serialize_u64_le buffer 4 incarnation_id;
    ret (XGL_OK, XGL_SESSION_EXT_VALUE_SIZE, buffer).

(** src/src/wire/xgl_wire_ext.c:86-102: xgl_wire_decode_session_ext_value *)
Definition xgl_wire_decode_session_ext_value (buffer : bytes) (buffer_size : Z)
    : M (xgl_error_t * option (Z * Z)) :=
  if negb (buffer_size =? XGL_SESSION_EXT_VALUE_SIZE) then ret (XGL_ERR_INVALID_FRAME, None)
  else
    session_epoch ← xgl_deserialize_u32_le buffer 0;
    incarnation_id ← wire_deserialize_u64_le buffer 4;
    ret (XGL_OK, Some (session_epoch, incarnation_id)).

(** src/src/wire/xgl_wire_ext.c:104-128: xgl_wire_encode_security_ext_value *)
Definition xgl_wire_encode_security_ext_value (buffer : bytes)
    (buffer_size key_id nonce_id tag_len bytes_written : Z) : M (xgl_error_t * Z * bytes) :=
  if tag_len =? 0 then ret (XGL_ERR_INVALID_PARAM, bytes_written, buffer)
  else if buffer_size <? 13 then ret (XGL_ERR_BUFFER_TOO_SMALL, bytes_written, buffer)
  else
    buffer ← xgl_serialize_u32_le buffer 0 key_id;
    buffer ← wire_serialize_u64_le buffer 4 nonce_id;
    buffer ← wr buffer 12 tag_len;
    ret (XGL_OK, 13, buffer).

(** src/src/wire/xgl_wire_ext.c:130-151: xgl_wire_decode_security_ext_value *)
Definition xgl_wire_decode_security_ext_value (buffer : bytes) (buffer_size : Z)
    : M (xgl_error_t * option (Z * Z * Z)) :=
  if negb (buffer_size =? 13) then ret (XGL_ERR_INVALID_FRAME, None)
  else
    key_id ← xgl_deserialize_u32_le buffer 0;
    nonce_id ← wire_deserialize_u64_le buffer 4;
    tag_len ← rd buffer 12;
    if tag_len =? 0 then ret (XGL_ERR_INVALID_FRAME, Some (key_id, nonce_id, tag_len))
    else ret (XGL_OK, Some (key_id, nonce_id, tag_len)).

(** src/src/wire/xgl_wire_ext.c:153-175: xgl_wire_encode_route_ext_value *)
Definition xgl_wire_encode_route_ext_value (buffer : bytes)
    (buffer_size previous_hop next_hop route_epoch metric bytes_written : Z)
    : M (xgl_error_t * Z * bytes) :=
  if buffer_size <? 10 then ret (XGL_ERR_BUFFER_TOO_SMALL, bytes_written, buffer)
  else
    buffer ← xgl_serialize_u16_le buffer 0 previous_hop;
    buffer ← xgl_serialize_u16_le buffer 2 next_hop;
    buffer ← xgl_serialize_u32_le buffer 4 route_epoch;
    buffer ← xgl_serialize_u16_le buffer 8 metric;
    ret (XGL_OK, 10, buffer).

(** src/src/wire/xgl_wire_ext.c:177-198: xgl_wire_decode_route_ext_value *)
Definition xgl_wire_decode_route_ext_value (buffer : bytes) (buffer_size : Z)
    : M (xgl_error_t * option (Z * Z * Z * Z)) :=
  if negb (buffer_size =? 10) then ret (XGL_ERR_INVALID_FRAME, None)
  else
    previous_hop ← xgl_deserialize_u16_le buffer 0;
    next_hop ← xgl_deserialize_u16_le buffer 2;
    route_epoch ← xgl_deserialize_u32_le buffer 4;
    metric ← xgl_deserialize_u16_le buffer 8;
    ret (XGL_OK, Some (previous_hop, next_hop, route_epoch, metric)).

(** ** ACK ranges and SACK bitmap *)

(** src/include/xgl/internal/xgl_wire.h:88-91: xgl_wire_ack_range_t *)
Record xgl_wire_ack_range_t := mk_ack_range { ar_gap : Z; ar_length : Z }.
#[export] Instance eta_ack_range : EtaRecord xgl_wire_ack_range_t := Eta (fun r =>
  mk_ack_range (ar_gap r) (ar_length r)).

(** src/src/wire/xgl_wire_ack_ext.c:38-43: xgl_wire_encode_ack_range_ext_value *)
Fixpoint encode_ranges (n : nat) (i offset : Z) (buffer : bytes)
    (ranges : list xgl_wire_ack_range_t) : M bytes :=
  match n with
  | O => ret buffer
  | S n =>
      r ← rd ranges i;
      buffer ← xgl_serialize_u16_le buffer offset (ar_gap r);
      buffer ← xgl_serialize_u16_le buffer (offset + 2) (ar_length r);
      encode_ranges n (i + 1) (offset + 4) buffer ranges
  end.

(** src/src/wire/xgl_wire_ack_ext.c:10-47: xgl_wire_encode_ack_range_ext_value *)
Definition xgl_wire_encode_ack_range_ext_value (buffer : bytes)
    (buffer_size largest_ack ack_delay_us : Z) (ranges : ptr (list xgl_wire_ack_range_t))
    (range_count bytes_written : Z) : M (xgl_error_t * Z * bytes) :=
  if (0 <? range_count) && bool_decide (ranges = NULL)
  then ret (XGL_ERR_NULL_POINTER, bytes_written, buffer)
  else
    let required_size := 9 + range_count * 4 in
    if UINT8_MAX <? required_size then ret (XGL_ERR_INVALID_PARAM, bytes_written, buffer)
    else if buffer_size <? required_size
    then ret (XGL_ERR_BUFFER_TOO_SMALL, bytes_written, buffer)
    else
      buffer ← xgl_serialize_u32_le buffer 0 largest_ack;
      buffer ← xgl_serialize_u32_le buffer 4 ack_delay_us;
      buffer ← wr buffer 8 (u8 range_count);
      buffer ← encode_ranges (Z.to_nat range_count) 0 9 buffer (default [] ranges);
      ret (XGL_OK, required_size, buffer).

(** src/src/wire/xgl_wire_ack_ext.c:83-88: xgl_wire_decode_ack_range_ext_value *)
Fixpoint decode_ranges (n : nat) (i offset : Z) (buffer : bytes)
    (ranges : list xgl_wire_ack_range_t) : M (list xgl_wire_ack_range_t) :=
  match n with
  | O => ret ranges
  | S n =>
      gap ← xgl_deserialize_u16_le buffer offset;
      r ← rd ranges i;
      ranges ← wr ranges i (r <| ar_gap := gap |>);
      len ← xgl_deserialize_u16_le buffer (offset + 2);
      r ← rd ranges i;
      ranges ← wr ranges i (r <| ar_length := len |>);
      decode_ranges n (i + 1) (offset + 4) buffer ranges
  end.

(** Returns (error, ([*largest_ack], [*ack_delay_us], [*range_count]), ranges). *)
(** src/src/wire/xgl_wire_ack_ext.c:49-91: xgl_wire_decode_ack_range_ext_value *)
Definition xgl_wire_decode_ack_range_ext_value (buffer : bytes) (buffer_size : Z)
    (ranges : ptr (list xgl_wire_ack_range_t)) (range_capacity : Z)
    : M (xgl_error_t * option (Z * Z * Z) * ptr (list xgl_wire_ack_range_t)) :=
  if buffer_size <? 9 then ret (XGL_ERR_INVALID_FRAME, None, ranges)
  else
    encoded_count ← rd buffer 8;
    let required_size := 9 + encoded_count * 4 in
    if negb (required_size =? buffer_size) then ret (XGL_ERR_INVALID_FRAME, None, ranges)
    else if (0 <? encoded_count) && bool_decide (ranges = NULL)
    then ret (XGL_ERR_NULL_POINTER, None, ranges)
    else if range_capacity <? encoded_count then ret (XGL_ERR_BUFFER_TOO_SMALL, None, ranges)
    else
      largest_ack ← xgl_deserialize_u32_le buffer 0;
      ack_delay_us ← xgl_deserialize_u32_le buffer 4;
      let out := Some (largest_ack, ack_delay_us, encoded_count) in
      match ranges with
      | NULL => ret (XGL_OK, out, NULL)
      | Ptr rs =>
          rs ← decode_ranges (Z.to_nat encoded_count) 0 9 buffer rs;
          ret (XGL_OK, out, Ptr rs)
      end.

(** src/src/wire/xgl_wire_ack_ext.c:93-124: xgl_wire_encode_sack_ext_value *)
Definition xgl_wire_encode_sack_ext_value (buffer : bytes) (buffer_size base_packet : Z)
    (bitmap : ptr bytes) (bitmap_len bytes_written : Z) : M (xgl_error_t * Z * bytes) :=
  if (0 <? bitmap_len) && bool_decide (bitmap = NULL)
  then ret (XGL_ERR_NULL_POINTER, bytes_written, buffer)
  else
    let required_size := 5 + bitmap_len in
    if (UINT8_MAX <? bitmap_len) || (UINT8_MAX <? required_size)
    then ret (XGL_ERR_INVALID_PARAM, bytes_written, buffer)
    else if buffer_size <? required_size
    then ret (XGL_ERR_BUFFER_TOO_SMALL, bytes_written, buffer)
    else
      buffer ← xgl_serialize_u32_le buffer 0 base_packet;
      buffer ← wr buffer 4 (u8 bitmap_len);
      buffer ← (if 0 <? bitmap_len
                then bitmap ← bitmap; src ← rd_bytes bitmap 0 bitmap_len; wr_bytes buffer 5 src
                else ret buffer);
      ret (XGL_OK, required_size, buffer).

(** Returns (error, ([*base_packet], [*bitmap_len]), bitmap). *)
(** src/src/wire/xgl_wire_ack_ext.c:126-160: xgl_wire_decode_sack_ext_value *)
Definition xgl_wire_decode_sack_ext_value (buffer : bytes) (buffer_size : Z)
    (bitmap : ptr bytes) (bitmap_capacity : Z)
    : M (xgl_error_t * option (Z * Z) * ptr bytes) :=
  if buffer_size <? 5 then ret (XGL_ERR_INVALID_FRAME, None, bitmap)
  else
    encoded_bitmap_len ← rd buffer 4;
    if negb (5 + encoded_bitmap_len =? buffer_size) then ret (XGL_ERR_INVALID_FRAME, None, bitmap)
    else if (0 <? encoded_bitmap_len) && bool_decide (bitmap = NULL)
    then ret (XGL_ERR_NULL_POINTER, None, bitmap)
    else if bitmap_capacity <? encoded_bitmap_len
    then ret (XGL_ERR_BUFFER_TOO_SMALL, None, bitmap)
    else
      base_packet ← xgl_deserialize_u32_le buffer 0;
      let out := Some (base_packet, encoded_bitmap_len) in
      if 0 <? encoded_bitmap_len then
        bm ← bitmap;
        src ← rd_bytes buffer 5 encoded_bitmap_len;
        bm ← wr_bytes bm 0 src;
        ret (XGL_OK, out, Ptr bm)
      else ret (XGL_OK, out, bitmap).

(** ** The 64-bit loops *)
Lemma serialize_u64_loop_spec n i buf off v :
  0 <= i ->
  serialize_u64_loop (S n) i buf off v = wr_bytes buf (off + i) (le_bytes (S n) (v / 2 ^ (8 * i))).
Proof.
  revert i buf. induction n as [|n IH]; intros i buf Hi.
  - cbn [serialize_u64_loop le_bytes]. rewrite shiftr_byte, wr_bytes_singleton by lia.
    by destruct (wr _ _ _).
  - remember (S n) as m eqn:Hm. cbn [serialize_u64_loop le_bytes]. subst m.
    rewrite wr_bytes_cons, shiftr_byte by lia. destruct (wr _ _ _); [cbn [mbind option_bind]|done].
    rewrite IH, Z.div_div by (try lia; apply Z.pow_nonneg; lia).
    f_equal; [lia|]. f_equal. change 256 with (2 ^ 8). rewrite <- Z.pow_add_r by lia. do 2 f_equal. lia.
Qed.
Lemma serialize_u64_le_spec buf off v :
  wire_serialize_u64_le buf off v = wr_bytes buf off (le_bytes 8 v).
Proof.
  unfold wire_serialize_u64_le. rewrite serialize_u64_loop_spec by lia.
  change (2 ^ (8 * 0)) with 1. by rewrite Z.add_0_r, Z.div_1_r.
Qed.

Lemma deserialize_u64_loop_spec n i value pre m post :
  bytes_ok m -> length m = n -> 0 <= i -> i + Z.of_nat n <= 8 -> 0 <= value < 2 ^ (8 * i) ->
  forall off, off + i = zlen pre ->
  deserialize_u64_loop n i value (pre ++ m ++ post) off =
    Some (value + 2 ^ (8 * i) * le_value m).
Proof.
  intros Hm. revert pre i value n. induction Hm as [|b m Hb Hm IH]; intros pre i value n <- Hi Hn Hv off Hoff.
  { cbn. f_equal. lia. }
  cbn [length] in *. cbn [deserialize_u64_loop le_value app].
  rewrite rd_at by done. cbn [mbind option_bind].
  assert (2 ^ (8 * (i + 1)) = 2 ^ (8 * i) * 256) as Hpow
    by (change 256 with (2 ^ 8); rewrite <- Z.pow_add_r by lia; f_equal; lia).
  assert (0 < 2 ^ (8 * i)) by (apply Z.pow_pos_nonneg; lia).
  assert (2 ^ (8 * (i + 1)) <= 2 ^ 64) by (apply Z.pow_le_mono_r; lia).
  assert (Z.shiftl b (8 * i) = b * 2 ^ (8 * i)) as Hsh by (apply Z.shiftl_mul_pow2; lia).
  rewrite (u64_small (Z.shiftl _ _)) by (rewrite Hsh; change (2 ^ 64) with 18446744073709551616 in *; nia).
  rewrite lor_shiftl_add by lia. rewrite cons_middle, app_assoc.
  rewrite IH with (n := length m); try done; try lia.
  - f_equal. rewrite Hpow. lia.
  - rewrite Hpow. nia.
  - rewrite zlen_app, zlen_cons, zlen_nil. lia.
Qed.
Lemma deserialize_u64_at pre m post i :
  i = zlen pre -> length m = 8%nat -> bytes_ok m ->
  wire_deserialize_u64_le (pre ++ m ++ post) i = Some (le_value m).
Proof.
  intros -> Hm Hok. unfold wire_deserialize_u64_le.
  rewrite (deserialize_u64_loop_spec 8 0 0) by (try done; lia). f_equal.
  change (2 ^ (8 * 0)) with 1. lia.
Qed.

(** ** Layouts *)
Definition fragment_value (message_id fragment_offset message_len : Z) : bytes :=
  le_bytes 4 message_id ++ le_bytes 4 fragment_offset ++ le_bytes 4 message_len.
Definition session_value (epoch incarnation : Z) : bytes := le_bytes 4 epoch ++ le_bytes 8 incarnation.
Definition security_value (key nonce tag_len : Z) : bytes :=
  le_bytes 4 key ++ le_bytes 8 nonce ++ [tag_len].
Definition route_value (prev next epoch metric : Z) : bytes :=
  le_bytes 2 prev ++ le_bytes 2 next ++ le_bytes 4 epoch ++ le_bytes 2 metric.
Definition range_bytes (r : xgl_wire_ack_range_t) : bytes :=
  le_bytes 2 (ar_gap r) ++ le_bytes 2 (ar_length r).
Definition ack_range_value (largest delay : Z) (ranges : list xgl_wire_ack_range_t) : bytes :=
  le_bytes 4 largest ++ le_bytes 4 delay ++ [zlen ranges] ++ concat (map range_bytes ranges).
Definition sack_value (base : Z) (bitmap : bytes) : bytes :=
  le_bytes 4 base ++ [zlen bitmap] ++ bitmap.

Definition range_ok (r : xgl_wire_ack_range_t) : Prop :=
  0 <= ar_gap r < 65536 /\ 0 <= ar_length r < 65536.

(** ** Writers *)
Ltac fill :=
  first [ rewrite serialize_u16_le_spec | rewrite serialize_u32_le_spec
        | rewrite serialize_u64_le_spec | rewrite <- wr_bytes_singleton ];
  rewrite wr_bytes_next by (reflexivity || (rewrite ?length_drop, ?le_bytes_length; cbn [length]; lia));
  cbn [mbind option_bind].
Ltac fill_done := rewrite drop_ge by (rewrite ?length_drop, ?le_bytes_length; cbn [length]; lia);
  rewrite <- ?app_assoc; reflexivity.

Lemma encode_fragment_run old rest size m o l bw :
  length old = 12%nat -> 12 <= size ->
  xgl_wire_encode_fragment_ext_value (old ++ rest) size m o l bw =
    Some (XGL_OK, 12, fragment_value m o l ++ rest).
Proof.
  intros Hold Hs. unfold xgl_wire_encode_fragment_ext_value, XGL_FRAGMENT_EXT_VALUE_SIZE.
  replace (size <? 12) with false by lia. change (old ++ rest) with ([] ++ old ++ rest).
  do 3 fill. fill_done.
Qed.
Lemma encode_session_run old rest size e i bw :
  length old = 12%nat -> 12 <= size ->
  xgl_wire_encode_session_ext_value (old ++ rest) size e i bw =
    Some (XGL_OK, 12, session_value e i ++ rest).
Proof.
  intros Hold Hs. unfold xgl_wire_encode_session_ext_value, XGL_SESSION_EXT_VALUE_SIZE.
  replace (size <? 12) with false by lia. change (old ++ rest) with ([] ++ old ++ rest).
  do 2 fill. fill_done.
Qed.
Lemma encode_security_run old rest size k n t bw :
  length old = 13%nat -> 13 <= size -> t <> 0 ->
  xgl_wire_encode_security_ext_value (old ++ rest) size k n t bw =
    Some (XGL_OK, 13, security_value k n t ++ rest).
Proof.
  intros Hold Hs Ht. unfold xgl_wire_encode_security_ext_value.
  replace (t =? 0) with false by lia.
  replace (size <? 13) with false by lia. change (old ++ rest) with ([] ++ old ++ rest).
  do 3 fill. fill_done.
Qed.
Lemma encode_route_run old rest size p n e m bw :
  length old = 10%nat -> 10 <= size ->
  xgl_wire_encode_route_ext_value (old ++ rest) size p n e m bw =
    Some (XGL_OK, 10, route_value p n e m ++ rest).
Proof.
  intros Hold Hs. unfold xgl_wire_encode_route_ext_value.
  replace (size <? 10) with false by lia. change (old ++ rest) with ([] ++ old ++ rest).
  do 4 fill. fill_done.
Qed.

Lemma encode_ranges_run rs : forall n i off pre filled free rest,
  n = length rs -> i = zlen pre -> off = zlen filled -> length free = (4 * length rs)%nat ->
  encode_ranges n i off (filled ++ free ++ rest) (pre ++ rs) =
    Some (filled ++ concat (map range_bytes rs) ++ rest).
Proof.
  induction rs as [|r rs IH]; intros n i off pre filled free rest -> -> -> Hfree.
  { by destruct free. }
  cbn [length encode_ranges map concat] in *.
  rewrite rd_at by done. cbn [mbind option_bind].
  rewrite serialize_u16_le_spec, wr_bytes_next by (try done; cbn [length le_bytes]; lia).
  cbn [mbind option_bind].
  rewrite serialize_u16_le_spec, wr_bytes_next
    by (autorewrite with zlen; rewrite ?length_drop; cbn [length le_bytes]; lia).
  cbn [mbind option_bind]. rewrite cons_middle, (app_assoc pre).
  rewrite IH; [|done|autorewrite with zlen; lia..|rewrite ?length_drop, ?le_bytes_length; lia].
  unfold range_bytes at 2. by rewrite <- !app_assoc.
Qed.
Lemma ranges_bytes_length rs : length (concat (map range_bytes rs)) = (4 * length rs)%nat.
Proof. induction rs as [|r rs IH]; [done|]. cbn [map concat length]. rewrite length_app, IH. cbn. lia. Qed.
Lemma ack_range_value_length l d rs : length (ack_range_value l d rs) = (9 + 4 * length rs)%nat.
Proof. unfold ack_range_value. rewrite !length_app, ranges_bytes_length. done. Qed.

Lemma encode_ack_range_run old rest size l d rs bw :
  length old = (9 + 4 * length rs)%nat -> zlen old <= size -> zlen old <= 255 ->
  xgl_wire_encode_ack_range_ext_value (old ++ rest) size l d (Ptr rs) (zlen rs) bw =
    Some (XGL_OK, zlen old, ack_range_value l d rs ++ rest).
Proof.
  intros Hold Hs Hmax. unfold xgl_wire_encode_ack_range_ext_value, UINT8_MAX.
  assert (zlen old = 9 + zlen rs * 4) as Hz by (unfold zlen; lia). pose proof (zlen_nonneg rs).
  rewrite bool_decide_eq_false_2, andb_false_r by done. rewrite <- Hz.
  replace (255 <? zlen old) with false by lia. replace (size <? zlen old) with false by lia.
  rewrite u8_small by lia. change (old ++ rest) with ([] ++ old ++ rest).
  do 3 fill. rewrite (encode_ranges_run rs _ _ _ []); [|unfold zlen; lia|done|done|].
  - cbn [mbind option_bind]. unfold ack_range_value. by rewrite <- !app_assoc.
  - rewrite !length_drop, ?le_bytes_length. cbn [length]. lia.
Qed.

Lemma encode_sack_run old rest size base bm bw :
  length old = (5 + length bm)%nat -> zlen old <= size -> zlen old <= 255 ->
  xgl_wire_encode_sack_ext_value (old ++ rest) size base (Ptr bm) (zlen bm) bw =
    Some (XGL_OK, zlen old, sack_value base bm ++ rest).
Proof.
  intros Hold Hs Hmax. unfold xgl_wire_encode_sack_ext_value, UINT8_MAX.
  assert (zlen old = 5 + zlen bm) as Hz by (unfold zlen; lia). pose proof (zlen_nonneg bm).
  rewrite bool_decide_eq_false_2, andb_false_r by done. rewrite <- Hz.
  replace ((255 <? zlen bm) || (255 <? zlen old)) with false by lia.
  replace (size <? zlen old) with false by lia.
  rewrite u8_small by lia. change (old ++ rest) with ([] ++ old ++ rest).
  do 2 fill. cbn [mbind option_bind]. destruct (0 <? zlen bm) eqn:Hpos.
  - replace (rd_bytes bm 0 (zlen bm)) with (Some bm)
      by (rewrite <- (app_nil_r bm) at 2; by rewrite (rd_bytes_prefix bm [])).
    cbn [mbind option_bind].
    rewrite wr_bytes_next
      by (try (autorewrite with zlen; done); rewrite ?length_drop, ?le_bytes_length; cbn [length]; lia).
    cbn [mbind option_bind]. unfold sack_value. fill_done.
  - assert (bm = []) as -> by (apply zlen_0_nil; lia).
    cbn [length] in Hold. cbn [mbind option_bind]. unfold sack_value. fill_done.
Qed.

(** The bitmap may be followed by more of its buffer. *)
Lemma encode_sack_prefix buffer size base bm rest bw :
  xgl_wire_encode_sack_ext_value buffer size base (Ptr (bm ++ rest)) (zlen bm) bw =
  xgl_wire_encode_sack_ext_value buffer size base (Ptr bm) (zlen bm) bw.
Proof.
  unfold xgl_wire_encode_sack_ext_value. rewrite !bool_decide_eq_false_2, andb_false_r by done.
  do 2 (case_if; [done|]). cbn [mbind option_bind].
  assert (forall b, rd_bytes (bm ++ b) 0 (zlen bm) = Some bm) as Hrd by (intros; by apply rd_bytes_prefix).
  rewrite Hrd. pose proof (Hrd []) as Hv. rewrite app_nil_r in Hv. by rewrite Hv.
Qed.

(** ** Readers *)
Lemma u16_at buf off pre m post :
  buf = pre ++ m ++ post -> off = zlen pre -> length m = 2%nat -> bytes_ok buf ->
  xgl_deserialize_u16_le buf off = Some (le_value m).
Proof. intros -> -> ??. by apply deserialize_u16_at. Qed.
Lemma u32_at buf off pre m post :
  buf = pre ++ m ++ post -> off = zlen pre -> length m = 4%nat -> bytes_ok buf ->
  xgl_deserialize_u32_le buf off = Some (le_value m).
Proof. intros -> -> ??. by apply deserialize_u32_at. Qed.
Lemma u64_at buf off pre m post :
  buf = pre ++ m ++ post -> off = zlen pre -> length m = 8%nat -> bytes_ok buf ->
  wire_deserialize_u64_le buf off = Some (le_value m).
Proof.
  intros -> -> ? [_ [Hm _]%Forall_app]%Forall_app. by apply deserialize_u64_at.
Qed.

(** Splitting a value of known length into its fields. *)
Ltac fields_of b Hlen :=
  repeat (destruct b as [|? b]; [discriminate Hlen|]); destruct b; [|discriminate Hlen].

Lemma decode_fragment_run b0 b1 b2 :
  length b0 = 4%nat -> length b1 = 4%nat -> length b2 = 4%nat -> bytes_ok (b0 ++ b1 ++ b2) ->
  xgl_wire_decode_fragment_ext_value (b0 ++ b1 ++ b2) 12 =
    Some (XGL_OK, Some (le_value b0, le_value b1, le_value b2)).
Proof.
  intros H0 H1 H2 Hok. unfold xgl_wire_decode_fragment_ext_value.
  change (negb (12 =? XGL_FRAGMENT_EXT_VALUE_SIZE)) with false. cbn iota.
  rewrite (u32_at _ 0 [] b0 (b1 ++ b2)) by done. cbn [mbind option_bind].
  rewrite (u32_at _ 4 b0 b1 b2) by (done || (unfold zlen; lia)). cbn [mbind option_bind].
  rewrite (u32_at _ 8 (b0 ++ b1) b2 []); [done| | |done|done].
  - by rewrite app_nil_r, app_assoc.
  - unfold zlen. rewrite length_app. lia.
Qed.
Lemma decode_session_run b0 b1 :
  length b0 = 4%nat -> length b1 = 8%nat -> bytes_ok (b0 ++ b1) ->
  xgl_wire_decode_session_ext_value (b0 ++ b1) 12 = Some (XGL_OK, Some (le_value b0, le_value b1)).
Proof.
  intros H0 H1 Hok. unfold xgl_wire_decode_session_ext_value.
  change (negb (12 =? XGL_SESSION_EXT_VALUE_SIZE)) with false. cbn iota.
  rewrite (u32_at _ 0 [] b0 b1) by done. cbn [mbind option_bind].
  rewrite (u64_at _ 4 b0 b1 []); [done| | |done|done]; [by rewrite app_nil_r|unfold zlen; lia].
Qed.
Lemma decode_security_run b0 b1 t :
  length b0 = 4%nat -> length b1 = 8%nat -> bytes_ok (b0 ++ b1 ++ [t]) ->
  xgl_wire_decode_security_ext_value (b0 ++ b1 ++ [t]) 13 =
    Some (if t =? 0 then XGL_ERR_INVALID_FRAME else XGL_OK, Some (le_value b0, le_value b1, t)).
Proof.
  intros H0 H1 Hok. unfold xgl_wire_decode_security_ext_value. cbn [Z.eqb Pos.eqb negb].
  rewrite (u32_at _ 0 [] b0 (b1 ++ [t])) by done. cbn [mbind option_bind].
  rewrite (u64_at _ 4 b0 b1 [t]) by (done || (unfold zlen; lia)). cbn [mbind option_bind].
  rewrite app_assoc, rd_at by (unfold zlen; rewrite length_app; lia). cbn [mbind option_bind].
  by case_if.
Qed.
Lemma decode_route_run b0 b1 b2 b3 :
  length b0 = 2%nat -> length b1 = 2%nat -> length b2 = 4%nat -> length b3 = 2%nat ->
  bytes_ok (b0 ++ b1 ++ b2 ++ b3) ->
  xgl_wire_decode_route_ext_value (b0 ++ b1 ++ b2 ++ b3) 10 =
    Some (XGL_OK, Some (le_value b0, le_value b1, le_value b2, le_value b3)).
Proof.
  intros H0 H1 H2 H3 Hok. unfold xgl_wire_decode_route_ext_value. cbn [Z.eqb Pos.eqb negb].
  rewrite (u16_at _ 0 [] b0 (b1 ++ b2 ++ b3)) by done. cbn [mbind option_bind].
  rewrite (u16_at _ 2 b0 b1 (b2 ++ b3)) by (done || (unfold zlen; lia)). cbn [mbind option_bind].
  rewrite (u32_at _ 4 (b0 ++ b1) b2 b3);
    [|by rewrite <- app_assoc|unfold zlen; rewrite length_app; lia|done|done]. cbn [mbind option_bind].
  rewrite (u16_at _ 8 (b0 ++ b1 ++ b2) b3 []); [done| | |done|done].
  - by rewrite app_nil_r, <- !app_assoc.
  - unfold zlen. rewrite !length_app. lia.
Qed.

Lemma decode_ranges_run rs : Forall range_ok rs ->
  forall n i off buf pre post arr done_ old rest,
  n = length rs -> i = zlen done_ -> off = zlen pre ->
  buf = pre ++ concat (map range_bytes rs) ++ post -> bytes_ok buf ->
  arr = done_ ++ old ++ rest -> length old = length rs ->
  decode_ranges n i off buf arr = Some (done_ ++ rs ++ rest).
Proof.
  induction 1 as [|r rs [Hg Hl] Hrs IH];
    intros n i off buf pre post arr done_ old rest -> -> -> Hbuf Hok -> Hold.
  { by destruct old. }
  destruct old as [|o old]; [done|]. cbn [length decode_ranges map concat app] in *.
  unfold range_bytes in Hbuf at 1.
  rewrite (u16_at buf (zlen pre) pre (le_bytes 2 (ar_gap r))
    (le_bytes 2 (ar_length r) ++ concat (map range_bytes rs) ++ post))
    by (done || by rewrite Hbuf, <- !app_assoc). cbn [mbind option_bind].
  rewrite rd_at by done. cbn [mbind option_bind].
  rewrite wr_at by done. cbn [mbind option_bind].
  rewrite (u16_at buf (zlen pre + 2) (pre ++ le_bytes 2 (ar_gap r)) (le_bytes 2 (ar_length r))
    (concat (map range_bytes rs) ++ post));
    [|by rewrite Hbuf, <- !app_assoc|autorewrite with zlen; lia|done|done]. cbn [mbind option_bind].
  rewrite rd_at by done. cbn [mbind option_bind].
  rewrite wr_at by done. cbn [mbind option_bind].
  rewrite !le_value_u16 by done.
  assert (o <| ar_gap := ar_gap r |> <| ar_length := ar_length r |> = r) as -> by (by destruct r).
  rewrite (IH _ _ _ _ (pre ++ range_bytes r) post _ (done_ ++ [r]) old rest); try done.
  - by rewrite <- app_assoc.
  - autorewrite with zlen. lia.
  - unfold range_bytes. autorewrite with zlen. lia.
  - rewrite Hbuf. unfold range_bytes at 2. by rewrite <- !app_assoc.
  - by rewrite <- app_assoc.
  - cbn in Hold. lia.
Qed.

Lemma decode_ack_range_run l d rs arr cap :
  0 <= l < 4294967296 -> 0 <= d < 4294967296 -> Forall range_ok rs ->
  zlen rs <= cap -> zlen rs <= 255 -> cap <= zlen arr ->
  xgl_wire_decode_ack_range_ext_value (ack_range_value l d rs) (9 + 4 * zlen rs) (Ptr arr) cap =
    Some (XGL_OK, Some (l, d, zlen rs), Ptr (rs ++ drop (length rs) arr)).
Proof.
  intros Hl Hd Hrs Hcap Hmax Harr. unfold xgl_wire_decode_ack_range_ext_value.
  pose proof (zlen_nonneg rs). replace (9 + 4 * zlen rs <? 9) with false by lia.
  assert (bytes_ok (ack_range_value l d rs)) as Hok.
  { unfold ack_range_value. repeat apply Forall_app_2; auto with xgl.
    - repeat constructor; lia.
    - clear. induction rs as [|r rs IH]; [constructor|]. cbn [map concat].
      apply Forall_app_2; [|done]. unfold range_bytes. apply Forall_app_2; auto with xgl. }
  assert (rd (ack_range_value l d rs) 8 = Some (zlen rs)) as -> by
    (apply (rd_at (le_bytes 4 l ++ le_bytes 4 d) (zlen rs) (concat (map range_bytes rs)) 8); done).
  cbn [mbind option_bind].
  replace (9 + zlen rs * 4 =? 9 + 4 * zlen rs) with true by lia. cbn [negb].
  rewrite bool_decide_eq_false_2, andb_false_r by done.
  replace (cap <? zlen rs) with false by lia.
  rewrite (u32_at _ 0 [] (le_bytes 4 l) (le_bytes 4 d ++ [zlen rs] ++ concat (map range_bytes rs)))
    by done. cbn [mbind option_bind].
  rewrite (u32_at _ 4 (le_bytes 4 l) (le_bytes 4 d) ([zlen rs] ++ concat (map range_bytes rs)))
    by done. cbn [mbind option_bind]. rewrite !le_value_u32 by done.
  rewrite (decode_ranges_run rs Hrs _ _ _ _ (le_bytes 4 l ++ le_bytes 4 d ++ [zlen rs]) [] _ []
    (take (length rs) arr) (drop (length rs) arr)); try done.
  - unfold zlen. lia.
  - unfold ack_range_value. by rewrite app_nil_r, <- !app_assoc.
  - by rewrite app_nil_l, take_drop.
  - rewrite length_take. unfold zlen in *. lia.
Qed.

Lemma decode_sack_run base bm arr cap :
  0 <= base < 4294967296 -> bytes_ok bm -> zlen bm <= 255 -> zlen bm <= cap -> cap <= zlen arr ->
  xgl_wire_decode_sack_ext_value (sack_value base bm) (5 + zlen bm) (Ptr arr) cap =
    Some (XGL_OK, Some (base, zlen bm), Ptr (bm ++ drop (length bm) arr)).
Proof.
  intros Hb Hbm Hmax Hcap Harr. unfold xgl_wire_decode_sack_ext_value.
  pose proof (zlen_nonneg bm). replace (5 + zlen bm <? 5) with false by lia.
  assert (bytes_ok (sack_value base bm)) as Hok.
  { unfold sack_value. repeat apply Forall_app_2; auto with xgl. repeat constructor; lia. }
  assert (rd (sack_value base bm) 4 = Some (zlen bm)) as ->
    by (apply (rd_at (le_bytes 4 base) (zlen bm) bm 4); done).
  cbn [mbind option_bind].
  rewrite Z.eqb_refl. cbn [negb]. rewrite bool_decide_eq_false_2, andb_false_r by done.
  replace (cap <? zlen bm) with false by lia.
  rewrite (u32_at _ 0 [] (le_bytes 4 base) ([zlen bm] ++ bm)) by done. cbn [mbind option_bind].
  rewrite le_value_u32 by done. destruct (0 <? zlen bm) eqn:Hpos.
  - rewrite rd_bytes_Some by (unfold sack_value; autorewrite with zlen; lia). cbn [mbind option_bind].
    unfold sack_value. change (Z.to_nat 5) with 5%nat.
    change (drop 5 (le_bytes 4 base ++ [zlen bm] ++ bm)) with (drop 0 bm).
    rewrite drop_0, take_to_nat by done.
    rewrite <- (take_drop (length bm) arr) at 1.
    rewrite wr_bytes_prefix by (done || (rewrite length_take; unfold zlen in *; lia)). done.
  - assert (bm = []) as -> by (apply zlen_0_nil; lia). done.
Qed.

(** Every byte string of the right length is a layout. *)
Lemma le_value_range m n : bytes_ok m -> length m = n -> 0 <= le_value m < 256 ^ Z.of_nat n.
Proof. intros ? <-. by apply le_value_bound. Qed.
Lemma cut (b : bytes) n k :
  bytes_ok b -> length b = (n + k)%nat ->
  exists m rest, b = le_bytes n (le_value m) ++ rest /\ bytes_ok m /\ length m = n /\
    m = le_bytes n (le_value m) /\ bytes_ok rest /\ length rest = k.
Proof.
  intros Hb Hl. exists (take n b), (drop n b).
  assert (length (take n b) = n) as Hn by (rewrite length_take; lia).
  assert (bytes_ok (take n b)) by auto with xgl.
  assert (take n b = le_bytes n (le_value (take n b))) as E
    by (rewrite <- Hn at 2; by rewrite le_bytes_le_value).
  rewrite <- E, take_drop, length_drop. split_and!; auto with xgl. lia.
Qed.
Lemma ranges_surjective n (b : bytes) :
  bytes_ok b -> length b = (4 * n)%nat ->
  exists rs, length rs = n /\ Forall range_ok rs /\ b = concat (map range_bytes rs).
Proof.
  revert b. induction n as [|n IH]; intros b Hb Hl.
  { exists []. destruct b; [done|cbn in Hl; lia]. }
  destruct (cut b 2 (2 + 4 * n) Hb ltac:(lia)) as (g & b1 & -> & Hg & Hgl & _ & Hb1 & Hl1).
  destruct (cut b1 2 (4 * n) Hb1 Hl1) as (k & b2 & -> & Hk & Hkl & _ & Hb2 & Hl2).
  destruct (IH b2 Hb2 Hl2) as (rs & Hn & Hrs & ->).
  exists (mk_ack_range (le_value g) (le_value k) :: rs). split_and!.
  - cbn. lia.
  - constructor; [|done]. split; cbn [ar_gap ar_length];
      [exact (le_value_range g 2 Hg Hgl)|exact (le_value_range k 2 Hk Hkl)].
  - cbn [map concat]. unfold range_bytes at 2. cbn [ar_gap ar_length]. by rewrite <- app_assoc.
Qed.

Ltac err_case := eexists _, _, _; split; [reflexivity|]; split; [done|intros; discriminate].

Lemma decode_session_total v :
  bytes_ok v -> exists err out, xgl_wire_decode_session_ext_value v (zlen v) = Some (err, out) /\
    (err = XGL_OK -> exists epoch inc, out = Some (epoch, inc)) /\
    (err <> XGL_OK -> err = XGL_ERR_INVALID_FRAME).
Proof.
  intros Hv. destruct (decide (zlen v = 12)) as [H12|H12].
  - destruct (cut v 4 8 Hv) as (b0 & v1 & E0 & H0 & L0 & W0 & Hv1 & L1); [unfold zlen in H12; lia|].
    rewrite H12, E0, <- W0, decode_session_run by (done || by apply Forall_app_2).
    eexists _, _. split; [done|]. split; [by eauto|done].
  - unfold xgl_wire_decode_session_ext_value. change XGL_SESSION_EXT_VALUE_SIZE with 12.
    replace (zlen v =? 12) with false by lia. by eexists _, _.
Qed.

(** ** Properties *)

(** Round trip of all extension values: for fields that fit their types each
    encoder writes the value in front of an untouched rest of the buffer and
    reports its length, and the matching decoder, given the value, returns the
    same fields (for ACK ranges and SACK into any array with enough room). *)
Theorem ext_values_roundtrip (rest : bytes) (size bw a b c t : Z)
    (rs : list xgl_wire_ack_range_t) (bm arr : bytes) (rarr : list xgl_wire_ack_range_t) :
  is_u32 a = true -> is_u32 b = true -> is_u32 c = true -> 1 <= t < 256 ->
  Forall range_ok rs -> zlen rs <= 61 -> zlen rs <= zlen rarr ->
  bytes_ok bm -> zlen bm <= 250 -> zlen bm <= zlen arr -> 255 <= size ->
  (forall old, length old = 12%nat -> exists w, length w = 12%nat /\
     xgl_wire_encode_fragment_ext_value (old ++ rest) size a b c bw = Some (XGL_OK, 12, w ++ rest) /\
     xgl_wire_decode_fragment_ext_value w 12 = Some (XGL_OK, Some (a, b, c))) /\
  (forall old inc, length old = 12%nat -> is_u64 inc = true -> exists w, length w = 12%nat /\
     xgl_wire_encode_session_ext_value (old ++ rest) size a inc bw = Some (XGL_OK, 12, w ++ rest) /\
     xgl_wire_decode_session_ext_value w 12 = Some (XGL_OK, Some (a, inc))) /\
  (forall old nonce, length old = 13%nat -> is_u64 nonce = true -> exists w, length w = 13%nat /\
     xgl_wire_encode_security_ext_value (old ++ rest) size a nonce t bw
       = Some (XGL_OK, 13, w ++ rest) /\
     xgl_wire_decode_security_ext_value w 13 = Some (XGL_OK, Some (a, nonce, t))) /\
  (forall old p n m, length old = 10%nat -> is_u16 p = true -> is_u16 n = true ->
     is_u16 m = true -> exists w, length w = 10%nat /\
     xgl_wire_encode_route_ext_value (old ++ rest) size p n a m bw = Some (XGL_OK, 10, w ++ rest) /\
     xgl_wire_decode_route_ext_value w 10 = Some (XGL_OK, Some (p, n, a, m))) /\
  (forall old, length old = (9 + 4 * length rs)%nat -> exists w, zlen w = 9 + 4 * zlen rs /\
     xgl_wire_encode_ack_range_ext_value (old ++ rest) size a b (Ptr rs) (zlen rs) bw =
       Some (XGL_OK, zlen w, w ++ rest) /\
     xgl_wire_decode_ack_range_ext_value w (zlen w) (Ptr rarr) (zlen rarr) =
       Some (XGL_OK, Some (a, b, zlen rs), Ptr (rs ++ drop (length rs) rarr))) /\
  (forall old, length old = (5 + length bm)%nat -> exists w, zlen w = 5 + zlen bm /\
     xgl_wire_encode_sack_ext_value (old ++ rest) size a (Ptr bm) (zlen bm) bw =
       Some (XGL_OK, zlen w, w ++ rest) /\
     xgl_wire_decode_sack_ext_value w (zlen w) (Ptr arr) (zlen arr) =
       Some (XGL_OK, Some (a, zlen bm), Ptr (bm ++ drop (length bm) arr))).
Proof.
  intros Ha Hb Hc Ht Hrs Hn Hra Hbm Hbn Hba Hs.
  apply is_u32_spec in Ha, Hb, Hc. split_and!.
  - intros old Ho. exists (fragment_value a b c).
    split_and!; [done|apply encode_fragment_run; [done|lia]|].
    unfold fragment_value. rewrite decode_fragment_run by (done || (repeat apply Forall_app_2; auto with xgl)).
    by rewrite !le_value_u32.
  - intros old inc Ho Hi%is_u64_spec. exists (session_value a inc).
    split_and!; [done|apply encode_session_run; [done|lia]|].
    unfold session_value. rewrite decode_session_run by (done || (repeat apply Forall_app_2; auto with xgl)).
    by rewrite le_value_u32, le_value_u64.
  - intros old nonce Ho Hi%is_u64_spec. exists (security_value a nonce t).
    split_and!; [done|apply encode_security_run; [done|lia|lia]|].
    unfold security_value. rewrite decode_security_run;
      [|done|done|repeat apply Forall_app_2; auto with xgl; repeat constructor; lia].
    rewrite le_value_u32, le_value_u64 by done. by replace (t =? 0) with false by lia.
  - intros old p n m Ho Hp%is_u16_spec Hnx%is_u16_spec Hm%is_u16_spec. exists (route_value p n a m).
    split_and!; [done|apply encode_route_run; [done|lia]|].
    unfold route_value. rewrite decode_route_run by (done || (repeat apply Forall_app_2; auto with xgl)).
    by rewrite !le_value_u16, le_value_u32.
  - intros old Ho. exists (ack_range_value a b rs).
    assert (zlen (ack_range_value a b rs) = 9 + 4 * zlen rs) as Hz
      by (unfold zlen; rewrite ack_range_value_length; lia).
    assert (zlen old = 9 + 4 * zlen rs) as Hoz by (unfold zlen; lia).
    split_and!; [done| |].
    + rewrite Hz, <- Hoz. apply encode_ack_range_run; [done|lia|lia].
    + rewrite Hz. apply decode_ack_range_run; done || lia.
  - intros old Ho. exists (sack_value a bm).
    assert (zlen (sack_value a bm) = 5 + zlen bm) as Hz
      by (unfold sack_value; autorewrite with zlen; lia).
    assert (zlen old = 5 + zlen bm) as Hoz by (unfold zlen; lia).
    split_and!; [done| |].
    + rewrite Hz, <- Hoz. apply encode_sack_run; [done|lia|lia].
    + rewrite Hz. apply decode_sack_run; done || lia.
Qed.
Lemma ext_values_roundtrip_witness :
  exists w, zlen w = 9 + 4 * zlen [mk_ack_range 0 3] /\
     xgl_wire_encode_ack_range_ext_value (replicate 13 0 ++ []) 255 7 0 (Ptr [mk_ack_range 0 3])
       (zlen [mk_ack_range 0 3]) 0 = Some (XGL_OK, zlen w, w ++ []) /\
     xgl_wire_decode_ack_range_ext_value w (zlen w) (Ptr [mk_ack_range 9 9]) (zlen [mk_ack_range 9 9]) =
       Some (XGL_OK, Some (7, 0, zlen [mk_ack_range 0 3]), Ptr ([mk_ack_range 0 3] ++ [])).
Proof.
  refine (proj1 (proj2 (proj2 (proj2 (proj2 (ext_values_roundtrip [] 255 0 7 0 0 1
    [mk_ack_range 0 3] [] [] [mk_ack_range 9 9] eq_refl eq_refl eq_refl _ _ _ _ _ _ _ _)))))
    (replicate 13 0) eq_refl); try (vm_compute; split; congruence); try (vm_compute; congruence).
  - repeat constructor; cbn; lia.
  - constructor.
Defined.

(** The decoders on arbitrary bytes. *)
Lemma decode_ack_range_total value arr cap :
  bytes_ok value -> 0 <= cap <= zlen arr ->
  exists err out arr',
     xgl_wire_decode_ack_range_ext_value value (zlen value) (Ptr arr) cap =
       Some (err, out, Ptr arr') /\
     (err <> XGL_OK -> arr' = arr /\ out = None) /\
     (err = XGL_OK -> exists l d rs, value = ack_range_value l d rs /\ Forall range_ok rs /\
        0 <= l < 4294967296 /\
        zlen rs <= cap /\ out = Some (l, d, zlen rs) /\ arr' = rs ++ drop (length rs) arr).
Proof.
  intros Hok Hcap.
  destruct (decide (zlen value < 9)) as [Hs|Hs].
  { unfold xgl_wire_decode_ack_range_ext_value. replace (zlen value <? 9) with true by lia. err_case. }
  destruct (cut value 4 (length value - 4) Hok) as (l & v1 & -> & Hl & Hll & _ & Hv1 & Hl1);
    [unfold zlen in Hs; lia|]. rewrite zlen_app, le_bytes_zlen in Hs.
  destruct (cut v1 4 (length v1 - 4) Hv1) as (d & v2 & -> & Hd & Hdl & _ & Hv2 & Hl2);
    [unfold zlen in Hs; lia|]. rewrite zlen_app, le_bytes_zlen in Hs.
  destruct v2 as [|n v3]; [rewrite zlen_nil in Hs; lia|].
  apply Forall_cons in Hv2 as [Hn Hv3].
  destruct (decide (zlen v3 = 4 * n /\ n <= cap)) as [[Hz Hnc]|Hbad].
  + destruct (ranges_surjective (Z.to_nat n) v3 Hv3) as (rs & Hrl & Hrs & ->);
      [unfold zlen in *; lia|].
    assert (zlen rs = n) as <- by (unfold zlen; lia).
    change (le_bytes 4 (le_value l) ++ le_bytes 4 (le_value d) ++ zlen rs :: concat (map range_bytes rs))
      with (ack_range_value (le_value l) (le_value d) rs) in *.
    eexists _, _, _. split; [|split].
    * replace (zlen (ack_range_value _ _ rs)) with (9 + 4 * zlen rs)
        by (unfold zlen; rewrite ack_range_value_length; lia).
      apply decode_ack_range_run; try done; try lia;
        [exact (le_value_range l 4 Hl Hll)|exact (le_value_range d 4 Hd Hdl)].
    * done.
    * intros _. eexists _, _, rs. split_and!; try done; apply (le_value_range l 4 Hl Hll).
  + unfold xgl_wire_decode_ack_range_ext_value.
    assert (zlen (le_bytes 4 (le_value l) ++ le_bytes 4 (le_value d) ++ n :: v3) = 9 + zlen v3)
      as Hz by (autorewrite with zlen; lia).
    rewrite Hz. pose proof (zlen_nonneg v3). replace (9 + zlen v3 <? 9) with false by lia.
    rewrite (app_assoc (le_bytes 4 _)), rd_at by done. cbn [mbind option_bind].
    rewrite bool_decide_eq_false_2, andb_false_r by done.
    case_if; [err_case|]. case_if; [err_case|]. lia.
Qed.
Lemma decode_sack_total value bm bcap :
  bytes_ok value -> 0 <= bcap <= zlen bm ->
  exists err out bm',
     xgl_wire_decode_sack_ext_value value (zlen value) (Ptr bm) bcap = Some (err, out, Ptr bm') /\
     (err <> XGL_OK -> bm' = bm /\ out = None) /\
     (err = XGL_OK -> exists base bits, value = sack_value base bits /\ zlen bits <= bcap /\
        0 <= base < 4294967296 /\ bytes_ok bits /\
        out = Some (base, zlen bits) /\ bm' = bits ++ drop (length bits) bm).
Proof.
  intros Hok Hbcap.
  destruct (decide (zlen value < 5)) as [Hs|Hs].
  { unfold xgl_wire_decode_sack_ext_value. replace (zlen value <? 5) with true by lia. err_case. }
  destruct (cut value 4 (length value - 4) Hok) as (l & v1 & -> & Hl & Hll & _ & Hv1 & Hl1);
    [unfold zlen in Hs; lia|]. rewrite zlen_app, le_bytes_zlen in Hs.
  destruct v1 as [|n bits]; [rewrite zlen_nil in Hs; lia|].
  apply Forall_cons in Hv1 as [Hn Hbits].
  destruct (decide (zlen bits = n /\ n <= bcap)) as [[<- Hnc]|Hbad].
  + change (le_bytes 4 (le_value l) ++ zlen bits :: bits) with (sack_value (le_value l) bits) in *.
    eexists _, _, _. split; [|split].
    * replace (zlen (sack_value _ bits)) with (5 + zlen bits)
        by (unfold sack_value; autorewrite with zlen; lia).
      apply decode_sack_run; try done; try lia. exact (le_value_range l 4 Hl Hll).
    * done.
    * intros _. eexists _, bits. split_and!; try done; apply (le_value_range l 4 Hl Hll).
  + unfold xgl_wire_decode_sack_ext_value.
    assert (zlen (le_bytes 4 (le_value l) ++ n :: bits) = 5 + zlen bits)
      as Hz by (autorewrite with zlen; lia).
    rewrite Hz. pose proof (zlen_nonneg bits). replace (5 + zlen bits <? 5) with false by lia.
    rewrite rd_at by done. cbn [mbind option_bind].
    rewrite bool_decide_eq_false_2, andb_false_r by done.
    case_if; [err_case|]. case_if; [err_case|]. lia.
Qed.

(** C27. The ACK-range and SACK decoders on arbitrary received bytes: they never
    read outside the value or write outside the caller's array, and they
    accept only an exact encoding, whose contents are what they return. *)
Theorem ack_decoders_safe_and_exact (value bm : bytes) (arr : list xgl_wire_ack_range_t)
    (cap bcap : Z) :
  bytes_ok value -> 0 <= cap <= zlen arr -> 0 <= bcap <= zlen bm ->
  (exists err out arr',
     xgl_wire_decode_ack_range_ext_value value (zlen value) (Ptr arr) cap =
       Some (err, out, Ptr arr') /\
     (err <> XGL_OK -> arr' = arr /\ out = None) /\
     (err = XGL_OK -> exists l d rs, value = ack_range_value l d rs /\ Forall range_ok rs /\
        zlen rs <= cap /\ out = Some (l, d, zlen rs) /\ arr' = rs ++ drop (length rs) arr)) /\
  (exists err out bm',
     xgl_wire_decode_sack_ext_value value (zlen value) (Ptr bm) bcap = Some (err, out, Ptr bm') /\
     (err <> XGL_OK -> bm' = bm /\ out = None) /\
     (err = XGL_OK -> exists base bits, value = sack_value base bits /\ zlen bits <= bcap /\
        out = Some (base, zlen bits) /\ bm' = bits ++ drop (length bits) bm)).
Proof.
  intros Hok Hcap Hbcap. split.
  - destruct (decode_ack_range_total value arr cap Hok Hcap) as (err & out & arr' & Hrun & Hbad & Hgood).
    exists err, out, arr'. split_and!; [done|done|]. intros He.
    destruct (Hgood He) as (l & d & rs & ? & ? & _ & ? & ? & ?). by exists l, d, rs.
  - destruct (decode_sack_total value bm bcap Hok Hbcap) as (err & out & bm' & Hrun & Hbad & Hgood).
    exists err, out, bm'. split_and!; [done|done|]. intros He.
    destruct (Hgood He) as (base & bits & ? & ? & _ & _ & ? & ?). by exists base, bits.
Qed.
Lemma ack_decoders_safe_and_exact_witness :
  exists err out arr',
     xgl_wire_decode_ack_range_ext_value (ack_range_value 7 0 [mk_ack_range 0 3])
       (zlen (ack_range_value 7 0 [mk_ack_range 0 3])) (Ptr [mk_ack_range 9 9]) 1
       = Some (err, out, Ptr arr') /\ err = XGL_OK.
Proof.
  refine (match proj1 (ack_decoders_safe_and_exact (ack_range_value 7 0 [mk_ack_range 0 3]) []
    [mk_ack_range 9 9] 1 0 _ _ _) with
    | ex_intro _ err (ex_intro _ out (ex_intro _ arr' (conj Heq _))) => _ end).
  - vm_compute. repeat constructor; discriminate.
  - vm_compute. split; discriminate.
  - vm_compute. split; discriminate.
  - exists err, out, arr'. split; [exact Heq|]. vm_compute in Heq. injection Heq as <- _ _. reflexivity.
Defined.
