(* ===== verification/ExtWalk.v ===== *)
(** * Loops over the extensions

    The code walks extensions with [while ((err = next(&cursor, &ext)) == XGL_OK)]
    in several places; the body goes on with new local variables or returns.
    On well-formed extensions such a loop is a fold over their list. *)
From S2P Require Import Prelude Errors Wire.

Section walk.
  Context {A R : Type} (body : A -> xgl_wire_ext_t -> M (A + R)).

(** The last error code and the local variables, or what the body returned. *)
Fixpoint ext_walk (fuel : nat) (cursor : xgl_wire_ext_cursor_t) (a : A)
    : M ((xgl_error_t * A) + R) :=
  match fuel with
  | O => None
  | S fuel =>
      '(err, ext, cursor) ← xgl_wire_ext_cursor_next cursor;
      if negb (is_ok err) then ret (inl (err, a))
      else
        step ← body a ext;
        match step with
        | inl a => ext_walk fuel cursor a
        | inr r => ret (inr r)
        end
  end.

Definition tlv_ext (x : tlv) : xgl_wire_ext_t := mk_wire_ext x.1 (zlen x.2) (Ptr x.2) true.
Fixpoint tlv_walk (l : list tlv) (a : A) : M (A + R) :=
  match l with
  | [] => ret (inl a)
  | x :: l =>
      step ← body a (tlv_ext x);
      match step with
      | inl a => tlv_walk l a
      | inr r => ret (inr r)
      end
  end.
Lemma tlv_walk_app l1 l2 : forall a, tlv_walk (l1 ++ l2) a =
  (r ← tlv_walk l1 a; match r with inl a => tlv_walk l2 a | inr r => ret (inr r) end).
Proof.
  induction l1 as [|x l1 IH]; intros a; [done|]. cbn [tlv_walk app].
  destruct (body a (tlv_ext x)) as [[a'|r]|]; cbn [mbind option_bind]; [apply IH|done..].
Qed.
(** How the walk over [l] ends when the cursor then answers [err]. *)
Definition walk_end (err : xgl_error_t) (l : list tlv) (a : A) : M ((xgl_error_t * A) + R) :=
  r ← tlv_walk l a; ret match r with inl a => inl (err, a) | inr r => inr r end.

Lemma walk_end_cons err x l a :
  walk_end err (x :: l) a =
    (step ← body a (tlv_ext x); match step with inl a => walk_end err l a | inr r => ret (inr r) end).
Proof. unfold walk_end. cbn [tlv_walk]. by destruct (body a (tlv_ext x)) as [[a'|r]|]. Qed.

(** The well-formed extensions in front decide; [err] tells whether others follow. *)
Lemma ext_walk_spec n : forall fuel c rest a,
  cursor_at c rest -> bytes_ok rest -> (length rest <= n)%nat -> (length rest < fuel)%nat ->
  match parse_tlvs n rest with
  | Some l => ext_walk fuel c a = walk_end XGL_ERR_NOT_FOUND l a
  | None => exists l, Forall tlv_ok l /\ ext_walk fuel c a = walk_end XGL_ERR_INVALID_FRAME l a
  end.
Proof.
  induction n as [|n IH]; intros [|fuel] c rest a Hat Hok Hn Hfuel; try lia;
    pose proof (cursor_next_spec c rest Hat) as Hnext; cbn [ext_walk].
  { destruct rest; [|cbn in Hn; lia]. by rewrite Hnext. }
  destruct rest as [|t [|k r]].
  - by rewrite Hnext.
  - rewrite Hnext. by exists [].
  - cbn [parse_tlvs]. destruct ((t =? 0) || (zlen r <? k)) eqn:Hbad; [rewrite Hnext; by exists []|].
    destruct Hnext as (c' & -> & Hat'). cbn [mbind option_bind is_ok negb].
    rewrite !Forall_cons in Hok. destruct Hok as (Ht & Hk & Hr).
    set (v := take (Z.to_nat k) r). assert (zlen v = k) as Hv by (apply zlen_take; lia).
    assert (tlv_ok (t, v)) as Hx.
    { split; [cbn; lia|]. cbn [fst snd]. rewrite Hv. split; [lia|]. by apply Forall_take. }
    replace (mk_wire_ext t k (Ptr v) true) with (tlv_ext (t, v)) by (unfold tlv_ext; cbn [fst snd]; by rewrite Hv).
    specialize (fun a => IH fuel c' _ a Hat' (Forall_drop _ _ _ Hr)). rewrite length_drop in IH.
    cbn [length] in Hn, Hfuel.
    destruct (parse_tlvs n _) as [l|]; cbn [mbind option_bind].
    + rewrite walk_end_cons. destruct (body a _) as [[a'|x]|]; cbn [mbind option_bind]; [apply IH; lia|done|done].
    + destruct (body a (tlv_ext (t, v))) as [[a'|x]|] eqn:Hb.
      * destruct (IH a') as (l & Hl & Hrun); [lia..|]. exists ((t, v) :: l). split; [by constructor|].
        rewrite walk_end_cons, Hb. exact Hrun.
      * exists [(t, v)]. split; [by apply Forall_singleton|]. by rewrite walk_end_cons, Hb.
      * exists [(t, v)]. split; [by apply Forall_singleton|]. by rewrite walk_end_cons, Hb.
Qed.
End walk.
