(* ===== verification/Frame.v ===== *)
(** * Frames (include/xgl/internal/xgl_frame.h, src/wire/xgl_frame.c,
    xgl_frame_auth.c, xgl_frame_zerocopy.c)

    Building a frame from parameters, serializing it with or without an
    authentication trailer, building it in place, and the size arithmetic the
    upper layers budget with. *)
From S2P Require Import Prelude Errors Serialize Crc Layer Wire WireExt.

(** ** Constants *)
Definition XGL_RELIABILITY_CLASS_SHIFT : Z := 6.
Definition XGL_RELIABILITY_CLASS_MASK : Z := 0xC0.
Definition XGL_TRAFFIC_FRAGMENTED_MASK : Z := 0x20.
Definition XGL_TRAFFIC_PRIORITY_MASK : Z := 0x07.
Definition XGL_CRC16_SIZE : Z := 2.
Definition XGL_FRAME_HEADER_SIZE : Z := 24.
Definition XGL_DATA_TYPE_EXT_SIZE : Z := 3.
Definition XGL_SECURITY_EXT_VALUE_SIZE : Z := 13.
Definition XGL_SECURITY_EXT_SIZE : Z := XGL_WIRE_EXT_HEADER_SIZE + XGL_SECURITY_EXT_VALUE_SIZE.
Definition XGL_FRAME_DEFAULT_TTL : Z := 8.

(** ** Data *)

(** src/include/xgl/internal/xgl_frame.h:30-37: xgl_frame_t *)
Record xgl_frame_t := mk_frame {
  fr_header : xgl_wire_header_t;
  fr_extensions : ptr bytes;
  fr_extensions_len : Z;
  fr_payload : ptr bytes;
  fr_payload_len : Z;
  fr_crc16 : Z
}.

(** src/include/xgl/internal/xgl_frame.h:47-67: xgl_frame_params_t *)
Record xgl_frame_params_t := mk_frame_params {
  fp_source_id : Z;
  fp_target_id : Z;
  fp_data_type : Z;
  fp_packet_type : Z;
  fp_flags : Z;
  fp_traffic_class : Z;
  fp_connection_id : Z;
  fp_packet_number : Z;
  fp_session_epoch : Z;
  fp_extensions : ptr bytes;
  fp_extensions_len : Z;
  fp_payload : ptr bytes;
  fp_payload_len : Z;
  fp_reliable : bool;
  fp_reliability_class : Z;
  fp_fragment : bool;
  fp_priority : Z;
  fp_session_id : Z;
  fp_ttl : Z
}.

(** ** Sizes *)

(** src/include/xgl/internal/xgl_frame.h:144-146: xgl_frame_calculate_size *)
Definition xgl_frame_calculate_size (payload_len : Z) : Z :=
  XGL_FRAME_HEADER_SIZE + payload_len + XGL_CRC16_SIZE.

(** src/include/xgl/internal/xgl_frame.h:148-150: xgl_frame_auth_overhead *)
Definition xgl_frame_auth_overhead (auth_tag_len : Z) : Z :=
  if 0 <? auth_tag_len then XGL_SECURITY_EXT_SIZE + auth_tag_len else 0.

(** src/include/xgl/internal/xgl_frame.h:152-160: xgl_frame_serialized_size *)
Definition xgl_frame_serialized_size (payload_len extensions_len auth_tag_len : Z) : Z :=
  XGL_WIRE_BASE_HEADER_SIZE + extensions_len + xgl_frame_auth_overhead auth_tag_len +
  payload_len + XGL_CRC16_SIZE.

(** Returns the result and [*payload_budget]. *)
(** src/include/xgl/internal/xgl_frame.h:162-181: xgl_frame_payload_budget *)
Definition xgl_frame_payload_budget (max_frame_size extensions_len auth_tag_len : Z) : bool * Z :=
  let overhead := XGL_WIRE_BASE_HEADER_SIZE + extensions_len +
                  xgl_frame_auth_overhead auth_tag_len + XGL_CRC16_SIZE in
  if max_frame_size <? overhead then (false, 0) else (true, max_frame_size - overhead).

(** ** Traffic class *)

(** src/include/xgl/internal/xgl_frame.h:192-197: xgl_frame_set_reliability *)
Definition xgl_frame_set_reliability (traffic_class : Z) (reliable : bool) : Z :=
  let reliable_bits := if reliable then XGL_RELIABILITY_ACK_ELICITING else XGL_RELIABILITY_NONE in
  u8 (Z.lor (Z.land traffic_class (u32 (Z.lnot XGL_RELIABILITY_CLASS_MASK))) reliable_bits).

(** src/include/xgl/internal/xgl_frame.h:204-210: xgl_frame_set_reliability_class *)
Definition xgl_frame_set_reliability_class (traffic_class reliability_class : Z) : Z :=
  u8 (Z.lor (Z.land traffic_class (u32 (Z.lnot XGL_RELIABILITY_CLASS_MASK)))
            (Z.land reliability_class XGL_RELIABILITY_CLASS_MASK)).

(** src/include/xgl/internal/xgl_frame.h:217-225: xgl_frame_set_fragmented *)
Definition xgl_frame_set_fragmented (traffic_class : Z) (fragment : bool) : Z :=
  if fragment then u8 (Z.lor traffic_class XGL_TRAFFIC_FRAGMENTED_MASK)
  else u8 (Z.land traffic_class (u32 (Z.lnot XGL_TRAFFIC_FRAGMENTED_MASK))).

(** src/include/xgl/internal/xgl_frame.h:232-236: xgl_frame_set_priority *)
Definition xgl_frame_set_priority (traffic_class priority : Z) : Z :=
  u8 (Z.lor (Z.land traffic_class (u32 (Z.lnot XGL_TRAFFIC_PRIORITY_MASK)))
            (Z.land priority XGL_TRAFFIC_PRIORITY_MASK)).

(** src/include/xgl/internal/xgl_frame.h:243-247: xgl_frame_get_reliability *)
Definition xgl_frame_get_reliability (traffic_class : Z) : Z :=
  u8 (Z.shiftr (Z.land traffic_class XGL_RELIABILITY_CLASS_MASK) XGL_RELIABILITY_CLASS_SHIFT).

(** src/include/xgl/internal/xgl_frame.h:254-256: xgl_frame_get_priority *)
Definition xgl_frame_get_priority (traffic_class : Z) : Z :=
  u8 (Z.land traffic_class XGL_TRAFFIC_PRIORITY_MASK).

(** ** Building *)

(** [flags |= bit] on a [uint8_t], when the condition holds. *)
Definition set_flag (cond : bool) (bit flags : Z) : Z := if cond then u8 (Z.lor flags bit) else flags.

(** The traffic class derived from the parameters. *)
(** src/src/wire/xgl_frame.c:69-76: xgl_frame_build *)
Definition build_traffic_class_bits (params : xgl_frame_params_t) : Z :=
  let bits := 0 in
  let bits := if negb (fp_reliability_class params =? XGL_RELIABILITY_NONE)
              then xgl_frame_set_reliability_class bits (fp_reliability_class params)
              else xgl_frame_set_reliability bits (fp_reliable params) in
  let bits := xgl_frame_set_fragmented bits (fp_fragment params) in
  xgl_frame_set_priority bits (fp_priority params).

(** src/src/wire/xgl_frame.c:56-128: xgl_frame_build *)
Definition xgl_frame_build (frame : xgl_frame_t) (params : xgl_frame_params_t)
    : xgl_error_t * xgl_frame_t :=
  if UINT16_MAX <? fp_payload_len params then (XGL_ERR_BUFFER_TOO_SMALL, frame)
  else
    let traffic_class_bits := build_traffic_class_bits params in
    let flags := fp_flags params in
    let reliable := u8 (Z.land traffic_class_bits XGL_RELIABILITY_CLASS_MASK) in
    let flags := set_flag (reliable =? XGL_RELIABILITY_ACK_ELICITING)
                   XGL_WIRE_FLAG_ACK_ELICITING flags in
    let flags := set_flag (negb (Z.land traffic_class_bits XGL_TRAFFIC_FRAGMENTED_MASK =? 0))
                   (Z.lor XGL_WIRE_FLAG_FRAGMENTED XGL_WIRE_FLAG_HAS_EXTENSIONS) flags in
    let flags := set_flag (bool_decide (fp_extensions params <> NULL) && (0 <? fp_extensions_len params))
                   XGL_WIRE_FLAG_HAS_EXTENSIONS flags in
    let packet_type := fp_packet_type params in
    let packet_type := if packet_type =? XGL_PACKET_TYPE_INVALID then XGL_PACKET_TYPE_DATA
                       else packet_type in
    let packet_type := if reliable =? XGL_RELIABILITY_ACK_ONLY then XGL_PACKET_TYPE_ACK
                       else packet_type in
    let flags := set_flag (packet_type =? XGL_PACKET_TYPE_CONTROL) XGL_WIRE_FLAG_CONTROL flags in
    (XGL_OK,
     mk_frame
       (mk_wire_header XGL_WIRE_VERSION XGL_WIRE_BASE_HEADER_SIZE packet_type flags (fp_ttl params)
          (if negb (fp_traffic_class params =? 0) then fp_traffic_class params
           else traffic_class_bits)
          (fp_source_id params) (fp_target_id params)
          (if negb (fp_connection_id params =? 0) then fp_connection_id params
           else fp_session_id params)
          (fp_packet_number params) (u16 (fp_payload_len params)) 0)
       (fp_extensions params) (fp_extensions_len params)
       (fp_payload params) (fp_payload_len params) 0).

(** ** Serializing *)

(** src/src/wire/xgl_frame.c:38-43: encode_frame_wire_header *)
Definition wire_header_of_frame (frame : xgl_frame_t) (header_len flags : Z) : xgl_wire_header_t :=
  (fr_header frame) <| wh_version := XGL_WIRE_VERSION |> <| wh_header_len := u8 header_len |>
    <| wh_flags := flags |> <| wh_payload_len := u16 (fr_payload_len frame) |>
    <| wh_header_crc16 := 0 |>.

(** src/src/wire/xgl_frame.c:19-51: encode_frame_wire_header *)
Definition encode_frame_wire_header (buffer : bytes) (buffer_size : Z) (frame : xgl_frame_t)
    (extension_len extra_flags header_len : Z) : M (xgl_error_t * Z * bytes) :=
  if UINT8_MAX - XGL_WIRE_BASE_HEADER_SIZE <? extension_len
  then ret (XGL_ERR_BUFFER_TOO_SMALL, header_len, buffer)
  else
    let produced_header_len := XGL_WIRE_BASE_HEADER_SIZE + extension_len in
    let flags := u8 (Z.lor (wh_flags (fr_header frame)) extra_flags) in
    let flags := set_flag (0 <? extension_len) XGL_WIRE_FLAG_HAS_EXTENSIONS flags in
    let wire := wire_header_of_frame frame produced_header_len flags in
    '(err, buffer) ← xgl_wire_encode_header buffer buffer_size wire;
    if negb (is_ok err) then ret (err, header_len, buffer)
    else ret (XGL_OK, produced_header_len, buffer).

(** [if (src != NULL && len > 0) memcpy(&buffer[off], src, len)] *)
(** src/src/wire/xgl_frame.c:170-173: xgl_frame_serialize *)
Definition copy_if (buffer : bytes) (off : Z) (src : ptr bytes) (len : Z) : M bytes :=
  match src with
  | Ptr src => if 0 <? len then s ← rd_bytes src 0 len; wr_bytes buffer off s else ret buffer
  | NULL => ret buffer
  end.

(** src/src/wire/xgl_frame.c:137-189: xgl_frame_serialize *)
Definition xgl_frame_serialize (buffer : bytes) (buffer_size : Z) (frame : xgl_frame_t)
    (bytes_written : Z) : M (xgl_error_t * Z * bytes) :=
  if UINT8_MAX - XGL_WIRE_BASE_HEADER_SIZE <? fr_extensions_len frame
  then ret (XGL_ERR_BUFFER_TOO_SMALL, bytes_written, buffer)
  else
    let required_size := XGL_FRAME_HEADER_SIZE + fr_extensions_len frame +
                         fr_payload_len frame + XGL_CRC16_SIZE in
    if buffer_size <? required_size then ret (XGL_ERR_BUFFER_TOO_SMALL, bytes_written, buffer)
    else
      let offset := 0 in
      '(err, header_len, buffer) ←
        encode_frame_wire_header buffer buffer_size frame (fr_extensions_len frame) 0 0;
      if negb (is_ok err) then ret (err, bytes_written, buffer)
      else
        let offset := offset + header_len in
        buffer ← copy_if buffer XGL_WIRE_BASE_HEADER_SIZE (fr_extensions frame)
                   (fr_extensions_len frame);
        buffer ← copy_if buffer offset (fr_payload frame) (fr_payload_len frame);
        let offset := if bool_decide (fr_payload frame <> NULL) && (0 <? fr_payload_len frame)
                      then offset + fr_payload_len frame else offset in
        crc16 ← xgl_crc16_modbus (Ptr buffer) 0 offset;
        buffer ← xgl_serialize_u16_le buffer offset crc16;
        let offset := offset + XGL_CRC16_SIZE in
        ret (XGL_OK, offset, buffer).

(** src/src/wire/xgl_frame_auth.c:13-77: encode_authenticated_header *)
Definition encode_authenticated_header (buffer : bytes) (buffer_size : Z) (frame : xgl_frame_t)
    (key_id tag_len header_len : Z) : M (xgl_error_t * Z * bytes) :=
  let base_ext_len := fr_extensions_len frame in
  if UINT8_MAX - XGL_WIRE_BASE_HEADER_SIZE <? base_ext_len
  then ret (XGL_ERR_BUFFER_TOO_SMALL, header_len, buffer)
  else if buffer_size <? XGL_WIRE_BASE_HEADER_SIZE + base_ext_len + XGL_WIRE_EXT_HEADER_SIZE + 13
  then ret (XGL_ERR_BUFFER_TOO_SMALL, header_len, buffer)
  else
    buffer ← copy_if buffer XGL_WIRE_BASE_HEADER_SIZE (fr_extensions frame) base_ext_len;
    '(err, security_value_len, security_value) ←
      xgl_wire_encode_security_ext_value (replicate 13 0) 13 key_id
        (wh_packet_number (fr_header frame)) tag_len 0;
    if negb (is_ok err) then ret (err, header_len, buffer)
    else
      '(err, security_ext_len, buffer) ←
        at_offset buffer (XGL_WIRE_BASE_HEADER_SIZE + base_ext_len) (fun b =>
          xgl_wire_encode_ext b (buffer_size - XGL_WIRE_BASE_HEADER_SIZE - base_ext_len)
            XGL_WIRE_EXT_SECURITY (Ptr security_value) security_value_len 0);
      if negb (is_ok err) then ret (err, header_len, buffer)
      else
        let produced_header_len := XGL_WIRE_BASE_HEADER_SIZE + base_ext_len + security_ext_len in
        if UINT8_MAX <? produced_header_len
        then ret (XGL_ERR_BUFFER_TOO_SMALL, header_len, buffer)
        else
          let wire := wire_header_of_frame frame produced_header_len
            (u8 (Z.lor (Z.lor (wh_flags (fr_header frame)) XGL_WIRE_FLAG_HAS_EXTENSIONS)
                       XGL_WIRE_FLAG_AUTHENTICATED)) in
          '(err, buffer) ← xgl_wire_encode_header buffer buffer_size wire;
          if negb (is_ok err) then ret (err, header_len, buffer)
          else ret (XGL_OK, produced_header_len, buffer).

(** The call of [memcpy] for the payload is [copy buffer header_len]. *)
(** src/src/wire/xgl_frame_auth.c:79-138: xgl_frame_serialize_authenticated *)
Definition serialize_authenticated_with (copy : bytes -> Z -> M bytes) (buffer : bytes) (buffer_size : Z)
    (frame : xgl_frame_t) (key_id : Z) (provider : ptr xgl_auth_provider_t) (bytes_written : Z)
    : M (xgl_error_t * Z * bytes) :=
  match provider with
  | NULL => ret (XGL_ERR_NULL_POINTER, bytes_written, buffer)
  | Ptr p =>
    if bool_decide (ap_sign p = NULL) then ret (XGL_ERR_NULL_POINTER, bytes_written, buffer)
    else if UINT16_MAX <? fr_payload_len frame
    then ret (XGL_ERR_BUFFER_TOO_SMALL, bytes_written, buffer)
    else if (ap_tag_len p =? 0) || (XGL_AUTH_TAG_MAX_LEN <? ap_tag_len p)
    then ret (XGL_ERR_INVALID_PARAM, bytes_written, buffer)
    else
      '(err, header_len, buffer) ←
        encode_authenticated_header buffer buffer_size frame key_id (u8 (ap_tag_len p)) 0;
      if negb (is_ok err) then ret (err, bytes_written, buffer)
      else if buffer_size <? header_len + fr_payload_len frame + ap_tag_len p + XGL_CRC16_SIZE
      then ret (XGL_ERR_BUFFER_TOO_SMALL, bytes_written, buffer)
      else
        buffer ← copy buffer header_len;
        '(err, frame_len_without_crc, buffer) ←
          xgl_wire_append_auth_trailer buffer (buffer_size - XGL_CRC16_SIZE) header_len
            (fr_payload_len frame) key_id (Ptr p) 0;
        if negb (is_ok err) then ret (err, bytes_written, buffer)
        else if negb (frame_len_without_crc =?
                      header_len + fr_payload_len frame + ap_tag_len p) ||
                (buffer_size <? frame_len_without_crc + XGL_CRC16_SIZE)
        then ret (XGL_ERR_BUFFER_TOO_SMALL, bytes_written, buffer)
        else
          crc16 ← xgl_crc16_modbus (Ptr buffer) 0 frame_len_without_crc;
          buffer ← xgl_serialize_u16_le buffer frame_len_without_crc crc16;
          ret (XGL_OK, frame_len_without_crc + XGL_CRC16_SIZE, buffer)
  end.

(** The payload is an object of its own. *)
(** src/src/wire/xgl_frame_auth.c:79-138: xgl_frame_serialize_authenticated *)
Definition xgl_frame_serialize_authenticated (buffer : bytes) (buffer_size : Z)
    (frame : xgl_frame_t) (key_id : Z) (provider : ptr xgl_auth_provider_t) (bytes_written : Z)
    : M (xgl_error_t * Z * bytes) :=
  serialize_authenticated_with
    (fun buffer header_len => copy_if buffer header_len (fr_payload frame) (fr_payload_len frame))
    buffer buffer_size frame key_id provider bytes_written.

(** [memcpy(&buffer[dst], &buffer[src], len)]: both ranges lie in the buffer, and
    they do not meet.  For a range that is copied onto itself C defines nothing
    either; [same_range_ok] says that the platform leaves it as it is. *)
Definition memcpy_within (same_range_ok : bool) (buffer : bytes) (dst src len : Z) : M bytes :=
  bs ← rd_bytes buffer src len;
  if dst =? src then (if same_range_ok then ret buffer else None)
  else if (dst + len <=? src) || (src + len <=? dst) then wr_bytes buffer dst bs
  else None.
(** The payload is a part of the buffer, from [payload_offset] on. *)
(** src/src/wire/xgl_frame_auth.c:79-138: xgl_frame_serialize_authenticated *)
Definition serialize_authenticated_in_place (same_range_ok : bool) (payload_offset : Z) (buffer : bytes)
    (buffer_size : Z) (frame : xgl_frame_t) (key_id : Z) (provider : ptr xgl_auth_provider_t) (bytes_written : Z)
    : M (xgl_error_t * Z * bytes) :=
  serialize_authenticated_with
    (fun buffer header_len =>
       if 0 <? fr_payload_len frame
       then memcpy_within same_range_ok buffer header_len payload_offset (fr_payload_len frame) else ret buffer)
    buffer buffer_size frame key_id provider bytes_written.

(** ** In-place building: the payload is already at [data_offset]. *)

(** src/src/wire/xgl_frame_zerocopy.c:63-77: xgl_frame_build_zerocopy *)
Definition zerocopy_header (header_len flags source_id target_id packet_number data_len priority : Z)
    (reliable : bool) : xgl_wire_header_t :=
  mk_wire_header XGL_WIRE_VERSION (u8 header_len) XGL_PACKET_TYPE_DATA flags XGL_FRAME_DEFAULT_TTL
    (u8 (Z.lor (if reliable then XGL_RELIABILITY_ACK_ELICITING else 0)
               (Z.land priority XGL_TRAFFIC_PRIORITY_MASK)))
    source_id target_id 0 packet_number (u16 data_len) 0.

(** src/src/wire/xgl_frame_zerocopy.c:14-90: xgl_frame_build_zerocopy *)
Definition xgl_frame_build_zerocopy (buffer : bytes)
    (buffer_size data_offset data_len source_id target_id data_type packet_number : Z)
    (reliable : bool) (priority frame_len : Z) : M (xgl_error_t * Z * bytes) :=
  if UINT16_MAX <? data_len then ret (XGL_ERR_BUFFER_TOO_SMALL, frame_len, buffer)
  else
    let app_type_ext_len := if negb (data_type =? 0) then XGL_DATA_TYPE_EXT_SIZE else 0 in
    let header_len := XGL_WIRE_BASE_HEADER_SIZE + app_type_ext_len in
    if (UINT8_MAX <? header_len) || negb (data_offset =? header_len)
    then ret (XGL_ERR_INVALID_PARAM, frame_len, buffer)
    else
      let required_size := data_offset + data_len + XGL_CRC16_SIZE in
      if buffer_size <? required_size then ret (XGL_ERR_BUFFER_TOO_SMALL, frame_len, buffer)
      else
        let flags := if reliable then XGL_WIRE_FLAG_ACK_ELICITING else 0 in
        let finish (flags : Z) (buffer : bytes) :=
          '(err, buffer) ← xgl_wire_encode_header buffer XGL_WIRE_BASE_HEADER_SIZE
            (zerocopy_header header_len flags source_id target_id packet_number data_len priority
               reliable);
          if negb (is_ok err) then ret (err, frame_len, buffer)
          else
            let crc_offset := data_offset + data_len in
            crc16 ← xgl_crc16_modbus (Ptr buffer) 0 crc_offset;
            buffer ← xgl_serialize_u16_le buffer crc_offset crc16;
            ret (XGL_OK, required_size, buffer) in
        if 0 <? app_type_ext_len then
          let flags := u8 (Z.lor flags XGL_WIRE_FLAG_HAS_EXTENSIONS) in
          '(ext_err, app_ext_written, buffer) ←
            at_offset buffer XGL_WIRE_BASE_HEADER_SIZE (fun b =>
              xgl_wire_encode_ext b (buffer_size - XGL_WIRE_BASE_HEADER_SIZE)
                XGL_WIRE_EXT_DATA_TYPE (Ptr [data_type]) 1 0);
          if negb (is_ok ext_err) then ret (ext_err, frame_len, buffer)
          else if negb (app_ext_written =? app_type_ext_len)
          then ret (XGL_ERR_INVALID_FRAME, frame_len, buffer)
          else finish flags buffer
        else finish flags buffer.

(** ** Layout of a serialized frame *)

(** [p] points to exactly the [len] bytes [bs]; NULL stands for none. *)
Definition points_to (p : ptr bytes) (len : Z) (bs : bytes) : Prop :=
  len = zlen bs /\ bytes_ok bs /\ (p = Ptr bs \/ p = NULL /\ bs = []).
Definition seal (body : bytes) : bytes := body ++ le_bytes 2 (crc16 0xFFFF body).

Lemma copy_if_run p len bs filled free rest off :
  points_to p len bs -> length free = length bs -> off = zlen filled ->
  copy_if (filled ++ free ++ rest) off p len = Some (filled ++ bs ++ rest).
Proof.
  intros (-> & _ & [->|[-> ->]]) Hl ->.
  - unfold copy_if. destruct (0 <? zlen bs) eqn:Hpos.
    + rewrite <- (app_nil_r bs) at 1. rewrite (rd_bytes_prefix bs []) by done.
      cbn [mbind option_bind]. by apply wr_bytes_app.
    + assert (bs = []) as -> by (apply zlen_0_nil; lia). by destruct free.
  - by destruct free.
Qed.

(** The last step of every serializer. *)
Lemma seal_run {R} body old rest n (k : bytes -> M R) :
  bytes_ok (body ++ old ++ rest) -> n = zlen body -> length old = 2%nat ->
  (crc ← xgl_crc16_modbus (Ptr (body ++ old ++ rest)) 0 n;
   b ← xgl_serialize_u16_le (body ++ old ++ rest) n crc; k b) = k (seal body ++ rest).
Proof.
  intros Hok -> Hold. pose proof (zlen_nonneg body). pose proof (zlen_nonneg (old ++ rest)).
  rewrite crc16_modbus_spec by (done || (rewrite ?zlen_app in *; lia)).
  rewrite drop_to_nat_0, take_app_length' by (unfold zlen; lia). cbn [mbind option_bind].
  rewrite serialize_u16_le_spec, wr_bytes_app by (rewrite le_bytes_length; done).
  unfold seal. by rewrite <- app_assoc.
Qed.
Lemma seal_ok body : bytes_ok body -> bytes_ok (seal body).
Proof. intros. unfold seal. apply Forall_app_2; auto with xgl. Qed.
Lemma seal_zlen body : zlen (seal body) = zlen body + 2.
Proof. unfold seal. by autorewrite with zlen. Qed.
#[export] Hint Rewrite seal_zlen : zlen.
#[export] Hint Resolve seal_ok : xgl.

(** The header that goes on the wire in front of [ext] and [pl]. *)
Definition plain_header (frame : xgl_frame_t) (ext : bytes) : xgl_wire_header_t :=
  wire_header_of_frame frame (24 + zlen ext)
    (set_flag (0 <? zlen ext) XGL_WIRE_FLAG_HAS_EXTENSIONS (wh_flags (fr_header frame))).
Definition auth_header (frame : xgl_frame_t) (ext : bytes) : xgl_wire_header_t :=
  wire_header_of_frame frame (24 + zlen ext + 15)
    (u8 (Z.lor (Z.lor (wh_flags (fr_header frame)) XGL_WIRE_FLAG_HAS_EXTENSIONS)
               XGL_WIRE_FLAG_AUTHENTICATED)).

Lemma set_flag_range cond bit flags : 0 <= flags < 256 -> 0 <= set_flag cond bit flags < 256.
Proof. intros. unfold set_flag. case_if; [apply u8_range|done]. Qed.

(** Any header of the wire shape inherits the frame's field ranges. *)
Lemma wire_header_of_frame_ok frame n flags :
  wire_header_ok (fr_header frame) = true -> 0 <= flags < 256 ->
  wire_header_ok (wire_header_of_frame frame n flags) = true.
Proof.
  intros [(?&?&?&?&?&?) (?&?&?&?&?)]%wire_header_ok_spec Hf. apply wire_header_ok_spec.
  unfold wire_header_of_frame. cbn. split_and!; try done; try lia;
    first [apply u8_range|apply u16_range|unfold XGL_WIRE_VERSION; lia].
Qed.

(** Cutting the output buffer along the layout. *)
Lemma cut_buffer (b : bytes) n :
  0 <= n <= zlen b -> exists b1 b2, b = b1 ++ b2 /\ zlen b1 = n.
Proof. intros Hn. exists (take (Z.to_nat n) b), (drop (Z.to_nat n) b). by rewrite take_drop, zlen_take. Qed.

Lemma zlen_length {A B} (l : list A) (k : list B) : zlen l = zlen k -> length l = length k.
Proof. unfold zlen. lia. Qed.

Lemma frame_serialize_run old rest size frame ext pl bw :
  points_to (fr_extensions frame) (fr_extensions_len frame) ext ->
  points_to (fr_payload frame) (fr_payload_len frame) pl ->
  wire_header_ok (fr_header frame) = true ->
  wire_header_rejected (plain_header frame ext) = false ->
  zlen ext <= 231 -> bytes_ok (old ++ rest) ->
  zlen old = 24 + zlen ext + zlen pl + 2 -> zlen old <= size ->
  xgl_frame_serialize (old ++ rest) size frame bw =
    Some (XGL_OK, zlen old, seal (header_bytes (plain_header frame ext) ++ ext ++ pl) ++ rest).
Proof.
  intros Hext Hpl Hh Hrej Hel Hbok Hold Hsize. pose proof (zlen_nonneg ext). pose proof (zlen_nonneg pl).
  destruct (cut_buffer old 24) as (o1 & o2 & -> & H1); [lia|]. rewrite zlen_app in Hold.
  destruct (cut_buffer o2 (zlen ext)) as (o2' & o3 & -> & H2); [lia|]. rewrite zlen_app in Hold.
  destruct (cut_buffer o3 (zlen pl)) as (o3' & o4 & -> & H3); [lia|]. rewrite !zlen_app in *.
  assert (Hexl : fr_extensions_len frame = zlen ext) by apply Hext.
  assert (Hpll : fr_payload_len frame = zlen pl) by apply Hpl.
  pose proof (proj1 (wire_header_ok_spec _) Hh) as [(?&?&?&Hfl&?&?) _].
  unfold xgl_frame_serialize. rewrite Hexl, Hpll.
  unfold UINT8_MAX, XGL_WIRE_BASE_HEADER_SIZE, XGL_FRAME_HEADER_SIZE, XGL_CRC16_SIZE.
  replace (255 - 24 <? zlen ext) with false by lia.
  replace (size <? 24 + zlen ext + zlen pl + 2) with false by lia.
  unfold encode_frame_wire_header, UINT8_MAX, XGL_WIRE_BASE_HEADER_SIZE.
  replace (255 - 24 <? zlen ext) with false by lia.
  rewrite Z.lor_0_r, (u8_small (wh_flags _)) by done. fold (plain_header frame ext).
  rewrite <- !app_assoc.
  rewrite encode_header_run; [|unfold zlen in *; lia|lia| |done].
  2: { apply wire_header_of_frame_ok; [done|]. by apply set_flag_range. }
  cbn [mbind option_bind is_ok negb].
  rewrite (copy_if_run _ _ ext) by (rewrite <- ?Hexl; done || by apply zlen_length).
  cbn [mbind option_bind].
  rewrite (app_assoc (header_bytes _)).
  rewrite (copy_if_run _ _ pl)
    by (rewrite <- ?Hpll; done || (by apply zlen_length) || (autorewrite with zlen; lia)).
  cbn [mbind option_bind].
  replace (if _ && (0 <? zlen pl) then _ else _) with (24 + zlen ext + zlen pl).
  2: { destruct Hpl as (_ & _ & [->|[-> ->]]).
       - rewrite bool_decide_eq_true_2 by done. destruct (0 <? zlen pl) eqn:E; cbn [andb]; lia.
       - rewrite bool_decide_eq_false_2 by (intros Hn; by apply Hn). rewrite zlen_nil. cbn [andb]. lia. }
  set (body := (header_bytes (plain_header frame ext) ++ ext) ++ pl).
  assert (zlen body = 24 + zlen ext + zlen pl) as Hbz by (unfold body; autorewrite with zlen; lia).
  replace ((header_bytes (plain_header frame ext) ++ ext) ++ pl ++ o4 ++ rest) with (body ++ o4 ++ rest)
    by (unfold body; by rewrite <- app_assoc).
  rewrite seal_run; [|..|lia|unfold zlen in *; lia].
  - unfold body. rewrite <- (app_assoc (header_bytes _)).
    match goal with |- Some (_, ?a, _) = Some (_, ?b, _) => by replace b with a by lia end.
  - rewrite !Forall_app in Hbok. unfold body. destruct Hext as (_ & Hext & _), Hpl as (_ & Hpl & _).
    rewrite !Forall_app. split_and!; try tauto.
    apply header_bytes_ok, wire_header_of_frame_ok; [done|]. by apply set_flag_range.
Qed.

(** ** The authenticated layout *)

Lemma zlen_split3 {A} (l : list A) a b :
  0 <= a -> 0 <= b -> a + b <= zlen l ->
  exists l1 l2 l3, l = l1 ++ l2 ++ l3 /\ zlen l1 = a /\ zlen l2 = b.
Proof.
  intros. exists (take (Z.to_nat a) l), (slice l a b), (drop (Z.to_nat b) (drop (Z.to_nat a) l)).
  rewrite take_drop, take_drop, !zlen_take by (rewrite ?zlen_drop by lia; lia). done.
Qed.

Lemma encode_authenticated_header_run o1 o2 o3 rest size frame ext key tag_len hl :
  points_to (fr_extensions frame) (fr_extensions_len frame) ext ->
  wire_header_ok (fr_header frame) = true ->
  wire_header_rejected (auth_header frame ext) = false ->
  zlen ext <= 216 -> 1 <= tag_len < 256 ->
  zlen o1 = 24 -> zlen o2 = zlen ext -> zlen o3 = 15 -> 24 + zlen ext + 15 <= size ->
  encode_authenticated_header (o1 ++ o2 ++ o3 ++ rest) size frame key tag_len hl =
    Some (XGL_OK, 24 + zlen ext + 15,
      header_bytes (auth_header frame ext) ++ ext ++
        tlv_bytes (XGL_WIRE_EXT_SECURITY,
          security_value key (wh_packet_number (fr_header frame)) tag_len) ++ rest).
Proof.
  intros Hext Hh Hrej Hel Htag H1 H2 H3 Hsize. pose proof (zlen_nonneg ext).
  assert (Hexl : fr_extensions_len frame = zlen ext) by apply Hext.
  unfold encode_authenticated_header. rewrite Hexl.
  unfold UINT8_MAX, XGL_WIRE_BASE_HEADER_SIZE, XGL_WIRE_EXT_HEADER_SIZE.
  replace (255 - 24 <? zlen ext) with false by lia.
  replace (size <? 24 + zlen ext + 2 + 13) with false by lia.
  rewrite (copy_if_run _ _ ext) by (rewrite <- ?Hexl; done || by apply zlen_length).
  cbn [mbind option_bind].
  pose proof (encode_security_run (replicate 13 0) [] 13 key (wh_packet_number (fr_header frame))
    tag_len 0 eq_refl ltac:(lia) ltac:(lia)) as Hsec. rewrite !app_nil_r in Hsec. rewrite Hsec.
  cbn [mbind option_bind is_ok negb].
  set (sv := security_value key (wh_packet_number (fr_header frame)) tag_len).
  assert (zlen (o1 ++ ext) = 24 + zlen ext) as Hoff by (rewrite zlen_app; lia).
  rewrite (app_assoc o1), <- Hoff, at_offset_app. change 13 with (zlen sv).
  rewrite (encode_ext_run o3 rest); [|unfold sv, zlen in *; cbn; lia|done|done|
    change (zlen sv) with 13; lia].
  cbn [mbind option_bind is_ok negb]. change (2 + zlen sv) with 15. rewrite Hoff.
  replace (255 <? 24 + zlen ext + 15) with false by lia.
  rewrite <- app_assoc. fold (auth_header frame ext).
  rewrite encode_header_run; [done|unfold zlen in *; lia|lia| |done].
  apply wire_header_of_frame_ok; [done|]. apply u8_range.
Qed.

Lemma security_value_ok key nonce tag_len :
  0 <= tag_len < 256 -> bytes_ok (security_value key nonce tag_len).
Proof.
  intros. unfold security_value. rewrite !Forall_app. split_and!; auto with xgl.
Qed.

Lemma tlv_bytes_ok x : tlv_ok x -> bytes_ok (tlv_bytes x).
Proof.
  intros (Ht & Hn & Hv). pose proof (zlen_nonneg x.2).
  constructor; [lia|]. constructor; [lia|done].
Qed.
Lemma security_tlv_ok key nonce tag_len :
  0 <= tag_len < 256 -> tlv_ok (XGL_WIRE_EXT_SECURITY, security_value key nonce tag_len).
Proof.
  intros. unfold tlv_ok. cbn [fst snd]. split_and!; [done|done| |by apply security_value_ok].
  change (zlen (security_value key nonce tag_len)) with 13. lia.
Qed.

(** What the receiver of an authenticated frame sees in front of the payload. *)
Definition auth_aad (frame : xgl_frame_t) (ext : bytes) (key tag_len : Z) : bytes :=
  header_bytes (auth_header frame ext) ++ ext ++
  tlv_bytes (XGL_WIRE_EXT_SECURITY,
    security_value key (wh_packet_number (fr_header frame)) tag_len).
Lemma auth_aad_zlen frame ext key tag_len : zlen (auth_aad frame ext key tag_len) = 24 + zlen ext + 15.
Proof. unfold auth_aad, tlv_bytes. cbn [fst snd]. autorewrite with zlen. change (zlen (security_value _ _ _)) with 13. lia. Qed.

Lemma serialize_authenticated_run old rest size frame key p ext pl bw :
  provider_sound p ->
  points_to (fr_extensions frame) (fr_extensions_len frame) ext ->
  points_to (fr_payload frame) (fr_payload_len frame) pl ->
  wire_header_ok (fr_header frame) = true ->
  wire_header_rejected (auth_header frame ext) = false ->
  zlen ext <= 216 -> zlen pl <= 65535 -> bytes_ok (old ++ rest) ->
  zlen old = 24 + zlen ext + 15 + zlen pl + ap_tag_len p + 2 -> zlen old <= size ->
  size <= zlen (old ++ rest) ->
  exists tag, zlen tag = ap_tag_len p /\ bytes_ok tag /\
    (exists verify, ap_verify p = Ptr verify /\
       verify key (canon (auth_aad frame ext key (ap_tag_len p))) pl tag = (XGL_OK, true)) /\
    xgl_frame_serialize_authenticated (old ++ rest) size frame key (Ptr p) bw =
      Some (XGL_OK, zlen old, seal (auth_aad frame ext key (ap_tag_len p) ++ pl ++ tag) ++ rest).
Proof.
  intros (Htag & sign & verify & Hsign & Hverify & Hlaw) Hext Hpl Hh Hrej Hel Hpm Hbok Hold Hs1 Hs2.
  pose proof (zlen_nonneg ext). pose proof (zlen_nonneg pl). pose proof (zlen_nonneg rest).
  set (aad := auth_aad frame ext key (ap_tag_len p)).
  pose proof (auth_aad_zlen frame ext key (ap_tag_len p)) as Haz. fold aad in Haz.
  destruct (Hlaw key (canon aad) pl (size - 2 - (zlen aad + zlen pl)))
    as (tag & Hs & Htl & Htok & Hv); [lia|].
  exists tag. split; [done|]. split; [done|]. split; [by exists verify|].
  destruct (zlen_split3 old 24 (zlen ext)) as (o1 & o2 & old' & -> & Ho1 & Ho2); [lia..|].
  rewrite !zlen_app in *.
  destruct (zlen_split3 old' 15 (zlen pl)) as (o3 & o4 & old'' & -> & Ho3 & Ho4); [lia..|].
  rewrite !zlen_app in *.
  destruct (cut_buffer old'' (ap_tag_len p)) as (o5 & o6 & -> & Ho5); [lia|]. rewrite !zlen_app in *.
  assert (Hexl : fr_extensions_len frame = zlen ext) by apply Hext.
  assert (Hpll : fr_payload_len frame = zlen pl) by apply Hpl.
  unfold xgl_frame_serialize_authenticated, serialize_authenticated_with. rewrite Hpll, Hsign.
  rewrite bool_decide_eq_false_2 by done. unfold UINT16_MAX.
  replace (65535 <? zlen pl) with false by lia.
  unfold XGL_AUTH_TAG_MAX_LEN in *. replace (_ || (32 <? ap_tag_len p)) with false by lia.
  rewrite (u8_small (ap_tag_len p)) by lia. rewrite <- !app_assoc.
  rewrite (encode_authenticated_header_run _ _ _ _ _ _ ext) by (done || lia).
  replace (header_bytes _ ++ ext ++ _ ++ o4 ++ o5 ++ o6 ++ rest) with (aad ++ o4 ++ o5 ++ o6 ++ rest)
    by (unfold aad, auth_aad; by rewrite <- !app_assoc).
  cbn [mbind option_bind is_ok negb]. unfold XGL_CRC16_SIZE. rewrite <- Haz.
  replace (size <? zlen aad + zlen pl + ap_tag_len p + 2) with false by lia.
  rewrite <- Hpll at 1. rewrite (copy_if_run _ _ pl) by (done || by apply zlen_length).
  cbn [mbind option_bind].
  set (buf := aad ++ pl ++ o5 ++ o6 ++ rest).
  assert (take (Z.to_nat (zlen aad)) buf = aad) as Hta
    by (apply take_app_length'; unfold zlen; lia).
  assert (slice buf (zlen aad) (zlen pl) = pl) as Hsl.
  { unfold buf, zlen. by rewrite !Nat2Z.id, drop_app_length, take_app_length. }
  assert (zlen buf = zlen aad + zlen pl + ap_tag_len p + zlen o6 + zlen rest) as Hbz
    by (unfold buf; rewrite !zlen_app; lia).
  rewrite (append_auth_run _ _ _ _ _ _ p sign tag);
    rewrite ?Hta, ?Hsl; try done; try (unfold XGL_AUTH_TAG_MAX_LEN; lia).
  cbn [mbind option_bind is_ok negb].
  rewrite Z.eqb_refl. cbn [negb orb].
  replace (size <? zlen aad + zlen pl + ap_tag_len p + 2) with false by lia.
  assert (take (Z.to_nat (zlen aad + zlen pl)) buf = aad ++ pl) as ->.
  { unfold buf. rewrite app_assoc. apply take_app_length'. rewrite length_app. unfold zlen. lia. }
  assert (drop (Z.to_nat (zlen aad + zlen pl + ap_tag_len p)) buf = o6 ++ rest) as ->.
  { unfold buf. rewrite !app_assoc, <- app_assoc. apply drop_app_length'.
    rewrite !length_app. unfold zlen in *. lia. }
  replace ((aad ++ pl) ++ tag ++ o6 ++ rest) with ((aad ++ pl ++ tag) ++ o6 ++ rest)
    by (by rewrite <- !app_assoc).
  rewrite seal_run; [|..|rewrite !zlen_app; lia|unfold zlen in *; lia].
  - match goal with |- Some (_, ?a, _) = Some (_, ?b, _) => by replace b with a by lia end.
  - rewrite !Forall_app in *. destruct Hext as (_ & Hext & _), Hpl as (_ & Hpl & _).
    split_and!; try tauto. unfold aad, auth_aad. rewrite !Forall_app. split_and!; [|done|].
    + apply header_bytes_ok, wire_header_of_frame_ok; [done|]. apply u8_range.
    + apply tlv_bytes_ok, security_tlv_ok. lia.
Qed.

(** ** Traffic-class bits *)
Lemma reliability_class_small c :
  0 <= c < 256 ->
  Z.land c XGL_RELIABILITY_CLASS_MASK = 0 \/ Z.land c XGL_RELIABILITY_CLASS_MASK = 64 \/
  Z.land c XGL_RELIABILITY_CLASS_MASK = 128 \/ Z.land c XGL_RELIABILITY_CLASS_MASK = 192.
Proof.
  intros Hc. unfold XGL_RELIABILITY_CLASS_MASK.
  assert (Z.land c 192 = Z.shiftl (Z.land (Z.shiftr c 6) 3) 6) as ->.
  { change 192 with (Z.shiftl 3 6). apply Z.bits_inj'. intros i Hi.
    rewrite Z.land_spec, !Z.shiftl_spec, Z.land_spec by done.
    destruct (decide (i < 6)).
    - rewrite (Z.testbit_neg_r 3), (Z.testbit_neg_r (Z.shiftr c 6)) by lia. by rewrite andb_false_r.
    - rewrite Z.shiftr_spec by lia. do 2 f_equal. lia. }
  assert (0 <= Z.land (Z.shiftr c 6) 3 < 4) as H4.
  { change 3 with (Z.ones 2). rewrite Z.land_ones by lia. apply Z.mod_pos_bound. lia. }
  assert (Z.land (Z.shiftr c 6) 3 = 0 \/ Z.land (Z.shiftr c 6) 3 = 1 \/
          Z.land (Z.shiftr c 6) 3 = 2 \/ Z.land (Z.shiftr c 6) 3 = 3) as Hc4 by lia.
  destruct Hc4 as [-> | [-> | [-> | ->]]]; auto.
Qed.
Lemma priority_small p : 0 <= p -> exists q, 0 <= q < 8 /\ Z.land p XGL_TRAFFIC_PRIORITY_MASK = q.
Proof.
  intros. exists (p mod 8). split; [apply Z.mod_pos_bound; lia|].
  unfold XGL_TRAFFIC_PRIORITY_MASK. change 7 with (Z.ones 3). by rewrite Z.land_ones by lia.
Qed.

(** The reliability bits the parameters ask for. *)
Definition requested_reliability (params : xgl_frame_params_t) : Z :=
  if negb (fp_reliability_class params =? 0)
  then Z.land (fp_reliability_class params) XGL_RELIABILITY_CLASS_MASK
  else if fp_reliable params then XGL_RELIABILITY_ACK_ELICITING else XGL_RELIABILITY_NONE.

Lemma build_traffic_class_bits_spec params :
  0 <= fp_reliability_class params < 256 -> 0 <= fp_priority params ->
  let bits := build_traffic_class_bits params in
  0 <= bits < 256 /\ Z.land bits XGL_RELIABILITY_CLASS_MASK = requested_reliability params /\
  (Z.land bits XGL_TRAFFIC_FRAGMENTED_MASK =? 0) = negb (fp_fragment params) /\
  Z.land bits XGL_TRAFFIC_PRIORITY_MASK = Z.land (fp_priority params) XGL_TRAFFIC_PRIORITY_MASK /\
  Z.land bits 0x18 = 0.
Proof.
  intros Hc Hp. unfold build_traffic_class_bits, requested_reliability, XGL_RELIABILITY_NONE.
  destruct (priority_small (fp_priority params) Hp) as (q & Hq & Hqe).
  unfold xgl_frame_set_priority, xgl_frame_set_reliability_class, xgl_frame_set_reliability.
  rewrite Hqe, Z.land_0_l, !Z.lor_0_l.
  assert (q = 0 \/ q = 1 \/ q = 2 \/ q = 3 \/ q = 4 \/ q = 5 \/ q = 6 \/ q = 7) as Hq8 by lia.
  destruct (fp_reliability_class params =? 0); cbn [negb].
  - destruct (fp_reliable params), (fp_fragment params);
      repeat (destruct Hq8 as [->|Hq8]; [vm_compute; intuition congruence|]); rewrite Hq8;
      vm_compute; intuition congruence.
  - destruct (reliability_class_small (fp_reliability_class params) Hc) as [-> |[-> |[-> | ->]]];
      destruct (fp_fragment params);
      repeat (destruct Hq8 as [->|Hq8]; [vm_compute; intuition congruence|]); rewrite Hq8;
      vm_compute; intuition congruence.
Qed.

Lemma set_flag_testbit cond bit flags k :
  0 <= k < 8 ->
  Z.testbit (set_flag cond bit flags) k = Z.testbit flags k || (cond && Z.testbit bit k).
Proof.
  intros. unfold set_flag, u8. destruct cond; [|by rewrite orb_false_r].
  change 256 with (2 ^ 8). by rewrite Z.mod_pow2_bits_low, Z.lor_spec by lia.
Qed.

Definition frame_params_ok (p : xgl_frame_params_t) : bool :=
  is_u16 (fp_source_id p) && is_u16 (fp_target_id p) && is_u8 (fp_packet_type p) &&
  is_u8 (fp_flags p) && is_u8 (fp_traffic_class p) && is_u32 (fp_connection_id p) &&
  is_u32 (fp_packet_number p) && is_u8 (fp_reliability_class p) && is_u8 (fp_priority p) &&
  is_u16 (fp_session_id p) && is_u8 (fp_ttl p).
Lemma frame_params_ok_spec p :
  frame_params_ok p = true <->
  (0 <= fp_source_id p < 65536 /\ 0 <= fp_target_id p < 65536 /\ 0 <= fp_packet_type p < 256 /\
   0 <= fp_flags p < 256 /\ 0 <= fp_traffic_class p < 256) /\
  (0 <= fp_connection_id p < 4294967296 /\ 0 <= fp_packet_number p < 4294967296 /\
   0 <= fp_reliability_class p < 256 /\ 0 <= fp_priority p < 256 /\
   0 <= fp_session_id p < 65536 /\ 0 <= fp_ttl p < 256).
Proof. unfold frame_params_ok. unwrap_ints. rewrite !andb_true_iff. lia. Qed.

Lemma frame_build_header_ok f0 p f :
  frame_params_ok p = true -> xgl_frame_build f0 p = (XGL_OK, f) -> wire_header_ok (fr_header f) = true.
Proof.
  intros [(?&?&?&?&?) (?&?&?&?&?&?)]%frame_params_ok_spec. unfold xgl_frame_build.
  case_if; [congruence|]. intros [= <-].
  destruct (build_traffic_class_bits_spec p ltac:(done) ltac:(lia)) as (Hb & _).
  apply wire_header_ok_spec. cbn [fr_header wh_version wh_header_len wh_packet_type wh_flags wh_ttl
    wh_traffic_class wh_source_id wh_target_id wh_connection_id wh_packet_number wh_payload_len].
  unfold XGL_WIRE_VERSION, XGL_WIRE_BASE_HEADER_SIZE.
  split_and!; try lia; try apply u16_range; try (by repeat apply set_flag_range);
    repeat case_if; unfold XGL_PACKET_TYPE_ACK, XGL_PACKET_TYPE_DATA; lia.
Qed.

(** ** In-place building, run *)
Lemma zerocopy_finish_run {R} o1 e pl o3 rest h (k : bytes -> M R) fail :
  zlen o1 = 24 -> zlen o3 = 2 -> wire_header_ok h = true -> wire_header_rejected h = false ->
  bytes_ok (o1 ++ e ++ pl ++ o3 ++ rest) ->
  ('(err, buffer) ← xgl_wire_encode_header (o1 ++ e ++ pl ++ o3 ++ rest) 24 h;
   if negb (is_ok err) then fail err buffer
   else crc16 ← xgl_crc16_modbus (Ptr buffer) 0 (24 + zlen e + zlen pl);
        b ← xgl_serialize_u16_le buffer (24 + zlen e + zlen pl) crc16; k b)
  = k (seal (header_bytes h ++ e ++ pl) ++ rest).
Proof.
  intros H1 H3 Hok Hrej Hb. rewrite encode_header_run; [|unfold zlen in *; lia|lia|done|done].
  cbn [mbind option_bind is_ok negb].
  replace (header_bytes h ++ e ++ pl ++ o3 ++ rest) with ((header_bytes h ++ e ++ pl) ++ o3 ++ rest)
    by (by rewrite <- !app_assoc).
  rewrite seal_run; [done| |autorewrite with zlen; lia|unfold zlen in *; lia].
  rewrite !Forall_app in *. split_and!; try tauto. by apply header_bytes_ok.
Qed.

(** The parameters whose frame [xgl_frame_build_zerocopy] builds in place. *)
Definition zerocopy_params (source_id target_id data_type packet_number priority : Z)
    (reliable : bool) (pl : bytes) : xgl_frame_params_t :=
  let ext := if data_type =? 0 then [] else [XGL_WIRE_EXT_DATA_TYPE; 1; data_type] in
  mk_frame_params source_id target_id data_type XGL_PACKET_TYPE_DATA 0 0 0 packet_number 0
    (Ptr ext) (zlen ext) (Ptr pl) (zlen pl) reliable XGL_RELIABILITY_NONE false priority 0
    XGL_FRAME_DEFAULT_TTL.

(** The frame for these parameters, and the header that the in-place builder writes. *)
Section zerocopy.
  Context (source_id target_id data_type packet_number priority : Z) (reliable : bool) (pl : bytes) (f0 f : xgl_frame_t).
  Context (Hsrc : 1 <= source_id < 65536) (Htgt : 1 <= target_id < 65536) (Hdt : is_u8 data_type = true)
    (Hpn : is_u32 packet_number = true) (Hpr : is_u8 priority = true) (Hpl : zlen pl <= 65535).
  Context (Hbuild : xgl_frame_build f0 (zerocopy_params source_id target_id data_type packet_number priority reliable pl) = (XGL_OK, f)).
Let ext := if data_type =? 0 then [] else [XGL_WIRE_EXT_DATA_TYPE; 1; data_type].
Let flags := set_flag (0 <? zlen ext) XGL_WIRE_FLAG_HAS_EXTENSIONS (if reliable then XGL_WIRE_FLAG_ACK_ELICITING else 0).
Let h := zerocopy_header (24 + zlen ext) flags source_id target_id packet_number (zlen pl) priority reliable.

Lemma zerocopy_ext_ok : (zlen ext = 0 \/ zlen ext = 3) /\ bytes_ok ext /\ (0 <? zlen ext = true -> ext = [8; 1; data_type]).
Proof using Hdt.
  clear h flags Hbuild Hpl Hsrc Htgt Hpn Hpr.
  pose proof (proj1 (is_u8_spec _) Hdt). unfold ext. destruct (data_type =? 0).
  - split; [by left|]. by split; [constructor|].
  - split; [by right|]. split; [|done]. unfold XGL_WIRE_EXT_DATA_TYPE. repeat constructor; lia.
Qed.
Lemma zerocopy_header_ok : 0 <= flags < 256 /\ wire_header_ok h = true /\ wire_header_rejected h = false.
Proof using Hsrc Htgt Hdt Hpn Hpr.
  clear Hbuild Hpl. pose proof (proj1 (is_u8_spec _) Hpr). pose proof (proj1 (is_u32_spec _) Hpn). destruct zerocopy_ext_ok as (Hez & _). pose proof (zlen_nonneg pl).
  assert (0 <= flags < 256) as Hfl by (apply set_flag_range; destruct reliable; unfold XGL_WIRE_FLAG_ACK_ELICITING; lia).
  split; [done|]. split.
  - apply wire_header_ok_spec. unfold h, zerocopy_header. cbn.
    unfold XGL_WIRE_VERSION, XGL_PACKET_TYPE_DATA, XGL_FRAME_DEFAULT_TTL.
    split_and!; try lia; apply u8_range || apply u16_range.
  - unfold wire_header_rejected, h, zerocopy_header. cbn [wh_version wh_header_len wh_packet_type
      wh_source_id wh_target_id]. rewrite u8_small by lia. unfold XGL_WIRE_BASE_HEADER_SIZE.
    change (wire_packet_type_valid XGL_PACKET_TYPE_DATA) with true.
    rewrite Z.eqb_refl. cbn [negb orb]. lia.
Qed.
Lemma zerocopy_frame : bytes_ok pl ->
  plain_header f ext = h /\ points_to (fr_extensions f) (fr_extensions_len f) ext /\
  points_to (fr_payload f) (fr_payload_len f) pl /\ wire_header_ok (fr_header f) = true.
Proof.
  intros Hplok. destruct zerocopy_ext_ok as (Hez & Hexok & _).
  assert (wire_header_ok (fr_header f) = true) as Hfok.
  { eapply frame_build_header_ok; [|exact Hbuild]. apply frame_params_ok_spec.
    pose proof (proj1 (is_u8_spec _) Hpr). pose proof (proj1 (is_u8_spec _) Hdt). pose proof (proj1 (is_u32_spec _) Hpn).
    cbn. unfold XGL_PACKET_TYPE_DATA, XGL_FRAME_DEFAULT_TTL, XGL_RELIABILITY_NONE. lia. }
  revert Hbuild. unfold xgl_frame_build. cbn [fp_payload_len zerocopy_params].
  unfold UINT16_MAX. replace (65535 <? zlen pl) with false by lia. intros Hbuild'.
  injection Hbuild' as <-. fold ext in Hfok |- *. pose proof (proj1 (is_u8_spec _) Hpr). destruct (priority_small priority ltac:(lia)) as (q & Hq & Hqe).
  assert (q = 0 \/ q = 1 \/ q = 2 \/ q = 3 \/ q = 4 \/ q = 5 \/ q = 6 \/ q = 7) as Hq8 by lia.
  unfold points_to. split_and!; [|reflexivity|done|left; reflexivity|reflexivity|done|left; reflexivity|exact Hfok].
  unfold plain_header, wire_header_of_frame, h, zerocopy_header, build_traffic_class_bits,
    xgl_frame_set_priority. cbn [zerocopy_params fp_priority fp_reliability_class fp_reliable
    fp_fragment fp_flags fp_extensions fp_extensions_len]. rewrite Hqe. fold ext.
  unfold flags, ext. destruct reliable, (data_type =? 0);
    repeat (destruct Hq8 as [->|Hq8]; [reflexivity|]); rewrite Hq8; reflexivity.
Qed.

(** What the in-place builder leaves in the buffer. *)
Lemma zerocopy_build_run hdr crc rest size flen :
  zlen hdr = 24 + zlen ext -> zlen crc = 2 -> bytes_ok (hdr ++ pl ++ crc ++ rest) -> 24 + zlen ext + zlen pl + 2 <= size ->
  xgl_frame_build_zerocopy (hdr ++ pl ++ crc ++ rest) size (24 + zlen ext) (zlen pl)
    source_id target_id data_type packet_number reliable priority flen =
    Some (XGL_OK, 24 + zlen ext + zlen pl + 2, seal (header_bytes (plain_header f ext) ++ ext ++ pl) ++ rest).
Proof.
  intros Hhdr Hcrc Hok Hsize. pose proof (zlen_nonneg pl). destruct zerocopy_ext_ok as (Hez & Hexok & Hex3).
  destruct zerocopy_header_ok as (Hfl & Hh & Hrej).
  assert (bytes_ok pl) as Hplok by (rewrite !Forall_app in Hok; tauto). destruct (zerocopy_frame Hplok) as (-> & _).
  destruct (cut_buffer hdr 24) as (o1 & o2 & -> & H1); [lia|]. rewrite zlen_app in Hhdr.
  unfold xgl_frame_build_zerocopy, UINT16_MAX, UINT8_MAX, XGL_WIRE_BASE_HEADER_SIZE.
  replace (65535 <? zlen pl) with false by lia.
  replace (if negb (data_type =? 0) then XGL_DATA_TYPE_EXT_SIZE else 0) with (zlen ext)
    by (unfold ext; by destruct (data_type =? 0)).
  replace ((255 <? _) || negb (_ =? _)) with false by lia.
  unfold XGL_CRC16_SIZE. replace (size <? 24 + zlen ext + zlen pl + 2) with false by lia.
  pose proof (zerocopy_finish_run o1 ext pl crc rest h (fun b => ret (XGL_OK, 24 + zlen ext + zlen pl + 2, b))
    (fun e b => ret (e, flen, b)) H1 Hcrc Hh Hrej) as Hfinish.
  destruct (0 <? zlen ext) eqn:Hpos.
  - rewrite <- app_assoc, <- H1 at 1. rewrite at_offset_app.
    rewrite (encode_ext_run o2 (pl ++ crc ++ rest) _ XGL_WIRE_EXT_DATA_TYPE [data_type]);
      [|cbn; rewrite (Hex3 eq_refl) in *; unfold zlen in *; cbn in *; lia|done|done|rewrite (Hex3 eq_refl) in *; unfold zlen in *; cbn in *; lia].
    cbn [mbind option_bind is_ok negb]. change (2 + zlen [data_type]) with 3.
    change (tlv_bytes (XGL_WIRE_EXT_DATA_TYPE, [data_type])) with [8; 1; data_type]. rewrite <- (Hex3 eq_refl).
    replace (3 =? zlen ext) with true by (rewrite (Hex3 eq_refl); done). cbn [negb].
    assert (u8 (Z.lor (if reliable then XGL_WIRE_FLAG_ACK_ELICITING else 0)
      XGL_WIRE_FLAG_HAS_EXTENSIONS) = flags) as -> by (unfold flags; rewrite ?Hpos; done).
    apply Hfinish. rewrite !Forall_app in *. tauto.
  - assert (ext = []) as Hnil by (apply zlen_0_nil; lia).
    assert (o2 = []) as -> by (apply zlen_0_nil; rewrite Hnil in Hhdr; rewrite zlen_nil in Hhdr; lia).
    rewrite app_nil_r in *.
    assert ((if reliable then XGL_WIRE_FLAG_ACK_ELICITING else 0) = flags) as ->
      by (unfold flags; rewrite ?Hpos; done).
    replace (o1 ++ pl ++ crc ++ rest) with (o1 ++ ext ++ pl ++ crc ++ rest) by (by rewrite Hnil).
    apply Hfinish. by rewrite Hnil.
Qed.
End zerocopy.

(** ** Properties *)

(** [xgl_frame_build] derives the header from the parameters: the derived
    traffic class carries exactly the requested reliability, fragment bit and
    priority; each wire flag is the caller's flag or the condition that forces
    it; the packet type defaults to DATA and is forced to ACK for ACK_ONLY; the
    result fits its C types; a payload above 65535 bytes is refused untouched. *)
Theorem frame_build_derives_header (frame : xgl_frame_t) (p : xgl_frame_params_t) :
  frame_params_ok p = true -> 0 <= fp_payload_len p ->
  if 65535 <? fp_payload_len p
  then xgl_frame_build frame p = (XGL_ERR_BUFFER_TOO_SMALL, frame)
  else exists f, xgl_frame_build frame p = (XGL_OK, f) /\
    let h := fr_header f in
    let rel := requested_reliability p in
    let bits := build_traffic_class_bits p in
    wire_header_ok h = true /\ wh_payload_len h = fp_payload_len p /\
    wh_traffic_class h = (if fp_traffic_class p =? 0 then bits else fp_traffic_class p) /\
    Z.land bits XGL_RELIABILITY_CLASS_MASK = rel /\
    (Z.land bits XGL_TRAFFIC_FRAGMENTED_MASK =? 0) = negb (fp_fragment p) /\
    xgl_frame_get_priority bits = fp_priority p mod 8 /\
    (forall k, 0 <= k < 8 -> Z.testbit (wh_flags h) k =
       Z.testbit (fp_flags p) k ||
       ((k =? 0) && (rel =? XGL_RELIABILITY_ACK_ELICITING)) ||
       ((k =? 1) && (fp_fragment p || bool_decide (fp_extensions p <> NULL) && (0 <? fp_extensions_len p))) ||
       ((k =? 2) && fp_fragment p) ||
       ((k =? 5) && (wh_packet_type h =? XGL_PACKET_TYPE_CONTROL))) /\
    wh_packet_type h =
      (if rel =? XGL_RELIABILITY_ACK_ONLY then XGL_PACKET_TYPE_ACK
       else if fp_packet_type p =? XGL_PACKET_TYPE_INVALID then XGL_PACKET_TYPE_DATA
       else fp_packet_type p) /\
    wh_connection_id h =
      (if fp_connection_id p =? 0 then fp_session_id p else fp_connection_id p).
Proof.
  intros Hp Hpl. apply frame_params_ok_spec in Hp as [(Hsrc&Htgt&Hpt&Hfl&Htc) (Hcid&Hpn&Hrc&Hpr&Hsid&Httl)].
  unfold xgl_frame_build, UINT16_MAX. destruct (65535 <? fp_payload_len p) eqn:Hbig; [done|].
  destruct (build_traffic_class_bits_spec p Hrc ltac:(lia)) as (Hb & Hrel & Hfrag & Hprio & _).
  set (bits := build_traffic_class_bits p) in *.
  assert (0 <= requested_reliability p < 256) as Hrr.
  { rewrite <- Hrel. apply (land_bound _ _ 8); [lia|lia|done]. }
  rewrite Hrel, Hfrag, (u8_small (requested_reliability p)), negb_involutive by done.
  eexists. split; [reflexivity|]. cbn [fr_header wh_payload_len wh_traffic_class wh_flags
    wh_packet_type wh_connection_id].
  split_and!; try done.
  - match goal with |- wire_header_ok ?h = true =>
      change h with (fr_header (mk_frame h (fp_extensions p) (fp_extensions_len p)
                                  (fp_payload p) (fp_payload_len p) 0)) end.
    eapply (frame_build_header_ok frame p); [by apply frame_params_ok_spec|].
    unfold xgl_frame_build, UINT16_MAX. rewrite Hbig. fold bits.
    by rewrite Hrel, Hfrag, (u8_small (requested_reliability p)), negb_involutive.
  - apply u16_small. lia.
  - by destruct (fp_traffic_class p =? 0).
  - unfold xgl_frame_get_priority. rewrite Hprio. unfold XGL_TRAFFIC_PRIORITY_MASK.
    change 7 with (Z.ones 3). rewrite Z.land_ones by lia. apply u8_small.
    pose proof (Z.mod_pos_bound (fp_priority p) 8). lia.
  - intros k Hk. rewrite !set_flag_testbit by done.
    assert (k = 0 \/ k = 1 \/ k = 2 \/ k = 3 \/ k = 4 \/ k = 5 \/ k = 6 \/ k = 7) as Hk8 by lia.
    destruct Hk8 as [-> |[-> |[-> |[-> |[-> |[-> |[-> | ->]]]]]]];
      cbn; rewrite ?andb_false_r, ?andb_true_r, ?orb_false_r, ?orb_true_r, ?orb_assoc; done.
  - by destruct (fp_connection_id p =? 0).
Qed.
Lemma frame_build_derives_header_witness :
  exists f, xgl_frame_build (mk_frame zero_wire_header NULL 0 NULL 0 0)
      (mk_frame_params 1 2 0 0 0 0 0 7 0 NULL 0 NULL 3 true 0 true 9 5 8) = (XGL_OK, f) /\
    wh_traffic_class (fr_header f) = 0x61 /\ wh_flags (fr_header f) = 7 /\
    wh_connection_id (fr_header f) = 5 /\ wire_header_ok (fr_header f) = true.
Proof.
  destruct (frame_build_derives_header (mk_frame zero_wire_header NULL 0 NULL 0 0)
    (mk_frame_params 1 2 0 0 0 0 0 7 0 NULL 0 NULL 3 true 0 true 9 5 8) eq_refl ltac:(cbn; lia))
    as (f & Hf & Hok & _).
  exists f. split; [exact Hf|]. vm_compute in Hf. injection Hf as <-.
  split; [reflexivity|]. split; [reflexivity|]. split; [reflexivity|exact Hok].
Defined.

(** Serialization: a frame whose extension and payload pointers describe the
    bytes [ext] and [pl] is written as header, extensions, payload and CRC16
    over all of them, nothing else of the buffer changes, the length reported
    is the one [xgl_frame_serialized_size] predicts, and a buffer one byte
    short is refused without being touched; a payload within the budget that
    [xgl_frame_payload_budget] computes always fits the frame size. *)
Theorem frame_serialize_layout (old rest ext pl : bytes) (size bw maximum : Z) (frame : xgl_frame_t) :
  points_to (fr_extensions frame) (fr_extensions_len frame) ext ->
  points_to (fr_payload frame) (fr_payload_len frame) pl ->
  wire_header_ok (fr_header frame) = true ->
  wire_header_rejected (plain_header frame ext) = false ->
  zlen ext <= 231 -> bytes_ok (old ++ rest) ->
  let n := xgl_frame_serialized_size (zlen pl) (zlen ext) 0 in
  zlen old = n -> n <= size ->
  xgl_frame_serialize (old ++ rest) size frame bw =
    Some (XGL_OK, n, seal (header_bytes (plain_header frame ext) ++ ext ++ pl) ++ rest) /\
  (forall buf s, s < n -> xgl_frame_serialize buf s frame bw = Some (XGL_ERR_BUFFER_TOO_SMALL, bw, buf)) /\
  (xgl_frame_payload_budget maximum (zlen ext) 0 = (true, zlen pl) -> n <= maximum).
Proof.
  intros Hext Hpl Hh Hrej Hel Hok n Hold Hsize.
  assert (n = 24 + zlen ext + zlen pl + 2) as Hn
    by (unfold n, xgl_frame_serialized_size, XGL_WIRE_BASE_HEADER_SIZE, XGL_CRC16_SIZE;
        change (xgl_frame_auth_overhead 0) with 0; lia).
  split_and!.
  - rewrite <- Hold. apply frame_serialize_run; done || lia.
  - intros buf s Hs. unfold xgl_frame_serialize.
    destruct Hext as (-> & _), Hpl as (-> & _).
    unfold UINT8_MAX, XGL_WIRE_BASE_HEADER_SIZE, XGL_FRAME_HEADER_SIZE, XGL_CRC16_SIZE.
    replace (255 - 24 <? zlen ext) with false by lia.
    by replace (s <? 24 + zlen ext + zlen pl + 2) with true by lia.
  - unfold xgl_frame_payload_budget, XGL_WIRE_BASE_HEADER_SIZE, XGL_CRC16_SIZE.
    change (xgl_frame_auth_overhead 0) with 0. case_if; [congruence|]. intros [= Hb]. lia.
Qed.
Lemma frame_serialize_layout_witness :
  let f := mk_frame (mk_wire_header 2 24 1 0 8 0 1 2 0 7 3 0) (Ptr [8; 1; 5]) 3 (Ptr [1; 2; 3]) 3 0 in
  xgl_frame_serialize (replicate 32 0 ++ [9]) 33 f 0 =
    Some (XGL_OK, 32, seal (header_bytes (plain_header f [8; 1; 5]) ++ [8; 1; 5] ++ [1; 2; 3]) ++ [9]).
Proof.
  intros f.
  refine (proj1 (frame_serialize_layout (replicate 32 0) [9] [8; 1; 5] [1; 2; 3] 33 0 0 f
    _ _ eq_refl eq_refl _ _ eq_refl _)).
  - split; [reflexivity|]. split; [repeat constructor; lia|left; reflexivity].
  - split; [reflexivity|]. split; [repeat constructor; lia|left; reflexivity].
  - vm_compute. discriminate.
  - repeat constructor; lia.
  - vm_compute. discriminate.
Defined.

(** Authenticated serialization: with a sound provider the frame is written
    as header (AUTHENTICATED and HAS_EXTENSIONS set, header length and payload
    length exact), the caller's extensions, the SECURITY extension naming key,
    nonce (the packet number) and tag length, payload, tag and CRC16; the
    provider accepts the tag for exactly this AAD and payload; the length is
    the one [xgl_frame_serialized_size] predicts. *)
Theorem frame_serialize_authenticated_layout (old rest ext pl : bytes) (size key bw : Z)
    (frame : xgl_frame_t) (p : xgl_auth_provider_t) :
  provider_sound p ->
  points_to (fr_extensions frame) (fr_extensions_len frame) ext ->
  points_to (fr_payload frame) (fr_payload_len frame) pl ->
  wire_header_ok (fr_header frame) = true ->
  wire_header_rejected (auth_header frame ext) = false ->
  zlen ext <= 216 -> zlen pl <= 65535 -> bytes_ok (old ++ rest) ->
  let n := xgl_frame_serialized_size (zlen pl) (zlen ext) (ap_tag_len p) in
  zlen old = n -> n <= size -> size <= zlen (old ++ rest) ->
  let h := auth_header frame ext in
  exists tag aad,
    aad = header_bytes h ++ ext ++ tlv_bytes (XGL_WIRE_EXT_SECURITY,
      security_value key (wh_packet_number h) (ap_tag_len p)) /\
    wh_header_len h = zlen aad /\ wh_payload_len h = zlen pl /\
    Z.land (wh_flags h) XGL_WIRE_FLAG_AUTHENTICATED <> 0 /\
    Z.land (wh_flags h) XGL_WIRE_FLAG_HAS_EXTENSIONS <> 0 /\
    (exists verify, ap_verify p = Ptr verify /\ verify key (canon aad) pl tag = (XGL_OK, true)) /\
    xgl_frame_serialize_authenticated (old ++ rest) size frame key (Ptr p) bw =
      Some (XGL_OK, n, seal (aad ++ pl ++ tag) ++ rest).
Proof.
  intros Hp Hext Hpl Hh Hrej Hel Hpm Hok n Hold Hs1 Hs2 h.
  pose proof (zlen_nonneg ext). pose proof (zlen_nonneg pl).
  pose proof Hp as (Htag & _). pose proof (proj1 Hpl) as Hpll.
  assert (n = 24 + zlen ext + 15 + zlen pl + ap_tag_len p + 2) as Hn.
  { unfold n, xgl_frame_serialized_size, xgl_frame_auth_overhead, XGL_WIRE_BASE_HEADER_SIZE,
      XGL_CRC16_SIZE, XGL_SECURITY_EXT_SIZE, XGL_SECURITY_EXT_VALUE_SIZE, XGL_WIRE_EXT_HEADER_SIZE.
    replace (0 <? ap_tag_len p) with true by lia. lia. }
  destruct (serialize_authenticated_run old rest size frame key p ext pl bw)
    as (tag & Htl & Htok & Hver & Hrun); try done; try lia.
  exists tag, (auth_aad frame ext key (ap_tag_len p)).
  pose proof (auth_aad_zlen frame ext key (ap_tag_len p)) as Haz.
  assert (forall k, 0 <= k < 8 -> Z.testbit (wh_flags h) k =
    Z.testbit (Z.lor (Z.lor (wh_flags (fr_header frame)) 2) 16) k) as Hbits.
  { intros k Hk. unfold h, auth_header, wire_header_of_frame, u8. cbn [wh_flags set_field].
    change 256 with (2 ^ 8). rewrite Z.mod_pow2_bits_low by lia. done. }
  assert (forall f k, Z.testbit f k = true -> Z.land f (2 ^ k) <> 0) as Hland.
  { intros f k Hb Hz. assert (0 <= k) by (destruct (decide (0 <= k)); [done|];
      rewrite Z.testbit_neg_r in Hb by lia; done).
    apply (f_equal (fun z => Z.testbit z k)) in Hz.
    rewrite Z.land_spec, Z.pow2_bits_true, Hb, Z.bits_0 in Hz by done. done. }
  split_and!; try done.
  - unfold h, auth_header, wire_header_of_frame. cbn [wh_header_len set_field]. rewrite Haz.
    cbn. apply u8_small. lia.
  - unfold h, auth_header, wire_header_of_frame. cbn. rewrite Hpll. apply u16_small. lia.
  - apply (Hland _ 4). rewrite Hbits, !Z.lor_spec by lia. apply orb_true_r.
  - apply (Hland _ 1). rewrite Hbits, !Z.lor_spec by lia. by rewrite orb_true_r.
  - rewrite Hn, <- Hn, <- Hold. exact Hrun.
Qed.
Lemma frame_serialize_authenticated_layout_witness :
  let f := mk_frame (mk_wire_header 2 24 1 0 8 0 1 2 0 7 3 0) NULL 0 (Ptr [1; 2; 3]) 3 0 in
  exists tag aad, zlen aad = 39 /\
    xgl_frame_serialize_authenticated (replicate 45 0 ++ []) 45 f 77 (Ptr xor_provider) 0 =
      Some (XGL_OK, 45, seal (aad ++ [1; 2; 3] ++ tag) ++ []).
Proof.
  intros f.
  refine (match frame_serialize_authenticated_layout (replicate 45 0) [] [] [1; 2; 3] 45 77 0 f
    xor_provider xor_provider_sound _ _ eq_refl eq_refl _ _ _ eq_refl _ _ with
    | ex_intro _ tag (ex_intro _ aad (conj Ha (conj Hl (conj _ (conj _ (conj _ (conj _ Hrun))))))) =>
        ex_intro _ tag (ex_intro _ aad (conj _ Hrun)) end).
  - split; [reflexivity|]. split; [constructor|right; split; reflexivity].
  - split; [reflexivity|]. split; [repeat constructor; lia|left; reflexivity].
  - vm_compute. discriminate.
  - vm_compute. discriminate.
  - repeat constructor; lia.
  - vm_compute. discriminate.
  - vm_compute. discriminate.
  - rewrite <- Hl. vm_compute. reflexivity.
Defined.

(** C28. The zero-copy builder is equivalent to building and serializing: with the
    payload already in place, [xgl_frame_build_zerocopy] leaves in the buffer
    byte for byte what [xgl_frame_serialize] writes for the frame that
    [xgl_frame_build] makes from the same parameters (the data type as a
    DATA_TYPE extension), with the same length. *)
Theorem zerocopy_equals_serialize (hdr pl crc rest : bytes)
    (source_id target_id data_type packet_number priority size flen bw : Z) (reliable : bool)
    (f0 f : xgl_frame_t) :
  let ext := if data_type =? 0 then [] else [XGL_WIRE_EXT_DATA_TYPE; 1; data_type] in
  1 <= source_id < 65536 -> 1 <= target_id < 65536 -> is_u8 data_type = true ->
  is_u32 packet_number = true -> is_u8 priority = true -> zlen pl <= 65535 ->
  zlen hdr = 24 + zlen ext -> zlen crc = 2 -> bytes_ok (hdr ++ pl ++ crc ++ rest) ->
  24 + zlen ext + zlen pl + 2 <= size ->
  xgl_frame_build f0 (zerocopy_params source_id target_id data_type packet_number priority
                        reliable pl) = (XGL_OK, f) ->
  exists frame,
    xgl_frame_build_zerocopy (hdr ++ pl ++ crc ++ rest) size (24 + zlen ext) (zlen pl)
      source_id target_id data_type packet_number reliable priority flen =
      Some (XGL_OK, zlen frame, frame ++ rest) /\
    xgl_frame_serialize (hdr ++ pl ++ crc ++ rest) size f bw =
      Some (XGL_OK, zlen frame, frame ++ rest).
Proof.
  intros ext Hsrc Htgt Hdt Hpn Hpr Hpl Hhdr Hcrc Hok Hsize Hbuild. assert (bytes_ok pl) as Hplok by (rewrite !Forall_app in Hok; tauto).
  pose proof (zerocopy_build_run _ _ _ _ _ _ _ _ _ Hsrc Htgt Hdt Hpn Hpr Hpl Hbuild hdr crc rest size flen Hhdr Hcrc Hok Hsize) as Hrun.
  destruct (zerocopy_frame _ _ _ _ _ _ _ _ _ Hsrc Htgt Hdt Hpn Hpr Hpl Hbuild Hplok) as (Hph & He & Hp & Hfh).
  destruct (zerocopy_header_ok source_id target_id data_type packet_number priority reliable pl Hsrc Htgt Hdt Hpn Hpr) as (_ & _ & Hrej).
  destruct (zerocopy_ext_ok data_type Hdt) as (Hez & Hexok & _). fold ext in Hrun, Hph, He, Hrej, Hez.
  exists (seal (header_bytes (plain_header f ext) ++ ext ++ pl)).
  assert (zlen (seal (header_bytes (plain_header f ext) ++ ext ++ pl)) = 24 + zlen ext + zlen pl + 2) as ->
    by (autorewrite with zlen; lia).
  split; [exact Hrun|].
  replace (hdr ++ pl ++ crc ++ rest) with ((hdr ++ pl ++ crc) ++ rest) by (by rewrite <- !app_assoc).
  pose proof (frame_serialize_run (hdr ++ pl ++ crc) rest size f ext pl bw He Hp Hfh) as Hser.
  rewrite !zlen_app in Hser. replace (24 + zlen ext + zlen pl + 2) with (zlen hdr + (zlen pl + zlen crc)) by lia.
  rewrite Hph in *. apply Hser; try done; try lia. by rewrite <- !app_assoc.
Qed.
Lemma zerocopy_equals_serialize_witness :
  exists f frame,
    xgl_frame_build (mk_frame zero_wire_header NULL 0 NULL 0 0)
      (zerocopy_params 1 2 5 7 3 true [10; 20]) = (XGL_OK, f) /\
    xgl_frame_build_zerocopy (replicate 27 0 ++ [10; 20] ++ [0; 0] ++ []) 31 27 2 1 2 5 7 true 3 0 =
      Some (XGL_OK, zlen frame, frame ++ []) /\
    xgl_frame_serialize (replicate 27 0 ++ [10; 20] ++ [0; 0] ++ []) 31 f 0 =
      Some (XGL_OK, zlen frame, frame ++ []).
Proof.
  eexists. refine (match zerocopy_equals_serialize (replicate 27 0) [10; 20] [0; 0] [] 1 2 5 7 3 31 0 0
    true (mk_frame zero_wire_header NULL 0 NULL 0 0)
    (snd (xgl_frame_build (mk_frame zero_wire_header NULL 0 NULL 0 0)
       (zerocopy_params 1 2 5 7 3 true [10; 20]))) _ _ eq_refl eq_refl eq_refl _ eq_refl eq_refl _ _ eq_refl
    with ex_intro _ frame H => ex_intro _ frame (conj eq_refl H) end).
  - lia.
  - lia.
  - vm_compute. discriminate.
  - repeat constructor; lia.
  - vm_compute. discriminate.
Defined.
