(* ===== verification/FrameView.v ===== *)
(** * Frames in longer buffers

    The pointers of a frame may point to more than the stated lengths; only the
    bytes within them count, and serialization is defined whatever the frame. *)
From S2P Require Import Prelude Errors Serialize Crc Layer Wire WireExt Frame.

(** ** Only the stated lengths of the pointers count *)

Definition trim_ptr (p : ptr bytes) (len : Z) : ptr bytes := take (Z.to_nat len) <$> p.
Definition trim (frame : xgl_frame_t) : xgl_frame_t :=
  mk_frame (fr_header frame) (trim_ptr (fr_extensions frame) (fr_extensions_len frame)) (fr_extensions_len frame)
    (trim_ptr (fr_payload frame) (fr_payload_len frame)) (fr_payload_len frame) (fr_crc16 frame).
(** A pointer to at least [len] bytes, or NULL and no bytes. *)
Definition view (p : ptr bytes) (len : Z) : Prop :=
  match p with NULL => len = 0 | Ptr b => 0 <= len <= zlen b /\ bytes_ok b end.
Definition frame_wf (frame : xgl_frame_t) : Prop :=
  view (fr_extensions frame) (fr_extensions_len frame) /\ view (fr_payload frame) (fr_payload_len frame) /\
  wire_header_ok (fr_header frame) = true.

Lemma copy_if_trim buffer off p len : view p len -> copy_if buffer off (trim_ptr p len) len = copy_if buffer off p len.
Proof.
  destruct p as [b|]; [|done]. intros [Hl _]. cbn. destruct (Z.ltb_spec 0 len); [|done].
  rewrite !rd_bytes_Some by (rewrite ?zlen_take; lia). cbn [mbind option_bind].
  by rewrite !drop_to_nat_0, take_idemp.
Qed.
Lemma trim_null p len : bool_decide (trim_ptr p len <> NULL) = bool_decide (p <> NULL).
Proof. by destruct p. Qed.
Lemma view_points p len : view p len ->
  points_to (trim_ptr p len) len (default [] (trim_ptr p len)) /\ 0 <= len.
Proof.
  destruct p as [b|]; cbn; [|by intros ->; split; [split_and!; [done..|right]|]].
  intros [Hl Hb]. split; [|lia]. split; [by rewrite zlen_take|]. split; [auto with xgl|by left].
Qed.
Lemma serialize_trim buffer size frame bw :
  frame_wf frame -> xgl_frame_serialize buffer size (trim frame) bw = xgl_frame_serialize buffer size frame bw.
Proof.
  intros (He & Hp & _). unfold xgl_frame_serialize. cbn [fr_extensions fr_extensions_len fr_payload fr_payload_len trim].
  change (encode_frame_wire_header buffer size (trim frame)) with (encode_frame_wire_header buffer size frame).
  destruct (_ <? fr_extensions_len frame); [done|]. destruct (size <? _); [done|].
  destruct (encode_frame_wire_header buffer size frame _ 0 0) as [[[err n] b]|]; [|done]. cbn [mbind option_bind].
  destruct (is_ok err); [|done]. cbn [negb]. rewrite copy_if_trim by done.
  destruct (copy_if b _ (fr_extensions frame) _) as [b1|]; [|done]. cbn [mbind option_bind].
  rewrite copy_if_trim by done. by rewrite trim_null.
Qed.
Lemma encode_auth_trim buffer size frame key tag_len hl : frame_wf frame ->
  encode_authenticated_header buffer size (trim frame) key tag_len hl = encode_authenticated_header buffer size frame key tag_len hl.
Proof.
  intros (He & _). unfold encode_authenticated_header. cbn [fr_extensions fr_extensions_len fr_header trim]. by rewrite copy_if_trim.
Qed.
(** Only what [copy] does after the header counts, and only then. *)
Lemma serialize_with_copies copy copy' buffer size frame key p bw :
  (forall hl b, encode_authenticated_header buffer size frame key (u8 (ap_tag_len p)) 0 = Some (XGL_OK, hl, b) -> copy b hl = copy' b hl) ->
  serialize_authenticated_with copy buffer size frame key (Ptr p) bw = serialize_authenticated_with copy' buffer size frame key (Ptr p) bw.
Proof.
  intros H. unfold serialize_authenticated_with. destruct (bool_decide _); [done|]. destruct (_ <? fr_payload_len frame); [done|].
  destruct (_ || _); [done|]. destruct (encode_authenticated_header _ _ _ _ _ _) as [[[err n] b]|]; [|done].
  cbn [mbind option_bind]. destruct (is_ok err) eqn:He; [|done]. destruct (size <? _); [done|]. rewrite H; [done|by destruct err].
Qed.
Lemma serialize_with_undefined copy buffer size frame key p bw hl b : ap_sign p <> NULL -> fr_payload_len frame <= 65535 ->
  1 <= ap_tag_len p <= 32 -> encode_authenticated_header buffer size frame key (u8 (ap_tag_len p)) 0 = Some (XGL_OK, hl, b) ->
  hl + fr_payload_len frame + ap_tag_len p + 2 <= size -> copy b hl = None ->
  serialize_authenticated_with copy buffer size frame key (Ptr p) bw = None.
Proof.
  intros Hs Hl Ht He Hsize Hc. unfold serialize_authenticated_with. rewrite bool_decide_eq_false_2 by done.
  unfold UINT16_MAX, XGL_AUTH_TAG_MAX_LEN, XGL_CRC16_SIZE. replace (65535 <? _) with false by lia. replace (_ || _) with false by lia.
  rewrite He. cbn [mbind option_bind is_ok negb]. replace (size <? _) with false by lia. by rewrite Hc.
Qed.
Lemma serialize_auth_trim buffer size frame key p bw :
  frame_wf frame ->
  xgl_frame_serialize_authenticated buffer size (trim frame) key p bw =
  xgl_frame_serialize_authenticated buffer size frame key p bw.
Proof.
  intros Hwf. pose proof Hwf as (_ & Hp & _). unfold xgl_frame_serialize_authenticated, serialize_authenticated_with.
  destruct p as [p|]; [|done]. destruct (bool_decide _); [done|]. cbn [fr_payload fr_payload_len trim].
  destruct (_ <? fr_payload_len frame); [done|]. destruct (_ || _); [done|]. rewrite encode_auth_trim by done.
  destruct (encode_authenticated_header _ _ _ _ _ _) as [[[err n] b]|]; [|done]. cbn [mbind option_bind].
  destruct (is_ok err); [|done]. cbn [negb]. destruct (size <? _); [done|]. by rewrite copy_if_trim.
Qed.

(** ** Serialization is defined on every frame *)

Lemma copy_if_total buffer off p len :
  view p len -> 0 <= off -> off + len <= zlen buffer ->
  exists b, copy_if buffer off p len = Some b /\ zlen b = zlen buffer.
Proof.
  intros Hv Ho Hl. destruct p as [src|]; [|by eexists]. destruct Hv as [Hs _]. cbn.
  destruct (Z.ltb_spec 0 len); [|by eexists]. rewrite rd_bytes_Some by lia. cbn [mbind option_bind].
  set (s := slice src 0 len). assert (zlen s = len) as Hsl by (unfold s; rewrite drop_to_nat_0, zlen_take; lia).
  destruct (wr_bytes buffer off s) as [b|] eqn:Hw; [|rewrite wr_bytes_Some in Hw by lia; done].
  exists b. split; [done|]. by eapply wr_bytes_zlen.
Qed.
(** The outcome of a serializer: an error, or a length that lies in the buffer. *)
Definition serialized (r : M (xgl_error_t * Z * bytes)) : Prop :=
  exists err n b, r = Some (err, n, b) /\ (err = XGL_OK -> 0 <= n <= zlen b).

Lemma frame_size_plain frame :
  xgl_frame_serialized_size (fr_payload_len frame) (fr_extensions_len frame) 0 =
  24 + fr_extensions_len frame + fr_payload_len frame + 2.
Proof. unfold xgl_frame_serialized_size. change (xgl_frame_auth_overhead 0) with 0. change XGL_WIRE_BASE_HEADER_SIZE with 24. change XGL_CRC16_SIZE with 2. lia. Qed.

Lemma serialize_total buffer size frame :
  frame_wf frame -> size = 24 + fr_extensions_len frame + fr_payload_len frame + 2 ->
  size <= zlen buffer -> bytes_ok buffer ->
  serialized (xgl_frame_serialize buffer size frame 0).
Proof.
  intros Hwf -> Hb Hbok. pose proof Hwf as (He & Hp & Hh). rewrite <- serialize_trim by done.
  destruct (view_points _ _ He) as [Hpe Hel]. destruct (view_points _ _ Hp) as [Hpp Hpl].
  set (ext := default [] (trim_ptr (fr_extensions frame) _)) in *. set (pl := default [] (trim_ptr (fr_payload frame) _)) in *.
  pose proof Hpe as (Hext & _). pose proof Hpp as (Hplz & _).
  destruct (decide (zlen ext <= 231)) as [H231|H231].
  2: { unfold xgl_frame_serialize. cbn [fr_extensions_len trim]. unfold UINT8_MAX, XGL_WIRE_BASE_HEADER_SIZE.
       replace (255 - 24 <? fr_extensions_len frame) with true by lia. by eexists _, _, _. }
  destruct (wire_header_rejected (plain_header (trim frame) ext)) eqn:Hrej.
  - unfold xgl_frame_serialize. cbn [fr_extensions_len fr_payload_len trim]. unfold encode_frame_wire_header.
    unfold UINT8_MAX, XGL_WIRE_BASE_HEADER_SIZE, XGL_FRAME_HEADER_SIZE, XGL_CRC16_SIZE.
    rewrite Hext. replace (255 - 24 <? zlen ext) with false by lia.
    replace (_ <? _) with false by lia. pose proof (proj1 (wire_header_ok_spec _) Hh) as [(_&_&_&Hfl&_) _].
    rewrite Z.lor_0_r. change (wh_flags (fr_header (trim frame))) with (wh_flags (fr_header frame)).
    rewrite (u8_small (wh_flags _)) by done.
    change (wire_header_of_frame (trim frame) (24 + zlen ext)
      (set_flag (0 <? zlen ext) XGL_WIRE_FLAG_HAS_EXTENSIONS (wh_flags (fr_header frame)))) with (plain_header (trim frame) ext).
    rewrite encode_header_spec by (lia || (apply wire_header_of_frame_ok; [done|]; by apply set_flag_range)).
    replace (_ <? 24) with false by lia. rewrite Hrej. by eexists _, _, _.
  - destruct (cut_buffer buffer (24 + fr_extensions_len frame + fr_payload_len frame + 2)) as (old & rest & -> & Hol); [lia|].
    rewrite (frame_serialize_run old rest _ (trim frame) ext pl); try done; [|lia|lia].
    eexists _, _, _. split; [reflexivity|]. intros _. rewrite Hol, zlen_app, seal_zlen. autorewrite with zlen.
    pose proof (zlen_nonneg rest). lia.
Qed.

(** The authenticated header is refused, without leaving the buffer, when the
    extensions are too long or the header is invalid. *)
Lemma auth_header_refused buffer size frame ext key tag_len :
  view (fr_extensions frame) (fr_extensions_len frame) -> wire_header_ok (fr_header frame) = true ->
  fr_extensions_len frame = zlen ext -> 1 <= tag_len < 256 ->
  24 + zlen ext + 15 <= size -> size <= zlen buffer ->
  216 < zlen ext \/ wire_header_rejected (auth_header frame ext) = true ->
  exists err n b, encode_authenticated_header buffer size frame key tag_len 0 = Some (err, n, b) /\ is_ok err = false.
Proof.
  intros He Hh Hel Htag Hs Hb Hcase. pose proof (zlen_nonneg ext). unfold encode_authenticated_header.
  unfold UINT8_MAX, XGL_WIRE_BASE_HEADER_SIZE, XGL_WIRE_EXT_HEADER_SIZE. rewrite Hel.
  destruct (255 - 24 <? zlen ext) eqn:H231; [by eexists _, _, _|].
  replace (size <? _) with false by lia.
  destruct (copy_if_total buffer 24 (fr_extensions frame) (zlen ext)) as (b1 & -> & Hb1); [by rewrite <- Hel|lia|lia|].
  cbn [mbind option_bind].
  pose proof (encode_security_run (replicate 13 0) [] 13 key (wh_packet_number (fr_header frame))
    tag_len 0 eq_refl ltac:(lia) ltac:(lia)) as Hsec. rewrite !app_nil_r in Hsec. rewrite Hsec.
  cbn [mbind option_bind is_ok negb]. set (sv := security_value _ _ _).
  destruct (cut_buffer b1 (24 + zlen ext)) as (o1 & o2 & -> & H1); [lia|]. rewrite zlen_app in Hb1.
  destruct (cut_buffer o2 15) as (o3 & rest & -> & H3); [lia|]. rewrite <- H1, at_offset_app.
  change 13 with (zlen sv). rewrite (encode_ext_run o3 rest); [|unfold sv, zlen in *; cbn; lia|done|done|change (zlen sv) with 13; lia].
  cbn [mbind option_bind is_ok negb]. change (2 + zlen sv) with 15. rewrite H1.
  destruct (Z.ltb_spec 255 (24 + zlen ext + 15)); [by eexists _, _, _|].
  destruct Hcase as [?|Hrej]; [lia|]. fold (auth_header frame ext).
  rewrite encode_header_spec.
  - replace (size <? 24) with false by lia. rewrite Hrej. by eexists _, _, _.
  - rewrite !zlen_app in *. change (zlen (tlv_bytes _)) with 15. lia.
  - apply wire_header_of_frame_ok; [done|]. apply u8_range.
Qed.

Lemma serialize_auth_total buffer size frame key p :
  provider_sound p -> frame_wf frame ->
  size = 24 + fr_extensions_len frame + 15 + fr_payload_len frame + ap_tag_len p + 2 ->
  size <= zlen buffer -> bytes_ok buffer ->
  serialized (xgl_frame_serialize_authenticated buffer size frame key (Ptr p) 0).
Proof.
  intros Hsound Hwf Hsize Hb Hbok. pose proof Hwf as (He & Hp & Hh). rewrite <- serialize_auth_trim by done.
  destruct (view_points _ _ He) as [Hpe Hel]. destruct (view_points _ _ Hp) as [Hpp Hpl].
  set (ext := default [] (trim_ptr (fr_extensions frame) _)) in *. set (pl := default [] (trim_ptr (fr_payload frame) _)) in *.
  pose proof Hpe as (Hext & _). pose proof Hpp as (Hplz & _).
  pose proof Hsound as (Htag & sign & verify & Hsign & _). unfold XGL_AUTH_TAG_MAX_LEN in Htag.
  assert (zlen pl <= 65535 -> zlen ext <= 216 -> wire_header_rejected (auth_header (trim frame) ext) = false ->
    serialized (xgl_frame_serialize_authenticated buffer size (trim frame) key (Ptr p) 0)) as Hgood.
  { intros Hpm H216 Hrej. destruct (cut_buffer buffer size) as (old & rest & -> & Hol); [lia|].
    destruct (serialize_authenticated_run old rest size (trim frame) key p ext pl 0) as (tag & Htl & _ & _ & ->); try done; try lia.
    eexists _, _, _. split; [reflexivity|]. intros _. rewrite Hol, zlen_app, seal_zlen, !zlen_app, auth_aad_zlen.
    pose proof (zlen_nonneg rest). lia. }
  destruct (decide (zlen pl <= 65535)) as [Hpm|Hpm].
  2: { unfold xgl_frame_serialize_authenticated, serialize_authenticated_with. rewrite Hsign, bool_decide_eq_false_2 by done.
       cbn [fr_payload_len trim]. unfold UINT16_MAX. replace (65535 <? _) with true by lia. by eexists _, _, _. }
  assert (216 < zlen ext \/ wire_header_rejected (auth_header (trim frame) ext) = true ->
    serialized (xgl_frame_serialize_authenticated buffer size (trim frame) key (Ptr p) 0)) as Hbad.
  { intros Hcase. destruct (auth_header_refused buffer size (trim frame) ext key (u8 (ap_tag_len p)))
      as (err & n & b & Hrun & Herr); [|done|done|rewrite u8_small; lia|lia|done|done|].
    { cbn [fr_extensions fr_extensions_len trim]. unfold trim_ptr. destruct (fr_extensions frame) as [e|]; [|done]. destruct He as [? ?]. cbn.
      rewrite zlen_take by lia. split; [lia|auto with xgl]. }
    unfold xgl_frame_serialize_authenticated, serialize_authenticated_with. rewrite Hsign, bool_decide_eq_false_2 by done.
    cbn [fr_payload_len trim]. unfold UINT16_MAX. replace (65535 <? _) with false by lia.
    unfold XGL_AUTH_TAG_MAX_LEN. replace ((ap_tag_len p =? 0) || _) with false by lia.
    rewrite Hrun. cbn [mbind option_bind]. rewrite Herr. cbn [negb]. eexists _, _, _. split; [done|].
    intros ->. done. }
  destruct (decide (zlen ext <= 216)); [|apply Hbad; lia].
  destruct (wire_header_rejected (auth_header (trim frame) ext)) eqn:Hrej; auto.
Qed.
