(* ===== verification/Parser.v ===== *)
(** * Byte-wise frame parser (include/xgl/internal/xgl_parser.h,
    src/wire/xgl_parser.c, src/wire/xgl_parser_extensions.c)

    The state machine that the data link feeds one received byte at a time.  It
    is shown to be memory safe on every input and to recognise exactly the
    well-formed frames ([valid_frame]): it completes at the last byte of such a
    frame, and whenever it completes its cache holds one. *)
From S2P Require Import Prelude Errors Serialize Crc Wire WireExt Frame.

(** ** Data *)

(** src/include/xgl/internal/xgl_parser.h:27-32: xgl_parse_state_t *)
Inductive xgl_parse_state_t : Type :=
  | XGL_PARSE_MAGIC
  | XGL_PARSE_HEADER
  | XGL_PARSE_PAYLOAD
  | XGL_PARSE_CRC.

(** src/include/xgl/internal/xgl_parser.h:37-41: xgl_parse_result_t *)
Inductive xgl_parse_result_t : Type :=
  | XGL_PARSE_RESULT_INCOMPLETE
  | XGL_PARSE_RESULT_COMPLETE
  | XGL_PARSE_RESULT_ERROR.

(** [p_cache] is the caller's buffer, of at least [p_cache_size] bytes. *)
(** src/include/xgl/internal/xgl_parser.h:46-56: xgl_parser_t *)
Record xgl_parser_t := mk_parser {
  p_state : xgl_parse_state_t;
  p_cache : bytes;
  p_cache_size : Z;
  p_cache_len : Z;
  p_index : Z;
  p_timestamp : Z;
  p_expected_header_len : Z;
  p_expected_payload_len : Z;
  p_expected_auth_tag_len : Z
}.
#[export] Instance eta_parser : EtaRecord xgl_parser_t := Eta (fun p =>
  mk_parser (p_state p) (p_cache p) (p_cache_size p) (p_cache_len p) (p_index p)
    (p_timestamp p) (p_expected_header_len p) (p_expected_payload_len p)
    (p_expected_auth_tag_len p)).

(** ** Operations *)

(** src/src/wire/xgl_parser.c:22-46: xgl_parser_init *)
Definition xgl_parser_init (parser : xgl_parser_t) (cache_buffer : ptr bytes) (cache_size : Z)
    : xgl_error_t * xgl_parser_t :=
  match cache_buffer with
  | NULL => (XGL_ERR_NULL_POINTER, parser)
  | Ptr cache =>
      if cache_size <? XGL_FRAME_HEADER_SIZE + XGL_CRC16_SIZE
      then (XGL_ERR_BUFFER_TOO_SMALL, parser)
      else (XGL_OK, mk_parser XGL_PARSE_MAGIC cache cache_size 0 0 0 0 0 0)
  end.

(** src/src/wire/xgl_parser.c:55-67: xgl_parser_reset *)
Definition xgl_parser_reset (parser : xgl_parser_t) : xgl_parser_t :=
  parser <| p_state := XGL_PARSE_MAGIC |> <| p_cache_len := 0 |> <| p_index := 0 |>
    <| p_timestamp := 0 |> <| p_expected_header_len := 0 |> <| p_expected_payload_len := 0 |>
    <| p_expected_auth_tag_len := 0 |>.

(** The [while] over the extension cursor; the third component says whether
    the loop left through a [return]. *)
(** src/src/wire/xgl_parser_extensions.c:35-54: xgl_parser_validate_header_extensions *)
Fixpoint validate_ext_loop (fuel : nat) (cursor : xgl_wire_ext_cursor_t) (parser : xgl_parser_t)
    : M (xgl_error_t * xgl_parser_t * bool) :=
  match fuel with
  | O => None
  | S fuel =>
      '(err, ext, cursor) ← xgl_wire_ext_cursor_next cursor;
      if negb (is_ok err) then ret (err, parser, false)
      else if e_type ext =? XGL_WIRE_EXT_SECURITY then
        value ← e_value ext;
        '(derr, out) ← xgl_wire_decode_security_ext_value value (e_len ext);
        let tag_len := match out with Some (_, _, t) => t | None => 0 end in
        if negb (is_ok derr) || (tag_len =? 0)
        then ret (err, xgl_parser_reset parser, true)
        else validate_ext_loop fuel cursor (parser <| p_expected_auth_tag_len := tag_len |>)
      else validate_ext_loop fuel cursor parser
  end.

(** src/src/wire/xgl_parser_extensions.c:10-68: xgl_parser_validate_header_extensions *)
Definition xgl_parser_validate_header_extensions (parser : xgl_parser_t)
    : M (xgl_parse_result_t * xgl_parser_t) :=
  let parser := parser <| p_expected_auth_tag_len := 0 |> in
  let ext_len := p_expected_header_len parser - XGL_WIRE_BASE_HEADER_SIZE in
  if ext_len =? 0 then ret (XGL_PARSE_RESULT_INCOMPLETE, parser)
  else
    '(err, header) ← xgl_wire_decode_header zero_wire_header (p_cache parser)
                       XGL_WIRE_BASE_HEADER_SIZE;
    if negb (is_ok err) then ret (XGL_PARSE_RESULT_ERROR, xgl_parser_reset parser)
    else
      let '(err, cursor) := xgl_wire_ext_cursor_init (mk_cursor NULL 0 0)
        (Ptr (drop (Z.to_nat XGL_WIRE_BASE_HEADER_SIZE) (p_cache parser))) ext_len in
      if negb (is_ok err) then ret (XGL_PARSE_RESULT_ERROR, xgl_parser_reset parser)
      else
        '(err, parser, returned) ← validate_ext_loop (S (Z.to_nat ext_len)) cursor parser;
        if (returned : bool) then ret (XGL_PARSE_RESULT_ERROR, parser)
        else if negb (bool_decide (err = XGL_ERR_NOT_FOUND))
        then ret (XGL_PARSE_RESULT_ERROR, xgl_parser_reset parser)
        else if negb (Z.land (wh_flags header) XGL_WIRE_FLAG_AUTHENTICATED =? 0) &&
                (p_expected_auth_tag_len parser =? 0)
        then ret (XGL_PARSE_RESULT_ERROR, xgl_parser_reset parser)
        else ret (XGL_PARSE_RESULT_INCOMPLETE, parser).

(** [parser->cache[parser->cache_len++] = byte] *)
(** src/src/wire/xgl_parser.c:111-111: xgl_parser_feed_byte *)
Definition push_byte (parser : xgl_parser_t) (byte : Z) : M xgl_parser_t :=
  cache ← wr (p_cache parser) (p_cache_len parser) byte;
  ret (parser <| p_cache := cache |> <| p_cache_len := p_cache_len parser + 1 |>).

(** [case XGL_PARSE_HEADER], once the base header is complete. *)
(** src/src/wire/xgl_parser.c:125-166: xgl_parser_feed_byte *)
Definition header_complete (parser : xgl_parser_t) : M (xgl_parse_result_t * xgl_parser_t) :=
  '(err, header) ← xgl_wire_decode_header zero_wire_header (p_cache parser)
                     XGL_WIRE_BASE_HEADER_SIZE;
  if negb (is_ok err) then ret (XGL_PARSE_RESULT_ERROR, xgl_parser_reset parser)
  else
    let parser := parser <| p_expected_header_len := wh_header_len header |>
                         <| p_expected_payload_len := wh_payload_len header |> in
    if p_cache_len parser <? p_expected_header_len parser
    then ret (XGL_PARSE_RESULT_INCOMPLETE, parser)
    else
      '(ext_result, parser) ← xgl_parser_validate_header_extensions parser;
      match ext_result with
      | XGL_PARSE_RESULT_ERROR => ret (ext_result, parser)
      | _ =>
          let total_frame_size := p_expected_header_len parser + p_expected_payload_len parser +
                                  p_expected_auth_tag_len parser + XGL_CRC16_SIZE in
          if p_cache_size parser <? total_frame_size
          then ret (XGL_PARSE_RESULT_ERROR, xgl_parser_reset parser)
          else if (0 <? p_expected_payload_len parser) || (0 <? p_expected_auth_tag_len parser)
          then ret (XGL_PARSE_RESULT_INCOMPLETE, parser <| p_state := XGL_PARSE_PAYLOAD |>)
          else ret (XGL_PARSE_RESULT_INCOMPLETE, parser <| p_state := XGL_PARSE_CRC |>)
      end.

(** src/src/wire/xgl_parser.c:77-220: xgl_parser_feed_byte *)
Definition xgl_parser_feed_byte (parser : xgl_parser_t) (byte current_time_ms : Z)
    : M (xgl_parse_result_t * xgl_parser_t) :=
  if p_cache_size parser <=? p_cache_len parser
  then ret (XGL_PARSE_RESULT_ERROR, xgl_parser_reset parser)
  else
    match p_state parser with
    | XGL_PARSE_MAGIC =>
        if byte =? XGL_WIRE_MAGIC_0 then
          cache ← wr (p_cache parser) 0 byte;
          ret (XGL_PARSE_RESULT_INCOMPLETE,
               parser <| p_cache := cache |> <| p_cache_len := 1 |> <| p_index := 0 |>
                 <| p_timestamp := current_time_ms |> <| p_state := XGL_PARSE_HEADER |>)
        else ret (XGL_PARSE_RESULT_INCOMPLETE, parser)
    | XGL_PARSE_HEADER =>
        parser ← push_byte parser byte;
        second ← (if p_cache_len parser =? 2 then rd (p_cache parser) 1 else ret XGL_WIRE_MAGIC_1);
        if (p_cache_len parser =? 2) && negb (second =? XGL_WIRE_MAGIC_1) then
          if byte =? XGL_WIRE_MAGIC_0 then
            cache ← wr (p_cache parser) 0 byte;
            ret (XGL_PARSE_RESULT_INCOMPLETE,
                 parser <| p_cache := cache |> <| p_cache_len := 1 |>
                   <| p_state := XGL_PARSE_HEADER |>)
          else ret (XGL_PARSE_RESULT_INCOMPLETE, xgl_parser_reset parser)
        else if XGL_WIRE_BASE_HEADER_SIZE <=? p_cache_len parser then header_complete parser
        else ret (XGL_PARSE_RESULT_INCOMPLETE, parser)
    | XGL_PARSE_PAYLOAD =>
        parser ← push_byte parser byte;
        let body_received := p_cache_len parser - p_expected_header_len parser in
        let expected_body_len := p_expected_payload_len parser + p_expected_auth_tag_len parser in
        if expected_body_len <=? body_received
        then ret (XGL_PARSE_RESULT_INCOMPLETE, parser <| p_state := XGL_PARSE_CRC |> <| p_index := 0 |>)
        else ret (XGL_PARSE_RESULT_INCOMPLETE, parser)
    | XGL_PARSE_CRC =>
        parser ← push_byte parser byte;
        let parser := parser <| p_index := p_index parser + 1 |> in
        if XGL_CRC16_SIZE <=? p_index parser then
          let crc_offset := p_cache_len parser - XGL_CRC16_SIZE in
          calculated_crc ← xgl_crc16_modbus (Ptr (p_cache parser)) 0 crc_offset;
          received_crc ← xgl_deserialize_u16_le (p_cache parser) crc_offset;
          if negb (calculated_crc =? received_crc)
          then ret (XGL_PARSE_RESULT_ERROR, xgl_parser_reset parser)
          else ret (XGL_PARSE_RESULT_COMPLETE, parser)
        else ret (XGL_PARSE_RESULT_INCOMPLETE, parser)
    end.

(** src/src/wire/xgl_parser.c:77-82: xgl_parser_feed_byte *)
Definition xgl_parser_feed_byte_p (parser : ptr xgl_parser_t) (byte current_time_ms : Z)
    : M (xgl_parse_result_t * ptr xgl_parser_t) :=
  match parser with
  | NULL => ret (XGL_PARSE_RESULT_ERROR, NULL)
  | Ptr p => '(r, p) ← xgl_parser_feed_byte p byte current_time_ms; ret (r, Ptr p)
  end.

(** src/src/wire/xgl_parser.c:229-244: xgl_parser_check_timeout *)
Definition xgl_parser_check_timeout (parser : xgl_parser_t) (current_time_ms timeout_ms : Z) : bool :=
  match p_state parser with
  | XGL_PARSE_MAGIC => false
  | _ => timeout_ms <=? u32 (current_time_ms - p_timestamp parser)
  end.

(** The frame is the first [cache_len] bytes of the cache. *)
(** src/src/wire/xgl_parser.c:253-269: xgl_parser_get_frame *)
Definition xgl_parser_get_frame (parser : xgl_parser_t) : xgl_error_t * option (bytes * Z) :=
  match p_state parser with
  | XGL_PARSE_CRC =>
      if p_cache_len parser =? 0 then (XGL_ERR_INVALID_FRAME, None)
      else (XGL_OK, Some (p_cache parser, p_cache_len parser))
  | _ => (XGL_ERR_INVALID_FRAME, None)
  end.

(** src/include/xgl/internal/xgl_parser.h:126-128: xgl_parser_get_state *)
Definition xgl_parser_get_state (parser : ptr xgl_parser_t) : xgl_parse_state_t :=
  at_ptr XGL_PARSE_MAGIC p_state parser.
(** src/include/xgl/internal/xgl_parser.h:135-137: xgl_parser_get_cached_len *)
Definition xgl_parser_get_cached_len (parser : ptr xgl_parser_t) : Z :=
  at_ptr 0 p_cache_len parser.

(** ** The frames the parser is meant to accept *)

(** The tag length that the extension loop leaves behind: every SECURITY value
    must decode, the last one counts. *)
Fixpoint scan_tag (l : list tlv) (tag : Z) : option Z :=
  match l with
  | [] => Some tag
  | (t, v) :: l =>
      if t =? XGL_WIRE_EXT_SECURITY then
        match xgl_wire_decode_security_ext_value v (zlen v) with
        | Some (XGL_OK, Some (_, _, tag)) => scan_tag l tag
        | _ => None
        end
      else scan_tag l tag
  end.

Definition head_ok (h : xgl_wire_header_t) (l : list tlv) (tag : Z) : Prop :=
  wire_header_ok h = true /\ wire_header_rejected h = false /\
  wh_header_len h = 24 + zlen (tlvs_bytes l) /\ Forall tlv_ok l /\ scan_tag l 0 = Some tag /\
  (Z.land (wh_flags h) XGL_WIRE_FLAG_AUTHENTICATED = 0 \/ l = [] \/ tag <> 0).

Definition head_bytes (h : xgl_wire_header_t) (l : list tlv) : bytes :=
  header_bytes h ++ tlvs_bytes l.

(** A complete frame that fits a cache of [size] bytes: header, extensions, a
    body of payload and tag, and the CRC over all of it. *)
Definition valid_frame (size : Z) (F : bytes) : Prop :=
  exists h l tag body,
    head_ok h l tag /\ bytes_ok body /\ zlen body = wh_payload_len h + tag /\
    F = seal (head_bytes h l ++ body) /\ zlen F <= size.

(** ** The extension check *)

(** Its verdict on the extension bytes [e] of a header [h]: the tag length. *)
Definition tlv_check (h : xgl_wire_header_t) (e : bytes) : option Z :=
  match e with
  | [] => Some 0
  | _ =>
      l ← parse_exts e;
      tag ← scan_tag l 0;
      if negb (Z.land (wh_flags h) XGL_WIRE_FLAG_AUTHENTICATED =? 0) && (tag =? 0) then None
      else Some tag
  end.

Lemma tlv_check_head h e tag :
  wire_header_ok h = true -> wire_header_rejected h = false -> bytes_ok e ->
  wh_header_len h = 24 + zlen e ->
  tlv_check h e = Some tag <-> exists l, e = tlvs_bytes l /\ head_ok h l tag.
Proof.
  intros Hh Hr He Hl. split.
  - destruct e as [|x e'] eqn:Ee.
    + intros [= <-]. exists []. repeat split; try done. auto.
    + rewrite <- Ee in *. intros Hc. assert (tlv_check h e =
        (l ← parse_exts e; tag ← scan_tag l 0;
         if negb (Z.land (wh_flags h) XGL_WIRE_FLAG_AUTHENTICATED =? 0) && (tag =? 0) then None
         else Some tag)) as Hu by (by rewrite Ee).
      rewrite Hu in Hc. apply bind_Some in Hc as (l & Hp & Hc).
      apply bind_Some in Hc as (t & Hs & Hc). case_if_in Hc; [done|]. injection Hc as <-.
      apply parse_tlvs_sound in Hp as [Htl Hok]; [|done].
      exists l. split; [done|]. repeat split; try done; [congruence|].
      destruct (Z.eq_dec t 0); [|auto]. left. lia.
  - intros (l & -> & _ & _ & _ & Hok & Hs & Hauth).
    destruct (tlvs_bytes l) as [|x e'] eqn:Ee.
    + destruct l as [|[t v] l]; [|done]. cbn in Hs |- *. done.
    + unfold tlv_check. rewrite <- Ee.
      unfold parse_exts. rewrite parse_tlvs_encode by done. cbn [mbind option_bind]. rewrite Hs.
      cbn [mbind option_bind]. replace (_ && _) with false; [done|].
      destruct Hauth as [->|[->|Ht]]; [done|done|]. by replace (tag =? 0) with false by lia; rewrite andb_false_r.
Qed.

Lemma decode_security_total v :
  bytes_ok v -> exists err out, xgl_wire_decode_security_ext_value v (zlen v) = Some (err, out) /\
    (err = XGL_OK -> exists k n t, out = Some (k, n, t) /\ 1 <= t < 256).
Proof.
  intros Hv. destruct (decide (zlen v = 13)) as [H13|H13].
  - destruct (cut v 4 9 Hv) as (b0 & v1 & E0 & H0 & L0 & W0 & Hv1 & L1); [unfold zlen in H13; lia|].
    destruct (cut v1 8 1 Hv1) as (b1 & v2 & E1 & H1 & L1' & W1 & Hv2 & L2); [lia|].
    destruct v2 as [|t []]; [done| |done]. rewrite H13. rewrite E0, E1, <- W0, <- W1.
    apply Forall_cons in Hv2 as [Ht _].
    rewrite decode_security_run; [|done|done|rewrite !Forall_app; auto].
    eexists _, _. split; [done|]. case_if; [done|]. intros _. eexists _, _, t. split; [done|lia].
  - unfold xgl_wire_decode_security_ext_value. replace (zlen v =? 13) with false by lia.
    eexists _, _. split; [reflexivity|done].
Qed.

Lemma reset_tag p t : xgl_parser_reset (p <| p_expected_auth_tag_len := t |>) = xgl_parser_reset p.
Proof. done. Qed.

Lemma validate_ext_loop_spec fuel n c rest p :
  cursor_at c rest -> bytes_ok rest -> (length rest <= n)%nat -> (length rest < fuel)%nat ->
  exists err p' returned, validate_ext_loop fuel c p = Some (err, p', returned) /\
    match parse_tlvs n rest with
    | Some l =>
        match scan_tag l (p_expected_auth_tag_len p) with
        | Some tag => err = XGL_ERR_NOT_FOUND /\ returned = false /\
                      p' = p <| p_expected_auth_tag_len := tag |>
        | None => returned = true /\ p' = xgl_parser_reset p
        end
    | None => returned = true /\ p' = xgl_parser_reset p \/
              returned = false /\ err = XGL_ERR_INVALID_FRAME /\
              xgl_parser_reset p' = xgl_parser_reset p
    end.
Proof.
  revert n c rest p. induction fuel as [|fuel IH]; intros n c rest p Hat Hok Hn Hfuel; [lia|].
  pose proof (cursor_next_spec c rest Hat) as Hnext. cbn [validate_ext_loop].
  destruct rest as [|t [|k r]].
  - rewrite Hnext. cbn [mbind option_bind is_ok negb]. eexists _, _, _. split; [done|].
    destruct n; cbn; (split_and!; [done|done|by destruct p]).
  - rewrite Hnext. cbn [mbind option_bind is_ok negb]. eexists _, _, _. split; [done|].
    destruct n; right; done.
  - destruct n as [|n]; [cbn in Hn; lia|]. cbn [parse_tlvs].
    destruct ((t =? 0) || (zlen r <? k)) eqn:Hbad.
    { rewrite Hnext. cbn [mbind option_bind is_ok negb]. eexists _, _, _. split; [done|]. right. done. }
    destruct Hnext as (c' & Hnext & Hat'). rewrite Hnext. cbn [mbind option_bind is_ok negb e_type].
    rewrite !Forall_cons in Hok. destruct Hok as (Ht & Hk & Hr).
    assert (forall p0, exists err p' returned,
      validate_ext_loop fuel c' p0 = Some (err, p', returned) /\
      match parse_tlvs n (drop (Z.to_nat k) r) with
      | Some l => match scan_tag l (p_expected_auth_tag_len p0) with
        | Some tag => err = XGL_ERR_NOT_FOUND /\ returned = false /\
                      p' = p0 <| p_expected_auth_tag_len := tag |>
        | None => returned = true /\ p' = xgl_parser_reset p0 end
      | None => returned = true /\ p' = xgl_parser_reset p0 \/
              returned = false /\ err = XGL_ERR_INVALID_FRAME /\
              xgl_parser_reset p' = xgl_parser_reset p0 end) as IH'.
    { intros p0. apply IH; [done|auto with xgl|..]; rewrite length_drop; cbn in Hn, Hfuel; lia. }
    destruct (t =? XGL_WIRE_EXT_SECURITY) eqn:Hsec; cbn [e_value e_len mbind option_bind].
    + assert (zlen (take (Z.to_nat k) r) = k) as Hkz by (apply zlen_take; lia).
      destruct (decode_security_total (take (Z.to_nat k) r)) as (derr & out & Hdec & Hdok);
        [auto with xgl|]. rewrite Hkz in Hdec. rewrite Hdec. cbn [mbind option_bind].
      destruct derr; cbn [is_ok negb orb].
      { destruct (Hdok eq_refl) as (k1 & n1 & t1 & -> & Ht1). replace (t1 =? 0) with false by lia.
        destruct (IH' (p <| p_expected_auth_tag_len := t1 |>)) as (err & p' & rt & Hrun & Hres).
        exists err, p', rt. split; [exact Hrun|].
        destruct (parse_tlvs n _) as [l|]; cbn [mbind option_bind]; [|done].
        cbn [scan_tag]. rewrite Hsec, Hkz, Hdec. done. }
      all: eexists _, _, _; split; [reflexivity|];
        destruct (parse_tlvs n _) as [l|]; cbn [mbind option_bind]; [|by left];
        cbn [scan_tag]; by rewrite Hsec, Hkz, Hdec.
    + destruct (IH' p) as (err & p' & rt & Hrun & Hres). exists err, p', rt. split; [exact Hrun|].
      destruct (parse_tlvs n _) as [l|]; cbn [mbind option_bind]; [|done].
      cbn [scan_tag]. by rewrite Hsec.
Qed.

(** The whole check on a cache that starts with the header [h] and [e]. *)
Lemma validate_spec p h e post :
  p_cache p = header_bytes h ++ e ++ post -> bytes_ok (p_cache p) ->
  wire_header_ok h = true -> wire_header_rejected h = false ->
  p_expected_header_len p = 24 + zlen e ->
  xgl_parser_validate_header_extensions p =
    Some (match tlv_check h e with
          | Some tag => (XGL_PARSE_RESULT_INCOMPLETE, p <| p_expected_auth_tag_len := tag |>)
          | None => (XGL_PARSE_RESULT_ERROR, xgl_parser_reset p)
          end).
Proof.
  intros Hcache Hok Hh Hr Hlen. unfold xgl_parser_validate_header_extensions.
  change (p_expected_header_len (p <| p_expected_auth_tag_len := 0 |>)) with (p_expected_header_len p).
  change (p_cache (p <| p_expected_auth_tag_len := 0 |>)) with (p_cache p).
  rewrite Hlen. unfold XGL_WIRE_BASE_HEADER_SIZE. replace (24 + zlen e - 24) with (zlen e) by lia.
  destruct (zlen e =? 0) eqn:Hz.
  { assert (e = []) as -> by (apply zlen_0_nil; lia). done. }
  rewrite Hcache in Hok |- *.
  assert (bytes_ok (e ++ post)) as Hep by (rewrite !Forall_app in Hok; rewrite Forall_app; tauto).
  rewrite decode_header_bytes by (done || lia). cbn [mbind option_bind is_ok negb].
  destruct (cursor_init_at (mk_cursor NULL 0 0) (e ++ post) (zlen e) Hep) as (c & Hc & Hat).
  { rewrite zlen_app. pose proof (zlen_nonneg e). pose proof (zlen_nonneg post). lia. }
  change (drop (Z.to_nat 24) (header_bytes h ++ e ++ post)) with (e ++ post).
  rewrite Hc. cbn [is_ok negb].
  assert (take (Z.to_nat (zlen e)) (e ++ post) = e) as Htk
    by (apply take_app_length'; unfold zlen; lia). rewrite Htk in Hat.
  apply Forall_app in Hep as [He _].
  destruct (validate_ext_loop_spec (S (Z.to_nat (zlen e))) (length e) c e
    (p <| p_expected_auth_tag_len := 0 |>) Hat He) as (err & p' & rt & Hrun & Hres);
    [lia|unfold zlen; lia|].
  rewrite Hrun. cbn [mbind option_bind].
  assert (tlv_check h e = (l ← parse_exts e; tag ← scan_tag l 0;
         if negb (Z.land (wh_flags h) XGL_WIRE_FLAG_AUTHENTICATED =? 0) && (tag =? 0) then None
         else Some tag)) as -> by (destruct e; [by rewrite zlen_nil in Hz|done]).
  unfold parse_exts.
  destruct (parse_tlvs (length e) e) as [l|]; cbn [mbind option_bind].
  - change (p_expected_auth_tag_len (p <| p_expected_auth_tag_len := 0 |>)) with 0 in Hres.
    destruct (scan_tag l 0) as [tag|]; cbn [mbind option_bind].
    + destruct Hres as (-> & -> & ->). rewrite bool_decide_eq_true_2 by done. cbn [negb].
      change (wh_flags (h <| wh_header_crc16 := header_crc h |>)) with (wh_flags h).
      change (p_expected_auth_tag_len _) with tag. by case_if.
    + destruct Hres as (-> & ->). done.
  - destruct Hres as [(-> & ->)|(-> & -> & Hreset)]; [done|].
    rewrite bool_decide_eq_false_2 by done. cbn [negb]. rewrite Hreset. done.
Qed.

(** Everything about a frame whose base header has arrived. *)
Lemma header_complete_spec p h e post :
  p_cache p = header_bytes h ++ e ++ post -> bytes_ok (p_cache p) ->
  wire_header_ok h = true -> wire_header_rejected h = false ->
  p_cache_len p = 24 + zlen e -> p_cache_len p <= wh_header_len h ->
  let p1 := p <| p_expected_header_len := wh_header_len h |>
              <| p_expected_payload_len := wh_payload_len h |> in
  header_complete p =
    Some (if p_cache_len p <? wh_header_len h then (XGL_PARSE_RESULT_INCOMPLETE, p1)
          else match tlv_check h e with
          | None => (XGL_PARSE_RESULT_ERROR, xgl_parser_reset p)
          | Some tag =>
              if p_cache_size p <? wh_header_len h + wh_payload_len h + tag + 2
              then (XGL_PARSE_RESULT_ERROR, xgl_parser_reset p)
              else (XGL_PARSE_RESULT_INCOMPLETE,
                    p1 <| p_expected_auth_tag_len := tag |>
                       <| p_state := if (0 <? wh_payload_len h) || (0 <? tag)
                                     then XGL_PARSE_PAYLOAD else XGL_PARSE_CRC |>)
          end).
Proof.
  intros Hcache Hok Hh Hr Hlen Hle p1. unfold header_complete, XGL_WIRE_BASE_HEADER_SIZE.
  assert (bytes_ok (e ++ post)) as Hep by (rewrite Hcache, !Forall_app in Hok; rewrite Forall_app; tauto).
  rewrite Hcache, decode_header_bytes by (done || lia).
  cbn [mbind option_bind is_ok negb].
  change (wh_header_len (h <| wh_header_crc16 := header_crc h |>)) with (wh_header_len h).
  change (wh_payload_len (h <| wh_header_crc16 := header_crc h |>)) with (wh_payload_len h).
  fold p1. change (p_cache_len p1) with (p_cache_len p).
  change (p_expected_header_len p1) with (wh_header_len h).
  destruct (p_cache_len p <? wh_header_len h) eqn:Hlt; [done|].
  rewrite (validate_spec p1 h e post); try done.
  2: change (p_expected_header_len p1) with (wh_header_len h); lia.
  cbn [mbind option_bind]. destruct (tlv_check h e) as [tag|]; [|done].
  unfold XGL_CRC16_SIZE. cbn -[Z.add Z.ltb].
  case_if; [done|]. by case_if.
Qed.

Lemma header_complete_rejects p :
  bytes_ok (p_cache p) -> 24 <= zlen (p_cache p) ->
  (forall h, wire_header_ok h = true -> wire_header_rejected h = false ->
     take 24 (p_cache p) <> header_bytes h) ->
  header_complete p = Some (XGL_PARSE_RESULT_ERROR, xgl_parser_reset p).
Proof.
  intros Hok Hlen Hno. unfold header_complete, XGL_WIRE_BASE_HEADER_SIZE.
  destruct (xgl_wire_decode_header zero_wire_header (p_cache p) 24) as [[err h]|] eqn:Hd.
  2: by apply decode_header_safe in Hd; [|done|lia].
  cbn [mbind option_bind]. destruct err; try done. exfalso.
  apply decode_header_inv in Hd as (_ & Hh & Hr & _ & Htk); [|done|lia].
  by apply (Hno h).
Qed.

(** ** The invariant

    [parser_inv p w]: [w] is what the parser has stored of the current frame. *)
Definition frame_head (p : xgl_parser_t) (h : xgl_wire_header_t) (l : list tlv) (tag : Z) : Prop :=
  head_ok h l tag /\ p_expected_header_len p = wh_header_len h /\
  p_expected_payload_len p = wh_payload_len h /\ p_expected_auth_tag_len p = tag /\
  wh_header_len h + wh_payload_len h + tag + 2 <= p_cache_size p.

Definition partial_header (w : bytes) : Prop :=
  w !! 0%nat = Some XGL_WIRE_MAGIC_0 /\ (2 <= zlen w -> w !! 1%nat = Some XGL_WIRE_MAGIC_1) /\
  (24 <= zlen w -> exists h e, w = header_bytes h ++ e /\ wire_header_ok h = true /\
     wire_header_rejected h = false /\ zlen w < wh_header_len h).

Definition parser_shape (p : xgl_parser_t) (w : bytes) : Prop :=
  match p_state p with
  | XGL_PARSE_MAGIC => w = []
  | XGL_PARSE_HEADER => partial_header w
  | XGL_PARSE_PAYLOAD => exists h l tag body, frame_head p h l tag /\
      w = head_bytes h l ++ body /\ zlen body < wh_payload_len h + tag
  | XGL_PARSE_CRC => exists h l tag body c, frame_head p h l tag /\
      w = head_bytes h l ++ body ++ c /\ zlen body = wh_payload_len h + tag /\
      zlen c = p_index p /\ p_index p < 2
  end.

Definition parser_mem (p : xgl_parser_t) (w : bytes) : Prop :=
  26 <= p_cache_size p <= zlen (p_cache p) /\ bytes_ok (p_cache p) /\
  p_cache_len p = zlen w /\ zlen w <= p_cache_size p /\ (exists post, p_cache p = w ++ post) /\
  (p_state p = XGL_PARSE_HEADER -> p_index p = 0).

Definition parser_inv (p : xgl_parser_t) (w : bytes) : Prop := parser_mem p w /\ parser_shape p w.

Lemma push_byte_spec p w b :
  parser_mem p w -> zlen w < p_cache_size p -> 0 <= b < 256 ->
  exists cache post,
    push_byte p b = Some (p <| p_cache := cache |> <| p_cache_len := zlen w + 1 |>) /\
    cache = (w ++ [b]) ++ post /\ bytes_ok cache /\ zlen cache = zlen (p_cache p).
Proof.
  intros (Hsz & Hok & Hlen & Hle & [post Hcache] & _) Hlt Hb. unfold push_byte. rewrite Hlen, Hcache.
  destruct post as [|x post].
  { rewrite Hcache, app_nil_r in Hsz. lia. }
  rewrite wr_at by done. cbn [mbind option_bind]. exists ((w ++ [b]) ++ post), post.
  rewrite <- !app_assoc. split_and!; [done|done| |autorewrite with zlen; lia].
  rewrite Hcache, Forall_app, Forall_cons in Hok. rewrite !Forall_app.
  split_and!; [tauto|repeat constructor; lia|tauto].
Qed.

Lemma reset_inv p w : parser_mem p w -> parser_inv (xgl_parser_reset p) [].
Proof.
  intros (Hsz & Hok & _ & Hle & _ & _). split; [|done].
  pose proof (zlen_nonneg w).
  split_and!; try done; cbn -[zlen Z.le]; rewrite ?zlen_nil; try lia. by exists (p_cache p).
Qed.

(** ** One step *)

(** The parser after storing [b]. *)
Definition pushed (p : xgl_parser_t) (cache : bytes) (n : Z) : xgl_parser_t :=
  p <| p_cache := cache |> <| p_cache_len := n |>.

Lemma pushed_mem p w b cache post :
  parser_mem p w -> zlen w < p_cache_size p ->
  cache = (w ++ [b]) ++ post -> bytes_ok cache -> zlen cache = zlen (p_cache p) ->
  parser_mem (pushed p cache (zlen w + 1)) (w ++ [b]).
Proof.
  intros (Hsz & _ & _ & _ & _ & Hidx) Hlt Hc Hok Hz. unfold pushed.
  split_and!; try done; cbn -[Z.add Z.le]; rewrite ?Hz, ?zlen_app, ?zlen_cons, ?zlen_nil; try lia.
  by exists post.
Qed.

(** ** A frame determines its parts *)
Lemma header_bytes_inj h1 h2 :
  wire_header_ok h1 = true -> wire_header_rejected h1 = false ->
  wire_header_ok h2 = true -> wire_header_rejected h2 = false ->
  header_bytes h1 = header_bytes h2 ->
  wh_header_len h1 = wh_header_len h2 /\ wh_payload_len h1 = wh_payload_len h2 /\
  wh_flags h1 = wh_flags h2.
Proof.
  intros H1 R1 H2 R2 E.
  pose proof (decode_header_bytes zero_wire_header h1 [] 24 H1 R1 ltac:(constructor) ltac:(lia)) as D1.
  pose proof (decode_header_bytes zero_wire_header h2 [] 24 H2 R2 ltac:(constructor) ltac:(lia)) as D2.
  rewrite E, D2 in D1.
  apply (f_equal (fun m => match m with
    | Some (_, h) => (wh_header_len h, wh_payload_len h, wh_flags h)
    | None => (0, 0, 0) end)) in D1.
  change ((wh_header_len h2, wh_payload_len h2, wh_flags h2) =
          (wh_header_len h1, wh_payload_len h1, wh_flags h1)) in D1.
  split_and!; congruence.
Qed.

Lemma tlvs_bytes_inj l1 l2 :
  Forall tlv_ok l1 -> Forall tlv_ok l2 -> tlvs_bytes l1 = tlvs_bytes l2 -> l1 = l2.
Proof.
  intros H1 H2 E. pose proof (parse_tlvs_encode l1 (length (tlvs_bytes l1)) H1 ltac:(lia)) as P1.
  rewrite E, (parse_tlvs_encode l2) in P1 by done. congruence.
Qed.

Lemma valid_frame_rebase size h rest :
  wire_header_ok h = true -> wire_header_rejected h = false ->
  valid_frame size (header_bytes h ++ rest) ->
  exists l tag body, head_ok h l tag /\ bytes_ok body /\ zlen body = wh_payload_len h + tag /\
    rest = tlvs_bytes l ++ body ++ le_bytes 2 (crc16 0xFFFF (head_bytes h l ++ body)) /\
    wh_header_len h + wh_payload_len h + tag + 2 <= size.
Proof.
  intros Hh Hr (h0 & l & tag & body & (Hh0 & Hr0 & Hl0 & Hok & Hs & Ha) & Hb & Hbz & HF & Hsz).
  unfold seal, head_bytes in HF. rewrite <- !app_assoc in HF.
  apply app_inj_1 in HF as [Hhb Hrest]; [|by rewrite !header_bytes_length].
  destruct (header_bytes_inj h h0 Hh Hr Hh0 Hr0 Hhb) as (E1 & E2 & E3).
  exists l, tag, body. split; [unfold head_ok; rewrite E1, E3; exact (conj Hh (conj Hr (conj Hl0 (conj Hok (conj Hs Ha)))))|].
  split; [exact Hb|]. split; [by rewrite E2|]. split.
  - unfold head_bytes. rewrite Hhb, Hrest. rewrite <- !app_assoc. reflexivity.
  - rewrite Hrest, !zlen_app, header_bytes_zlen, le_bytes_zlen in Hsz. lia.
Qed.

Lemma head_unique h l1 tag1 l2 tag2 x y :
  head_ok h l1 tag1 -> head_ok h l2 tag2 -> tlvs_bytes l1 ++ x = tlvs_bytes l2 ++ y ->
  l1 = l2 /\ tag1 = tag2 /\ x = y.
Proof.
  intros (_ & _ & L1 & O1 & S1 & _) (_ & _ & L2 & O2 & S2 & _) E.
  apply app_inj_1 in E as [E ->]; [|unfold zlen in *; lia].
  apply tlvs_bytes_inj in E; [|done|done]. subst l2. split_and!; congruence.
Qed.

Lemma scan_tag_range l tag0 tag :
  Forall tlv_ok l -> 0 <= tag0 < 256 -> scan_tag l tag0 = Some tag -> 0 <= tag < 256.
Proof.
  intros Hl. revert tag0. induction Hl as [|[t v] l (_ & _ & Hv) _ IH]; intros tag0 H0 Hs.
  { cbn in Hs. congruence. }
  cbn [scan_tag] in Hs. case_if_in Hs; [|by eapply IH].
  destruct (decode_security_total v Hv) as (err & out & Hd & Hok). rewrite Hd in Hs.
  destruct err; try done. destruct (Hok eq_refl) as (k & n & t' & -> & Ht').
  eapply IH; [|exact Hs]. lia.
Qed.

(** No valid frame is this short. *)
Lemma valid_frame_min size F : valid_frame size F -> 26 <= zlen F <= size.
Proof.
  intros (h & l & tag & body & (Hh & _ & _ & Hok & Hs & _) & _ & Hbz & -> & Hsz).
  split; [|done]. pose proof (zlen_nonneg (tlvs_bytes l)). pose proof (zlen_nonneg body).
  unfold head_bytes. autorewrite with zlen. lia.
Qed.
Lemma valid_frame_magic size F :
  valid_frame size F -> F !! 0%nat = Some XGL_WIRE_MAGIC_0 /\ F !! 1%nat = Some XGL_WIRE_MAGIC_1.
Proof. by intros (h & l & tag & body & _ & _ & _ & -> & _). Qed.

(** What the frame that is being received promises about the next step. *)
Definition step_promise (p : xgl_parser_t) (w : bytes) (b : Z) (r : xgl_parse_result_t)
    (p' : xgl_parser_t) : Prop :=
  forall rest, valid_frame (p_cache_size p) ((w ++ [b]) ++ rest) ->
    if bool_decide (rest = []) then r = XGL_PARSE_RESULT_COMPLETE
    else r = XGL_PARSE_RESULT_INCOMPLETE /\ parser_inv p' (w ++ [b]).

Definition step_result (p : xgl_parser_t) (w : bytes) (b : Z) (r : xgl_parse_result_t)
    (p' : xgl_parser_t) : Prop :=
  p_cache_size p' = p_cache_size p /\
  match r with
  | XGL_PARSE_RESULT_INCOMPLETE => exists w', parser_inv p' w'
  | XGL_PARSE_RESULT_COMPLETE =>
      valid_frame (p_cache_size p) (w ++ [b]) /\ parser_mem p' (w ++ [b]) /\
      p_state p' = XGL_PARSE_CRC
  | XGL_PARSE_RESULT_ERROR => p' = xgl_parser_reset p' /\ parser_inv p' []
  end /\ step_promise p w b r p'.

(** The promise of a step that only extends the frame. *)
Lemma promise_incomplete p w b p' :
  parser_inv p' (w ++ [b]) -> ~ valid_frame (p_cache_size p) (w ++ [b]) ->
  step_promise p w b XGL_PARSE_RESULT_INCOMPLETE p'.
Proof.
  intros Hinv Hno rest Hv. case_bool_decide as Hr; [|done].
  subst rest. by rewrite app_nil_r in Hv.
Qed.

Lemma parser_mem_ext p p' w :
  parser_mem p w -> p_cache p' = p_cache p -> p_cache_size p' = p_cache_size p ->
  p_cache_len p' = p_cache_len p -> (p_state p' = XGL_PARSE_HEADER -> p_index p' = 0) ->
  parser_mem p' w.
Proof. unfold parser_mem. intros (?&?&?&?&?&_) -> -> -> ?. auto 10. Qed.

(** After a whole head only the payload, the tag and the CRC follow. *)
Lemma valid_frame_after_head size h l tag rest :
  head_ok h l tag -> valid_frame size (head_bytes h l ++ rest) ->
  exists body, zlen body = wh_payload_len h + tag /\
    rest = body ++ le_bytes 2 (crc16 0xFFFF (head_bytes h l ++ body)) /\
    wh_header_len h + wh_payload_len h + tag + 2 <= size.
Proof.
  intros Hok Hv. pose proof Hok as (Hh & Hr & _). unfold head_bytes in Hv. rewrite <- app_assoc in Hv.
  destruct (valid_frame_rebase _ _ _ Hh Hr Hv) as (l' & tag' & body & Hok' & _ & Hbz & E & Hfit).
  apply (head_unique h l tag l' tag') in E as (<- & <- & E); [|done..]. by exists body.
Qed.

(** Once the two CRC bytes are there, their value decides, and the frame ends. *)
Lemma valid_frame_crc size h l tag body c rest :
  head_ok h l tag -> bytes_ok (head_bytes h l ++ body) -> bytes_ok c -> zlen c = 2 ->
  zlen body = wh_payload_len h + tag -> wh_header_len h + wh_payload_len h + tag + 2 <= size ->
  valid_frame size ((head_bytes h l ++ body ++ c) ++ rest) <->
  crc16 0xFFFF (head_bytes h l ++ body) = le_value c /\ rest = [].
Proof.
  intros Hok Hcov Hc Hcz Hbz Hfit. assert (length c = 2%nat) as Hc2 by (unfold zlen in Hcz; lia). split.
  - rewrite <- !app_assoc. intros Hv.
    destruct (valid_frame_after_head _ _ _ _ _ Hok Hv) as (body' & Hbz' & E & _).
    apply app_inj_1 in E as [<- E]; [|unfold zlen in *; lia].
    rewrite <- (app_nil_r (le_bytes _ _)) in E. apply app_inj_1 in E as [-> ->]; [|by rewrite le_bytes_length].
    rewrite le_value_u16 by (apply crc16_range; [lia|done]). done.
  - intros [Hcrc ->]. rewrite app_nil_r. pose proof Hok as (_ & _ & Hhl & _).
    exists h, l, tag, body. split; [done|]. split; [|split; [done|split]].
    + rewrite Forall_app in Hcov. tauto.
    + rewrite app_assoc. unfold seal. rewrite Hcrc, <- Hc2, le_bytes_le_value by done. done.
    + unfold head_bytes. rewrite !zlen_app, header_bytes_zlen. lia.
Qed.

Section Steps.
Variables (p : xgl_parser_t) (w : bytes) (b now : Z).
Hypothesis Hb : 0 <= b < 256.
Hypothesis Hmem : parser_mem p w.
Hypothesis Hroom : zlen w < p_cache_size p.

Let result (r : M (xgl_parse_result_t * xgl_parser_t)) : Prop :=
  exists r' p', r = Some (r', p') /\ step_result p w b r' p'.

Lemma step_error p' :
  p' = xgl_parser_reset p' -> p_cache_size p' = p_cache_size p -> parser_mem p' [] ->
  (forall rest, ~ valid_frame (p_cache_size p) ((w ++ [b]) ++ rest)) ->
  result (Some (XGL_PARSE_RESULT_ERROR, p')).
Proof.
  intros Hp' Hsz Hm Hno. eexists _, _. split; [reflexivity|]. split; [done|]. split.
  - split; [done|]. split; [done|]. by rewrite Hp'.
  - intros rest Hv. by destruct (Hno rest).
Qed.

Lemma step_incomplete p' :
  p_cache_size p' = p_cache_size p -> parser_inv p' (w ++ [b]) ->
  ~ valid_frame (p_cache_size p) (w ++ [b]) ->
  result (Some (XGL_PARSE_RESULT_INCOMPLETE, p')).
Proof.
  intros Hsz Hinv Hno. eexists _, _. split; [reflexivity|]. split; [done|]. split; [by eexists|].
  by apply promise_incomplete.
Qed.

Lemma step_restart p' w' :
  p_cache_size p' = p_cache_size p -> parser_inv p' w' ->
  (forall rest, ~ valid_frame (p_cache_size p) ((w ++ [b]) ++ rest)) ->
  result (Some (XGL_PARSE_RESULT_INCOMPLETE, p')).
Proof.
  intros Hsz Hinv Hno. eexists _, _. split; [reflexivity|]. split; [done|]. split; [by eexists|].
  intros rest Hv. by destruct (Hno rest).
Qed.

Lemma too_short : zlen w < 25 -> ~ valid_frame (p_cache_size p) (w ++ [b]).
Proof. intros Hl Hv%valid_frame_min. rewrite zlen_app, zlen_cons, zlen_nil in Hv. lia. Qed.

Lemma feed_magic :
  p_state p = XGL_PARSE_MAGIC -> w = [] -> result (xgl_parser_feed_byte p b now).
Proof.
  intros Hst Hw. unfold xgl_parser_feed_byte. pose proof Hmem as (Hsz & Hok & Hlen & Hle & Hpost & _).
  rewrite Hlen. replace (p_cache_size p <=? zlen w) with false by lia. rewrite Hst.
  destruct (b =? XGL_WIRE_MAGIC_0) eqn:Hmag.
  - assert (b = XGL_WIRE_MAGIC_0) as Hbm by lia.
    rewrite wr_Some by lia. cbn [mbind option_bind]. apply step_incomplete; [done| |].
    2: apply too_short; rewrite Hw, zlen_nil; lia.
    rewrite Hw. cbn [app]. split.
    + split_and!; cbn -[zlen Z.le insert]; rewrite ?zlen_insert, ?zlen_cons, ?zlen_nil; try lia; try done.
      * by apply bytes_ok_insert.
      * destruct (p_cache p) as [|x c]; [rewrite zlen_nil in Hsz; lia|]. by exists c.
    + split_and!; [by rewrite Hbm|rewrite zlen_cons, zlen_nil; lia..].
  - apply (step_restart p []); [done| |].
    + split; [by rewrite <- Hw|]. by unfold parser_shape; rewrite Hst.
    + rewrite Hw. intros rest [Hm _]%valid_frame_magic. cbn in Hm. injection Hm as Hm. lia.
Qed.

(** In the last three states the byte is first stored in the cache. *)
Lemma feed_pushed (k : xgl_parser_t -> M (xgl_parse_result_t * xgl_parser_t)) :
  (forall cache post, let p1 := p <| p_cache := cache |> <| p_cache_len := zlen w + 1 |> in
     cache = (w ++ [b]) ++ post -> bytes_ok cache -> parser_mem p1 (w ++ [b]) -> result (k p1)) ->
  result (if p_cache_size p <=? p_cache_len p
          then Some (XGL_PARSE_RESULT_ERROR, xgl_parser_reset p)
          else parser ← push_byte p b; k parser).
Proof.
  intros Hk. destruct (push_byte_spec p w b Hmem Hroom Hb) as (cache & post & -> & Hcache & Hcok & Hcz).
  pose proof (pushed_mem p w b cache post Hmem Hroom Hcache Hcok Hcz) as Hmem1.
  pose proof Hmem as (_ & _ & -> & _). replace (p_cache_size p <=? zlen w) with false by lia.
  cbn [mbind option_bind]. by eapply Hk.
Qed.

Lemma feed_crc_first h l tag body cache :
  let p1 := p <| p_cache := cache |> <| p_cache_len := zlen w + 1 |> in
  p_state p = XGL_PARSE_CRC -> frame_head p h l tag -> w = head_bytes h l ++ body ->
  zlen body = wh_payload_len h + tag -> p_index p = 0 -> parser_mem p1 (w ++ [b]) ->
  result (Some (XGL_PARSE_RESULT_INCOMPLETE, p1 <| p_index := p_index p1 + 1 |>)).
Proof.
  intros p1 Hst Hhead Hw Hbz Hidx Hmem1. pose proof Hhead as (Hhok & _).
  apply step_incomplete; [done|split|].
  - apply (parser_mem_ext p1); try done.
    intros Hx. change (p_state p = XGL_PARSE_HEADER) in Hx. congruence.
  - unfold parser_shape. change (p_state (p1 <| p_index := p_index p1 + 1 |>)) with (p_state p).
    rewrite Hst. exists h, l, tag, body, [b]. split_and!; try done.
    + by rewrite Hw, <- app_assoc.
    + change (zlen [b] = p_index p + 1). by rewrite Hidx.
    + change (p_index p + 1 < 2). lia.
  - rewrite Hw, <- app_assoc. intros (body' & Hbz' & E & _)%(valid_frame_after_head _ _ _ _ _ Hhok).
    apply app_inj_1 in E as [_ E]; [|unfold zlen in *; lia].
    apply (f_equal length) in E. by rewrite le_bytes_length in E.
Qed.

Lemma feed_crc_last h l tag body c0 cache post :
  let p1 := p <| p_cache := cache |> <| p_cache_len := zlen w + 1 |> in
  let p2 := p1 <| p_index := p_index p1 + 1 |> in
  p_state p = XGL_PARSE_CRC -> frame_head p h l tag -> w = head_bytes h l ++ body ++ [c0] ->
  zlen body = wh_payload_len h + tag -> cache = (w ++ [b]) ++ post -> bytes_ok cache ->
  parser_mem p1 (w ++ [b]) ->
  result (calculated_crc ← xgl_crc16_modbus (Ptr cache) 0 (zlen w + 1 - XGL_CRC16_SIZE);
          received_crc ← xgl_deserialize_u16_le cache (zlen w + 1 - XGL_CRC16_SIZE);
          if negb (calculated_crc =? received_crc)
          then ret (XGL_PARSE_RESULT_ERROR, xgl_parser_reset p2)
          else ret (XGL_PARSE_RESULT_COMPLETE, p2)).
Proof.
  intros p1 p2 Hst (Hhok & _ & _ & _ & Hfit) Hw Hbz Hcache Hcok Hmem1.
  change (p_cache_size p) with (p_cache_size p1) in Hfit.
  assert (w ++ [b] = head_bytes h l ++ body ++ [c0; b]) as Hwb by (by rewrite Hw, <- !app_assoc).
  assert (cache = (head_bytes h l ++ body) ++ [c0; b] ++ post) as Hcov
    by (by rewrite Hcache, Hwb, <- !app_assoc).
  assert (bytes_ok (head_bytes h l ++ body) /\ bytes_ok [c0; b]) as [Hcovok Hcbok].
  { rewrite Hcov, app_assoc, Forall_app in Hcok. destruct Hcok as [Hc _].
    by rewrite Forall_app in Hc. }
  pose proof (valid_frame_crc (p_cache_size p) h l tag body [c0; b]) as Hv.
  replace (zlen w + 1 - XGL_CRC16_SIZE) with (zlen (head_bytes h l ++ body)).
  2: { rewrite Hw, !zlen_app. change (zlen [c0]) with 1. unfold XGL_CRC16_SIZE. lia. }
  assert (zlen (head_bytes h l ++ body) <= zlen cache) as Hroom2.
  { rewrite Hcov, (zlen_app (head_bytes h l ++ body)). pose proof (zlen_nonneg ([c0; b] ++ post)). lia. }
  rewrite crc16_modbus_spec by (done || lia || apply zlen_nonneg). cbn [mbind option_bind].
  rewrite drop_to_nat_0, (u16_at _ _ _ [c0; b] post Hcov) by done. cbn [mbind option_bind].
  assert (take (Z.to_nat (zlen (head_bytes h l ++ body))) cache = head_bytes h l ++ body) as ->
    by (rewrite Hcov; apply take_app_length'; unfold zlen; lia).
  destruct (_ =? _) eqn:Hcrc; cbn [negb].
  - eexists _, _. split; [reflexivity|]. split; [done|]. split.
    + split; [|split; [|done]].
      * rewrite <- (app_nil_r (w ++ [b])), Hwb. apply Hv; try done. split; [lia|done].
      * apply (parser_mem_ext p1); try done.
        intros Hx. change (p_state p = XGL_PARSE_HEADER) in Hx. congruence.
    + intros rest Hr. rewrite Hwb in Hr. apply Hv in Hr as [_ ->]; done.
  - apply step_error; try done.
    + by apply reset_inv in Hmem1 as [Hm _].
    + intros rest Hr. rewrite Hwb in Hr. apply Hv in Hr as [Hr _]; try done. lia.
Qed.

Lemma feed_crc :
  p_state p = XGL_PARSE_CRC -> parser_shape p w -> result (xgl_parser_feed_byte p b now).
Proof.
  intros Hst Hshape. unfold parser_shape in Hshape. rewrite Hst in Hshape.
  destruct Hshape as (h & l & tag & body & c & Hhead & Hw & Hbz & Hcz & Hidx).
  unfold xgl_parser_feed_byte. rewrite Hst. apply feed_pushed. intros cache post p1 Hcache Hcok Hmem1.
  change (p_index (p1 <| p_index := p_index p1 + 1 |>)) with (p_index p + 1).
  change (p_cache_len (p1 <| p_index := p_index p1 + 1 |>)) with (zlen w + 1).
  change (p_cache (p1 <| p_index := p_index p1 + 1 |>)) with cache.
  destruct (XGL_CRC16_SIZE <=? p_index p + 1) eqn:Hlast; unfold XGL_CRC16_SIZE in Hlast.
  - destruct c as [|c0 [|c1 c]]; rewrite ?zlen_cons, ?zlen_nil in Hcz; [lia| |pose proof (zlen_nonneg c); lia].
    by apply (feed_crc_last h l tag body c0 cache post).
  - pose proof (zlen_nonneg c). assert (c = []) as -> by (apply zlen_0_nil; lia).
    rewrite zlen_nil in Hcz. rewrite app_nil_r in Hw.
    by apply (feed_crc_first h l tag body cache).
Qed.

Lemma feed_payload :
  p_state p = XGL_PARSE_PAYLOAD -> parser_shape p w -> result (xgl_parser_feed_byte p b now).
Proof.
  intros Hst Hshape. unfold parser_shape in Hshape. rewrite Hst in Hshape.
  destruct Hshape as (h & l & tag & body & Hhead & Hw & Hbz).
  pose proof Hhead as (Hhok & Hehl & Hepl & Heat & Hfit). pose proof Hhok as (Hh & Hr & Hhl & Hlok & Hs & Ha).
  unfold xgl_parser_feed_byte. rewrite Hst. apply feed_pushed. intros cache post p1 Hcache Hcok Hmem1.
  change (p_cache_len p1) with (zlen w + 1).
  change (p_expected_header_len p1) with (p_expected_header_len p).
  change (p_expected_payload_len p1) with (p_expected_payload_len p).
  change (p_expected_auth_tag_len p1) with (p_expected_auth_tag_len p).
  rewrite Hehl, Hepl, Heat.
  assert (zlen w = wh_header_len h + zlen body) as Hwz
    by (rewrite Hw; unfold head_bytes; autorewrite with zlen; lia).
  assert (w ++ [b] = head_bytes h l ++ body ++ [b]) as Hwb by (by rewrite Hw, <- app_assoc).
  assert (~ valid_frame (p_cache_size p) (w ++ [b])) as Hno.
  { rewrite Hwb. intros (body' & Hbz' & E & _)%(valid_frame_after_head _ _ _ _ _ Hhok).
    apply (f_equal zlen) in E. rewrite !zlen_app, le_bytes_zlen, zlen_cons, zlen_nil in E. lia. }
  destruct (wh_payload_len h + tag <=? zlen w + 1 - wh_header_len h) eqn:Hdone.
  - apply step_incomplete; [done| |exact Hno]. split.
    + apply (parser_mem_ext p1); try done.
    + exists h, l, tag, (body ++ [b]), []. split_and!; try done.
      * by rewrite app_nil_r.
      * rewrite zlen_app, zlen_cons, zlen_nil. lia.
  - apply step_incomplete; [done| |exact Hno]. split; [done|].
    unfold parser_shape. change (p_state p1) with (p_state p). rewrite Hst.
    exists h, l, tag, (body ++ [b]). split_and!; try done.
    rewrite zlen_app, zlen_cons, zlen_nil. lia.
Qed.

(** The base header is complete when [w ++ [b]] has at least 24 bytes; a bad one is the
    beginning of no frame. *)
Lemma base_header_bad cache post err h rest :
  cache = (w ++ [b]) ++ post -> bytes_ok cache -> 24 <= zlen w + 1 ->
  xgl_wire_decode_header zero_wire_header cache 24 = Some (err, h) -> err <> XGL_OK ->
  ~ valid_frame (p_cache_size p) ((w ++ [b]) ++ rest).
Proof.
  intros Hcache Hcok H24 Hd Herr (h0 & l & tag & body & (Hh & Hr & _) & _ & _ & HF & _).
  unfold seal, head_bytes in HF. rewrite <- !app_assoc in HF.
  assert (take 24 cache = header_bytes h0) as Htk.
  { rewrite Hcache. rewrite take_app_le by (rewrite length_app; unfold zlen in *; cbn; lia).
    rewrite app_assoc in HF. apply (f_equal (take 24)) in HF.
    rewrite take_app_le in HF by (rewrite length_app; unfold zlen in *; cbn; lia).
    rewrite HF. by apply take_app_length'. }
  pose proof (take_drop 24 cache) as Hcd. rewrite Htk in Hcd. rewrite <- Hcd in Hd.
  rewrite decode_header_bytes in Hd; [congruence|done|done| |lia]. by apply Forall_drop.
Qed.

Lemma base_header_good cache post h :
  partial_header w -> cache = (w ++ [b]) ++ post -> bytes_ok cache -> 24 <= zlen w + 1 ->
  xgl_wire_decode_header zero_wire_header cache 24 = Some (XGL_OK, h) ->
  wire_header_ok h = true /\ wire_header_rejected h = false /\
  exists e, w ++ [b] = header_bytes h ++ e /\ bytes_ok e /\ zlen w + 1 = 24 + zlen e /\
    zlen w + 1 <= wh_header_len h.
Proof.
  intros Hshape Hcache Hcok H24 Hd.
  assert (24 <= zlen cache) as Hcz.
  { rewrite Hcache, !zlen_app, zlen_cons, zlen_nil. pose proof (zlen_nonneg post). lia. }
  apply decode_header_inv in Hd as (_ & Hh & Hr & _ & Htk); [|done|lia].
  assert (exists e, w ++ [b] = header_bytes h ++ e) as [e He].
  { exists (drop 24 (w ++ [b])). rewrite <- Htk, Hcache.
    rewrite take_app_le by (rewrite length_app; unfold zlen in *; cbn; lia). by rewrite take_drop. }
  split; [done|]. split; [done|]. exists e. split; [done|]. split; [|split].
  - rewrite Hcache, He, !Forall_app in Hcok. tauto.
  - apply (f_equal zlen) in He. rewrite !zlen_app, header_bytes_zlen, zlen_cons, zlen_nil in He. lia.
  - destruct Hshape as (_ & _ & Hpart). destruct (decide (24 <= zlen w)) as [Hw24|].
    + destruct (Hpart Hw24) as (h0 & e0 & Hw0 & Hh0 & Hr0 & Hlt).
      rewrite Hw0, <- app_assoc in He. apply app_inj_1 in He as [He _]; [|by rewrite !header_bytes_length].
      destruct (header_bytes_inj h0 h Hh0 Hr0 Hh Hr He) as (<- & _). lia.
    + unfold wire_header_rejected, XGL_WIRE_BASE_HEADER_SIZE in Hr. lia.
Qed.

(** What a frame that goes on from a complete base header must look like. *)
Lemma whole_header_frame size h e rest :
  wire_header_ok h = true -> wire_header_rejected h = false -> bytes_ok e ->
  24 + zlen e <= wh_header_len h -> valid_frame size ((header_bytes h ++ e) ++ rest) ->
  rest <> [] /\
  (wh_header_len h = 24 + zlen e ->
   exists tag, tlv_check h e = Some tag /\ wh_header_len h + wh_payload_len h + tag + 2 <= size).
Proof.
  intros Hh Hr Heok Hle Hv. rewrite <- app_assoc in Hv.
  destruct (valid_frame_rebase _ _ _ Hh Hr Hv) as (l & tag & body & Hok & _ & Hbz & E & Hfit).
  pose proof Hok as (_ & _ & Hl & _). split.
  - intros ->. apply (f_equal zlen) in E. rewrite app_nil_r, !zlen_app, le_bytes_zlen in E.
    pose proof (zlen_nonneg body). lia.
  - intros Hhl. apply app_inj_1 in E as [Ee _]; [|unfold zlen in *; lia].
    exists tag. split; [|done]. apply tlv_check_head; try done. by exists l.
Qed.

(** The state after a complete head: the payload when there is one, the CRC otherwise. *)
Lemma head_done_shape cache h l tag :
  let p1 := p <| p_cache := cache |> <| p_cache_len := zlen w + 1 |>
              <| p_expected_header_len := wh_header_len h |>
              <| p_expected_payload_len := wh_payload_len h |> <| p_expected_auth_tag_len := tag |>
              <| p_state := if (0 <? wh_payload_len h) || (0 <? tag)
                            then XGL_PARSE_PAYLOAD else XGL_PARSE_CRC |> in
  head_ok h l tag -> p_index p = 0 ->
  wh_header_len h + wh_payload_len h + tag + 2 <= p_cache_size p ->
  parser_shape p1 (head_bytes h l).
Proof.
  intros p1 Hok Hi0 Hfit. pose proof Hok as (Hh & _ & _ & Hlok & Hscan & _).
  pose proof (scan_tag_range l 0 tag Hlok ltac:(lia) Hscan) as Htag.
  apply wire_header_ok_spec in Hh as Hrng.
  assert (frame_head p1 h l tag) as Hfh by (split; [exact Hok|]; do 3 (split; [reflexivity|]); exact Hfit).
  unfold parser_shape.
  change (p_state p1) with (if (0 <? wh_payload_len h) || (0 <? tag) then XGL_PARSE_PAYLOAD else XGL_PARSE_CRC).
  destruct ((0 <? wh_payload_len h) || (0 <? tag)) eqn:Hbody.
  - exists h, l, tag, []. split; [exact Hfh|]. rewrite app_nil_r, zlen_nil. split; [done|lia].
  - exists h, l, tag, [], []. split; [exact Hfh|]. rewrite !app_nil_r, zlen_nil.
    split_and!; [done|lia|change (0 = p_index p); lia|change (p_index p < 2); lia].
Qed.

Lemma header_complete_step cache post :
  let p1 := p <| p_cache := cache |> <| p_cache_len := zlen w + 1 |> in
  p_state p = XGL_PARSE_HEADER -> partial_header w ->
  cache = (w ++ [b]) ++ post -> bytes_ok cache -> parser_mem p1 (w ++ [b]) -> 24 <= zlen w + 1 ->
  result (header_complete p1).
Proof.
  intros p1 Hst Hshape Hcache Hcok Hmem1 H24. pose proof Hmem1 as (_ & _ & _ & _ & _ & Hidx).
  destruct (xgl_wire_decode_header zero_wire_header cache 24) as [[err h]|] eqn:Hd.
  2: { apply decode_header_safe in Hd; [done|done|].
       rewrite Hcache, !zlen_app, zlen_cons, zlen_nil. pose proof (zlen_nonneg post). lia. }
  assert (parser_mem (xgl_parser_reset p1) []) as Hreset by (by apply reset_inv in Hmem1 as [Hm _]).
  destruct (decide (err = XGL_OK)) as [->|Herr].
  2: { assert (header_complete p1 = Some (XGL_PARSE_RESULT_ERROR, xgl_parser_reset p1)) as ->.
       { unfold header_complete, XGL_WIRE_BASE_HEADER_SIZE. change (p_cache p1) with cache.
         rewrite Hd. cbn [mbind option_bind]. by destruct err. }
       apply step_error; try done. intros rest. by eapply base_header_bad. }
  destruct (base_header_good cache post h Hshape Hcache Hcok H24 Hd) as (Hh & Hr & e & He & Heok & Hwe & Hle).
  rewrite (header_complete_spec p1 h e post); try done;
    [|change (p_cache p1) with cache; by rewrite Hcache, He, <- app_assoc].
  change (p_cache_len p1) with (zlen w + 1). change (p_cache_size p1) with (p_cache_size p).
  assert (forall rest, valid_frame (p_cache_size p) ((w ++ [b]) ++ rest) -> rest <> [] /\
    (wh_header_len h = 24 + zlen e -> exists tag, tlv_check h e = Some tag /\
       wh_header_len h + wh_payload_len h + tag + 2 <= p_cache_size p)) as Hframe.
  { intros rest Hv. rewrite He in Hv. apply (whole_header_frame _ h e rest); (done || lia). }
  assert (~ valid_frame (p_cache_size p) (w ++ [b])) as Hno.
  { intros Hv. rewrite <- (app_nil_r (w ++ [b])) in Hv. by apply Hframe in Hv as [? _]. }
  destruct (zlen w + 1 <? wh_header_len h) eqn:Hmore.
  - apply step_incomplete; [done| |exact Hno]. split; [by apply (parser_mem_ext p1)|].
    unfold parser_shape. change (p_state (_ <| p_expected_payload_len := _ |>)) with (p_state p).
    rewrite Hst, He. split_and!; [done|done|]. intros _. exists h, e. split_and!; try done.
    rewrite zlen_app, header_bytes_zlen. lia.
  - destruct (tlv_check h e) as [tag|] eqn:Hck; [case_match|].
    2: { apply tlv_check_head in Hck as (l & -> & Hok); [|done|done|done|lia].
         apply step_incomplete; [done| |exact Hno].
         split; [apply (parser_mem_ext p1); try done; intros _; exact (Hidx Hst)|].
         rewrite He. apply head_done_shape; [done|exact (Hidx Hst)|lia]. }
    all: apply step_error; try done; intros rest Hv.
    all: destruct (proj2 (Hframe _ Hv)) as (tag' & ? & ?); [lia|]; simplify_eq; lia.
Qed.

(** The second byte is not the second magic byte: the frame begins again, or not at all. *)
Lemma second_byte_wrong cache post :
  let p1 := p <| p_cache := cache |> <| p_cache_len := zlen w + 1 |> in
  p_state p = XGL_PARSE_HEADER -> w = [XGL_WIRE_MAGIC_0] -> b <> XGL_WIRE_MAGIC_1 ->
  cache = (w ++ [b]) ++ post -> bytes_ok cache -> parser_mem p1 (w ++ [b]) ->
  result (if b =? XGL_WIRE_MAGIC_0
          then cache ← wr (p_cache p1) 0 b;
               ret (XGL_PARSE_RESULT_INCOMPLETE,
                    p1 <| p_cache := cache |> <| p_cache_len := 1 |> <| p_state := XGL_PARSE_HEADER |>)
          else ret (XGL_PARSE_RESULT_INCOMPLETE, xgl_parser_reset p1)).
Proof.
  intros p1 Hst Hw Hm1 Hcache Hcok Hmem1. change (p_cache p1) with cache.
  pose proof Hmem1 as (Hsz & _ & _ & _ & _ & Hidx).
  change (26 <= p_cache_size p <= zlen cache) in Hsz.
  assert (forall rest, ~ valid_frame (p_cache_size p) ((w ++ [b]) ++ rest)) as Hno.
  { intros rest [_ Hv]%valid_frame_magic. rewrite Hw in Hv. cbn in Hv. by injection Hv. }
  destruct (b =? XGL_WIRE_MAGIC_0) eqn:Hm0.
  - assert (0 < zlen cache) as Hcz.
    { rewrite Hcache, Hw. unfold zlen. cbn. lia. }
    assert (b = XGL_WIRE_MAGIC_0) as Hbm by lia. rewrite wr_Some by lia. cbn [mbind option_bind].
    apply (step_restart _ [b]); [done| |exact Hno]. split.
    + split_and!; cbn -[zlen Z.le insert]; rewrite ?zlen_insert, ?zlen_cons, ?zlen_nil; try lia; try done.
      * by apply bytes_ok_insert.
      * rewrite Hcache, Hw. eexists. reflexivity.
      * intros _. exact (Hidx Hst).
    + split_and!; [by rewrite Hbm|rewrite zlen_cons, zlen_nil; lia..].
  - apply (step_restart _ []); [done|by eapply reset_inv|exact Hno].
Qed.

Lemma feed_header :
  p_state p = XGL_PARSE_HEADER -> parser_shape p w -> result (xgl_parser_feed_byte p b now).
Proof.
  intros Hst Hshape. unfold parser_shape in Hshape. rewrite Hst in Hshape.
  pose proof Hshape as (P0 & P1 & P24).
  unfold xgl_parser_feed_byte. rewrite Hst. apply feed_pushed. intros cache post p1 Hcache Hcok Hmem1.
  change (p_cache_len p1) with (zlen w + 1). change (p_cache p1) with cache.
  assert (exists w0, w = XGL_WIRE_MAGIC_0 :: w0) as [w0 Hw].
  { destruct w as [|x w0]; [done|]. injection P0 as ->. by exists w0. }
  pose proof (zlen_nonneg w0).
  destruct (zlen w + 1 =? 2) eqn:H2.
  - assert (w0 = []) as -> by (apply zlen_0_nil; rewrite Hw, zlen_cons in H2; lia).
    assert (rd cache 1 = Some b) as -> by (rewrite Hcache, Hw; reflexivity).
    cbn [mbind option_bind andb].
    destruct (b =? XGL_WIRE_MAGIC_1) eqn:Hm1; cbn [negb].
    + replace (XGL_WIRE_BASE_HEADER_SIZE <=? zlen w + 1) with false
        by (unfold XGL_WIRE_BASE_HEADER_SIZE; lia).
      apply step_incomplete; [done| |apply too_short; lia]. split; [done|].
      unfold parser_shape. change (p_state p1) with (p_state p). rewrite Hst, Hw. split_and!.
      * done.
      * intros _. cbn. f_equal. lia.
      * rewrite !zlen_app, !zlen_cons, !zlen_nil. lia.
    + apply (second_byte_wrong cache post); try done. lia.
  - cbn [mbind option_bind andb].
    destruct (XGL_WIRE_BASE_HEADER_SIZE <=? zlen w + 1) eqn:H24;
      unfold XGL_WIRE_BASE_HEADER_SIZE in H24.
    + apply (header_complete_step cache post); try done. lia.
    + apply step_incomplete; [done| |apply too_short; lia]. split; [done|].
      unfold parser_shape. change (p_state p1) with (p_state p). rewrite Hst.
      split_and!.
      * rewrite Hw. done.
      * intros _. rewrite lookup_app_l; [apply P1|]; rewrite Hw, zlen_cons in *; unfold zlen in *; cbn; lia.
      * rewrite zlen_app, zlen_cons, zlen_nil. lia.
Qed.
End Steps.

(** One byte, from any state the invariant allows. *)
Lemma feed_step p w b now :
  parser_inv p w -> 0 <= b < 256 ->
  exists r p', xgl_parser_feed_byte p b now = Some (r, p') /\ step_result p w b r p'.
Proof.
  intros [Hmem Hshape] Hb. pose proof Hmem as (Hsz & Hok & Hlen & Hle & _).
  destruct (decide (zlen w < p_cache_size p)) as [Hroom|Hfull].
  - destruct (p_state p) eqn:Hst.
    + apply feed_magic; try done. by unfold parser_shape in Hshape; rewrite Hst in Hshape.
    + by apply feed_header.
    + by apply feed_payload.
    + by apply feed_crc.
  - unfold xgl_parser_feed_byte. replace (p_cache_size p <=? p_cache_len p) with true by lia.
    eexists _, _. split; [done|]. split; [done|]. split; [split; [done|by eapply reset_inv]|].
    intros rest Hv%valid_frame_min. rewrite !zlen_app, zlen_cons, zlen_nil in Hv.
    pose proof (zlen_nonneg rest). lia.
Qed.

(** ** Streams

    The receiver's use of the parser: feed every byte (with the time it was
    read), take each completed frame and reset. *)
Fixpoint parser_run (p : xgl_parser_t) (input : list (Z * Z)) : M (list bytes * xgl_parser_t) :=
  match input with
  | [] => ret ([], p)
  | (byte, now) :: input =>
      '(r, p) ← xgl_parser_feed_byte p byte now;
      match r with
      | XGL_PARSE_RESULT_COMPLETE =>
          match xgl_parser_get_frame p with
          | (XGL_OK, Some (buffer, len)) =>
              frame ← rd_bytes buffer 0 len;
              '(frames, p) ← parser_run (xgl_parser_reset p) input;
              ret (frame :: frames, p)
          | _ => None
          end
      | _ => parser_run p input
      end
  end.

Lemma get_frame_complete p w :
  parser_mem p w -> p_state p = XGL_PARSE_CRC -> 0 < zlen w ->
  xgl_parser_get_frame p = (XGL_OK, Some (p_cache p, p_cache_len p)) /\
  rd_bytes (p_cache p) 0 (p_cache_len p) = Some w.
Proof.
  intros (_ & _ & Hlen & _ & [post Hc] & _) Hst Hpos. unfold xgl_parser_get_frame. rewrite Hst, Hlen.
  replace (zlen w =? 0) with false by lia. split; [done|]. rewrite Hc. by apply rd_bytes_prefix.
Qed.

Lemma parser_init_inv old cache size :
  26 <= size <= zlen cache -> bytes_ok cache ->
  exists p, xgl_parser_init old (Ptr cache) size = (XGL_OK, p) /\ parser_inv p [] /\
    p_state p = XGL_PARSE_MAGIC /\ p_cache_size p = size.
Proof.
  intros Hs Hok. unfold xgl_parser_init, XGL_FRAME_HEADER_SIZE, XGL_CRC16_SIZE.
  replace (size <? 24 + 2) with false by lia. eexists. split; [reflexivity|].
  split; [|done]. split; [|done]. split_and!; try done; cbn -[zlen Z.le]; rewrite ?zlen_nil; try lia.
  by exists cache.
Qed.

Lemma parser_run_sound input : forall p w,
  parser_inv p w -> Forall (fun x => 0 <= x.1 < 256) input ->
  exists frames p' w', parser_run p input = Some (frames, p') /\ parser_inv p' w' /\
    p_cache_size p' = p_cache_size p /\ Forall (valid_frame (p_cache_size p)) frames.
Proof.
  induction input as [|[b now] input IH]; intros p w Hinv Hin.
  { by exists [], p, w. }
  apply Forall_cons in Hin as [Hb Hin]. cbn [parser_run].
  destruct (feed_step p w b now Hinv Hb) as (r & p1 & Hfeed & Hsz & Hres & _).
  rewrite Hfeed. cbn [mbind option_bind]. destruct r.
  - destruct Hres as [w1 Hinv1]. rewrite <- Hsz. by apply (IH p1 w1).
  - destruct Hres as (Hv & Hm & Hst). pose proof (valid_frame_min _ _ Hv) as Hmin.
    destruct (get_frame_complete p1 (w ++ [b]) Hm Hst ltac:(lia)) as [-> Hrd].
    rewrite Hrd. cbn [mbind option_bind].
    destruct (IH (xgl_parser_reset p1) [] (reset_inv _ _ Hm) Hin) as (fs & p' & w' & Hrun & Hinv' & Hsz' & Hfs).
    rewrite Hrun. cbn [mbind option_bind]. exists ((w ++ [b]) :: fs), p', w'.
    change (p_cache_size (xgl_parser_reset p1)) with (p_cache_size p1) in *. rewrite Hsz in *. auto.
  - destruct Hres as [_ Hinv1]. rewrite <- Hsz. by apply (IH p1 []).
Qed.

(** The rest of a frame whose beginning [w] is already stored. *)
Lemma parser_run_rest todo : forall p w rest,
  parser_inv p w -> map fst todo <> [] ->
  Forall (fun x => 0 <= x.1 < 256) todo -> valid_frame (p_cache_size p) (w ++ map fst todo) ->
  exists p', parser_inv p' [] /\ p_state p' = XGL_PARSE_MAGIC /\ p_cache_size p' = p_cache_size p /\
    parser_run p (todo ++ rest) =
      ('(frames, p'') ← parser_run p' rest; ret ((w ++ map fst todo) :: frames, p'')).
Proof.
  induction todo as [|[b now] todo IH]; intros p w rest Hinv Hne Hin Hv; [done|].
  apply Forall_cons in Hin as [Hb Hin]. cbn [app parser_run map fst] in *.
  destruct (feed_step p w b now Hinv Hb) as (r & p1 & Hfeed & Hsz & Hres & Hpromise).
  rewrite cons_middle, app_assoc in Hv. specialize (Hpromise _ Hv).
  rewrite Hfeed. cbn [mbind option_bind]. destruct todo as [|[b2 now2] todo].
  - cbn [map] in Hpromise. rewrite bool_decide_eq_true_2 in Hpromise by done. subst r.
    destruct Hres as (_ & Hm & Hst). cbn [map app] in Hv. rewrite app_nil_r in Hv.
    pose proof (valid_frame_min _ _ Hv) as Hmin.
    destruct (get_frame_complete p1 (w ++ [b]) Hm Hst ltac:(lia)) as [-> Hrd].
    rewrite Hrd. cbn [mbind option_bind]. exists (xgl_parser_reset p1).
    split; [by eapply reset_inv|]. done.
  - rewrite bool_decide_eq_false_2 in Hpromise by done. destruct Hpromise as [-> Hinv1].
    destruct (IH p1 (w ++ [b]) rest Hinv1) as (p' & H1 & H2 & H3 & Hrun); try done.
    { by rewrite Hsz. }
    exists p'. rewrite Hsz in H3. split_and!; try done. rewrite Hrun.
    by rewrite <- app_assoc.
Qed.

Lemma parser_run_noise noise : forall p rest,
  parser_inv p [] -> p_state p = XGL_PARSE_MAGIC ->
  Forall (fun x => x.1 <> XGL_WIRE_MAGIC_0) noise ->
  parser_run p (noise ++ rest) = parser_run p rest.
Proof.
  induction noise as [|[b now] noise IH]; intros p rest Hinv Hst Hn; [done|].
  apply Forall_cons in Hn as [Hb Hn]. cbn [app parser_run].
  assert (xgl_parser_feed_byte p b now = Some (XGL_PARSE_RESULT_INCOMPLETE, p)) as ->.
  { unfold xgl_parser_feed_byte. destruct Hinv as [(Hsz & _ & Hlen & _) _]. rewrite Hlen, zlen_nil, Hst.
    replace (p_cache_size p <=? 0) with false by lia. cbn in Hb.
    by replace (b =? XGL_WIRE_MAGIC_0) with false by lia. }
  cbn [mbind option_bind]. by apply IH.
Qed.

(** What the serializers write is a valid frame. *)
Lemma seal_valid size h l tag body :
  head_ok h l tag -> bytes_ok body -> zlen body = wh_payload_len h + tag ->
  zlen (seal (head_bytes h l ++ body)) <= size -> valid_frame size (seal (head_bytes h l ++ body)).
Proof. intros. by exists h, l, tag, body. Qed.

Lemma scan_tag_app l1 l2 t t1 : scan_tag l1 t = Some t1 -> scan_tag (l1 ++ l2) t = scan_tag l2 t1.
Proof.
  revert t. induction l1 as [|[ty v] l1 IH]; intros t Hs; cbn [scan_tag app] in *; [congruence|].
  case_if; [|by apply IH].
  destruct (xgl_wire_decode_security_ext_value v (zlen v)) as [[[] [[[? ?] ?]|]]|]; try done. by apply IH.
Qed.
Lemma scan_security key nonce tag t :
  1 <= tag < 256 -> scan_tag [(XGL_WIRE_EXT_SECURITY, security_value key nonce tag)] t = Some tag.
Proof.
  intros Ht. cbn [scan_tag]. rewrite Z.eqb_refl.
  change (zlen (security_value key nonce tag)) with 13. unfold security_value at 1.
  rewrite decode_security_run; [|done|done|apply security_value_ok; lia].
  by replace (tag =? 0) with false by lia.
Qed.

Lemma map_fst_app {A B} (input : list (A * B)) l1 l2 :
  map fst input = l1 ++ l2 ->
  exists i1 i2, input = i1 ++ i2 /\ map fst i1 = l1 /\ map fst i2 = l2.
Proof. intros (i1 & i2 & -> & <- & <-)%map_eq_app. by exists i1, i2. Qed.
Lemma Forall_fst {B} (P : Z -> Prop) (input : list (Z * B)) :
  Forall P (map fst input) -> Forall (fun x => P x.1) input.
Proof. by rewrite Forall_map. Qed.
Lemma valid_frame_ok size F : valid_frame size F -> bytes_ok F.
Proof.
  intros (h & l & tag & body & (Hh & _ & _ & Hl & _) & Hb & _ & -> & _). apply seal_ok.
  unfold head_bytes. rewrite !Forall_app. split_and!; [by apply header_bytes_ok|by apply tlvs_bytes_ok|done].
Qed.

(** The parts of a frame as the parser accepts it. *)
Definition frame_parts (h : xgl_wire_header_t) (l : list tlv) (tag : Z) (body F : bytes) : Prop :=
  head_ok h l tag /\ bytes_ok body /\ zlen body = wh_payload_len h + tag /\ F = seal (head_bytes h l ++ body).
Lemma valid_frame_parts size F : valid_frame size F <->
  (exists h l tag body, frame_parts h l tag body F) /\ zlen F <= size.
Proof.
  unfold valid_frame, frame_parts. split.
  - intros (h & l & tag & body & ? & ? & ? & ? & ?). split; [by exists h, l, tag, body|done].
  - intros ((h & l & tag & body & ? & ? & ? & ?) & ?). by exists h, l, tag, body.
Qed.
Lemma parts_zlen h l tag body F :
  frame_parts h l tag body F -> zlen F = wh_header_len h + wh_payload_len h + tag + 2.
Proof.
  intros ((_ & _ & Hl & _) & _ & Hb & ->). unfold head_bytes. autorewrite with zlen. lia.
Qed.
Lemma parts_ok h l tag body F : frame_parts h l tag body F -> bytes_ok F.
Proof.
  intros Hp. apply (valid_frame_ok (zlen F)), valid_frame_parts. split; [by exists h, l, tag, body|lia].
Qed.
Lemma parts_bounds h l tag body F :
  frame_parts h l tag body F -> 24 <= wh_header_len h <= 255 /\ 0 <= wh_payload_len h < 65536 /\ 0 <= tag < 256.
Proof.
  intros ((Hh & Hr & Hl & Htl & Hs & _) & _). pose proof (scan_tag_range _ 0 _ Htl ltac:(lia) Hs).
  pose proof (zlen_nonneg (tlvs_bytes l)). apply wire_header_ok_spec in Hh. lia.
Qed.

Lemma parser_run_chunks chunks : forall p input,
  parser_inv p [] -> p_state p = XGL_PARSE_MAGIC ->
  Forall (fun c => Forall (fun b => b <> XGL_WIRE_MAGIC_0) c.1 /\ valid_frame (p_cache_size p) c.2) chunks ->
  map fst input = concat (map (fun c => c.1 ++ c.2) chunks) ->
  exists p', parser_run p input = Some (map snd chunks, p') /\ p_state p' = XGL_PARSE_MAGIC /\
    parser_inv p' [].
Proof.
  induction chunks as [|[noise F] chunks IH]; intros p input Hinv Hst Hch Hin.
  { cbn in Hin. apply map_eq_nil in Hin as ->. by exists p. }
  apply Forall_cons in Hch as [[Hn Hv] Hch]. cbn [map concat fst snd] in *.
  rewrite <- app_assoc in Hin.
  apply map_fst_app in Hin as (i1 & i23 & -> & H1 & H23).
  apply map_fst_app in H23 as (i2 & i3 & -> & H2 & H3).
  rewrite parser_run_noise; [|done|done|apply (Forall_fst (fun b => b <> _)); by rewrite H1].
  pose proof (valid_frame_min _ _ Hv) as Hmin. pose proof (valid_frame_ok _ _ Hv) as Hok.
  destruct (parser_run_rest i2 p [] i3 Hinv) as (p' & Hinv' & Hst' & Hsz' & Hrun).
  - rewrite H2. destruct F; [rewrite zlen_nil in Hmin; lia|done].
  - apply (Forall_fst (fun b => 0 <= b < 256)). by rewrite H2.
  - cbn [app]. by rewrite H2.
  - destruct (IH p' i3 Hinv' Hst') as (p'' & Hr & Hst'' & Hinv''); [by rewrite Hsz'|done|].
    exists p''. rewrite Hrun, Hr, H2. cbn [mbind option_bind app]. done.
Qed.

(** ** Properties *)

(** C6. The parser is memory safe and sound on every input: initialised with a
    cache of at least 26 bytes and fed any bytes at any times (with the
    receiver's reset after each frame), it never reads or writes outside the
    cache, and every frame it delivers is a well-formed frame that fits the
    cache: accepted header, well-formed extensions, exact lengths, matching
    CRC. *)
Theorem parser_safe_and_sound (old : xgl_parser_t) (cache : bytes) (size : Z) (input : list (Z * Z)) :
  26 <= size <= zlen cache -> bytes_ok cache -> Forall (fun x => 0 <= x.1 < 256) input ->
  exists p0 frames p,
    xgl_parser_init old (Ptr cache) size = (XGL_OK, p0) /\
    parser_run p0 input = Some (frames, p) /\
    Forall (valid_frame size) frames /\ 0 <= p_cache_len p <= size.
Proof.
  intros Hs Hok Hin. destruct (parser_init_inv old cache size Hs Hok) as (p0 & Hinit & Hinv & _ & Hsz).
  destruct (parser_run_sound input p0 [] Hinv Hin) as (fs & p & w & Hrun & [(_ & _ & Hl & Hle & _) _] & Hsz' & Hfs).
  exists p0, fs, p. rewrite Hsz in *. split_and!; try done.
  - rewrite Hl. apply zlen_nonneg.
  - lia.
Qed.
Lemma parser_safe_and_sound_witness :
  exists p0 frames p,
    xgl_parser_init (mk_parser XGL_PARSE_CRC [] 0 0 0 0 0 0 0) (Ptr (replicate 30 0)) 28 = (XGL_OK, p0) /\
    parser_run p0 [(0xA5, 1); (0xA5, 2); (0x5A, 3); (7, 4)] = Some (frames, p) /\
    Forall (valid_frame 28) frames /\ 0 <= p_cache_len p <= 28.
Proof.
  exact (parser_safe_and_sound (mk_parser XGL_PARSE_CRC [] 0 0 0 0 0 0 0) (replicate 30 0) 28
    [(0xA5, 1); (0xA5, 2); (0x5A, 3); (7, 4)] ltac:(vm_compute; intuition congruence)
    ltac:(repeat constructor; lia) ltac:(repeat constructor; cbn; lia)).
Defined.

(** C2. The parser recognises every frame: from the idle state, a stream made of
    well-formed frames, each preceded by any noise free of the first magic
    byte, is cut into exactly these frames, in order, and the parser is idle
    again at the end, whatever the arrival times. *)
Theorem parser_recognises_frames (p : xgl_parser_t) (chunks : list (bytes * bytes)) (input : list (Z * Z)) :
  parser_inv p [] -> p_state p = XGL_PARSE_MAGIC ->
  Forall (fun c => Forall (fun b => b <> XGL_WIRE_MAGIC_0) c.1 /\
                   valid_frame (p_cache_size p) c.2) chunks ->
  map fst input = concat (map (fun c => c.1 ++ c.2) chunks) ->
  exists p', parser_run p input = Some (map snd chunks, p') /\ p_state p' = XGL_PARSE_MAGIC.
Proof.
  intros Hinv Hst Hch Hin.
  destruct (parser_run_chunks chunks p input Hinv Hst Hch Hin) as (p' & Hrun & Hst' & _). by exists p'.
Qed.
Lemma parser_recognises_frames_witness :
  let h := mk_wire_header 2 24 1 0 8 0 1 2 0 7 2 0 in
  let F := seal (head_bytes h [] ++ [0xA5; 0x5A]) in
  exists p', parser_run (mk_parser XGL_PARSE_MAGIC (replicate 40 0) 40 0 0 0 0 0 0)
    (map (fun b => (b, 5)) ([1; 0x5A] ++ F)) = Some ([F], p') /\ p_state p' = XGL_PARSE_MAGIC.
Proof.
  intros h F.
  refine (parser_recognises_frames (mk_parser XGL_PARSE_MAGIC (replicate 40 0) 40 0 0 0 0 0 0)
    [([1; 0x5A], F)] (map (fun b => (b, 5)) ([1; 0x5A] ++ F)) _ eq_refl _ _).
  - split; [|reflexivity]. split; [vm_compute; intuition congruence|].
    split; [repeat constructor; lia|]. split; [reflexivity|]. split; [vm_compute; congruence|].
    split; [eexists; reflexivity|reflexivity].
  - constructor; [|constructor]. split; [repeat constructor; discriminate|].
    exists h, [], 0, [0xA5; 0x5A].
    split; [split; [reflexivity|split; [reflexivity|split; [reflexivity|
      split; [constructor|split; [reflexivity|right; left; reflexivity]]]]]|].
    split; [repeat constructor; lia|]. split; [reflexivity|]. split; [reflexivity|vm_compute; discriminate].
  - vm_compute. reflexivity.
Defined.

(** The extensions that go on the wire: an authenticated frame gets a SECURITY
    extension behind the caller's. *)
Definition sent_tlvs (authenticated : bool) (frame : xgl_frame_t) (key tag_len : Z) (l : list tlv) : list tlv :=
  if authenticated
  then l ++ [(XGL_WIRE_EXT_SECURITY, security_value key (wh_packet_number (fr_header frame)) tag_len)]
  else l.
Definition sent_header (authenticated : bool) (frame : xgl_frame_t) (ext : bytes) : xgl_wire_header_t :=
  if authenticated then auth_header frame ext else plain_header frame ext.

Section serialized.
  Context (authenticated : bool) (old rest pl : bytes) (size key bw : Z) (l : list tlv)
    (frame : xgl_frame_t) (ap : xgl_auth_provider_t).
Let ext := tlvs_bytes l.
Let tag_len := if authenticated then ap_tag_len ap else 0.
Let h := sent_header authenticated frame ext.
Let ll := sent_tlvs authenticated frame key tag_len l.
Let n := xgl_frame_serialized_size (zlen pl) (zlen ext) tag_len.

Lemma sent_header_ok :
  wire_header_ok (fr_header frame) = true -> points_to (fr_payload frame) (fr_payload_len frame) pl ->
  zlen pl <= 65535 -> wire_header_ok h = true /\ wh_payload_len h = zlen pl.
Proof using authenticated pl l frame.
  clear n ll tag_len ap key.
  intros Hfh Hpl Hpm. pose proof (proj1 Hpl) as Hpll. pose proof (zlen_nonneg pl).
  pose proof (proj1 (wire_header_ok_spec _) Hfh) as [(_&_&_&Hfl&_&_) _]. split.
  - unfold h, sent_header. destruct authenticated; apply wire_header_of_frame_ok; try done; [apply u8_range|by apply set_flag_range].
  - unfold h, sent_header. destruct authenticated; (transitivity (u16 (fr_payload_len frame)); [reflexivity|]);
      rewrite Hpll; apply u16_small; lia.
Qed.
Lemma sent_tlvs_bytes :
  tlvs_bytes ll = if authenticated
    then ext ++ tlv_bytes (XGL_WIRE_EXT_SECURITY, security_value key (wh_packet_number (fr_header frame)) tag_len)
    else ext.
Proof.
  unfold ll, sent_tlvs. destruct authenticated; [|done]. rewrite tlvs_bytes_app. unfold tlvs_bytes at 2.
  cbn [map concat]. by rewrite app_nil_r.
Qed.
Lemma sent_size : provider_sound ap ->
  n = if authenticated then 24 + zlen ext + 15 + zlen pl + ap_tag_len ap + 2 else 24 + zlen ext + zlen pl + 2.
Proof using authenticated pl l ap.
  clear ll h key frame.
  intros ((Htag & _) & _). unfold n, xgl_frame_serialized_size, xgl_frame_auth_overhead, tag_len.
  unfold XGL_WIRE_BASE_HEADER_SIZE, XGL_SECURITY_EXT_SIZE, XGL_SECURITY_EXT_VALUE_SIZE, XGL_WIRE_EXT_HEADER_SIZE, XGL_CRC16_SIZE.
  destruct authenticated; [replace (0 <? ap_tag_len ap) with true by lia|cbn]; lia.
Qed.

(** What a serializer writes, in the parts the parser sees. *)
Lemma serialize_parts :
  provider_sound ap -> Forall tlv_ok l ->
  (if authenticated then exists t, scan_tag l 0 = Some t
   else scan_tag l 0 = Some 0 /\ Z.land (wh_flags h) XGL_WIRE_FLAG_AUTHENTICATED = 0) ->
  points_to (fr_extensions frame) (fr_extensions_len frame) ext ->
  points_to (fr_payload frame) (fr_payload_len frame) pl ->
  wire_header_ok (fr_header frame) = true -> wire_header_rejected h = false ->
  zlen ext <= 216 -> zlen pl <= 65535 -> bytes_ok (old ++ rest) ->
  zlen old = n -> n <= size -> size <= zlen (old ++ rest) ->
  exists t F, head_ok h ll tag_len /\ zlen t = tag_len /\ bytes_ok (pl ++ t) /\
    F = seal (head_bytes h ll ++ pl ++ t) /\ zlen F = n /\
    (if authenticated
     then xgl_frame_serialize_authenticated (old ++ rest) size frame key (Ptr ap) bw
     else xgl_frame_serialize (old ++ rest) size frame bw) = Some (XGL_OK, n, F ++ rest) /\
    (authenticated = true -> exists verify, ap_verify ap = Ptr verify /\
       verify key (canon (head_bytes h ll)) pl t = (XGL_OK, true)).
Proof.
  intros Hap Hl Hscan Hext Hpl Hfh Hrej Hel Hpm Hok Hold Hs1 Hs2.
  pose proof (zlen_nonneg ext). pose proof (zlen_nonneg pl). pose proof Hap as ((Htag1 & Htag2) & _).
  pose proof (sent_size Hap) as Hn. unfold XGL_AUTH_TAG_MAX_LEN in Htag2.
  destruct (sent_header_ok Hfh Hpl Hpm) as [Hh Hhpl]. pose proof sent_tlvs_bytes as Htb.
  clearbody n. unfold ll, h, tag_len, sent_tlvs, sent_header in *. destruct authenticated.
  - destruct Hscan as [t0 Hscan].
    destruct (serialize_authenticated_run old rest size frame key ap ext pl bw)
      as (t & Htl & Htok & Hver & Hrun); try done; try lia.
    assert (auth_aad frame ext key (ap_tag_len ap) = head_bytes (auth_header frame ext)
      (l ++ [(XGL_WIRE_EXT_SECURITY, security_value key (wh_packet_number (fr_header frame)) (ap_tag_len ap))])) as Haad
      by (unfold auth_aad, head_bytes; by rewrite Htb).
    rewrite Haad in *. exists t. eexists. split; [|split; [done|split; [|split; [reflexivity|split; [|split; [|done]]]]]].
    + split; [done|]. split; [done|]. split; [|split; [|split]].
      * rewrite Htb, zlen_app. change (zlen (tlv_bytes _)) with 15.
        transitivity (u8 (24 + zlen ext + 15)); [reflexivity|]. rewrite u8_small; lia.
      * apply Forall_app. split; [done|]. constructor; [|done]. apply security_tlv_ok. lia.
      * rewrite (scan_tag_app _ _ _ t0) by done. apply scan_security. lia.
      * right. right. lia.
    + destruct Hpl as (_ & Hplok & _). apply Forall_app. split; [exact Hplok|exact Htok].
    + unfold head_bytes. rewrite Htb, seal_zlen, !zlen_app, header_bytes_zlen. change (zlen (tlv_bytes _)) with 15. lia.
    + rewrite Hrun, Hold. done.
  - destruct Hscan as [Hscan Hflag].
    pose proof (frame_serialize_run old rest size frame ext pl bw Hext Hpl Hfh Hrej ltac:(lia) Hok
      ltac:(lia) ltac:(lia)) as Hrun.
    exists []. eexists. rewrite app_nil_r. split; [|split; [done|split; [apply Hpl|split; [reflexivity|split; [|split; [|done]]]]]].
    + split; [done|]. split; [done|]. split; [|split; [done|split; [done|by left]]].
      rewrite Htb. transitivity (u8 (24 + zlen ext)); [reflexivity|]. rewrite u8_small; lia.
    + unfold head_bytes. rewrite Htb, seal_zlen, !zlen_app, header_bytes_zlen. lia.
    + rewrite Hrun, Hold. unfold head_bytes. by rewrite Htb, <- !app_assoc.
Qed.
End serialized.

(** C3. From serializer to parser: the bytes [xgl_frame_serialize] writes for a
    frame with well-formed extensions (none of them SECURITY, and no
    AUTHENTICATED flag), and the bytes [xgl_frame_serialize_authenticated]
    writes with a sound provider, are each recognised by an idle parser with a
    large enough cache as that one frame, and the received header decodes to
    the one that was sent. *)
Theorem serialize_parse_roundtrip (old rest pl : bytes) (size key bw : Z) (l : list tlv)
    (frame : xgl_frame_t) (ap : xgl_auth_provider_t) (p : xgl_parser_t) (authenticated : bool) :
  let ext := tlvs_bytes l in
  let tag_len := if authenticated then ap_tag_len ap else 0 in
  let h := sent_header authenticated frame ext in
  let n := xgl_frame_serialized_size (zlen pl) (zlen ext) tag_len in
  provider_sound ap -> Forall tlv_ok l ->
  (if authenticated then exists t, scan_tag l 0 = Some t
   else scan_tag l 0 = Some 0 /\ Z.land (wh_flags h) XGL_WIRE_FLAG_AUTHENTICATED = 0) ->
  points_to (fr_extensions frame) (fr_extensions_len frame) ext ->
  points_to (fr_payload frame) (fr_payload_len frame) pl ->
  wire_header_ok (fr_header frame) = true -> wire_header_rejected h = false ->
  zlen ext <= 216 -> zlen pl <= 65535 -> bytes_ok (old ++ rest) ->
  zlen old = n -> n <= size -> size <= zlen (old ++ rest) ->
  parser_inv p [] -> p_state p = XGL_PARSE_MAGIC -> n <= p_cache_size p ->
  exists F, zlen F = n /\
    (if authenticated
     then xgl_frame_serialize_authenticated (old ++ rest) size frame key (Ptr ap) bw
     else xgl_frame_serialize (old ++ rest) size frame bw) = Some (XGL_OK, n, F ++ rest) /\
    (forall now, exists p', parser_run p (map (fun b => (b, now)) F) = Some ([F], p') /\
                            p_state p' = XGL_PARSE_MAGIC) /\
    xgl_wire_decode_header zero_wire_header F n = Some (XGL_OK, h <| wh_header_crc16 := header_crc h |>).
Proof.
  intros ext tag_len h n Hap Hl Hscan Hext Hpl Hfh Hrej Hel Hpm Hok Hold Hs1 Hs2 Hinv Hst Hcache.
  destruct (serialize_parts authenticated old rest pl size key bw l frame ap)
    as (t & F & Hhd & Htl & Hbody & HF & Hn & Hrun & _); try done.
  destruct (sent_header_ok authenticated pl l frame Hfh Hpl Hpm) as [Hh Hhpl].
  exists F. split; [done|]. split; [done|]. split.
  - intros now. destruct (parser_run_chunks [([], F)] p (map (fun b => (b, now)) F) Hinv Hst)
      as (p' & Hr & Hst' & _).
    + constructor; [|done]. split; [constructor|]. cbn [snd]. rewrite HF.
      eapply seal_valid; [exact Hhd|done|rewrite zlen_app, Hhpl; lia|]. rewrite <- HF, Hn. exact Hcache.
    + rewrite map_map. cbn [map concat fst snd app]. by rewrite app_nil_r, map_id.
    + by exists p'.
  - rewrite HF. unfold seal, head_bytes. rewrite <- !app_assoc. apply decode_header_bytes; try done.
    + pose proof (proj1 (Forall_app _ _ _) Hbody) as [? ?]. rewrite !Forall_app.
      split_and!; [|assumption|assumption|apply le_bytes_ok]. by apply tlvs_bytes_ok, Hhd.
    + refine (eq_ind _ (fun z => 24 <= z) _ _ Hn). rewrite HF. unfold head_bytes.
      rewrite seal_zlen, !zlen_app, header_bytes_zlen.
      pose proof (zlen_nonneg (tlvs_bytes (sent_tlvs authenticated frame key tag_len l))).
      pose proof (zlen_nonneg pl). pose proof (zlen_nonneg t). unfold tag_len in *. lia.
Qed.
Lemma serialize_parse_roundtrip_witness :
  let f := mk_frame (mk_wire_header 2 24 1 0 8 0 1 2 0 7 3 0) NULL 0 (Ptr [1; 2; 3]) 3 0 in
  let p := mk_parser XGL_PARSE_MAGIC (replicate 50 0) 50 0 0 0 0 0 0 in
  exists F, zlen F = 45 /\
    xgl_frame_serialize_authenticated (replicate 45 0 ++ []) 45 f 77 (Ptr xor_provider) 0 =
      Some (XGL_OK, 45, F ++ []) /\
    (forall now, exists p', parser_run p (map (fun b => (b, now)) F) = Some ([F], p') /\
                            p_state p' = XGL_PARSE_MAGIC) /\
    xgl_wire_decode_header zero_wire_header F 45 =
      Some (XGL_OK, (auth_header f []) <| wh_header_crc16 := header_crc (auth_header f []) |>).
Proof.
  intros f p.
  refine (serialize_parse_roundtrip (replicate 45 0) [] [1; 2; 3] 45 77 0 [] f xor_provider p true
    xor_provider_sound _ (ex_intro _ 0 eq_refl) _ _ eq_refl eq_refl _ _ _ eq_refl _ _ _ eq_refl _).
  - constructor.
  - split; [reflexivity|]. split; [constructor|right; split; reflexivity].
  - split; [reflexivity|]. split; [repeat constructor; lia|left; reflexivity].
  - vm_compute. discriminate.
  - vm_compute. discriminate.
  - repeat constructor; lia.
  - vm_compute. discriminate.
  - vm_compute. discriminate.
  - split; [|reflexivity]. split; [vm_compute; intuition congruence|].
    split; [repeat constructor; lia|]. split; [reflexivity|]. split; [vm_compute; congruence|].
    split; [eexists; reflexivity|reflexivity].
  - vm_compute. discriminate.
Defined.
