(* ===== verification/Security.v ===== *)
(** * Replay protection (include/xgl/internal/xgl_security.h,
    src/security/xgl_security.c)

    The sliding replay window of an authenticated peer: the bitmap
    implementation, an abstract specification that remembers the set of accepted
    packet numbers, and the refinement between the two. *)
From S2P Require Import Prelude Errors.

(** ** Data *)

(** src/include/xgl/internal/xgl_security.h:17-25: xgl_replay_window_t *)
Record xgl_replay_window_t := mk_replay_window {
  rw_source_id : Z;
  rw_connection_id : Z;
  rw_session_epoch : Z;
  rw_largest_packet_number : Z;
  rw_received_bitmap : Z;
  rw_window_size : Z;
  rw_has_largest : bool
}.
#[export] Instance eta_replay_window : EtaRecord xgl_replay_window_t := Eta (fun w =>
  mk_replay_window (rw_source_id w) (rw_connection_id w) (rw_session_epoch w)
    (rw_largest_packet_number w) (rw_received_bitmap w) (rw_window_size w) (rw_has_largest w)).

(** src/include/xgl/internal/xgl_security.h:27-31: xgl_replay_result_t *)
Inductive xgl_replay_result_t : Type :=
  | XGL_REPLAY_REJECT
  | XGL_REPLAY_ACCEPT_NEW
  | XGL_REPLAY_ACCEPT_DUPLICATE.
#[export] Instance xgl_replay_result_eq_dec : EqDecision xgl_replay_result_t.
Proof. solve_decision. Defined.

(** ** Operations *)

(** src/src/security/xgl_security.c:9-29: xgl_replay_window_init *)
Definition xgl_replay_window_init (window : ptr xgl_replay_window_t)
    (source_id connection_id session_epoch window_size : Z)
    : xgl_error_t * ptr xgl_replay_window_t :=
  match window with
  | NULL => (XGL_ERR_NULL_POINTER, NULL)
  | Ptr window =>
      if (source_id =? 0) || (window_size =? 0) || (64 <? window_size)
      then (XGL_ERR_INVALID_PARAM, Ptr window)
      else (XGL_OK, Ptr (mk_replay_window source_id connection_id session_epoch 0 0
                           window_size false))
  end.

(** src/src/security/xgl_security.c:31-77: xgl_replay_window_check *)
Definition xgl_replay_window_check (window : xgl_replay_window_t)
    (source_id connection_id session_epoch packet_number : Z)
    : xgl_replay_result_t * xgl_replay_window_t :=
  if negb (source_id =? rw_source_id window) ||
     negb (connection_id =? rw_connection_id window) ||
     negb (session_epoch =? rw_session_epoch window)
  then (XGL_REPLAY_REJECT, window)
  else if negb (rw_has_largest window)
  then (XGL_REPLAY_ACCEPT_NEW,
        window <| rw_largest_packet_number := packet_number |>
               <| rw_received_bitmap := 1 |> <| rw_has_largest := true |>)
  else if rw_largest_packet_number window <? packet_number then
    let diff := u32 (packet_number - rw_largest_packet_number window) in
    let bitmap := if 64 <=? diff then 1
                  else Z.lor (u64 (Z.shiftl (rw_received_bitmap window) diff)) 1 in
    (XGL_REPLAY_ACCEPT_NEW,
     window <| rw_received_bitmap := bitmap |> <| rw_largest_packet_number := packet_number |>)
  else
    let offset := u32 (rw_largest_packet_number window - packet_number) in
    if (rw_window_size window <=? offset) || (64 <=? offset)
    then (XGL_REPLAY_REJECT, window)
    else
      let bit := Z.shiftl 1 offset in
      if negb (Z.land (rw_received_bitmap window) bit =? 0)
      then (XGL_REPLAY_ACCEPT_DUPLICATE, window)
      else (XGL_REPLAY_ACCEPT_NEW,
            window <| rw_received_bitmap := Z.lor (rw_received_bitmap window) bit |>).

(** The NULL guard of [xgl_replay_window_check]. *)
(** src/src/security/xgl_security.c:36-38: xgl_replay_window_check *)
Definition xgl_replay_window_check_p (window : ptr xgl_replay_window_t)
    (source_id connection_id session_epoch packet_number : Z)
    : xgl_replay_result_t * ptr xgl_replay_window_t :=
  at_ptr_st XGL_REPLAY_REJECT
    (fun w => xgl_replay_window_check w source_id connection_id session_epoch packet_number)
    window.

(** src/src/security/xgl_security.c:79-89: xgl_replay_window_accept *)
Definition xgl_replay_window_accept (window : ptr xgl_replay_window_t)
    (source_id connection_id session_epoch packet_number : Z) : bool * ptr xgl_replay_window_t :=
  let '(result, window) :=
    xgl_replay_window_check_p window source_id connection_id session_epoch packet_number in
  (bool_decide (result = XGL_REPLAY_ACCEPT_NEW), window).

(** ** Abstract specification

    A receiver that remembers every packet number it ever accepted, newest
    first, and answers from that memory alone. *)
Record replay_spec := mk_replay_spec {
  rs_scope : Z * Z * Z;
  rs_size : Z;
  rs_seen : list Z
}.
Definition seen_largest (seen : list Z) : Z := foldr Z.max 0 seen.
Definition replay_spec_check (s : replay_spec) (scope : Z * Z * Z) (n : Z)
    : xgl_replay_result_t * replay_spec :=
  let accept := (XGL_REPLAY_ACCEPT_NEW, mk_replay_spec (rs_scope s) (rs_size s) (n :: rs_seen s)) in
  if negb (bool_decide (scope = rs_scope s)) then (XGL_REPLAY_REJECT, s)
  else match rs_seen s with
       | [] => accept
       | seen =>
           if seen_largest seen <? n then accept
           else if rs_size s <=? seen_largest seen - n then (XGL_REPLAY_REJECT, s)
           else if bool_decide (n ∈ seen) then (XGL_REPLAY_ACCEPT_DUPLICATE, s)
           else accept
       end.

(** The answers to a sequence of queries. *)
Abbreviation query := (Z * Z * Z * Z)%type.
Fixpoint replay_run (w : xgl_replay_window_t) (qs : list query)
    : list xgl_replay_result_t * xgl_replay_window_t :=
  match qs with
  | [] => ([], w)
  | (src, conn, epoch, n) :: qs =>
      let '(r, w) := xgl_replay_window_check w src conn epoch n in
      let '(rs, w) := replay_run w qs in (r :: rs, w)
  end.
Fixpoint replay_spec_run (s : replay_spec) (qs : list query)
    : list xgl_replay_result_t * replay_spec :=
  match qs with
  | [] => ([], s)
  | (src, conn, epoch, n) :: qs =>
      let '(r, s) := replay_spec_check s (src, conn, epoch) n in
      let '(rs, s) := replay_spec_run s qs in (r :: rs, s)
  end.

(** The queries that were answered with "new packet". *)
Definition accepted_queries (rs : list xgl_replay_result_t) (qs : list query) : list query :=
  map snd (filter (fun '(r, _) => r = XGL_REPLAY_ACCEPT_NEW) (zip rs qs)).

(** ** Refinement *)

(** The window [w] stores the newest 64 of the accepted numbers. *)
Definition replay_abs (w : xgl_replay_window_t) (s : replay_spec) : Prop :=
  rs_scope s = (rw_source_id w, rw_connection_id w, rw_session_epoch w) /\
  rs_size s = rw_window_size w /\ 0 < rw_window_size w <= 64 /\
  Forall (fun n => is_u32 n = true) (rs_seen s) /\
  0 <= rw_received_bitmap w < 2 ^ 64 /\
  rw_has_largest w = negb (bool_decide (rs_seen s = [])) /\
  (rs_seen s <> [] ->
     rw_largest_packet_number w = seen_largest (rs_seen s) /\
     forall i, 0 <= i < 64 ->
       Z.testbit (rw_received_bitmap w) i = bool_decide (seen_largest (rs_seen s) - i ∈ rs_seen s)).

Lemma seen_largest_ge seen n : n ∈ seen -> n <= seen_largest seen.
Proof.
  induction seen as [|m seen IH]; [by intros ?%elem_of_nil|]. cbn.
  intros [->|?%IH]%elem_of_cons; unfold seen_largest in *; lia.
Qed.
Lemma seen_largest_in seen :
  Forall (fun n => is_u32 n = true) seen -> seen <> [] -> seen_largest seen ∈ seen.
Proof.
  induction seen as [|m seen IH]; [done|]. intros [Hm%is_u32_spec Hs]%Forall_cons _. cbn.
  destruct seen as [|k seen]; [cbn; rewrite Z.max_l by lia; apply list_elem_of_here|].
  specialize (IH Hs ltac:(done)). fold (seen_largest (k :: seen)).
  destruct (Z.max_spec m (seen_largest (k :: seen))) as [[_ ->]|[_ ->]]; [by right|left].
Qed.
Lemma seen_largest_u32 seen :
  Forall (fun n => is_u32 n = true) seen -> 0 <= seen_largest seen < 2 ^ 32.
Proof.
  induction 1 as [|m seen Hm%is_u32_spec _ IH]; cbn; [lia|]. fold (seen_largest seen). lia.
Qed.
Lemma bitmap_shift_spec b d seen L :
  0 < d < 64 -> 0 <= b < 2 ^ 64 ->
  (forall i, 0 <= i < 64 -> Z.testbit b i = bool_decide (L - i ∈ seen)) ->
  (forall m, m ∈ seen -> m <= L) ->
  forall i, 0 <= i < 64 ->
    Z.testbit (Z.lor (u64 (Z.shiftl b d)) 1) i = bool_decide (L + d - i ∈ (L + d) :: seen).
Proof.
  intros Hd Hb Hbits Hmax i Hi. unfold u64. change 18446744073709551616 with (2 ^ 64).
  rewrite Z.lor_spec, Z.mod_pow2_bits_low, Z.shiftl_spec by lia.
  destruct (decide (i = 0)) as [->|Hi0].
  { change (Z.testbit 1 0) with true. rewrite orb_true_r. symmetry. apply bool_decide_eq_true.
    rewrite Z.sub_0_r. left. }
  replace (Z.testbit 1 i) with false by (symmetry; apply (testbit_small 1 1); lia).
  rewrite orb_false_r. destruct (decide (i < d)).
  - rewrite Z.testbit_neg_r by lia. symmetry. apply bool_decide_eq_false.
    intros [?|Hin]%elem_of_cons; [lia|]. specialize (Hmax _ Hin). lia.
  - rewrite Hbits by lia. apply bool_decide_ext. rewrite elem_of_cons.
    replace (L + d - i) with (L - (i - d)) by lia. intuition lia.
Qed.
Lemma testbit_1_shift i k : i <> k -> Z.testbit 1 (i - k) = false.
Proof.
  intros. destruct (decide (i < k)); [apply Z.testbit_neg_r; lia|]. apply (testbit_small 1 1); lia.
Qed.
Lemma bitmap_set_spec b k seen L :
  0 <= k < 64 ->
  (forall i, 0 <= i < 64 -> Z.testbit b i = bool_decide (L - i ∈ seen)) ->
  forall i, 0 <= i < 64 ->
    Z.testbit (Z.lor b (Z.shiftl 1 k)) i = bool_decide (L - i ∈ (L - k) :: seen).
Proof.
  intros Hk Hbits i Hi. rewrite Z.lor_spec, Hbits, Z.shiftl_spec by lia.
  destruct (decide (i = k)) as [->|].
  - rewrite Z.sub_diag. change (Z.testbit 1 0) with true. rewrite orb_true_r. symmetry.
    apply bool_decide_eq_true. left.
  - rewrite testbit_1_shift, orb_false_r by done.
    apply bool_decide_ext. rewrite elem_of_cons. intuition lia.
Qed.
Lemma bitmap_one_spec seen n :
  (forall m, m ∈ seen -> m <= n - 64) ->
  forall i, 0 <= i < 64 -> Z.testbit 1 i = bool_decide (n - i ∈ n :: seen).
Proof.
  intros Hmax i Hi. destruct (decide (i = 0)) as [->|].
  - symmetry. apply bool_decide_eq_true. rewrite Z.sub_0_r. left.
  - rewrite (testbit_small 1 1) by lia. symmetry. apply bool_decide_eq_false.
    intros [?|Hin%Hmax]%elem_of_cons; lia.
Qed.
Lemma land_bit_test b k : 0 <= k -> (Z.land b (Z.shiftl 1 k) =? 0) = negb (Z.testbit b k).
Proof.
  intros Hk. destruct (Z.testbit b k) eqn:E; cbn.
  - apply Z.eqb_neq. intros H0. assert (Z.testbit (Z.land b (Z.shiftl 1 k)) k = true) as Ht.
    { rewrite Z.land_spec, E, Z.shiftl_spec, Z.sub_diag by lia. done. }
    rewrite H0, Z.bits_0 in Ht. done.
  - apply Z.eqb_eq, Z.bits_inj'. intros i Hi. rewrite Z.land_spec, Z.bits_0, Z.shiftl_spec by lia.
    destruct (decide (i = k)) as [->|]; [by rewrite E|].
    by rewrite testbit_1_shift, andb_false_r by done.
Qed.

Lemma scope_test (src conn epoch a b c : Z) :
  (negb (src =? a) || negb (conn =? b) || negb (epoch =? c)) =
  negb (bool_decide ((src, conn, epoch) = (a, b, c))).
Proof.
  destruct (decide ((src, conn, epoch) = (a, b, c))) as [E|E].
  - rewrite bool_decide_eq_true_2 by exact E. injection E as -> -> ->. by rewrite !Z.eqb_refl.
  - rewrite bool_decide_eq_false_2 by exact E.
    destruct (Z.eqb_spec src a), (Z.eqb_spec conn b), (Z.eqb_spec epoch c); subst; done.
Qed.

(** One step of the simulation. *)
Lemma replay_check_refines w s src conn epoch n :
  replay_abs w s -> is_u32 n = true ->
  let '(r, w') := xgl_replay_window_check w src conn epoch n in
  let '(r', s') := replay_spec_check s (src, conn, epoch) n in
  r = r' /\ replay_abs w' s'.
Proof.
  intros Habs Hn. pose proof Habs as (Hscope & Hsize & Hws & Hseen & Hbm & Hhas & Hbits).
  unfold xgl_replay_window_check, replay_spec_check. rewrite Hscope, scope_test.
  destruct (bool_decide ((src, conn, epoch) = _)); cbn [negb]; [|by split].
  destruct w as [a b c L bm ws has], s as [sc size seen].
  cbn -[seen_largest] in Hscope, Hsize, Hws, Hseen, Hbm, Hhas, Hbits. subst sc size.
  pose proof Hn as Hn'%is_u32_spec.
  destruct seen as [|m seen']; cbn -[Z.shiftl Z.lor Z.land u32 u64 seen_largest].
  { rewrite Hhas. cbn. split; [done|]. unfold replay_abs. cbn. split_and!; try done; try lia.
    - by constructor.
    - intros _. split; [lia|]. intros i Hi. replace (Z.max n 0) with n by lia.
      apply bitmap_one_spec; [by intros ? ?%elem_of_nil|done]. }
  assert (has = true) as -> by done.
  cbn -[Z.shiftl Z.lor Z.land u32 u64 seen_largest]. clear Hhas.
  remember (m :: seen') as seen eqn:Es.
  assert (seen <> []) as Hne by by subst.
  destruct (Hbits Hne) as [-> Hb]. clear Hbits.
  pose proof (seen_largest_u32 _ Hseen) as HL. pose proof (seen_largest_ge seen) as Hge.
  set (L := seen_largest seen) in *.
  assert (Forall (fun n => is_u32 n = true) (n :: seen)) as Hcons by by constructor.
  assert (seen_largest (n :: seen) = Z.max n L) as HL' by done.
  destruct (Z.ltb_spec L n).
  { split; [done|]. rewrite u32_small by lia. unfold replay_abs. cbn -[Z.shiftl Z.lor u64 seen_largest].
    assert (0 <= (if 64 <=? n - L then 1 else Z.lor (u64 (Z.shiftl bm (n - L))) 1) < 2 ^ 64).
    { destruct (64 <=? n - L); [lia|]. apply lor_bound; [lia|apply u64_range|lia]. }
    split_and!; try done; try lia.
    - intros _. rewrite HL'. split; [lia|]. replace (Z.max n L) with n by lia. intros i Hi.
      destruct (Z.leb_spec 64 (n - L)).
      + apply bitmap_one_spec; [|done]. intros k Hk%Hge. lia.
      + pose proof (bitmap_shift_spec bm (n - L) seen L ltac:(lia) Hbm Hb Hge i Hi) as E.
        replace (L + (n - L)) with n in E by lia. exact E. }
  rewrite u32_small by lia.
  destruct (Z.leb_spec ws (L - n)); [cbn; done|]. replace (64 <=? L - n) with false by lia.
  cbn [orb]. rewrite land_bit_test, Hb by lia. rewrite !Bool.negb_involutive.
  replace (L - (L - n)) with n by lia.
  destruct (bool_decide (n ∈ seen)); [done|]. split; [done|].
  unfold replay_abs. cbn -[Z.shiftl Z.lor u64 seen_largest].
  assert (0 <= Z.lor bm (Z.shiftl 1 (L - n)) < 2 ^ 64).
  { apply lor_bound; [lia|done|]. rewrite Z.shiftl_1_l. split; [lia|].
    apply Z.pow_lt_mono_r; lia. }
  split_and!; try done; try lia.
  intros _. rewrite HL'. replace (Z.max n L) with L by lia. split; [done|]. intros i Hi.
  pose proof (bitmap_set_spec bm (L - n) seen L ltac:(lia) Hb i Hi) as E.
  replace (L - (L - n)) with n in E by lia. exact E.
Qed.

Definition query_pn (q : query) : Z := q.2.
Definition query_scope (q : query) : Z * Z * Z := q.1.

Lemma replay_run_refines qs w s :
  replay_abs w s -> Forall (fun q => is_u32 (query_pn q) = true) qs ->
  (replay_run w qs).1 = (replay_spec_run s qs).1 /\
  replay_abs (replay_run w qs).2 (replay_spec_run s qs).2.
Proof.
  revert w s. induction qs as [|[[[src conn] epoch] n] qs IH]; intros w s Habs Hqs; [done|].
  apply Forall_cons in Hqs as [Hn Hqs]. cbn.
  pose proof (replay_check_refines w s src conn epoch n Habs Hn) as Hstep.
  destruct (xgl_replay_window_check _ _ _ _ _) as [r w'], (replay_spec_check _ _ _) as [r' s'].
  destruct Hstep as [-> Habs']. destruct (IH w' s' Habs' Hqs) as [IH1 IH2].
  destruct (replay_run w' qs), (replay_spec_run s' qs). cbn in *. by subst.
Qed.

Lemma replay_init_abs w src conn epoch size w' :
  xgl_replay_window_init w src conn epoch size = (XGL_OK, Ptr w') -> is_u8 size = true ->
  replay_abs w' (mk_replay_spec (src, conn, epoch) size []).
Proof.
  intros Hinit Hs%is_u8_spec. destruct w as [w|]; cbn in Hinit; [|done].
  destruct (_ || _) eqn:E in Hinit; [done|]. injection Hinit as <-.
  unfold replay_abs. cbn. split_and!; try done; lia.
Qed.

(** The specification never accepts the same number twice: what it accepts is
    new, of its scope, and remembered. *)
Lemma replay_spec_check_accept s scope n s' :
  replay_spec_check s scope n = (XGL_REPLAY_ACCEPT_NEW, s') ->
  scope = rs_scope s /\ (n ∉ rs_seen s) /\
  s' = mk_replay_spec (rs_scope s) (rs_size s) (n :: rs_seen s) /\
  (rs_seen s <> [] -> (seen_largest (rs_seen s) - n < rs_size s) \/ (seen_largest (rs_seen s) < n)).
Proof.
  unfold replay_spec_check. destruct (decide (scope = rs_scope s)) as [Hs|Hs];
    [rewrite bool_decide_eq_true_2 by done|by rewrite bool_decide_eq_false_2 by done].
  cbn [negb]. destruct (rs_seen s) as [|m seen] eqn:Es.
  { intros [= <-]. split_and!; try done. by intros ?%elem_of_nil. }
  destruct (Z.ltb_spec (seen_largest (m :: seen)) n).
  { intros [= <-]. split_and!; try done; [|by right]. intros ?%seen_largest_ge. lia. }
  destruct (Z.leb_spec (rs_size s) (seen_largest (m :: seen) - n)); [done|].
  destruct (bool_decide (n ∈ m :: seen)) eqn:E; [done|]. apply bool_decide_eq_false in E.
  intros [= <-]. split_and!; try done. by left.
Qed.
Lemma replay_spec_check_other s scope n r s' :
  replay_spec_check s scope n = (r, s') -> r <> XGL_REPLAY_ACCEPT_NEW -> s' = s.
Proof.
  unfold replay_spec_check. destruct (bool_decide (scope = _)); cbn [negb]; [|congruence].
  destruct (rs_seen s); [congruence|]. repeat case_if; congruence.
Qed.

Lemma replay_spec_run_accepts s qs :
  NoDup (rs_seen s) ->
  let acc := accepted_queries (replay_spec_run s qs).1 qs in
  NoDup (map query_pn acc) /\ Forall (fun n => n ∉ rs_seen s) (map query_pn acc) /\
  Forall (fun q => query_scope q = rs_scope s) acc.
Proof.
  revert s. induction qs as [|[[[src conn] epoch] n] qs IH]; intros s Hnd; cbn.
  { split_and!; constructor. }
  destruct (replay_spec_check s (src, conn, epoch) n) as [r s'] eqn:E.
  destruct (decide (r = XGL_REPLAY_ACCEPT_NEW)) as [->|Hr].
  - apply replay_spec_check_accept in E as (Hsc & Hnew & -> & _).
    specialize (IH (mk_replay_spec (rs_scope s) (rs_size s) (n :: rs_seen s))
                  ltac:(by constructor)) as (IH1 & IH2 & IH3).
    destruct (replay_spec_run _ qs) as [rs s'']. unfold accepted_queries in *. cbn in *.
    destruct (decide _); [|done]. cbn. split_and!; constructor; try done.
    + intros Hin. rewrite Forall_forall in IH2. specialize (IH2 _ Hin). apply IH2. left.
    + eapply Forall_impl; [exact IH2|]. intros k Hk ?. apply Hk. by right.
  - apply replay_spec_check_other in E; [|done]. subst s'. specialize (IH s Hnd).
    destruct (replay_spec_run s qs) as [rs s'']. unfold accepted_queries in *. cbn in *.
    destruct (decide _); [done|]. exact IH.
Qed.

(** ** Properties *)

(** Refinement: on every sequence of queries the bitmap window gives exactly
    the answers of the specification that remembers all accepted numbers:
    out-of-scope numbers and numbers [window_size] or more behind the largest
    are rejected, remembered numbers are duplicates, everything else is new. *)
Theorem replay_window_refines_spec (w : ptr xgl_replay_window_t)
    (w' : xgl_replay_window_t) (src conn epoch size : Z) (qs : list query) :
  xgl_replay_window_init w src conn epoch size = (XGL_OK, Ptr w') -> is_u8 size = true ->
  Forall (fun q => is_u32 (query_pn q) = true) qs ->
  let s := mk_replay_spec (src, conn, epoch) size [] in
  (replay_run w' qs).1 = (replay_spec_run s qs).1 /\
  replay_abs (replay_run w' qs).2 (replay_spec_run s qs).2.
Proof. intros Hi Hs Hqs. eapply replay_run_refines; [by eapply replay_init_abs|done]. Qed.
Lemma replay_window_refines_spec_witness :
  let w := mk_replay_window 0 0 0 0 0 0 true in
  let w' := mk_replay_window 3 9 1 0 0 4 false in
  let qs := [(3, 9, 1, 5); (3, 9, 1, 200); (3, 9, 1, 197); (3, 9, 1, 197); (3, 9, 1, 196);
             (3, 8, 1, 201)] in
  (replay_run w' qs).1 =
    [XGL_REPLAY_ACCEPT_NEW; XGL_REPLAY_ACCEPT_NEW; XGL_REPLAY_ACCEPT_NEW;
     XGL_REPLAY_ACCEPT_DUPLICATE; XGL_REPLAY_REJECT; XGL_REPLAY_REJECT] /\
  (replay_run w' qs).1 = (replay_spec_run (mk_replay_spec (3, 9, 1) 4 []) qs).1.
Proof.
  intros w w' qs. split; [reflexivity|].
  refine (proj1 (replay_window_refines_spec (Ptr w) w' 3 9 1 4 qs eq_refl eq_refl _)).
  repeat constructor.
Defined.

(** C13. Replay protection: however the queries are interleaved, an initialised
    window accepts no packet number twice, and accepts only packets of its
    (source, connection, epoch) scope. *)
Theorem replay_window_accepts_once (w : ptr xgl_replay_window_t)
    (w' : xgl_replay_window_t) (src conn epoch size : Z) (qs : list query) :
  xgl_replay_window_init w src conn epoch size = (XGL_OK, Ptr w') -> is_u8 size = true ->
  Forall (fun q => is_u32 (query_pn q) = true) qs ->
  let acc := accepted_queries (replay_run w' qs).1 qs in
  NoDup (map query_pn acc) /\ Forall (fun q => query_scope q = (src, conn, epoch)) acc.
Proof.
  intros Hi Hs Hqs acc. unfold acc.
  destruct (replay_run_refines qs w' _ (replay_init_abs _ _ _ _ _ _ Hi Hs) Hqs) as [-> _].
  destruct (replay_spec_run_accepts (mk_replay_spec (src, conn, epoch) size []) qs)
    as (H1 & _ & H3); [constructor|]. by split.
Qed.
Lemma replay_window_accepts_once_witness :
  let w' := mk_replay_window 3 9 1 0 0 64 false in
  let qs := [(3, 9, 1, 5); (3, 9, 1, 4); (3, 9, 1, 5); (3, 9, 1, 4)] in
  accepted_queries (replay_run w' qs).1 qs = [(3, 9, 1, 5); (3, 9, 1, 4)] /\
  NoDup (map query_pn (accepted_queries (replay_run w' qs).1 qs)).
Proof.
  intros w' qs. split; [reflexivity|].
  refine (proj1 (replay_window_accepts_once (Ptr w') w' 3 9 1 64 qs eq_refl eq_refl _)).
  repeat constructor.
Defined.
