(* ===== verification/Codec.v ===== *)
(** * Codec registry (include/xgl/internal/xgl_codec.h, src/codec/xgl_codec.c)

    The fixed-capacity table of compression and encryption codecs.  The codecs
    themselves are supplied by the application: a codec function is a parameter
    of type [xgl_codec_process_fn], its [user_data] being part of the closure.
    The table is shown to be a finite map from (kind, id) to codecs. *)
From S2P Require Import Prelude Errors.

(** ** Data *)

(** src/include/xgl/internal/xgl_codec.h:18-21: xgl_codec_kind_t *)
Definition XGL_CODEC_KIND_COMPRESSION : Z := 1.
Definition XGL_CODEC_KIND_ENCRYPTION : Z := 2.

(** src/include/xgl/internal/xgl_codec.h:23-26: xgl_codec_direction_t *)
Definition XGL_CODEC_DIRECTION_ENCODE : Z := 1.
Definition XGL_CODEC_DIRECTION_DECODE : Z := 2.

(** [f input input_len output output_len] returns the error code, the output
    buffer and [*output_len]. *)
(** src/include/xgl/internal/xgl_codec.h:28-32: xgl_codec_process_fn *)
Definition xgl_codec_process_fn : Type := bytes -> Z -> bytes -> Z -> xgl_error_t * bytes * Z.

(** src/include/xgl/internal/xgl_codec.h:34-40: xgl_codec_t *)
Record xgl_codec_t := mk_codec {
  co_id : Z;
  co_kind : Z;
  co_encode : ptr xgl_codec_process_fn;
  co_decode : ptr xgl_codec_process_fn
}.
Definition zero_codec : xgl_codec_t := mk_codec 0 0 NULL NULL.

(** src/include/xgl/internal/xgl_codec.h:42-46: xgl_codec_registry_t *)
Record xgl_codec_registry_t := mk_codec_registry {
  cr_codecs : ptr (list xgl_codec_t);
  cr_codec_count : Z;
  cr_codec_capacity : Z
}.
#[export] Instance eta_codec_registry : EtaRecord xgl_codec_registry_t := Eta (fun r =>
  mk_codec_registry (cr_codecs r) (cr_codec_count r) (cr_codec_capacity r)).

(** ** Operations *)

(** [storage] is an array of at least [capacity] codecs. *)
(** src/src/codec/xgl_codec.c:9-27: xgl_codec_registry_init *)
Definition xgl_codec_registry_init (registry : ptr xgl_codec_registry_t)
    (storage : ptr (list xgl_codec_t)) (capacity : Z)
    : M (xgl_error_t * ptr xgl_codec_registry_t) :=
  match registry with
  | NULL => ret (XGL_ERR_NULL_POINTER, NULL)
  | Ptr registry =>
      match storage with
      | NULL =>
          if 0 <? capacity then ret (XGL_ERR_NULL_POINTER, Ptr registry)
          else ret (XGL_OK, Ptr (mk_codec_registry NULL 0 capacity))
      | Ptr codecs =>
          codecs ← wr_bytes codecs 0 (replicate (Z.to_nat capacity) zero_codec);
          ret (XGL_OK, Ptr (mk_codec_registry (Ptr codecs) 0 capacity))
      end
  end.

(** The [for] loop: [n] entries remain, [i] is the next index. *)
(** src/src/codec/xgl_codec.c:56-61: xgl_codec_find *)
Fixpoint codec_find_loop (codecs : list xgl_codec_t) (kind id : Z) (n : nat) (i : Z)
    : M (ptr xgl_codec_t) :=
  match n with
  | O => ret NULL
  | S n =>
      codec ← rd codecs i;
      if (co_kind codec =? kind) && (co_id codec =? id) then ret (Ptr codec)
      else codec_find_loop codecs kind id n (i + 1)
  end.

(** src/src/codec/xgl_codec.c:49-64: xgl_codec_find *)
Definition xgl_codec_find (registry : ptr xgl_codec_registry_t) (kind id : Z)
    : M (ptr xgl_codec_t) :=
  match registry with
  | NULL => ret NULL
  | Ptr registry =>
      match cr_codecs registry with
      | NULL => ret NULL
      | Ptr codecs => codec_find_loop codecs kind id (Z.to_nat (cr_codec_count registry)) 0
      end
  end.

(** src/src/codec/xgl_codec.c:29-47: xgl_codec_register *)
Definition xgl_codec_register (registry : ptr xgl_codec_registry_t) (codec : ptr xgl_codec_t)
    : M (xgl_error_t * ptr xgl_codec_registry_t) :=
  match registry, codec with
  | Ptr r, Ptr c =>
      match co_encode c, co_decode c with
      | Ptr _, Ptr _ =>
          if cr_codec_capacity r <=? cr_codec_count r
          then ret (XGL_ERR_QUEUE_FULL, registry)
          else
            found ← xgl_codec_find registry (co_kind c) (co_id c);
            match found with
            | Ptr _ => ret (XGL_ERR_ALREADY_INITIALIZED, registry)
            | NULL =>
                codecs ← cr_codecs r;
                codecs ← wr codecs (cr_codec_count r) c;
                ret (XGL_OK, Ptr (r <| cr_codecs := Ptr codecs |>
                                    <| cr_codec_count := cr_codec_count r + 1 |>))
            end
      | _, _ => ret (XGL_ERR_INVALID_PARAM, registry)
      end
  | _, _ => ret (XGL_ERR_NULL_POINTER, registry)
  end.

(** Returns the code, the output buffer and [*output_len]. *)
(** src/src/codec/xgl_codec.c:66-91: xgl_codec_apply *)
Definition xgl_codec_apply (registry : ptr xgl_codec_registry_t) (kind id direction : Z)
    (input : ptr bytes) (input_len : Z) (output : ptr bytes) (output_len : ptr Z)
    : M (xgl_error_t * ptr bytes * ptr Z) :=
  match input, output, output_len with
  | Ptr inp, Ptr out, Ptr len =>
      codec ← xgl_codec_find registry kind id;
      match codec with
      | NULL => ret (XGL_ERR_INVALID_PARAM, output, output_len)
      | Ptr codec =>
          let call (f : ptr xgl_codec_process_fn) :=
            process ← f;
            let '(err, out, len) := process inp input_len out len in
            ret (err, Ptr out, Ptr len) in
          if direction =? XGL_CODEC_DIRECTION_ENCODE then call (co_encode codec)
          else if direction =? XGL_CODEC_DIRECTION_DECODE then call (co_decode codec)
          else ret (XGL_ERR_INVALID_PARAM, output, output_len)
      end
  | _, _, _ => ret (XGL_ERR_NULL_POINTER, output, output_len)
  end.

(** ** The registry is a finite map *)

Definition codec_key (c : xgl_codec_t) : Z * Z := (co_kind c, co_id c).
(** The registered entries, oldest first. *)
Definition registry_entries (r : xgl_codec_registry_t) : list xgl_codec_t :=
  match cr_codecs r with
  | NULL => []
  | Ptr codecs => take (Z.to_nat (cr_codec_count r)) codecs
  end.
Definition registry_map (r : xgl_codec_registry_t) : gmap (Z * Z) xgl_codec_t :=
  list_to_map (map (fun c => (codec_key c, c)) (registry_entries r)).

Definition registry_inv (r : xgl_codec_registry_t) : Prop :=
  0 <= cr_codec_count r <= cr_codec_capacity r /\
  (cr_codec_capacity r <= match cr_codecs r with NULL => 0 | Ptr codecs => zlen codecs end) /\
  NoDup (map codec_key (registry_entries r)) /\
  Forall (fun c => co_encode c <> NULL /\ co_decode c <> NULL) (registry_entries r).

Lemma codec_find_loop_spec codecs kind id n pre :
  (length pre + n <= length codecs)%nat -> take (length pre) codecs = pre ->
  codec_find_loop codecs kind id n (zlen pre) =
    Some (list_find (fun c => codec_key c = (kind, id)) (take n (drop (length pre) codecs))
            ≫= fun ic => Some (snd ic)).
Proof.
  revert pre. induction n as [|n IH]; intros pre Hlen Hpre; [done|]. cbn [codec_find_loop].
  assert (exists c, codecs !! length pre = Some c) as [c Hc] by (apply lookup_lt_is_Some_2; lia).
  rewrite rd_lookup by apply zlen_nonneg. 
  replace (Z.to_nat (zlen pre)) with (length pre) by (unfold zlen; lia). rewrite Hc. cbn [mbind option_bind].
  rewrite (drop_S _ _ _ Hc). cbn [take list_find].
  assert ((co_kind c =? kind) && (co_id c =? id) = bool_decide (codec_key c = (kind, id))) as ->.
  { unfold codec_key. destruct (Z.eqb_spec (co_kind c) kind), (Z.eqb_spec (co_id c) id); subst; cbn;
      symmetry; (apply bool_decide_eq_true || apply bool_decide_eq_false); congruence. }
  case_bool_decide as E; destruct (decide _) as [|]; try done.
  specialize (IH (pre ++ [c])). rewrite zlen_app, length_app in IH. cbn [length] in IH.
  change (zlen [c]) with 1 in IH. rewrite Nat.add_1_r in IH. rewrite IH; [|lia|].
  - by destruct (list_find _ _) as [[]|].
  - by rewrite (take_S_r _ _ _ Hc), Hpre.
Qed.

Lemma list_find_key k cs :
  (list_find (fun c => codec_key c = k) cs ≫= fun ic => Some (snd ic)) =
  (list_to_map (map (fun c => (codec_key c, c)) cs) : gmap (Z * Z) xgl_codec_t) !! k.
Proof.
  induction cs as [|c cs IH]; [done|]. cbn. destruct (decide (codec_key c = k)) as [->|].
  - by rewrite lookup_insert_eq.
  - rewrite lookup_insert_ne by done. rewrite <- IH. by destruct (list_find _ _) as [[]|].
Qed.

(** [xgl_codec_find] is the lookup of the map. *)
Lemma codec_find_lookup r kind id :
  registry_inv r -> xgl_codec_find (Ptr r) kind id = Some (registry_map r !! (kind, id)).
Proof.
  intros (Hc & Hcap & _). unfold xgl_codec_find, registry_map, registry_entries.
  destruct (cr_codecs r) as [codecs|]; [|done].
  pose proof (codec_find_loop_spec codecs kind id (Z.to_nat (cr_codec_count r)) []) as H.
  change (zlen []) with 0 in H. rewrite H; [|unfold zlen in *; cbn; lia|done].
  by rewrite list_find_key.
Qed.

Lemma keys_of_entries cs : (map (fun c => (codec_key c, c)) cs).*1 = map codec_key cs.
Proof. induction cs as [|c cs IH]; [done|]. cbn. by f_equal. Qed.
Lemma registry_map_None r k :
  registry_map r !! k = None <-> k ∉ map codec_key (registry_entries r).
Proof. unfold registry_map. by rewrite <- not_elem_of_list_to_map, keys_of_entries. Qed.

(** Adding an entry at the end. *)
Lemma registry_push r codecs c :
  registry_inv r -> cr_codecs r = Ptr codecs -> cr_codec_count r < cr_codec_capacity r ->
  co_encode c <> NULL -> co_decode c <> NULL -> registry_map r !! codec_key c = None ->
  let r' := mk_codec_registry (Ptr (<[Z.to_nat (cr_codec_count r) := c]> codecs))
              (cr_codec_count r + 1) (cr_codec_capacity r) in
  registry_inv r' /\ registry_map r' = <[codec_key c := c]> (registry_map r).
Proof.
  intros (Hc & Hcap & Hnd & Hf) Hcs Hlt He Hd Hnew%registry_map_None. intros r'.
  rewrite Hcs in Hcap.
  assert (registry_entries r' = registry_entries r ++ [c]) as Hent.
  { unfold registry_entries, r'. cbn. rewrite Hcs, Z2Nat.inj_add, Nat.add_1_r by lia.
    rewrite (take_S_r _ _ c) by (apply list_lookup_insert_eq; unfold zlen in *; lia).
    by rewrite take_insert_ge by lia. }
  split.
  - unfold registry_inv. rewrite Hent. cbn. rewrite zlen_insert, map_app.
    split_and!; [lia|lia|lia| |].
    + apply NoDup_app. split_and!; [done| |apply NoDup_singleton].
      intros x Hx ->%list_elem_of_singleton. done.
    + apply Forall_app. split; [done|]. by repeat constructor.
  - unfold registry_map. rewrite Hent, map_app. cbn. apply list_to_map_snoc.
    by rewrite keys_of_entries.
Qed.

Definition codec_complete (c : xgl_codec_t) : bool :=
  match co_encode c, co_decode c with Ptr _, Ptr _ => true | _, _ => false end.

(** The code's answer to a registration, in terms of the map. *)
Definition register_answer (r : xgl_codec_registry_t) (c : xgl_codec_t) : xgl_error_t :=
  if negb (codec_complete c) then XGL_ERR_INVALID_PARAM
  else if cr_codec_capacity r <=? cr_codec_count r then XGL_ERR_QUEUE_FULL
  else match registry_map r !! codec_key c with
       | Some _ => XGL_ERR_ALREADY_INITIALIZED
       | None => XGL_OK
       end.

(** ** Properties *)

(** The registry is a finite map from (kind, id) to codecs of bounded size:
    initialising storage of [capacity] entries gives the empty map, a lookup
    returns the entry of the map, and a registration either adds a complete
    codec under a new key or leaves the registry alone with the error that says
    why.  No operation reads or writes outside the storage. *)
Theorem codec_registry_is_a_map (r : xgl_codec_registry_t) (c : xgl_codec_t)
    (storage : list xgl_codec_t) (capacity : Z) :
  registry_inv r -> 0 <= capacity <= zlen storage ->
  (exists r0, xgl_codec_registry_init (Ptr r) (Ptr storage) capacity = Some (XGL_OK, Ptr r0) /\
     registry_inv r0 /\ registry_map r0 = ∅) /\
  (forall kind id, xgl_codec_find (Ptr r) kind id = Some (registry_map r !! (kind, id))) /\
  (exists r', xgl_codec_register (Ptr r) (Ptr c) = Some (register_answer r c, Ptr r') /\
     registry_inv r' /\
     registry_map r' = (if is_ok (register_answer r c)
                        then <[codec_key c := c]> (registry_map r) else registry_map r)).
Proof.
  intros Hinv Hcap. pose proof (codec_find_lookup r) as Hfind. split; [|split].
  - eexists. unfold xgl_codec_registry_init.
    assert (zlen (replicate (Z.to_nat capacity) zero_codec) = capacity) as Hz
      by (unfold zlen; rewrite length_replicate; lia).
    rewrite wr_bytes_Some by lia. cbn [mbind option_bind]. split; [done|]. split; [|done].
    rewrite Hz. unfold registry_inv, registry_entries. cbn -[Z.to_nat]. rewrite take_0.
    split_and!; try lia; try constructor.
    rewrite !zlen_app, zlen_nil, zlen_drop, Hz by lia. lia.
  - intros. by apply Hfind.
  - unfold xgl_codec_register, register_answer, codec_complete.
    destruct (co_encode c) as [e|] eqn:He; [|by exists r].
    destruct (co_decode c) as [d|] eqn:Hd; [|by exists r]. cbn [negb].
    destruct (Z.leb_spec (cr_codec_capacity r) (cr_codec_count r)); [by exists r|].
    rewrite Hfind by done. fold (codec_key c). cbn [mbind option_bind].
    destruct (registry_map r !! codec_key c) eqn:Hk; [by exists r|].
    pose proof Hinv as (Hc & Hz & _). destruct (cr_codecs r) as [codecs|] eqn:Hcs; [|lia].
    cbn [mbind option_bind]. rewrite wr_Some by lia. cbn [mbind option_bind].
    destruct (registry_push r codecs c) as [H1 H2]; try done; try congruence.
    exists (mk_codec_registry (Ptr (<[Z.to_nat (cr_codec_count r) := c]> codecs))
              (cr_codec_count r + 1) (cr_codec_capacity r)).
    split; [by destruct r|]. by split.
Qed.
Lemma codec_registry_is_a_map_witness :
  let id_fn : xgl_codec_process_fn := fun inp n out _ => (XGL_OK, inp, n) in
  let c := mk_codec 7 XGL_CODEC_KIND_COMPRESSION (Ptr id_fn) (Ptr id_fn) in
  let r := mk_codec_registry (Ptr [zero_codec; zero_codec]) 0 2 in
  register_answer r c = XGL_OK /\
  exists r', xgl_codec_register (Ptr r) (Ptr c) = Some (XGL_OK, Ptr r') /\ registry_inv r' /\
    registry_map r' = <[codec_key c := c]> (registry_map r).
Proof.
  intros id_fn c r. split; [reflexivity|].
  refine (proj2 (proj2 (codec_registry_is_a_map r c [zero_codec] 1 _ _))).
  - unfold registry_inv, zlen. cbn. split_and!; try lia; constructor.
  - unfold zlen. cbn. lia.
Defined.

(** A codec is applied exactly as registered: [xgl_codec_apply] with valid
    pointers runs the encoder or decoder of the map's entry on the caller's
    buffers, and reports INVALID_PARAM, leaving the output alone, for an unknown
    key or direction. *)
Theorem codec_apply_runs_the_registered_codec (r : xgl_codec_registry_t)
    (kind id direction : Z) (input output : bytes) (input_len output_len : Z) :
  registry_inv r ->
  xgl_codec_apply (Ptr r) kind id direction (Ptr input) input_len (Ptr output) (Ptr output_len) =
  Some match registry_map r !! (kind, id) with
       | Some (mk_codec _ _ (Ptr encode) (Ptr decode)) =>
           if (direction =? 1) || (direction =? 2) then
             let f := if direction =? 1 then encode else decode in
             let '(err, out, len) := f input input_len output output_len in (err, Ptr out, Ptr len)
           else (XGL_ERR_INVALID_PARAM, Ptr output, Ptr output_len)
       | _ => (XGL_ERR_INVALID_PARAM, Ptr output, Ptr output_len)
       end.
Proof.
  intros Hinv. unfold xgl_codec_apply. rewrite codec_find_lookup by done. cbn [mbind option_bind].
  destruct (registry_map r !! (kind, id)) as [c|] eqn:Hc; [|done].
  assert (c ∈ registry_entries r) as Hin.
  { unfold registry_map in Hc. apply elem_of_list_to_map_2 in Hc.
    apply list_elem_of_In, in_map_iff in Hc as (c' & Heq & Hc).
    apply (f_equal snd) in Heq. cbn in Heq. subst c'. by apply list_elem_of_In. }
  destruct Hinv as (_ & _ & _ & Hf). rewrite Forall_forall in Hf. specialize (Hf _ Hin).
  destruct c as [cid ckind [enc|] [dec|]]; cbn in *; try (by destruct Hf).
  unfold XGL_CODEC_DIRECTION_ENCODE, XGL_CODEC_DIRECTION_DECODE.
  destruct (Z.eqb_spec direction 1) as [->|]; cbn; [by destruct (enc _ _ _ _) as [[??]?]|].
  destruct (direction =? 2); cbn; [by destruct (dec _ _ _ _) as [[??]?]|done].
Qed.
Lemma codec_apply_runs_the_registered_codec_witness :
  let f : xgl_codec_process_fn := fun inp n out _ => (XGL_OK, inp, n) in
  let g : xgl_codec_process_fn := fun inp n out len => (XGL_ERR_BUFFER_TOO_SMALL, out, len) in
  let r := mk_codec_registry (Ptr [mk_codec 7 1 (Ptr f) (Ptr g)]) 1 1 in
  xgl_codec_apply (Ptr r) 1 7 1 (Ptr [4; 5]) 2 (Ptr [0; 0]) (Ptr 2) =
    Some (XGL_OK, Ptr [4; 5], Ptr 2).
Proof.
  intros f g r. refine (codec_apply_runs_the_registered_codec r 1 7 1 [4; 5] [0; 0] 2 2 _).
  unfold registry_inv, zlen. cbn. split_and!; [lia|lia|lia|apply NoDup_singleton|].
  constructor; [split; discriminate|constructor].
Defined.
