(* ===== verification/Window.v ===== *)
(** * Sliding window (include/xgl/internal/xgl_window.h,
    src/transport/xgl_window.c)

    The sender's flow control: the base of the window, the next packet number
    and one acknowledgement flag per slot.  It is related to an abstract window
    over unbounded counters and sets of packet numbers. *)
From S2P Require Import Prelude Errors.

(** ** Data *)

(** The allocator pointer is not part of the model's state; see [heap_answers]. *)
(** src/include/xgl/internal/xgl_window.h:28-34: xgl_sliding_window_t *)
Record xgl_sliding_window_t := mk_window {
  sw_window_size : Z;
  sw_send_base_packet_number : Z;
  sw_next_packet_number : Z;
  sw_ack_received : ptr (list bool)
}.
#[export] Instance eta_window : EtaRecord xgl_sliding_window_t := Eta (fun w =>
  mk_window (sw_window_size w) (sw_send_base_packet_number w) (sw_next_packet_number w)
    (sw_ack_received w)).

(** ** Operations *)

(** src/src/transport/xgl_window.c:18-41: xgl_window_init_with_allocator *)
Definition xgl_window_init_with_allocator (window : xgl_sliding_window_t) (window_size : Z)
    (env : heap_answers) : xgl_error_t * xgl_sliding_window_t * heap_answers :=
  if (window_size =? 0) || (128 <? window_size) then (XGL_ERR_INVALID_PARAM, window, env)
  else
    let '(ok, env) := alloc_answer window_size env in
    if ok : bool
    then (XGL_OK, mk_window window_size 0 0 (Ptr (replicate (Z.to_nat window_size) false)), env)
    else (XGL_ERR_NO_MEMORY, window <| sw_ack_received := NULL |>, env).

(** src/src/transport/xgl_window.c:43-45: xgl_window_init *)
Definition xgl_window_init (window : xgl_sliding_window_t) (window_size : Z) (env : heap_answers)
    : xgl_error_t * xgl_sliding_window_t * heap_answers :=
  xgl_window_init_with_allocator window window_size env.

(** src/src/transport/xgl_window.c:50-60: xgl_window_destroy *)
Definition xgl_window_destroy (window : xgl_sliding_window_t) : xgl_sliding_window_t :=
  window <| sw_ack_received := NULL |>.

(** src/src/transport/xgl_window.c:106-113: xgl_window_can_send_packet_number *)
Definition xgl_window_can_send_packet_number (window : xgl_sliding_window_t) : bool :=
  u32 (sw_next_packet_number window - sw_send_base_packet_number window) <?
  sw_window_size window.

(** src/src/transport/xgl_window.c:65-67: xgl_window_can_send *)
Definition xgl_window_can_send (window : xgl_sliding_window_t) : bool :=
  xgl_window_can_send_packet_number window.

(** src/src/transport/xgl_window.c:79-90: xgl_window_get_usage *)
Definition xgl_window_get_usage (window : xgl_sliding_window_t) : Z :=
  let usage := u32 (sw_next_packet_number window - sw_send_base_packet_number window) in
  if UINT8_MAX <? usage then UINT8_MAX else u8 usage.

(** src/src/transport/xgl_window.c:95-104: xgl_window_reset *)
Definition xgl_window_reset (window : xgl_sliding_window_t) : M xgl_sliding_window_t :=
  match sw_ack_received window with
  | NULL => ret window
  | Ptr ack =>
      ack ← wr_bytes ack 0 (replicate (Z.to_nat (sw_window_size window)) false);
      ret (window <| sw_ack_received := Ptr ack |> <| sw_send_base_packet_number := 0 |>
                  <| sw_next_packet_number := 0 |>)
  end.

(** src/src/transport/xgl_window.c:115-121: xgl_window_get_next_packet_number *)
Definition xgl_window_get_next_packet_number (window : xgl_sliding_window_t) : Z :=
  sw_next_packet_number window.

(** src/src/transport/xgl_window.c:123-129: xgl_window_advance_next_packet_number *)
Definition xgl_window_advance_next_packet_number (window : xgl_sliding_window_t)
    : xgl_sliding_window_t :=
  window <| sw_next_packet_number := u32 (sw_next_packet_number window + 1) |>.

(** src/src/transport/xgl_window.c:131-139: xgl_window_is_in_window_packet_number *)
Definition xgl_window_is_in_window_packet_number (window : xgl_sliding_window_t)
    (packet_number : Z) : bool :=
  if packet_number <? sw_send_base_packet_number window then false
  else u32 (packet_number - sw_send_base_packet_number window) <? sw_window_size window.

(** src/src/transport/xgl_window.c:141-159: xgl_window_mark_ack_packet_number *)
Definition xgl_window_mark_ack_packet_number (window : xgl_sliding_window_t) (packet_number : Z)
    : M (xgl_error_t * xgl_sliding_window_t) :=
  match sw_ack_received window with
  | NULL => ret (XGL_ERR_NOT_INITIALIZED, window)
  | Ptr ack =>
      if negb (xgl_window_is_in_window_packet_number window packet_number)
      then ret (XGL_ERR_SEQUENCE_ERROR, window)
      else
        let index := u32 (packet_number - sw_send_base_packet_number window) in
        ack ← wr ack index true;
        ret (XGL_OK, window <| sw_ack_received := Ptr ack |>)
  end.

(** The inner [for] loop: [n] iterations are left, the next one is for [i]. *)
(** src/src/transport/xgl_window.c:168-170: xgl_window_advance_base_packet_number *)
Definition window_shift (ack : list bool) (n : nat) (i : Z) : M (list bool) :=
  shift_down_loop ack n i.

(** The outer [while] loop, which runs at most [window_size] times. *)
(** src/src/transport/xgl_window.c:167-174: xgl_window_advance_base_packet_number *)
Fixpoint window_advance_loop (fuel : nat) (window : xgl_sliding_window_t) (ack : list bool)
    (advanced : Z) : M (Z * xgl_sliding_window_t) :=
  if advanced <? sw_window_size window then
    head ← rd ack 0;
    if head : bool then
      match fuel with
      | O => None
      | S fuel =>
          ack ← window_shift ack (Z.to_nat (sw_window_size window - 1)) 1;
          ack ← wr ack (sw_window_size window - 1) false;
          window_advance_loop fuel
            (window <| sw_ack_received := Ptr ack |>
                    <| sw_send_base_packet_number := u32 (sw_send_base_packet_number window + 1) |>)
            ack (u8 (advanced + 1))
      end
    else ret (advanced, window)
  else ret (advanced, window).

(** src/src/transport/xgl_window.c:161-177: xgl_window_advance_base_packet_number *)
Definition xgl_window_advance_base_packet_number (window : xgl_sliding_window_t)
    : M (Z * xgl_sliding_window_t) :=
  match sw_ack_received window with
  | NULL => ret (0, window)
  | Ptr ack => window_advance_loop (Z.to_nat (sw_window_size window)) window ack 0
  end.

(** src/src/transport/xgl_window.c:72-74: xgl_window_advance_base *)
Definition xgl_window_advance_base (window : xgl_sliding_window_t)
    : M (Z * xgl_sliding_window_t) :=
  xgl_window_advance_base_packet_number window.

(** ** Invariant and functional behaviour *)

Definition window_inv (w : xgl_sliding_window_t) : Prop :=
  1 <= sw_window_size w <= 128 /\
  is_u32 (sw_send_base_packet_number w) = true /\ is_u32 (sw_next_packet_number w) = true /\
  exists ack, sw_ack_received w = Ptr ack /\ zlen ack = sw_window_size w.

(** One turn of the outer loop drops the first flag and clears the last. *)
Lemma window_shift_clear (x : bool) rest (ws : Z) :
  ws = 1 + zlen rest ->
  (ack ← window_shift (x :: rest) (Z.to_nat (ws - 1)) 1; wr ack (ws - 1) false) =
  Some (rest ++ [false]).
Proof.
  intros ->. replace (Z.to_nat (1 + zlen rest - 1)) with (length rest) by (unfold zlen; lia).
  pose proof (shift_down_spec rest [] x []) as [z Hz]. rewrite app_nil_r in Hz. change (zlen [] + 1) with 1 in Hz.
  cbn [app] in Hz. unfold window_shift. rewrite Hz. cbn [mbind option_bind]. apply wr_at. lia.
Qed.

(** The number of leading acknowledged slots. *)
Fixpoint acked_prefix (ack : list bool) : nat :=
  match ack with true :: ack => S (acked_prefix ack) | _ => O end.
Definition slide (ack : list bool) (k : nat) : list bool := drop k ack ++ replicate k false.

Lemma acked_prefix_le ack : (acked_prefix ack <= length ack)%nat.
Proof. induction ack as [|[] ack IH]; cbn; lia. Qed.
Lemma acked_prefix_lookup ack i : (i < acked_prefix ack)%nat -> ack !! i = Some true.
Proof.
  revert i. induction ack as [|[] ack IH]; cbn; intros i Hi; try lia.
  destruct i as [|i]; [done|]. apply IH. lia.
Qed.
Lemma acked_prefix_stop ack : ack !! acked_prefix ack <> Some true.
Proof. induction ack as [|[] ack IH]; cbn; done. Qed.
Lemma acked_prefix_snoc_false ack m :
  acked_prefix (ack ++ replicate m false) = acked_prefix ack.
Proof. induction ack as [|[] ack IH]; cbn; [by destruct m|by f_equal|done]. Qed.
Lemma slide_S x rest k :
  (k <= length rest)%nat -> slide (rest ++ [false]) k = slide (x :: rest) (S k).
Proof.
  intros. unfold slide. cbn [drop]. rewrite drop_app_le by done. by rewrite <- app_assoc.
Qed.
Lemma slide_length ack k : (k <= length ack)%nat -> length (slide ack k) = length ack.
Proof. intros. unfold slide. rewrite length_app, length_drop, length_replicate. lia. Qed.
Lemma slide_lookup ack k i :
  (slide ack k !! i = Some true) <-> ack !! (k + i)%nat = Some true.
Proof.
  unfold slide. destruct (decide (i < length (drop k ack))%nat) as [Hi|Hi].
  - by rewrite lookup_app_l, lookup_drop by done.
  - rewrite lookup_app_r by lia. rewrite length_drop in *. split.
    + intros [??]%lookup_replicate. done.
    + intros ?%lookup_lt_Some. lia.
Qed.

Definition window_slid (w : xgl_sliding_window_t) (ack : list bool) : xgl_sliding_window_t :=
  match acked_prefix ack with
  | O => w
  | k => w <| sw_ack_received := Ptr (slide ack k) |>
           <| sw_send_base_packet_number := u32 (sw_send_base_packet_number w + Z.of_nat k) |>
  end.

Lemma window_advance_loop_stop fuel ack w adv :
  acked_prefix ack = 0%nat -> sw_window_size w = zlen ack -> 0 <= adv ->
  window_advance_loop fuel w ack adv = Some (adv, window_slid w ack).
Proof.
  intros E0 Hws Hadv. unfold window_slid. rewrite E0.
  destruct fuel; cbn [window_advance_loop]; (destruct (Z.ltb_spec adv (sw_window_size w)); [|done]);
    (destruct ack as [|[] rest]; [unfold zlen in *; cbn in *; lia|done|done]).
Qed.
Lemma window_advance_loop_spec fuel : forall ack w adv,
  (acked_prefix ack <= fuel)%nat -> sw_window_size w = zlen ack -> zlen ack <= 128 -> 0 <= adv ->
  adv + Z.of_nat (acked_prefix ack) <= zlen ack ->
  window_advance_loop fuel w ack adv =
    Some (adv + Z.of_nat (acked_prefix ack), window_slid w ack).
Proof.
  induction fuel as [|fuel IH]; intros ack w adv Hf Hws Hmax Hadv Hle;
    (destruct (decide (acked_prefix ack = 0%nat)) as [E0|E0];
      [rewrite E0, Z.add_0_r; by apply window_advance_loop_stop|]); [lia|].
  destruct ack as [|[] rest]; [done| |done].
  cbn [acked_prefix] in *. rewrite zlen_cons in *. pose proof (zlen_nonneg rest).
  cbn [window_advance_loop]. replace (adv <? sw_window_size w) with true by lia.
  change (rd (true :: rest) 0) with (Some true). cbn [mbind option_bind].
  pose proof (window_shift_clear true rest _ Hws) as Hsh. rewrite Hws in *.
  destruct (window_shift _ _ 1) as [ack1|]; [|done]. cbn [mbind option_bind] in *.
  rewrite Hsh. cbn [mbind option_bind]. rewrite u8_small by lia.
  pose proof (acked_prefix_snoc_false rest 1) as Hp. cbn [replicate] in Hp.
  pose proof (acked_prefix_le rest).
  rewrite IH; rewrite ?Hp, ?zlen_app; change (zlen [false]) with 1; try lia.
  - f_equal. f_equal; [lia|]. unfold window_slid. cbn [acked_prefix]. rewrite Hp.
    destruct (acked_prefix rest) as [|k] eqn:Ek.
    + change (Z.of_nat 1) with 1. by destruct w.
    + rewrite (slide_S true) by lia. 
      replace (u32 (sw_send_base_packet_number w + Z.of_nat (S (S k)))) with
        (u32 (u32 (sw_send_base_packet_number w + 1) + Z.of_nat (S k))) by zlia. by destruct w.
  - destruct w; cbn in *. lia.
Qed.
Lemma window_advance_spec w ack :
  window_inv w -> sw_ack_received w = Ptr ack ->
  xgl_window_advance_base_packet_number w =
    Some (Z.of_nat (acked_prefix ack), window_slid w ack).
Proof.
  intros (Hws & _ & _ & ack' & Ha' & Hz) Ha. rewrite Ha' in Ha. injection Ha as ->.
  unfold xgl_window_advance_base_packet_number. rewrite Ha'.
  pose proof (acked_prefix_le ack). rewrite window_advance_loop_spec; unfold zlen in *; try done; lia.
Qed.

(** The operations are defined on every window, for every number. *)
Lemma window_mark_total w n :
  window_inv w -> exists err w', xgl_window_mark_ack_packet_number w n = Some (err, w') /\ window_inv w' /\
    sw_next_packet_number w' = sw_next_packet_number w.
Proof.
  intros Hinv. pose proof Hinv as (Hws & Hb & Hn & ack & Ha & Hz). unfold xgl_window_mark_ack_packet_number. rewrite Ha.
  unfold xgl_window_is_in_window_packet_number.
  destruct (n <? sw_send_base_packet_number w); cbn [negb]; [by eexists _, _|].
  set (i := u32 (n - sw_send_base_packet_number w)). pose proof (u32_range (n - sw_send_base_packet_number w)).
  fold i in H |- *. destruct (Z.ltb_spec i (sw_window_size w)); cbn [negb]; [|by eexists _, _].
  rewrite wr_Some by lia. cbn [mbind option_bind]. eexists _, _. split; [reflexivity|]. split; [|done].
  unfold window_inv. cbn. split_and!; try done; try lia. eexists. split; [done|]. by rewrite zlen_insert.
Qed.
Lemma window_advance_total w :
  window_inv w -> exists n w', xgl_window_advance_base_packet_number w = Some (n, w') /\ window_inv w' /\
    sw_next_packet_number w' = sw_next_packet_number w.
Proof.
  intros Hinv. pose proof Hinv as (Hws & Hb & Hn & ack & Ha & Hz). rewrite (window_advance_spec w ack) by done.
  eexists _, _. split; [reflexivity|]. unfold window_slid. destruct (acked_prefix ack) as [|k] eqn:E; [done|]. split; [|done].
  unfold window_inv. cbn -[u32]. split_and!; try done; try lia; [apply is_u32_spec, u32_range|].
  eexists. split; [done|]. unfold zlen in *. rewrite slide_length; [done|]. rewrite <- E. apply acked_prefix_le.
Qed.
Lemma window_reset_total w :
  window_inv w -> exists w', xgl_window_reset w = Some w' /\ window_inv w' /\ sw_next_packet_number w' = 0.
Proof.
  intros (Hws & Hb & Hn & ack & Ha & Hz). unfold xgl_window_reset. rewrite Ha.
  set (zeros := replicate (Z.to_nat (sw_window_size w)) false).
  assert (zlen zeros = sw_window_size w) as Hzz by (unfold zlen, zeros; rewrite length_replicate; lia).
  destruct (wr_bytes ack 0 zeros) as [ack'|] eqn:Hwr.
  - pose proof (wr_bytes_zlen _ _ _ _ Hwr). cbn [mbind option_bind]. eexists. split; [reflexivity|]. split; [|done].
    unfold window_inv. cbn. split_and!; try done; try lia. exists ack'. split; [done|lia].
  - rewrite wr_bytes_Some in Hwr by lia. done.
Qed.

(** ** Flow control *)

(** What the transport layer does with a window. *)
Inductive window_op : Type :=
  | WSend                     (* take the next packet number if the window allows it *)
  | WAck (packet_number : Z)  (* mark a packet number as acknowledged *)
  | WAdvance.                 (* slide over the acknowledged prefix *)
Definition window_step (w : xgl_sliding_window_t) (op : window_op) : M xgl_sliding_window_t :=
  match op with
  | WSend => ret (if xgl_window_can_send w then xgl_window_advance_next_packet_number w else w)
  | WAck n => '(_, w) ← xgl_window_mark_ack_packet_number w n; ret w
  | WAdvance => '(_, w) ← xgl_window_advance_base w; ret w
  end.
Fixpoint window_run (w : xgl_sliding_window_t) (ops : list window_op) : M xgl_sliding_window_t :=
  match ops with
  | [] => ret w
  | op :: ops => w ← window_step w op; window_run w ops
  end.
(** The peer only acknowledges packets that were sent. *)
Fixpoint acks_only_sent (w : xgl_sliding_window_t) (ops : list window_op) : bool :=
  match ops with
  | [] => true
  | op :: ops =>
      match op with WAck n => (0 <=? n) && (n <? sw_next_packet_number w) | _ => true end &&
      match window_step w op with Some w => acks_only_sent w ops | None => true end
  end.

Definition flagged (w : xgl_sliding_window_t) (n : Z) : Prop :=
  exists ack, sw_ack_received w = Ptr ack /\ 
    0 <= n - sw_send_base_packet_number w /\ 
    ack !! Z.to_nat (n - sw_send_base_packet_number w) = Some true.

(** The abstract window: [acked] is the set of numbers acknowledged so far. *)
Definition window_tracks (w : xgl_sliding_window_t) (acked : Z -> Prop) : Prop :=
  window_inv w /\
  sw_send_base_packet_number w <= sw_next_packet_number w /\
  sw_next_packet_number w <= sw_send_base_packet_number w + sw_window_size w /\
  (forall n, flagged w n -> n < sw_next_packet_number w) /\
  (forall n, 0 <= n -> acked n <-> n < sw_send_base_packet_number w \/ flagged w n).

Lemma window_tracks_send w acked :
  window_tracks w acked -> sw_next_packet_number w < 2 ^ 32 - 1 ->
  exists w', window_step w WSend = Some w' /\ window_tracks w' acked /\
             sw_next_packet_number w' <= sw_next_packet_number w + 1.
Proof.
  intros (Hinv & H1 & H2 & H3 & H4) Hmax. pose proof Hinv as (Hws & Hb%is_u32_spec & Hn%is_u32_spec & Ha).
  eexists. split; [reflexivity|]. unfold xgl_window_can_send, xgl_window_can_send_packet_number.
  rewrite u32_small by lia.
  destruct (Z.ltb_spec (sw_next_packet_number w - sw_send_base_packet_number w) (sw_window_size w));
    [|split; [done|lia]].
  unfold xgl_window_advance_next_packet_number. rewrite u32_small by lia.
  destruct w as [ws b n ack]; cbn in *. split; [|cbn; lia]. split; [|cbn; split_and!; try lia].
  - unfold window_inv. cbn. unfold is_u32. split_and!; [lia|lia|lia|lia|done].
  - intros m Hm. specialize (H3 m Hm). lia.
  - exact H4.
Qed.

Lemma window_tracks_ack w acked n :
  window_tracks w acked -> 0 <= n < sw_next_packet_number w ->
  exists w', window_step w (WAck n) = Some w' /\ window_tracks w' (fun m => acked m \/ m = n) /\
             sw_next_packet_number w' = sw_next_packet_number w.
Proof.
  intros (Hinv & H1 & H2 & H3 & H4) Hn0.
  pose proof Hinv as (Hws & Hb%is_u32_spec & Hn%is_u32_spec & ack & Ha & Hz).
  cbn [window_step]. unfold xgl_window_mark_ack_packet_number, xgl_window_is_in_window_packet_number.
  rewrite Ha. destruct (Z.ltb_spec n (sw_send_base_packet_number w)); cbn [negb].
  { exists w. split; [done|]. split; [|done]. split; [done|]. split_and!; try done.
    intros m Hm. rewrite H4 by done. intuition lia. }
  rewrite u32_small by lia. replace (_ <? sw_window_size w) with true by lia. cbn [negb].
  rewrite wr_Some by lia. cbn [mbind option_bind]. eexists. split; [reflexivity|].
  destruct w as [ws b nx ack']; cbn in *. subst ack'. split; [|done].
  assert (forall m, flagged (mk_window ws b nx (Ptr (<[Z.to_nat (n - b):=true]> ack))) m <->
                    flagged (mk_window ws b nx (Ptr ack)) m \/ m = n) as Hfl.
  { intros m. unfold flagged. cbn. split.
    - intros (? & [= <-] & Hm & Hl).
      destruct (decide (m = n)) as [->|]; [by right|left]. exists ack.
      rewrite list_lookup_insert_ne in Hl by lia. done.
    - intros [(? & [= <-] & Hm & Hl)| ->].
      + eexists. split; [done|]. split; [done|]. destruct (decide (m = n)) as [->|].
        * apply list_lookup_insert_eq. unfold zlen in *. lia.
        * by rewrite list_lookup_insert_ne by lia.
      + eexists. split; [done|]. split; [lia|]. apply list_lookup_insert_eq. unfold zlen in *. lia. }
  split; [|cbn; split_and!; try lia].
  - unfold window_inv. cbn. unfold is_u32. split_and!; try lia. eexists. split; [done|].
    by rewrite zlen_insert.
  - intros m [Hm%H3| ->]%Hfl; lia.
  - intros m Hm. rewrite Hfl, H4 by done. intuition.
Qed.

Lemma window_tracks_advance w acked :
  window_tracks w acked ->
  exists w', window_step w WAdvance = Some w' /\ window_tracks w' acked /\
             sw_next_packet_number w' = sw_next_packet_number w.
Proof.
  intros (Hinv & H1 & H2 & H3 & H4).
  pose proof Hinv as (Hws & Hb%is_u32_spec & Hn%is_u32_spec & ack & Ha & Hz).
  cbn [window_step]. unfold xgl_window_advance_base. rewrite (window_advance_spec w ack) by done.
  cbn [mbind option_bind]. eexists. split; [reflexivity|].
  destruct w as [ws b nx ack']; cbn in *. subst ack'.
  assert (b + Z.of_nat (acked_prefix ack) <= nx) as Hk.
  { destruct (acked_prefix ack) as [|k] eqn:E; [lia|].
    assert (flagged (mk_window ws b nx (Ptr ack)) (b + Z.of_nat k)) as Hlt%H3; [|lia].
    exists ack. split; [done|]. cbn. split; [lia|].
    replace (Z.to_nat (b + Z.of_nat k - b)) with k by lia. apply acked_prefix_lookup. lia. }
  unfold window_slid. destruct (acked_prefix ack) as [|k'] eqn:E; [by split; [split|]|].
  rewrite <- E in *. assert (0 < acked_prefix ack)%nat as Hpos by lia.
  set (k := acked_prefix ack) in *. rewrite u32_small by (cbn; lia). cbn.
  pose proof (acked_prefix_le ack) as Hle. fold k in Hle.
  assert (forall m, flagged (mk_window ws (b + Z.of_nat k) nx (Ptr (slide ack k))) m <->
                    b + Z.of_nat k <= m /\ flagged (mk_window ws b nx (Ptr ack)) m) as Hfl.
  { intros m. unfold flagged. cbn. split.
    - intros (? & [= <-] & Hm & Hl%slide_lookup). split; [lia|]. exists ack. split; [done|].
      split; [lia|]. by replace (Z.to_nat (m - b)) with (k + Z.to_nat (m - (b + Z.of_nat k)))%nat by lia.
    - intros (? & ? & [= <-] & Hm & Hl). eexists. split; [done|]. split; [lia|].
      apply slide_lookup. by replace (k + Z.to_nat (m - (b + Z.of_nat k)))%nat with (Z.to_nat (m - b)) by lia. }
  split; [|done]. split; [|cbn; split_and!; try lia].
  - unfold window_inv. cbn. unfold is_u32. split_and!; try lia. eexists. split; [done|].
    unfold zlen in *. by rewrite slide_length.
  - intros m [_ Hm%H3]%Hfl. lia.
  - intros m Hm. rewrite Hfl, H4 by done. split.
    + intros [?|Hf]; [lia|]. destruct (decide (m < b + Z.of_nat k)); [by left|right]. split; [lia|done].
    + intros [?|[? Hf]]; [|by right]. destruct (decide (m < b)); [by left|right].
      exists ack. split; [done|]. cbn. split; [lia|]. apply acked_prefix_lookup. fold k. lia.
Qed.

Lemma window_advance_loop_size fuel : forall w ack adv r w',
  window_advance_loop fuel w ack adv = Some (r, w') -> sw_window_size w' = sw_window_size w.
Proof.
  induction fuel as [|fuel IH]; intros w ack adv r w' H; cbn in H; (case_if_in H; [|by simplify_eq]);
    apply bind_Some in H as ([] & _ & H); try by simplify_eq.
  apply bind_Some in H as (a1 & _ & H). apply bind_Some in H as (a2 & _ & H).
  by rewrite (IH _ _ _ _ _ H).
Qed.
Lemma window_run_size ops : forall w w',
  window_run w ops = Some w' -> sw_window_size w' = sw_window_size w.
Proof.
  induction ops as [|op ops IH]; intros w w' Hrun; cbn in Hrun; [by injection Hrun as ->|].
  apply bind_Some in Hrun as (w1 & Hst & Hrun). rewrite (IH _ _ Hrun). clear IH Hrun.
  destruct op as [|n|]; cbn in Hst.
  - injection Hst as <-. by destruct (xgl_window_can_send w).
  - unfold xgl_window_mark_ack_packet_number in Hst. destruct (sw_ack_received w); [|by simplify_eq/=].
    case_if_in Hst; [by simplify_eq/=|]. destruct (wr _ _ _); cbn in Hst; by simplify_eq.
  - unfold xgl_window_advance_base, xgl_window_advance_base_packet_number in Hst.
    destruct (sw_ack_received w); [|by simplify_eq/=].
    apply bind_Some in Hst as ([r w2] & Hl & [= <-]). by apply window_advance_loop_size in Hl.
Qed.

Lemma window_run_tracks ops : forall w acked,
  window_tracks w acked -> acks_only_sent w ops = true ->
  sw_next_packet_number w + zlen ops < 2 ^ 32 ->
  exists w', window_run w ops = Some w' /\
             window_tracks w' (fun n => acked n \/ WAck n ∈ ops).
Proof.
  induction ops as [|op ops IH]; intros w acked Ht Hack Hmax.
  { exists w. split; [done|]. destruct Ht as (? & ? & ? & ? & H4). split_and!; try done; try apply H4.
    intros n Hn. rewrite <- H4 by done. split; [by intros [?|?%elem_of_nil]|by left]. }
  rewrite zlen_cons in Hmax. pose proof (zlen_nonneg ops). cbn in Hack.
  apply andb_true_iff in Hack as [Hop Hack].
  assert (exists w', window_step w op = Some w' /\
            window_tracks w' (fun n => acked n \/ op = WAck n) /\
            sw_next_packet_number w' <= sw_next_packet_number w + 1) as (w' & Hst & Ht' & Hnx).
  { destruct op as [|n|].
    - destruct (window_tracks_send w acked Ht ltac:(lia)) as (w' & Hst & (?&?&?&?&H4) & ?).
      exists w'. split; [done|]. split; [|done]. split_and!; try done.
      intros n Hn. rewrite <- H4 by done. intuition congruence.
    - destruct (window_tracks_ack w acked n Ht ltac:(lia)) as (w' & Hst & (?&?&?&?&H4) & ?).
      exists w'. split; [done|]. split; [|lia]. split_and!; try done.
      intros m Hm. rewrite <- H4 by done. intuition congruence.
    - destruct (window_tracks_advance w acked Ht) as (w' & Hst & (?&?&?&?&H4) & ?).
      exists w'. split; [done|]. split; [|lia]. split_and!; try done.
      intros n Hn. rewrite <- H4 by done. intuition congruence. }
  cbn [window_run]. rewrite Hst in *. cbn [mbind option_bind].
  destruct (IH w' _ Ht' Hack ltac:(lia)) as (w2 & Hrun & (?&?&?&?&H4)).
  exists w2. split; [done|]. split_and!; try done. intros n Hn. rewrite <- H4 by done.
  rewrite elem_of_cons. intuition congruence.
Qed.

Lemma window_init_tracks w0 size env w env' :
  xgl_window_init_with_allocator w0 size env = (XGL_OK, w, env') -> is_u8 size = true ->
  window_tracks w (fun _ => False).
Proof.
  unfold xgl_window_init_with_allocator. intros Hi Hs%is_u8_spec.
  destruct (_ || _) eqn:E in Hi; [done|]. destruct (alloc_answer _ _) as [[] env1]; [|done].
  injection Hi as <- _. split; [|cbn; split_and!; try lia].
  - unfold window_inv. cbn. split_and!; try lia; try done. eexists. split; [done|].
    unfold zlen. rewrite length_replicate. lia.
  - intros n (ack & [= <-] & _ & [? _]%lookup_replicate). done.
  - intros n Hn. split; [done|]. intros [?|(ack & [= <-] & _ & [? _]%lookup_replicate)]; [lia|done].
Qed.

Lemma window_run_app ops1 : forall w ops2,
  window_run w (ops1 ++ ops2) = (w ← window_run w ops1; window_run w ops2).
Proof.
  induction ops1 as [|op ops1 IH]; intros w ops2; [done|]. cbn.
  destruct (window_step w op); [|done]. cbn. apply IH.
Qed.
Lemma window_mark_unsent size k m j :
  Z.of_nat (j + k + m) = size -> size <= 128 ->
  window_run (mk_window size 0 0 (Ptr (replicate j true ++ replicate (k + m) false)))
    (map (fun i => WAck (Z.of_nat i)) (seq j k)) =
  Some (mk_window size 0 0 (Ptr (replicate (j + k) true ++ replicate m false))).
Proof.
  revert j. induction k as [|k IH]; intros j Hs Hmax; [by rewrite Nat.add_0_r|].
  cbn [seq map window_run window_step].
  unfold xgl_window_mark_ack_packet_number, xgl_window_is_in_window_packet_number. cbn [sw_ack_received].
  change (sw_send_base_packet_number (mk_window size 0 0 _)) with 0.
  change (sw_window_size (mk_window size 0 0 _)) with size.
  replace (Z.of_nat j <? 0) with false by lia. rewrite u32_small by lia.
  replace (Z.of_nat j - 0 <? size) with true by lia. cbn [negb].
  change (replicate (S k + m) false) with (false :: replicate (k + m) false).
  rewrite wr_at by (unfold zlen; rewrite length_replicate; lia). cbn [mbind option_bind].
  replace (replicate j true ++ true :: replicate (k + m) false) with
    (replicate (S j) true ++ replicate (k + m) false)
    by (by rewrite <- Nat.add_1_r, replicate_add, <- app_assoc).
  change (set_field _ _ _) with
    (mk_window size 0 0 (Ptr (replicate (S j) true ++ replicate (k + m) false))).
  rewrite IH by lia. by replace (j + S k)%nat with (S j + k)%nat by lia.
Qed.
Lemma acked_prefix_replicate k m :
  acked_prefix (replicate k true ++ replicate m false) = k.
Proof. rewrite acked_prefix_snoc_false. induction k; cbn; by f_equal. Qed.

(** ** Properties *)

(** C14. Flow control: from an initialised window, for fewer than 2^32 sends,
    acknowledgements of sent packets (repeated or out of order) and
    advances, in any interleaving, nothing is accessed out of bounds, the packets in flight never
    exceed the window, [xgl_window_can_send] and [xgl_window_get_usage] report
    that number, the base never passes a packet that was not acknowledged, and
    no acknowledgement is forgotten.  The bound keeps the packet numbers from
    wrapping: across the wrap valid acknowledgements are refused
    ([window_refuses_acks_at_wrap]). *)
Theorem window_flow_control (w0 w : xgl_sliding_window_t) (size : Z) (env env' : heap_answers)
    (ops : list window_op) :
  xgl_window_init_with_allocator w0 size env = (XGL_OK, w, env') -> is_u8 size = true ->
  acks_only_sent w ops = true -> zlen ops < 2 ^ 32 ->
  exists w', window_run w ops = Some w' /\
    let base := sw_send_base_packet_number w' in
    let next := sw_next_packet_number w' in
    0 <= next - base <= size /\
    xgl_window_can_send w' = (next - base <? size) /\
    xgl_window_get_usage w' = next - base /\
    (forall n, 0 <= n < base -> WAck n ∈ ops) /\
    (forall n, base <= n -> WAck n ∈ ops <-> flagged w' n).
Proof.
  intros Hi Hs Hack Hmax. pose proof (window_init_tracks _ _ _ _ _ Hi Hs) as Ht.
  assert (sw_next_packet_number w = 0 /\ sw_window_size w = size) as [Hn0 Hsz].
  { unfold xgl_window_init_with_allocator in Hi. destruct (_ || _); [done|].
    destruct (alloc_answer _ _) as [[] ?]; [|done]. by injection Hi as <- _. }
  destruct (window_run_tracks ops w _ Ht Hack ltac:(lia)) as (w' & Hrun & Hinv & H1 & H2 & H3 & H4).
  exists w'. split; [done|].
  assert (sw_window_size w' = size) as Hsz'.
  { by rewrite (window_run_size _ _ _ Hrun). }
  pose proof Hinv as (Hws & Hb%is_u32_spec & Hn%is_u32_spec & _). cbn.
  unfold xgl_window_can_send, xgl_window_can_send_packet_number, xgl_window_get_usage.
  rewrite u32_small, Hsz' by lia. unfold UINT8_MAX.
  replace (255 <? _) with false by lia. rewrite u8_small by lia.
  split_and!; try lia; try done.
  - intros n Hnb. destruct (H4 n ltac:(lia)) as [_ H5]. by destruct (H5 (or_introl (proj2 Hnb))) as [[]|?].
  - intros n Hnb. destruct (H4 n ltac:(lia)) as [H5 H6]. split.
    + intros Hin. destruct (H5 (or_intror Hin)); [lia|done].
    + intros Hf. by destruct (H6 (or_intror Hf)) as [[]|?].
Qed.
Lemma window_flow_control_witness :
  let w := mk_window 2 0 0 (Ptr [false; false]) in
  let ops := [WSend; WSend; WSend; WAck 1; WAdvance; WAck 0; WAck 0; WAdvance; WSend] in
  window_run w ops = Some (mk_window 2 2 3 (Ptr [false; false])) /\
  exists w', window_run w ops = Some w' /\ xgl_window_can_send w' = true.
Proof.
  intros w ops. split; [reflexivity|].
  destruct (window_flow_control w w 2 [] [] ops eq_refl eq_refl eq_refl eq_refl)
    as (w' & Hrun & _ & Hcan & _).
  exists w'. split; [exact Hrun|]. revert Hrun Hcan. intros [= <-] _. reflexivity.
Defined.

(** Finding: a number is in the window only if it is not below the base, so when
    the numbers wrap, a packet in flight whose number has wrapped is refused its
    acknowledgement until the base has wrapped too, and in a window whose base still
    waits for an earlier packet it is lost. *)
Lemma window_refuses_acks_at_wrap size ack base next n :
  0 <= n < u32 next -> u32 next < base -> base < 2 ^ 32 ->
  let w := mk_window size base (u32 next) (Ptr ack) in
  xgl_window_mark_ack_packet_number w n = Some (XGL_ERR_SEQUENCE_ERROR, w).
Proof.
  intros Hn Hb Hlt. cbn zeta. unfold xgl_window_mark_ack_packet_number, xgl_window_is_in_window_packet_number.
  cbn [sw_ack_received sw_send_base_packet_number sw_window_size]. by replace (n <? base) with true by lia.
Qed.
(** Three packets are in flight, the last with number 0; it is acknowledged first. *)
Example wrapped_ack_is_lost :
  let w := mk_window 4 (2 ^ 32 - 2) (2 ^ 32 - 2) (Ptr [false; false; false; false]) in
  match window_run w [WSend; WSend; WSend; WAck 0; WAck (2 ^ 32 - 2); WAck (2 ^ 32 - 1); WAdvance] with
  | Some w' => sw_send_base_packet_number w' = 0 /\ xgl_window_get_usage w' = 1
  | None => False
  end.
Proof. vm_compute. by split. Qed.

(** Finding: [xgl_window_mark_ack_packet_number] accepts any number less than
    [window_size] above the base, sent or not.  An acknowledgement of packets
    that were never sent moves the base past the next packet number; the
    unsigned usage then wraps around, and the window, with nothing in flight,
    refuses every further send. *)
Theorem window_ack_of_unsent_packets_stalls (size : Z) (env env' : heap_answers)
    (w0 w : xgl_sliding_window_t) (k : nat) :
  xgl_window_init_with_allocator w0 size env = (XGL_OK, w, env') -> is_u8 size = true ->
  (0 < k)%nat -> Z.of_nat k <= size ->
  exists w', window_run w (map (fun i => WAck (Z.of_nat i)) (seq 0 k) ++ [WAdvance]) = Some w' /\
    sw_send_base_packet_number w' = Z.of_nat k /\ sw_next_packet_number w' = 0 /\
    xgl_window_can_send w' = false /\ xgl_window_get_usage w' = 255 /\
    forall n, window_run w' (replicate n WSend) = Some w'.
Proof.
  intros Hi Hs%is_u8_spec Hk0 Hk. unfold xgl_window_init_with_allocator in Hi.
  destruct (_ || _) eqn:E in Hi; [done|]. destruct (alloc_answer _ _) as [[] ?]; [|done].
  injection Hi as <- _. rewrite window_run_app.
  pose proof (window_mark_unsent size k (Z.to_nat size - k) 0 ltac:(lia) ltac:(lia)) as Hm.
  cbn [replicate app Nat.add] in Hm. replace (k + (Z.to_nat size - k))%nat with (Z.to_nat size) in Hm by lia.
  rewrite Hm. clear Hm. set (ack := replicate k true ++ _).
  assert (zlen ack = size) as Hz by (unfold zlen, ack; rewrite length_app, !length_replicate; lia).
  assert (acked_prefix ack = k) as Hp by apply acked_prefix_replicate.
  cbn [mbind option_bind window_run window_step]. unfold xgl_window_advance_base.
  rewrite (window_advance_spec _ ack).
  2: { split; [cbn; lia|]. split; [done|]. split; [done|]. by exists ack. }
  2: done.
  unfold window_slid. rewrite Hp. destruct k as [|k]; [lia|]. cbn [mbind option_bind].
  set (w' := set_field _ _ _). exists w'. split; [done|].
  assert (sw_send_base_packet_number w' = Z.of_nat (S k)) as Hb.
  { change (sw_send_base_packet_number w') with (u32 (0 + Z.of_nat (S k))). apply u32_small. lia. }
  assert (sw_next_packet_number w' = 0) as Hn by reflexivity.
  assert (sw_window_size w' = size) as Hsz by reflexivity.
  assert (xgl_window_can_send w' = false) as Hcan.
  { unfold xgl_window_can_send, xgl_window_can_send_packet_number. rewrite Hb, Hn, Hsz. zlia. }
  split_and!; try done.
  - unfold xgl_window_get_usage, UINT8_MAX. rewrite Hb, Hn. by replace (255 <? _) with true by zlia.
  - intros n. induction n as [|n IH]; [done|]. cbn [replicate window_run window_step].
    rewrite Hcan. exact IH.
Qed.
Lemma window_ack_of_unsent_packets_stalls_witness :
  let w := mk_window 4 0 0 (Ptr [false; false; false; false]) in
  exists w', window_run w [WAck 0; WAck 1; WAdvance] = Some w' /\
             sw_send_base_packet_number w' = 2 /\ xgl_window_can_send w' = false.
Proof.
  intros w. destruct (window_ack_of_unsent_packets_stalls 4 [] [] w w 2 eq_refl eq_refl
    (Nat.lt_0_succ 1) ltac:(lia)) as (w' & Hrun & Hb & _ & Hcan & _).
  exists w'. split; [exact Hrun|]. split; [exact Hb|exact Hcan].
Defined.
