(* ===== verification/Rtt.v ===== *)
(** * Round-trip time estimator (include/xgl/internal/xgl_rtt.h,
    src/transport/xgl_rtt.c)

    The integer RFC 6298 estimator.  Its signed 32-bit arithmetic is checked: an
    overflow, undefined in C, is [None]. *)
From S2P Require Import Prelude.

(** ** Data *)

Definition XGL_MIN_RTO_MS : Z := 100.
Definition XGL_MAX_RTO_MS : Z := 5000.
Definition XGL_DEFAULT_RTO_MS : Z := 1000.
Definition XGL_RTT_ALPHA_SHIFT : Z := 3.
Definition XGL_RTT_BETA_SHIFT : Z := 2.
Definition XGL_RTO_K_FACTOR : Z := 4.

(** src/include/xgl/internal/xgl_rtt.h:66-71: xgl_rtt_estimator_t *)
Record xgl_rtt_estimator_t := mk_rtt {
  rtt_srtt : Z;
  rtt_rttvar : Z;
  rtt_rto : Z;
  rtt_initialized : bool
}.
#[export] Instance eta_rtt : EtaRecord xgl_rtt_estimator_t := Eta (fun e =>
  mk_rtt (rtt_srtt e) (rtt_rttvar e) (rtt_rto e) (rtt_initialized e)).

(** ** Operations *)

(** src/src/transport/xgl_rtt.c:28-30: abs_int32 *)
Definition abs_int32 (value : Z) : M Z := if value <? 0 then int32 (- value) else ret value.

(** src/src/transport/xgl_rtt.c:39-47: clamp_int32 *)
Definition clamp_int32 (value min max : Z) : Z :=
  if value <? min then min else if max <? value then max else value.

(** src/src/transport/xgl_rtt.c:57-66: xgl_rtt_init *)
Definition xgl_rtt_init (est : ptr xgl_rtt_estimator_t) : ptr xgl_rtt_estimator_t :=
  match est with
  | NULL => NULL
  | Ptr _ => Ptr (mk_rtt 0 0 XGL_DEFAULT_RTO_MS false)
  end.

(** src/src/transport/xgl_rtt.c:80-113: xgl_rtt_update *)
Definition xgl_rtt_update (est : ptr xgl_rtt_estimator_t) (measured_rtt : Z)
    : M (ptr xgl_rtt_estimator_t) :=
  match est with
  | NULL => ret NULL
  | Ptr est =>
      let measured_rtt := if measured_rtt <? 0 then 0 else measured_rtt in
      est ←
        (if negb (rtt_initialized est)
         then ret (est <| rtt_srtt := measured_rtt |>
                       <| rtt_rttvar := Z.shiftr measured_rtt 1 |>
                       <| rtt_initialized := true |>)
         else
           error ← int32 (measured_rtt - rtt_srtt est);
           srtt ← int32 (rtt_srtt est + Z.shiftr error XGL_RTT_ALPHA_SHIFT);
           abs_error ← abs_int32 error;
           rttvar_delta ← int32 (abs_error - rtt_rttvar est);
           rttvar ← int32 (rtt_rttvar est + Z.shiftr rttvar_delta XGL_RTT_BETA_SHIFT);
           ret (est <| rtt_srtt := srtt |> <| rtt_rttvar := rttvar |>));
      k_rttvar ← int32 (XGL_RTO_K_FACTOR * rtt_rttvar est);
      rto ← int32 (rtt_srtt est + k_rttvar);
      ret (Ptr (est <| rtt_rto := clamp_int32 rto XGL_MIN_RTO_MS XGL_MAX_RTO_MS |>))
  end.

(** src/src/transport/xgl_rtt.c:119-125: xgl_rtt_get_rto *)
Definition xgl_rtt_get_rto (est : ptr xgl_rtt_estimator_t) : Z :=
  match est with NULL => XGL_DEFAULT_RTO_MS | Ptr est => rtt_rto est end.

(** src/src/transport/xgl_rtt.c:131-137: xgl_rtt_get_srtt *)
Definition xgl_rtt_get_srtt (est : ptr xgl_rtt_estimator_t) : Z :=
  match est with
  | NULL => 0
  | Ptr est => if negb (rtt_initialized est) then 0 else rtt_srtt est
  end.

(** src/src/transport/xgl_rtt.c:143-149: xgl_rtt_get_rttvar *)
Definition xgl_rtt_get_rttvar (est : ptr xgl_rtt_estimator_t) : Z :=
  match est with
  | NULL => 0
  | Ptr est => if negb (rtt_initialized est) then 0 else rtt_rttvar est
  end.

(** src/src/transport/xgl_rtt.c:155-157: xgl_rtt_reset *)
Definition xgl_rtt_reset (est : ptr xgl_rtt_estimator_t) : ptr xgl_rtt_estimator_t :=
  xgl_rtt_init est.

(** src/src/transport/xgl_rtt.c:163-169: xgl_rtt_is_initialized *)
Definition xgl_rtt_is_initialized (est : ptr xgl_rtt_estimator_t) : bool :=
  match est with NULL => false | Ptr est => rtt_initialized est end.

(** A series of measurements. *)
Fixpoint rtt_run (est : ptr xgl_rtt_estimator_t) (samples : list Z) : M (ptr xgl_rtt_estimator_t) :=
  match samples with
  | [] => ret est
  | r :: samples => est ← xgl_rtt_update est r; rtt_run est samples
  end.

(** ** Bounds *)

(** The largest measurement for which no intermediate value can overflow. *)
Definition rtt_safe_max : Z := 429496729.

Definition rtt_inv (bound : Z) (e : xgl_rtt_estimator_t) : Prop :=
  0 <= rtt_srtt e <= bound /\ 0 <= rtt_rttvar e <= bound /\
  XGL_MIN_RTO_MS <= rtt_rto e <= XGL_MAX_RTO_MS.

Lemma clamp_range v : XGL_MIN_RTO_MS <= clamp_int32 v XGL_MIN_RTO_MS XGL_MAX_RTO_MS <= XGL_MAX_RTO_MS.
Proof. unfold clamp_int32, XGL_MIN_RTO_MS, XGL_MAX_RTO_MS. repeat case_if; lia. Qed.

(** One update without overflow, in closed form. *)
Definition rtt_next (e : xgl_rtt_estimator_t) (r : Z) : xgl_rtt_estimator_t :=
  let r := Z.max 0 r in
  let srtt := if rtt_initialized e then rtt_srtt e + (r - rtt_srtt e) / 8 else r in
  let rttvar := if rtt_initialized e
                then rtt_rttvar e + (Z.abs (r - rtt_srtt e) - rtt_rttvar e) / 4 else r / 2 in
  mk_rtt srtt rttvar (Z.min (Z.max (srtt + 4 * rttvar) XGL_MIN_RTO_MS) XGL_MAX_RTO_MS) true.

Lemma rtt_update_next bound e r :
  rtt_inv bound e -> r <= bound -> 0 <= bound <= rtt_safe_max ->
  xgl_rtt_update (Ptr e) r = Some (Ptr (rtt_next e r)) /\ rtt_inv bound (rtt_next e r).
Proof.
  intros (H1 & H2 & H3) Hr Hb. unfold rtt_safe_max in Hb.
  set (m := Z.max 0 r). assert ((if r <? 0 then 0 else r) = m) as Em by (unfold m; case_if; lia).
  assert (0 <= m <= bound) as Hm by lia.
  assert (forall v, Z.min (Z.max v XGL_MIN_RTO_MS) XGL_MAX_RTO_MS =
                    clamp_int32 v XGL_MIN_RTO_MS XGL_MAX_RTO_MS) as Ec.
  { intros v. unfold clamp_int32, XGL_MIN_RTO_MS, XGL_MAX_RTO_MS. repeat case_if; lia. }
  unfold xgl_rtt_update, rtt_next. fold m. rewrite Em.
  destruct e as [s v rto init]; cbn [rtt_srtt rtt_rttvar rtt_rto rtt_initialized] in *.
  unfold XGL_RTT_ALPHA_SHIFT, XGL_RTT_BETA_SHIFT, XGL_RTO_K_FACTOR. rewrite !Ec.
  destruct init; cbn [negb].
  - assert (abs_int32 (m - s) = Some (Z.abs (m - s))) as Ea.
    { unfold abs_int32. destruct (Z.ltb_spec (m - s) 0); [rewrite int32_ok by lia|]; f_equal; lia. }
    assert (0 <= s + (m - s) / 8 <= bound) by (Z.div_mod_to_equations; lia).
    assert (0 <= v + (Z.abs (m - s) - v) / 4 <= bound) by (Z.div_mod_to_equations; lia).
    rewrite int32_ok by lia. cbn [mbind option_bind]. rewrite shiftr_div by lia.
    change (2 ^ 3) with 8. rewrite int32_ok by lia. cbn [mbind option_bind]. rewrite Ea.
    cbn [mbind option_bind]. rewrite int32_ok by lia. cbn [mbind option_bind].
    rewrite shiftr_div by lia. change (2 ^ 2) with 4. rewrite int32_ok by lia.
    cbn [mbind option_bind]. cbn. rewrite int32_ok by lia. cbn [mbind option_bind].
    rewrite int32_ok by lia. cbn [mbind option_bind].
    split; [done|]. split_and!; cbn; try lia; apply clamp_range.
  - cbn [mbind option_bind]. rewrite shiftr_div by lia. change (2 ^ 1) with 2. cbn.
    assert (0 <= m / 2 <= bound) by (Z.div_mod_to_equations; lia).
    rewrite int32_ok by lia. cbn [mbind option_bind]. rewrite int32_ok by (Z.div_mod_to_equations; lia).
    cbn [mbind option_bind]. split; [done|]. split_and!; cbn; try lia; apply clamp_range.
Qed.

Lemma rtt_run_inv bound samples : forall e,
  rtt_inv bound e -> Forall (fun r => r <= bound) samples -> 0 <= bound <= rtt_safe_max ->
  rtt_run (Ptr e) samples = Some (Ptr (fold_left rtt_next samples e)) /\
  rtt_inv bound (fold_left rtt_next samples e).
Proof.
  induction samples as [|r samples IH]; intros e Hinv Hs Hb; [done|].
  apply Forall_cons in Hs as [Hr Hs]. cbn [rtt_run fold_left].
  destruct (rtt_update_next bound e r Hinv Hr Hb) as [-> Hinv']. by apply IH.
Qed.

(** ** Convergence *)

(** A constant measurement pulls the smoothed value towards itself. *)
Lemma rtt_next_closer e r :
  rtt_initialized e = true -> 0 <= r ->
  let e' := rtt_next e r in
  rtt_initialized e' = true /\
  (0 <= r - rtt_srtt e <= 7 -> rtt_srtt e' = rtt_srtt e) /\
  (~ 0 <= r - rtt_srtt e <= 7 ->
     Z.abs (r - rtt_srtt e') < Z.abs (r - rtt_srtt e)).
Proof.
  intros Hi Hr. unfold rtt_next. rewrite Hi. cbn. rewrite Z.max_r by lia.
  split_and!; [done|intros; Z.div_mod_to_equations; lia..].
Qed.
Lemma rtt_stay n : forall e r,
  rtt_initialized e = true -> 0 <= r -> 0 <= r - rtt_srtt e <= 7 ->
  0 <= r - rtt_srtt (fold_left rtt_next (replicate n r) e) <= 7.
Proof.
  induction n as [|n IH]; intros e r Hi Hr Hin; cbn [replicate fold_left]; [done|].
  destruct (rtt_next_closer e r Hi Hr) as (Hi' & Hstay & _).
  apply IH; [done|done|]. by rewrite (Hstay Hin).
Qed.
Lemma rtt_converge n : forall e r,
  rtt_initialized e = true -> 0 <= r -> Z.abs (r - rtt_srtt e) <= Z.of_nat n ->
  0 <= r - rtt_srtt (fold_left rtt_next (replicate n r) e) <= 7.
Proof.
  induction n as [|n IH]; intros e r Hi Hr Hn; [cbn; lia|].
  destruct (decide (0 <= r - rtt_srtt e <= 7)) as [Hin|Hout]; [by apply rtt_stay|].
  destruct (rtt_next_closer e r Hi Hr) as (Hi' & _ & Hmove).
  cbn [replicate fold_left]. apply IH; [done|done|]. specialize (Hmove Hout). lia.
Qed.

(** ** Properties *)

(** Bounds: as long as every measurement is at most [bound], itself at most
    [rtt_safe_max], no signed operation of the estimator overflows, the smoothed
    values stay between 0 and [bound], and the retransmission timeout stays
    within its documented range. *)
Theorem rtt_run_bounded (e : xgl_rtt_estimator_t) (samples : list Z) (bound : Z) :
  Forall (fun r => r <= bound) samples -> 0 <= bound <= rtt_safe_max ->
  exists e', rtt_run (xgl_rtt_init (Ptr e)) samples = Some (Ptr e') /\
    0 <= xgl_rtt_get_srtt (Ptr e') <= bound /\ 0 <= xgl_rtt_get_rttvar (Ptr e') <= bound /\
    XGL_MIN_RTO_MS <= xgl_rtt_get_rto (Ptr e') <= XGL_MAX_RTO_MS /\
    xgl_rtt_is_initialized (Ptr e') = negb (bool_decide (samples = [])).
Proof.
  intros Hs Hb. set (e0 := mk_rtt 0 0 XGL_DEFAULT_RTO_MS false).
  destruct (rtt_run_inv bound samples e0) as [Hrun (H1 & H2 & H3)]; [|done|done|].
  { split_and!; cbn; try lia; unfold XGL_DEFAULT_RTO_MS, XGL_MIN_RTO_MS, XGL_MAX_RTO_MS; lia. }
  eexists. split; [exact Hrun|]. unfold xgl_rtt_get_srtt, xgl_rtt_get_rttvar, xgl_rtt_get_rto.
  split_and!; try (case_if; lia); try lia.
  cbn [xgl_rtt_is_initialized]. destruct samples as [|r samples]; [done|].
  rewrite bool_decide_eq_false_2 by done. cbn [fold_left].
  assert (forall l e, rtt_initialized e = true -> rtt_initialized (fold_left rtt_next l e) = true) as H.
  { induction l as [|x l IH]; intros; [done|]. by apply IH. }
  by apply H.
Qed.
Lemma rtt_run_bounded_witness :
  let e := mk_rtt 1 2 3 true in
  rtt_run (xgl_rtt_init (Ptr e)) [80; 120; 40] = Some (Ptr (mk_rtt 79 41 243 true)) /\
  exists e', rtt_run (xgl_rtt_init (Ptr e)) [80; 120; 40] = Some (Ptr e') /\
    XGL_MIN_RTO_MS <= xgl_rtt_get_rto (Ptr e') <= XGL_MAX_RTO_MS.
Proof.
  intros e. split; [reflexivity|].
  destruct (rtt_run_bounded e [80; 120; 40] 120) as (e' & Hrun & _ & _ & Hrto & _).
  - repeat constructor; discriminate.
  - unfold rtt_safe_max. lia.
  - exists e'. split; [exact Hrun|exact Hrto].
Defined.

(** Convergence: on a link whose round trip is a constant [r], the smoothed
    value reaches a fixed point at most 7 ms below [r] (the rounding of the
    division by 8) after at most as many samples as it was milliseconds away,
    and stays there. *)
Theorem rtt_converges_to_constant (e : xgl_rtt_estimator_t) (r bound : Z) (n : nat) :
  rtt_inv bound e -> rtt_initialized e = true -> 0 <= r <= bound -> bound <= rtt_safe_max ->
  Z.abs (r - rtt_srtt e) <= Z.of_nat n ->
  exists e', rtt_run (Ptr e) (replicate n r) = Some (Ptr e') /\
    0 <= r - xgl_rtt_get_srtt (Ptr e') <= 7.
Proof.
  intros Hinv Hi Hr Hb Hn.
  destruct (rtt_run_inv bound (replicate n r) e Hinv) as [Hrun _]; [|lia|].
  { apply Forall_replicate. lia. }
  eexists. split; [exact Hrun|]. pose proof (rtt_converge n e r Hi ltac:(lia) Hn) as Hc.
  unfold xgl_rtt_get_srtt. 
  assert (forall l e, rtt_initialized e = true -> rtt_initialized (fold_left rtt_next l e) = true) as H.
  { induction l as [|x l IH]; intros; [done|]. by apply IH. }
  by rewrite H.
Qed.
Lemma rtt_converges_to_constant_witness :
  let e := mk_rtt 100 20 180 true in
  exists e', rtt_run (Ptr e) (replicate 60 40) = Some (Ptr e') /\
    0 <= 40 - xgl_rtt_get_srtt (Ptr e') <= 7.
Proof.
  intros e. apply (rtt_converges_to_constant e 40 100 60).
  - unfold rtt_inv, XGL_MIN_RTO_MS, XGL_MAX_RTO_MS. cbn. lia.
  - reflexivity.
  - lia.
  - unfold rtt_safe_max. lia.
  - cbn. lia.
Defined.
