(* ===== verification/LinkedList.v ===== *)
(** * Intrusive doubly-linked lists (include/xgl/internal/xgl_list.h,
    src/core/xgl_list.c)

    The pointer-level list: a heap maps node addresses to nodes, and every
    assignment through a pointer is an explicit heap update ([None] when the
    pointer does not point to a node).  The operations are shown to implement
    the operations of a mathematical list, which is how the components that
    queue packets and buffers ([Reliable], [Fragment], [HashTable]) are
    modelled. *)
From S2P Require Import Prelude.

(** ** Data *)

Abbreviation addr := positive.

(** src/include/xgl/internal/xgl_list.h:26-29: xgl_list_node_t *)
Record xgl_list_node_t := mk_node {
  node_next : ptr addr;
  node_prev : ptr addr
}.
#[export] Instance eta_node : EtaRecord xgl_list_node_t := Eta (fun n =>
  mk_node (node_next n) (node_prev n)).

(** src/include/xgl/internal/xgl_list.h:34-38: xgl_list_t *)
Record xgl_list_t := mk_list {
  list_head : ptr addr;
  list_tail : ptr addr;
  list_count : Z
}.
#[export] Instance eta_list : EtaRecord xgl_list_t := Eta (fun l =>
  mk_list (list_head l) (list_tail l) (list_count l)).

Abbreviation heap := (gmap addr xgl_list_node_t).

(** [p->next = v] and [p->prev = v] *)
Definition set_next (h : heap) (p : addr) (v : ptr addr) : M heap :=
  node ← h !! p; ret (<[p := node <| node_next := v |>]> h).
Definition set_prev (h : heap) (p : addr) (v : ptr addr) : M heap :=
  node ← h !! p; ret (<[p := node <| node_prev := v |>]> h).

(** ** Operations

    [list == NULL] and [node == NULL] return at once in all of them; here the
    arguments are objects. *)

(** src/src/core/xgl_list.c:17-25: xgl_list_init *)
Definition xgl_list_init : xgl_list_t := mk_list NULL NULL 0.

(** src/src/core/xgl_list.c:30-37: xgl_list_node_init *)
Definition xgl_list_node_init (h : heap) (node : addr) : heap :=
  <[node := mk_node NULL NULL]> h.

(** src/src/core/xgl_list.c:46-52: xgl_list_is_empty *)
Definition xgl_list_is_empty (list : xgl_list_t) : bool :=
  match list_head list with NULL => true | Ptr _ => false end.

(** src/src/core/xgl_list.c:57-63: xgl_list_count *)
Definition xgl_list_count (list : xgl_list_t) : Z := list_count list.

(** src/src/core/xgl_list.c:72-89: xgl_list_insert_head *)
Definition xgl_list_insert_head (h : heap) (list : xgl_list_t) (node : addr)
    : M (heap * xgl_list_t) :=
  h ← set_prev h node NULL;
  h ← set_next h node (list_head list);
  '(h, list) ←
    match list_head list with
    | Ptr head => h ← set_prev h head (Ptr node); ret (h, list)
    | NULL => ret (h, list <| list_tail := Ptr node |>)
    end;
  ret (h, list <| list_head := Ptr node |> <| list_count := list_count list + 1 |>).

(** src/src/core/xgl_list.c:94-111: xgl_list_insert_tail *)
Definition xgl_list_insert_tail (h : heap) (list : xgl_list_t) (node : addr)
    : M (heap * xgl_list_t) :=
  h ← set_next h node NULL;
  h ← set_prev h node (list_tail list);
  '(h, list) ←
    match list_tail list with
    | Ptr tail => h ← set_next h tail (Ptr node); ret (h, list)
    | NULL => ret (h, list <| list_head := Ptr node |>)
    end;
  ret (h, list <| list_tail := Ptr node |> <| list_count := list_count list + 1 |>).

(** src/src/core/xgl_list.c:116-134: xgl_list_insert_after *)
Definition xgl_list_insert_after (h : heap) (list : xgl_list_t) (pos node : addr)
    : M (heap * xgl_list_t) :=
  h ← set_prev h node (Ptr pos);
  p ← h !! pos;
  h ← set_next h node (node_next p);
  '(h, list) ←
    match node_next p with
    | Ptr next => h ← set_prev h next (Ptr node); ret (h, list)
    | NULL => ret (h, list <| list_tail := Ptr node |>)
    end;
  h ← set_next h pos (Ptr node);
  ret (h, list <| list_count := list_count list + 1 |>).

(** src/src/core/xgl_list.c:139-157: xgl_list_insert_before *)
Definition xgl_list_insert_before (h : heap) (list : xgl_list_t) (pos node : addr)
    : M (heap * xgl_list_t) :=
  h ← set_next h node (Ptr pos);
  p ← h !! pos;
  h ← set_prev h node (node_prev p);
  '(h, list) ←
    match node_prev p with
    | Ptr prev => h ← set_next h prev (Ptr node); ret (h, list)
    | NULL => ret (h, list <| list_head := Ptr node |>)
    end;
  h ← set_prev h pos (Ptr node);
  ret (h, list <| list_count := list_count list + 1 |>).

(** src/src/core/xgl_list.c:166-192: xgl_list_remove *)
Definition xgl_list_remove (h : heap) (list : xgl_list_t) (node : addr)
    : M (heap * xgl_list_t) :=
  n ← h !! node;
  '(h, list) ←
    match node_prev n with
    | Ptr prev => h ← set_next h prev (node_next n); ret (h, list)
    | NULL => ret (h, list <| list_head := node_next n |>)
    end;
  n ← h !! node;
  '(h, list) ←
    match node_next n with
    | Ptr next => h ← set_prev h next (node_prev n); ret (h, list)
    | NULL => ret (h, list <| list_tail := node_prev n |>)
    end;
  h ← set_next h node NULL;
  h ← set_prev h node NULL;
  ret (h, list <| list_count := list_count list - 1 |>).

(** src/src/core/xgl_list.c:197-205: xgl_list_remove_head *)
Definition xgl_list_remove_head (h : heap) (list : xgl_list_t)
    : M (ptr addr * heap * xgl_list_t) :=
  match list_head list with
  | NULL => ret (NULL, h, list)
  | Ptr node => '(h, list) ← xgl_list_remove h list node; ret (Ptr node, h, list)
  end.

(** src/src/core/xgl_list.c:210-218: xgl_list_remove_tail *)
Definition xgl_list_remove_tail (h : heap) (list : xgl_list_t)
    : M (ptr addr * heap * xgl_list_t) :=
  match list_tail list with
  | NULL => ret (NULL, h, list)
  | Ptr node => '(h, list) ← xgl_list_remove h list node; ret (Ptr node, h, list)
  end.

(** src/src/core/xgl_list.c:227-233: xgl_list_peek_head *)
Definition xgl_list_peek_head (list : xgl_list_t) : ptr addr := list_head list.
(** src/src/core/xgl_list.c:238-244: xgl_list_peek_tail *)
Definition xgl_list_peek_tail (list : xgl_list_t) : ptr addr := list_tail list.
(** src/src/core/xgl_list.c:249-255: xgl_list_next *)
Definition xgl_list_next (h : heap) (node : addr) : M (ptr addr) :=
  n ← h !! node; ret (node_next n).
(** src/src/core/xgl_list.c:260-266: xgl_list_prev *)
Definition xgl_list_prev (h : heap) (node : addr) : M (ptr addr) :=
  n ← h !! node; ret (node_prev n).

(** The loop of the macro: [node] is the current node, [tmp] the one read
    before the body ran. *)
(** src/include/xgl/internal/xgl_list.h:183-186: XGL_LIST_FOR_EACH_SAFE *)
Fixpoint for_each_safe_loop {S} (body : addr -> heap -> xgl_list_t -> S -> M (heap * xgl_list_t * S))
    (fuel : nat) (node tmp : ptr addr) (h : heap) (list : xgl_list_t) (s : S)
    : M (heap * xgl_list_t * S) :=
  match node with
  | NULL => ret (h, list, s)
  | Ptr n =>
      match fuel with
      | O => None
      | Datatypes.S fuel =>
          '(h, list, s) ← body n h list s;
          next ← match tmp with Ptr t => xgl_list_next h t | NULL => ret NULL end;
          for_each_safe_loop body fuel tmp next h list s
      end
  end.
(** src/include/xgl/internal/xgl_list.h:183-186: XGL_LIST_FOR_EACH_SAFE *)
Definition list_for_each_safe {S} (body : addr -> heap -> xgl_list_t -> S -> M (heap * xgl_list_t * S))
    (fuel : nat) (h : heap) (list : xgl_list_t) (s : S) : M (heap * xgl_list_t * S) :=
  tmp ← match list_head list with Ptr n => xgl_list_next h n | NULL => ret NULL end;
  for_each_safe_loop body fuel (list_head list) tmp h list s.

(** ** Representation

    [dls h p xs n]: the nodes [xs] are chained in both directions, the first
    one's [prev] is [p] and the last one's [next] is [n]. *)
Definition hd_or (xs : list addr) (d : ptr addr) : ptr addr :=
  match xs with [] => d | x :: _ => Ptr x end.
Definition last_or (xs : list addr) (d : ptr addr) : ptr addr :=
  match last xs with Some x => Ptr x | None => d end.
Fixpoint dls (h : heap) (p : ptr addr) (xs : list addr) (n : ptr addr) : Prop :=
  match xs with
  | [] => True
  | x :: xs => h !! x = Some (mk_node (hd_or xs n) p) /\ dls h (Ptr x) xs n
  end.
(** The list object and its nodes represent the sequence [xs]. *)
Definition list_rep (h : heap) (l : xgl_list_t) (xs : list addr) : Prop :=
  NoDup xs /\ dls h NULL xs NULL /\
  list_head l = hd_or xs NULL /\ list_tail l = last_or xs NULL /\ list_count l = zlen xs.
(** Only the nodes [xs] were written. *)
Definition unchanged_except (xs : list addr) (h h' : heap) : Prop :=
  forall y, y ∉ xs -> h' !! y = h !! y.

Lemma last_or_snoc xs x d : last_or (xs ++ [x]) d = Ptr x.
Proof. unfold last_or. by rewrite last_snoc. Qed.
Lemma last_or_cons x xs d : last_or (x :: xs) d = last_or xs (Ptr x).
Proof. unfold last_or. rewrite last_cons. by destruct (last xs). Qed.
Lemma last_or_app xs ys d : last_or (xs ++ ys) d = last_or ys (last_or xs d).
Proof.
  revert d. induction xs as [|x xs IH]; intros d; [done|]. cbn [app]. by rewrite !last_or_cons, IH.
Qed.
Lemma hd_or_app xs ys d : hd_or (xs ++ ys) d = hd_or xs (hd_or ys d).
Proof. by destruct xs. Qed.

Lemma dls_app h p xs ys n :
  dls h p (xs ++ ys) n <-> dls h p xs (hd_or ys n) /\ dls h (last_or xs p) ys n.
Proof.
  revert p. induction xs as [|x xs IH]; intros p; cbn [app dls]; [unfold last_or; cbn; tauto|].
  rewrite IH, last_or_cons, hd_or_app. tauto.
Qed.
Lemma dls_frame h h' p xs n :
  (forall y, y ∈ xs -> h' !! y = h !! y) -> dls h p xs n -> dls h' p xs n.
Proof.
  revert p. induction xs as [|x xs IH]; intros p Hf; cbn; [done|]. intros [Hx Hxs]. split.
  - rewrite Hf; [done|left].
  - apply IH; [|done]. intros y Hy. apply Hf. by right.
Qed.
Lemma dls_insert h x v p xs n : x ∉ xs -> dls h p xs n -> dls (<[x := v]> h) p xs n.
Proof.
  intros Hx. apply dls_frame. intros y Hy. apply lookup_insert_ne. intros ->. done.
Qed.

(** Redirecting the ends of a segment. *)
Lemma set_next_last h p xs x n n' :
  x ∉ xs -> dls h p (xs ++ [x]) n ->
  exists h', set_next h x n' = Some h' /\ dls h' p (xs ++ [x]) n' /\
             unchanged_except [x] h h'.
Proof.
  intros Hx [Hxs [Hn _]]%dls_app. unfold set_next. rewrite Hn. eexists. split; [reflexivity|].
  split; [|intros y Hy; apply lookup_insert_ne; set_solver].
  apply dls_app. split; [by apply dls_insert|]. split; [|done]. by rewrite lookup_insert_eq.
Qed.
Lemma set_prev_head h p xs x n p' :
  x ∉ xs -> dls h p (x :: xs) n ->
  exists h', set_prev h x p' = Some h' /\ dls h' p' (x :: xs) n /\ unchanged_except [x] h h'.
Proof.
  intros Hx [Hn Hxs]. unfold set_prev. rewrite Hn. eexists. split; [reflexivity|].
  split; [|intros y Hy; apply lookup_insert_ne; set_solver].
  split; [by rewrite lookup_insert_eq|]. by apply dls_insert.
Qed.

(** The two conditional assignments of the operations: redirect the end of
    [pre], or the head of the list when [pre] is empty; and the start of [post],
    or the tail of the list. *)
Lemma link_next h l pre p n n' :
  NoDup pre -> dls h p pre n -> (pre <> [] -> list_head l = hd_or pre NULL) ->
  exists h',
    match last_or pre NULL with
    | Ptr x => h ← set_next h x n'; ret (h, l)
    | NULL => ret (h, l <| list_head := n' |>)
    end = Some (h', l <| list_head := hd_or pre n' |>) /\
    dls h' p pre n' /\ unchanged_except pre h h'.
Proof.
  intros Hnd Hd Hl. destruct pre as [|y pre' _] using rev_ind; [by exists h|].
  rewrite last_or_snoc. apply NoDup_app in Hnd as (_ & Hy & _).
  destruct (set_next_last h p pre' y n n') as (h' & -> & Hd' & Hf); [|done|].
  { intros Hin. apply (Hy _ Hin). left. }
  exists h'. cbn [mbind option_bind]. split; [|split; [done|]].
  - specialize (Hl ltac:(by destruct pre')). rewrite hd_or_app in *. cbn in *. rewrite <- Hl.
    by destruct l.
  - intros z Hz. apply Hf. set_solver.
Qed.
Lemma link_prev h l post p p' n :
  NoDup post -> dls h p post n -> (post <> [] -> list_tail l = last_or post NULL) ->
  exists h',
    match hd_or post NULL with
    | Ptr x => h ← set_prev h x p'; ret (h, l)
    | NULL => ret (h, l <| list_tail := p' |>)
    end = Some (h', l <| list_tail := last_or post p' |>) /\
    dls h' p' post n /\ unchanged_except post h h'.
Proof.
  intros Hnd Hd Hl. destruct post as [|y post]; [by exists h|]. cbn [hd_or].
  apply NoDup_cons in Hnd as [Hy _].
  destruct (set_prev_head h p post y n p' Hy Hd) as (h' & -> & Hd' & Hf).
  exists h'. cbn [mbind option_bind]. split; [|split; [done|]].
  - specialize (Hl ltac:(done)). rewrite last_or_cons in *. rewrite <- Hl. by destruct l.
  - intros z Hz. apply Hf. set_solver.
Qed.
Lemma set_next_eq h x n v :
  h !! x = Some n -> set_next h x v = Some (<[x := mk_node v (node_prev n)]> h).
Proof. unfold set_next. by intros ->. Qed.
Lemma set_prev_eq h x n v :
  h !! x = Some n -> set_prev h x v = Some (<[x := mk_node (node_next n) v]> h).
Proof. unfold set_prev. by intros ->. Qed.

Lemma dls_insert_between h pre x post :
  dls h NULL pre (Ptr x) -> h !! x = Some (mk_node (hd_or post NULL) (last_or pre NULL)) ->
  dls h (Ptr x) post NULL -> dls h NULL (pre ++ x :: post) NULL.
Proof. intros. apply dls_app. by split. Qed.
Lemma unchanged_lookup h h' xs x : unchanged_except xs h h' -> x ∉ xs -> h' !! x = h !! x.
Proof. intros Hu. apply Hu. Qed.
Lemma dls_unchanged h h' zs p xs n :
  unchanged_except zs h h' -> xs ## zs -> dls h p xs n -> dls h' p xs n.
Proof. intros Hu Hd. apply dls_frame. intros y Hy. apply Hu. intros Hz. by apply (Hd y). Qed.

(** ** The operations on the represented sequence *)

Lemma insert_head_rep h l xs x :
  list_rep h l xs -> is_Some (h !! x) -> x ∉ xs ->
  exists h' l', xgl_list_insert_head h l x = Some (h', l') /\ list_rep h' l' (x :: xs) /\
                unchanged_except (x :: xs) h h'.
Proof.
  intros (Hnd & Hd & Hh & Ht & Hc) [n Hx] Hfresh. unfold xgl_list_insert_head.
  rewrite (set_prev_eq _ _ _ _ Hx). cbn [mbind option_bind].
  rewrite (set_next_eq _ _ _ _ (lookup_insert_eq _ _ _)), insert_insert_eq. cbn [mbind option_bind node_prev].
  rewrite Hh. set (h1 := <[x := _]> h).
  destruct (link_prev h1 l xs NULL (Ptr x) NULL) as (h' & -> & Hd' & Hu);
    [done|by apply dls_insert|by rewrite Ht|].
  cbn [mbind option_bind]. eexists _, _. split; [done|].
  assert (h' !! x = Some (mk_node (hd_or xs NULL) NULL)) as Hx'.
  { rewrite (Hu x Hfresh). apply lookup_insert_eq. }
  split.
  - split; [by constructor|]. split; [by split|]. cbn. split_and!; [done|by rewrite last_or_cons|].
    rewrite Hc, zlen_cons. lia.
  - intros y Hy. apply not_elem_of_cons in Hy as [Hyx Hy]. rewrite (Hu y Hy).
    by apply lookup_insert_ne.
Qed.

Lemma insert_tail_rep h l xs x :
  list_rep h l xs -> is_Some (h !! x) -> x ∉ xs ->
  exists h' l', xgl_list_insert_tail h l x = Some (h', l') /\ list_rep h' l' (xs ++ [x]) /\
                unchanged_except (x :: xs) h h'.
Proof.
  intros (Hnd & Hd & Hh & Ht & Hc) [n Hx] Hfresh. unfold xgl_list_insert_tail.
  rewrite (set_next_eq _ _ _ _ Hx). cbn [mbind option_bind].
  rewrite (set_prev_eq _ _ _ _ (lookup_insert_eq _ _ _)), insert_insert_eq. cbn [mbind option_bind node_next].
  rewrite Ht. set (h1 := <[x := _]> h).
  destruct (link_next h1 l xs NULL NULL (Ptr x)) as (h' & -> & Hd' & Hu);
    [done|by apply dls_insert|by rewrite Hh|].
  cbn [mbind option_bind]. eexists _, _. split; [done|].
  assert (h' !! x = Some (mk_node NULL (last_or xs NULL))) as Hx'.
  { rewrite (Hu x Hfresh). apply lookup_insert_eq. }
  split.
  - split; [apply NoDup_app; split_and!; [done|set_solver|apply NoDup_singleton]|].
    split; [by apply dls_insert_between|]. cbn.
    split_and!; [by rewrite hd_or_app|by rewrite last_or_snoc|]. rewrite Hc, zlen_app. done.
  - intros y Hy. apply not_elem_of_cons in Hy as [Hyx Hy]. rewrite (Hu y Hy).
    by apply lookup_insert_ne.
Qed.

(** A list split around one of its nodes. *)
Lemma list_rep_split h l pre x post :
  list_rep h l (pre ++ x :: post) ->
  NoDup pre /\ NoDup post /\ x ∉ pre /\ x ∉ post /\ pre ## post /\
  dls h NULL pre (Ptr x) /\ h !! x = Some (mk_node (hd_or post NULL) (last_or pre NULL)) /\
  dls h (Ptr x) post NULL /\
  (list_head l = hd_or pre (Ptr x)) /\ (list_tail l = last_or post (Ptr x)) /\
  list_count l = zlen pre + 1 + zlen post.
Proof.
  intros (Hnd & Hd & Hh & Ht & Hc). apply NoDup_app in Hnd as (Hn1 & Hn2 & Hn3).
  apply NoDup_cons in Hn3 as [Hn3 Hn4]. apply dls_app in Hd as (Hd1 & Hd2 & Hd3).
  rewrite hd_or_app in Hh. rewrite last_or_app, last_or_cons in Ht.
  rewrite zlen_app, zlen_cons in Hc.
  split_and!; try done; try lia.
  - intros Hin. apply (Hn2 x Hin). left.
  - intros y Hy Hy'. apply (Hn2 y Hy). by right.
Qed.
Lemma list_rep_join h l pre x post :
  NoDup (pre ++ x :: post) ->
  dls h NULL pre (Ptr x) -> h !! x = Some (mk_node (hd_or post NULL) (last_or pre NULL)) ->
  dls h (Ptr x) post NULL ->
  list_head l = hd_or pre (Ptr x) -> list_tail l = last_or post (Ptr x) ->
  list_count l = zlen pre + 1 + zlen post ->
  list_rep h l (pre ++ x :: post).
Proof.
  intros Hnd H1 H2 H3 Hh Ht Hc. split; [done|]. split; [by apply dls_insert_between|].
  rewrite hd_or_app, last_or_app, last_or_cons, zlen_app, zlen_cons.
  split_and!; [done|done|lia].
Qed.

Lemma insert_after_rep h l pre pos post x :
  list_rep h l (pre ++ pos :: post) -> is_Some (h !! x) -> x ∉ pre ++ pos :: post ->
  exists h' l', xgl_list_insert_after h l pos x = Some (h', l') /\
    list_rep h' l' (pre ++ pos :: x :: post) /\
    unchanged_except (x :: pre ++ pos :: post) h h'.
Proof.
  intros Hrep [n Hx] Hfresh. pose proof (proj1 Hrep) as Hnd.
  apply list_rep_split in Hrep as (Hn1 & Hn2 & Hp1 & Hp2 & Hdj & Hd1 & Hpos & Hd2 & Hh & Ht & Hc).
  assert (x ∉ pre /\ x <> pos /\ x ∉ post) as (Hx1 & Hx2 & Hx3) by set_solver.
  unfold xgl_list_insert_after. rewrite (set_prev_eq _ _ _ _ Hx). cbn [mbind option_bind].
  rewrite lookup_insert_ne, Hpos by done. cbn [mbind option_bind node_next].
  rewrite (set_next_eq _ _ _ _ (lookup_insert_eq _ _ _)), insert_insert_eq. cbn [mbind option_bind node_prev].
  set (h1 := <[x := _]> h).
  destruct (link_prev h1 l post (Ptr pos) (Ptr x) NULL) as (h2 & -> & Hd2' & Hu2);
    [done|by apply dls_insert|intros; rewrite Ht; by destruct post; [|rewrite !last_or_cons]|].
  cbn [mbind option_bind].
  destruct (set_next_last h2 NULL pre pos (hd_or post NULL) (Ptr x)) as (h3 & -> & Hd1' & Hu3); [done| |].
  { apply dls_app. cbn [hd_or dls]. rewrite (Hu2 pos) by done. unfold h1. rewrite lookup_insert_ne by done. fold h1.
    split; [|done].
    eapply (dls_unchanged h1); [exact Hu2|done|]. by apply dls_insert. }
  cbn [mbind option_bind]. eexists _, _. split; [done|].
  apply dls_app in Hd1' as (Hd1' & Hpos' & _).
  assert (h3 !! x = Some (mk_node (hd_or post NULL) (Ptr pos))) as Hx'.
  { rewrite (Hu3 x), (Hu2 x) by set_solver. apply lookup_insert_eq. }
  assert (NoDup (pre ++ pos :: x :: post)) as Hnd'.
  { assert (pre ++ pos :: x :: post ≡ₚ x :: pre ++ pos :: post) as -> by solve_Permutation.
    by constructor. }
  split.
  - replace (pre ++ pos :: x :: post) with ((pre ++ [pos]) ++ x :: post) in * by (by rewrite <- app_assoc).
    apply list_rep_join; [done| |by rewrite last_or_snoc| | |done|].
    + apply dls_app. cbn [hd_or]. by split.
    + eapply dls_unchanged; [exact Hu3| |done]. set_solver.
    + by rewrite hd_or_app.
    + change (list_count l + 1 = zlen (pre ++ [pos]) + 1 + zlen post).
      rewrite zlen_app. change (zlen [pos]) with 1. lia.
  - intros y Hy. rewrite (Hu3 y), (Hu2 y) by set_solver. apply lookup_insert_ne. set_solver.
Qed.

Lemma insert_before_rep h l pre pos post x :
  list_rep h l (pre ++ pos :: post) -> is_Some (h !! x) -> x ∉ pre ++ pos :: post ->
  exists h' l', xgl_list_insert_before h l pos x = Some (h', l') /\
    list_rep h' l' (pre ++ x :: pos :: post) /\
    unchanged_except (x :: pre ++ pos :: post) h h'.
Proof.
  intros Hrep [n Hx] Hfresh. pose proof (proj1 Hrep) as Hnd.
  apply list_rep_split in Hrep as (Hn1 & Hn2 & Hp1 & Hp2 & Hdj & Hd1 & Hpos & Hd2 & Hh & Ht & Hc).
  assert (x ∉ pre /\ x <> pos /\ x ∉ post) as (Hx1 & Hx2 & Hx3) by set_solver.
  unfold xgl_list_insert_before. rewrite (set_next_eq _ _ _ _ Hx). cbn [mbind option_bind].
  rewrite lookup_insert_ne, Hpos by done. cbn [mbind option_bind node_prev].
  rewrite (set_prev_eq _ _ _ _ (lookup_insert_eq _ _ _)), insert_insert_eq. cbn [mbind option_bind node_next].
  set (h1 := <[x := _]> h).
  destruct (link_next h1 l pre NULL (Ptr pos) (Ptr x)) as (h2 & -> & Hd1' & Hu2);
    [done|by apply dls_insert|intros; rewrite Hh; by destruct pre|].
  cbn [mbind option_bind].
  destruct (set_prev_head h2 (last_or pre NULL) post pos NULL (Ptr x)) as (h3 & -> & [Hpos' Hd2'] & Hu3);
    [done| |].
  { split; [rewrite (Hu2 pos) by done; unfold h1; by rewrite lookup_insert_ne by done|].
    eapply (dls_unchanged h1); [exact Hu2|by intros y ? ?; apply (Hdj y)|]. by apply dls_insert. }
  cbn [mbind option_bind]. eexists _, _. split; [done|].
  assert (h3 !! x = Some (mk_node (Ptr pos) (last_or pre NULL))) as Hx'.
  { rewrite (Hu3 x), (Hu2 x) by set_solver. apply lookup_insert_eq. }
  assert (NoDup (pre ++ x :: pos :: post)) as Hnd'.
  { assert (pre ++ x :: pos :: post ≡ₚ x :: pre ++ pos :: post) as -> by solve_Permutation.
    by constructor. }
  split.
  - apply list_rep_join; [done| |done|by split|done| |].
    + eapply dls_unchanged; [exact Hu3| |done]. set_solver.
    + cbn. by rewrite last_or_cons.
    + change (list_count l + 1 = zlen pre + 1 + zlen (pos :: post)). rewrite zlen_cons. lia.
  - intros y Hy. rewrite (Hu3 y), (Hu2 y) by set_solver. apply lookup_insert_ne. set_solver.
Qed.

Lemma remove_rep h l pre x post :
  list_rep h l (pre ++ x :: post) ->
  exists h' l', xgl_list_remove h l x = Some (h', l') /\ list_rep h' l' (pre ++ post) /\
    unchanged_except (pre ++ x :: post) h h' /\ h' !! x = Some (mk_node NULL NULL).
Proof.
  intros Hrep. pose proof (proj1 Hrep) as Hnd.
  apply list_rep_split in Hrep as (Hn1 & Hn2 & Hp1 & Hp2 & Hdj & Hd1 & Hx & Hd2 & Hh & Ht & Hc).
  unfold xgl_list_remove. rewrite Hx. cbn [mbind option_bind node_next node_prev].
  destruct (link_next h l pre NULL (Ptr x) (hd_or post NULL)) as (h1 & -> & Hd1' & Hu1);
    [done|done|intros; rewrite Hh; by destruct pre|].
  cbn [mbind option_bind]. rewrite (Hu1 x Hp1), Hx. cbn [mbind option_bind node_next node_prev].
  destruct (link_prev h1 (l <| list_head := hd_or pre (hd_or post NULL) |>) post (Ptr x)
    (last_or pre NULL) NULL) as (h2 & -> & Hd2' & Hu2);
    [done|eapply dls_unchanged; [exact Hu1|by intros y ? ?; apply (Hdj y)|done]
    |intros; cbn; rewrite Ht; by destruct post; [|rewrite !last_or_cons]|].
  cbn [mbind option_bind].
  rewrite (set_next_eq _ x (mk_node (hd_or post NULL) (last_or pre NULL))) by (by rewrite (Hu2 x), (Hu1 x)).
  cbn [mbind option_bind node_prev].
  rewrite (set_prev_eq _ _ _ _ (lookup_insert_eq _ _ _)), insert_insert_eq. cbn [mbind option_bind node_next].
  eexists _, _. split; [done|]. split; [|split].
  - split; [|split].
    + apply NoDup_app. split_and!; [done| |done]. intros y ? ?. by apply (Hdj y).
    + apply dls_app. split; apply dls_insert; try done.
      eapply dls_unchanged; [exact Hu2|exact Hdj|done].
    + cbn. rewrite hd_or_app, last_or_app, zlen_app. split_and!; [done|done|lia].
  - intros y Hy. rewrite lookup_insert_ne by set_solver. rewrite (Hu2 y), (Hu1 y) by set_solver. done.
  - apply lookup_insert_eq.
Qed.

Lemma list_rep_peek h l xs :
  list_rep h l xs ->
  list_head l = head xs /\ list_tail l = last xs /\
  xgl_list_is_empty l = bool_decide (xs = []) /\ xgl_list_count l = zlen xs.
Proof.
  intros (_ & _ & Hh & Ht & Hc). unfold xgl_list_is_empty. rewrite Hh, Ht.
  split_and!; [by destruct xs| |by destruct xs|done]. unfold last_or. by destruct (last xs).
Qed.

Lemma list_rep_next h l pre x post :
  list_rep h l (pre ++ x :: post) ->
  xgl_list_next h x = Some (head post) /\ xgl_list_prev h x = Some (last pre).
Proof.
  intros (_&_&_&_&_&_&Hx&_)%list_rep_split. unfold xgl_list_next, xgl_list_prev. rewrite Hx. cbn.
  split; [by destruct post|]. unfold last_or. by destruct (last pre).
Qed.

(** Taking the first node, and the last one; there may be none. *)
Lemma remove_head_rep h l xs : list_rep h l xs ->
  exists h' l', xgl_list_remove_head h l = Some (head xs, h', l') /\ list_rep h' l' (tail xs) /\
    unchanged_except xs h h'.
Proof.
  intros Hrep. destruct (list_rep_peek h l xs Hrep) as (Hh & _).
  unfold xgl_list_remove_head. rewrite Hh. destruct xs as [|y ys]; [by exists h, l|]. cbn [head tail].
  destruct (remove_rep h l [] y ys Hrep) as (h' & l' & -> & Hrep' & Hu & _). by exists h', l'.
Qed.
Lemma remove_tail_rep h l xs : list_rep h l xs ->
  exists h' l', xgl_list_remove_tail h l = Some (last xs, h', l') /\
    list_rep h' l' (take (length xs - 1) xs) /\ unchanged_except xs h h'.
Proof.
  intros Hrep. destruct (list_rep_peek h l xs Hrep) as (_ & Ht & _).
  unfold xgl_list_remove_tail. rewrite Ht. destruct xs as [|y ys _] using rev_ind; [by exists h, l|].
  rewrite last_snoc, length_app, Nat.add_sub, take_app_length.
  destruct (remove_rep h l ys y [] Hrep) as (h' & l' & -> & Hrep' & Hu & _).
  rewrite app_nil_r in Hrep'. by exists h', l'.
Qed.

(** The iteration macro: the body may remove the current node. *)
Definition remove_if (rm : addr -> bool) (n : addr) (h : heap) (l : xgl_list_t) (s : list addr)
    : M (heap * xgl_list_t * list addr) :=
  if rm n then '(h, l) ← xgl_list_remove h l n; ret (h, l, s ++ [n]) else ret (h, l, s).

Lemma for_each_safe_loop_rep rm post : forall fuel kept h l s,
  (length post <= fuel)%nat -> list_rep h l (kept ++ post) ->
  exists h' l',
    for_each_safe_loop (remove_if rm) fuel (head post) (head (tail post)) h l s =
      Some (h', l', s ++ filter (fun n => rm n = true) post) /\
    list_rep h' l' (kept ++ filter (fun n => rm n = false) post) /\
    unchanged_except (kept ++ post) h h'.
Proof.
  induction post as [|n post IH]; intros fuel kept h l s Hfuel Hrep.
  { exists h, l. destruct fuel; cbn; rewrite !app_nil_r in *; by split_and!. }
  destruct fuel as [|fuel]; [cbn in Hfuel; lia|]. cbn [head tail for_each_safe_loop].
  assert (exists h1 l1 kept', remove_if rm n h l s = Some (h1, l1, if rm n then s ++ [n] else s) /\
            list_rep h1 l1 (kept' ++ post) /\ kept' = kept ++ (if rm n then [] else [n]) /\
            unchanged_except (kept ++ n :: post) h h1) as (h1 & l1 & kept' & -> & Hrep1 & -> & Hu1).
  { unfold remove_if. destruct (rm n).
    - destruct (remove_rep h l kept n post Hrep) as (h1 & l1 & -> & Hrep1 & Hu & _).
      exists h1, l1, kept. by rewrite app_nil_r.
    - exists h, l, (kept ++ [n]). by rewrite <- app_assoc. }
  cbn [mbind option_bind].
  assert (match head post with Ptr t => xgl_list_next h1 t | NULL => ret NULL end =
          Some (head (tail post))) as ->.
  { destruct post as [|t post]; [done|]. cbn [head tail].
    by destruct (list_rep_next h1 l1 _ t post Hrep1) as [-> _]. }
  cbn [mbind option_bind].
  destruct (IH fuel _ h1 l1 (if rm n then s ++ [n] else s) ltac:(cbn in Hfuel; lia) Hrep1)
    as (h2 & l2 & -> & Hrep2 & Hu2).
  exists h2, l2. rewrite !filter_cons. destruct (rm n) eqn:E; cbn [app] in *.
  - rewrite decide_True, decide_False by done. rewrite app_nil_r in Hrep2, Hu2.
    rewrite <- app_assoc. split_and!; [done|done|]. intros y Hy.
    rewrite (Hu2 y); [by apply Hu1|]. rewrite elem_of_app, elem_of_cons in Hy. rewrite elem_of_app. tauto.
  - rewrite decide_False, decide_True by done. rewrite <- app_assoc in Hrep2, Hu2.
    split_and!; [done|done|]. intros y Hy. rewrite (Hu2 y); [by apply Hu1|done].
Qed.

(** ** Properties *)

(** The doubly-linked list is a sequence: on a list that represents [xs],
    inserting a fresh node at either end and removing from either end produce a
    list that represents the new sequence (both directions, both ends and the
    count), every pointer that is followed is valid, nothing but the list's own
    nodes is written, and the queries return the values of the sequence. *)
Theorem linked_list_refines_sequence (h : heap) (l : xgl_list_t) (xs : list addr) (x : addr) :
  list_rep h l xs -> is_Some (h !! x) -> x ∉ xs ->
  (exists h' l', xgl_list_insert_head h l x = Some (h', l') /\ list_rep h' l' (x :: xs) /\
                 unchanged_except (x :: xs) h h') /\
  (exists h' l', xgl_list_insert_tail h l x = Some (h', l') /\ list_rep h' l' (xs ++ [x]) /\
                 unchanged_except (x :: xs) h h') /\
  (exists h' l', xgl_list_remove_head h l = Some (head xs, h', l') /\ list_rep h' l' (tail xs) /\
                 unchanged_except xs h h') /\
  (exists h' l', xgl_list_remove_tail h l = Some (last xs, h', l') /\
                 list_rep h' l' (take (length xs - 1) xs) /\ unchanged_except xs h h') /\
  xgl_list_count l = zlen xs /\ xgl_list_is_empty l = bool_decide (xs = []) /\
  xgl_list_peek_head l = head xs /\ xgl_list_peek_tail l = last xs.
Proof.
  intros Hrep Hx Hfresh. destruct (list_rep_peek h l xs Hrep) as (Hh & Ht & He & Hc).
  split; [by apply insert_head_rep|]. split; [by apply insert_tail_rep|].
  split; [by apply remove_head_rep|]. split; [by apply remove_tail_rep|]. by split_and!.
Qed.
Lemma linked_list_refines_sequence_witness :
  let h : heap := {[ 1%positive := mk_node (Ptr 2%positive) NULL;
                     2%positive := mk_node NULL (Ptr 1%positive);
                     3%positive := mk_node NULL NULL ]} in
  let l := mk_list (Ptr 1%positive) (Ptr 2%positive) 2 in
  xgl_list_count l = 2 /\
  exists h' l', xgl_list_insert_tail h l 3%positive = Some (h', l') /\
    list_rep h' l' [1%positive; 2%positive; 3%positive].
Proof.
  intros h l. split; [reflexivity|].
  destruct (linked_list_refines_sequence h l [1%positive; 2%positive] 3%positive)
    as (_ & (h' & l' & Hrun & Hrep & _) & _).
  - split; [repeat constructor; set_solver|]. by repeat split.
  - by eexists.
  - set_solver.
  - exists h', l'. by split.
Defined.

(** Operations in the middle: inserting a fresh node after or before any
    node of the list, and removing any node, act on the sequence at that place
    only; the removed node's links are cleared; [next] and [prev] walk the
    sequence. *)
Theorem linked_list_positional (h : heap) (l : xgl_list_t) (pre post : list addr) (pos x : addr) :
  list_rep h l (pre ++ pos :: post) -> is_Some (h !! x) -> x ∉ pre ++ pos :: post ->
  (exists h' l', xgl_list_insert_after h l pos x = Some (h', l') /\
     list_rep h' l' (pre ++ pos :: x :: post) /\ unchanged_except (x :: pre ++ pos :: post) h h') /\
  (exists h' l', xgl_list_insert_before h l pos x = Some (h', l') /\
     list_rep h' l' (pre ++ x :: pos :: post) /\ unchanged_except (x :: pre ++ pos :: post) h h') /\
  (exists h' l', xgl_list_remove h l pos = Some (h', l') /\ list_rep h' l' (pre ++ post) /\
     unchanged_except (pre ++ pos :: post) h h' /\ h' !! pos = Some (mk_node NULL NULL)) /\
  xgl_list_next h pos = Some (head post) /\ xgl_list_prev h pos = Some (last pre).
Proof.
  intros Hrep Hx Hfresh. split; [by apply insert_after_rep|]. split; [by apply insert_before_rep|].
  split; [by apply remove_rep|]. by eapply list_rep_next.
Qed.
Lemma linked_list_positional_witness :
  let h : heap := {[ 1%positive := mk_node (Ptr 2%positive) NULL;
                     2%positive := mk_node NULL (Ptr 1%positive);
                     3%positive := mk_node NULL NULL ]} in
  let l := mk_list (Ptr 1%positive) (Ptr 2%positive) 2 in
  exists h' l', xgl_list_insert_after h l 1%positive 3%positive = Some (h', l') /\
    list_rep h' l' [1%positive; 3%positive; 2%positive].
Proof.
  intros h l.
  destruct (linked_list_positional h l [] [2%positive] 1%positive 3%positive)
    as ((h' & l' & Hrun & Hrep & _) & _).
  - split; [repeat constructor; set_solver|]. by repeat split.
  - by eexists.
  - set_solver.
  - exists h', l'. by split.
Defined.

(** Safe iteration: [XGL_LIST_FOR_EACH_SAFE] with a body that removes some
    of the nodes it visits terminates, visits every node once in order, and
    leaves the list that represents the other nodes in their order. *)
Theorem for_each_safe_filters (h : heap) (l : xgl_list_t) (xs : list addr) (rm : addr -> bool)
    (fuel : nat) :
  list_rep h l xs -> (length xs <= fuel)%nat ->
  exists h' l',
    list_for_each_safe (remove_if rm) fuel h l [] =
      Some (h', l', filter (fun n => rm n = true) xs) /\
    list_rep h' l' (filter (fun n => rm n = false) xs) /\ unchanged_except xs h h'.
Proof.
  intros Hrep Hfuel. unfold list_for_each_safe. destruct (list_rep_peek h l xs Hrep) as (-> & _).
  assert (match head xs with Ptr n => xgl_list_next h n | NULL => ret NULL end =
          Some (head (tail xs))) as ->.
  { destruct xs as [|n xs]; [done|]. cbn [head tail].
    by destruct (list_rep_next h l [] n xs Hrep) as [-> _]. }
  cbn [mbind option_bind]. by apply (for_each_safe_loop_rep rm xs fuel []).
Qed.
Lemma for_each_safe_filters_witness :
  let h : heap := {[ 1%positive := mk_node (Ptr 2%positive) NULL;
                     2%positive := mk_node NULL (Ptr 1%positive) ]} in
  let l := mk_list (Ptr 1%positive) (Ptr 2%positive) 2 in
  exists h' l',
    list_for_each_safe (remove_if (Pos.eqb 1)) 2 h l [] = Some (h', l', [1%positive]) /\
    list_rep h' l' [2%positive].
Proof.
  intros h l.
  destruct (for_each_safe_filters h l [1%positive; 2%positive] (Pos.eqb 1) 2)
    as (h' & l' & Hrun & Hrep & _).
  - split; [repeat constructor; set_solver|]. by repeat split.
  - reflexivity.
  - exists h', l'. by split.
Defined.
