(* ===== verification/HashTable.v ===== *)
(** * Hash table (include/xgl/internal/xgl_hashtable.h,
    src/core/xgl_hashtable.c)

    The chained hash table with a power-of-two number of buckets that indexes
    the routes.  A chain is the list of its entries, newest first.  The table is
    shown to be a finite map: [table_rep t m].  Its client ([Route]) is proved
    from the lemmas on [table_rep] alone. *)
From S2P Require Import Prelude Errors.

(** ** Data *)

Definition XGL_HASHTABLE_DEFAULT_SIZE : Z := 16.

Section HashTable.
(** The values are pointers of the caller, never dereferenced here. *)
Context {V : Type}.

(** src/include/xgl/internal/xgl_hashtable.h:41-45: xgl_hashtable_entry_t *)
Record xgl_hashtable_entry_t := mk_entry {
  he_key : Z;
  he_value : V
}.

(** [ht_buckets] is NULL before [init] and after [destroy]. *)
(** src/include/xgl/internal/xgl_hashtable.h:54-59: xgl_hashtable_t *)
Record xgl_hashtable_t := mk_hashtable {
  ht_buckets : ptr (list (list xgl_hashtable_entry_t));
  ht_size : Z;
  ht_count : Z
}.

(** ** Operations *)

(** src/src/core/xgl_hashtable.c:19-22: xgl_hash *)
Definition xgl_hash (key size : Z) : Z := Z.land key (size - 1).

(** src/src/core/xgl_hashtable.c:27-29: xgl_is_power_of_2 *)
Definition xgl_is_power_of_2 (n : Z) : bool := (0 <? n) && (Z.land n (n - 1) =? 0).

(** A bucket pointer and an entry take a nonzero number of bytes: only that
    matters to the allocator. *)
Definition sizeof_bucket : Z := 8.
Definition sizeof_entry : Z := 24.

(** src/src/core/xgl_hashtable.c:52-83: xgl_hashtable_init *)
Definition xgl_hashtable_init (table : xgl_hashtable_t) (size : Z) (env : heap_answers)
    : xgl_error_t * xgl_hashtable_t * heap_answers :=
  if negb (xgl_is_power_of_2 size) then (XGL_ERR_INVALID_PARAM, table, env)
  else
    let '(ok, env) := alloc_answer (sizeof_bucket * size) env in
    if ok : bool
    then (XGL_OK, mk_hashtable (Ptr (replicate (Z.to_nat size) [])) size 0, env)
    else (XGL_ERR_NO_MEMORY, mk_hashtable NULL size 0, env).

(** src/src/core/xgl_hashtable.c:88-110: xgl_hashtable_destroy *)
Definition xgl_hashtable_destroy (table : xgl_hashtable_t) : xgl_hashtable_t :=
  match ht_buckets table with
  | NULL => table
  | Ptr _ => mk_hashtable NULL 0 0
  end.

(** The search of the update case: the chain with the entry updated, [None]
    when the key is not in the chain. *)
(** src/src/core/xgl_hashtable.c:131-139: xgl_hashtable_insert *)
Fixpoint chain_update (entry : list xgl_hashtable_entry_t) (key : Z) (value : V)
    : option (list xgl_hashtable_entry_t) :=
  match entry with
  | [] => None
  | e :: next =>
      if he_key e =? key then Some (mk_entry (he_key e) value :: next)
      else next ← chain_update next key value; Some (e :: next)
  end.

(** src/src/core/xgl_hashtable.c:116-161: xgl_hashtable_insert *)
Definition xgl_hashtable_insert (table : xgl_hashtable_t) (key : Z) (value : ptr V)
    (env : heap_answers) : M (xgl_error_t * xgl_hashtable_t * heap_answers) :=
  match ht_buckets table with
  | NULL => ret (XGL_ERR_NULL_POINTER, table, env)
  | Ptr buckets =>
      match value with
      | NULL => ret (XGL_ERR_INVALID_PARAM, table, env)
      | Ptr value =>
          let index := xgl_hash key (ht_size table) in
          chain ← rd buckets index;
          match chain_update chain key value with
          | Some chain =>
              buckets ← wr buckets index chain;
              ret (XGL_OK, mk_hashtable (Ptr buckets) (ht_size table) (ht_count table), env)
          | None =>
              let '(ok, env) := alloc_answer sizeof_entry env in
              if negb ok then ret (XGL_ERR_NO_MEMORY, table, env)
              else
                buckets ← wr buckets index (mk_entry key value :: chain);
                ret (XGL_OK, mk_hashtable (Ptr buckets) (ht_size table) (ht_count table + 1), env)
          end
      end
  end.

(** src/src/core/xgl_hashtable.c:176-182: xgl_hashtable_lookup *)
Fixpoint chain_lookup (entry : list xgl_hashtable_entry_t) (key : Z) : ptr V :=
  match entry with
  | [] => NULL
  | e :: next => if he_key e =? key then Ptr (he_value e) else chain_lookup next key
  end.

(** src/src/core/xgl_hashtable.c:166-186: xgl_hashtable_lookup *)
Definition xgl_hashtable_lookup (table : xgl_hashtable_t) (key : Z) : M (ptr V) :=
  match ht_buckets table with
  | NULL => ret NULL
  | Ptr buckets =>
      chain ← rd buckets (xgl_hash key (ht_size table));
      ret (chain_lookup chain key)
  end.

(** The search and unlinking: [None] when the key is not in the chain. *)
(** src/src/core/xgl_hashtable.c:200-223: xgl_hashtable_remove *)
Fixpoint chain_remove (entry : list xgl_hashtable_entry_t) (key : Z)
    : option (list xgl_hashtable_entry_t) :=
  match entry with
  | [] => None
  | e :: next =>
      if he_key e =? key then Some next
      else next ← chain_remove next key; Some (e :: next)
  end.

(** src/src/core/xgl_hashtable.c:191-227: xgl_hashtable_remove *)
Definition xgl_hashtable_remove (table : xgl_hashtable_t) (key : Z)
    : M (xgl_error_t * xgl_hashtable_t) :=
  match ht_buckets table with
  | NULL => ret (XGL_ERR_NULL_POINTER, table)
  | Ptr buckets =>
      let index := xgl_hash key (ht_size table) in
      chain ← rd buckets index;
      match chain_remove chain key with
      | Some chain =>
          buckets ← wr buckets index chain;
          ret (XGL_OK, mk_hashtable (Ptr buckets) (ht_size table) (ht_count table - 1))
      | None => ret (XGL_ERR_ROUTE_NOT_FOUND, table)
      end
  end.

(** src/src/core/xgl_hashtable.c:232-250: xgl_hashtable_clear *)
Definition xgl_hashtable_clear (table : xgl_hashtable_t) : M xgl_hashtable_t :=
  match ht_buckets table with
  | NULL => ret table
  | Ptr buckets =>
      buckets ← wr_bytes buckets 0 (replicate (Z.to_nat (ht_size table)) []);
      ret (mk_hashtable (Ptr buckets) (ht_size table) 0)
  end.

(** src/include/xgl/internal/xgl_hashtable.h:121-123: xgl_hashtable_count *)
Definition xgl_hashtable_count (table : xgl_hashtable_t) : Z := ht_count table.
(** src/include/xgl/internal/xgl_hashtable.h:130-132: xgl_hashtable_is_empty *)
Definition xgl_hashtable_is_empty (table : xgl_hashtable_t) : bool := ht_count table =? 0.

(** ** Representation *)

(** The buckets hold exactly the entries of [m], each in the chain its key
    hashes to, no key twice. *)
Definition table_rep (t : xgl_hashtable_t) (m : gmap Z V) : Prop :=
  exists buckets, ht_buckets t = Ptr buckets /\
    (exists k, 0 <= k /\ ht_size t = 2 ^ k) /\ zlen buckets = ht_size t /\
    ht_count t = Z.of_nat (size m) /\
    (forall key, is_u16 key = true ->
       exists chain, rd buckets (xgl_hash key (ht_size t)) = Some chain /\
                     chain_lookup chain key = m !! key /\ NoDup (map he_key chain)) /\
    (forall key, m !! key <> None -> is_u16 key = true).

Lemma hash_range key k : 0 <= k -> 0 <= key -> 0 <= xgl_hash key (2 ^ k) < 2 ^ k.
Proof.
  intros. unfold xgl_hash. replace (2 ^ k - 1) with (Z.ones k) by (rewrite Z.ones_equiv; lia).
  rewrite Z.land_ones by done. apply Z.mod_pos_bound. lia.
Qed.
Lemma power_of_2_spec n : xgl_is_power_of_2 n = true -> exists k, 0 <= k /\ n = 2 ^ k.
Proof.
  unfold xgl_is_power_of_2. intros [Hpos Hz]%andb_true_iff. apply Z.ltb_lt in Hpos. apply Z.eqb_eq in Hz.
  exists (Z.log2 n). split; [apply Z.log2_nonneg|].
  destruct (Z.log2_spec n Hpos) as [Hlo Hhi]. rewrite Z.pow_succ_r in Hhi by apply Z.log2_nonneg.
  destruct (Z.eq_dec n (2 ^ Z.log2 n)) as [|Hne]; [done|exfalso].
  assert (Z.log2 (n - 1) = Z.log2 n) as Hl.
  { apply Z.log2_unique; [apply Z.log2_nonneg|]. rewrite Z.pow_succ_r by apply Z.log2_nonneg. lia. }
  assert (Z.testbit (Z.land n (n - 1)) (Z.log2 n) = true) as Ht.
  { rewrite Z.land_spec, Z.bit_log2 by done. rewrite <- Hl. apply Z.bit_log2.
    assert (0 < 2 ^ Z.log2 n) by (apply Z.pow_pos_nonneg; [lia|apply Z.log2_nonneg]). lia. }
  by rewrite Hz, Z.bits_0 in Ht.
Qed.

Lemma chain_lookup_None chain key : chain_lookup chain key = None <-> key ∉ map he_key chain.
Proof.
  induction chain as [|e chain IH]; cbn; [split; [by intros _ ?%elem_of_nil|done]|].
  rewrite elem_of_cons. destruct (Z.eqb_spec (he_key e) key); [|rewrite IH]; intuition congruence.
Qed.
Lemma chain_update_spec chain key v :
  NoDup (map he_key chain) ->
  match chain_update chain key v with
  | Some chain' =>
      chain_lookup chain key <> None /\ map he_key chain' = map he_key chain /\
      forall k, chain_lookup chain' k = if decide (k = key) then Some v else chain_lookup chain k
  | None => chain_lookup chain key = None
  end.
Proof.
  induction chain as [|e chain IH]; cbn; [done|]. intros [Hnew Hnd]%NoDup_cons.
  destruct (Z.eqb_spec (he_key e) key) as [->|].
  - cbn. split_and!; [done|done|]. intros k. destruct (Z.eqb_spec key k), (decide (k = key)); congruence.
  - specialize (IH Hnd). destruct (chain_update chain key v) as [chain'|]; cbn; [|done].
    destruct IH as (H1 & H2 & H3). split_and!; [done|by rewrite H2|]. intros k. rewrite H3.
    destruct (Z.eqb_spec (he_key e) k), (decide (k = key)); congruence.
Qed.
Lemma chain_remove_spec chain key :
  NoDup (map he_key chain) ->
  match chain_remove chain key with
  | Some chain' =>
      chain_lookup chain key <> None /\ NoDup (map he_key chain') /\
      (forall k, k ∈ map he_key chain' -> k ∈ map he_key chain) /\
      forall k, chain_lookup chain' k = if decide (k = key) then None else chain_lookup chain k
  | None => chain_lookup chain key = None
  end.
Proof.
  induction chain as [|e chain IH]; cbn; [done|]. intros [Hnew Hnd]%NoDup_cons.
  destruct (Z.eqb_spec (he_key e) key) as [Hk|].
  - rewrite Hk in *. split_and!; [done|done|by intros; right|]. intros k.
    destruct (decide (k = key)) as [->|]; [by apply chain_lookup_None|].
    destruct (Z.eqb_spec key k); [congruence|done].
  - specialize (IH Hnd). destruct (chain_remove chain key) as [chain'|]; cbn; [|done].
    destruct IH as (H1 & H2 & H3 & H4). split_and!; [done| | |].
    + constructor; [|done]. by intros ?%H3.
    + intros k. rewrite !elem_of_cons. intros [?|?%H3]; tauto.
    + intros k. rewrite H4. destruct (Z.eqb_spec (he_key e) k), (decide (k = key)); congruence.
Qed.

(** Replacing the chain of one bucket. *)
Lemma table_rep_set t m buckets key chain' m' count' :
  table_rep t m -> ht_buckets t = Ptr buckets -> is_u16 key = true ->
  NoDup (map he_key chain') ->
  (forall chain, rd buckets (xgl_hash key (ht_size t)) = Some chain ->
     forall k, is_u16 k = true ->
       chain_lookup chain' k = if decide (k = key) then m' !! key else chain_lookup chain k) ->
  (forall k, k <> key -> m' !! k = m !! k) -> count' = Z.of_nat (size m') ->
  exists buckets', wr buckets (xgl_hash key (ht_size t)) chain' = Some buckets' /\
    table_rep (mk_hashtable (Ptr buckets') (ht_size t) count') m'.
Proof.
  intros (b & Hb & [k [Hk Hsz]] & Hz & Hc & Hch & Hdom) Hb' Hkey Hnd Hl Hm Hcount.
  rewrite Hb' in Hb. injection Hb as ->.
  pose proof (hash_range key k Hk ltac:(apply is_u16_spec in Hkey; lia)) as Hr. rewrite <- Hsz in Hr.
  rewrite wr_Some by lia. eexists. split; [reflexivity|].
  eexists. split; [reflexivity|]. cbn. split; [by exists k|]. split; [by rewrite zlen_insert|].
  split; [done|]. split.
  - intros key2 Hkey2. destruct (Hch key Hkey) as (chain & Hrd & _ & _).
    destruct (Hch key2 Hkey2) as (chain2 & Hrd2 & Hl2 & Hnd2).
    pose proof (hash_range key2 k Hk ltac:(apply is_u16_spec in Hkey2; lia)) as Hr2. rewrite <- Hsz in Hr2.
    destruct (decide (xgl_hash key2 (ht_size t) = xgl_hash key (ht_size t))) as [E|E].
    + rewrite E in *. rewrite Hrd in Hrd2. injection Hrd2 as <-. exists chain'.
      split; [rewrite rd_lookup by lia; apply list_lookup_insert_eq; unfold zlen in *; lia|].
      split; [|done]. rewrite (Hl _ Hrd _ Hkey2).
      destruct (decide (key2 = key)) as [->|]; [done|]. by rewrite Hm, Hl2.
    + exists chain2. split; [|split; [|done]].
      * rewrite rd_lookup in * by lia. rewrite list_lookup_insert_ne; [done|]. lia.
      * rewrite Hm, Hl2; [done|]. congruence.
  - intros k' Hk'. destruct (decide (k' = key)) as [->|]; [done|]. apply Hdom. by rewrite <- Hm.
Qed.

(** What a client may rely on. *)
Lemma table_lookup t m key :
  table_rep t m -> is_u16 key = true -> xgl_hashtable_lookup t key = Some (m !! key).
Proof.
  intros (b & Hb & _ & _ & _ & Hch & _) Hkey. unfold xgl_hashtable_lookup. rewrite Hb.
  destruct (Hch key Hkey) as (chain & -> & <- & _). done.
Qed.
Lemma table_insert t m key v env :
  table_rep t m -> is_u16 key = true ->
  exists err t' env', xgl_hashtable_insert t key (Ptr v) env = Some (err, t', env') /\
    (if decide (m !! key = None)
     then (err = XGL_OK /\ table_rep t' (<[key := v]> m)) \/ (err = XGL_ERR_NO_MEMORY /\ t' = t)
     else err = XGL_OK /\ env' = env /\ table_rep t' (<[key := v]> m)) /\
    (env = [] -> err = XGL_OK /\ env' = []).
Proof.
  intros Hrep Hkey. pose proof Hrep as (b & Hb & _ & _ & Hc & Hch & Hdom). unfold xgl_hashtable_insert.
  rewrite Hb. destruct (Hch key Hkey) as (chain & Hrd & Hl & Hnd). rewrite Hrd. cbn [mbind option_bind].
  pose proof (chain_update_spec chain key v Hnd) as Hu.
  destruct (chain_update chain key v) as [chain'|].
  - destruct Hu as (Hin & Hkeys & Hl').
    destruct (table_rep_set t m b key chain' (<[key := v]> m) (ht_count t)) as (b' & -> & Hrep');
      try done.
    + by rewrite Hkeys.
    + intros c Hc'. rewrite Hc' in Hrd. injection Hrd as ->. intros k _. rewrite Hl'.
      destruct (decide _); [by rewrite lookup_insert_eq|done].
    + intros k ?. by apply lookup_insert_ne.
    + rewrite Hc, map_size_insert. rewrite Hl in Hin. by destruct (m !! key).
    + cbn [mbind option_bind]. rewrite Hl in Hin. eexists _, _, _. split; [done|].
      by rewrite decide_False.
  - destruct (alloc_answer sizeof_entry env) as [ok env'] eqn:E. rewrite Hl in Hu.
    destruct (decide (m !! key = None)) as [_|]; [|done].
    assert (env = [] -> ok = true /\ env' = []) as Henv by (intros ->; by injection E as <- <-).
    destruct ok; cbn [negb].
    + destruct (table_rep_set t m b key (mk_entry key v :: chain) (<[key := v]> m) (ht_count t + 1))
        as (b' & -> & Hrep'); try done.
      * cbn. constructor; [|done]. rewrite <- chain_lookup_None. by rewrite Hl.
      * intros c Hc'. rewrite Hc' in Hrd. injection Hrd as ->. intros k _. cbn.
        destruct (Z.eqb_spec key k), (decide (k = key)); try congruence. by rewrite lookup_insert_eq.
      * intros k ?. by apply lookup_insert_ne.
      * rewrite Hc, map_size_insert, Hu. lia.
      * cbn [mbind option_bind]. eexists _, _, _. split; [done|]. split; [by left|].
        intros He. by destruct (Henv He).
    + eexists _, _, _. split; [done|]. split; [by right|]. intros He. by destruct (Henv He).
Qed.
Lemma table_remove t m key :
  table_rep t m -> is_u16 key = true ->
  exists t', xgl_hashtable_remove t key =
      Some (if decide (m !! key = None) then XGL_ERR_ROUTE_NOT_FOUND else XGL_OK, t') /\
    table_rep t' (delete key m).
Proof.
  intros Hrep Hkey. pose proof Hrep as (b & Hb & _ & _ & Hc & Hch & Hdom). unfold xgl_hashtable_remove.
  rewrite Hb. destruct (Hch key Hkey) as (chain & Hrd & Hl & Hnd). rewrite Hrd. cbn [mbind option_bind].
  pose proof (chain_remove_spec chain key Hnd) as Hu. rewrite Hl in Hu.
  destruct (chain_remove chain key) as [chain'|].
  - destruct Hu as (Hin & Hnd' & _ & Hl'). rewrite decide_False by done.
    destruct (table_rep_set t m b key chain' (delete key m) (ht_count t - 1)) as (b' & -> & Hrep');
      try done.
    + intros c Hc'. rewrite Hc' in Hrd. injection Hrd as ->. intros k _. rewrite Hl'.
      destruct (decide _); [by rewrite lookup_delete_eq|done].
    + intros k ?. by apply lookup_delete_ne.
    + rewrite map_size_delete. destruct (m !! key) as [v|] eqn:E; [|done].
      assert (size m <> 0%nat) by (intros ->%map_size_empty_iff; done). lia.
    + by eexists.
  - exists t. rewrite decide_True by done. split; [done|]. by rewrite delete_id.
Qed.
Lemma empty_buckets_rep n :
  xgl_is_power_of_2 n = true -> table_rep (mk_hashtable (Ptr (replicate (Z.to_nat n) [])) n 0) ∅.
Proof.
  intros Hn. pose proof (power_of_2_spec n Hn) as (k & Hk & ->). eexists. split; [done|]. cbn.
  assert (0 < 2 ^ k) by (apply Z.pow_pos_nonneg; lia).
  split; [by exists k|]. split; [unfold zlen; rewrite length_replicate; lia|].
  split; [done|]. split; [|done].
  intros key Hkey%is_u16_spec. pose proof (hash_range key k Hk ltac:(lia)). exists [].
  split; [|split; [done|constructor]]. rewrite rd_lookup by lia. apply lookup_replicate_2. lia.
Qed.
Lemma table_clear t m : table_rep t m -> exists t', xgl_hashtable_clear t = Some t' /\ table_rep t' ∅.
Proof.
  intros (b & Hb & [k [Hk Hsz]] & Hz & _). unfold xgl_hashtable_clear. rewrite Hb.
  assert (0 < 2 ^ k) by (apply Z.pow_pos_nonneg; lia).
  assert (zlen (replicate (Z.to_nat (ht_size t)) (@nil xgl_hashtable_entry_t)) = ht_size t) as Hr
    by (unfold zlen; rewrite length_replicate; lia).
  rewrite wr_bytes_Some by lia. rewrite Hr, drop_ge by (unfold zlen in *; lia).
  cbn [mbind option_bind]. eexists. split; [reflexivity|]. cbn [take]. rewrite app_nil_r, Hsz.
  apply empty_buckets_rep. unfold xgl_is_power_of_2. apply andb_true_iff. split; [lia|].
  apply Z.eqb_eq. replace (2 ^ k - 1) with (Z.ones k) by (rewrite Z.ones_equiv; lia).
  rewrite Z.land_ones by done. apply Z.mod_same. lia.
Qed.
End HashTable.
Arguments xgl_hashtable_t : clear implicits.
Arguments xgl_hashtable_entry_t : clear implicits.

(** ** Properties *)

(** The hash table is a finite map over 16-bit keys: a freshly initialised
    table (any power of two of buckets) is empty; lookup returns the value of
    the map; insertion updates a present key without allocating, adds a missing
    one, and on NO_MEMORY leaves the table alone; removal deletes the key or
    reports ROUTE_NOT_FOUND; clear empties the table; the count is the size of
    the map.  No bucket is accessed out of bounds. *)
Theorem hashtable_refines_map {V : Type} (t0 t : xgl_hashtable_t V) (m : gmap Z V) (key n : Z) (v : V)
    (env : heap_answers) :
  table_rep t m -> is_u16 key = true -> xgl_is_power_of_2 n = true ->
  (exists err t' env', xgl_hashtable_init t0 n env = (err, t', env') /\
     (err = XGL_OK /\ table_rep t' (∅ : gmap Z V) \/ err = XGL_ERR_NO_MEMORY)) /\
  xgl_hashtable_lookup t key = Some (m !! key) /\
  (exists err t' env', xgl_hashtable_insert t key (Ptr v) env = Some (err, t', env') /\
     (err = XGL_OK /\ table_rep t' (<[key := v]> m) \/
      err = XGL_ERR_NO_MEMORY /\ t' = t /\ m !! key = None)) /\
  (exists t', xgl_hashtable_remove t key =
      Some (if decide (m !! key = None) then XGL_ERR_ROUTE_NOT_FOUND else XGL_OK, t') /\
    table_rep t' (delete key m)) /\
  (exists t', xgl_hashtable_clear t = Some t' /\ table_rep t' ∅) /\
  xgl_hashtable_count t = Z.of_nat (size m).
Proof.
  intros Hrep Hkey Hn. split; [|split; [by apply table_lookup|split; [|split; [by apply table_remove|
    split; [by eapply table_clear|by destruct Hrep as (?&_&_&_&?&_)]]]]].
  - unfold xgl_hashtable_init. rewrite Hn. cbn [negb].
    destruct (alloc_answer _ env) as [[] env']; eexists _, _, _; (split; [done|]); [|by right].
    left. split; [done|]. by apply empty_buckets_rep.
  - destruct (table_insert t m key v env Hrep Hkey) as (err & t' & env' & -> & Hres & _).
    eexists _, _, _. split; [done|]. destruct (decide (m !! key = None)); [|left; tauto].
    destruct Hres as [?|[-> ->]]; [by left|by right].
Qed.
Lemma hashtable_refines_map_witness :
  let t := mk_hashtable (V := Z) (Ptr [[]; []]) 2 0 in
  exists err t' env', xgl_hashtable_insert t 7 (Ptr 70) [] = Some (err, t', env') /\
     (err = XGL_OK /\ table_rep t' {[7 := 70]} \/
      err = XGL_ERR_NO_MEMORY /\ t' = t /\ (∅ : gmap Z Z) !! 7 = None).
Proof.
  intros t.
  refine (proj1 (proj2 (proj2 (hashtable_refines_map t t ∅ 7 2 70 [] _ eq_refl eq_refl)))).
  exact (empty_buckets_rep 2 eq_refl).
Defined.
