(* ===== verification/Route.v ===== *)
(** * Route table (include/xgl/internal/xgl_route.h, src/network/xgl_route.c,
    xgl_route_lookup.c, xgl_route_mutation.c, xgl_route_load.c)

    An array of routes with a hash table that maps a target to a pointer into
    the array.  The array is reallocated when it grows and compacted when a route
    is removed, so the pointers have to be refreshed: a pointer is modelled as
    the generation of the array it points into and an index, and dereferencing a
    pointer of an earlier generation is an error.  The table is shown to be a
    finite map with no dangling pointer. *)
From S2P Require Import Prelude Errors HashTable.

(** ** Data *)

Definition XGL_ROUTE_TABLE_DEFAULT_SIZE : Z := 16.
Definition XGL_ROUTE_METRIC_MAX : Z := 255.
Definition XGL_ROUTE_METRIC_DEFAULT : Z := 100.

(** A physical interface ([xgl_phy_ops_t *]) is known by its number. *)
(** src/include/xgl/xgl_types.h:174-180: xgl_route_item_t *)
Record xgl_route_item_t := mk_route {
  ri_target_id : Z;
  ri_phy : ptr Z;
  ri_max_frame_size : Z;
  ri_read_freq_hz : Z;
  ri_metric : Z
}.
#[export] Instance eta_route : EtaRecord xgl_route_item_t := Eta (fun r =>
  mk_route (ri_target_id r) (ri_phy r) (ri_max_frame_size r) (ri_read_freq_hz r) (ri_metric r)).
Definition zero_route : xgl_route_item_t := mk_route 0 NULL 0 0 0.

(** [xgl_route_item_t *]: the generation of the array and the index. *)
Abbreviation route_ptr := (Z * Z)%type.

(** [rt_generation] numbers the arrays [rt_routes] has pointed to. *)
(** src/include/xgl/internal/xgl_route.h:47-53: xgl_route_table_t *)
Record xgl_route_table_t := mk_route_table {
  rt_hashtable : xgl_hashtable_t route_ptr;
  rt_routes : ptr (list xgl_route_item_t);
  rt_generation : Z;
  rt_route_count : Z;
  rt_route_capacity : Z
}.
#[export] Instance eta_route_table : EtaRecord xgl_route_table_t := Eta (fun t =>
  mk_route_table (rt_hashtable t) (rt_routes t) (rt_generation t) (rt_route_count t)
    (rt_route_capacity t)).
Definition sizeof_route_item : Z := 32.

(** [*route] for a pointer held by the hash table. *)
Definition deref_route (table : xgl_route_table_t) (p : route_ptr) : M xgl_route_item_t :=
  if fst p =? rt_generation table then routes ← rt_routes table; rd routes (snd p) else None.

(** ** Operations *)

(** src/src/network/xgl_route.c:39-79: xgl_route_table_init *)
Definition xgl_route_table_init (initial_capacity : Z) (generation : Z) (env : heap_answers)
    : xgl_error_t * xgl_route_table_t * heap_answers :=
  let zero := mk_route_table (mk_hashtable NULL 0 0) NULL generation 0 0 in
  let '(err, ht, env) :=
    xgl_hashtable_init (mk_hashtable NULL 0 0) XGL_ROUTE_TABLE_DEFAULT_SIZE env in
  let table := zero <| rt_hashtable := ht |> in
  if negb (is_ok err) then (err, table, env)
  else if 0 <? initial_capacity then
    let '(ok, env) := alloc_answer (sizeof_route_item * initial_capacity) env in
    if negb ok
    then (XGL_ERR_NO_MEMORY, table <| rt_hashtable := xgl_hashtable_destroy ht |>, env)
    else (XGL_OK, table <| rt_routes := Ptr (replicate (Z.to_nat initial_capacity) zero_route) |>
                        <| rt_route_capacity := initial_capacity |>, env)
  else (XGL_OK, table, env).

(** src/src/network/xgl_route.c:84-101: xgl_route_table_destroy *)
Definition xgl_route_table_destroy (table : xgl_route_table_t) : xgl_route_table_t :=
  table <| rt_hashtable := xgl_hashtable_destroy (rt_hashtable table) |>
        <| rt_routes := NULL |> <| rt_route_count := 0 |> <| rt_route_capacity := 0 |>.

(** The loop with [n] routes left to look at, [i] the next. *)
(** src/src/network/xgl_route_mutation.c:22-27: xgl_route_find_index *)
Fixpoint find_index_loop (table : xgl_route_table_t) (target_id : Z) (n : nat) (i : Z) : M Z :=
  match n with
  | O => ret (-1)
  | S n =>
      routes ← rt_routes table;
      route ← rd routes i;
      if ri_target_id route =? target_id then ret i
      else find_index_loop table target_id n (i + 1)
  end.
(** src/src/network/xgl_route_mutation.c:20-28: xgl_route_find_index *)
Definition xgl_route_find_index (table : xgl_route_table_t) (target_id : Z) : M Z :=
  find_index_loop table target_id (Z.to_nat (rt_route_count table)) 0.

(** The loops that store the addresses of [n] routes from index [i] on in the
    hash table; the result of each insertion is ignored. *)
(** src/src/network/xgl_route_mutation.c:59-63: xgl_route_grow_capacity *)
Fixpoint reindex_loop (table : xgl_route_table_t) (n : nat) (i : Z) (env : heap_answers)
    : M (xgl_route_table_t * heap_answers) :=
  match n with
  | O => ret (table, env)
  | S n =>
      routes ← rt_routes table;
      route ← rd routes i;
      '(_, ht, env) ← xgl_hashtable_insert (rt_hashtable table) (ri_target_id route)
                        (Ptr (rt_generation table, i)) env;
      reindex_loop (table <| rt_hashtable := ht |>) n (i + 1) env
  end.

(** src/src/network/xgl_route_mutation.c:33-66: xgl_route_grow_capacity *)
Definition xgl_route_grow_capacity (table : xgl_route_table_t) (env : heap_answers)
    : M (xgl_error_t * xgl_route_table_t * heap_answers) :=
  let new_capacity := rt_route_capacity table * 2 in
  let new_capacity := if new_capacity =? 0 then XGL_ROUTE_TABLE_DEFAULT_SIZE else new_capacity in
  let '(ok, env) := alloc_answer (sizeof_route_item * new_capacity) env in
  if negb ok then ret (XGL_ERR_NO_MEMORY, table, env)
  else
    let new_routes := replicate (Z.to_nat new_capacity) zero_route in
    new_routes ←
      match rt_routes table with
      | Ptr routes =>
          if 0 <? rt_route_count table then
            old ← rd_bytes routes 0 (rt_route_count table);
            wr_bytes new_routes 0 old
          else ret new_routes
      | NULL => ret new_routes
      end;
    let table := table <| rt_routes := Ptr new_routes |>
                       <| rt_generation := rt_generation table + 1 |>
                       <| rt_route_capacity := new_capacity |> in
    '(table, env) ← reindex_loop table (Z.to_nat (rt_route_count table)) 0 env;
    ret (XGL_OK, table, env).

(** src/src/network/xgl_route_mutation.c:75-123: xgl_route_table_add *)
Definition xgl_route_table_add (table : xgl_route_table_t) (target_id : Z) (phy : ptr Z)
    (max_frame_size read_freq_hz metric : Z) (env : heap_answers)
    : M (xgl_error_t * xgl_route_table_t * heap_answers) :=
  match phy with
  | NULL => ret (XGL_ERR_INVALID_PARAM, table, env)
  | Ptr _ =>
      existing_index ← xgl_route_find_index table target_id;
      if 0 <=? existing_index then
        routes ← rt_routes table;
        route ← rd routes existing_index;
        routes ← wr routes existing_index
          (route <| ri_phy := phy |> <| ri_max_frame_size := max_frame_size |>
                 <| ri_read_freq_hz := read_freq_hz |> <| ri_metric := metric |>);
        let table := table <| rt_routes := Ptr routes |> in
        '(err, ht, env) ← xgl_hashtable_insert (rt_hashtable table) target_id
                            (Ptr (rt_generation table, existing_index)) env;
        ret (err, table <| rt_hashtable := ht |>, env)
      else
        '(err, table, env) ←
          (if rt_route_capacity table <=? rt_route_count table
           then xgl_route_grow_capacity table env else ret (XGL_OK, table, env));
        if negb (is_ok err) then ret (err, table, env)
        else
          routes ← rt_routes table;
          routes ← wr routes (rt_route_count table)
            (mk_route target_id phy max_frame_size read_freq_hz metric);
          let table := table <| rt_routes := Ptr routes |> in
          '(err, ht, env) ← xgl_hashtable_insert (rt_hashtable table) target_id
                              (Ptr (rt_generation table, rt_route_count table)) env;
          let table := table <| rt_hashtable := ht |> in
          if negb (is_ok err) then ret (err, table, env)
          else ret (XGL_OK, table <| rt_route_count := rt_route_count table + 1 |>, env)
  end.

(** src/src/network/xgl_route_mutation.c:128-160: xgl_route_table_remove *)
Definition xgl_route_table_remove (table : xgl_route_table_t) (target_id : Z) (env : heap_answers)
    : M (xgl_error_t * xgl_route_table_t * heap_answers) :=
  index ← xgl_route_find_index table target_id;
  if index <? 0 then ret (XGL_ERR_ROUTE_NOT_FOUND, table, env)
  else
    '(err, ht) ← xgl_hashtable_remove (rt_hashtable table) target_id;
    let table := table <| rt_hashtable := ht |> in
    if negb (is_ok err) then ret (err, table, env)
    else
      '(table, env) ←
        (if index <? rt_route_count table - 1 then
           let n := rt_route_count table - index - 1 in
           routes ← rt_routes table;
           moved ← rd_bytes routes (index + 1) n;
           routes ← wr_bytes routes index moved;
           reindex_loop (table <| rt_routes := Ptr routes |>) (Z.to_nat n) index env
         else ret (table, env));
      ret (XGL_OK, table <| rt_route_count := rt_route_count table - 1 |>, env).

(** src/src/network/xgl_route_mutation.c:165-172: xgl_route_table_clear *)
Definition xgl_route_table_clear (table : xgl_route_table_t) : M xgl_route_table_t :=
  ht ← xgl_hashtable_clear (rt_hashtable table);
  ret (table <| rt_hashtable := ht |> <| rt_route_count := 0 |>).

(** src/src/network/xgl_route_lookup.c:13-20: xgl_route_table_lookup *)
Definition xgl_route_table_lookup (table : xgl_route_table_t) (target_id : Z) : M (ptr route_ptr) :=
  xgl_hashtable_lookup (rt_hashtable table) target_id.

(** src/src/network/xgl_route_lookup.c:26-41: xgl_route_table_update_metric *)
Definition xgl_route_table_update_metric (table : xgl_route_table_t) (target_id metric : Z)
    : M (xgl_error_t * xgl_route_table_t) :=
  route ← xgl_route_table_lookup table target_id;
  match route with
  | NULL => ret (XGL_ERR_ROUTE_NOT_FOUND, table)
  | Ptr p =>
      route ← deref_route table p;
      routes ← rt_routes table;
      routes ← wr routes (snd p) (route <| ri_metric := metric |>);
      ret (XGL_OK, table <| rt_routes := Ptr routes |>)
  end.

(** The loop over the configured routes, [n] of them left. *)
(** src/src/network/xgl_route_load.c:25-37: xgl_route_table_load *)
Fixpoint route_load_loop (table : xgl_route_table_t) (routes : list xgl_route_item_t) (n : nat)
    (i : Z) (env : heap_answers) : M (xgl_error_t * xgl_route_table_t * heap_answers) :=
  match n with
  | O => ret (XGL_OK, table, env)
  | S n =>
      r ← rd routes i;
      '(err, table, env) ← xgl_route_table_add table (ri_target_id r) (ri_phy r)
                             (ri_max_frame_size r) (ri_read_freq_hz r) (ri_metric r) env;
      if negb (is_ok err) then ret (err, table, env)
      else route_load_loop table routes n (i + 1) env
  end.
(** src/src/network/xgl_route_load.c:12-38: xgl_route_table_load *)
Definition xgl_route_table_load (table : xgl_route_table_t) (routes : ptr (list xgl_route_item_t))
    (count : Z) (env : heap_answers) : M (xgl_error_t * xgl_route_table_t * heap_answers) :=
  match routes with
  | NULL =>
      if 0 <? count then ret (XGL_ERR_INVALID_PARAM, table, env)
      else table ← xgl_route_table_clear table; ret (XGL_OK, table, env)
  | Ptr routes =>
      table ← xgl_route_table_clear table;
      route_load_loop table routes (Z.to_nat count) 0 env
  end.

(** src/include/xgl/internal/xgl_route.h:133-135: xgl_route_table_count *)
Definition xgl_route_table_count (table : xgl_route_table_t) : Z := rt_route_count table.
(** src/include/xgl/internal/xgl_route.h:142-144: xgl_route_table_is_empty *)
Definition xgl_route_table_is_empty (table : xgl_route_table_t) : bool := rt_route_count table =? 0.

(** ** Representation *)

(** The hash table [hm] holds, for each route of [es], its address in the
    current array, and nothing else. *)
Definition indexes (hm : gmap Z route_ptr) (gen : Z) (es : list xgl_route_item_t) : Prop :=
  (forall k p, hm !! k = Some p ->
     exists i r, es !! i = Some r /\ ri_target_id r = k /\ p = (gen, Z.of_nat i)) /\
  (forall i r, es !! i = Some r -> hm !! ri_target_id r = Some (gen, Z.of_nat i)).

(** The table holds the routes [es], in this order. *)
Definition route_rep (t : xgl_route_table_t) (es : list xgl_route_item_t) : Prop :=
  rt_route_count t = zlen es /\ zlen es <= rt_route_capacity t /\
  match rt_routes t with
  | NULL => rt_route_capacity t = 0
  | Ptr routes => rt_route_capacity t = zlen routes /\ take (length es) routes = es
  end /\
  NoDup (map ri_target_id es) /\ Forall (fun r => is_u16 (ri_target_id r) = true) es /\
  exists hm, table_rep (rt_hashtable t) hm /\ indexes hm (rt_generation t) es.

(** The map the sequence of routes stands for. *)
Definition route_map (es : list xgl_route_item_t) : gmap Z xgl_route_item_t :=
  list_to_map (map (fun r => (ri_target_id r, r)) es).

Lemma route_keys es : (map (fun r => (ri_target_id r, r)) es).*1 = map ri_target_id es.
Proof. induction es as [|r es IH]; [done|]. cbn. by f_equal. Qed.
Lemma target_inj es i j r r' :
  NoDup (map ri_target_id es) -> es !! i = Some r -> es !! j = Some r' ->
  ri_target_id r = ri_target_id r' -> i = j.
Proof.
  intros Hnd Hi Hj E. apply (NoDup_lookup _ i j (ri_target_id r) Hnd);
    rewrite list_lookup_fmap; [by rewrite Hi|by rewrite Hj, E].
Qed.
Lemma route_map_Some es k r :
  NoDup (map ri_target_id es) ->
  route_map es !! k = Some r <-> exists i, es !! i = Some r /\ ri_target_id r = k.
Proof.
  intros Hnd. unfold route_map. rewrite <- elem_of_list_to_map by (by rewrite route_keys).
  rewrite list_elem_of_In, in_map_iff. split.
  - intros (r' & Heq & Hin). injection Heq as <- <-.
    apply list_elem_of_In, list_elem_of_lookup in Hin as [i Hi]. by exists i.
  - intros (i & Hi & <-). exists r. split; [done|]. apply list_elem_of_In. by eapply list_elem_of_lookup_2.
Qed.
Lemma route_map_None es k :
  route_map es !! k = None <-> k ∉ map ri_target_id es.
Proof. unfold route_map. by rewrite <- not_elem_of_list_to_map, route_keys. Qed.
Lemma not_target es k i r : k ∉ map ri_target_id es -> es !! i = Some r -> ri_target_id r <> k.
Proof.
  intros Hk Hi <-. apply Hk. apply list_elem_of_lookup. exists i.
  by rewrite list_lookup_fmap, Hi.
Qed.
Lemma indexes_intro hm gen es :
  NoDup (map ri_target_id es) ->
  (forall k p, hm !! k = Some p ->
     exists i r, es !! i = Some r /\ ri_target_id r = k /\ p = (gen, Z.of_nat i)) ->
  (forall i r, es !! i = Some r -> hm !! ri_target_id r <> None) -> indexes hm gen es.
Proof.
  intros Hnd H1 H2. split; [done|]. intros i r Hi. specialize (H2 i r Hi).
  destruct (hm !! ri_target_id r) as [p|] eqn:E; [|done].
  destruct (H1 _ _ E) as (j & r' & Hj & Ht & ->).
  by rewrite (target_inj es i j r r').
Qed.

(** The array behind the represented routes. *)
Lemma route_rep_lookup t es i r :
  route_rep t es -> es !! i = Some r ->
  exists routes, rt_routes t = Ptr routes /\ routes !! i = Some r /\ (length es <= length routes)%nat /\
                 take (length es) routes = es /\ zlen routes = rt_route_capacity t.
Proof.
  intros (Hc & Hle & Hr & _) Hi. pose proof (lookup_lt_Some _ _ _ Hi) as Hlt.
  destruct (rt_routes t) as [routes|]; [|unfold zlen in *; lia].
  destruct Hr as [Hcap Htake]. exists routes. split_and!; [done| |unfold zlen in *; lia|done|done].
  rewrite <- Htake in Hi. rewrite lookup_take_lt in Hi by lia. done.
Qed.
Lemma route_rep_rd t es i r :
  route_rep t es -> es !! i = Some r ->
  exists routes, rt_routes t = Ptr routes /\ rd routes (Z.of_nat i) = Some r.
Proof.
  intros Hrep Hi. destruct (route_rep_lookup t es i r Hrep Hi) as (routes & Hr & Hl & _).
  exists routes. split; [done|]. by rewrite rd_lookup, Nat2Z.id by lia.
Qed.

(** ** Searching *)

Definition find_target (es : list xgl_route_item_t) (k : Z) : Z :=
  match list_find (fun r => ri_target_id r = k) es with
  | Some (i, _) => Z.of_nat i
  | None => -1
  end.
Lemma find_index_loop_spec t es k n : forall i,
  route_rep t es -> (i + n = length es)%nat ->
  find_index_loop t k n (Z.of_nat i) =
    Some (match list_find (fun r => ri_target_id r = k) (drop i es) with
          | Some (j, _) => Z.of_nat (i + j)
          | None => -1
          end).
Proof.
  induction n as [|n IH]; intros i Hrep Hlen.
  { rewrite drop_ge by lia. done. }
  destruct (lookup_lt_is_Some_2 es i ltac:(lia)) as [r Hr].
  destruct (route_rep_rd t es i r Hrep Hr) as (routes & Hroutes & Hrd).
  cbn [find_index_loop]. rewrite Hroutes. cbn [mbind option_bind]. rewrite Hrd. cbn [mbind option_bind].
  rewrite (drop_S _ _ _ Hr). cbn [list_find].
  destruct (Z.eqb_spec (ri_target_id r) k); destruct (decide _); try done.
  { by rewrite Nat.add_0_r. }
  replace (Z.of_nat i + 1) with (Z.of_nat (S i)) by lia. rewrite IH by (done || lia).
  destruct (list_find _ _) as [[j ?]|]; [|done]. cbn. f_equal. lia.
Qed.
Lemma find_index_spec t es k :
  route_rep t es -> xgl_route_find_index t k = Some (find_target es k).
Proof.
  intros Hrep. pose proof Hrep as (Hc & _). unfold xgl_route_find_index, find_target. rewrite Hc.
  pose proof (find_index_loop_spec t es k (length es) 0 Hrep eq_refl) as H. cbn in H.
  unfold zlen. by rewrite Nat2Z.id.
Qed.
Lemma find_target_spec es k :
  (find_target es k = -1 /\ k ∉ map ri_target_id es) \/
  (exists i r, find_target es k = Z.of_nat i /\ es !! i = Some r /\ ri_target_id r = k).
Proof.
  unfold find_target. destruct (list_find _ es) as [[i r]|] eqn:E.
  - apply list_find_Some in E as (Hi & Hk & _). right. by exists i, r.
  - left. split; [done|]. apply list_find_None in E. intros Hin.
    apply list_elem_of_In, in_map_iff in Hin as (r & Hk & Hin). rewrite Forall_forall in E.
    by apply (E r); [apply list_elem_of_In|].
Qed.

(** ** Refreshing the pointers *)
(** Writing positions [i .. i+n-1] of the array again into the index [hm] gives [hm']. *)
Definition reindexed (hm hm' : gmap Z route_ptr) (g : Z) (routes : list xgl_route_item_t) (i n : nat) : Prop :=
  (forall k, hm' !! k = None <-> hm !! k = None) /\
  (forall k p, hm' !! k = Some p ->
     (exists j r, (i <= j < i + n)%nat /\ routes !! j = Some r /\ ri_target_id r = k /\ p = (g, Z.of_nat j)) \/
     (hm !! k = Some p /\ forall j r, (i <= j < i + n)%nat -> routes !! j = Some r -> ri_target_id r <> k)).

Lemma reindex_loop_spec n : forall t i env hm routes,
  rt_routes t = Ptr routes -> (i + n <= length routes)%nat -> table_rep (rt_hashtable t) hm ->
  (forall j r, (i <= j < i + n)%nat -> routes !! j = Some r ->
     is_u16 (ri_target_id r) = true /\ hm !! ri_target_id r <> None) ->
  exists ht' hm',
    reindex_loop t n (Z.of_nat i) env = Some (t <| rt_hashtable := ht' |>, env) /\
    table_rep ht' hm' /\ reindexed hm hm' (rt_generation t) routes i n.
Proof.
  induction n as [|n IH]; intros t i env hm routes Hr Hlen Hrep Hpre.
  { exists (rt_hashtable t), hm. split; [by destruct t|]. split; [done|]. split; [done|].
    intros k p Hp. right. split; [done|]. lia. }
  destruct (lookup_lt_is_Some_2 routes i ltac:(lia)) as [r Hi].
  destruct (Hpre i r ltac:(lia) Hi) as [Hu Hin].
  cbn [reindex_loop]. rewrite Hr. cbn [mbind option_bind]. rewrite rd_lookup, Nat2Z.id, Hi by lia.
  cbn [mbind option_bind].
  destruct (table_insert _ hm (ri_target_id r) (rt_generation t, Z.of_nat i) env Hrep Hu)
    as (err & ht1 & env1 & -> & Hres & _).
  destruct (decide (hm !! ri_target_id r = None)) as [|_]; [done|]. destruct Hres as (-> & -> & Hrep1).
  cbn [mbind option_bind]. replace (Z.of_nat i + 1) with (Z.of_nat (S i)) by lia.
  destruct (IH (t <| rt_hashtable := ht1 |>) (S i) env
    (<[ri_target_id r := (rt_generation t, Z.of_nat i)]> hm) routes) as (ht' & hm' & -> & Hrep' & HN & HS);
    [by destruct t|lia|done| |].
  { intros j r' Hj Hl. destruct (Hpre j r' ltac:(lia) Hl) as [? Hin']. split; [done|].
    rewrite lookup_insert_None. tauto. }
  exists ht', hm'. split; [by destruct t|]. split; [done|]. split.
  - intros k. rewrite HN, lookup_insert_None. split; [tauto|]. intros Hk. split; [done|]. congruence.
  - intros k p Hp. destruct (HS k p Hp) as [(j & r' & Hj & Hl & Hk & ->)|[Hk Hno]].
    + left. exists j, r'. split_and!; [lia..|done|done|by destruct t].
    + apply lookup_insert_Some in Hk as [[<- <-]|[Hne Hk]].
      * left. exists i, r. split_and!; [lia..|done|done|done].
      * right. split; [done|]. intros j r' Hj Hl. destruct (decide (j = i)) as [->|]; [congruence|].
        apply (Hno j r'); [lia|done].
Qed.

(** ** The operations on the represented routes *)

Lemma route_lookup_rep t es k :
  route_rep t es -> is_u16 k = true ->
  exists p, xgl_route_table_lookup t k = Some p /\
    match p with
    | NULL => route_map es !! k = None
    | Ptr p => deref_route t p = route_map es !! k /\ route_map es !! k <> None
    end.
Proof.
  intros Hrep Hk. pose proof Hrep as (_ & _ & _ & Hnd & _ & hm & Hht & H1 & H2).
  unfold xgl_route_table_lookup. rewrite (table_lookup _ hm) by done.
  exists (hm !! k). split; [done|]. destruct (hm !! k) as [p|] eqn:E.
  - destruct (H1 _ _ E) as (i & r & Hi & Ht & ->).
    destruct (route_rep_rd t es i r Hrep Hi) as (routes & Hr & Hrd).
    assert (route_map es !! k = Some r) as -> by (apply route_map_Some; [done|by exists i]).
    unfold deref_route. cbn. rewrite Z.eqb_refl, Hr. cbn. by rewrite Hrd.
  - apply route_map_None. intros Hin. apply list_elem_of_In, in_map_iff in Hin as (r & <- & Hin).
    apply list_elem_of_In, list_elem_of_lookup in Hin as [i Hi]. by rewrite (H2 i r Hi) in E.
Qed.

Lemma route_clear_rep t es :
  route_rep t es ->
  exists t', xgl_route_table_clear t = Some t' /\ route_rep t' [] /\
    rt_route_capacity t' = rt_route_capacity t.
Proof.
  intros (Hc & Hle & Hr & _ & _ & hm & Hht & _). unfold xgl_route_table_clear.
  destruct (table_clear _ hm Hht) as (ht' & -> & Hht'). cbn [mbind option_bind].
  eexists. split; [reflexivity|]. split; [|by destruct t]. pose proof (zlen_nonneg es).
  unfold route_rep. destruct t as [ht routes gen count cap]; cbn in *.
  split; [done|]. split; [unfold zlen; cbn; lia|]. split; [by destruct routes as [routes|]; [destruct Hr|]|].
  split; [constructor|]. split; [constructor|]. exists ∅. split; [done|]. by split.
Qed.

(** The entries move to the front of the larger array. *)
Lemma grow_copy t es cap :
  route_rep t es -> zlen es <= cap ->
  exists tl, match rt_routes t with
    | Ptr routes => if 0 <? rt_route_count t then
        old ← rd_bytes routes 0 (rt_route_count t);
        wr_bytes (replicate (Z.to_nat cap) zero_route) 0 old
        else ret (replicate (Z.to_nat cap) zero_route)
    | NULL => ret (replicate (Z.to_nat cap) zero_route) end = Some (es ++ tl) /\ zlen (es ++ tl) = cap.
Proof.
  intros (Hc & Hle & Hr & _) Hcap. pose proof (zlen_nonneg es).
  set (blank := replicate (Z.to_nat cap) zero_route).
  assert (zlen blank = cap) as Hblank by (unfold zlen, blank; rewrite length_replicate; lia).
  destruct (rt_routes t) as [routes|].
  - destruct Hr as [Hcapr Htake]. destruct (Z.ltb_spec 0 (rt_route_count t)).
    + rewrite rd_bytes_Some by lia. cbn [drop]. rewrite Hc. unfold zlen at 1. rewrite Nat2Z.id.
      change (drop (Z.to_nat 0) routes) with routes. rewrite Htake. cbn [mbind option_bind].
      assert (exists tl, wr_bytes blank 0 es = Some (es ++ tl)) as [tl Hw].
      { rewrite wr_bytes_Some by lia. by eexists. }
      exists tl. split; [done|]. by rewrite (wr_bytes_zlen _ _ _ _ Hw).
    + assert (es = []) as -> by (apply zlen_0_nil; lia). by exists blank.
  - assert (es = []) as -> by (apply zlen_0_nil; lia). by exists blank.
Qed.

Lemma route_grow_rep t es env :
  route_rep t es -> rt_route_capacity t <= rt_route_count t ->
  exists err t' env', xgl_route_grow_capacity t env = Some (err, t', env') /\
    (err = XGL_OK /\ route_rep t' es /\ rt_route_count t' < rt_route_capacity t' \/
     err = XGL_ERR_NO_MEMORY /\ t' = t) /\
    (env = [] -> err = XGL_OK /\ env' = []).
Proof.
  intros Hrep Hfull. pose proof Hrep as (Hc & Hle & Hr & Hnd & Hu & hm & Hht & H1 & H2).
  pose proof (zlen_nonneg es). unfold xgl_route_grow_capacity.
  set (cap := if _ =? 0 then _ else _).
  assert (zlen es < cap) as Hcap.
  { unfold cap, XGL_ROUTE_TABLE_DEFAULT_SIZE. destruct (Z.eqb_spec (rt_route_capacity t * 2) 0); lia. }
  destruct (alloc_answer _ env) as [ok env1] eqn:E.
  assert (env = [] -> ok = true /\ env1 = []) as Henv.
  { intros ->. unfold alloc_answer, sizeof_route_item in E.
    replace (32 * cap =? 0) with false in E by lia. by injection E as <- <-. }
  destruct ok; cbn [negb].
  2:{ eexists _, _, _. split; [done|]. split; [by right|]. intros He. by destruct (Henv He). }
  destruct (grow_copy t es cap Hrep ltac:(lia)) as (tl & -> & Htl).
  cbn [mbind option_bind].
  set (t1 := t <| rt_routes := Ptr (es ++ tl) |> <| rt_generation := rt_generation t + 1 |>
               <| rt_route_capacity := cap |>).
  change (rt_route_count t1) with (rt_route_count t). rewrite Hc. unfold zlen at 1. rewrite Nat2Z.id.
  assert (forall j r, (j < length es)%nat -> (es ++ tl) !! j = Some r -> es !! j = Some r) as Hes
    by (intros j r Hj Hl; by rewrite lookup_app_l in Hl).
  destruct (reindex_loop_spec (length es) t1 0 env1 hm (es ++ tl)) as (ht' & hm' & Hrun & Hht' & HN & HS).
  { done. } { rewrite length_app. lia. } { done. }
  { intros j r Hj Hl%Hes; [|lia]. rewrite Forall_lookup in Hu. split; [by eapply Hu|].
    by rewrite (H2 _ _ Hl). }
  change (Z.of_nat 0) with 0 in Hrun. rewrite Hrun. cbn [mbind option_bind].
  eexists _, _, _. split; [done|]. split; [|intros He; by destruct (Henv He)].
  left. split; [done|]. split; [|by change (rt_route_count t < cap); lia].
  split; [done|]. split; [change (zlen es <= cap); lia|]. split; [|split; [done|split; [done|]]].
  { change (cap = zlen (es ++ tl) /\ take (length es) (es ++ tl) = es). split; [done|]. apply take_app_length. }
  exists hm'. split; [done|]. apply indexes_intro; [done| |].
  - intros k p Hp. destruct (HS k p Hp) as [(j & r & Hj & Hl & Hk & ->)|[Hk Hno]].
    + exists j, r. split_and!; [apply Hes; [lia|done]|done|done].
    + destruct (H1 _ _ Hk) as (i & r & Hi & Ht & ->). pose proof (lookup_lt_Some _ _ _ Hi).
      destruct (Hno i r); [lia|by rewrite lookup_app_l|done].
  - intros i r Hi. rewrite HN. by rewrite (H2 _ _ Hi).
Qed.

(** Overwriting one route in place. *)
Lemma route_write_rep t es i r r' :
  route_rep t es -> es !! i = Some r -> ri_target_id r' = ri_target_id r ->
  exists routes routes', rt_routes t = Ptr routes /\ rd routes (Z.of_nat i) = Some r /\
    wr routes (Z.of_nat i) r' = Some routes' /\
    route_rep (t <| rt_routes := Ptr routes' |>) (<[i := r']> es) /\
    route_map (<[i := r']> es) = <[ri_target_id r := r']> (route_map es).
Proof.
  intros Hrep Hi Ht. destruct (route_rep_lookup t es i r Hrep Hi) as (routes & Hr & Hl & Hlen & Htake & Hcap).
  pose proof Hrep as (Hc & Hle & _ & Hnd & Hu & hm & Hht & H1 & H2).
  pose proof (lookup_lt_Some _ _ _ Hi) as Hlt.
  assert (map ri_target_id (<[i := r']> es) = map ri_target_id es) as Hkeys.
  { change (ri_target_id <$> <[i := r']> es = ri_target_id <$> es).
    rewrite list_fmap_insert, Ht. apply list_insert_id. by rewrite list_lookup_fmap, Hi. }
  exists routes, (<[i := r']> routes). split; [done|].
  split; [by rewrite rd_lookup, Nat2Z.id by lia|].
  split; [rewrite wr_Some by (unfold zlen; lia); by rewrite Nat2Z.id|]. split.
  - split; [change (rt_route_count t = zlen (<[i:=r']> es)); by rewrite zlen_insert|].
    split; [change (zlen (<[i:=r']> es) <= rt_route_capacity t); by rewrite zlen_insert|].
    split; [|split; [by rewrite Hkeys|split]].
    + change (rt_route_capacity t = zlen (<[i:=r']> routes) /\
              take (length (<[i:=r']> es)) (<[i:=r']> routes) = <[i:=r']> es).
      rewrite zlen_insert, length_insert. split; [done|]. by rewrite <- Htake at 2;
        rewrite take_insert_lt.
    + apply Forall_insert; [done|]. rewrite Ht. rewrite Forall_lookup in Hu. by eapply Hu.
    + exists hm. split; [done|]. split.
      * intros k p Hp. destruct (H1 k p Hp) as (j & rj & Hj & Hk & ->).
        destruct (decide (j = i)) as [->|].
        -- exists i, r'. rewrite list_lookup_insert_eq by done. split_and!; [done|congruence|done].
        -- exists j, rj. by rewrite list_lookup_insert_ne.
      * intros j rj Hj. destruct (decide (j = i)) as [->|].
        -- rewrite list_lookup_insert_eq in Hj by done. injection Hj as <-. rewrite Ht. by apply H2.
        -- rewrite list_lookup_insert_ne in Hj by done. by apply H2.
  - apply map_eq. intros k. apply option_eq. intros x.
    rewrite route_map_Some by (by rewrite Hkeys). rewrite lookup_insert_Some, route_map_Some by done.
    split.
    + intros (j & Hj & <-). destruct (decide (j = i)) as [->|].
      * rewrite list_lookup_insert_eq in Hj by done. injection Hj as <-. by left.
      * rewrite list_lookup_insert_ne in Hj by done. right. split; [|by exists j].
        intros E. destruct (target_inj es i j r x Hnd Hi Hj E). done.
    + intros [[<- <-]|[Hne (j & Hj & <-)]].
      * exists i. by rewrite list_lookup_insert_eq by done.
      * exists j. rewrite list_lookup_insert_ne; [done|]. intros ->. congruence.
Qed.

(** The effect of storing [r] when its target is new. *)
Lemma route_push_rep t es r env :
  route_rep t es -> rt_route_count t < rt_route_capacity t ->
  is_u16 (ri_target_id r) = true -> ri_target_id r ∉ map ri_target_id es ->
  exists routes routes' err ht' env',
    rt_routes t = Ptr routes /\ wr routes (rt_route_count t) r = Some routes' /\
    xgl_hashtable_insert (rt_hashtable t) (ri_target_id r)
      (Ptr (rt_generation t, rt_route_count t)) env = Some (err, ht', env') /\
    (err = XGL_OK /\
       route_rep (t <| rt_routes := Ptr routes' |> <| rt_hashtable := ht' |>
                    <| rt_route_count := rt_route_count t + 1 |>) (es ++ [r]) \/
     err = XGL_ERR_NO_MEMORY /\
       route_rep (t <| rt_routes := Ptr routes' |> <| rt_hashtable := ht' |>) es) /\
    (env = [] -> err = XGL_OK /\ env' = []).
Proof.
  intros (Hc & Hle & Hr & Hnd & Hu & hm & Hht & H1 & H2) Hroom Hu16 Hnew. pose proof (zlen_nonneg es).
  destruct (rt_routes t) as [routes|] eqn:Er; [|lia]. destruct Hr as [Hcap Htake].
  destruct (table_insert _ hm (ri_target_id r) (rt_generation t, rt_route_count t) env Hht Hu16)
    as (err & ht' & env' & Hins & Hres & Henv).
  assert (hm !! ri_target_id r = None) as Hno.
  { destruct (hm !! ri_target_id r) eqn:E; [|done]. destruct (H1 _ _ E) as (i & r' & Hi & Ht & _).
    by destruct (not_target es _ i r' Hnew Hi). }
  rewrite decide_True in Hres by done.
  assert (take (length es) (<[length es := r]> routes) = es) as Htake1
    by (by rewrite take_insert_ge by lia).
  exists routes, (<[length es := r]> routes), err, ht', env'. split; [done|].
  split; [rewrite Hc, wr_Some by lia; unfold zlen; by rewrite Nat2Z.id|]. split; [done|].
  split; [|done]. destruct Hres as [[-> Hht']|[-> ->]]; [left|right]; (split; [done|]).
  - destruct t as [ht rts gen count cap]; cbn in *. subst rts count cap.
    assert (take (length (es ++ [r])) (<[length es := r]> routes) = es ++ [r]) as Htake2.
    { rewrite length_app, Nat.add_1_r. rewrite (take_S_r _ _ r); [by rewrite Htake1|].
      apply list_lookup_insert_eq. unfold zlen in *. lia. }
    unfold route_rep. cbn. rewrite zlen_app, zlen_insert, map_app. change (zlen [r]) with 1.
    split; [done|]. split; [lia|]. split; [done|]. split.
    { apply NoDup_app. split_and!; [done| |apply NoDup_singleton].
      intros k Hk ->%list_elem_of_singleton. done. }
    split; [apply Forall_app; split; [done|by repeat constructor]|].
    exists (<[ri_target_id r := (gen, zlen es)]> hm). split; [done|]. split.
    + intros k p. rewrite lookup_insert_Some. intros [[<- <-]|[_ Hk]].
      * exists (length es), r. by rewrite lookup_app_r, Nat.sub_diag by lia.
      * destruct (H1 k p Hk) as (i & r' & Hi & Ht & ->). exists i, r'.
        by rewrite lookup_app_l by (by eapply lookup_lt_Some).
    + intros i r'. rewrite lookup_app_Some. intros [Hi|[Hge Hi]].
      * rewrite lookup_insert_ne; [by apply H2|]. intros E.
        by destruct (not_target es _ i r' Hnew Hi).
      * apply list_lookup_singleton_Some in Hi as [Hi <-]. rewrite lookup_insert_eq. unfold zlen.
        by replace i with (length es) by lia.
  - destruct t as [ht rts gen count cap]; cbn in *. subst rts.
    unfold route_rep. cbn. rewrite zlen_insert. split_and!; try done. by exists hm.
Qed.
Lemma route_map_snoc es r :
  ri_target_id r ∉ map ri_target_id es -> route_map (es ++ [r]) = <[ri_target_id r := r]> (route_map es).
Proof.
  intros. unfold route_map. rewrite map_app. cbn. apply list_to_map_snoc. by rewrite route_keys.
Qed.

(** An entry that is there already is overwritten in place, and inserted again. *)
Lemma route_replace_rep t es k phy mfs freq metric i r env :
  route_rep t es -> is_u16 k = true ->
  find_target es k = Z.of_nat i -> es !! i = Some r -> ri_target_id r = k ->
  exists t', xgl_route_table_add t k (Ptr phy) mfs freq metric env = Some (XGL_OK, t', env) /\
    route_rep t' (<[i := mk_route k (Ptr phy) mfs freq metric]> es) /\
    route_map (<[i := mk_route k (Ptr phy) mfs freq metric]> es) =
      <[k := mk_route k (Ptr phy) mfs freq metric]> (route_map es).
Proof.
  intros Hrep Hk Hfind Hi <-. unfold xgl_route_table_add. rewrite (find_index_spec t es _ Hrep).
  cbn [mbind option_bind]. rewrite Hfind. destruct (Z.leb_spec 0 (Z.of_nat i)) as [_|]; [|lia].
  destruct (route_write_rep t es i r (mk_route (ri_target_id r) (Ptr phy) mfs freq metric) Hrep Hi eq_refl)
    as (routes & routes' & -> & Hrd & Hw & Hrep1 & Hmap).
  cbn [mbind option_bind]. rewrite Hrd. cbn [mbind option_bind].
  change (r <| ri_phy := Ptr phy |> <| ri_max_frame_size := mfs |> <| ri_read_freq_hz := freq |>
            <| ri_metric := metric |>) with (mk_route (ri_target_id r) (Ptr phy) mfs freq metric).
  rewrite Hw. cbn [mbind option_bind].
  pose proof Hrep1 as (Hc & Hle & Hr & Hnd & Hu & hm & Hht & H1 & H2).
  destruct (table_insert _ hm _ (rt_generation (t <| rt_routes := Ptr routes' |>), Z.of_nat i) env Hht Hk)
    as (err & ht' & env' & -> & Hres & _).
  assert (hm !! ri_target_id r = Some (rt_generation (t <| rt_routes := Ptr routes' |>), Z.of_nat i)) as Hin.
  { eapply (H2 i (mk_route (ri_target_id r) (Ptr phy) mfs freq metric)). apply list_lookup_insert_eq.
    by eapply lookup_lt_Some. }
  rewrite decide_False in Hres by (by rewrite Hin). destruct Hres as (-> & -> & Hht').
  rewrite insert_id in Hht' by done. cbn [mbind option_bind].
  eexists. split; [done|]. split; [|exact Hmap].
  split; [done|]. split; [done|]. split; [exact Hr|]. split; [done|]. split; [done|].
  exists hm. split; [done|]. by split.
Qed.

Lemma route_add_rep t es k phy mfs freq metric env :
  route_rep t es -> is_u16 k = true ->
  exists err t' env' es', xgl_route_table_add t k (Ptr phy) mfs freq metric env = Some (err, t', env') /\
    route_rep t' es' /\
    (err = XGL_OK /\ route_map es' = <[k := mk_route k (Ptr phy) mfs freq metric]> (route_map es) \/
     err = XGL_ERR_NO_MEMORY /\ es' = es /\ route_map es !! k = None) /\
    (env = [] -> err = XGL_OK /\ env' = []).
Proof.
  intros Hrep Hk. destruct (find_target_spec es k) as [[Hfind Hnew]|(i & r & Hfind & Hi & Ht)].
  - unfold xgl_route_table_add. rewrite (find_index_spec t es k Hrep). cbn [mbind option_bind]. rewrite Hfind. change (0 <=? -1) with false. cbn iota.
    set (grown := if rt_route_capacity t <=? rt_route_count t then _ else _).
    assert (exists err t1 env1, grown = Some (err, t1, env1) /\
      (err = XGL_OK /\ route_rep t1 es /\ rt_route_count t1 < rt_route_capacity t1 \/
       err = XGL_ERR_NO_MEMORY /\ t1 = t) /\ (env = [] -> err = XGL_OK /\ env1 = []))
      as (err & t1 & env1 & -> & Hres & Henv).
    { unfold grown. destruct (Z.leb_spec (rt_route_capacity t) (rt_route_count t));
        [by apply route_grow_rep|]. exists XGL_OK, t, env. split; [done|]. split; [by left|done]. }
    cbn [mbind option_bind]. destruct Hres as [(-> & Hrep1 & Hroom)|[-> ->]].
    2:{ exists XGL_ERR_NO_MEMORY, t, env1, es. split; [done|]. split; [done|].
        split; [right; by rewrite route_map_None|]. intros He. by destruct (Henv He). }
    change (negb (is_ok XGL_OK)) with false. cbn iota.
    destruct (route_push_rep t1 es (mk_route k (Ptr phy) mfs freq metric) env1 Hrep1 Hroom Hk Hnew)
      as (routes & routes' & err & ht' & env' & -> & Hw & Hins & Hres & Henv').
    cbn [mbind option_bind]. rewrite Hw. cbn [mbind option_bind].
    change (rt_hashtable (t1 <| rt_routes := _ |>)) with (rt_hashtable t1).
    change (rt_generation (t1 <| rt_routes := _ |>)) with (rt_generation t1).
    change (rt_route_count (t1 <| rt_routes := _ |>)) with (rt_route_count t1).
    change (ri_target_id (mk_route k _ _ _ _)) with k in Hins. rewrite Hins. cbn [mbind option_bind].
    assert (env = [] -> err = XGL_OK /\ env' = []) as Henv2.
    { intros He. destruct (Henv He) as [_ He1]. by apply Henv'. }
    destruct Hres as [[-> Hrep']|[-> Hrep']].
    + change (negb (is_ok XGL_OK)) with false. cbn iota. eexists _, _, _, _. split; [done|].
      split; [exact Hrep'|]. split; [|done]. left. split; [done|]. by apply route_map_snoc.
    + change (negb (is_ok XGL_ERR_NO_MEMORY)) with true. cbn iota. eexists _, _, _, es. split; [done|].
      split; [exact Hrep'|]. split; [|done]. right. by rewrite route_map_None.
  - destruct (route_replace_rep t es k phy mfs freq metric i r env) as (t' & Hrun & Hrep' & Hm); try done.
    eexists _, _, _, _. split; [exact Hrun|]. split; [exact Hrep'|]. split; [by left|done].
Qed.

Lemma route_map_delete es i r :
  NoDup (map ri_target_id es) -> es !! i = Some r ->
  NoDup (map ri_target_id (delete i es)) /\
  route_map (delete i es) = delete (ri_target_id r) (route_map es).
Proof.
  intros Hnd Hi. assert (NoDup (map ri_target_id (delete i es))) as Hnd'.
  { eapply sublist_NoDup; [exact Hnd|]. apply (fmap_sublist ri_target_id), sublist_delete. }
  split; [done|]. apply map_eq. intros k. apply option_eq. intros x.
  rewrite lookup_delete_Some, !route_map_Some by done. split.
  - intros (j & Hj & <-). destruct (decide (j < i)%nat).
    + rewrite list_lookup_delete_lt in Hj by done. split; [|by exists j].
      intros E. pose proof (target_inj es i j r x Hnd Hi Hj E). lia.
    + rewrite list_lookup_delete_ge in Hj by lia. split; [|by exists (S j)].
      intros E. pose proof (target_inj es i (S j) r x Hnd Hi Hj E). lia.
  - intros [Hne (j & Hj & <-)]. destruct (decide (j < i)%nat).
    + exists j. by rewrite list_lookup_delete_lt.
    + destruct j as [|j]; [destruct i; [congruence|lia]|].
      destruct (decide (S j = i)) as [<-|]; [congruence|]. exists j. rewrite list_lookup_delete_ge by lia. done.
Qed.

Lemma delete_eq_app {A} (es : list A) i : delete i es = take i es ++ drop (S i) es.
Proof. apply delete_take_drop. Qed.

(** The table after the entry of route [i] is unlinked and the array is
    compacted: the routes behind [i] move down and their pointers are refreshed. *)
(** Closing the gap in the array. *)
Lemma compact_move (es routes : list xgl_route_item_t) i :
  (i < length es)%nat -> take (length es) routes = es ->
  let n := zlen es - Z.of_nat i - 1 in
  exists tl, (moved ← rd_bytes routes (Z.of_nat i + 1) n; wr_bytes routes (Z.of_nat i) moved) =
      Some (delete i es ++ tl) /\ zlen (delete i es ++ tl) = zlen routes.
Proof.
  intros Hlt Htake n.
  assert (routes = es ++ drop (length es) routes) as Hsplit
    by (rewrite <- (take_drop (length es) routes) at 1; by rewrite Htake).
  set (tl := drop (length es) routes) in *.
  assert (zlen routes = zlen es + zlen tl) as Hz by (by rewrite Hsplit, zlen_app).
  pose proof (zlen_nonneg tl). assert (Z.of_nat i < zlen es) by (unfold zlen; lia).
  rewrite rd_bytes_Some by (unfold n; lia).
  assert (slice routes (Z.of_nat i + 1) n = drop (S i) es) as ->.
  { replace (Z.to_nat (Z.of_nat i + 1)) with (S i) by lia. rewrite Hsplit.
    rewrite drop_app_le by lia. apply take_app_length'. rewrite length_drop. unfold n, zlen in *. lia. }
  cbn [mbind option_bind].
  assert (zlen (drop (S i) es) = n) as Hzd
    by (unfold zlen in *; rewrite length_drop; unfold n; lia).
  exists (drop (Z.to_nat (Z.of_nat i + n)) routes).
  assert (wr_bytes routes (Z.of_nat i) (drop (S i) es) =
          Some (delete i es ++ drop (Z.to_nat (Z.of_nat i + n)) routes)) as Hw.
  { rewrite wr_bytes_Some by (unfold n in *; lia). rewrite Hzd, delete_eq_app, <- app_assoc.
    rewrite Nat2Z.id. rewrite Hsplit at 1. by rewrite take_app_le by lia. }
  split; [done|]. by rewrite (wr_bytes_zlen _ _ _ _ Hw).
Qed.

(** The entries before the gap keep their key, those after it get theirs again. *)
Lemma compact_indexes es i r hm hm' g tl :
  NoDup (map ri_target_id es) -> es !! i = Some r -> indexes hm g es ->
  reindexed (delete (ri_target_id r) hm) hm' g (delete i es ++ tl) i (length es - 1 - i) ->
  indexes hm' g (delete i es).
Proof.
  intros Hnd Hi [H1 H2] [HN HS]. pose proof (lookup_lt_Some _ _ _ Hi) as Hlt.
  destruct (route_map_delete es i r Hnd Hi) as [Hnd' Hm].
  assert (length (delete i es) = (length es - 1)%nat) as Hdl by (rewrite length_delete; [lia|done]).
  apply indexes_intro; [done| |].
  - intros k p Hp. destruct (HS k p Hp) as [(j & rj & Hj & Hl & Hk & ->)|[Hk Hno]].
    + exists j, rj. rewrite lookup_app_l in Hl by lia. by split_and!.
    + apply lookup_delete_Some in Hk as [Hne Hk]. destruct (H1 _ _ Hk) as (j & rj & Hj & Ht & ->).
      pose proof (lookup_lt_Some _ _ _ Hj). destruct (decide (j < i)%nat).
      * exists j, rj. by rewrite list_lookup_delete_lt.
      * destruct (decide (j = i)) as [->|]; [congruence|]. destruct j as [|j]; [lia|].
        destruct (Hno j rj); [lia| |done]. rewrite lookup_app_l, list_lookup_delete_ge by lia. done.
  - intros j rj Hj. rewrite HN, lookup_delete_None. intros [E|E].
    + assert (route_map (delete i es) !! ri_target_id rj = Some rj) as Hs by (apply route_map_Some; [done|by exists j]).
      rewrite Hm, lookup_delete_Some in Hs. by destruct Hs.
    + destruct (decide (j < i)%nat).
      * rewrite list_lookup_delete_lt in Hj by done. by rewrite (H2 _ _ Hj) in E.
      * rewrite list_lookup_delete_ge in Hj by lia. by rewrite (H2 _ _ Hj) in E.
Qed.

Lemma route_compact_middle t es i r hm ht routes env :
  route_rep t es -> es !! i = Some r -> rt_routes t = Ptr routes ->
  indexes hm (rt_generation t) es -> table_rep ht (delete (ri_target_id r) hm) ->
  Z.of_nat i < rt_route_count t - 1 ->
  let n := rt_route_count t - Z.of_nat i - 1 in
  exists t',
    (moved ← rd_bytes routes (Z.of_nat i + 1) n;
     routes ← wr_bytes routes (Z.of_nat i) moved;
     reindex_loop (t <| rt_hashtable := ht |> <| rt_routes := Ptr routes |>) (Z.to_nat n)
       (Z.of_nat i) env) = Some (t', env) /\
    rt_route_count t' = rt_route_count t /\
    route_rep (t' <| rt_route_count := rt_route_count t - 1 |>) (delete i es).
Proof.
  intros (Hc & Hle & Hr & Hnd & Hu & _) Hi Er Hidx Hrem Hmid n. pose proof Hidx as [H1 H2]. rewrite Er in Hr.
  destruct Hr as [Hcap Htake]. pose proof (lookup_lt_Some _ _ _ Hi) as Hlt.
  destruct (route_map_delete es i r Hnd Hi) as [Hnd' _].
  assert (Forall (fun r => is_u16 (ri_target_id r) = true) (delete i es)) as Hu' by by apply Forall_delete.
  assert (length (delete i es) = (length es - 1)%nat) as Hdl by (rewrite length_delete; [lia|done]).
  destruct (compact_move es routes i Hlt Htake) as (tl' & Hmove & Hz'). rewrite <- Hc in Hmove. fold n in Hmove.
  destruct (rd_bytes routes _ n) as [moved|]; [|done]. cbn [mbind option_bind] in Hmove |- *. rewrite Hmove.
  cbn [mbind option_bind].
  set (t1 := t <| rt_hashtable := ht |> <| rt_routes := Ptr (delete i es ++ tl') |>).
  replace (Z.to_nat n) with (length es - 1 - i)%nat by (unfold n, zlen in *; lia).
  destruct (reindex_loop_spec (length es - 1 - i) t1 i env (delete (ri_target_id r) hm)
    (delete i es ++ tl')) as (ht' & hm' & -> & Hht' & Hre).
  { done. } { rewrite length_app. lia. } { done. }
  { intros j rj Hj Hl. rewrite lookup_app_l, list_lookup_delete_ge in Hl by lia.
    rewrite Forall_lookup in Hu. split; [by eapply Hu|]. rewrite lookup_delete_ne; [by rewrite (H2 _ _ Hl)|].
    intros E. pose proof (target_inj es i (S j) r rj Hnd Hi Hl E). lia. }
  eexists. split; [done|]. split; [done|].
  split; [change (rt_route_count t - 1 = zlen (delete i es)); unfold zlen in *; lia|].
  split; [change (zlen (delete i es) <= rt_route_capacity t); unfold zlen in *; lia|].
  split; [|split; [done|split; [done|]]].
  { change (rt_route_capacity t = zlen (delete i es ++ tl') /\
            take (length (delete i es)) (delete i es ++ tl') = delete i es).
    split; [congruence|]. apply take_app_length. }
  exists hm'. split; [done|]. by apply (compact_indexes es i r hm hm' _ tl').
Qed.
Lemma route_compact_last t es i r hm ht routes :
  route_rep t es -> es !! i = Some r -> rt_routes t = Ptr routes ->
  indexes hm (rt_generation t) es -> table_rep ht (delete (ri_target_id r) hm) ->
  rt_route_count t - 1 <= Z.of_nat i ->
  route_rep (t <| rt_hashtable := ht |> <| rt_route_count := rt_route_count t - 1 |>) (delete i es).
Proof.
  intros (Hc & Hle & Hr & Hnd & Hu & _) Hi Er [H1 H2] Hrem Hlast. rewrite Er in Hr.
  destruct Hr as [Hcap Htake]. pose proof (lookup_lt_Some _ _ _ Hi) as Hlt.
  destruct (route_map_delete es i r Hnd Hi) as [Hnd' _].
  assert (Forall (fun r => is_u16 (ri_target_id r) = true) (delete i es)) as Hu' by by apply Forall_delete.
  assert (length (delete i es) = (length es - 1)%nat) as Hdl by (rewrite length_delete; [lia|done]).
  assert (i = length es - 1)%nat as Ei by (unfold zlen in *; lia).
  split; [change (rt_route_count t - 1 = zlen (delete i es)); unfold zlen in *; lia|].
  split; [change (zlen (delete i es) <= rt_route_capacity t); unfold zlen in *; lia|].
  assert (delete i es = take i es) as Hdel.
  { rewrite delete_eq_app, (drop_ge es (S i)) by lia. apply app_nil_r. }
  split; [|split; [done|split; [done|]]].
  { change (match rt_routes t with NULL => rt_route_capacity t = 0 | Ptr routes =>
      rt_route_capacity t = zlen routes /\ take (length (delete i es)) routes = delete i es end).
    rewrite Er. split; [done|]. rewrite Hdl, Hdel.
    transitivity (take i (take (length es) routes)); [|by rewrite Htake]. rewrite take_take. f_equal. lia. }
  exists (delete (ri_target_id r) hm). split; [done|]. apply indexes_intro; [done| |].
  + intros k p [Hne Hk]%lookup_delete_Some. destruct (H1 _ _ Hk) as (j & rj & Hj & Ht & ->).
    exists j, rj. pose proof (lookup_lt_Some _ _ _ Hj).
    assert (j <> i) by (intros ->; congruence). rewrite list_lookup_delete_lt by lia. done.
  + intros j rj Hj. pose proof (lookup_lt_Some _ _ _ Hj).
    rewrite list_lookup_delete_lt in Hj by lia. rewrite lookup_delete_ne; [by rewrite (H2 _ _ Hj)|].
    intros E. pose proof (target_inj es i j r rj Hnd Hi Hj E). lia.
Qed.

Lemma route_remove_rep t es k env :
  route_rep t es -> is_u16 k = true ->
  exists t' es', xgl_route_table_remove t k env =
      Some (if decide (route_map es !! k = None) then XGL_ERR_ROUTE_NOT_FOUND else XGL_OK, t', env) /\
    route_rep t' es' /\ route_map es' = delete k (route_map es).
Proof.
  intros Hrep Hk. unfold xgl_route_table_remove. rewrite (find_index_spec t es k Hrep).
  cbn [mbind option_bind]. destruct (find_target_spec es k) as [[-> Hnew]|(i & r & -> & Hi & Ht)].
  - change (-1 <? 0) with true. cbn iota. exists t, es. apply route_map_None in Hnew.
    rewrite decide_True by done. split; [done|]. split; [done|]. by rewrite delete_id.
  - destruct (Z.ltb_spec (Z.of_nat i) 0); [lia|].
    pose proof Hrep as (Hc & _ & _ & Hnd & _ & hm & Hht & H1 & H2).
    destruct (route_map_delete es i r Hnd Hi) as [_ Hm]. rewrite Ht in Hm.
    assert (route_map es !! k = Some r) as Hmk by (apply route_map_Some; [done|by exists i]).
    destruct (table_remove _ hm k Hht Hk) as (ht & -> & Hht').
    rewrite !decide_False by (rewrite ?Hmk, <- ?Ht, ?(H2 _ _ Hi); done). cbn [mbind option_bind].
    change (negb (is_ok XGL_OK)) with false. cbn iota.
    destruct (route_rep_rd t es i r Hrep Hi) as (routes & Hr & _).
    rewrite <- Ht in Hht'. change (rt_route_count (t <| rt_hashtable := ht |>)) with (rt_route_count t).
    destruct (Z.ltb_spec (Z.of_nat i) (rt_route_count t - 1)) as [Hmid|Hlast].
    + destruct (route_compact_middle t es i r hm ht routes env Hrep Hi Hr (conj H1 H2) Hht' Hmid)
        as (t' & Hrun & Hcnt & Hrep').
      change (rt_routes (t <| rt_hashtable := ht |>)) with (rt_routes t). rewrite Hr.
      cbn [mbind option_bind] in *. rewrite Hrun. cbn [mbind option_bind]. rewrite Hcnt.
      by exists (t' <| rt_route_count := rt_route_count t - 1 |>), (delete i es).
    + cbn [mbind option_bind]. eexists _, (delete i es). split; [done|]. split; [|done].
      exact (route_compact_last t es i r hm ht routes Hrep Hi Hr (conj H1 H2) Hht' Hlast).
Qed.

Lemma route_update_rep t es k metric :
  route_rep t es -> is_u16 k = true ->
  exists t' es', xgl_route_table_update_metric t k metric =
      Some (if decide (route_map es !! k = None) then XGL_ERR_ROUTE_NOT_FOUND else XGL_OK, t') /\
    route_rep t' es' /\
    route_map es' = alter (fun r => r <| ri_metric := metric |>) k (route_map es).
Proof.
  intros Hrep Hk. unfold xgl_route_table_update_metric.
  pose proof Hrep as (_ & _ & _ & Hnd & _ & hm & Hht & H1 & H2).
  unfold xgl_route_table_lookup. rewrite (table_lookup _ hm) by done. cbn [mbind option_bind].
  destruct (hm !! k) as [p|] eqn:E.
  - destruct (H1 _ _ E) as (i & r & Hi & Ht & ->).
    assert (route_map es !! k = Some r) as Hm by (apply route_map_Some; [done|by exists i]).
    destruct (route_write_rep t es i r (r <| ri_metric := metric |>) Hrep Hi ltac:(by destruct r))
      as (routes & routes' & Hr & Hrd & Hw & Hrep' & Hmap).
    unfold deref_route. cbn [fst snd]. rewrite Z.eqb_refl, Hr. cbn [mbind option_bind].
    rewrite Hrd. cbn [mbind option_bind]. rewrite Hw. cbn [mbind option_bind].
    rewrite decide_False by (by rewrite Hm). eexists _, _. split; [done|]. split; [done|].
    rewrite Hmap, Ht. apply map_eq. intros k'. destruct (decide (k' = k)) as [->|].
    + by rewrite lookup_insert_eq, lookup_alter_eq, Hm.
    + by rewrite lookup_insert_ne, lookup_alter_ne.
  - assert (route_map es !! k = None) as Hm.
    { destruct (route_lookup_rep t es k Hrep Hk) as (p & Hl & Hp). unfold xgl_route_table_lookup in Hl.
      rewrite (table_lookup _ hm), E in Hl by done. by injection Hl as <-. }
    rewrite decide_True by done. exists t, es. split; [done|]. split; [done|].
    apply map_eq. intros k'. destruct (decide (k' = k)) as [->|].
    + by rewrite lookup_alter_eq, Hm.
    + by rewrite lookup_alter_ne.
Qed.

Lemma route_init_rep cap gen env env' t :
  xgl_route_table_init cap gen env = (XGL_OK, t, env') -> 0 <= cap -> route_rep t [].
Proof.
  unfold xgl_route_table_init. intros Hi Hcap. unfold xgl_hashtable_init in Hi.
  change (negb (xgl_is_power_of_2 XGL_ROUTE_TABLE_DEFAULT_SIZE)) with false in Hi. cbn iota in Hi.
  destruct (alloc_answer _ env) as [[] env1]; [|done]. change (negb (is_ok XGL_OK)) with false in Hi.
  cbn iota in Hi.
  pose proof (empty_buckets_rep (V := route_ptr) XGL_ROUTE_TABLE_DEFAULT_SIZE eq_refl) as Hht.
  revert Hi Hht. generalize (mk_hashtable (V := route_ptr)
    (Ptr (replicate (Z.to_nat XGL_ROUTE_TABLE_DEFAULT_SIZE) [])) XGL_ROUTE_TABLE_DEFAULT_SIZE 0).
  intros ht Hi Hht. assert (indexes ∅ gen []) as Hidx by by split.
  destruct (Z.ltb_spec 0 cap).
  - destruct (alloc_answer _ env1) as [[] env2]; [|done]. cbn [negb] in Hi. injection Hi as <- _.
    split; [done|]. split; [exact Hcap|]. split; [|split; [constructor|split; [constructor|by exists ∅]]].
    cbn. split; [|done]. unfold zlen. rewrite length_replicate. lia.
  - injection Hi as <- _. split; [done|]. split; [done|]. split; [done|].
    split; [constructor|split; [constructor|by exists ∅]].
Qed.

(** Loading a list of routes adds them one after the other. *)
Definition load_map (rs : list xgl_route_item_t) (m : gmap Z xgl_route_item_t) : gmap Z xgl_route_item_t :=
  fold_left (fun m r => <[ri_target_id r := r]> m) rs m.
Lemma route_load_loop_rep rs : forall pre t es env,
  route_rep t es -> Forall (fun r => is_u16 (ri_target_id r) = true /\ ri_phy r <> NULL) rs ->
  exists err t' env' es',
    route_load_loop t (pre ++ rs) (length rs) (zlen pre) env = Some (err, t', env') /\
    route_rep t' es' /\ (err = XGL_OK -> route_map es' = load_map rs (route_map es)) /\
    (err <> XGL_OK -> err = XGL_ERR_NO_MEMORY /\ exists n, route_map es' = load_map (take n rs) (route_map es)) /\
    (env = [] -> err = XGL_OK).
Proof.
  induction rs as [|r rs IH]; intros pre t es env Hrep Hrs.
  { eexists _, _, _, es. by split_and!. }
  apply Forall_cons in Hrs as [[Hu Hphy] Hrs]. destruct r as [k [phy|] mfs freq metric]; [|done].
  cbn [length route_load_loop]. rewrite rd_at by done. cbn [mbind option_bind ri_target_id ri_phy
    ri_max_frame_size ri_read_freq_hz ri_metric].
  destruct (route_add_rep t es k phy mfs freq metric env Hrep Hu)
    as (err & t1 & env1 & es1 & -> & Hrep1 & Hres & Henv). cbn [mbind option_bind].
  destruct Hres as [[-> Hm]|(-> & -> & _)].
  - change (negb (is_ok XGL_OK)) with false. cbn iota.
    destruct (IH (pre ++ [mk_route k (Ptr phy) mfs freq metric]) t1 es1 env1 Hrep1 Hrs)
      as (err & t' & env' & es' & Hrun & Hrep' & Hok & Herr & Henv').
    rewrite <- app_assoc, zlen_app in Hrun. change (zlen [_]) with 1 in Hrun. cbn [app] in Hrun.
    rewrite Hrun. eexists _, _, _, es'. split; [done|]. split; [done|]. rewrite Hm in *.
    split; [done|]. split.
    + intros He. destruct (Herr He) as (-> & n & Hn). split; [done|]. by exists (S n).
    + intros He. apply Henv'. by apply Henv.
  - change (negb (is_ok XGL_ERR_NO_MEMORY)) with true. cbn iota. eexists _, _, _, es. split; [done|].
    split; [done|]. split; [done|]. split; [intros _; split; [done|by exists 0%nat]|].
    intros He. by destruct (Henv He).
Qed.

(** ** Properties *)

(** C22. The route table is a finite map from targets to routes: on a table that
    represents a map, lookup returns NULL exactly for the missing targets and
    otherwise a pointer that is valid and leads to the target's route; adding,
    removing and updating the metric act on the map (an add that runs out of
    memory changes nothing), also when the array is reallocated or compacted
    under the pointers that the hash table holds. *)
Theorem route_table_refines_map (t : xgl_route_table_t) (es : list xgl_route_item_t)
    (k phy mfs freq metric : Z) (env : heap_answers) :
  route_rep t es -> is_u16 k = true ->
  let m := route_map es in
  (exists p, xgl_route_table_lookup t k = Some p /\
     match p with
     | NULL => m !! k = None
     | Ptr p => deref_route t p = m !! k /\ m !! k <> None
     end) /\
  (exists err t' env' es', xgl_route_table_add t k (Ptr phy) mfs freq metric env = Some (err, t', env') /\
     route_rep t' es' /\
     (err = XGL_OK /\ route_map es' = <[k := mk_route k (Ptr phy) mfs freq metric]> m \/
      err = XGL_ERR_NO_MEMORY /\ route_map es' = m /\ env <> [])) /\
  (exists t' es', xgl_route_table_remove t k env =
      Some (if decide (m !! k = None) then XGL_ERR_ROUTE_NOT_FOUND else XGL_OK, t', env) /\
     route_rep t' es' /\ route_map es' = delete k m) /\
  (exists t' es', xgl_route_table_update_metric t k metric =
      Some (if decide (m !! k = None) then XGL_ERR_ROUTE_NOT_FOUND else XGL_OK, t') /\
     route_rep t' es' /\ route_map es' = alter (fun r => r <| ri_metric := metric |>) k m) /\
  xgl_route_table_count t = Z.of_nat (size m).
Proof.
  intros Hrep Hk m. split; [by apply route_lookup_rep|]. split.
  { destruct (route_add_rep t es k phy mfs freq metric env Hrep Hk)
      as (err & t' & env' & es' & Hrun & Hrep' & Hres & Henv).
    eexists _, _, _, _. split; [exact Hrun|]. split; [exact Hrep'|].
    destruct Hres as [?|(-> & -> & _)]; [by left|right]. split_and!; [done|done|].
    intros He. by destruct (Henv He). }
  split; [by apply route_remove_rep|]. split; [by apply route_update_rep|].
  destruct Hrep as (Hc & _ & _ & Hnd & _). unfold xgl_route_table_count, m, route_map. rewrite Hc.
  rewrite map_size_list_to_map by (by rewrite route_keys). unfold zlen. by rewrite length_map.
Qed.
Lemma route_table_refines_map_witness :
  exists t, xgl_route_table_init 1 0 [] = (XGL_OK, t, []) /\
    exists err t' env' es', xgl_route_table_add t 6 (Ptr 2) 64 0 20 [] = Some (err, t', env') /\
      route_rep t' es' /\
      (err = XGL_OK /\ route_map es' = <[6 := mk_route 6 (Ptr 2) 64 0 20]> (route_map []) \/
       err = XGL_ERR_NO_MEMORY /\ route_map es' = route_map [] /\ (@nil bool) <> []).
Proof.
  eexists. split; [reflexivity|].
  refine (proj1 (proj2 (route_table_refines_map _ [] 6 2 64 0 20 [] _ eq_refl))).
  exact (route_init_rep 1 0 [] [] _ eq_refl ltac:(lia)).
Defined.

(** Loading a configuration: on an initialised table, [xgl_route_table_load]
    replaces whatever the table held by the configured routes, a later route for
    the same target overriding an earlier one; when memory runs out it stops with
    NO_MEMORY after a prefix of the configuration, and it always succeeds when
    the allocator does. *)
Theorem route_load_replaces_table (cap gen count : Z) (env0 env1 env : heap_answers)
    (t0 t : xgl_route_table_t) (es : list xgl_route_item_t) (routes : list xgl_route_item_t) :
  xgl_route_table_init cap gen env0 = (XGL_OK, t0, env1) -> 0 <= cap -> route_rep t es ->
  Forall (fun r => is_u16 (ri_target_id r) = true /\ ri_phy r <> NULL) routes -> count = zlen routes ->
  route_rep t0 [] /\
  exists err t' env' es', xgl_route_table_load t (Ptr routes) count env = Some (err, t', env') /\
    route_rep t' es' /\
    (err = XGL_OK /\ route_map es' = load_map routes ∅ \/
     err = XGL_ERR_NO_MEMORY /\ (exists n, route_map es' = load_map (take n routes) ∅) /\ env <> []).
Proof.
  intros Hinit Hcap Hrep Hrs ->. split; [by eapply route_init_rep|].
  unfold xgl_route_table_load. destruct (route_clear_rep t es Hrep) as (t1 & -> & Hrep1 & _).
  cbn [mbind option_bind]. unfold zlen. rewrite Nat2Z.id.
  destruct (route_load_loop_rep routes [] t1 [] env Hrep1 Hrs)
    as (err & t' & env' & es' & Hrun & Hrep' & Hok & Herr & Henv).
  eexists _, _, _, _. split; [exact Hrun|]. split; [exact Hrep'|].
  destruct (decide (err = XGL_OK)) as [->|Hne]; [left; split; [done|by apply Hok]|right].
  destruct (Herr Hne) as [-> ?]. split_and!; [done|done|]. intros He. by apply Hne, Henv.
Qed.
Lemma route_load_replaces_table_witness :
  exists t0, xgl_route_table_init 1 0 [] = (XGL_OK, t0, []) /\
    exists err t' env' es',
      xgl_route_table_load t0 (Ptr [mk_route 5 (Ptr 1) 64 0 10; mk_route 5 (Ptr 2) 32 0 9]) 2 [] =
        Some (err, t', env') /\ route_rep t' es' /\
      (err = XGL_OK /\ route_map es' = {[5 := mk_route 5 (Ptr 2) 32 0 9]} \/
       err = XGL_ERR_NO_MEMORY /\ (exists n, route_map es' =
          load_map (take n [mk_route 5 (Ptr 1) 64 0 10; mk_route 5 (Ptr 2) 32 0 9]) ∅) /\ (@nil bool) <> []).
Proof.
  eexists. split; [reflexivity|].
  refine (proj2 (route_load_replaces_table 1 0 2 [] [] [] _ _ []
    [mk_route 5 (Ptr 1) 64 0 10; mk_route 5 (Ptr 2) 32 0 9] eq_refl _ _ _ eq_refl)).
  - lia.
  - exact (route_init_rep 1 0 [] [] _ eq_refl ltac:(lia)).
  - repeat constructor; discriminate.
Defined.
