(* ===== verification/Fragment.v ===== *)
(** * Fragment reassembly (include/xgl/internal/xgl_fragment.h,
    src/transport/xgl_fragment.c, xgl_fragment_range.c,
    xgl_fragment_reassembly.c, xgl_fragment_process.c,
    xgl_fragment_maintenance.c)

    The manager that collects the fragments of messages: per message a buffer, a
    bounded array of received byte ranges, a reserved share of the memory
    budget and a timeout.  The list of buffers is a sequence ([LinkedList] shows
    that the intrusive list is one).  Memory that [malloc] returned and nobody
    wrote is [None], so a theorem that says what a completed message holds also
    says that no uninitialised byte is delivered. *)
From S2P Require Import Prelude Errors.

(** ** Data *)

Definition XGL_FRAGMENT_TIMEOUT_MS : Z := 5000.
Definition XGL_FRAGMENT_MAX_RECEIVED_RANGES : Z := 16.

(** src/include/xgl/internal/xgl_fragment.h:30-33: xgl_fragment_received_range_t *)
Record xgl_fragment_received_range_t := mk_range {
  rr_start : Z;
  rr_end : Z
}.
Definition zero_range : xgl_fragment_received_range_t := mk_range 0 0.

(** Memory from [malloc]: [None] is an uninitialised byte. *)
Abbreviation raw_bytes := (list (option Z)).

(** [received_bitmap] is reserved and always NULL; it is left out. *)
(** src/include/xgl/internal/xgl_fragment.h:43-69: xgl_reassembly_buffer_t *)
Record xgl_reassembly_buffer_t := mk_rbuf {
  rb_source_id : Z;
  rb_data_type : Z;
  rb_connection_id : Z;
  rb_session_epoch : Z;
  rb_message_id : Z;
  rb_received_bytes : Z;
  rb_received_ranges : list xgl_fragment_received_range_t;
  rb_received_range_count : Z;
  rb_data : raw_bytes;
  rb_data_len : Z;
  rb_buffer_size : Z;
  rb_reserved_size : Z;
  rb_first_fragment_time : Z;
  rb_timeout_ms : Z
}.
#[export] Instance eta_rbuf : EtaRecord xgl_reassembly_buffer_t := Eta (fun b =>
  mk_rbuf (rb_source_id b) (rb_data_type b) (rb_connection_id b) (rb_session_epoch b)
    (rb_message_id b) (rb_received_bytes b) (rb_received_ranges b) (rb_received_range_count b)
    (rb_data b) (rb_data_len b) (rb_buffer_size b) (rb_reserved_size b)
    (rb_first_fragment_time b) (rb_timeout_ms b)).

(** src/include/xgl/internal/xgl_fragment.h:79-96: xgl_fragment_manager_t *)
Record xgl_fragment_manager_t := mk_manager {
  fm_next_message_id : Z;
  fm_reassembly_list : list xgl_reassembly_buffer_t;
  fm_max_reassembly_buffers : Z;
  fm_reassembly_timeout_ms : Z;
  fm_max_message_size : Z;
  fm_max_reassembly_bytes : Z;
  fm_current_reassembly_bytes : Z
}.
#[export] Instance eta_manager : EtaRecord xgl_fragment_manager_t := Eta (fun m =>
  mk_manager (fm_next_message_id m) (fm_reassembly_list m) (fm_max_reassembly_buffers m)
    (fm_reassembly_timeout_ms m) (fm_max_message_size m) (fm_max_reassembly_bytes m)
    (fm_current_reassembly_bytes m)).

(** ** Received ranges *)

(** src/src/transport/xgl_fragment_range.c:9-13: fragment_range_overlaps *)
Definition fragment_range_overlaps (range : xgl_fragment_received_range_t) (start end_ : Z) : bool :=
  (start <? rr_end range) && (rr_start range <? end_).

(** The [for] loop that closes the gap; [n] entries are left to move, [i] is the
    next. *)
(** src/src/transport/xgl_fragment_range.c:21-23: fragment_remove_range_at *)
Definition move_down_loop (ranges : list xgl_fragment_received_range_t) (n : nat) (i : Z)
    : M (list xgl_fragment_received_range_t) := shift_down_loop ranges n i.
(** src/src/transport/xgl_fragment_range.c:15-25: fragment_remove_range_at *)
Definition fragment_remove_range_at (buffer : xgl_reassembly_buffer_t) (index : Z)
    : M xgl_reassembly_buffer_t :=
  if rb_received_range_count buffer <=? index then ret buffer
  else
    ranges ← move_down_loop (rb_received_ranges buffer)
               (Z.to_nat (rb_received_range_count buffer - (index + 1))) (index + 1);
    ret (buffer <| rb_received_ranges := ranges |>
                <| rb_received_range_count := rb_received_range_count buffer - 1 |>).

(** Whether one of the [n] ranges from [i] on overlaps. *)
(** src/src/transport/xgl_fragment_range.c:34-38: fragment_insert_received_range *)
Fixpoint overlap_loop (ranges : list xgl_fragment_received_range_t) (n : nat) (i start end_ : Z)
    : M bool :=
  match n with
  | O => ret false
  | S n =>
      r ← rd ranges i;
      if fragment_range_overlaps r start end_ then ret true
      else overlap_loop ranges n (i + 1) start end_
  end.
(** The [while] loop that looks for the place of the new range. *)
(** src/src/transport/xgl_fragment_range.c:40-44: fragment_insert_received_range *)
Fixpoint insert_index_loop (ranges : list xgl_fragment_received_range_t) (n : nat) (i start : Z)
    : M Z :=
  match n with
  | O => ret i
  | S n =>
      r ← rd ranges i;
      if rr_start r <? start then insert_index_loop ranges n (i + 1) start else ret i
  end.
(** The loop that opens a gap, from the last entry down: [n] entries are left. *)
(** src/src/transport/xgl_fragment_range.c:68-70: fragment_insert_received_range *)
Definition move_up_loop (ranges : list xgl_fragment_received_range_t) (n : nat) (i : Z)
    : M (list xgl_fragment_received_range_t) := shift_up_loop ranges n i.

(** src/src/transport/xgl_fragment_range.c:27-76: fragment_insert_received_range *)
Definition fragment_insert_received_range (buffer : xgl_reassembly_buffer_t) (start end_ : Z)
    : M (xgl_error_t * xgl_reassembly_buffer_t) :=
  if end_ <=? start then ret (XGL_ERR_INVALID_PARAM, buffer)
  else
    let ranges := rb_received_ranges buffer in
    let count := rb_received_range_count buffer in
    overlaps ← overlap_loop ranges (Z.to_nat count) 0 start end_;
    if overlaps : bool then ret (XGL_ERR_BUSY, buffer)
    else
      insert_index ← insert_index_loop ranges (Z.to_nat count) 0 start;
      touches_previous ←
        (if 0 <? insert_index
         then p ← rd ranges (insert_index - 1); ret (rr_end p =? start) else ret false);
      touches_next ←
        (if insert_index <? count
         then n ← rd ranges insert_index; ret (rr_start n =? end_) else ret false);
      if touches_previous : bool then
        p ← rd ranges (insert_index - 1);
        ranges ← wr ranges (insert_index - 1) (mk_range (rr_start p) end_);
        if touches_next : bool then
          n ← rd ranges insert_index;
          p ← rd ranges (insert_index - 1);
          ranges ← wr ranges (insert_index - 1) (mk_range (rr_start p) (rr_end n));
          buffer ← fragment_remove_range_at (buffer <| rb_received_ranges := ranges |>) insert_index;
          ret (XGL_OK, buffer)
        else ret (XGL_OK, buffer <| rb_received_ranges := ranges |>)
      else if touches_next : bool then
        n ← rd ranges insert_index;
        ranges ← wr ranges insert_index (mk_range start (rr_end n));
        ret (XGL_OK, buffer <| rb_received_ranges := ranges |>)
      else if XGL_FRAGMENT_MAX_RECEIVED_RANGES <=? count then ret (XGL_ERR_NO_MEMORY, buffer)
      else
        ranges ← move_up_loop ranges (Z.to_nat (count - insert_index)) count;
        ranges ← wr ranges insert_index (mk_range start end_);
        ret (XGL_OK, buffer <| rb_received_ranges := ranges |>
                            <| rb_received_range_count := count + 1 |>).

(** ** Buffers *)

(** src/src/transport/xgl_fragment_reassembly.c:19-40: fragment_free_reassembly_buffer *)
Definition fragment_free_reassembly_buffer (manager : xgl_fragment_manager_t)
    (buffer : xgl_reassembly_buffer_t) : xgl_fragment_manager_t :=
  if rb_reserved_size buffer <=? fm_current_reassembly_bytes manager
  then manager <| fm_current_reassembly_bytes :=
                    fm_current_reassembly_bytes manager - rb_reserved_size buffer |>
  else manager.

(** [matches b source connection epoch message]: the test of the search loop. *)
(** src/src/transport/xgl_fragment_reassembly.c:58-61: fragment_find_reassembly_buffer *)
Definition rbuf_matches (source_id connection_id session_epoch message_id : Z)
    (buffer : xgl_reassembly_buffer_t) : bool :=
  (rb_source_id buffer =? source_id) && (rb_connection_id buffer =? connection_id) &&
  (rb_session_epoch buffer =? session_epoch) && (rb_message_id buffer =? message_id).

(** The position of the buffer in the list (the pointer that C returns). *)
(** src/src/transport/xgl_fragment_reassembly.c:53-66: fragment_find_reassembly_buffer *)
Fixpoint find_buffer_loop (f : xgl_reassembly_buffer_t -> bool)
    (node : list xgl_reassembly_buffer_t) (i : nat) : ptr nat :=
  match node with
  | [] => NULL
  | buffer :: next => if f buffer then Ptr i else find_buffer_loop f next (S i)
  end.
(** src/src/transport/xgl_fragment_reassembly.c:42-67: fragment_find_reassembly_buffer *)
Definition fragment_find_reassembly_buffer (manager : xgl_fragment_manager_t)
    (source_id connection_id session_epoch message_id : Z) : ptr nat :=
  find_buffer_loop (rbuf_matches source_id connection_id session_epoch message_id)
    (fm_reassembly_list manager) 0.

(** A buffer structure takes a nonzero number of bytes. *)
Definition sizeof_reassembly_buffer : Z := 384.

(** Returns [*buffer_out] as the position of the new buffer in the list. *)
(** src/src/transport/xgl_fragment_reassembly.c:69-131: fragment_create_reassembly_buffer *)
Definition fragment_create_reassembly_buffer (manager : xgl_fragment_manager_t)
    (source_id connection_id session_epoch data_type message_id message_len : Z) (env : heap_answers)
    : xgl_error_t * xgl_fragment_manager_t * ptr nat * heap_answers :=
  if fm_max_reassembly_buffers manager <=? zlen (fm_reassembly_list manager)
  then (XGL_ERR_NO_MEMORY, manager, NULL, env)
  else if negb (fm_max_message_size manager =? 0) && (fm_max_message_size manager <? message_len)
  then (XGL_ERR_BUFFER_TOO_SMALL, manager, NULL, env)
  else if negb (fm_max_reassembly_bytes manager =? 0) &&
          ((fm_max_reassembly_bytes manager <? fm_current_reassembly_bytes manager) ||
           (fm_max_reassembly_bytes manager - fm_current_reassembly_bytes manager <? message_len))
  then (XGL_ERR_NO_MEMORY, manager, NULL, env)
  else
    let '(ok, env) := alloc_answer sizeof_reassembly_buffer env in
    if negb ok then (XGL_ERR_NO_MEMORY, manager, NULL, env)
    else
      let '(ok, env) := alloc_answer message_len env in
      if negb ok then (XGL_ERR_NO_MEMORY, manager, NULL, env)
      else
        let buffer := mk_rbuf source_id data_type connection_id session_epoch message_id 0
          (replicate (Z.to_nat XGL_FRAGMENT_MAX_RECEIVED_RANGES) zero_range) 0
          (replicate (Z.to_nat message_len) None) message_len message_len message_len 0
          (fm_reassembly_timeout_ms manager) in
        (XGL_OK,
         manager <| fm_current_reassembly_bytes :=
                      fm_current_reassembly_bytes manager + rb_reserved_size buffer |>
                 <| fm_reassembly_list := fm_reassembly_list manager ++ [buffer] |>,
         Ptr (length (fm_reassembly_list manager)), env).

(** Returns [*complete_data] and [*complete_len]. *)
(** src/src/transport/xgl_fragment_reassembly.c:133-149: fragment_complete_reassembly *)
Definition fragment_complete_reassembly (manager : xgl_fragment_manager_t) (node : nat)
    (buffer : xgl_reassembly_buffer_t) : xgl_fragment_manager_t * raw_bytes * Z :=
  let manager := manager <| fm_reassembly_list := delete node (fm_reassembly_list manager) |> in
  (fragment_free_reassembly_buffer manager buffer, rb_data buffer, rb_data_len buffer).

(** ** The manager *)

(** src/src/transport/xgl_fragment.c:16-39: xgl_fragment_init *)
Definition xgl_fragment_init (max_reassembly_buffers reassembly_timeout_ms : Z)
    : xgl_fragment_manager_t :=
  mk_manager 0 [] max_reassembly_buffers reassembly_timeout_ms 0 0 0.

(** src/src/transport/xgl_fragment.c:41-57: xgl_fragment_set_limits *)
Definition xgl_fragment_set_limits (manager : xgl_fragment_manager_t)
    (max_message_size max_reassembly_bytes : Z) : xgl_error_t * xgl_fragment_manager_t :=
  if negb (max_reassembly_bytes =? 0) && (max_reassembly_bytes <? max_message_size)
  then (XGL_ERR_INVALID_PARAM, manager)
  else (XGL_OK, manager <| fm_max_message_size := max_message_size |>
                        <| fm_max_reassembly_bytes := max_reassembly_bytes |>).

(** src/src/transport/xgl_fragment_process.c:14-25: fragment_validate_ext_input *)
Definition fragment_validate_ext_input (fragment_offset message_len fragment_payload_len : Z)
    : xgl_error_t :=
  if (message_len =? 0) || (message_len <? fragment_offset) ||
     (message_len - fragment_offset <? fragment_payload_len)
  then XGL_ERR_INVALID_FRAME else XGL_OK.

(** The answer: the code, the manager, [*complete_data] and [*complete_len]. *)
Record process_result := mk_process {
  pr_err : xgl_error_t;
  pr_manager : xgl_fragment_manager_t;
  pr_complete_data : ptr raw_bytes;
  pr_complete_len : Z;
  pr_env : heap_answers
}.

(** From the found or created buffer on.  [system_time] is what [xgl_time_ms()]
    answers. *)
(** src/src/transport/xgl_fragment_process.c:63-92: xgl_fragment_process_ext *)
Definition process_fragment (manager : xgl_fragment_manager_t) (node : nat)
    (data_type fragment_offset message_len : Z) (fragment_payload : bytes)
    (fragment_payload_len current_time_ms system_time : Z) (env : heap_answers) : M process_result :=
  buffer ← fm_reassembly_list manager !! node;
  if negb (rb_data_type buffer =? data_type) || negb (rb_buffer_size buffer =? message_len)
  then ret (mk_process XGL_ERR_INVALID_FRAME manager NULL 0 env)
  else
    let start := fragment_offset in
    let end_ := start + fragment_payload_len in
    '(range_err, buffer) ← fragment_insert_received_range buffer start end_;
    let store b := manager <| fm_reassembly_list := <[node := b]> (fm_reassembly_list manager) |> in
    if negb (is_ok range_err) then ret (mk_process range_err (store buffer) NULL 0 env)
    else
      let is_first_received_range := rb_received_bytes buffer =? 0 in
      src ← rd_bytes fragment_payload 0 fragment_payload_len;
      data ← wr_bytes (rb_data buffer) start (map Some src);
      let buffer := buffer <| rb_data := data |>
        <| rb_received_bytes := rb_received_bytes buffer + fragment_payload_len |> in
      let buffer := if is_first_received_range
        then buffer <| rb_first_fragment_time :=
                         if current_time_ms =? 0 then system_time else current_time_ms |>
        else buffer in
      if rb_received_bytes buffer =? rb_buffer_size buffer then
        let '(manager, complete_data, complete_len) :=
          fragment_complete_reassembly (store buffer) node buffer in
        ret (mk_process XGL_OK manager (Ptr complete_data) complete_len env)
      else ret (mk_process XGL_ERR_BUSY (store buffer) NULL 0 env).

(** src/src/transport/xgl_fragment_process.c:27-92: xgl_fragment_process_ext *)
Definition xgl_fragment_process_ext (manager : xgl_fragment_manager_t)
    (source_id connection_id session_epoch data_type message_id fragment_offset message_len : Z)
    (fragment_payload : ptr bytes) (fragment_payload_len current_time_ms system_time : Z)
    (env : heap_answers) : M process_result :=
  match fragment_payload with
  | NULL => ret (mk_process XGL_ERR_INVALID_PARAM manager NULL 0 env)
  | Ptr payload =>
      if fragment_payload_len =? 0 then ret (mk_process XGL_ERR_INVALID_PARAM manager NULL 0 env)
      else
        let err := fragment_validate_ext_input fragment_offset message_len fragment_payload_len in
        if negb (is_ok err) then ret (mk_process err manager NULL 0 env)
        else
          let '(err, manager, buffer, env) :=
            match fragment_find_reassembly_buffer manager source_id connection_id session_epoch
                    message_id with
            | Ptr node => (XGL_OK, manager, Ptr node, env)
            | NULL => fragment_create_reassembly_buffer manager source_id connection_id
                        session_epoch data_type message_id message_len env
            end in
          if negb (is_ok err) then ret (mk_process err manager NULL 0 env)
          else
            node ← buffer;
            process_fragment manager node data_type fragment_offset message_len payload
              fragment_payload_len current_time_ms system_time env
  end.

(** The iterations that remove some of the buffers ([XGL_LIST_FOR_EACH_SAFE],
    see [LinkedList.for_each_safe_loop]): what is left, and how many went. *)
(** src/src/transport/xgl_fragment_maintenance.c:21-46: xgl_fragment_process_timeouts *)
Fixpoint release_loop (expired : xgl_reassembly_buffer_t -> bool) (node : list xgl_reassembly_buffer_t)
    (manager : xgl_fragment_manager_t) (count : Z)
    : list xgl_reassembly_buffer_t * xgl_fragment_manager_t * Z :=
  match node with
  | [] => ([], manager, count)
  | buffer :: next =>
      if expired buffer
      then release_loop expired next (fragment_free_reassembly_buffer manager buffer) (count + 1)
      else
        let '(kept, manager, count) := release_loop expired next manager count in
        (buffer :: kept, manager, count)
  end.

(** src/src/transport/xgl_fragment_maintenance.c:28-37: xgl_fragment_process_timeouts *)
Definition rbuf_timed_out (current_time_ms : Z) (buffer : xgl_reassembly_buffer_t) : bool :=
  if rb_first_fragment_time buffer =? 0 then false
  else
    let elapsed_ms := u32 (current_time_ms - rb_first_fragment_time buffer) in
    rb_timeout_ms buffer <=? elapsed_ms.

(** src/src/transport/xgl_fragment_maintenance.c:11-49: xgl_fragment_process_timeouts *)
Definition xgl_fragment_process_timeouts (manager : xgl_fragment_manager_t) (current_time_ms : Z)
    : Z * xgl_fragment_manager_t :=
  let '(kept, manager, timeout_count) :=
    release_loop (rbuf_timed_out current_time_ms) (fm_reassembly_list manager) manager 0 in
  (timeout_count, manager <| fm_reassembly_list := kept |>).

(** src/src/transport/xgl_fragment_maintenance.c:54-61: xgl_fragment_get_reassembly_count *)
Definition xgl_fragment_get_reassembly_count (manager : xgl_fragment_manager_t) : Z :=
  zlen (fm_reassembly_list manager).

(** src/src/transport/xgl_fragment_maintenance.c:66-79: xgl_fragment_clear_reassembly *)
Definition xgl_fragment_clear_reassembly (manager : xgl_fragment_manager_t) : xgl_fragment_manager_t :=
  let '(kept, manager, _) := release_loop (fun _ => true) (fm_reassembly_list manager) manager 0 in
  manager <| fm_reassembly_list := kept |>.

(** src/src/transport/xgl_fragment_maintenance.c:81-111: xgl_fragment_clear_reassembly_scope *)
Definition xgl_fragment_clear_reassembly_scope (manager : xgl_fragment_manager_t)
    (source_id connection_id session_epoch : Z) : Z * xgl_fragment_manager_t :=
  let matches_production_scope buffer :=
    (rb_source_id buffer =? source_id) && (rb_connection_id buffer =? connection_id) &&
    (rb_session_epoch buffer =? session_epoch) in
  let '(kept, manager, cleared) :=
    release_loop matches_production_scope (fm_reassembly_list manager) manager 0 in
  (cleared, manager <| fm_reassembly_list := kept |>).

(** src/src/transport/xgl_fragment.c:62-70: xgl_fragment_destroy *)
Definition xgl_fragment_destroy (manager : xgl_fragment_manager_t) : xgl_fragment_manager_t :=
  xgl_fragment_clear_reassembly manager.

(** ** Ranges as a set of offsets *)

(** The ranges are in order, not empty, and do not touch: each starts behind
    the end of the one before, the first behind [lo]. *)
Fixpoint sepd (lo : Z) (rs : list xgl_fragment_received_range_t) : Prop :=
  match rs with
  | [] => True
  | r :: rs => lo < rr_start r /\ rr_start r < rr_end r /\ sepd (rr_end r) rs
  end.
Fixpoint last_end (lo : Z) (rs : list xgl_fragment_received_range_t) : Z :=
  match rs with [] => lo | r :: rs => last_end (rr_end r) rs end.
Definition covers (rs : list xgl_fragment_received_range_t) (x : Z) : Prop :=
  Exists (fun r => rr_start r <= x < rr_end r) rs.
Definition total (rs : list xgl_fragment_received_range_t) : Z :=
  foldr (fun r t => rr_end r - rr_start r + t) 0 rs.

Lemma sepd_app lo l1 l2 : sepd lo (l1 ++ l2) <-> sepd lo l1 /\ sepd (last_end lo l1) l2.
Proof. revert lo. induction l1 as [|r l1 IH]; intros lo; cbn; [tauto|]. rewrite IH. tauto. Qed.
Lemma last_end_app lo l1 l2 : last_end lo (l1 ++ l2) = last_end (last_end lo l1) l2.
Proof. revert lo. induction l1 as [|r l1 IH]; intros lo; cbn; [done|]. by rewrite IH. Qed.
Lemma last_end_ge lo rs : sepd lo rs -> lo <= last_end lo rs.
Proof.
  revert lo. induction rs as [|r rs IH]; intros lo; cbn; [lia|]. intros (?&?&Hs%IH). lia.
Qed.
Lemma total_app l1 l2 : total (l1 ++ l2) = total l1 + total l2.
Proof. unfold total. induction l1 as [|r l1 IH]; cbn; [done|]. rewrite IH. lia. Qed.
Lemma sepd_total lo hi rs :
  sepd lo rs -> last_end lo rs <= hi -> rs <> [] -> 0 < total rs < hi - lo.
Proof.
  revert lo. induction rs as [|r rs IH]; intros lo; [done|]. cbn. intros (H1 & H2 & Hs) Hh _.
  fold (total rs). destruct rs as [|r' rs]; [cbn in *; lia|]. specialize (IH _ Hs Hh ltac:(done)). lia.
Qed.
(** Ranges that add up to the whole of [0 .. size) are that one range. *)
Lemma total_full rs size :
  sepd (-1) rs -> last_end (-1) rs <= size -> total rs = size -> 0 < size -> rs = [mk_range 0 size].
Proof.
  intros Hs Hh Ht Hpos. destruct rs as [|r rs]; [cbn in Ht; lia|]. cbn in Hs, Hh, Ht.
  fold (total rs) in Ht. destruct Hs as (H1 & H2 & Hs). destruct rs as [|r' rs].
  - cbn in *. destruct r as [a b]; cbn in *. f_equal. f_equal; lia.
  - pose proof (sepd_total _ _ _ Hs Hh ltac:(done)). lia.
Qed.

(** Splitting at the place where a new range goes. *)
Definition low_part (rs : list xgl_fragment_received_range_t) (start : Z) :=
  take (length (filter (fun r => rr_start r < start) rs)) rs.
Definition high_part (rs : list xgl_fragment_received_range_t) (start : Z) :=
  drop (length (filter (fun r => rr_start r < start) rs)) rs.
Lemma filter_ge_nil start rs lo :
  sepd lo rs -> start <= lo + 1 -> filter (fun r => rr_start r < start) rs = [].
Proof.
  revert lo. induction rs as [|r rs IH]; intros lo; [done|]. cbn [sepd]. intros (H1 & H2 & Hs) Hle.
  rewrite filter_cons_False by lia. apply (IH _ Hs). lia.
Qed.
Lemma split_ranges rs start : forall lo,
  sepd lo rs ->
  rs = low_part rs start ++ high_part rs start /\
  Forall (fun r => rr_start r < start) (low_part rs start) /\
  Forall (fun r => start <= rr_start r) (high_part rs start).
Proof.
  induction rs as [|r rs IH]; intros lo Hs; [by repeat constructor|].
  unfold low_part, high_part. split; [by rewrite take_drop|]. destruct Hs as (H1 & H2 & Hs).
  destruct (decide (rr_start r < start)).
  - rewrite filter_cons_True by done. cbn [length take drop].
    destruct (IH _ Hs) as (_ & IH1 & IH2). split; [by constructor|exact IH2].
  - rewrite filter_cons_False by done. rewrite (filter_ge_nil _ _ (rr_end r)) by (done || lia).
    cbn [length take drop]. split; [constructor|]. constructor; [lia|].
    assert (start <= rr_end r) as Hle by lia. clear - Hs Hle. revert Hs Hle.
    generalize (rr_end r). induction rs as [|r' rs IH]; intros lo Hs Hle; constructor; cbn in Hs.
    + lia.
    + apply (IH (rr_end r')); [tauto|]. lia.
Qed.

(** ** The loops over the array *)

Lemma overlap_loop_spec rs start end_ : forall pre post,
  overlap_loop (pre ++ rs ++ post) (length rs) (zlen pre) start end_ =
  Some (existsb (fun r => fragment_range_overlaps r start end_) rs).
Proof.
  induction rs as [|r rs IH]; intros pre post; [done|]. cbn [length overlap_loop existsb app].
  rewrite rd_at by done. cbn [mbind option_bind].
  destruct (fragment_range_overlaps r start end_); [done|]. cbn [orb].
  specialize (IH (pre ++ [r]) post). rewrite <- app_assoc, zlen_app in IH. exact IH.
Qed.
Lemma insert_index_loop_spec low : forall pre high post start,
  Forall (fun r => rr_start r < start) low -> Forall (fun r => start <= rr_start r) high ->
  insert_index_loop (pre ++ low ++ high ++ post) (length (low ++ high)) (zlen pre) start =
  Some (zlen pre + zlen low).
Proof.
  induction low as [|r low IH]; intros pre high post start Hl Hh; cbn [app length insert_index_loop].
  - destruct high as [|r high]; [cbn; f_equal; unfold zlen; cbn; lia|].
    apply Forall_cons in Hh as [Hr _]. cbn [length insert_index_loop app].
    rewrite rd_at by done. cbn [mbind option_bind].
    destruct (Z.ltb_spec (rr_start r) start); [lia|]. f_equal. change (zlen []) with 0. lia.
  - apply Forall_cons in Hl as [Hr Hl]. rewrite rd_at by done. cbn [mbind option_bind].
    destruct (Z.ltb_spec (rr_start r) start); [|lia].
    specialize (IH (pre ++ [r]) high post start Hl Hh). rewrite <- app_assoc, zlen_app in IH.
    change (zlen [r]) with 1 in IH. cbn [app] in IH. rewrite IH. f_equal. rewrite zlen_cons. lia.
Qed.

(** ** What an insertion does to the set *)

Definition inserted (rs : list xgl_fragment_received_range_t) (s e : Z)
    (rs' : list xgl_fragment_received_range_t) : Prop :=
  sepd (-1) rs' /\ (forall x, covers rs' x <-> covers rs x \/ s <= x < e) /\
  total rs' = total rs + (e - s) /\ last_end (-1) rs' = Z.max (last_end (-1) rs) e /\
  zlen rs' <= zlen rs + 1.

Lemma covers_app l1 l2 x : covers (l1 ++ l2) x <-> covers l1 x \/ covers l2 x.
Proof. apply Exists_app. Qed.
Lemma covers_cons r l x : covers (r :: l) x <-> rr_start r <= x < rr_end r \/ covers l x.
Proof. apply Exists_cons. Qed.
Lemma sepd_raise lo lo' rs :
  sepd lo rs -> (forall r, head rs = Some r -> lo' < rr_start r) -> sepd lo' rs.
Proof. destruct rs as [|r rs]; [done|]. cbn. intros (_ & ? & ?) Hd. specialize (Hd r eq_refl). tauto. Qed.
Lemma last_end_any lo lo' rs : rs <> [] -> last_end lo rs = last_end lo' rs.
Proof. by destruct rs. Qed.

Lemma inserted_join l p n h s e :
  sepd (-1) (l ++ p :: n :: h) -> rr_end p = s -> rr_start n = e -> s < e ->
  inserted (l ++ p :: n :: h) s e (l ++ mk_range (rr_start p) (rr_end n) :: h).
Proof.
  intros [Hl (H1 & H2 & H3 & H4 & Hh)]%sepd_app <- <- Hlt. split; [|split; [|split; [|split]]].
  - apply sepd_app. cbn. split_and!; [done|lia|lia|done].
  - intros x. rewrite !covers_app, !covers_cons. cbn. intuition lia.
  - rewrite !total_app. cbn. fold (total h). lia.
  - rewrite !last_end_app. cbn. pose proof (last_end_ge _ _ Hh). lia.
  - autorewrite with zlen. lia.
Qed.
Lemma inserted_extend_end l p h s e :
  sepd (-1) (l ++ p :: h) -> rr_end p = s -> s < e -> (forall r, head h = Some r -> e < rr_start r) ->
  inserted (l ++ p :: h) s e (l ++ mk_range (rr_start p) e :: h).
Proof.
  intros [Hl (H1 & H2 & Hh)]%sepd_app <- Hlt Hhd. pose proof (sepd_raise _ e _ Hh Hhd) as Hh'.
  split; [|split; [|split; [|split]]].
  - apply sepd_app. cbn. split_and!; [done|lia|lia|done].
  - intros x. rewrite !covers_app, !covers_cons. cbn. intuition lia.
  - rewrite !total_app. cbn. fold (total h). lia.
  - rewrite !last_end_app. cbn. destruct h as [|r h]; [cbn; lia|].
    pose proof (last_end_ge _ _ Hh'). rewrite (last_end_any e (rr_end p)) in * by done. lia.
  - autorewrite with zlen. lia.
Qed.
Lemma inserted_extend_start l n h s e :
  sepd (-1) (l ++ n :: h) -> rr_start n = e -> s < e -> last_end (-1) l < s ->
  inserted (l ++ n :: h) s e (l ++ mk_range s (rr_end n) :: h).
Proof.
  intros [Hl (H1 & H2 & Hh)]%sepd_app <- Hlt Hlast. split; [|split; [|split; [|split]]].
  - apply sepd_app. cbn. split_and!; [done|lia|lia|done].
  - intros x. rewrite !covers_app, !covers_cons. cbn. intuition lia.
  - rewrite !total_app. cbn. fold (total h). lia.
  - rewrite !last_end_app. cbn. pose proof (last_end_ge _ _ Hh). lia.
  - autorewrite with zlen. lia.
Qed.
Lemma inserted_new l h s e :
  sepd (-1) (l ++ h) -> s < e -> last_end (-1) l < s -> (forall r, head h = Some r -> e < rr_start r) ->
  inserted (l ++ h) s e (l ++ mk_range s e :: h).
Proof.
  intros [Hl Hh]%sepd_app Hlt Hlast Hhd. pose proof (sepd_raise _ e _ Hh Hhd) as Hh'.
  split; [|split; [|split; [|split]]].
  - apply sepd_app. cbn. split_and!; [done|lia|lia|done].
  - intros x. rewrite !covers_app, !covers_cons. cbn. intuition lia.
  - rewrite !total_app. cbn. fold (total h). lia.
  - rewrite !last_end_app. cbn. destruct h as [|r h]; [cbn; lia|].
    pose proof (last_end_ge _ _ Hh'). rewrite (last_end_any e (last_end (-1) l)) in * by done. lia.
  - autorewrite with zlen. lia.
Qed.

(** ** The insertion on the array *)

(** The buffer's array holds the ranges [rs]. *)
Definition ranges_rep (b : xgl_reassembly_buffer_t) (rs : list xgl_fragment_received_range_t) : Prop :=
  sepd (-1) rs /\ rb_received_range_count b = zlen rs /\
  zlen (rb_received_ranges b) = XGL_FRAGMENT_MAX_RECEIVED_RANGES /\
  exists junk, rb_received_ranges b = rs ++ junk.
(** Everything but the ranges is as before. *)
Definition same_but_ranges (b b' : xgl_reassembly_buffer_t) : Prop :=
  b' = b <| rb_received_ranges := rb_received_ranges b' |>
         <| rb_received_range_count := rb_received_range_count b' |>.

Lemma ranges_rep_store b rs junk count :
  sepd (-1) rs -> count = zlen rs -> zlen (rs ++ junk) = XGL_FRAGMENT_MAX_RECEIVED_RANGES ->
  let b' := b <| rb_received_ranges := rs ++ junk |> <| rb_received_range_count := count |> in
  ranges_rep b' rs /\ same_but_ranges b b'.
Proof. intros Hs -> Hz b'. split; [|by destruct b]. split_and!; [done|done|done|by exists junk]. Qed.

Lemma remove_range_run b l n h junk :
  rb_received_ranges b = l ++ n :: h ++ junk -> rb_received_range_count b = zlen (l ++ n :: h) ->
  exists z, fragment_remove_range_at b (zlen l) =
    Some (b <| rb_received_ranges := l ++ h ++ z :: junk |> <| rb_received_range_count := zlen (l ++ h) |>).
Proof.
  intros Hr Hc. pose proof (zlen_nonneg h). unfold fragment_remove_range_at. rewrite Hr, Hc.
  rewrite zlen_app, zlen_cons. replace (_ <=? zlen l) with false by lia.
  replace (Z.to_nat (zlen l + (1 + zlen h) - (zlen l + 1))) with (length h) by (unfold zlen; lia).
  destruct (shift_down_spec h l n junk) as [z Hz]. unfold move_down_loop. rewrite Hz.
  cbn [mbind option_bind]. exists z. rewrite zlen_app.
  replace (zlen l + (1 + zlen h) - 1) with (zlen l + zlen h) by lia. by destruct b.
Qed.

Lemma no_overlap_sides rs s e :
  s < e -> Forall (fun r => rr_start r < rr_end r) rs ->
  existsb (fun r => fragment_range_overlaps r s e) rs = false ->
  (forall x, s <= x < e -> ~ covers rs x) /\
  Forall (fun r => rr_end r <= s \/ e <= rr_start r) rs.
Proof.
  intros Hlt Hok Hno. assert (Forall (fun r => rr_end r <= s \/ e <= rr_start r) rs) as Hsides.
  { induction Hok as [|r rs Hr _ IH]; [constructor|]. cbn in Hno. apply orb_false_iff in Hno as [Hr' Hno].
    constructor; [|by apply IH]. unfold fragment_range_overlaps in Hr'. lia. }
  split; [|done]. intros x Hx Hc. unfold covers in Hc. rewrite Exists_exists in Hc.
  destruct Hc as (r & Hin & Hr). rewrite Forall_forall in Hsides. specialize (Hsides r Hin). cbn in Hsides. lia.
Qed.
Lemma overlap_covers rs s e :
  s < e -> Forall (fun r => rr_start r < rr_end r) rs ->
  existsb (fun r => fragment_range_overlaps r s e) rs = true -> exists x, s <= x < e /\ covers rs x.
Proof.
  intros Hlt Hok Ho. apply existsb_exists in Ho as (r & Hin & Hr). apply list_elem_of_In in Hin.
  rewrite Forall_forall in Hok. specialize (Hok r Hin). cbn in Hok.
  unfold fragment_range_overlaps in Hr. exists (Z.max s (rr_start r)). split; [lia|].
  apply Exists_exists. exists r. split; [done|]. lia.
Qed.
Lemma sepd_nonempty lo rs : sepd lo rs -> Forall (fun r => rr_start r < rr_end r) rs.
Proof.
  revert lo. induction rs as [|r rs IH]; intros lo; [constructor|]. cbn. intros (_ & ? & Hs).
  constructor; [done|]. by eapply IH.
Qed.
Lemma low_last_end lo low s :
  sepd lo low -> lo < s -> Forall (fun r => rr_end r <= s) low -> last_end lo low <= s.
Proof.
  revert lo. induction low as [|r low IH]; intros lo; cbn; [lia|]. intros (H1 & H2 & Hs) Hlo.
  intros [Hr Hl]%Forall_cons. destruct low as [|r' low]; [cbn; lia|].
  apply IH; [done| |done]. apply Forall_cons in Hl as [Hr' _]. cbn in Hs. lia.
Qed.
Lemma rd_last {A} (l : list A) p post : rd ((l ++ [p]) ++ post) (zlen (l ++ [p]) - 1) = Some p.
Proof. rewrite <- app_assoc. apply rd_at. rewrite zlen_app. change (zlen [p]) with 1. lia. Qed.
Lemma wr_last {A} (l : list A) p post v :
  wr ((l ++ [p]) ++ post) (zlen (l ++ [p]) - 1) v = Some ((l ++ [v]) ++ post).
Proof. rewrite <- !app_assoc. apply wr_at. rewrite zlen_app. change (zlen [p]) with 1. lia. Qed.

(** The answer of an insertion of [s .. e) into the set [rs]. *)
Definition insert_outcome (b : xgl_reassembly_buffer_t) (rs : list xgl_fragment_received_range_t)
    (s e : Z) (err : xgl_error_t) (b' : xgl_reassembly_buffer_t) : Prop :=
  (err = XGL_ERR_BUSY /\ b' = b /\ exists x, s <= x < e /\ covers rs x) \/
  (err = XGL_ERR_NO_MEMORY /\ b' = b /\ zlen rs = XGL_FRAGMENT_MAX_RECEIVED_RANGES) \/
  (err = XGL_OK /\ same_but_ranges b b' /\ (forall x, s <= x < e -> ~ covers rs x) /\
     exists rs', ranges_rep b' rs' /\ inserted rs s e rs').

(** The part behind the searches, on the array [low ++ high ++ junk]. *)
Lemma insert_touching_previous b l p high junk s e :
  ranges_rep b ((l ++ [p]) ++ high) -> rb_received_ranges b = (l ++ [p]) ++ high ++ junk ->
  s < e -> rr_end p = s -> Forall (fun r => e <= rr_start r) high ->
  (forall x, s <= x < e -> ~ covers ((l ++ [p]) ++ high) x) ->
  forall touches, touches = match head high with Some n => rr_start n =? e | None => false end ->
  let idx := zlen (l ++ [p]) in
  exists err b',
    (p0 ← rd (rb_received_ranges b) (idx - 1);
     ranges ← wr (rb_received_ranges b) (idx - 1) (mk_range (rr_start p0) e);
     if touches : bool then
       n ← rd ranges idx; p0 ← rd ranges (idx - 1);
       ranges ← wr ranges (idx - 1) (mk_range (rr_start p0) (rr_end n));
       buffer ← fragment_remove_range_at (b <| rb_received_ranges := ranges |>) idx;
       ret (XGL_OK, buffer)
     else ret (XGL_OK, b <| rb_received_ranges := ranges |>)) = Some (err, b') /\
    insert_outcome b ((l ++ [p]) ++ high) s e err b'.
Proof.
  intros (Hs & Hc & Hz & _) Hr Hlt Hp Hhigh Hno touches Ht idx. rewrite Hr in *. unfold idx.
  rewrite rd_last. cbn [mbind option_bind]. rewrite wr_last. cbn [mbind option_bind].
  destruct high as [|n h]; cbn [head] in Ht; subst touches.
  { exists XGL_OK, (b <| rb_received_ranges := (l ++ [mk_range (rr_start p) e]) ++ [] ++ junk |>).
    split; [done|]. right. right. split; [done|]. split; [by destruct b|]. split; [done|].
    exists (l ++ [mk_range (rr_start p) e]). rewrite app_nil_r in *.
    pose proof (inserted_extend_end l p [] s e Hs Hp Hlt ltac:(done)) as Hins.
    split; [|done]. split; [apply Hins|]. rewrite !zlen_app in *. cbn in Hz |- *.
    split; [done|]. split; [|by exists junk]. rewrite !zlen_app. exact Hz. }
  rewrite <- app_assoc in Hs, Hno. cbn [app] in *. apply Forall_cons in Hhigh as [Hn _].
  destruct (Z.eqb_spec (rr_start n) e) as [Hne|Hne].
  - assert (forall v, zlen (l ++ [v]) = zlen (l ++ [p])) as Hzl by (intros v; by rewrite !zlen_app).
    set (r1 := mk_range (rr_start p) e).
    rewrite (rd_at (l ++ [r1]) n (h ++ junk) (zlen (l ++ [p]))) by (symmetry; apply Hzl). cbn [mbind option_bind].
    rewrite <- (Hzl r1), rd_last. cbn [mbind option_bind].
    rewrite wr_last. cbn [mbind option_bind rr_start].
    set (b1 := b <| rb_received_ranges := _ |>).
    destruct (remove_range_run b1 (l ++ [mk_range (rr_start p) (rr_end n)]) n h junk) as [z Hrm].
    { done. } { change (rb_received_range_count b1) with (rb_received_range_count b). rewrite Hc.
      rewrite !zlen_app. done. }
    rewrite Hzl, <- (Hzl r1) in Hrm. rewrite Hrm. cbn [mbind option_bind].
    eexists _, _. split; [done|]. right. right. split; [done|].
    pose proof (inserted_join l p n h s e Hs Hp Hne Hlt) as Hins.
    split; [by destruct b|]. split; [by rewrite <- app_assoc|].
    exists (l ++ mk_range (rr_start p) (rr_end n) :: h). split; [|by rewrite <- app_assoc].
    split; [apply Hins|]. cbn. clear Hins Hrm. autorewrite with zlen in *.
    split; [lia|]. split; [lia|]. exists (z :: junk). by rewrite <- !app_assoc.
  - eexists _, _. split; [done|]. right. right. split; [done|]. split; [by destruct b|].
    split; [by rewrite <- app_assoc|].
    pose proof (inserted_extend_end l p (n :: h) s e Hs Hp Hlt) as Hins.
    rewrite <- app_assoc. cbn [app]. exists (l ++ mk_range (rr_start p) e :: n :: h).
    assert (inserted (l ++ p :: n :: h) s e (l ++ mk_range (rr_start p) e :: n :: h)) as Hins'.
    { apply Hins. intros r [= <-]. lia. }
    split; [|by rewrite <- app_assoc]. split; [apply Hins'|]. cbn. clear Hins Hins'. autorewrite with zlen in *.
    split; [lia|]. split; [lia|]. exists junk. by rewrite <- !app_assoc.
Qed.
Lemma insert_apart_from_previous b low high junk s e :
  ranges_rep b (low ++ high) -> rb_received_ranges b = low ++ high ++ junk ->
  s < e -> last_end (-1) low < s -> Forall (fun r => e <= rr_start r) high ->
  (forall x, s <= x < e -> ~ covers (low ++ high) x) ->
  forall touches, touches = match head high with Some n => rr_start n =? e | None => false end ->
  let idx := zlen low in
  exists err b',
    (if touches : bool then
       n ← rd (rb_received_ranges b) idx;
       ranges ← wr (rb_received_ranges b) idx (mk_range s (rr_end n));
       ret (XGL_OK, b <| rb_received_ranges := ranges |>)
     else if XGL_FRAGMENT_MAX_RECEIVED_RANGES <=? rb_received_range_count b
     then ret (XGL_ERR_NO_MEMORY, b)
     else
       ranges ← move_up_loop (rb_received_ranges b)
                  (Z.to_nat (rb_received_range_count b - idx)) (rb_received_range_count b);
       ranges ← wr ranges idx (mk_range s e);
       ret (XGL_OK, b <| rb_received_ranges := ranges |>
                      <| rb_received_range_count := rb_received_range_count b + 1 |>))
    = Some (err, b') /\ insert_outcome b (low ++ high) s e err b'.
Proof.
  intros (Hs & Hc & Hz & _) Hr Hlt Hlow Hhigh Hno touches Ht idx. rewrite Hr in *. unfold idx.
  assert (touches = false -> forall r, head high = Some r -> e < rr_start r) as Hgap.
  { intros -> r Hhd. rewrite Hhd in Ht. destruct high as [|n h]; [done|]. injection Hhd as ->.
    apply Forall_cons in Hhigh as [? _]. cbn in *. lia. }
  destruct touches.
  - destruct high as [|n h]; [done|]. cbn [head] in Ht. symmetry in Ht. apply Z.eqb_eq in Ht. cbn [app] in *.
    rewrite rd_at by done. cbn [mbind option_bind]. rewrite wr_at by done. cbn [mbind option_bind].
    eexists _, _. split; [done|]. right. right. split; [done|]. split; [by destruct b|]. split; [done|].
    pose proof (inserted_extend_start low n h s e Hs Ht Hlt Hlow) as Hins.
    exists (low ++ mk_range s (rr_end n) :: h). split; [|done]. split; [apply Hins|]. cbn. clear Hins.
    autorewrite with zlen in *. split; [lia|]. split; [lia|]. exists junk. by rewrite <- app_assoc.
  - specialize (Hgap eq_refl). destruct (Z.leb_spec XGL_FRAGMENT_MAX_RECEIVED_RANGES (rb_received_range_count b)) as [Hfull|Hfree].
    { eexists _, _. split; [done|]. right. left. split_and!; [done|done|]. autorewrite with zlen in *.
      pose proof (zlen_nonneg junk). lia. }
    destruct junk as [|x junk]. { autorewrite with zlen in *. lia. }
    rewrite Hc. autorewrite with zlen. unfold move_up_loop.
    replace (Z.to_nat (zlen low + zlen high - zlen low)) with (length high) by (unfold zlen; lia).
    destruct (shift_up_spec high low x junk) as [z Hz']. rewrite Hz'. cbn [mbind option_bind].
    rewrite wr_at by done. cbn [mbind option_bind].
    eexists _, _. split; [done|]. right. right. split; [done|]. split; [by destruct b|]. split; [done|].
    pose proof (inserted_new low high s e Hs Hlt Hlow Hgap) as Hins.
    exists (low ++ mk_range s e :: high). split; [|done]. split; [apply Hins|]. cbn. clear Hins Hz'.
    autorewrite with zlen in *. split; [lia|]. split; [lia|]. exists junk. by rewrite <- app_assoc.
Qed.

Lemma touches_previous_run low post s :
  (if 0 <? zlen low then p ← rd (low ++ post) (zlen low - 1); ret (rr_end p =? s) else ret false) =
  Some (match last low with Some p => rr_end p =? s | None => false end).
Proof.
  destruct low as [|p low _] using rev_ind; [done|]. rewrite rd_last, last_snoc. autorewrite with zlen.
  pose proof (zlen_nonneg low). destruct (Z.ltb_spec 0 (zlen low + (1 + 0))); [done|lia].
Qed.
Lemma touches_next_run low high junk e :
  (if zlen low <? zlen (low ++ high)
   then n ← rd (low ++ high ++ junk) (zlen low); ret (rr_start n =? e) else ret false) =
  Some (match head high with Some n => rr_start n =? e | None => false end).
Proof.
  autorewrite with zlen. destruct high as [|n high]; cbn [head app].
  - change (zlen []) with 0. by rewrite (proj2 (Z.ltb_ge _ _)) by lia.
  - autorewrite with zlen. pose proof (zlen_nonneg high). rewrite rd_at by done.
    destruct (Z.ltb_spec (zlen low) (zlen low + (1 + zlen high))); [done|lia].
Qed.
(** Both parts of the split are on their side of a new range. *)
Lemma split_sides rs s e low high :
  sepd (-1) rs -> rs = low ++ high -> 0 <= s < e ->
  Forall (fun r => rr_start r < s) low -> Forall (fun r => s <= rr_start r) high ->
  Forall (fun r => rr_end r <= s \/ e <= rr_start r) rs ->
  last_end (-1) low <= s /\ Forall (fun r => e <= rr_start r) high.
Proof.
  intros Hs -> Hse Hlow Hhigh Hsides. pose proof (sepd_nonempty _ _ Hs) as Hne.
  apply sepd_app in Hs as [Hs _]. apply Forall_app in Hsides as [Hsl Hsh], Hne as [_ Hne]. split.
  - apply low_last_end; [done|lia|]. rewrite Forall_forall in *. intros r Hr.
    specialize (Hlow r Hr). specialize (Hsl r Hr). cbn in *. lia.
  - rewrite Forall_forall in *. intros r Hr. specialize (Hhigh r Hr). specialize (Hsh r Hr).
    specialize (Hne r Hr). cbn in *. lia.
Qed.

Lemma insert_range_spec b rs s e :
  ranges_rep b rs -> 0 <= s < e ->
  exists err b', fragment_insert_received_range b s e = Some (err, b') /\ insert_outcome b rs s e err b'.
Proof.
  intros Hrep Hse. pose proof Hrep as (Hs & Hc & Hz & junk & Hr). unfold fragment_insert_received_range.
  rewrite Hr, Hc. replace (e <=? s) with false by lia.
  replace (Z.to_nat (zlen rs)) with (length rs) by (unfold zlen; lia).
  pose proof (overlap_loop_spec rs s e [] junk) as Hov. cbn [app] in Hov.
  change (zlen (@nil xgl_fragment_received_range_t)) with 0 in Hov. rewrite Hov. cbn [mbind option_bind].
  pose proof (sepd_nonempty _ _ Hs) as Hne.
  destruct (existsb _ rs) eqn:Ho.
  { eexists _, _. split; [done|]. left. split_and!; [done|done|]. apply overlap_covers; [lia|done|done]. }
  apply no_overlap_sides in Ho as [Hno Hsides]; [|lia|done].
  destruct (split_ranges rs s _ Hs) as (Heq & Hlow & Hhigh).
  revert Heq Hlow Hhigh. generalize (low_part rs s), (high_part rs s). intros low high Heq Hlow Hhigh.
  destruct (split_sides rs s e low high Hs Heq Hse Hlow Hhigh Hsides) as [Hll Hh].
  subst rs. rewrite <- app_assoc in *.
  pose proof (insert_index_loop_spec low [] high junk s Hlow Hhigh) as Hidx.
  cbn [app] in Hidx. change (zlen (@nil xgl_fragment_received_range_t)) with 0 in Hidx.
  rewrite Z.add_0_l in Hidx. rewrite Hidx. cbn [mbind option_bind].
  pose proof (touches_previous_run low (high ++ junk) s) as Htp. cbn [mbind option_bind] in Htp.
  rewrite Htp. cbn [mbind option_bind]. clear Htp.
  pose proof (touches_next_run low high junk e) as Htn. cbn [mbind option_bind] in Htn.
  rewrite Htn. cbn [mbind option_bind]. clear Htn.
  destruct low as [|p low _] using rev_ind.
  - pose proof (insert_apart_from_previous b [] high junk s e Hrep Hr ltac:(lia) ltac:(cbn; lia) Hh Hno _ eq_refl) as Hlem.
    cbv zeta in Hlem. rewrite Hr, Hc in Hlem. exact Hlem.
  - rewrite last_snoc. destruct (Z.eqb_spec (rr_end p) s) as [Hps|Hps].
    + pose proof (insert_touching_previous b low p high junk s e Hrep Hr ltac:(lia) Hps Hh Hno _ eq_refl) as Hlem.
      cbv zeta in Hlem. rewrite Hr in Hlem. exact Hlem.
    + assert (last_end (-1) (low ++ [p]) < s) as Hll'. { rewrite last_end_app in *. cbn in *. lia. }
      pose proof (insert_apart_from_previous b (low ++ [p]) high junk s e Hrep Hr ltac:(lia) Hll' Hh Hno _ eq_refl) as Hlem.
      cbv zeta in Hlem. rewrite Hr, Hc in Hlem. exact Hlem.
Qed.

(** ** The manager's invariant *)

(** The identity of a message. *)
Definition buffer_key (b : xgl_reassembly_buffer_t) : Z * Z * Z * Z :=
  (rb_source_id b, rb_connection_id b, rb_session_epoch b, rb_message_id b).
Definition reserved_sum (l : list xgl_reassembly_buffer_t) : Z :=
  foldr (fun b t => rb_reserved_size b + t) 0 l.

Lemma reserved_sum_app l1 l2 : reserved_sum (l1 ++ l2) = reserved_sum l1 + reserved_sum l2.
Proof. unfold reserved_sum. induction l1 as [|b l1 IH]; cbn; [done|]. rewrite IH. lia. Qed.
Lemma reserved_sum_one b : reserved_sum [b] = rb_reserved_size b.
Proof. cbn. lia. Qed.
Lemma rbuf_matches_key b s c e m : rbuf_matches s c e m b = true <-> buffer_key b = (s, c, e, m).
Proof. unfold rbuf_matches, buffer_key. rewrite !andb_true_iff, !Z.eqb_eq. intuition congruence. Qed.
Lemma find_buffer_spec s c e m l : forall i,
  match find_buffer_loop (rbuf_matches s c e m) l i with
  | Ptr j => exists k b, j = (i + k)%nat /\ l !! k = Some b /\ buffer_key b = (s, c, e, m)
  | NULL => (s, c, e, m) ∉ (buffer_key <$> l)
  end.
Proof.
  induction l as [|b l IH]; intros i; cbn [find_buffer_loop].
  - apply not_elem_of_nil.
  - destruct (rbuf_matches s c e m b) eqn:Hb.
    + apply rbuf_matches_key in Hb. exists 0%nat, b. split; [lia|done].
    + specialize (IH (S i)). destruct (find_buffer_loop _ l (S i)) as [j|].
      * destruct IH as (k & b' & -> & Hk). exists (S k), b'. split; [lia|done].
      * csimpl. rewrite not_elem_of_cons. split; [|done]. intros Hk.
        symmetry in Hk. apply rbuf_matches_key in Hk. congruence.
Qed.

Section content.
  (** What the bytes of a message may be: [byte_ok key x v] of the value at
      offset [x], [size_ok key n] of the length. *)
  Context (byte_ok : Z * Z * Z * Z -> Z -> Z -> Prop) (size_ok : Z * Z * Z * Z -> Z -> Prop).

Definition buffer_holds (b : xgl_reassembly_buffer_t) (rs : list xgl_fragment_received_range_t) : Prop :=
  ranges_rep b rs /\ last_end (-1) rs <= rb_buffer_size b /\
  rb_received_bytes b = total rs /\ total rs < rb_buffer_size b /\
  forall x, covers rs x -> exists v, rd (rb_data b) x = Some (Some v) /\ byte_ok (buffer_key b) x v.
Definition buffer_ok (b : xgl_reassembly_buffer_t) : Prop :=
  rb_data_len b = rb_buffer_size b /\ rb_reserved_size b = rb_buffer_size b /\
  0 < rb_buffer_size b /\ zlen (rb_data b) = rb_buffer_size b /\ size_ok (buffer_key b) (rb_buffer_size b) /\
  exists rs, buffer_holds b rs.

Definition manager_ok (m : xgl_fragment_manager_t) : Prop :=
  Forall buffer_ok (fm_reassembly_list m) /\ NoDup (buffer_key <$> fm_reassembly_list m) /\
  fm_current_reassembly_bytes m = reserved_sum (fm_reassembly_list m) /\
  (fm_max_reassembly_bytes m <> 0 -> fm_current_reassembly_bytes m <= fm_max_reassembly_bytes m) /\
  zlen (fm_reassembly_list m) <= fm_max_reassembly_buffers m /\
  (fm_max_message_size m <> 0 ->
   Forall (fun b => rb_buffer_size b <= fm_max_message_size m) (fm_reassembly_list m)).

(** What a completed message looks like. *)
Definition delivery_ok (key : Z * Z * Z * Z) (data : raw_bytes) (len : Z) : Prop :=
  zlen data = len /\ size_ok key len /\
  forall x, 0 <= x < len -> exists v, rd data x = Some (Some v) /\ byte_ok key x v.

Lemma reserved_sum_nonneg l : Forall buffer_ok l -> 0 <= reserved_sum l.
Proof.
  induction 1 as [|b l (_ & ? & ? & _) _ IH]; [cbn; lia|]. cbn. fold (reserved_sum l). lia.
Qed.

(** The manager with the buffers [l] and their bytes accounted for. *)
Definition with_buffers (m : xgl_fragment_manager_t) (l : list xgl_reassembly_buffer_t) :=
  m <| fm_reassembly_list := l |> <| fm_current_reassembly_bytes := reserved_sum l |>.
Definition limits (m : xgl_fragment_manager_t) : Z * Z * Z * Z :=
  (fm_max_reassembly_buffers m, fm_reassembly_timeout_ms m, fm_max_message_size m,
   fm_max_reassembly_bytes m).

Lemma reserved_sum_sublist l' l :
  Forall buffer_ok l -> l' `sublist_of` l -> 0 <= reserved_sum l' <= reserved_sum l.
Proof.
  intros Hok Hsub. induction Hsub as [|b l1 l2 _ IH|b l1 l2 _ IH]; [cbn; lia| |];
    apply Forall_cons in Hok as [(_ & ? & ? & _) Hok]; specialize (IH Hok);
    cbn; fold (reserved_sum l1) (reserved_sum l2); lia.
Qed.
Lemma manager_ok_sublist m l' :
  manager_ok m -> l' `sublist_of` fm_reassembly_list m -> manager_ok (with_buffers m l').
Proof.
  intros (Hok & Hnd & Hcur & Hmax & Hlen & Hsize) Hsub.
  pose proof (reserved_sum_sublist _ _ Hok Hsub) as Hsum. apply sublist_length in Hsub as Hl.
  unfold manager_ok. cbn. split_and!.
  - by eapply Forall_sublist.
  - eapply sublist_NoDup; [done|]. by apply fmap_sublist.
  - done.
  - intros Hm. specialize (Hmax Hm). lia.
  - unfold zlen in *. lia.
  - intros Hm. eapply Forall_sublist; [by apply Hsize|done].
Qed.

Lemma release_loop_spec f l : forall m count kept m' count',
  Forall buffer_ok l -> reserved_sum l <= fm_current_reassembly_bytes m ->
  release_loop f l m count = (kept, m', count') ->
  kept = filter (fun b => f b = false) l /\
  m' = m <| fm_current_reassembly_bytes :=
              fm_current_reassembly_bytes m - (reserved_sum l - reserved_sum kept) |> /\
  count' = count + (zlen l - zlen kept).
Proof.
  induction l as [|b l IH]; intros m count kept m' count' Hok Hsum; cbn [release_loop].
  { intros [= <- <- <-]. split_and!; [done| |lia]. destruct m. unfold set_field. cbn.
    f_equal. lia. }
  apply Forall_cons in Hok as [Hb Hok]. cbn in Hsum. fold (reserved_sum l) in Hsum.
  pose proof (reserved_sum_nonneg l Hok). destruct Hb as (_ & Hr & Hpos & _).
  destruct (f b) eqn:Hf.
  - unfold fragment_free_reassembly_buffer. replace (_ <=? _) with true by lia. intros Hrel.
    apply IH in Hrel as (-> & -> & ->); [|done|cbn; lia].
    rewrite (filter_cons_False _ b) by congruence. split_and!; [done| |rewrite zlen_cons; lia].
    destruct m. unfold set_field. cbn. fold (reserved_sum l). f_equal. lia.
  - destruct (release_loop f l m count) as [[kept1 m1] c1] eqn:Hrel. intros [= <- <- <-].
    apply IH in Hrel as (-> & -> & ->); [|done|lia]. rewrite filter_cons_True by done.
    split_and!; [done| |rewrite !zlen_cons; lia]. destruct m. unfold set_field. cbn.
    fold (reserved_sum l) (reserved_sum (filter (fun b => f b = false) l)). f_equal. lia.
Qed.
(** Releasing some of the buffers of a manager. *)
Lemma release_ok f m kept m' count :
  manager_ok m -> release_loop f (fm_reassembly_list m) m 0 = (kept, m', count) ->
  kept = filter (fun b => f b = false) (fm_reassembly_list m) /\
  m' <| fm_reassembly_list := kept |> = with_buffers m kept /\ manager_ok (with_buffers m kept) /\
  count = zlen (fm_reassembly_list m) - zlen kept.
Proof.
  intros Hm Hrel. pose proof Hm as (Hok & _ & Hcur & _).
  apply release_loop_spec in Hrel as (-> & -> & ->); [|done|lia]. split_and!; [done| | |lia].
  - destruct m. unfold with_buffers, set_field. cbn in *. f_equal. lia.
  - apply manager_ok_sublist; [done|]. apply sublist_filter.
Qed.

(** *** One fragment *)

(** The buffer [b2] is [b] with the fragment [src] of offset [start] in it. *)
Definition stored (b : xgl_reassembly_buffer_t) (rs : list xgl_fragment_received_range_t) (start : Z)
    (src : bytes) (b2 : xgl_reassembly_buffer_t) : Prop :=
  buffer_key b2 = buffer_key b /\ rb_data_type b2 = rb_data_type b /\
  rb_data_len b2 = rb_data_len b /\ rb_buffer_size b2 = rb_buffer_size b /\
  rb_reserved_size b2 = rb_reserved_size b /\
  rb_received_bytes b2 = rb_received_bytes b + zlen src /\
  wr_bytes (rb_data b) start (map Some src) = Some (rb_data b2) /\
  (forall x, start <= x < start + zlen src -> ~ covers rs x) /\
  exists rs', ranges_rep b2 rs' /\ inserted rs start (start + zlen src) rs'.

(** How [process_fragment] answers to a fragment for the buffer [b]. *)
Inductive fragment_answer (m : xgl_fragment_manager_t) (node : nat) (b : xgl_reassembly_buffer_t)
    (rs : list xgl_fragment_received_range_t) (data_type start mlen : Z) (src : bytes)
    (env : heap_answers) : process_result -> Prop :=
| answer_mismatch :
    rb_data_type b <> data_type \/ rb_buffer_size b <> mlen ->
    fragment_answer m node b rs data_type start mlen src env
      (mk_process XGL_ERR_INVALID_FRAME m NULL 0 env)
| answer_duplicate x :
    start <= x < start + zlen src -> covers rs x ->
    fragment_answer m node b rs data_type start mlen src env (mk_process XGL_ERR_BUSY m NULL 0 env)
| answer_full :
    zlen rs = XGL_FRAGMENT_MAX_RECEIVED_RANGES ->
    fragment_answer m node b rs data_type start mlen src env (mk_process XGL_ERR_NO_MEMORY m NULL 0 env)
| answer_incomplete b2 :
    rb_buffer_size b = mlen -> stored b rs start src b2 -> rb_received_bytes b2 <> rb_buffer_size b ->
    fragment_answer m node b rs data_type start mlen src env
      (mk_process XGL_ERR_BUSY
         (m <| fm_reassembly_list := <[node := b2]> (fm_reassembly_list m) |>) NULL 0 env)
| answer_complete b2 :
    rb_buffer_size b = mlen -> stored b rs start src b2 -> rb_received_bytes b2 = rb_buffer_size b ->
    fragment_answer m node b rs data_type start mlen src env
      (mk_process XGL_OK
         (fragment_free_reassembly_buffer
            (m <| fm_reassembly_list := delete node (fm_reassembly_list m) |>) b2)
         (Ptr (rb_data b2)) (rb_data_len b2) env).

Lemma delete_insert_list {A} (l : list A) i x : delete i (<[i := x]> l) = delete i l.
Proof. revert i. induction l as [|y l IH]; intros [|i]; [done..|]. cbn. f_equal. apply IH. Qed.

Lemma manager_store_same m : m <| fm_reassembly_list := fm_reassembly_list m |> = m.
Proof. by destruct m. Qed.

Lemma process_fragment_run m node b rs data_type start mlen payload len now sys env :
  fm_reassembly_list m !! node = Some b -> ranges_rep b rs -> zlen (rb_data b) = rb_buffer_size b ->
  0 <= start -> 0 < len -> start + len <= mlen -> len <= zlen payload ->
  exists r, process_fragment m node data_type start mlen payload len now sys env = Some r /\
    fragment_answer m node b rs data_type start mlen (take (Z.to_nat len) payload) env r.
Proof.
  intros Hb Hrep Hdata Hstart Hlen Hend Hpl. unfold process_fragment. rewrite Hb. cbn [mbind option_bind].
  assert (zlen (take (Z.to_nat len) payload) = len) as Hz by (apply zlen_take; lia).
  destruct (negb _ || negb _) eqn:Hmm.
  { eexists. split; [done|]. apply answer_mismatch. lia. }
  apply orb_false_iff in Hmm as [Hdt Hsz].
  destruct (insert_range_spec b rs start (start + len) Hrep ltac:(lia)) as (err & b1 & Hins & Hout).
  rewrite Hins. cbn [mbind option_bind].
  destruct Hout as [(-> & -> & x & Hx & Hc)|[(-> & -> & Hfull)|(-> & Hsame & Hno & rs' & Hrep' & Hins')]];
    cbn [is_ok negb].
  1,2: rewrite list_insert_id, manager_store_same by done; eexists; split; [done|].
  { apply answer_duplicate with x; [|done]. lia. }
  { by apply answer_full. }
  rewrite rd_bytes_Some by lia. cbn [mbind option_bind]. rewrite drop_to_nat_0.
  assert (rb_data b1 = rb_data b /\ rb_received_bytes b1 = rb_received_bytes b /\
          rb_buffer_size b1 = rb_buffer_size b) as (Hd & Hrb & Hbs).
  { rewrite Hsame. by destruct b. }
  rewrite Hd. set (src := take (Z.to_nat len) payload) in *.
  assert (exists d, wr_bytes (rb_data b) start (map Some src) = Some d) as [d Hwr].
  { rewrite wr_bytes_Some; [by eexists|lia|]. unfold zlen in *. rewrite length_map. lia. }
  rewrite Hwr. cbn [mbind option_bind]. set (now' := if now =? 0 then sys else now).
  set (b2 := if rb_received_bytes b1 =? 0 then _ else _).
  assert (stored b rs start src b2) as Hst.
  { assert (b2 = b1 <| rb_data := d |> <| rb_received_bytes := rb_received_bytes b1 + len |>
              <| rb_first_fragment_time := rb_first_fragment_time b2 |>) as ->.
    { unfold b2. destruct (rb_received_bytes b1 =? 0); by destruct b1. }
    generalize (rb_first_fragment_time b2). intros t. unfold stored. rewrite Hz.
    split_and!; [by rewrite Hsame; destruct b..| | |exact Hno|].
    - cbn. by rewrite Hrb.
    - exact Hwr.
    - exists rs'. split; [exact Hrep'|exact Hins']. }
  pose proof Hst as (_ & _ & _ & Hbs2 & _). rewrite Hbs2.
  destruct (Z.eqb_spec (rb_received_bytes b2) (rb_buffer_size b)) as [Hfull|Hpart].
  - eexists. split; [reflexivity|]. pose proof (answer_complete m node b rs data_type start mlen src env b2 ltac:(lia) Hst Hfull) as Ha.
    rewrite <- (delete_insert_list _ node b2) in Ha. destruct m. exact Ha.
  - eexists. split; [reflexivity|]. apply answer_incomplete; [lia|done|done].
Qed.

(** The fragment [src] carries the right bytes. *)
Definition fragment_ok (key : Z * Z * Z * Z) (start : Z) (src : bytes) : Prop :=
  forall i v, rd src i = Some v -> byte_ok key (start + i) v.

Lemma rd_map {A B} (f : A -> B) l i : rd (map f l) i = f <$> rd l i.
Proof. unfold rd. destruct (0 <=? i); [|done]. apply list_lookup_fmap. Qed.

Lemma stored_content b rs start src b2 :
  buffer_holds b rs -> stored b rs start src b2 -> fragment_ok (buffer_key b) start src ->
  forall x, covers rs x \/ start <= x < start + zlen src ->
  exists v, rd (rb_data b2) x = Some (Some v) /\ byte_ok (buffer_key b) x v.
Proof.
  intros (_ & _ & _ & _ & Hcont) (_ & _ & _ & _ & _ & _ & Hwr & Hno & _) Hsrc x Hx.
  rewrite (rd_wr_bytes _ _ _ _ _ Hwr).
  assert (zlen (map Some src) = zlen src) as -> by (unfold zlen; by rewrite length_map).
  destruct (decide (start <= x < start + zlen src)) as [Hin|Hout].
  - destruct (rd_is_Some src (x - start)) as [v Hv]; [lia|]. exists v. rewrite rd_map, Hv. split; [done|].
    apply Hsrc in Hv. by replace (start + (x - start)) with x in Hv by lia.
  - destruct Hx as [Hx|]; [|done]. by apply Hcont.
Qed.
Lemma stored_total b rs start src b2 rs' :
  buffer_holds b rs -> 0 < rb_buffer_size b -> start + zlen src <= rb_buffer_size b ->
  stored b rs start src b2 -> inserted rs start (start + zlen src) rs' ->
  last_end (-1) rs' <= rb_buffer_size b /\ rb_received_bytes b2 = total rs' /\
  total rs' <= rb_buffer_size b.
Proof.
  intros (_ & Hlast & Hrecv & Htot & _) Hpos Hend (_ & _ & _ & _ & _ & Hrecv' & _) (Hs & _ & Ht & Hl & _).
  assert (last_end (-1) rs' <= rb_buffer_size b) as Hle by lia. split_and!; [done|lia|].
  destruct rs' as [|r rs']; [cbn in *; lia|]. pose proof (sepd_total _ _ _ Hs Hle ltac:(done)). lia.
Qed.
Lemma stored_holds b rs start src b2 rs' :
  buffer_holds b rs -> 0 < rb_buffer_size b -> start + zlen src <= rb_buffer_size b ->
  stored b rs start src b2 -> fragment_ok (buffer_key b) start src ->
  rb_received_bytes b2 <> rb_buffer_size b ->
  ranges_rep b2 rs' -> inserted rs start (start + zlen src) rs' -> buffer_holds b2 rs'.
Proof.
  intros Hrep Hpos Hend Hst Hsrc Hpart Hrep' Hins.
  pose proof (stored_content _ _ _ _ _ Hrep Hst Hsrc) as Hcont.
  pose proof Hst as (Hk & _ & _ & Hbs2 & _).
  destruct (stored_total _ _ _ _ _ _ Hrep Hpos Hend Hst Hins) as (Hle & Hrt & Htle).
  unfold buffer_holds. rewrite Hk, Hbs2. split_and!; [done|done|done|lia|].
  intros x Hx. apply Hcont. destruct Hins as (_ & Hcov & _). by apply Hcov.
Qed.
Lemma stored_ok b rs start src b2 :
  buffer_ok b -> buffer_holds b rs -> start + zlen src <= rb_buffer_size b ->
  stored b rs start src b2 -> fragment_ok (buffer_key b) start src ->
  rb_received_bytes b2 <> rb_buffer_size b -> buffer_ok b2.
Proof.
  intros (Hdl & Hrs & Hpos & Hz & Hsz & _) Hrep Hend Hst Hsrc Hpart.
  pose proof Hst as (Hk & Hdt & Hdl2 & Hbs2 & Hrs2 & Hrecv & Hwr & _ & rs' & Hrep' & Hins).
  pose proof (stored_holds _ _ _ _ _ _ Hrep Hpos Hend Hst Hsrc Hpart Hrep' Hins) as Hh.
  unfold buffer_ok. rewrite Hk, Hdl2, Hbs2, Hrs2. apply wr_bytes_zlen in Hwr.
  split_and!; [done|done|done|lia|done|]. by exists rs'.
Qed.
Lemma stored_complete b rs start src b2 :
  buffer_ok b -> buffer_holds b rs -> start + zlen src <= rb_buffer_size b ->
  stored b rs start src b2 -> fragment_ok (buffer_key b) start src ->
  rb_received_bytes b2 = rb_buffer_size b -> delivery_ok (buffer_key b) (rb_data b2) (rb_data_len b2).
Proof.
  intros (Hdl & Hrs & Hpos & Hz & Hsz & _) Hrep Hend Hst Hsrc Hfull.
  pose proof (stored_content _ _ _ _ _ Hrep Hst Hsrc) as Hcont.
  pose proof Hst as (_ & _ & Hdl2 & _ & _ & _ & Hwr & _ & rs' & Hrep' & Hins).
  destruct (stored_total _ _ _ _ _ _ Hrep Hpos Hend Hst Hins) as (Hle & Hrt & Htle).
  unfold delivery_ok. rewrite Hdl2, Hdl. apply wr_bytes_zlen in Hwr. split_and!; [lia|done|].
  intros x Hx. apply Hcont. destruct Hins as (Hs & Hcov & _). apply Hcov.
  rewrite (total_full rs' (rb_buffer_size b)) by (done || lia). constructor. cbn. lia.
Qed.

(** *** The entry point *)

Lemma create_spec m source conn epoch data_type mid mlen env :
  let key := (source, conn, epoch, mid) in
  manager_ok m -> key ∉ (buffer_key <$> fm_reassembly_list m) -> 0 < mlen -> size_ok key mlen ->
  let '(err, m', p, env') :=
    fragment_create_reassembly_buffer m source conn epoch data_type mid mlen env in
  (err <> XGL_OK /\ m' = m /\ p = NULL) \/
  (err = XGL_OK /\ p = Ptr (length (fm_reassembly_list m)) /\
   exists b, m' = with_buffers m (fm_reassembly_list m ++ [b]) /\ manager_ok m' /\
     buffer_key b = key /\ rb_data_type b = data_type /\ rb_buffer_size b = mlen /\ buffer_holds b []).
Proof.
  intros key (Hok & Hnd & Hcur & Hmax & Hlen & Hsize) Hnew Hpos Hsz.
  unfold fragment_create_reassembly_buffer.
  case_if; [by left|]. case_if; [by left|]. case_if; [by left|].
  destruct (alloc_answer sizeof_reassembly_buffer env) as [[] env1]; [|by left]. cbn [negb].
  destruct (alloc_answer mlen env1) as [[] env2]; [|by left]. cbn [negb].
  set (b := mk_rbuf _ _ _ _ _ _ _ _ _ _ _ _ _ _). right. split; [done|]. split; [done|].
  assert (buffer_holds b []) as Hb.
  { unfold buffer_holds, ranges_rep. cbn. unfold total. cbn. split_and!; try done; try lia.
    - by eexists.
    - intros x Hx. by apply Exists_nil in Hx. }
  assert (reserved_sum (fm_reassembly_list m ++ [b]) = fm_current_reassembly_bytes m + mlen) as Hsum.
  { rewrite reserved_sum_app. cbn. lia. }
  exists b. split; [by unfold with_buffers; rewrite Hsum|]. split; [|done].
  unfold manager_ok. cbn -[reserved_sum]. rewrite fmap_app, Hsum, zlen_app. change (zlen [b]) with 1. split_and!.
  - apply Forall_app. split; [done|]. constructor; [|done]. unfold buffer_ok. cbn.
    split_and!; try done; [|by exists []]. unfold zlen. rewrite length_replicate. lia.
  - apply NoDup_app. split; [done|]. split; [|apply NoDup_singleton].
    intros k Hk1 Hk2. apply list_elem_of_singleton in Hk2 as ->. done.
  - lia.
  - lia.
  - lia.
  - intros Hm. apply Forall_app. split; [by apply Hsize|]. constructor; [cbn; lia|done].
Qed.

(** What a step promises about the manager and the answer. *)
Definition process_ok (m : xgl_fragment_manager_t) (key : Z * Z * Z * Z) (r : process_result) : Prop :=
  manager_ok (pr_manager r) /\ limits (pr_manager r) = limits m /\
  match pr_complete_data r with
  | NULL => pr_err r <> XGL_OK
  | Ptr data => pr_err r = XGL_OK /\ delivery_ok key data (pr_complete_len r)
  end.

Lemma reserved_sum_insert l i b b' :
  l !! i = Some b -> rb_reserved_size b' = rb_reserved_size b -> reserved_sum (<[i := b']> l) = reserved_sum l.
Proof.
  revert i. induction l as [|a l IH]; intros [|i]; try done; cbn.
  - intros [= ->]. lia.
  - intros Hi Hb. fold (reserved_sum (<[i := b']> l)) (reserved_sum l). rewrite IH; done.
Qed.
Lemma reserved_sum_delete l i b :
  l !! i = Some b -> reserved_sum (delete i l) = reserved_sum l - rb_reserved_size b.
Proof.
  revert i. induction l as [|a l IH]; intros [|i]; try done; cbn.
  - intros [= ->]. fold (reserved_sum l). lia.
  - intros Hi. fold (reserved_sum (delete i l)) (reserved_sum l). rewrite IH by done. lia.
Qed.
Lemma manager_ok_store m i b b' :
  manager_ok m -> fm_reassembly_list m !! i = Some b -> buffer_ok b' ->
  buffer_key b' = buffer_key b -> rb_buffer_size b' = rb_buffer_size b ->
  rb_reserved_size b' = rb_reserved_size b ->
  manager_ok (m <| fm_reassembly_list := <[i := b']> (fm_reassembly_list m) |>).
Proof.
  intros (Hok & Hnd & Hcur & Hmax & Hlen & Hsize) Hi Hb' Hk Hs Hr. unfold manager_ok. cbn -[reserved_sum].
  rewrite list_fmap_insert, Hk, zlen_insert, (reserved_sum_insert _ _ b) by done. split_and!; try done.
  - by apply Forall_insert.
  - rewrite list_insert_id; [done|]. by rewrite list_lookup_fmap, Hi.
  - intros Hm. apply Forall_insert; [by apply Hsize|]. rewrite Hs. specialize (Hsize Hm).
    rewrite Forall_lookup in Hsize. by apply (Hsize i).
Qed.

Lemma process_fragment_ok m node b data_type start mlen payload len now sys env :
  manager_ok m -> fm_reassembly_list m !! node = Some b ->
  0 <= start -> 0 < len -> start + len <= mlen -> len <= zlen payload ->
  fragment_ok (buffer_key b) start (take (Z.to_nat len) payload) ->
  exists r, process_fragment m node data_type start mlen payload len now sys env = Some r /\
    process_ok m (buffer_key b) r.
Proof.
  intros Hm Hb Hstart Hlen Hend Hpl Hsrc.
  pose proof Hm as (Hok & Hnd & Hcur & Hmax & Hlens & Hsize).
  pose proof Hok as Hbok. rewrite Forall_lookup in Hbok. specialize (Hbok _ _ Hb).
  pose proof Hbok as (Hdl & Hrs & Hpos & Hz & _ & rs & Hrep). 
  destruct (process_fragment_run m node b rs data_type start mlen payload len now sys env)
    as (r & Hr & Hans); [done|apply Hrep|done..|]. exists r. split; [done|].
  assert (zlen (take (Z.to_nat len) payload) = len) as Hzl by (apply zlen_take; lia).
  destruct Hans as [| | |b2 Hmlen Hst Hpart|b2 Hmlen Hst Hfull]; try by split_and!.
  - pose proof Hst as (Hk & _ & _ & Hbs & Hrs2 & _). split; [|done]. apply (manager_ok_store _ _ b); try done.
    apply (stored_ok b rs start (take (Z.to_nat len) payload)); try done. lia.
  - pose proof Hst as (Hk & _ & _ & Hbs & Hrs2 & _).
    assert (fragment_free_reassembly_buffer
              (m <| fm_reassembly_list := delete node (fm_reassembly_list m) |>) b2 =
            with_buffers m (delete node (fm_reassembly_list m))) as ->.
    { pose proof (reserved_sum_delete _ _ _ Hb) as Hsum. 
      pose proof (reserved_sum_sublist _ _ Hok (sublist_delete (fm_reassembly_list m) node)) as Hsub.
      unfold fragment_free_reassembly_buffer, with_buffers. cbn -[reserved_sum].
      replace (_ <=? _) with true by lia. rewrite Hsum. destruct m. unfold set_field. cbn -[reserved_sum].
      f_equal. cbn -[reserved_sum] in Hcur. lia. }
    split; [apply manager_ok_sublist; [done|apply sublist_delete]|]. split; [done|]. split; [done|].
    apply (stored_complete b rs start (take (Z.to_nat len) payload)); try done. lia.
Qed.

Lemma process_ok_error m key err env (r := mk_process err m NULL 0 env) :
  manager_ok m -> err <> XGL_OK -> exists r', Some r = Some r' /\ process_ok m key r'.
Proof. intros Hm Herr. exists r. by split_and!. Qed.

Lemma process_ext_ok m source conn epoch data_type mid start mlen payload len now sys env :
  let key := (source, conn, epoch, mid) in
  manager_ok m -> 0 <= start -> 0 <= len -> 0 <= mlen ->
  (forall p, payload = Ptr p -> len <= zlen p /\ fragment_ok key start (take (Z.to_nat len) p)) ->
  size_ok key mlen ->
  exists r, xgl_fragment_process_ext m source conn epoch data_type mid start mlen payload len now sys env
    = Some r /\ process_ok m key r.
Proof.
  intros key Hm Hstart Hlen Hmlen Hpay Hsz. unfold xgl_fragment_process_ext.
  destruct payload as [p|]; [|by apply process_ok_error]. destruct (Hpay p eq_refl) as [Hpl Hsrc].
  case_if; [by apply process_ok_error|]. unfold fragment_validate_ext_input. 
  destruct ((mlen =? 0) || _ || _) eqn:Hval; cbn [is_ok negb]; [by apply process_ok_error|].
  pose proof (find_buffer_spec source conn epoch mid (fm_reassembly_list m) 0) as Hfind.
  unfold fragment_find_reassembly_buffer. destruct (find_buffer_loop _ _ 0) as [node|].
  - destruct Hfind as (k & b & -> & Hb & Hk). cbn [is_ok negb mbind option_bind]. unfold key in *. rewrite <- Hk in *.
    apply process_fragment_ok; done || lia.
  - pose proof (create_spec m source conn epoch data_type mid mlen env Hm Hfind ltac:(lia) Hsz) as Hcr.
    destruct (fragment_create_reassembly_buffer _ _ _ _ _ _ _ _) as [[[err m'] bp] env'].
    destruct Hcr as [(Herr & -> & ->)|(-> & -> & b & -> & Hm' & Hk & Hdt & Hbs & Hb)].
    + replace (is_ok err) with false by (by destruct err). cbn [negb]. by apply process_ok_error.
    + cbn [is_ok negb mbind option_bind]. fold key in Hk. rewrite <- Hk in *.
      destruct (process_fragment_ok _ (length (fm_reassembly_list m)) b data_type start mlen p len now
        sys env' Hm') as (r & Hr & Hok); try (done || lia); [by apply list_lookup_middle|].
      exists r. split; [exact Hr|].
      destruct Hok as (H1 & H2 & H3). by split_and!.
Qed.
End content.

(** ** Runs of the manager *)

(** What the application and the network do to a manager. *)
Inductive fragment_op :=
| op_fragment (source_id connection_id session_epoch data_type message_id fragment_offset message_len : Z)
    (fragment_payload : ptr bytes) (fragment_payload_len current_time_ms system_time : Z)
| op_timeouts (current_time_ms : Z)
| op_clear_scope (source_id connection_id session_epoch : Z)
| op_clear.

(** A completed message: its key, the bytes and the length that the caller gets. *)
Definition delivery : Type := Z * Z * Z * Z * raw_bytes * Z.

Definition fragment_step (m : xgl_fragment_manager_t) (op : fragment_op) (env : heap_answers)
    : M (xgl_fragment_manager_t * list delivery * heap_answers) :=
  match op with
  | op_fragment source conn epoch dt mid off mlen payload len now sys =>
      r ← xgl_fragment_process_ext m source conn epoch dt mid off mlen payload len now sys env;
      ret (pr_manager r,
           match pr_complete_data r with
           | Ptr data => [(source, conn, epoch, mid, data, pr_complete_len r)]
           | NULL => []
           end, pr_env r)
  | op_timeouts now => ret ((xgl_fragment_process_timeouts m now).2, [], env)
  | op_clear_scope source conn epoch =>
      ret ((xgl_fragment_clear_reassembly_scope m source conn epoch).2, [], env)
  | op_clear => ret (xgl_fragment_clear_reassembly m, [], env)
  end.
Fixpoint fragment_run (m : xgl_fragment_manager_t) (ops : list fragment_op) (env : heap_answers)
    : M (xgl_fragment_manager_t * list delivery * heap_answers) :=
  match ops with
  | [] => ret (m, [], env)
  | op :: ops =>
      '(m, out, env) ← fragment_step m op env;
      '(m, outs, env) ← fragment_run m ops env;
      ret (m, out ++ outs, env)
  end.

(** The caller passes [len] readable bytes, and unsigned numbers. *)
Definition op_valid (op : fragment_op) : Prop :=
  match op with
  | op_fragment _ _ _ _ _ off mlen payload len _ _ =>
      0 <= off /\ 0 <= mlen /\ 0 <= len /\ forall p, payload = Ptr p -> len <= zlen p
  | _ => True
  end.
(** A fragment operation carries a piece of the message [msg] of its key. *)
Definition op_authentic (msg : Z * Z * Z * Z -> bytes) (op : fragment_op) : Prop :=
  match op with
  | op_fragment source conn epoch _ mid off mlen (Ptr payload) len _ _ =>
      mlen = zlen (msg (source, conn, epoch, mid)) /\
      forall i, 0 <= i < len -> rd payload i = rd (msg (source, conn, epoch, mid)) (off + i)
  | _ => True
  end.

Section runs.
  Context (byte_ok : Z * Z * Z * Z -> Z -> Z -> Prop) (size_ok : Z * Z * Z * Z -> Z -> Prop).

Definition op_ok (op : fragment_op) : Prop :=
  op_valid op /\
  match op with
  | op_fragment source conn epoch _ mid off mlen (Ptr payload) len _ _ =>
      size_ok (source, conn, epoch, mid) mlen /\
      fragment_ok byte_ok (source, conn, epoch, mid) off (take (Z.to_nat len) payload)
  | _ => True
  end.
Definition deliveries_ok (ds : list delivery) : Prop :=
  Forall (fun '(key, data, len) => delivery_ok byte_ok size_ok key data len) ds.

Lemma fragment_step_ok m op env :
  manager_ok byte_ok size_ok m -> op_ok op ->
  exists m' ds env', fragment_step m op env = Some (m', ds, env') /\ manager_ok byte_ok size_ok m' /\
    limits m' = limits m /\ deliveries_ok ds.
Proof.
  intros Hm [Hv Ha]. destruct op as [source conn epoch dt mid off mlen payload len now sys| now | s c e |]; cbn in *.
  - destruct payload as [p|]; [|by eexists _, _, _; split_and!; [reflexivity|..|constructor]].
    destruct Hv as (Hoff & Hmlen & Hlen & Hp). destruct Ha as [Hsz Hsrc].
    destruct (process_ext_ok byte_ok size_ok m source conn epoch dt mid off mlen (Ptr p) len now sys env)
      as (r & Hr & Hok & Hlim & Hc); try done.
    { intros p' [= <-]. split; [by apply Hp|done]. }
    rewrite Hr. cbn [mbind option_bind]. eexists _, _, _. split; [reflexivity|]. split_and!; [done|done|].
    destruct (pr_complete_data r); [|constructor]. destruct Hc as [_ Hc]. by constructor.
  - unfold xgl_fragment_process_timeouts.
    destruct (release_loop _ _ m 0) as [[kept m1] n] eqn:Hrel. eapply release_ok in Hrel as (_ & Heq & Hok & _); [|done].
    cbn [snd]. rewrite Heq. by eexists _, _, _; split_and!; [reflexivity|..|constructor].
  - unfold xgl_fragment_clear_reassembly_scope.
    destruct (release_loop _ _ m 0) as [[kept m1] n] eqn:Hrel. eapply release_ok in Hrel as (_ & Heq & Hok & _); [|done].
    cbn [snd]. rewrite Heq. by eexists _, _, _; split_and!; [reflexivity|..|constructor].
  - unfold xgl_fragment_clear_reassembly.
    destruct (release_loop _ _ m 0) as [[kept m1] n] eqn:Hrel. eapply release_ok in Hrel as (_ & Heq & Hok & _); [|done].
    cbn [snd]. rewrite Heq. by eexists _, _, _; split_and!; [reflexivity|..|constructor].
Qed.
Lemma fragment_run_ok ops : forall m env,
  manager_ok byte_ok size_ok m -> Forall op_ok ops ->
  exists m' ds env', fragment_run m ops env = Some (m', ds, env') /\ manager_ok byte_ok size_ok m' /\
    limits m' = limits m /\ deliveries_ok ds.
Proof.
  induction ops as [|op ops IH]; intros m env Hm; cbn [fragment_run].
  { intros _. by eexists _, _, _; split_and!; [reflexivity|..|constructor]. }
  intros [Hop Hops]%Forall_cons. destruct (fragment_step_ok m op env Hm Hop) as (m1 & ds1 & env1 & -> & Hm1 & Hl1 & Hd1).
  cbn [mbind option_bind]. destruct (IH m1 env1 Hm1 Hops) as (m2 & ds2 & env2 & -> & Hm2 & Hl2 & Hd2).
  cbn [mbind option_bind]. eexists _, _, _. split; [reflexivity|]. split_and!; [done|congruence|].
  by apply Forall_app.
Qed.
(** A manager as the transport layer creates it. *)
Lemma initial_manager_ok n timeout max_message max_bytes :
  0 <= n -> 0 <= max_bytes -> manager_ok byte_ok size_ok
              (xgl_fragment_set_limits (xgl_fragment_init n timeout) max_message max_bytes).2.
Proof.
  intros Hn Hmax. unfold xgl_fragment_set_limits. case_if; unfold manager_ok; cbn;
    split_and!; try done; try (by constructor); intros; try lia; by constructor.
Qed.
End runs.

(** The bytes and the length of the message of a key. *)
Definition bytes_of (msg : Z * Z * Z * Z -> bytes) (key : Z * Z * Z * Z) (x v : Z) : Prop :=
  rd (msg key) x = Some v.
Definition length_of (msg : Z * Z * Z * Z -> bytes) (key : Z * Z * Z * Z) (n : Z) : Prop :=
  n = zlen (msg key).
Lemma delivery_is_message msg key data len :
  delivery_ok (bytes_of msg) (length_of msg) key data len ->
  data = map Some (msg key) /\ len = zlen (msg key).
Proof.
  intros (Hz & Hsz & Hall). unfold length_of in Hsz. subst len. split; [|done].
  apply list_eq_same_length with (n := length data); [|done|].
  { rewrite length_map. unfold zlen in *. lia. }
  intros i x y Hi Hx Hy.
  destruct (Hall (Z.of_nat i)) as (v & Hv1 & Hv2); [unfold zlen in *; lia|]. unfold bytes_of in Hv2.
  rewrite rd_lookup, Nat2Z.id in Hv1 by lia. rewrite rd_lookup, Nat2Z.id in Hv2 by lia.
  change (map Some (msg key)) with (Some <$> msg key) in Hy. rewrite list_lookup_fmap, Hv2 in Hy.
  cbn in Hy. congruence.
Qed.

(** C11. Reassembly is correct.  Take any assignment of messages to keys
    (source, connection, epoch, message id), and any sequence of operations on
    a fresh manager in which every fragment carries a piece of the message of
    its key: fragments of all messages interleaved, in any order, with
    duplicates, overlaps, losses, timeouts and clearings in between, and any
    pattern of memory exhaustion.  Then no operation is undefined behaviour, and
    everything delivered is exactly the message of its key, at its full length. *)
Theorem reassembly_delivers_messages msg n timeout max_message max_bytes ops env :
  0 <= n -> 0 <= max_bytes -> Forall op_valid ops -> Forall (op_authentic msg) ops ->
  exists m' ds env',
    fragment_run (xgl_fragment_set_limits (xgl_fragment_init n timeout) max_message max_bytes).2 ops env
      = Some (m', ds, env') /\
    Forall (fun '(key, data, len) => data = map Some (msg key) /\ len = zlen (msg key)) ds.
Proof.
  intros Hn Hmax Hv Ha.
  set (byte_ok := bytes_of msg). set (size_ok := length_of msg).
  pose proof (initial_manager_ok byte_ok size_ok n timeout max_message max_bytes Hn Hmax) as Hm.
  destruct (fragment_run_ok byte_ok size_ok ops _ env Hm) as (m' & ds & env' & Hrun & _ & _ & Hds).
  { rewrite Forall_forall in *. intros op Hop. specialize (Hv op Hop). specialize (Ha op Hop). split; [done|].
    destruct op as [source conn epoch dt mid off mlen [p|] len now sys| | |]; try done.
    destruct Ha as [-> Ha]. split; [done|]. intros i v Hi. unfold byte_ok, bytes_of.
    pose proof Hi as Hi'%rd_Some_inv. cbn in Hv. destruct Hv as (_ & _ & Hlen & Hp). specialize (Hp p eq_refl).
    rewrite zlen_take in Hi' by lia. rewrite <- Ha by lia.
    rewrite rd_lookup in Hi |- * by lia. by rewrite lookup_take_lt in Hi by lia. }
  exists m', ds, env'. split; [exact Hrun|]. eapply Forall_impl; [exact Hds|].
  intros [[key data] len]. apply delivery_is_message.
Qed.
(** Two fragments in the wrong order, a duplicate, and a second message that
    stays incomplete. *)
Lemma reassembly_delivers_messages_witness :
  let msg := fun key : Z * Z * Z * Z => if key.2 =? 7 then [10; 20; 30; 40] else [9; 9] in
  let frag mid off mlen payload :=
    op_fragment 1 2 3 0 mid off mlen (Ptr payload) (zlen payload) 100 0 in
  exists m' ds env',
    fragment_run (xgl_fragment_set_limits (xgl_fragment_init 2 5000) 16 32).2
      [frag 7 2 4 [30; 40]; frag 8 0 2 [9]; frag 7 2 4 [30; 40]; frag 7 0 4 [10; 20]] []
      = Some (m', ds, env') /\
    Forall (fun '(key, data, len) => data = map Some (msg key) /\ len = zlen (msg key)) ds.
Proof.
  intros msg frag. apply (reassembly_delivers_messages msg); [lia|lia| |].
  - apply Forall_forall. intros op Hop. repeat (apply elem_of_cons in Hop as [->|Hop]);
      try (by apply not_elem_of_nil in Hop); cbn; split_and!; try done; intros p [= <-]; done.
  - apply Forall_forall. intros op Hop. repeat (apply elem_of_cons in Hop as [->|Hop]);
      try (by apply not_elem_of_nil in Hop); cbn; split; try done; intros i Hi;
      change (zlen [30; 40]) with 2 in *; change (zlen [9]) with 1 in *; change (zlen [10; 20]) with 2 in *;
      (assert (i = 0 \/ i = 1) as [-> | ->] by lia); try reflexivity; lia.
Defined.

(** C12. Reassembly is safe against any peer.  For every sequence of operations
    with readable payloads - arbitrary offsets, lengths and contents - no
    operation reads or writes outside an object, the accounted bytes are the
    sum of the buffers' sizes and stay within the budget, the number of buffers
    and their sizes stay within the limits, no two buffers have the same key,
    and what is delivered has no uninitialised byte. *)
Theorem reassembly_safe_and_bounded n timeout max_message max_bytes ops env :
  0 <= n -> 0 <= max_bytes -> max_bytes = 0 \/ max_message <= max_bytes -> Forall op_valid ops ->
  exists m' ds env',
    fragment_run (xgl_fragment_set_limits (xgl_fragment_init n timeout) max_message max_bytes).2 ops env
      = Some (m', ds, env') /\
    fm_current_reassembly_bytes m' = reserved_sum (fm_reassembly_list m') /\
    (max_bytes <> 0 -> fm_current_reassembly_bytes m' <= max_bytes) /\
    xgl_fragment_get_reassembly_count m' <= n /\
    (max_message <> 0 -> Forall (fun b => rb_buffer_size b <= max_message) (fm_reassembly_list m')) /\
    NoDup (buffer_key <$> fm_reassembly_list m') /\
    Forall (fun '(key, data, len) => zlen data = len /\ forall x, 0 <= x < len -> rd data x <> Some None) ds.
Proof.
  intros Hn Hmax Hlim Hv.
  set (byte_ok := fun (_ : Z * Z * Z * Z) (_ _ : Z) => True).
  set (size_ok := fun (_ : Z * Z * Z * Z) (_ : Z) => True).
  pose proof (initial_manager_ok byte_ok size_ok n timeout max_message max_bytes Hn Hmax) as Hm.
  destruct (fragment_run_ok byte_ok size_ok ops _ env Hm) as (m' & ds & env' & Hrun & Hm' & Hl & Hds).
  { rewrite Forall_forall in *. intros op Hop. specialize (Hv op Hop). split; [done|].
    by destruct op as [source conn epoch dt mid off mlen [p|] len now sys| | |]. }
  exists m', ds, env'. split; [exact Hrun|]. destruct Hm' as (_ & Hnd & Hcur & Hb & Hc & Hs).
  assert (limits m' = (n, timeout, max_message, max_bytes)) as Hl'.
  { rewrite Hl. unfold xgl_fragment_set_limits. 
    destruct (Z.eqb_spec max_bytes 0), (Z.ltb_spec max_bytes max_message); done || lia. }
  injection Hl' as Hl1 Hl2 Hl3 Hl4. rewrite Hl1, Hl3, Hl4 in *. split_and!; try done.
  eapply Forall_impl; [exact Hds|]. intros [[key data] len] (Hz & _ & Hall). split; [done|].
  intros x Hx. destruct (Hall x Hx) as (v & -> & _). done.
Qed.
(** An overlapping fragment, one beyond the end, and a message over the limit. *)
Lemma reassembly_safe_and_bounded_witness :
  let frag mid off mlen payload :=
    op_fragment 1 2 3 0 mid off mlen (Ptr payload) (zlen payload) 100 0 in
  exists m' ds env',
    fragment_run (xgl_fragment_set_limits (xgl_fragment_init 2 5000) 16 32).2
      [frag 7 2 4 [30; 40]; frag 7 1 4 [1; 2; 3]; frag 8 3 4 [9; 9]; frag 9 0 64 [5]; op_timeouts 6000] []
      = Some (m', ds, env') /\
    fm_current_reassembly_bytes m' = reserved_sum (fm_reassembly_list m') /\
    (32 <> 0 -> fm_current_reassembly_bytes m' <= 32) /\
    xgl_fragment_get_reassembly_count m' <= 2 /\
    (16 <> 0 -> Forall (fun b => rb_buffer_size b <= 16) (fm_reassembly_list m')) /\
    NoDup (buffer_key <$> fm_reassembly_list m') /\
    Forall (fun '(key, data, len) => zlen data = len /\ forall x, 0 <= x < len -> rd data x <> Some None) ds.
Proof.
  intros frag. apply (reassembly_safe_and_bounded 2 5000 16 32); [lia|lia|right; lia|].
  apply Forall_forall. intros op Hop. repeat (apply elem_of_cons in Hop as [->|Hop]);
    try (by apply not_elem_of_nil in Hop); try done; cbn; split_and!; try done; intros p [= <-]; done.
Defined.

(** ** Completion *)

(** A piece of a message: its offset and its length. *)
Definition piece : Type := Z * Z.
Definition piece_covers (x : Z) (p : piece) : Prop := p.1 <= x < p.1 + p.2.
#[export] Instance piece_covers_dec x p : Decision (piece_covers x p) := _.
(** [ps] cuts the interval [lo .. hi) into consecutive nonempty pieces. *)
Fixpoint tiling (lo : Z) (ps : list piece) (hi : Z) : Prop :=
  match ps with
  | [] => lo = hi
  | p :: ps => p.1 = lo /\ 0 < p.2 /\ tiling (lo + p.2) ps hi
  end.
Definition count_cover (ps : list piece) (x : Z) : nat := length (filter (piece_covers x) ps).
Definition piece_sum (ps : list piece) : Z := foldr (fun p t => p.2 + t) 0 ps.

Lemma tiling_count lo ps hi x :
  tiling lo ps hi -> lo <= hi /\ count_cover ps x = if decide (lo <= x < hi) then 1%nat else 0%nat.
Proof.
  revert lo. induction ps as [|p ps IH]; intros lo; cbn [tiling].
  - intros ->. split; [lia|]. by rewrite decide_False by lia.
  - intros (Hp & Hpos & Ht). destruct (IH _ Ht) as [Hle Hc]. split; [lia|]. unfold count_cover in *.
    rewrite filter_cons. destruct (decide (piece_covers x p)) as [Hin|Hout]; unfold piece_covers in *;
      cbn [length]; rewrite Hc;
      destruct (decide (lo + p.2 <= x < hi)), (decide (lo <= x < hi)); lia.
Qed.
Lemma tiling_sum lo ps hi : tiling lo ps hi -> piece_sum ps = hi - lo.
Proof.
  revert lo. induction ps as [|p ps IH]; intros lo; cbn; [lia|]. intros (_ & _ & Ht%IH).
  fold (piece_sum ps). lia.
Qed.
Lemma tiling_bounds lo ps hi : tiling lo ps hi -> Forall (fun p => lo <= p.1 /\ 0 < p.2 /\ p.1 + p.2 <= hi) ps.
Proof.
  revert lo. induction ps as [|p ps IH]; intros lo; [constructor|]. cbn. intros (<- & Hpos & Ht).
  pose proof (tiling_count _ _ _ 0 Ht) as [Hle _]. constructor; [lia|].
  eapply Forall_impl; [exact (IH _ Ht)|]. cbn. intros q. lia.
Qed.
Lemma piece_sum_perm ps qs : ps ≡ₚ qs -> piece_sum ps = piece_sum qs.
Proof. induction 1; cbn; unfold piece_sum in *; lia. Qed.
Lemma count_cover_perm ps qs x : ps ≡ₚ qs -> count_cover ps x = count_cover qs x.
Proof. intros Hp. unfold count_cover. apply Permutation_length. by rewrite Hp. Qed.

Section completion.
  Context (source conn epoch data_type mid : Z) (msg : bytes) (now sys : Z).

Definition message_key : Z * Z * Z * Z := (source, conn, epoch, mid).
Definition piece_op (p : piece) : fragment_op :=
  op_fragment source conn epoch data_type mid p.1 (zlen msg) (Ptr (slice msg p.1 p.2)) p.2 now sys.

Abbreviation buffer_ok' := (buffer_ok (bytes_of (fun _ => msg)) (length_of (fun _ => msg))).
Abbreviation buffer_holds' := (buffer_holds (bytes_of (fun _ => msg))).
(** The buffer holds the pieces [dn] of the message, and more is to come. *)
Definition collecting (dn : list piece) (b : xgl_reassembly_buffer_t) : Prop :=
  buffer_ok' b /\ buffer_key b = message_key /\ rb_data_type b = data_type /\
  rb_buffer_size b = zlen msg /\
  exists rs, buffer_holds' b rs /\ zlen rs <= zlen dn /\ total rs = piece_sum dn /\
    forall x, covers rs x <-> (0 < count_cover dn x)%nat.

Lemma slice_ok p : 0 <= p.1 -> fragment_ok (bytes_of (fun _ => msg)) message_key p.1 (slice msg p.1 p.2).
Proof.
  intros Hp i v Hi. pose proof Hi as Hr%rd_Some_inv. unfold bytes_of. rewrite rd_lookup in Hi |- * by lia.
  apply lookup_take_Some in Hi as [Hi _]. rewrite lookup_drop in Hi. rewrite <- Hi. f_equal. lia.
Qed.
Lemma count_cover_snoc dn p x :
  (0 < count_cover (dn ++ [p]) x)%nat <-> (0 < count_cover dn x)%nat \/ piece_covers x p.
Proof.
  unfold count_cover. rewrite filter_app, length_app, filter_cons, filter_nil.
  case_decide; cbn; [split; [by right|lia]|]. rewrite Nat.add_0_r. tauto.
Qed.
Lemma piece_sum_app dn qs : piece_sum (dn ++ qs) = piece_sum dn + piece_sum qs.
Proof. unfold piece_sum. induction dn as [|p dn IH]; cbn; [done|]. rewrite IH. lia. Qed.

Lemma collect_step m node dn b p env :
  fm_reassembly_list m !! node = Some b -> collecting dn b -> zlen dn < XGL_FRAGMENT_MAX_RECEIVED_RANGES ->
  0 <= p.1 -> 0 < p.2 -> p.1 + p.2 <= zlen msg ->
  (forall x, piece_covers x p -> count_cover dn x = 0%nat) ->
  exists r, process_fragment m node data_type p.1 (zlen msg) (slice msg p.1 p.2) p.2 now sys env = Some r /\
    ((piece_sum dn + p.2 <> zlen msg /\ exists b2, collecting (dn ++ [p]) b2 /\
      rb_reserved_size b2 = zlen msg /\
      r = mk_process XGL_ERR_BUSY (m <| fm_reassembly_list := <[node := b2]> (fm_reassembly_list m) |>) NULL 0 env) \/
     (piece_sum dn + p.2 = zlen msg /\ exists b2, rb_reserved_size b2 = zlen msg /\
      r = mk_process XGL_OK (fragment_free_reassembly_buffer
            (m <| fm_reassembly_list := delete node (fm_reassembly_list m) |>) b2)
            (Ptr (map Some msg)) (zlen msg) env)).
Proof.
  intros Hb (Hok & Hk & Hdt & Hbs & rs & Hrep & Hzrs & Htot & Hcov) Hroom Hp1 Hp2 Hpe Hdis.
  pose proof Hok as (Hdl & Hrs & Hpos & Hz & _).
  assert (zlen (slice msg p.1 p.2) = p.2) as Hzs. { rewrite zlen_take; [done|]. rewrite zlen_drop; lia. }
  destruct (process_fragment_run m node b rs data_type p.1 (zlen msg) (slice msg p.1 p.2) p.2 now sys env)
    as (r & Hr & Hans); [done|apply Hrep|done|lia|lia|lia|lia|]. exists r. split; [exact Hr|].
  rewrite take_to_nat in Hans by done.
  destruct Hans as [Hmm|x Hx Hc|Hfull|b2 Hmlen Hst Hpart|b2 Hmlen Hst Hfull].
  - lia.
  - rewrite Hcov, Hdis in Hc; [lia|]. unfold piece_covers. lia.
  - lia.
  - left. pose proof Hst as (Hk2 & Hdt2 & _ & Hbs2 & Hrs2 & Hrecv & _ & _ & rs' & Hrep' & Hins).
    pose proof Hrep as (_ & _ & Hrcv & _). split; [lia|]. exists b2. split; [|split; [lia|done]].
    assert (fragment_ok (bytes_of (fun _ => msg)) (buffer_key b) p.1 (slice msg p.1 p.2)) as Hsl.
    { rewrite Hk. by apply slice_ok. }
    split; [by apply (stored_ok _ _ b rs p.1 (slice msg p.1 p.2)); try done; lia|].
    split_and!; [congruence|congruence|lia|]. exists rs'. split.
    { by apply (stored_holds _ b rs p.1 (slice msg p.1 p.2)); try done; lia. }
    destruct Hins as (_ & Hcov' & Htot' & _ & Hz'). rewrite zlen_app, piece_sum_app.
    change (zlen [p]) with 1. change (piece_sum [p]) with (p.2 + 0). split_and!; [lia|lia|]. intros x. rewrite Hcov', Hcov, count_cover_snoc, Hzs.
    done.
  - right. pose proof Hst as (Hk2 & _ & _ & _ & Hrs2 & Hrecv & _).
    pose proof Hrep as (_ & _ & Hrcv & _). split; [lia|]. exists b2. split; [lia|].
    destruct (delivery_is_message (fun _ => msg) message_key (rb_data b2) (rb_data_len b2)) as [-> ->]; [|done].
    rewrite <- Hk. apply (stored_complete _ _ b rs p.1 (slice msg p.1 p.2)); try done; [lia|].
    rewrite Hk. by apply slice_ok.
Qed.

Lemma with_buffers_same m : fm_current_reassembly_bytes m = reserved_sum (fm_reassembly_list m) ->
  with_buffers m (fm_reassembly_list m) = m.
Proof. intros Hc. destruct m. unfold with_buffers, set_field. cbn in *. by rewrite Hc. Qed.
Lemma delete_snoc {A} (l : list A) x : delete (length l) (l ++ [x]) = l.
Proof. induction l as [|y l IH]; cbn; [done|]. by f_equal. Qed.
Lemma insert_snoc {A} (l : list A) x y : <[length l := y]> (l ++ [x]) = l ++ [y].
Proof. induction l as [|z l IH]; cbn; [done|]. by f_equal. Qed.

(** The manager [m] with the message's buffer [b] at the end of the list. *)
Lemma collect_at_end m dn b p env :
  manager_ok (fun _ _ _ => True) (fun _ _ => True) m ->
  collecting dn b -> zlen dn < XGL_FRAGMENT_MAX_RECEIVED_RANGES ->
  0 <= p.1 -> 0 < p.2 -> p.1 + p.2 <= zlen msg ->
  (forall x, piece_covers x p -> count_cover dn x = 0%nat) ->
  exists r, process_fragment (with_buffers m (fm_reassembly_list m ++ [b])) (length (fm_reassembly_list m))
      data_type p.1 (zlen msg) (slice msg p.1 p.2) p.2 now sys env = Some r /\ pr_env r = env /\
    ((piece_sum dn + p.2 <> zlen msg /\ exists b2, collecting (dn ++ [p]) b2 /\
      pr_manager r = with_buffers m (fm_reassembly_list m ++ [b2]) /\ pr_complete_data r = NULL) \/
     (piece_sum dn + p.2 = zlen msg /\ pr_manager r = m /\
      pr_complete_data r = Ptr (map Some msg) /\ pr_complete_len r = zlen msg)).
Proof.
  intros (Hok & _ & Hcur & _) Hb Hroom H1 H2 H3 Hdis. set (m1 := with_buffers m _).
  assert (fm_reassembly_list m1 !! length (fm_reassembly_list m) = Some b) as Hl by by apply list_lookup_middle.
  destruct (collect_step m1 _ dn b p env Hl Hb Hroom H1 H2 H3 Hdis) as (r & -> & Hr).
  exists r. split; [done|]. pose proof Hb as ((_ & Hrsb & _) & _ & _ & Hbs & _).
  destruct Hr as [(Hs & b2 & Hb2 & Hr2 & ->)|(Hs & b2 & Hr2 & ->)]; (split; [done|]).
  - left. split; [done|]. exists b2. split; [done|]. split; [|done]. cbn [pr_manager]. unfold m1, with_buffers.
    cbn -[reserved_sum]. rewrite insert_snoc, !reserved_sum_app, !reserved_sum_one.
    by rewrite Hr2, Hrsb, Hbs.
  - right. split_and!; try done. cbn [pr_manager]. unfold m1. cbn [fm_reassembly_list with_buffers].
    pose proof (reserved_sum_nonneg _ _ _ Hok). rewrite <- (with_buffers_same m Hcur) at 3.
    unfold fragment_free_reassembly_buffer, with_buffers. cbn -[reserved_sum].
    rewrite delete_snoc, reserved_sum_app, reserved_sum_one, Hr2, Hrsb, Hbs.
    replace (_ <=? _) with true by lia. destruct m. unfold set_field. cbn -[reserved_sum] in *. f_equal. lia.
Qed.

Lemma find_absent m :
  message_key ∉ (buffer_key <$> fm_reassembly_list m) ->
  fragment_find_reassembly_buffer m source conn epoch mid = NULL.
Proof.
  intros Habs. unfold fragment_find_reassembly_buffer.
  pose proof (find_buffer_spec source conn epoch mid (fm_reassembly_list m) 0) as Hf.
  destruct (find_buffer_loop _ _ 0) as [j|]; [|done]. destruct Hf as (k & b & _ & Hk & Hb).
  destruct Habs. apply list_elem_of_fmap. exists b. split; [done|]. by eapply list_elem_of_lookup_2.
Qed.
Lemma find_at_end m b :
  message_key ∉ (buffer_key <$> fm_reassembly_list m) -> buffer_key b = message_key ->
  fragment_find_reassembly_buffer (with_buffers m (fm_reassembly_list m ++ [b])) source conn epoch mid =
  Ptr (length (fm_reassembly_list m)).
Proof.
  intros Habs Hkey. unfold fragment_find_reassembly_buffer. cbn [with_buffers fm_reassembly_list].
  pose proof (find_buffer_spec source conn epoch mid (fm_reassembly_list m ++ [b]) 0) as Hf.
  change (fm_reassembly_list (with_buffers m (fm_reassembly_list m ++ [b]))) with (fm_reassembly_list m ++ [b]).
  destruct (find_buffer_loop _ _ 0) as [j|].
  - destruct Hf as (k & b' & -> & Hk & Hb). cbn. apply lookup_app_Some in Hk as [Hk|[Hle Hk]].
    + destruct Habs. apply list_elem_of_fmap. exists b'. split; [done|]. by eapply list_elem_of_lookup_2.
    + apply list_lookup_singleton_Some in Hk as [Hk _]. f_equal. lia.
  - destruct Hf. rewrite fmap_app. apply elem_of_app. right. apply list_elem_of_singleton. by rewrite Hkey.
Qed.

(** Any way to split a permutation of a tiling. *)
Lemma tiling_perm_split tiles dn p ps x :
  tiling 0 tiles (zlen msg) -> dn ++ p :: ps ≡ₚ tiles -> 
  0 <= p.1 /\ 0 < p.2 /\ p.1 + p.2 <= zlen msg /\ piece_sum dn + (p.2 + piece_sum ps) = zlen msg /\
  0 <= piece_sum ps /\ (ps <> [] -> 0 < piece_sum ps) /\ (piece_covers x p -> count_cover dn x = 0%nat).
Proof.
  intros Ht Hperm. pose proof (tiling_bounds _ _ _ Ht) as Hb. rewrite <- Hperm in Hb.
  apply Forall_app in Hb as [_ Hb]. apply Forall_cons in Hb as [Hp Hps].
  pose proof (piece_sum_perm _ _ Hperm) as Hsum. rewrite piece_sum_app, (tiling_sum _ _ _ Ht) in Hsum.
  change (piece_sum (p :: ps)) with (p.2 + piece_sum ps) in Hsum.
  assert (0 <= piece_sum ps /\ (ps <> [] -> 0 < piece_sum ps)) as Hnn.
  { clear - Hps. induction Hps as [|q ps Hq _ IH]; [split; [cbn; lia|by intros []]|].
    unfold piece_sum in *. cbn. split; lia. }
  split_and!; try lia; [apply Hnn|]. intros Hx. pose proof (count_cover_perm _ _ x Hperm) as Hc.
  destruct (tiling_count _ _ _ x Ht) as [_ Hc']. rewrite Hc' in Hc. unfold count_cover in Hc |- *.
  rewrite filter_app, length_app, filter_cons_True in Hc by done. cbn [length] in Hc. case_decide; lia.
Qed.

(** The step from the found buffer on. *)
Definition step_from (m : xgl_fragment_manager_t) (b : xgl_reassembly_buffer_t) (p : piece) :=
  r ← process_fragment (with_buffers m (fm_reassembly_list m ++ [b])) (length (fm_reassembly_list m))
        data_type p.1 (zlen msg) (slice msg p.1 p.2) p.2 now sys [];
  ret (pr_manager r,
       match pr_complete_data r with
       | Ptr data => [(source, conn, epoch, mid, data, pr_complete_len r)]
       | NULL => []
       end, pr_env r).

Lemma step_at_end m b p :
  message_key ∉ (buffer_key <$> fm_reassembly_list m) -> buffer_key b = message_key ->
  0 <= p.1 -> 0 < p.2 -> p.1 + p.2 <= zlen msg ->
  fragment_step (with_buffers m (fm_reassembly_list m ++ [b])) (piece_op p) [] = step_from m b p.
Proof.
  intros Habs Hk H1 H2 H3. unfold fragment_step, piece_op, xgl_fragment_process_ext, fragment_validate_ext_input.
  replace (p.2 =? 0) with false by lia.
  replace ((zlen msg =? 0) || (zlen msg <? p.1) || (zlen msg - p.1 <? p.2)) with false by lia.
  cbn [is_ok negb]. by rewrite find_at_end.
Qed.
(** There is room for the message. *)
Definition has_room (m : xgl_fragment_manager_t) : Prop :=
  xgl_fragment_get_reassembly_count m < fm_max_reassembly_buffers m /\
  (fm_max_message_size m = 0 \/ zlen msg <= fm_max_message_size m) /\
  (fm_max_reassembly_bytes m = 0 \/
   fm_current_reassembly_bytes m + zlen msg <= fm_max_reassembly_bytes m).
Lemma step_new m p :
  manager_ok (fun _ _ _ => True) (fun _ _ => True) m -> has_room m ->
  message_key ∉ (buffer_key <$> fm_reassembly_list m) ->
  0 <= p.1 -> 0 < p.2 -> p.1 + p.2 <= zlen msg ->
  exists b, collecting [] b /\ fragment_step m (piece_op p) [] = step_from m b p.
Proof.
  intros Hm (Hroom1 & Hroom2 & Hroom3) Habs H1 H2 H3.
  pose proof (create_spec _ _ m source conn epoch data_type mid (zlen msg) [] Hm Habs ltac:(lia) I) as Hcr.
  unfold fragment_step, piece_op, xgl_fragment_process_ext, fragment_validate_ext_input.
  replace (p.2 =? 0) with false by lia.
  replace ((zlen msg =? 0) || (zlen msg <? p.1) || (zlen msg - p.1 <? p.2)) with false by lia.
  cbn [is_ok negb]. rewrite find_absent by done.
  destruct (fragment_create_reassembly_buffer _ _ _ _ _ _ _ _) as [[[err m'] bp] env'] eqn:Hcreate.
  assert (err = XGL_OK /\ env' = []) as [-> ->].
  { unfold fragment_create_reassembly_buffer, xgl_fragment_get_reassembly_count in *.
    rewrite (proj2 (Z.leb_gt _ _)) in Hcreate by lia.
    replace (negb (fm_max_message_size m =? 0) && _) with false in Hcreate by lia.
    replace (negb (fm_max_reassembly_bytes m =? 0) && _) with false in Hcreate by lia.
    cbn -[alloc_answer] in Hcreate. unfold alloc_answer in Hcreate.
    rewrite (proj2 (Z.eqb_neq (zlen msg) 0)) in Hcreate by lia. cbn in Hcreate. by injection Hcreate as <- <- <- <-. }
  destruct Hcr as [(? & _)|(_ & -> & b & -> & Hm' & Hk & Hdt & Hbs & Hh)]; [done|].
  exists b. cbn [is_ok negb mbind option_bind]. split; [|done].
  destruct Hm' as (Hall & _). apply Forall_app in Hall as [_ Hall]. apply Forall_cons in Hall as [Hbok _].
  destruct Hbok as (Hdl & Hrs & Hpos & Hz & _). destruct Hh as (Hrep & Hlast & Hrecv & Htot & _).
  assert (buffer_holds' b []) as Hb.
  { split_and!; try done. intros x Hx. by apply Exists_nil in Hx. }
  split; [split_and!; [done|done|done|done|exact Hbs|by exists []]|].
  split; [done|]. split; [done|]. split; [done|]. exists []. split; [done|]. split; [done|]. split; [done|].
  intros x. unfold covers. rewrite Exists_nil. unfold count_cover. cbn. lia.
Qed.

(** From the first pieces [dn] on, the others complete the message. *)
Lemma collect_run m tiles ps : forall dn b p,
  manager_ok (fun _ _ _ => True) (fun _ _ => True) m ->
  message_key ∉ (buffer_key <$> fm_reassembly_list m) ->
  tiling 0 tiles (zlen msg) -> dn ++ p :: ps ≡ₚ tiles ->
  zlen (dn ++ p :: ps) <= XGL_FRAGMENT_MAX_RECEIVED_RANGES -> collecting dn b ->
  ('(m1, out, env) ← step_from m b p; '(m2, outs, env) ← fragment_run m1 (piece_op <$> ps) env;
   ret (m2, out ++ outs, env)) =
  Some (m, [(source, conn, epoch, mid, map Some msg, zlen msg)], []).
Proof.
  induction ps as [|q ps IH]; intros dn b p Hm Habs Ht Hperm Hlen Hb;
    rewrite zlen_app, zlen_cons in Hlen; 
    pose proof (fun x => tiling_perm_split tiles dn p _ x Ht Hperm) as Hsplit;
    destruct (Hsplit 0) as (H1 & H2 & H3 & Hsum & Hnn & Hne & _);
    destruct (collect_at_end m dn b p [] Hm Hb) as (r & Hr & Henv & Hans);
    [unfold zlen in *; lia|done|done|done|intros x; apply Hsplit|
    |unfold zlen in *; cbn in *; lia|done|done|done|intros x; apply Hsplit|];
    unfold step_from; rewrite Hr; cbn [mbind option_bind]; rewrite Henv.
  - destruct Hans as [(Hs & _)|(_ & -> & -> & ->)]; [cbn in Hsum; lia|]. done.
  - destruct Hans as [(_ & b2 & Hb2 & -> & ->)|(Hs & _)]; [|specialize (Hne ltac:(done)); lia].
    rewrite fmap_cons. cbn [fragment_run].
    destruct (tiling_perm_split tiles (dn ++ [p]) q ps 0 Ht) as (Hq1 & Hq2 & Hq3 & _); [by rewrite <- app_assoc|].
    rewrite step_at_end; try done; [|by apply Hb2].
    specialize (IH (dn ++ [p]) b2 q Hm Habs Ht). rewrite <- app_assoc in IH. cbn [app] in IH.
    specialize (IH Hperm). rewrite zlen_app, !zlen_cons in IH. specialize (IH ltac:(rewrite zlen_cons in Hlen; lia) Hb2).
    destruct (step_from m b2 q) as [[[m1 out] env]|]; [|done]. cbn [mbind option_bind] in IH |- *.
    destruct (fragment_run m1 (piece_op <$> ps) env) as [[[m2 outs] env2]|]; [|done]. exact IH.
Qed.
End completion.

(** C23. Reassembly completes.  When a message is cut into at most 16 consecutive
    pieces and the pieces reach a manager with room for it in any order, with
    memory available, the last of them, whichever it is, completes the message:
    exactly one delivery is made, of the whole message, and the manager is
    again what it was before. *)
Theorem reassembly_completes_in_any_order m source conn epoch data_type mid msg now sys tiles ps :
  manager_ok (fun _ _ _ => True) (fun _ _ => True) m ->
  (source, conn, epoch, mid) ∉ (buffer_key <$> fm_reassembly_list m) -> has_room msg m ->
  0 < zlen msg -> tiling 0 tiles (zlen msg) -> ps ≡ₚ tiles ->
  zlen ps <= XGL_FRAGMENT_MAX_RECEIVED_RANGES ->
  fragment_run m (piece_op source conn epoch data_type mid msg now sys <$> ps) [] =
    Some (m, [(source, conn, epoch, mid, map Some msg, zlen msg)], []).
Proof.
  intros Hm Habs Hroom Hpos Ht Hperm Hlen. destruct ps as [|p ps].
  { apply Permutation_nil in Hperm. subst tiles. cbn in Ht. lia. }
  destruct (tiling_perm_split msg tiles [] p ps 0 Ht Hperm) as (H1 & H2 & H3 & _).
  destruct (step_new source conn epoch data_type mid msg now sys m p Hm Hroom Habs H1 H2 H3) as (b & Hb & Hstep).
  rewrite fmap_cons. cbn [fragment_run]. rewrite Hstep.
  by apply (collect_run source conn epoch data_type mid msg now sys m tiles ps [] b p).
Qed.
(** Three pieces, the middle one last, beside a message that is still open. *)
Lemma reassembly_completes_in_any_order_witness :
  let m := xgl_fragment_init 4 5000 in
  let msg := [1; 2; 3; 4; 5] in
  fragment_run m (piece_op 1 2 3 0 7 msg 100 0 <$> [(4, 1); (0, 2); (2, 2)]) [] =
    Some (m, [((1, 2, 3, 7), map Some msg, zlen msg)], []).
Proof.
  intros m msg. apply (reassembly_completes_in_any_order m 1 2 3 0 7 msg 100 0 [(0, 2); (2, 2); (4, 1)]).
  - unfold manager_ok. cbn. split_and!; try done; try (by constructor); lia.
  - apply not_elem_of_nil.
  - repeat split; try done; by left.
  - done.
  - done.
  - by apply (Permutation_app_comm [(4, 1)]).
  - done.
Defined.
