(* ===== verification/Reliable.v ===== *)
(** * The reliable queue (include/xgl/internal/xgl_reliable.h,
    src/transport/xgl_reliable.c, xgl_reliable_packet.c, xgl_reliable_ack.c,
    xgl_reliable_extensions.c, xgl_reliable_timeout.c)

    The packets that wait for an acknowledgement.  A packet is on two structures
    at once: the wait-ACK list and the chain of its index bucket.  The packets
    are in a heap, the bucket chains are modelled pointer by pointer
    ([index_next]), and freeing a packet removes it from the heap, so that a use
    after free or a double free is [None].  The wait-ACK list is a sequence of
    addresses ([LinkedList] shows that the intrusive list is one).  The queue is
    shown to be a sequence of packets, on which a lookup finds the newest packet
    with the key. *)
From S2P Require Import Prelude Errors Layer Wire WireExt LinkedList.

(** ** Data *)

Definition XGL_RELIABLE_INDEX_BUCKETS : Z := 32.

(** The list node is represented by the address' place in the list; [data] and
    [extensions] are owned buffers. *)
(** src/include/xgl/internal/xgl_reliable.h:31-65: xgl_reliable_packet_t *)
Record xgl_reliable_packet_t := mk_packet {
  rp_index_next : ptr addr;
  rp_data : ptr bytes;
  rp_data_len : Z;
  rp_source_id : Z;
  rp_target_id : Z;
  rp_packet_number : Z;
  rp_session_id : Z;
  rp_connection_id : Z;
  rp_session_epoch : Z;
  rp_data_type : Z;
  rp_packet_type : Z;
  rp_flags : Z;
  rp_fragment : bool;
  rp_priority : Z;
  rp_extensions : ptr bytes;
  rp_extensions_len : Z;
  rp_retry_count : Z;
  rp_send_timestamp : Z;
  rp_timeout_ms : Z;
  rp_initial_timeout_ms : Z;
  rp_phy : ptr xgl_phy_ops_t
}.
#[export] Instance eta_packet : EtaRecord xgl_reliable_packet_t := Eta (fun p =>
  mk_packet (rp_index_next p) (rp_data p) (rp_data_len p) (rp_source_id p) (rp_target_id p)
    (rp_packet_number p) (rp_session_id p) (rp_connection_id p) (rp_session_epoch p)
    (rp_data_type p) (rp_packet_type p) (rp_flags p) (rp_fragment p) (rp_priority p)
    (rp_extensions p) (rp_extensions_len p) (rp_retry_count p) (rp_send_timestamp p)
    (rp_timeout_ms p) (rp_initial_timeout_ms p) (rp_phy p)).

(** [rq_packets] is the part of the heap that holds packets. *)
(** src/include/xgl/internal/xgl_reliable.h:75-80: xgl_reliable_queue_t *)
Record xgl_reliable_queue_t := mk_queue {
  rq_packets : gmap addr xgl_reliable_packet_t;
  rq_wait_ack_list : list addr;
  rq_index_buckets : list (ptr addr);
  rq_max_retry_count : Z
}.
#[export] Instance eta_queue : EtaRecord xgl_reliable_queue_t := Eta (fun q =>
  mk_queue (rq_packets q) (rq_wait_ack_list q) (rq_index_buckets q) (rq_max_retry_count q)).

(** ** Packets and the index *)

(** [packet->index_next = v] *)
(** src/src/transport/xgl_reliable_packet.c:51-53: reliable_index_remove *)
Definition set_index_next (queue : xgl_reliable_queue_t) (packet : addr) (v : ptr addr)
    : M xgl_reliable_queue_t :=
  p ← rq_packets queue !! packet;
  ret (queue <| rq_packets := <[packet := p <| rp_index_next := v |>]> (rq_packets queue) |>).

(** The product is computed in [unsigned long]; its low 32 bits are the same at
    every width of at least 32. *)
(** src/src/transport/xgl_reliable_packet.c:18-22: reliable_index_bucket *)
Definition reliable_index_bucket (target_id packet_number : Z) : Z :=
  let mixed := u32 (Z.lxor packet_number (target_id * 2654435761)) in
  mixed mod XGL_RELIABLE_INDEX_BUCKETS.

(** src/src/transport/xgl_reliable_packet.c:24-34: reliable_index_packet *)
Definition reliable_index_packet (queue : xgl_reliable_queue_t) (packet : addr)
    : M xgl_reliable_queue_t :=
  p ← rq_packets queue !! packet;
  let bucket := reliable_index_bucket (rp_target_id p) (rp_packet_number p) in
  head ← rd (rq_index_buckets queue) bucket;
  queue ← set_index_next queue packet head;
  buckets ← wr (rq_index_buckets queue) bucket (Ptr packet);
  ret (queue <| rq_index_buckets := buckets |>).

(** The [while] loop of the removal from the chain. *)
(** src/src/transport/xgl_reliable_packet.c:46-58: reliable_unindex_packet *)
Fixpoint unindex_loop (fuel : nat) (queue : xgl_reliable_queue_t) (bucket : Z) (packet : addr)
    (previous current : ptr addr) : M xgl_reliable_queue_t :=
  match current with
  | NULL => ret queue
  | Ptr c =>
      match fuel with
      | O => None
      | S fuel =>
          cp ← rq_packets queue !! c;
          if bool_decide (c = packet) then
            queue ← match previous with
                    | NULL =>
                        buckets ← wr (rq_index_buckets queue) bucket (rp_index_next cp);
                        ret (queue <| rq_index_buckets := buckets |>)
                    | Ptr pr => set_index_next queue pr (rp_index_next cp)
                    end;
            set_index_next queue c NULL
          else unindex_loop fuel queue bucket packet current (rp_index_next cp)
      end
  end.
(** A chain has no more packets than the heap. *)
(** src/src/transport/xgl_reliable_packet.c:36-59: reliable_unindex_packet *)
Definition reliable_unindex_packet (queue : xgl_reliable_queue_t) (packet : addr)
    : M xgl_reliable_queue_t :=
  p ← rq_packets queue !! packet;
  let bucket := reliable_index_bucket (rp_target_id p) (rp_packet_number p) in
  head ← rd (rq_index_buckets queue) bucket;
  unindex_loop (size (rq_packets queue)) queue bucket packet NULL head.

(** src/src/transport/xgl_reliable_packet.c:61-78: reliable_free_packet *)
Definition reliable_free_packet (queue : xgl_reliable_queue_t) (packet : addr)
    : M xgl_reliable_queue_t :=
  _ ← rq_packets queue !! packet;
  ret (queue <| rq_packets := delete packet (rq_packets queue) |>).

(** src/src/transport/xgl_reliable_packet.c:89-94: xgl_reliable_find_packet_number *)
Fixpoint find_loop (fuel : nat) (queue : xgl_reliable_queue_t) (packet : ptr addr)
    (packet_number target_id : Z) : M (ptr addr) :=
  match packet with
  | NULL => ret NULL
  | Ptr a =>
      match fuel with
      | O => None
      | S fuel =>
          p ← rq_packets queue !! a;
          if (rp_packet_number p =? packet_number) && (rp_target_id p =? target_id)
          then ret (Ptr a)
          else find_loop fuel queue (rp_index_next p) packet_number target_id
      end
  end.
(** src/src/transport/xgl_reliable_packet.c:80-97: xgl_reliable_find_packet_number *)
Definition xgl_reliable_find_packet_number (queue : xgl_reliable_queue_t) (packet_number target_id : Z)
    : M (ptr addr) :=
  let bucket := reliable_index_bucket target_id packet_number in
  head ← rd (rq_index_buckets queue) bucket;
  find_loop (size (rq_packets queue)) queue head packet_number target_id.

(** ** The queue *)

(** src/src/transport/xgl_reliable.c:20-38: xgl_reliable_init *)
Definition xgl_reliable_init (max_retry_count : Z) : xgl_reliable_queue_t :=
  mk_queue ∅ [] (replicate (Z.to_nat XGL_RELIABLE_INDEX_BUCKETS) NULL) max_retry_count.

(** The sequence without the node (see [LinkedList.xgl_list_remove]). *)
Definition list_without (packet : addr) (l : list addr) : list addr :=
  filter (fun a => a <> packet) l.

(** A packet structure takes a nonzero number of bytes. *)
Definition sizeof_reliable_packet : Z := 136.

(** Also returns the address of the new packet, the last of the list.  The heap
    gives out an address that is not in use. *)
(** src/src/transport/xgl_reliable.c:53-112: xgl_reliable_add_packet_number *)
Definition xgl_reliable_add_packet_number (queue : xgl_reliable_queue_t) (data : ptr bytes)
    (data_len source_id target_id packet_number data_type priority timeout_ms : Z)
    (phy : ptr xgl_phy_ops_t) (env : heap_answers)
    : M (xgl_error_t * xgl_reliable_queue_t * ptr addr * heap_answers) :=
  match data with
  | NULL => ret (XGL_ERR_INVALID_PARAM, queue, NULL, env)
  | Ptr src =>
      if data_len =? 0 then ret (XGL_ERR_INVALID_PARAM, queue, NULL, env)
      else
        let '(ok, env) := alloc_answer sizeof_reliable_packet env in
        if negb ok then ret (XGL_ERR_NO_MEMORY, queue, NULL, env)
        else
          let '(ok, env) := alloc_answer data_len env in
          if negb ok then ret (XGL_ERR_NO_MEMORY, queue, NULL, env)
          else
            copy ← rd_bytes src 0 data_len;
            let a := fresh (dom (rq_packets queue)) in
            let packet := mk_packet NULL (Ptr copy) data_len source_id target_id packet_number
              0 0 0 data_type XGL_PACKET_TYPE_DATA 0 false priority NULL 0 0 0 timeout_ms
              timeout_ms phy in
            let queue := queue <| rq_packets := <[a := packet]> (rq_packets queue) |>
                               <| rq_wait_ack_list := rq_wait_ack_list queue ++ [a] |> in
            queue ← reliable_index_packet queue a;
            ret (XGL_OK, queue, Ptr a, env)
  end.

(** src/src/transport/xgl_reliable.c:114-132: xgl_reliable_remove_packet_number *)
Definition xgl_reliable_remove_packet_number (queue : xgl_reliable_queue_t)
    (packet_number target_id : Z) : M (xgl_error_t * xgl_reliable_queue_t) :=
  packet ← xgl_reliable_find_packet_number queue packet_number target_id;
  match packet with
  | Ptr a =>
      queue ← reliable_unindex_packet queue a;
      let queue := queue <| rq_wait_ack_list := list_without a (rq_wait_ack_list queue) |> in
      queue ← reliable_free_packet queue a;
      ret (XGL_OK, queue)
  | NULL => ret (XGL_ERR_SEQUENCE_ERROR, queue)
  end.

(** src/src/transport/xgl_reliable.c:137-144: xgl_reliable_get_count *)
Definition xgl_reliable_get_count (queue : xgl_reliable_queue_t) : Z := zlen (rq_wait_ack_list queue).
(** src/src/transport/xgl_reliable.c:149-156: xgl_reliable_is_empty *)
Definition xgl_reliable_is_empty (queue : xgl_reliable_queue_t) : bool :=
  match rq_wait_ack_list queue with [] => true | _ => false end.

(** The [while] loop takes the head off until the list is empty. *)
(** src/src/transport/xgl_reliable.c:169-174: xgl_reliable_clear *)
Fixpoint clear_loop (nodes : list addr) (queue : xgl_reliable_queue_t) : M xgl_reliable_queue_t :=
  match nodes with
  | [] => ret queue
  | node :: rest =>
      let queue := queue <| rq_wait_ack_list := rest |> in
      queue ← reliable_unindex_packet queue node;
      queue ← reliable_free_packet queue node;
      clear_loop rest queue
  end.
(** src/src/transport/xgl_reliable.c:161-177: xgl_reliable_clear *)
Definition xgl_reliable_clear (queue : xgl_reliable_queue_t) : M xgl_reliable_queue_t :=
  queue ← clear_loop (rq_wait_ack_list queue) queue;
  ret (queue <| rq_index_buckets := replicate (Z.to_nat XGL_RELIABLE_INDEX_BUCKETS) NULL |>).
(** src/src/transport/xgl_reliable.c:43-51: xgl_reliable_destroy *)
Definition xgl_reliable_destroy (queue : xgl_reliable_queue_t) : M xgl_reliable_queue_t :=
  xgl_reliable_clear queue.

(** src/src/transport/xgl_reliable_extensions.c:11-43: xgl_reliable_set_packet_extensions *)
Definition xgl_reliable_set_packet_extensions (queue : xgl_reliable_queue_t) (packet : addr)
    (extensions : ptr bytes) (extensions_len : Z) (env : heap_answers)
    : M (xgl_error_t * xgl_reliable_queue_t * heap_answers) :=
  if bool_decide (extensions = NULL) && (0 <? extensions_len)
  then ret (XGL_ERR_INVALID_PARAM, queue, env)
  else
    p ← rq_packets queue !! packet;
    let p := match rp_extensions p with
             | NULL => p
             | Ptr _ => p <| rp_extensions := NULL |> <| rp_extensions_len := 0 |>
             end in
    let store p := queue <| rq_packets := <[packet := p]> (rq_packets queue) |> in
    if extensions_len =? 0 then ret (XGL_OK, store p, env)
    else
      let '(ok, env) := alloc_answer extensions_len env in
      if negb ok then ret (XGL_ERR_NO_MEMORY, store p, env)
      else
        src ← extensions;
        copy ← rd_bytes src 0 extensions_len;
        ret (XGL_OK,
             store (p <| rp_extensions := Ptr copy |> <| rp_extensions_len := extensions_len |>), env).

(** ** Acknowledgement ranges *)

(** The loop over the packet numbers of a range, from the highest down: [n]
    numbers are left. *)
(** src/src/transport/xgl_reliable_ack.c:40-50: xgl_reliable_remove_ack_ranges *)
Fixpoint remove_range_loop (n : nat) (queue : xgl_reliable_queue_t) (target_id packet_number removed : Z)
    : M (xgl_reliable_queue_t * Z) :=
  match n with
  | O => ret (queue, removed)
  | S n =>
      '(err, queue) ← xgl_reliable_remove_packet_number queue (u32 packet_number) target_id;
      remove_range_loop n queue target_id (packet_number - 1)
        (if is_ok err then removed + 1 else removed)
  end.
(** [i] ranges are done.  The inner loop runs [high - low + 1] times. *)
(** src/src/transport/xgl_reliable_ack.c:21-53: xgl_reliable_remove_ack_ranges *)
Fixpoint ack_ranges_loop (ranges : list xgl_wire_ack_range_t) (i : Z) (queue : xgl_reliable_queue_t)
    (target_id next_high removed : Z) : M (xgl_reliable_queue_t * Z) :=
  match ranges with
  | [] => ret (queue, removed)
  | r :: rest =>
      if ar_length r =? 0 then ack_ranges_loop rest (i + 1) queue target_id next_high removed
      else
        let skip := u64 (ar_gap r + 1) in
        if (0 <? i) && (next_high <? skip) then ret (queue, removed)
        else
          let high := if 0 <? i then next_high - skip else next_high in
          let low := if ar_length r <? u64 (high + 1) then u64 (high - ar_length r + 1) else 0 in
          '(queue, removed) ← remove_range_loop (Z.to_nat (high - low + 1)) queue target_id high removed;
          ack_ranges_loop rest (i + 1) queue target_id low removed
  end.
(** src/src/transport/xgl_reliable_ack.c:9-56: xgl_reliable_remove_ack_ranges *)
Definition xgl_reliable_remove_ack_ranges (queue : xgl_reliable_queue_t) (target_id largest_ack : Z)
    (ranges : ptr (list xgl_wire_ack_range_t)) (range_count : Z) : M (xgl_reliable_queue_t * Z) :=
  match ranges with
  | NULL => ret (queue, 0)
  | Ptr l => l ← rd_bytes l 0 range_count; ack_ranges_loop l 0 queue target_id largest_ack 0
  end.

(** ** Timeouts *)

(** The doubling loop: [n] iterations are left.  Signed overflow is undefined. *)
(** src/src/transport/xgl_reliable_timeout.c:100-108: xgl_reliable_calc_backoff *)
Fixpoint backoff_loop (n : nat) (backoff : Z) : M Z :=
  match n with
  | O => ret backoff
  | S n =>
      backoff ← int32 (backoff * 2);
      if 30000 <? backoff then ret 30000 else backoff_loop n backoff
  end.
(** src/src/transport/xgl_reliable_timeout.c:88-111: xgl_reliable_calc_backoff *)
Definition xgl_reliable_calc_backoff (initial_timeout_ms retry_count : Z) : M Z :=
  let retry_count := if 10 <? retry_count then 10 else retry_count in
  backoff_loop (Z.to_nat retry_count) initial_timeout_ms.

(** A call of [phy->tx]: the function, the data, its length and the user data. *)
Definition transmission : Type := Z * ptr bytes * Z * Z.
Record timeout_state := mk_timeout {
  ts_queue : xgl_reliable_queue_t;
  ts_count : Z;
  ts_exhausted : ptr addr;
  ts_sent : list transmission
}.
(** One iteration; [want] says that the caller passed [retry_exhausted]. *)
(** src/src/transport/xgl_reliable_timeout.c:33-79: xgl_reliable_process_timeouts *)
Definition timeout_body (want : bool) (current_time_ms : Z) (s : timeout_state) (node : addr)
    : M timeout_state :=
  let queue := ts_queue s in
  packet ← rq_packets queue !! node;
  if rp_send_timestamp packet =? 0 then ret s
  else
    let elapsed_ms := u32 (current_time_ms - rp_send_timestamp packet) in
    if elapsed_ms <? u32 (rp_timeout_ms packet) then ret s
    else if rq_max_retry_count queue <=? rp_retry_count packet then
      let queue := queue <| rq_wait_ack_list := list_without node (rq_wait_ack_list queue) |> in
      queue ← reliable_unindex_packet queue node;
      if want && bool_decide (ts_exhausted s = NULL)
      then ret (mk_timeout queue (ts_count s) (Ptr node) (ts_sent s))
      else queue ← reliable_free_packet queue node;
           ret (mk_timeout queue (ts_count s) (ts_exhausted s) (ts_sent s))
    else
      let packet := packet <| rp_retry_count := u8 (rp_retry_count packet + 1) |> in
      backoff ← xgl_reliable_calc_backoff (rp_initial_timeout_ms packet) (rp_retry_count packet);
      let packet := packet <| rp_timeout_ms := backoff |> <| rp_send_timestamp := current_time_ms |> in
      let queue := queue <| rq_packets := <[node := packet]> (rq_packets queue) |> in
      match rp_phy packet with
      | Ptr phy =>
          match phy_tx phy with
          | Ptr tx =>
              ret (mk_timeout queue (u32 (ts_count s + 1)) (ts_exhausted s)
                     (ts_sent s ++ [(tx, rp_data packet, rp_data_len packet, phy_user_data phy)]))
          | NULL => ret (mk_timeout queue (ts_count s) (ts_exhausted s) (ts_sent s))
          end
      | NULL => ret (mk_timeout queue (ts_count s) (ts_exhausted s) (ts_sent s))
      end.
(** The iteration over the list as it is at the start ([XGL_LIST_FOR_EACH_SAFE]). *)
(** src/src/transport/xgl_reliable_timeout.c:31-80: xgl_reliable_process_timeouts *)
Fixpoint timeout_loop (want : bool) (current_time_ms : Z) (nodes : list addr) (s : timeout_state)
    : M timeout_state :=
  match nodes with
  | [] => ret s
  | node :: rest => s ← timeout_body want current_time_ms s node; timeout_loop want current_time_ms rest s
  end.
(** src/src/transport/xgl_reliable_timeout.c:13-83: xgl_reliable_process_timeouts *)
Definition xgl_reliable_process_timeouts (queue : xgl_reliable_queue_t) (current_time_ms : Z) (want : bool)
    : M timeout_state :=
  timeout_loop want current_time_ms (rq_wait_ack_list queue) (mk_timeout queue 0 NULL []).

(** ** Chains *)

Abbreviation packets := (gmap addr xgl_reliable_packet_t).
(** A packet without its link. *)
Definition clean (p : xgl_reliable_packet_t) : xgl_reliable_packet_t := p <| rp_index_next := NULL |>.
Arguments clean : simpl never.
Definition bucket_of (p : xgl_reliable_packet_t) : Z :=
  reliable_index_bucket (rp_target_id p) (rp_packet_number p).
Definition next_of (h : packets) (a : addr) : option (ptr addr) := rp_index_next <$> h !! a.

(** From [head], the links lead through [xs] to [last]. *)
Fixpoint seg (h : packets) (head : ptr addr) (xs : list addr) (last : ptr addr) : Prop :=
  match xs with
  | [] => head = last
  | a :: xs => head = Ptr a /\ exists next, next_of h a = Some next /\ seg h next xs last
  end.

Lemma seg_app h xs ys : forall head last,
  seg h head (xs ++ ys) last <-> exists mid, seg h head xs mid /\ seg h mid ys last.
Proof.
  induction xs as [|a xs IH]; intros head last; cbn.
  - split; [intros; by exists head|]. by intros (mid & -> & ?).
  - split.
    + intros (-> & next & Hn & (mid & H1 & H2)%IH). exists mid. split; [|done]. split; [done|]. by exists next.
    + intros (mid & (-> & next & Hn & H1) & H2). split; [done|]. exists next. split; [done|]. apply IH. by exists mid.
Qed.
Lemma seg_frame h h' xs : forall head last,
  seg h head xs last -> (forall a, a ∈ xs -> next_of h' a = next_of h a) -> seg h' head xs last.
Proof.
  induction xs as [|a xs IH]; intros head last; cbn; [done|]. intros (-> & next & Hn & Hs) Hf.
  split; [done|]. exists next. split; [rewrite Hf by (by left); done|]. apply IH; [done|].
  intros b Hb. apply Hf. by right.
Qed.
Lemma next_of_insert_ne h a b c : a <> b -> next_of (<[b := c]> h) a = next_of h a.
Proof. intros Hne. unfold next_of. by rewrite lookup_insert_ne. Qed.
Lemma next_of_insert h a c : next_of (<[a := c]> h) a = Some (rp_index_next c).
Proof. unfold next_of. by rewrite lookup_insert_eq. Qed.
Lemma set_index_next_run q a c v :
  rq_packets q !! a = Some c ->
  set_index_next q a v = Some (q <| rq_packets := <[a := c <| rp_index_next := v |>]> (rq_packets q) |>).
Proof. intros Ha. unfold set_index_next. by rewrite Ha. Qed.

(** ** The abstract queue

    The packets in the order of their arrival, each with its address. *)
Abbreviation packet_list := (list (addr * xgl_reliable_packet_t)).
Definition bucket_list (l : packet_list) (i : Z) : packet_list :=
  reverse (filter (fun x => bucket_of x.2 = i) l).
(** The heap holds the packets of [l]. *)
Definition holds (h : packets) (l : packet_list) : Prop :=
  Forall (fun x => clean <$> h !! x.1 = Some x.2) l.
(** The buckets index the packets of [l]: the chain of a bucket leads through
    its packets, newest first. *)
Definition indexed (q : xgl_reliable_queue_t) (l : packet_list) : Prop :=
  NoDup l.*1 /\ holds (rq_packets q) l /\ zlen (rq_index_buckets q) = XGL_RELIABLE_INDEX_BUCKETS /\
  forall i, 0 <= i < XGL_RELIABLE_INDEX_BUCKETS ->
  exists head, rd (rq_index_buckets q) i = Some head /\ seg (rq_packets q) head (bucket_list l i).*1 NULL.
(** Nothing changed in the heap outside of [xs]. *)
Definition same_outside (xs : list addr) (h h' : packets) : Prop := forall a, a ∉ xs -> h' !! a = h !! a.
(** Nothing changed but links. *)
Definition same_content (h h' : packets) : Prop := forall a, clean <$> h' !! a = clean <$> h !! a.

Lemma bucket_range t n : 0 <= reliable_index_bucket t n < XGL_RELIABLE_INDEX_BUCKETS.
Proof. apply Z.mod_pos_bound. done. Qed.
Lemma elem_of_bucket l i x : x ∈ bucket_list l i <-> x ∈ l /\ bucket_of x.2 = i.
Proof. unfold bucket_list. rewrite elem_of_reverse, list_elem_of_filter. tauto. Qed.
Lemma bucket_list_snoc l x i :
  bucket_list (l ++ [x]) i = if decide (bucket_of x.2 = i) then x :: bucket_list l i else bucket_list l i.
Proof.
  unfold bucket_list. rewrite filter_app, filter_cons, filter_nil.
  destruct (decide _); rewrite reverse_app; done.
Qed.
Lemma fst_unique (l : packet_list) a p p' : NoDup l.*1 -> (a, p) ∈ l -> (a, p') ∈ l -> p = p'.
Proof.
  induction l as [|[b q] l IH]; cbn; [by intros _ ?%not_elem_of_nil|]. intros [Hb Hnd]%NoDup_cons.
  intros [[= -> ->]|H1]%elem_of_cons [[= ->]|H2]%elem_of_cons; try done.
  - destruct Hb. apply list_elem_of_fmap. by exists (b, p').
  - subst. destruct Hb. apply list_elem_of_fmap. by exists (b, p).
  - by apply IH.
Qed.
Lemma holds_lookup h l a p : holds h l -> (a, p) ∈ l -> exists c, h !! a = Some c /\ clean c = p.
Proof.
  unfold holds. rewrite Forall_forall. intros Hh Hin. specialize (Hh _ Hin). cbn in Hh.
  destruct (h !! a) as [c|]; [|done]. exists c. by injection Hh.
Qed.
Lemma holds_frame h h' l :
  holds h l -> (forall a, a ∈ l.*1 -> clean <$> h' !! a = clean <$> h !! a) -> holds h' l.
Proof.
  unfold holds. rewrite !Forall_forall. intros Hh Hf x Hx. rewrite Hf; [by apply Hh|].
  apply list_elem_of_fmap. by exists x.
Qed.
Lemma clean_set_next c v : clean (c <| rp_index_next := v |>) = clean c.
Proof. by destruct c. Qed.
Lemma bucket_of_clean c : bucket_of (clean c) = bucket_of c.
Proof. by destruct c. Qed.
Lemma bucket_fst_ne l a p i b :
  NoDup l.*1 -> (a, p) ∈ l -> bucket_of p <> i -> b ∈ (bucket_list l i).*1 -> b <> a.
Proof.
  intros Hnd Hin Hne Hb ->. apply list_elem_of_fmap in Hb as ([b' q] & Heq & Hb). cbn in Heq. subst b'.
  apply elem_of_bucket in Hb as [Hb Hi]. cbn in Hi. destruct Hne. by rewrite (fst_unique l a p q).
Qed.

(** *** Adding to the index *)

Lemma index_packet_spec q l a c :
  indexed q l -> a ∉ l.*1 -> rq_packets q !! a = Some c ->
  exists q', reliable_index_packet q a = Some q' /\ indexed q' (l ++ [(a, clean c)]) /\
    rq_wait_ack_list q' = rq_wait_ack_list q /\ rq_max_retry_count q' = rq_max_retry_count q /\
    same_content (rq_packets q) (rq_packets q').
Proof.
  intros (Hnd & Hh & Hz & Hb) Hnew Ha. unfold reliable_index_packet. rewrite Ha. cbn [mbind option_bind].
  fold (bucket_of c). set (i := bucket_of c). assert (0 <= i < XGL_RELIABLE_INDEX_BUCKETS) as Hi by apply bucket_range.
  destruct (Hb i Hi) as (head & Hhead & Hseg). rewrite Hhead. cbn [mbind option_bind].
  rewrite (set_index_next_run _ _ c) by done. cbn [mbind option_bind].
  change (rq_index_buckets (q <| rq_packets := _ |>)) with (rq_index_buckets q).
  rewrite wr_Some by lia. cbn [mbind option_bind]. eexists. split; [reflexivity|].
  set (h' := <[a := _]> (rq_packets q)). split; [|split_and!; try done].
  2: { intros b. unfold h'. cbn. destruct (decide (b = a)) as [->|]; [|by rewrite lookup_insert_ne].
       rewrite lookup_insert_eq, Ha. by destruct c. }
  assert (forall b, b ∈ l.*1 -> next_of h' b = next_of (rq_packets q) b) as Hframe.
  { intros b Hbl. apply next_of_insert_ne. by intros ->. }
  split_and!.
  - rewrite fmap_app. apply NoDup_app. split; [done|]. split; [|apply NoDup_singleton].
    intros b Hbl Hbs. apply list_elem_of_singleton in Hbs as ->. done.
  - apply Forall_app. split.
    + apply (holds_frame (rq_packets q)); [done|]. intros b Hbl. unfold h'. cbn. rewrite lookup_insert_ne; [done|].
      by intros ->.
    + constructor; [|done]. unfold h'. cbn. rewrite lookup_insert_eq. by destruct c.
  - cbn. rewrite zlen_insert. done.
  - intros j Hj. cbn. rewrite bucket_list_snoc. cbn [snd]. rewrite bucket_of_clean. fold i.
    assert (forall b, b ∈ (bucket_list l j).*1 -> b ∈ l.*1) as Hsub.
    { intros b (x & -> & Hx)%list_elem_of_fmap. apply elem_of_bucket in Hx as [Hx _].
      apply list_elem_of_fmap. by exists x. }
    destruct (decide (i = j)) as [<-|Hne].
    + exists (Ptr a). rewrite rd_lookup, list_lookup_insert_eq by (unfold zlen in *; lia). split; [done|].
      cbn. split; [done|]. exists head. unfold h' at 1. rewrite next_of_insert. split; [by destruct c|].
      eapply seg_frame; [exact Hseg|]. intros b Hbl. by apply Hframe, Hsub.
    + destruct (Hb j Hj) as (head' & Hhead' & Hseg'). exists head'.
      rewrite rd_lookup in Hhead' |- * by lia. rewrite list_lookup_insert_ne by lia. split; [done|].
      eapply seg_frame; [exact Hseg'|]. intros b Hbl. by apply Hframe, Hsub.
Qed.

(** *** Removing from the index *)

Definition without (a : addr) (l : packet_list) : packet_list := filter (fun x => x.1 <> a) l.

Lemma without_fst a l : (without a l).*1 = list_without a l.*1.
Proof.
  induction l as [|x l IH]; [done|]. unfold without, list_without in *. rewrite fmap_cons, !filter_cons.
  repeat case_decide; try done. cbn. by rewrite IH.
Qed.
Lemma bucket_list_without a l i : bucket_list (without a l) i = without a (bucket_list l i).
Proof.
  unfold bucket_list, without. rewrite filter_reverse, !list_filter_filter. f_equal.
  apply list_filter_iff. intros x. tauto.
Qed.
Lemma list_without_notin a xs : a ∉ xs -> list_without a xs = xs.
Proof.
  induction xs as [|b xs IH]; [done|]. intros [Hne Hin]%not_elem_of_cons. unfold list_without in *.
  rewrite filter_cons_True by done. by rewrite IH.
Qed.
Lemma list_without_middle a pre post : NoDup (pre ++ a :: post) -> list_without a (pre ++ a :: post) = pre ++ post.
Proof.
  intros (_ & Hpre & Hpost)%NoDup_app. apply NoDup_cons in Hpost as [Hpost _].
  assert (a ∉ pre) as Hp. { intros Hin. destruct (Hpre a Hin). by left. }
  unfold list_without. rewrite filter_app, filter_cons_False by (intros Hn; by apply Hn).
  fold (list_without a pre) (list_without a post). by rewrite !list_without_notin.
Qed.
Lemma bucket_list_NoDup l i : NoDup l.*1 -> NoDup (bucket_list l i).*1.
Proof.
  intros Hnd. unfold bucket_list. rewrite fmap_reverse, reverse_Permutation.
  eapply sublist_NoDup; [exact Hnd|]. apply fmap_sublist, sublist_filter.
Qed.

Lemma unindex_loop_spec bucket a c post : forall fuel pre q prev cur,
  seg (rq_packets q) cur (pre ++ a :: post) NULL -> rq_packets q !! a = Some c -> a ∉ pre ->
  (length pre < fuel)%nat ->
  unindex_loop fuel q bucket a prev cur =
  (q' ← match match last pre with Some b => Ptr b | None => prev end with
        | NULL => buckets ← wr (rq_index_buckets q) bucket (rp_index_next c);
                  ret (q <| rq_index_buckets := buckets |>)
        | Ptr b => set_index_next q b (rp_index_next c)
        end;
   set_index_next q' a NULL).
Proof.
  induction fuel as [|fuel IH]; intros pre q prev cur Hseg Ha Hpre Hf; [lia|].
  destruct pre as [|x pre]; cbn [app seg] in Hseg; destruct Hseg as (-> & next & Hn & Hseg);
    cbn [unindex_loop].
  - rewrite Ha. cbn [mbind option_bind]. rewrite bool_decide_true by done. done.
  - apply not_elem_of_cons in Hpre as [Hxa Hpre]. unfold next_of in Hn.
    destruct (rq_packets q !! x) as [cx|] eqn:Hx; [|done]. cbn [mbind option_bind]. injection Hn as ->.
    rewrite bool_decide_false by done. cbn in Hf. rewrite (IH pre) by (done || lia).
    rewrite last_cons. by destruct (last pre).
Qed.

Lemma seg_unlink h a c b cb post last : forall pre head,
  NoDup (pre ++ b :: a :: post) -> seg h head (pre ++ b :: a :: post) last ->
  h !! a = Some c -> h !! b = Some cb ->
  seg (<[a := clean c]> (<[b := cb <| rp_index_next := rp_index_next c |>]> h)) head (pre ++ b :: post) last.
Proof.
  intros pre head Hnd Hseg Ha Hb. apply seg_app in Hseg as (mid & Hpre & Hseg).
  apply NoDup_app in Hnd as (_ & Hdis & Hnd). apply NoDup_cons in Hnd as [Hb1 Hnd]. apply NoDup_cons in Hnd as [Ha1 _].
  assert (a <> b) as Hab. { intros ->. destruct Hb1. by left. }
  assert (forall x, x <> a -> x <> b ->
    next_of (<[a := clean c]> (<[b := cb <| rp_index_next := rp_index_next c |>]> h)) x = next_of h x) as Hf.
  { intros x Hx1 Hx2. by rewrite !next_of_insert_ne. }
  apply seg_app. exists mid. split.
  - eapply seg_frame; [exact Hpre|]. intros x Hx. apply Hf; intros ->; destruct (Hdis _ Hx); [by right; left|by left].
  - cbn [seg] in Hseg |- *. destruct Hseg as (-> & n1 & Hn1 & Hseg). split; [done|].
    destruct Hseg as (-> & n2 & Hn2 & Hseg). exists n2. split.
    + rewrite next_of_insert_ne by done. rewrite next_of_insert. unfold next_of in Hn2. rewrite Ha in Hn2.
      injection Hn2 as <-. by destruct cb.
    + eapply seg_frame; [exact Hseg|]. intros x Hx. apply Hf; intros ->; [done|]. destruct Hb1. by right.
Qed.
Lemma seg_first h a c b post :
  NoDup (a :: post) -> seg h b (a :: post) NULL -> h !! a = Some c ->
  seg (<[a := clean c]> h) (rp_index_next c) post NULL.
Proof.
  intros [Ha1 _]%NoDup_cons (_ & n & Hn & Hseg) Ha. unfold next_of in Hn. rewrite Ha in Hn. injection Hn as <-.
  eapply seg_frame; [exact Hseg|]. intros x Hx. apply next_of_insert_ne. by intros ->.
Qed.

Lemma seg_length h xs : forall head last, seg h head xs last -> NoDup xs -> (length xs <= size h)%nat.
Proof.
  intros head last Hseg Hnd. rewrite <- (size_dom h), <- (size_list_to_set (C := gset addr) xs) by done.
  apply subseteq_size. intros a Ha%elem_of_list_to_set. revert head Hseg. clear Hnd.
  induction xs as [|b xs IH]; [by apply not_elem_of_nil in Ha|]. intros head (_ & n & Hn & Hseg).
  apply elem_of_cons in Ha as [->|Ha]; [|by apply (IH Ha n)].
  apply elem_of_dom. unfold next_of in Hn. by destruct (h !! b).
Qed.

(** What the removal does to the chain of the packet's bucket. *)
Lemma unindex_run q l a c :
  indexed q l -> (a, clean c) ∈ l -> rq_packets q !! a = Some c ->
  let i := bucket_of c in let chain := (bucket_list l i).*1 in
  exists h' head', reliable_unindex_packet q a =
      Some (q <| rq_packets := h' |> <| rq_index_buckets := <[Z.to_nat i := head']> (rq_index_buckets q) |>) /\
    h' !! a = Some (clean c) /\ same_content (rq_packets q) h' /\
    same_outside chain (rq_packets q) h' /\ seg h' head' (list_without a chain) NULL.
Proof.
  intros (Hnd & Hh & Hz & Hb) Hin Ha i chain.
  assert (0 <= i < XGL_RELIABLE_INDEX_BUCKETS) as Hi by apply bucket_range.
  destruct (Hb i Hi) as (head & Hhead & Hseg). fold chain in Hseg.
  assert (NoDup chain) as Hndc by by apply bucket_list_NoDup.
  assert (a ∈ chain) as Hac.
  { apply list_elem_of_fmap. exists (a, clean c). split; [done|]. apply elem_of_bucket. split; [done|].
    apply bucket_of_clean. }
  pose proof (seg_length _ _ _ _ Hseg Hndc) as Hlen.
  apply list_elem_of_split in Hac as (pre & post & Hchain). rewrite Hchain in *.
  assert (a ∉ pre) as Hpre.
  { intros Hap. apply NoDup_app in Hndc as (_ & Hd & _). destruct (Hd _ Hap). by left. }
  unfold reliable_unindex_packet. rewrite Ha. cbn [mbind option_bind]. fold (bucket_of c). fold i.
  rewrite Hhead. cbn [mbind option_bind]. rewrite length_app in Hlen. cbn [length] in Hlen.
  rewrite (unindex_loop_spec i a c post _ pre) by (done || lia). rewrite list_without_middle by done.
  destruct pre as [|b pre _] using rev_ind.
  - cbn [last]. rewrite wr_Some by lia. cbn [mbind option_bind].
    rewrite (set_index_next_run _ a c) by done. 
    exists (<[a := clean c]> (rq_packets q)), (rp_index_next c). split; [by destruct q|]. split_and!.
    + by rewrite lookup_insert_eq.
    + intros x. destruct (decide (x = a)) as [->|]; [|by rewrite lookup_insert_ne].
      rewrite lookup_insert_eq, Ha. cbn. by destruct c.
    + intros x Hx. apply not_elem_of_cons in Hx as [Hx _]. by rewrite lookup_insert_ne.
    + by apply (seg_first _ a c head post).
  - rewrite last_snoc. rewrite <- app_assoc in Hseg, Hndc |- *. cbn [app] in *.
    assert (a <> b) as Hab. { intros ->. destruct Hpre. apply elem_of_app. right. by left. }
    assert (exists cb, rq_packets q !! b = Some cb) as [cb Hcb].
    { apply seg_app in Hseg as (mid & _ & _ & n & Hn & _). unfold next_of in Hn.
      destruct (rq_packets q !! b) as [cb|]; [by exists cb|done]. }
    rewrite (set_index_next_run _ b cb) by done. cbn [mbind option_bind].
    rewrite (set_index_next_run _ a c) by (cbn; by rewrite lookup_insert_ne).
    exists (<[a := clean c]> (<[b := cb <| rp_index_next := rp_index_next c |>]> (rq_packets q))), head.
    rewrite rd_lookup in Hhead by lia. rewrite list_insert_id by done. split; [by destruct q|]. split_and!.
    + by rewrite lookup_insert_eq.
    + intros x. destruct (decide (x = a)) as [->|]; [rewrite lookup_insert_eq, Ha; by destruct c|].
      rewrite lookup_insert_ne by done. destruct (decide (x = b)) as [->|]; [|by rewrite lookup_insert_ne].
      rewrite lookup_insert_eq, Hcb. by destruct cb.
    + intros x Hx. rewrite !elem_of_app, !elem_of_cons in Hx. rewrite !lookup_insert_ne; [done|..]; intros ->; tauto.
    + rewrite <- app_assoc. by apply (seg_unlink _ a c b cb).
Qed.

Lemma without_elem a l x : x ∈ without a l <-> x ∈ l /\ x.1 <> a.
Proof. unfold without. rewrite list_elem_of_filter. tauto. Qed.
Lemma bucket_fst_sub l i b : b ∈ (bucket_list l i).*1 -> b ∈ l.*1.
Proof.
  intros (x & -> & Hx)%list_elem_of_fmap. apply elem_of_bucket in Hx as [Hx _].
  apply list_elem_of_fmap. by exists x.
Qed.
Lemma unindex_spec q l a c :
  indexed q l -> (a, clean c) ∈ l -> rq_packets q !! a = Some c ->
  exists q', reliable_unindex_packet q a = Some q' /\ indexed q' (without a l) /\
    rq_packets q' !! a = Some (clean c) /\ rq_wait_ack_list q' = rq_wait_ack_list q /\
    rq_max_retry_count q' = rq_max_retry_count q /\ same_content (rq_packets q) (rq_packets q').
Proof.
  intros Hix Hin Ha. destruct (unindex_run q l a c Hix Hin Ha) as (h' & head' & -> & Ha' & Hcl & Hout & Hseg).
  destruct Hix as (Hnd & Hh & Hz & Hb). pose proof (bucket_range (rp_target_id c) (rp_packet_number c)) as Hi.
  fold (bucket_of c) in Hi. set (i := bucket_of c) in *.
  eexists. split; [reflexivity|]. split; [|by split_and!].
  split_and!; cbn.
  - rewrite without_fst. eapply sublist_NoDup; [exact Hnd|]. apply sublist_filter.
  - unfold holds. apply Forall_forall. intros x Hx. rewrite Hcl. unfold holds in Hh. rewrite Forall_forall in Hh.
    apply Hh. by apply without_elem in Hx as [? _].
  - by rewrite zlen_insert.
  - intros j Hj. rewrite bucket_list_without, without_fst. destruct (decide (i = j)) as [<-|Hne].
    + exists head'. rewrite rd_lookup, list_lookup_insert_eq by (unfold zlen in *; lia). done.
    + destruct (Hb j Hj) as (head & Hhead & Hs). exists head.
      rewrite rd_lookup in Hhead |- * by lia. rewrite list_lookup_insert_ne by lia. split; [done|].
      rewrite list_without_notin.
      * eapply seg_frame; [exact Hs|]. intros b Hbj. unfold next_of. rewrite Hout; [done|].
        intros (x & -> & [Hx1 Hx2]%elem_of_bucket)%list_elem_of_fmap. destruct x as [x px]. cbn in *.
        apply (bucket_fst_ne l x px j x); try done. intros Hj2. apply Hne. by rewrite <- Hx2.
      * intros Hbj. eapply (bucket_fst_ne l a (clean c) j a); try done.
Qed.

(** *** Finding *)

Definition matches (packet_number target_id : Z) (p : xgl_reliable_packet_t) : bool :=
  (rp_packet_number p =? packet_number) && (rp_target_id p =? target_id).
(** The newest packet with the key. *)
Definition newest (l : packet_list) (packet_number target_id : Z) : option (addr * xgl_reliable_packet_t) :=
  last (filter (fun x => matches packet_number target_id x.2 = true) l).

Lemma find_loop_spec q n t xs : forall fuel head,
  seg (rq_packets q) head xs.*1 NULL -> holds (rq_packets q) xs -> (length xs <= fuel)%nat ->
  find_loop fuel q head n t = Some (fst <$> list.head (filter (fun x => matches n t x.2 = true) xs)).
Proof.
  induction xs as [|[a p] xs IH]; intros fuel head Hs Hh Hf; cbn in Hs.
  - subst head. by destruct fuel.
  - destruct Hs as (-> & next & Hn & Hs). apply Forall_cons in Hh as [Ha Hh]. cbn in Ha, Hf.
    destruct fuel as [|fuel]; [lia|]. cbn [find_loop]. unfold next_of in Hn.
    destruct (rq_packets q !! a) as [c|]; [|done]. injection Ha as <-. injection Hn as <-. cbn [mbind option_bind].
    change ((rp_packet_number c =? n) && (rp_target_id c =? t)) with (matches n t (clean c)).
    destruct (matches n t (clean c)) eqn:Hm.
    + by rewrite filter_cons_True.
    + rewrite filter_cons_False by (cbn; congruence). apply IH; [done|done|lia].
Qed.
Lemma find_spec q l n t :
  indexed q l -> xgl_reliable_find_packet_number q n t = Some (fst <$> newest l n t).
Proof.
  intros (Hnd & Hh & Hz & Hb). unfold xgl_reliable_find_packet_number.
  destruct (Hb _ (bucket_range t n)) as (head & -> & Hseg). cbn [mbind option_bind].
  pose proof (seg_length _ _ _ _ Hseg (bucket_list_NoDup _ _ Hnd)) as Hlen. rewrite length_map in Hlen.
  rewrite (find_loop_spec _ _ _ (bucket_list l (reliable_index_bucket t n))); [|done| |done].
  - unfold bucket_list, newest. rewrite filter_reverse, list_filter_filter, head_reverse. do 3 f_equal.
    apply list_filter_iff. intros [a p]. cbn. unfold matches, bucket_of. split; [tauto|]. intros Hm. split; [done|].
    apply andb_true_iff in Hm as [->%Z.eqb_eq ->%Z.eqb_eq]. done.
  - unfold holds in *. rewrite Forall_forall in *. intros x Hx%elem_of_bucket. apply Hh. tauto.
Qed.
Lemma newest_elem l n t x : newest l n t = Some x -> x ∈ l /\ matches n t x.2 = true.
Proof.
  unfold newest. intros Hl. apply last_Some_elem_of, list_elem_of_filter in Hl. tauto.
Qed.

(** *** The queue and the packets that the caller holds *)

(** The heap holds the packets of [l], which are on the list and in the index,
    and the packets of [out], which the caller has to free; nothing else. *)
Definition queue_rep (q : xgl_reliable_queue_t) (l out : packet_list) : Prop :=
  rq_wait_ack_list q = l.*1 /\ indexed q l /\ NoDup (l ++ out).*1 /\ holds (rq_packets q) out /\
  dom (rq_packets q) = list_to_set (l ++ out).*1.

Lemma same_content_dom h h' : same_content h h' -> dom h' = dom h.
Proof.
  intros Hc. apply set_eq. intros a. rewrite !elem_of_dom. specialize (Hc a).
  split; intros [c Hl]; rewrite Hl in Hc; cbn in Hc.
  - destruct (h !! a); [done|]. done.
  - destruct (h' !! a); [done|]. done.
Qed.
Lemma same_content_holds h h' l : same_content h h' -> holds h l -> holds h' l.
Proof. intros Hc Hh. eapply holds_frame; [exact Hh|]. intros a _. apply Hc. Qed.
Lemma indexed_frame q q' l :
  indexed q l -> rq_index_buckets q' = rq_index_buckets q ->
  (forall a, a ∈ l.*1 -> rq_packets q' !! a = rq_packets q !! a) -> indexed q' l.
Proof.
  intros (Hnd & Hh & Hz & Hb) Hbuck Hf. unfold indexed. rewrite Hbuck. split_and!; [done| |done|].
  - eapply holds_frame; [exact Hh|]. intros a Ha. by rewrite Hf.
  - intros i Hi. destruct (Hb i Hi) as (head & Hhead & Hs). exists head. split; [done|].
    eapply seg_frame; [exact Hs|]. intros a Ha. unfold next_of. rewrite Hf; [done|]. by eapply bucket_fst_sub.
Qed.
Lemma rep_lookup q l out a p :
  queue_rep q l out -> (a, p) ∈ l -> exists c, rq_packets q !! a = Some c /\ clean c = p.
Proof. intros (_ & (_ & Hh & _) & _) Hin. by eapply holds_lookup. Qed.

Lemma without_notin a l : a ∉ l.*1 -> without a l = l.
Proof.
  intros Ha. unfold without. induction l as [|x l IH]; [done|]. apply not_elem_of_cons in Ha as [Hx Ha].
  rewrite filter_cons_True by done. by rewrite IH.
Qed.
Lemma without_split l1 a p l2 : NoDup (l1 ++ (a, p) :: l2).*1 -> without a (l1 ++ (a, p) :: l2) = l1 ++ l2.
Proof.
  intros Hnd. rewrite fmap_app, fmap_cons in Hnd. apply NoDup_app in Hnd as (_ & Hd & Hnd).
  apply NoDup_cons in Hnd as [Ha2 _]. unfold without. rewrite filter_app, filter_cons_False by (intros Hn; by apply Hn).
  fold (without a l1) (without a l2). rewrite !without_notin; [done|done|]. intros Hin. destruct (Hd a Hin). by left.
Qed.
Lemma without_perm a p l : NoDup l.*1 -> (a, p) ∈ l -> l ≡ₚ (a, p) :: without a l.
Proof.
  intros Hnd (l1 & l2 & ->)%list_elem_of_split. by rewrite without_split, Permutation_middle.
Qed.
(** Out of the list and the index, a packet is the caller's. *)
Lemma rep_unlink q l out a p w :
  queue_rep q l out -> (a, p) ∈ l ->
  exists q', reliable_unindex_packet (q <| rq_wait_ack_list := w |>) a = Some q' /\
    rq_wait_ack_list q' = w /\ rq_max_retry_count q' = rq_max_retry_count q /\
    queue_rep (q' <| rq_wait_ack_list := list_without a (rq_wait_ack_list q) |>) (without a l) (out ++ [(a, p)]).
Proof.
  intros Hrep Hin. destruct (rep_lookup _ _ _ _ _ Hrep Hin) as (c & Hc & <-).
  destruct Hrep as (Hw & Hix & Hnd & Hout & Hdom).
  assert (indexed (q <| rq_wait_ack_list := w |>) l) as Hixw by by apply (indexed_frame q).
  destruct (unindex_spec (q <| rq_wait_ack_list := w |>) l a c Hixw Hin Hc)
    as (q' & Hq' & Hix' & Ha' & Hw' & Hm' & Hsame).
  exists q'. split; [exact Hq'|]. split; [exact Hw'|]. split; [exact Hm'|]. rewrite fmap_app in Hnd.
  pose proof Hnd as (Hndl & _ & _)%NoDup_app.
  assert (without a l ++ out ++ [(a, clean c)] ≡ₚ l ++ out) as Hperm.
  { rewrite (without_perm a (clean c) l) at 2 by done. rewrite app_assoc, <- Permutation_cons_append. done. }
  split_and!.
  - cbn. by rewrite Hw, without_fst.
  - exact Hix'.
  - rewrite Hperm. by rewrite fmap_app.
  - apply Forall_app. split; [by apply (same_content_holds _ _ _ Hsame)|]. constructor; [|done]. cbn.
    rewrite Ha'. by destruct c.
  - rewrite Hperm. cbn. rewrite (same_content_dom _ _ Hsame). exact Hdom.
Qed.
(** The caller frees a packet. *)
Lemma rep_free q l out a p :
  queue_rep q l (out ++ [(a, p)]) ->
  exists q', reliable_free_packet q a = Some q' /\ queue_rep q' l out /\
    rq_max_retry_count q' = rq_max_retry_count q.
Proof.
  intros (Hw & Hix & Hnd & Hout & Hdom). apply Forall_app in Hout as [Hout Ha].
  apply Forall_cons in Ha as [Ha _]. cbn in Ha. unfold reliable_free_packet.
  destruct (rq_packets q !! a) as [c|]; [|done]. cbn [mbind option_bind]. eexists. split; [reflexivity|].
  split; [|done]. rewrite app_assoc, fmap_app in Hnd, Hdom. apply NoDup_app in Hnd as (Hnd & Hdis & _).
  assert (forall b, b ∈ (l ++ out).*1 -> b <> a) as Hne.
  { intros b Hb ->. destruct (Hdis a Hb). by left. }
  split_and!; [done| |done| |].
  - apply (indexed_frame q); [done|done|]. intros b Hb. cbn. rewrite lookup_delete_ne; [done|].
    intros ->. apply (Hne b); [|done]. rewrite fmap_app. apply elem_of_app. by left.
  - apply (holds_frame (rq_packets q)); [done|]. intros b Hb. cbn. rewrite lookup_delete_ne; [done|].
    intros ->. apply (Hne b); [|done]. rewrite fmap_app. apply elem_of_app. by right.
  - cbn. rewrite dom_delete_L, Hdom, list_to_set_app_L. cbn.
    apply set_eq. intros b. rewrite elem_of_difference, elem_of_union, elem_of_list_to_set.
    split; [set_solver|]. intros Hb. specialize (Hne b Hb). set_solver.
Qed.
Lemma wait_same q : q <| rq_wait_ack_list := rq_wait_ack_list q |> = q.
Proof. by destruct q. Qed.

(** *** The operations on the abstract queue *)

Lemma remove_spec q l out n t :
  queue_rep q l out ->
  exists err q', xgl_reliable_remove_packet_number q n t = Some (err, q') /\
    rq_max_retry_count q' = rq_max_retry_count q /\
    match newest l n t with
    | Some x => err = XGL_OK /\ queue_rep q' (without x.1 l) out
    | None => err = XGL_ERR_SEQUENCE_ERROR /\ q' = q
    end.
Proof.
  intros Hrep. pose proof Hrep as (Hw & Hix & _). unfold xgl_reliable_remove_packet_number.
  rewrite (find_spec _ _ _ _ Hix). cbn [mbind option_bind].
  destruct (newest l n t) as [[a p]|] eqn:Hnew; cbn [fmap option_fmap option_map fst]; [|by eexists _, _].
  apply newest_elem in Hnew as [Hin _].
  destruct (rep_unlink q l out a p (rq_wait_ack_list q) Hrep Hin) as (q1 & Hq1 & Hw1 & Hm1 & Hrep1).
  rewrite wait_same in Hq1. rewrite Hq1. cbn [mbind option_bind]. rewrite Hw1.
  destruct (rep_free _ _ _ _ _ Hrep1) as (q2 & -> & Hrep2 & Hm2). cbn [mbind option_bind].
  eexists _, _. split; [reflexivity|]. split; [rewrite Hm2; exact Hm1|]. done.
Qed.

Lemma init_rep max : queue_rep (xgl_reliable_init max) [] [].
Proof.
  split_and!; try done; try by constructor.
  unfold indexed. split_and!; try done; try by constructor.   intros i Hi. exists NULL. unfold xgl_reliable_init. cbn [rq_index_buckets rq_packets]. split; [|done].
  rewrite rd_lookup by lia. apply lookup_replicate_2. unfold XGL_RELIABLE_INDEX_BUCKETS in *. lia.
Qed.
Lemma add_spec q l out src len source target n data_type priority timeout phy env :
  queue_rep q l out -> len <= zlen src -> 0 <= len ->
  exists err q' a env', xgl_reliable_add_packet_number q (Ptr src) len source target n data_type priority
      timeout phy env = Some (err, q', a, env') /\
    rq_max_retry_count q' = rq_max_retry_count q /\
    ((err <> XGL_OK /\ q' = q /\ a = NULL) \/
     (err = XGL_OK /\ exists b, a = Ptr b /\ b ∉ (l ++ out).*1 /\
      queue_rep q' (l ++ [(b, mk_packet NULL (Ptr (take (Z.to_nat len) src)) len source target n 0 0 0 data_type
                               XGL_PACKET_TYPE_DATA 0 false priority NULL 0 0 0 timeout timeout phy)]) out)).
Proof.
  intros (Hw & Hix & Hnd & Hout & Hdom) Hlen Hpos. unfold xgl_reliable_add_packet_number.
  case_if; [eexists _, _, _, _; split; [reflexivity|]; split; [done|]; by left|].
  destruct (alloc_answer sizeof_reliable_packet env) as [[] env1]; cbn [negb];
    [|eexists _, _, _, _; split; [reflexivity|]; split; [done|]; by left].
  destruct (alloc_answer len env1) as [[] env2]; cbn [negb];
    [|eexists _, _, _, _; split; [reflexivity|]; split; [done|]; by left].
  rewrite rd_bytes_Some by lia. cbn [mbind option_bind]. rewrite drop_to_nat_0.
  set (a := fresh (dom (rq_packets q))). set (c := mk_packet _ _ _ _ _ _ _ _ _ _ _ _ _ _ _ _ _ _ _ _ _).
  assert (a ∉ (l ++ out).*1) as Hfresh.
  { intros Ha. apply (is_fresh (dom (rq_packets q))). fold a. rewrite Hdom. by apply elem_of_list_to_set. }
  set (q1 := q <| rq_packets := _ |> <| rq_wait_ack_list := _ |>).
  assert (indexed q1 l) as Hix1.
  { apply (indexed_frame q); [done|done|]. intros b Hb. unfold q1. cbn. rewrite lookup_insert_ne; [done|].
    intros <-. destruct Hfresh. rewrite fmap_app. apply elem_of_app. by left. }
  destruct (index_packet_spec q1 l a c Hix1) as (q2 & -> & Hix2 & Hw2 & Hm2 & Hsame).
  { intros Ha. destruct Hfresh. rewrite fmap_app. apply elem_of_app. by left. }
  { unfold q1. cbn. by rewrite lookup_insert_eq. }
  cbn [mbind option_bind]. eexists _, _, _, _. split; [reflexivity|]. split; [exact Hm2|]. right.
  split; [done|]. exists a. split; [done|]. split; [done|]. change (clean c) with c in Hix2.
  assert ((l ++ [(a, c)]) ++ out ≡ₚ (a, c) :: l ++ out) as Hperm.
  { by rewrite <- Permutation_cons_append. }
  split_and!; [by rewrite Hw2, fmap_app; cbn; rewrite Hw|exact Hix2| | |].
  - rewrite Hperm. by constructor.
  - apply (same_content_holds _ _ _ Hsame). apply (holds_frame (rq_packets q)); [done|]. intros b Hb.
    unfold q1. cbn. rewrite lookup_insert_ne; [done|]. intros <-. destruct Hfresh. rewrite fmap_app. apply elem_of_app. by right.
  - rewrite (same_content_dom _ _ Hsame), Hperm. unfold q1. cbn. rewrite dom_insert_L, Hdom. done.
Qed.

(** ** Backoff *)

(** The timeout after [n] retries. *)
Definition backoff_value (initial n : Z) : Z :=
  if n <=? 0 then initial else Z.min 30000 (initial * 2 ^ (Z.min n 10)).

Lemma backoff_loop_spec n : forall b, 0 <= b < 2 ^ 30 ->
  backoff_loop n b = Some (match n with O => b | S _ => Z.min 30000 (b * 2 ^ Z.of_nat n) end).
Proof.
  induction n as [|n IH]; intros b Hb; [done|]. cbn [backoff_loop]. rewrite int32_ok by lia.
  cbn [mbind option_bind]. rewrite Nat2Z.inj_succ, Z.pow_succ_r by lia.
  assert (1 <= 2 ^ Z.of_nat n) as Hp by (apply Z.lt_pred_le, Z.pow_pos_nonneg; lia).
  destruct (Z.ltb_spec 30000 (b * 2)) as [Hlt|Hle]; [f_equal; nia|].
  rewrite IH by lia. f_equal. destruct n as [|n]; [change (2 ^ Z.of_nat 0) with 1; lia|]. nia.
Qed.
Lemma calc_backoff_spec initial n :
  0 <= initial < 2 ^ 30 -> xgl_reliable_calc_backoff initial n = Some (backoff_value initial n).
Proof.
  intros Hi. unfold xgl_reliable_calc_backoff, backoff_value. rewrite backoff_loop_spec by done. f_equal.
  destruct (Z.leb_spec n 0) as [Hn|Hn].
  - replace (10 <? n) with false by lia. by rewrite Z2Nat.nonpos by lia.
  - assert ((if 10 <? n then 10 else n) = Z.min n 10) as -> by (destruct (Z.ltb_spec 10 n); lia).
    destruct (Z.to_nat (Z.min n 10)) as [|k] eqn:Hk; [lia|]. rewrite <- Hk, Z2Nat.id by lia. done.
Qed.
(** From 2^30 on the first doubling overflows: this is why [packet_ok] bounds the
    timeout. *)
Lemma calc_backoff_overflows initial n : 2 ^ 30 <= initial -> 0 < n -> xgl_reliable_calc_backoff initial n = None.
Proof.
  intros Hi Hn. unfold xgl_reliable_calc_backoff. destruct (Z.to_nat (if 10 <? n then 10 else n)) as [|k] eqn:E.
  { destruct (Z.ltb_spec 10 n); lia. }
  cbn [backoff_loop]. unfold int32.
  by replace ((-2147483648 <=? initial * 2) && (initial * 2 <=? 2147483647)) with false by lia.
Qed.

(** ** Timeouts on the abstract queue *)

(** What a scan at [now] does to a packet. *)
Inductive fate := fate_wait | fate_retry (p : xgl_reliable_packet_t) | fate_exhausted.
Definition packet_fate (max now : Z) (p : xgl_reliable_packet_t) : fate :=
  if rp_send_timestamp p =? 0 then fate_wait
  else if u32 (now - rp_send_timestamp p) <? u32 (rp_timeout_ms p) then fate_wait
  else if max <=? rp_retry_count p then fate_exhausted
  else fate_retry (p <| rp_retry_count := rp_retry_count p + 1 |>
                     <| rp_timeout_ms := backoff_value (rp_initial_timeout_ms p) (rp_retry_count p + 1) |>
                     <| rp_send_timestamp := now |>).
Definition survivors (max now : Z) (l : packet_list) : packet_list :=
  omap (fun x => match packet_fate max now x.2 with
                 | fate_wait => Some x
                 | fate_retry p => Some (x.1, p)
                 | fate_exhausted => None
                 end) l.
Definition is_exhausted (max now : Z) (x : addr * xgl_reliable_packet_t) : bool :=
  match packet_fate max now x.2 with fate_exhausted => true | _ => false end.
Definition exhausted (max now : Z) (l : packet_list) : packet_list :=
  filter (fun x => is_exhausted max now x = true) l.
(** The transmission of a packet, when it has a driver that can send. *)
Definition packet_tx (p : xgl_reliable_packet_t) : list transmission :=
  match rp_phy p with
  | Ptr phy => match phy_tx phy with
               | Ptr tx => [(tx, rp_data p, rp_data_len p, phy_user_data phy)]
               | NULL => []
               end
  | NULL => []
  end.
Definition transmissions (max now : Z) (l : packet_list) : list transmission :=
  l ≫= (fun x => match packet_fate max now x.2 with fate_retry p => packet_tx p | _ => [] end).
(** The fields are in the ranges of their types, and the timeout can be doubled. *)
Definition packet_ok (max : Z) (p : xgl_reliable_packet_t) : Prop :=
  0 <= rp_initial_timeout_ms p < 2 ^ 30 /\ 0 <= rp_retry_count p <= max.

Lemma indexed_update q l1 a p l2 c c' :
  indexed q (l1 ++ (a, p) :: l2) -> rq_packets q !! a = Some c -> rp_index_next c' = rp_index_next c ->
  rp_target_id c' = rp_target_id c -> rp_packet_number c' = rp_packet_number c ->
  indexed (q <| rq_packets := <[a := c']> (rq_packets q) |>) (l1 ++ (a, clean c') :: l2).
Proof.
  intros (Hnd & Hh & Hz & Hb) Hc Hnext Ht Hn. unfold holds in Hh. apply Forall_app in Hh as [Hh1 Hh2].
  apply Forall_cons in Hh2 as [Ha Hh2]. cbn in Ha. rewrite Hc in Ha. injection Ha as <-.
  rewrite fmap_app, fmap_cons in Hnd. cbn [fst] in Hnd.
  assert (forall b, b ∈ l1.*1 ++ l2.*1 -> b <> a) as Hne.
  { pose proof Hnd as (_ & Hd & Hnd2)%NoDup_app. apply NoDup_cons in Hnd2 as [Ha2 _].
    intros b [Hb1|Hb2]%elem_of_app ->; [destruct (Hd a Hb1); by left|done]. }
  split_and!.
  - by rewrite fmap_app, fmap_cons.
  - apply Forall_app. split; [|constructor].
    + apply (holds_frame (rq_packets q)); [done|]. intros b Hb1. cbn. rewrite lookup_insert_ne; [done|].
      intros ->. apply (Hne b); [apply elem_of_app; by left|done].
    + cbn. by rewrite lookup_insert_eq.
    + apply (holds_frame (rq_packets q)); [done|]. intros b Hb1. cbn. rewrite lookup_insert_ne; [done|].
      intros ->. apply (Hne b); [apply elem_of_app; by right|done].
  - done.
  - intros i Hi. destruct (Hb i Hi) as (head & Hhead & Hs). exists head. split; [done|].
    assert ((bucket_list (l1 ++ (a, clean c') :: l2) i).*1 = (bucket_list (l1 ++ (a, clean c) :: l2) i).*1) as ->.
    { unfold bucket_list. rewrite !fmap_reverse, !filter_app, !filter_cons, !fmap_app.
      assert (bucket_of (a, clean c').2 = bucket_of (a, clean c).2) as ->.
      { cbn. rewrite !bucket_of_clean. unfold bucket_of. by rewrite Ht, Hn. }
      by destruct (decide _). }
    eapply seg_frame; [exact Hs|]. intros b _. cbn. destruct (decide (a = b)) as [<-|Hab].
    + rewrite next_of_insert. unfold next_of. rewrite Hc. by rewrite Hnext.
    + by apply next_of_insert_ne.
Qed.
Lemma rep_update q l1 a p l2 out c c' :
  queue_rep q (l1 ++ (a, p) :: l2) out -> rq_packets q !! a = Some c -> rp_index_next c' = rp_index_next c ->
  rp_target_id c' = rp_target_id c -> rp_packet_number c' = rp_packet_number c ->
  queue_rep (q <| rq_packets := <[a := c']> (rq_packets q) |>) (l1 ++ (a, clean c') :: l2) out.
Proof.
  intros (Hw & Hix & Hnd & Hout & Hdom) Hc Hnext Ht Hn.
  assert (((l1 ++ (a, clean c') :: l2) ++ out).*1 = ((l1 ++ (a, p) :: l2) ++ out).*1) as Heq.
  { by rewrite <- !app_assoc, !fmap_app. }
  unfold queue_rep. rewrite Heq. split_and!.
  - cbn. rewrite Hw. by rewrite !fmap_app.
  - by eapply indexed_update.
  - done.
  - apply (holds_frame (rq_packets q)); [done|]. intros b Hb. cbn. rewrite lookup_insert_ne; [done|]. intros <-.
    rewrite fmap_app in Hnd. apply NoDup_app in Hnd as (_ & Hd & _). apply (Hd a); [|done].
    rewrite fmap_app. apply elem_of_app. right. by left.
  - cbn. rewrite dom_insert_L, Hdom. apply set_eq. intros b. rewrite elem_of_union, elem_of_singleton, elem_of_list_to_set.
    split; [|tauto]. intros [->|]; [|done]. rewrite !fmap_app. apply elem_of_app. left. apply elem_of_app. right. by left.
Qed.

Lemma packet_fate_clean max now c :
  packet_fate max now (clean c) =
  match packet_fate max now c with fate_retry p => fate_retry (clean p) | f => f end.
Proof. unfold packet_fate, clean. destruct c. cbn. by repeat case_match. Qed.

(** The loop has scanned [done] and comes to [(a, p)]. *)
Definition scan_inv (s : timeout_state) (max : Z) (l out ex : packet_list) : Prop :=
  queue_rep (ts_queue s) l (out ++ ex) /\ rq_max_retry_count (ts_queue s) = max /\
  ts_exhausted s = fst <$> list.head ex /\ ts_count s = u32 (zlen (ts_sent s)).
(** The packet that the caller gets: the first exhausted one, if it asked. *)
Definition handed (want : bool) (ex new : packet_list) : packet_list :=
  if want then match ex with [] => new | _ => ex end else ex.

Lemma timeout_body_spec want now max s pre a p todo out ex :
  scan_inv s max (pre ++ (a, p) :: todo) out ex -> packet_ok max p -> 0 <= max <= UINT8_MAX ->
  exists s', timeout_body want now s a = Some s' /\
    scan_inv s' max (pre ++ survivors max now [(a, p)] ++ todo) out (handed want ex (exhausted max now [(a, p)])) /\
    ts_sent s' = ts_sent s ++ transmissions max now [(a, p)].
Proof.
  intros (Hrep & Hmax & Hex & Hcnt) Hok Hm. unfold timeout_body.
  assert ((a, p) ∈ pre ++ (a, p) :: todo) as Hin by (apply elem_of_app; right; by left).
  destruct (rep_lookup _ _ _ _ _ Hrep Hin) as (c & Hc & <-). rewrite Hc. cbn [mbind option_bind].
  assert (packet_ok max c) as [Hinit Hretry] by by destruct c.
  unfold survivors, exhausted, transmissions, is_exhausted. cbn [omap list_omap snd fst mbind list_bind].
  rewrite filter_cons, filter_nil, app_nil_r. cbn [snd]. rewrite packet_fate_clean.
  assert (forall s' : timeout_state, s' = s -> scan_inv s' max (pre ++ [(a, clean c)] ++ todo) out ex) as Hsame.
  { intros s' ->. by split_and!. }
  unfold packet_fate. rewrite Hmax.
  destruct (rp_send_timestamp c =? 0); [|destruct (_ <? u32 (rp_timeout_ms c)); [|destruct (max <=? rp_retry_count c) eqn:Hle]].
  1,2: eexists; split; [reflexivity|]; rewrite decide_False by done; split; [|by rewrite app_nil_r];
       (assert (handed want ex [] = ex) as -> by (by destruct want, ex)); by apply Hsame.
  - rewrite decide_True by done. rewrite app_nil_r. cbn [app].
    destruct (rep_unlink _ _ _ a (clean c) (list_without a (rq_wait_ack_list (ts_queue s))) Hrep Hin)
      as (q1 & Hq1 & Hw1 & Hm1 & Hrep1).
    rewrite Hq1. cbn [mbind option_bind]. rewrite <- Hw1, wait_same in Hrep1.
    rewrite without_split in Hrep1 by (destruct Hrep as (_ & Hix & _); apply Hix).
    rewrite <- app_assoc in Hrep1. 
    destruct (want && bool_decide (ts_exhausted s = NULL)) eqn:Hgive.
    + apply andb_true_iff in Hgive as [-> Hnull%bool_decide_eq_true]. rewrite Hnull in Hex.
      destruct ex as [|[b pb] ex]; [|done]. eexists. split; [reflexivity|]. split; [|done].
      split; [exact Hrep1|]. cbn [ts_queue]. split_and!; [congruence|done|done].
    + rewrite app_assoc in Hrep1. destruct (rep_free _ _ _ _ _ Hrep1) as (q2 & -> & Hrep2 & Hm2).
      cbn [mbind option_bind]. eexists. split; [reflexivity|]. split; [|done].
      assert (handed want ex [(a, clean c)] = ex) as ->.
      { destruct want; [|done]. cbn in Hgive. apply bool_decide_eq_false in Hgive. rewrite Hex in Hgive.
        by destruct ex. }
      split; [exact Hrep2|]. cbn [ts_queue]. split_and!; [congruence|done|done].
  - rewrite decide_False by done. rewrite u8_small by (unfold UINT8_MAX in *; lia).
    assert (rp_initial_timeout_ms (c <| rp_retry_count := rp_retry_count c + 1 |>) = rp_initial_timeout_ms c) as ->
      by by destruct c.
    rewrite calc_backoff_spec by done. cbn [mbind option_bind].
    set (c' := c <| rp_retry_count := _ |> <| rp_timeout_ms := _ |> <| rp_send_timestamp := _ |>).
    assert (queue_rep ((ts_queue s) <| rq_packets := <[a := c']> (rq_packets (ts_queue s)) |>)
              (pre ++ [(a, clean c')] ++ todo) (out ++ ex)) as Hrep' by by apply (rep_update _ _ _ (clean c) _ _ c).
    assert (handed want ex [] = ex) as -> by (by destruct want, ex).
    assert (packet_tx (clean c') = packet_tx c') as Htx by by destruct c. rewrite Htx.
    unfold packet_tx. destruct (rp_phy c') as [phy|]; [destruct (phy_tx phy) as [tx|]|];
      (eexists; split; [reflexivity|]; split; [|cbn; by rewrite ?app_nil_r]);
      (split; [exact Hrep'|]; split; [exact Hmax|]; split; [exact Hex|]); cbn; try exact Hcnt.
    rewrite Hcnt, zlen_app. change (zlen [_]) with 1. unfold u32. by rewrite Z.add_mod_idemp_l.
Qed.

Lemma timeout_loop_spec want now max todo : forall s pre out ex,
  scan_inv s max (pre ++ todo) out ex -> Forall (fun x => packet_ok max x.2) todo -> 0 <= max <= UINT8_MAX ->
  exists s' ex', timeout_loop want now todo.*1 s = Some s' /\
    scan_inv s' max (pre ++ survivors max now todo) out ex' /\
    ex' = (if want then match ex with [] => take 1 (exhausted max now todo) | _ => ex end else ex) /\
    ts_sent s' = ts_sent s ++ transmissions max now todo.
Proof.
  induction todo as [|[a p] todo IH]; intros s pre out ex Hinv Hok Hm; cbn [fmap list_fmap timeout_loop].
  { exists s, ex. split; [done|]. split; [done|]. split; [by destruct want, ex|]. cbn. by rewrite app_nil_r. }
  apply Forall_cons in Hok as [Hp Hok]. cbn [snd fst] in *.
  destruct (timeout_body_spec want now max s pre a p todo out ex Hinv Hp Hm) as (s1 & -> & Hinv1 & Hsent1).
  cbn [mbind option_bind]. rewrite app_assoc in Hinv1.
  destruct (IH s1 _ out _ Hinv1 Hok Hm) as (s2 & ex2 & -> & Hinv2 & Hex2 & Hsent2).
  exists s2, ex2. split; [done|]. split; [|split].
  - assert (survivors max now ((a, p) :: todo) = survivors max now [(a, p)] ++ survivors max now todo) as ->.
    { unfold survivors. cbn. by destruct (packet_fate _ _ _). }
    by rewrite app_assoc.
  - rewrite Hex2. unfold handed, exhausted. rewrite !filter_cons, filter_nil.
    destruct want; [|done]. destruct ex; [|done]. by destruct (decide _).
  - rewrite Hsent2, Hsent1, <- app_assoc. f_equal. unfold transmissions. cbn. by rewrite app_nil_r.
Qed.

Lemma process_timeouts_spec q l out now (want : bool) :
  queue_rep q l out -> Forall (fun x => packet_ok (rq_max_retry_count q) x.2) l ->
  0 <= rq_max_retry_count q <= UINT8_MAX ->
  let max := rq_max_retry_count q in
  let given : packet_list := if want then take 1 (exhausted max now l) else [] in
  exists s, xgl_reliable_process_timeouts q now want = Some s /\
    queue_rep (ts_queue s) (survivors max now l) (out ++ given) /\
    rq_max_retry_count (ts_queue s) = max /\ ts_exhausted s = fst <$> list.head given /\
    ts_sent s = transmissions max now l /\ ts_count s = u32 (zlen (transmissions max now l)).
Proof.
  intros Hrep Hok Hm max given. pose proof Hrep as (Hw & _). unfold xgl_reliable_process_timeouts. rewrite Hw.
  destruct (timeout_loop_spec want now max l (mk_timeout q 0 NULL []) [] out []) as (s & ex & -> & Hinv & -> & Hsent).
  - split_and!; [by rewrite app_nil_r|done|done|done].
  - done.
  - done.
  - exists s. split; [done|]. destruct Hinv as (Hr & Hmx & Hex & Hc). cbn [app ts_sent] in *. split_and!; try done.
    by rewrite Hc, Hsent.
Qed.

(** *** Clearing and extensions *)

Lemma clear_loop_spec l : forall q out,
  queue_rep q l out ->
  exists q', clear_loop l.*1 q = Some q' /\ queue_rep q' [] out /\ rq_max_retry_count q' = rq_max_retry_count q.
Proof.
  induction l as [|[a p] l IH]; intros q out Hrep; cbn [fmap list_fmap clear_loop fst]; [by exists q|].
  destruct (rep_unlink q _ out a p l.*1 Hrep) as (q1 & Hq1 & Hw1 & Hm1 & Hrep1); [by left|].
  rewrite Hq1. cbn [mbind option_bind]. pose proof Hrep as (Hw & (Hnd & _) & _).
  pose proof (without_split [] a p l Hnd) as Hws. cbn [app] in Hws.
  rewrite Hw, <- without_fst, Hws in Hrep1.
  rewrite <- Hw1, wait_same in Hrep1. destruct (rep_free _ _ _ _ _ Hrep1) as (q2 & -> & Hrep2 & Hm2).
  cbn [mbind option_bind]. destruct (IH q2 out Hrep2) as (q3 & -> & Hrep3 & Hm3).
  exists q3. split; [done|]. split; [done|]. congruence.
Qed.
Lemma clear_spec q l out :
  queue_rep q l out ->
  exists q', xgl_reliable_clear q = Some q' /\ queue_rep q' [] out /\ rq_max_retry_count q' = rq_max_retry_count q.
Proof.
  intros Hrep. pose proof Hrep as (Hw & _). unfold xgl_reliable_clear. rewrite Hw.
  destruct (clear_loop_spec l q out Hrep) as (q1 & -> & (Hw1 & Hix1 & Hnd1 & Hout1 & Hdom1) & Hm1).
  cbn [mbind option_bind]. eexists. split; [reflexivity|]. split; [|exact Hm1].
  destruct (init_rep 0) as (_ & (_ & _ & Hz & Hb) & _).
  split_and!; try done. split_and!; [constructor|constructor|exact Hz|].
  intros i Hi. destruct (Hb i Hi) as (head & Hhead & Hseg). exists head. split; [exact Hhead|]. exact Hseg.
Qed.

(** A packet with other extensions. *)
Definition with_extensions (p : xgl_reliable_packet_t) (ext : ptr bytes) : xgl_reliable_packet_t :=
  p <| rp_extensions := ext |> <| rp_extensions_len := from_option zlen 0 ext |>.
Lemma set_extensions_spec q l1 a p l2 out ext len env :
  queue_rep q (l1 ++ (a, p) :: l2) out -> (forall src, ext = Ptr src -> len <= zlen src) -> 0 <= len ->
  rp_extensions p = NULL -> rp_extensions_len p = 0 ->
  exists err q' env' new, xgl_reliable_set_packet_extensions q a ext len env = Some (err, q', env') /\
    queue_rep q' (l1 ++ (a, with_extensions p new) :: l2) out /\
    new = if is_ok err && (0 <? len) then (fun src => take (Z.to_nat len) src) <$> ext else NULL.
Proof.
  intros Hrep Hsrc Hlen He Hel. assert ((a, p) ∈ l1 ++ (a, p) :: l2) as Hin by (apply elem_of_app; right; by left).
  assert (with_extensions p NULL = p) as Hp0. { unfold with_extensions. destruct p. cbn in *. by subst. }
  unfold xgl_reliable_set_packet_extensions. case_if.
  { exists XGL_ERR_INVALID_PARAM, q, env, NULL. split; [done|]. by rewrite Hp0. }
  destruct (rep_lookup _ _ _ _ _ Hrep Hin) as (c & Hc & <-). rewrite Hc. cbn [mbind option_bind].
  replace (rp_extensions c) with (rp_extensions (clean c)) by (by destruct c). rewrite He.
  assert (q <| rq_packets := <[a := c]> (rq_packets q) |> = q) as Hsame.
  { rewrite insert_id by done. by destruct q. }
  case_if.
  { exists XGL_OK, q, env, NULL. rewrite Hsame. split; [done|]. rewrite Hp0. split; [done|].
    replace (0 <? len) with false by lia. done. }
  destruct (alloc_answer len env) as [[] env1]; cbn [negb].
  2: { exists XGL_ERR_NO_MEMORY, q, env1, NULL. rewrite Hsame. split; [done|]. by rewrite Hp0. }
  destruct ext as [src|]; [|exfalso; cbn in *; lia]. specialize (Hsrc src eq_refl).
  cbn [mbind option_bind]. rewrite rd_bytes_Some by lia. cbn [mbind option_bind]. rewrite drop_to_nat_0.
  eexists XGL_OK, _, env1, (Ptr (take (Z.to_nat len) src)). split; [reflexivity|]. split.
  - assert (with_extensions (clean c) (Ptr (take (Z.to_nat len) src)) =
            clean (c <| rp_extensions := Ptr (take (Z.to_nat len) src) |> <| rp_extensions_len := len |>)) as ->.
    { unfold with_extensions, clean. destruct c. cbn. unfold set_field. cbn. by rewrite zlen_take by lia. }
    by apply (rep_update _ _ _ (clean c) _ _ c).
  - replace (0 <? len) with true by lia. done.
Qed.

(** *** Acknowledgement ranges *)

(** No two packets have the same number and target. *)
Definition unique_keys (l : packet_list) : Prop :=
  forall x y n t, x ∈ l -> y ∈ l -> matches n t x.2 = true -> matches n t y.2 = true -> x.1 = y.1.
(** [l] without the packets to [target] whose number satisfies [P]. *)
Definition unacked (target : Z) (P : Z -> bool) (l : packet_list) : packet_list :=
  filter (fun x => (rp_target_id x.2 =? target) && P (rp_packet_number x.2) = false) l.

(** The documented meaning of ACK ranges: the first range ends at the largest
    number; every later one ends [gap] numbers below the one before; a range of
    length 0 says nothing; a range that would end below 0 ends the list. *)
Fixpoint ack_covers (ranges : list xgl_wire_ack_range_t) (first : bool) (next_high n : Z) : bool :=
  match ranges with
  | [] => false
  | r :: rest =>
      if ar_length r =? 0 then ack_covers rest false next_high n
      else
        let high := if first then next_high else next_high - ar_gap r - 1 in
        let low := Z.max 0 (high - ar_length r + 1) in
        (0 <=? high) && (((low <=? n) && (n <=? high)) || ack_covers rest false low n)
  end.

Lemma filter_ext_in {A} (P Q : A -> Prop) `{!forall x, Decision (P x), !forall x, Decision (Q x)} (l : list A) :
  (forall x, x ∈ l -> P x <-> Q x) -> filter P l = filter Q l.
Proof.
  induction l as [|x l IH]; intros Hext; [done|]. rewrite !filter_cons, IH by (intros y Hy; apply Hext; by right).
  pose proof (Hext x ltac:(by left)) as Hx. by repeat case_decide; try tauto.
Qed.
Lemma unacked_sublist t P l : unacked t P l `sublist_of` l.
Proof. apply sublist_filter. Qed.
Lemma unique_sublist l l' : unique_keys l -> l' `sublist_of` l -> unique_keys l'.
Proof.
  intros Hu Hs x y n t Hx Hy. apply Hu; by eapply sublist_subseteq.
Qed.
Lemma unacked_unacked t P Q l : unacked t Q (unacked t P l) = unacked t (fun n => P n || Q n) l.
Proof.
  unfold unacked. rewrite list_filter_filter. apply list_filter_iff. intros x.
  destruct (rp_target_id x.2 =? t), (P (rp_packet_number x.2)), (Q (rp_packet_number x.2)); cbn; intuition congruence.
Qed.
Lemma unacked_ext t P Q l : (forall n, P n = Q n) -> unacked t P l = unacked t Q l.
Proof. intros Hpq. unfold unacked. apply list_filter_iff. intros x. by rewrite Hpq. Qed.
Lemma unacked_none t P l : (forall n, P n = false) -> unacked t P l = l.
Proof.
  intros Hp. unfold unacked. induction l as [|x l IH]; [done|]. rewrite filter_cons_True; [by rewrite IH|].
  rewrite Hp. apply andb_false_r.
Qed.

(** The removal of one number. *)
Lemma remove_one_spec q l out n t :
  queue_rep q l out -> unique_keys l ->
  exists err q', xgl_reliable_remove_packet_number q n t = Some (err, q') /\
    queue_rep q' (unacked t (Z.eqb n) l) out /\ rq_max_retry_count q' = rq_max_retry_count q /\
    (if is_ok err then 1 else 0) = zlen l - zlen (unacked t (Z.eqb n) l).
Proof.
  intros Hrep Hu. destruct (remove_spec q l out n t Hrep) as (err & q' & Hrun & Hm & Hres).
  exists err, q'. split; [done|]. pose proof Hrep as (_ & (Hnd & _) & _).
  assert (forall x, x ∈ l -> (rp_target_id x.2 =? t) && (n =? rp_packet_number x.2) = matches n t x.2) as Hkey.
  { intros x _. unfold matches. rewrite andb_comm. by rewrite (Z.eqb_sym n). }
  destruct (newest l n t) as [[a p]|] eqn:Hnew.
  - destruct Hres as [-> Hrep']. apply newest_elem in Hnew as [Hin Hmat]. cbn [fst snd] in *.
    assert (unacked t (Z.eqb n) l = without a l) as ->.
    { apply filter_ext_in. intros [b pb] Hb. rewrite Hkey by done. cbn [fst snd]. split.
      - intros Hf ->. rewrite (fst_unique l a p pb Hnd Hin Hb) in Hmat. congruence.
      - intros Hne. destruct (matches n t pb) eqn:Hpb; [|done]. destruct Hne.
        exact (Hu (b, pb) (a, p) n t Hb Hin Hpb Hmat). }
    split; [done|]. split; [done|]. pose proof (Permutation_length (without_perm a p l Hnd Hin)) as Hpl.
    cbn in Hpl |- *. unfold zlen. lia.
  - destruct Hres as [-> ->]. assert (unacked t (Z.eqb n) l = l) as ->; [|split_and!; [done|done|cbn; lia]].
    unfold newest in Hnew. apply last_None in Hnew.
    transitivity (filter (fun _ : addr * xgl_reliable_packet_t => True) l).
    + apply filter_ext_in. intros x Hx. rewrite Hkey by done. split; [done|]. intros _.
      destruct (matches n t x.2) eqn:Hmx; [|done]. assert (x ∈ @nil (addr * xgl_reliable_packet_t)) as Hn.
      { rewrite <- Hnew. by apply list_elem_of_filter. } by apply not_elem_of_nil in Hn.
    + clear. induction l as [|x l IH]; [done|]. rewrite filter_cons_True by done. by rewrite IH.
Qed.

Lemma zlen_unacked t P l : zlen (unacked t P l) <= zlen l.
Proof. pose proof (sublist_length _ _ (unacked_sublist t P l)). unfold zlen. lia. Qed.

Lemma remove_range_loop_spec k : forall q l out t high removed,
  queue_rep q l out -> unique_keys l -> Z.of_nat k <= high + 1 -> high < 2 ^ 32 ->
  exists q', remove_range_loop k q t high removed =
      Some (q', removed + (zlen l - zlen (unacked t (fun n => (high - Z.of_nat k <? n) && (n <=? high)) l))) /\
    queue_rep q' (unacked t (fun n => (high - Z.of_nat k <? n) && (n <=? high)) l) out /\
    rq_max_retry_count q' = rq_max_retry_count q.
Proof.
  induction k as [|k IH]; intros q l out t high removed Hrep Hu Hk Hhigh; cbn [remove_range_loop].
  { rewrite (unacked_none t (fun n => (high - Z.of_nat 0 <? n) && (n <=? high))) by (intros n; zbool).
    exists q. split; [|done]. f_equal. f_equal. lia. }
  rewrite u32_small by lia. destruct (remove_one_spec q l out high t Hrep Hu) as (err & q1 & -> & Hrep1 & Hm1 & Hcnt).
  cbn [mbind option_bind].
  destruct (IH q1 _ out t (high - 1) (if is_ok err then removed + 1 else removed) Hrep1) as (q2 & -> & Hrep2 & Hm2).
  { eapply unique_sublist; [exact Hu|]. apply unacked_sublist. } { lia. } { lia. }
  rewrite unacked_unacked in Hrep2 |- *.
  assert (forall l, unacked t (fun n => (high =? n) || ((high - 1 - Z.of_nat k <? n) && (n <=? high - 1))) l =
                    unacked t (fun n => (high - Z.of_nat (S k) <? n) && (n <=? high)) l) as Heq.
  { intros l'. apply unacked_ext. intros n. zbool. }
  rewrite Heq in Hrep2 |- *. exists q2. split; [|split; [done|congruence]]. f_equal. f_equal.
  destruct (is_ok err); lia.
Qed.

Lemma ack_ranges_loop_spec ranges : forall i q l out t next_high removed,
  queue_rep q l out -> unique_keys l -> 0 <= next_high < 2 ^ 32 ->
  Forall (fun r => 0 <= ar_gap r <= UINT16_MAX /\ 0 <= ar_length r <= UINT16_MAX) ranges -> 0 <= i ->
  let l' := unacked t (ack_covers ranges (i =? 0) next_high) l in
  exists q', ack_ranges_loop ranges i q t next_high removed = Some (q', removed + (zlen l - zlen l')) /\
    queue_rep q' l' out /\ rq_max_retry_count q' = rq_max_retry_count q.
Proof.
  unfold UINT16_MAX.
  induction ranges as [|r rest IH]; intros i q l out t next_high removed Hrep Hu Hnh Hr Hi; cbn [ack_ranges_loop ack_covers].
  { rewrite unacked_none by done. exists q. split; [f_equal; f_equal; lia|done]. }
  apply Forall_cons in Hr as [[Hg Hl] Hr]. destruct (Z.eqb_spec (ar_length r) 0) as [Hz|Hnz].
  { specialize (IH (i + 1) q l out t next_high removed Hrep Hu Hnh Hr ltac:(lia)).
    replace (i + 1 =? 0) with false in IH by lia. exact IH. }
  rewrite u64_small by lia. replace (0 <? i) with (negb (i =? 0)) by lia.
  set (high := if i =? 0 then next_high else next_high - ar_gap r - 1).
  destruct (negb (i =? 0) && (next_high <? ar_gap r + 1)) eqn:Hstop.
  { apply andb_true_iff in Hstop as [Hi0 Hlt]. unfold high. destruct (Z.eqb_spec i 0) as [|Hne]; [done|].
    rewrite unacked_none by (intros n; replace (0 <=? _) with false by lia; done).
    exists q. split; [f_equal; f_equal; lia|done]. }
  assert ((if negb (i =? 0) then next_high - (ar_gap r + 1) else next_high) = high) as ->.
  { unfold high. destruct (i =? 0); cbn; lia. }
  assert (0 <= high < 2 ^ 32) as Hh. { unfold high. destruct (i =? 0); cbn in Hstop; lia. }
  clearbody high. set (low := Z.max 0 (high - ar_length r + 1)).
  assert ((if ar_length r <? u64 (high + 1) then u64 (high - ar_length r + 1) else 0) = low) as ->.
  { rewrite u64_small by lia. destruct (Z.ltb_spec (ar_length r) (high + 1)); [rewrite u64_small by lia|]; lia. }
  destruct (remove_range_loop_spec (Z.to_nat (high - low + 1)) q l out t high removed Hrep Hu ltac:(lia) ltac:(lia))
    as (q1 & -> & Hrep1 & Hm1). cbn [mbind option_bind].
  rewrite Z2Nat.id in Hrep1 |- * by lia. 
  destruct (IH (i + 1) q1 _ out t low (removed + (zlen l - zlen
    (unacked t (fun n => (high - (high - low + 1) <? n) && (n <=? high)) l))) Hrep1) as (q2 & Hq2 & Hrep2 & Hm2);
    [by eapply unique_sublist, unacked_sublist|lia|done|lia|].
  replace (i + 1 =? 0) with false in Hq2, Hrep2 by lia. rewrite unacked_unacked in Hq2, Hrep2.
  replace (0 <=? high) with true by lia. cbn [andb].
  assert (forall n, ((high - (high - low + 1) <? n) && (n <=? high)) || ack_covers rest false low n =
                    ((low <=? n) && (n <=? high)) || ack_covers rest false low n) as Heq.
  { intros n. f_equal. zbool. }
  rewrite (unacked_ext _ _ _ l Heq) in Hq2, Hrep2. exists q2. split; [|split; [done|congruence]].
  rewrite Hq2. f_equal. f_equal. lia.
Qed.

(** ** Properties *)

(** C15. The queue is a sequence of packets with a lookup by key.  When the heap
    holds the packets of [l], in order, and the packets [out] that the caller
    owns, and every queued packet has an initial timeout below 2^30 ms and has not
    been sent again more often than the retry limit ([packet_ok]; from 2^30 ms on
    the doubling of the timeout overflows, [calc_backoff_overflows]), then no
    operation is undefined behaviour (no use after free, double
    free or lost chain), and the heap afterwards holds exactly the packets of
    the new sequence and of the caller, so nothing leaks: adding appends a fresh
    packet; lookup and removal take the newest packet with the key; a timeout
    scan leaves waiting packets alone, retransmits and backs off expired ones
    and takes out exhausted ones, giving the first of them to a caller that asks
    and freeing the others; clearing frees everything. *)
Theorem reliable_queue_refines_sequence q l out n t now (want : bool) src len source data_type priority
    timeout phy env :
  queue_rep q l out -> 0 <= len <= zlen src -> 0 <= rq_max_retry_count q <= UINT8_MAX ->
  Forall (fun x => packet_ok (rq_max_retry_count q) x.2) l ->
  let max := rq_max_retry_count q in
  let given : packet_list := if want then take 1 (exhausted max now l) else [] in
  xgl_reliable_get_count q = zlen l /\ xgl_reliable_is_empty q = bool_decide (l = []) /\
  xgl_reliable_find_packet_number q n t = Some (fst <$> newest l n t) /\
  (exists err q' a env', xgl_reliable_add_packet_number q (Ptr src) len source t n data_type priority
      timeout phy env = Some (err, q', a, env') /\
    ((err <> XGL_OK /\ q' = q /\ a = NULL) \/
     (err = XGL_OK /\ exists b, a = Ptr b /\ b ∉ (l ++ out).*1 /\
      queue_rep q' (l ++ [(b, mk_packet NULL (Ptr (take (Z.to_nat len) src)) len source t n 0 0 0 data_type
                               XGL_PACKET_TYPE_DATA 0 false priority NULL 0 0 0 timeout timeout phy)]) out))) /\
  (exists err q', xgl_reliable_remove_packet_number q n t = Some (err, q') /\
    match newest l n t with
    | Some x => err = XGL_OK /\ queue_rep q' (without x.1 l) out
    | None => err = XGL_ERR_SEQUENCE_ERROR /\ q' = q
    end) /\
  (exists s, xgl_reliable_process_timeouts q now want = Some s /\
    queue_rep (ts_queue s) (survivors max now l) (out ++ given) /\
    ts_exhausted s = fst <$> list.head given /\ ts_sent s = transmissions max now l /\
    ts_count s = u32 (zlen (transmissions max now l))) /\
  (exists q', xgl_reliable_clear q = Some q' /\ queue_rep q' [] out).
Proof.
  intros Hrep Hlen Hm Hok max given. pose proof Hrep as (Hw & Hix & _). split_and!.
  - unfold xgl_reliable_get_count, zlen. by rewrite Hw, length_map.
  - unfold xgl_reliable_is_empty. rewrite Hw. by destruct l.
  - by apply find_spec.
  - destruct (add_spec q l out src len source t n data_type priority timeout phy env Hrep) as
      (err & q' & a & env' & H1 & _ & H2); [lia|lia|]. by exists err, q', a, env'.
  - destruct (remove_spec q l out n t Hrep) as (err & q' & H1 & _ & H2). by exists err, q'.
  - destruct (process_timeouts_spec q l out now want Hrep Hok Hm) as (s & H1 & H2 & _ & H3 & H4 & H5).
    by exists s.
  - destruct (clear_spec q l out Hrep) as (q' & H1 & H2 & _). by exists q'.
Qed.

(** A sent packet to target 9 and the queue that holds it. *)
Definition sample_packet (n : Z) : xgl_reliable_packet_t :=
  mk_packet NULL (Ptr [n]) 1 1 9 n 0 0 0 0 XGL_PACKET_TYPE_DATA 0 false 0 NULL 0 0 1000 100 100
    (Ptr (mk_phy (Ptr 1) NULL 0)).
Definition sample_queue : xgl_reliable_queue_t :=
  default (xgl_reliable_init 3)
    (reliable_index_packet ((xgl_reliable_init 3) <| rq_packets := {[1%positive := sample_packet 7]} |>
                                                 <| rq_wait_ack_list := [1%positive] |>) 1%positive).
Lemma sample_queue_rep : queue_rep sample_queue [(1%positive, sample_packet 7)] [].
Proof.
  set (q := (xgl_reliable_init 3) <| rq_packets := {[1%positive := sample_packet 7]} |>
                                  <| rq_wait_ack_list := [1%positive] |>).
  destruct (init_rep 3) as (_ & Hix & _). assert (indexed q []) as Hq.
  { apply (indexed_frame (xgl_reliable_init 3)); [done|done|]. intros a Ha. by apply not_elem_of_nil in Ha. }
  destruct (index_packet_spec q [] 1%positive (sample_packet 7) Hq) as (q' & Hrun & Hix' & Hw' & _ & Hs);
    [apply not_elem_of_nil|done|].
  unfold sample_queue. fold q. rewrite Hrun. cbn [default from_option id].
  split_and!; [by rewrite Hw'|exact Hix'|repeat constructor; apply not_elem_of_nil|by constructor|].
  rewrite (same_content_dom _ _ Hs). unfold q. cbn. by rewrite dom_singleton_L.
Qed.
Lemma reliable_queue_refines_sequence_witness :
  let q := sample_queue in let l := [(1%positive, sample_packet 7)] in
  let max := rq_max_retry_count q in
  let given : packet_list := if true then take 1 (exhausted max 1200 l) else [] in
  xgl_reliable_get_count q = zlen l /\ xgl_reliable_is_empty q = bool_decide (l = []) /\
  xgl_reliable_find_packet_number q 7 9 = Some (fst <$> newest l 7 9) /\
  (exists err q' a env', xgl_reliable_add_packet_number q (Ptr [5]) 1 1 9 7 0 0 100 NULL [] = Some (err, q', a, env') /\
    ((err <> XGL_OK /\ q' = q /\ a = NULL) \/
     (err = XGL_OK /\ exists b, a = Ptr b /\ b ∉ (l ++ []).*1 /\
      queue_rep q' (l ++ [(b, mk_packet NULL (Ptr (take (Z.to_nat 1) [5])) 1 1 9 7 0 0 0 0
                               XGL_PACKET_TYPE_DATA 0 false 0 NULL 0 0 0 100 100 NULL)]) []))) /\
  (exists err q', xgl_reliable_remove_packet_number q 7 9 = Some (err, q') /\
    match newest l 7 9 with
    | Some x => err = XGL_OK /\ queue_rep q' (without x.1 l) []
    | None => err = XGL_ERR_SEQUENCE_ERROR /\ q' = q
    end) /\
  (exists s, xgl_reliable_process_timeouts q 1200 true = Some s /\
    queue_rep (ts_queue s) (survivors max 1200 l) ([] ++ given) /\
    ts_exhausted s = fst <$> list.head given /\ ts_sent s = transmissions max 1200 l /\
    ts_count s = u32 (zlen (transmissions max 1200 l))) /\
  (exists q', xgl_reliable_clear q = Some q' /\ queue_rep q' [] []).
Proof.
  intros q l max given.
  apply (reliable_queue_refines_sequence sample_queue [(1%positive, sample_packet 7)] [] 7 9 1200 true [5] 1 1 0 0 100 NULL []).
  - apply sample_queue_rep.
  - done.
  - vm_compute. split; discriminate.
  - repeat constructor; vm_compute; discriminate.
Defined.

(** C17. An acknowledgement removes exactly what it acknowledges.  When no two
    queued packets have the same number and target, then after an ACK from
    [target] with the largest number and any ranges (wire values), the queue
    holds the packets that were not to [target] or whose number no range covers,
    in the same order, and the answer is the number of packets that went. *)
Theorem ack_ranges_remove_exactly q l out target largest ranges :
  queue_rep q l out -> unique_keys l -> is_u32 largest = true ->
  Forall (fun r => 0 <= ar_gap r <= UINT16_MAX /\ 0 <= ar_length r <= UINT16_MAX) ranges ->
  let l' := unacked target (ack_covers ranges true largest) l in
  exists q', xgl_reliable_remove_ack_ranges q target largest (Ptr ranges) (zlen ranges) =
      Some (q', zlen l - zlen l') /\ queue_rep q' l' out.
Proof.
  intros Hrep Hu Hl%is_u32_spec Hr l'. unfold xgl_reliable_remove_ack_ranges.
  rewrite rd_bytes_Some by (pose proof (zlen_nonneg ranges); lia).
  cbn [mbind option_bind].
  destruct (ack_ranges_loop_spec ranges 0 q l out target largest 0 Hrep Hu ltac:(lia) Hr ltac:(lia)) as (q' & Hq & Hrep' & _).
  exists q'. split; [|exact Hrep']. rewrite drop_to_nat_0, take_to_nat by done. rewrite Hq. done.
Qed.
(** Largest 9, one number, a gap of one, then one more: 9 and 7 are covered. *)
Lemma ack_ranges_remove_exactly_witness :
  let l := [(1%positive, sample_packet 7)] in
  let l' := unacked 9 (ack_covers [mk_ack_range 0 1; mk_ack_range 1 1] true 9) l in
  exists q', xgl_reliable_remove_ack_ranges sample_queue 9 9 (Ptr [mk_ack_range 0 1; mk_ack_range 1 1]) 2 =
      Some (q', zlen l - zlen l') /\ queue_rep q' l' [].
Proof.
  intros l. apply (ack_ranges_remove_exactly sample_queue l [] 9 9 [mk_ack_range 0 1; mk_ack_range 1 1]).
  - apply sample_queue_rep.
  - intros x y n t Hx Hy _ _. apply list_elem_of_singleton in Hx as ->. by apply list_elem_of_singleton in Hy as ->.
  - done.
  - repeat constructor; vm_compute; discriminate.
Defined.

(** ** Giving up *)

(** The packet was sent and its timeout has passed. *)
Definition due (now : Z) (p : xgl_reliable_packet_t) : Prop :=
  rp_send_timestamp p <> 0 /\ u32 (rp_timeout_ms p) <= u32 (now - rp_send_timestamp p).

Lemma due_fate max now p :
  due now p ->
  packet_fate max now p =
  if max <=? rp_retry_count p then fate_exhausted
  else fate_retry (p <| rp_retry_count := rp_retry_count p + 1 |>
                     <| rp_timeout_ms := backoff_value (rp_initial_timeout_ms p) (rp_retry_count p + 1) |>
                     <| rp_send_timestamp := now |>).
Proof.
  intros [Ht Hd]. unfold packet_fate. rewrite (proj2 (Z.eqb_neq _ _)) by done.
  by rewrite (proj2 (Z.ltb_ge _ _)) by lia.
Qed.



(** The clock value 0.  A packet that a scan retransmits when the
    millisecond clock reads 0 (the clock wraps every 49.7 days) is afterwards
    taken for a packet that was never sent: no later scan retransmits it or
    gives it up, whatever the time. *)
Theorem retransmission_at_clock_zero_is_never_repeated q l out p a now :
  queue_rep q ((a, p) :: l) out -> 0 <= rq_max_retry_count q <= UINT8_MAX ->
  Forall (fun x => packet_ok (rq_max_retry_count q) x.2) ((a, p) :: l) ->
  due 0 p -> rp_retry_count p < rq_max_retry_count q ->
  exists s p', xgl_reliable_process_timeouts q 0 false = Some s /\
    queue_rep (ts_queue s) ((a, p') :: survivors (rq_max_retry_count q) 0 l) out /\
    rp_retry_count p' = rp_retry_count p + 1 /\ rp_send_timestamp p' = 0 /\
    packet_fate (rq_max_retry_count q) now p' = fate_wait.
Proof.
  intros Hrep Hm Hok Hdue Hr.
  destruct (process_timeouts_spec q _ out 0 false Hrep Hok Hm) as (s & Hrun & Hrep' & _).
  rewrite app_nil_r in Hrep'. unfold survivors in Hrep'. cbn [omap list_omap snd fst] in Hrep'.
  rewrite (due_fate _ _ _ Hdue) in Hrep'. rewrite (proj2 (Z.leb_gt _ _)) in Hrep' by done.
  eexists s, _. split; [exact Hrun|]. split; [exact Hrep'|]. by destruct p.
Qed.
Lemma retransmission_at_clock_zero_is_never_repeated_witness :
  exists s p', xgl_reliable_process_timeouts sample_queue 0 false = Some s /\
    queue_rep (ts_queue s) ((1%positive, p') :: survivors (rq_max_retry_count sample_queue) 0 []) [] /\
    rp_retry_count p' = rp_retry_count (sample_packet 7) + 1 /\ rp_send_timestamp p' = 0 /\
    packet_fate (rq_max_retry_count sample_queue) 5000 p' = fate_wait.
Proof.
  apply (retransmission_at_clock_zero_is_never_repeated sample_queue [] [] (sample_packet 7) 1%positive 5000).
  - apply sample_queue_rep.
  - vm_compute. split; discriminate.
  - repeat constructor; vm_compute; discriminate.
  - split; vm_compute; discriminate.
  - done.
Defined.
