(* ===== verification/Transport.v ===== *)
(** * The transport context (include/xgl/internal/xgl_transport.h,
    src/transport/xgl_transport_peer.c, xgl_transport_control.c,
    xgl_transport_rx_buffer.c, xgl_transport_packet_number.c)

    The state of the transport layer - the peers, each with its session, window,
    reliable queue and receive state - and the operations on it.  They run in
    the monad [T], which is [ST] of [State] over a world: the context, the answers of the allocator and of the lower
    layer that are still to come, and the trace of what the layer did to its
    surroundings (packets handed down, data handed to the application).  The
    peers are a sequence, newest first; a pointer to a peer is its place. *)
From S2P Require Import Prelude State Errors Layer Wire WireExt Codec Window Rtt Route Fragment Reliable.

(** ** Data *)

Definition XGL_TRANSPORT_CONTROL_HELLO : Z := 0x0E.
Definition XGL_TRANSPORT_CONTROL_RESET : Z := 0x0F.

(** The packet's data view points into the same structure: [pk_data] of
    [rxb_packet] has [rxb_data]. *)
(** src/include/xgl/internal/xgl_transport.h:38-46: xgl_transport_rx_buffered_packet_t *)
Record xgl_transport_rx_buffered_packet_t := mk_rx_buffered {
  rxb_packet : xgl_packet_t;
  rxb_data : bytes;
  rxb_data_len : Z;
  rxb_extensions : ptr bytes;
  rxb_extensions_len : Z
}.

(** [tp_rx_buffered] is the singly linked list as a sequence. *)
(** src/include/xgl/internal/xgl_transport.h:48-66: xgl_transport_peer_state_t *)
Record xgl_transport_peer_state_t := mk_peer {
  tp_peer_id : Z;
  tp_has_connection_scope : bool;
  tp_connection_id : Z;
  tp_session_epoch : Z;
  tp_session_id : Z;
  tp_hello_sent : bool;
  tp_session_established : bool;
  tp_tx_window : xgl_sliding_window_t;
  tp_reliable_queue : xgl_reliable_queue_t;
  tp_rtt_est : xgl_rtt_estimator_t;
  tp_last_active_ms : Z;
  tp_rx_next_packet_number : Z;
  tp_rx_has_packet_number_state : bool;
  tp_rx_buffered : list xgl_transport_rx_buffered_packet_t;
  tp_rx_buffered_count : Z;
  tp_earliest_deadline_ms : Z
}.
#[export] Instance eta_peer : EtaRecord xgl_transport_peer_state_t := Eta (fun p =>
  mk_peer (tp_peer_id p) (tp_has_connection_scope p) (tp_connection_id p) (tp_session_epoch p)
    (tp_session_id p) (tp_hello_sent p) (tp_session_established p) (tp_tx_window p)
    (tp_reliable_queue p) (tp_rtt_est p) (tp_last_active_ms p) (tp_rx_next_packet_number p)
    (tp_rx_has_packet_number_state p) (tp_rx_buffered p) (tp_rx_buffered_count p)
    (tp_earliest_deadline_ms p)).

(** The allocator and the callbacks' user data are left out; callbacks are known
    by their address. *)
(** src/include/xgl/internal/xgl_transport.h:72-110: xgl_transport_ctx_t *)
Record xgl_transport_ctx_t := mk_transport {
  tc_local_id : Z;
  tc_max_retry_count : Z;
  tc_default_timeout_ms : Z;
  tc_enable_fragmentation : bool;
  tc_max_frame_size : Z;
  tc_auth_tag_len : Z;
  tc_route_table : ptr xgl_route_table_t;
  tc_next_session_id : Z;
  tc_peer_idle_timeout_ms : Z;
  tc_max_reassembly_slots : Z;
  tc_rtt_est : xgl_rtt_estimator_t;
  tc_window : xgl_sliding_window_t;
  tc_reliable_queue : xgl_reliable_queue_t;
  tc_fragment_mgr : ptr xgl_fragment_manager_t;
  tc_peers : list xgl_transport_peer_state_t;
  tc_lower_layer : ptr xgl_layer_interface_t;
  tc_rx_callback : ptr Z;
  tc_error_callback : ptr Z;
  tc_stats : ptr xgl_layer_stats_t;
  tc_tx_retries : ptr Z;
  tc_codec_registry : ptr xgl_codec_registry_t
}.
#[export] Instance eta_transport : EtaRecord xgl_transport_ctx_t := Eta (fun c =>
  mk_transport (tc_local_id c) (tc_max_retry_count c) (tc_default_timeout_ms c)
    (tc_enable_fragmentation c) (tc_max_frame_size c) (tc_auth_tag_len c) (tc_route_table c) (tc_next_session_id c)
    (tc_peer_idle_timeout_ms c) (tc_max_reassembly_slots c) (tc_rtt_est c) (tc_window c)
    (tc_reliable_queue c) (tc_fragment_mgr c) (tc_peers c) (tc_lower_layer c) (tc_rx_callback c)
    (tc_error_callback c) (tc_stats c) (tc_tx_retries c) (tc_codec_registry c)).

(** ** The state monad *)

(** A packet handed to the lower layer, a call of the receive callback (with its
    data, [None] bytes being uninitialised, and its length), a call of the error
    callback. *)
Inductive transport_event :=
| ev_send (packet : xgl_packet_t)
| ev_deliver (source_id data_type : Z) (data : raw_bytes) (len : Z)
| ev_error (err : xgl_error_t).

(** [w_net] are the answers of the lower layer's [send] to come, each an error
    code and the driver it found ([XGL_OK] when there are no more); [w_time] is what [xgl_time_ms] answers during the call;
    [w_stack] is what an uninitialised stack buffer holds. *)
Record world := mk_world {
  w_ctx : xgl_transport_ctx_t;
  w_heap : heap_answers;
  w_net : list (xgl_error_t * ptr xgl_phy_ops_t);
  w_trace : list transport_event;
  w_time : Z;
  w_stack : bytes
}.
#[export] Instance eta_world : EtaRecord world := Eta (fun w =>
  mk_world (w_ctx w) (w_heap w) (w_net w) (w_trace w) (w_time w) (w_stack w)).

Abbreviation T := (ST world).
Definition get_ctx : T xgl_transport_ctx_t := gets w_ctx.
Definition put_ctx (f : xgl_transport_ctx_t -> xgl_transport_ctx_t) : T unit :=
  modify (fun w => w <| w_ctx := f (w_ctx w) |>).
Definition emit (e : transport_event) : T unit := modify (fun w => w <| w_trace := w_trace w ++ [e] |>).
Definition xgl_time_ms : T Z := gets w_time.
(** [transport_malloc] *)
Definition malloc (size : Z) : T bool := fun w =>
  let '(ok, heap) := alloc_answer size (w_heap w) in Some (ok, w <| w_heap := heap |>).
(** The peer at a place, and its update through the pointer. *)
Definition get_peer (peer : nat) : T xgl_transport_peer_state_t :=
  ctx ← get_ctx; lift (tc_peers ctx !! peer).
Definition put_peer (peer : nat) (f : xgl_transport_peer_state_t -> xgl_transport_peer_state_t) : T unit :=
  p ← get_peer peer;
  put_ctx (fun c => c <| tc_peers := <[peer := f p]> (tc_peers c) |>).
(** [ctx->stats->field += n], when the context has statistics. *)
Definition add_stats (f : xgl_layer_stats_t -> xgl_layer_stats_t) : T unit :=
  put_ctx (fun c => c <| tc_stats := f <$> tc_stats c |>).

Definition net_answer : T (xgl_error_t * ptr xgl_phy_ops_t) := fun w =>
  match w_net w with
  | [] => Some ((XGL_OK, NULL), w)
  | a :: net => Some (a, w <| w_net := net |>)
  end.
(** Also returns what the lower layer left in [packet->phy], the only field that
    a caller reads back. *)
(** src/include/xgl/internal/xgl_layer_interface.h:133-140: xgl_layer_send *)
Definition xgl_layer_send (iface : ptr xgl_layer_interface_t) (packet : xgl_packet_t)
    : T (xgl_error_t * ptr xgl_phy_ops_t) :=
  match iface with
  | NULL => mret (XGL_ERR_NULL_POINTER, pk_phy packet)
  | Ptr iface =>
      match li_send iface with
      | NULL => mret (XGL_ERR_NULL_POINTER, pk_phy packet)
      | Ptr _ =>
          _ ← emit (ev_send packet);
          net_answer
      end
  end.
(** The test [lower_layer != NULL && lower_layer->send != NULL]. *)
(** src/src/transport/xgl_transport_send.c:71-71: xgl_transport_send *)
Definition can_send_down (ctx : xgl_transport_ctx_t) : bool :=
  match tc_lower_layer ctx with
  | Ptr iface => negb (bool_decide (li_send iface = NULL))
  | NULL => false
  end.

(** src/src/transport/xgl_transport_runtime.c:8-13: transport_count_send_error *)
Definition transport_count_send_error : T unit :=
  add_stats (fun s => s <| ls_tx_errors := u64 (ls_tx_errors s + 1) |>).

(** ** Peers *)

(** The search of a singly linked list for the first element with [f]. *)
(** src/src/transport/xgl_transport_peer.c:18-23: transport_find_peer *)
Fixpoint find_peer_loop (f : xgl_transport_peer_state_t -> bool) (peer : list xgl_transport_peer_state_t)
    (i : nat) : ptr nat :=
  match peer with
  | [] => NULL
  | p :: next => if f p then Ptr i else find_peer_loop f next (S i)
  end.
(** src/src/transport/xgl_transport_peer.c:10-26: transport_find_peer *)
Definition transport_find_peer (ctx : xgl_transport_ctx_t) (peer_id : Z) : ptr nat :=
  find_peer_loop (fun p => tp_peer_id p =? peer_id) (tc_peers ctx) 0.
(** src/src/transport/xgl_transport_peer.c:28-48: transport_find_peer_scope *)
Definition transport_find_peer_scope (ctx : xgl_transport_ctx_t)
    (peer_id connection_id session_epoch : Z) : ptr nat :=
  find_peer_loop (fun p => (tp_peer_id p =? peer_id) && tp_has_connection_scope p &&
                           (tp_connection_id p =? connection_id) && (tp_session_epoch p =? session_epoch))
    (tc_peers ctx) 0.

(** A peer structure takes a nonzero number of bytes. *)
Definition sizeof_peer_state : Z := 512.
Definition zero_window : xgl_sliding_window_t := mk_window 0 0 0 NULL.
Definition initial_rtt : xgl_rtt_estimator_t := mk_rtt 0 0 XGL_DEFAULT_RTO_MS false.

Definition init_window (window_size : Z) : T (xgl_error_t * xgl_sliding_window_t) := fun w =>
  let '(err, window, heap) := xgl_window_init_with_allocator zero_window window_size (w_heap w) in
  Some ((err, window), w <| w_heap := heap |>).
(** A new peer is put at the head of the list. *)
(** src/src/transport/xgl_transport_peer.c:50-102: transport_get_or_create_peer_internal *)
Definition transport_get_or_create_peer_internal (peer_id connection_id session_epoch : Z)
    (has_connection_scope : bool) : T (ptr nat) :=
  ctx ← get_ctx;
  match (if has_connection_scope
         then transport_find_peer_scope ctx peer_id connection_id session_epoch
         else transport_find_peer ctx peer_id) with
  | Ptr peer => mret (Ptr peer)
  | NULL =>
      ok ← malloc sizeof_peer_state;
      if negb ok then mret NULL
      else
        let session_id := u16 (Z.land (tc_next_session_id ctx) XGL_SESSION_ID_MASK) in
        let session_id := if session_id =? 0 then 1 else session_id in
        let next_session_id := u16 (Z.land (session_id + 1) XGL_SESSION_ID_MASK) in
        let next_session_id := if next_session_id =? 0 then 1 else next_session_id in
        _ ← put_ctx (fun c => c <| tc_next_session_id := next_session_id |>);
        '(err, tx_window) ← init_window (sw_window_size (tc_window ctx));
        if negb (is_ok err) then mret NULL
        else
          let peer := mk_peer peer_id has_connection_scope
            (if has_connection_scope then connection_id else 0)
            (if has_connection_scope then session_epoch else 0) session_id false false tx_window
            (xgl_reliable_init (tc_max_retry_count ctx)) initial_rtt 0 0 false [] 0 0 in
          _ ← put_ctx (fun c => c <| tc_peers := peer :: tc_peers c |>);
          mret (Ptr 0%nat)
  end.
(** src/src/transport/xgl_transport_peer.c:104-108: transport_get_or_create_peer *)
Definition transport_get_or_create_peer (peer_id : Z) : T (ptr nat) :=
  transport_get_or_create_peer_internal peer_id 0 0 false.
(** src/src/transport/xgl_transport_peer.c:110-117: transport_get_or_create_peer_scope *)
Definition transport_get_or_create_peer_scope (peer_id connection_id session_epoch : Z) : T (ptr nat) :=
  transport_get_or_create_peer_internal peer_id connection_id session_epoch true.

(** ** The receive buffer of a peer

    The buffer is in the order of the packet numbers. *)

(** Returns the position of the packet, and of the last one before it. *)
(** src/src/transport/xgl_transport_rx_buffer.c:22-36: transport_find_rx_buffered *)
Fixpoint find_rx_loop (node : list xgl_transport_rx_buffered_packet_t) (packet_number : Z)
    (i : nat) (prev : ptr nat) : ptr nat * ptr nat :=
  match node with
  | [] => (NULL, prev)
  | b :: next =>
      if pk_packet_number (rxb_packet b) =? packet_number then (Ptr i, prev)
      else if packet_number <? pk_packet_number (rxb_packet b) then (NULL, prev)
      else find_rx_loop next packet_number (S i) (Ptr i)
  end.
(** src/src/transport/xgl_transport_rx_buffer.c:10-42: transport_find_rx_buffered *)
Definition transport_find_rx_buffered (peer : xgl_transport_peer_state_t) (packet_number : Z)
    : ptr nat * ptr nat :=
  find_rx_loop (tp_rx_buffered peer) packet_number 0 NULL.

(** src/src/transport/xgl_transport_rx_buffer.c:44-59: transport_clear_rx_buffered *)
Definition transport_clear_rx_buffered (peer : xgl_transport_peer_state_t) : xgl_transport_peer_state_t :=
  peer <| tp_rx_buffered := [] |> <| tp_rx_buffered_count := 0 |>.

(** A copy of the packet that owns its data and extensions, or the error. *)
(** src/src/transport/xgl_transport_rx_buffer.c:61-95: transport_copy_rx_buffered_packet *)
Definition transport_copy_rx_buffered_packet (packet : xgl_packet_t) (packet_number : Z)
    : T (xgl_error_t * option xgl_transport_rx_buffered_packet_t) :=
  data ← lift (pk_data packet);
  ok ← malloc (pd_data_len data);
  if negb ok then mret (XGL_ERR_NO_MEMORY, None)
  else
    src ← lift (pd_data data);
    copy ← lift (rd_bytes src 0 (pd_data_len data));
    '(err, extensions, extensions_len) ←
      match pk_extensions packet with
      | Ptr ext =>
          if 0 <? pk_extensions_len packet then
            ok ← malloc (pk_extensions_len packet);
            if negb ok then mret (XGL_ERR_NO_MEMORY, NULL, 0)
            else
              ext ← lift (rd_bytes ext 0 (pk_extensions_len packet));
              mret (XGL_OK, Ptr ext, pk_extensions_len packet)
          else mret (XGL_OK, NULL, 0)
      | NULL => mret (XGL_OK, NULL, 0)
      end;
    if negb (is_ok err) then mret (err, None)
    else
      let packet := packet <| pk_packet_number := packet_number |>
        <| pk_data := Ptr (mk_packet_data 1 (pd_data_len data) (Ptr copy) (Ptr copy)) |>
        <| pk_extensions := extensions |> <| pk_extensions_len := extensions_len |> in
      mret (XGL_OK, Some (mk_rx_buffered packet copy (pd_data_len data) extensions extensions_len)).

(** src/src/transport/xgl_transport_rx_buffer.c:97-112: transport_insert_rx_buffered *)
Definition transport_insert_rx_buffered (peer : xgl_transport_peer_state_t)
    (buffered : xgl_transport_rx_buffered_packet_t) (packet_number : Z) : xgl_transport_peer_state_t :=
  let '(_, prev) := transport_find_rx_buffered peer packet_number in
  let place := match prev with NULL => O | Ptr i => S i end in
  let l := tp_rx_buffered peer in
  peer <| tp_rx_buffered := take place l ++ buffered :: drop place l |>
       <| tp_rx_buffered_count := u8 (tp_rx_buffered_count peer + 1) |>.

Definition sizeof_rx_buffered_packet : Z := 200.
(** src/src/transport/xgl_transport_rx_buffer.c:114-155: transport_cache_out_of_order_packet *)
Definition transport_cache_out_of_order_packet (peer : nat) (packet : xgl_packet_t) (packet_number : Z)
    : T xgl_error_t :=
  let bad := match pk_data packet with
             | NULL => true
             | Ptr d => bool_decide (pd_data d = NULL) || (pd_data_len d =? 0)
             end in
  if bad then mret XGL_ERR_INVALID_PARAM
  else
    p ← get_peer peer;
    let window := sw_window_size (tp_tx_window p) in
    let window := if window =? 0 then 1 else window in
    if window <=? u32 (packet_number - tp_rx_next_packet_number p) then mret XGL_ERR_WINDOW_FULL
    else if window <=? tp_rx_buffered_count p then mret XGL_ERR_WINDOW_FULL
    else
      match (transport_find_rx_buffered p packet_number).1 with
      | Ptr _ => mret XGL_OK
      | NULL =>
          ok ← malloc sizeof_rx_buffered_packet;
          if negb ok then mret XGL_ERR_NO_MEMORY
          else
            '(err, buffered) ← transport_copy_rx_buffered_packet packet packet_number;
            match buffered with
            | None => mret err
            | Some b =>
                _ ← put_peer peer (fun p => transport_insert_rx_buffered p b packet_number);
                mret XGL_OK
            end
      end.

(** src/src/transport/xgl_transport_rx_buffer.c:157-179: transport_take_rx_buffered *)
Definition transport_take_rx_buffered (peer : nat) (packet_number : Z)
    : T (ptr xgl_transport_rx_buffered_packet_t) :=
  p ← get_peer peer;
  let '(buffered, prev) := transport_find_rx_buffered p packet_number in
  match buffered with
  | NULL => mret NULL
  | Ptr i =>
      b ← lift (tp_rx_buffered p !! i);
      let place := match prev with NULL => O | Ptr k => S k end in
      _ ← put_peer peer (fun p =>
            p <| tp_rx_buffered := delete place (tp_rx_buffered p) |>
              <| tp_rx_buffered_count :=
                   if 0 <? tp_rx_buffered_count p then tp_rx_buffered_count p - 1
                   else tp_rx_buffered_count p |>);
      mret (Ptr b)
  end.

(** ** Sessions *)

(** src/src/transport/xgl_transport_peer.c:178-202: transport_reset_peer_state *)
Definition transport_reset_peer_state (peer : nat) (session_id connection_id session_epoch : Z) : T unit :=
  p ← get_peer peer;
  queue ← lift (xgl_reliable_clear (tp_reliable_queue p));
  window ← lift (xgl_window_reset (tp_tx_window p));
  _ ← put_peer peer (fun p =>
        p <| tp_session_id := u16 (Z.land session_id XGL_SESSION_ID_MASK) |>
          <| tp_hello_sent := false |> <| tp_session_established := true |>
          <| tp_reliable_queue := queue |> <| tp_tx_window := window |>);
  ctx ← get_ctx;
  window ← lift (xgl_window_reset (tc_window ctx));
  _ ← put_ctx (fun c => c <| tc_window := window |>);
  _ ← put_ctx (fun c =>
        c <| tc_fragment_mgr :=
               (fun m => (xgl_fragment_clear_reassembly_scope m (tp_peer_id p) connection_id session_epoch).2)
                 <$> tc_fragment_mgr c |>);
  now ← xgl_time_ms;
  put_peer peer (fun p =>
    transport_clear_rx_buffered
      (p <| tp_rtt_est := initial_rtt |> <| tp_rx_next_packet_number := 0 |>
         <| tp_rx_has_packet_number_state := false |>)
      <| tp_last_active_ms := now |>).

(** The iteration over the wait-ACK list for the earliest deadline. *)
(** src/src/transport/xgl_transport_peer.c:213-223: transport_update_peer_deadline *)
Fixpoint deadline_loop (queue : xgl_reliable_queue_t) (nodes : list LinkedList.addr) (earliest : Z) : M Z :=
  match nodes with
  | [] => ret earliest
  | node :: next =>
      pkt ← rq_packets queue !! node;
      if negb (rp_send_timestamp pkt =? 0) && (0 <? rp_timeout_ms pkt) then
        let abs_deadline := u32 (rp_send_timestamp pkt + rp_timeout_ms pkt) in
        if (earliest =? 0) || (i32 (abs_deadline - earliest) <? 0)
        then deadline_loop queue next abs_deadline
        else deadline_loop queue next earliest
      else deadline_loop queue next earliest
  end.
(** src/src/transport/xgl_transport_peer.c:204-224: transport_update_peer_deadline *)
Definition transport_update_peer_deadline (peer : nat) : T unit :=
  p ← get_peer peer;
  let queue := tp_reliable_queue p in
  deadline ← lift (deadline_loop queue (rq_wait_ack_list queue) 0);
  put_peer peer (fun p => p <| tp_earliest_deadline_ms := deadline |>).

(** src/src/transport/xgl_transport_control.c:50-90: transport_process_control_packet *)
Definition transport_process_control_packet (packet : xgl_packet_t) : T xgl_error_t :=
  let session_id := u16 (Z.land (pk_session_id packet) XGL_SESSION_ID_MASK) in
  if negb (pk_packet_type packet =? XGL_PACKET_TYPE_CONTROL) ||
     (negb (pk_data_type packet =? XGL_TRANSPORT_CONTROL_HELLO) &&
      negb (pk_data_type packet =? XGL_TRANSPORT_CONTROL_RESET))
  then mret XGL_ERR_INVALID_FRAME
  else if session_id =? 0 then mret XGL_ERR_INVALID_FRAME
  else
    let has_connection_scope :=
      negb (pk_connection_id packet =? 0) || negb (pk_session_epoch packet =? 0) in
    peer ← (if has_connection_scope
            then transport_get_or_create_peer_scope (pk_source_id packet) (pk_connection_id packet)
                   (pk_session_epoch packet)
            else transport_get_or_create_peer (pk_source_id packet));
    match peer with
    | NULL => mret XGL_ERR_NO_MEMORY
    | Ptr peer =>
        p ← get_peer peer;
        _ ← (if (pk_data_type packet =? XGL_TRANSPORT_CONTROL_RESET) ||
                negb (tp_session_id p =? session_id)
             then transport_reset_peer_state peer session_id (pk_connection_id packet)
                    (pk_session_epoch packet)
             else
               now ← xgl_time_ms;
               put_peer peer (fun p => p <| tp_session_established := true |>
                                         <| tp_last_active_ms := now |>));
        mret XGL_OK
    end.
