(* ===== verification/Acks.v ===== *)
(** * Acknowledgements and retransmission (src/transport/xgl_transport_retransmit.c,
    xgl_transport_ack.c, xgl_transport_sack.c, xgl_transport_receive_ack.c,
    xgl_transport_runtime.c, xgl_transport_peer.c)

    What the transport layer does with ACK packets, and its periodic work:
    retransmissions, reassembly timeouts, idle peers. *)
From S2P Require Import Prelude State Errors Layer Wire WireExt Window Fragment Reliable Transport.

(** ** Retransmission *)

(** The queue of a peer, and a packet in it through its pointer. *)
Definition get_queue (peer : nat) : T xgl_reliable_queue_t := p ← get_peer peer; mret (tp_reliable_queue p).
Definition put_queue (peer : nat) (queue : xgl_reliable_queue_t) : T unit :=
  put_peer peer (fun p => p <| tp_reliable_queue := queue |>).

(** The packet that is sent again; its data and extensions are borrowed. *)
(** src/src/transport/xgl_transport_retransmit.c:19-39: transport_retransmit_reliable_packet *)
Definition retransmitted_packet (rel_packet : xgl_reliable_packet_t) : xgl_packet_t :=
  zero_packet <| pk_source_id := rp_source_id rel_packet |>
    <| pk_target_id := rp_target_id rel_packet |>
    <| pk_session_id := rp_session_id rel_packet |>
    <| pk_connection_id := rp_connection_id rel_packet |>
    <| pk_packet_number := rp_packet_number rel_packet |>
    <| pk_session_epoch := rp_session_epoch rel_packet |>
    <| pk_packet_type := rp_packet_type rel_packet |>
    <| pk_flags := rp_flags rel_packet |>
    <| pk_data_type := rp_data_type rel_packet |>
    <| pk_reliable := 1 |>
    <| pk_fragment := rp_fragment rel_packet |>
    <| pk_priority := rp_priority rel_packet |>
    <| pk_data := Ptr (mk_packet_data 1 (rp_data_len rel_packet) (rp_data rel_packet) NULL) |>
    <| pk_extensions := rp_extensions rel_packet |>
    <| pk_extensions_len := rp_extensions_len rel_packet |>
    <| pk_phy := rp_phy rel_packet |>.

(** [node] is the packet's address in the queue of the peer. *)
(** src/src/transport/xgl_transport_retransmit.c:8-53: transport_retransmit_reliable_packet *)
Definition transport_retransmit_reliable_packet (peer : nat) (node : LinkedList.addr)
    (current_time_ms : Z) : T xgl_error_t :=
  ctx ← get_ctx;
  if negb (can_send_down ctx) then mret XGL_ERR_INVALID_PARAM
  else
    queue ← get_queue peer;
    rel_packet ← lift (rq_packets queue !! node);
    '(err, _) ← xgl_layer_send (tc_lower_layer ctx) (retransmitted_packet rel_packet);
    if negb (is_ok err) then
      _ ← transport_count_send_error;
      mret err
    else
      let retry_count := u8 (rp_retry_count rel_packet + 1) in
      backoff ← lift (xgl_reliable_calc_backoff (rp_initial_timeout_ms rel_packet) retry_count);
      let rel_packet := rel_packet <| rp_retry_count := retry_count |>
        <| rp_timeout_ms := backoff |> <| rp_send_timestamp := current_time_ms |> in
      _ ← put_queue peer (queue <| rq_packets := <[node := rel_packet]> (rq_packets queue) |>);
      mret XGL_OK.

(** [node->next]: the element after [node]; undefined when [node] is gone. *)
Fixpoint next_node (l : list LinkedList.addr) (node : LinkedList.addr) : M (ptr LinkedList.addr) :=
  match l with
  | [] => None
  | a :: rest => if bool_decide (a = node) then ret (head rest) else next_node rest node
  end.
(** The body of the loop; the number of retransmissions is returned. *)
(** src/src/transport/xgl_transport_retransmit.c:65-99: transport_process_retransmission_queue *)
Definition retransmission_body (peer : nat) (node : LinkedList.addr) (current_time_ms retransmit_count : Z)
    : T Z :=
  queue ← get_queue peer;
  rel_packet ← lift (rq_packets queue !! node);
  if rp_send_timestamp rel_packet =? 0 then mret retransmit_count
  else
    let elapsed_ms := u32 (current_time_ms - rp_send_timestamp rel_packet) in
    if elapsed_ms <? u32 (rp_timeout_ms rel_packet) then mret retransmit_count
    else if rq_max_retry_count queue <=? rp_retry_count rel_packet then
      '(_, queue) ← lift (xgl_reliable_remove_packet_number queue (rp_packet_number rel_packet)
                            (rp_target_id rel_packet));
      _ ← put_queue peer queue;
      ctx ← get_ctx;
      _ ← (if bool_decide (tc_error_callback ctx = NULL) then mret tt
           else emit (ev_error XGL_ERR_ACK_TIMEOUT));
      _ ← transport_count_send_error;
      mret retransmit_count
    else
      err ← transport_retransmit_reliable_packet peer node current_time_ms;
      mret (if is_ok err then u32 (retransmit_count + 1) else retransmit_count).
(** [XGL_LIST_FOR_EACH_SAFE]: [tmp] is read before the body of each iteration.
    The body only takes packets out, so the length at the start is fuel enough. *)
(** src/src/transport/xgl_transport_retransmit.c:63-100: transport_process_retransmission_queue *)
Fixpoint retransmission_loop (fuel : nat) (peer : nat) (node tmp : ptr LinkedList.addr)
    (current_time_ms retransmit_count : Z) : T Z :=
  match node with
  | NULL => mret retransmit_count
  | Ptr a =>
      match fuel with
      | O => lift None
      | S fuel =>
          retransmit_count ← retransmission_body peer a current_time_ms retransmit_count;
          queue ← get_queue peer;
          next ← lift (match tmp with
                       | NULL => ret NULL
                       | Ptr b => next_node (rq_wait_ack_list queue) b
                       end);
          retransmission_loop fuel peer tmp next current_time_ms retransmit_count
      end
  end.
(** src/src/transport/xgl_transport_retransmit.c:55-103: transport_process_retransmission_queue *)
Definition transport_process_retransmission_queue (peer : nat) (current_time_ms : Z) : T Z :=
  queue ← get_queue peer;
  let l := rq_wait_ack_list queue in
  retransmission_loop (length l) peer (head l) (head (tail l)) current_time_ms 0.

(** The loop over the peers: [n] are left, the next is [peer]. *)
(** src/src/transport/xgl_transport_retransmit.c:111-117: transport_process_retransmissions *)
Fixpoint retransmissions_loop (n peer : nat) (current_time_ms retransmit_count : Z) : T Z :=
  match n with
  | O => mret retransmit_count
  | S n =>
      count ← transport_process_retransmission_queue peer current_time_ms;
      _ ← transport_update_peer_deadline peer;
      retransmissions_loop n (S peer) current_time_ms (u32 (retransmit_count + count))
  end.
(** src/src/transport/xgl_transport_retransmit.c:105-120: transport_process_retransmissions *)
Definition transport_process_retransmissions (current_time_ms : Z) : T Z :=
  ctx ← get_ctx;
  retransmissions_loop (length (tc_peers ctx)) 0 current_time_ms 0.

(** [*ctx->tx_retries += n], when there is a counter. *)
(** src/src/transport/xgl_transport_runtime.c:29-31: xgl_transport_run *)
Definition add_retries (n : Z) : T unit :=
  if 0 <? n
  then put_ctx (fun c => c <| tc_tx_retries := (fun r => u64 (r + n)) <$> tc_tx_retries c |>)
  else mret tt.

(** ** ACK ranges *)

Definition mark_window (window : xgl_sliding_window_t) (packet_number : Z) : M xgl_sliding_window_t :=
  '(_, window) ← xgl_window_mark_ack_packet_number window packet_number; ret window.
Definition advance_window (window : xgl_sliding_window_t) : M xgl_sliding_window_t :=
  '(_, window) ← xgl_window_advance_base_packet_number window; ret window.
(** Marks a number in the window of the peer and, when it is in it, in the
    window of the context: the two windows are returned. *)
(** src/src/transport/xgl_transport_ack.c:37-43: transport_mark_ack_range_windows *)
Definition mark_both (windows : xgl_sliding_window_t * xgl_sliding_window_t) (packet_number : Z)
    : M (xgl_sliding_window_t * xgl_sliding_window_t) :=
  tx_window ← mark_window windows.1 packet_number;
  window ← (if xgl_window_is_in_window_packet_number windows.2 packet_number
            then mark_window windows.2 packet_number else ret windows.2);
  ret (tx_window, window).
Definition get_windows (peer : nat) : T (xgl_sliding_window_t * xgl_sliding_window_t) :=
  p ← get_peer peer; ctx ← get_ctx; mret (tp_tx_window p, tc_window ctx).
Definition put_windows (peer : nat) (windows : xgl_sliding_window_t * xgl_sliding_window_t) : T unit :=
  _ ← put_peer peer (fun p => p <| tp_tx_window := windows.1 |>);
  put_ctx (fun c => c <| tc_window := windows.2 |>).
(** src/src/transport/xgl_transport_ack.c:53-54: transport_mark_ack_range_windows *)
Definition advance_both (windows : xgl_sliding_window_t * xgl_sliding_window_t)
    : M (xgl_sliding_window_t * xgl_sliding_window_t) :=
  tx_window ← advance_window windows.1;
  window ← advance_window windows.2;
  ret (tx_window, window).

(** The loop over the numbers of a range, from the highest down. *)
(** src/src/transport/xgl_transport_ack.c:36-48: transport_mark_ack_range_windows *)
Fixpoint mark_range_loop (n : nat) (packet_number : Z)
    (windows : xgl_sliding_window_t * xgl_sliding_window_t)
    : M (xgl_sliding_window_t * xgl_sliding_window_t) :=
  match n with
  | O => ret windows
  | S n =>
      windows ← mark_both windows (u32 packet_number);
      mark_range_loop n (packet_number - 1) windows
  end.
(** [i] ranges are done. *)
(** src/src/transport/xgl_transport_ack.c:17-51: transport_mark_ack_range_windows *)
Fixpoint mark_ranges_loop (ranges : list xgl_wire_ack_range_t) (i next_high : Z)
    (windows : xgl_sliding_window_t * xgl_sliding_window_t)
    : M (xgl_sliding_window_t * xgl_sliding_window_t) :=
  match ranges with
  | [] => ret windows
  | r :: rest =>
      if ar_length r =? 0 then mark_ranges_loop rest (i + 1) next_high windows
      else
        let skip := u64 (ar_gap r + 1) in
        if (0 <? i) && (next_high <? skip) then ret windows
        else
          let high := if 0 <? i then next_high - skip else next_high in
          let low := if ar_length r <? u64 (high + 1) then u64 (high - ar_length r + 1) else 0 in
          windows ← mark_range_loop (Z.to_nat (high - low + 1)) high windows;
          mark_ranges_loop rest (i + 1) low windows
  end.
(** src/src/transport/xgl_transport_ack.c:9-55: transport_mark_ack_range_windows *)
Definition transport_mark_ack_range_windows (peer : nat) (largest_ack : Z)
    (ranges : list xgl_wire_ack_range_t) (range_count : Z) : T unit :=
  ranges ← lift (rd_bytes ranges 0 range_count);
  windows ← get_windows peer;
  windows ← lift (mark_ranges_loop ranges 0 largest_ack windows);
  windows ← lift (advance_both windows);
  put_windows peer windows.

(** The 64 ranges on the stack are not initialised; only those that the decoder
    wrote are read. *)
Definition range_array : list xgl_wire_ack_range_t := replicate 64 (mk_ack_range 0 0).

(** The iteration over the extensions up to the first of a type, in the callers
    [while ((err = cursor_next(..)) == XGL_OK) { if (ext.type != t) continue; ..}]:
    the error of the last step, or the extension. *)
(** src/src/transport/xgl_transport_ack.c:76-80: transport_try_process_ack_range_ext *)
Fixpoint first_ext (fuel : nat) (type : Z) (cursor : xgl_wire_ext_cursor_t)
    : M (xgl_error_t * xgl_wire_ext_t) :=
  '(err, ext, cursor) ← xgl_wire_ext_cursor_next cursor;
  if negb (is_ok err) then ret (err, ext)
  else if e_type ext =? type then ret (err, ext)
  else match fuel with O => None | S fuel => first_ext fuel type cursor end.
(** Every extension takes two bytes or more: the length is fuel enough. *)
Definition find_ext (type : Z) (data : ptr bytes) (data_len : Z) : M (xgl_error_t * xgl_wire_ext_t) :=
  let '(err, cursor) := xgl_wire_ext_cursor_init (mk_cursor NULL 0 0) data data_len in
  if negb (is_ok err) then ret (err, zero_wire_ext)
  else first_ext (Z.to_nat data_len) type cursor.

(** Returns the error and [*handled]. *)
(** src/src/transport/xgl_transport_ack.c:57-112: transport_try_process_ack_range_ext *)
Definition transport_try_process_ack_range_ext (peer : nat) (source_id : Z) (data : ptr bytes)
    (data_len : Z) : T (xgl_error_t * bool) :=
  if bool_decide (data = NULL) || (data_len =? 0) then mret (XGL_ERR_INVALID_FRAME, false)
  else
    '(err, ext) ← lift (find_ext XGL_WIRE_EXT_ACK_RANGE data data_len);
    if bool_decide (err = XGL_ERR_NOT_FOUND) then mret (XGL_OK, false)
    else if negb (is_ok err) then mret (err, false)
    else
      value ← lift (e_value ext);
      '(err, out, ranges) ← lift (xgl_wire_decode_ack_range_ext_value value (e_len ext)
                                    (Ptr range_array) 64);
      if negb (is_ok err) then mret (err, false)
      else
        '(largest_ack, _, range_count) ← lift out;
        queue ← get_queue peer;
        '(queue, removed) ← lift (xgl_reliable_remove_ack_ranges queue source_id largest_ack
                                    ranges range_count);
        _ ← put_queue peer queue;
        if removed =? 0 then mret (XGL_ERR_SEQUENCE_ERROR, false)
        else
          ranges ← lift ranges;
          _ ← transport_mark_ack_range_windows peer largest_ack ranges range_count;
          _ ← transport_update_peer_deadline peer;
          mret (XGL_OK, true).

(** ** SACK bitmaps *)

(** src/src/transport/xgl_transport_sack.c:10-13: transport_sack_bit_is_set *)
Definition transport_sack_bit_is_set (bitmap : bytes) (bit_index : Z) : M bool :=
  byte ← rd bitmap (bit_index / 8);
  ret (negb (Z.land byte (u8 (Z.shiftl 1 (bit_index mod 8))) =? 0)).

(** The search for the highest bit: [n] bits are left, [highest_set] is the
    last one seen. *)
(** src/src/transport/xgl_transport_sack.c:39-44: transport_process_sack_value *)
Fixpoint highest_set_loop (n : nat) (i : Z) (bitmap : bytes) (highest_set : option Z)
    : M (option Z) :=
  match n with
  | O => ret highest_set
  | S n =>
      set ← transport_sack_bit_is_set bitmap i;
      highest_set_loop n (i + 1) bitmap (if set : bool then Some i else highest_set)
  end.

(** One bit: the number was received, or is missing and is sent again.  Returns
    the error and [*retransmitted]. *)
(** src/src/transport/xgl_transport_sack.c:63-92: transport_process_sack_value *)
Definition sack_body (peer : nat) (source_id base_packet now : Z) (bitmap : bytes) (i retransmitted : Z)
    : T (xgl_error_t * Z) :=
  let packet_number := u32 (base_packet + i) in
  received ← lift (transport_sack_bit_is_set bitmap i);
  queue ← get_queue peer;
  rel_packet ← lift (xgl_reliable_find_packet_number queue packet_number source_id);
  match rel_packet with
  | NULL => mret (XGL_OK, retransmitted)
  | Ptr node =>
      if received : bool then
        '(_, queue) ← lift (xgl_reliable_remove_packet_number queue packet_number source_id);
        _ ← put_queue peer queue;
        windows ← get_windows peer;
        windows ← lift (mark_both windows packet_number);
        _ ← put_windows peer windows;
        mret (XGL_OK, retransmitted)
      else
        err ← transport_retransmit_reliable_packet peer node now;
        mret (err, if is_ok err then retransmitted + 1 else retransmitted)
  end.
(** src/src/transport/xgl_transport_sack.c:62-93: transport_process_sack_value *)
Fixpoint sack_loop (n : nat) (peer : nat) (source_id base_packet now : Z) (bitmap : bytes)
    (i retransmitted : Z) : T (xgl_error_t * Z) :=
  match n with
  | O => mret (XGL_OK, retransmitted)
  | S n =>
      '(err, retransmitted) ← sack_body peer source_id base_packet now bitmap i retransmitted;
      if negb (is_ok err) then mret (err, retransmitted)
      else sack_loop n peer source_id base_packet now bitmap (i + 1) retransmitted
  end.

(** Returns the error and [*retransmitted]. *)
(** src/src/transport/xgl_transport_sack.c:15-100: transport_process_sack_value *)
Definition transport_process_sack_value (peer : nat) (source_id : Z) (value : bytes) (value_len : Z)
    : T (xgl_error_t * Z) :=
  '(err, out, bitmap) ← lift (xgl_wire_decode_sack_ext_value value value_len (Ptr (replicate 64 0)) 64);
  if negb (is_ok err) then mret (err, 0)
  else
    '(base_packet, bitmap_len) ← lift out;
    bitmap ← lift bitmap;
    if bitmap_len =? 0 then mret (XGL_ERR_INVALID_FRAME, 0)
    else
      highest_set ← lift (highest_set_loop (Z.to_nat (bitmap_len * 8)) 0 bitmap None);
      now ← xgl_time_ms;
      match highest_set with
      | None =>
          queue ← get_queue peer;
          missing ← lift (xgl_reliable_find_packet_number queue base_packet source_id);
          match missing with
          | NULL => mret (XGL_ERR_SEQUENCE_ERROR, 0)
          | Ptr node =>
              err ← transport_retransmit_reliable_packet peer node now;
              mret (if is_ok err then (XGL_OK, 1) else (err, 0))
          end
      | Some highest_set =>
          '(err, retransmitted) ← sack_loop (Z.to_nat (highest_set + 1)) peer source_id base_packet
                                    now bitmap 0 0;
          if negb (is_ok err) then mret (err, retransmitted)
          else
            windows ← get_windows peer;
            windows ← lift (advance_both windows);
            _ ← put_windows peer windows;
            _ ← transport_update_peer_deadline peer;
            mret (XGL_OK, retransmitted)
      end.

(** Returns the error and [*handled]. *)
(** src/src/transport/xgl_transport_sack.c:102-150: transport_try_process_sack_ext *)
Definition transport_try_process_sack_ext (peer : nat) (source_id : Z) (data : ptr bytes)
    (data_len : Z) : T (xgl_error_t * bool) :=
  if bool_decide (data = NULL) || (data_len =? 0) then mret (XGL_ERR_INVALID_FRAME, false)
  else
    '(err, ext) ← lift (find_ext XGL_WIRE_EXT_SACK data data_len);
    if bool_decide (err = XGL_ERR_NOT_FOUND) then mret (XGL_OK, false)
    else if negb (is_ok err) then mret (err, false)
    else
      value ← lift (e_value ext);
      '(err, retransmitted) ← transport_process_sack_value peer source_id value (e_len ext);
      if negb (is_ok err) then mret (err, false)
      else
        _ ← add_retries retransmitted;
        mret (XGL_OK, true).

(** ** ACK packets *)

(** src/src/transport/xgl_transport_receive_ack.c:12-12: transport_find_ack_peer *)
Definition is_scoped (packet : xgl_packet_t) : bool :=
  negb (pk_connection_id packet =? 0) || negb (pk_session_epoch packet =? 0).

(** src/src/transport/xgl_transport_receive_ack.c:9-23: transport_find_ack_peer *)
Definition transport_find_ack_peer (ctx : xgl_transport_ctx_t) (packet : xgl_packet_t) : ptr nat :=
  let scoped := is_scoped packet in
  let peer := if scoped
    then transport_find_peer_scope ctx (pk_source_id packet) (pk_connection_id packet)
           (pk_session_epoch packet)
    else transport_find_peer ctx (pk_source_id packet) in
  if bool_decide (peer = NULL) && scoped then transport_find_peer ctx (pk_source_id packet) else peer.

(** src/src/transport/xgl_transport_receive_ack.c:25-64: transport_process_ack_packet *)
Definition transport_process_ack_packet (packet : xgl_packet_t) : T xgl_error_t :=
  if negb (pk_packet_type packet =? XGL_PACKET_TYPE_ACK) then mret XGL_ERR_INVALID_FRAME
  else
    ctx ← get_ctx;
    match transport_find_ack_peer ctx packet with
    | NULL => mret XGL_ERR_SEQUENCE_ERROR
    | Ptr peer =>
        p ← get_peer peer;
        if negb (pk_session_id packet =? 0) && negb (pk_session_id packet =? tp_session_id p)
        then mret XGL_ERR_SEQUENCE_ERROR
        else if (Z.land (pk_flags packet) XGL_WIRE_FLAG_HAS_EXTENSIONS =? 0) ||
                bool_decide (pk_extensions packet = NULL) || (pk_extensions_len packet =? 0)
        then mret XGL_ERR_INVALID_FRAME
        else
          '(err, handled_ack_range) ← transport_try_process_ack_range_ext peer (pk_source_id packet)
                                        (pk_extensions packet) (pk_extensions_len packet);
          if negb (is_ok err) || handled_ack_range then mret err
          else
            '(err, handled_sack) ← transport_try_process_sack_ext peer (pk_source_id packet)
                                     (pk_extensions packet) (pk_extensions_len packet);
            if negb (is_ok err) || handled_sack then mret err
            else mret XGL_ERR_INVALID_FRAME
    end.

(** ** The periodic work *)

(** The peers that are kept, and how many went; [transport_free] of the others
    follows the release of their queue and window. *)
(** src/src/transport/xgl_transport_peer.c:153-173: transport_reclaim_idle_peers *)
Fixpoint reclaim_loop (peer_idle_timeout_ms current_time_ms : Z) (peers : list xgl_transport_peer_state_t)
    (reclaimed : Z) : M (list xgl_transport_peer_state_t * Z) :=
  match peers with
  | [] => ret ([], reclaimed)
  | peer :: next =>
      let has_pending := negb (xgl_reliable_is_empty (tp_reliable_queue peer)) ||
        match tp_rx_buffered peer with [] => false | _ => true end in
      let idle_ms := u32 (current_time_ms - tp_last_active_ms peer) in
      if negb has_pending && (peer_idle_timeout_ms <=? idle_ms) then
        _ ← xgl_reliable_destroy (tp_reliable_queue peer);
        reclaim_loop peer_idle_timeout_ms current_time_ms next (u32 (reclaimed + 1))
      else
        '(kept, reclaimed) ← reclaim_loop peer_idle_timeout_ms current_time_ms next reclaimed;
        ret (peer :: kept, reclaimed)
  end.
(** src/src/transport/xgl_transport_peer.c:142-176: transport_reclaim_idle_peers *)
Definition transport_reclaim_idle_peers (current_time_ms : Z) : T Z :=
  ctx ← get_ctx;
  if tc_peer_idle_timeout_ms ctx =? 0 then mret 0
  else
    '(kept, reclaimed) ← lift (reclaim_loop (tc_peer_idle_timeout_ms ctx) current_time_ms
                                 (tc_peers ctx) 0);
    _ ← put_ctx (fun c => c <| tc_peers := kept |>);
    mret reclaimed.

(** src/src/transport/xgl_transport_peer.c:125-133: transport_destroy_peers *)
Fixpoint destroy_peers_loop (peers : list xgl_transport_peer_state_t) : M unit :=
  match peers with
  | [] => ret tt
  | peer :: next => _ ← xgl_reliable_destroy (tp_reliable_queue peer); destroy_peers_loop next
  end.
(** src/src/transport/xgl_transport_peer.c:119-135: transport_destroy_peers *)
Definition transport_destroy_peers : T unit :=
  ctx ← get_ctx;
  _ ← lift (destroy_peers_loop (tc_peers ctx));
  put_ctx (fun c => c <| tc_peers := [] |>).

(** [rx_dropped] is counted without a test of [ctx->stats]. *)
(** src/src/transport/xgl_transport_runtime.c:33-48: xgl_transport_run *)
Definition run_reassembly_timeouts (current_time_ms : Z) : T unit :=
  ctx ← get_ctx;
  match tc_fragment_mgr ctx with
  | NULL => mret tt
  | Ptr manager =>
      let '(timeout_count, manager) := xgl_fragment_process_timeouts manager current_time_ms in
      _ ← put_ctx (fun c => c <| tc_fragment_mgr := Ptr manager |>);
      if 0 <? timeout_count then
        _ ← (if bool_decide (tc_error_callback ctx = NULL) then mret tt
             else emit (ev_error XGL_ERR_TIMEOUT));
        stats ← lift (tc_stats ctx);
        put_ctx (fun c => c <| tc_stats :=
          Ptr (stats <| ls_rx_dropped := u64 (ls_rx_dropped stats + timeout_count) |>) |>)
      else mret tt
  end.
(** src/src/transport/xgl_transport_runtime.c:18-54: xgl_transport_run *)
Definition xgl_transport_run (current_time_ms : Z) : T xgl_error_t :=
  retransmit_count ← transport_process_retransmissions current_time_ms;
  _ ← add_retries retransmit_count;
  _ ← run_reassembly_timeouts current_time_ms;
  _ ← transport_reclaim_idle_peers current_time_ms;
  mret XGL_OK.

(** src/src/transport/xgl_transport_runtime.c:59-65: xgl_transport_get_next_packet_number *)
Definition xgl_transport_get_next_packet_number (ctx : ptr xgl_transport_ctx_t) : Z :=
  match ctx with NULL => 0 | Ptr ctx => xgl_window_get_next_packet_number (tc_window ctx) end.
(** src/src/transport/xgl_transport_runtime.c:70-76: xgl_transport_can_send *)
Definition xgl_transport_can_send (ctx : ptr xgl_transport_ctx_t) : bool :=
  match ctx with NULL => false | Ptr ctx => xgl_window_can_send_packet_number (tc_window ctx) end.
(** src/src/transport/xgl_transport_runtime.c:81-91: xgl_transport_report_error *)
Definition xgl_transport_report_error (error : xgl_error_t) : T unit :=
  ctx ← get_ctx;
  if bool_decide (tc_error_callback ctx = NULL) then mret tt else emit (ev_error error).
