(* ===== verification/Receive.v ===== *)
(** * The receive path (src/transport/xgl_transport_receive.c,
    xgl_transport_receive_peer.c, xgl_transport_receive_order.c,
    xgl_transport_rx_order.c, xgl_transport_delivery.c, xgl_transport_ack_send.c,
    xgl_transport_sack_send.c, xgl_transport_packet_number.c)

    A packet from the network layer: sessions, duplicate and out-of-order
    packets, acknowledgements, reassembly and delivery to the application. *)
From S2P Require Import Prelude State Errors Layer Wire WireExt Codec Window Fragment Reliable Transport Acks.

(** ** The peer of a packet *)

(** src/src/transport/xgl_transport_receive_peer.c:8-19: transport_find_rx_peer *)
Definition transport_find_rx_peer (ctx : xgl_transport_ctx_t) (packet : xgl_packet_t) : ptr nat :=
  if is_scoped packet
  then transport_find_peer_scope ctx (pk_source_id packet) (pk_connection_id packet)
         (pk_session_epoch packet)
  else transport_find_peer ctx (pk_source_id packet).

(** src/src/transport/xgl_transport_receive_peer.c:21-33: transport_get_or_create_rx_peer *)
Definition transport_get_or_create_rx_peer (packet : xgl_packet_t) : T (ptr nat) :=
  if is_scoped packet
  then transport_get_or_create_peer_scope (pk_source_id packet) (pk_connection_id packet)
         (pk_session_epoch packet)
  else transport_get_or_create_peer (pk_source_id packet).

(** Returns the error and [*peer]. *)
(** src/src/transport/xgl_transport_receive_peer.c:35-62: transport_prepare_rx_peer *)
Definition transport_prepare_rx_peer (packet : xgl_packet_t) : T (xgl_error_t * ptr nat) :=
  if pk_session_id packet =? 0 then mret (XGL_OK, NULL)
  else
    ctx ← get_ctx;
    match transport_find_rx_peer ctx packet with
    | NULL =>
        peer ← transport_get_or_create_rx_peer packet;
        match peer with
        | NULL => mret (XGL_ERR_NO_MEMORY, NULL)
        | Ptr i =>
            _ ← transport_reset_peer_state i (pk_session_id packet) (pk_connection_id packet)
                  (pk_session_epoch packet);
            mret (XGL_OK, Ptr i)
        end
    | Ptr i =>
        p ← get_peer i;
        if negb (pk_session_id packet =? tp_session_id p)
        then mret (XGL_ERR_SEQUENCE_ERROR, Ptr i)
        else mret (XGL_OK, Ptr i)
    end.

(** src/src/transport/xgl_transport_packet_number.c:27-34: transport_receive_packet_number *)
Definition transport_receive_packet_number (packet : ptr xgl_packet_t) : Z :=
  match packet with NULL => 0 | Ptr packet => pk_packet_number packet end.

(** ** Acknowledgements *)

(** The packet that carries an extension and no data. *)
(** src/src/transport/xgl_transport_ack_send.c:41-59: transport_send_ack *)
Definition ack_only_packet (local_id target_id packet_number session_id connection_id session_epoch : Z)
    (ext : bytes) (ext_len : Z) : xgl_packet_t :=
  zero_packet <| pk_source_id := local_id |>
    <| pk_target_id := target_id |>
    <| pk_session_id := session_id |>
    <| pk_connection_id := connection_id |>
    <| pk_packet_number := packet_number |>
    <| pk_session_epoch := session_epoch |>
    <| pk_packet_type := XGL_PACKET_TYPE_ACK |>
    <| pk_flags := XGL_WIRE_FLAG_HAS_EXTENSIONS |>
    <| pk_reliable := XGL_RELIABILITY_ACK_ONLY |>
    <| pk_priority := 7 |>
    <| pk_data := Ptr (mk_packet_data 1 0 NULL NULL) |>
    <| pk_extensions := Ptr ext |>
    <| pk_extensions_len := ext_len |>.

(** The extension of a type around a value of a buffer of 16 bytes. *)
(** src/src/transport/xgl_transport_ack_send.c:33-39: transport_send_ack *)
Definition wrap_ext (type : Z) (value : bytes) (value_len : Z) : M (xgl_error_t * Z * bytes) :=
  xgl_wire_encode_ext (replicate 32 0) 32 type (Ptr value) value_len 0.

(** src/src/transport/xgl_transport_ack_send.c:61-65: transport_send_ack *)
Definition send_ack_only (source_id packet_number session_id connection_id session_epoch : Z)
    (ext : bytes) (ext_len : Z) : T xgl_error_t :=
  ctx ← get_ctx;
  if can_send_down ctx then
    '(err, _) ← xgl_layer_send (tc_lower_layer ctx)
      (ack_only_packet (tc_local_id ctx) source_id packet_number session_id connection_id
         session_epoch ext ext_len);
    mret err
  else mret XGL_ERR_INVALID_PARAM.

(** src/src/transport/xgl_transport_ack_send.c:17-66: transport_send_ack *)
Definition transport_send_ack (packet_number source_id session_id connection_id session_epoch : Z)
    : T xgl_error_t :=
  '(err, ack_value_len, ack_value) ← lift (xgl_wire_encode_ack_range_ext_value (replicate 16 0) 16
      packet_number 0 (Ptr [mk_ack_range 0 1]) 1 0);
  if negb (is_ok err) then mret err
  else
    '(err, ack_ext_len, ack_ext) ← lift (wrap_ext XGL_WIRE_EXT_ACK_RANGE ack_value ack_value_len);
    if negb (is_ok err) then mret err
    else send_ack_only source_id packet_number session_id connection_id session_epoch ack_ext
           ack_ext_len.

(** The loop over the buffered packets: the bitmap, the highest bit that is set
    and whether there is one. *)
(** src/src/transport/xgl_transport_sack_send.c:23-37: transport_send_sack *)
Fixpoint sack_bitmap_loop (node : list xgl_transport_rx_buffered_packet_t) (base_packet : Z)
    (bitmap : bytes) (highest_bit : Z) (has_received : bool) : M (bytes * Z * bool) :=
  match node with
  | [] => ret (bitmap, highest_bit, has_received)
  | b :: next =>
      let packet_number := pk_packet_number (rxb_packet b) in
      if packet_number <? base_packet
      then sack_bitmap_loop next base_packet bitmap highest_bit has_received
      else
        let diff := u32 (packet_number - base_packet) in
        if 64 <=? diff then sack_bitmap_loop next base_packet bitmap highest_bit has_received
        else
          byte ← rd bitmap (diff / 8);
          bitmap ← wr bitmap (diff / 8) (Z.lor byte (u8 (Z.shiftl 1 (diff mod 8))));
          sack_bitmap_loop next base_packet bitmap
            (if highest_bit <? diff then diff else highest_bit) true
  end.
(** src/src/transport/xgl_transport_sack_send.c:9-82: transport_send_sack *)
Definition transport_send_sack (peer : nat)
    (source_id base_packet session_id connection_id session_epoch : Z) : T xgl_error_t :=
  p ← get_peer peer;
  '(bitmap, highest_bit, has_received) ← lift (sack_bitmap_loop (tp_rx_buffered p) base_packet
      (replicate 8 0) 0 false);
  let bitmap_len := if has_received : bool then highest_bit / 8 + 1 else 1 in
  '(err, sack_value_len, sack_value) ← lift (xgl_wire_encode_sack_ext_value (replicate 16 0) 16
      base_packet (Ptr bitmap) bitmap_len 0);
  if negb (is_ok err) then mret err
  else
    '(err, sack_ext_len, sack_ext) ← lift (wrap_ext XGL_WIRE_EXT_SACK sack_value sack_value_len);
    if negb (is_ok err) then mret err
    else send_ack_only source_id base_packet session_id connection_id session_epoch sack_ext
           sack_ext_len.

(** ** Delivery *)

(** [ctx->rx_callback(..)], when there is one, and the statistics.  The bytes
    are those that the application may read. *)
(** src/src/transport/xgl_transport_delivery.c:80-88: transport_deliver_packet *)
Definition hand_over (source_id data_type : Z) (data : raw_bytes) (data_len : Z) : T unit :=
  ctx ← get_ctx;
  _ ← (if bool_decide (tc_rx_callback ctx = NULL) then mret tt
       else emit (ev_deliver source_id data_type data data_len));
  add_stats (fun s => s <| ls_rx_packets := u64 (ls_rx_packets s + 1) |>
                        <| ls_rx_bytes := u64 (ls_rx_bytes s + data_len) |>).

(** The FRAGMENT extension of a packet: the error, or the message id, the offset
    and the length of the message.  [None] stands for no such extension. *)
(** src/src/transport/xgl_transport_delivery.c:29-53: transport_deliver_packet *)
Definition fragment_ext (packet : xgl_packet_t) : M (xgl_error_t * option (Z * Z * Z)) :=
  if bool_decide (pk_extensions packet = NULL) || negb (0 <? pk_extensions_len packet)
  then ret (XGL_OK, None)
  else
    '(err, ext) ← find_ext XGL_WIRE_EXT_FRAGMENT (pk_extensions packet) (pk_extensions_len packet);
    if bool_decide (err = XGL_ERR_NOT_FOUND) then ret (XGL_OK, None)
    else if negb (is_ok err) then ret (err, None)
    else
      value ← e_value ext;
      xgl_wire_decode_fragment_ext_value value (e_len ext).

(** [current_time_ms] is 0: the manager asks [xgl_time_ms] for the time. *)
(** src/src/transport/xgl_transport_delivery.c:59-78: transport_deliver_packet *)
Definition deliver_fragment (manager : xgl_fragment_manager_t) (packet : xgl_packet_t)
    (message_id fragment_offset message_len : Z) (data : ptr bytes) (data_len : Z) : T xgl_error_t :=
  now ← xgl_time_ms;
  heap ← gets w_heap;
  r ← lift (xgl_fragment_process_ext manager (pk_source_id packet) (pk_connection_id packet)
              (pk_session_epoch packet) (pk_data_type packet) message_id fragment_offset message_len
              data data_len 0 now heap);
  _ ← modify (fun w => w <| w_heap := pr_env r |>);
  _ ← put_ctx (fun c => c <| tc_fragment_mgr := Ptr (pr_manager r) |>);
  if is_ok (pr_err r) then
    complete ← lift (pr_complete_data r);
    _ ← hand_over (pk_source_id packet) (pk_data_type packet) complete (pr_complete_len r);
    mret XGL_OK
  else if bool_decide (pr_err r = XGL_ERR_BUSY) then mret XGL_OK
  else mret (pr_err r).

(** src/src/transport/xgl_transport_delivery.c:9-92: transport_deliver_packet *)
Definition transport_deliver_packet (packet : xgl_packet_t) (data : ptr bytes) (data_len : Z)
    : T xgl_error_t :=
  match data with
  | NULL => mret XGL_ERR_NULL_POINTER
  | Ptr d =>
      ctx ← get_ctx;
      match (if pk_fragment packet then tc_fragment_mgr ctx else NULL) with
      | Ptr manager =>
          '(err, fields) ← lift (fragment_ext packet);
          if negb (is_ok err) then mret err
          else
            match fields with
            | None => mret XGL_ERR_INVALID_FRAME
            | Some (message_id, fragment_offset, message_len) =>
                deliver_fragment manager packet message_id fragment_offset message_len data data_len
            end
      | NULL =>
          d ← lift (rd_bytes d 0 data_len);
          _ ← hand_over (pk_source_id packet) (pk_data_type packet) (map Some d) data_len;
          mret XGL_OK
      end
  end.

(** The loop that delivers the buffered packets that are now in order; each
    iteration takes one out of the buffer. *)
(** src/src/transport/xgl_transport_rx_order.c:16-35: transport_drain_rx_buffered *)
Fixpoint drain_loop (fuel : nat) (peer : nat) : T xgl_error_t :=
  p ← get_peer peer;
  buffered ← transport_take_rx_buffered peer (tp_rx_next_packet_number p);
  match buffered with
  | NULL => mret XGL_OK
  | Ptr b =>
      match fuel with
      | O => lift None
      | S fuel =>
          let packet := rxb_packet b in
          err ← transport_deliver_packet packet (Ptr (rxb_data b)) (rxb_data_len b);
          _ ← transport_send_ack (pk_packet_number packet) (pk_source_id packet)
                (pk_session_id packet) (pk_connection_id packet) (pk_session_epoch packet);
          if negb (is_ok err) then mret err
          else
            _ ← put_peer peer (fun p =>
                  p <| tp_rx_next_packet_number := u32 (pk_packet_number packet + 1) |>);
            drain_loop fuel peer
      end
  end.
(** src/src/transport/xgl_transport_rx_order.c:8-36: transport_drain_rx_buffered *)
Definition transport_drain_rx_buffered (peer : nat) : T xgl_error_t :=
  p ← get_peer peer;
  drain_loop (length (tp_rx_buffered p)) peer.

(** Returns the error and [*peer]. *)
(** src/src/transport/xgl_transport_receive_order.c:8-49: transport_process_reliable_rx_order *)
Definition transport_process_reliable_rx_order (packet : xgl_packet_t) (peer : ptr nat)
    : T (xgl_error_t * ptr nat) :=
  peer ← match peer with
         | NULL => transport_get_or_create_rx_peer packet
         | Ptr _ => mret peer
         end;
  match peer with
  | NULL => mret (XGL_ERR_NO_MEMORY, NULL)
  | Ptr i =>
      let packet_number := transport_receive_packet_number (Ptr packet) in
      p ← get_peer i;
      _ ← (if tp_rx_has_packet_number_state p then mret tt
           else put_peer i (fun p => p <| tp_rx_next_packet_number := 0 |>
                                       <| tp_rx_has_packet_number_state := true |>));
      p ← get_peer i;
      let send_ack := transport_send_ack packet_number (pk_source_id packet) (pk_session_id packet)
                        (pk_connection_id packet) (pk_session_epoch packet) in
      if packet_number <? tp_rx_next_packet_number p then
        _ ← send_ack;
        mret (XGL_OK, Ptr i)
      else if tp_rx_next_packet_number p <? packet_number then
        err ← transport_cache_out_of_order_packet i packet packet_number;
        _ ← transport_send_sack i (pk_source_id packet) (tp_rx_next_packet_number p)
              (pk_session_id packet) (pk_connection_id packet) (pk_session_epoch packet);
        _ ← (if is_ok err then mret tt
             else add_stats (fun s => s <| ls_rx_dropped := u64 (ls_rx_dropped s + 1) |>));
        mret (err, Ptr i)
      else
        _ ← send_ack;
        mret (XGL_OK, Ptr i)
  end.

(** ** The entry point *)

(** The data to deliver: the decoder's output, or the data as it is.  The
    buffer on the stack holds [w_stack] before. *)
(** src/src/transport/xgl_transport_receive.c:63-81: xgl_transport_receive *)
Definition decode_packet (packet : xgl_packet_t) (data : bytes) (data_len : Z) : T (bytes * Z) :=
  ctx ← get_ctx;
  match (if pk_compress packet =? 0 then NULL else tc_codec_registry ctx) with
  | NULL => mret (data, data_len)
  | Ptr registry =>
      codec ← lift (xgl_codec_find (Ptr registry) XGL_CODEC_KIND_COMPRESSION (pk_compress packet));
      match codec with
      | NULL => mret (data, data_len)
      | Ptr codec =>
          decode_buffer ← gets w_stack;
          decode ← lift (co_decode codec);
          let '(err, decode_buffer, decoded_len) :=
            decode data data_len decode_buffer XGL_DATALINK_STACK_BUFFER_SIZE in
          mret (if is_ok err then (decode_buffer, decoded_len) else (data, data_len))
      end
  end.

(** From the decoding on; [rx_peer] is the peer of the packet, if it has one. *)
(** src/src/transport/xgl_transport_receive.c:63-95: xgl_transport_receive *)
Definition receive_in_order (packet : xgl_packet_t) (rx_peer : ptr nat) (data : bytes) (data_len : Z)
    : T xgl_error_t :=
  '(deliver_data, deliver_data_len) ← decode_packet packet data data_len;
  err ← transport_deliver_packet packet (Ptr deliver_data) deliver_data_len;
  if negb (is_ok err) then mret err
  else
    match rx_peer with
    | Ptr peer =>
        if pk_reliable packet =? XGL_RELIABILITY_ACK_ELICITING then
          let packet_number := transport_receive_packet_number (Ptr packet) in
          _ ← put_peer peer (fun p => p <| tp_rx_next_packet_number := u32 (packet_number + 1) |>);
          transport_drain_rx_buffered peer
        else mret XGL_OK
    | NULL => mret XGL_OK
    end.
(** The branch of reliable packets: the order of the packet decides whether it is
    delivered now. *)
(** src/src/transport/xgl_transport_receive.c:47-61: xgl_transport_receive *)
Definition receive_reliable (packet : xgl_packet_t) (rx_peer : ptr nat) (data : bytes) (data_len : Z)
    : T xgl_error_t :=
  '(err, rx_peer) ← transport_process_reliable_rx_order packet rx_peer;
  if negb (is_ok err) then mret err
  else
    let packet_number := transport_receive_packet_number (Ptr packet) in
    match rx_peer with
    | NULL => receive_in_order packet NULL data data_len
    | Ptr peer =>
        p ← get_peer peer;
        if negb (packet_number =? tp_rx_next_packet_number p) then mret XGL_OK
        else receive_in_order packet (Ptr peer) data data_len
    end.
(** src/src/transport/xgl_transport_receive.c:11-95: xgl_transport_receive *)
Definition xgl_transport_receive (packet : xgl_packet_t) : T xgl_error_t :=
  if pk_packet_type packet =? XGL_PACKET_TYPE_CONTROL then transport_process_control_packet packet
  else if (pk_packet_type packet =? XGL_PACKET_TYPE_ACK) ||
          (pk_reliable packet =? XGL_RELIABILITY_ACK_ONLY)
  then transport_process_ack_packet packet
  else
    match (match pk_data packet with NULL => NULL | Ptr d => pd_data d end) with
    | NULL => mret XGL_ERR_NULL_POINTER
    | Ptr data =>
        let data_len := match pk_data packet with NULL => 0 | Ptr d => pd_data_len d end in
        '(err, rx_peer) ← transport_prepare_rx_peer packet;
        if negb (is_ok err) then mret err
        else
          now ← xgl_time_ms;
          _ ← match rx_peer with
              | NULL => mret tt
              | Ptr peer => put_peer peer (fun p => p <| tp_last_active_ms := now |>)
              end;
          if pk_reliable packet =? XGL_RELIABILITY_ACK_ELICITING
          then receive_reliable packet rx_peer data data_len
          else receive_in_order packet rx_peer data data_len
    end.
