(* ===== verification/Send.v ===== *)
(** * The send path (src/transport/xgl_transport_send.c,
    xgl_transport_send_plan.c, xgl_transport_send_packet.c,
    xgl_transport_send_fragment.c, xgl_transport_control.c,
    xgl_transport_packet_number.c)

    Application data on its way down: the peer and its session, the plan that
    decides on fragmentation, compression, the reliable queue and the window. *)
From S2P Require Import Prelude State Errors Layer Wire WireExt Frame Codec Window Rtt Route Fragment Reliable Transport Acks Receive.

(** ** Data *)

(** src/include/xgl/xgl_types.h:435-446: xgl_tx_data_t *)
Record xgl_tx_data_t := mk_tx_data {
  tx_target_id : Z;
  tx_data_type : Z;
  tx_data : ptr bytes;
  tx_data_len : Z;
  tx_reliable : bool;
  tx_priority : Z;
  tx_timeout_ms : Z;
  tx_connection_id : Z;
  tx_session_epoch : Z;
  tx_compression_id : Z
}.

(** src/include/xgl/internal/xgl_transport_send.h:19-27: xgl_transport_send_plan_t *)
Record xgl_transport_send_plan_t := mk_plan {
  sp_max_frame_size : Z;
  sp_app_extensions_len : Z;
  sp_app_payload_budget : Z;
  sp_needs_fragmentation : bool;
  sp_fragment_extensions_len : Z;
  sp_fragment_payload_budget : Z;
  sp_fragment_count : Z
}.
#[export] Instance eta_plan : EtaRecord xgl_transport_send_plan_t := Eta (fun p =>
  mk_plan (sp_max_frame_size p) (sp_app_extensions_len p) (sp_app_payload_budget p)
    (sp_needs_fragmentation p) (sp_fragment_extensions_len p) (sp_fragment_payload_budget p)
    (sp_fragment_count p)).

(** ** The plan *)

(** src/src/transport/xgl_transport_send_plan.c:12-25: transport_effective_max_frame_size *)
Definition transport_effective_max_frame_size (ctx : xgl_transport_ctx_t) (target_id : Z) : M Z :=
  match tc_route_table ctx with
  | NULL => ret (tc_max_frame_size ctx)
  | Ptr table =>
      found ← xgl_route_table_lookup table target_id;
      match found with
      | NULL => ret (tc_max_frame_size ctx)
      | Ptr p =>
          route ← deref_route table p;
          ret (if ri_max_frame_size route <? tc_max_frame_size ctx
               then ri_max_frame_size route else tc_max_frame_size ctx)
      end
  end.

(** The plan is also returned with the errors, as far as it was filled in. *)
(** src/src/transport/xgl_transport_send_plan.c:27-80: transport_build_send_plan *)
Definition transport_build_send_plan (ctx : xgl_transport_ctx_t) (tx : xgl_tx_data_t)
    : M (xgl_error_t * xgl_transport_send_plan_t) :=
  max_frame_size ← transport_effective_max_frame_size ctx (tx_target_id tx);
  let app_extensions_len := if negb (tx_data_type tx =? 0) then XGL_DATA_TYPE_EXT_SIZE else 0 in
  let plan := mk_plan max_frame_size app_extensions_len 0 false 0 0 0 in
  if negb (xgl_frame_payload_budget max_frame_size 0 (tc_auth_tag_len ctx)).1
  then ret (XGL_ERR_INVALID_PARAM, plan)
  else
    let '(fits, app_payload_budget) :=
      xgl_frame_payload_budget max_frame_size app_extensions_len (tc_auth_tag_len ctx) in
    let plan := plan <| sp_app_payload_budget := app_payload_budget |> in
    if negb fits then ret (XGL_ERR_BUFFER_TOO_SMALL, plan)
    else if tx_data_len tx <=? app_payload_budget then
      ret (XGL_OK, plan <| sp_fragment_extensions_len := app_extensions_len |>
                        <| sp_fragment_payload_budget := app_payload_budget |>
                        <| sp_fragment_count := 1 |>)
    else if negb (tc_enable_fragmentation ctx) then ret (XGL_ERR_BUFFER_TOO_SMALL, plan)
    else
      let plan := plan <| sp_needs_fragmentation := true |>
        <| sp_fragment_extensions_len := app_extensions_len + XGL_FRAGMENT_EXT_SIZE |> in
      if app_payload_budget <=? XGL_FRAGMENT_EXT_SIZE then ret (XGL_ERR_BUFFER_TOO_SMALL, plan)
      else
        let budget := app_payload_budget - XGL_FRAGMENT_EXT_SIZE in
        ret (XGL_OK, plan <| sp_fragment_payload_budget := budget |>
                          <| sp_fragment_count := (tx_data_len tx + budget - 1) / budget |>).

(** ** Control packets and packet numbers *)

(** src/src/transport/xgl_transport_control.c:9-48: transport_send_control *)
Definition transport_send_control
    (target_id control_type control_packet_number session_id connection_id session_epoch : Z)
    : T xgl_error_t :=
  '(err, control_ext_len, control_ext) ← lift (xgl_wire_encode_ext (replicate 4 0) 4
      XGL_WIRE_EXT_DATA_TYPE (Ptr [control_type]) 1 0);
  if negb (is_ok err) then mret err
  else
    ctx ← get_ctx;
    let packet := zero_packet <| pk_source_id := tc_local_id ctx |>
      <| pk_target_id := target_id |>
      <| pk_session_id := session_id |>
      <| pk_connection_id := connection_id |>
      <| pk_packet_number := control_packet_number |>
      <| pk_session_epoch := session_epoch |>
      <| pk_packet_type := XGL_PACKET_TYPE_CONTROL |>
      <| pk_data_type := control_type |>
      <| pk_reliable := XGL_RELIABILITY_NONE |>
      <| pk_priority := 7 |>
      <| pk_data := Ptr (mk_packet_data 1 0 NULL NULL) |>
      <| pk_extensions := Ptr control_ext |>
      <| pk_extensions_len := control_ext_len |> in
    if negb (can_send_down ctx) then mret XGL_ERR_INVALID_PARAM
    else '(err, _) ← xgl_layer_send (tc_lower_layer ctx) packet; mret err.

(** src/src/transport/xgl_transport_packet_number.c:8-14: transport_advance_packet_window_if_possible *)
Definition transport_advance_packet_window_if_possible : T unit :=
  put_ctx (fun c =>
    if xgl_window_can_send_packet_number (tc_window c)
    then c <| tc_window := xgl_window_advance_next_packet_number (tc_window c) |> else c).
(** src/src/transport/xgl_transport_packet_number.c:16-25: transport_commit_packet_number *)
Definition transport_commit_packet_number (peer : ptr nat) : T unit :=
  match peer with
  | NULL => mret tt
  | Ptr i =>
      _ ← put_peer i (fun p => p <| tp_tx_window := xgl_window_advance_next_packet_number (tp_tx_window p) |>);
      transport_advance_packet_window_if_possible
  end.

(** ** Single packets *)

(** src/src/transport/xgl_transport_send_packet.c:10-25: transport_send_timeout_ms *)
Definition transport_send_timeout_ms (ctx : xgl_transport_ctx_t) (peer : xgl_transport_peer_state_t)
    (tx : xgl_tx_data_t) : Z :=
  if 0 <? tx_timeout_ms tx then i32 (tx_timeout_ms tx)
  else
    let timeout_ms := xgl_rtt_get_rto (Ptr (tp_rtt_est peer)) in
    if timeout_ms =? 0 then i32 (tc_default_timeout_ms ctx) else timeout_ms.

(** An update of a packet of the queue through its pointer. *)
Definition put_packet (peer : nat) (node : LinkedList.addr)
    (f : xgl_reliable_packet_t -> xgl_reliable_packet_t) : T unit :=
  queue ← get_queue peer;
  packet ← lift (rq_packets queue !! node);
  put_queue peer (queue <| rq_packets := <[node := f packet]> (rq_packets queue) |>).
(** Calls that also use the allocator. *)
Definition with_heap {A} (f : heap_answers -> M (A * heap_answers)) : T A :=
  heap ← gets w_heap;
  '(a, heap) ← lift (f heap);
  _ ← modify (fun w => w <| w_heap := heap |>);
  mret a.

(** The reliable case: [peer] is not NULL.  Returns the error and
    [*rel_packet]. *)
(** src/src/transport/xgl_transport_send_packet.c:39-73: transport_queue_reliable_tx *)
Definition queue_reliable (peer : nat) (tx : xgl_tx_data_t) (data : ptr bytes)
    (data_len packet_number : Z) (fragment : bool) (extensions : ptr bytes) (extensions_len : Z)
    : T (xgl_error_t * ptr LinkedList.addr) :=
  ctx ← get_ctx;
  p ← get_peer peer;
  '(err, queue) ← with_heap (fun heap =>
      '(err, queue, _, heap) ← xgl_reliable_add_packet_number (tp_reliable_queue p) data data_len
          (tc_local_id ctx) (tx_target_id tx) packet_number (tx_data_type tx) (tx_priority tx)
          (transport_send_timeout_ms ctx p tx) NULL heap;
      ret (err, queue, heap));
  _ ← put_queue peer queue;
  if negb (is_ok err) then mret (err, NULL)
  else
    rel_packet ← lift (xgl_reliable_find_packet_number queue packet_number (tx_target_id tx));
    match rel_packet with
    | NULL => mret (XGL_OK, NULL)
    | Ptr node =>
        _ ← put_packet peer node (fun r => r <| rp_session_id := tp_session_id p |>
              <| rp_connection_id := tx_connection_id tx |>
              <| rp_session_epoch := tx_session_epoch tx |>
              <| rp_packet_type := XGL_PACKET_TYPE_DATA |> <| rp_fragment := fragment |>);
        if negb fragment then mret (XGL_OK, Ptr node)
        else
          _ ← put_packet peer node (fun r =>
                r <| rp_flags := Z.lor XGL_WIRE_FLAG_FRAGMENTED XGL_WIRE_FLAG_HAS_EXTENSIONS |>);
          queue ← get_queue peer;
          '(err, queue) ← with_heap (xgl_reliable_set_packet_extensions queue node extensions
                                       extensions_len);
          _ ← put_queue peer queue;
          if is_ok err then mret (XGL_OK, Ptr node)
          else
            '(_, queue) ← lift (xgl_reliable_remove_packet_number queue packet_number (tx_target_id tx));
            _ ← put_queue peer queue;
            mret (err, NULL)
    end.
(** src/src/transport/xgl_transport_send_packet.c:27-74: transport_queue_reliable_tx *)
Definition transport_queue_reliable_tx (peer : ptr nat) (tx : xgl_tx_data_t) (data : ptr bytes)
    (data_len packet_number : Z) (fragment : bool) (extensions : ptr bytes) (extensions_len : Z)
    : T (xgl_error_t * ptr LinkedList.addr) :=
  if negb (tx_reliable tx) then mret (XGL_OK, NULL)
  else
    peer ← lift peer;
    queue_reliable peer tx data data_len packet_number fragment extensions extensions_len.

(** [peer] is the peer of a reliable packet. *)
(** src/src/transport/xgl_transport_send_packet.c:83-99: transport_send_packet_view *)
Definition packet_view (ctx : xgl_transport_ctx_t) (session_id : Z) (tx : xgl_tx_data_t)
    (data : ptr bytes) (data_len packet_number : Z) (fragment : bool) (extensions : ptr bytes)
    (extensions_len : Z) : xgl_packet_t :=
  zero_packet <| pk_source_id := tc_local_id ctx |>
    <| pk_target_id := tx_target_id tx |>
    <| pk_packet_number := packet_number |>
    <| pk_session_id := session_id |>
    <| pk_connection_id := tx_connection_id tx |>
    <| pk_session_epoch := tx_session_epoch tx |>
    <| pk_data_type := tx_data_type tx |>
    <| pk_reliable := (if tx_reliable tx then 1 else 0) |>
    <| pk_fragment := fragment |>
    <| pk_priority := tx_priority tx |>
    <| pk_data := Ptr (mk_packet_data 1 data_len data NULL) |>
    <| pk_extensions := extensions |>
    <| pk_extensions_len := extensions_len |>.

(** src/src/transport/xgl_transport_send_packet.c:76-124: transport_send_packet_view *)
Definition transport_send_packet_view (peer : ptr nat) (tx : xgl_tx_data_t) (data : ptr bytes)
    (data_len packet_number : Z) (fragment : bool) (extensions : ptr bytes) (extensions_len : Z)
    (rel_packet : ptr LinkedList.addr) : T xgl_error_t :=
  ctx ← get_ctx;
  session_id ← match peer with NULL => mret 0 | Ptr i => p ← get_peer i; mret (tp_session_id p) end;
  '(err, phy) ← xgl_layer_send (tc_lower_layer ctx)
      (packet_view ctx session_id tx data data_len packet_number fragment extensions extensions_len);
  let reliable_peer := if tx_reliable tx then peer else NULL in
  if negb (is_ok err) then
    _ ← transport_count_send_error;
    _ ← match reliable_peer with
        | NULL => mret tt
        | Ptr i =>
            queue ← get_queue i;
            '(_, queue) ← lift (xgl_reliable_remove_packet_number queue packet_number (tx_target_id tx));
            put_queue i queue
        end;
    mret err
  else
    match reliable_peer with
    | NULL => mret XGL_OK
    | Ptr i =>
        _ ← transport_commit_packet_number (Ptr i);
        match rel_packet with
        | NULL => mret XGL_OK
        | Ptr node =>
            now ← xgl_time_ms;
            _ ← put_packet i node (fun r => r <| rp_send_timestamp := now |>);
            _ ← (if fragment then mret tt else put_packet i node (fun r => r <| rp_phy := phy |>));
            _ ← transport_update_peer_deadline i;
            mret XGL_OK
        end
    end.

(** ** Fragments *)

(** src/src/transport/xgl_transport_send_fragment.c:9-33: transport_encode_fragment_ext *)
Definition transport_encode_fragment_ext (message_id fragment_offset total_len : Z)
    (fragment_ext : bytes) (fragment_ext_capacity : Z) : M (xgl_error_t * Z * bytes) :=
  '(err, value_len, value) ← xgl_wire_encode_fragment_ext_value
      (replicate (Z.to_nat XGL_FRAGMENT_EXT_VALUE_SIZE) 0) XGL_FRAGMENT_EXT_VALUE_SIZE message_id
      fragment_offset total_len 0;
  if negb (is_ok err) then ret (err, 0, fragment_ext)
  else xgl_wire_encode_ext fragment_ext fragment_ext_capacity XGL_WIRE_EXT_FRAGMENT (Ptr value)
         value_len 0.

(** [&data[off]] *)
Definition suffix_from (data : bytes) (off : Z) : M bytes :=
  if (0 <=? off) && (off <=? zlen data) then ret (drop (Z.to_nat off) data) else None.
(** [can_send] and the next number of the peer of a reliable packet. *)
Definition tx_packet_number (peer : ptr nat) (tx : xgl_tx_data_t) : T (bool * Z) :=
  match (if tx_reliable tx then peer else NULL) with
  | NULL => mret (true, 0)
  | Ptr i =>
      p ← get_peer i;
      mret (xgl_window_can_send_packet_number (tp_tx_window p),
            xgl_window_get_next_packet_number (tp_tx_window p))
  end.

(** The fragment at [fragment_offset]. *)
(** src/src/transport/xgl_transport_send_fragment.c:48-103: transport_send_fragmented *)
Definition send_one_fragment (peer : ptr nat) (tx : xgl_tx_data_t) (data : bytes)
    (message_id fragment_payload_max i : Z) : T xgl_error_t :=
  let fragment_offset := i * fragment_payload_max in
  let remaining := tx_data_len tx - fragment_offset in
  let fragment_payload_len :=
    if remaining <? fragment_payload_max then remaining else fragment_payload_max in
  '(can_send, packet_number) ← tx_packet_number peer tx;
  if negb can_send then mret XGL_ERR_WINDOW_FULL
  else
    '(err, encoded_ext_len, fragment_ext) ← lift (transport_encode_fragment_ext message_id
        (u32 fragment_offset) (u32 (tx_data_len tx))
        (replicate (Z.to_nat XGL_FRAGMENT_EXT_SIZE) 0) XGL_FRAGMENT_EXT_SIZE);
    if negb (is_ok err) then mret err
    else
      payload ← lift (suffix_from data fragment_offset);
      '(err, rel_packet) ← transport_queue_reliable_tx peer tx (Ptr payload) fragment_payload_len
          packet_number true (Ptr fragment_ext) encoded_ext_len;
      if negb (is_ok err) then mret err
      else transport_send_packet_view peer tx (Ptr payload) fragment_payload_len packet_number true
             (Ptr fragment_ext) encoded_ext_len rel_packet.
(** [n] fragments are left. *)
(** src/src/transport/xgl_transport_send_fragment.c:47-106: transport_send_fragmented *)
Fixpoint fragments_loop (n : nat) (peer : ptr nat) (tx : xgl_tx_data_t) (data : bytes)
    (message_id fragment_payload_max i : Z) : T xgl_error_t :=
  match n with
  | O => mret XGL_OK
  | S n =>
      err ← send_one_fragment peer tx data message_id fragment_payload_max i;
      if negb (is_ok err) then mret err
      else fragments_loop n peer tx data message_id fragment_payload_max (i + 1)
  end.
(** src/src/transport/xgl_transport_send_fragment.c:35-107: transport_send_fragmented *)
Definition transport_send_fragmented (peer : ptr nat) (tx : xgl_tx_data_t) (data : bytes)
    (plan : xgl_transport_send_plan_t) : T xgl_error_t :=
  ctx ← get_ctx;
  match tc_fragment_mgr ctx with
  | NULL => mret XGL_ERR_INVALID_PARAM
  | Ptr manager =>
      let message_id := fm_next_message_id manager in
      _ ← put_ctx (fun c => c <| tc_fragment_mgr :=
            Ptr (manager <| fm_next_message_id := u32 (message_id + 1) |>) |>);
      fragments_loop (Z.to_nat (sp_fragment_count plan)) peer tx data message_id
        (sp_fragment_payload_budget plan) 0
  end.

(** ** The entry point *)

(** src/src/transport/xgl_transport_send.c:11-24: transport_select_tx_peer *)
Definition transport_select_tx_peer (tx : xgl_tx_data_t) : T (ptr nat) :=
  if negb (tx_connection_id tx =? 0) || negb (tx_session_epoch tx =? 0)
  then transport_get_or_create_peer_scope (tx_target_id tx) (tx_connection_id tx) (tx_session_epoch tx)
  else transport_get_or_create_peer (tx_target_id tx).

(** Returns the error and [*peer]. *)
(** src/src/transport/xgl_transport_send.c:26-58: transport_prepare_reliable_send *)
Definition transport_prepare_reliable_send (tx : xgl_tx_data_t) : T (xgl_error_t * ptr nat) :=
  if negb (tx_reliable tx) then mret (XGL_OK, NULL)
  else
    peer ← transport_select_tx_peer tx;
    match peer with
    | NULL => mret (XGL_ERR_NO_MEMORY, NULL)
    | Ptr i =>
        p ← get_peer i;
        if negb (xgl_window_can_send_packet_number (tp_tx_window p))
        then mret (XGL_ERR_WINDOW_FULL, Ptr i)
        else if tp_hello_sent p then mret (XGL_OK, Ptr i)
        else
          err ← transport_send_control (tx_target_id tx) XGL_TRANSPORT_CONTROL_HELLO 0
                  (tp_session_id p) (tp_connection_id p) (tp_session_epoch p);
          _ ← (if is_ok err then put_peer i (fun p => p <| tp_hello_sent := true |>) else mret tt);
          mret (err, Ptr i)
    end.

(** The data to send: the encoder's output when it is shorter. *)
(** src/src/transport/xgl_transport_send.c:100-119: xgl_transport_send *)
Definition encode_data (tx : xgl_tx_data_t) (data : bytes) : T (bytes * Z) :=
  ctx ← get_ctx;
  match (if tx_compression_id tx =? 0 then NULL else tc_codec_registry ctx) with
  | NULL => mret (data, tx_data_len tx)
  | Ptr registry =>
      codec ← lift (xgl_codec_find (Ptr registry) XGL_CODEC_KIND_COMPRESSION (tx_compression_id tx));
      match codec with
      | NULL => mret (data, tx_data_len tx)
      | Ptr codec =>
          codec_buffer ← gets w_stack;
          encode ← lift (co_encode codec);
          let '(err, codec_buffer, encoded_len) :=
            encode data (tx_data_len tx) codec_buffer XGL_DATALINK_STACK_BUFFER_SIZE in
          mret (if is_ok err && (encoded_len <? tx_data_len tx)
                then (codec_buffer, encoded_len) else (data, tx_data_len tx))
      end
  end.

Definition report_error (err : xgl_error_t) : T unit :=
  ctx ← get_ctx;
  if bool_decide (tc_error_callback ctx = NULL) then mret tt else emit (ev_error err).

(** From the plan on. *)
(** src/src/transport/xgl_transport_send.c:100-154: xgl_transport_send *)
Definition send_planned (peer : ptr nat) (tx : xgl_tx_data_t) (data : bytes)
    (send_plan : xgl_transport_send_plan_t) : T xgl_error_t :=
  '(send_data, send_data_len) ← encode_data tx data;
  err ← (if sp_needs_fragmentation send_plan
         then transport_send_fragmented peer tx data send_plan
         else
           '(_, packet_number) ← tx_packet_number peer tx;
           '(err, rel_packet) ← transport_queue_reliable_tx peer tx (Ptr send_data) send_data_len
               packet_number false NULL 0;
           if negb (is_ok err) then mret err
           else transport_send_packet_view peer tx (Ptr send_data) send_data_len packet_number false
                  NULL 0 rel_packet);
  if negb (is_ok err) then mret err
  else
    ctx ← get_ctx;
    _ ← lift (tc_stats ctx);
    _ ← add_stats (fun s => s <| ls_tx_packets := u64 (ls_tx_packets s + 1) |>
                              <| ls_tx_bytes := u64 (ls_tx_bytes s + tx_data_len tx) |>);
    now ← xgl_time_ms;
    _ ← match peer with
        | NULL => mret tt
        | Ptr i => put_peer i (fun p => p <| tp_last_active_ms := now |>)
        end;
    mret XGL_OK.

(** [ctx->stats] is dereferenced without a test, as in [xgl_transport_send]. *)
(** src/src/transport/xgl_transport_send.c:60-154: xgl_transport_send *)
Definition xgl_transport_send (tx : xgl_tx_data_t) : T xgl_error_t :=
  match tx_data tx with
  | NULL => mret XGL_ERR_NULL_POINTER
  | Ptr data =>
      if tx_data_len tx =? 0 then mret XGL_ERR_INVALID_PARAM
      else
        ctx ← get_ctx;
        if negb (can_send_down ctx) then _ ← report_error XGL_ERR_INVALID_PARAM; mret XGL_ERR_INVALID_PARAM
        else
          '(err, peer) ← transport_prepare_reliable_send tx;
          if negb (is_ok err) then mret err
          else
            ctx ← get_ctx;
            '(err, send_plan) ← lift (transport_build_send_plan ctx tx);
            if negb (is_ok err) then
              _ ← transport_count_send_error;
              _ ← (if bool_decide (err = XGL_ERR_INVALID_PARAM)
                   then report_error XGL_ERR_INVALID_PARAM else mret tt);
              mret err
            else send_planned peer tx data send_plan
  end.
