(* ===== verification/TransportLogic.v ===== *)
(** * Reasoning about the transport layer

    Rules of the calculus of [State] for the operations of [Transport]: [wp m Q w]
    says that [m] is defined in the world [w] and that its answer and the world
    after it satisfy [Q]. *)
From S2P Require Import Prelude State Errors Serialize Layer Wire WireExt Codec Window Fragment Reliable Transport Acks Receive.

(** ** The calculus *)

Lemma wp_get_ctx Q w : Q (w_ctx w) w -> wp get_ctx Q w.
Proof. done. Qed.
Lemma wp_put_ctx f Q w : Q tt (w <| w_ctx := f (w_ctx w) |>) -> wp (put_ctx f) Q w.
Proof. done. Qed.
Lemma wp_emit e Q w : Q tt (w <| w_trace := w_trace w ++ [e] |>) -> wp (emit e) Q w.
Proof. done. Qed.
Lemma wp_time Q w : Q (w_time w) w -> wp xgl_time_ms Q w.
Proof. done. Qed.
Lemma wp_malloc size Q w :
  (forall ok heap, Q ok (w <| w_heap := heap |>)) -> wp (malloc size) Q w.
Proof. intros HQ. unfold wp, malloc. destruct (alloc_answer size (w_heap w)) as [ok heap]. apply HQ. Qed.

Definition peer_at (w : world) (i : nat) (p : xgl_transport_peer_state_t) : Prop :=
  tc_peers (w_ctx w) !! i = Some p.
(** The world with another peer at a place. *)
Definition with_peer (i : nat) (p : xgl_transport_peer_state_t) (w : world) : world :=
  w <| w_ctx := (w_ctx w) <| tc_peers := <[i := p]> (tc_peers (w_ctx w)) |> |>.

Lemma wp_get_peer i p Q w : peer_at w i p -> Q p w -> wp (get_peer i) Q w.
Proof. intros Hp HQ. apply wp_bind, wp_get_ctx. by eapply wp_lift. Qed.
Lemma wp_put_peer i p f Q w : peer_at w i p -> Q tt (with_peer i (f p) w) -> wp (put_peer i f) Q w.
Proof. intros Hp HQ. apply wp_bind. eapply wp_get_peer; [done|]. by apply wp_put_ctx. Qed.
Lemma peer_at_with i p p' w : peer_at w i p' -> peer_at (with_peer i p w) i p.
Proof. intros Hp%lookup_lt_Some. unfold peer_at. cbn. by apply list_lookup_insert_eq. Qed.
Lemma with_peer_twice i p p' w : with_peer i p (with_peer i p' w) = with_peer i p w.
Proof. unfold with_peer. destruct w as [c ?????]. cbn. by rewrite list_insert_insert_eq. Qed.
Lemma with_peer_same i p w : peer_at w i p -> with_peer i p w = w.
Proof. intros Hp. unfold with_peer. rewrite list_insert_id by done. by destruct w as [[]]. Qed.

Ltac wp_step :=
  lazymatch goal with
  | |- wp get_ctx _ _ => apply wp_get_ctx
  | |- wp (put_ctx _) _ _ => apply wp_put_ctx
  | |- wp (emit _) _ _ => apply wp_emit
  | |- wp xgl_time_ms _ _ => apply wp_time
  | _ => st_step
  end.
Ltac wp_steps := repeat (wp_step; cbn beta iota).

(** ** Packets that are well formed

    A view of data or extensions lies in its buffer. *)

Definition view_ok (p : ptr bytes) (len : Z) : Prop :=
  match p with NULL => len = 0 | Ptr b => 0 <= len <= zlen b /\ bytes_ok b end.
Definition packet_wf (p : xgl_packet_t) : Prop :=
  match pk_data p with NULL => True | Ptr d => view_ok (pd_data d) (pd_data_len d) end /\
  view_ok (pk_extensions p) (pk_extensions_len p) /\
  is_u32 (pk_packet_number p) = true.
(** What goes down, and what goes up: initialised bytes only. *)
Definition event_ok (e : transport_event) : Prop :=
  match e with
  | ev_send p => packet_wf p /\ pk_data p <> NULL
  | ev_deliver _ _ data len => zlen data = len /\ Forall (fun b => b <> None) data
  | ev_error err => err <> XGL_OK
  end.
Definition is_send (e : transport_event) : Prop := exists p, e = ev_send p.

(** ** Sending

    The world after some events, with what is left of the lower layer's answers. *)
Definition after_events (es : list transport_event) (net : list (xgl_error_t * ptr xgl_phy_ops_t))
    (w : world) : world :=
  w <| w_trace := w_trace w ++ es |> <| w_net := net |>.
Lemma after_no_events w : after_events [] (w_net w) w = w.
Proof. unfold after_events. rewrite app_nil_r. by destruct w. Qed.

Lemma layer_send_run ctx p w :
  can_send_down ctx = true ->
  exists r net, xgl_layer_send (tc_lower_layer ctx) p w = Some (r, after_events [ev_send p] net w).
Proof.
  unfold can_send_down, xgl_layer_send. destruct (tc_lower_layer ctx) as [iface|]; [|done].
  destruct (li_send iface); [|done]. intros _. unfold mbind, ST_bind, emit, modify, net_answer. cbn.
  destruct (w_net w) as [|a net]; by eexists _, _.
Qed.
(** The packet goes down when there is a lower layer. *)
Definition sent_if (ctx : xgl_transport_ctx_t) (p : xgl_packet_t) : list transport_event :=
  if can_send_down ctx then [ev_send p] else [].
(** A computation that only sends packets that are well formed. *)
Definition sends {A} (m : T A) (w : world) : Prop :=
  exists a es net, m w = Some (a, after_events es net w) /\ Forall (fun e => event_ok e /\ is_send e) es.
Lemma sends_ret {A} (a : A) w : sends (mret a) w.
Proof. exists a, [], (w_net w). by rewrite after_no_events. Qed.
Lemma sends_one {A} (m : T A) a net ctx p w :
  m w = Some (a, after_events (sent_if ctx p) net w) -> packet_wf p -> pk_data p <> NULL -> sends m w.
Proof.
  intros Hm Hwf Hd. exists a, (sent_if ctx p), net. split; [done|]. unfold sent_if.
  destruct (can_send_down ctx); [|done]. repeat constructor; [by apply Hwf..|done|by exists p].
Qed.
Lemma wp_sends {A} (m : T A) Q w :
  sends m w ->
  (forall a es net, Forall (fun e => event_ok e /\ is_send e) es -> Q a (after_events es net w)) -> wp m Q w.
Proof. intros (a & es & net & Hm & Hes) HQ. apply wp_run. eauto. Qed.

(** The extensions of the acknowledgements in their buffer of 32 bytes. *)
Definition padded_ext (t : tlv) : bytes := tlv_bytes t ++ replicate (30 - length t.2) 0.
Lemma wrap_ext_run type v rest :
  type <> 0 -> (length v <= 30)%nat ->
  wrap_ext type (v ++ rest) (zlen v) = Some (XGL_OK, 2 + zlen v, padded_ext (type, v)).
Proof.
  intros Ht Hv. unfold wrap_ext. rewrite encode_ext_prefix.
  replace (replicate 32 0) with (replicate (2 + length v) 0 ++ replicate (30 - length v) 0)
    by (rewrite <- replicate_add; f_equal; lia).
  rewrite encode_ext_run; [done|by rewrite length_replicate|done|unfold zlen; lia|unfold zlen; lia].
Qed.
Lemma padded_ext_view t :
  1 <= t.1 < 256 -> bytes_ok t.2 -> (length t.2 <= 30)%nat -> view_ok (Ptr (padded_ext t)) (2 + zlen t.2).
Proof.
  destruct t as [ty v]. cbn [fst snd]. intros Ht Hok Hl. unfold padded_ext, tlv_bytes. cbn [fst snd].
  split.
  - rewrite zlen_app, !zlen_cons. pose proof (zlen_nonneg v).
    pose proof (zlen_nonneg (replicate (30 - length v) 0)). lia.
  - rewrite Forall_app. split.
    + constructor; [lia|]. constructor; [unfold zlen; lia|done].
    + apply Forall_replicate. lia.
Qed.

Lemma send_ack_only_run src pn sess conn epoch ext len w :
  exists err net, send_ack_only src pn sess conn epoch ext len w =
    Some (err, after_events (sent_if (w_ctx w)
      (ack_only_packet (tc_local_id (w_ctx w)) src pn sess conn epoch ext len)) net w).
Proof.
  unfold send_ack_only, mbind, ST_bind, get_ctx, gets, sent_if.
  destruct (can_send_down (w_ctx w)) eqn:Hc.
  - destruct (layer_send_run (w_ctx w) (ack_only_packet (tc_local_id (w_ctx w)) src pn sess conn epoch ext len)
      w Hc) as ([err phy] & net & Hrun). rewrite Hrun. by eexists _, _.
  - eexists _, (w_net w). by rewrite after_no_events.
Qed.
Lemma ack_only_wf lid src pn sess conn epoch ext len :
  is_u32 pn = true -> view_ok (Ptr ext) len ->
  packet_wf (ack_only_packet lid src pn sess conn epoch ext len) /\
  pk_data (ack_only_packet lid src pn sess conn epoch ext len) <> NULL.
Proof. done. Qed.

(** The ACK of one packet. *)
Definition ack_ext (n : Z) : tlv := (XGL_WIRE_EXT_ACK_RANGE, ack_range_value n 0 [mk_ack_range 0 1]).
Definition ack_of (ctx : xgl_transport_ctx_t) (src pn sess conn epoch : Z) : xgl_packet_t :=
  ack_only_packet (tc_local_id ctx) src pn sess conn epoch (padded_ext (ack_ext pn)) 15.
Lemma send_ack_run src pn sess conn epoch w :
  exists err net, transport_send_ack pn src sess conn epoch w =
    Some (err, after_events (sent_if (w_ctx w) (ack_of (w_ctx w) src pn sess conn epoch)) net w).
Proof.
  pose proof (encode_ack_range_run (replicate 13 0) [0; 0; 0] 16 pn 0 [mk_ack_range 0 1] 0) as Hval.
  pose proof (wrap_ext_run XGL_WIRE_EXT_ACK_RANGE (ack_range_value pn 0 [mk_ack_range 0 1]) [0; 0; 0]) as Hext.
  change (zlen (ack_range_value pn 0 [mk_ack_range 0 1])) with 13 in Hext.
  change (replicate 13 0 ++ [0; 0; 0]) with (replicate 16 0) in Hval.
  change (zlen [mk_ack_range 0 1]) with 1 in Hval. change (zlen (replicate 13 0)) with 13 in Hval.
  unfold transport_send_ack, mbind, ST_bind, lift. rewrite Hval by done. cbn [mbind option_bind is_ok negb].
  rewrite Hext by (done || (rewrite ack_range_value_length; cbn; lia)). cbn [mbind option_bind is_ok negb].
  apply send_ack_only_run.
Qed.
Lemma ack_ext_ok n : bytes_ok (ack_ext n).2.
Proof.
  unfold ack_ext, ack_range_value. cbn [snd]. rewrite !Forall_app.
  split_and!; [apply le_bytes_ok..|by repeat constructor|]. by vm_compute; repeat constructor.
Qed.
Lemma send_ack_sends src pn sess conn epoch w :
  is_u32 pn = true -> sends (transport_send_ack pn src sess conn epoch) w.
Proof.
  intros Hpn. destruct (send_ack_run src pn sess conn epoch w) as (err & net & Hrun).
  destruct (ack_only_wf (tc_local_id (w_ctx w)) src pn sess conn epoch (padded_ext (ack_ext pn)) 15 Hpn).
  { apply (padded_ext_view (ack_ext pn)); [done|apply ack_ext_ok|cbn; lia]. }
  by eapply sends_one.
Qed.

(** ** The SACK bitmap *)

Abbreviation rx_buffer := (list xgl_transport_rx_buffered_packet_t).
Definition rx_number (b : xgl_transport_rx_buffered_packet_t) : Z := pk_packet_number (rxb_packet b).

(** Bit [d] of a bitmap. *)
Definition bit (bitmap : bytes) (d : Z) : bool := Z.testbit (default 0 (rd bitmap (d / 8))) (d mod 8).

Lemma testbit_mask b k :
  0 <= k < 8 -> negb (Z.land b (u8 (Z.shiftl 1 k)) =? 0) = Z.testbit b k.
Proof.
  intros Hk. rewrite Z.shiftl_mul_pow2, Z.mul_1_l by lia.
  assert (0 < 2 ^ k < 256) as Hp.
  { split; [apply Z.pow_pos_nonneg; lia|]. change 256 with (2 ^ 8). apply Z.pow_lt_mono_r; lia. }
  rewrite u8_small by lia. destruct (Z.eqb_spec (Z.land b (2 ^ k)) 0) as [Hz|Hnz]; cbn [negb].
  - apply (f_equal (fun z => Z.testbit z k)) in Hz.
    rewrite Z.land_spec, Z.pow2_bits_true, andb_true_r, Z.bits_0 in Hz by lia. done.
  - destruct (Z.testbit b k) eqn:Hb; [done|]. destruct Hnz. apply Z.bits_inj'. intros i Hi.
    rewrite Z.land_spec, Z.bits_0, Z.pow2_bits_eqb by lia.
    destruct (Z.eqb_spec k i) as [->|]; [by rewrite Hb|by rewrite andb_false_r].
Qed.
Lemma sack_bit_spec bm d :
  0 <= d < 8 * zlen bm -> transport_sack_bit_is_set bm d = Some (bit bm d).
Proof.
  intros Hd. unfold transport_sack_bit_is_set, bit. destruct (rd_is_Some bm (d / 8)) as [b ->]; [zlia|].
  cbn [mbind option_bind default]. by rewrite testbit_mask by zlia.
Qed.
Lemma set_bit_spec bm e d b :
  rd bm (e / 8) = Some b -> 0 <= e -> 0 <= d ->
  bit (<[Z.to_nat (e / 8) := Z.lor b (u8 (Z.shiftl 1 (e mod 8)))]> bm) d = bit bm d || (d =? e).
Proof.
  intros Hb He Hd. pose proof (rd_Some_inv _ _ _ Hb) as Hr. unfold bit.
  destruct (decide (d / 8 = e / 8)) as [Heq|Hne].
  - rewrite Heq, Hb. unfold rd. replace (0 <=? e / 8) with true by zlia.
    rewrite list_lookup_insert_eq by (unfold zlen in Hr; lia). cbn [from_option]. unfold id.
    rewrite Z.lor_spec. f_equal.
    assert (0 <= e mod 8 < 8) as Hk by zlia. assert (0 <= d mod 8 < 8) as Hk' by zlia.
    rewrite Z.shiftl_mul_pow2, Z.mul_1_l by lia.
    assert (0 < 2 ^ (e mod 8) < 256) as Hp.
    { split; [apply Z.pow_pos_nonneg; lia|]. change 256 with (2 ^ 8). apply Z.pow_lt_mono_r; lia. }
    rewrite u8_small, Z.pow2_bits_eqb by lia. zlia.
  - unfold rd. replace (0 <=? d / 8) with true by zlia.
    rewrite list_lookup_insert_ne by zlia. replace (d =? e) with false by zlia. by rewrite orb_false_r.
Qed.

(** The buffered packets with a number of the bitmap. *)
Definition reported (base : Z) (l : rx_buffer) (d : Z) : bool :=
  existsb (fun b => rx_number b =? base + d) l.
Lemma sack_bitmap_spec base l : forall bm h r,
  0 <= base < 2 ^ 32 -> Forall (fun b => 0 <= rx_number b < 2 ^ 32) l -> zlen bm = 8 -> bytes_ok bm -> 0 <= h < 64 ->
  (forall d, h < d < 64 -> bit bm d = false) -> (r = false -> forall d, 0 <= d < 64 -> bit bm d = false) ->
  exists bm' h' r', sack_bitmap_loop l base bm h r = Some (bm', h', r') /\
    zlen bm' = 8 /\ bytes_ok bm' /\ 0 <= h' < 64 /\
    (forall d, 0 <= d < 64 -> bit bm' d = bit bm d || reported base l d) /\
    (forall d, h' < d < 64 -> bit bm' d = false) /\ (r' = false -> forall d, 0 <= d < 64 -> bit bm' d = false).
Proof.
  induction l as [|b l IH]; intros bm h r Hbase Hl Hz Hok Hh Habove Hnone; cbn [sack_bitmap_loop].
  { eexists _, _, _. split; [reflexivity|]. split_and!; try done; try lia.
    intros d Hd. cbn. by rewrite orb_false_r. }
  apply Forall_cons in Hl as [Hb Hl]. fold (rx_number b).
  assert (forall d, 0 <= d < 64 -> rx_number b <> base + d -> reported base (b :: l) d = reported base l d) as Hskip.
  { intros d _ Hne. unfold reported. cbn [existsb]. by replace (rx_number b =? base + d) with false by lia. }
  assert (forall bm' h' r', sack_bitmap_loop l base bm h r = Some (bm', h', r') ->
          (forall d, 0 <= d < 64 -> rx_number b <> base + d) ->
          (forall d, 0 <= d < 64 -> bit bm' d = bit bm d || reported base l d) ->
          forall d, 0 <= d < 64 -> bit bm' d = bit bm d || reported base (b :: l) d) as Hout.
  { intros bm' h' r' _ Hne Hbit d Hd. rewrite Hskip by auto. by apply Hbit. }
  destruct (Z.ltb_spec (rx_number b) base) as [Hlt|Hge].
  { destruct (IH bm h r) as (bm' & h' & r' & Hrun & H1 & H2 & H3 & H4 & H5 & H6); try done.
    exists bm', h', r'. rewrite Hrun. do 4 (split; [done|]). split; [|done].
    eapply Hout; [exact Hrun| |exact H4]. intros d Hd. lia. }
  rewrite u32_small by lia. destruct (Z.leb_spec 64 (rx_number b - base)) as [Hfar|Hnear].
  { destruct (IH bm h r) as (bm' & h' & r' & Hrun & H1 & H2 & H3 & H4 & H5 & H6); try done.
    exists bm', h', r'. rewrite Hrun. do 4 (split; [done|]). split; [|done].
    eapply Hout; [exact Hrun| |exact H4]. intros d Hd. lia. }
  set (e := rx_number b - base) in *. destruct (rd_is_Some bm (e / 8)) as [byte Hbyte]; [zlia|].
  rewrite Hbyte. cbn [mbind option_bind]. rewrite wr_Some by zlia. cbn [mbind option_bind].
  set (bm1 := <[_ := _]> bm). assert (forall d, 0 <= d -> bit bm1 d = bit bm d || (d =? e)) as Hset.
  { intros d Hd. apply set_bit_spec; [done|lia|done]. }
  destruct (IH bm1 (if h <? e then e else h) true) as (bm' & h' & r' & Hrun & H1 & H2 & H3 & H4 & H5 & H6); try done.
  { unfold bm1. by rewrite zlen_insert. }
  { apply bytes_ok_insert; [done|]. apply (lor_bound _ _ 8); [lia| |].
    - exact (bytes_ok_rd _ _ _ Hbyte Hok).
    - apply u8_range. }
  { case_if; lia. }
  { intros d Hd. assert (h < d < 64 /\ e < d) as [Hhd Hed] by (revert Hd; case_if; lia).
    rewrite Hset by lia. replace (d =? e) with false by lia. rewrite orb_false_r. by apply Habove. }
  exists bm', h', r'. rewrite Hrun. do 4 (split; [done|]). split; [|done].
  intros d Hd. rewrite H4, Hset by lia.
  cbn. replace (rx_number b =? base + d) with (d =? e) by (unfold e; zbool). by rewrite orb_assoc.
Qed.

Lemma bit_take bm n d : 0 <= d -> d < 8 * n -> bit (take (Z.to_nat n) bm) d = bit bm d.
Proof. intros Hd Hn. unfold bit, rd. case_if; [|done]. rewrite lookup_take_lt; [done|zlia]. Qed.

(** The SACK of the buffered packets: its bitmap [bits] says which of the next
    numbers are buffered, up to the last one that is. *)
Definition sack_ext (base : Z) (bits : bytes) : tlv := (XGL_WIRE_EXT_SACK, sack_value base bits).
Definition sack_of (ctx : xgl_transport_ctx_t) (src base sess conn epoch : Z) (bits : bytes) : xgl_packet_t :=
  ack_only_packet (tc_local_id ctx) src base sess conn epoch (padded_ext (sack_ext base bits)) (7 + zlen bits).
Definition bits_report (base : Z) (l : rx_buffer) (bits : bytes) : Prop :=
  1 <= zlen bits <= 8 /\ bytes_ok bits /\
  (forall d, 0 <= d < 8 * zlen bits -> bit bits d = reported base l d) /\
  (forall d, 8 * zlen bits <= d < 64 -> reported base l d = false).

Lemma bit_zeros d : bit (replicate 8 0) d = false.
Proof.
  unfold bit. unfold rd. case_if; cbn [from_option id]; [|apply Z.bits_0].
  destruct (replicate 8 0 !! Z.to_nat (d / 8)) as [x|] eqn:Hx; cbn [from_option id]; [|apply Z.bits_0].
  apply lookup_replicate in Hx as [-> _]. apply Z.bits_0.
Qed.
Lemma sack_bits base l :
  0 <= base < 2 ^ 32 -> Forall (fun b => 0 <= rx_number b < 2 ^ 32) l ->
  exists bm h r, sack_bitmap_loop l base (replicate 8 0) 0 false = Some (bm, h, r) /\ zlen bm = 8 /\
    let len := if r : bool then h / 8 + 1 else 1 in
    1 <= len <= 8 /\ bits_report base l (take (Z.to_nat len) bm).
Proof.
  intros Hbase Hl.
  destruct (sack_bitmap_spec base l (replicate 8 0) 0 false Hbase Hl) as
    (bm & h & r & Hrun & Hz & Hok & Hh & Hbit & Habove & Hnone);
    [done|by apply Forall_replicate|done|intros; apply bit_zeros|intros; apply bit_zeros|].
  exists bm, h, r. split; [done|]. split; [done|]. intros len.
  assert (1 <= len <= 8) as Hlen by (unfold len; case_if; zlia). split; [done|].
  unfold bits_report. rewrite zlen_take by lia. split; [lia|]. split; [by apply Forall_take|]. split.
  - intros d Hd. rewrite bit_take, Hbit, bit_zeros by lia. done.
  - intros d Hd. specialize (Hbit d ltac:(lia)). rewrite bit_zeros in Hbit. cbn [orb] in Hbit. rewrite <- Hbit.
    destruct r; [apply Habove; unfold len in *; zlia|by apply Hnone; [|lia]].
Qed.

Lemma send_sack_run i p src base sess conn epoch w :
  peer_at w i p -> 0 <= base < 2 ^ 32 -> Forall (fun b => 0 <= rx_number b < 2 ^ 32) (tp_rx_buffered p) ->
  exists err net bits, transport_send_sack i src base sess conn epoch w =
      Some (err, after_events (sent_if (w_ctx w) (sack_of (w_ctx w) src base sess conn epoch bits)) net w) /\
    bits_report base (tp_rx_buffered p) bits.
Proof.
  intros Hp Hbase Hl. destruct (sack_bits base _ Hbase Hl) as (bm & h & r & Hloop & Hz & Hlen & Hrep).
  set (len := if r : bool then h / 8 + 1 else 1) in *. set (bits := take (Z.to_nat len) bm) in *.
  assert (zlen bits = len) as Hbl by (apply zlen_take; lia).
  assert (bm = bits ++ drop (Z.to_nat len) bm) as Hbm by (symmetry; apply take_drop).
  set (old := replicate (Z.to_nat (5 + len)) 0). set (pad := replicate (Z.to_nat (11 - len)) 0).
  assert (length old = (5 + length bits)%nat) as Hold by (unfold old, zlen in *; rewrite length_replicate; lia).
  pose proof (encode_sack_run old pad 16 base bits 0 Hold) as Hval.
  pose proof (wrap_ext_run XGL_WIRE_EXT_SACK (sack_value base bits) pad) as Hext.
  assert (zlen (sack_value base bits) = 5 + len) as Hsl by (unfold sack_value; rewrite zlen_app, le_bytes_zlen; cbn [app]; rewrite zlen_cons; lia).
  assert (zlen old = 5 + len) as Hol by (unfold zlen in Hbl |- *; lia). rewrite Hsl in Hext. rewrite Hol, Hbl in Hval.
  assert (old ++ pad = replicate 16 0) as Hpad.
  { unfold old, pad. rewrite <- replicate_add. f_equal. lia. }
  unfold transport_send_sack. unfold mbind at 1. unfold ST_bind at 1.
  assert (forall f, (match get_peer i w with Some (a, w) => f a w | None => None end) =
                    (f p w : option (xgl_error_t * world))) as Hget.
  { intros f. pose proof (wp_get_peer i p (fun a w' => a = p /\ w' = w) w Hp (conj eq_refl eq_refl)) as Hg.
    apply wp_run in Hg as (a & w' & -> & -> & ->). done. }
  rewrite Hget. unfold mbind, ST_bind, lift. rewrite Hloop. cbn [mbind option_bind]. fold len.
  rewrite Hbm, <- Hbl, encode_sack_prefix, <- Hpad, Hbl, Hval by lia. cbn [mbind option_bind is_ok negb].
  rewrite Hext by (try done; unfold zlen in Hsl; lia). cbn [mbind option_bind is_ok negb].
  destruct (send_ack_only_run src base sess conn epoch (padded_ext (sack_ext base bits)) (2 + (5 + len)) w)
    as (err & net & Hrun).
  exists err, net, bits. split; [|done]. unfold sack_of. rewrite Hbl. replace (7 + len) with (2 + (5 + len)) by lia.
  exact Hrun.
Qed.

(** ** The receive buffer *)

(** In strictly increasing order of the numbers, from [lo] on. *)
Fixpoint rx_sorted (lo : Z) (l : rx_buffer) : Prop :=
  match l with [] => True | b :: l => lo <= rx_number b /\ rx_sorted (rx_number b + 1) l end.

Lemma rx_sorted_app lo l1 l2 :
  rx_sorted lo (l1 ++ l2) <->
  rx_sorted lo l1 /\ rx_sorted lo l2 /\ Forall (fun a => Forall (fun b => rx_number a < rx_number b) l2) l1.
Proof.
  revert lo. induction l1 as [|a l1 IH]; intros lo; cbn; [split; [by intros; split_and!|tauto]|].
  rewrite IH, Forall_cons. split.
  - intros (? & ? & H2 & ?). split_and!; try done.
    + destruct l2 as [|b l2]; [done|]. cbn in *. split; [lia|tauto].
    + clear -H2. revert H2. generalize (rx_number a). induction l2 as [|b l2 IH]; intros n; cbn; [by constructor|].
      intros [Hb Hl]. constructor; [lia|]. apply IH. destruct l2 as [|c l2]; [done|]. cbn in *. split; [lia|tauto].
  - intros ((? & ?) & H2 & Hlt & ?). split_and!; try done. destruct l2 as [|b l2]; [done|].
    apply Forall_cons in Hlt as [Hlt _]. cbn in *. split; [lia|tauto].
Qed.
Lemma rx_sorted_weaken lo lo' l : rx_sorted lo l -> lo' <= lo -> rx_sorted lo' l.
Proof. destruct l; [done|]. cbn. intros [? ?] ?. split; [lia|done]. Qed.
Lemma rx_sorted_Forall lo l : rx_sorted lo l -> Forall (fun b => lo <= rx_number b) l.
Proof.
  revert lo. induction l as [|b l IH]; intros lo; cbn; [by constructor|]. intros [Hb Hl].
  constructor; [done|]. eapply Forall_impl; [by apply IH|]. cbn. lia.
Qed.
Lemma rx_sorted_raise lo l : rx_sorted lo l -> Forall (fun b => rx_number b <> lo) l -> rx_sorted (lo + 1) l.
Proof. destruct l; [done|]. cbn. intros [? ?] [? _]%Forall_cons. split; [lia|done]. Qed.

Definition pred_of (n : nat) : ptr nat := match n with O => NULL | S k => Ptr k end.
(** The search splits the buffer at the number. *)
Lemma find_rx_loop_spec n l : forall lo i prev,
  rx_sorted lo l ->
  exists low high, l = low ++ high /\ Forall (fun b => rx_number b < n) low /\ Forall (fun b => n <= rx_number b) high /\
    find_rx_loop l n i prev =
      (match high with b :: _ => if rx_number b =? n then Ptr (i + length low)%nat else NULL | [] => NULL end,
       match low with [] => prev | _ => Ptr (pred (i + length low)) end).
Proof.
  induction l as [|b l IH]; intros lo i prev Hs; cbn [find_rx_loop].
  { exists [], []. split_and!; try constructor. }
  destruct Hs as [Hlo Hs]. fold (rx_number b). destruct (Z.eqb_spec (rx_number b) n) as [Heq|Hne].
  { exists [], (b :: l). split_and!; [done|constructor| |].
    - constructor; [lia|]. eapply Forall_impl; [by eapply rx_sorted_Forall|]. cbn. lia.
    - rewrite Heq, Z.eqb_refl. cbn. do 2 f_equal. lia. }
  destruct (Z.ltb_spec n (rx_number b)) as [Hlt|Hge].
  { exists [], (b :: l). split_and!; [done|constructor| |].
    - constructor; [lia|]. eapply Forall_impl; [by eapply rx_sorted_Forall|]. cbn. lia.
    - by replace (rx_number b =? n) with false by lia. }
  destruct (IH _ (S i) (Ptr i) Hs) as (low & high & -> & Hlow & Hhigh & ->).
  exists (b :: low), high. split_and!; [done|by constructor; [lia|]|done|]. cbn [length]. f_equal.
  - replace (i + S (length low))%nat with (S i + length low)%nat by lia. done.
  - destruct low as [|c low]; [cbn; f_equal; lia|]. f_equal. cbn [length]. lia.
Qed.
Lemma find_rx_spec p n lo :
  rx_sorted lo (tp_rx_buffered p) ->
  exists low high, tp_rx_buffered p = low ++ high /\ Forall (fun b => rx_number b < n) low /\
    Forall (fun b => n <= rx_number b) high /\
    transport_find_rx_buffered p n =
      (match high with b :: _ => if rx_number b =? n then Ptr (length low) else NULL | [] => NULL end,
       pred_of (length low)).
Proof.
  intros Hs. destruct (find_rx_loop_spec n _ _ 0 NULL Hs) as (low & high & Hl & Hlow & Hhigh & Hrun).
  exists low, high. split_and!; try done. unfold transport_find_rx_buffered. rewrite Hrun. cbn [Nat.add]. by destruct low.
Qed.

(** Insertion before the packets with a higher number. *)
Lemma insert_rx_run p b n lo :
  rx_sorted lo (tp_rx_buffered p) ->
  exists low high, tp_rx_buffered p = low ++ high /\ Forall (fun b => rx_number b < n) low /\
    Forall (fun b => n <= rx_number b) high /\
    transport_insert_rx_buffered p b n =
      p <| tp_rx_buffered := low ++ b :: high |> <| tp_rx_buffered_count := u8 (tp_rx_buffered_count p + 1) |>.
Proof.
  intros Hs. destruct (find_rx_spec p n lo Hs) as (low & high & Hl & Hlow & Hhigh & Hrun).
  exists low, high. split_and!; try done. unfold transport_insert_rx_buffered. rewrite Hrun, Hl.
  assert (match pred_of (length low) with NULL => O | Ptr i => S i end = length low) as -> by by destruct low.
  by rewrite take_app_length, drop_app_length.
Qed.

(** Taking a packet out. *)
Lemma take_rx_run i p n lo w :
  peer_at w i p -> rx_sorted lo (tp_rx_buffered p) -> tp_rx_buffered_count p = zlen (tp_rx_buffered p) ->
  (exists low b high, tp_rx_buffered p = low ++ b :: high /\ rx_number b = n /\
     transport_take_rx_buffered i n w =
       Some (Ptr b, with_peer i (p <| tp_rx_buffered := low ++ high |>
                                   <| tp_rx_buffered_count := zlen (low ++ high) |>) w)) \/
  (Forall (fun b => rx_number b <> n) (tp_rx_buffered p) /\ transport_take_rx_buffered i n w = Some (NULL, w)).
Proof.
  intros Hp Hs Hc. destruct (find_rx_spec p n lo Hs) as (low & high & Hl & Hlow & Hhigh & Hrun).
  assert (forall Q, wp (transport_take_rx_buffered i n) Q w ->
          exists a w', transport_take_rx_buffered i n w = Some (a, w') /\ Q a w') as Hwp by (intros; by apply wp_run).
  assert (Forall (fun b => rx_number b <> n) low) as Hlow' by (eapply Forall_impl; [exact Hlow|cbn; lia]).
  destruct high as [|b high]; [|destruct (Z.eqb_spec (rx_number b) n) as [Heq|Hne]].
  - right. rewrite Hl, app_nil_r. split; [done|]. destruct (Hwp (fun a w' => a = NULL /\ w' = w)) as (a & w' & -> & -> & ->); [|done].
    unfold transport_take_rx_buffered. wp_step. eapply wp_get_peer; [done|]. by rewrite Hrun.
  - left. exists low, b, high. split_and!; [done|done|].
    destruct (Hwp (fun a w' => a = Ptr b /\ w' = with_peer i (p <| tp_rx_buffered := low ++ high |>
                                   <| tp_rx_buffered_count := zlen (low ++ high) |>) w)) as (a & w' & -> & -> & ->); [|done].
    unfold transport_take_rx_buffered. wp_step. eapply wp_get_peer; [done|]. rewrite Hrun. wp_step.
    eapply wp_lift; [rewrite Hl; by apply list_lookup_middle|].
    wp_step. eapply wp_put_peer; [done|]. wp_step. split; [done|]. rewrite Hl.
    assert (match pred_of (length low) with NULL => O | Ptr i => S i end = length low) as -> by by destruct low.
    rewrite delete_middle, Hc, Hl. f_equal. f_equal. rewrite !zlen_app, zlen_cons. pose proof (zlen_nonneg low).
    pose proof (zlen_nonneg high). replace (0 <? _) with true by lia. lia.
  - right. rewrite Hl. split.
    + apply Forall_app. split; [done|]. rewrite Forall_cons in Hhigh |- *. split; [done|].
      rewrite Hl in Hs. apply rx_sorted_app in Hs as (_ & [_ Hh] & _).
      eapply Forall_impl; [by eapply rx_sorted_Forall|]. cbn. lia.
    + destruct (Hwp (fun a w' => a = NULL /\ w' = w)) as (a & w' & -> & -> & ->); [|done].
      unfold transport_take_rx_buffered. wp_step. eapply wp_get_peer; [done|]. by rewrite Hrun.
Qed.

(** A buffered packet is a copy that owns its bytes. *)
Definition buffered_ok (b : xgl_transport_rx_buffered_packet_t) : Prop :=
  0 <= rx_number b < 2 ^ 32 /\ rxb_data_len b = zlen (rxb_data b) /\ bytes_ok (rxb_data b) /\
  view_ok (pk_extensions (rxb_packet b)) (pk_extensions_len (rxb_packet b)).
(** [b] is the copy of [packet] under the number [n]. *)
Definition copy_of (packet : xgl_packet_t) (n : Z) (b : xgl_transport_rx_buffered_packet_t) : Prop :=
  exists d src ext, pk_data packet = Ptr d /\ pd_data d = Ptr src /\
    rxb_data b = take (Z.to_nat (pd_data_len d)) src /\ rxb_data_len b = pd_data_len d /\
    rxb_packet b = packet <| pk_packet_number := n |>
      <| pk_data := Ptr (mk_packet_data 1 (pd_data_len d) (Ptr (rxb_data b)) (Ptr (rxb_data b))) |>
      <| pk_extensions := ext |> <| pk_extensions_len := from_option zlen 0 ext |> /\
    ext = if 0 <? pk_extensions_len packet
          then take (Z.to_nat (pk_extensions_len packet)) <$> pk_extensions packet else NULL.

Lemma copy_run packet n d src w :
  pk_data packet = Ptr d -> pd_data d = Ptr src -> packet_wf packet ->
  exists err b heap, transport_copy_rx_buffered_packet packet n w =
      Some ((err, b), w <| w_heap := heap |>) /\
    match b with None => err <> XGL_OK | Some b => err = XGL_OK /\ copy_of packet n b end.
Proof.
  intros Hd Hsrc (Hdata & Hext & _). rewrite Hd in Hdata. rewrite Hsrc in Hdata. destruct Hdata as [Hlen Hok].
  unfold transport_copy_rx_buffered_packet, mbind, ST_bind, lift, malloc. rewrite Hd. cbn [mbind option_bind].
  destruct (alloc_answer _ (w_heap w)) as [[] heap]; cbn [negb]; [|by eexists _, None, _].
  rewrite Hsrc. cbn [mbind option_bind]. rewrite rd_bytes_Some by lia. cbn [mbind option_bind]. rewrite drop_to_nat_0.
  destruct (pk_extensions packet) as [e|] eqn:He; cbn [view_ok] in Hext;
    [destruct (0 <? pk_extensions_len packet) eqn:Hpos|].
  - destruct (alloc_answer _ _) as [[] heap2]; cbn [negb is_ok mret ST_ret]; [|by eexists _, None, heap2].
    rewrite rd_bytes_Some by lia. cbn [mbind option_bind is_ok negb mret ST_ret]. eexists _, (Some _), heap2.
    split; [reflexivity|]. split; [done|]. exists d, src, (Ptr (take (Z.to_nat (pk_extensions_len packet)) e)).
    rewrite Hpos, He, drop_to_nat_0. split_and!; try done. cbn [from_option]. rewrite zlen_take by lia. done.
  - cbn [is_ok negb mret ST_ret]. eexists _, (Some _), heap. split; [reflexivity|]. split; [done|].
    exists d, src, NULL. by rewrite Hpos.
  - cbn [is_ok negb mret ST_ret]. eexists _, (Some _), heap. split; [reflexivity|]. split; [done|].
    exists d, src, NULL. rewrite He. split_and!; try done. by case_if.
Qed.
Lemma copy_of_ok packet n b :
  packet_wf packet -> 0 <= n < 2 ^ 32 -> copy_of packet n b -> buffered_ok b /\ rx_number b = n.
Proof.
  intros (Hd & He & _) Hn (d & src & ext & Hpd & Hsrc & Hdata & Hlen & Hp & Hext).
  rewrite Hpd, Hsrc in Hd. destruct Hd as [Hl Hok]. unfold buffered_ok, rx_number. rewrite Hp. cbn.
  split; [|done]. split; [lia|]. rewrite Hdata. split; [by rewrite zlen_take|]. split; [by apply Forall_take|].
  rewrite Hext. case_if; [|done]. destruct (pk_extensions packet) as [e|]; [|done].
  destruct He as [Hel Heok]. cbn. split; [|by apply Forall_take]. pose proof (zlen_nonneg (take (Z.to_nat (pk_extensions_len packet)) e)). lia.
Qed.

(** The window of a peer for the receive side. *)
Definition rx_window (p : xgl_transport_peer_state_t) : Z :=
  if sw_window_size (tp_tx_window p) =? 0 then 1 else sw_window_size (tp_tx_window p).
Lemma cache_run i p packet n w :
  peer_at w i p -> packet_wf packet -> rx_sorted (tp_rx_next_packet_number p + 1) (tp_rx_buffered p) ->
  exists err w', transport_cache_out_of_order_packet i packet n w = Some (err, w') /\
    ((err <> XGL_OK /\ exists heap, w' = w <| w_heap := heap |>) \/
     (err = XGL_OK /\ w' = w /\ Exists (fun b => rx_number b = n) (tp_rx_buffered p)) \/
     (err = XGL_OK /\ u32 (n - tp_rx_next_packet_number p) < rx_window p /\ tp_rx_buffered_count p < rx_window p /\
      exists heap low high b, tp_rx_buffered p = low ++ high /\ copy_of packet n b /\
        Forall (fun b => rx_number b < n) low /\ Forall (fun b => n < rx_number b) high /\
        w' = with_peer i (p <| tp_rx_buffered := low ++ b :: high |>
                            <| tp_rx_buffered_count := u8 (tp_rx_buffered_count p + 1) |>)
                         (w <| w_heap := heap |>))).
Proof.
  intros Hp Hwf Hs. apply wp_run. unfold transport_cache_out_of_order_packet.
  assert (forall err, err <> XGL_OK -> exists heap, w = w <| w_heap := heap |>) as Hsame.
  { intros. exists (w_heap w). by destruct w. }
  destruct (pk_data packet) as [d|] eqn:Hd; cbn zeta iota;
    [|wp_step; left; split; [done|by apply (Hsame XGL_ERR_INVALID_PARAM)]].
  destruct (pd_data d) as [src|] eqn:Hsrc;
    [|rewrite bool_decide_eq_true_2 by done; cbn [orb]; wp_step; left; split; [done|by apply (Hsame XGL_ERR_INVALID_PARAM)]].
  case_if; [wp_step; left; split; [done|by apply (Hsame XGL_ERR_INVALID_PARAM)]|].
  wp_step. eapply wp_get_peer; [done|]. fold (rx_window p).
  case_if; [wp_step; left; split; [done|by apply (Hsame XGL_ERR_WINDOW_FULL)]|].
  case_if; [wp_step; left; split; [done|by apply (Hsame XGL_ERR_WINDOW_FULL)]|].
  destruct (find_rx_spec p n _ Hs) as (low & high & Hl & Hlow & Hhigh & Hfind). rewrite Hfind. cbn [fst].
  destruct (match high with b :: _ => _ | [] => NULL end) as [k|] eqn:Hk.
  { wp_step. right. left. split_and!; [done|done|]. rewrite Hl. apply Exists_app. right.
    destruct high as [|b high]; [done|]. apply Exists_cons. left. case_if_in Hk; [lia|done]. }
  assert (Forall (fun b => n < rx_number b) high) as Hgt.
  { rewrite Hl in Hs. apply rx_sorted_app in Hs as (_ & Hsh & _). destruct high as [|b high]; [constructor|].
    case_if_in Hk; [done|]. apply Forall_cons in Hhigh as [Hb _]. destruct Hsh as [_ Hsh].
    constructor; [lia|]. eapply Forall_impl; [by eapply rx_sorted_Forall|]. cbn. lia. }
  wp_step. apply wp_malloc. intros ok heap. destruct ok; cbn [negb]; [|wp_step; left; split; [done|by exists heap]].
  wp_step. apply wp_run. destruct (copy_run packet n d src (w <| w_heap := heap |>) Hd Hsrc Hwf) as (err & b & heap2 & Hrun & Hres).
  eexists _, _. split; [exact Hrun|]. cbn beta iota. destruct b as [b|]; [|wp_step; left; split; [done|by exists heap2]].
  destruct Hres as [-> Hcopy]. wp_step. eapply wp_put_peer; [done|]. wp_step. right. right. split_and!; [done|lia|lia|].
  destruct (insert_rx_run p b n _ Hs) as (low' & high' & Hl' & Hlow' & Hhigh' & ->).
  assert (low' = low /\ high' = high) as [-> ->].
  { assert (Forall (fun b => n < rx_number b) high') as Hgt'.
    { apply Forall_forall. intros x Hx. assert (x ∈ low ++ high) as Hin by (rewrite <- Hl, Hl'; apply elem_of_app; by right).
      rewrite Forall_forall in Hlow, Hgt, Hhigh'. specialize (Hhigh' x Hx).
      apply elem_of_app in Hin as [Hin|Hin]; [specialize (Hlow x Hin); lia|by apply Hgt]. }
    rewrite Hl in Hl'. clear -Hl' Hlow Hgt Hlow' Hgt'. revert low' Hl' Hlow'.
    induction low as [|x low IH]; intros [|y low'] Hl Hlow'; cbn in Hl; [done|..].
    - subst high. apply Forall_cons in Hgt as [? _]. apply Forall_cons in Hlow' as [? _]. lia.
    - subst high'. apply Forall_cons in Hgt' as [? _]. apply Forall_cons in Hlow as [? _]. lia.
    - injection Hl as -> Hl. apply Forall_cons in Hlow as [_ Hlow]. apply Forall_cons in Hlow' as [_ Hlow'].
      destruct (IH Hlow low' Hl Hlow') as [-> ->]. done. }
  exists heap2, low, high, b. split_and!; done.
Qed.
