(* ===== verification/Delivery.v ===== *)
(** * Ordered delivery

    The receive path of [Receive] on the packets of one flow - one source, scope
    and session - that arrive in any order, any number of times, with any losses:
    the application gets every payload at most once, in the order of the packet
    numbers, and never loses one that was accepted. *)
From S2P Require Import Prelude State Errors Layer Wire WireExt Codec Window Fragment Reliable Transport Acks Receive TransportLogic.

Section flow.
  (** The flow, and the payload of each packet number. *)
  Context (src conn epoch sess dtype : Z) (msg : Z -> bytes).

(** ** The packets of the flow *)

(** What identifies a packet of the flow and how it is to be delivered. *)
Definition flow_header (p : xgl_packet_t) : Prop :=
  pk_source_id p = src /\ pk_connection_id p = conn /\ pk_session_epoch p = epoch /\
  pk_data_type p = dtype /\ pk_fragment p = false.
Definition flow_packet (p : xgl_packet_t) : Prop :=
  flow_header p /\ packet_wf p /\ pk_session_id p = sess /\ pk_packet_type p = XGL_PACKET_TYPE_DATA /\
  pk_reliable p = XGL_RELIABILITY_ACK_ELICITING /\ pk_compress p = 0 /\
  0 <= pk_packet_number p < 2 ^ 32 - 1 /\
  exists d b, pk_data p = Ptr d /\ pd_data d = Ptr b /\
    take (Z.to_nat (pd_data_len d)) b = msg (pk_packet_number p).
Definition flow_buffered (b : xgl_transport_rx_buffered_packet_t) : Prop :=
  buffered_ok b /\ flow_header (rxb_packet b) /\ rxb_data b = msg (rx_number b) /\ rx_number b < 2 ^ 32 - 1.

(** A delivery of the message number [n], and those of [k], .., [k + n - 1]. *)
Definition message (n : Z) : transport_event := ev_deliver src dtype (map Some (msg n)) (zlen (msg n)).
Fixpoint messages (k : Z) (n : nat) : list transport_event :=
  match n with O => [] | S n => message k :: messages (k + 1) n end.
Lemma messages_app k n m : messages k (n + m) = messages k n ++ messages (k + Z.of_nat n) m.
Proof.
  revert k. induction n as [|n IH]; intros k; [cbn; f_equal; lia|]. cbn [messages Nat.add app]. rewrite IH.
  do 3 f_equal. lia.
Qed.
(** What the application got. *)
Definition is_delivery (e : transport_event) : bool := match e with ev_deliver _ _ _ _ => true | _ => false end.
Definition delivered (w : world) : list transport_event := filter (fun e => is_delivery e = true) (w_trace w).

Lemma delivered_sends es net w :
  Forall (fun e => event_ok e /\ is_send e) es -> delivered (after_events es net w) = delivered w.
Proof.
  intros Hes. unfold delivered, after_events. cbn. rewrite filter_app.
  assert (filter (fun e => is_delivery e = true) es = []) as ->; [|by rewrite app_nil_r].
  induction Hes as [|e es [_ [p ->]] _ IH]; [done|]. rewrite filter_cons. by rewrite decide_False.
Qed.

(** ** The state of the receiver *)

Definition flow_peer (peers : list xgl_transport_peer_state_t) : ptr nat :=
  if negb (conn =? 0) || negb (epoch =? 0)
  then find_peer_loop (fun p => (tp_peer_id p =? src) && tp_has_connection_scope p &&
                                (tp_connection_id p =? conn) && (tp_session_epoch p =? epoch)) peers 0
  else find_peer_loop (fun p => tp_peer_id p =? src) peers 0.
(** [k] is the next number; what is buffered is from [lo] on. *)
Definition peer_state (lo k : Z) (p : xgl_transport_peer_state_t) : Prop :=
  tp_session_id p = sess /\ 0 <= k < 2 ^ 32 /\
  (if tp_rx_has_packet_number_state p then tp_rx_next_packet_number p = k
   else k = 0 /\ tp_rx_buffered p = []) /\
  rx_sorted lo (tp_rx_buffered p) /\ Forall flow_buffered (tp_rx_buffered p) /\
  tp_rx_buffered_count p = zlen (tp_rx_buffered p) /\ sw_window_size (tp_tx_window p) <= 128.
Definition receiver (lo k : Z) (i : nat) (p : xgl_transport_peer_state_t) (w : world) : Prop :=
  peer_at w i p /\ flow_peer (tc_peers (w_ctx w)) = Ptr i /\ tc_rx_callback (w_ctx w) <> NULL /\
  peer_state lo k p.

Definition same_ids (p p' : xgl_transport_peer_state_t) : Prop :=
  tp_peer_id p' = tp_peer_id p /\ tp_has_connection_scope p' = tp_has_connection_scope p /\
  tp_connection_id p' = tp_connection_id p /\ tp_session_epoch p' = tp_session_epoch p.
Lemma find_peer_loop_insert f peers i p p' : forall n,
  peers !! i = Some p -> f p' = f p -> find_peer_loop f (<[i := p']> peers) n = find_peer_loop f peers n.
Proof.
  revert i. induction peers as [|q peers IH]; intros [|i] n; [done..| |]; cbn.
  - intros [= ->] ->. done.
  - intros Hp Hf. by rewrite IH.
Qed.
Lemma receiver_put lo k lo' k' i p p' w :
  receiver lo k i p w -> same_ids p p' -> peer_state lo' k' p' -> receiver lo' k' i p' (with_peer i p' w).
Proof.
  intros (Hp & Hf & Hcb & _) (H1 & H2 & H3 & H4) Hst. split; [by eapply peer_at_with|]. split; [|done].
  unfold with_peer. cbn. rewrite <- Hf. unfold flow_peer. unfold peer_at in Hp.
  case_if; by rewrite (find_peer_loop_insert _ _ _ p) by (rewrite ?H1, ?H2, ?H3, ?H4; done).
Qed.
Lemma receiver_frame lo k i p w w' :
  receiver lo k i p w -> tc_peers (w_ctx w') = tc_peers (w_ctx w) ->
  tc_rx_callback (w_ctx w') = tc_rx_callback (w_ctx w) -> receiver lo k i p w'.
Proof. unfold receiver, peer_at. by intros ? -> ->. Qed.
Lemma receiver_sends lo k i p es net w : receiver lo k i p w -> receiver lo k i p (after_events es net w).
Proof. intros. by eapply receiver_frame. Qed.

(** ** Delivery of one packet *)

(** The world after the application got the message number [n]. *)
Lemma hand_over_wp data len Q w :
  tc_rx_callback (w_ctx w) <> NULL ->
  (forall st, Q tt (w <| w_trace := w_trace w ++ [ev_deliver src dtype data len] |>
                      <| w_ctx := (w_ctx w) <| tc_stats := st |> |>)) ->
  wp (hand_over src dtype data len) Q w.
Proof.
  intros Hcb HQ. unfold hand_over. wp_step. wp_step. rewrite bool_decide_eq_false_2 by done.
  wp_step. wp_step. apply HQ.
Qed.
Lemma deliver_flow lo k i p q b len Q w :
  receiver lo k i p w -> flow_header q -> take (Z.to_nat len) b = msg (pk_packet_number q) -> 0 <= len <= zlen b ->
  (forall w', receiver lo k i p w' -> delivered w' = delivered w ++ [message (pk_packet_number q)] -> Q XGL_OK w') ->
  wp (transport_deliver_packet q (Ptr b) len) Q w.
Proof.
  intros Hrec (Hs & _ & _ & Ht & Hfr) Hmsg Hlen HQ. unfold transport_deliver_packet. wp_step. wp_step. rewrite Hfr.
  wp_step. eapply wp_lift; [by rewrite rd_bytes_Some by lia|]. rewrite drop_to_nat_0, Hmsg, Hs, Ht.
  assert (len = zlen (msg (pk_packet_number q))) as ->.
  { rewrite <- Hmsg. symmetry. by apply zlen_take. }
  wp_step. apply hand_over_wp; [apply Hrec|]. intros st. wp_step. apply HQ.
  - by eapply receiver_frame.
  - unfold delivered. cbn. by rewrite filter_app.
Qed.

(** ** The numbers that were accepted *)

(** Delivered already, or waiting. *)
Definition held (k : Z) (l : rx_buffer) (m : Z) : Prop := 0 <= m < k \/ Exists (fun b => rx_number b = m) l.

Lemma send_ack_wp n s c e Q w :
  is_u32 n = true ->
  (forall err es net, Forall (fun e => event_ok e /\ is_send e) es -> Q err (after_events es net w)) ->
  wp (transport_send_ack n src s c e) Q w.
Proof. intros Hn HQ. apply wp_sends; [by apply send_ack_sends|]. exact HQ. Qed.

(** The drain delivers the buffered packets without a gap. *)
Lemma drain_flow fuel : forall k i p Q w,
  receiver k k i p w -> tp_rx_has_packet_number_state p = true -> (length (tp_rx_buffered p) <= fuel)%nat ->
  (forall n p' w', receiver (k + Z.of_nat n + 1) (k + Z.of_nat n) i p' w' ->
     tp_rx_has_packet_number_state p' = true -> delivered w' = delivered w ++ messages k n ->
     (forall m, held (k + Z.of_nat n) (tp_rx_buffered p') m <-> held k (tp_rx_buffered p) m) -> Q XGL_OK w') ->
  wp (drain_loop fuel i) Q w.
Proof.
  induction fuel as [|fuel IH]; intros k i p Q w Hrec Hhas Hfuel HQ.
  all: pose proof Hrec as (Hp & Hf & Hcb & Hsess & Hk & Hst & Hsort & Hflow & Hcnt & Hwin); rewrite Hhas in Hst.
  all: cbn [drain_loop]; wp_step; eapply wp_get_peer; [done|]; wp_step; apply wp_run;
    destruct (take_rx_run i p (tp_rx_next_packet_number p) k w Hp Hsort Hcnt) as
      [(low & b & high & Hl & Hb & Hrun)|[Hnone Hrun]]; eexists _, _; (split; [exact Hrun|]); cbn beta iota.
  1: { rewrite Hl, length_app in Hfuel. cbn in Hfuel. lia. }
  1, 3: wp_step; apply (HQ O p w); [|done|cbn [messages]; by rewrite app_nil_r|intros m; by rewrite Z.add_0_r];
    rewrite Z.add_0_r; split_and!; try done; unfold peer_state; rewrite Hhas; split_and!; try done; try lia;
    apply rx_sorted_raise; [done|]; by rewrite <- Hst.
  (* the packet with the next number *)
  rewrite Hl in Hflow. apply Forall_app in Hflow as [Hfl [Hfb Hfh]%Forall_cons].
  destruct Hfb as ((Hbn & Hbl & Hbok & _) & Hbh & Hbm & Hbound). rewrite Hst in Hb.
  rewrite Hl in Hsort. apply rx_sorted_app in Hsort as (Hslow & [Hsb Hshigh] & Hlt).
  assert (low = []) as ->.
  { destruct low as [|a low]; [done|]. apply Forall_cons in Hlt as [[Ha _]%Forall_cons _].
    destruct Hslow as [? _]. lia. }
  cbn [app] in *. rewrite Hb in Hshigh. set (p1 := p <| tp_rx_buffered := high |> <| tp_rx_buffered_count := zlen high |>).
  assert (receiver (k + 1) k i p1 (with_peer i p1 w)) as Hrec1.
  { eapply receiver_put; [exact Hrec|done|]. unfold peer_state. cbn. rewrite Hhas. split_and!; done || lia. }
  wp_step. eapply deliver_flow; [exact Hrec1|done| |unfold zlen in *; lia|].
  { rewrite Hbl. unfold zlen. rewrite Nat2Z.id, firstn_all. exact Hbm. }
  intros w2 Hrec2 Hdel2. fold (rx_number b) in *. destruct Hbh as (Hs & _). rewrite Hs.
  wp_step. apply send_ack_wp; [apply is_u32_spec; lia|]. intros err es net Hes. cbn [is_ok negb].
  wp_step. pose proof (receiver_sends _ _ _ _ es net _ Hrec2) as Hrec3. eapply wp_put_peer; [apply Hrec3|].
  rewrite Hb, u32_small by lia.
  set (p4 := p1 <| tp_rx_next_packet_number := k + 1 |>).
  assert (receiver (k + 1) (k + 1) i p4 (with_peer i p4 (after_events es net w2))) as Hrec4.
  { eapply receiver_put; [exact Hrec3|done|]. unfold peer_state. cbn. rewrite Hhas. split_and!; done || lia. }
  eapply IH; [exact Hrec4|done|cbn; rewrite Hl in Hfuel; cbn in Hfuel; lia|].
  intros n p' w' Hrec' Hhas' Hdel' Hheld. apply (HQ (S n) p' w').
  - by replace (k + Z.of_nat (S n)) with (k + 1 + Z.of_nat n) by lia.
  - done.
  - rewrite Hdel'. change (delivered (with_peer i p4 (after_events es net w2))) with (delivered (after_events es net w2)).
    rewrite delivered_sends, Hdel2, Hb, <- app_assoc by done. done.
  - intros m. replace (k + Z.of_nat (S n)) with (k + 1 + Z.of_nat n) by lia. rewrite Hheld, Hl.
    unfold held. rewrite Exists_cons, Hb. cbn. clear -Hk; intuition lia.
Qed.

(** ** Reception of one packet *)

(** What a reception does: it delivers the next messages, and accepts [n] if it
    answers [XGL_OK]. *)
Definition reception (k : Z) (i : nat) (p : xgl_transport_peer_state_t) (w : world) (n : Z)
    (err : xgl_error_t) (w' : world) : Prop :=
  exists c p', let k' := k + Z.of_nat c in
    receiver (k' + 1) k' i p' w' /\ delivered w' = delivered w ++ messages k c /\
    (forall m, held k' (tp_rx_buffered p') m <-> held k (tp_rx_buffered p) m \/ (err = XGL_OK /\ m = n)) /\
    (n <= k -> err = XGL_OK).

(** The bookkeeping at the start of a reception. *)
Lemma receiver_touch lo k i p w f :
  receiver lo k i p w -> same_ids p (f p) -> tp_rx_buffered (f p) = tp_rx_buffered p ->
  peer_state lo k (f p) -> forall Q,
  (forall w', receiver lo k i (f p) w' -> delivered w' = delivered w -> Q tt w') -> wp (put_peer i f) Q w.
Proof.
  intros Hrec Hids Hbuf Hst Q HQ. eapply wp_put_peer; [apply Hrec|]. apply HQ; [|done].
  by eapply receiver_put.
Qed.
Lemma prepare_flow k i p q Q w :
  receiver (k + 1) k i p w -> flow_packet q -> sess <> 0 ->
  Q (XGL_OK, Ptr i) w -> wp (transport_prepare_rx_peer q) Q w.
Proof.
  intros Hrec ((Hs & Hc & He & _) & _ & Hsess & _) Hnz HQ. unfold transport_prepare_rx_peer.
  destruct Hrec as (Hp & Hf & _ & Hps & _). rewrite Hsess. replace (sess =? 0) with false by lia.
  wp_step. wp_step.
  assert (transport_find_rx_peer (w_ctx w) q = flow_peer (tc_peers (w_ctx w))) as ->.
  { unfold transport_find_rx_peer, flow_peer, is_scoped. by rewrite Hs, Hc, He. }
  rewrite Hf. wp_step. eapply wp_get_peer; [done|]. rewrite Hps, Z.eqb_refl. cbn [negb]. by wp_step.
Qed.

(** The packet is the next one: it is delivered, with those that wait for it. *)
Lemma in_order_flow k i p q b len w :
  receiver (k + 1) k i p w -> tp_rx_has_packet_number_state p = true -> flow_packet q ->
  pk_packet_number q = k -> take (Z.to_nat len) b = msg k -> 0 <= len <= zlen b ->
  wp (receive_in_order q (Ptr i) b len) (reception k i p w k) w.
Proof.
  intros Hrec Hhas (Hh & _ & _ & _ & Hrel & Hcomp & Hn & _) Hk Hmsg Hlen. unfold receive_in_order.
  wp_step. unfold decode_packet. wp_step. wp_step. rewrite Hcomp. cbn [Z.eqb]. wp_step. cbn beta iota.
  wp_step. eapply deliver_flow; [exact Hrec|done|by rewrite Hk|done|]. intros w1 Hrec1 Hdel1. cbn [is_ok negb].
  rewrite Hrel, Z.eqb_refl. cbn [transport_receive_packet_number]. wp_step. eapply wp_put_peer; [apply Hrec1|].
  rewrite Hk, u32_small by lia. rewrite Hk in Hn, Hdel1. set (p2 := p <| tp_rx_next_packet_number := k + 1 |>).
  pose proof Hrec as (_ & _ & _ & Hsess & Hkr & Hst & Hsort & Hflow & Hcnt & Hwin).
  assert (receiver (k + 1) (k + 1) i p2 (with_peer i p2 w1)) as Hrec2.
  { eapply receiver_put; [exact Hrec1|done|]. unfold peer_state. cbn. rewrite Hhas. split_and!; done || lia. }
  unfold transport_drain_rx_buffered. wp_step. eapply wp_get_peer; [apply Hrec2|].
  eapply drain_flow; [exact Hrec2|done|done|]. intros n p' w' Hrec' _ Hdel' Hheld.
  exists (S n), p'. cbn zeta. replace (k + Z.of_nat (S n)) with (k + 1 + Z.of_nat n) by lia.
  split; [done|]. split.
  { rewrite Hdel'. change (delivered (with_peer i p2 w1)) with (delivered w1). rewrite Hdel1, <- app_assoc. done. }
  split; [|done]. intros m. rewrite Hheld. unfold held. cbn. clear -Hkr. pose proof (eq_refl XGL_OK). destruct (decide (m = k)); intuition lia.
Qed.

(** The packet is ahead: it is buffered or refused, and a SACK goes out. *)
Lemma buffer_flow k i p q n w :
  receiver (k + 1) k i p w -> tp_rx_has_packet_number_state p = true -> flow_packet q ->
  pk_packet_number q = n -> k < n -> forall Q,
  (forall err w' p', receiver (k + 1) k i p' w' -> delivered w' = delivered w ->
     tp_rx_next_packet_number p' = k ->
     (forall m, held k (tp_rx_buffered p') m <-> held k (tp_rx_buffered p) m \/ (err = XGL_OK /\ m = n)) ->
     Q err w') ->
  wp (transport_cache_out_of_order_packet i q n) Q w.
Proof.
  intros Hrec Hhas (Hh & Hwf & _ & _ & _ & _ & Hnr & d & b & Hd & Hb & Hmsg) Hn Hkn Q HQ.
  pose proof Hrec as (Hp & _ & _ & Hsess & Hk & Hst & Hsort & Hflow & Hcnt & Hwin). rewrite Hhas in Hst.
  rewrite <- Hst in Hsort at 1.
  destruct (cache_run i p q n w Hp Hwf Hsort) as (err & w' & Hrun & Hres). apply wp_run. eexists _, _.
  split; [exact Hrun|]. destruct Hres as [(Herr & heap & ->)|[(-> & -> & Hex)|(-> & _ & Hroom & heap & low & high & c & Hl & Hcopy & Hlow & Hhigh & ->)]].
  - apply (HQ _ _ p); [by eapply receiver_frame|done|done|]. intros m. intuition congruence.
  - apply (HQ _ _ p); [done|done|done|]. intros m. split; [tauto|]. intros [?|[_ ->]]; [done|by right].
  - destruct (copy_of_ok q n c Hwf ltac:(lia) Hcopy) as [Hok Hcn].
    rewrite Hl in Hsort, Hflow, Hcnt. apply rx_sorted_app in Hsort as (Hsl & Hsh & Hlh). apply Forall_app in Hflow as [Hfl Hfh].
    eapply HQ; [eapply receiver_put; [by eapply receiver_frame|done|]|done|done|].
    + unfold peer_state. cbn. rewrite Hhas. split_and!; try done; try lia.
      * rewrite Hst in Hsl. apply rx_sorted_app. split; [done|]. split.
        -- cbn. split; [lia|]. destruct high as [|x high]; [done|]. apply Forall_cons in Hhigh as [Hx _].
           destruct Hsh as [_ Hsh]. cbn. split; [lia|done].
        -- apply Forall_forall. intros a Ha. rewrite Forall_forall in Hlow, Hlh. constructor.
           ++ specialize (Hlow a Ha). lia.
           ++ by apply Hlh.
      * apply Forall_app. split; [done|]. constructor; [|done]. split; [done|].
        destruct Hcopy as (d' & src' & ext & Hd' & Hsrc' & Hdata & _ & Hpk & _). rewrite Hd in Hd'. injection Hd' as <-.
        rewrite Hb in Hsrc'. injection Hsrc' as <-. split; [rewrite Hpk; exact Hh|].
        rewrite Hcn, Hdata, Hmsg, Hn. split; [done|lia].
      * unfold rx_window in Hroom. rewrite Hcnt, zlen_app in Hroom |- *. rewrite zlen_app, zlen_cons.
        pose proof (zlen_nonneg low). pose proof (zlen_nonneg high).
        rewrite u8_small; [lia|]. revert Hroom. case_if; lia.
    + intros m. cbn. rewrite Hl. unfold held. rewrite !Exists_app, Exists_cons, Hcn. clear; intuition congruence.
Qed.

(** The state of the receiver is there from the first reliable packet on. *)
Definition started (p : xgl_transport_peer_state_t) : xgl_transport_peer_state_t :=
  if tp_rx_has_packet_number_state p then p
  else p <| tp_rx_next_packet_number := 0 |> <| tp_rx_has_packet_number_state := true |>.
Lemma started_spec lo k i p w :
  receiver lo k i p w -> receiver lo k i (started p) (with_peer i (started p) w) /\
  tp_rx_has_packet_number_state (started p) = true /\ tp_rx_buffered (started p) = tp_rx_buffered p /\
  tp_rx_next_packet_number (started p) = k.
Proof.
  intros Hrec. pose proof Hrec as (Hp & Hf & Hcb & Hsess & Hk & Hst & Hrest). unfold started.
  destruct (tp_rx_has_packet_number_state p) eqn:Hhas; [by rewrite with_peer_same|].
  destruct Hst as [-> Hbuf]. split; [|done]. eapply receiver_put; [exact Hrec|done|].
  unfold peer_state. cbn. split_and!; try done; tauto.
Qed.
Lemma no_reception k i p w n w' p' :
  receiver (k + 1) k i p' w' -> delivered w' = delivered w ->
  forall err, (forall m, held k (tp_rx_buffered p') m <-> held k (tp_rx_buffered p) m \/ (err = XGL_OK /\ m = n)) ->
  (n <= k -> err = XGL_OK) -> reception k i p w n err w'.
Proof.
  intros Hrec Hdel err Hheld Hn. exists O, p'. rewrite Z.add_0_r. cbn [messages]. rewrite app_nil_r. done.
Qed.
Lemma order_flow k i p q w :
  receiver (k + 1) k i p w -> flow_packet q -> forall b len, take (Z.to_nat len) b = msg (pk_packet_number q) ->
  0 <= len <= zlen b ->
  wp (receive_reliable q (Ptr i) b len) (reception k i p w (pk_packet_number q)) w.
Proof.
  intros Hrec Hq b len Hmsg Hlen. pose proof Hq as ((Hs & Hc & He & _) & Hwf & Hsess & _ & _ & _ & Hn & _).
  set (n := pk_packet_number q) in *. unfold receive_reliable. wp_step. unfold transport_process_reliable_rx_order.
  wp_step. wp_step. cbn [transport_receive_packet_number]. fold n. wp_step. eapply wp_get_peer; [apply Hrec|].
  destruct (started_spec _ _ _ _ _ Hrec) as (Hrec1 & Hhas1 & Hbuf1 & Hnext1). wp_step.
  assert (forall Q : () -> world -> Prop, Q tt (with_peer i (started p) w) ->
    wp (if tp_rx_has_packet_number_state p then mret tt else put_peer i (fun p => p
          <| tp_rx_next_packet_number := 0 |> <| tp_rx_has_packet_number_state := true |>)) Q w) as Hstart.
  { intros Q HQ. unfold started in HQ. case_if.
    - rewrite with_peer_same in HQ by apply Hrec. by wp_step.
    - by eapply wp_put_peer; [apply Hrec|]. }
  apply Hstart. clear Hstart. set (p1 := started p) in *. set (w1 := with_peer i p1 w) in *. rewrite Hs.
  assert (delivered w1 = delivered w) as Hdel1 by done. wp_step. eapply wp_get_peer; [apply Hrec1|]. rewrite Hnext1.
  destruct (Z.ltb_spec n k) as [Hlt|Hge]; [|destruct (Z.ltb_spec k n) as [Hgt|Hle]].
  - (* a duplicate *)
    wp_step. apply send_ack_wp; [apply is_u32_spec; lia|]. intros err es net Hes. wp_step. cbn [is_ok negb].
    pose proof (receiver_sends _ _ _ _ es net _ Hrec1) as Hrec2. wp_step. eapply wp_get_peer; [apply Hrec2|].
    fold n. rewrite Hnext1. replace (n =? k) with false by lia. cbn [negb]. wp_step. apply (no_reception _ _ _ _ _ _ p1); [done| | |done].
    + by rewrite delivered_sends.
    + intros m. rewrite Hbuf1. unfold held. split; [tauto|]. intros [?|[_ ->]]; [done|left; lia].
  - wp_step. eapply buffer_flow; [exact Hrec1|done|done|done|done|]. intros err w2 p2 Hrec2 Hdel2 Hnext2 Hheld2. wp_step.
    pose proof Hrec2 as (Hp2 & _ & _ & _ & Hk2 & _ & _ & Hflow2 & _). apply wp_run.
    destruct (send_sack_run i p2 src k (pk_session_id q) (pk_connection_id q) (pk_session_epoch q) w2 Hp2 Hk2)
      as (err2 & net & bits & Hrun & _). { eapply Forall_impl; [exact Hflow2|]. intros x ((? & _) & _). done. }
    eexists _, _. split; [exact Hrun|]. clear Hrun. set (es := sent_if _ _).
    assert (delivered (after_events es net w2) = delivered w) as Hdel3.
    { rewrite <- Hdel1, <- Hdel2. unfold delivered, after_events. cbn. rewrite filter_app. unfold es, sent_if.
      case_if; [|by rewrite app_nil_r]. rewrite filter_cons, decide_False by done. by rewrite app_nil_r. }
    pose proof (receiver_sends _ _ _ _ es net _ Hrec2) as Hrec3.
    wp_step. destruct (is_ok err) eqn:Herr; cbn [negb].
    + wp_step. wp_step. rewrite Herr. cbn [negb]. wp_step. eapply wp_get_peer; [apply Hrec3|]. rewrite Hnext2. fold n. replace (n =? k) with false by lia.
      cbn [negb]. wp_step. apply (no_reception _ _ _ _ _ _ p2); [done|done| |done]. destruct err; try done. by rewrite <- Hbuf1.
    + unfold add_stats. wp_step. wp_step. rewrite Herr. cbn [negb]. wp_step. apply (no_reception _ _ _ _ _ _ p2); [by eapply receiver_frame|done| |lia].
      by rewrite <- Hbuf1.
  - assert (n = k) as Hnk by lia. wp_step. apply send_ack_wp; [apply is_u32_spec; lia|]. intros err es net Hes. wp_step. cbn [is_ok negb].
    pose proof (receiver_sends _ _ _ _ es net _ Hrec1) as Hrec2. wp_step. eapply wp_get_peer; [apply Hrec2|].
    fold n. rewrite Hnext1, Hnk, Z.eqb_refl. cbn [negb].
    eapply wp_mono; [apply (in_order_flow k i p1 q b len); try done; by rewrite <- Hnk|].
    intros err' w' (c & p' & Hr & Hd & Hh & Ho). exists c, p'. rewrite Hbuf1 in Hh.
    rewrite delivered_sends in Hd by done. done.
Qed.
Lemma receive_flow k i p q w :
  receiver (k + 1) k i p w -> flow_packet q -> sess <> 0 ->
  wp (xgl_transport_receive q) (reception k i p w (pk_packet_number q)) w.
Proof.
  intros Hrec Hq Hnz. pose proof Hq as (_ & Hwf & _ & Hty & Hrel & _ & _ & d & b & Hd & Hb & Hmsg).
  destruct Hwf as (Hdata & _). rewrite Hd in Hdata. rewrite Hb in Hdata. destruct Hdata as [Hlen _].
  unfold xgl_transport_receive. rewrite Hty, Hrel, Hd, Hb. cbn -[wp transport_prepare_rx_peer].
  change (wp (transport_prepare_rx_peer q ≫= fun x => let '(err, rx_peer) := x in
    if negb (is_ok err) then mret err else
      now ← xgl_time_ms;
      _ ← match rx_peer with
          | Ptr peer => put_peer peer (fun p => p <| tp_last_active_ms := now |>) | NULL => mret tt end;
      receive_reliable q rx_peer b (pd_data_len d))
    (reception k i p w (pk_packet_number q)) w).
  wp_step. eapply prepare_flow; [done|done|done|]. cbn [is_ok negb]. wp_step. wp_step. wp_step.
  eapply receiver_touch; [exact Hrec|done|done|apply Hrec|]. intros w1 Hrec1 Hdel1.
  eapply wp_mono; [by apply (order_flow k i _ q w1 Hrec1)|].
  intros err w' (c & p' & Hr & Hdel & Hh & Ho). exists c, p'. rewrite <- Hdel1. done.
Qed.

(** ** Runs *)

(** The packets are received one after the other, each at its time. *)
Fixpoint receive_all (qs : list (Z * xgl_packet_t)) : T (list xgl_error_t) :=
  match qs with
  | [] => mret []
  | (now, q) :: qs =>
      _ ← modify (fun w => w <| w_time := now |>);
      err ← xgl_transport_receive q;
      errs ← receive_all qs;
      mret (err :: errs)
  end.
(** Some packet with the number [m] was received with the answer [XGL_OK]. *)
Definition accepted (qs : list (Z * xgl_packet_t)) (errs : list xgl_error_t) (m : Z) : Prop :=
  exists j x, qs !! j = Some x /\ errs !! j = Some XGL_OK /\ pk_packet_number x.2 = m.

Lemma accepted_cons x qs err errs m :
  accepted (x :: qs) (err :: errs) m <-> (err = XGL_OK /\ m = pk_packet_number x.2) \/ accepted qs errs m.
Proof.
  split.
  - intros ([|j] & y & Hj & Hr & Hn); cbn in *; [injection Hj as <-; injection Hr as ->; by left|].
    right. by exists j, y.
  - intros [[-> ->]|(j & y & Hj & Hr & Hn)]; [by exists O, x|by exists (S j), y].
Qed.
Lemma receive_all_flow qs : forall k i p w,
  receiver (k + 1) k i p w -> sess <> 0 -> Forall (fun x => flow_packet x.2) qs ->
  wp (receive_all qs) (fun errs w' => exists c p', let k' := k + Z.of_nat c in
    receiver (k' + 1) k' i p' w' /\ delivered w' = delivered w ++ messages k c /\
    forall m, held k' (tp_rx_buffered p') m <-> held k (tp_rx_buffered p) m \/ accepted qs errs m) w.
Proof.
  induction qs as [|[now q] qs IH]; intros k i p w Hrec Hnz Hqs; cbn [receive_all].
  { wp_step. exists O, p. rewrite Z.add_0_r. cbn [messages]. rewrite app_nil_r. split_and!; [apply Hrec..|done|].
    intros m. split; [by left|]. intros [?|(j & x & Hj & _)]; [done|]. by rewrite lookup_nil in Hj. }
  apply Forall_cons in Hqs as [Hq Hqs]. cbn [snd] in Hq. wp_step. wp_step. wp_step.
  eapply wp_mono; [apply (receive_flow k i p); [by eapply receiver_frame|done|done]|].
  intros err w1 (c1 & p1 & Hrec1 & Hdel1 & Hheld1 & _). wp_step.
  eapply wp_mono; [by apply (IH _ i p1 w1 Hrec1)|]. intros errs w2 (c2 & p2 & Hrec2 & Hdel2 & Hheld2). wp_step.
  exists (c1 + c2)%nat, p2. cbn zeta in *. rewrite Nat2Z.inj_add, Z.add_assoc. split; [done|]. split.
  { rewrite Hdel2, Hdel1, messages_app, <- app_assoc. done. }
  intros m. rewrite Hheld2, Hheld1, accepted_cons. tauto.
Qed.

(** C4. Exactly-once, in-order delivery.  A receiver that knows the sender as a peer
    and has a receive callback, and has not got anything of the flow - the reliable, unfragmented and uncompressed DATA packets of one
    session of the sender (its id not 0), with numbers below 2^32 - 1 and for each number one
    payload ([flow_packet]) - takes its packets in any order, with any losses and
    duplicates, at any times, and with any failures of the allocator and of the
    lower layer: the application gets exactly the payloads of the numbers 0 .. k-1, in this
    order and each once, where k is the first number that was not accepted (no
    packet with it was answered by [XGL_OK]).  The packet of the flow that the
    receiver is waiting for is accepted and delivered whatever the state of memory,
    so a sender of such packets that repeats what is not acknowledged always makes
    progress.  Fragments and compressed packets, whose delivery can fail after they
    have been acknowledged, are not covered. *)
Theorem ordered_delivery i p w qs :
  receiver 1 0 i p w -> tp_rx_buffered p = [] -> sess <> 0 -> Forall (fun x => flow_packet x.2) qs ->
  exists errs w' k, receive_all qs w = Some (errs, w') /\ 0 <= k /\
    delivered w' = delivered w ++ messages 0 (Z.to_nat k) /\
    (forall m, 0 <= m < k -> accepted qs errs m) /\ ~ accepted qs errs k /\
    (forall q, flow_packet q -> pk_packet_number q = k ->
       exists w'' more, xgl_transport_receive q w' = Some (XGL_OK, w'') /\
         delivered w'' = delivered w' ++ message k :: more).
Proof.
  intros Hrec Hempty Hnz Hqs. pose proof (receive_all_flow qs 0 i p w Hrec Hnz Hqs) as Hrun.
  apply wp_run in Hrun as (errs & w' & Hrun & c & p' & Hrec' & Hdel & Hheld). rewrite Z.add_0_l in *. cbn zeta in *.
  pose proof Hrec' as (_ & _ & _ & _ & _ & _ & Hsort & _). apply rx_sorted_Forall in Hsort.
  assert (~ held (Z.of_nat c) (tp_rx_buffered p') (Z.of_nat c)) as Hnot.
  { intros [?|Hex]; [lia|]. apply Exists_exists in Hex as (b & Hb & Hn). rewrite Forall_forall in Hsort.
    specialize (Hsort b Hb). cbn in Hsort. lia. }
  exists errs, w', (Z.of_nat c). rewrite Nat2Z.id. split_and!; [done|lia|done| | |].
  - intros m Hm. destruct (proj1 (Hheld m)) as [[?|Hex]|?]; [by left|lia| |done]. rewrite Hempty in Hex. by inversion Hex.
  - intros Hacc. apply Hnot, Hheld. by right.
  - intros q Hq Hn. pose proof (receive_flow _ _ _ q _ Hrec' Hq Hnz) as Hstep.
    apply wp_run in Hstep as (err & w'' & Hstep & c2 & p2 & Hrec2 & Hdel2 & Hheld2 & Hok). rewrite Hn in *.
    rewrite (Hok ltac:(lia)) in *. exists w''. destruct c2 as [|c2].
    + exfalso. rewrite Z.add_0_r in *. pose proof Hrec2 as (_ & _ & _ & _ & _ & _ & Hsort2 & _).
      apply rx_sorted_Forall in Hsort2. destruct (proj2 (Hheld2 (Z.of_nat c))) as [?|Hex]; [by right|lia|].
      apply Exists_exists in Hex as (b & Hb & Hbn). rewrite Forall_forall in Hsort2.
      specialize (Hsort2 b Hb). cbn in Hsort2. lia.
    + by exists (messages (Z.of_nat c + 1) c2).
Qed.
End flow.

(** A receiver with one peer, and the packets of its flow. *)
Definition sample_peer : xgl_transport_peer_state_t :=
  mk_peer 7 false 0 0 3 false true (mk_window 4 0 0 (Ptr (replicate 4 false))) (xgl_reliable_init 5)
    initial_rtt 0 0 false [] 0 0.
Definition sample_ctx : xgl_transport_ctx_t :=
  mk_transport 1 5 1000 true 256 0 NULL 1 0 8 initial_rtt (mk_window 4 0 0 (Ptr (replicate 4 false)))
    (xgl_reliable_init 5) (Ptr (xgl_fragment_init 8 5000)) [sample_peer] (Ptr (mk_layer (Ptr 1) NULL NULL))
    (Ptr 2) (Ptr 3) (Ptr zero_layer_stats) (Ptr 0) NULL.
Definition sample_world : world := mk_world sample_ctx [] [] [] 100 (replicate 512 0).
Definition sample_msg (n : Z) : bytes := [n mod 256; 42].
Definition sample_data_packet (n : Z) : xgl_packet_t :=
  zero_packet <| pk_source_id := 7 |> <| pk_session_id := 3 |> <| pk_packet_number := n |>
    <| pk_packet_type := XGL_PACKET_TYPE_DATA |> <| pk_reliable := XGL_RELIABILITY_ACK_ELICITING |>
    <| pk_data := Ptr (mk_packet_data 1 2 (Ptr (sample_msg n)) NULL) |>.
Definition sample_order : list (Z * xgl_packet_t) :=
  map (fun n => (100 + n, sample_data_packet n)) [2; 1; 1; 0; 2; 9; 3].

Lemma sample_flow_packet n : 0 <= n < 100 -> flow_packet 7 0 0 3 0 sample_msg (sample_data_packet n).
Proof.
  intros Hn. unfold flow_packet. split; [done|]. split.
  { split; [|split; [done|by apply is_u32_spec; cbn; lia]]. cbn. split; [change (zlen (sample_msg n)) with 2; lia|].
    repeat constructor; try lia; apply Z.mod_pos_bound; lia. }
  do 4 (split; [done|]). split; [cbn; lia|]. by exists (mk_packet_data 1 2 (Ptr (sample_msg n)) NULL), (sample_msg n).
Qed.
Lemma ordered_delivery_witness :
  (exists w', receive_all sample_order sample_world =
     Some ([XGL_OK; XGL_OK; XGL_OK; XGL_OK; XGL_OK; XGL_ERR_WINDOW_FULL; XGL_OK], w') /\
     delivered w' = messages 7 0 sample_msg 0 4) /\
  exists errs w' k, receive_all sample_order sample_world = Some (errs, w') /\
    delivered w' = delivered sample_world ++ messages 7 0 sample_msg 0 (Z.to_nat k).
Proof.
  split; [eexists; split; vm_compute; reflexivity|].
  destruct (ordered_delivery 7 0 0 3 0 sample_msg 0%nat sample_peer sample_world sample_order) as
    (errs & w' & k & Hrun & _ & Hdel & _); [| | | |exists errs, w', k; split; [exact Hrun|exact Hdel]].
  - split; [reflexivity|]. split; [reflexivity|]. split; [discriminate|].
    split; [reflexivity|]. split; [lia|]. do 2 (split; [repeat split|]). split; [constructor|]. split; [reflexivity|]. cbn. lia.
  - reflexivity.
  - discriminate.
  - unfold sample_order. repeat (apply Forall_cons; split; [apply sample_flow_packet; lia|]). constructor.
Defined.
