(* ===== verification/TransportInv.v ===== *)
(** * The invariant of the transport layer

    What holds of a transport context between two calls, and that the
    acknowledgement, control and periodic operations of [Transport] and [Acks]
    are defined in every state in which it holds and keep it: no access out of
    bounds, no use of a freed packet, no signed overflow, every loop ends. *)
From S2P Require Import Prelude State Errors Layer Wire WireExt LinkedList HashTable Route Codec Window Rtt Fragment Reliable Transport Acks Receive TransportLogic.

(** ** The invariant *)

(** A packet of a queue to [target] with a number below [bound]. *)
Definition reliable_ok (bound target : Z) (p : xgl_reliable_packet_t) : Prop :=
  0 <= rp_initial_timeout_ms p < 2 ^ 30 /\ 0 <= rp_packet_number p < bound /\ rp_target_id p = target /\
  view_ok (rp_data p) (rp_data_len p) /\ view_ok (rp_extensions p) (rp_extensions_len p).
Definition queue_ok (bound target : Z) (q : xgl_reliable_queue_t) : Prop :=
  exists l, queue_rep q l [] /\ unique_keys l /\ Forall (fun x => reliable_ok bound target x.2) l.
(** The receive side; [lo] is a bound of the numbers in the buffer. *)
Definition rx_ok (lo : Z) (p : xgl_transport_peer_state_t) : Prop :=
  0 <= tp_rx_next_packet_number p < 2 ^ 32 /\ rx_sorted lo (tp_rx_buffered p) /\
  Forall buffered_ok (tp_rx_buffered p) /\ tp_rx_buffered_count p = zlen (tp_rx_buffered p) /\
  zlen (tp_rx_buffered p) <= 128 /\
  (tp_rx_has_packet_number_state p = false -> tp_rx_buffered p = []).
(** The send side; the packet numbers are below [bound]. *)
Definition tx_ok (bound : Z) (p : xgl_transport_peer_state_t) : Prop :=
  queue_ok (sw_next_packet_number (tp_tx_window p)) (tp_peer_id p) (tp_reliable_queue p) /\
  window_inv (tp_tx_window p) /\ sw_next_packet_number (tp_tx_window p) <= bound /\ tp_rtt_est p = initial_rtt.
Definition peer_ok (bound : Z) (p : xgl_transport_peer_state_t) : Prop :=
  tx_ok bound p /\ rx_ok (tp_rx_next_packet_number p + 1) p.

(** The reassembly keeps bytes. *)
Abbreviation any_byte := (fun (_ : Z * Z * Z * Z) (_ v : Z) => 0 <= v < 256).
Abbreviation any_size := (fun (_ : Z * Z * Z * Z) (_ : Z) => True).
(** A codec that respects the capacity it is given. *)
Definition process_safe (f : xgl_codec_process_fn) : Prop :=
  forall input len output out_len err output' out_len', zlen output = out_len -> bytes_ok output ->
    f input len output out_len = (err, output', out_len') -> err = XGL_OK ->
    0 <= out_len' <= zlen output' /\ bytes_ok output'.
Definition codec_safe (c : xgl_codec_t) : Prop :=
  (forall f, co_encode c = Ptr f -> process_safe f) /\ (forall f, co_decode c = Ptr f -> process_safe f).

Definition ctx_ok (bound : Z) (c : xgl_transport_ctx_t) : Prop :=
  Forall (peer_ok bound) (tc_peers c) /\ window_inv (tc_window c) /\
  match tc_fragment_mgr c with NULL => True | Ptr m => manager_ok any_byte any_size m end /\
  match tc_codec_registry c with NULL => True | Ptr r => registry_inv r /\ Forall codec_safe (registry_entries r) end /\
  tc_stats c <> NULL /\
  (match tc_route_table c with NULL => True | Ptr t => exists es, route_rep t es end /\
   exists l, queue_rep (tc_reliable_queue c) l []).
(** The world between two calls. *)
Definition world_ok (bound : Z) (w : world) : Prop :=
  ctx_ok bound (w_ctx w) /\ Forall event_ok (w_trace w) /\
  zlen (w_stack w) = XGL_DATALINK_STACK_BUFFER_SIZE /\ bytes_ok (w_stack w).

(** ** Steps that keep it *)

Definition n_peers (w : world) : nat := length (tc_peers (w_ctx w)).
Lemma n_peers_with i p w : n_peers (with_peer i p w) = n_peers w.
Proof. unfold n_peers. cbn. apply length_insert. Qed.

Lemma world_ok_peer bound w i p : world_ok bound w -> peer_at w i p -> peer_ok bound p.
Proof. intros ((Hp & _) & _) Hi. by eapply Forall_lookup_1. Qed.
Lemma world_ok_at bound w i : world_ok bound w -> (i < n_peers w)%nat -> exists p, peer_at w i p /\ peer_ok bound p.
Proof.
  intros Hw Hi. destruct (lookup_lt_is_Some_2 _ _ Hi) as [p Hp]. exists p. split; [done|]. by eapply world_ok_peer.
Qed.
Lemma world_ok_with bound w i p : world_ok bound w -> peer_ok bound p -> world_ok bound (with_peer i p w).
Proof. intros ((Hp & Hrest) & Hw) Hok. split; [|done]. split; [by apply Forall_insert|done]. Qed.
Lemma world_ok_events bound w es net :
  world_ok bound w -> Forall (fun e => event_ok e /\ is_send e) es -> world_ok bound (after_events es net w).
Proof.
  intros (Hc & Ht & Hs) Hes. split; [done|]. split; [|done]. unfold after_events. cbn. apply Forall_app. split; [done|].
  eapply Forall_impl; [exact Hes|]. by intros e [? _].
Qed.
Lemma world_ok_emit bound w e : world_ok bound w -> event_ok e -> world_ok bound (w <| w_trace := w_trace w ++ [e] |>).
Proof. intros (Hc & Ht & Hs) He. split; [done|]. split; [|done]. cbn. apply Forall_app. by split; [|constructor]. Qed.
Lemma world_ok_heap bound w heap : world_ok bound w -> world_ok bound (w <| w_heap := heap |>).
Proof. done. Qed.
Lemma world_ok_mono bound bound' w : world_ok bound w -> bound <= bound' -> world_ok bound' w.
Proof.
  intros ((Hp & Hrest) & Hw) Hle. split; [|done]. split; [|done]. eapply Forall_impl; [exact Hp|].
  intros p ((Hq & Hwin & Hn & Hr) & Hrx). split; [|done]. split_and!; try done. lia.
Qed.
(** An update of the context that leaves what the invariant speaks of. *)
Lemma world_ok_ctx bound w f :
  world_ok bound w -> ctx_ok bound (f (w_ctx w)) -> world_ok bound (w <| w_ctx := f (w_ctx w) |>).
Proof. intros (_ & Hrest) Hc. by split. Qed.

(** A postcondition that keeps the invariant and the number of peers. *)
Definition kept {A} (bound : Z) (w : world) (_ : A) (w' : world) : Prop :=
  world_ok bound w' /\ n_peers w' = n_peers w.

(** Sequencing: a step that keeps the invariant, before one that needs it. *)
Lemma kept_bind {A B} bound (m : T A) (f : A -> T B) w :
  wp m (kept bound w) w ->
  (forall a w', world_ok bound w' -> n_peers w' = n_peers w -> wp (f a) (kept bound w') w') ->
  wp (m ≫= f) (kept bound w) w.
Proof.
  intros Hm Hf. apply wp_bind. eapply wp_mono; [exact Hm|]. intros a w' [Hw Hn]. cbn beta.
  eapply wp_mono; [by apply Hf|]. intros b w'' [Hw2 Hn2]. split; [done|congruence].
Qed.
Lemma kept_ret {A} bound (a : A) w : world_ok bound w -> wp (mret a) (kept bound w) w.
Proof. intros Hw. by wp_step. Qed.
Lemma kept_put_peer bound i p f w :
  world_ok bound w -> peer_at w i p -> peer_ok bound (f p) -> wp (put_peer i f) (kept bound w) w.
Proof.
  intros Hw Hp Hok. eapply wp_put_peer; [done|]. split; [by apply world_ok_with|apply n_peers_with].
Qed.
Lemma kept_sends {A} bound (m : T A) w : world_ok bound w -> sends m w -> wp m (kept bound w) w.
Proof. intros Hw Hs. apply wp_sends; [done|]. intros a es net Hes. split; [by apply world_ok_events|done]. Qed.
Lemma kept_put_ctx bound f w :
  world_ok bound w -> (ctx_ok bound (w_ctx w) -> ctx_ok bound (f (w_ctx w)) /\ length (tc_peers (f (w_ctx w))) = n_peers w) ->
  wp (put_ctx f) (kept bound w) w.
Proof. intros Hw Hf. destruct (Hf (proj1 Hw)). apply wp_put_ctx. split; [by apply world_ok_ctx|done]. Qed.
Lemma kept_add_stats bound f w : world_ok bound w -> wp (add_stats f) (kept bound w) w.
Proof.
  intros Hw. apply kept_put_ctx; [done|]. intros (H1 & H2 & H3 & H4 & H5 & H6). split; [|done].
  do 4 (split; [done|]). split; [|done]. cbn. by destruct (tc_stats (w_ctx w)).
Qed.
Lemma kept_emit bound e w : world_ok bound w -> event_ok e -> wp (emit e) (kept bound w) w.
Proof. intros Hw He. apply wp_emit. split; [by apply world_ok_emit|done]. Qed.
Lemma kept_refl {A} bound (a : A) w : world_ok bound w -> kept bound w a w.
Proof. done. Qed.
#[export] Hint Resolve kept_ret kept_add_stats kept_refl : xgl.

(** ** Peers and sessions *)

Section inv.
  Context (bound : Z) (Hbound : 0 <= bound).

Lemma find_peer_loop_lt f peers : forall n i, find_peer_loop f peers n = Ptr i -> (n <= i < n + length peers)%nat.
Proof.
  induction peers as [|p peers IH]; intros n i; [done|]. cbn [find_peer_loop length].
  case_if; [intros [= ->]; lia|]. intros Hi%IH. lia.
Qed.
(** A pointer to a peer that was found or created. *)
Definition got_peer (w : world) (r : ptr nat) (w' : world) : Prop :=
  world_ok bound w' /\ (n_peers w <= n_peers w')%nat /\ forall i, r = Ptr i -> (i < n_peers w')%nat.

Lemma init_window_wp size w Q :
  1 <= size <= 128 ->
  (forall err win heap, (err = XGL_OK -> window_inv win /\ sw_next_packet_number win = 0) ->
     Q (err, win) (w <| w_heap := heap |>)) ->
  wp (init_window size) Q w.
Proof.
  intros Hs HQ. unfold wp, init_window, xgl_window_init_with_allocator.
  replace ((size =? 0) || (128 <? size)) with false by lia. destruct (alloc_answer size (w_heap w)) as [[] heap].
  - apply HQ. intros _. split; [|done]. unfold window_inv. cbn. split_and!; try done; try lia.
    eexists. split; [done|]. unfold zlen. rewrite length_replicate. lia.
  - by apply HQ.
Qed.
Lemma queue_ok_init b t max : queue_ok b t (xgl_reliable_init max).
Proof. exists []. split_and!; [apply init_rep| |constructor]. intros x y n t' Hx. by apply elem_of_nil in Hx. Qed.
Lemma get_or_create_wp src conn epoch scoped w :
  world_ok bound w ->
  wp (transport_get_or_create_peer_internal src conn epoch scoped) (got_peer w) w.
Proof.
  intros Hw. unfold transport_get_or_create_peer_internal. wp_step. wp_step.
  destruct (if scoped then _ else _) as [i|] eqn:Hfind.
  { wp_step. split; [done|]. split; [done|]. intros ? [= <-]. unfold n_peers.
    destruct scoped; apply find_peer_loop_lt in Hfind; lia. }
  wp_step. apply wp_malloc. intros ok heap. destruct ok; cbn [negb]; [|by wp_step]. wp_step. wp_step. wp_step.
  destruct Hw as ((Hp & Hwin & Hrest) & Ht). apply init_window_wp; [apply Hwin|]. intros err win heap2 Hok.
  destruct (is_ok err) eqn:Herr; cbn [negb]; [|by wp_step]. destruct Hok as [Hinv Hnext]; [by destruct err|].
  wp_step. wp_step. wp_step. split; [|unfold n_peers; cbn; split; [lia|intros ? [= <-]; lia]].
  split; [|done]. split; [|done]. cbn. constructor; [|done]. split.
  - unfold tx_ok. cbn. split; [apply queue_ok_init|]. split; [done|]. split; [lia|done].
  - unfold rx_ok. cbn. split_and!; try done; try lia; constructor.
Qed.

(** The parts of the invariant do not see each other's fields. *)
Lemma clear_scope_ok m src conn epoch :
  manager_ok any_byte any_size m -> manager_ok any_byte any_size (xgl_fragment_clear_reassembly_scope m src conn epoch).2.
Proof.
  intros Hm. destruct (fragment_step_ok any_byte any_size m (op_clear_scope src conn epoch) [] Hm) as
    (m' & ds & env & Hrun & Hok & _); [done|]. cbn in Hrun. by injection Hrun as -> _ _.
Qed.
Lemma clear_queue_ok b t q : queue_ok b t q -> exists q', xgl_reliable_clear q = Some q' /\ forall b', queue_ok b' t q'.
Proof.
  intros (l & Hrep & _). destruct (clear_spec _ _ _ Hrep) as (q' & Hrun & Hrep' & _). exists q'. split; [done|].
  intros b'. exists []. split; [done|]. split; [|constructor]. intros x y n t' Hx. by apply elem_of_nil in Hx.
Qed.
Lemma reset_peer_wp i sess conn epoch w :
  world_ok bound w -> (i < n_peers w)%nat ->
  wp (transport_reset_peer_state i sess conn epoch) (kept bound w) w.
Proof.
  intros Hw Hi. destruct (world_ok_at _ _ _ Hw Hi) as (p & Hp & (Hq & Hwin & Hn & Hr) & Hrx).
  unfold transport_reset_peer_state. wp_step. eapply wp_get_peer; [done|].
  destruct (clear_queue_ok _ _ _ Hq) as (q' & Hq' & Hqok). wp_step. eapply wp_lift; [done|].
  destruct (window_reset_total _ Hwin) as (win & Hwin' & Hwinok & Hnext). wp_step. eapply wp_lift; [done|].
  eapply kept_bind.
  { eapply kept_put_peer; [done|done|]. split; [|exact Hrx]. unfold tx_ok. cbn. rewrite Hnext.
    split_and!; try done. }
  intros _ w1 Hw1 Hn1. wp_step. wp_step. destruct (window_reset_total (tc_window (w_ctx w1))) as (cwin & Hcwin & Hcok & _).
  { apply Hw1. } wp_step. eapply wp_lift; [done|].
  eapply kept_bind. { apply kept_put_ctx; [done|]. intros (H1 & H2 & H3). done. }
  intros _ w2 Hw2 Hn2. eapply kept_bind.
  { apply kept_put_ctx; [done|]. intros (H1 & H2 & H3 & H4). split; [|done]. split; [done|]. split; [done|]. split; [|done]. cbn.
    destruct (tc_fragment_mgr (w_ctx w2)) as [m|]; [|done]. cbn. by apply clear_scope_ok. }
  intros _ w3 Hw3 Hn3. wp_step. wp_step. destruct (world_ok_at _ w3 i Hw3 ltac:(lia)) as (p3 & Hp3 & (Hq3 & Hwin3 & Hn3' & Hr3) & Hrx3).
  eapply kept_put_peer; [done|done|]. split; [by unfold tx_ok; cbn|]. unfold rx_ok. cbn. split_and!; try done; lia.
Qed.

Lemma deadline_loop_total q l l' out e :
  queue_rep q l out -> l' ⊆ l -> exists d, deadline_loop q l'.*1 e = Some d.
Proof.
  intros Hrep. revert e. induction l' as [|[a p] l' IH]; intros e Hsub; cbn [fmap list_fmap deadline_loop fst]; [by eexists|].
  destruct (rep_lookup _ _ _ a p Hrep) as (c & -> & _); [apply Hsub; by left|]. cbn [mbind option_bind].
  assert (l' ⊆ l) as Hsub' by (intros x Hx; apply Hsub; by right). repeat case_if; by apply IH.
Qed.
Lemma update_deadline_wp i w :
  world_ok bound w -> (i < n_peers w)%nat -> wp (transport_update_peer_deadline i) (kept bound w) w.
Proof.
  intros Hw Hi. destruct (world_ok_at _ _ _ Hw Hi) as (p & Hp & Htx & Hrx). pose proof Htx as ((l & Hrep & _) & _).
  unfold transport_update_peer_deadline. wp_step. eapply wp_get_peer; [done|].
  destruct (deadline_loop_total _ _ l _ 0 Hrep) as [d Hd]; [done|]. pose proof Hrep as (Hwl & _).
  wp_step. eapply wp_lift; [by rewrite Hwl|]. by eapply kept_put_peer.
Qed.

Lemma control_packet_wp q w :
  world_ok bound w -> wp (transport_process_control_packet q) (fun _ w' => world_ok bound w') w.
Proof.
  intros Hw. unfold transport_process_control_packet. case_if; [by wp_step|]. case_if; [by wp_step|].
  wp_step. apply (wp_mono _ (got_peer w)). { case_if; by apply get_or_create_wp. }
  intros [i|] w1 (Hw1 & Hle & Hi); [|by wp_step]. specialize (Hi i eq_refl).
  destruct (world_ok_at _ _ _ Hw1 Hi) as (p & Hp & Hok). wp_step. eapply wp_get_peer; [done|]. wp_step.
  apply (wp_mono _ (kept bound w1)).
  - case_if; [by apply reset_peer_wp|]. wp_step. wp_step. by eapply kept_put_peer.
  - intros _ w2 [Hw2 _]. by wp_step.
Qed.

(** ** Retransmission *)

(** The wait-ACK list of a peer. *)
Definition wait_list (w : world) (i : nat) : list addr :=
  match tc_peers (w_ctx w) !! i with Some p => rq_wait_ack_list (tp_reliable_queue p) | None => [] end.
Lemma wait_list_at w i p : peer_at w i p -> wait_list w i = rq_wait_ack_list (tp_reliable_queue p).
Proof. unfold wait_list, peer_at. by intros ->. Qed.
Definition kept_list {A} (i : nat) (w : world) (a : A) (w' : world) : Prop :=
  kept bound w a w' /\ wait_list w' i = wait_list w i.

Lemma reliable_ok_clean b t c : reliable_ok b t (clean c) <-> reliable_ok b t c.
Proof. by destruct c. Qed.
(** A packet of the queue, and what may be stored in its place. *)
Lemma queue_packet b t q a :
  queue_ok b t q -> a ∈ rq_wait_ack_list q ->
  exists c, rq_packets q !! a = Some c /\ reliable_ok b t c /\
    forall c', rp_index_next c' = rp_index_next c -> rp_target_id c' = rp_target_id c ->
      rp_packet_number c' = rp_packet_number c -> reliable_ok b t c' ->
      queue_ok b t (q <| rq_packets := <[a := c']> (rq_packets q) |>).
Proof.
  intros (l & Hrep & Hu & Hok) Ha. pose proof Hrep as (Hw & _). rewrite Hw in Ha.
  apply list_elem_of_fmap in Ha as ([a' p] & -> & Hin). cbn [fst].
  destruct (rep_lookup _ _ _ _ _ Hrep Hin) as (c & Hc & Hp). exists c. split; [done|].
  rewrite Forall_forall in Hok. pose proof (Hok _ Hin) as Hpok. cbn in Hpok. rewrite <- Hp, reliable_ok_clean in Hpok.
  split; [done|]. intros c' Hnext Ht Hn Hok'. apply list_elem_of_split in Hin as (l1 & l2 & ->).
  exists (l1 ++ (a', clean c') :: l2). split; [by eapply rep_update|]. split.
  - assert (forall x, x ∈ l1 ++ (a', clean c') :: l2 -> exists y, y ∈ l1 ++ (a', p) :: l2 /\ x.1 = y.1 /\
      forall n t, matches n t x.2 = matches n t y.2) as Hmap.
    { intros x Hx. apply elem_of_app in Hx as [Hx|[->|Hx]%elem_of_cons].
      - exists x. split; [apply elem_of_app; by left|done].
      - exists (a', p). split; [apply elem_of_app; right; by left|]. split; [done|]. intros n t0. cbn. rewrite <- Hp.
        unfold matches, clean. cbn. by rewrite Ht, Hn.
      - exists x. split; [apply elem_of_app; right; by right|done]. }
    intros x y n t' Hx Hy Hmx Hmy. destruct (Hmap x Hx) as (x' & Hx' & -> & Hxe). destruct (Hmap y Hy) as (y' & Hy' & -> & Hye).
    rewrite Hxe in Hmx. rewrite Hye in Hmy. by eapply Hu.
  - apply Forall_forall. intros x Hx. apply elem_of_app in Hx as [Hx|[->|Hx]%elem_of_cons].
    + apply Hok, elem_of_app. by left.
    + cbn. by apply reliable_ok_clean.
    + apply Hok, elem_of_app. right. by right.
Qed.
Lemma remove_queue_ok b t q n t' :
  queue_ok b t q -> exists err q', xgl_reliable_remove_packet_number q n t' = Some (err, q') /\ queue_ok b t q'.
Proof.
  intros (l & Hrep & Hu & Hok). destruct (remove_one_spec q l [] n t' Hrep Hu) as (err & q' & Hrun & Hrep' & _).
  exists err, q'. split; [done|]. eexists. split; [exact Hrep'|].
  split; [eapply unique_sublist; [exact Hu|]|eapply Forall_sublist; [exact Hok|]]; apply unacked_sublist.
Qed.
(** A packet of the queue is found by its own key. *)
Lemma remove_own b t q a c :
  queue_ok b t q -> a ∈ rq_wait_ack_list q -> rq_packets q !! a = Some c ->
  exists err q', xgl_reliable_remove_packet_number q (rp_packet_number c) (rp_target_id c) = Some (err, q') /\
    queue_ok b t q' /\ rq_wait_ack_list q' = list_without a (rq_wait_ack_list q).
Proof.
  intros (l & Hrep & Hu & Hok) Ha Hc. pose proof Hrep as (Hw & _). rewrite Hw in Ha.
  apply list_elem_of_fmap in Ha as ([a' p] & -> & Hin). cbn [fst] in *.
  destruct (rep_lookup _ _ _ _ _ Hrep Hin) as (c' & Hc' & Hp). rewrite Hc in Hc'. injection Hc' as <-.
  assert (matches (rp_packet_number c) (rp_target_id c) p = true) as Hm.
  { rewrite <- Hp. unfold matches, clean. cbn. by rewrite !Z.eqb_refl. }
  destruct (remove_spec q l [] (rp_packet_number c) (rp_target_id c) Hrep) as (err & q' & Hrun & _ & Hres).
  exists err, q'. split; [done|]. destruct (newest l _ _) as [x|] eqn:Hnew.
  - apply newest_elem in Hnew as [Hx Hxm]. assert (x.1 = a') as Hxa by exact (Hu x (a', p) _ _ Hx Hin Hxm Hm).
    destruct Hres as [_ Hrep']. rewrite Hxa in Hrep'. split.
    + exists (without a' l). split; [done|].
      split; [eapply unique_sublist; [exact Hu|]|eapply Forall_sublist; [exact Hok|]]; apply sublist_filter.
    + destruct Hrep' as (-> & _). by rewrite without_fst, Hw.
  - exfalso. unfold newest in Hnew. apply last_None in Hnew.
    assert ((a', p) ∈ filter (fun x => matches (rp_packet_number c) (rp_target_id c) x.2 = true) l) as Hf
      by (by apply list_elem_of_filter). rewrite Hnew in Hf. by apply elem_of_nil in Hf.
Qed.

Lemma wp_get_queue i p Q w : peer_at w i p -> Q (tp_reliable_queue p) w -> wp (get_queue i) Q w.
Proof. intros Hp HQ. unfold get_queue. wp_step. eapply wp_get_peer; [done|]. by wp_step. Qed.
Lemma tx_ok_queue p q : tx_ok bound p ->
  queue_ok (sw_next_packet_number (tp_tx_window p)) (tp_peer_id p) q -> tx_ok bound (p <| tp_reliable_queue := q |>).
Proof. by intros (_ & Hrest) Hq. Qed.
Lemma kept_put_queue i p q w :
  world_ok bound w -> peer_at w i p -> queue_ok (sw_next_packet_number (tp_tx_window p)) (tp_peer_id p) q ->
  wp (put_queue i q) (fun a w' => kept bound w a w' /\ wait_list w' i = rq_wait_ack_list q) w.
Proof.
  intros Hw Hp Hq. destruct (world_ok_peer _ _ _ _ Hw Hp) as [Htx Hrx]. unfold put_queue. eapply wp_put_peer; [done|].
  set (p' := p <| tp_reliable_queue := q |>). split.
  - split; [apply world_ok_with; [done|]; split; [by apply tx_ok_queue|done]|apply n_peers_with].
  - by rewrite (wait_list_at _ _ p') by by eapply peer_at_with.
Qed.
Lemma kept_list_frame {A} i (w w' : world) (a : A) :
  kept bound w a w' -> tc_peers (w_ctx w') = tc_peers (w_ctx w) -> kept_list i w a w'.
Proof. intros Hk Hp. split; [done|]. unfold wait_list. by rewrite Hp. Qed.
Lemma count_error_wp i w : world_ok bound w -> wp transport_count_send_error (kept_list i w) w.
Proof.
  intros Hw. pose proof (kept_add_stats bound (fun s => s <| ls_tx_errors := u64 (ls_tx_errors s + 1) |>) w Hw) as Hk.
  apply wp_put_ctx. by apply kept_list_frame.
Qed.

Lemma retransmitted_ok b t c : 0 <= b < 2 ^ 32 -> reliable_ok b t c ->
  packet_wf (retransmitted_packet c) /\ pk_data (retransmitted_packet c) <> NULL.
Proof.
  intros Hb (_ & Hn & _ & Hd & He). split; [|done]. split; [done|]. split; [done|]. apply is_u32_spec. cbn. lia.
Qed.
Lemma retransmit_wp i a now w :
  world_ok bound w -> (i < n_peers w)%nat -> a ∈ wait_list w i -> bound < 2 ^ 32 ->
  wp (transport_retransmit_reliable_packet i a now) (kept_list i w) w.
Proof.
  intros Hw Hi Ha Hb. destruct (world_ok_at _ _ _ Hw Hi) as (p & Hp & (Hq & Hwin & Hn & Hr) & Hrx).
  unfold transport_retransmit_reliable_packet. wp_step. wp_step.
  destruct (can_send_down (w_ctx w)) eqn:Hdown; cbn [negb]; [|by wp_step]. wp_step. eapply wp_get_queue; [done|].
  rewrite (wait_list_at _ _ _ Hp) in Ha. destruct (queue_packet _ _ _ _ Hq Ha) as (c & Hc & Hcok & Hupd).
  wp_step. eapply wp_lift; [done|].
  destruct (layer_send_run (w_ctx w) (retransmitted_packet c) w Hdown) as ([err phy] & net & Hrun).
  wp_step. apply wp_run. eexists _, _. split; [exact Hrun|]. cbn beta iota.
  assert (0 <= sw_next_packet_number (tp_tx_window p) < 2 ^ 32) as Hnr.
  { destruct Hwin as (_ & _ & Hn'%is_u32_spec & _). lia. }
  destruct (retransmitted_ok _ _ _ Hnr Hcok) as [Hwf Hdata].
  set (w1 := after_events _ net w). assert (world_ok bound w1) as Hw1.
  { apply world_ok_events; [done|]. repeat constructor; [apply Hwf..|done|by eexists]. }
  destruct (is_ok err); cbn [negb].
  - wp_step. eapply wp_lift; [apply calc_backoff_spec, Hcok|]. wp_step.
    eapply wp_mono; [apply (kept_put_queue i p); [done|done|]|].
    { apply Hupd; done. }
    intros _ w2 [[Hw2 Hn2] Hl2]. wp_step. split; [done|]. rewrite Hl2. by rewrite (wait_list_at _ _ _ Hp).
  - wp_step. eapply wp_mono; [by apply (count_error_wp i)|]. intros _ w2 [[Hw2 Hn2] Hl2]. by wp_step.
Qed.

(** One iteration leaves the list as it is, or takes the packet out. *)
Lemma retransmission_body_wp i a now cnt w :
  world_ok bound w -> (i < n_peers w)%nat -> a ∈ wait_list w i -> bound < 2 ^ 32 ->
  wp (retransmission_body i a now cnt) (fun _ w' => kept bound w tt w' /\
    (wait_list w' i = wait_list w i \/ wait_list w' i = list_without a (wait_list w i))) w.
Proof.
  intros Hw Hi Ha Hb. destruct (world_ok_at _ _ _ Hw Hi) as (p & Hp & (Hq & Hwin & Hn & Hr) & Hrx).
  unfold retransmission_body. wp_step. eapply wp_get_queue; [done|]. pose proof Ha as Ha'.
  rewrite (wait_list_at _ _ _ Hp) in Ha'. destruct (queue_packet _ _ _ _ Hq Ha') as (c & Hc & Hcok & _).
  wp_step. eapply wp_lift; [done|]. case_if; [wp_step; split; [done|by left]|].
  case_if; [wp_step; split; [done|by left]|]. case_if.
  - destruct (remove_own _ _ _ _ _ Hq Ha' Hc) as (err & q' & Hrun & Hq' & Hwl).
    wp_step. eapply wp_lift; [done|]. cbn beta iota. wp_step.
    eapply wp_mono; [apply (kept_put_queue i p); done|]. intros _ w1 [[Hw1 Hn1] Hl1]. rewrite Hwl in Hl1.
    wp_step. wp_step. wp_step.
    assert (wp (if bool_decide (tc_error_callback (w_ctx w1) = NULL) then mret tt else emit (ev_error XGL_ERR_ACK_TIMEOUT))
      (kept_list i w1) w1) as Hemit.
    { case_if; [by wp_step|]. apply wp_emit. apply kept_list_frame; [|done]. split; [by apply world_ok_emit|done]. }
    eapply wp_mono; [exact Hemit|]. intros _ w2 [[Hw2 Hn2] Hl2]. wp_step.
    eapply wp_mono; [by apply (count_error_wp i)|]. intros _ w3 [[Hw3 Hn3] Hl3]. wp_step.
    split; [split; [done|congruence]|]. right. rewrite Hl3, Hl2, Hl1. by rewrite (wait_list_at _ _ _ Hp).
  - wp_step. eapply wp_mono; [by apply retransmit_wp|]. intros err w1 [Hk Hl]. wp_step. split; [exact Hk|by left].
Qed.
Lemma next_node_spec pre b rest : b ∉ pre -> next_node (pre ++ b :: rest) b = Some (head rest).
Proof.
  induction pre as [|c pre IH]; intros Hb; cbn [app next_node]; [by rewrite bool_decide_eq_true_2|].
  apply not_elem_of_cons in Hb as [Hcb Hb]. rewrite bool_decide_eq_false_2 by congruence. by apply IH.
Qed.
Lemma retransmission_loop_wp i now fuel : forall pre rest cnt w,
  world_ok bound w -> (i < n_peers w)%nat -> bound < 2 ^ 32 ->
  wait_list w i = pre ++ rest -> NoDup (pre ++ rest) -> (length rest <= fuel)%nat ->
  wp (retransmission_loop fuel i (head rest) (head (tail rest)) now cnt) (kept bound w) w.
Proof.
  induction fuel as [|fuel IH]; intros pre [|a post] cnt w Hw Hi Hb Hl Hnd Hf; cbn [retransmission_loop head tail];
    try (by wp_step); [cbn in Hf; lia|].
  wp_step. eapply wp_mono; [apply retransmission_body_wp; try done|].
  { rewrite Hl. apply elem_of_app. right. by left. }
  intros cnt' w1 [[Hw1 Hn1] Hl1].
  assert (exists pre', wait_list w1 i = pre' ++ post /\ NoDup (pre' ++ post)) as (pre' & Hl' & Hnd').
  { rewrite Hl in Hl1. destruct Hl1 as [Hl1|Hl1].
    - exists (pre ++ [a]). by rewrite <- app_assoc.
    - exists pre. rewrite list_without_middle in Hl1 by done. split; [done|].
      apply NoDup_app in Hnd as (H1 & H2 & [_ H3]%NoDup_cons). apply NoDup_app. split_and!; [done| |done].
      intros x Hx Hp. apply (H2 x Hx). by right. }
  destruct (world_ok_at _ w1 i Hw1 ltac:(lia)) as (p & Hp & Hok). wp_step. eapply wp_get_queue; [done|].
  rewrite <- (wait_list_at _ _ _ Hp), Hl'. wp_step.
  assert ((match head post with Ptr b => next_node (pre' ++ post) b | NULL => Some NULL end) = Some (head (tail post))) as Hnext.
  { destruct post as [|b rest]; [done|]. cbn [head tail]. apply next_node_spec.
    apply NoDup_app in Hnd' as (_ & Hd & _). intros Hin. apply (Hd b Hin). by left. }
  eapply wp_lift; [exact Hnext|]. eapply wp_mono; [by eapply (IH pre'); try done; [lia|cbn in Hf; lia]|].
  intros r w2 [Hw2 Hn2]. split; [done|congruence].
Qed.
Lemma queue_NoDup b t q : queue_ok b t q -> NoDup (rq_wait_ack_list q).
Proof. intros (l & (Hw & (Hnd & _) & _) & _). by rewrite Hw. Qed.
Lemma retransmission_queue_wp i now w :
  world_ok bound w -> (i < n_peers w)%nat -> bound < 2 ^ 32 ->
  wp (transport_process_retransmission_queue i now) (kept bound w) w.
Proof.
  intros Hw Hi Hb. destruct (world_ok_at _ _ _ Hw Hi) as (p & Hp & (Hq & _) & _).
  unfold transport_process_retransmission_queue. wp_step. eapply wp_get_queue; [done|].
  apply (retransmission_loop_wp i now _ []); try done; [by apply wait_list_at|by eapply queue_NoDup].
Qed.
Lemma retransmissions_wp now n : forall i cnt w,
  world_ok bound w -> (i + n <= n_peers w)%nat -> bound < 2 ^ 32 ->
  wp (retransmissions_loop n i now cnt) (kept bound w) w.
Proof.
  induction n as [|n IH]; intros i cnt w Hw Hi Hb; cbn [retransmissions_loop]; [by wp_step|].
  eapply kept_bind; [apply retransmission_queue_wp; [done|lia|done]|]. intros c w1 Hw1 Hn1.
  eapply kept_bind; [apply update_deadline_wp; [done|lia]|]. intros _ w2 Hw2 Hn2. apply IH; [done|lia|done].
Qed.

(** ** The periodic work *)

Lemma reclaim_loop_total idle now peers : forall n,
  Forall (peer_ok bound) peers ->
  exists kept m, reclaim_loop idle now peers n = Some (kept, m) /\ Forall (peer_ok bound) kept.
Proof.
  induction peers as [|p peers IH]; intros n Hok; cbn [reclaim_loop]; [by exists [], n|].
  apply Forall_cons in Hok as [Hp Hok]. case_if.
  - pose proof Hp as ((Hq & _) & _). destruct (clear_queue_ok _ _ _ Hq) as (q' & Hrun & _). unfold xgl_reliable_destroy.
    rewrite Hrun. cbn [mbind option_bind]. by apply IH.
  - destruct (IH n Hok) as (k & m & -> & Hk). cbn [mbind option_bind]. eexists _, _. split; [reflexivity|]. by constructor.
Qed.
Lemma reclaim_wp now w :
  world_ok bound w -> wp (transport_reclaim_idle_peers now) (fun _ w' => world_ok bound w') w.
Proof.
  intros Hw. unfold transport_reclaim_idle_peers. wp_step. wp_step. case_if; [by wp_step|].
  destruct Hw as ((Hp & Hrest) & Ht). destruct (reclaim_loop_total (tc_peer_idle_timeout_ms (w_ctx w)) now _ 0 Hp) as (k & m & Hrun & Hk).
  wp_step. eapply wp_lift; [done|]. cbn beta iota. wp_step. wp_step. by wp_step.
Qed.
Lemma process_timeouts_ok m now :
  manager_ok any_byte any_size m -> manager_ok any_byte any_size (xgl_fragment_process_timeouts m now).2.
Proof.
  intros Hm. destruct (fragment_step_ok any_byte any_size m (op_timeouts now) [] Hm) as (m' & ds & env & Hrun & Hok & _); [done|].
  cbn in Hrun. by injection Hrun as -> _ _.
Qed.
Lemma reassembly_timeouts_wp now w :
  world_ok bound w -> wp (run_reassembly_timeouts now) (kept bound w) w.
Proof.
  intros Hw. unfold run_reassembly_timeouts. wp_step. wp_step. destruct (tc_fragment_mgr (w_ctx w)) as [m|] eqn:Hm; [|by wp_step].
  pose proof Hw as ((Hp & Hwin & Hmgr & Hreg & Hst & Hroute) & Ht). rewrite Hm in Hmgr.
  pose proof (process_timeouts_ok m now Hmgr) as Hm'. destruct (xgl_fragment_process_timeouts m now) as [cnt m'] eqn:Hrun.
  eapply kept_bind. { by apply kept_put_ctx. }
  intros _ w1 Hw1 Hn1. case_if; [|by wp_step]. eapply kept_bind.
  { case_if; [by wp_step|]. by apply kept_emit. }
  intros _ w2 Hw2 Hn2. destruct (tc_stats (w_ctx w)) as [st|] eqn:Hs; [|done].
  wp_step. eapply wp_lift; [reflexivity|]. apply kept_put_ctx; [done|]. intros (H1 & H2 & H3 & H4 & H5 & H6). done.
Qed.
Lemma add_retries_wp n w : world_ok bound w -> wp (add_retries n) (kept bound w) w.
Proof.
  intros Hw. unfold add_retries. case_if; [|by wp_step]. apply kept_put_ctx; [done|].
  intros (H1 & H2 & H3 & H4 & H5 & H6). done.
Qed.
Lemma transport_run_wp now w :
  world_ok bound w -> bound < 2 ^ 32 -> wp (xgl_transport_run now) (fun _ w' => world_ok bound w') w.
Proof.
  intros Hw Hb. unfold xgl_transport_run, transport_process_retransmissions. wp_step. wp_step. wp_step.
  eapply wp_mono; [apply retransmissions_wp; [done|unfold n_peers; lia|done]|]. intros cnt w1 [Hw1 Hn1]. wp_step.
  eapply wp_mono; [by apply add_retries_wp|]. intros _ w2 [Hw2 Hn2]. wp_step.
  eapply wp_mono; [by apply reassembly_timeouts_wp|]. intros _ w3 [Hw3 Hn3]. wp_step.
  eapply wp_mono; [by apply reclaim_wp|]. intros r w4 Hw4. by wp_step.
Qed.

(** ** Extensions of received packets *)

Lemma first_ext_spec type fuel : forall c rest,
  cursor_at c rest -> (length rest <= fuel)%nat ->
  exists err ext, first_ext fuel type c = Some (err, ext) /\
    (err = XGL_OK -> exists v, ext = mk_wire_ext type (zlen v) (Ptr v) true /\ bytes_ok v).
Proof.
  induction fuel as [|fuel IH]; intros c rest Hat Hf; pose proof (cursor_next_spec c rest Hat) as Hnext.
  { destruct rest; [|cbn in Hf; lia]. cbn [first_ext]. rewrite Hnext. by eexists _, _. }
  destruct rest as [|t [|n r]]; [cbn [first_ext]; rewrite Hnext; by eexists _, _..|]. cbn in Hf.
  cbn [first_ext]. destruct ((t =? 0) || (zlen r <? n)) eqn:Hbad.
  { rewrite Hnext. cbn [mbind option_bind is_ok negb]. by eexists _, _. }
  destruct Hnext as (c' & Hnext & Hat'). rewrite Hnext. cbn [mbind option_bind is_ok negb e_type].
  pose proof Hat as (b & _ & Hbok & _ & _ & Hrest).
  assert (bytes_ok (t :: n :: r)) as Hok by (rewrite Hrest; apply Forall_take, Forall_drop, Hbok).
  rewrite !Forall_cons in Hok. destruct Hok as (Ht & Hn & Hr).
  destruct (Z.eqb_spec t type) as [->|Hne].
  - eexists _, _. split; [reflexivity|]. intros _. exists (take (Z.to_nat n) r). rewrite zlen_take by lia.
    split; [done|]. by apply Forall_take.
  - eapply IH; [exact Hat'|]. rewrite length_drop. lia.
Qed.
Lemma find_ext_spec type b len :
  bytes_ok b -> 0 <= len <= zlen b ->
  exists err ext, find_ext type (Ptr b) len = Some (err, ext) /\
    (err = XGL_OK -> exists v, ext = mk_wire_ext type (zlen v) (Ptr v) true /\ bytes_ok v).
Proof.
  intros Hb Hlen. unfold find_ext. destruct (cursor_init_at (mk_cursor NULL 0 0) b len Hb Hlen) as (c & -> & Hat).
  cbn [is_ok negb]. eapply first_ext_spec; [exact Hat|]. rewrite length_take. lia.
Qed.

(** ** Windows *)

(** The two windows, of the peer and of the context. *)
Definition windows_ok (next : Z) (ws : xgl_sliding_window_t * xgl_sliding_window_t) : Prop :=
  window_inv ws.1 /\ sw_next_packet_number ws.1 = next /\ window_inv ws.2.
Lemma mark_window_total w n : window_inv w ->
  exists w', mark_window w n = Some w' /\ window_inv w' /\ sw_next_packet_number w' = sw_next_packet_number w.
Proof.
  intros Hw. unfold mark_window. destruct (window_mark_total w n Hw) as (err & w' & -> & H). cbn [mbind option_bind]. by exists w'.
Qed.
Lemma mark_both_total next ws n : windows_ok next ws -> exists ws', mark_both ws n = Some ws' /\ windows_ok next ws'.
Proof.
  intros (H1 & H2 & H3). unfold mark_both. destruct (mark_window_total ws.1 n H1) as (w1 & -> & Hi1 & Hn1).
  cbn [mbind option_bind]. case_if.
  - destruct (mark_window_total ws.2 n H3) as (w2 & -> & Hi2 & Hn2). cbn [mbind option_bind].
    eexists. split; [reflexivity|]. split_and!; cbn; congruence || done.
  - cbn [mbind option_bind]. eexists. split; [reflexivity|]. split; [done|]. split; [cbn; congruence|done].
Qed.
Lemma advance_both_total next ws : windows_ok next ws -> exists ws', advance_both ws = Some ws' /\ windows_ok next ws'.
Proof.
  intros (H1 & H2 & H3). unfold advance_both, advance_window.
  destruct (window_advance_total ws.1 H1) as (n1 & w1 & -> & Hi1 & Hn1).
  destruct (window_advance_total ws.2 H3) as (n2 & w2 & -> & Hi2 & Hn2). cbn [mbind option_bind].
  eexists. split; [reflexivity|]. split; [done|]. split; [cbn; congruence|done].
Qed.
Lemma mark_range_total next k : forall n ws,
  windows_ok next ws -> exists ws', mark_range_loop k n ws = Some ws' /\ windows_ok next ws'.
Proof.
  induction k as [|k IH]; intros n ws Hws; cbn [mark_range_loop]; [by exists ws|].
  destruct (mark_both_total next ws (u32 n) Hws) as (ws1 & -> & Hws1). cbn [mbind option_bind]. by apply IH.
Qed.
Lemma mark_ranges_total next ranges : forall i high ws,
  windows_ok next ws -> exists ws', mark_ranges_loop ranges i high ws = Some ws' /\ windows_ok next ws'.
Proof.
  induction ranges as [|r ranges IH]; intros i high ws Hws; cbn [mark_ranges_loop]; [by exists ws|].
  case_if; [by apply IH|]. case_if; [by exists ws|]. cbn zeta.
  match goal with |- context [mark_range_loop ?k ?n ws] => destruct (mark_range_total next k n ws Hws) as (ws1 & -> & Hws1) end.
  cbn [mbind option_bind]. by apply IH.
Qed.
Lemma wp_get_windows i p Q w : peer_at w i p -> Q (tp_tx_window p, tc_window (w_ctx w)) w -> wp (get_windows i) Q w.
Proof. intros Hp HQ. unfold get_windows. wp_step. eapply wp_get_peer; [done|]. wp_step. wp_step. by wp_step. Qed.
Lemma peer_windows_ok w i p : world_ok bound w -> peer_at w i p ->
  windows_ok (sw_next_packet_number (tp_tx_window p)) (tp_tx_window p, tc_window (w_ctx w)).
Proof. intros Hw Hp. destruct (world_ok_peer _ _ _ _ Hw Hp) as ((_ & Hwin & _) & _). split; [done|]. split; [done|apply Hw]. Qed.
Lemma kept_put_windows i p ws w :
  world_ok bound w -> peer_at w i p -> windows_ok (sw_next_packet_number (tp_tx_window p)) ws ->
  wp (put_windows i ws) (kept bound w) w.
Proof.
  intros Hw Hp (H1 & H2 & H3). destruct (world_ok_peer _ _ _ _ Hw Hp) as ((Hq & Hwin & Hn & Hr) & Hrx).
  unfold put_windows. eapply kept_bind.
  { eapply kept_put_peer; [done|done|]. split; [|exact Hrx]. unfold tx_ok. cbn. rewrite H2. done. }
  intros _ w1 Hw1 _. apply kept_put_ctx; [done|]. intros (G1 & G2 & G3). done.
Qed.

(** ** ACK packets *)

Lemma remove_ranges_ok b t q target largest rs :
  queue_ok b t q -> 0 <= largest < 2 ^ 32 -> Forall range_ok rs ->
  exists q' n, xgl_reliable_remove_ack_ranges q target largest (Ptr (rs ++ drop (length rs) range_array)) (zlen rs) = Some (q', n) /\
    queue_ok b t q'.
Proof.
  intros (l & Hrep & Hu & Hok) Hl Hrs. unfold xgl_reliable_remove_ack_ranges.
  rewrite (rd_bytes_prefix rs) by done. cbn [mbind option_bind].
  destruct (ack_ranges_loop_spec rs 0 q l [] target largest 0 Hrep Hu Hl) as (q' & Hrun & Hrep' & _); [|done|].
  { eapply Forall_impl; [exact Hrs|]. intros r [? ?]. unfold UINT16_MAX. lia. }
  rewrite Hrun. eexists _, _. split; [reflexivity|]. eexists. split; [exact Hrep'|].
  split; [eapply unique_sublist; [exact Hu|]|eapply Forall_sublist; [exact Hok|]]; apply unacked_sublist.
Qed.
Lemma ack_range_ext_wp i src data len w :
  world_ok bound w -> (i < n_peers w)%nat -> view_ok data len ->
  wp (transport_try_process_ack_range_ext i src data len) (kept bound w) w.
Proof.
  intros Hw Hi Hv. unfold transport_try_process_ack_range_ext.
  destruct (bool_decide (data = NULL) || (len =? 0)) eqn:Hnull; [by wp_step|].
  apply orb_false_iff in Hnull as [Hnull%bool_decide_eq_false _]. destruct data as [b|]; [|done].
  destruct Hv as [Hlen Hok].
  destruct (find_ext_spec XGL_WIRE_EXT_ACK_RANGE b len Hok Hlen) as (err & ext & Hfind & Hext).
  wp_step. eapply wp_lift; [done|]. cbn beta iota. case_if; [by wp_step|]. destruct (is_ok err) eqn:Herr; cbn [negb]; [|by wp_step].
  destruct Hext as (v & -> & Hvok); [by destruct err|]. cbn [e_value e_len]. wp_step. eapply wp_lift; [reflexivity|].
  destruct (decode_ack_range_total v range_array 64 Hvok ltac:(vm_compute; split; discriminate)) as
    (derr & out & arr & Hdec & _ & Hgood).
  wp_step. eapply wp_lift; [exact Hdec|]. cbn beta iota. destruct (is_ok derr) eqn:Hderr; cbn [negb]; [|by wp_step].
  destruct Hgood as (largest & d & rs & _ & Hrs & Hl & _ & -> & ->); [by destruct derr|].
  wp_step. eapply wp_lift; [reflexivity|]. cbn beta iota.
  destruct (world_ok_at _ _ _ Hw Hi) as (p & Hp & (Hq & Hwin & Hn & Hr) & Hrx). wp_step. eapply wp_get_queue; [done|].
  destruct (remove_ranges_ok _ _ _ src largest rs Hq Hl Hrs) as (q' & n & Hrem & Hq').
  wp_step. eapply wp_lift; [exact Hrem|]. cbn beta iota.
  eapply kept_bind. { eapply wp_mono; [by apply (kept_put_queue i p)|]. by intros ? w' [Hk _]. }
  intros _ w1 Hw1 Hn1. case_if; [by wp_step|]. wp_step. eapply wp_lift; [reflexivity|].
  eapply kept_bind.
  { unfold transport_mark_ack_range_windows. wp_step. eapply wp_lift; [by apply rd_bytes_prefix|].
    destruct (world_ok_at _ w1 i Hw1 ltac:(lia)) as (p1 & Hp1 & _). wp_step. eapply wp_get_windows; [done|].
    destruct (mark_ranges_total _ rs 0 largest _ (peer_windows_ok _ _ _ Hw1 Hp1)) as (ws & Hws & Hwsok).
    wp_step. eapply wp_lift; [done|]. destruct (advance_both_total _ _ Hwsok) as (ws' & Hws' & Hwsok').
    wp_step. eapply wp_lift; [done|]. by eapply kept_put_windows. }
  intros _ w2 Hw2 Hn2. eapply kept_bind; [apply update_deadline_wp; [done|lia]|]. intros _ w3 Hw3 Hn3. by wp_step.
Qed.

Lemma highest_set_total bm k : forall i h,
  0 <= i -> i + Z.of_nat k <= 8 * zlen bm -> (forall x, h = Some x -> 0 <= x < 8 * zlen bm) ->
  exists h', highest_set_loop k i bm h = Some h' /\ forall x, h' = Some x -> 0 <= x < 8 * zlen bm.
Proof.
  induction k as [|k IH]; intros i h Hi Hk Hh; cbn [highest_set_loop]; [by exists h|].
  rewrite sack_bit_spec by lia. cbn [mbind option_bind]. apply IH; [lia|lia|].
  intros x. case_if; [|apply Hh]. intros [= <-]. lia.
Qed.
Lemma newest_wait q l n t x : queue_rep q l [] -> newest l n t = Some x -> x.1 ∈ rq_wait_ack_list q.
Proof.
  intros (-> & _) Hn. apply newest_elem in Hn as [Hin _]. apply list_elem_of_fmap. by exists x.
Qed.
Lemma find_in_queue b t q n t' : queue_ok b t q ->
  exists r, xgl_reliable_find_packet_number q n t' = Some r /\ forall a, r = Ptr a -> a ∈ rq_wait_ack_list q.
Proof.
  intros (l & Hrep & _). pose proof Hrep as (_ & Hix & _). rewrite (find_spec _ _ _ _ Hix).
  eexists. split; [reflexivity|]. intros a Ha. destruct (newest l n t') as [x|] eqn:Hnew; [|done]. injection Ha as <-.
  by eapply newest_wait.
Qed.
Lemma sack_body_wp i src base now bm k cnt w :
  world_ok bound w -> (i < n_peers w)%nat -> 0 <= k < 8 * zlen bm -> bound < 2 ^ 32 ->
  wp (sack_body i src base now bm k cnt) (kept bound w) w.
Proof.
  intros Hw Hi Hk Hb. unfold sack_body. wp_step. eapply wp_lift; [by apply sack_bit_spec|].
  destruct (world_ok_at _ _ _ Hw Hi) as (p & Hp & (Hq & Hwin & Hn & Hr) & Hrx). wp_step. eapply wp_get_queue; [done|].
  destruct (find_in_queue _ _ _ (u32 (base + k)) src Hq) as (r & Hfind & Hin). wp_step. eapply wp_lift; [done|].
  destruct r as [a|]; [|by wp_step]. case_if.
  - destruct (remove_queue_ok _ _ _ (u32 (base + k)) src Hq) as (err & q' & Hrem & Hq').
    wp_step. eapply wp_lift; [done|]. cbn beta iota.
    eapply kept_bind. { eapply wp_mono; [by apply (kept_put_queue i p)|]. by intros ? w' [? _]. }
    intros _ w1 Hw1 Hn1. destruct (world_ok_at _ w1 i Hw1 ltac:(lia)) as (p1 & Hp1 & _).
    wp_step. eapply wp_get_windows; [done|].
    destruct (mark_both_total _ _ (u32 (base + k)) (peer_windows_ok _ _ _ Hw1 Hp1)) as (ws & Hws & Hwsok).
    wp_step. eapply wp_lift; [done|]. eapply kept_bind; [by eapply kept_put_windows|].
    intros _ w2 Hw2 Hn2. by wp_step.
  - eapply kept_bind.
    { eapply wp_mono; [apply retransmit_wp; try done|]; [|by intros ? w' [? _]].
      rewrite (wait_list_at _ _ _ Hp). by apply Hin. }
    intros err w1 Hw1 _. by wp_step.
Qed.
Lemma sack_loop_wp i src base now bm n : forall k cnt w,
  world_ok bound w -> (i < n_peers w)%nat -> 0 <= k -> k + Z.of_nat n <= 8 * zlen bm -> bound < 2 ^ 32 ->
  wp (sack_loop n i src base now bm k cnt) (kept bound w) w.
Proof.
  induction n as [|n IH]; intros k cnt w Hw Hi Hk Hn Hb; cbn [sack_loop]; [by wp_step|].
  eapply kept_bind; [apply sack_body_wp; done || lia|]. intros [err c] w1 Hw1 Hn1.
  destruct (is_ok err); cbn [negb]; [|by wp_step]. apply IH; done || lia.
Qed.
Lemma sack_value_wp i src v w :
  world_ok bound w -> (i < n_peers w)%nat -> bytes_ok v -> bound < 2 ^ 32 ->
  wp (transport_process_sack_value i src v (zlen v)) (kept bound w) w.
Proof.
  intros Hw Hi Hv Hb. unfold transport_process_sack_value.
  destruct (decode_sack_total v (replicate 64 0) 64 Hv ltac:(vm_compute; split; discriminate)) as
    (err & out & bm & Hdec & _ & Hgood).
  wp_step. eapply wp_lift; [exact Hdec|]. cbn beta iota. destruct (is_ok err) eqn:Herr; cbn [negb]; [|by wp_step].
  destruct Hgood as (base & bits & _ & Hbl & _ & _ & -> & ->); [by destruct err|].
  wp_step. eapply wp_lift; [reflexivity|]. cbn beta iota. wp_step. eapply wp_lift; [reflexivity|].
  case_if; [by wp_step|]. set (bm := bits ++ drop (length bits) (replicate 64 0)).
  pose proof (zlen_nonneg bits). pose proof (zlen_nonneg (drop (length bits) (replicate 64 0))).
  assert (zlen bits <= zlen bm) as Hbm by (unfold bm; rewrite zlen_app; lia).
  destruct (highest_set_total bm (Z.to_nat (zlen bits * 8)) 0 None) as (h & Hh & Hhr); [lia|lia|done|].
  wp_step. eapply wp_lift; [exact Hh|]. wp_step. wp_step. destruct h as [h|].
  - specialize (Hhr h eq_refl). eapply kept_bind; [apply sack_loop_wp; done || lia|]. intros [serr c] w1 Hw1 Hn1.
    destruct (is_ok serr); cbn [negb]; [|by wp_step].
    destruct (world_ok_at _ w1 i Hw1 ltac:(lia)) as (p1 & Hp1 & _). wp_step. eapply wp_get_windows; [done|].
    destruct (advance_both_total _ _ (peer_windows_ok _ _ _ Hw1 Hp1)) as (ws & Hws & Hwsok).
    wp_step. eapply wp_lift; [done|]. eapply kept_bind; [by eapply kept_put_windows|]. intros _ w2 Hw2 Hn2.
    eapply kept_bind; [apply update_deadline_wp; [done|lia]|]. intros _ w3 Hw3 Hn3. by wp_step.
  - destruct (world_ok_at _ _ _ Hw Hi) as (p & Hp & (Hq & _) & _). wp_step. eapply wp_get_queue; [done|].
    destruct (find_in_queue _ _ _ base src Hq) as (r & Hfind & Hin). wp_step. eapply wp_lift; [done|].
    destruct r as [a|]; [|by wp_step]. eapply kept_bind.
    { eapply wp_mono; [apply retransmit_wp; try done|]; [|by intros ? w' [? _]].
      rewrite (wait_list_at _ _ _ Hp). by apply Hin. }
    intros rerr w1 Hw1 _. by wp_step.
Qed.
Lemma sack_ext_wp i src data len w :
  world_ok bound w -> (i < n_peers w)%nat -> view_ok data len -> bound < 2 ^ 32 ->
  wp (transport_try_process_sack_ext i src data len) (kept bound w) w.
Proof.
  intros Hw Hi Hv Hb. unfold transport_try_process_sack_ext.
  destruct (bool_decide (data = NULL) || (len =? 0)) eqn:Hnull; [by wp_step|].
  apply orb_false_iff in Hnull as [Hnull%bool_decide_eq_false _]. destruct data as [b|]; [|done].
  destruct Hv as [Hlen Hok].
  destruct (find_ext_spec XGL_WIRE_EXT_SACK b len Hok Hlen) as (err & ext & Hfind & Hext).
  wp_step. eapply wp_lift; [done|]. cbn beta iota. case_if; [by wp_step|]. destruct (is_ok err) eqn:Herr; cbn [negb]; [|by wp_step].
  destruct Hext as (v & -> & Hvok); [by destruct err|]. cbn [e_value e_len]. wp_step. eapply wp_lift; [reflexivity|].
  eapply kept_bind; [by apply sack_value_wp|]. intros [serr c] w1 Hw1 Hn1. destruct (is_ok serr); cbn [negb]; [|by wp_step].
  eapply kept_bind; [by apply add_retries_wp|]. intros _ w2 Hw2 Hn2. by wp_step.
Qed.
Lemma find_ack_peer_lt w q i : transport_find_ack_peer (w_ctx w) q = Ptr i -> (i < n_peers w)%nat.
Proof.
  unfold transport_find_ack_peer, n_peers, transport_find_peer, transport_find_peer_scope.
  case_if; [intros Hf%find_peer_loop_lt; lia|]. case_if; intros Hf%find_peer_loop_lt; lia.
Qed.
Lemma ack_packet_wp q w :
  world_ok bound w -> packet_wf q -> bound < 2 ^ 32 ->
  wp (transport_process_ack_packet q) (kept bound w) w.
Proof.
  intros Hw (_ & He & _) Hb. unfold transport_process_ack_packet. case_if; [by wp_step|]. wp_step. wp_step.
  destruct (transport_find_ack_peer (w_ctx w) q) as [i|] eqn:Hf; [|by wp_step]. apply find_ack_peer_lt in Hf.
  destruct (world_ok_at _ _ _ Hw Hf) as (p & Hp & _). wp_step. eapply wp_get_peer; [done|].
  case_if; [by wp_step|]. case_if; [by wp_step|].
  eapply kept_bind; [by apply ack_range_ext_wp|]. intros [err h] w1 Hw1 Hn1. case_if; [by wp_step|].
  eapply kept_bind; [apply sack_ext_wp; try done; lia|]. intros [err2 h2] w2 Hw2 Hn2. case_if; by wp_step.
Qed.
End inv.
