(* ===== verification/ReceiveInv.v ===== *)
(** * The receive path keeps the invariant

    [xgl_transport_receive] is defined on every well-formed packet in every state
    of the invariant of [TransportInv] and keeps it: the sessions, the delivery
    with and without reassembly and decompression, the receive buffer and the
    drain. *)
From S2P Require Import Prelude State Errors Serialize Layer Wire WireExt Codec Route Window Fragment Reliable Transport Acks Receive TransportLogic TransportInv.

(** ** The state beside the peers *)

Definition layer_ok (w : world) : Prop :=
  let c := w_ctx w in
  window_inv (tc_window c) /\
  match tc_fragment_mgr c with NULL => True | Ptr m => manager_ok any_byte any_size m end /\
  match tc_codec_registry c with NULL => True | Ptr r => registry_inv r /\ Forall codec_safe (registry_entries r) end /\
  tc_stats c <> NULL /\
  (match tc_route_table c with NULL => True | Ptr t => exists es, route_rep t es end /\
   exists l, queue_rep (tc_reliable_queue c) l []) /\
  Forall event_ok (w_trace w) /\ zlen (w_stack w) = XGL_DATALINK_STACK_BUFFER_SIZE /\ bytes_ok (w_stack w).
Lemma world_ok_layer bound w :
  world_ok bound w <-> Forall (peer_ok bound) (tc_peers (w_ctx w)) /\ layer_ok w.
Proof. unfold world_ok, ctx_ok, layer_ok. tauto. Qed.

(** A step that does not touch the peers. *)
Definition aside (w w' : world) : Prop :=
  layer_ok w' /\ tc_peers (w_ctx w') = tc_peers (w_ctx w) /\ w_trace w `prefix_of` w_trace w'.
Lemma aside_refl w : layer_ok w -> aside w w.
Proof. done. Qed.
Lemma aside_trans w1 w2 w3 : aside w1 w2 -> aside w2 w3 -> aside w1 w3.
Proof. intros (_ & H1 & H2) (H3 & H4 & H5). split; [done|]. split; [congruence|by etransitivity]. Qed.
Lemma aside_emit w e : layer_ok w -> event_ok e -> aside w (w <| w_trace := w_trace w ++ [e] |>).
Proof.
  intros (H1 & H2 & H3 & H4 & H5 & H6 & H7) He. split; [|split; [done|by apply prefix_app_r]].
  do 5 (split; [done|]). split; [|done]. cbn. apply Forall_app. by split; [|constructor].
Qed.
Lemma aside_stats w f : layer_ok w ->
  aside w (w <| w_ctx := (w_ctx w) <| tc_stats := f <$> tc_stats (w_ctx w) |> |>).
Proof.
  intros (H1 & H2 & H3 & H4 & H5). split; [|done]. do 3 (split; [done|]). split; [|done]. cbn.
  by destruct (tc_stats (w_ctx w)).
Qed.
Lemma aside_sends w es net : layer_ok w -> Forall (fun e => event_ok e /\ is_send e) es ->
  aside w (after_events es net w).
Proof.
  intros (H1 & H2 & H3 & H4 & H5 & H6 & H7) He. split; [|split; [done|by apply prefix_app_r]].
  do 5 (split; [done|]). split; [|done]. cbn. apply Forall_app. split; [done|].
  eapply Forall_impl; [exact He|]. by intros e [? _].
Qed.

(** ** Delivery *)

Lemma hand_over_aside src dt data len w :
  layer_ok w -> zlen data = len -> Forall (fun b => b <> None) data ->
  wp (hand_over src dt data len) (fun _ w' => aside w w') w.
Proof.
  intros Hw Hlen Hdata. unfold hand_over. wp_step. wp_step. wp_step.
  apply (wp_mono _ (fun _ w' => aside w w')).
  { case_if; [by wp_step|]. wp_step. by apply aside_emit. }
  intros ? w1 Hw1. apply wp_put_ctx. eapply aside_trans; [exact Hw1|]. by apply aside_stats, Hw1.
Qed.

Lemma le_value_nonneg b : bytes_ok b -> 0 <= le_value b.
Proof. intros Hb%le_value_bound. lia. Qed.
Lemma decode_fragment_total v : bytes_ok v ->
  exists err f, xgl_wire_decode_fragment_ext_value v (zlen v) = Some (err, f) /\
    (err = XGL_OK -> exists a b c, f = Some (a, b, c) /\ 0 <= a /\ 0 <= b /\ 0 <= c).
Proof.
  intros Hv. destruct (decide (zlen v = 12)) as [Hl|Hne].
  2: { unfold xgl_wire_decode_fragment_ext_value. replace (zlen v =? XGL_FRAGMENT_EXT_VALUE_SIZE) with false.
    2: { change XGL_FRAGMENT_EXT_VALUE_SIZE with 12. lia. } by eexists _, _. }
  assert (exists b0 b1 b2, v = b0 ++ b1 ++ b2 /\ length b0 = 4%nat /\ length b1 = 4%nat /\ length b2 = 4%nat)
    as (b0 & b1 & b2 & -> & H0 & H1 & H2).
  { exists (take 4 v), (take 4 (drop 4 v)), (drop 4 (drop 4 v)). rewrite !take_drop. unfold zlen in Hl.
    rewrite !length_take, !length_drop. split; [done|]. lia. }
  rewrite Hl, decode_fragment_run by done. apply Forall_app in Hv as [Hv0 [Hv1 Hv2]%Forall_app].
  eexists _, _. split; [reflexivity|]. intros _. eexists _, _, _. split; [reflexivity|].
  split_and!; by apply le_value_nonneg.
Qed.
Lemma fragment_ext_total q :
  view_ok (pk_extensions q) (pk_extensions_len q) ->
  exists err f, fragment_ext q = Some (err, f) /\
    (forall a b c, err = XGL_OK -> f = Some (a, b, c) -> 0 <= a /\ 0 <= b /\ 0 <= c).
Proof.
  intros Hv. unfold fragment_ext. destruct (pk_extensions q) as [b|]; [|by eexists _, _].
  destruct Hv as [Hl Hb]. rewrite bool_decide_eq_false_2 by done. cbn [orb].
  case_if; [by eexists _, _|].
  destruct (find_ext_spec XGL_WIRE_EXT_FRAGMENT b _ Hb Hl) as (err & ext & -> & Hext). cbn [mbind option_bind].
  case_if; [by eexists _, _|]. destruct (is_ok err) eqn:Herr; cbn [negb]; [|by eexists _, _].
  destruct Hext as (v & -> & Hv); [by destruct err|]. cbn [e_value e_len mbind option_bind].
  destruct (decode_fragment_total v Hv) as (derr & f & -> & Hf). eexists _, _. split; [reflexivity|].
  intros x y z -> ->. destruct (Hf eq_refl) as (a' & b' & c' & [= -> -> ->] & ?). done.
Qed.

Lemma delivered_bytes key data len :
  delivery_ok any_byte any_size key data len -> zlen data = len /\ Forall (fun b => b <> None) data.
Proof.
  intros (Hl & _ & Hd). split; [done|]. apply Forall_forall. intros b Hb.
  apply list_elem_of_lookup in Hb as [i Hi]. pose proof (lookup_lt_Some _ _ _ Hi).
  destruct (Hd (Z.of_nat i)) as (v & Hv & _); [unfold zlen in Hl; lia|].
  unfold rd in Hv. replace (0 <=? Z.of_nat i) with true in Hv by lia. rewrite Nat2Z.id, Hi in Hv. by injection Hv as ->.
Qed.
Lemma bytes_initialised (d : bytes) : Forall (fun b : option Z => b <> None) (map Some d).
Proof. induction d; by constructor. Qed.
Lemma deliver_fragment_aside m q mid off mlen d len w :
  layer_ok w -> tc_fragment_mgr (w_ctx w) = Ptr m -> 0 <= mid -> 0 <= off -> 0 <= mlen -> 0 <= len <= zlen d -> bytes_ok d ->
  wp (deliver_fragment m q mid off mlen (Ptr d) len) (fun _ w' => aside w w') w.
Proof.
  intros Hw Hm Hmid Hoff Hml Hlen Hd. pose proof Hw as (H1 & H2 & H3). rewrite Hm in H2.
  unfold deliver_fragment. wp_step. wp_step. wp_step. wp_step. wp_step.
  destruct (process_ext_ok any_byte any_size m (pk_source_id q) (pk_connection_id q) (pk_session_epoch q)
    (pk_data_type q) mid off mlen (Ptr d) len 0 (w_time w) (w_heap w) H2 Hoff ltac:(lia) Hml) as (r & Hr & Hmr & _ & Hc).
  { intros p [= <-]. split; [lia|]. intros i v Hv. eapply bytes_ok_rd; [exact Hv|by apply Forall_take]. }
  { done. }
  eapply wp_lift; [exact Hr|]. cbn beta iota. wp_step. wp_step. wp_step. wp_step.
  match goal with |- wp _ _ ?w1 => set (w' := w1) end.
  assert (aside w w') as Haside by (split; [|done]; done).
  destruct (is_ok (pr_err r)) eqn:Herr.
  - destruct (pr_complete_data r) as [data|]; [|by destruct (pr_err r)]. destruct Hc as [_ Hdel].
    wp_step. eapply wp_lift; [reflexivity|]. destruct (delivered_bytes _ _ _ Hdel) as [Hdl Hdb]. wp_step.
    eapply wp_mono; [apply hand_over_aside; [apply Haside|done|done]|]. intros ? w2 Hw2. wp_step.
    by eapply aside_trans.
  - case_if; by wp_step.
Qed.
Lemma deliver_aside q d len w :
  layer_ok w -> view_ok (pk_extensions q) (pk_extensions_len q) -> 0 <= len <= zlen d -> bytes_ok d ->
  wp (transport_deliver_packet q (Ptr d) len) (fun _ w' => aside w w') w.
Proof.
  intros Hw He Hlen Hd. unfold transport_deliver_packet. wp_step. wp_step.
  destruct (if pk_fragment q then _ else _) as [m|] eqn:Hm.
  - assert (tc_fragment_mgr (w_ctx w) = Ptr m) as Hmgr by by destruct (pk_fragment q).
    destruct (fragment_ext_total q He) as (err & f & Hf & Hfields).
    wp_step. eapply wp_lift; [done|]. cbn beta iota. destruct (is_ok err) eqn:Herr; cbn [negb]; [|by wp_step].
    destruct f as [[[a b] c]|]; [|by wp_step]. destruct (Hfields a b c) as (? & ? & ?); [by destruct err|done|].
    by apply deliver_fragment_aside.
  - wp_step. eapply wp_lift; [by rewrite rd_bytes_Some by lia|]. rewrite drop_to_nat_0. wp_step.
    eapply wp_mono; [apply hand_over_aside; [done|unfold zlen in *; rewrite length_map, length_take; lia|apply bytes_initialised]|].
    intros ? w' Hw'. by wp_step.
Qed.

Lemma codec_find_safe r kind id :
  registry_inv r -> Forall codec_safe (registry_entries r) ->
  exists c, xgl_codec_find (Ptr r) kind id = Some c /\
    forall c', c = Ptr c' -> codec_safe c' /\ co_encode c' <> NULL /\ co_decode c' <> NULL.
Proof.
  intros Hr Hs. eexists. split; [by apply codec_find_lookup|]. intros c' Hc.
  apply elem_of_list_to_map_2, list_elem_of_fmap in Hc as (c & Heq & Hin).
  injection Heq as _ _ ->.
  destruct Hr as (_ & _ & _ & Hd). rewrite !Forall_forall in Hs, Hd. split; [exact (Hs _ Hin)|]. exact (Hd _ Hin).
Qed.
Lemma decode_packet_wp q d len Q w :
  layer_ok w -> 0 <= len <= zlen d -> bytes_ok d ->
  (forall d' len', 0 <= len' <= zlen d' -> bytes_ok d' -> Q (d', len') w) ->
  wp (decode_packet q d len) Q w.
Proof.
  intros (_ & _ & Hreg & _ & _ & _ & Hst & Hsb) Hlen Hd HQ. unfold decode_packet. wp_step. wp_step.
  destruct (if pk_compress q =? 0 then _ else _) as [r|] eqn:Hr; [|wp_step; by apply HQ].
  assert (tc_codec_registry (w_ctx w) = Ptr r) as Hcr by by destruct (pk_compress q =? 0).
  rewrite Hcr in Hreg. destruct (codec_find_safe r XGL_CODEC_KIND_COMPRESSION (pk_compress q)) as (c & Hfind & Hc); [apply Hreg..|].
  wp_step. eapply wp_lift; [done|]. destruct c as [c|]; [|wp_step; by apply HQ].
  destruct (Hc c eq_refl) as ([_ Hsafe] & _ & Hdec). wp_step. wp_step. destruct (co_decode c) as [f|]; [|done].
  wp_step. eapply wp_lift; [reflexivity|]. destruct (f d len (w_stack w) _) as [[err out] olen] eqn:Hrun. wp_step.
  destruct (is_ok err) eqn:Herr; apply HQ; try done;
    (destruct (Hsafe f eq_refl d len (w_stack w) _ err out olen Hst Hsb Hrun); [by destruct err|done]).
Qed.

(** ** The drain

    Between the delivery of a packet and the next look into the buffer, the
    buffer of the peer may hold the next number. *)

Section inv.
  Context (bound : Z) (Hbound : 0 <= bound).

(** All but one peer are in order. *)
Definition others_ok (i : nat) (w : world) : Prop :=
  layer_ok w /\ forall j q, j <> i -> peer_at w j q -> peer_ok bound q.
Lemma others_close i p p' w : others_ok i w -> peer_at w i p -> peer_ok bound p' -> world_ok bound (with_peer i p' w).
Proof.
  intros [Hl Hother] Hp Hok. apply world_ok_layer. split; [|exact Hl]. cbn.
  apply Forall_lookup. intros j q. destruct (decide (j = i)) as [->|Hne].
  - rewrite list_lookup_insert_eq by by eapply lookup_lt_Some. by intros [= <-].
  - rewrite list_lookup_insert_ne by done. by apply Hother.
Qed.
Lemma others_with i p w : others_ok i w -> others_ok i (with_peer i p w).
Proof.
  intros [Hl Hother]. split; [done|]. intros j q Hne. unfold peer_at. cbn.
  rewrite list_lookup_insert_ne by done. by apply Hother.
Qed.
Lemma others_aside i w w' : others_ok i w -> aside w w' -> others_ok i w'.
Proof. intros [_ Hother] (Hl & Heq & _). split; [done|]. unfold peer_at. by rewrite Heq. Qed.
Lemma world_ok_others i w : world_ok bound w -> others_ok i w.
Proof. intros Hw. split; [by apply world_ok_layer in Hw as [_ ?]|]. intros j q _ Hq. by eapply world_ok_peer. Qed.
Lemma peer_at_aside i p w w' : peer_at w i p -> aside w w' -> peer_at w' i p.
Proof. intros Hp (_ & Heq & _). unfold peer_at. by rewrite Heq. Qed.

(** The peer [i] may hold the next number. *)
Definition draining (i : nat) (p : xgl_transport_peer_state_t) (w : world) : Prop :=
  others_ok i w /\ peer_at w i p /\ tx_ok bound p /\ rx_ok (tp_rx_next_packet_number p) p.
Lemma draining_peer_ok i p p' w :
  draining i p w -> peer_ok bound p' -> world_ok bound (with_peer i p' w).
Proof. intros (Ho & Hp & _) Hok. by eapply others_close. Qed.
Lemma draining_put i p p' w : draining i p w ->
  tx_ok bound p' -> rx_ok (tp_rx_next_packet_number p') p' -> draining i p' (with_peer i p' w).
Proof. intros (Ho & Hp & _ & _) Htx Hrx. split; [by apply others_with|]. split; [by eapply peer_at_with|done]. Qed.
Lemma draining_aside i p w w' : draining i p w -> aside w w' -> draining i p w'.
Proof.
  intros (Ho & Hp & Hrest) Ha. split; [by eapply others_aside|]. split; [by eapply peer_at_aside|done].
Qed.
Lemma world_ok_draining i p w : world_ok bound w -> peer_at w i p -> draining i p w.
Proof.
  intros Hw Hp. destruct (world_ok_peer _ _ _ _ Hw Hp) as [Htx Hrx].
  split; [by apply world_ok_others|]. split; [done|]. split; [done|].
  destruct Hrx as (H1 & H2 & H3). split; [done|]. split; [|done]. eapply rx_sorted_weaken; [done|lia].
Qed.
Lemma world_ok_aside w w' : world_ok bound w -> aside w w' -> world_ok bound w'.
Proof. intros [Hp _]%world_ok_layer (Hl & Heq & _). apply world_ok_layer. by rewrite Heq. Qed.
Lemma n_peers_aside w w' : aside w w' -> n_peers w' = n_peers w.
Proof. intros (_ & Heq & _). unfold n_peers. by rewrite Heq. Qed.
Lemma kept_aside {A} w (a : A) w' : world_ok bound w -> aside w w' -> kept bound w a w'.
Proof. intros Hw Ha. split; [by eapply world_ok_aside|by apply n_peers_aside]. Qed.

Lemma send_ack_aside n src s c e w :
  layer_ok w -> 0 <= n < 2 ^ 32 -> wp (transport_send_ack n src s c e) (fun _ w' => aside w w') w.
Proof.
  intros Hw Hn. apply wp_sends; [apply send_ack_sends, is_u32_spec; lia|]. intros a es net Hes. by apply aside_sends.
Qed.
Lemma count_rx_number p lo : rx_ok lo p -> Forall (fun b => 0 <= rx_number b < 2 ^ 32) (tp_rx_buffered p).
Proof. intros (_ & _ & Hb & _). eapply Forall_impl; [exact Hb|]. by intros b [? _]. Qed.
Lemma send_sack_aside i p src base s c e lo w :
  layer_ok w -> peer_at w i p -> rx_ok lo p -> 0 <= base < 2 ^ 32 ->
  wp (transport_send_sack i src base s c e) (fun _ w' => aside w w') w.
Proof.
  intros Hw Hp Hrx Hb.
  destruct (send_sack_run i p src base s c e w Hp Hb (count_rx_number _ _ Hrx)) as (err & net & bits & Hrun & Hlen & Hok & _).
  apply wp_run. eexists _, _. split; [exact Hrun|]. apply aside_sends; [done|]. unfold sent_if. case_if; [|done].
  destruct (ack_only_wf (tc_local_id (w_ctx w)) src base s c e (padded_ext (sack_ext base bits)) (7 + zlen bits)) as [Hwf Hd].
  { apply is_u32_spec. lia. }
  { assert (zlen (sack_value base bits) = 5 + zlen bits) as Hz.
    { unfold sack_value. rewrite zlen_app, le_bytes_zlen. cbn [app]. rewrite zlen_cons. lia. }
    replace (7 + zlen bits) with (2 + zlen (sack_ext base bits).2) by (cbn [sack_ext snd]; lia).
    apply padded_ext_view; [done| |unfold zlen in *; cbn [sack_ext snd]; lia].
    cbn [sack_ext snd]. unfold sack_value. rewrite !Forall_app. split_and!; [apply le_bytes_ok| |done].
    constructor; [|done]. lia. }
  constructor; [|constructor]. split; [exact (conj Hwf Hd)|by eexists].
Qed.

(** The peer after a packet was taken out of its buffer. *)
Lemma tx_ok_rx p p' : tx_ok bound p -> tp_tx_window p' = tp_tx_window p -> tp_peer_id p' = tp_peer_id p ->
  tp_reliable_queue p' = tp_reliable_queue p -> tp_rtt_est p' = tp_rtt_est p -> tx_ok bound p'.
Proof. unfold tx_ok. by intros ? -> -> -> ->. Qed.
Lemma taken_ok p b low high :
  rx_ok (tp_rx_next_packet_number p) p -> tp_rx_buffered p = low ++ b :: high ->
  rx_number b = tp_rx_next_packet_number p ->
  low = [] /\ buffered_ok b /\
  rx_ok (tp_rx_next_packet_number p + 1) (p <| tp_rx_buffered := high |> <| tp_rx_buffered_count := zlen high |>).
Proof.
  intros (Hn & Hs & Hok & Hc & Hz & Hst) Hl Hb. rewrite Hl in Hs, Hok, Hz. apply rx_sorted_app in Hs as (Hlow & [Hsb Hhigh] & Hlt).
  apply Forall_app in Hok as [_ [Hbok Hhok]%Forall_cons].
  assert (low = []) as ->.
  { destruct low as [|a low]; [done|]. apply Forall_cons in Hlt as [[Ha _]%Forall_cons _]. destruct Hlow. lia. }
  split; [done|]. split; [done|]. unfold rx_ok. cbn. rewrite Hb in Hhigh. cbn [app] in Hz. rewrite zlen_cons in Hz.
  split_and!; try done; try lia. intros Hf. specialize (Hst Hf). by rewrite Hl in Hst.
Qed.
(** The next number, and the buffer that may hold it. *)
Lemma advanced_ok p :
  rx_ok (tp_rx_next_packet_number p + 1) p ->
  let p' := p <| tp_rx_next_packet_number := u32 (tp_rx_next_packet_number p + 1) |> in
  rx_ok (tp_rx_next_packet_number p') p'.
Proof.
  intros (Hn & Hs & Hok & Hc & Hz & Hst) p'. unfold rx_ok, p'. cbn. split; [apply u32_range|]. split; [|done].
  eapply rx_sorted_weaken; [exact Hs|]. zlia.
Qed.

Lemma drain_loop_wp fuel : forall i p w,
  draining i p w -> (length (tp_rx_buffered p) <= fuel)%nat ->
  wp (drain_loop fuel i) (fun _ w' => world_ok bound w' /\ n_peers w' = n_peers w) w.
Proof.
  induction fuel as [|fuel IH]; intros i p w Hdr Hf; pose proof Hdr as (Ho & Hp & Htx & Hrx);
    pose proof Hrx as (Hn & Hs & Hok & Hc & Hz & Hst); cbn [drain_loop]; wp_step; (eapply wp_get_peer; [done|]); wp_step; apply wp_run;
    (destruct (take_rx_run i p (tp_rx_next_packet_number p) _ w Hp Hs Hc) as
      [(low & b & high & Hb & Hbn & Hrun)|[Hnone Hrun]]; eexists _, _; (split; [exact Hrun|]); cbn beta iota).
  1: { rewrite Hb, length_app in Hf. cbn in Hf. lia. }
  1, 3: wp_step; split; [|done]; rewrite <- (with_peer_same i p w Hp); eapply draining_peer_ok; [done|]; split; [done|];
    unfold rx_ok; split; [done|]; split; [by apply rx_sorted_raise|done].
  destruct (taken_ok p b low high Hrx Hb Hbn) as (-> & (Hbr & Hbl & Hbok & Hbe) & Hrx1). cbn [app] in *.
  set (p1 := p <| tp_rx_buffered := high |> <| tp_rx_buffered_count := zlen high |>) in *.
  assert (tx_ok bound p1) as Htx1 by by eapply tx_ok_rx.
  assert (draining i p1 (with_peer i p1 w)) as Hdr1.
  { eapply draining_put; [done|done|]. destruct Hrx1 as (H1 & H2 & H3). split; [done|]. split; [|done].
    eapply rx_sorted_weaken; [done|cbn; lia]. }
  wp_step. eapply wp_mono; [apply deliver_aside; [apply Hdr1|done|pose proof (zlen_nonneg (rxb_data b)); lia|done]|].
  intros err w2 Ha2. pose proof (draining_aside _ _ _ _ Hdr1 Ha2) as Hdr2. wp_step. fold (rx_number b).
  eapply wp_mono; [apply send_ack_aside; [apply Hdr2|lia]|]. intros aerr w3 Ha3.
  pose proof (draining_aside _ _ _ _ Hdr2 Ha3) as Hdr3.
  assert (n_peers w3 = n_peers w) as Hnp.
  { rewrite (n_peers_aside _ _ Ha3), (n_peers_aside _ _ Ha2). apply n_peers_with. }
  pose proof Hdr3 as (_ & Hp3 & _). destruct (is_ok err); cbn [negb].
  - wp_step. eapply wp_put_peer; [done|]. eapply wp_mono; [eapply IH|].
    + eapply draining_put; [done|by eapply tx_ok_rx|]. rewrite Hbn. exact (advanced_ok p1 Hrx1).
    + cbn. rewrite Hb in Hf. cbn in Hf. lia.
    + intros r w4 [Hw4 Hn4]. split; [done|]. by rewrite Hn4, n_peers_with.
  - wp_step. split; [|done]. rewrite <- (with_peer_same i p1 w3 Hp3). eapply draining_peer_ok; [done|]. by split.
Qed.

(** ** The order of reliable packets *)

Lemma get_or_create_rx_wp q w :
  world_ok bound w -> wp (transport_get_or_create_rx_peer q) (got_peer bound w) w.
Proof. intros Hw. unfold transport_get_or_create_rx_peer. case_if; by apply get_or_create_wp. Qed.
Lemma find_rx_peer_lt w q i : transport_find_rx_peer (w_ctx w) q = Ptr i -> (i < n_peers w)%nat.
Proof.
  unfold transport_find_rx_peer, n_peers, transport_find_peer, transport_find_peer_scope.
  case_if; intros Hf%find_peer_loop_lt; lia.
Qed.
(** The answers of the functions that also return a peer. *)
Definition answer_ok (r : xgl_error_t * ptr nat) (w' : world) : Prop :=
  world_ok bound w' /\ forall i, r = (XGL_OK, Ptr i) -> (i < n_peers w')%nat.
Lemma prepare_rx_peer_wp q w :
  world_ok bound w -> wp (transport_prepare_rx_peer q) answer_ok w.
Proof.
  intros Hw. unfold transport_prepare_rx_peer. case_if; [by wp_step|]. wp_step. wp_step.
  destruct (transport_find_rx_peer (w_ctx w) q) as [i|] eqn:Hf.
  - apply find_rx_peer_lt in Hf. destruct (world_ok_at _ _ _ Hw Hf) as (p & Hp & _).
    wp_step. eapply wp_get_peer; [done|]. case_if; wp_step; split; try done. by intros ? [= <-].
  - wp_step. eapply wp_mono; [by apply get_or_create_rx_wp|]. intros [i|] w1 (Hw1 & Hle & Hi); [|by wp_step].
    specialize (Hi i eq_refl). wp_step. eapply wp_mono; [by apply reset_peer_wp|]. intros _ w2 [Hw2 Hn2]. wp_step.
    split; [done|]. intros ? [= <-]. lia.
Qed.

Lemma insert_rx_ok p packet n low high b :
  rx_ok (tp_rx_next_packet_number p + 1) p -> window_inv (tp_tx_window p) -> packet_wf packet -> 0 <= n < 2 ^ 32 ->
  tp_rx_has_packet_number_state p = true ->
  tp_rx_next_packet_number p < n -> tp_rx_buffered_count p < rx_window p -> tp_rx_buffered p = low ++ high ->
  copy_of packet n b -> Forall (fun b => rx_number b < n) low -> Forall (fun b => n < rx_number b) high ->
  rx_ok (tp_rx_next_packet_number p + 1)
    (p <| tp_rx_buffered := low ++ b :: high |> <| tp_rx_buffered_count := u8 (tp_rx_buffered_count p + 1) |>).
Proof.
  intros (Hn & Hs & Hok & Hc & Hz & Hst) Hwin Hwf Hnr Hhas Hlt Hcnt Hl Hcopy Hlow Hhigh.
  destruct (copy_of_ok _ _ _ Hwf Hnr Hcopy) as [Hb Hbn]. destruct Hwin as (Hsize & _).
  assert (rx_window p <= 128) as Hrw by (unfold rx_window; case_if; lia).
  assert (zlen (low ++ b :: high) = zlen (low ++ high) + 1) as Hzl by (rewrite !zlen_app, zlen_cons; lia).
  unfold rx_ok. cbn. rewrite Hzl, <- Hl, <- Hc. pose proof (zlen_nonneg (tp_rx_buffered p)).
  rewrite Hl in Hs, Hok. apply rx_sorted_app in Hs as (Hs1 & Hs2 & Hs3). apply Forall_app in Hok as [Hok1 Hok2].
  split; [done|]. split; [|split; [|split; [rewrite u8_small; lia|split; [lia|congruence]]]].
  - apply rx_sorted_app. cbn. rewrite Hbn. split; [done|]. split; [split; [lia|]|].
    + destruct high as [|c high]; [done|]. apply Forall_cons in Hhigh as [Hc' _]. destruct Hs2. split; [lia|done].
    + apply Forall_forall. intros a Ha. rewrite Forall_forall in Hs3, Hlow. constructor; [rewrite Hbn; by apply Hlow|by apply Hs3].
  - apply Forall_app. split; [done|]. by constructor.
Qed.

(** The copy of a packet that is out of order, and the SACK. *)
Lemma cache_and_report_wp i p q w :
  world_ok bound w -> peer_at w i p -> packet_wf q -> tp_rx_has_packet_number_state p = true ->
  tp_rx_next_packet_number p < pk_packet_number q ->
  wp (err ← transport_cache_out_of_order_packet i q (pk_packet_number q);
      _ ← transport_send_sack i (pk_source_id q) (tp_rx_next_packet_number p)
            (pk_session_id q) (pk_connection_id q) (pk_session_epoch q);
      _ ← (if is_ok err then mret tt
           else add_stats (fun s => s <| ls_rx_dropped := u64 (ls_rx_dropped s + 1) |>));
      mret (err, Ptr i)) (fun r w' => kept bound w r w' /\ r.2 = Ptr i) w.
Proof.
  intros Hw Hp Hwf Hhas Hlt. destruct (world_ok_peer _ _ _ _ Hw Hp) as [Htx Hrx]. pose proof Hrx as (Hn & Hs & _).
  pose proof Hwf as (_ & _ & Hpn%is_u32_spec).
  assert (wp (transport_cache_out_of_order_packet i q (pk_packet_number q))
    (fun _ w' => kept bound w tt w' /\ exists p', peer_at w' i p' /\ rx_ok (tp_rx_next_packet_number p + 1) p') w) as Hcache.
  { apply wp_run. destruct (cache_run i p q (pk_packet_number q) w Hp Hwf Hs) as (err & w' & Hrun & Hres).
    exists err, w'. split; [exact Hrun|]. destruct Hres as [(_ & heap & ->)|[(_ & -> & _)|(_ & _ & Hcnt & heap & low & high & b & Hl & Hcopy & Hlo & Hhi & ->)]].
    - split; [done|]. by exists p.
    - split; [done|]. by exists p.
    - destruct Htx as (Hq & Hwin & Hrest). eassert (rx_ok _ _) as Hrx' by by eapply insert_rx_ok.
      split; [split; [|by rewrite n_peers_with]|eexists; split; [by eapply peer_at_with|exact Hrx']].
      apply world_ok_with; [done|]. split; [done|exact Hrx']. }
  wp_step. eapply wp_mono; [exact Hcache|]. intros err w1 [[Hw1 Hn1] (p1 & Hp1 & Hrx1)]. wp_step.
  eapply wp_mono; [eapply send_sack_aside; [apply world_ok_layer in Hw1; apply Hw1|done|done|lia]|]. intros serr w2 Ha2.
  pose proof (world_ok_aside _ _ Hw1 Ha2) as Hw2. pose proof (n_peers_aside _ _ Ha2) as Hn2. wp_step.
  apply (wp_mono _ (kept bound w2)). { case_if; [by wp_step|]. by apply kept_add_stats. }
  intros _ w3 [Hw3 Hn3]. wp_step. split; [|done]. split; [done|congruence].
Qed.
Lemma rx_order_wp q peer w :
  world_ok bound w -> packet_wf q -> (forall i, peer = Ptr i -> (i < n_peers w)%nat) ->
  wp (transport_process_reliable_rx_order q peer) answer_ok w.
Proof.
  intros Hw Hwf Hpeer. pose proof Hwf as (_ & _ & Hpn%is_u32_spec). unfold transport_process_reliable_rx_order. wp_step.
  apply (wp_mono _ (got_peer bound w)). { destruct peer; [by wp_step|by apply get_or_create_rx_wp]. }
  intros [i|] w1 (Hw1 & _ & Hi); [|by wp_step]. specialize (Hi i eq_refl).
  destruct (world_ok_at _ _ _ Hw1 Hi) as (p & Hp & Htx & Hrx). wp_step. eapply wp_get_peer; [done|].
  assert (wp (if tp_rx_has_packet_number_state p then mret tt
      else put_peer i (fun p => p <| tp_rx_next_packet_number := 0 |> <| tp_rx_has_packet_number_state := true |>))
    (fun _ w' => kept bound w1 tt w' /\ exists p', peer_at w' i p' /\ tp_rx_has_packet_number_state p' = true) w1) as Hinit.
  { destruct (tp_rx_has_packet_number_state p) eqn:Hhas; [wp_step; split; [done|by exists p]|].
    eapply wp_put_peer; [done|]. destruct Hrx as (Hn & Hs & Hok & Hc & Hz & Hst).
    split; [|eexists; split; [by eapply peer_at_with|done]]. split; [|apply n_peers_with].
    apply world_ok_with; [done|]. split; [done|]. specialize (Hst Hhas). unfold rx_ok. cbn. rewrite Hst in *.
    split; [lia|]. by do 4 (split; [done|]). }
  wp_step. eapply wp_mono; [exact Hinit|]. intros _ w2 [[Hw2 Hn2] (p2 & Hp2 & Hhas)].
  wp_step. eapply wp_get_peer; [done|]. cbn zeta. cbn [transport_receive_packet_number].
  assert (forall w', world_ok bound w' -> n_peers w' = n_peers w2 -> forall err, answer_ok (err, Ptr i) w') as Hans.
  { intros w' Hw' Hn' err. split; [done|]. intros ? [= _ <-]. lia. }
  assert (forall w', aside w2 w' -> forall err, answer_ok (err, Ptr i) w') as Hside.
  { intros w' Ha err. apply Hans; [by eapply world_ok_aside|by apply n_peers_aside]. }
  assert (layer_ok w2) as Hl2 by (apply world_ok_layer in Hw2; apply Hw2).
  case_if; [|case_if].
  - wp_step. eapply wp_mono; [by apply send_ack_aside|]. intros ? w3 Ha. wp_step. by apply Hside.
  - eapply wp_mono; [apply (cache_and_report_wp i p2); [done|done|done|done|lia]|]. intros [err peer'] w3 [[Hw3 Hn3] Hr].
    cbn [snd] in Hr. rewrite Hr. by apply Hans.
  - wp_step. eapply wp_mono; [by apply send_ack_aside|]. intros ? w3 Ha. wp_step. by apply Hside.
Qed.

(** ** The entry point *)

Lemma receive_in_order_wp q peer d len w :
  world_ok bound w -> packet_wf q -> 0 <= len <= zlen d -> bytes_ok d ->
  (forall i, peer = Ptr i -> pk_reliable q = XGL_RELIABILITY_ACK_ELICITING ->
     exists p, peer_at w i p /\ tp_rx_next_packet_number p = pk_packet_number q) ->
  wp (receive_in_order q peer d len) (fun _ w' => world_ok bound w') w.
Proof.
  intros Hw Hwf Hlen Hd Hpeer. pose proof Hw as [_ Hl]%world_ok_layer. pose proof Hwf as (_ & He & _).
  unfold receive_in_order. wp_step. apply decode_packet_wp; [done|done|done|]. intros d' len' Hlen' Hd'. cbn beta iota.
  wp_step. eapply wp_mono; [by apply deliver_aside|]. intros err w1 Ha1. pose proof (world_ok_aside _ _ Hw Ha1) as Hw1.
  destruct (is_ok err); cbn [negb]; [|by wp_step]. destruct peer as [i|]; [|by wp_step].
  destruct (Z.eqb_spec (pk_reliable q) XGL_RELIABILITY_ACK_ELICITING) as [Hrel|]; [|by wp_step].
  destruct (Hpeer i eq_refl Hrel) as (p & Hp & Hnext). cbn [transport_receive_packet_number].
  assert (peer_at w1 i p) as Hp1 by (destruct Ha1 as (_ & Heq & _); unfold peer_at; by rewrite Heq).
  destruct (world_ok_peer _ _ _ _ Hw1 Hp1) as [Htx Hrx]. wp_step. eapply wp_put_peer; [done|].
  rewrite <- Hnext. set (p' := p <| tp_rx_next_packet_number := u32 (tp_rx_next_packet_number p + 1) |>).
  assert (draining i p' (with_peer i p' w1)) as Hdr.
  { eapply draining_put; [by apply world_ok_draining|by eapply tx_ok_rx|exact (advanced_ok p Hrx)]. }
  unfold transport_drain_rx_buffered. wp_step. eapply wp_get_peer; [apply Hdr|].
  eapply wp_mono; [by apply (drain_loop_wp _ i p')|]. by intros r w2 [Hw2 _].
Qed.
Lemma receive_reliable_wp q peer d len w :
  world_ok bound w -> packet_wf q -> 0 <= len <= zlen d -> bytes_ok d ->
  (forall i, peer = Ptr i -> (i < n_peers w)%nat) ->
  wp (receive_reliable q peer d len) (fun _ w' => world_ok bound w') w.
Proof.
  intros Hw Hwf Hlen Hd Hpeer. unfold receive_reliable. wp_step.
  eapply wp_mono; [by apply rx_order_wp|]. intros [err r] w1 [Hw1 Hr]. cbn beta iota.
  destruct (is_ok err) eqn:Herr; cbn [negb]; [|by wp_step].
  assert (err = XGL_OK) as -> by by destruct err. destruct r as [i|]; cbn zeta; [|by apply receive_in_order_wp].
  destruct (world_ok_at _ w1 i Hw1 (Hr i eq_refl)) as (p & Hp & _). wp_step. eapply wp_get_peer; [done|].
  cbn [transport_receive_packet_number].
  destruct (Z.eqb_spec (pk_packet_number q) (tp_rx_next_packet_number p)) as [Heq|]; cbn [negb]; [|by wp_step].
  apply receive_in_order_wp; try done. intros ? [= <-] _. by exists p.
Qed.
Lemma receive_wp q w :
  world_ok bound w -> packet_wf q -> bound < 2 ^ 32 ->
  wp (xgl_transport_receive q) (fun _ w' => world_ok bound w') w.
Proof.
  intros Hw Hwf Hb. unfold xgl_transport_receive. case_if; [by apply control_packet_wp|].
  case_if; [by eapply wp_mono; [apply ack_packet_wp|by intros ? w' [? _]]|].
  pose proof Hwf as (Hdata & _). destruct (pk_data q) as [pd|] eqn:Hpd; [|by wp_step].
  destruct (pd_data pd) as [d|]; [|by wp_step]. destruct Hdata as [Hlen Hd].
  wp_step. eapply wp_mono; [by apply prepare_rx_peer_wp|]. intros [err r] w1 [Hw1 Hr]. cbn beta iota.
  destruct (is_ok err) eqn:Herr; cbn [negb]; [|by wp_step]. assert (err = XGL_OK) as -> by by destruct err.
  wp_step. wp_step. wp_step.
  assert (wp (match r with NULL => mret tt | Ptr peer => put_peer peer (fun p => p <| tp_last_active_ms := w_time w1 |>) end)
    (kept bound w1) w1) as Htouch.
  { destruct r as [i|]; [|by wp_step]. destruct (world_ok_at _ w1 i Hw1 (Hr i eq_refl)) as (p & Hp & Hok).
    by eapply kept_put_peer. }
  eapply wp_mono; [exact Htouch|]. intros _ w2 [Hw2 Hn2].
  destruct (Z.eqb_spec (pk_reliable q) XGL_RELIABILITY_ACK_ELICITING) as [Hrel|Hrel].
  - apply receive_reliable_wp; [done..|]. intros i ->. rewrite Hn2. by apply Hr.
  - apply receive_in_order_wp; done.
Qed.
End inv.
