(* ===== verification/SendInv.v ===== *)
(** * The send path keeps the invariant

    [xgl_transport_send] is defined on well-formed application data in every
    state of the invariant of [TransportInv] and keeps it.  Between the moment a
    reliable packet is queued and the moment its number is committed the queue
    holds the number that the window has not given out yet ([pending]). *)
From S2P Require Import Prelude State Errors Serialize Layer Wire WireExt LinkedList HashTable Frame Codec Route Window Rtt Fragment Reliable Transport Acks Receive Send TransportLogic TransportInv ReceiveInv.

(** ** Computations that leave the peers alone *)

Lemma layer_send_sends iface p w : packet_wf p -> pk_data p <> NULL -> sends (xgl_layer_send iface p) w.
Proof.
  intros Hwf Hd. unfold xgl_layer_send. destruct iface as [iface|]; [|apply sends_ret].
  destruct (li_send iface); [|apply sends_ret].
  assert (Forall (fun e => event_ok e /\ is_send e) [ev_send p]) as Hes.
  { constructor; [|constructor]. split; [exact (conj Hwf Hd)|by eexists]. }
  unfold sends, mbind, ST_bind, emit, modify, net_answer. cbn.
  destruct (w_net w) as [|a net] eqn:Hn; eexists _, [ev_send p], _; (split; [reflexivity|done]).
Qed.
Lemma layer_send_aside iface p w :
  layer_ok w -> packet_wf p -> pk_data p <> NULL -> wp (xgl_layer_send iface p) (fun _ w' => aside w w') w.
Proof.
  intros Hl Hwf Hd. apply wp_sends; [by apply layer_send_sends|]. intros a es net Hes. by apply aside_sends.
Qed.
Lemma control_ext_run t :
  xgl_wire_encode_ext (replicate 4 0) 4 XGL_WIRE_EXT_DATA_TYPE (Ptr [t]) 1 0 =
    Some (XGL_OK, 3, tlv_bytes (XGL_WIRE_EXT_DATA_TYPE, [t]) ++ [0]).
Proof. by apply (encode_ext_run [0; 0; 0] [0] 4 XGL_WIRE_EXT_DATA_TYPE [t] 0). Qed.
Lemma send_control_aside target ct n s c e w :
  layer_ok w -> 0 <= ct < 256 -> is_u32 n = true ->
  wp (transport_send_control target ct n s c e) (fun _ w' => aside w w') w.
Proof.
  intros Hl Hct Hn. unfold transport_send_control. wp_step. eapply wp_lift; [apply control_ext_run|]. cbn beta iota. cbn [is_ok negb].
  wp_step. wp_step. case_if; [by wp_step|]. wp_step. eapply wp_mono; [apply layer_send_aside|]; [done| |done|].
  - split; [done|]. split; [|done]. split; [by vm_compute|].
    change XGL_WIRE_EXT_DATA_TYPE with 8. cbn [tlv_bytes fst snd app]. change (zlen [ct]) with 1.
    repeat (constructor; [lia|]). constructor.
  - intros [err phy] w1 Ha. by wp_step.
Qed.
Lemma heap_aside w heap : layer_ok w -> aside w (w <| w_heap := heap |>).
Proof. done. Qed.
Lemma add_stats_aside f w : layer_ok w -> wp (add_stats f) (fun _ w' => aside w w') w.
Proof. intros Hl. apply wp_put_ctx. by apply aside_stats. Qed.
Lemma count_error_aside w : layer_ok w -> wp transport_count_send_error (fun _ w' => aside w w') w.
Proof. apply add_stats_aside. Qed.
Lemma report_error_aside err w : layer_ok w -> err <> XGL_OK -> wp (report_error err) (fun _ w' => aside w w') w.
Proof. intros Hl He. unfold report_error. wp_step. wp_step. case_if; [by wp_step|]. wp_step. by apply aside_emit. Qed.

(** ** A packet that is queued and not committed *)

(** Who the peer is does not change. *)
Lemma find_peer_loop_Some f peers : forall n i, find_peer_loop f peers n = Ptr (n + i)%nat -> exists p, peers !! i = Some p /\ f p = true.
Proof.
  induction peers as [|p peers IH]; intros n i; [done|]. cbn [find_peer_loop]. destruct (f p) eqn:Hf.
  - intros [= Hn]. assert (i = 0%nat) as -> by lia. by exists p.
  - intros Hi. destruct i as [|i].
    + apply find_peer_loop_lt in Hi. lia.
    + replace (n + S i)%nat with (S n + i)%nat in Hi by lia. by apply IH in Hi.
Qed.
Lemma get_or_create_id id conn epoch scoped w bound :
  world_ok bound w -> 0 <= bound ->
  wp (transport_get_or_create_peer_internal id conn epoch scoped)
    (fun r w' => forall i, r = Ptr i -> exists p, peer_at w' i p /\ tp_peer_id p = id) w.
Proof.
  intros Hw Hb. unfold transport_get_or_create_peer_internal. wp_step. wp_step.
  destruct (if scoped then _ else _) as [i|] eqn:Hfind.
  { wp_step. intros ? [= <-]. unfold peer_at. destruct scoped; apply (find_peer_loop_Some _ _ 0) in Hfind as (p & Hp & Hf);
      exists p; (split; [done|lia]). }
  wp_step. apply wp_malloc. intros ok heap. destruct ok; cbn [negb]; [|by wp_step]. wp_step. wp_step. wp_step.
  destruct Hw as ((Hp & Hwin & Hrest) & Ht). apply init_window_wp; [apply Hwin|]. intros err win heap2 Hok.
  destruct (is_ok err) eqn:Herr; cbn [negb]; [|by wp_step]. wp_step. wp_step. wp_step.
  intros ? [= <-]. eexists. split; [reflexivity|done].
Qed.

Section inv.
  Context (bound : Z) (Hbound : 0 <= bound < 2 ^ 32).

(** The number that is next in the window of the peer. *)
Definition next_number (p : xgl_transport_peer_state_t) : Z := sw_next_packet_number (tp_tx_window p).
Definition pending (i : nat) (p : xgl_transport_peer_state_t) (w : world) : Prop :=
  others_ok bound i w /\ peer_at w i p /\ queue_ok (next_number p + 1) (tp_peer_id p) (tp_reliable_queue p) /\
  window_inv (tp_tx_window p) /\ next_number p + 1 <= bound /\ tp_rtt_est p = initial_rtt /\
  rx_ok (tp_rx_next_packet_number p + 1) p.
Lemma pending_aside i p w w' : pending i p w -> aside w w' -> pending i p w'.
Proof. intros (Ho & Hp & Hrest) Ha. split; [by eapply others_aside|]. split; [by eapply peer_at_aside|done]. Qed.
Lemma pending_layer i p w : pending i p w -> layer_ok w.
Proof. by intros ((Hl & _) & _). Qed.
(** Another queue for the peer. *)
Lemma pending_put_queue i p q w :
  pending i p w -> queue_ok (next_number p + 1) (tp_peer_id p) q ->
  wp (put_queue i q) (fun _ w' => pending i (p <| tp_reliable_queue := q |>) w') w.
Proof.
  intros (Ho & Hp & Hq & Hrest) Hq'. unfold put_queue. eapply wp_put_peer; [done|]. split; [by apply others_with|].
  split; [by eapply peer_at_with|]. split; [done|]. exact Hrest.
Qed.
Lemma wp_put_packet i node f p c Q w :
  peer_at w i p -> rq_packets (tp_reliable_queue p) !! node = Some c ->
  wp (put_queue i ((tp_reliable_queue p) <| rq_packets := <[node := f c]> (rq_packets (tp_reliable_queue p)) |>)) Q w ->
  wp (put_packet i node f) Q w.
Proof. intros Hp Hc HQ. unfold put_packet. wp_step. eapply wp_get_queue; [done|]. wp_step. by eapply wp_lift. Qed.

(** An update of a packet that keeps its key and its views. *)
Definition same_key (f : xgl_reliable_packet_t -> xgl_reliable_packet_t) : Prop :=
  forall c, rp_index_next (f c) = rp_index_next c /\ rp_target_id (f c) = rp_target_id c /\
    rp_packet_number (f c) = rp_packet_number c /\ rp_initial_timeout_ms (f c) = rp_initial_timeout_ms c /\
    rp_data (f c) = rp_data c /\ rp_data_len (f c) = rp_data_len c /\
    rp_extensions (f c) = rp_extensions c /\ rp_extensions_len (f c) = rp_extensions_len c.
Lemma same_key_queue b t q a f :
  queue_ok b t q -> a ∈ rq_wait_ack_list q -> same_key f ->
  exists c, rq_packets q !! a = Some c /\ queue_ok b t (q <| rq_packets := <[a := f c]> (rq_packets q) |>).
Proof.
  intros Hq Ha Hf. destruct (queue_packet _ _ _ _ Hq Ha) as (c & Hc & Hok & Hupd). exists c. split; [done|].
  destruct (Hf c) as (H1 & H2 & H3 & H4 & H5 & H6 & H7 & H8). apply Hupd; [done..|].
  unfold reliable_ok. by rewrite H2, H3, H4, H5, H6, H7, H8.
Qed.
Lemma pending_put_packet i p node f w :
  pending i p w -> node ∈ rq_wait_ack_list (tp_reliable_queue p) -> same_key f ->
  wp (put_packet i node f) (fun _ w' => exists q, pending i (p <| tp_reliable_queue := q |>) w' /\
    rq_wait_ack_list q = rq_wait_ack_list (tp_reliable_queue p)) w.
Proof.
  intros Hpend Ha Hf. pose proof Hpend as (Ho & Hp & Hq & _). destruct (same_key_queue _ _ _ _ _ Hq Ha Hf) as (c & Hc & Hq').
  eapply wp_put_packet; [done|done|]. eapply wp_mono; [by apply pending_put_queue|]. intros ? w' Hw'. eexists. split; [exact Hw'|done].
Qed.
Lemma wp_put_packet_ok i p node f Q w :
  world_ok bound w -> peer_at w i p -> node ∈ rq_wait_ack_list (tp_reliable_queue p) -> same_key f ->
  (forall q, let p' := p <| tp_reliable_queue := q |> in world_ok bound (with_peer i p' w) ->
     rq_wait_ack_list q = rq_wait_ack_list (tp_reliable_queue p) -> Q tt (with_peer i p' w)) ->
  wp (put_packet i node f) Q w.
Proof.
  intros Hw Hp Ha Hf HQ. destruct (world_ok_peer _ _ _ _ Hw Hp) as [(Hq & Hrest) Hrx].
  destruct (same_key_queue _ _ _ _ _ Hq Ha Hf) as (c & Hc & Hq'). eapply wp_put_packet; [done|done|].
  unfold put_queue. eapply wp_put_peer; [done|]. apply HQ; [|done]. apply world_ok_with; [done|]. by split.
Qed.
Lemma wp_update_deadline i p Q w :
  world_ok bound w -> peer_at w i p ->
  (forall d, let p' := p <| tp_earliest_deadline_ms := d |> in
     world_ok bound (with_peer i p' w) -> Q tt (with_peer i p' w)) ->
  wp (transport_update_peer_deadline i) Q w.
Proof.
  intros Hw Hp HQ. pose proof (world_ok_peer _ _ _ _ Hw Hp) as Hok. pose proof Hok as (((l & Hrep & _) & _) & _).
  unfold transport_update_peer_deadline. wp_step. eapply wp_get_peer; [done|].
  destruct (deadline_loop_total _ _ l _ 0 Hrep) as [d Hd]; [done|]. pose proof Hrep as (Hwl & _).
  wp_step. eapply wp_lift; [by rewrite Hwl|]. eapply wp_put_peer; [done|]. apply HQ. by apply world_ok_with.
Qed.

(** ** The queue of a packet that is being sent *)

Lemma add_queue_ok b t q src len source dt prio timeout env :
  queue_ok b t q -> 0 <= b -> 0 <= len <= zlen src -> bytes_ok src -> 0 <= timeout < 2 ^ 30 ->
  exists err q' a env', xgl_reliable_add_packet_number q (Ptr src) len source t b dt prio timeout NULL env =
      Some (err, q', a, env') /\
    ((err <> XGL_OK /\ q' = q) \/
     (err = XGL_OK /\ queue_ok (b + 1) t q' /\
      exists node, xgl_reliable_find_packet_number q' b t = Some (Ptr node) /\ node ∈ rq_wait_ack_list q')).
Proof.
  intros (l & Hrep & Hu & Hok) Hb Hlen Hsrc Ht.
  destruct (add_spec q l [] src len source t b dt prio timeout NULL env Hrep ltac:(lia) ltac:(lia)) as
    (err & q' & a & env' & Hrun & _ & Hres). exists err, q', a, env'. split; [done|].
  destruct Hres as [(Herr & -> & _)|(-> & node & _ & Hfresh & Hrep')]; [by left|]. right. split; [done|].
  set (c := mk_packet _ _ _ _ _ _ _ _ _ _ _ _ _ _ _ _ _ _ _ _ _) in *.
  assert (forall x, x ∈ l -> rp_packet_number x.2 < b) as Hlt.
  { intros x Hx. rewrite Forall_forall in Hok. destruct (Hok x Hx) as (_ & ? & _). lia. }
  assert (unique_keys (l ++ [(node, c)])) as Hu'.
  { intros x y n t' Hx Hy Hmx Hmy. unfold matches in Hmx, Hmy.
    apply elem_of_app in Hx as [Hx| ->%list_elem_of_singleton]; apply elem_of_app in Hy as [Hy| ->%list_elem_of_singleton];
      [by eapply Hu|specialize (Hlt x Hx)|specialize (Hlt y Hy)|done]; cbn in *; lia. }
  split.
  - exists (l ++ [(node, c)]). split; [done|]. split; [done|]. apply Forall_app. split.
    + eapply Forall_impl; [exact Hok|]. intros x (? & ? & ?). split; [done|]. split; [lia|done].
    + constructor; [|constructor]. unfold reliable_ok. cbn. split; [done|]. split; [lia|]. split; [done|]. split; [|done].
      rewrite zlen_take by lia. split; [lia|by apply Forall_take].
  - exists node. pose proof Hrep' as (Hw & Hix & _). rewrite (find_spec _ _ _ _ Hix), Hw. split.
    + destruct (newest (l ++ [(node, c)]) b t) as [x|] eqn:Hnew.
      * apply newest_elem in Hnew as [Hx Hm]. cbn. f_equal. f_equal. apply (Hu' x (node, c) b t); [done| |done|].
        -- apply elem_of_app. right. by left.
        -- unfold matches. cbn. by rewrite !Z.eqb_refl.
      * unfold newest in Hnew. apply last_None in Hnew. exfalso. apply (f_equal length) in Hnew. revert Hnew.
        rewrite filter_app, length_app, filter_cons_True; [cbn; lia|]. unfold matches. cbn. by rewrite !Z.eqb_refl.
    + rewrite fmap_app. apply elem_of_app. right. by left.
Qed.
Lemma set_extensions_queue_ok b t q a ext len env :
  queue_ok b t q -> a ∈ rq_wait_ack_list q -> view_ok ext len ->
  exists err q' env', xgl_reliable_set_packet_extensions q a ext len env = Some (err, q', env') /\
    queue_ok b t q' /\ rq_wait_ack_list q' = rq_wait_ack_list q.
Proof.
  intros Hq Ha Hv. unfold xgl_reliable_set_packet_extensions. case_if; [by eexists _, _, _|].
  destruct (queue_packet _ _ _ _ Hq Ha) as (c & Hc & Hok & Hupd). rewrite Hc. cbn [mbind option_bind].
  set (c1 := match rp_extensions c with NULL => c | Ptr _ => _ end).
  assert (reliable_ok b t c1 /\ rp_index_next c1 = rp_index_next c /\ rp_target_id c1 = rp_target_id c /\
          rp_packet_number c1 = rp_packet_number c) as (Hok1 & H1 & H2 & H3).
  { unfold c1. destruct (rp_extensions c); [|done]. by destruct Hok as (? & ? & ? & ? & _). }
  assert (queue_ok b t (q <| rq_packets := <[a := c1]> (rq_packets q) |>)) as Hq1 by by apply Hupd.
  case_if; [by eexists _, _, _|]. destruct (alloc_answer len env) as [[] env']; cbn [negb]; [|by eexists _, _, _].
  destruct ext as [e|]; [|cbn in Hv; lia]. destruct Hv as [Hlen He]. cbn [mbind option_bind].
  rewrite rd_bytes_Some by lia. cbn [mbind option_bind]. rewrite drop_to_nat_0. eexists _, _, _. split; [reflexivity|].
  split; [|done]. apply Hupd; [done..|]. destruct Hok1 as (G1 & G2 & G3 & G4 & _).
  do 4 (split; [done|]). cbn. rewrite zlen_take by lia. split; [lia|by apply Forall_take].
Qed.
Lemma remove_pending b t q :
  queue_ok (b + 1) t q -> exists err q', xgl_reliable_remove_packet_number q b t = Some (err, q') /\ queue_ok b t q'.
Proof.
  intros (l & Hrep & Hu & Hok). destruct (remove_one_spec q l [] b t Hrep Hu) as (err & q' & Hrun & Hrep' & _).
  exists err, q'. split; [done|]. eexists. split; [exact Hrep'|]. split; [eapply unique_sublist; [exact Hu|apply unacked_sublist]|].
  apply Forall_forall. intros x Hx. apply list_elem_of_filter in Hx as [Hne Hx]. rewrite Forall_forall in Hok.
  destruct (Hok x Hx) as (H1 & H2 & H3 & H4). split; [done|]. split; [|done]. rewrite H3, Z.eqb_refl in Hne. cbn in Hne. lia.
Qed.

(** ** Queueing *)

Definition tx_data_ok (tx : xgl_tx_data_t) : Prop :=
  match tx_data tx with NULL => True | Ptr d => 0 <= tx_data_len tx <= zlen d /\ bytes_ok d end /\
  0 <= tx_timeout_ms tx < 2 ^ 30 /\ is_u16 (tx_target_id tx) = true.
Lemma send_timeout_range ctx p tx :
  tx_data_ok tx -> tp_rtt_est p = initial_rtt -> 0 <= transport_send_timeout_ms ctx p tx < 2 ^ 30.
Proof.
  intros (_ & Ht & _) Hr. unfold transport_send_timeout_ms. case_if; [|rewrite Hr; split; by vm_compute].
  unfold i32. rewrite u32_small by lia. replace (tx_timeout_ms tx <? 2147483648) with true by lia. lia.
Qed.
Lemma with_heap_wp {A} (f : heap_answers -> M (A * heap_answers)) a heap Q w :
  f (w_heap w) = Some (a, heap) -> Q a (w <| w_heap := heap |>) -> wp (with_heap f) Q w.
Proof. intros Hf HQ. unfold with_heap. wp_step. wp_step. wp_step. eapply wp_lift; [done|]. cbn beta iota. wp_step. wp_step. by wp_step. Qed.

(** What the queueing of the next number of the peer [i] leaves. *)
Definition queued (i : nat) (n id : Z) (r : xgl_error_t * ptr addr) (w : world) : Prop :=
  if is_ok r.1
  then exists p, pending i p w /\ next_number p = n /\ tp_peer_id p = id /\
         forall node, r.2 = Ptr node -> node ∈ rq_wait_ack_list (tp_reliable_queue p)
  else world_ok bound w.
Lemma pending_of_world i p q w :
  world_ok bound w -> peer_at w i p -> next_number p + 1 <= bound -> queue_ok (next_number p + 1) (tp_peer_id p) q ->
  pending i (p <| tp_reliable_queue := q |>) (with_peer i (p <| tp_reliable_queue := q |>) w).
Proof.
  intros Hw Hp Hn Hq. destruct (world_ok_peer _ _ _ _ Hw Hp) as [(_ & Hwin & _ & Hr) Hrx].
  split; [by apply others_with, world_ok_others|]. split; [by eapply peer_at_with|]. by do 4 (split; [done|]).
Qed.
(** Back to the invariant, with a queue below the next number. *)
Lemma pending_close i p q w : pending i p w -> queue_ok (next_number p) (tp_peer_id p) q ->
  world_ok bound (with_peer i (p <| tp_reliable_queue := q |>) w).
Proof.
  intros (Ho & Hp & _ & Hwin & Hn & Hr & Hrx) Hq. eapply others_close; [done|done|]. split; [|done].
  unfold tx_ok. cbn. do 2 (split; [done|]). split; [unfold next_number in Hn; lia|done].
Qed.
Lemma wp_unqueue i p w :
  pending i p w ->
  wp (queue ← get_queue i;
      '(_, queue) ← lift (xgl_reliable_remove_packet_number queue (next_number p) (tp_peer_id p));
      put_queue i queue) (fun _ w' => world_ok bound w') w.
Proof.
  intros Hpend. pose proof Hpend as (Ho & Hp & Hq & _). wp_step. eapply wp_get_queue; [done|].
  destruct (remove_pending _ _ _ Hq) as (err & q' & Hrun & Hq'). wp_step. eapply wp_lift; [done|]. cbn beta iota.
  unfold put_queue. eapply wp_put_peer; [done|]. by apply pending_close.
Qed.

Lemma next_number_nonneg p : window_inv (tp_tx_window p) -> 0 <= next_number p.
Proof. intros (_ & _ & Hn%is_u32_spec & _). unfold next_number. lia. Qed.
Lemma queue_reliable_wp i p tx data len fragment ext ext_len w :
  world_ok bound w -> peer_at w i p -> next_number p + 1 <= bound -> tp_peer_id p = tx_target_id tx -> tx_data_ok tx ->
  0 <= len <= zlen data -> bytes_ok data -> view_ok ext ext_len ->
  wp (queue_reliable i tx (Ptr data) len (next_number p) fragment ext ext_len)
    (fun r w' => queued i (next_number p) (tp_peer_id p) r w') w.
Proof.
  intros Hw Hp Hn Hid Htx Hlen Hdata Hext. destruct (world_ok_peer _ _ _ _ Hw Hp) as [(Hq & Hwin & Hnb & Hr) Hrx].
  unfold queue_reliable. wp_step. wp_step. wp_step. eapply wp_get_peer; [done|]. rewrite <- Hid.
  destruct (add_queue_ok (next_number p) (tp_peer_id p) (tp_reliable_queue p) data len (tc_local_id (w_ctx w))
    (tx_data_type tx) (tx_priority tx) (transport_send_timeout_ms (w_ctx w) p tx) (w_heap w)) as
    (err & q' & a & env' & Hrun & Hres); [done|by apply next_number_nonneg|done|done|by apply send_timeout_range|].
  wp_step. eapply with_heap_wp; [rewrite Hrun; reflexivity|]. cbn beta iota.
  set (w1 := w <| w_heap := env' |>). assert (world_ok bound w1) as Hw1 by done. assert (peer_at w1 i p) as Hp1 by done.
  destruct Hres as [(Herr & ->)|(-> & Hq' & node & Hfind & Hnode)].
  { wp_step. eapply wp_mono; [by apply (kept_put_queue bound i p)|]. intros ? w2 [[Hw2 _] _].
    replace (is_ok err) with false by (by destruct err). cbn [negb]. wp_step. unfold queued. cbn [fst].
    by replace (is_ok err) with false by (by destruct err). }
  wp_step. unfold put_queue at 1. eapply wp_put_peer; [done|]. set (p2 := p <| tp_reliable_queue := q' |>).
  assert (pending i p2 (with_peer i p2 w1)) as Hpend by by apply pending_of_world.
  cbn [is_ok negb]. wp_step. eapply wp_lift; [exact Hfind|]. cbn beta iota.
  wp_step. eapply wp_mono; [apply (pending_put_packet i p2 node); [done|done|by intros c]|].
  intros ? w3 (q3 & Hpend3 & Hl3). cbn in Hpend3. destruct fragment; cbn [negb].
  2: { wp_step. unfold queued. cbn [fst snd is_ok]. eexists. split; [exact Hpend3|]. do 2 (split; [done|]). intros ? [= <-]. cbn. by rewrite Hl3. }
  wp_step. eapply wp_mono; [eapply (pending_put_packet i _ node); [exact Hpend3|cbn; by rewrite Hl3|by intros c]|].
  intros ? w4 (q4 & Hpend4 & Hl4). cbn in Hl4, Hpend4. pose proof Hpend4 as (Ho4 & Hp4 & Hq4 & _). cbn in Hq4.
  wp_step. eapply wp_get_queue; [done|]. cbn.
  destruct (set_extensions_queue_ok _ _ q4 node ext ext_len (w_heap w4) Hq4) as (err & q5 & env5 & Hset & Hq5 & Hl5);
    [by rewrite Hl4, Hl3|done|].
  wp_step. eapply with_heap_wp; [rewrite Hset; reflexivity|]. cbn beta iota.
  wp_step. eapply wp_mono; [eapply (pending_put_queue i); [by eapply pending_aside, heap_aside, pending_layer|exact Hq5]|].
  intros ? w6 Hpend6. cbn in Hpend6. destruct (is_ok err) eqn:Herr.
  - wp_step. unfold queued. cbn [fst snd is_ok]. eexists. split; [exact Hpend6|]. do 2 (split; [done|]). intros ? [= <-].
    cbn. by rewrite Hl5, Hl4, Hl3.
  - destruct (remove_pending (next_number p) (tp_peer_id p) q5 Hq5) as (rerr & q7 & Hrem & Hq7).
    wp_step. eapply wp_lift; [exact Hrem|]. cbn beta iota. wp_step. unfold put_queue. eapply wp_put_peer; [apply Hpend6|].
    wp_step. unfold queued. cbn [fst]. rewrite Herr. exact (pending_close i _ q7 _ Hpend6 Hq7).
Qed.

(** ** Sending *)

Lemma packet_view_wf ctx sess tx data len n fragment ext ext_len :
  view_ok data len -> view_ok ext ext_len -> is_u32 n = true ->
  packet_wf (packet_view ctx sess tx data len n fragment ext ext_len) /\
  pk_data (packet_view ctx sess tx data len n fragment ext ext_len) <> NULL.
Proof. done. Qed.
Lemma advance_window_ok win : window_inv win -> window_inv (xgl_window_advance_next_packet_number win).
Proof.
  intros (H1 & H2 & H3 & H4). split; [done|]. split; [done|]. split; [|done]. apply is_u32_spec, u32_range.
Qed.
Lemma advance_if_possible_aside w :
  layer_ok w -> wp transport_advance_packet_window_if_possible (fun _ w' => aside w w') w.
Proof.
  intros (Hwin & Hrest). apply wp_put_ctx. case_if; (split; [|done]); (split; [|exact Hrest]); [|done].
  by apply advance_window_ok.
Qed.
(** The number of the packet is given out. *)
Lemma commit_wp i p Q w :
  pending i p w ->
  (forall p' w', world_ok bound w' -> peer_at w' i p' -> tp_reliable_queue p' = tp_reliable_queue p ->
     tp_peer_id p' = tp_peer_id p -> next_number p' = next_number p + 1 -> Q tt w') ->
  wp (transport_commit_packet_number (Ptr i)) Q w.
Proof.
  intros Hpend HQ. pose proof Hpend as (Ho & Hp & Hq & Hwin & Hn & Hr & Hrx). pose proof (next_number_nonneg _ Hwin).
  unfold transport_commit_packet_number. wp_step. eapply wp_put_peer; [done|].
  set (p1 := p <| tp_tx_window := _ |>). assert (next_number p1 = next_number p + 1) as Hn1.
  { unfold next_number in *. cbn. apply u32_small. lia. }
  assert (world_ok bound (with_peer i p1 w)) as Hw1.
  { eapply others_close; [done|done|]. split; [|done]. unfold tx_ok. fold (next_number p1). rewrite Hn1. cbn.
    split; [done|]. split; [by apply advance_window_ok|]. by split. }
  assert (peer_at (with_peer i p1 w) i p1) as Hp1 by by eapply peer_at_with.
  pose proof Hw1 as [_ Hl1]%world_ok_layer. eapply wp_mono; [by apply advance_if_possible_aside|].
  intros [] w2 Ha2. eapply (HQ p1); [by eapply world_ok_aside|by eapply peer_at_aside|done|done|done].
Qed.

(** What the sending of the number [n] of the peer [i] leaves. *)
Definition sent (i : nat) (n id : Z) (err : xgl_error_t) (w : world) : Prop :=
  world_ok bound w /\
  (err = XGL_OK -> exists p, peer_at w i p /\ tp_peer_id p = id /\ next_number p = n + 1).
Lemma send_view_reliable_wp i p tx data len fragment ext ext_len rel w :
  pending i p w -> tx_reliable tx = true -> tp_peer_id p = tx_target_id tx ->
  view_ok data len -> view_ok ext ext_len ->
  (forall node, rel = Ptr node -> node ∈ rq_wait_ack_list (tp_reliable_queue p)) ->
  wp (transport_send_packet_view (Ptr i) tx data len (next_number p) fragment ext ext_len rel)
    (sent i (next_number p) (tp_peer_id p)) w.
Proof.
  intros Hpend Hrel Hid Hd He Hnode. pose proof Hpend as (Ho & Hp & _ & Hwin & Hn & _).
  unfold transport_send_packet_view. wp_step. wp_step. wp_step. wp_step. eapply wp_get_peer; [done|]. wp_step. wp_step.
  destruct (packet_view_wf (w_ctx w) (tp_session_id p) tx data len (next_number p) fragment ext ext_len Hd He) as [Hwf Hnn].
  { apply is_u32_spec. pose proof (next_number_nonneg _ Hwin). lia. }
  eapply wp_mono; [apply layer_send_aside; [by eapply pending_layer|exact Hwf|exact Hnn]|]. intros [err phy] w1 Ha1.
  pose proof (pending_aside _ _ _ _ Hpend Ha1) as Hpend1. rewrite Hrel. cbn beta iota zeta.
  destruct (is_ok err) eqn:Herr; cbn [negb].
  - wp_step. eapply commit_wp; [exact Hpend1|]. intros p2 w2 Hw2 Hp2 Hq2 Hid2 Hn2.
    destruct rel as [node|]; [|wp_step; split; [done|]; intros _; by exists p2].
    specialize (Hnode node eq_refl). rewrite <- Hq2 in Hnode. wp_step. wp_step.
    wp_step. eapply wp_put_packet_ok; [done|done|done|by intros c|]. intros q3 p3 Hw3 Hl3.
    assert (peer_at (with_peer i p3 w2) i p3) as Hp3 by by eapply peer_at_with.
    assert (wp (if fragment then mret tt else put_packet i node (fun r => r <| rp_phy := phy |>))
      (fun _ w' => world_ok bound w' /\ exists p4, peer_at w' i p4 /\ tp_peer_id p4 = tp_peer_id p /\
         next_number p4 = next_number p + 1) (with_peer i p3 w2)) as Hphy.
    { destruct fragment; [wp_step; split; [done|]; by exists p3|].
      eapply wp_put_packet_ok; [done|done|cbn; by rewrite Hl3|by intros c|]. intros q4 p4 Hw4 Hl4. split; [done|].
      exists p4. split; [by eapply peer_at_with|done]. }
    wp_step. eapply wp_mono; [exact Hphy|]. intros ? w4 (Hw4 & p4 & Hp4 & Hid4 & Hn4).
    wp_step. eapply wp_update_deadline; [done|done|]. intros d p5 Hw5. wp_step. split; [done|]. intros _.
    exists p5. split; [by eapply peer_at_with|done].
  - wp_step. eapply wp_mono; [apply count_error_aside; by eapply pending_layer|]. intros ? w2 Ha2.
    pose proof (pending_aside _ _ _ _ Hpend1 Ha2) as Hpend2. rewrite <- Hid. wp_step.
    eapply wp_mono; [by eapply wp_unqueue|]. intros ? w3 Hw3. wp_step. split; [done|]. by intros ->.
Qed.
Lemma send_view_unreliable_wp tx data len fragment ext ext_len rel w :
  world_ok bound w -> tx_reliable tx = false -> view_ok data len -> view_ok ext ext_len ->
  wp (transport_send_packet_view NULL tx data len 0 fragment ext ext_len rel) (fun _ w' => world_ok bound w') w.
Proof.
  intros Hw Hrel Hd He. unfold transport_send_packet_view. wp_step. wp_step. wp_step. wp_step. wp_step.
  destruct (packet_view_wf (w_ctx w) 0 tx data len 0 fragment ext ext_len Hd He) as [Hwf Hnn]; [done|].
  eapply wp_mono; [apply layer_send_aside; [by apply world_ok_layer in Hw as [_ ?]|exact Hwf|exact Hnn]|].
  intros [err phy] w1 Ha1. pose proof (world_ok_aside _ _ _ Hw Ha1) as Hw1. rewrite Hrel. cbn beta iota zeta.
  destruct (is_ok err); cbn [negb]; [by wp_step|].
  wp_step. eapply wp_mono; [apply count_error_aside; by apply world_ok_layer in Hw1 as [_ ?]|]. intros ? w2 Ha2.
  wp_step. wp_step. wp_step. by eapply world_ok_aside.
Qed.

(** ** One packet

    [k] numbers of the peer may still be given out. *)
Definition ready (k : Z) (peer : ptr nat) (tx : xgl_tx_data_t) (w : world) : Prop :=
  world_ok bound w /\
  match peer with
  | Ptr i => tx_reliable tx = true /\
             exists p, peer_at w i p /\ tp_peer_id p = tx_target_id tx /\ next_number p + k <= bound
  | NULL => tx_reliable tx = false
  end.
Lemma ready_mono k k' peer tx w : ready k peer tx w -> k' <= k -> ready k' peer tx w.
Proof.
  intros [Hw Hp] Hk. split; [done|]. destruct peer as [i|]; [|done]. destruct Hp as (Hr & p & Hp & Hid & Hn).
  split; [done|]. exists p. split; [done|]. split; [done|lia].
Qed.
Definition numbered (peer : ptr nat) (n : Z) (w : world) : Prop :=
  match peer with Ptr i => exists p, peer_at w i p /\ n = next_number p | NULL => n = 0 end.
Lemma wp_tx_number k peer tx Q w :
  ready k peer tx w -> (forall can n, numbered peer n w -> Q (can, n) w) -> wp (tx_packet_number peer tx) Q w.
Proof.
  intros [Hw Hp] HQ. unfold tx_packet_number. destruct peer as [i|].
  - destruct Hp as (-> & p & Hp & _). wp_step. eapply wp_get_peer; [done|]. wp_step. apply HQ. by exists p.
  - rewrite Hp. wp_step. by apply HQ.
Qed.
Lemma send_numbered_wp k peer tx data len n fragment ext ext_len w :
  ready (k + 1) peer tx w -> 0 <= k -> numbered peer n w -> tx_data_ok tx -> 0 <= len <= zlen data -> bytes_ok data ->
  view_ok ext ext_len ->
  wp ('(err, rel) ← transport_queue_reliable_tx peer tx (Ptr data) len n fragment ext ext_len;
      if negb (is_ok err) then mret err
      else transport_send_packet_view peer tx (Ptr data) len n fragment ext ext_len rel)
    (fun err w' => world_ok bound w' /\ (err = XGL_OK -> ready k peer tx w')) w.
Proof.
  intros [Hw Hp] Hk Hn Htx Hlen Hd He. unfold transport_queue_reliable_tx. destruct peer as [i|].
  - destruct Hp as (Hrel & p & Hp & Hid & Hnb). destruct Hn as (p0 & Hp0 & ->).
    assert (p0 = p) as -> by (unfold peer_at in *; congruence).
    rewrite Hrel. cbn [negb]. wp_step. wp_step. eapply wp_lift; [reflexivity|].
    eapply wp_mono; [apply (queue_reliable_wp i p); try done; lia|]. intros [err rel] w1 Hq. cbn beta iota. unfold queued in Hq. cbn [fst snd] in Hq.
    destruct (is_ok err) eqn:Herr; cbn [negb]; [|wp_step; split; [done|]; by intros ->].
    destruct Hq as (p1 & Hpend & Hn1 & Hid1 & Hnode). rewrite <- Hn1. rewrite Hid in Hid1.
    eapply wp_mono; [by apply (send_view_reliable_wp i p1)|]. intros err2 w2 (Hw2 & Hok2). split; [done|]. intros Herr2.
    destruct (Hok2 Herr2) as (p2 & Hp2 & Hid2 & Hn2). split; [done|]. split; [done|]. exists p2. split; [done|]. split; [congruence|lia].
  - rewrite Hp. cbn [negb]. hnf in Hn. subst n. wp_step. wp_step. cbn [is_ok negb].
    eapply wp_mono; [by apply send_view_unreliable_wp|]. intros err w1 Hw1. split; [done|]. done.
Qed.

(** ** The plan *)

Lemma plan_total ctx tx :
  match tc_route_table ctx with NULL => True | Ptr t => exists es, route_rep t es end ->
  is_u16 (tx_target_id tx) = true ->
  exists err plan, transport_build_send_plan ctx tx = Some (err, plan) /\
    (err = XGL_OK -> sp_needs_fragmentation plan = true ->
     1 <= sp_fragment_payload_budget plan /\
     sp_fragment_count plan =
       (tx_data_len tx + sp_fragment_payload_budget plan - 1) / sp_fragment_payload_budget plan).
Proof.
  intros Hroute Ht. unfold transport_build_send_plan.
  assert (exists mfs, transport_effective_max_frame_size ctx (tx_target_id tx) = Some mfs) as [mfs ->].
  { unfold transport_effective_max_frame_size. destruct (tc_route_table ctx) as [t|]; [|by eexists].
    destruct Hroute as [es Hes]. destruct (route_lookup_rep t es (tx_target_id tx) Hes Ht) as (p & -> & Hp).
    cbn [mbind option_bind]. destruct p as [p|]; [|by eexists]. destruct Hp as [-> Hp].
    destruct (route_map es !! tx_target_id tx); [by eexists|done]. }
  cbn [mbind option_bind]. destruct (xgl_frame_payload_budget mfs 0 _).1; cbn [negb]; [|by eexists _, _].
  set (e := if negb (tx_data_type tx =? 0) then _ else _). destruct (xgl_frame_payload_budget mfs e _) as [[] budget];
    cbn [negb]; [|by eexists _, _].
  destruct (tx_data_len tx <=? budget); [by eexists _, _|]. destruct (tc_enable_fragmentation ctx); cbn [negb]; [|by eexists _, _].
  change XGL_FRAGMENT_EXT_SIZE with 14. destruct (Z.leb_spec budget 14); [by eexists _, _|].
  eexists _, _. split; [reflexivity|]. intros _ _. cbn. split; [lia|done].
Qed.

(** ** Fragments *)

Lemma fragment_ext_run mid off total :
  transport_encode_fragment_ext mid off total (replicate (Z.to_nat XGL_FRAGMENT_EXT_SIZE) 0) XGL_FRAGMENT_EXT_SIZE =
    Some (XGL_OK, 14, tlv_bytes (XGL_WIRE_EXT_FRAGMENT, fragment_value mid off total)).
Proof.
  unfold transport_encode_fragment_ext. change XGL_FRAGMENT_EXT_VALUE_SIZE with 12. change XGL_FRAGMENT_EXT_SIZE with 14.
  pose proof (encode_fragment_run (replicate 12 0) [] 12 mid off total 0 eq_refl ltac:(lia)) as Hv.
  rewrite !app_nil_r in Hv. change (Z.to_nat 12) with 12%nat. rewrite Hv. cbn [mbind option_bind is_ok negb].
  pose proof (encode_ext_run (replicate 14 0) [] 14 XGL_WIRE_EXT_FRAGMENT (fragment_value mid off total) 0) as He.
  rewrite !app_nil_r in He. apply He; [done|done|by vm_compute|by vm_compute].
Qed.
Lemma fragment_ext_view mid off total :
  view_ok (Ptr (tlv_bytes (XGL_WIRE_EXT_FRAGMENT, fragment_value mid off total))) 14.
Proof.
  split; [by vm_compute|]. unfold tlv_bytes. cbn [fst snd]. constructor; [by vm_compute|]. constructor; [by vm_compute|].
  unfold fragment_value. rewrite !Forall_app. split_and!; apply le_bytes_ok.
Qed.
Lemma one_fragment_wp k peer tx data mid b i w :
  ready (k + 1) peer tx w -> 0 <= k -> tx_data_ok tx -> tx_data tx = Ptr data ->
  1 <= b -> 0 <= i -> i * b < tx_data_len tx ->
  wp (send_one_fragment peer tx data mid b i)
    (fun err w' => world_ok bound w' /\ (err = XGL_OK -> ready k peer tx w')) w.
Proof.
  intros Hr Hk Htx Hdata Hb Hi Hoff. pose proof Htx as (Hd & _). rewrite Hdata in Hd. destruct Hd as [Hlen Hd].
  assert (0 <= i * b) as Hpos by nia. unfold send_one_fragment.
  wp_step. eapply wp_tx_number; [done|]. intros can n Hn. cbn beta iota.
  destruct can; cbn [negb]; [|wp_step; split; [apply Hr|done]].
  wp_step. eapply wp_lift; [apply fragment_ext_run|]. cbn beta iota. cbn [is_ok negb].
  wp_step. eapply wp_lift. { unfold suffix_from. by replace ((0 <=? i * b) && (i * b <=? zlen data)) with true by lia. }
  apply send_numbered_wp; try done; [|by apply Forall_drop|apply fragment_ext_view].
  rewrite zlen_drop by lia. case_if; lia.
Qed.
Lemma fragments_loop_wp n : forall peer tx data mid b i w,
  ready (Z.of_nat n) peer tx w -> tx_data_ok tx -> tx_data tx = Ptr data -> 1 <= b -> 0 <= i ->
  (i + Z.of_nat n - 1) * b < tx_data_len tx ->
  wp (fragments_loop n peer tx data mid b i)
    (fun err w' => world_ok bound w' /\ (err = XGL_OK -> ready 0 peer tx w')) w.
Proof.
  induction n as [|n IH]; intros peer tx data mid b i w Hr Htx Hdata Hb Hi Hoff; cbn [fragments_loop]; [by wp_step; split; [apply Hr|]|].
  wp_step. eapply wp_mono; [apply (one_fragment_wp (Z.of_nat n)); try done; [eapply ready_mono; [exact Hr|lia]|lia|nia]|].
  intros err w1 [Hw1 Hr1]. destruct (is_ok err) eqn:Herr; cbn [negb]; [|wp_step; split; [done|]; by intros ->].
  apply IH; try done; [apply Hr1; by destruct err|lia|nia].
Qed.
Lemma fragment_count_bounds len b :
  1 <= len -> 1 <= b -> 1 <= (len + b - 1) / b <= len /\ ((len + b - 1) / b - 1) * b < len.
Proof.
  intros Hl Hb. pose proof (Z.div_mod (len + b - 1) b ltac:(lia)). pose proof (Z.mod_pos_bound (len + b - 1) b ltac:(lia)).
  split; [|nia]. split; [apply Z.div_le_lower_bound; lia|]. apply Z.div_le_upper_bound; nia.
Qed.
Lemma put_next_message_id_aside w m id :
  layer_ok w -> tc_fragment_mgr (w_ctx w) = Ptr m ->
  aside w (w <| w_ctx := (w_ctx w) <| tc_fragment_mgr := Ptr (m <| fm_next_message_id := id |>) |> |>).
Proof. intros (H1 & H2 & H3) Hm. rewrite Hm in H2. split; [|done]. split; [done|]. split; [|done]. exact H2. Qed.
Lemma ready_aside k peer tx w w' : ready k peer tx w -> aside w w' -> ready k peer tx w'.
Proof.
  intros [Hw Hp] Ha. split; [by eapply world_ok_aside|]. destruct peer as [i|]; [|done].
  destruct Hp as (Hr & p & Hp & Hrest). split; [done|]. exists p. split; [by eapply peer_at_aside|done].
Qed.
Lemma ready_layer k peer tx w : ready k peer tx w -> layer_ok w.
Proof. by intros [[_ ?]%world_ok_layer _]. Qed.
Lemma send_fragmented_wp peer tx data plan w :
  ready (tx_data_len tx) peer tx w -> tx_data_ok tx -> tx_data tx = Ptr data -> 1 <= tx_data_len tx ->
  1 <= sp_fragment_payload_budget plan ->
  sp_fragment_count plan = (tx_data_len tx + sp_fragment_payload_budget plan - 1) / sp_fragment_payload_budget plan ->
  wp (transport_send_fragmented peer tx data plan)
    (fun err w' => world_ok bound w' /\ (err = XGL_OK -> ready 0 peer tx w')) w.
Proof.
  intros Hr Htx Hdata Hlen Hb Hcnt. destruct (fragment_count_bounds _ _ Hlen Hb) as [Hc Hlast]. rewrite <- Hcnt in Hc, Hlast.
  unfold transport_send_fragmented. wp_step. wp_step. destruct (tc_fragment_mgr (w_ctx w)) as [m|] eqn:Hm; [|wp_step; split; [apply Hr|done]].
  wp_step. apply wp_put_ctx. pose proof (ready_layer _ _ _ _ Hr) as Hl.
  pose proof (put_next_message_id_aside w m (u32 (fm_next_message_id m + 1)) Hl Hm) as Ha.
  apply fragments_loop_wp; try done; [|rewrite Z2Nat.id by lia; lia].
  eapply ready_mono; [by eapply ready_aside|]. rewrite Z2Nat.id by lia. lia.
Qed.

(** ** The entry point *)

Lemma encode_data_wp tx data Q w :
  layer_ok w -> 0 <= tx_data_len tx <= zlen data -> bytes_ok data ->
  (forall d len, 0 <= len <= zlen d -> bytes_ok d -> Q (d, len) w) -> wp (encode_data tx data) Q w.
Proof.
  intros (_ & _ & Hreg & _ & _ & _ & Hst & Hsb) Hlen Hd HQ. unfold encode_data. wp_step. wp_step.
  destruct (if tx_compression_id tx =? 0 then _ else _) as [r|] eqn:Hr; [|wp_step; by apply HQ].
  assert (tc_codec_registry (w_ctx w) = Ptr r) as Hcr by by destruct (tx_compression_id tx =? 0).
  rewrite Hcr in Hreg. destruct (codec_find_safe r XGL_CODEC_KIND_COMPRESSION (tx_compression_id tx)) as (c & Hfind & Hc); [apply Hreg..|].
  wp_step. eapply wp_lift; [done|]. destruct c as [c|]; [|wp_step; by apply HQ].
  destruct (Hc c eq_refl) as ([Hsafe _] & Henc & _). wp_step. wp_step. destruct (co_encode c) as [f|]; [|done].
  wp_step. eapply wp_lift; [reflexivity|]. destruct (f data (tx_data_len tx) (w_stack w) _) as [[err out] olen] eqn:Hrun. wp_step.
  destruct (is_ok err) eqn:Herr; cbn [andb]; [|by apply HQ]. case_if; apply HQ; try done;
    (destruct (Hsafe f eq_refl data (tx_data_len tx) (w_stack w) _ err out olen Hst Hsb Hrun); [by destruct err|done]).
Qed.
Lemma prepare_send_wp k tx w :
  world_ok (bound - k) w -> 0 <= k <= bound -> 0 <= tx_data_len tx ->
  wp (transport_prepare_reliable_send tx)
    (fun r w' => world_ok bound w' /\ (r.1 = XGL_OK -> ready k r.2 tx w')) w.
Proof.
  intros Hw Hk Hlen. unfold transport_prepare_reliable_send.
  assert (forall w', world_ok (bound - k) w' -> world_ok bound w') as Hmono by (intros; eapply world_ok_mono; [done|lia]).
  destruct (tx_reliable tx) eqn:Hrel; cbn [negb].
  2: { wp_step. split; [by apply Hmono|]. intros _. split; [by apply Hmono|done]. }
  wp_step. apply (wp_mono _ (fun r w' => got_peer (bound - k) w r w' /\
    forall i, r = Ptr i -> exists p, peer_at w' i p /\ tp_peer_id p = tx_target_id tx)).
  { unfold transport_select_tx_peer. case_if; (apply wp_and; [by apply get_or_create_wp; [lia|]|]);
      eapply get_or_create_id; done || lia. }
  intros r w1 [(Hw1 & _) Hid]. destruct r as [i|]; [|wp_step; split; [by apply Hmono|done]].
  destruct (Hid i eq_refl) as (p & Hp & Hpid). clear Hid. wp_step. eapply wp_get_peer; [done|].
  assert (forall w' p', world_ok (bound - k) w' -> peer_at w' i p' -> tp_peer_id p' = tx_target_id tx -> ready k (Ptr i) tx w') as Hready.
  { intros w' p' Hw' Hp' Hid'. split; [by apply Hmono|]. split; [done|]. exists p'. split; [done|]. split; [done|].
    destruct (world_ok_peer _ _ _ _ Hw' Hp') as [(_ & _ & Hn & _) _]. unfold next_number. lia. }
  case_if; [wp_step; split; [by apply Hmono|done]|].
  case_if; [wp_step; split; [by apply Hmono|intros _; by eapply Hready]|].
  wp_step. eapply wp_mono; [apply send_control_aside; [by apply world_ok_layer in Hw1 as [_ ?]|by vm_compute|done]|].
  intros err w2 Ha2. pose proof (world_ok_aside _ _ _ Hw1 Ha2) as Hw2. pose proof (peer_at_aside _ _ _ _ Hp Ha2) as Hp2.
  destruct (is_ok err) eqn:Herr.
  - wp_step. eapply wp_put_peer; [done|]. wp_step. set (p' := p <| tp_hello_sent := true |>).
    assert (world_ok (bound - k) (with_peer i p' w2)) as Hw3.
    { apply world_ok_with; [done|]. by apply (world_ok_peer _ _ _ _ Hw2 Hp2). }
    split; [by apply Hmono|]. intros _. eapply (Hready _ p'); [done|by eapply peer_at_with|done].
  - wp_step. wp_step. wp_step. split; [by apply Hmono|]. cbn [fst]. by intros ->.
Qed.
Lemma send_planned_wp peer tx data plan w :
  ready (tx_data_len tx) peer tx w -> tx_data_ok tx -> tx_data tx = Ptr data -> 1 <= tx_data_len tx ->
  (sp_needs_fragmentation plan = true -> 1 <= sp_fragment_payload_budget plan /\
     sp_fragment_count plan =
       (tx_data_len tx + sp_fragment_payload_budget plan - 1) / sp_fragment_payload_budget plan) ->
  wp (send_planned peer tx data plan) (fun _ w' => world_ok bound w') w.
Proof.
  intros Hr Htx Hdata Hlen Hplan. pose proof Htx as (Hd & _). rewrite Hdata in Hd. destruct Hd as [Hdl Hd].
  unfold send_planned. wp_step. apply encode_data_wp; [by eapply ready_layer|done|done|]. intros d len Hdlen Hdok. cbn beta iota.
  wp_step. apply (wp_mono _ (fun err w' => world_ok bound w' /\ (err = XGL_OK -> ready 0 peer tx w'))).
  { destruct (sp_needs_fragmentation plan); [destruct (Hplan eq_refl); by apply send_fragmented_wp|].
    wp_step. eapply wp_tx_number; [done|]. intros can n Hn. cbn beta iota.
    apply send_numbered_wp; try done. eapply ready_mono; [done|lia]. }
  intros err w1 [Hw1 Hr1]. destruct (is_ok err) eqn:Herr; cbn [negb]; [|by wp_step].
  specialize (Hr1 ltac:(by destruct err)). wp_step. wp_step. pose proof (ready_layer _ _ _ _ Hr1) as Hl1.
  destruct (tc_stats (w_ctx w1)) as [st|] eqn:Hst; [|by destruct Hl1 as (_ & _ & _ & ? & _)].
  wp_step. eapply wp_lift; [reflexivity|]. wp_step. eapply wp_mono; [by apply add_stats_aside|]. intros ? w2 Ha2.
  pose proof (ready_aside _ _ _ _ _ Hr1 Ha2) as [Hw2 Hp2]. wp_step. wp_step. wp_step.
  destruct peer as [i|]; [|wp_step; wp_step; exact Hw2]. destruct Hp2 as (_ & p2 & Hp2 & _).
  eapply wp_put_peer; [exact Hp2|]. wp_step. apply world_ok_with; [exact Hw2|]. exact (world_ok_peer _ _ _ _ Hw2 Hp2).
Qed.
End inv.

(** Application data goes down: at most one packet per byte. *)
Lemma send_wp bound tx w :
  world_ok bound w -> 0 <= bound -> tx_data_ok tx -> 0 <= tx_data_len tx -> bound + tx_data_len tx < 2 ^ 32 ->
  wp (xgl_transport_send tx) (fun _ w' => world_ok (bound + tx_data_len tx) w') w.
Proof.
  intros Hw Hb Htx Hlen Hmax. unfold xgl_transport_send. pose proof Htx as (Hd & _ & Ht).
  assert (world_ok (bound + tx_data_len tx) w) as Hw' by (eapply world_ok_mono; [done|lia]).
  destruct (tx_data tx) as [data|] eqn:Hdata; [|by wp_step].
  destruct (Z.eqb_spec (tx_data_len tx) 0) as [|Hne]; [by wp_step|]. wp_step. wp_step.
  case_if.
  { wp_step. eapply wp_mono; [apply report_error_aside; [by apply world_ok_layer in Hw' as [_ ?]|done]|].
    intros ? w1 Ha. wp_step. by eapply world_ok_aside. }
  wp_step. eapply wp_mono; [apply (prepare_send_wp (bound + tx_data_len tx) (tx_data_len tx)); try lia|].
  { by replace (bound + tx_data_len tx - tx_data_len tx) with bound by lia. }
  intros [err peer] w1 [Hw1 Hr]. cbn [fst snd] in Hr. destruct (is_ok err) eqn:Herr; cbn [negb]; [|by wp_step].
  specialize (Hr ltac:(by destruct err)). wp_step. wp_step. pose proof (ready_layer _ _ _ _ _ Hr) as Hl1.
  destruct (plan_total (w_ctx w1) tx) as (perr & plan & Hplan & Hgood); [apply Hl1|done|].
  wp_step. eapply wp_lift; [exact Hplan|]. cbn beta iota. destruct (is_ok perr) eqn:Hperr; cbn [negb].
  - apply send_planned_wp; try done; [lia..|]. apply Hgood. by destruct perr.
  - wp_step. eapply wp_mono; [by apply count_error_aside|]. intros ? w2 Ha2. wp_step.
    pose proof (world_ok_aside _ _ _ Hw1 Ha2) as Hw2.
    apply (wp_mono _ (fun _ w' => aside w2 w')).
    { case_if; [|wp_step; by apply aside_refl; apply Ha2]. apply report_error_aside; [apply Ha2|done]. }
    intros ? w3 Ha3. wp_step. by eapply world_ok_aside.
Qed.
