(* ===== verification/TransportApi.v ===== *)
(** * The transport layer as a whole (src/transport/xgl_transport.c,
    xgl_transport_interface.c)

    The life cycle of the context, the functions that the other layers call, and
    the safety of every sequence of calls. *)
From S2P Require Import Prelude State Errors Layer Wire WireExt LinkedList HashTable Codec Route Window Rtt Fragment Reliable Transport Acks Receive Send TransportLogic TransportInv ReceiveInv SendInv.

(** ** Initialisation *)

(** src/include/xgl/internal/xgl_transport.h:115-134: xgl_transport_config_t *)
Record xgl_transport_config_t := mk_transport_config {
  cf_local_id : Z;
  cf_max_retry_count : Z;
  cf_default_timeout_ms : Z;
  cf_window_size : Z;
  cf_enable_fragmentation : bool;
  cf_max_frame_size : Z;
  cf_auth_tag_len : Z;
  cf_route_table : ptr xgl_route_table_t;
  cf_lower_layer : ptr xgl_layer_interface_t;
  cf_rx_callback : ptr Z;
  cf_error_callback : ptr Z;
  cf_stats : ptr xgl_layer_stats_t;
  cf_tx_retries : ptr Z;
  cf_peer_idle_timeout_ms : Z;
  cf_max_reassembly_slots : Z;
  cf_codec_registry : ptr xgl_codec_registry_t
}.

(** The context after [memset]. *)
Definition zero_transport : xgl_transport_ctx_t :=
  mk_transport 0 0 0 false 0 0 NULL 0 0 0 (mk_rtt 0 0 0 false) zero_window (xgl_reliable_init 0) NULL []
    NULL NULL NULL NULL NULL NULL.

(** The fields that are copied from the configuration. *)
(** src/src/transport/xgl_transport.c:33-62: xgl_transport_init *)
Definition configured (config : xgl_transport_config_t) : xgl_transport_ctx_t :=
  let session_id := u16 (Z.land (cf_local_id config) XGL_SESSION_ID_MASK) in
  zero_transport <| tc_local_id := cf_local_id config |>
    <| tc_max_retry_count := cf_max_retry_count config |>
    <| tc_default_timeout_ms := cf_default_timeout_ms config |>
    <| tc_enable_fragmentation := cf_enable_fragmentation config |>
    <| tc_max_frame_size := cf_max_frame_size config |>
    <| tc_auth_tag_len := cf_auth_tag_len config |>
    <| tc_route_table := cf_route_table config |>
    <| tc_next_session_id := if session_id =? 0 then 1 else session_id |>
    <| tc_lower_layer := cf_lower_layer config |>
    <| tc_rx_callback := cf_rx_callback config |>
    <| tc_error_callback := cf_error_callback config |>
    <| tc_stats := cf_stats config |>
    <| tc_tx_retries := cf_tx_retries config |>
    <| tc_peer_idle_timeout_ms := cf_peer_idle_timeout_ms config |>
    <| tc_max_reassembly_slots :=
         if 0 <? cf_max_reassembly_slots config then cf_max_reassembly_slots config else 8 |>
    <| tc_codec_registry := cf_codec_registry config |>
    <| tc_rtt_est := initial_rtt |>.

(** The manager takes a nonzero number of bytes. *)
Definition sizeof_fragment_manager : Z := 64.
(** [ctx] is the context before the call. *)
(** src/src/transport/xgl_transport.c:20-99: xgl_transport_init *)
Definition xgl_transport_init (ctx : ptr xgl_transport_ctx_t) (config : ptr xgl_transport_config_t)
    (heap : heap_answers) : xgl_error_t * ptr xgl_transport_ctx_t * heap_answers :=
  match ctx, config with
  | Ptr _, Ptr config =>
      if bool_decide (cf_stats config = NULL) then (XGL_ERR_NULL_POINTER, ctx, heap)
      else
        let ctx := configured config in
        let '(err, window, heap) :=
          xgl_window_init_with_allocator (tc_window ctx) (cf_window_size config) heap in
        let ctx := ctx <| tc_window := window |> in
        if negb (is_ok err) then (err, Ptr ctx, heap)
        else
          let ctx := ctx <| tc_reliable_queue := xgl_reliable_init (cf_max_retry_count config) |> in
          if negb (cf_enable_fragmentation config) then (XGL_OK, Ptr ctx, heap)
          else
            let '(ok, heap) := alloc_answer sizeof_fragment_manager heap in
            if negb ok
            then (XGL_ERR_NO_MEMORY, Ptr (ctx <| tc_window := xgl_window_destroy (tc_window ctx) |>), heap)
            else (XGL_OK, Ptr (ctx <| tc_fragment_mgr :=
                    Ptr (xgl_fragment_init (tc_max_reassembly_slots ctx) XGL_FRAGMENT_TIMEOUT_MS) |>), heap)
  | _, _ => (XGL_ERR_NULL_POINTER, ctx, heap)
  end.

(** src/src/transport/xgl_transport.c:104-127: xgl_transport_destroy *)
Definition xgl_transport_destroy : T unit :=
  _ ← put_ctx (fun c => c <| tc_fragment_mgr := NULL |>);
  ctx ← get_ctx;
  queue ← lift (xgl_reliable_destroy (tc_reliable_queue ctx));
  _ ← put_ctx (fun c => c <| tc_reliable_queue := queue |> <| tc_window := xgl_window_destroy (tc_window c) |>);
  _ ← transport_destroy_peers;
  put_ctx (fun _ => zero_transport).

(** ** The interface of the layer *)

(** src/src/transport/xgl_transport_interface.c:13-20: transport_send_impl *)
Definition transport_send_impl (data : ptr xgl_packet_t) : T xgl_error_t := mret XGL_ERR_INVALID_PARAM.
(** [ctx] is not NULL. *)
(** src/src/transport/xgl_transport_interface.c:27-41: transport_receive_impl *)
Definition transport_receive_impl (data : ptr xgl_packet_t) : T xgl_error_t :=
  match data with
  | NULL => mret XGL_ERR_NULL_POINTER
  | Ptr packet => xgl_transport_receive packet
  end.
(** src/src/transport/xgl_transport_interface.c:47-65: transport_report_error_impl *)
Definition transport_report_error_impl (data : ptr xgl_layer_error_info_t) : T xgl_error_t :=
  match data with
  | NULL => mret XGL_ERR_NULL_POINTER
  | Ptr info => _ ← report_error (ei_error info); mret XGL_OK
  end.

(** ** Safety of every sequence of calls *)

(** What the surroundings call: the application sends, the network layer hands a
    packet up, the main loop runs.  Each call comes with the clock and with what
    the stack holds. *)
Inductive transport_call :=
| call_send (tx : xgl_tx_data_t)
| call_receive (data : ptr xgl_packet_t)
| call_run.
Definition one_call (now : Z) (c : transport_call) : T xgl_error_t :=
  match c with
  | call_send tx => xgl_transport_send tx
  | call_receive data => transport_receive_impl data
  | call_run => xgl_transport_run now
  end.
Fixpoint transport_calls (cs : list (Z * bytes * transport_call)) : T (list xgl_error_t) :=
  match cs with
  | [] => mret []
  | (now, stack, c) :: cs =>
      _ ← modify (fun w => w <| w_time := now |> <| w_stack := stack |>);
      err ← one_call now c;
      errs ← transport_calls cs;
      mret (err :: errs)
  end.

(** Well-formed arguments, and the number of bytes that are sent. *)
Definition call_ok (x : Z * bytes * transport_call) : Prop :=
  zlen x.1.2 = XGL_DATALINK_STACK_BUFFER_SIZE /\ bytes_ok x.1.2 /\
  match x.2 with
  | call_send tx => tx_data_ok tx /\ 0 <= tx_data_len tx
  | call_receive (Ptr packet) => packet_wf packet
  | call_receive NULL | call_run => True
  end.
Definition bytes_sent (cs : list (Z * bytes * transport_call)) : Z :=
  foldr (fun x n => match x.2 with call_send tx => tx_data_len tx + n | _ => n end) 0 cs.
Definition config_ok (config : xgl_transport_config_t) : Prop :=
  match cf_codec_registry config with
  | NULL => True | Ptr r => registry_inv r /\ Forall codec_safe (registry_entries r) end /\
  match cf_route_table config with NULL => True | Ptr t => exists es, route_rep t es end /\
  is_u8 (cf_window_size config) = true /\ is_u8 (cf_max_reassembly_slots config) = true.

Lemma bytes_sent_nonneg cs : Forall call_ok cs -> 0 <= bytes_sent cs.
Proof.
  induction 1 as [|[[now stack] c] cs (_ & _ & Hc) _ IH]; [done|]. cbn [bytes_sent foldr snd]. fold (bytes_sent cs).
  destruct c; cbn [snd] in Hc; [lia|done..].
Qed.
Lemma init_world_ok config ctx0 ctx heap heap' net now stack :
  xgl_transport_init (Ptr ctx0) (Ptr config) heap = (XGL_OK, Ptr ctx, heap') -> config_ok config ->
  zlen stack = XGL_DATALINK_STACK_BUFFER_SIZE -> bytes_ok stack ->
  world_ok 0 (mk_world ctx heap' net [] now stack).
Proof.
  intros Hinit (Hreg & Hroute & Hu & Hslots%is_u8_spec) Hst Hsb. revert Hinit. unfold xgl_transport_init.
  destruct (bool_decide_reflect (cf_stats config = NULL)) as [|Hstats]; [done|].
  destruct (xgl_window_init_with_allocator _ _ heap) as [[err win] heap1] eqn:Hwin.
  destruct (is_ok err) eqn:Herr; cbn [negb]; [|by intros [= -> _ _]]. assert (err = XGL_OK) as -> by by destruct err.
  pose proof (window_init_tracks _ _ _ _ _ Hwin Hu) as [Hinv _].
  assert (forall m, match m with NULL => True | Ptr m => manager_ok any_byte any_size m end ->
    world_ok 0 (mk_world ((configured config) <| tc_window := win |>
      <| tc_reliable_queue := xgl_reliable_init (cf_max_retry_count config) |> <| tc_fragment_mgr := m |>)
      heap' net [] now stack)) as Hok.
  { intros m Hm. split; [|done]. split; [constructor|]. split; [done|]. split; [done|]. split; [done|].
    split; [done|]. split; [done|]. exists []. apply init_rep. }
  destruct (cf_enable_fragmentation config); cbn [negb]; [|by intros [= <- _]; apply (Hok NULL)].
  destruct (alloc_answer sizeof_fragment_manager heap1) as [[] heap2]; cbn [negb]; [|done].
  intros [= <- _]. apply Hok. cbn.
  apply (initial_manager_ok any_byte any_size _ XGL_FRAGMENT_TIMEOUT_MS 0 0); [|done]. case_if; lia.
Qed.

Lemma one_call_wp bound now c stack w :
  world_ok bound w -> 0 <= bound -> call_ok (now, stack, c) ->
  bound + bytes_sent [(now, stack, c)] < 2 ^ 32 ->
  wp (one_call now c) (fun _ w' => world_ok (bound + bytes_sent [(now, stack, c)]) w') w.
Proof.
  intros Hw Hb (_ & _ & Hc) Hmax. cbn [snd] in Hc. destruct c as [tx|[q|]|]; cbn [one_call bytes_sent foldr snd] in *;
    rewrite ?Z.add_0_r in *.
  - apply send_wp; tauto || lia.
  - cbn [transport_receive_impl]. by apply receive_wp.
  - by cbn [transport_receive_impl]; wp_step.
  - by apply transport_run_wp.
Qed.
Lemma calls_wp cs : forall bound w,
  world_ok bound w -> 0 <= bound -> Forall call_ok cs -> bound + bytes_sent cs < 2 ^ 32 ->
  wp (transport_calls cs) (fun errs w' => length errs = length cs /\ world_ok (bound + bytes_sent cs) w') w.
Proof.
  induction cs as [|[[now stack] c] cs IH]; intros bound w Hw Hb Hcs Hmax; cbn [transport_calls].
  { wp_step. split; [done|]. cbn. by rewrite Z.add_0_r. }
  pose proof (bytes_sent_nonneg _ Hcs) as Hpos. apply Forall_cons in Hcs as [Hc Hcs].
  pose proof (bytes_sent_nonneg _ Hcs). pose proof (bytes_sent_nonneg [(now, stack, c)] ltac:(by constructor)).
  assert (bytes_sent ((now, stack, c) :: cs) = bytes_sent [(now, stack, c)] + bytes_sent cs) as Hsum.
  { unfold bytes_sent. cbn [foldr snd]. destruct c; lia. }
  wp_step. wp_step. pose proof Hc as (Hst & Hsb & _). wp_step. eapply wp_mono.
  { apply (one_call_wp bound now c stack); [|done|done|lia]. destruct Hw as (Hctx & Htr & _). by split. }
  intros err w1 Hw1. wp_step. eapply wp_mono; [apply (IH _ w1 Hw1); [lia|done|lia]|]. intros errs w2 [Hl Hw2]. wp_step.
  split; [cbn; by rewrite Hl|]. by rewrite Hsum, Z.add_assoc.
Qed.
Lemma destroy_peers_total bound peers : Forall (peer_ok bound) peers -> destroy_peers_loop peers = Some tt.
Proof.
  induction 1 as [|p peers ((Hq & _) & _) _ IH]; [done|]. cbn [destroy_peers_loop]. unfold xgl_reliable_destroy.
  destruct (clear_queue_ok _ _ _ Hq) as (q' & -> & _). exact IH.
Qed.
(** What [xgl_transport_destroy] relies on. *)
Definition closable (c : xgl_transport_ctx_t) : Prop :=
  (exists bound, Forall (peer_ok bound) (tc_peers c)) /\ exists l, queue_rep (tc_reliable_queue c) l [].
Lemma destroy_closable w :
  closable (w_ctx w) -> wp xgl_transport_destroy (fun _ w' => w_ctx w' = zero_transport) w.
Proof.
  intros ([bound Hp] & l & Hq). unfold xgl_transport_destroy, transport_destroy_peers.
  wp_step. wp_step. wp_step. wp_step. destruct (clear_spec _ _ _ Hq) as (q' & Hrun & _).
  wp_step. eapply wp_lift; [exact Hrun|]. wp_step. wp_step. wp_step. wp_step. wp_step. wp_step.
  eapply wp_lift; [by eapply destroy_peers_total|]. wp_step. by wp_step.
Qed.
Lemma world_ok_closable bound w : world_ok bound w -> closable (w_ctx w).
Proof. intros ((Hp & _ & _ & _ & _ & _ & Hq) & _). split; [by exists bound|exact Hq]. Qed.
Lemma destroy_wp bound w :
  world_ok bound w -> wp xgl_transport_destroy (fun _ w' => w_ctx w' = zero_transport) w.
Proof. intros Hw. by eapply destroy_closable, world_ok_closable. Qed.

(** C5. The transport layer is safe.  After an initialisation that succeeds,
    every sequence of calls - sends of the application, packets from the network
    with any contents, periodic runs, at any times, with any failures of the
    allocator and any answers of the lower layer - is defined: no access outside
    a buffer or to a freed packet, no signed overflow, no endless loop; as many
    calls are answered as are made.  Throughout, every packet handed down lies in
    its buffers, the application only gets initialised bytes, and every peer is
    in order: its queue is a list with unique numbers that its window has given
    out, its receive buffer is sorted, without duplicates and at most 128
    packets.  The context can then be destroyed, which frees only packets that
    are allocated.  It is assumed that a send asks for a timeout below
    2^30 ms (0 for the default; with a larger one the retransmission overflows,
    [large_timeout_overflows]), that the buffers of sends and packets are as long as
    they say and the routes and codecs of the configuration well formed, and that the data
    that is sent has less than 2^32 bytes in all, so packet numbers do not wrap. *)
Theorem transport_safe config ctx0 ctx heap heap' net now stack cs :
  xgl_transport_init (Ptr ctx0) (Ptr config) heap = (XGL_OK, Ptr ctx, heap') -> config_ok config ->
  zlen stack = XGL_DATALINK_STACK_BUFFER_SIZE -> bytes_ok stack -> Forall call_ok cs -> bytes_sent cs < 2 ^ 32 ->
  exists errs w', transport_calls cs (mk_world ctx heap' net [] now stack) = Some (errs, w') /\
    length errs = length cs /\ Forall event_ok (w_trace w') /\
    Forall (peer_ok (bytes_sent cs)) (tc_peers (w_ctx w')) /\
    exists w'', xgl_transport_destroy w' = Some (tt, w'') /\ w_ctx w'' = zero_transport.
Proof.
  intros Hinit Hcfg Hst Hsb Hcs Hmax. pose proof (init_world_ok _ _ _ _ _ net now _ Hinit Hcfg Hst Hsb) as Hw.
  pose proof (calls_wp cs 0 _ Hw ltac:(lia) Hcs ltac:(lia)) as Hrun. rewrite Z.add_0_l in Hrun.
  apply wp_run in Hrun as (errs & w' & Hrun & Hl & Hw'). exists errs, w'. do 2 (split; [done|]).
  pose proof Hw' as ((Hp & _) & Htr & _). do 2 (split; [done|]).
  pose proof (destroy_wp _ _ Hw') as Hd. apply wp_run in Hd as ([] & w'' & Hd & Hz). by exists w''.
Qed.

(** A small configuration, and calls of every kind. *)
Definition sample_config : xgl_transport_config_t :=
  mk_transport_config 1 3 100 4 true 64 0 NULL (Ptr (mk_layer (Ptr 1) NULL NULL)) (Ptr 2) NULL
    (Ptr zero_layer_stats) NULL 0 2 NULL.
Definition sample_transport : xgl_transport_ctx_t :=
  match (xgl_transport_init (Ptr zero_transport) (Ptr sample_config) []).1.2 with
  | Ptr c => c | NULL => zero_transport end.
Definition sample_tx : xgl_tx_data_t := mk_tx_data 2 5 (Ptr (replicate 90 7)) 90 true 3 0 0 0 0.
Definition sample_rx : xgl_packet_t :=
  zero_packet <| pk_source_id := 2 |> <| pk_packet_number := 1 |> <| pk_packet_type := XGL_PACKET_TYPE_DATA |>
    <| pk_reliable := XGL_RELIABILITY_ACK_ELICITING |>
    <| pk_data := Ptr (mk_packet_data 1 3 (Ptr [1; 2; 3]) NULL) |>.
Definition sample_stack : bytes := replicate 512 170.
Definition sample_calls : list (Z * bytes * transport_call) :=
  [(10, sample_stack, call_send sample_tx); (20, sample_stack, call_receive (Ptr sample_rx));
   (30, sample_stack, call_receive NULL); (5000, sample_stack, call_run)].
Lemma transport_safe_witness :
  exists errs w', transport_calls sample_calls (mk_world sample_transport [] [] [] 0 sample_stack) = Some (errs, w') /\
    length errs = 4%nat /\ Forall event_ok (w_trace w') /\
    Forall (peer_ok 90) (tc_peers (w_ctx w')) /\
    exists w'', xgl_transport_destroy w' = Some (tt, w'') /\ w_ctx w'' = zero_transport.
Proof.
  apply (transport_safe sample_config zero_transport sample_transport [] [] [] 0 sample_stack sample_calls).
  - vm_compute. reflexivity.
  - by split_and!.
  - reflexivity.
  - apply Forall_replicate. lia.
  - repeat (constructor; [split; [reflexivity|split; [apply Forall_replicate; lia|]]|]); [| | |done|constructor].
    + cbn. split; [|lia]. split; [split; [by vm_compute|apply Forall_replicate; lia]|]. by split.
    + cbn. split; [split; [by vm_compute|repeat constructor; lia]|]. by split.
    + done.
  - vm_compute. reflexivity.
Defined.
(** A send that asks for 2^30 ms, and a run when they have passed: the doubling of
    the timeout overflows.  One millisecond less, and the run is defined. *)
Example large_timeout_overflows :
  let calls t := [(10, sample_stack, call_send (mk_tx_data 2 5 (Ptr [1; 2; 3]) 3 true 3 t 0 0 0)); (10 + t, sample_stack, call_run)] in
  let run t := match transport_calls (calls t) (mk_world sample_transport [] [] [] 0 sample_stack) with
    | Some (errs, _) => Some errs | None => None end in
  run (2 ^ 30) = None /\ run (2 ^ 30 - 1) = Some [XGL_OK; XGL_OK].
Proof. vm_compute. by split. Qed.
