(* ===== verification/Datalink.v ===== *)
(** * The data link layer (include/xgl/internal/xgl_datalink.h,
    src/datalink/xgl_datalink.c, xgl_datalink_send.c, xgl_datalink_receive.c,
    xgl_datalink_metadata.c)

    Frames to and from a byte-oriented driver: serialization on the way down,
    parsing, validation, authentication and replay protection on the way up. *)
From S2P Require Import Prelude State Errors Serialize Crc Layer Wire WireExt ExtWalk Frame Parser Security.

Definition XGL_DATALINK_REPLAY_WINDOW_COUNT : Z := 16.
Definition XGL_DATALINK_REPLAY_WINDOW_SIZE : Z := 64.
Definition XGL_DATALINK_RX_CHUNK_SIZE : Z := 128.

(** ** Data *)

(** The parser holds the RX cache and its size; callbacks are known by their
    address, and the allocator, the handle and user data are left out. *)
(** src/include/xgl/internal/xgl_datalink.h:44-64: xgl_datalink_ctx_t *)
Record xgl_datalink_ctx_t := mk_datalink {
  dc_parser : xgl_parser_t;
  dc_stats : ptr xgl_layer_stats_t;
  dc_rx_header_crc_errors : ptr Z;
  dc_rx_crc16_errors : ptr Z;
  dc_error_callback : ptr Z;
  dc_source_id : Z;
  dc_auth_required : bool;
  dc_auth_key_id : Z;
  dc_auth_provider : ptr xgl_auth_provider_t;
  dc_replay_windows : list xgl_replay_window_t;
  dc_replay_window_used : list bool;
  dc_upper_layer : ptr xgl_layer_interface_t
}.
#[export] Instance eta_datalink : EtaRecord xgl_datalink_ctx_t := Eta (fun c =>
  mk_datalink (dc_parser c) (dc_stats c) (dc_rx_header_crc_errors c) (dc_rx_crc16_errors c)
    (dc_error_callback c) (dc_source_id c) (dc_auth_required c) (dc_auth_key_id c) (dc_auth_provider c)
    (dc_replay_windows c) (dc_replay_window_used c) (dc_upper_layer c)).

(** Bytes handed to a driver, a frame handed to the upper layer, a call of the
    error callback. *)
Inductive datalink_event :=
| dl_tx (phy : xgl_phy_ops_t) (data : bytes)
| dl_up (frame : bytes)
| dl_error (err : xgl_error_t).

(** What a driver's [rx] does: its error code, the bytes it writes at the start of
    the buffer, and the length it reports. *)
Record rx_answer := mk_rx_answer { ra_error : xgl_error_t; ra_data : bytes; ra_len : Z }.

(** [d_tx] and [d_rx] are the answers of the drivers to come ([tx] accepts and [rx] has
    no data when there are no more); [d_junk n] is what a fresh buffer of [n]
    bytes, on the stack or the heap, happens to hold. *)
Record dl_world := mk_dl_world {
  d_ctx : xgl_datalink_ctx_t;
  d_heap : heap_answers;
  d_tx : list xgl_error_t;
  d_rx : list rx_answer;
  d_junk : Z -> bytes;
  d_trace : list datalink_event
}.
#[export] Instance eta_dl_world : EtaRecord dl_world := Eta (fun w =>
  mk_dl_world (d_ctx w) (d_heap w) (d_tx w) (d_rx w) (d_junk w) (d_trace w)).

Abbreviation D := (ST dl_world).
Definition dl_get : D xgl_datalink_ctx_t := gets d_ctx.
Definition dl_put (f : xgl_datalink_ctx_t -> xgl_datalink_ctx_t) : D unit :=
  modify (fun w => w <| d_ctx := f (d_ctx w) |>).
Definition dl_emit (e : datalink_event) : D unit := modify (fun w => w <| d_trace := d_trace w ++ [e] |>).
Definition dl_malloc (size : Z) : D bool := fun w =>
  let '(ok, heap) := alloc_answer size (d_heap w) in Some (ok, w <| d_heap := heap |>).
(** A local array or an allocation: a buffer with anything in it. *)
Definition fresh_buffer (size : Z) : D bytes := gets (fun w => d_junk w size).
(** [phy->tx(buffer, len, user_data)] *)
Definition tx_answer : D xgl_error_t := fun w =>
  match d_tx w with
  | [] => Some (XGL_OK, w)
  | err :: tx => Some (err, w <| d_tx := tx |>)
  end.
Definition phy_transmit (phy : xgl_phy_ops_t) (buffer : bytes) (len : Z) : D xgl_error_t :=
  data ← lift (rd_bytes buffer 0 len);
  _ ← dl_emit (dl_tx phy data);
  tx_answer.
(** [phy->rx(buffer, &len, user_data)] on a buffer of [size] bytes; writing past it
    is undefined. *)
Definition no_data : rx_answer := mk_rx_answer XGL_OK [] 0.
Definition phy_receive (size : Z) : D (xgl_error_t * bytes * Z) :=
  buffer ← fresh_buffer size;
  a ← gets (fun w => default no_data (head (d_rx w)));
  _ ← modify (fun w => w <| d_rx := tail (d_rx w) |>);
  buffer ← lift (wr_bytes buffer 0 (ra_data a));
  mret (ra_error a, buffer, ra_len a).

(** The counters; statistics and error counters may be missing. *)
Definition dl_stats (f : xgl_layer_stats_t -> xgl_layer_stats_t) : D unit :=
  dl_put (fun c => c <| dc_stats := f <$> dc_stats c |>).
Definition count_rx_error : D unit := dl_stats (fun s => s <| ls_rx_errors := u64 (ls_rx_errors s + 1) |>).
Definition count_rx_rejected : D unit :=
  dl_stats (fun s => s <| ls_rx_errors := u64 (ls_rx_errors s + 1) |>
                       <| ls_rx_dropped := u64 (ls_rx_dropped s + 1) |>).
(** The test for an error callback and its call. *)
Definition call_error (err : xgl_error_t) : D unit :=
  ctx ← dl_get;
  if bool_decide (dc_error_callback ctx = NULL) then mret tt else dl_emit (dl_error err).

(** ** Transmission *)

(** src/src/datalink/xgl_datalink_send.c:10-14: datalink_count_tx_error *)
Definition datalink_count_tx_error : D unit :=
  dl_stats (fun s => s <| ls_tx_errors := u64 (ls_tx_errors s + 1) |>).
(** src/src/datalink/xgl_datalink_send.c:16-25: datalink_report_tx_error *)
Definition datalink_report_tx_error (err : xgl_error_t) : D unit := call_error err.

(** src/src/datalink/xgl_datalink_send.c:27-43: datalink_auth_tag_len *)
Definition datalink_auth_tag_len (ctx : xgl_datalink_ctx_t) : xgl_error_t * Z :=
  if negb (dc_auth_required ctx) then (XGL_OK, 0)
  else match dc_auth_provider ctx with
       | NULL => (XGL_ERR_INVALID_PARAM, 0)
       | Ptr p =>
           if bool_decide (ap_sign p = NULL) || (ap_tag_len p =? 0) || (XGL_AUTH_TAG_MAX_LEN <? ap_tag_len p)
           then (XGL_ERR_INVALID_PARAM, 0)
           else (XGL_OK, ap_tag_len p)
       end.

(** The success and failure of [phy->tx], shared by both send functions. *)
(** src/src/datalink/xgl_datalink_send.c:101-116: xgl_datalink_send *)
Definition transmit_and_count (phy : xgl_phy_ops_t) (buffer : bytes) (len : Z) : D xgl_error_t :=
  err ← phy_transmit phy buffer len;
  if negb (is_ok err) then
    _ ← datalink_count_tx_error;
    _ ← datalink_report_tx_error err;
    mret err
  else
    _ ← dl_stats (fun s => s <| ls_tx_packets := u64 (ls_tx_packets s + 1) |>
                             <| ls_tx_bytes := u64 (ls_tx_bytes s + len) |>);
    mret XGL_OK.

(** Serialization into the buffer of [frame_size] bytes and transmission. *)
(** src/src/datalink/xgl_datalink_send.c:81-123: xgl_datalink_send *)
Definition serialize_and_transmit (phy : xgl_phy_ops_t) (frame : xgl_frame_t) (buffer : bytes)
    (frame_size : Z) : D xgl_error_t :=
  ctx ← dl_get;
  '(err, bytes_written, buffer) ← lift
    (if dc_auth_required ctx
     then xgl_frame_serialize_authenticated buffer frame_size frame (dc_auth_key_id ctx)
            (dc_auth_provider ctx) 0
     else xgl_frame_serialize buffer frame_size frame 0);
  if negb (is_ok err) then
    _ ← datalink_count_tx_error;
    _ ← datalink_report_tx_error err;
    mret err
  else transmit_and_count phy buffer bytes_written.

(** src/src/datalink/xgl_datalink_send.c:45-123: xgl_datalink_send *)
Definition xgl_datalink_send (phy : ptr xgl_phy_ops_t) (frame : ptr xgl_frame_t) : D xgl_error_t :=
  match phy, frame with
  | Ptr phy, Ptr frame =>
      if bool_decide (phy_tx phy = NULL) then mret XGL_ERR_INVALID_PARAM
      else
        ctx ← dl_get;
        let '(err, auth_tag_len) := datalink_auth_tag_len ctx in
        if negb (is_ok err) then _ ← datalink_count_tx_error; mret err
        else
          let frame_size := xgl_frame_serialized_size (fr_payload_len frame) (fr_extensions_len frame)
                              auth_tag_len in
          if XGL_DATALINK_STACK_BUFFER_SIZE <? frame_size then
            ok ← dl_malloc frame_size;
            if negb ok then
              _ ← datalink_count_tx_error;
              _ ← datalink_report_tx_error XGL_ERR_NO_MEMORY;
              mret XGL_ERR_NO_MEMORY
            else
              buffer ← fresh_buffer frame_size;
              serialize_and_transmit phy frame buffer frame_size
          else
            buffer ← fresh_buffer XGL_DATALINK_STACK_BUFFER_SIZE;
            serialize_and_transmit phy frame buffer frame_size
  | _, _ => mret XGL_ERR_NULL_POINTER
  end.

(** src/src/datalink/xgl_datalink_send.c:125-152: xgl_datalink_send_raw *)
Definition xgl_datalink_send_raw (phy : ptr xgl_phy_ops_t) (frame_buffer : ptr bytes) (frame_len : Z)
    : D xgl_error_t :=
  match phy, frame_buffer with
  | Ptr phy, Ptr buffer =>
      if bool_decide (phy_tx phy = NULL) || (frame_len =? 0) then mret XGL_ERR_INVALID_PARAM
      else transmit_and_count phy buffer frame_len
  | _, _ => mret XGL_ERR_NULL_POINTER
  end.

(** ** Validation of a received frame *)

(** src/include/xgl/internal/xgl_datalink_metadata.h:20-32: xgl_datalink_rx_metadata_t *)
Record xgl_datalink_rx_metadata_t := mk_rx_metadata {
  md_header : xgl_wire_header_t;
  md_auth_tag_len : Z;
  md_has_security_ext : bool;
  md_authenticated : bool;
  md_should_verify_auth : bool;
  md_header_crc_failed : bool;
  md_frame_crc_failed : bool;
  md_auth_key_rejected : bool;
  md_auth_key_id : Z;
  md_session_epoch : Z;
  md_payload_len : Z
}.
#[export] Instance eta_rx_metadata : EtaRecord xgl_datalink_rx_metadata_t := Eta (fun m =>
  mk_rx_metadata (md_header m) (md_auth_tag_len m) (md_has_security_ext m) (md_authenticated m)
    (md_should_verify_auth m) (md_header_crc_failed m) (md_frame_crc_failed m) (md_auth_key_rejected m)
    (md_auth_key_id m) (md_session_epoch m) (md_payload_len m)).
Definition zero_rx_metadata : xgl_datalink_rx_metadata_t :=
  mk_rx_metadata zero_wire_header 0 false false false false false false 0 0 0.

(** [inr] leaves the loop. *)
(** src/src/datalink/xgl_datalink_metadata.c:32-65: datalink_decode_rx_extensions *)
Definition rx_ext_body (auth_required : bool) (required_auth_key_id : Z) (m : xgl_datalink_rx_metadata_t)
    (ext : xgl_wire_ext_t) : M (xgl_datalink_rx_metadata_t + (xgl_error_t * xgl_datalink_rx_metadata_t)) :=
  value ← e_value ext;
  if e_type ext =? XGL_WIRE_EXT_SECURITY then
    '(err, out) ← xgl_wire_decode_security_ext_value value (e_len ext);
    let m := match out with Some (key, _, _) => m <| md_auth_key_id := key |> | None => m end in
    let tag_len := match out with Some (_, _, tag_len) => tag_len | None => 0 end in
    if negb (is_ok err) || (tag_len =? 0) then ret (inr (XGL_ERR_INVALID_FRAME, m))
    else if auth_required && negb (md_auth_key_id m =? required_auth_key_id)
    then ret (inr (XGL_ERR_INVALID_FRAME, m <| md_auth_key_rejected := true |>))
    else ret (inl (m <| md_auth_tag_len := tag_len |> <| md_has_security_ext := true |>))
  else if e_type ext =? XGL_WIRE_EXT_SESSION then
    '(err, out) ← xgl_wire_decode_session_ext_value value (e_len ext);
    let m := match out with Some (epoch, _) => m <| md_session_epoch := epoch |> | None => m end in
    if negb (is_ok err) then ret (inr (XGL_ERR_INVALID_FRAME, m)) else ret (inl m)
  else ret (inl m).

(** src/src/datalink/xgl_datalink_metadata.c:14-70: datalink_decode_rx_extensions *)
Definition datalink_decode_rx_extensions (frame_buffer : bytes) (header : xgl_wire_header_t)
    (auth_required : bool) (required_auth_key_id : Z) (m : xgl_datalink_rx_metadata_t)
    : M (xgl_error_t * xgl_datalink_rx_metadata_t) :=
  if wh_header_len header <=? XGL_WIRE_BASE_HEADER_SIZE then ret (XGL_OK, m)
  else
    let ext_len := wh_header_len header - XGL_WIRE_BASE_HEADER_SIZE in
    let '(err, cursor) := xgl_wire_ext_cursor_init (mk_cursor NULL 0 0)
      (Ptr (drop (Z.to_nat XGL_WIRE_BASE_HEADER_SIZE) frame_buffer)) ext_len in
    if negb (is_ok err) then ret (XGL_ERR_INVALID_FRAME, m)
    else
      walked ← ext_walk (rx_ext_body auth_required required_auth_key_id) (S (Z.to_nat ext_len)) cursor m;
      ret match walked with
          | inl (err, m) => (if bool_decide (err = XGL_ERR_NOT_FOUND) then XGL_OK else XGL_ERR_INVALID_FRAME, m)
          | inr r => r
          end.

(** [frame_buffer] may be longer than [frame_len]. *)
(** src/src/datalink/xgl_datalink_metadata.c:72-131: xgl_datalink_decode_rx_metadata *)
Definition xgl_datalink_decode_rx_metadata (frame_buffer : bytes) (frame_len : Z) (auth_required : bool)
    (required_auth_key_id : Z) : M (xgl_error_t * xgl_datalink_rx_metadata_t) :=
  let m := zero_rx_metadata in
  let min_frame_size := XGL_FRAME_HEADER_SIZE + XGL_CRC16_SIZE in
  if (frame_len <? min_frame_size) || (XGL_DATALINK_MAX_FRAME_SIZE <? frame_len)
  then ret (XGL_ERR_INVALID_FRAME, m)
  else
    m0 ← rd frame_buffer 0;
    m1 ← rd frame_buffer 1;
    if negb (m0 =? XGL_WIRE_MAGIC_0) || negb (m1 =? XGL_WIRE_MAGIC_1)
    then ret (XGL_ERR_INVALID_FRAME, m)
    else
      '(err, header) ← xgl_wire_decode_header (md_header m) frame_buffer frame_len;
      let m := m <| md_header := header |> in
      if negb (is_ok err) then ret (XGL_ERR_CRC_FAILED, m <| md_header_crc_failed := true |>)
      else
        '(err, m) ← datalink_decode_rx_extensions frame_buffer header auth_required required_auth_key_id m;
        if negb (is_ok err) then ret (err, m)
        else
          let m := m <| md_authenticated := negb (Z.land (wh_flags header) XGL_WIRE_FLAG_AUTHENTICATED =? 0) |> in
          let m := m <| md_should_verify_auth := md_authenticated m || md_has_security_ext m |> in
          let crc_offset := frame_len - XGL_CRC16_SIZE in
          calculated_crc ← xgl_crc16_modbus (Ptr frame_buffer) 0 crc_offset;
          received_crc ← xgl_deserialize_u16_le frame_buffer crc_offset;
          if negb (calculated_crc =? received_crc)
          then ret (XGL_ERR_CRC_FAILED, m <| md_frame_crc_failed := true |>)
          else
            let m := m <| md_payload_len := wh_payload_len header |> in
            let expected_frame_len :=
              wh_header_len header + md_payload_len m + md_auth_tag_len m + XGL_CRC16_SIZE in
            if negb (frame_len =? expected_frame_len) then ret (XGL_ERR_INVALID_FRAME, m)
            else ret (XGL_OK, m).

(** src/src/datalink/xgl_datalink_receive.c:63-72: datalink_is_ack_eliciting *)
Definition datalink_is_ack_eliciting (wire_header : xgl_wire_header_t) : bool :=
  let traffic_reliability := u8 (Z.land (wh_traffic_class wire_header) XGL_RELIABILITY_CLASS_MASK) in
  (traffic_reliability =? XGL_RELIABILITY_ACK_ELICITING) ||
  negb (Z.land (wh_flags wire_header) XGL_WIRE_FLAG_ACK_ELICITING =? 0).

(** ** Replay windows *)

(** The window of the scope, if one is in use; and the first free place. *)
(** src/src/datalink/xgl_datalink_receive.c:24-42: datalink_check_replay *)
Fixpoint replay_search (windows : list xgl_replay_window_t) (used : list bool) (i free_index : Z)
    (source_id connection_id session_epoch : Z) : ptr Z * Z :=
  match windows, used with
  | window :: windows, u :: used =>
      if negb u then
        let free_index := if free_index =? XGL_DATALINK_REPLAY_WINDOW_COUNT then i else free_index in
        replay_search windows used (i + 1) free_index source_id connection_id session_epoch
      else if (rw_source_id window =? source_id) && (rw_connection_id window =? connection_id) &&
              (rw_session_epoch window =? session_epoch)
      then (Ptr i, free_index)
      else replay_search windows used (i + 1) free_index source_id connection_id session_epoch
  | _, _ => (NULL, free_index)
  end.

(** Returns the result and the new [replay_windows] and [replay_window_used]. *)
(** src/src/datalink/xgl_datalink_receive.c:14-61: datalink_check_replay *)
Definition datalink_check_replay (windows : list xgl_replay_window_t) (used : list bool)
    (source_id connection_id session_epoch packet_number : Z)
    : M (xgl_replay_result_t * list xgl_replay_window_t * list bool) :=
  match replay_search windows used 0 XGL_DATALINK_REPLAY_WINDOW_COUNT source_id connection_id session_epoch with
  | (Ptr i, _) =>
      window ← rd windows i;
      let '(result, window) :=
        xgl_replay_window_check window source_id connection_id session_epoch packet_number in
      windows ← wr windows i window;
      ret (result, windows, used)
  | (NULL, free_index) =>
      if free_index =? XGL_DATALINK_REPLAY_WINDOW_COUNT then ret (XGL_REPLAY_REJECT, windows, used)
      else
        window ← rd windows free_index;
        match xgl_replay_window_init (Ptr window) source_id connection_id session_epoch
                XGL_DATALINK_REPLAY_WINDOW_SIZE with
        | (XGL_OK, Ptr window) =>
            used ← wr used free_index true;
            let '(result, window) :=
              xgl_replay_window_check window source_id connection_id session_epoch packet_number in
            windows ← wr windows free_index window;
            ret (result, windows, used)
        | _ => ret (XGL_REPLAY_REJECT, windows, used)
        end
  end.

(** ** Reception *)

(** The reports about a frame whose metadata is refused. *)
(** src/src/datalink/xgl_datalink_receive.c:150-180: xgl_datalink_process_frame *)
Definition report_bad_frame (m : xgl_datalink_rx_metadata_t) (frame_len : Z) : D unit :=
  _ ← (if md_auth_key_rejected m then count_rx_rejected else count_rx_error);
  _ ← (if md_header_crc_failed m
       then dl_put (fun c => c <| dc_rx_header_crc_errors := (fun n => u64 (n + 1)) <$> dc_rx_header_crc_errors c |>)
       else mret tt);
  _ ← (if md_frame_crc_failed m then
         _ ← dl_put (fun c => c <| dc_rx_crc16_errors := (fun n => u64 (n + 1)) <$> dc_rx_crc16_errors c |>);
         call_error XGL_ERR_CRC_FAILED
       else mret tt);
  if XGL_DATALINK_MAX_FRAME_SIZE <? frame_len then call_error XGL_ERR_INVALID_FRAME else mret tt.

(** A frame that needs authentication and cannot be authenticated. *)
(** src/src/datalink/xgl_datalink_receive.c:182-186: xgl_datalink_process_frame *)
Definition auth_impossible (ctx : xgl_datalink_ctx_t) (m : xgl_datalink_rx_metadata_t) : bool :=
  (dc_auth_required ctx || md_should_verify_auth m) &&
  (negb (md_authenticated m) || negb (md_has_security_ext m) ||
   match dc_auth_provider ctx with NULL => true | Ptr p => bool_decide (ap_verify p = NULL) end).

(** The tag and the replay window; [false] is [XGL_ERR_INVALID_FRAME]. *)
(** src/src/datalink/xgl_datalink_receive.c:194-227: xgl_datalink_process_frame *)
Definition verify_frame (m : xgl_datalink_rx_metadata_t) (frame_buffer : bytes) (frame_len : Z) : D bool :=
  ctx ← dl_get;
  '(auth_err, auth_valid) ← lift (xgl_wire_verify_auth_trailer frame_buffer (frame_len - XGL_CRC16_SIZE)
    (wh_header_len (md_header m)) (md_payload_len m) (md_auth_key_id m) (dc_auth_provider ctx) false);
  if negb (is_ok auth_err) || negb auth_valid then mret false
  else
    '(result, windows, used) ← lift (datalink_check_replay (dc_replay_windows ctx) (dc_replay_window_used ctx)
      (wh_source_id (md_header m)) (wh_connection_id (md_header m)) (md_session_epoch m)
      (wh_packet_number (md_header m)));
    _ ← dl_put (fun c => c <| dc_replay_windows := windows |> <| dc_replay_window_used := used |>);
    mret (match result with
          | XGL_REPLAY_REJECT => false
          | XGL_REPLAY_ACCEPT_DUPLICATE => datalink_is_ack_eliciting (md_header m)
          | XGL_REPLAY_ACCEPT_NEW => true
          end).

(** The call of the upper layer. *)
(** src/src/datalink/xgl_datalink_receive.c:234-243: xgl_datalink_process_frame *)
Definition pass_up (frame_buffer : bytes) (frame_len : Z) : D unit :=
  ctx ← dl_get;
  match dc_upper_layer ctx with
  | NULL => mret tt
  | Ptr iface =>
      if bool_decide (li_receive iface = NULL) then mret tt
      else frame ← lift (rd_bytes frame_buffer 0 frame_len); dl_emit (dl_up frame)
  end.

(** src/src/datalink/xgl_datalink_receive.c:137-246: xgl_datalink_process_frame *)
Definition xgl_datalink_process_frame (frame_buffer : ptr bytes) (frame_len : Z) : D xgl_error_t :=
  match frame_buffer with
  | NULL => mret XGL_ERR_NULL_POINTER
  | Ptr frame_buffer =>
      ctx ← dl_get;
      '(err, m) ← lift (xgl_datalink_decode_rx_metadata frame_buffer frame_len (dc_auth_required ctx)
                          (dc_auth_key_id ctx));
      if negb (is_ok err) then _ ← report_bad_frame m frame_len; mret err
      else if auth_impossible ctx m then _ ← count_rx_rejected; mret XGL_ERR_INVALID_FRAME
      else
        ok ← (if md_should_verify_auth m then verify_frame m frame_buffer frame_len else mret true);
        if negb ok then _ ← count_rx_rejected; mret XGL_ERR_INVALID_FRAME
        else
          _ ← dl_stats (fun s => s <| ls_rx_packets := u64 (ls_rx_packets s + 1) |>
                                   <| ls_rx_bytes := u64 (ls_rx_bytes s + frame_len) |>);
          _ ← pass_up frame_buffer frame_len;
          mret XGL_OK
  end.

(** One byte through the parser. *)
(** src/src/datalink/xgl_datalink_receive.c:111-131: xgl_datalink_receive *)
Definition receive_byte (byte current_time_ms : Z) : D unit :=
  ctx ← dl_get;
  '(result, parser) ← lift (xgl_parser_feed_byte (dc_parser ctx) byte current_time_ms);
  _ ← dl_put (fun c => c <| dc_parser := parser |>);
  match result with
  | XGL_PARSE_RESULT_COMPLETE =>
      _ ← match xgl_parser_get_frame parser with
          | (XGL_OK, Some (frame_buffer, frame_len)) =>
              _ ← xgl_datalink_process_frame (Ptr frame_buffer) frame_len; mret tt
          | _ => mret tt
          end;
      dl_put (fun c => c <| dc_parser := xgl_parser_reset (dc_parser c) |>)
  | XGL_PARSE_RESULT_ERROR => count_rx_error
  | XGL_PARSE_RESULT_INCOMPLETE => mret tt
  end.
(** [n] bytes left from index [i]. *)
(** src/src/datalink/xgl_datalink_receive.c:110-132: xgl_datalink_receive *)
Fixpoint receive_loop (n : nat) (i : Z) (rx_buffer : bytes) (current_time_ms : Z) : D unit :=
  match n with
  | O => mret tt
  | S n =>
      byte ← lift (rd rx_buffer i);
      _ ← receive_byte byte current_time_ms;
      receive_loop n (i + 1) rx_buffer current_time_ms
  end.

(** src/src/datalink/xgl_datalink_receive.c:86-97: xgl_datalink_receive *)
Definition receive_timeout (current_time_ms timeout_ms : Z) : D unit :=
  ctx ← dl_get;
  if xgl_parser_check_timeout (dc_parser ctx) current_time_ms timeout_ms then
    _ ← dl_put (fun c => c <| dc_parser := xgl_parser_reset (dc_parser c) |>);
    _ ← count_rx_error;
    call_error XGL_ERR_TIMEOUT
  else mret tt.

(** src/src/datalink/xgl_datalink_receive.c:74-135: xgl_datalink_receive *)
Definition xgl_datalink_receive (phy : ptr xgl_phy_ops_t) (current_time_ms timeout_ms : Z) : D xgl_error_t :=
  match phy with
  | NULL => mret XGL_ERR_NULL_POINTER
  | Ptr phy =>
      if bool_decide (phy_rx phy = NULL) then mret XGL_ERR_INVALID_PARAM
      else
        _ ← receive_timeout current_time_ms timeout_ms;
        '(err, rx_buffer, rx_len) ← phy_receive XGL_DATALINK_RX_CHUNK_SIZE;
        if negb (is_ok err) then mret err
        else if rx_len =? 0 then mret XGL_OK
        else _ ← receive_loop (Z.to_nat rx_len) 0 rx_buffer current_time_ms; mret XGL_OK
  end.

(** ** Life cycle and interface *)

(** [rx_cache] is NULL or a buffer of at least [rx_cache_size] bytes. *)
(** src/include/xgl/internal/xgl_datalink.h:69-84: xgl_datalink_config_t *)
Record xgl_datalink_config_t := mk_datalink_config {
  dcf_rx_cache : ptr bytes;
  dcf_rx_cache_size : Z;
  dcf_source_id : Z;
  dcf_stats : ptr xgl_layer_stats_t;
  dcf_rx_header_crc_errors : ptr Z;
  dcf_rx_crc16_errors : ptr Z;
  dcf_upper_layer : ptr xgl_layer_interface_t;
  dcf_error_callback : ptr Z;
  dcf_auth_required : bool;
  dcf_auth_key_id : Z;
  dcf_auth_provider : ptr xgl_auth_provider_t
}.
Definition zero_parser : xgl_parser_t := mk_parser XGL_PARSE_MAGIC [] 0 0 0 0 0 0 0.
Definition zero_replay_window : xgl_replay_window_t := mk_replay_window 0 0 0 0 0 0 false.
Definition no_windows : list xgl_replay_window_t :=
  replicate (Z.to_nat XGL_DATALINK_REPLAY_WINDOW_COUNT) zero_replay_window.
Definition no_window_used : list bool := replicate (Z.to_nat XGL_DATALINK_REPLAY_WINDOW_COUNT) false.

(** src/src/datalink/xgl_datalink.c:19-53: xgl_datalink_init *)
Definition xgl_datalink_init (ctx : ptr xgl_datalink_ctx_t) (config : ptr xgl_datalink_config_t)
    : xgl_error_t * ptr xgl_datalink_ctx_t :=
  match ctx, config with
  | Ptr _, Ptr config =>
      if bool_decide (dcf_rx_cache config = NULL) || bool_decide (dcf_stats config = NULL)
      then (XGL_ERR_NULL_POINTER, ctx)
      else
        let '(err, parser) := xgl_parser_init zero_parser (dcf_rx_cache config) (dcf_rx_cache_size config) in
        (err, Ptr (mk_datalink parser (dcf_stats config) (dcf_rx_header_crc_errors config)
           (dcf_rx_crc16_errors config) (dcf_error_callback config) (dcf_source_id config)
           (dcf_auth_required config) (dcf_auth_key_id config) (dcf_auth_provider config)
           no_windows no_window_used (dcf_upper_layer config)))
  | _, _ => (XGL_ERR_NULL_POINTER, ctx)
  end.

(** src/include/xgl/internal/xgl_layer_interface.h:60-63: xgl_frame_tx_message_t *)
Record xgl_frame_tx_message_t := mk_frame_tx { ft_frame : ptr xgl_frame_t; ft_phy : ptr xgl_phy_ops_t }.
(** src/src/datalink/xgl_datalink.c:63-83: datalink_send_impl *)
Definition datalink_send_impl (data : ptr xgl_frame_tx_message_t) : D xgl_error_t :=
  match data with
  | NULL => mret XGL_ERR_NULL_POINTER
  | Ptr send_data =>
      if bool_decide (ft_frame send_data = NULL) || bool_decide (ft_phy send_data = NULL)
      then mret XGL_ERR_NULL_POINTER
      else xgl_datalink_send (ft_phy send_data) (ft_frame send_data)
  end.
(** src/src/datalink/xgl_datalink.c:89-96: datalink_receive_impl *)
Definition datalink_receive_impl : D xgl_error_t := mret XGL_ERR_INVALID_PARAM.
(** src/src/datalink/xgl_datalink.c:102-120: datalink_report_error_impl *)
Definition datalink_report_error_impl (data : ptr xgl_layer_error_info_t) : D xgl_error_t :=
  match data with
  | NULL => mret XGL_ERR_NULL_POINTER
  | Ptr info => _ ← call_error (ei_error info); mret XGL_OK
  end.
