(* ===== verification/ReplayTable.v ===== *)
(** * The replay windows of the data link as one memory

    The sixteen windows behave like one finite map from scopes (source,
    connection, epoch) to the packet numbers accepted in them, which takes
    sixteen scopes and never forgets one. *)
From S2P Require Import Prelude Errors Security Datalink.

(** ** The memory *)

Abbreviation scope := (Z * Z * Z)%type.
Abbreviation replay_memory := (gmap scope (list Z)).

Definition memory_check (m : replay_memory) (sc : scope) (n : Z) : xgl_replay_result_t * replay_memory :=
  match m !! sc with
  | Some seen =>
      let '(r, s) := replay_spec_check (mk_replay_spec sc XGL_DATALINK_REPLAY_WINDOW_SIZE seen) sc n in
      (r, <[sc := rs_seen s]> m)
  | None =>
      if Z.of_nat (size m) =? XGL_DATALINK_REPLAY_WINDOW_COUNT then (XGL_REPLAY_REJECT, m)
      else (XGL_REPLAY_ACCEPT_NEW, <[sc := [n]]> m)
  end.

(** ** The windows represent it *)

Abbreviation slot := (option (scope * list Z)).
Definition slot_rep (w : xgl_replay_window_t) (u : bool) (s : slot) : Prop :=
  match s with
  | None => u = false
  | Some (sc, seen) => u = true /\ replay_abs w (mk_replay_spec sc XGL_DATALINK_REPLAY_WINDOW_SIZE seen)
  end.
Definition taken (slots : list slot) : list (scope * list Z) := omap id slots.
Definition table_rep (ws : list xgl_replay_window_t) (used : list bool) (m : replay_memory) : Prop :=
  exists slots, length slots = 16%nat /\ Forall3 slot_rep ws used slots /\
    NoDup (taken slots).*1 /\ m = list_to_map (taken slots).

Definition has_scope (sc : scope) (s : slot) : Prop := fst <$> s = Some sc.
#[export] Instance has_scope_dec sc s : Decision (has_scope sc s).
Proof. unfold has_scope. apply _. Defined.

Lemma window_scope w sc seen size :
  replay_abs w (mk_replay_spec sc size seen) -> sc = (rw_source_id w, rw_connection_id w, rw_session_epoch w).
Proof. by intros [? _]. Qed.

(** The search finds the place of the scope, or the first free one. *)
Lemma replay_search_spec ws used slots a b c : Forall3 slot_rep ws used slots ->
  forall i free, 0 <= i -> i + zlen slots <= XGL_DATALINK_REPLAY_WINDOW_COUNT ->
  exists free',
  replay_search ws used i free a b c =
    (match list_find (has_scope (a, b, c)) slots with
     | Some (k, _) => Ptr (i + Z.of_nat k)
     | None => NULL
     end, free') /\
  (list_find (has_scope (a, b, c)) slots = None ->
   free' = if free =? XGL_DATALINK_REPLAY_WINDOW_COUNT
           then match list_find (fun s => s = None) slots with
                | Some (k, _) => i + Z.of_nat k
                | None => XGL_DATALINK_REPLAY_WINDOW_COUNT
                end
           else free).
Proof.
  unfold XGL_DATALINK_REPLAY_WINDOW_COUNT.
  induction 1 as [|w u s ws used slots Hs _ IH]; intros i free Hi Hlen.
  { exists free. split; [done|]. intros _. cbn. unfold XGL_DATALINK_REPLAY_WINDOW_COUNT. by destruct (Z.eqb_spec free 16). }
  rewrite zlen_cons in Hlen. pose proof (zlen_nonneg slots). cbn [replay_search list_find].
  destruct s as [[sc seen]|]; cbn [slot_rep] in Hs.
  - destruct Hs as [-> Hs]. cbn [negb]. pose proof (window_scope _ _ _ _ Hs) as Hsc.
    assert (((rw_source_id w =? a) && (rw_connection_id w =? b) && (rw_session_epoch w =? c)) =
      bool_decide (has_scope (a, b, c) (Some (sc, seen)))) as ->.
    { apply eq_bool_prop_intro. rewrite bool_decide_spec. unfold has_scope. cbn. rewrite !andb_True, !Is_true_true, !Z.eqb_eq. naive_solver congruence. }
    case_bool_decide as Hf.
    + rewrite decide_True by done. exists free. rewrite Z.add_0_r. split; [done|discriminate].
    + rewrite decide_False by done. rewrite decide_False by done.
      destruct (IH (i + 1) free) as (free' & -> & Hfree); [lia..|]. exists free'. split.
      * destruct (list_find _ slots) as [[k ?]|]; [|done]. cbn. do 2 f_equal. lia.
      * intros Hnone. rewrite Hfree by (by destruct (list_find (has_scope _) slots) as [[]|]).
        destruct (free =? 16); [|done]. destruct (list_find (fun s => s = None) slots) as [[k ?]|]; [|done]. cbn. lia.
  - subst u. cbn [negb]. rewrite decide_False by (unfold has_scope; done). rewrite decide_True by done.
    destruct (IH (i + 1) (if free =? XGL_DATALINK_REPLAY_WINDOW_COUNT then i else free)) as (free' & -> & Hfree); [lia..|].
    exists free'. split.
    * destruct (list_find _ slots) as [[k ?]|]; [|done]. cbn. do 2 f_equal. lia.
    * intros Hnone. rewrite Hfree by (by destruct (list_find (has_scope _) slots) as [[]|]).
      unfold XGL_DATALINK_REPLAY_WINDOW_COUNT. destruct (Z.eqb_spec free 16) as [->|Hne].
      -- replace (i =? 16) with false by lia. cbn. lia.
      -- by replace (free =? 16) with false by lia.
Qed.

(** The slots as a map. *)
Lemma taken_app s1 s2 : taken (s1 ++ s2) = taken s1 ++ taken s2.
Proof. apply omap_app. Qed.
Lemma taken_split s1 sc seen s2 :
  NoDup (taken (s1 ++ Some (sc, seen) :: s2)).*1 ->
  (sc ∉ (taken s1 ++ taken s2).*1) /\ NoDup (taken s1 ++ taken s2).*1 /\
  forall seen', list_to_map (taken (s1 ++ Some (sc, seen') :: s2)) =
    <[sc := seen']> (list_to_map (taken s1 ++ taken s2) : replay_memory).
Proof.
  assert (forall seen', taken (s1 ++ Some (sc, seen') :: s2) ≡ₚ (sc, seen') :: taken s1 ++ taken s2) as Hp.
  { intros seen'. rewrite taken_app. cbn. by rewrite Permutation_middle. }
  rewrite (Hp seen). cbn. rewrite NoDup_cons. intros [Hni Hnd]. split_and!; [done..|]. intros seen'.
  assert (NoDup (taken (s1 ++ Some (sc, seen') :: s2)).*1) as Hnd' by (rewrite (Hp seen'); cbn; by apply NoDup_cons).
  by rewrite (list_to_map_proper _ _ Hnd' (Hp seen')).
Qed.
Lemma taken_full slots : Forall (fun s => s <> None) slots -> length (taken slots) = length slots.
Proof. induction 1 as [|[x|] slots Hs _ IH]; [done| |done]. cbn. by rewrite <- IH. Qed.
Lemma taken_length slots : (length (taken slots) <= length slots)%nat.
Proof. induction slots as [|[x|] slots IH]; cbn; [done|unfold taken in IH; lia..]. Qed.

Lemma scope_not_taken slots sc : Forall (fun s => ~ has_scope sc s) slots -> sc ∉ (taken slots).*1.
Proof.
  induction 1 as [|[[sc' seen]|] slots Hs _ IH]; cbn; [by intros ?%elem_of_nil| |done].
  rewrite elem_of_cons. intros [->|]; [by apply Hs|done].
Qed.
Lemma replay_spec_check_scope s sc n :
  rs_scope (replay_spec_check s sc n).2 = rs_scope s /\ rs_size (replay_spec_check s sc n).2 = rs_size s.
Proof. unfold replay_spec_check. destruct (negb _); [done|]. destruct (rs_seen s); repeat case_if; done. Qed.
Lemma fresh_check a b c n size w :
  xgl_replay_window_check (mk_replay_window a b c 0 0 size false) a b c n = (XGL_REPLAY_ACCEPT_NEW, w) ->
  0 < size <= 64 -> is_u32 n = true -> replay_abs w (mk_replay_spec (a, b, c) size [n]).
Proof.
  intros Hw Hs Hn. pose proof (replay_check_refines (mk_replay_window a b c 0 0 size false)
    (mk_replay_spec (a, b, c) size []) a b c n) as Href.
  rewrite Hw in Href. unfold replay_spec_check in Href. cbn [rs_scope rs_seen rs_size] in Href.
  rewrite bool_decide_eq_true_2 in Href by done. cbn [negb] in Href. apply Href; [|done].
  split; [done|]. cbn. split_and!; done || lia.
Qed.

(** ** Refinement *)

(** A scope that has a window: its window answers. *)
Lemma check_known ws used slots a b c n k s :
  Forall3 slot_rep ws used slots -> NoDup (taken slots).*1 ->
  length slots = 16%nat -> is_u32 n = true ->
  list_find (has_scope (a, b, c)) slots = Some (k, s) ->
  exists ws',
    (window ← rd ws (Z.of_nat k);
     let '(result, window) := xgl_replay_window_check window a b c n in
     ws ← wr ws (Z.of_nat k) window; ret (result, ws, used)) =
      Some ((memory_check (list_to_map (taken slots)) (a, b, c) n).1, ws', used) /\
    table_rep ws' used (memory_check (list_to_map (taken slots)) (a, b, c) n).2.
Proof.
  intros Hrep Hnd Hlen Hn Hf. unfold memory_check.
  apply list_find_Some in Hf as (Hk & Hsc & _). destruct s as [[sc seen]|]; [|done]. injection Hsc as ->.
  apply list_elem_of_split_length in Hk as (s1 & s2 & -> & ->).
  apply taken_split in Hnd as Hmap. destruct Hmap as (Hni & Hnd' & Hmap).
  apply Forall3_app_inv_r in Hrep as (w1 & w2 & u1 & u2 & -> & -> & H1 & H2).
  inversion H2 as [|w u s w2' u2' s2' Hs H2']; subst. destruct Hs as [-> Habs]. rewrite Hmap, lookup_insert_eq.
  pose proof (replay_check_refines _ _ a b c n Habs Hn) as Href.
  pose proof (replay_spec_check_scope (mk_replay_spec (a, b, c) XGL_DATALINK_REPLAY_WINDOW_SIZE seen) (a, b, c) n) as Hscope.
  assert (Z.of_nat (length s1) = zlen w1) as ->.
  { unfold zlen. by rewrite (Forall3_length_lr _ _ _ _ H1). }
  rewrite rd_at by done. cbn [mbind option_bind].
  destruct (xgl_replay_window_check w a b c n) as [r w'], (replay_spec_check _ _ n) as [r' s'].
  destruct Href as [-> Habs']. cbn [fst snd] in *. rewrite wr_at by done. cbn [mbind option_bind].
  eexists _. split; [reflexivity|]. exists (s1 ++ Some ((a, b, c), rs_seen s') :: s2).
  rewrite insert_insert_eq. split_and!.
  - rewrite length_app in *. done.
  - apply Forall3_app; [done|]. constructor; [|done]. split; [done|].
    destruct s', Hscope as [Hs1 Hs2]. cbn in Hs1, Hs2 |- *. by subst.
  - rewrite taken_app in Hnd |- *. by rewrite !fmap_app in *.
  - symmetry. apply Hmap.
Qed.

(** A new scope while a slot is empty: the first empty slot takes it, and the packet is new. *)
Lemma check_fresh ws used slots a b c n k s :
  Forall3 slot_rep ws used slots -> NoDup (taken slots).*1 -> length slots = 16%nat ->
  is_u32 n = true -> a <> 0 -> Forall (fun s => ~ has_scope (a, b, c) s) slots ->
  list_find (fun s => s = None) slots = Some (k, s) ->
  (length (taken slots) < 16)%nat /\ (k < 16)%nat /\
  exists ws' used',
    (window ← rd ws (Z.of_nat k);
     match xgl_replay_window_init (Ptr window) a b c XGL_DATALINK_REPLAY_WINDOW_SIZE with
     | (XGL_OK, Ptr window) =>
         used ← wr used (Z.of_nat k) true;
         let '(result, window) := xgl_replay_window_check window a b c n in
         ws ← wr ws (Z.of_nat k) window; ret (result, ws, used)
     | _ => ret (XGL_REPLAY_REJECT, ws, used)
     end) = Some (XGL_REPLAY_ACCEPT_NEW, ws', used') /\
    table_rep ws' used' (<[(a, b, c) := [n]]> (list_to_map (taken slots))).
Proof.
  intros Hrep Hnd Hlen Hn Ha Hno Hempty.
  apply list_find_Some in Hempty as (Hk & -> & _). apply list_elem_of_split_length in Hk as (s1 & s2 & -> & ->).
  apply Forall3_app_inv_r in Hrep as (w1 & w2 & u1 & u2 & -> & -> & H1 & H2).
  inversion H2 as [|w u s w2' u2' s2' Hu H2']; subst. cbn in Hu. subst u.
  assert (NoDup (taken (s1 ++ Some ((a, b, c), [n]) :: s2)).*1) as Hnd'.
  { rewrite !taken_app in *. cbn. fold (taken s2). rewrite fmap_app in *. cbn in *.
    rewrite <- Permutation_middle, <- fmap_app. apply NoDup_cons. split; [|by rewrite fmap_app].
    rewrite <- taken_app. apply scope_not_taken. apply Forall_app in Hno as [? [_ ?]%Forall_cons]. by apply Forall_app. }
  rewrite length_app in Hlen. cbn [length] in Hlen.
  pose proof (taken_length s1). pose proof (taken_length s2).
  pose proof (Forall3_length_lr _ _ _ _ H1). pose proof (Forall3_length_lm _ _ _ _ H1).
  rewrite (taken_app s1 (None :: s2)) in *. change (taken (None :: s2)) with (taken s2) in *.
  split; [rewrite length_app; lia|]. split; [lia|].
  rewrite rd_at by (unfold zlen; lia). cbn [mbind option_bind].
  unfold xgl_replay_window_init, XGL_DATALINK_REPLAY_WINDOW_SIZE.
  replace (_ || _) with false by lia. rewrite wr_at by (unfold zlen; lia). cbn [mbind option_bind].
  destruct (xgl_replay_window_check _ a b c n) as [r w'] eqn:Hcheck.
  assert (r = XGL_REPLAY_ACCEPT_NEW) as ->.
  { unfold xgl_replay_window_check in Hcheck. cbn in Hcheck. rewrite !Z.eqb_refl in Hcheck. cbn in Hcheck. congruence. }
  rewrite wr_at by (unfold zlen; lia). cbn [mbind option_bind].
  eexists _, _. split; [reflexivity|]. exists (s1 ++ Some ((a, b, c), [n]) :: s2).
  split_and!; [rewrite length_app; cbn; lia| |done|symmetry; by apply (taken_split s1 _ [n] s2 Hnd')].
  apply Forall3_app; [done|]. constructor; [|done]. split; [done|]. by eapply fresh_check.
Qed.

Lemma check_replay_refines ws used m a b c n :
  table_rep ws used m -> a <> 0 -> is_u32 n = true ->
  exists ws' used', datalink_check_replay ws used a b c n =
      Some ((memory_check m (a, b, c) n).1, ws', used') /\
    table_rep ws' used' (memory_check m (a, b, c) n).2.
Proof.
  intros (slots & Hlen & Hrep & Hnd & ->) Ha Hn.
  destruct (replay_search_spec _ _ _ a b c Hrep 0 XGL_DATALINK_REPLAY_WINDOW_COUNT) as (free & Hsearch & Hfree);
    [done|unfold zlen; rewrite Hlen; done|].
  unfold datalink_check_replay. rewrite Hsearch.
  destruct (list_find (has_scope (a, b, c)) slots) as [[k s]|] eqn:Hf.
  { rewrite Z.add_0_l. destruct (check_known ws used slots a b c n k s) as (ws' & Hrun & Hrep'); try done.
    by exists ws', used. }
  assert (Forall (fun s => ~ has_scope (a, b, c) s) slots) as Hno by exact (proj1 (list_find_None _ _) Hf).
  unfold memory_check. rewrite not_elem_of_list_to_map_1 by by apply scope_not_taken.
  rewrite map_size_list_to_map by done. rewrite (Hfree eq_refl), Z.eqb_refl. clear Hfree Hsearch free.
  destruct (list_find (fun s => s = None) slots) as [[k s]|] eqn:Hempty.
  - destruct (check_fresh ws used slots a b c n k s) as (Hsize & Hk & ws' & used' & Hrun & Hrep'); try done.
    unfold XGL_DATALINK_REPLAY_WINDOW_COUNT. rewrite Z.add_0_l.
    replace (Z.of_nat k =? 16) with false by lia. rewrite Hrun.
    replace (Z.of_nat (length (taken slots)) =? 16) with false by lia. by exists ws', used'.
  - assert (Forall (fun s => s <> None) slots) as Hfull by exact (proj1 (list_find_None _ _) Hempty).
    rewrite taken_full, Hlen by done. cbn. eexists _, _. split; [reflexivity|]. by exists slots.
Qed.

(** ** Sequences of queries *)

Fixpoint table_run (ws : list xgl_replay_window_t) (used : list bool) (qs : list query)
    : M (list xgl_replay_result_t * list xgl_replay_window_t * list bool) :=
  match qs with
  | [] => ret ([], ws, used)
  | (a, b, c, n) :: qs =>
      '(r, ws, used) ← datalink_check_replay ws used a b c n;
      '(rs, ws, used) ← table_run ws used qs;
      ret (r :: rs, ws, used)
  end.
Fixpoint memory_run (m : replay_memory) (qs : list query) : list xgl_replay_result_t * replay_memory :=
  match qs with
  | [] => ([], m)
  | (a, b, c, n) :: qs =>
      let '(r, m) := memory_check m (a, b, c) n in
      let '(rs, m) := memory_run m qs in (r :: rs, m)
  end.
Definition query_ok (q : query) : Prop := q.1.1.1 <> 0 /\ is_u32 (query_pn q) = true.

Lemma empty_table : table_rep no_windows no_window_used ∅.
Proof. exists (replicate 16 None). split; [done|]. split; [repeat constructor|]. by split; [constructor|]. Qed.

Lemma table_run_refines qs : forall ws used m,
  table_rep ws used m -> Forall query_ok qs ->
  exists ws' used', table_run ws used qs = Some ((memory_run m qs).1, ws', used') /\
    table_rep ws' used' (memory_run m qs).2.
Proof.
  induction qs as [|[[[a b] c] n] qs IH]; intros ws used m Hrep Hqs; [by exists ws, used|].
  apply Forall_cons in Hqs as [[Ha Hn] Hqs]. cbn [table_run memory_run].
  destruct (check_replay_refines ws used m a b c n Hrep Ha Hn) as (ws1 & used1 & -> & Hrep1).
  destruct (memory_check m (a, b, c) n) as [r m1]. cbn [mbind option_bind fst snd] in *.
  destruct (IH ws1 used1 m1 Hrep1 Hqs) as (ws2 & used2 & -> & Hrep2).
  destruct (memory_run m1 qs) as [rs m2]. by exists ws2, used2.
Qed.

(** C21. The replay windows of the data link refine one memory: from the empty
    table, every sequence of queries (with sources other than 0, which marks a window
    as not initialised) is answered, without an access outside the
    sixteen places, exactly as by a finite map from scopes to the numbers
    accepted in them.  That map opens a scope when it sees it first, remembers at
    most sixteen, and rejects every further scope for good. *)
Theorem replay_table_refines_memory (qs : list query) :
  Forall query_ok qs ->
  exists ws used, table_run no_windows no_window_used qs = Some ((memory_run ∅ qs).1, ws, used) /\
    table_rep ws used (memory_run ∅ qs).2 /\
    (size (memory_run ∅ qs).2 <= 16)%nat.
Proof.
  intros Hqs. destruct (table_run_refines qs _ _ _ empty_table Hqs) as (ws & used & Hrun & Hrep).
  exists ws, used. split_and!; [done..|]. destruct Hrep as (slots & Hlen & _ & Hnd & ->).
  rewrite map_size_list_to_map by done. rewrite <- Hlen. apply taken_length.
Qed.
Definition sample_queries : list query :=
  [(3, 9, 1, 5); (3, 9, 1, 5); (4, 9, 1, 5)] ++ map (fun i => (3, Z.of_nat i, 0, 1)) (seq 0 15).
Lemma replay_table_refines_memory_witness :
  exists ws used, table_run no_windows no_window_used sample_queries =
      Some ([XGL_REPLAY_ACCEPT_NEW; XGL_REPLAY_ACCEPT_DUPLICATE] ++ replicate 15 XGL_REPLAY_ACCEPT_NEW ++
            [XGL_REPLAY_REJECT], ws, used) /\
    table_rep ws used (memory_run ∅ sample_queries).2.
Proof.
  assert (Forall query_ok sample_queries) as Hqs.
  { unfold sample_queries. repeat constructor; vm_compute; congruence. }
  destruct (replay_table_refines_memory sample_queries Hqs) as (ws & used & Hrun & Hrep & _).
  exists ws, used. split; [|exact Hrep]. rewrite Hrun. vm_compute. reflexivity.
Defined.
