(* ===== verification/DatalinkInv.v ===== *)
(** * The receive path of the data link

    What is validated, authenticated and passed up.  A frame that the parser
    completed is decoded from its parts; the invariant ties the parser, the
    replay windows and the frames passed up so far. *)
From S2P Require Import Prelude State Errors Serialize Crc Layer Wire WireExt ExtWalk Frame Parser Security Datalink ReplayTable.

(** ** The metadata of a well-formed frame *)

Section decode.
  Context (auth : bool) (key : Z).

Definition is_security (x : tlv) : bool := x.1 =? XGL_WIRE_EXT_SECURITY.
(** The loop carries the metadata from [m] to [m'] over the extensions [l]. *)
Definition walked (l : list tlv) (m m' : xgl_datalink_rx_metadata_t) : Prop :=
  md_header m' = md_header m /\ md_payload_len m' = md_payload_len m /\
  scan_tag l (md_auth_tag_len m) = Some (md_auth_tag_len m') /\
  md_has_security_ext m' = md_has_security_ext m || existsb is_security l /\
  (auth = true -> (md_has_security_ext m = true -> md_auth_key_id m = key) ->
   md_has_security_ext m' = true -> md_auth_key_id m' = key).

Lemma walked_cons x l m m1 m' : walked [x] m m1 -> walked l m1 m' -> walked (x :: l) m m'.
Proof.
  intros (H1 & H2 & H3 & H4 & H5) (K1 & K2 & K3 & K4 & K5). split_and!; [congruence..| | |auto].
  - change (x :: l) with ([x] ++ l). by rewrite (scan_tag_app _ _ _ _ H3).
  - cbn [existsb] in *. rewrite K4, H4. by rewrite orb_false_r, orb_assoc.
Qed.
Lemma body_walked m x : tlv_ok x -> exists r, rx_ext_body auth key m (tlv_ext x) = Some r /\
  match r with inl m' => walked [x] m m' | inr (err, _) => err = XGL_ERR_INVALID_FRAME end.
Proof.
  destruct x as [t v]. intros (_ & _ & Hv). unfold rx_ext_body, tlv_ext, walked, is_security.
  cbn [e_value e_type e_len fst snd mbind option_bind scan_tag existsb] in *.
  destruct (t =? XGL_WIRE_EXT_SECURITY).
  - destruct (decode_security_total v Hv) as (err & out & Hdec & Hok). rewrite Hdec. cbn [mbind option_bind].
    destruct (decide (err = XGL_OK)) as [->|Hne].
    + destruct (Hok eq_refl) as (k & n & tag & -> & Ht). cbn [is_ok negb orb].
      replace (tag =? 0) with false by lia. change (md_auth_key_id (m <| md_auth_key_id := k |>)) with k.
      destruct auth; cbn [andb]; [destruct (Z.eqb_spec k key) as [->|]|]; cbn [negb];
        (eexists; split; [reflexivity|]); cbn; rewrite ?orb_true_r, ?Hdec; first [done | by split_and!].
    + assert (is_ok err = false) as -> by by destruct err. by eexists.
  - destruct (t =? XGL_WIRE_EXT_SESSION).
    + destruct (decode_session_total v Hv) as (err & out & -> & Hok & _). cbn [mbind option_bind].
      destruct (is_ok err); cbn [negb]; eexists; (split; [reflexivity|]); [|done].
      destruct out as [[]|]; cbn; rewrite orb_false_r; split_and!; done || (intros; auto).
    + eexists. split; [reflexivity|]. rewrite orb_false_r. cbn. split_and!; done || (intros; auto).
Qed.
Lemma walk_walked l : Forall tlv_ok l -> forall m,
  exists r, tlv_walk (rx_ext_body auth key) l m = Some r /\
    match r with inl m' => walked l m m' | inr (err, _) => err = XGL_ERR_INVALID_FRAME end.
Proof.
  induction 1 as [|x l Hx _ IH]; intros m; cbn [tlv_walk].
  { eexists. split; [done|]. unfold walked. cbn. rewrite orb_false_r. split_and!; done || (intros; auto). }
  destruct (body_walked m x Hx) as (r & -> & Hr). cbn [mbind option_bind].
  destruct r as [m1|[err m1]]; [|by eexists]. destruct (IH m1) as (r & -> & Hr2). eexists. split; [done|].
  destruct r as [m2|]; [|done]. by eapply walked_cons.
Qed.

Definition rx_start (h : xgl_wire_header_t) : xgl_datalink_rx_metadata_t :=
  zero_rx_metadata <| md_header := h <| wh_header_crc16 := header_crc h |> |>.
Definition rx_finish (m : xgl_datalink_rx_metadata_t) : xgl_datalink_rx_metadata_t :=
  let authenticated := negb (Z.land (wh_flags (md_header m)) XGL_WIRE_FLAG_AUTHENTICATED =? 0) in
  m <| md_authenticated := authenticated |>
    <| md_should_verify_auth := authenticated || md_has_security_ext m |>
    <| md_payload_len := wh_payload_len (md_header m) |>.
Lemma decode_ext_run h l tag rest m :
  head_ok h l tag -> bytes_ok rest ->
  datalink_decode_rx_extensions (head_bytes h l ++ rest) (h <| wh_header_crc16 := header_crc h |>) auth key m =
    (r ← tlv_walk (rx_ext_body auth key) l m;
     ret match r with inl m => (XGL_OK, m) | inr r => r end).
Proof.
  intros (Hh & Hr & Hl & Htl & _) Hrest. unfold datalink_decode_rx_extensions. cbn [wh_header_len set_field].
  change (wh_header_len (h <| wh_header_crc16 := header_crc h |>)) with (wh_header_len h). rewrite Hl.
  unfold XGL_WIRE_BASE_HEADER_SIZE. pose proof (zlen_nonneg (tlvs_bytes l)).
  pose proof (tlvs_bytes_ok l Htl) as Hok.
  destruct (Z.leb_spec (24 + zlen (tlvs_bytes l)) 24) as [Hz|Hpos].
  { destruct l as [|[t v] l]; [done|]. exfalso. cbn in Hz. rewrite zlen_cons in Hz.
    pose proof (zlen_nonneg (zlen v :: v ++ tlvs_bytes l)). unfold tlvs_bytes in *. lia. }
  replace (24 + zlen (tlvs_bytes l) - 24) with (zlen (tlvs_bytes l)) by lia.
  unfold head_bytes. rewrite <- app_assoc.
  change (drop (Z.to_nat 24) (header_bytes h ++ tlvs_bytes l ++ rest)) with (tlvs_bytes l ++ rest).
  destruct (cursor_init_at (mk_cursor NULL 0 0) (tlvs_bytes l ++ rest) (zlen (tlvs_bytes l))) as (c & -> & Hat).
  { by apply Forall_app. } { rewrite zlen_app. pose proof (zlen_nonneg rest). lia. }
  rewrite take_app_length' in Hat by (unfold zlen; lia). cbn [is_ok negb].
  pose proof (ext_walk_spec (rx_ext_body auth key) (length (tlvs_bytes l)) (S (Z.to_nat (zlen (tlvs_bytes l))))
    c _ m Hat Hok ltac:(lia) ltac:(unfold zlen; lia)) as Hw.
  rewrite parse_tlvs_encode in Hw by done. rewrite Hw. unfold walk_end.
  by destruct (tlv_walk _ l m) as [[m'|[]]|].
Qed.
End decode.

(** The validation of a whole frame, in a buffer that may be longer. *)
Lemma decode_frame auth key h l tag body F post :
  frame_parts h l tag body F -> bytes_ok post ->
  xgl_datalink_decode_rx_metadata (F ++ post) (zlen F) auth key =
    if XGL_DATALINK_MAX_FRAME_SIZE <? zlen F then Some (XGL_ERR_INVALID_FRAME, zero_rx_metadata)
    else r ← tlv_walk (rx_ext_body auth key) l (rx_start h);
         ret match r with inl m => (XGL_OK, rx_finish m) | inr r => r end.
Proof.
  intros Hp Hpost. pose proof (parts_zlen _ _ _ _ _ Hp) as HFl. pose proof (parts_bounds _ _ _ _ _ Hp) as Hbnd.
  destruct Hp as (Hhead & Hb & Hbl & HF). pose proof Hhead as (Hh & Hr & Hl & Htl & Hs & Hauth).
  unfold xgl_datalink_decode_rx_metadata. change (XGL_FRAME_HEADER_SIZE + XGL_CRC16_SIZE) with 26.
  replace (zlen F <? 26) with false by lia. cbn [orb].
  destruct (XGL_DATALINK_MAX_FRAME_SIZE <? zlen F); [done|].
  set (crc := le_bytes 2 (crc16 0xFFFF (head_bytes h l ++ body))).
  assert (F ++ post = head_bytes h l ++ (body ++ crc) ++ post) as HFp.
  { rewrite HF. unfold seal. fold crc. by rewrite <- !app_assoc. }
  assert (bytes_ok crc) as Hcrc by apply le_bytes_ok.
  assert (bytes_ok ((body ++ crc) ++ post)) as Hrest by (rewrite !Forall_app; done).
  assert (bytes_ok (head_bytes h l)) as Hhb.
  { unfold head_bytes. apply Forall_app. split; [by apply header_bytes_ok|by apply tlvs_bytes_ok]. }
  rewrite HFp. set (buf := head_bytes h l ++ (body ++ crc) ++ post).
  assert (rd buf 0 = Some XGL_WIRE_MAGIC_0 /\ rd buf 1 = Some XGL_WIRE_MAGIC_1) as [-> ->] by done.
  cbn [mbind option_bind]. rewrite !Z.eqb_refl. cbn [negb orb].
  assert (xgl_wire_decode_header (md_header zero_rx_metadata) buf (zlen F) =
    Some (XGL_OK, h <| wh_header_crc16 := header_crc h |>)) as ->.
  { unfold buf, head_bytes. rewrite <- app_assoc. apply decode_header_bytes; try done; [|lia].
    apply Forall_app. split; [by apply tlvs_bytes_ok|done]. }
  cbn [mbind option_bind is_ok negb].
  unfold buf. rewrite (decode_ext_run auth key h l tag) by done.
  fold (rx_start h). destruct (walk_walked auth key l Htl (rx_start h)) as (r & Hwalk & Hres).
  change (zero_rx_metadata <| md_header := _ |>) with (rx_start h). rewrite Hwalk. cbn [mbind option_bind].
  destruct r as [m|[err m]]; cbn [is_ok negb]; [|by rewrite Hres].
  destruct Hres as (Hmh & Hmp & Htag & _). change (md_auth_tag_len (rx_start h)) with 0 in Htag.
  assert (md_auth_tag_len m = tag) as Htag' by congruence.
  unfold XGL_CRC16_SIZE. assert (zlen (head_bytes h l ++ body) = zlen F - 2) as Hbz by (rewrite HF, seal_zlen; lia).
  assert (head_bytes h l ++ (body ++ crc) ++ post = (head_bytes h l ++ body) ++ crc ++ post) as ->
    by by rewrite <- !app_assoc.
  assert (bytes_ok (head_bytes h l ++ body)) by by apply Forall_app.
  assert (bytes_ok ((head_bytes h l ++ body) ++ crc ++ post)) as Hall by by rewrite !Forall_app in *.
  pose proof (zlen_nonneg (crc ++ post)).
  rewrite crc16_modbus_spec; [|done|lia|lia|rewrite zlen_app, Hbz; lia].
  rewrite drop_to_nat_0, take_app_length' by (unfold zlen in *; lia). cbn [mbind option_bind].
  rewrite deserialize_u16_at by done. cbn [mbind option_bind].
  unfold crc. rewrite le_value_u16 by (apply crc16_range; [lia|done]).
  rewrite Z.eqb_refl. cbn [negb].
  match goal with |- context [negb ?b] => replace b with true end; [|].
  2: { cbn. rewrite Htag'. lia. }
  cbn [negb]. unfold rx_finish. by rewrite Hmh.
Qed.

(** The trailer is checked, or an error is reported, on any frame. *)
Lemma verify_total buffer n aad_len payload_len key provider :
  0 <= aad_len <= 255 -> 0 <= payload_len -> n <= zlen buffer ->
  exists err v, xgl_wire_verify_auth_trailer buffer n aad_len payload_len key provider false = Some (err, v) /\
    (err = XGL_OK -> v = true -> exists p verify, provider = Ptr p /\ ap_verify p = Ptr verify /\
       verify key (canon (take (Z.to_nat aad_len) buffer)) (slice buffer aad_len payload_len)
         (slice buffer (aad_len + payload_len) (n - (aad_len + payload_len))) = (XGL_OK, true)).
Proof.
  intros Haad Hpl Hn. unfold xgl_wire_verify_auth_trailer.
  destruct provider as [p|]; [|by eexists _, _]. destruct (ap_verify p) as [verify|] eqn:Hv; [|by eexists _, _].
  case_if; [by eexists _, _|]. destruct (n <=? aad_len + payload_len) eqn:Hle; [by eexists _, _|].
  destruct (n - (aad_len + payload_len) =? ap_tag_len p); cbn [negb]; [|by eexists _, _].
  pose proof (canonical_aad_spec buffer aad_len ltac:(lia)) as Hcan.
  replace (255 <? aad_len) with false in Hcan by lia. rewrite andb_false_r in Hcan.
  destruct Hcan as (prepared & -> & Hprep). cbn [mbind option_bind is_ok negb]. rewrite Hprep.
  cbn [mbind option_bind]. rewrite !rd_bytes_Some by lia. cbn [mbind option_bind].
  destruct (verify key _ _ _) as [err v] eqn:Hver. eexists _, _. split; [done|]. intros -> ->. by exists p, verify.
Qed.

(** ** What the memory of accepted packets promises *)

Definition known (m : replay_memory) (id : scope * Z) : Prop := exists seen, m !! id.1 = Some seen /\ id.2 ∈ seen.
Lemma memory_check_known m sc n r m' :
  memory_check m sc n = (r, m') ->
  (forall id, known m id -> known m' id) /\ (r <> XGL_REPLAY_REJECT -> known m' (sc, n)) /\
  (r = XGL_REPLAY_ACCEPT_NEW -> ~ known m (sc, n)).
Proof.
  unfold memory_check, known. cbn [fst snd]. destruct (m !! sc) as [seen|] eqn:Hm.
  - destruct (replay_spec_check _ sc n) as [r0 s] eqn:Hc. intros [= <- <-].
    assert (rs_seen s = n :: seen /\ r0 = XGL_REPLAY_ACCEPT_NEW /\ n ∉ seen \/
      rs_seen s = seen /\ r0 <> XGL_REPLAY_ACCEPT_NEW /\ (r0 <> XGL_REPLAY_REJECT -> n ∈ seen)) as Hr0.
    { unfold replay_spec_check in Hc. cbn [rs_scope rs_seen rs_size] in Hc.
      rewrite bool_decide_eq_true_2 in Hc by done. cbn [negb] in Hc.
      destruct seen as [|x seen]; [injection Hc as <- <-; left; split_and!; [done|done|by intros ?%elem_of_nil]|].
      destruct (seen_largest (x :: seen) <? n) eqn:Hlt.
      { injection Hc as <- <-. left. split_and!; [done|done|]. intros Hin%seen_largest_ge. lia. }
      destruct (_ <=? _); [injection Hc as <- <-; right; by split_and!|].
      case_bool_decide; injection Hc as <- <-; [right|left]; by split_and!. }
    split_and!.
    + intros id (seen' & Hs & Hin). destruct (decide (id.1 = sc)) as [Heq|Hne].
      * exists (rs_seen s). rewrite Heq, lookup_insert_eq. split; [done|].
        rewrite Heq, Hm in Hs. injection Hs as <-.
        destruct Hr0 as [(-> & _)|(-> & _)]; [by apply list_elem_of_further|done].
      * exists seen'. by rewrite lookup_insert_ne.
    + intros Hr. exists (rs_seen s). rewrite lookup_insert_eq. split; [done|].
      destruct Hr0 as [(-> & _)|(-> & _ & Hin)]; [by left|by apply Hin].
    + intros -> (seen' & [= <-] & Hin). by destruct Hr0 as [(_ & _ & ?)|(_ & ? & _)].
  - case_if; intros [= <- <-]; [by split_and!|]. split_and!.
    + intros id (seen' & Hs & Hin). exists seen'. rewrite lookup_insert_ne; [done|]. intros Heq. congruence.
    + intros _. exists [n]. rewrite lookup_insert_eq. split; [done|]. by left.
    + intros _ (seen' & Hs & _). congruence.
Qed.

(** ** The invariant *)

Definition rx_meta (c : xgl_datalink_ctx_t) (F : bytes) : option xgl_datalink_rx_metadata_t :=
  match xgl_datalink_decode_rx_metadata F (zlen F) (dc_auth_required c) (dc_auth_key_id c) with
  | Some (XGL_OK, m) => Some m
  | _ => None
  end.
Definition packet_id (m : xgl_datalink_rx_metadata_t) : scope * Z :=
  ((wh_source_id (md_header m), wh_connection_id (md_header m), md_session_epoch m),
   wh_packet_number (md_header m)).
(** The authentication provider accepts the tag of [F] for its header, extensions
    and payload. *)
Definition authentic (c : xgl_datalink_ctx_t) (F : bytes) (m : xgl_datalink_rx_metadata_t) : Prop :=
  let h := md_header m in
  exists p verify, dc_auth_provider c = Ptr p /\ ap_verify p = Ptr verify /\
    (dc_auth_required c = true -> md_auth_key_id m = dc_auth_key_id c) /\
    verify (md_auth_key_id m) (canon (take (Z.to_nat (wh_header_len h)) F))
      (slice F (wh_header_len h) (wh_payload_len h))
      (slice F (wh_header_len h + wh_payload_len h) (md_auth_tag_len m)) = (XGL_OK, true).
(** A frame that may go up. *)
Definition up_ok (size : Z) (c : xgl_datalink_ctx_t) (F : bytes) : Prop :=
  valid_frame size F /\ zlen F <= XGL_DATALINK_MAX_FRAME_SIZE /\
  exists m, rx_meta c F = Some m /\ (dc_auth_required c = true -> md_should_verify_auth m = true) /\
    (md_should_verify_auth m = true -> authentic c F m).

(** The identities of the verified frames passed up, and what repeats. *)
Definition verified_id (c : xgl_datalink_ctx_t) (F : bytes) : option (scope * Z) :=
  m ← rx_meta c F; if md_should_verify_auth m then Some (packet_id m) else None.
Definition ack_eliciting (c : xgl_datalink_ctx_t) (F : bytes) : Prop :=
  exists m, rx_meta c F = Some m /\ datalink_is_ack_eliciting (md_header m) = true.
(** A verified packet goes up a second time only when it asks for an ACK. *)
Definition no_replay (c : xgl_datalink_ctx_t) (Fs : list bytes) : Prop :=
  forall Fs1 F Fs2 G Fs3 id, Fs = Fs1 ++ F :: Fs2 ++ G :: Fs3 ->
    verified_id c F = Some id -> verified_id c G = Some id -> ack_eliciting c G.
Definition up_frames (trace : list datalink_event) : list bytes :=
  omap (fun e => match e with dl_up F => Some F | _ => None end) trace.

Definition same_config (c c' : xgl_datalink_ctx_t) : Prop :=
  dc_auth_required c' = dc_auth_required c /\ dc_auth_key_id c' = dc_auth_key_id c /\
  dc_auth_provider c' = dc_auth_provider c /\ dc_upper_layer c' = dc_upper_layer c /\
  dc_error_callback c' = dc_error_callback c /\ p_cache_size (dc_parser c') = p_cache_size (dc_parser c).
Definition junk_ok (junk : Z -> bytes) : Prop := forall n, 0 <= n -> zlen (junk n) = n /\ bytes_ok (junk n).
(** Everything but the state of the parser; [c0] is the context at the start. *)
Definition rest_ok (c0 : xgl_datalink_ctx_t) (w : dl_world) : Prop :=
  same_config c0 (d_ctx w) /\ junk_ok (d_junk w) /\
  (exists m, table_rep (dc_replay_windows (d_ctx w)) (dc_replay_window_used (d_ctx w)) m /\
     forall F id, F ∈ up_frames (d_trace w) -> verified_id c0 F = Some id -> known m id) /\
  Forall (up_ok (p_cache_size (dc_parser c0)) c0) (up_frames (d_trace w)) /\
  no_replay c0 (up_frames (d_trace w)).
Definition dl_ok (c0 : xgl_datalink_ctx_t) (w : dl_world) : Prop :=
  rest_ok c0 w /\ exists partial, parser_inv (dc_parser (d_ctx w)) partial.

(** Steps that only count, report and transmit. *)
Definition quiet (w w' : dl_world) : Prop :=
  dc_parser (d_ctx w') = dc_parser (d_ctx w) /\ same_config (d_ctx w) (d_ctx w') /\
  dc_replay_windows (d_ctx w') = dc_replay_windows (d_ctx w) /\
  dc_replay_window_used (d_ctx w') = dc_replay_window_used (d_ctx w) /\
  d_junk w' = d_junk w /\ up_frames (d_trace w') = up_frames (d_trace w).
Lemma same_config_trans c1 c2 c3 : same_config c1 c2 -> same_config c2 c3 -> same_config c1 c3.
Proof. unfold same_config. intuition congruence. Qed.
Lemma quiet_refl w : quiet w w.
Proof. by repeat split. Qed.
Lemma quiet_trans w1 w2 w3 : quiet w1 w2 -> quiet w2 w3 -> quiet w1 w3.
Proof.
  intros (? & H2 & ? & ? & ? & ?) (? & K2 & ? & ? & ? & ?).
  split; [congruence|]. split; [by eapply same_config_trans|]. split_and!; congruence.
Qed.
Lemma quiet_rest c0 w w' : quiet w w' -> rest_ok c0 w -> rest_ok c0 w'.
Proof.
  intros (_ & Hc & Hw & Hu & Hj & Ht) (Hc0 & Hjo & Hrest). unfold rest_ok. rewrite Hw, Hu, Hj, Ht.
  split; [by eapply same_config_trans|done].
Qed.

(** ** The calculus of the layer *)

Lemma wp_dl_get Q w : Q (d_ctx w) w -> wp dl_get Q w.
Proof. done. Qed.
Lemma wp_dl_put f Q w : Q tt (w <| d_ctx := f (d_ctx w) |>) -> wp (dl_put f) Q w.
Proof. done. Qed.
Lemma wp_dl_emit e Q w : Q tt (w <| d_trace := d_trace w ++ [e] |>) -> wp (dl_emit e) Q w.
Proof. done. Qed.
Lemma wp_fresh size Q w : Q (d_junk w size) w -> wp (fresh_buffer size) Q w.
Proof. done. Qed.
Ltac dl_step :=
  lazymatch goal with
  | |- wp dl_get _ _ => apply wp_dl_get
  | |- wp (dl_put _) _ _ => apply wp_dl_put
  | |- wp (dl_emit _) _ _ => apply wp_dl_emit
  | |- wp (fresh_buffer _) _ _ => apply wp_fresh
  | _ => st_step
  end.

Definition silent {A} (m : D A) : Prop := forall w, wp m (fun _ w' => quiet w w') w.
Lemma silent_ret {A} (a : A) : silent (mret a).
Proof. intros w. apply quiet_refl. Qed.
Lemma silent_bind {A B} (m : D A) (f : A -> D B) : silent m -> (forall a, silent (f a)) -> silent (m ≫= f).
Proof.
  intros Hm Hf w. apply wp_bind. eapply wp_mono; [apply Hm|]. intros a w1 Hq. eapply wp_mono; [apply Hf|].
  intros ? w2. by apply quiet_trans.
Qed.
Lemma silent_put f :
  (forall c, dc_parser (f c) = dc_parser c /\ same_config c (f c) /\
     dc_replay_windows (f c) = dc_replay_windows c /\ dc_replay_window_used (f c) = dc_replay_window_used c) ->
  silent (dl_put f).
Proof. intros Hf w. dl_step. destruct (Hf (d_ctx w)) as (? & ? & ? & ?). by split_and!. Qed.
Lemma silent_get : silent dl_get.
Proof. intros w. apply quiet_refl. Qed.
Lemma silent_stats f : silent (dl_stats f).
Proof. by apply silent_put. Qed.
Lemma quiet_emit w e : (forall F, e <> dl_up F) -> quiet w (w <| d_trace := d_trace w ++ [e] |>).
Proof.
  intros He. split_and!; try done. cbn. unfold up_frames. rewrite omap_app. destruct e; cbn; try by rewrite app_nil_r.
  by destruct (He frame).
Qed.
Lemma silent_emit e : (forall F, e <> dl_up F) -> silent (dl_emit e).
Proof. intros He w. dl_step. by apply quiet_emit. Qed.
Lemma silent_if {A} (b : bool) (m1 m2 : D A) : silent m1 -> silent m2 -> silent (if b then m1 else m2).
Proof. by destruct b. Qed.
#[export] Hint Resolve silent_ret silent_get silent_stats silent_bind silent_if : dl.
Lemma silent_error err : silent (call_error err).
Proof. apply silent_bind; [auto with dl|]. intros c. apply silent_if; [auto with dl|]. by apply silent_emit. Qed.
#[export] Hint Resolve silent_error : dl.
Lemma silent_count_rx : silent count_rx_error /\ silent count_rx_rejected /\ silent datalink_count_tx_error.
Proof. split_and!; apply silent_stats. Qed.
Ltac silent :=
  repeat first [apply silent_error | apply silent_ret | apply silent_stats | assumption
               | apply silent_if | apply silent_bind; [|intros ?]].
Lemma silent_report m n : silent (report_bad_frame m n).
Proof.
  destruct silent_count_rx as (? & ? & ?). unfold report_bad_frame.
  silent; by apply silent_put.
Qed.
Lemma silent_answer : silent tx_answer.
Proof. intros w. unfold tx_answer, wp. by destruct (d_tx w). Qed.
Lemma silent_counted phy buffer len : 0 <= len <= zlen buffer -> silent (transmit_and_count phy buffer len).
Proof.
  intros Hlen. unfold transmit_and_count, phy_transmit. destruct silent_count_rx as (? & ? & ?).
  apply silent_bind; [|intros err; apply silent_if; silent].
  intros w. dl_step. eapply wp_lift; [apply rd_bytes_Some; lia|]. dl_step. dl_step.
  eapply wp_mono; [apply silent_answer|]. intros ? w' Hq. eapply quiet_trans; [|exact Hq]. by apply quiet_emit.
Qed.

(** Looking into a buffer that starts with the frame. *)
Lemma take_prefix {A} (F post : list A) n : n <= zlen F -> take (Z.to_nat n) (F ++ post) = take (Z.to_nat n) F.
Proof. intros. apply take_app_le. unfold zlen in *. lia. Qed.
Lemma slice_prefix {A} (F post : list A) off n :
  0 <= off -> 0 <= n -> off + n <= zlen F -> slice (F ++ post) off n = slice F off n.
Proof. intros. rewrite drop_app_le by (unfold zlen in *; lia). apply take_prefix. rewrite zlen_drop; lia. Qed.

(** ** Reception keeps the invariant *)

Section receive.
  Context (c0 : xgl_datalink_ctx_t).
Let size := p_cache_size (dc_parser c0).

Lemma rest_parser w p :
  rest_ok c0 w -> p_cache_size p = size -> rest_ok c0 (w <| d_ctx := (d_ctx w) <| dc_parser := p |> |>).
Proof. 
  intros ((H1 & H2 & H3 & H4 & H5 & H6) & Hrest) Hp. split; [|exact Hrest]. do 5 (split; [assumption|]). exact Hp.
Qed.

(** After a frame: the parser is as before, the rest is in order. *)
Definition processed {A} (w : dl_world) (_ : A) (w' : dl_world) : Prop :=
  rest_ok c0 w' /\ dc_parser (d_ctx w') = dc_parser (d_ctx w).
Lemma processed_quiet {A} (m : D A) w : rest_ok c0 w -> silent m -> wp m (processed w) w.
Proof.
  intros Hw Hm. eapply wp_mono; [apply Hm|]. intros a w' Hq. split; [exact (quiet_rest _ _ _ Hq Hw)|]. apply Hq.
Qed.

(** The metadata and the frame that goes up with it. *)
Definition frame_of (F : bytes) (m : xgl_datalink_rx_metadata_t) : Prop :=
  valid_frame size F /\ zlen F <= XGL_DATALINK_MAX_FRAME_SIZE /\ rx_meta c0 F = Some m /\
  wh_source_id (md_header m) <> 0 /\ is_u32 (wh_packet_number (md_header m)) = true /\
  md_payload_len m = wh_payload_len (md_header m) /\
  24 <= wh_header_len (md_header m) <= 255 /\
  (0 <= wh_payload_len (md_header m) < 65536 /\ 0 <= md_auth_tag_len m < 256) /\
  zlen F = wh_header_len (md_header m) + wh_payload_len (md_header m) + md_auth_tag_len m + 2 /\
  (md_authenticated m = true -> md_should_verify_auth m = true) /\
  (dc_auth_required c0 = true -> md_has_security_ext m = true -> md_auth_key_id m = dc_auth_key_id c0).

Lemma decode_valid c F post :
  same_config c0 c -> valid_frame size F -> bytes_ok post ->
  exists err m, xgl_datalink_decode_rx_metadata (F ++ post) (zlen F) (dc_auth_required c) (dc_auth_key_id c) =
      Some (err, m) /\ (err = XGL_OK -> frame_of F m).
Proof.
  intros (Hauth & Hkey & _) Hv Hpost. pose proof Hv as [(h & l & tag & body & Hp) Hs]%valid_frame_parts.
  pose proof (decode_frame (dc_auth_required c0) (dc_auth_key_id c0) _ _ _ _ _ _ Hp Hpost) as Hd.
  pose proof (decode_frame (dc_auth_required c0) (dc_auth_key_id c0) _ _ _ _ _ [] Hp ltac:(done)) as Hd0.
  rewrite app_nil_r in Hd0. rewrite Hauth, Hkey, Hd. clear Hd.
  destruct (Z.ltb_spec XGL_DATALINK_MAX_FRAME_SIZE (zlen F)) as [|Hmax]; [by eexists _, _|].
  pose proof (parts_zlen _ _ _ _ _ Hp) as HFl. pose proof (parts_bounds _ _ _ _ _ Hp) as Hb.
  destruct Hp as (Hhead & _). pose proof Hhead as (Hh & Hr & _ & Htl & Htag & _).
  destruct (walk_walked (dc_auth_required c0) (dc_auth_key_id c0) l Htl (rx_start h)) as (r & Hwalk & Hres).
  rewrite Hwalk in Hd0 |- *. cbn [mbind option_bind] in *.
  destruct r as [m|[err m]]; [|eexists _, _; split; [done|]; intros ->; discriminate].
  eexists _, _. split; [done|]. intros _. destruct Hres as (Hmh & Hmp & Hmt & Hms & Hmk).
  change (scan_tag l 0 = Some (md_auth_tag_len m)) in Hmt.
  assert (tag = md_auth_tag_len m) as -> by congruence.
  assert (md_header (rx_finish m) = h <| wh_header_crc16 := header_crc h |>) as Hhd by done.
  split; [done|]. split; [done|]. split; [unfold rx_meta; by rewrite Hd0|]. rewrite Hhd.
  apply wire_header_ok_spec in Hh. unfold wire_header_rejected in Hr.
  split; [cbn; lia|]. split; [apply is_u32_spec; cbn; lia|]. split; [by rewrite <- Hhd|]. split; [cbn; lia|].
  split; [split; cbn; lia|]. split; [exact HFl|]. split; [by intros Ha; cbn in *; rewrite Ha|]. intros Ha Hsec. by apply Hmk.
Qed.

(** What lets [F] pass: it is authentic, remembered, and only a repetition if it
    asks for an ACK. *)
Definition may_pass (F : bytes) (m : xgl_datalink_rx_metadata_t) (w : dl_world) : Prop :=
  authentic c0 F m /\
  (exists M, table_rep (dc_replay_windows (d_ctx w)) (dc_replay_window_used (d_ctx w)) M /\
     (forall G id, G ∈ up_frames (d_trace w) -> verified_id c0 G = Some id -> known M id) /\
     known M (packet_id m)) /\
  (forall G, G ∈ up_frames (d_trace w) -> verified_id c0 G = Some (packet_id m) ->
     datalink_is_ack_eliciting (md_header m) = true).

Lemma verify_frame_wp w F m post :
  rest_ok c0 w -> frame_of F m -> md_has_security_ext m = true ->
  wp (verify_frame m (F ++ post) (zlen F)) (fun ok w' => processed w tt w' /\ (ok = true -> may_pass F m w')) w.
Proof.
  intros Hw (Hv & _ & Hm & Hsrc & Hpn & Hpl & Hhl & (Hpl0 & Htl0) & HFl & _ & Hkey) Hsec.
  pose proof Hw as ((Hauth & Hk & Hprov & _) & _ & (M & Hrep & Hknown) & _).
  unfold verify_frame. dl_step. dl_step. dl_step.
  pose proof (zlen_nonneg post).
  destruct (verify_total (F ++ post) (zlen F - XGL_CRC16_SIZE) (wh_header_len (md_header m)) (md_payload_len m)
    (md_auth_key_id m) (dc_auth_provider (d_ctx w))) as (err & v & Hver & Hok);
    [lia|lia|rewrite zlen_app; unfold XGL_CRC16_SIZE; lia|].
  eapply wp_lift; [exact Hver|]. cbn beta iota.
  destruct (is_ok err) eqn:Herr, v; cbn [negb orb]; try by (dl_step; split; [split|]).
  assert (err = XGL_OK) as -> by by destruct err.
  destruct (check_replay_refines _ _ M (wh_source_id (md_header m)) (wh_connection_id (md_header m))
    (md_session_epoch m) (wh_packet_number (md_header m)) Hrep Hsrc Hpn) as (ws & used & Hcheck & Hrep').
  destruct (memory_check M _ _) as [r M'] eqn:HM. cbn [fst snd] in *.
  dl_step. eapply wp_lift; [exact Hcheck|]. cbn beta iota. dl_step. dl_step. dl_step.
  apply memory_check_known in HM as (Hmono & Hnow & Hnew).
  assert (forall G id, G ∈ up_frames (d_trace w) -> verified_id c0 G = Some id -> known M' id) as Hknown' by eauto.
  split.
  { split; [|done]. destruct Hw as (Hc & Hj & _ & Hrest). split; [exact Hc|]. split; [done|]. split; [|done]. by exists M'. }
  intros Hr. split.
  { destruct (Hok eq_refl eq_refl) as (p & verify & Hp & Hverify & Hrun). exists p, verify.
    split; [by rewrite <- Hprov|]. split; [done|]. split.
    - intros Ha. by apply Hkey.
    - pose proof (zlen_nonneg post). rewrite <- Hrun, Hpl. unfold XGL_CRC16_SIZE.
      rewrite !(slice_prefix F), (take_prefix F) by lia. do 2 f_equal. lia. }
  split.
  - exists M'. split; [done|]. split; [done|]. apply Hnow. by intros ->.
  - intros G HG Hid. destruct r; [done| |done]. destruct (Hnew eq_refl). by apply (Hknown G).
Qed.

Lemma no_replay_snoc Fs F :
  no_replay c0 Fs ->
  (forall G id, G ∈ Fs -> verified_id c0 G = Some id -> verified_id c0 F = Some id -> ack_eliciting c0 F) ->
  no_replay c0 (Fs ++ [F]).
Proof.
  intros Hno HF Fs1 G1 Fs2 G Fs3 id Heq H1 H2. destruct Fs3 as [|x Fs3' _] using rev_ind.
  - change (Fs1 ++ G1 :: Fs2 ++ [G]) with (Fs1 ++ (G1 :: Fs2) ++ [G]) in Heq. rewrite app_assoc in Heq.
    apply app_inj_tail in Heq as [-> ->]. apply (HF G1 id); [|done..]. rewrite elem_of_app. right. by left.
  - replace (Fs1 ++ G1 :: Fs2 ++ G :: Fs3' ++ [x]) with ((Fs1 ++ G1 :: Fs2 ++ G :: Fs3') ++ [x]) in Heq
      by (rewrite <- !app_assoc; cbn; by rewrite <- !app_assoc).
    apply app_inj_tail in Heq as [-> _]. by eapply Hno.
Qed.

(** A frame goes up. *)
Lemma rest_up w F m :
  rest_ok c0 w -> frame_of F m -> (dc_auth_required c0 = true -> md_should_verify_auth m = true) ->
  (md_should_verify_auth m = true -> may_pass F m w) ->
  rest_ok c0 (w <| d_trace := d_trace w ++ [dl_up F] |>).
Proof.
  intros (Hc & Hj & (M & Hrep & Hknown) & Hups & Hno) (Hv & Hmax & Hm & _) Hauth Hpass.
  assert (up_frames (d_trace w ++ [dl_up F]) = up_frames (d_trace w) ++ [F]) as Htr
    by (unfold up_frames; by rewrite omap_app).
  assert (verified_id c0 F = if md_should_verify_auth m then Some (packet_id m) else None) as Hid
    by (unfold verified_id; by rewrite Hm).
  unfold rest_ok. cbn [d_ctx d_junk d_trace set_field]. change (d_trace (w <| d_trace := _ |>)) with (d_trace w ++ [dl_up F]).
  rewrite Htr. split; [done|]. split; [done|].
  destruct (md_should_verify_auth m) eqn:Hs.
  - destruct (Hpass eq_refl) as (Haut & (M' & Hrep' & Hknown' & Hnow) & Hrepeat). split.
    { exists M'. split; [done|]. intros G id [HG| ->%list_elem_of_singleton]%elem_of_app; [by apply Hknown'|].
      rewrite Hid. by intros [= <-]. }
    split.
    { apply Forall_app. split; [done|]. apply Forall_singleton. split; [done|]. split; [done|]. by exists m. }
    apply no_replay_snoc; [done|]. intros G id HG HGid. rewrite Hid. intros [= <-]. exists m. split; [done|].
    by apply (Hrepeat G).
  - split.
    { exists M. split; [done|]. intros G id [HG| ->%list_elem_of_singleton]%elem_of_app; [by apply Hknown|]. by rewrite Hid. }
    split.
    { apply Forall_app. split; [done|]. apply Forall_singleton. split; [done|]. split; [done|]. exists m. rewrite Hs. by split_and!. }
    apply no_replay_snoc; [done|]. intros G id HG HGid. by rewrite Hid.
Qed.

Lemma pass_up_wp w F m post :
  rest_ok c0 w -> frame_of F m -> (dc_auth_required c0 = true -> md_should_verify_auth m = true) ->
  (md_should_verify_auth m = true -> may_pass F m w) ->
  wp (pass_up (F ++ post) (zlen F)) (processed w) w.
Proof.
  intros Hw HF Hauth Hpass. unfold pass_up. dl_step. dl_step.
  destruct (dc_upper_layer _) as [iface|]; [|by apply wp_ret]. case_bool_decide; [by apply wp_ret|].
  dl_step. eapply wp_lift; [by apply rd_bytes_prefix|]. dl_step. split; [|done]. by eapply rest_up.
Qed.
Lemma may_pass_quiet F m w w' : quiet w w' -> may_pass F m w -> may_pass F m w'.
Proof. intros (_ & _ & Hw & Hu & _ & Ht). unfold may_pass. by rewrite Hw, Hu, Ht. Qed.
Lemma processed_trans {A B} w w1 w2 (a : A) (b : B) : processed w a w1 -> processed w1 b w2 -> processed w b w2.
Proof. intros [_ H1] [H2 H3]. split; [done|congruence]. Qed.

Lemma process_frame_wp w F post :
  rest_ok c0 w -> valid_frame size F -> bytes_ok post ->
  wp (xgl_datalink_process_frame (Ptr (F ++ post)) (zlen F)) (processed w) w.
Proof.
  intros Hw Hv Hpost. destruct silent_count_rx as (_ & Hrej & _). unfold xgl_datalink_process_frame. dl_step. dl_step. dl_step.
  pose proof Hw as (Hc & _). destruct (decode_valid _ _ post Hc Hv Hpost) as (err & m & Hdec & HF).
  eapply wp_lift; [exact Hdec|]. cbn beta iota. destruct (is_ok err) eqn:Herr; cbn [negb].
  2: { apply processed_quiet; [done|]. apply silent_bind; [apply silent_report|]. intros ?. apply silent_ret. }
  assert (err = XGL_OK) as -> by by destruct err. specialize (HF eq_refl).
  destruct (auth_impossible (d_ctx w) m) eqn:Himp.
  { apply processed_quiet; [done|]. apply silent_bind; [done|]. intros ?. apply silent_ret. }
  assert ((dc_auth_required c0 = true -> md_should_verify_auth m = true) /\
          (md_should_verify_auth m = true -> md_has_security_ext m = true)) as [Hauth Hsec].
  { destruct Hc as (Ha & _), HF as (_ & _ & _ & _ & _ & _ & _ & _ & _ & Hshould & _).
    unfold auth_impossible in Himp. rewrite Ha in Himp.
    destruct (dc_auth_required c0), (md_should_verify_auth m), (md_authenticated m), (md_has_security_ext m);
      cbn in Himp; try discriminate; split; intros; done || auto. }
  dl_step. eapply (wp_mono _ (fun ok w1 => processed w tt w1 /\
    (ok = true -> md_should_verify_auth m = true -> may_pass F m w1))).
  { destruct (md_should_verify_auth m) eqn:Hs; [|by apply wp_ret].
    eapply wp_mono; [apply (verify_frame_wp w F m post Hw HF); auto|]. intros ok w1 [H1 H2]. split; auto. }
  intros ok w1 [Hp1 Hpass]. destruct ok; cbn [negb].
  2: { eapply wp_mono; [apply (processed_quiet (_ ≫= _) w1); [apply Hp1|]|].
       - apply silent_bind; [done|]. intros ?. apply silent_ret.
       - intros a w2. by apply (processed_trans _ _ _ tt). }
  dl_step. eapply wp_mono; [apply silent_stats|]. intros [] w2 Hq. cbn beta in Hq. dl_step.
  eapply wp_mono; [apply (pass_up_wp w2 F m post); [|done|done|]|].
  - eapply quiet_rest; [exact Hq|apply Hp1].
  - intros Hs. eapply may_pass_quiet; [exact Hq|auto].
  - intros [] w3 Hp3. dl_step. eapply processed_trans; [exact Hp1|]. destruct Hp3 as [H3 H4]. split; [done|].
    rewrite H4. apply Hq.
Qed.

Lemma dl_ok_rest w : dl_ok c0 w -> rest_ok c0 w.
Proof. by intros [? _]. Qed.

Lemma receive_byte_wp w b now :
  dl_ok c0 w -> 0 <= b < 256 -> wp (receive_byte b now) (fun _ => dl_ok c0) w.
Proof.
  intros [Hw (part & Hinv)] Hb. pose proof Hw as ((_ & _ & _ & _ & _ & Hsize) & _).
  destruct (feed_step _ _ b now Hinv Hb) as (r & p' & Hrun & Hsz & Hres & _).
  assert (p_cache_size p' = size) as Hp by (rewrite Hsz; exact Hsize).
  unfold receive_byte. dl_step. dl_step. dl_step. eapply wp_lift; [exact Hrun|]. cbn beta iota. dl_step. dl_step.
  set (w1 := w <| d_ctx := (d_ctx w) <| dc_parser := p' |> |>).
  assert (rest_ok c0 w1) as Hw1 by by apply rest_parser.
  destruct r.
  - dl_step. split; [done|]. destruct Hres as [w' Hw']. by exists w'.
  - destruct Hres as (Hvalid & Hmem & Hst). rewrite Hsize in Hvalid.
    pose proof (valid_frame_min _ _ Hvalid) as Hmin.
    destruct (get_frame_complete _ _ Hmem Hst ltac:(lia)) as [Hget _]. rewrite Hget.
    pose proof Hmem as (_ & Hcok & Hlen & _ & (post & Hcache) & _). rewrite Hlen, Hcache.
    dl_step. dl_step. eapply wp_mono.
    { apply (process_frame_wp w1 _ post); [done|done|]. rewrite Hcache in Hcok. by apply Forall_app in Hcok as [_ ?]. }
    intros err w2 [Hw2 Hp2]. dl_step. dl_step. change (dc_parser (d_ctx w1)) with p' in Hp2. split.
    + apply rest_parser; [done|]. by rewrite Hp2.
    + exists []. cbn. rewrite Hp2. by eapply reset_inv.
  - eapply wp_mono; [apply silent_stats|]. intros [] w2 Hq. cbn beta in Hq. split; [by eapply quiet_rest|].
    exists []. destruct Hq as (-> & _). apply Hres.
Qed.
Lemma receive_loop_wp n : forall w i buffer now,
  dl_ok c0 w -> bytes_ok buffer -> 0 <= i -> i + Z.of_nat n <= zlen buffer ->
  wp (receive_loop n i buffer now) (fun _ => dl_ok c0) w.
Proof.
  induction n as [|n IH]; intros w i buffer now Hw Hb Hi Hn; cbn [receive_loop]; [by apply wp_ret|].
  destruct (rd_is_Some buffer i) as [b Hrd]; [lia|]. dl_step. eapply wp_lift; [exact Hrd|]. dl_step.
  eapply wp_mono; [apply receive_byte_wp; [done|by eapply bytes_ok_rd]|]. intros [] w1 Hw1.
  apply IH; [done|done|lia|lia].
Qed.

Lemma receive_timeout_wp w now timeout : dl_ok c0 w -> wp (receive_timeout now timeout) (fun _ => dl_ok c0) w.
Proof.
  intros [Hw (part & Hinv)]. unfold receive_timeout. dl_step. dl_step. case_if; [|apply wp_ret; split; [done|by exists part]].
  dl_step. dl_step. set (w1 := set_field _ _ _).
  assert (rest_ok c0 w1) as Hw1 by (apply rest_parser; [done|]; apply Hw).
  eapply wp_mono; [apply (silent_bind count_rx_error (fun _ => call_error XGL_ERR_TIMEOUT))|].
  - apply silent_count_rx.
  - intros ?. apply silent_error.
  - intros [] w2 Hq. cbn beta in Hq. split; [by eapply quiet_rest|]. exists []. destruct Hq as (-> & _).
    cbn. eapply reset_inv. apply Hinv.
Qed.

(** The driver keeps to its contract: at most as many bytes as the buffer has. *)
Definition rx_answer_ok (a : rx_answer) : Prop :=
  zlen (ra_data a) <= XGL_DATALINK_RX_CHUNK_SIZE /\ bytes_ok (ra_data a) /\
  0 <= ra_len a <= XGL_DATALINK_RX_CHUNK_SIZE.
Lemma datalink_receive_wp w phy now timeout :
  dl_ok c0 w -> Forall rx_answer_ok (d_rx w) ->
  wp (xgl_datalink_receive phy now timeout) (fun _ => dl_ok c0) w.
Proof.
  intros Hw Hrx. unfold xgl_datalink_receive. destruct phy as [phy|]; [|by apply wp_ret].
  case_bool_decide; [by apply wp_ret|]. dl_step.
  eapply wp_mono; [apply (wp_and _ (fun _ => dl_ok c0) (fun _ w' => d_rx w' = d_rx w)); [by apply receive_timeout_wp|]|].
  { unfold receive_timeout, count_rx_error, dl_stats, call_error. dl_step. dl_step. case_if; [|by apply wp_ret].
    repeat dl_step. by case_bool_decide. }
  intros [] w1 [Hw1 Hrx1]. dl_step. unfold phy_receive. dl_step. dl_step. dl_step. dl_step. dl_step. dl_step. dl_step.
  set (a := default no_data (head (d_rx w1))).
  assert (rx_answer_ok a) as (Hd & Hdok & Hl).
  { unfold a. rewrite Hrx1. destruct Hrx; [|done]. split; [done|]. split; [constructor|]. done. }
  destruct Hw1 as [Hrest Hpar]. pose proof Hrest as (_ & Hj & _).
  destruct (Hj XGL_DATALINK_RX_CHUNK_SIZE ltac:(done)) as [Hjl Hjok].
  change (d_junk w1 XGL_DATALINK_RX_CHUNK_SIZE) with (d_junk w1 128) in *. change XGL_DATALINK_RX_CHUNK_SIZE with 128 in *.
  destruct (wr_bytes (d_junk w1 128) 0 (ra_data a)) as [buffer|] eqn:Hwr.
  2: { rewrite wr_bytes_Some in Hwr by lia. done. }
  dl_step. apply wp_ret. cbn beta iota.
  assert (dl_ok c0 (w1 <| d_rx := tail (d_rx w1) |>)) as Hw2 by by split.
  destruct (is_ok (ra_error a)); cbn [negb]; [|apply wp_ret; exact Hw2]. case_if; [by apply wp_ret|]. dl_step.
  eapply wp_mono; [apply receive_loop_wp; [exact Hw2| |lia|]|].
  - eapply bytes_ok_wr_bytes; [exact Hwr|done|done].
  - rewrite (wr_bytes_zlen _ _ _ _ Hwr), Hjl. lia.
  - intros [] w3 Hw3. by apply wp_ret.
Qed.
End receive.
