(* ===== verification/DatalinkSend.v ===== *)
(** * The send path of the data link

    The send functions are defined on every frame, and transmit and count only. *)
From S2P Require Import Prelude State Errors Serialize Crc Layer Wire WireExt ExtWalk Frame FrameView Parser Security Datalink ReplayTable DatalinkInv.

(** ** The send functions only transmit *)

Definition auth_ok (c : xgl_datalink_ctx_t) : Prop :=
  dc_auth_required c = true -> forall p, dc_auth_provider c = Ptr p -> provider_sound p.

Lemma transmit_silent w phy frame buffer size :
  auth_ok (d_ctx w) -> frame_wf frame -> bytes_ok buffer -> size <= zlen buffer ->
  (exists n, datalink_auth_tag_len (d_ctx w) = (XGL_OK, n) /\
     size = xgl_frame_serialized_size (fr_payload_len frame) (fr_extensions_len frame) n) ->
  wp (serialize_and_transmit phy frame buffer size) (fun _ w' => quiet w w') w.
Proof.
  intros Hauth Hwf Hb Hs (n & Htag & Hsize). unfold serialize_and_transmit. dl_step. dl_step. dl_step.
  assert (serialized (if dc_auth_required (d_ctx w)
    then xgl_frame_serialize_authenticated buffer size frame (dc_auth_key_id (d_ctx w)) (dc_auth_provider (d_ctx w)) 0
    else xgl_frame_serialize buffer size frame 0)) as (err & len & b & Hrun & Hlen).
  { unfold datalink_auth_tag_len in Htag. destruct (dc_auth_required (d_ctx w)) eqn:Hreq; cbn [negb] in Htag.
    - destruct (dc_auth_provider (d_ctx w)) as [p|] eqn:Hp; [|done]. pose proof (Hauth Hreq p Hp) as Hsound.
      case_if_in Htag; [done|]. injection Htag as <-. apply serialize_auth_total; try done.
      rewrite Hsize. unfold xgl_frame_serialized_size, xgl_frame_auth_overhead.
      change XGL_SECURITY_EXT_SIZE with 15. change XGL_WIRE_BASE_HEADER_SIZE with 24. change XGL_CRC16_SIZE with 2.
      destruct Hsound as [? _]. replace (0 <? ap_tag_len p) with true by lia. lia.
    - injection Htag as <-. apply serialize_total; try done. by rewrite <- frame_size_plain. }
  eapply wp_lift; [exact Hrun|]. cbn beta iota. destruct silent_count_rx as (_ & _ & Htx).
  destruct (is_ok err) eqn:Herr; cbn [negb].
  - apply silent_counted, Hlen. by destruct err.
  - apply silent_bind; [done|]. intros ?. apply silent_bind; [apply silent_error|]. intros ?. apply silent_ret.
Qed.

Lemma wp_dl_malloc size Q w : (forall ok heap, Q ok (w <| d_heap := heap |>)) -> wp (dl_malloc size) Q w.
Proof. intros HQ. unfold wp, dl_malloc. destruct (alloc_answer size (d_heap w)) as [ok heap]. apply HQ. Qed.

Lemma datalink_send_silent w phy frame :
  auth_ok (d_ctx w) -> junk_ok (d_junk w) -> match frame with Ptr f => frame_wf f | NULL => True end ->
  wp (xgl_datalink_send phy frame) (fun _ w' => quiet w w') w.
Proof.
  intros Hauth Hj Hwf. destruct silent_count_rx as (_ & _ & Htx). unfold xgl_datalink_send.
  destruct phy as [phy|]; [|apply wp_ret, quiet_refl]. destruct frame as [frame|]; [|apply wp_ret, quiet_refl].
  case_bool_decide; [apply wp_ret, quiet_refl|]. dl_step. dl_step.
  destruct (datalink_auth_tag_len (d_ctx w)) as [err n] eqn:Htag.
  destruct (is_ok err) eqn:Herr; cbn [negb].
  2: { apply silent_bind; [done|]. intros ?. apply silent_ret. }
  assert (err = XGL_OK) as -> by by destruct err. cbv zeta.
  set (size := xgl_frame_serialized_size _ _ _).
  assert (0 <= size) as Hs0.
  { unfold size, xgl_frame_serialized_size, xgl_frame_auth_overhead. destruct Hwf as (He & Hp & _).
    change XGL_SECURITY_EXT_SIZE with 15. change XGL_WIRE_BASE_HEADER_SIZE with 24. change XGL_CRC16_SIZE with 2.
    pose proof (proj2 (view_points _ _ He)). pose proof (proj2 (view_points _ _ Hp)). destruct (Z.ltb_spec 0 n); lia. }
  destruct (Z.ltb_spec XGL_DATALINK_STACK_BUFFER_SIZE size).
  - dl_step. apply wp_dl_malloc. intros ok heap. assert (quiet w (w <| d_heap := heap |>)) as Hq by by split_and!.
    destruct ok; cbn [negb].
    + dl_step. dl_step. cbn [d_junk set_field]. destruct (Hj size Hs0) as [Hl Hb].
      eapply wp_mono; [apply transmit_silent; [exact Hauth|done|exact Hb|change (size <= zlen (d_junk w size)); lia|by exists n]|].
      intros ? w2. by apply quiet_trans.
    + eapply wp_mono; [apply (silent_bind datalink_count_tx_error)|]; [done|..].
      * intros ?. apply silent_bind; [apply silent_error|]. intros ?. apply silent_ret.
      * intros ? w2. by apply quiet_trans.
  - dl_step. dl_step. destruct (Hj XGL_DATALINK_STACK_BUFFER_SIZE ltac:(done)) as [Hl Hb].
    apply transmit_silent; [done|done|done|lia|by exists n].
Qed.
