(* ===== verification/DatalinkSafe.v ===== *)
(** * Every sequence of calls of the data link

    The layer between its drivers and the network layer: whatever the drivers
    deliver, it stays in its buffers and passes up only valid, authentic frames,
    no verified packet twice; and what one side sends the other side receives. *)
From S2P Require Import Prelude State Errors Serialize Crc Layer Wire WireExt ExtWalk Frame FrameView Parser Security Datalink ReplayTable DatalinkInv DatalinkSend.

(** ** Calls *)

(** The main loop polls a driver, which answers; the network layer sends a frame or
    forwards one that is already serialized. *)
Inductive datalink_call :=
| dlc_receive (phy : ptr xgl_phy_ops_t) (now timeout : Z) (answer : rx_answer)
| dlc_send (data : ptr xgl_frame_tx_message_t)
| dlc_send_raw (phy : ptr xgl_phy_ops_t) (buffer : ptr bytes) (len : Z).
Definition datalink_one (c : datalink_call) : D xgl_error_t :=
  match c with
  | dlc_receive phy now timeout a =>
      _ ← modify (fun w => w <| d_rx := [a] |>);
      xgl_datalink_receive phy now timeout
  | dlc_send data => datalink_send_impl data
  | dlc_send_raw phy buffer len => xgl_datalink_send_raw phy buffer len
  end.
Fixpoint datalink_calls (cs : list datalink_call) : D (list xgl_error_t) :=
  match cs with
  | [] => mret []
  | c :: cs => err ← datalink_one c; errs ← datalink_calls cs; mret (err :: errs)
  end.
Definition datalink_call_ok (c : datalink_call) : Prop :=
  match c with
  | dlc_receive _ _ _ a => rx_answer_ok a
  | dlc_send (Ptr d) => match ft_frame d with Ptr f => frame_wf f | NULL => True end
  | dlc_send NULL => True
  | dlc_send_raw _ (Ptr b) len => 0 <= len <= zlen b
  | dlc_send_raw _ NULL _ => True
  end.

Lemma dl_ok_quiet c0 w w' : quiet w w' -> dl_ok c0 w -> dl_ok c0 w'.
Proof. intros Hq [Hr Hp]. split; [by eapply quiet_rest|]. destruct Hq as (-> & _). exact Hp. Qed.
Lemma auth_ok_same c c' : same_config c c' -> auth_ok c -> auth_ok c'.
Proof. intros (H1 & _ & H3 & _) Hok. unfold auth_ok. by rewrite H1, H3. Qed.

Section calls.
  Context (c0 : xgl_datalink_ctx_t) (Hauth : auth_ok c0).

Lemma datalink_one_wp w c : dl_ok c0 w -> datalink_call_ok c -> wp (datalink_one c) (fun _ => dl_ok c0) w.
Proof.
  intros Hw Hc. destruct c as [phy now timeout a|data|phy buffer len]; cbn [datalink_one datalink_call_ok] in *.
  - dl_step. dl_step. apply datalink_receive_wp; [exact Hw|]. by apply Forall_singleton.
  - unfold datalink_send_impl. destruct data as [d|]; [|by apply wp_ret]. case_if; [by apply wp_ret|].
    eapply wp_mono; [apply datalink_send_silent; [|apply Hw|done]|].
    + eapply auth_ok_same; [apply Hw|done].
    + intros ? w' Hq. exact (dl_ok_quiet _ _ _ Hq Hw).
  - unfold xgl_datalink_send_raw. destruct phy as [phy|]; [|by apply wp_ret]. destruct buffer as [b|]; [|by apply wp_ret].
    case_if; [by apply wp_ret|]. eapply wp_mono; [by apply silent_counted|]. intros ? w' Hq. exact (dl_ok_quiet _ _ _ Hq Hw).
Qed.
Lemma datalink_calls_wp cs : forall w,
  dl_ok c0 w -> Forall datalink_call_ok cs ->
  wp (datalink_calls cs) (fun errs w' => length errs = length cs /\ dl_ok c0 w') w.
Proof.
  induction cs as [|c cs IH]; intros w Hw Hcs; cbn [datalink_calls]; [by apply wp_ret|].
  apply Forall_cons in Hcs as [Hc Hcs]. dl_step. eapply wp_mono; [by apply datalink_one_wp|]. intros err w1 Hw1.
  dl_step. eapply wp_mono; [by apply IH|]. intros errs w2 [Hl Hw2]. dl_step. split; [cbn; by rewrite Hl|done].
Qed.
End calls.

(** ** Initialisation *)

Definition datalink_config_ok (config : xgl_datalink_config_t) : Prop :=
  match dcf_rx_cache config with Ptr cache => dcf_rx_cache_size config <= zlen cache /\ bytes_ok cache | NULL => True end /\
  (dcf_auth_required config = true -> forall p, dcf_auth_provider config = Ptr p -> provider_sound p).
Lemma datalink_init_ok old config c heap tx junk :
  xgl_datalink_init (Ptr old) (Ptr config) = (XGL_OK, Ptr c) -> datalink_config_ok config -> junk_ok junk ->
  dl_ok c (mk_dl_world c heap tx [] junk []) /\ auth_ok c /\
  p_cache_size (dc_parser c) = dcf_rx_cache_size config.
Proof.
  intros Hinit (Hcache & Hauth) Hj. unfold xgl_datalink_init in Hinit. case_if_in Hinit; [done|].
  destruct (xgl_parser_init zero_parser _ _) as [err p] eqn:Hp. injection Hinit as -> <-.
  unfold xgl_parser_init in Hp. destruct (dcf_rx_cache config) as [cache|]; [|done].
  destruct (dcf_rx_cache_size config <? XGL_FRAME_HEADER_SIZE + XGL_CRC16_SIZE) eqn:Hsz; [done|]. injection Hp as <-.
  change (XGL_FRAME_HEADER_SIZE + XGL_CRC16_SIZE) with 26 in Hsz. destruct Hcache as [Hcl Hcb].
  destruct (parser_init_inv zero_parser cache (dcf_rx_cache_size config)) as (p & Hp & Hinv & _ & Hps); [lia|done|].
  unfold xgl_parser_init in Hp. change (XGL_FRAME_HEADER_SIZE + XGL_CRC16_SIZE) with 26 in Hp.
  rewrite Hsz in Hp. injection Hp as <-.
  split; [|split; [exact Hauth|done]]. split; [|by exists []].
  split; [by repeat split|]. split; [done|]. split.
  { exists ∅. split; [apply empty_table|]. by intros ? ? ?%elem_of_nil. }
  split; [constructor|]. intros [|] ? ? ? ? ?; discriminate.
Qed.

(** C7. The data link layer is safe.  After an initialisation that succeeds,
    every sequence of calls - polls of drivers that keep to the length of the
    buffer, at any times and with any bytes, frames to send and to forward, with
    any failures of the allocator and the drivers - is defined: no access
    outside a buffer, no endless loop.  Every frame that reaches the network layer is
    well formed, has matching CRCs and is at most 2048 bytes long; when
    authentication is required, and whenever a frame claims to be
    authenticated, the provider has accepted its tag, under the configured key
    if authentication is required; and no verified packet (source, connection,
    epoch, number) reaches the network layer twice, except that one which asks for an ACK may
    do so again. *)
Theorem datalink_safe old config c heap tx junk cs :
  xgl_datalink_init (Ptr old) (Ptr config) = (XGL_OK, Ptr c) -> datalink_config_ok config -> junk_ok junk ->
  Forall datalink_call_ok cs ->
  exists errs w, datalink_calls cs (mk_dl_world c heap tx [] junk []) = Some (errs, w) /\
    length errs = length cs /\
    Forall (up_ok (dcf_rx_cache_size config) c) (up_frames (d_trace w)) /\
    no_replay c (up_frames (d_trace w)).
Proof.
  intros Hinit Hcfg Hj Hcs. destruct (datalink_init_ok _ _ _ heap tx _ Hinit Hcfg Hj) as (Hok & Hauth & <-).
  pose proof (datalink_calls_wp c Hauth cs _ Hok Hcs) as Hrun. apply wp_run in Hrun as (errs & w & Hrun & Hl & Hw & _).
  exists errs, w. split; [done|]. split; [done|]. by destruct Hw as (_ & _ & _ & Hups & Hno).
Qed.

(** A node with authentication: it is polled twice, gets the same signed frame
    each time, and sends one itself. *)
Definition sample_phy : xgl_phy_ops_t := mk_phy (Ptr 1) (Ptr 2) 0.
Definition sample_frame : xgl_frame_t :=
  mk_frame (mk_wire_header 2 24 1 0 8 0 1 2 7 42 3 0) NULL 0 (Ptr [1; 2; 3]) 3 0.
Definition sample_datalink_config : xgl_datalink_config_t :=
  mk_datalink_config (Ptr (replicate 64 0)) 64 2 (Ptr zero_layer_stats) (Ptr 0) (Ptr 0)
    (Ptr (mk_layer NULL (Ptr 3) NULL)) NULL true 77 (Ptr xor_provider).
Definition sample_datalink : xgl_datalink_ctx_t :=
  match (xgl_datalink_init (Ptr (mk_datalink zero_parser NULL NULL NULL NULL 0 false 0 NULL [] [] NULL))
           (Ptr sample_datalink_config)).2 with
  | Ptr c => c
  | NULL => mk_datalink zero_parser NULL NULL NULL NULL 0 false 0 NULL [] [] NULL
  end.
Definition sample_signed : bytes :=
  match xgl_frame_serialize_authenticated (replicate 45 0) 45 sample_frame 77 (Ptr xor_provider) 0 with
  | Some (_, _, b) => b
  | None => []
  end.
Definition sample_junk (n : Z) : bytes := replicate (Z.to_nat n) 170.
Definition sample_datalink_calls : list datalink_call :=
  [dlc_receive (Ptr sample_phy) 10 100 (mk_rx_answer XGL_OK sample_signed 45);
   dlc_receive (Ptr sample_phy) 20 100 (mk_rx_answer XGL_OK sample_signed 45);
   dlc_send (Ptr (mk_frame_tx (Ptr sample_frame) (Ptr sample_phy)))].
Lemma sample_junk_ok : junk_ok sample_junk.
Proof.
  intros n Hn. unfold sample_junk. split; [unfold zlen; rewrite length_replicate; lia|]. apply Forall_replicate. lia.
Qed.
Lemma forallb_bytes_ok (l : bytes) : forallb is_u8 l = true -> bytes_ok l.
Proof.
  intros Hl. apply Forall_forall. intros b Hb%list_elem_of_In. apply is_u8_spec. revert b Hb. by apply forallb_forall.
Qed.
Lemma sample_signed_ok : zlen sample_signed = 45 /\ bytes_ok sample_signed.
Proof. split; [vm_compute; reflexivity|]. apply forallb_bytes_ok. vm_compute. reflexivity. Qed.
Lemma datalink_safe_witness :
  exists errs w,
    datalink_calls sample_datalink_calls (mk_dl_world sample_datalink [] [] [] sample_junk []) = Some (errs, w) /\
    length errs = 3%nat /\ Forall (up_ok 64 sample_datalink) (up_frames (d_trace w)) /\
    no_replay sample_datalink (up_frames (d_trace w)).
Proof.
  apply (datalink_safe (mk_datalink zero_parser NULL NULL NULL NULL 0 false 0 NULL [] [] NULL)
    sample_datalink_config sample_datalink [] [] sample_junk sample_datalink_calls).
  - vm_compute. reflexivity.
  - split; [split; [vm_compute; discriminate|apply forallb_bytes_ok; vm_compute; reflexivity]|].
    intros _ p [= <-]. exact xor_provider_sound.
  - exact sample_junk_ok.
  - assert (rx_answer_ok (mk_rx_answer XGL_OK sample_signed 45)) as Ha.
    { destruct sample_signed_ok as [Hl Hb]. split; [cbn [ra_data]; rewrite Hl; unfold XGL_DATALINK_RX_CHUNK_SIZE; lia|].
      split; [exact Hb|]. cbn. unfold XGL_DATALINK_RX_CHUNK_SIZE. lia. }
    constructor; [exact Ha|]. constructor; [exact Ha|]. constructor; [|constructor].
    split; [reflexivity|]. split; [|reflexivity]. cbn. split; [split; [discriminate|discriminate]|].
    repeat (constructor; [lia|]). constructor.
Defined.
(** Of the two copies one goes up, and one frame is sent. *)
Example sample_run :
  (fun '(errs, w) => (errs, d_trace w)) <$>
    datalink_calls sample_datalink_calls (mk_dl_world sample_datalink [] [] [] sample_junk []) =
  Some ([XGL_OK; XGL_OK; XGL_OK], [dl_up sample_signed; dl_tx sample_phy sample_signed]).
Proof. vm_compute. reflexivity. Qed.
