(* ===== verification/DatalinkStream.v ===== *)
(** * The data link as a filter of frames

    On a stream of frames and noise, cut into polls in any way, the layer passes up
    exactly the frames that a filter with a memory lets through: the valid ones,
    authentic where they must be, and new. *)
From S2P Require Import Prelude State Errors Serialize Crc Layer Wire WireExt ExtWalk Frame FrameView Parser Security Datalink ReplayTable DatalinkInv DatalinkSend DatalinkSafe.

(** ** The filter *)

Definition tag_accepted (c : xgl_datalink_ctx_t) (F : bytes) (m : xgl_datalink_rx_metadata_t) : bool :=
  match xgl_wire_verify_auth_trailer F (zlen F - XGL_CRC16_SIZE) (wh_header_len (md_header m))
          (md_payload_len m) (md_auth_key_id m) (dc_auth_provider c) false with
  | Some (XGL_OK, v) => v
  | _ => false
  end.
Definition frame_filter (c : xgl_datalink_ctx_t) (M : replay_memory) (F : bytes) : bool * replay_memory :=
  match rx_meta c F with
  | None => (false, M)
  | Some m =>
      if auth_impossible c m then (false, M)
      else if negb (md_should_verify_auth m) then (true, M)
      else if negb (tag_accepted c F m) then (false, M)
      else
        let '(r, M) := memory_check M (packet_id m).1 (packet_id m).2 in
        (match r with
         | XGL_REPLAY_REJECT => false
         | XGL_REPLAY_ACCEPT_DUPLICATE => datalink_is_ack_eliciting (md_header m)
         | XGL_REPLAY_ACCEPT_NEW => true
         end, M)
  end.
Fixpoint filter_frames (c : xgl_datalink_ctx_t) (M : replay_memory) (Fs : list bytes) : list bytes * replay_memory :=
  match Fs with
  | [] => ([], M)
  | F :: Fs =>
      let '(ok, M) := frame_filter c M F in
      let '(out, M) := filter_frames c M Fs in
      ((if ok then F :: out else out), M)
  end.
Lemma filter_frames_app c Fs1 : forall M Fs2,
  filter_frames c M (Fs1 ++ Fs2) =
    let '(out1, M) := filter_frames c M Fs1 in
    let '(out2, M) := filter_frames c M Fs2 in (out1 ++ out2, M).
Proof.
  induction Fs1 as [|F Fs1 IH]; intros M Fs2; cbn [app filter_frames]; [by destruct (filter_frames c M Fs2)|].
  destruct (frame_filter c M F) as [ok M1]. rewrite IH. destruct (filter_frames c M1 Fs1) as [o1 M2].
  destruct (filter_frames c M2 Fs2) as [o2 M3]. by destruct ok.
Qed.

(** ** When the parser times out *)

(** The parser is idle, or as old as [p], or as the time [now]. *)
Definition stamped (now : Z) (p p' : xgl_parser_t) : Prop :=
  p_state p' = XGL_PARSE_MAGIC \/ p_timestamp p' = now \/
  p_state p <> XGL_PARSE_MAGIC /\ p_timestamp p' = p_timestamp p.
Lemma validate_loop_timestamp fuel : forall c p err p' b,
  validate_ext_loop fuel c p = Some (err, p', b) ->
  if b then p_state p' = XGL_PARSE_MAGIC else p_timestamp p' = p_timestamp p.
Proof.
  induction fuel as [|fuel IH]; intros c p err p' b Hrun; [done|]. cbn [validate_ext_loop] in Hrun.
  apply bind_Some in Hrun as ([[e ext] c'] & _ & Hrun). case_if_in Hrun; [by injection Hrun as <- <- <-|].
  case_if_in Hrun; [|by eapply IH]. apply bind_Some in Hrun as (v & _ & Hrun).
  apply bind_Some in Hrun as ([derr out] & _ & Hrun). case_if_in Hrun; [by injection Hrun as <- <- <-|].
  apply IH in Hrun. exact Hrun.
Qed.
Lemma validate_timestamp p r p' :
  xgl_parser_validate_header_extensions p = Some (r, p') ->
  match r with XGL_PARSE_RESULT_ERROR => p_state p' = XGL_PARSE_MAGIC | _ => p_timestamp p' = p_timestamp p end.
Proof.
  unfold xgl_parser_validate_header_extensions. intros Hrun.
  case_if_in Hrun; [by injection Hrun as <- <-|]. apply bind_Some in Hrun as ([e h] & _ & Hrun).
  case_if_in Hrun; [by injection Hrun as <- <-|].
  destruct (xgl_wire_ext_cursor_init _ _ _) as [e2 c]. case_if_in Hrun; [by injection Hrun as <- <-|].
  apply bind_Some in Hrun as ([[err p1] b] & Hloop & Hrun). apply validate_loop_timestamp in Hloop.
  destruct b; [by injection Hrun as <- <-|]. repeat case_if_in Hrun; by injection Hrun as <- <-.
Qed.
Lemma header_timestamp p r p' :
  header_complete p = Some (r, p') -> p_state p' = XGL_PARSE_MAGIC \/ p_timestamp p' = p_timestamp p.
Proof.
  unfold header_complete. intros Hrun. apply bind_Some in Hrun as ([err h] & _ & Hrun).
  case_if_in Hrun; [injection Hrun as <- <-; by left|]. case_if_in Hrun; [injection Hrun as <- <-; by right|].
  apply bind_Some in Hrun as ([er p1] & Hval & Hrun). apply validate_timestamp in Hval.
  destruct er; repeat case_if_in Hrun; injection Hrun as <- <-; by (left + right).
Qed.
Lemma feed_stamped p b now r p' : xgl_parser_feed_byte p b now = Some (r, p') -> stamped now p p'.
Proof.
  unfold xgl_parser_feed_byte, stamped. intros Hrun.
  case_if_in Hrun; [injection Hrun as <- <-; by left|].
  assert (forall q, push_byte p b = Some q -> p_timestamp q = p_timestamp p) as Hpush.
  { intros q Hq. unfold push_byte in Hq. apply bind_Some in Hq as (c & _ & [= <-]). done. }
  destruct (p_state p) eqn:Hst.
  - case_if_in Hrun; [|injection Hrun as <- <-; by left]. apply bind_Some in Hrun as (c & _ & [= <- <-]). right. by left.
  - apply bind_Some in Hrun as (q & Hq%Hpush & Hrun). apply bind_Some in Hrun as (snd & _ & Hrun).
    case_if_in Hrun.
    + case_if_in Hrun; [|injection Hrun as <- <-; by left]. apply bind_Some in Hrun as (c & _ & [= <- <-]).
      right. right. by split.
    + case_if_in Hrun; [|injection Hrun as <- <-; right; by right].
      apply header_timestamp in Hrun as [?|Hs]; [by left|]. right. right. split; [done|]. congruence.
  - apply bind_Some in Hrun as (q & Hq%Hpush & Hrun). case_if_in Hrun; injection Hrun as <- <-; right; by right.
  - apply bind_Some in Hrun as (q & Hq%Hpush & Hrun). case_if_in Hrun; [|injection Hrun as <- <-; right; by right].
    apply bind_Some in Hrun as (c1 & _ & Hrun). apply bind_Some in Hrun as (c2 & _ & Hrun).
    case_if_in Hrun; injection Hrun as <- <-; [by left|right; by right].
Qed.
Lemma stamped_refl now p : stamped now p p.
Proof. unfold stamped. destruct (p_state p); eauto. Qed.
Lemma stamped_trans now p1 p2 p3 : stamped now p1 p2 -> stamped now p2 p3 -> stamped now p1 p3.
Proof. unfold stamped. intuition congruence. Qed.
Lemma run_stamped now data : forall p Fs p',
  parser_run p (map (fun b => (b, now)) data) = Some (Fs, p') -> stamped now p p'.
Proof.
  induction data as [|b data IH]; intros p Fs p' Hrun; cbn [map parser_run] in Hrun.
  { injection Hrun as <- <-. apply stamped_refl. }
  apply bind_Some in Hrun as ([r p1] & Hfeed%feed_stamped & Hrun).
  destruct r; [by eapply stamped_trans, IH| |by eapply stamped_trans, IH].
  destruct (xgl_parser_get_frame p1) as [[] [[buffer len]|]]; try done.
  apply bind_Some in Hrun as (F & _ & Hrun). apply bind_Some in Hrun as ([Fs1 p2] & Hrun & [= <- <-]).
  apply IH in Hrun. eapply stamped_trans; [|exact Hrun]. by left.
Qed.

(** ** One frame *)

Lemma canonical_aad_prefix F post n : 0 <= n <= zlen F -> n <= 255 ->
  exists pr1 pr2,
    wire_auth_canonical_aad F n (replicate 255 0) UINT8_MAX = Some (XGL_OK, pr1) /\
    wire_auth_canonical_aad (F ++ post) n (replicate 255 0) UINT8_MAX = Some (XGL_OK, pr2) /\
    rd_bytes pr1 0 n = rd_bytes pr2 0 n.
Proof.
  intros Hn H255. pose proof (zlen_nonneg post).
  pose proof (canonical_aad_spec F n Hn) as H1. pose proof (canonical_aad_spec (F ++ post) n) as H2.
  specialize (H2 ltac:(rewrite zlen_app; lia)). replace (255 <? n) with false in H1, H2 by lia.
  rewrite andb_false_r in H1, H2. destruct H1 as (pr1 & H1 & R1), H2 as (pr2 & H2 & R2).
  exists pr1, pr2. split_and!; [done..|]. by rewrite R1, R2, take_prefix by lia.
Qed.
Lemma verify_prefix F post n aad pl key p v :
  0 <= aad <= 255 -> 0 <= pl -> n <= zlen F ->
  xgl_wire_verify_auth_trailer (F ++ post) n aad pl key p v = xgl_wire_verify_auth_trailer F n aad pl key p v.
Proof.
  intros Haad Hpl Hn. unfold xgl_wire_verify_auth_trailer. destruct p as [p|]; [|done].
  destruct (ap_verify p); [|done]. case_if; [done|]. destruct (Z.leb_spec n (aad + pl)); [done|].
  destruct (negb _); [done|]. pose proof (zlen_nonneg post).
  destruct (canonical_aad_prefix F post aad) as (pr1 & pr2 & -> & -> & Hrd); [lia..|].
  cbn [mbind option_bind is_ok negb]. rewrite Hrd. destruct (rd_bytes pr2 0 aad); [|done]. cbn [mbind option_bind].
  by rewrite !rd_bytes_Some, !slice_prefix by (rewrite ?zlen_app; lia).
Qed.

Section stream.
  Context (c0 : xgl_datalink_ctx_t) (iface : xgl_layer_interface_t).
  Context (Hup : dc_upper_layer c0 = Ptr iface) (Hrecv : li_receive iface <> NULL).
Let size := p_cache_size (dc_parser c0).

(** The world, with the memory that its windows hold and the frames passed up. *)
Definition holds (M : replay_memory) (ups : list bytes) (w : dl_world) : Prop :=
  same_config c0 (d_ctx w) /\ junk_ok (d_junk w) /\
  table_rep (dc_replay_windows (d_ctx w)) (dc_replay_window_used (d_ctx w)) M /\ up_frames (d_trace w) = ups.
Lemma holds_quiet M ups w w' : quiet w w' -> holds M ups w -> holds M ups w'.
Proof.
  intros (_ & Hc & Hw & Hu & Hj & Ht) (H1 & H2 & H3 & H4). unfold holds. rewrite Hw, Hu, Hj, Ht.
  split; [by eapply same_config_trans|done].
Qed.
Lemma tag_accepted_ctx c F m : same_config c0 c -> tag_accepted c F m = tag_accepted c0 F m.
Proof. intros (_ & _ & Hp & _). unfold tag_accepted. by rewrite Hp. Qed.
Lemma auth_impossible_ctx c m : same_config c0 c -> auth_impossible c m = auth_impossible c0 m.
Proof. intros (Ha & _ & Hp & _). unfold auth_impossible. by rewrite Ha, Hp. Qed.

Lemma verify_frame_holds M ups w F m post :
  holds M ups w -> frame_of c0 F m ->
  let '(ok, M') := (if negb (tag_accepted c0 F m) then (false, M)
                    else let '(r, M) := memory_check M (packet_id m).1 (packet_id m).2 in
                         (match r with
                          | XGL_REPLAY_REJECT => false
                          | XGL_REPLAY_ACCEPT_DUPLICATE => datalink_is_ack_eliciting (md_header m)
                          | XGL_REPLAY_ACCEPT_NEW => true
                          end, M)) in
  wp (verify_frame m (F ++ post) (zlen F))
    (fun b w' => b = ok /\ holds M' ups w' /\ dc_parser (d_ctx w') = dc_parser (d_ctx w)) w.
Proof.
  intros Hw (Hv & _ & Hm & Hsrc & Hpn & Hpl & Hhl & (Hpl0 & Htl0) & HFl & _).
  pose proof Hw as (Hc & Hj & Hrep & Hups). rewrite <- (tag_accepted_ctx (d_ctx w)) by done. unfold tag_accepted.
  destruct (verify_total F (zlen F - XGL_CRC16_SIZE) (wh_header_len (md_header m)) (md_payload_len m)
    (md_auth_key_id m) (dc_auth_provider (d_ctx w))) as (err & v & Hver & _);
    [lia|lia|unfold XGL_CRC16_SIZE; lia|].
  rewrite Hver. unfold verify_frame.
  destruct (match err with XGL_OK => v | _ => false end) eqn:Hacc; cbn [negb].
  - destruct (memory_check M _ _) as [r M'] eqn:HM. dl_step. dl_step. dl_step. eapply wp_lift.
    { rewrite verify_prefix by (unfold XGL_CRC16_SIZE; lia). exact Hver. }
    cbn beta iota. destruct err; try discriminate. subst v. cbn [is_ok negb orb].
    destruct (check_replay_refines _ _ M (wh_source_id (md_header m)) (wh_connection_id (md_header m))
      (md_session_epoch m) (wh_packet_number (md_header m)) Hrep Hsrc Hpn) as (ws & used & Hcheck & Hrep').
    change ((wh_source_id (md_header m), wh_connection_id (md_header m), md_session_epoch m)) with (packet_id m).1 in Hcheck, Hrep'.
    change (wh_packet_number (md_header m)) with (packet_id m).2 in Hcheck, Hrep'. rewrite HM in Hcheck, Hrep'.
    dl_step. eapply wp_lift; [exact Hcheck|]. cbn beta iota. dl_step. dl_step. dl_step.
    split; [done|]. split; [|done]. split; [exact Hc|]. by split_and!.
  - dl_step. dl_step. dl_step. eapply wp_lift.
    { rewrite verify_prefix by (unfold XGL_CRC16_SIZE; lia). exact Hver. }
    cbn beta iota. assert (negb (is_ok err) || negb v = true) as -> by (destruct err, v; done). by dl_step.
Qed.

Lemma decode_prefix auth key F post : valid_frame size F -> bytes_ok post ->
  xgl_datalink_decode_rx_metadata (F ++ post) (zlen F) auth key = xgl_datalink_decode_rx_metadata F (zlen F) auth key.
Proof.
  intros [(h & l & tag & body & Hp) _]%valid_frame_parts Hpost. rewrite (decode_frame _ _ _ _ _ _ _ _ Hp Hpost).
  pose proof (decode_frame auth key _ _ _ _ _ [] Hp ltac:(done)) as H0. by rewrite app_nil_r in H0.
Qed.
Lemma decode_rx_meta c F post : same_config c0 c -> valid_frame size F -> bytes_ok post ->
  exists err m, xgl_datalink_decode_rx_metadata (F ++ post) (zlen F) (dc_auth_required c) (dc_auth_key_id c) =
      Some (err, m) /\
    match rx_meta c0 F with Some m' => err = XGL_OK /\ m' = m /\ frame_of c0 F m | None => is_ok err = false end.
Proof.
  intros Hc Hv Hpost. destruct (decode_valid c0 c F post Hc Hv Hpost) as (err & m & Hd & HF).
  exists err, m. split; [done|]. rewrite decode_prefix in Hd by done. destruct Hc as (Ha & Hk & _). rewrite Ha, Hk in Hd.
  unfold rx_meta. rewrite Hd. destruct err; try done. split; [done|]. split; [done|]. by apply HF.
Qed.

Lemma pass_up_holds M ups w F post : holds M ups w ->
  wp (pass_up (F ++ post) (zlen F))
    (fun _ w' => holds M (ups ++ [F]) w' /\ dc_parser (d_ctx w') = dc_parser (d_ctx w)) w.
Proof.
  intros (Hc & Hj & Hrep & Hu). pose proof Hc as (_ & _ & _ & Hul & _). unfold pass_up. dl_step. dl_step.
  rewrite Hul, Hup. rewrite bool_decide_eq_false_2 by done. dl_step. eapply wp_lift; [by apply rd_bytes_prefix|].
  dl_step. split; [|done]. split; [exact Hc|]. split; [done|]. split; [done|].
  cbn. unfold up_frames in *. by rewrite omap_app, Hu.
Qed.

Lemma process_frame_holds M ups w F post :
  holds M ups w -> valid_frame size F -> bytes_ok post ->
  let '(ok, M') := frame_filter c0 M F in
  wp (xgl_datalink_process_frame (Ptr (F ++ post)) (zlen F))
    (fun _ w' => holds M' (if ok then ups ++ [F] else ups) w' /\ dc_parser (d_ctx w') = dc_parser (d_ctx w)) w.
Proof.
  intros Hw Hv Hpost. pose proof Hw as (Hc & _). destruct silent_count_rx as (_ & Hrej & _).
  assert (forall (m : D xgl_error_t) w1, silent m -> holds M ups w1 ->
    wp m (fun _ w' => holds M ups w' /\ dc_parser (d_ctx w') = dc_parser (d_ctx w1)) w1) as Hquiet.
  { intros m w1 Hm Hw1. eapply wp_mono; [apply Hm|]. intros ? w' Hq. split; [exact (holds_quiet _ _ _ _ Hq Hw1)|apply Hq]. }
  destruct (decode_rx_meta _ _ post Hc Hv Hpost) as (err & m & Hdec & Hmeta).
  unfold frame_filter, xgl_datalink_process_frame. destruct (rx_meta c0 F) as [m'|] eqn:Hrx.
  2: { dl_step. dl_step. dl_step. eapply wp_lift; [exact Hdec|]. cbn beta iota. rewrite Hmeta. cbn [negb].
       apply Hquiet; [|done]. apply silent_bind; [apply silent_report|]. intros ?. apply silent_ret. }
  destruct Hmeta as (-> & -> & HF).
  assert (silent (_ ← count_rx_rejected; mret XGL_ERR_INVALID_FRAME)) as Hreject
    by (apply silent_bind; [done|]; intros ?; apply silent_ret).
  rewrite <- (auth_impossible_ctx (d_ctx w)) by done.
  destruct (auth_impossible (d_ctx w) m) eqn:Himp.
  { dl_step. dl_step. dl_step. eapply wp_lift; [exact Hdec|]. cbn beta iota. cbn [is_ok negb]. rewrite Himp. by apply Hquiet. }
  pose proof (verify_frame_holds M ups w F m post Hw HF) as Hver.
  match goal with |- let '(_, _) := ?e in _ => set (out := e) end.
  assert (wp (if md_should_verify_auth m then verify_frame m (F ++ post) (zlen F) else mret true)
    (fun b w' => b = out.1 /\ holds out.2 ups w' /\ dc_parser (d_ctx w') = dc_parser (d_ctx w)) w) as Hver'.
  { unfold out. destruct (md_should_verify_auth m); cbn [negb]; [|by dl_step].
    by destruct (if negb (tag_accepted c0 F m) then _ else _) as [ok M']. }
  destruct out as [ok M']. cbn [fst snd] in Hver'.
  dl_step. dl_step. dl_step. eapply wp_lift; [exact Hdec|]. cbn beta iota. cbn [is_ok negb]. rewrite Himp.
  dl_step. eapply wp_mono; [exact Hver'|]. intros b w1 (-> & Hw1 & Hp1). destruct ok; cbn [negb].
  2: { eapply wp_mono; [apply Hreject|]. intros ? w2 Hq. split; [exact (holds_quiet _ _ _ _ Hq Hw1)|].
       rewrite <- Hp1. apply Hq. }
  dl_step. eapply wp_mono; [apply silent_stats|]. intros [] w2 Hq. dl_step.
  eapply wp_mono; [apply (pass_up_holds M' ups w2 F post), (holds_quiet _ _ _ _ Hq Hw1)|].
  intros [] w3 [Hw3 Hp3]. dl_step. split; [done|]. rewrite Hp3, <- Hp1. apply Hq.
Qed.

(** ** Bytes *)

Lemma parser_run_app i1 : forall p i2,
  parser_run p (i1 ++ i2) =
    ('(f1, p) ← parser_run p i1; '(f2, p) ← parser_run p i2; ret (f1 ++ f2, p)).
Proof.
  induction i1 as [|[b now] i1 IH]; intros p i2; cbn [app parser_run mbind option_bind].
  { by destruct (parser_run p i2) as [[]|]. }
  destruct (xgl_parser_feed_byte p b now) as [[[] p1]|]; cbn [mbind option_bind]; [apply IH| |apply IH|done].
  destruct (xgl_parser_get_frame p1) as [[] [[buffer len]|]]; try done.
  destruct (rd_bytes buffer 0 len) as [F|]; [|done]. cbn [mbind option_bind]. rewrite IH.
  destruct (parser_run (xgl_parser_reset p1) i1) as [[f1 p2]|]; [|done]. cbn [mbind option_bind].
  by destruct (parser_run p2 i2) as [[]|].
Qed.

(** The frames went through the filter, the parser is [p]. *)
Definition filtered (M : replay_memory) (ups Fs : list bytes) (p : xgl_parser_t) (w : dl_world) : Prop :=
  holds (filter_frames c0 M Fs).2 (ups ++ (filter_frames c0 M Fs).1) w /\ dc_parser (d_ctx w) = p.
Lemma filtered_nil M ups w : holds M ups w -> filtered M ups [] (dc_parser (d_ctx w)) w.
Proof. intros. split; [|done]. cbn. by rewrite app_nil_r. Qed.
Lemma filtered_app M ups Fs1 Fs2 p w :
  filtered (filter_frames c0 M Fs1).2 (ups ++ (filter_frames c0 M Fs1).1) Fs2 p w ->
  filtered M ups (Fs1 ++ Fs2) p w.
Proof.
  unfold filtered. rewrite filter_frames_app. destruct (filter_frames c0 M Fs1) as [o1 M1]. cbn [fst snd].
  destruct (filter_frames c0 M1 Fs2) as [o2 M2]. cbn [fst snd]. by rewrite app_assoc.
Qed.
Lemma holds_parser M ups w p :
  holds M ups w -> p_cache_size p = size -> holds M ups (w <| d_ctx := (d_ctx w) <| dc_parser := p |> |>).
Proof. intros ((H1 & H2 & H3 & H4 & H5 & _) & Hrest) Hp. split; [|exact Hrest]. do 5 (split; [assumption|]). exact Hp. Qed.

Lemma receive_byte_filters M ups w part b now Fs p' :
  holds M ups w -> parser_inv (dc_parser (d_ctx w)) part -> 0 <= b < 256 ->
  parser_run (dc_parser (d_ctx w)) [(b, now)] = Some (Fs, p') ->
  wp (receive_byte b now) (fun _ w' => filtered M ups Fs p' w') w.
Proof.
  intros Hw Hinv Hb Hrun. pose proof Hw as ((_ & _ & _ & _ & _ & Hsize) & _).
  destruct (feed_step _ _ b now Hinv Hb) as (r & p1 & Hfeed & Hsz & Hres & _).
  assert (p_cache_size p1 = size) as Hp1 by (rewrite Hsz; exact Hsize).
  cbn [parser_run] in Hrun. rewrite Hfeed in Hrun. cbn [mbind option_bind] in Hrun.
  unfold receive_byte. dl_step. dl_step. dl_step. eapply wp_lift; [exact Hfeed|]. cbn beta iota. dl_step. dl_step.
  set (w1 := w <| d_ctx := (d_ctx w) <| dc_parser := p1 |> |>).
  assert (holds M ups w1) as Hw1 by by apply holds_parser.
  destruct r; [injection Hrun as <- <-| |injection Hrun as <- <-].
  - dl_step. by apply (filtered_nil M ups w1).
  - destruct Hres as (Hvalid & Hmem & Hst). rewrite Hsize in Hvalid. pose proof (valid_frame_min _ _ Hvalid) as Hmin.
    destruct (get_frame_complete _ _ Hmem Hst ltac:(lia)) as [Hget Hrd]. rewrite Hget in Hrun |- *.
    rewrite Hrd in Hrun. cbn [mbind option_bind] in Hrun. injection Hrun as <- <-.
    pose proof Hmem as (_ & Hcok & Hlen & _ & (post & Hcache) & _). rewrite Hlen, Hcache.
    set (F := part ++ [b]) in *. rewrite Hcache in Hcok. apply Forall_app in Hcok as [_ Hpost].
    pose proof (process_frame_holds M ups w1 F post Hw1 Hvalid Hpost) as Hproc.
    dl_step. dl_step. unfold filtered. cbn [filter_frames]. destruct (frame_filter c0 M F) as [ok M']. cbn [fst snd].
    eapply wp_mono; [exact Hproc|]. intros err w2 [Hw2 Hp2]. dl_step. dl_step.
    change (dc_parser (d_ctx w1)) with p1 in Hp2. split.
    + destruct ok; rewrite ?app_nil_r; apply holds_parser; try done; by rewrite Hp2.
    + cbn. by rewrite Hp2.
  - eapply wp_mono; [apply silent_stats|]. intros [] w2 Hq. split; [|apply Hq].
    cbn. rewrite app_nil_r. exact (holds_quiet _ _ _ _ Hq Hw1).
Qed.

(** Bytes that are read at one time. *)
Definition at_time (now : Z) (data : bytes) : list (Z * Z) := map (fun b => (b, now)) data.
Lemma at_time_ok now data : bytes_ok data -> Forall (fun x => 0 <= x.1 < 256) (at_time now data).
Proof. intros. unfold at_time. by apply Forall_map. Qed.

Lemma receive_loop_filters n : forall M ups w part i buffer now Fs p',
  holds M ups w -> parser_inv (dc_parser (d_ctx w)) part -> bytes_ok buffer -> 0 <= i ->
  i + Z.of_nat n <= zlen buffer ->
  parser_run (dc_parser (d_ctx w)) (at_time now (take n (drop (Z.to_nat i) buffer))) = Some (Fs, p') ->
  wp (receive_loop n i buffer now) (fun _ w' => filtered M ups Fs p' w') w.
Proof.
  induction n as [|n IH]; intros M ups w part i buffer now Fs p' Hw Hinv Hb Hi Hn Hrun; cbn [receive_loop].
  { injection Hrun as <- <-. dl_step. by apply filtered_nil. }
  destruct (rd_is_Some buffer i) as [b Hrd]; [lia|]. pose proof (bytes_ok_rd _ _ _ Hrd Hb) as Hbyte.
  rewrite rd_lookup in Hrd by done. rewrite (drop_S _ _ _ Hrd) in Hrun. cbn [take] in Hrun.
  change (at_time now (b :: ?x)) with ([(b, now)] ++ at_time now x) in Hrun.
  replace (S (Z.to_nat i)) with (Z.to_nat (i + 1)) in Hrun by lia.
  change (at_time now (b :: take n (drop (Z.to_nat (i + 1)) buffer)))
    with ([(b, now)] ++ at_time now (take n (drop (Z.to_nat (i + 1)) buffer))) in Hrun.
  rewrite parser_run_app in Hrun. apply bind_Some in Hrun as ([F1 p1] & Hrun1 & Hrun).
  apply bind_Some in Hrun as ([F2 p2] & Hrun2 & [= <- <-]).
  dl_step. eapply wp_lift; [rewrite rd_lookup by done; exact Hrd|]. dl_step.
  destruct (parser_run_sound [(b, now)] _ _ Hinv) as (F1' & p1' & part' & Hrun1' & Hinv1 & _); [by constructor|].
  rewrite Hrun1 in Hrun1'. injection Hrun1' as <- <-.
  eapply wp_mono; [by eapply receive_byte_filters|]. intros [] w1 [Hw1 Hp1]. cbn beta.
  eapply wp_mono; [eapply (IH _ _ w1 part' (i + 1)); rewrite ?Hp1; try done; lia|].
  intros [] w2. apply filtered_app.
Qed.

(** ** Polls *)

(** One poll whose driver has [data]. *)
Definition poll (phy : xgl_phy_ops_t) (timeout : Z) (x : Z * bytes) : datalink_call :=
  dlc_receive (Ptr phy) x.1 timeout (mk_rx_answer XGL_OK x.2 (zlen x.2)).
Definition polled (polls : list (Z * bytes)) : list (Z * Z) := concat (map (fun x => at_time x.1 x.2) polls).

Lemma poll_filters M ups w part phy now timeout data Fs p' :
  holds M ups w -> parser_inv (dc_parser (d_ctx w)) part -> bytes_ok data -> zlen data <= XGL_DATALINK_RX_CHUNK_SIZE ->
  phy_rx phy <> NULL -> xgl_parser_check_timeout (dc_parser (d_ctx w)) now timeout = false ->
  parser_run (dc_parser (d_ctx w)) (at_time now data) = Some (Fs, p') ->
  wp (datalink_one (poll phy timeout (now, data))) (fun err w' => err = XGL_OK /\ filtered M ups Fs p' w') w.
Proof.
  intros Hw Hinv Hd Hl Hrx Htime Hrun. unfold poll. cbn [datalink_one fst snd]. dl_step. dl_step.
  unfold xgl_datalink_receive. rewrite bool_decide_eq_false_2 by done. unfold receive_timeout.
  do 3 dl_step. change (d_ctx (w <| d_rx := _ |>)) with (d_ctx w). rewrite Htime. dl_step. dl_step.
  unfold phy_receive. do 6 dl_step. cbn [d_rx head default tail set_field ra_data ra_error ra_len].
  pose proof Hw as (_ & Hj & _). destruct (Hj XGL_DATALINK_RX_CHUNK_SIZE ltac:(done)) as [Hjl Hjok].
  destruct (wr_bytes (d_junk w XGL_DATALINK_RX_CHUNK_SIZE) 0 data) as [buffer|] eqn:Hwr.
  2: { rewrite wr_bytes_Some in Hwr by lia. done. }
  dl_step. eapply wp_lift; [exact Hwr|]. dl_step. cbn [id ra_error ra_len ra_data is_ok negb].
  assert (take (length data) buffer = data) as Hdata.
  { apply wr_bytes_inv in Hwr as (_ & _ & ->). change (take (Z.to_nat 0) (d_junk w XGL_DATALINK_RX_CHUNK_SIZE)) with (@nil Z). cbn [app]. by rewrite take_app_length. }
  assert (bytes_ok buffer) as Hbok by by eapply bytes_ok_wr_bytes.
  destruct (zlen data =? 0) eqn:Hz.
  { assert (data = []) as -> by (apply zlen_0_nil; lia). injection Hrun as <- <-. dl_step. split; [done|].
    split; [|done]. cbn. rewrite app_nil_r. exact Hw. }
  dl_step. eapply wp_mono; [eapply (receive_loop_filters _ _ _ _ part 0 buffer now Fs p')|].
  - exact Hw.
  - exact Hinv.
  - done.
  - lia.
  - rewrite (wr_bytes_zlen _ _ _ _ Hwr), Hjl. unfold XGL_DATALINK_RX_CHUNK_SIZE in *; lia.
  - unfold zlen. rewrite Nat2Z.id, drop_to_nat_0, Hdata. exact Hrun.
  - intros [] w' Hf. by dl_step.
Qed.

(** Every poll comes within [timeout] of the earlier ones. *)
Definition within (timeout : Z) (times : list Z) : Prop :=
  forall i j t t', (i <= j)%nat -> times !! i = Some t -> times !! j = Some t' -> u32 (t' - t) < timeout.
Lemma in_time timeout past now rest p :
  within timeout (past ++ now :: rest) ->
  p_state p = XGL_PARSE_MAGIC \/ p_timestamp p ∈ past -> xgl_parser_check_timeout p now timeout = false.
Proof.
  intros Hw Hp. unfold xgl_parser_check_timeout. destruct Hp as [->|Hin]; [done|].
  apply list_elem_of_lookup in Hin as [i Hi]. pose proof (lookup_lt_Some _ _ _ Hi).
  pose proof (Hw i (length past) (p_timestamp p) now ltac:(lia)) as Hlt.
  rewrite lookup_app_l, lookup_app_r, Nat.sub_diag in Hlt by lia. specialize (Hlt Hi eq_refl).
  destruct (p_state p); [done|lia..].
Qed.

Lemma polls_filter timeout phy polls : phy_rx phy <> NULL -> forall past M ups w part Fs p',
  holds M ups w -> parser_inv (dc_parser (d_ctx w)) part ->
  Forall (fun x => bytes_ok x.2 /\ zlen x.2 <= XGL_DATALINK_RX_CHUNK_SIZE) polls ->
  within timeout (past ++ map fst polls) ->
  p_state (dc_parser (d_ctx w)) = XGL_PARSE_MAGIC \/ p_timestamp (dc_parser (d_ctx w)) ∈ past ->
  parser_run (dc_parser (d_ctx w)) (polled polls) = Some (Fs, p') ->
  wp (datalink_calls (map (poll phy timeout) polls))
    (fun errs w' => errs = map (fun _ => XGL_OK) polls /\ filtered M ups Fs p' w') w.
Proof.
  intros Hrx. induction polls as [|[now data] polls IH]; intros past M ups w part Fs p' Hw Hinv Hok Htime Hst Hrun.
  { injection Hrun as <- <-. cbn [map datalink_calls]. dl_step. split; [done|]. by apply filtered_nil. }
  apply Forall_cons in Hok as [[Hd Hl] Hok]. cbn [fst snd map] in *. unfold polled in Hrun. cbn [map concat fst snd] in Hrun.
  rewrite parser_run_app in Hrun. apply bind_Some in Hrun as ([F1 p1] & Hrun1 & Hrun).
  apply bind_Some in Hrun as ([F2 p2] & Hrun2 & [= <- <-]).
  cbn [datalink_calls]. dl_step.
  destruct (parser_run_sound (at_time now data) _ _ Hinv) as (F1' & p1' & part' & Hrun1' & Hinv1 & _); [by apply at_time_ok|].
  rewrite Hrun1 in Hrun1'. injection Hrun1' as <- <-. pose proof (run_stamped _ _ _ _ _ Hrun1) as Hstamp.
  eapply wp_mono; [eapply poll_filters; try done; by eapply in_time|].
  intros err w1 (-> & Hw1 & Hp1). dl_step. eapply wp_mono.
  { eapply (IH (past ++ [now]) _ _ w1 part'); rewrite ?Hp1; try done.
    - by rewrite <- app_assoc.
    - destruct Hstamp as [?|[->|[Hne ->]]]; [by left|right..].
      + rewrite elem_of_app. right. by left.
      + rewrite elem_of_app. left. by destruct Hst. }
  intros errs w2 (-> & Hf). dl_step. split; [done|]. by apply filtered_app.
Qed.
End stream.

(** ** A stream from the start *)

Lemma stream_filtered old config c heap tx junk iface phy timeout polls chunks :
  xgl_datalink_init (Ptr old) (Ptr config) = (XGL_OK, Ptr c) -> datalink_config_ok config -> junk_ok junk ->
  dc_upper_layer c = Ptr iface -> li_receive iface <> NULL -> phy_rx phy <> NULL ->
  Forall (fun x => Forall (fun b => b <> XGL_WIRE_MAGIC_0) x.1 /\ valid_frame (dcf_rx_cache_size config) x.2) chunks ->
  concat (map snd polls) = concat (map (fun x => x.1 ++ x.2) chunks) ->
  Forall (fun x => bytes_ok x.2 /\ zlen x.2 <= XGL_DATALINK_RX_CHUNK_SIZE) polls ->
  within timeout (map fst polls) ->
  exists w, datalink_calls (map (poll phy timeout) polls) (mk_dl_world c heap tx [] junk []) =
      Some (map (fun _ => XGL_OK) polls, w) /\
    up_frames (d_trace w) = (filter_frames c ∅ (map snd chunks)).1.
Proof.
  intros Hinit Hcfg Hj Hup Hrecv Hrx Hchunks Hdata Hpolls Htime.
  destruct (datalink_init_ok _ _ _ heap tx _ Hinit Hcfg Hj) as ((Hrest & _) & _ & Hsz).
  assert (dc_replay_windows c = no_windows /\ dc_replay_window_used c = no_window_used /\
          p_state (dc_parser c) = XGL_PARSE_MAGIC /\ parser_inv (dc_parser c) []) as (Hws & Hus & Hst & Hinv).
  { unfold xgl_datalink_init in Hinit. case_if_in Hinit; [done|].
    destruct (xgl_parser_init zero_parser _ _) as [err p] eqn:Hp. injection Hinit as -> <-. cbn.
    destruct Hcfg as [Hc _]. unfold xgl_parser_init in Hp. destruct (dcf_rx_cache config) as [cache|]; [|done].
    destruct (dcf_rx_cache_size config <? XGL_FRAME_HEADER_SIZE + XGL_CRC16_SIZE) eqn:Hlt; [done|].
    injection Hp as <-. change (XGL_FRAME_HEADER_SIZE + XGL_CRC16_SIZE) with 26 in Hlt.
    destruct (parser_init_inv zero_parser cache (dcf_rx_cache_size config)) as (p & Hp & Hinv & _ & _); [lia|apply Hc|].
    unfold xgl_parser_init in Hp. change (XGL_FRAME_HEADER_SIZE + XGL_CRC16_SIZE) with 26 in Hp.
    rewrite Hlt in Hp. by injection Hp as <-. }
  rewrite <- Hsz in Hchunks.
  assert (map fst (polled polls) = concat (map snd polls)) as Hbytes.
  { unfold polled. clear. induction polls as [|[now data] polls IH]; [done|]. cbn [map concat fst snd].
    rewrite map_app, IH. f_equal. unfold at_time. rewrite map_map. apply map_id. }
  rewrite <- Hbytes in Hdata.
  destruct (parser_run_chunks chunks _ _ Hinv Hst Hchunks Hdata) as (p' & Hrun & _).
  pose proof (polls_filter c iface Hup Hrecv timeout phy polls Hrx [] ∅ [] (mk_dl_world c heap tx [] junk []) []
    (map snd chunks) p') as Hpoll.
  assert (holds c ∅ [] (mk_dl_world c heap tx [] junk [])) as Hholds.
  { destruct Hrest as (Hc & _). split; [done|]. split; [done|]. cbn. rewrite Hws, Hus. split; [apply empty_table|done]. }
  specialize (Hpoll Hholds Hinv Hpolls Htime (or_introl Hst) Hrun).
  apply wp_run in Hpoll as (errs & w & Hcalls & -> & (_ & _ & _ & Hups) & _). by exists w.
Qed.

(** C8. What the data link does with a stream.  After initialisation, let the
    driver deliver a stream of well-formed frames, each preceded by noise free
    of the first magic byte, cut into polls of at most 128 bytes in any way that
    keeps within the parser's timeout.  Every poll succeeds, and the frames passed
    up are exactly those of the stream that the filter lets through, in order:
    the frame is at most 2048 bytes long and its extensions decode; if it
    claims or needs authentication then it has the AUTHENTICATED flag and a SECURITY
    extension (of the configured key, when authentication is required) and the
    provider accepts its tag; and the memory of accepted packets finds it new, or known and
    ACK-eliciting. *)
Theorem datalink_filters_stream old config c heap tx junk iface phy timeout polls chunks :
  xgl_datalink_init (Ptr old) (Ptr config) = (XGL_OK, Ptr c) -> datalink_config_ok config -> junk_ok junk ->
  dc_upper_layer c = Ptr iface -> li_receive iface <> NULL -> phy_rx phy <> NULL ->
  Forall (fun x => Forall (fun b => b <> XGL_WIRE_MAGIC_0) x.1 /\ valid_frame (dcf_rx_cache_size config) x.2) chunks ->
  concat (map snd polls) = concat (map (fun x => x.1 ++ x.2) chunks) ->
  Forall (fun x => bytes_ok x.2 /\ zlen x.2 <= XGL_DATALINK_RX_CHUNK_SIZE) polls ->
  within timeout (map fst polls) ->
  exists w, datalink_calls (map (poll phy timeout) polls) (mk_dl_world c heap tx [] junk []) =
      Some (map (fun _ => XGL_OK) polls, w) /\
    up_frames (d_trace w) = (filter_frames c ∅ (map snd chunks)).1.
Proof. apply stream_filtered. Qed.

(** Noise, a signed frame, and its replay, in three polls. *)
Lemma sample_signed_valid size : 45 <= size -> valid_frame size sample_signed.
Proof.
  intros Hs. exists (auth_header sample_frame []), [(XGL_WIRE_EXT_SECURITY, security_value 77 42 1)], 1,
    (slice sample_signed 39 4).
  split; [split; [reflexivity|split; [reflexivity|split; [reflexivity|split; [|split; [reflexivity|right; right; discriminate]]]]]|].
  { constructor; [|constructor]. split; [vm_compute; intuition congruence|]. split; [vm_compute; discriminate|].
    apply forallb_bytes_ok. vm_compute. reflexivity. }
  split; [apply forallb_bytes_ok; vm_compute; reflexivity|]. split; [vm_compute; reflexivity|].
  split; [vm_compute; reflexivity|]. destruct sample_signed_ok as [-> _]. exact Hs.
Qed.
Definition sample_polls : list (Z * bytes) :=
  let s := [7; 9] ++ sample_signed ++ sample_signed in [(0, take 10 s); (40, take 50 (drop 10 s)); (90, drop 60 s)].
Lemma datalink_filters_stream_witness :
  exists w, datalink_calls (map (poll sample_phy 100) sample_polls) (mk_dl_world sample_datalink [] [] [] sample_junk []) =
      Some ([XGL_OK; XGL_OK; XGL_OK], w) /\ up_frames (d_trace w) = [sample_signed].
Proof.
  destruct (datalink_filters_stream (mk_datalink zero_parser NULL NULL NULL NULL 0 false 0 NULL [] [] NULL)
    sample_datalink_config sample_datalink [] [] sample_junk (mk_layer NULL (Ptr 3) NULL) sample_phy 100 sample_polls
    [([7; 9], sample_signed); ([], sample_signed)]) as (w & Hrun & Hups).
  - vm_compute. reflexivity.
  - split; [split; [vm_compute; discriminate|apply forallb_bytes_ok; vm_compute; reflexivity]|].
    intros _ p [= <-]. exact xor_provider_sound.
  - exact sample_junk_ok.
  - vm_compute. reflexivity.
  - discriminate.
  - discriminate.
  - constructor; [|constructor; [|constructor]]; (split; [repeat constructor; discriminate|]);
      apply sample_signed_valid; vm_compute; discriminate.
  - vm_compute. reflexivity.
  - repeat (constructor; [split; [apply forallb_bytes_ok; vm_compute; reflexivity|vm_compute; discriminate]|]). constructor.
  - intros i j t t' Hij Hi Hj. destruct i as [|[|[|i]]]; [..|discriminate Hi]; destruct j as [|[|[|j]]]; try discriminate Hj;
      injection Hi as <-; injection Hj as <-; first [exfalso; clear -Hij; lia|vm_compute; reflexivity].
  - exists w. split; [exact Hrun|]. rewrite Hups. vm_compute. reflexivity.
Defined.
