(* ===== verification/Network.v ===== *)
(** * The network layer (include/xgl/internal/xgl_network.h, src/network/xgl_network.c,
    xgl_network_send.c, xgl_network_receive.c, xgl_network_metadata.c)

    Packets become frames on the way down, along the route of their target; a
    received frame is delivered when it is for this node or for all, and otherwise
    forwarded with one hop less to live.  The operations run in a state monad [N]:
    the context, the answers of the other layers, the drivers and the allocator
    that are still to come, and the trace of what the layer did. *)
From S2P Require Import Prelude State Errors Serialize Crc Layer Wire WireExt ExtWalk Frame Route.

Definition XGL_PROTOCOL_VERSION : Z := 2.
Definition XGL_BROADCAST_ID : Z := 0xFFFF.
Definition XGL_DEFAULT_TTL : Z := 8.
Definition XGL_TRAFFIC_PRIORITY_SHIFT : Z := 0.
Definition XGL_NETWORK_FORWARD_STACK_BUFFER_SIZE : Z := 512.

(** ** Data *)

(** Callbacks are known by their address; user data and the allocator are left out. *)
(** src/include/xgl/internal/xgl_network.h:61-76: xgl_network_ctx_t *)
Record xgl_network_ctx_t := mk_network {
  nc_local_id : Z;
  nc_route_table : ptr xgl_route_table_t;
  nc_upper_layer : ptr xgl_layer_interface_t;
  nc_lower_layer : ptr xgl_layer_interface_t;
  nc_error_callback : ptr Z;
  nc_stats : ptr xgl_layer_stats_t;
  nc_auth_required : bool;
  nc_auth_key_id : Z;
  nc_auth_provider : ptr xgl_auth_provider_t
}.
#[export] Instance eta_network : EtaRecord xgl_network_ctx_t := Eta (fun c =>
  mk_network (nc_local_id c) (nc_route_table c) (nc_upper_layer c) (nc_lower_layer c) (nc_error_callback c)
    (nc_stats c) (nc_auth_required c) (nc_auth_key_id c) (nc_auth_provider c)).

(** Bytes handed to a driver, a frame handed to the lower layer with the driver
    it is for, a packet handed to the upper layer, a call of the error callback. *)
Inductive network_event :=
| nw_tx (phy : xgl_phy_ops_t) (data : bytes)
| nw_down (frame : xgl_frame_t) (phy : ptr xgl_phy_ops_t)
| nw_up (packet : xgl_packet_t)
| nw_error (err : xgl_error_t).

(** [n_phys] finds the driver structure that a route points to; [n_tx], [n_down]
    and [n_up] are the answers of the drivers and of the two layers to come
    ([XGL_OK] when there are no more); [n_junk n] is what a fresh buffer of [n]
    bytes happens to hold. *)
Record nw_world := mk_nw_world {
  n_ctx : xgl_network_ctx_t;
  n_phys : Z -> xgl_phy_ops_t;
  n_heap : heap_answers;
  n_tx : list xgl_error_t;
  n_down : list xgl_error_t;
  n_up : list xgl_error_t;
  n_junk : Z -> bytes;
  n_trace : list network_event
}.
#[export] Instance eta_nw_world : EtaRecord nw_world := Eta (fun w =>
  mk_nw_world (n_ctx w) (n_phys w) (n_heap w) (n_tx w) (n_down w) (n_up w) (n_junk w) (n_trace w)).

Abbreviation N := (ST nw_world).
Definition nw_get : N xgl_network_ctx_t := gets n_ctx.
Definition nw_put (f : xgl_network_ctx_t -> xgl_network_ctx_t) : N unit :=
  modify (fun w => w <| n_ctx := f (n_ctx w) |>).
Definition nw_emit (e : network_event) : N unit := modify (fun w => w <| n_trace := n_trace w ++ [e] |>).
Definition nw_malloc (size : Z) : N bool := fun w =>
  let '(ok, heap) := alloc_answer size (n_heap w) in Some (ok, w <| n_heap := heap |>).
Definition nw_buffer (size : Z) : N bytes := gets (fun w => n_junk w size).
Definition answer (l : list xgl_error_t) : xgl_error_t := default XGL_OK (head l).
(** [phy->tx(buffer, len, user_data)] *)
Definition nw_transmit (phy : xgl_phy_ops_t) (buffer : bytes) (len : Z) : N xgl_error_t :=
  data ← lift (rd_bytes buffer 0 len);
  _ ← nw_emit (nw_tx phy data);
  err ← gets (fun w => answer (n_tx w));
  _ ← modify (fun w => w <| n_tx := tail (n_tx w) |>);
  mret err.
(** [lower_layer->send(ctx, handle, data)] and [upper_layer->receive(ctx, handle, data)] *)
Definition nw_send_down (frame : xgl_frame_t) (phy : ptr xgl_phy_ops_t) : N xgl_error_t :=
  _ ← nw_emit (nw_down frame phy);
  err ← gets (fun w => answer (n_down w));
  _ ← modify (fun w => w <| n_down := tail (n_down w) |>);
  mret err.
Definition nw_pass_up (packet : xgl_packet_t) : N xgl_error_t :=
  _ ← nw_emit (nw_up packet);
  err ← gets (fun w => answer (n_up w));
  _ ← modify (fun w => w <| n_up := tail (n_up w) |>);
  mret err.

Definition nw_stats (f : xgl_layer_stats_t -> xgl_layer_stats_t) : N unit :=
  nw_put (fun c => c <| nc_stats := f <$> nc_stats c |>).
(** The test for an error callback and its call. *)
Definition nw_call_error (err : xgl_error_t) : N unit :=
  ctx ← nw_get;
  if bool_decide (nc_error_callback ctx = NULL) then mret tt else nw_emit (nw_error err).

(** src/src/network/xgl_network_send.c:17-21: network_count_tx_error *)
Definition network_count_tx_error : N unit :=
  nw_stats (fun s => s <| ls_tx_errors := u64 (ls_tx_errors s + 1) |>).
(** src/src/network/xgl_network_receive.c:18-22: network_count_rx_drop *)
Definition network_count_rx_drop : N unit :=
  nw_stats (fun s => s <| ls_rx_dropped := u64 (ls_rx_dropped s + 1) |>).

(** The entry of the route table for the target: NULL, or the route. *)
Definition nw_lookup (target_id : Z) : N (ptr xgl_route_item_t) :=
  ctx ← nw_get;
  match nc_route_table ctx with
  | NULL => mret NULL
  | Ptr table =>
      p ← lift (xgl_route_table_lookup table target_id);
      match p with
      | NULL => mret NULL
      | Ptr p => route ← lift (deref_route table p); mret (Ptr route)
      end
  end.
(** [route->phy] *)
Definition nw_phy (route : xgl_route_item_t) : N (ptr xgl_phy_ops_t) := gets (fun w => n_phys w <$> ri_phy route).

(** ** Metadata *)

(** src/include/xgl/internal/xgl_network_metadata.h:20-25: xgl_network_ext_metadata_t *)
Record xgl_network_ext_metadata_t := mk_ext_metadata {
  xm_data_type : Z;
  xm_data_type_found : bool;
  xm_session_epoch : Z;
  xm_session_epoch_found : bool
}.
#[export] Instance eta_ext_metadata : EtaRecord xgl_network_ext_metadata_t := Eta (fun m =>
  mk_ext_metadata (xm_data_type m) (xm_data_type_found m) (xm_session_epoch m) (xm_session_epoch_found m)).
Definition zero_ext_metadata : xgl_network_ext_metadata_t := mk_ext_metadata 0 false 0 false.

(** src/include/xgl/internal/xgl_network_metadata.h:27-38: xgl_network_frame_metadata_t *)
Record xgl_network_frame_metadata_t := mk_net_metadata {
  nm_header : xgl_wire_header_t;
  nm_data_type : Z;
  nm_session_epoch : Z;
  nm_extensions : ptr bytes;
  nm_extensions_len : Z;
  nm_payload : ptr bytes;
  nm_payload_len : Z;
  nm_reliable : Z;
  nm_fragment : bool;
  nm_priority : Z
}.
#[export] Instance eta_net_metadata : EtaRecord xgl_network_frame_metadata_t := Eta (fun m =>
  mk_net_metadata (nm_header m) (nm_data_type m) (nm_session_epoch m) (nm_extensions m) (nm_extensions_len m)
    (nm_payload m) (nm_payload_len m) (nm_reliable m) (nm_fragment m) (nm_priority m)).
Definition zero_net_metadata : xgl_network_frame_metadata_t :=
  mk_net_metadata zero_wire_header 0 0 NULL 0 NULL 0 0 false 0.

(** [inr] leaves the loop. *)
(** src/src/network/xgl_network_metadata.c:29-56: xgl_network_decode_ext_metadata *)
Definition ext_metadata_body (m : xgl_network_ext_metadata_t) (ext : xgl_wire_ext_t)
    : M (xgl_network_ext_metadata_t + (xgl_error_t * xgl_network_ext_metadata_t)) :=
  if e_type ext =? XGL_WIRE_EXT_DATA_TYPE then
    match e_value ext with
    | Ptr value =>
        if xm_data_type_found m || negb (e_len ext =? 1) then ret (inr (XGL_ERR_INVALID_FRAME, m))
        else
          data_type ← rd value 0;
          ret (inl (m <| xm_data_type := data_type |> <| xm_data_type_found := true |>))
    | NULL => ret (inr (XGL_ERR_INVALID_FRAME, m))
    end
  else if e_type ext =? XGL_WIRE_EXT_SESSION then
    if xm_session_epoch_found m then ret (inr (XGL_ERR_INVALID_FRAME, m))
    else
      value ← e_value ext;
      '(err, out) ← xgl_wire_decode_session_ext_value value (e_len ext);
      let m := match out with Some (epoch, _) => m <| xm_session_epoch := epoch |> | None => m end in
      if negb (is_ok err) then ret (inr (err, m))
      else ret (inl (m <| xm_session_epoch_found := true |>))
  else ret (inl m).

(** src/src/network/xgl_network_metadata.c:11-59: xgl_network_decode_ext_metadata *)
Definition xgl_network_decode_ext_metadata (extensions : ptr bytes) (extensions_len : Z)
    : M (xgl_error_t * xgl_network_ext_metadata_t) :=
  let m := zero_ext_metadata in
  if bool_decide (extensions = NULL) || (extensions_len =? 0) then ret (XGL_OK, m)
  else
    let '(err, cursor) := xgl_wire_ext_cursor_init (mk_cursor NULL 0 0) extensions extensions_len in
    if negb (is_ok err) then ret (err, m)
    else
      walked ← ext_walk ext_metadata_body (S (Z.to_nat extensions_len)) cursor m;
      ret match walked with
          | inl (err, m) => (if bool_decide (err = XGL_ERR_NOT_FOUND) then XGL_OK else err, m)
          | inr r => r
          end.

(** The reliability, fragment flag and priority that the header states. *)
(** src/src/network/xgl_network_metadata.c:103-118: xgl_network_decode_frame_metadata *)
Definition classify (m : xgl_network_frame_metadata_t) : xgl_network_frame_metadata_t :=
  let h := nm_header m in
  let traffic_reliability := u8 (Z.land (wh_traffic_class h) XGL_RELIABILITY_CLASS_MASK) in
  let m :=
    if (traffic_reliability =? XGL_RELIABILITY_ACK_ELICITING) ||
       negb (Z.land (wh_flags h) XGL_WIRE_FLAG_ACK_ELICITING =? 0)
    then m <| nm_reliable := XGL_RELIABILITY_ACK_ELICITING |>
    else if (traffic_reliability =? XGL_RELIABILITY_ACK_ONLY) || (wh_packet_type h =? XGL_PACKET_TYPE_ACK)
    then m <| nm_reliable := XGL_RELIABILITY_ACK_ONLY |>
    else m in
  m <| nm_fragment := negb (Z.land (wh_flags h) XGL_WIRE_FLAG_FRAGMENTED =? 0) |>
    <| nm_priority := u8 (Z.shiftr (Z.land (wh_traffic_class h) XGL_TRAFFIC_PRIORITY_MASK)
                            XGL_TRAFFIC_PRIORITY_SHIFT) |>.

(** [frame_buf] may be longer than [frame_len]. *)
(** src/src/network/xgl_network_metadata.c:61-119: xgl_network_decode_frame_metadata *)
Definition xgl_network_decode_frame_metadata (frame_buf : bytes) (frame_len : Z)
    : M (xgl_error_t * xgl_network_frame_metadata_t) :=
  let m := zero_net_metadata in
  if frame_len <? XGL_FRAME_HEADER_SIZE + XGL_CRC16_SIZE then ret (XGL_ERR_INVALID_FRAME, m)
  else
    '(err, header) ← xgl_wire_decode_header (nm_header m) frame_buf frame_len;
    let m := m <| nm_header := header |> in
    if negb (is_ok err) then ret (XGL_ERR_INVALID_FRAME, m)
    else
      let m := if XGL_WIRE_BASE_HEADER_SIZE <? wh_header_len header
               then m <| nm_extensions := Ptr (drop (Z.to_nat XGL_WIRE_BASE_HEADER_SIZE) frame_buf) |>
                      <| nm_extensions_len := wh_header_len header - XGL_WIRE_BASE_HEADER_SIZE |>
               else m in
      '(err, ext_metadata) ← xgl_network_decode_ext_metadata (nm_extensions m) (nm_extensions_len m);
      if negb (is_ok err) then ret (err, m)
      else
        let m := m <| nm_data_type := xm_data_type ext_metadata |>
                   <| nm_session_epoch := xm_session_epoch ext_metadata |>
                   <| nm_payload := Ptr (drop (Z.to_nat (wh_header_len header)) frame_buf) |>
                   <| nm_payload_len := wh_payload_len header |> in
        if frame_len <? wh_header_len header + nm_payload_len m + XGL_CRC16_SIZE
        then ret (XGL_ERR_INVALID_FRAME, m)
        else ret (XGL_OK, classify m).

(** ** Addresses *)

(** src/src/network/xgl_network.c:50-75: xgl_network_validate_address *)
Definition xgl_network_validate_address (ctx : ptr xgl_network_ctx_t) (target_id source_id : Z) : bool :=
  match ctx with
  | NULL => false
  | Ptr _ =>
      if source_id =? XGL_BROADCAST_ID then false
      else if source_id =? 0 then false
      else if (source_id =? target_id) && negb (target_id =? XGL_BROADCAST_ID) then false
      else true
  end.
(** src/include/xgl/internal/xgl_network.h:151-154: xgl_network_is_local *)
Definition xgl_network_is_local (ctx : xgl_network_ctx_t) (target_id : Z) : bool :=
  (target_id =? nc_local_id ctx) || (target_id =? XGL_BROADCAST_ID).

(** ** Sending *)

(** src/src/network/xgl_network_send.c:23-49: network_append_data_type_ext *)
Definition network_append_data_type_ext (extensions : bytes) (extensions_capacity extensions_len data_type : Z)
    : M (xgl_error_t * bytes * Z) :=
  if data_type =? 0 then ret (XGL_OK, extensions, extensions_len)
  else if extensions_capacity <? extensions_len then ret (XGL_ERR_BUFFER_TOO_SMALL, extensions, extensions_len)
  else
    '(err, bytes_written, extensions) ←
      at_offset extensions extensions_len (fun b =>
        xgl_wire_encode_ext b (extensions_capacity - extensions_len) XGL_WIRE_EXT_DATA_TYPE (Ptr [data_type]) 1 0);
    if negb (is_ok err) then ret (err, extensions, extensions_len)
    else ret (XGL_OK, extensions, extensions_len + bytes_written).

(** src/src/network/xgl_network_send.c:51-86: network_copy_packet_extensions *)
Definition network_copy_packet_extensions (extensions : bytes) (extensions_capacity : Z) (packet : xgl_packet_t)
    : M (xgl_error_t * bytes * Z) :=
  let extensions_len := 0 in
  let copy := negb (bool_decide (pk_extensions packet = NULL)) && (0 <? pk_extensions_len packet) in
  if copy && (extensions_capacity <? pk_extensions_len packet)
  then ret (XGL_ERR_BUFFER_TOO_SMALL, extensions, extensions_len)
  else
    extensions ← copy_if extensions 0 (pk_extensions packet) (pk_extensions_len packet);
    let extensions_len := if copy then pk_extensions_len packet else extensions_len in
    '(err, metadata) ← xgl_network_decode_ext_metadata (Ptr extensions) extensions_len;
    if negb (is_ok err) then ret (err, extensions, extensions_len)
    else if xm_data_type_found metadata then
      if negb (pk_data_type packet =? 0) && negb (pk_data_type packet =? xm_data_type metadata)
      then ret (XGL_ERR_INVALID_PARAM, extensions, extensions_len)
      else ret (XGL_OK, extensions, extensions_len)
    else network_append_data_type_ext extensions extensions_capacity extensions_len (pk_data_type packet).

(** src/src/network/xgl_network_send.c:88-96: network_reliability_class *)
Definition network_reliability_class (packet : xgl_packet_t) : Z :=
  if pk_reliable packet =? XGL_RELIABILITY_ACK_ONLY then XGL_RELIABILITY_ACK_ONLY
  else if negb (pk_reliable packet =? 0) then XGL_RELIABILITY_ACK_ELICITING
  else XGL_RELIABILITY_NONE.

(** src/src/network/xgl_network_send.c:113-133: network_build_tx_frame *)
Definition tx_params (packet : xgl_packet_t) (data : xgl_packet_data_t) (extensions : bytes) (extensions_len : Z)
    : xgl_frame_params_t :=
  mk_frame_params (pk_source_id packet) (pk_target_id packet) (pk_data_type packet) (pk_packet_type packet)
    (pk_flags packet) (pk_traffic_class packet) (pk_connection_id packet) (pk_packet_number packet)
    (pk_session_epoch packet) (if 0 <? extensions_len then Ptr extensions else NULL) extensions_len
    (pd_data data) (pd_data_len data) (negb (pk_reliable packet =? 0)) (network_reliability_class packet)
    (pk_fragment packet) (pk_priority packet) (pk_session_id packet) XGL_DEFAULT_TTL.

(** The frame points into [extensions]. *)
(** src/src/network/xgl_network_send.c:98-140: network_build_tx_frame *)
Definition network_build_tx_frame (packet : xgl_packet_t) (extensions : bytes) (extensions_capacity : Z)
    (frame : xgl_frame_t) : N (xgl_error_t * xgl_frame_t) :=
  '(err, extensions, extensions_len) ← lift (network_copy_packet_extensions extensions extensions_capacity packet);
  if negb (is_ok err) then _ ← network_count_tx_error; mret (err, frame)
  else
    data ← lift (pk_data packet);
    let '(err, frame) := xgl_frame_build frame (tx_params packet data extensions extensions_len) in
    _ ← (if negb (is_ok err) then network_count_tx_error else mret tt);
    mret (err, frame).

(** The provider that can sign, when one is required. *)
(** src/src/network/xgl_network_send.c:146-155: network_validate_auth_tx_budget *)
Definition network_auth_tag_len (ctx : xgl_network_ctx_t) : option Z :=
  if negb (nc_auth_required ctx) then Some 0
  else match nc_auth_provider ctx with
       | NULL => None
       | Ptr p =>
           if bool_decide (ap_sign p = NULL) || (ap_tag_len p =? 0) || (XGL_AUTH_TAG_MAX_LEN <? ap_tag_len p)
           then None
           else Some (ap_tag_len p)
       end.
(** src/src/network/xgl_network_send.c:142-165: network_validate_auth_tx_budget *)
Definition network_validate_auth_tx_budget (frame : xgl_frame_t) (route : xgl_route_item_t) : N xgl_error_t :=
  ctx ← nw_get;
  match network_auth_tag_len ctx with
  | None => _ ← network_count_tx_error; mret XGL_ERR_INVALID_PARAM
  | Some auth_tag_len =>
      if ri_max_frame_size route <?
         xgl_frame_serialized_size (fr_payload_len frame) (fr_extensions_len frame) auth_tag_len
      then _ ← network_count_tx_error; mret XGL_ERR_BUFFER_TOO_SMALL
      else mret XGL_OK
  end.

(** src/src/network/xgl_network_send.c:167-188: network_send_frame_to_lower *)
Definition network_send_frame_to_lower (packet : xgl_packet_t) (frame : xgl_frame_t) : N xgl_error_t :=
  ctx ← nw_get;
  if match nc_lower_layer ctx with NULL => true | Ptr iface => bool_decide (li_send iface = NULL) end
  then _ ← network_count_tx_error; mret XGL_ERR_INVALID_PARAM
  else
    err ← nw_send_down frame (pk_phy packet);
    _ ← (if negb (is_ok err) then network_count_tx_error else mret tt);
    mret err.

Definition zero_frame : xgl_frame_t := mk_frame zero_wire_header NULL 0 NULL 0 0.
(** Also returns the packet, whose driver, source and version are set on the way.
    [frame] is the uninitialised local structure. *)
(** src/src/network/xgl_network_send.c:190-251: xgl_network_send_with_handle *)
Definition xgl_network_send_with_handle (packet : ptr xgl_packet_t) (assign_packet_number : bool)
    : N (xgl_error_t * ptr xgl_packet_t) :=
  match packet with
  | NULL => mret (XGL_ERR_NULL_POINTER, NULL)
  | Ptr packet =>
      match pk_data packet with
      | NULL => mret (XGL_ERR_INVALID_PARAM, Ptr packet)
      | Ptr data =>
          route ← nw_lookup (pk_target_id packet);
          match route with
          | NULL =>
              _ ← nw_call_error XGL_ERR_ROUTE_NOT_FOUND;
              _ ← network_count_tx_error;
              mret (XGL_ERR_ROUTE_NOT_FOUND, Ptr packet)
          | Ptr route =>
              phy ← nw_phy route;
              ctx ← nw_get;
              let packet := packet <| pk_phy := phy |> in
              let packet := if pk_source_id packet =? 0 then packet <| pk_source_id := nc_local_id ctx |>
                            else packet in
              let packet := packet <| pk_version := XGL_PROTOCOL_VERSION |> in
              _ ← nw_stats (fun s => s <| ls_tx_packets := u64 (ls_tx_packets s + 1) |>
                                       <| ls_tx_bytes := u64 (ls_tx_bytes s + pd_data_len data) |>);
              '(err, frame) ← network_build_tx_frame packet
                (replicate (Z.to_nat (UINT8_MAX - XGL_WIRE_BASE_HEADER_SIZE)) 0)
                (UINT8_MAX - XGL_WIRE_BASE_HEADER_SIZE) zero_frame;
              if negb (is_ok err) then mret (err, Ptr packet)
              else
                err ← network_validate_auth_tx_budget frame route;
                if negb (is_ok err) then mret (err, Ptr packet)
                else err ← network_send_frame_to_lower packet frame; mret (err, Ptr packet)
          end
      end
  end.
(** src/src/network/xgl_network_send.c:253-257: xgl_network_send *)
Definition xgl_network_send (packet : ptr xgl_packet_t) (assign_packet_number : bool)
    : N (xgl_error_t * ptr xgl_packet_t) := xgl_network_send_with_handle packet assign_packet_number.

(** ** Receiving *)

(** src/src/network/xgl_network_receive.c:36-62: network_deliver_local *)
Definition packet_of_frame (m : xgl_network_frame_metadata_t) : xgl_packet_t :=
  let h := nm_header m in
  zero_packet
    <| pk_source_id := wh_source_id h |> <| pk_target_id := wh_target_id h |>
    <| pk_session_id := u16 (Z.land (wh_connection_id h) UINT16_MAX) |>
    <| pk_connection_id := wh_connection_id h |> <| pk_packet_number := wh_packet_number h |>
    <| pk_session_epoch := nm_session_epoch m |> <| pk_packet_type := wh_packet_type h |>
    <| pk_flags := wh_flags h |> <| pk_data_type := nm_data_type m |> <| pk_reliable := nm_reliable m |>
    <| pk_fragment := nm_fragment m |> <| pk_priority := nm_priority m |> <| pk_ttl := wh_ttl h |>
    <| pk_traffic_class := wh_traffic_class h |>
    <| pk_data := Ptr (mk_packet_data 1 (nm_payload_len m) (nm_payload m) NULL) |>
    <| pk_extensions := nm_extensions m |> <| pk_extensions_len := nm_extensions_len m |>.

(** src/src/network/xgl_network_receive.c:24-65: network_deliver_local *)
Definition network_deliver_local (m : xgl_network_frame_metadata_t) : N xgl_error_t :=
  _ ← nw_stats (fun s => s <| ls_rx_packets := u64 (ls_rx_packets s + 1) |>
                           <| ls_rx_bytes := u64 (ls_rx_bytes s + nm_payload_len m) |>);
  ctx ← nw_get;
  if match nc_upper_layer ctx with NULL => true | Ptr iface => bool_decide (li_receive iface = NULL) end
  then mret XGL_OK
  else nw_pass_up (packet_of_frame m).

(** src/src/network/xgl_network_receive.c:67-91: network_lookup_forward_route *)
Definition network_lookup_forward_route (target_id : Z) : N (xgl_error_t * ptr xgl_route_item_t) :=
  route ← nw_lookup target_id;
  match route with
  | Ptr _ => mret (XGL_OK, route)
  | NULL =>
      _ ← nw_call_error XGL_ERR_ROUTE_NOT_FOUND;
      _ ← network_count_rx_drop;
      mret (XGL_ERR_ROUTE_NOT_FOUND, NULL)
  end.

(** src/src/network/xgl_network_receive.c:93-108: network_validate_forward_ttl *)
Definition network_validate_forward_ttl (ttl : Z) : N xgl_error_t :=
  if 1 <? ttl then mret XGL_OK
  else
    _ ← network_count_rx_drop;
    _ ← nw_call_error XGL_ERR_TTL_EXPIRED;
    mret XGL_ERR_TTL_EXPIRED.

(** src/src/network/xgl_network_receive.c:110-120: network_validate_forward_size *)
Definition network_validate_forward_size (route : xgl_route_item_t) (frame_len : Z) : N xgl_error_t :=
  if (XGL_DATALINK_MAX_FRAME_SIZE <? frame_len) || (ri_max_frame_size route <? frame_len)
  then _ ← network_count_rx_drop; mret XGL_ERR_BUFFER_TOO_SMALL
  else mret XGL_OK.

(** src/src/network/xgl_network_receive.c:122-140: network_rewrite_forward_frame *)
Definition network_rewrite_forward_frame (frame_buf : bytes) (frame_len : Z) (incoming_header : xgl_wire_header_t)
    (forward_buf : bytes) : N (xgl_error_t * bytes) :=
  frame ← lift (rd_bytes frame_buf 0 frame_len);
  forward_buf ← lift (wr_bytes forward_buf 0 frame);
  let wire_header := incoming_header <| wh_ttl := u8 (wh_ttl incoming_header - 1) |> in
  '(err, forward_buf) ← lift (xgl_wire_encode_header forward_buf frame_len wire_header);
  if negb (is_ok err) then _ ← network_count_rx_drop; mret (XGL_ERR_INVALID_FRAME, forward_buf)
  else
    forward_crc ← lift (xgl_crc16_modbus (Ptr forward_buf) 0 (frame_len - XGL_CRC16_SIZE));
    forward_buf ← lift (xgl_serialize_u16_le forward_buf (frame_len - XGL_CRC16_SIZE) forward_crc);
    mret (XGL_OK, forward_buf).

(** The transmission of the rewritten frame; a route without a driver that can
    transmit drops it silently. *)
(** src/src/network/xgl_network_receive.c:187-216: network_forward_remote *)
Definition forward_transmit (route : xgl_route_item_t) (frame_buf : bytes) (frame_len : Z)
    (header : xgl_wire_header_t) (forward_buf : bytes) : N xgl_error_t :=
  '(err, forward_buf) ← network_rewrite_forward_frame frame_buf frame_len header forward_buf;
  if negb (is_ok err) then mret err
  else
    phy ← nw_phy route;
    match phy with
    | NULL => mret XGL_OK
    | Ptr phy =>
        if bool_decide (phy_tx phy = NULL) then mret XGL_OK
        else
          err ← nw_transmit phy forward_buf frame_len;
          if negb (is_ok err) then _ ← network_count_tx_error; mret XGL_ERR_TX_FAILED
          else mret XGL_OK
    end.

(** src/src/network/xgl_network_receive.c:142-217: network_forward_remote *)
Definition network_forward_remote (frame_buf : bytes) (frame_len : Z) (m : xgl_network_frame_metadata_t)
    : N xgl_error_t :=
  '(err, route) ← network_lookup_forward_route (wh_target_id (nm_header m));
  if negb (is_ok err) then mret err
  else
    err ← network_validate_forward_ttl (wh_ttl (nm_header m));
    if negb (is_ok err) then mret err
    else
      _ ← nw_stats (fun s => s <| ls_tx_packets := u64 (ls_tx_packets s + 1) |>
                               <| ls_tx_bytes := u64 (ls_tx_bytes s + nm_payload_len m) |>);
      route ← lift route;
      err ← network_validate_forward_size route frame_len;
      if negb (is_ok err) then mret err
      else if XGL_NETWORK_FORWARD_STACK_BUFFER_SIZE <? frame_len then
        ok ← nw_malloc frame_len;
        if negb ok then
          _ ← network_count_rx_drop;
          _ ← network_count_tx_error;
          mret XGL_ERR_NO_MEMORY
        else
          forward_buf ← nw_buffer frame_len;
          forward_transmit route frame_buf frame_len (nm_header m) forward_buf
      else
        forward_buf ← nw_buffer XGL_NETWORK_FORWARD_STACK_BUFFER_SIZE;
        forward_transmit route frame_buf frame_len (nm_header m) forward_buf.

(** src/src/network/xgl_network_receive.c:219-250: xgl_network_receive *)
Definition xgl_network_receive (frame_buf : ptr bytes) (frame_len : Z) : N xgl_error_t :=
  match frame_buf with
  | NULL => mret XGL_ERR_NULL_POINTER
  | Ptr frame_buf =>
      '(err, m) ← lift (xgl_network_decode_frame_metadata frame_buf frame_len);
      ctx ← nw_get;
      if negb (is_ok err) then
        _ ← nw_stats (fun s => s <| ls_rx_errors := u64 (ls_rx_errors s + 1) |>);
        mret err
      else if negb (xgl_network_validate_address (Ptr ctx) (wh_target_id (nm_header m)) (wh_source_id (nm_header m)))
      then _ ← network_count_rx_drop; mret XGL_ERR_INVALID_PARAM
      else if xgl_network_is_local ctx (wh_target_id (nm_header m)) then network_deliver_local m
      else network_forward_remote frame_buf frame_len m
  end.

(** ** Life cycle and interface *)

(** src/include/xgl/internal/xgl_network.h:81-93: xgl_network_config_t *)
Record xgl_network_config_t := mk_network_config {
  ncf_local_id : Z;
  ncf_route_table : ptr xgl_route_table_t;
  ncf_upper_layer : ptr xgl_layer_interface_t;
  ncf_lower_layer : ptr xgl_layer_interface_t;
  ncf_error_callback : ptr Z;
  ncf_stats : ptr xgl_layer_stats_t;
  ncf_auth_required : bool;
  ncf_auth_key_id : Z;
  ncf_auth_provider : ptr xgl_auth_provider_t
}.
(** src/src/network/xgl_network.c:19-44: xgl_network_init *)
Definition xgl_network_init (ctx : ptr xgl_network_ctx_t) (config : ptr xgl_network_config_t)
    : xgl_error_t * ptr xgl_network_ctx_t :=
  match ctx, config with
  | Ptr _, Ptr config =>
      if bool_decide (ncf_route_table config = NULL) then (XGL_ERR_INVALID_PARAM, ctx)
      else
        (XGL_OK, Ptr (mk_network (ncf_local_id config) (ncf_route_table config) (ncf_upper_layer config)
           (ncf_lower_layer config) (ncf_error_callback config) (ncf_stats config) (ncf_auth_required config)
           (ncf_auth_key_id config) (ncf_auth_provider config)))
  | _, _ => (XGL_ERR_NULL_POINTER, ctx)
  end.

(** src/src/network/xgl_network.c:81-97: xgl_network_report_error *)
Definition xgl_network_report_error (error : xgl_error_t) : N unit :=
  _ ← nw_call_error error;
  network_count_tx_error.

(** src/src/network/xgl_network.c:107-119: network_send_impl *)
Definition network_send_impl (data : ptr xgl_packet_t) : N (xgl_error_t * ptr xgl_packet_t) :=
  match data with
  | NULL => mret (XGL_ERR_NULL_POINTER, NULL)
  | Ptr packet => xgl_network_send_with_handle (Ptr packet) false
  end.
(** src/include/xgl/internal/xgl_layer_interface.h:68-71: xgl_frame_rx_message_t *)
Record xgl_frame_rx_message_t := mk_frame_rx { fx_frame_buf : ptr bytes; fx_frame_len : Z }.
(** src/src/network/xgl_network.c:125-140: network_receive_impl *)
Definition network_receive_impl (data : ptr xgl_frame_rx_message_t) : N xgl_error_t :=
  match data with
  | NULL => mret XGL_ERR_NULL_POINTER
  | Ptr frame_data => xgl_network_receive (fx_frame_buf frame_data) (fx_frame_len frame_data)
  end.
(** src/src/network/xgl_network.c:146-164: network_report_error_impl *)
Definition network_report_error_impl (data : ptr xgl_layer_error_info_t) : N xgl_error_t :=
  match data with
  | NULL => mret XGL_ERR_NULL_POINTER
  | Ptr info => _ ← nw_call_error (ei_error info); mret XGL_OK
  end.
