(* ===== verification/NetworkInv.v ===== *)
(** * The receive path of the network layer

    What [xgl_network_receive] decides about a well-formed frame, as a pure
    function of the node, its routes and the parts of the frame; and that the
    code does exactly that. *)
From S2P Require Import Prelude State Errors Serialize Crc Layer Wire WireExt ExtWalk Frame Parser HashTable Route Network.

(** ** Metadata *)

(** The extensions, as the network layer reads them. *)
Definition ext_meta (l : list tlv) : M (xgl_error_t * xgl_network_ext_metadata_t) :=
  r ← tlv_walk ext_metadata_body l zero_ext_metadata;
  ret match r with inl m => (XGL_OK, m) | inr r => r end.

Lemma meta_body_total m x : tlv_ok x -> exists r, ext_metadata_body m (tlv_ext x) = Some r /\
  match r with inl _ => True | inr (err, _) => err = XGL_ERR_INVALID_FRAME end.
Proof.
  destruct x as [t v]. intros (_ & _ & Hv). unfold ext_metadata_body, tlv_ext.
  cbn [e_value e_type e_len fst snd mbind option_bind] in *.
  destruct (t =? XGL_WIRE_EXT_DATA_TYPE).
  { destruct (_ || _) eqn:Hbad; [by eexists|]. apply orb_false_iff in Hbad as [_ Hlen].
    destruct v as [|b [|b2 v]]; cbn in Hlen; [done|by eexists|]. rewrite !zlen_cons in Hlen.
    pose proof (zlen_nonneg v). lia. }
  destruct (t =? XGL_WIRE_EXT_SESSION); [|by eexists].
  destruct (xm_session_epoch_found m); [by eexists|].
  destruct (decode_session_total v Hv) as (err & out & -> & _ & Herr). cbn [mbind option_bind].
  destruct (decide (err = XGL_OK)) as [->|Hne]; cbn [is_ok negb]; [by eexists|].
  assert (is_ok err = false) as -> by by destruct err. eexists. split; [reflexivity|]. by apply Herr.
Qed.
Lemma ext_meta_total l : Forall tlv_ok l -> exists err m, ext_meta l = Some (err, m) /\
  (err = XGL_OK \/ err = XGL_ERR_INVALID_FRAME).
Proof.
  intros Hl. unfold ext_meta. generalize zero_ext_metadata.
  induction Hl as [|x l Hx _ IH]; intros m; cbn [tlv_walk]; [by eauto|].
  destruct (meta_body_total m x Hx) as ([m'|[err m']] & -> & Hr); cbn [mbind option_bind]; [apply IH|].
  subst. by eauto.
Qed.

Lemma tlvs_bytes_nil l : zlen (tlvs_bytes l) = 0 -> l = [].
Proof.
  intros Hz. destruct l as [|[t v] l]; [done|]. cbn in Hz. rewrite zlen_cons in Hz.
  pose proof (zlen_nonneg (zlen v :: v ++ concat (map tlv_bytes l))). lia.
Qed.
Lemma decode_ext_meta l rest : Forall tlv_ok l -> bytes_ok rest ->
  xgl_network_decode_ext_metadata (Ptr (tlvs_bytes l ++ rest)) (zlen (tlvs_bytes l)) = ext_meta l.
Proof.
  intros Hl Hrest. unfold xgl_network_decode_ext_metadata, ext_meta.
  destruct (Z.eqb_spec (zlen (tlvs_bytes l)) 0) as [Hz|Hz]; cbn [bool_decide orb].
  { rewrite (tlvs_bytes_nil l) by lia. done. }
  rewrite bool_decide_eq_false_2 by done. cbn [orb].
  pose proof (tlvs_bytes_ok l Hl) as Hok. pose proof (zlen_nonneg rest).
  destruct (cursor_init_at (mk_cursor NULL 0 0) (tlvs_bytes l ++ rest) (zlen (tlvs_bytes l))) as (c & -> & Hat).
  { by apply Forall_app. } { rewrite zlen_app. pose proof (zlen_nonneg (tlvs_bytes l)). lia. }
  rewrite take_app_length' in Hat by (unfold zlen; lia). cbn [is_ok negb].
  pose proof (ext_walk_spec ext_metadata_body (length (tlvs_bytes l)) (S (Z.to_nat (zlen (tlvs_bytes l))))
    c _ zero_ext_metadata Hat Hok ltac:(lia) ltac:(unfold zlen; lia)) as Hw.
  rewrite parse_tlvs_encode in Hw by done. rewrite Hw. unfold walk_end.
  by destruct (tlv_walk _ l _) as [[m'|[]]|].
Qed.
Lemma decode_no_ext : xgl_network_decode_ext_metadata NULL 0 = ext_meta [].
Proof. reflexivity. Qed.

(** What the upper layer may read of a packet: the bytes within the lengths. *)
Definition view_data (d : xgl_packet_data_t) : xgl_packet_data_t :=
  mk_packet_data (pd_ref_count d) (pd_data_len d) (take (Z.to_nat (pd_data_len d)) <$> pd_data d) (pd_owned_data d).
Definition view_packet (p : xgl_packet_t) : xgl_packet_t :=
  p <| pk_data := view_data <$> pk_data p |>
    <| pk_extensions := take (Z.to_nat (pk_extensions_len p)) <$> pk_extensions p |>.

(** The packet that a frame with header [h], extensions [l] and payload [pl] carries. *)
Definition frame_metadata (h : xgl_wire_header_t) (l : list tlv) (xm : xgl_network_ext_metadata_t) (pl : bytes)
    : xgl_network_frame_metadata_t :=
  classify (mk_net_metadata (h <| wh_header_crc16 := header_crc h |>) (xm_data_type xm) (xm_session_epoch xm)
    (match l with [] => NULL | _ => Ptr (tlvs_bytes l) end) (zlen (tlvs_bytes l)) (Ptr pl) (zlen pl) 0 false 0).
Definition frame_packet (h : xgl_wire_header_t) (l : list tlv) (xm : xgl_network_ext_metadata_t) (pl : bytes)
    : xgl_packet_t := packet_of_frame (frame_metadata h l xm pl).

(** The view of the metadata; it commutes with the two steps that use it. *)
Definition view_meta (m : xgl_network_frame_metadata_t) : xgl_network_frame_metadata_t :=
  m <| nm_extensions := take (Z.to_nat (nm_extensions_len m)) <$> nm_extensions m |>
    <| nm_payload := take (Z.to_nat (nm_payload_len m)) <$> nm_payload m |>.
Lemma view_packet_of_frame m : view_packet (packet_of_frame m) = packet_of_frame (view_meta m).
Proof. by destruct m. Qed.
Lemma view_classify m : view_meta (classify m) = classify (view_meta m).
Proof. destruct m. unfold classify, view_meta. cbn. by repeat case_match. Qed.
Lemma classify_same m : nm_header (classify m) = nm_header m /\ nm_payload_len (classify m) = nm_payload_len m.
Proof. destruct m. unfold classify. cbn. by repeat case_match. Qed.

(** The decoder on a whole frame, in a buffer that may be longer. *)
Lemma network_decode_frame h l tag body F post :
  frame_parts h l tag body F -> bytes_ok post ->
  exists err m xm, xgl_network_decode_frame_metadata (F ++ post) (zlen F) = Some (err, m) /\
    ext_meta l = Some (err, xm) /\
    (err = XGL_OK -> nm_header m = h <| wh_header_crc16 := header_crc h |> /\
       nm_payload_len m = wh_payload_len h /\
       view_packet (packet_of_frame m) = frame_packet h l xm (take (Z.to_nat (wh_payload_len h)) body)).
Proof.
  intros Hp Hpost. pose proof (parts_zlen _ _ _ _ _ Hp) as HFl. pose proof (parts_bounds _ _ _ _ _ Hp) as Hbnd.
  destruct Hp as (Hhead & Hb & Hbl & HF). pose proof Hhead as (Hh & Hr & Hl & Htl & _).
  unfold xgl_network_decode_frame_metadata. change (XGL_FRAME_HEADER_SIZE + XGL_CRC16_SIZE) with 26.
  replace (zlen F <? 26) with false by lia.
  assert (exists tail, F ++ post = header_bytes h ++ tlvs_bytes l ++ body ++ tail /\ bytes_ok tail)
    as (tail & HFp & Htail).
  { exists (le_bytes 2 (crc16 0xFFFF (head_bytes h l ++ body)) ++ post). split.
    - rewrite HF. unfold seal, head_bytes. by rewrite <- !app_assoc.
    - apply Forall_app. split; [apply le_bytes_ok|done]. }
  assert (bytes_ok (tlvs_bytes l ++ body ++ tail)) as Hrest
    by (rewrite !Forall_app; split_and!; [by apply tlvs_bytes_ok|done..]).
  rewrite HFp, decode_header_bytes by (done || lia). cbn [mbind option_bind is_ok negb].
  change (wh_header_len (h <| wh_header_crc16 := header_crc h |>)) with (wh_header_len h).
  change (wh_payload_len (h <| wh_header_crc16 := header_crc h |>)) with (wh_payload_len h).
  set (h' := h <| wh_header_crc16 := header_crc h |>).
  change (drop (Z.to_nat XGL_WIRE_BASE_HEADER_SIZE) (header_bytes h ++ tlvs_bytes l ++ body ++ tail))
    with (tlvs_bytes l ++ body ++ tail).
  assert (drop (Z.to_nat (wh_header_len h)) (header_bytes h ++ tlvs_bytes l ++ body ++ tail) = body ++ tail) as Hdrop.
  { rewrite Hl, app_assoc. apply drop_app_length'. rewrite length_app, header_bytes_length. unfold zlen. lia. }
  rewrite Hdrop. unfold XGL_WIRE_BASE_HEADER_SIZE. rewrite Hl.
  replace (24 + zlen (tlvs_bytes l) - 24) with (zlen (tlvs_bytes l)) by lia.
  destruct (ext_meta_total l Htl) as (err & xm & Hx & Herr).
  set (m0 := if 24 <? 24 + zlen (tlvs_bytes l) then _ else _).
  assert (xgl_network_decode_ext_metadata (nm_extensions m0) (nm_extensions_len m0) = ext_meta l) as ->.
  { unfold m0. destruct (Z.ltb_spec 24 (24 + zlen (tlvs_bytes l))) as [|Hz].
    { apply (decode_ext_meta l (body ++ tail) Htl). by apply Forall_app. }
    rewrite (tlvs_bytes_nil l) by (pose proof (zlen_nonneg (tlvs_bytes l)); lia). done. }
  rewrite Hx. cbn [mbind option_bind]. destruct Herr as [-> | ->]; cbn [is_ok negb];
    [|by eexists _, _, _].
  match goal with |- context [if ?b then _ else _] => replace b with false by (cbn; unfold XGL_CRC16_SIZE; lia) end.
  eexists _, _, xm. split; [reflexivity|]. split; [done|]. intros _.
  assert (take (Z.to_nat (wh_payload_len h)) (body ++ tail) = take (Z.to_nat (wh_payload_len h)) body) as Htk.
  { rewrite take_app_le; [done|]. unfold zlen in Hbl. lia. }
  assert (zlen (take (Z.to_nat (wh_payload_len h)) body) = wh_payload_len h) as Hz by (rewrite zlen_take; lia).
  match goal with |- context [classify ?m] => set (m1 := m) end.
  assert (nm_header m1 = h' /\ nm_payload_len m1 = wh_payload_len h) as [Hm1 Hm2]
    by (unfold m1, m0; by case_match).
  destruct (classify_same m1) as [-> ->]. split; [done|]. split; [done|].
  rewrite view_packet_of_frame, view_classify. unfold frame_packet, frame_metadata. fold h'.
  f_equal. f_equal. rewrite Hz. unfold m1, m0, view_meta.
  destruct (Z.ltb_spec 24 (24 + zlen (tlvs_bytes l))) as [Hpos|Hnil]; cbn.
  - rewrite Htk, take_app_length' by (unfold zlen; lia). by destruct l.
  - rewrite (tlvs_bytes_nil l) by (pose proof (zlen_nonneg (tlvs_bytes l)); lia). by rewrite Htk.
Qed.

(** ** Rewriting a frame for the next hop *)

Definition one_hop (h : xgl_wire_header_t) : xgl_wire_header_t := h <| wh_ttl := wh_ttl h - 1 |>.
(** The same frame with one hop less to live; both checksums are new. *)
Definition relay_frame (h : xgl_wire_header_t) (l : list tlv) (body : bytes) : bytes :=
  seal (head_bytes (one_hop h) l ++ body).

Lemma one_hop_ok h l tag : head_ok h l tag -> 1 < wh_ttl h -> head_ok (one_hop h) l tag.
Proof.
  intros (Hh & Hr & Hl & Htl & Hs & Ha) Ht. split_and!; try done.
  apply wire_header_ok_spec in Hh. apply wire_header_ok_spec. cbn. lia.
Qed.
Lemma relay_parts h l tag body F : frame_parts h l tag body F -> 1 < wh_ttl h ->
  frame_parts (one_hop h) l tag body (relay_frame h l body).
Proof. intros (Hhead & Hb & Hbl & _) Ht. split_and!; try done. by apply one_hop_ok. Qed.
Lemma relay_zlen h l tag body F : frame_parts h l tag body F -> zlen (relay_frame h l body) = zlen F.
Proof. intros (_ & _ & _ & ->). unfold relay_frame, head_bytes. by autorewrite with zlen. Qed.

(** The calculus of the layer. *)
Definition same_node (w w' : nw_world) : Prop :=
  n_ctx w' = (n_ctx w) <| nc_stats := nc_stats (n_ctx w') |> /\ n_phys w' = n_phys w /\ n_junk w' = n_junk w.
Definition did (events : list network_event) (w w' : nw_world) : Prop :=
  same_node w w' /\ n_trace w' = n_trace w ++ events.
Definition n_junk_ok (junk : Z -> bytes) : Prop := forall n, 0 <= n -> zlen (junk n) = n /\ bytes_ok (junk n).

Lemma same_node_refl w : same_node w w.
Proof. destruct w as [[]]. by repeat split. Qed.
Lemma did_refl w : did [] w w.
Proof. split; [apply same_node_refl|by rewrite app_nil_r]. Qed.
Lemma did_stats events w w' s : did events w w' -> did events w (w' <| n_ctx := (n_ctx w') <| nc_stats := s |> |>).
Proof.
  intros ((Hc & Hp & Hj) & Ht). split; [|done]. split_and!; [|done|done]. cbn.
  rewrite Hc. by destruct (n_ctx w).
Qed.
Lemma did_event events w w' e : did events w w' -> did (events ++ [e]) w (w' <| n_trace := n_trace w' ++ [e] |>).
Proof. intros (Hs & Ht). split; [done|]. cbn. by rewrite Ht, app_assoc. Qed.
Lemma wp_nw_get Q w : Q (n_ctx w) w -> wp nw_get Q w.
Proof. done. Qed.
Lemma wp_nw_stats f Q w :
  Q tt (w <| n_ctx := (n_ctx w) <| nc_stats := f <$> nc_stats (n_ctx w) |> |>) -> wp (nw_stats f) Q w.
Proof. done. Qed.
Lemma wp_nw_buffer n Q w : Q (n_junk w n) w -> wp (nw_buffer n) Q w.
Proof. done. Qed.
(** What the error callback sees. *)
Definition report (c : xgl_network_ctx_t) (err : xgl_error_t) : list network_event :=
  if bool_decide (nc_error_callback c = NULL) then [] else [nw_error err].
Lemma wp_nw_call_error err Q w :
  Q tt (w <| n_trace := n_trace w ++ report (n_ctx w) err |>) -> wp (nw_call_error err) Q w.
Proof.
  unfold report, nw_call_error. intros HQ. apply wp_bind, wp_nw_get. case_bool_decide; [|exact HQ].
  apply wp_ret. rewrite app_nil_r in HQ. by destruct w.
Qed.
Ltac nw_step :=
  lazymatch goal with
  | |- wp nw_get _ _ => apply wp_nw_get
  | |- wp (nw_stats _) _ _ => apply wp_nw_stats
  | |- wp network_count_rx_drop _ _ => apply wp_nw_stats
  | |- wp network_count_tx_error _ _ => apply wp_nw_stats
  | |- wp (nw_buffer _) _ _ => apply wp_nw_buffer
  | |- wp (nw_phy _) _ _ => apply wp_gets
  | |- wp (nw_call_error _) _ _ => apply wp_nw_call_error
  | _ => st_step
  end.

(** The frame, its header replaced, gets the CRC of the relay frame. *)
Lemma relay_seal h l tag body F j : frame_parts h l tag body F -> 1 < wh_ttl h -> bytes_ok j ->
  exists old crc, F = header_bytes h ++ old /\
    xgl_crc16_modbus (Ptr (header_bytes (one_hop h) ++ old ++ j)) 0 (zlen F - 2) = Some crc /\
    xgl_serialize_u16_le (header_bytes (one_hop h) ++ old ++ j) (zlen F - 2) crc =
      Some (relay_frame h l body ++ j).
Proof.
  intros (Hhead & Hb & _ & HF) Ht Hj. set (crc := le_bytes 2 (crc16 0xFFFF (head_bytes h l ++ body))) in *.
  exists (tlvs_bytes l ++ body ++ crc).
  pose proof (one_hop_ok _ _ _ Hhead Ht) as (Hh & _ & _ & Htl & _).
  set (body' := head_bytes (one_hop h) l ++ body).
  assert (header_bytes (one_hop h) ++ (tlvs_bytes l ++ body ++ crc) ++ j = body' ++ crc ++ j) as ->
    by (unfold body', head_bytes; by rewrite <- !app_assoc).
  assert (zlen F - 2 = zlen body') as ->.
  { rewrite HF, seal_zlen. unfold body', head_bytes. autorewrite with zlen. lia. }
  assert (bytes_ok (body' ++ crc ++ j)) as Hall.
  { unfold body', head_bytes. rewrite !Forall_app.
    split_and!; [by apply header_bytes_ok|by apply tlvs_bytes_ok|done|apply le_bytes_ok|done]. }
  pose proof (seal_run body' crc j (zlen body') Some Hall eq_refl (le_bytes_length _ _)) as Hrun.
  destruct (xgl_crc16_modbus _ _ _) as [c|] eqn:Hc; [|done]. cbn [mbind option_bind] in Hrun.
  exists c. split; [rewrite HF; unfold seal, head_bytes; fold crc; by rewrite <- !app_assoc|]. split; [done|].
  unfold relay_frame. fold body'. rewrite <- Hrun. by destruct (xgl_serialize_u16_le _ _ _).
Qed.

(** The copy is the relay frame, whatever the buffer held. *)
Lemma rewrite_run h l tag body F post junk w :
  frame_parts h l tag body F -> 1 < wh_ttl h -> zlen F <= zlen junk -> bytes_ok junk ->
  wp (network_rewrite_forward_frame (F ++ post) (zlen F) (h <| wh_header_crc16 := header_crc h |>) junk)
    (fun r w' => w' = w /\ exists rest, r = (XGL_OK, relay_frame h l body ++ rest)) w.
Proof.
  intros Hp Ht Hfit Hjunk. pose proof (parts_zlen _ _ _ _ _ Hp) as HFl.
  pose proof (parts_bounds _ _ _ _ _ Hp) as Hbnd.
  pose proof (one_hop_ok _ _ _ (proj1 Hp) Ht) as (Hh & Hr & _). pose proof (proj1 (proj1 Hp)) as Hh0.
  destruct (cut_buffer junk (zlen F)) as (j1 & j2 & -> & Hj1); [lia|]. apply Forall_app in Hjunk as [_ Hj2].
  destruct (relay_seal h l tag body F j2 Hp Ht Hj2) as (old & crc & HF & Hcrc & Hser).
  unfold network_rewrite_forward_frame. apply wp_bind. eapply wp_lift; [by apply rd_bytes_prefix|].
  apply wp_bind. eapply wp_lift; [apply wr_bytes_prefix; [by apply zlen_length|done]|].
  set (h' := h <| wh_header_crc16 := header_crc h |>).
  assert (xgl_wire_encode_header (F ++ j2) (zlen F) (h' <| wh_ttl := u8 (wh_ttl h' - 1) |>) =
    Some (XGL_OK, header_bytes (one_hop h) ++ old ++ j2)) as Henc.
  { rewrite HF at 1. rewrite <- app_assoc, <- (header_bytes_set_crc (one_hop h) (header_crc h)).
    assert (h' <| wh_ttl := u8 (wh_ttl h' - 1) |> = (one_hop h) <| wh_header_crc16 := header_crc h |>) as ->.
    { unfold h', one_hop. destruct h. cbn in *. apply wire_header_ok_spec in Hh0. cbn in Hh0. by rewrite u8_small by lia. }
    apply encode_header_run; [done|lia|exact Hh|exact Hr]. }
  apply wp_bind. eapply wp_lift; [exact Henc|]. cbn [is_ok negb]. unfold XGL_CRC16_SIZE.
  apply wp_bind. eapply wp_lift; [exact Hcrc|]. apply wp_bind. eapply wp_lift; [exact Hser|].
  apply wp_ret. split; [done|]. by exists j2.
Qed.

(** ** The decision *)

Inductive verdict :=
| vd_drop (err : xgl_error_t)
| vd_deliver (packet : xgl_packet_t)
| vd_forward (route : xgl_route_item_t) (frame : bytes).

(** Node [id] with the routes [routes], about the frame of [h], [l] and [body]. *)
Definition net_verdict (id : Z) (routes : gmap Z xgl_route_item_t) (h : xgl_wire_header_t) (l : list tlv)
    (body : bytes) : verdict :=
  match ext_meta l with
  | Some (XGL_OK, xm) =>
      if (wh_source_id h =? XGL_BROADCAST_ID) || (wh_source_id h =? wh_target_id h)
      then vd_drop XGL_ERR_INVALID_PARAM
      else if (wh_target_id h =? id) || (wh_target_id h =? XGL_BROADCAST_ID)
      then vd_deliver (frame_packet h l xm (take (Z.to_nat (wh_payload_len h)) body))
      else
        match routes !! wh_target_id h with
        | None => vd_drop XGL_ERR_ROUTE_NOT_FOUND
        | Some route =>
            if wh_ttl h <=? 1 then vd_drop XGL_ERR_TTL_EXPIRED
            else if Z.min XGL_DATALINK_MAX_FRAME_SIZE (ri_max_frame_size route) <? zlen (relay_frame h l body)
            then vd_drop XGL_ERR_BUFFER_TOO_SMALL
            else vd_forward route (relay_frame h l body)
        end
  | _ => vd_drop XGL_ERR_INVALID_FRAME
  end.

Definition reported (err : xgl_error_t) : bool :=
  bool_decide (err = XGL_ERR_ROUTE_NOT_FOUND) || bool_decide (err = XGL_ERR_TTL_EXPIRED).
Definition can_deliver (c : xgl_network_ctx_t) : bool :=
  match nc_upper_layer c with NULL => false | Ptr iface => negb (bool_decide (li_receive iface = NULL)) end.
Definition can_transmit (w : nw_world) (route : xgl_route_item_t) : option xgl_phy_ops_t :=
  match n_phys w <$> ri_phy route with
  | Ptr phy => if bool_decide (phy_tx phy = NULL) then None else Some phy
  | NULL => None
  end.
Definition copy_refused (w : nw_world) (size : Z) : bool :=
  (XGL_NETWORK_FORWARD_STACK_BUFFER_SIZE <? size) && negb (fst (alloc_answer size (n_heap w))).

(** What the node returns and does when it follows the decision. *)
Definition follows (w : nw_world) (v : verdict) (err : xgl_error_t) (events : list network_event) : Prop :=
  match v with
  | vd_drop e => err = e /\ events = if reported e then report (n_ctx w) e else []
  | vd_deliver p =>
      if can_deliver (n_ctx w)
      then err = answer (n_up w) /\ exists q, events = [nw_up q] /\ view_packet q = p
      else err = XGL_OK /\ events = []
  | vd_forward route F =>
      if copy_refused w (zlen F) then err = XGL_ERR_NO_MEMORY /\ events = []
      else match can_transmit w route with
           | Some phy => err = (if is_ok (answer (n_tx w)) then XGL_OK else XGL_ERR_TX_FAILED) /\
                         events = [nw_tx phy F]
           | None => err = XGL_OK /\ events = []
           end
  end.

(** A node: its table represents the routes [es]; its buffers are buffers. *)
Definition nw_ok (w : nw_world) (es : list xgl_route_item_t) : Prop :=
  n_junk_ok (n_junk w) /\
  match nc_route_table (n_ctx w) with NULL => es = [] | Ptr table => route_rep table es end.

Lemma did_ok events w w' es : did events w w' -> nw_ok w es -> nw_ok w' es.
Proof. intros ((Hc & _ & Hj) & _) Hok. unfold nw_ok. rewrite Hj, Hc. exact Hok. Qed.
Lemma did_report events w w' err : did events w w' ->
  did (events ++ report (n_ctx w) err) w (w' <| n_trace := n_trace w' ++ report (n_ctx w') err |>).
Proof.
  intros ((Hc & Hs) & Ht). split; [by split|]. cbn. rewrite Ht, <- app_assoc. do 2 f_equal.
  unfold report. by rewrite Hc.
Qed.

Lemma wp_nw_lookup w es k Q : nw_ok w es -> is_u16 k = true -> Q (route_map es !! k) w -> wp (nw_lookup k) Q w.
Proof.
  intros (_ & Ht) Hk HQ. unfold nw_lookup. nw_step. nw_step.
  destruct (nc_route_table (n_ctx w)) as [table|]; [|by subst].
  destruct (route_lookup_rep table es k Ht Hk) as (p & Hp & Hr).
  nw_step. eapply wp_lift; [exact Hp|]. destruct p as [p|]; [|by rewrite Hr in HQ; nw_step].
  destruct Hr as [Hd Hne]. destruct (route_map es !! k) as [r|]; [|done].
  nw_step. eapply wp_lift; [exact Hd|]. by nw_step.
Qed.
Lemma wp_nw_transmit phy F rest Q w :
  Q (answer (n_tx w)) (w <| n_trace := n_trace w ++ [nw_tx phy F] |> <| n_tx := tail (n_tx w) |>) ->
  wp (nw_transmit phy (F ++ rest) (zlen F)) Q w.
Proof.
  intros HQ. unfold nw_transmit. nw_step. eapply wp_lift; [by apply rd_bytes_prefix|]. exact HQ.
Qed.

Section receive.
  Context (w0 : nw_world) (es : list xgl_route_item_t) (h : xgl_wire_header_t) (l : list tlv) (tag : Z)
    (body F post : bytes).
  Context (Hok : nw_ok w0 es) (Hp : frame_parts h l tag body F) (Hpost : bytes_ok post).

(** The copy is made and transmitted, from a world that differs in counters only. *)
Lemma transmit_follows w route junk :
  1 < wh_ttl h -> zlen F <= zlen junk -> bytes_ok junk -> did [] w0 w -> n_tx w = n_tx w0 ->
  copy_refused w0 (zlen F) = false ->
  wp (forward_transmit route (F ++ post) (zlen F) (h <| wh_header_crc16 := header_crc h |>) junk)
    (fun err w' => exists events, did events w0 w' /\ follows w0 (vd_forward route (relay_frame h l body)) err events) w.
Proof.
  intros Ht Hfit Hjunk Hdid Htx Hcopy. pose proof (relay_zlen _ _ _ _ _ Hp) as Hz.
  unfold follows, can_transmit. rewrite Hz, Hcopy. unfold forward_transmit. nw_step.
  eapply wp_mono; [by apply (rewrite_run h l tag body)|]. intros ? ? (-> & rest & ->). cbn beta iota. cbn [is_ok negb].
  nw_step. nw_step. pose proof Hdid as ((_ & -> & _) & _).
  destruct (n_phys w0 <$> ri_phy route) as [phy|]; [|nw_step; by exists []].
  destruct (bool_decide (phy_tx phy = NULL)); [nw_step; by exists []|]. rewrite <- Hz. nw_step.
  apply wp_nw_transmit. rewrite Htx. apply (did_event _ _ _ (nw_tx phy (relay_frame h l body))) in Hdid.
  destruct (is_ok (answer (n_tx w0))); cbn [negb].
  - nw_step. eexists. split; [|by split]. exact Hdid.
  - nw_step. nw_step. nw_step. eexists. split; [|by split]. apply did_stats. exact Hdid.
Qed.

Lemma forward_follows w m :
  did [] w0 w -> n_heap w = n_heap w0 -> n_tx w = n_tx w0 ->
  nm_header m = h <| wh_header_crc16 := header_crc h |> ->
  wp (network_forward_remote (F ++ post) (zlen F) m)
    (fun err w' => exists events, did events w0 w' /\
       follows w0 (match route_map es !! wh_target_id h with
                   | None => vd_drop XGL_ERR_ROUTE_NOT_FOUND
                   | Some route =>
                       if wh_ttl h <=? 1 then vd_drop XGL_ERR_TTL_EXPIRED
                       else if Z.min XGL_DATALINK_MAX_FRAME_SIZE (ri_max_frame_size route) <?
                               zlen (relay_frame h l body)
                       then vd_drop XGL_ERR_BUFFER_TOO_SMALL
                       else vd_forward route (relay_frame h l body)
                   end) err events) w.
Proof.
  intros Hdid Hheap Htx Hm. pose proof (relay_zlen _ _ _ _ _ Hp) as Hz. rewrite Hz.
  pose proof (proj1 (proj1 Hp)) as Hh. apply wire_header_ok_spec in Hh as (_ & _ & Htarget & _).
  unfold network_forward_remote, network_lookup_forward_route. rewrite Hm.
  change (wh_target_id (h <| wh_header_crc16 := header_crc h |>)) with (wh_target_id h).
  change (wh_ttl (h <| wh_header_crc16 := header_crc h |>)) with (wh_ttl h).
  nw_step. nw_step. apply (wp_nw_lookup _ es); [by eapply did_ok|unwrap_ints; lia|].
  destruct (route_map es !! wh_target_id h) as [route|].
  2: { repeat nw_step. cbn [is_ok negb]. repeat nw_step. eexists. split; [|by split].
       apply did_stats. by apply (did_report []). }
  nw_step. cbn beta iota. cbn [is_ok negb]. nw_step. unfold network_validate_forward_ttl.
  destruct (Z.ltb_spec 1 (wh_ttl h)) as [Ht|Ht].
  2: { replace (wh_ttl h <=? 1) with true by lia. repeat nw_step. cbn [is_ok negb]. repeat nw_step.
       eexists. split; [|by split]. apply (did_report []). by apply did_stats. }
  replace (wh_ttl h <=? 1) with false by lia. nw_step. cbn [is_ok negb]. nw_step. nw_step. nw_step. nw_step.
  set (w1 := w <| n_ctx := _ |>). assert (did [] w0 w1) as Hdid1 by by apply did_stats.
  nw_step. unfold network_validate_forward_size.
  destruct (_ || _) eqn:Hsize.
  { replace (Z.min _ _ <? zlen F) with true by lia. repeat nw_step. cbn [is_ok negb]. repeat nw_step.
    eexists. split; [|by split]. by apply did_stats. }
  replace (Z.min _ _ <? zlen F) with false by lia. nw_step. cbn [is_ok negb].
  destruct Hok as (Hjunk & _). pose proof (zlen_nonneg F).
  assert (n_junk w1 = n_junk w0) as Hj by apply Hdid1.
  destruct (XGL_NETWORK_FORWARD_STACK_BUFFER_SIZE <? zlen F) eqn:Hbig.
  - nw_step. unfold wp at 1, nw_malloc. change (n_heap w1) with (n_heap w). rewrite Hheap.
    destruct (alloc_answer (zlen F) (n_heap w0)) as [ok heap] eqn:Hal.
    assert (copy_refused w0 (zlen F) = negb ok) as Hcopy by (unfold copy_refused; by rewrite Hbig, Hal).
    destruct ok; cbn [negb] in *.
    + nw_step. nw_step. apply transmit_follows; try done; try (change (n_junk _) with (n_junk w1); rewrite Hj; apply Hjunk; lia).
      destruct (Hjunk (zlen F)) as [Hl _]; [lia|]. change (n_junk _) with (n_junk w1). rewrite Hj. lia.
    + repeat nw_step. eexists. split; [|unfold follows; rewrite Hz, Hcopy; by split]. by do 2 apply did_stats.
  - assert (copy_refused w0 (zlen F) = false) as Hcopy by (unfold copy_refused; by rewrite Hbig).
    nw_step. nw_step. rewrite Hj. destruct (Hjunk XGL_NETWORK_FORWARD_STACK_BUFFER_SIZE) as [Hl Hlok]; [done|].
    apply transmit_follows; try done. lia.
Qed.

Lemma receive_follows :
  wp (xgl_network_receive (Ptr (F ++ post)) (zlen F))
    (fun err w' => exists events, did events w0 w' /\
       follows w0 (net_verdict (nc_local_id (n_ctx w0)) (route_map es) h l body) err events) w0.
Proof.
  pose proof (proj1 (proj1 Hp)) as Hh. pose proof (proj1 (proj2 (proj1 Hp))) as Hr.
  destruct (network_decode_frame h l tag body F post Hp Hpost) as (err & m & xm & Hdec & Hx & Hres).
  unfold xgl_network_receive, net_verdict. nw_step. eapply wp_lift; [exact Hdec|]. rewrite Hx. nw_step. nw_step.
  destruct (decide (err = XGL_OK)) as [->|Hne].
  2: { assert (is_ok err = false) as -> by by destruct err. cbn [negb]. repeat nw_step. exists [].
       split; [apply did_stats, did_refl|]. destruct (ext_meta_total l) as (e & x & E & [|]); [apply Hp|congruence|].
       rewrite E in Hx. injection Hx as -> ->. subst. by split. }
  destruct (Hres eq_refl) as (Hm & Hpl & Hview). cbn [is_ok negb]. rewrite Hm.
  change (wh_target_id (h <| wh_header_crc16 := header_crc h |>)) with (wh_target_id h).
  change (wh_source_id (h <| wh_header_crc16 := header_crc h |>)) with (wh_source_id h).
  assert (negb (xgl_network_validate_address (Ptr (n_ctx w0)) (wh_target_id h) (wh_source_id h)) =
    (wh_source_id h =? XGL_BROADCAST_ID) || (wh_source_id h =? wh_target_id h)) as ->.
  { unfold xgl_network_validate_address. unfold wire_header_rejected in Hr. unfold XGL_BROADCAST_ID.
    rewrite !orb_false_iff in Hr. destruct (Z.eqb_spec (wh_source_id h) 65535); [done|].
    replace (wh_source_id h =? 0) with false by lia. cbn [orb].
    destruct (Z.eqb_spec (wh_source_id h) (wh_target_id h)); [|done].
    by replace (wh_target_id h =? 65535) with false by lia. }
  destruct (_ || _); [repeat nw_step; exists []; split; [apply did_stats, did_refl|by split]|].
  unfold xgl_network_is_local. destruct (_ || _).
  2: { apply forward_follows; try done. apply did_refl. }
  unfold network_deliver_local. do 4 nw_step. unfold follows, can_deliver.
  change (nc_upper_layer _) with (nc_upper_layer (n_ctx w0)) at 1.
  destruct (nc_upper_layer (n_ctx w0)) as [iface|]; [|nw_step; exists []; split; [apply did_stats, did_refl|done]].
  destruct (bool_decide (li_receive iface = NULL)); cbn [negb]; [nw_step; exists []; split; [apply did_stats, did_refl|done]|].
  unfold nw_pass_up. nw_step. unfold nw_emit. repeat nw_step. eexists. split; [|split; [done|]].
  - apply (did_event [] w0 _ (nw_up (packet_of_frame m))), did_stats, did_refl.
  - eexists. by split.
Qed.
End receive.

(** ** A sample network *)

Definition empty_table : xgl_route_table_t := (xgl_route_table_init 1 0 []).1.2.
Definition sample_table : xgl_route_table_t :=
  match xgl_route_table_add empty_table 2 (Ptr 7) 64 0 20 [] with
  | Some (_, t, _) => t
  | None => empty_table
  end.
Lemma sample_table_rep : exists es, route_rep sample_table es.
Proof.
  pose proof (route_init_rep 1 0 [] [] empty_table eq_refl ltac:(lia)) as H0. unfold sample_table.
  destruct (route_add_rep empty_table [] 2 7 64 0 20 [] H0 eq_refl) as (err & t & env & es & -> & Hrep & _).
  by exists es.
Qed.
(** Node [id], with a driver at address 7 and an upper layer. *)
Definition sample_node (id : Z) : nw_world :=
  mk_nw_world (mk_network id (Ptr sample_table) (Ptr (mk_layer NULL (Ptr 3) NULL)) (Ptr (mk_layer (Ptr 4) NULL NULL))
    (Ptr 5) (Ptr zero_layer_stats) false 0 NULL) (fun _ => mk_phy (Ptr 1) (Ptr 2) 0) [] [] [] []
    (fun n => replicate (Z.to_nat n) 170) [].
Lemma sample_node_ok id : exists es, nw_ok (sample_node id) es.
Proof.
  destruct sample_table_rep as [es Hes]. exists es. split; [|exact Hes]. intros n Hn. cbn. split.
  - unfold zlen. rewrite length_replicate. lia.
  - apply Forall_replicate. lia.
Qed.
(** From node 1 to node 2, with the extension DATA_TYPE 9 and three bytes of payload. *)
Definition sample_header : xgl_wire_header_t := mk_wire_header 2 27 1 2 8 0 1 2 7 42 3 0.
Definition sample_exts : list tlv := [(XGL_WIRE_EXT_DATA_TYPE, [9])].
Definition sample_bytes (h : xgl_wire_header_t) : bytes := seal (head_bytes h sample_exts ++ [1; 2; 3]).
Lemma sample_parts : frame_parts sample_header sample_exts 0 [1; 2; 3] (sample_bytes sample_header).
Proof.
  split; [|split; [repeat constructor; lia|split; [done|done]]].
  split; [done|]. split; [done|]. split; [done|]. split; [|split; [done|by left]].
  apply Forall_singleton. split; [unfold XGL_WIRE_EXT_DATA_TYPE; cbn; lia|]. split; [by vm_compute|]. apply Forall_singleton. lia.
Qed.

(** ** Property *)

(** C10. Routing decides as specified: on a well-formed frame (in a buffer that may
    be longer) and a route table that represents [es], [xgl_network_receive] is
    defined and does what the pure function [net_verdict] of the node's id, the
    map of its routes and the parts of the frame says: it refuses bad
    extensions and addresses; hands a frame for this node or for all to the upper
    layer as the packet it carries, and never forwards it; reports and drops a
    frame without a route or at the end of its life; drops what is too
    large for the route; and otherwise transmits on the route's driver the same
    frame with one hop less to live and both checksums renewed. *)
Theorem network_receive_follows_verdict (w : nw_world) (es : list xgl_route_item_t)
    (h : xgl_wire_header_t) (l : list tlv) (tag : Z) (body F post : bytes) :
  nw_ok w es -> frame_parts h l tag body F -> bytes_ok post ->
  exists err w' events, xgl_network_receive (Ptr (F ++ post)) (zlen F) w = Some (err, w') /\
    same_node w w' /\ n_trace w' = n_trace w ++ events /\
    follows w (net_verdict (nc_local_id (n_ctx w)) (route_map es) h l body) err events.
Proof.
  intros Hok Hp Hpost. pose proof (receive_follows w es h l tag body F post Hok Hp Hpost) as Hwp.
  apply wp_run in Hwp as (err & w' & Hrun & events & (Hs & Ht) & Hf). by exists err, w', events.
Qed.
Lemma network_receive_follows_verdict_witness :
  exists es err w' events,
    xgl_network_receive (Ptr (sample_bytes sample_header ++ [0])) (zlen (sample_bytes sample_header)) (sample_node 5) =
      Some (err, w') /\
    same_node (sample_node 5) w' /\ n_trace w' = [] ++ events /\
    follows (sample_node 5) (net_verdict 5 (route_map es) sample_header sample_exts [1; 2; 3]) err events.
Proof.
  destruct (sample_node_ok 5) as [es Hok]. exists es.
  refine (network_receive_follows_verdict (sample_node 5) es _ _ _ _ _ [0] Hok sample_parts _).
  repeat constructor; lia.
Defined.
