(* ===== verification/NetworkPath.v ===== *)
(** * A frame on its way through the network

    The decision of one node, and what becomes of a frame that several nodes
    forward in turn: their routes may form any graph, loops included. *)
From S2P Require Import Prelude State Errors Serialize Layer Wire Frame Parser HashTable Route Network NetworkInv.

(** ** After [k] hops *)

Definition hops (k : Z) (h : xgl_wire_header_t) : xgl_wire_header_t := h <| wh_ttl := wh_ttl h - k |>.
Lemma hops_0 h : hops 0 h = h.
Proof. unfold hops. rewrite Z.sub_0_r. by destruct h. Qed.
Lemma hops_hops a b h : hops a (hops b h) = hops (b + a) h.
Proof. unfold hops. destruct h. cbn. f_equal. lia. Qed.

(** The header differs in the TTL and the checksum only. *)
Lemma head_bytes_hops k h l : exists x y z, head_bytes (hops k h) l = hop x y z (head_bytes h l).
Proof.
  unfold head_bytes, header_bytes, hop.
  exists (wh_ttl h - k), (nth 0 (le_bytes 2 (header_crc (hops k h))) 0), (nth 1 (le_bytes 2 (header_crc (hops k h))) 0).
  unfold header_prefix. reflexivity.
Qed.
Lemma canon_hops k h l : canon (head_bytes (hops k h) l) = canon (head_bytes h l).
Proof.
  destruct (head_bytes_hops k h l) as (x & y & z & ->). apply canon_hop_bytes.
  unfold has_frame_header, head_bytes. rewrite zlen_app, header_bytes_zlen. pose proof (zlen_nonneg (tlvs_bytes l)).
  by replace (24 <=? 24 + zlen (tlvs_bytes l)) with true by lia.
Qed.

(** The trailer's verdict depends on the canonical AAD, the payload and the tag. *)
Lemma verify_same a a' body c c' n pl key provider v :
  zlen a = zlen a' -> zlen c = zlen c' -> canon a = canon a' -> 24 <= zlen a <= 255 ->
  n <= zlen a + zlen body -> 0 <= pl ->
  xgl_wire_verify_auth_trailer (a ++ body ++ c) n (zlen a) pl key provider v =
  xgl_wire_verify_auth_trailer (a' ++ body ++ c') n (zlen a) pl key provider v.
Proof.
  intros Ha Hc Hcan Hlen Hn Hpl. unfold xgl_wire_verify_auth_trailer.
  destruct provider as [p|]; [|done]. destruct (ap_verify p) as [verify|]; [|done].
  destruct (_ || _); [done|]. destruct (n <=? zlen a + pl) eqn:Hle; [done|].
  destruct (negb _); [done|]. pose proof (zlen_nonneg body). pose proof (zlen_nonneg c).
  assert (forall b e, zlen b = zlen a -> zlen e = zlen c -> exists prepared,
    wire_auth_canonical_aad (b ++ body ++ e) (zlen a) (replicate 255 0) UINT8_MAX = Some (XGL_OK, prepared) /\
    rd_bytes prepared 0 (zlen a) = Some (canon b) /\
    forall off k, zlen a <= off -> 0 <= k -> off + k <= zlen a + zlen body ->
      rd_bytes (b ++ body ++ e) off k = rd_bytes body (off - zlen a) k) as Hrun.
  { intros b e Hb He. pose proof (canonical_aad_spec (b ++ body ++ e) (zlen a)) as Hs.
    rewrite !zlen_app, Hb, He in Hs. specialize (Hs ltac:(lia)).
    rewrite take_app_length' in Hs by (unfold zlen in *; lia).
    replace (255 <? zlen a) with false in Hs by lia. rewrite andb_false_r in Hs.
    destruct Hs as (prepared & -> & Hprep). exists prepared. split; [done|]. split; [done|].
    intros off k Hoff Hk Hfit. rewrite !rd_bytes_Some by (rewrite ?zlen_app; lia). f_equal.
    rewrite drop_app_ge by (unfold zlen in *; lia).
    replace (Z.to_nat off - length b)%nat with (Z.to_nat (off - zlen a)) by (unfold zlen in *; lia).
    rewrite drop_app_le by (unfold zlen in *; lia). apply take_app_le. rewrite length_drop. unfold zlen in *. lia. }
  destruct (Hrun a c eq_refl eq_refl) as (p1 & -> & Hp1 & Hr1).
  destruct (Hrun a' c' ltac:(lia) ltac:(lia)) as (p2 & -> & Hp2 & Hr2).
  cbn [mbind option_bind is_ok negb]. rewrite Hp1, Hp2, Hcan. cbn [mbind option_bind].
  by rewrite !Hr1, !Hr2 by lia.
Qed.

(** ** Paths *)

(** [F], received by the nodes [ws] one after the other - each in the state given,
    each transmitting what it forwards to the next - leaves the last one as [G]. *)
Inductive travels : bytes -> list nw_world -> bytes -> Prop :=
| travels_nil F : travels F [] F
| travels_cons F w err w' phy F' ws G :
    xgl_network_receive (Ptr F) (zlen F) w = Some (err, w') -> n_trace w' = n_trace w ++ [nw_tx phy F'] ->
    travels F' ws G -> travels F (w :: ws) G.

Lemma receive_whole w es h l tag body F err w' : nw_ok w es -> frame_parts h l tag body F ->
  xgl_network_receive (Ptr F) (zlen F) w = Some (err, w') ->
  exists events, did events w w' /\ follows w (net_verdict (nc_local_id (n_ctx w)) (route_map es) h l body) err events.
Proof.
  intros Hok Hp Hrun. pose proof (receive_follows w es h l tag body F [] Hok Hp ltac:(constructor)) as Hwp.
  rewrite app_nil_r in Hwp. unfold wp in Hwp. by rewrite Hrun in Hwp.
Qed.

(** What one event of a node says about its decision. *)
Lemma forwarded_frame w es h l tag body F err w' phy G : nw_ok w es -> frame_parts h l tag body F ->
  xgl_network_receive (Ptr F) (zlen F) w = Some (err, w') -> n_trace w' = n_trace w ++ [nw_tx phy G] ->
  1 < wh_ttl h /\ G = relay_frame h l body.
Proof.
  intros Hok Hp Hrun Htr. destruct (receive_whole _ _ _ _ _ _ _ _ _ Hok Hp Hrun) as (events & (_ & Ht) & Hf).
  rewrite Htr in Ht. apply app_inv_head in Ht. subst events. revert Hf. unfold net_verdict.
  destruct (ext_meta l) as [[[] xm]|]; try (cbn; by intros [_ Hev]).
  destruct (_ || _); [cbn; by intros [_ Hev]|]. destruct (_ || _).
  { cbn. destruct (can_deliver _); [by intros (_ & q & Hev & _)|by intros [_ Hev]]. }
  destruct (route_map es !! _) as [route|]; [|cbn; unfold report; case_bool_decide; by intros [_ Hev]].
  destruct (wh_ttl h <=? 1) eqn:Hle; [cbn; unfold report; case_bool_decide; by intros [_ Hev]|].
  destruct (_ <? _); [cbn; by intros [_ Hev]|]. cbn.
  destruct (copy_refused _ _); [by intros [_ Hev]|]. destruct (can_transmit _ _); [|by intros [_ Hev]].
  intros [_ [= _ ->]]. split; [lia|done].
Qed.
Lemma delivered_packet w es h l tag body F err w' q : nw_ok w es -> frame_parts h l tag body F ->
  xgl_network_receive (Ptr F) (zlen F) w = Some (err, w') -> n_trace w' = n_trace w ++ [nw_up q] ->
  (wh_target_id h = nc_local_id (n_ctx w) \/ wh_target_id h = XGL_BROADCAST_ID) /\
  exists xm, ext_meta l = Some (XGL_OK, xm) /\
    view_packet q = frame_packet h l xm (take (Z.to_nat (wh_payload_len h)) body).
Proof.
  intros Hok Hp Hrun Htr. destruct (receive_whole _ _ _ _ _ _ _ _ _ Hok Hp Hrun) as (events & (_ & Ht) & Hf).
  rewrite Htr in Ht. apply app_inv_head in Ht. subst events. revert Hf. unfold net_verdict.
  destruct (ext_meta l) as [[[] xm]|]; try (cbn; by intros [_ Hev]).
  destruct (_ || _); [cbn; by intros [_ Hev]|]. destruct (_ || _) eqn:Hlocal.
  { cbn. destruct (can_deliver _); [|by intros [_ Hev]]. intros (_ & q' & [= <-] & Hq). split; [lia|by exists xm]. }
  destruct (route_map es !! _) as [route|]; [|cbn; unfold report; case_bool_decide; by intros [_ Hev]].
  destruct (wh_ttl h <=? 1) eqn:Hle; [cbn; unfold report; case_bool_decide; by intros [_ Hev]|].
  destruct (_ <? _); [cbn; by intros [_ Hev]|]. cbn.
  destruct (copy_refused _ _); [by intros [_ Hev]|]. destruct (can_transmit _ _); by intros [_ Hev].
Qed.

Lemma travel_parts F ws G : travels F ws G -> Forall (fun w => exists es, nw_ok w es) ws ->
  forall h l tag body, frame_parts h l tag body F ->
  (ws = [] \/ zlen ws < wh_ttl h) /\ frame_parts (hops (zlen ws) h) l tag body G.
Proof.
  induction 1 as [F|F w err w' phy F' ws G Hrun Htr _ IH]; intros Hws h l tag body Hp.
  { split; [by left|]. by rewrite hops_0. }
  apply Forall_cons in Hws as [(es & Hok) Hws].
  destruct (forwarded_frame _ _ _ _ _ _ _ _ _ _ _ Hok Hp Hrun Htr) as [Ht ->].
  destruct (IH Hws (hops 1 h) l tag body) as [Hlen Hparts]; [by eapply relay_parts|].
  rewrite zlen_cons. rewrite hops_hops in Hparts. split; [|exact Hparts].
  right. destruct Hlen as [->|Hlen]; [done|]. cbn in Hlen. lia.
Qed.

Lemma frame_packet_hops k h l xm pl :
  frame_packet (hops k h) l xm pl = (frame_packet h l xm pl) <| pk_ttl := wh_ttl h - k |>.
Proof.
  unfold frame_packet, frame_metadata. generalize (header_crc (hops k h)), (header_crc h).
  generalize (match l with [] => NULL | _ => Ptr (tlvs_bytes l) end), (zlen (tlvs_bytes l)), (zlen pl).
  intros e el pll c1 c2. destruct h. unfold classify, packet_of_frame, hops. cbn. by repeat case_match.
Qed.

Lemma verify_travelled k h l tag body F G key provider v :
  frame_parts h l tag body F -> frame_parts (hops k h) l tag body G ->
  xgl_wire_verify_auth_trailer G (zlen G - 2) (wh_header_len h) (wh_payload_len h) key provider v =
  xgl_wire_verify_auth_trailer F (zlen F - 2) (wh_header_len h) (wh_payload_len h) key provider v.
Proof.
  intros Hp Hg. pose proof (parts_bounds _ _ _ _ _ Hp) as Hbnd.
  assert (zlen G = zlen F) as Hz by (by rewrite (parts_zlen _ _ _ _ _ Hp), (parts_zlen _ _ _ _ _ Hg)).
  destruct Hp as ((_ & _ & Hl & _) & _ & _ & HF), Hg as (_ & _ & _ & HG).
  assert (forall k, zlen (head_bytes (hops k h) l) = wh_header_len h) as Hhl.
  { intros k'. unfold head_bytes. rewrite zlen_app, header_bytes_zlen. lia. }
  pose proof (Hhl 0) as Hh0. rewrite hops_0 in Hh0.
  assert (zlen F - 2 = wh_header_len h + zlen body) as Hn by (rewrite HF, seal_zlen, zlen_app; lia).
  rewrite Hz, Hn, HF, HG. unfold seal. rewrite <- !app_assoc, <- (Hhl k).
  apply verify_same; rewrite ?Hhl; try lia; [by unfold zlen; rewrite !le_bytes_length|apply canon_hops].
Qed.

Definition after (w : nw_world) (F : bytes) : nw_world :=
  match xgl_network_receive (Ptr F) (zlen F) w with Some (_, w') => w' | None => w end.

(** ** Properties *)

(** C9. A frame on its way: whatever routes the nodes have - loops included - a
    frame with TTL [t] is forwarded fewer than [t] times; after [k] times it
    is still a well-formed frame of the same length that differs from the one
    sent in the TTL (lower by [k]) and the checksums only, its authentication
    trailer verifies as at the sender, and the node that delivers it is its target
    (or it is a broadcast) and hands up the packet that was sent, with the
    lower TTL. *)
Theorem forwarding_terminates_and_preserves (F G : bytes) (ws : list nw_world)
    (h : xgl_wire_header_t) (l : list tlv) (tag : Z) (body : bytes) :
  frame_parts h l tag body F -> Forall (fun w => exists es, nw_ok w es) ws -> travels F ws G ->
  (ws = [] \/ zlen ws < wh_ttl h) /\ frame_parts (hops (zlen ws) h) l tag body G /\ zlen G = zlen F /\
  (forall key provider v,
     xgl_wire_verify_auth_trailer G (zlen G - 2) (wh_header_len h) (wh_payload_len h) key provider v =
     xgl_wire_verify_auth_trailer F (zlen F - 2) (wh_header_len h) (wh_payload_len h) key provider v) /\
  (forall w es err w' q, nw_ok w es -> xgl_network_receive (Ptr G) (zlen G) w = Some (err, w') ->
     n_trace w' = n_trace w ++ [nw_up q] ->
     (wh_target_id h = nc_local_id (n_ctx w) \/ wh_target_id h = XGL_BROADCAST_ID) /\
     exists xm, ext_meta l = Some (XGL_OK, xm) /\
       view_packet q = (frame_packet h l xm (take (Z.to_nat (wh_payload_len h)) body))
                         <| pk_ttl := wh_ttl h - zlen ws |>).
Proof.
  intros Hp Hws Htr. destruct (travel_parts F ws G Htr Hws h l tag body Hp) as [Hlen Hg].
  split; [done|]. split; [done|]. split; [by rewrite (parts_zlen _ _ _ _ _ Hp), (parts_zlen _ _ _ _ _ Hg)|].
  split; [intros; by eapply verify_travelled|]. intros w es err w' q Hok Hrun Hq.
  destruct (delivered_packet _ _ _ _ _ _ _ _ _ _ Hok Hg Hrun Hq) as (Htarget & xm & Hx & Hv).
  split; [exact Htarget|]. exists xm. split; [done|]. rewrite <- frame_packet_hops. exact Hv.
Qed.
Definition frame1 : bytes := sample_bytes (hops 1 sample_header).
Definition frame2 : bytes := sample_bytes (hops 2 sample_header).
Lemma forwarding_terminates_and_preserves_witness :
  zlen [sample_node 5; sample_node 6] < 8 /\
  exists xm, ext_meta sample_exts = Some (XGL_OK, xm) /\
    view_packet (match n_trace (after (sample_node 2) frame2) with [nw_up q] => q | _ => zero_packet end) =
      (frame_packet sample_header sample_exts xm [1; 2; 3]) <| pk_ttl := 6 |>.
Proof.
  assert (travels (sample_bytes sample_header) [sample_node 5; sample_node 6] frame2) as Htr.
  { apply (travels_cons _ _ XGL_OK (after (sample_node 5) (sample_bytes sample_header)) (mk_phy (Ptr 1) (Ptr 2) 0) frame1);
      [vm_compute; reflexivity..|].
    apply (travels_cons _ _ XGL_OK (after (sample_node 6) frame1) (mk_phy (Ptr 1) (Ptr 2) 0) frame2);
      [vm_compute; reflexivity..|]. constructor. }
  destruct (forwarding_terminates_and_preserves _ frame2 _ sample_header sample_exts 0 [1; 2; 3] sample_parts
    (Forall_cons_2 _ _ _ (sample_node_ok 5) (Forall_cons_2 _ _ _ (sample_node_ok 6) (Forall_nil_2 _))) Htr)
    as (_ & _ & _ & _ & Hdel).
  split; [done|]. destruct (sample_node_ok 2) as [es Hok].
  destruct (Hdel (sample_node 2) es XGL_OK (after (sample_node 2) frame2)
    (match n_trace (after (sample_node 2) frame2) with [nw_up q] => q | _ => zero_packet end) Hok) as (_ & xm & Hx & Hq);
    [vm_compute; reflexivity..|].
  exists xm. split; [exact Hx|exact Hq].
Defined.
