(* ===== verification/NetworkSend.v ===== *)
(** * The send path of the network layer

    What [xgl_network_send_with_handle] hands to the data link for a packet that it
    accepts, and what the receiving network layer makes of it. *)
From S2P Require Import Prelude State Errors Serialize Crc Layer Wire WireExt ExtWalk Frame FrameView Parser HashTable Route Network NetworkInv.

(** ** The extensions of the frame *)

(** The packet's extensions, and DATA_TYPE behind them when it is missing. *)
Definition frame_exts (p : xgl_packet_t) (l : list tlv) (xm : xgl_network_ext_metadata_t) : list tlv :=
  if xm_data_type_found xm || (pk_data_type p =? 0) then l
  else l ++ [(XGL_WIRE_EXT_DATA_TYPE, [pk_data_type p])].
Definition frame_data_type (p : xgl_packet_t) (xm : xgl_network_ext_metadata_t) : Z :=
  if xm_data_type_found xm then xm_data_type xm else pk_data_type p.
(** The extensions decode to [xm] and do not contradict the packet's data type. *)
Definition exts_ok (p : xgl_packet_t) (l : list tlv) (xm : xgl_network_ext_metadata_t) : Prop :=
  Forall tlv_ok l /\ ext_meta l = Some (XGL_OK, xm) /\ 0 <= pk_data_type p < 256 /\
  (xm_data_type_found xm = true -> pk_data_type p = 0 \/ pk_data_type p = xm_data_type xm) /\
  zlen (tlvs_bytes (frame_exts p l xm)) <= 231.

Lemma meta_body_default m x m' : ext_metadata_body m x = Some (inl m') ->
  (xm_data_type_found m = false -> xm_data_type m = 0) -> xm_data_type_found m' = false -> xm_data_type m' = 0.
Proof.
  unfold ext_metadata_body. intros Hb Hm. destruct (_ =? _).
  - destruct (e_value x) as [v|]; [|done]. destruct (_ || _); [done|].
    apply bind_Some in Hb as (t & _ & [= <-]). done.
  - destruct (_ =? _); [|by injection Hb as <-]. destruct (xm_session_epoch_found m); [done|].
    apply bind_Some in Hb as (v & _ & Hb). apply bind_Some in Hb as ([err out] & _ & Hb).
    destruct (negb _); [done|]. injection Hb as <-. by destruct out as [[]|].
Qed.
Lemma ext_meta_walk l xm : Forall tlv_ok l -> ext_meta l = Some (XGL_OK, xm) ->
  tlv_walk ext_metadata_body l zero_ext_metadata = Some (inl xm) /\
  (xm_data_type_found xm = false -> xm_data_type xm = 0).
Proof.
  unfold ext_meta. intros Hl. assert (xm_data_type_found zero_ext_metadata = false -> xm_data_type zero_ext_metadata = 0)
    as H0 by done. revert H0. generalize zero_ext_metadata.
  induction Hl as [|x l Hx _ IH]; intros m0 H0 Hrun; cbn [tlv_walk] in *.
  { by injection Hrun as <-. }
  destruct (meta_body_total m0 x Hx) as ([m|[err m]] & Hb & Hr); rewrite Hb in Hrun |- *; cbn [mbind option_bind] in *.
  - apply IH; [|done]. by eapply meta_body_default.
  - injection Hrun as -> ->. done.
Qed.

(** One more extension: DATA_TYPE is noted, SECURITY is passed over. *)
Lemma ext_meta_snoc l xm x : Forall tlv_ok l -> ext_meta l = Some (XGL_OK, xm) ->
  ext_meta (l ++ [x]) =
    (r ← ext_metadata_body xm (tlv_ext x); ret match r with inl m => (XGL_OK, m) | inr r => r end).
Proof.
  intros Hl Hx. destruct (ext_meta_walk l xm Hl Hx) as [Hw _]. unfold ext_meta.
  rewrite tlv_walk_app, Hw. cbn [mbind option_bind tlv_walk]. by destruct (ext_metadata_body xm _) as [[m|[]]|].
Qed.
Lemma ext_meta_security l xm v : Forall tlv_ok l -> ext_meta l = Some (XGL_OK, xm) ->
  ext_meta (l ++ [(XGL_WIRE_EXT_SECURITY, v)]) = Some (XGL_OK, xm).
Proof. intros Hl Hx. by rewrite (ext_meta_snoc _ _ _ Hl Hx). Qed.
Lemma frame_exts_spec p l xm : exts_ok p l xm ->
  Forall tlv_ok (frame_exts p l xm) /\
  exists xm', ext_meta (frame_exts p l xm) = Some (XGL_OK, xm') /\
    xm_data_type xm' = frame_data_type p xm /\ xm_session_epoch xm' = xm_session_epoch xm.
Proof.
  intros (Hl & Hx & Hdt & _ & _). unfold frame_exts, frame_data_type.
  destruct (ext_meta_walk l xm Hl Hx) as [_ Hdef]. destruct (xm_data_type_found xm) eqn:Hf; [by eauto|].
  destruct (Z.eqb_spec (pk_data_type p) 0) as [H0|H0]; cbn [orb].
  - split; [done|]. exists xm. split_and!; [done| |done]. rewrite Hdef by done. by rewrite H0.
  - split.
    + apply Forall_app. split; [done|]. apply Forall_singleton. split; [unfold XGL_WIRE_EXT_DATA_TYPE; cbn; lia|].
      split; [by vm_compute|]. by apply Forall_singleton.
    + exists (xm <| xm_data_type := pk_data_type p |> <| xm_data_type_found := true |>). split; [|split; [|reflexivity]].
      * rewrite (ext_meta_snoc _ _ _ Hl Hx). unfold ext_metadata_body, tlv_ext. cbn [e_type e_len e_value fst snd].
        rewrite Z.eqb_refl, Hf. reflexivity.
      * done.
Qed.

Definition carries_exts (p : xgl_packet_t) (l : list tlv) : Prop :=
  view (pk_extensions p) (pk_extensions_len p) /\
  points_to (trim_ptr (pk_extensions p) (pk_extensions_len p)) (pk_extensions_len p) (tlvs_bytes l).
Lemma carries_copied p l : carries_exts p l ->
  pk_extensions_len p = zlen (tlvs_bytes l) /\
  (if negb (bool_decide (pk_extensions p = NULL)) && (0 <? pk_extensions_len p) then pk_extensions_len p else 0) =
    zlen (tlvs_bytes l).
Proof.
  intros (Hv & Hl & _ & Hp). split; [done|]. pose proof (zlen_nonneg (tlvs_bytes l)).
  destruct (pk_extensions p) as [e|]; cbn in *.
  - rewrite Hl. destruct (Z.ltb_spec 0 (zlen (tlvs_bytes l))); lia.
  - destruct Hp as [?|[_ Hp]]; [done|]. by rewrite Hp.
Qed.

Lemma copy_exts_run p l xm : exts_ok p l xm -> carries_exts p l ->
  exists rest, bytes_ok rest /\
    network_copy_packet_extensions (replicate (Z.to_nat (UINT8_MAX - XGL_WIRE_BASE_HEADER_SIZE)) 0)
      (UINT8_MAX - XGL_WIRE_BASE_HEADER_SIZE) p =
    Some (XGL_OK, tlvs_bytes (frame_exts p l xm) ++ rest, zlen (tlvs_bytes (frame_exts p l xm))).
Proof.
  intros Hex Hc. destruct (carries_copied p l Hc) as [Hpl Hcopied]. destruct Hc as [Hv Hpt].
  pose proof Hex as (Hl & Hx & Hdt & Hagree & Hfit). change (UINT8_MAX - XGL_WIRE_BASE_HEADER_SIZE) with 231.
  assert (zlen (tlvs_bytes l) <= 231) as Hlfit.
  { revert Hfit. unfold frame_exts. destruct (_ || _); [done|]. rewrite tlvs_bytes_app, zlen_app.
    pose proof (zlen_nonneg (tlvs_bytes [(XGL_WIRE_EXT_DATA_TYPE, [pk_data_type p])])). lia. }
  unfold network_copy_packet_extensions. rewrite Hcopied, Hpl. replace (231 <? zlen (tlvs_bytes l)) with false by lia.
  rewrite andb_false_r. rewrite <- Hpl, <- copy_if_trim by done.
  destruct (cut_buffer (replicate (Z.to_nat 231) 0) (zlen (tlvs_bytes l))) as (free & rest & Hcut & Hfree).
  { pose proof (zlen_nonneg (tlvs_bytes l)). change (zlen (replicate _ _)) with 231. lia. }
  assert (bytes_ok rest) as Hrest.
  { assert (bytes_ok (free ++ rest)) as Hok by (rewrite <- Hcut; apply Forall_replicate; lia). apply Forall_app in Hok as [_ Hok]. exact Hok. }
  assert (zlen rest = 231 - zlen (tlvs_bytes l)) as Hrz.
  { apply (f_equal zlen) in Hcut. rewrite zlen_app in Hcut. change (zlen (replicate _ _)) with 231 in Hcut. lia. }
  rewrite Hcut. change (free ++ rest) with ([] ++ free ++ rest).
  rewrite (copy_if_run _ _ (tlvs_bytes l) []) by (done || by apply zlen_length). cbn [mbind option_bind app].
  rewrite Hpl, decode_ext_meta, Hx by done. cbn [mbind option_bind is_ok negb]. unfold frame_exts in *.
  destruct (xm_data_type_found xm) eqn:Hf; cbn [orb] in *.
  { replace (_ && _) with false by (destruct (Hagree eq_refl) as [->| ->]; [done|]; rewrite Z.eqb_refl; by rewrite andb_false_r).
    by exists rest. }
  unfold network_append_data_type_ext. destruct (Z.eqb_spec (pk_data_type p) 0) as [H0|H0]; [by exists rest|].
  replace (231 <? zlen (tlvs_bytes l)) with false by lia.
  rewrite tlvs_bytes_app, zlen_app in Hfit. change (tlvs_bytes [(XGL_WIRE_EXT_DATA_TYPE, [pk_data_type p])])
    with (tlv_bytes (XGL_WIRE_EXT_DATA_TYPE, [pk_data_type p])) in *.
  change (zlen (tlv_bytes (XGL_WIRE_EXT_DATA_TYPE, [pk_data_type p]))) with 3 in Hfit.
  destruct (cut_buffer rest 3) as (o3 & rest' & -> & Ho3); [lia|]. apply Forall_app in Hrest as [_ Hrest].
  rewrite at_offset_app. change 1 with (zlen [pk_data_type p]) at 1.
  rewrite encode_ext_run; [|unfold zlen in Ho3; cbn; lia|done|by vm_compute|change (zlen [pk_data_type p]) with 1; lia].
  cbn [mbind option_bind is_ok negb]. exists rest'. split; [done|].
  rewrite tlvs_bytes_app, zlen_app, <- app_assoc. done.
Qed.

(** ** The frame *)

(** The packet as it is sent, by node [id] through the driver [phy]. *)
Definition sent_packet (id : Z) (phy : ptr xgl_phy_ops_t) (p : xgl_packet_t) : xgl_packet_t :=
  let p := p <| pk_phy := phy |> in
  let p := if pk_source_id p =? 0 then p <| pk_source_id := id |> else p in
  p <| pk_version := XGL_PROTOCOL_VERSION |>.
Definition sent_source (id : Z) (p : xgl_packet_t) : Z := if pk_source_id p =? 0 then id else pk_source_id p.
(** The fields fit their types, the header class is left to the layer, and the
    caller's flags and type do not say more than the attributes do. *)
Definition packet_ok (p : xgl_packet_t) (d : xgl_packet_data_t) : Prop :=
  (view (pd_data d) (pd_data_len d) /\ pd_data_len d <= 65535 /\ pk_traffic_class p = 0) /\
  (0 <= pk_source_id p < 65536 /\ 0 < pk_target_id p < 65536 /\ 0 <= pk_packet_type p <= 7 /\
   0 <= pk_flags p < 256 /\ 0 <= pk_connection_id p < 4294967296 /\ 0 <= pk_packet_number p < 4294967296 /\
   0 <= pk_priority p < 256 /\ 0 <= pk_session_id p < 65536) /\
  (Z.testbit (pk_flags p) 0 = true -> network_reliability_class p = XGL_RELIABILITY_ACK_ELICITING) /\
  (Z.testbit (pk_flags p) 2 = true -> pk_fragment p = true) /\
  (pk_packet_type p = XGL_PACKET_TYPE_ACK -> network_reliability_class p <> XGL_RELIABILITY_NONE).
Definition packet_kind (p : xgl_packet_t) : Z :=
  if network_reliability_class p =? XGL_RELIABILITY_ACK_ONLY then XGL_PACKET_TYPE_ACK
  else if pk_packet_type p =? XGL_PACKET_TYPE_INVALID then XGL_PACKET_TYPE_DATA
  else pk_packet_type p.

(** The header before the serializer sets its length and the flags it implies. *)
Record header_of (id : Z) (p : xgl_packet_t) (h : xgl_wire_header_t) : Prop := {
  ho_ok : wire_header_ok h = true;
  ho_source : wh_source_id h = sent_source id p;
  ho_target : wh_target_id h = pk_target_id p;
  ho_type : wh_packet_type h = packet_kind p;
  ho_ttl : wh_ttl h = XGL_DEFAULT_TTL;
  ho_connection : wh_connection_id h = if pk_connection_id p =? 0 then pk_session_id p else pk_connection_id p;
  ho_number : wh_packet_number h = pk_packet_number p;
  ho_class : Z.land (wh_traffic_class h) XGL_RELIABILITY_CLASS_MASK = network_reliability_class p;
  ho_priority : xgl_frame_get_priority (wh_traffic_class h) = pk_priority p mod 8;
  ho_elicits : Z.testbit (wh_flags h) 0 = (network_reliability_class p =? XGL_RELIABILITY_ACK_ELICITING);
  ho_fragment : Z.testbit (wh_flags h) 2 = pk_fragment p;
  ho_authenticated : Z.testbit (wh_flags h) 4 = Z.testbit (pk_flags p) 4
}.
Definition frame_carries (f : xgl_frame_t) (l : list tlv) (pl : bytes) : Prop :=
  frame_wf f /\ points_to (fr_extensions (trim f)) (fr_extensions_len f) (tlvs_bytes l) /\
  points_to (fr_payload (trim f)) (fr_payload_len f) pl.
Definition packet_payload (d : xgl_packet_data_t) : bytes := default [] (trim_ptr (pd_data d) (pd_data_len d)).

Lemma reliability_cases p : network_reliability_class p = XGL_RELIABILITY_NONE \/
  network_reliability_class p = XGL_RELIABILITY_ACK_ELICITING \/ network_reliability_class p = XGL_RELIABILITY_ACK_ONLY.
Proof. unfold network_reliability_class. repeat case_if; auto. Qed.

Ltac flag_bit k :=
  let e0 := eval compute in (k =? 0) in change (k =? 0) with e0;
  let e1 := eval compute in (k =? 1) in change (k =? 1) with e1;
  let e2 := eval compute in (k =? 2) in change (k =? 2) with e2;
  let e5 := eval compute in (k =? 5) in change (k =? 5) with e5;
  cbn [andb]; rewrite ?orb_false_r.

Lemma built_frame id p d l phy rest : packet_ok p d -> 0 < id < 65536 -> bytes_ok rest -> Forall tlv_ok l ->
  zlen (tlvs_bytes l) <= 231 ->
  exists f, xgl_frame_build zero_frame
      (tx_params (sent_packet id phy p) d (tlvs_bytes l ++ rest) (zlen (tlvs_bytes l))) = (XGL_OK, f) /\
    frame_carries f l (packet_payload d) /\ header_of id p (fr_header f).
Proof.
  intros ((Hv & Hpl & Htc) & (Hs & Ht & Hpt & Hfl & Hc & Hn & Hpr & Hsid) & H0 & H2 & Hack) Hid Hrest Hl Hfit.
  set (params := tx_params _ _ _ _).
  assert (params = mk_frame_params (sent_source id p) (pk_target_id p) (pk_data_type p) (pk_packet_type p)
    (pk_flags p) 0 (pk_connection_id p) (pk_packet_number p) (pk_session_epoch p)
    (if 0 <? zlen (tlvs_bytes l) then Ptr (tlvs_bytes l ++ rest) else NULL) (zlen (tlvs_bytes l)) (pd_data d)
    (pd_data_len d) (negb (pk_reliable p =? 0)) (network_reliability_class p) (pk_fragment p) (pk_priority p)
    (pk_session_id p) XGL_DEFAULT_TTL) as Hparams.
  { unfold params, tx_params, sent_packet, sent_source, network_reliability_class. rewrite <- Htc. destruct p. cbn. by case_if. }
  assert (requested_reliability params = network_reliability_class p) as Hreq.
  { rewrite Hparams. unfold requested_reliability. cbn. unfold network_reliability_class.
    destruct (pk_reliable p =? XGL_RELIABILITY_ACK_ONLY); [done|]. by destruct (pk_reliable p =? 0). }
  assert (0 <= sent_source id p < 65536) as Hsrc by (unfold sent_source; case_if; lia).
  assert (0 <= network_reliability_class p < 256) as Hrc by (destruct (reliability_cases p) as [-> |[-> | ->]]; done).
  pose proof (frame_build_derives_header zero_frame params) as Hbuild.
  specialize (Hbuild ltac:(rewrite Hparams; apply frame_params_ok_spec; cbn; unfold XGL_DEFAULT_TTL; lia)).
  rewrite Hreq in Hbuild. destruct (view_points _ _ Hv) as [Hpt_pl Hpl0].
  specialize (Hbuild ltac:(rewrite Hparams; exact Hpl0)).
  assert (65535 <? fp_payload_len params = false) as Hsmall by (rewrite Hparams; cbn; lia).
  rewrite Hsmall in Hbuild. destruct Hbuild as (f & Hrun & Hok & _ & Hcls & Hrelb & _ & Hprio & Hflags & Htype & Hconn).
  exists f. split; [exact Hrun|]. unfold xgl_frame_build, UINT16_MAX in Hrun. rewrite Hsmall in Hrun.
  assert (fr_extensions f = fp_extensions params /\ fr_extensions_len f = fp_extensions_len params /\
          fr_payload f = fp_payload params /\ fr_payload_len f = fp_payload_len params /\
          wh_source_id (fr_header f) = fp_source_id params /\ wh_target_id (fr_header f) = fp_target_id params /\
          wh_packet_number (fr_header f) = fp_packet_number params /\ wh_ttl (fr_header f) = fp_ttl params)
    as (He & Hel & Hp & Hpll & Hsource & Htarget & Hnum & Httl) by (injection Hrun as <-; by split_and!).
  clear Hrun. rewrite Hparams in *. cbn [fp_extensions fp_extensions_len fp_payload fp_payload_len fp_source_id
    fp_target_id fp_packet_number fp_ttl fp_flags fp_fragment fp_priority fp_traffic_class fp_packet_type
    fp_connection_id fp_session_id] in *.
  pose proof (zlen_nonneg (tlvs_bytes l)). pose proof (tlvs_bytes_ok l Hl) as Hlok.
  assert (view (fr_extensions f) (fr_extensions_len f) /\
          points_to (trim_ptr (fr_extensions f) (fr_extensions_len f)) (fr_extensions_len f) (tlvs_bytes l)) as [Hev Hep].
  { rewrite He, Hel. destruct (Z.ltb_spec 0 (zlen (tlvs_bytes l))) as [|Hz].
    - split; [split; [rewrite zlen_app; pose proof (zlen_nonneg rest); lia|by apply Forall_app]|].
      split; [done|]. split; [done|]. left.
      change (Ptr (take (Z.to_nat (zlen (tlvs_bytes l))) (tlvs_bytes l ++ rest)) = Ptr (tlvs_bytes l)).
      rewrite take_app_length' by (unfold zlen; lia). done.
    - split; [cbn; lia|]. rewrite (tlvs_bytes_nil l) by lia. split_and!; [done..|by right]. }
  split.
  - split; [|split; [exact Hep|]].
    + split; [done|]. split; [by rewrite Hp, Hpll|done].
    + unfold trim. cbn [fr_payload]. rewrite Hp, Hpll. exact Hpt_pl.
  - constructor; try done.
    + by rewrite Hcls, Z.eqb_refl.
    + by rewrite Hcls, Z.eqb_refl.
    + rewrite Hflags by lia. flag_bit 0. destruct (Z.testbit (pk_flags p) 0) eqn:Hb; [|done]. by rewrite H0.
    + rewrite Hflags by lia. flag_bit 2. destruct (Z.testbit (pk_flags p) 2) eqn:Hb; [|done]. by rewrite H2.
    + rewrite Hflags by lia. flag_bit 4. done.
Qed.

(** ** The send function *)

Lemma payload_zlen d : view (pd_data d) (pd_data_len d) -> zlen (packet_payload d) = pd_data_len d.
Proof. intros Hv. destruct (view_points _ _ Hv) as [(H & _) _]. exact (eq_sym H). Qed.

Definition can_send (c : xgl_network_ctx_t) : bool :=
  match nc_lower_layer c with NULL => false | Ptr iface => negb (bool_decide (li_send iface = NULL)) end.

Lemma send_run w es p d l xm route tag_len assign :
  nw_ok w es -> pk_data p = Ptr d -> packet_ok p d -> exts_ok p l xm -> carries_exts p l ->
  0 < nc_local_id (n_ctx w) < 65536 -> route_map es !! pk_target_id p = Some route ->
  network_auth_tag_len (n_ctx w) = Some tag_len ->
  xgl_frame_serialized_size (pd_data_len d) (zlen (tlvs_bytes (frame_exts p l xm))) tag_len <= ri_max_frame_size route ->
  can_send (n_ctx w) = true ->
  let phy := n_phys w <$> ri_phy route in
  wp (xgl_network_send_with_handle (Ptr p) assign)
    (fun r w' => r = (answer (n_down w), Ptr (sent_packet (nc_local_id (n_ctx w)) phy p)) /\
       exists f, did [nw_down f phy] w w' /\ frame_carries f (frame_exts p l xm) (packet_payload d) /\
         header_of (nc_local_id (n_ctx w)) p (fr_header f)) w.
Proof.
  intros Hok Hd Hp Hex Hc Hid Hroute Htag Hsize Hsend phy. unfold xgl_network_send_with_handle. rewrite Hd.
  pose proof Hp as ((Hv & _) & (_ & Htgt & _) & _).
  nw_step. apply (wp_nw_lookup _ es); [done|unwrap_ints; lia|]. rewrite Hroute.
  do 4 nw_step. fold phy. fold (sent_packet (nc_local_id (n_ctx w)) phy p).
  change ((if pk_source_id (p <| pk_phy := phy |>) =? 0 then (p <| pk_phy := phy |>) <| pk_source_id := nc_local_id (n_ctx w) |>
           else p <| pk_phy := phy |>) <| pk_version := XGL_PROTOCOL_VERSION |>)
    with (sent_packet (nc_local_id (n_ctx w)) phy p).
  do 2 nw_step. set (w1 := w <| n_ctx := _ |>). assert (did [] w w1) as Hdid by (apply did_stats, did_refl).
  set (p' := sent_packet _ phy p).
  assert (pk_extensions p' = pk_extensions p /\ pk_extensions_len p' = pk_extensions_len p /\
          pk_data_type p' = pk_data_type p /\ pk_data p' = Ptr d /\ pk_phy p' = phy) as (He & Hel & Hdt & Hd' & Hphy).
  { unfold p', sent_packet. rewrite <- Hd. destruct p. cbn. by case_if. }
  assert (exts_ok p' l xm /\ carries_exts p' l /\ frame_exts p' l xm = frame_exts p l xm) as (Hex' & Hc' & Hfe).
  { unfold exts_ok, carries_exts, frame_exts in *. by rewrite He, Hel, Hdt. }
  destruct (copy_exts_run p' l xm Hex' Hc') as (rest & Hrest & Hcopy). rewrite Hfe in Hcopy.
  destruct (frame_exts_spec p l xm Hex) as [Hfl _].
  destruct (built_frame (nc_local_id (n_ctx w)) p d (frame_exts p l xm) phy rest Hp Hid Hrest Hfl) as (f & Hbuild & Hcar & Hhd);
    [apply Hex|]. fold p' in Hbuild.
  nw_step. unfold network_build_tx_frame. nw_step. eapply wp_lift; [exact Hcopy|]. cbn beta iota. cbn [is_ok negb].
  nw_step. eapply wp_lift; [exact Hd'|]. rewrite Hbuild. cbn [is_ok negb]. nw_step. nw_step. nw_step.
  cbn beta iota. cbn [is_ok negb]. nw_step. unfold network_validate_auth_tx_budget. nw_step. nw_step.
  change (network_auth_tag_len (n_ctx w1)) with (network_auth_tag_len (n_ctx w)). rewrite Htag.
  assert (fr_payload_len f = pd_data_len d /\ fr_extensions_len f = zlen (tlvs_bytes (frame_exts p l xm))) as [-> ->].
  { destruct Hcar as (_ & (-> & _) & (-> & _)). split; [by apply payload_zlen|done]. }
  replace (ri_max_frame_size route <? _) with false by lia. nw_step. cbn [is_ok negb]. nw_step.
  unfold network_send_frame_to_lower. nw_step. nw_step. change (nc_lower_layer (n_ctx w1)) with (nc_lower_layer (n_ctx w)).
  unfold can_send in Hsend. destruct (nc_lower_layer (n_ctx w)) as [iface|]; [|done].
  destruct (bool_decide (li_send iface = NULL)); [done|]. nw_step. unfold nw_send_down. nw_step.
  unfold nw_emit. repeat nw_step. rewrite Hphy.
  apply (did_event _ _ _ (nw_down f phy)) in Hdid.
  change (answer (n_down _)) with (answer (n_down w)).
  destruct (is_ok (answer (n_down w))); cbn [negb]; repeat nw_step; (split; [done|]); exists f; (split; [|by split]).
  - exact Hdid.
  - apply did_stats. exact Hdid.
Qed.

(** ** The packet that arrives *)

Lemma land_flag f k : 0 <= k -> (Z.land f (2 ^ k) =? 0) = negb (Z.testbit f k).
Proof.
  intros Hk. destruct (Z.eqb_spec (Z.land f (2 ^ k)) 0) as [H0|H0].
  - apply (f_equal (fun z => Z.testbit z k)) in H0.
    rewrite Z.land_spec, Z.pow2_bits_true, Z.bits_0, andb_true_r in H0 by lia. by rewrite H0.
  - destruct (Z.testbit f k) eqn:Hb; [done|]. destruct H0. apply Z.bits_inj_0. intros i.
    rewrite Z.land_spec. destruct (decide (i = k)) as [->|Hne]; [by rewrite Hb|].
    rewrite Z.pow2_bits_false by lia. by rewrite andb_false_r.
Qed.

(** What the upper layer of the target sees of the packet [p] that node [id] sent
    with payload [pl], extensions [l], data type [dt] and session epoch [epoch]. *)
Record carried (id : Z) (p : xgl_packet_t) (pl : bytes) (l : list tlv) (dt epoch : Z) (q : xgl_packet_t) : Prop := {
  ca_source : pk_source_id q = sent_source id p;
  ca_target : pk_target_id q = pk_target_id p;
  ca_connection : pk_connection_id q = if pk_connection_id p =? 0 then pk_session_id p else pk_connection_id p;
  ca_number : pk_packet_number q = pk_packet_number p;
  ca_type : pk_packet_type q = packet_kind p;
  ca_reliable : pk_reliable q = network_reliability_class p;
  ca_fragment : pk_fragment q = pk_fragment p;
  ca_priority : pk_priority q = pk_priority p mod 8;
  ca_data_type : pk_data_type q = dt;
  ca_epoch : pk_session_epoch q = epoch;
  ca_data : pk_data q = Ptr (mk_packet_data 1 (zlen pl) (Ptr pl) NULL);
  ca_extensions : exists e, points_to (pk_extensions q) (pk_extensions_len q) (tlvs_bytes (l ++ e))
}.

Lemma classify_fields m : let h := nm_header m in
  nm_reliable (classify m) =
    (if (u8 (Z.land (wh_traffic_class h) XGL_RELIABILITY_CLASS_MASK) =? XGL_RELIABILITY_ACK_ELICITING) ||
        Z.testbit (wh_flags h) 0
     then XGL_RELIABILITY_ACK_ELICITING
     else if (u8 (Z.land (wh_traffic_class h) XGL_RELIABILITY_CLASS_MASK) =? XGL_RELIABILITY_ACK_ONLY) ||
             (wh_packet_type h =? XGL_PACKET_TYPE_ACK)
     then XGL_RELIABILITY_ACK_ONLY else nm_reliable m) /\
  nm_fragment (classify m) = Z.testbit (wh_flags h) 2 /\
  nm_priority (classify m) = xgl_frame_get_priority (wh_traffic_class h) /\
  classify m = m <| nm_reliable := nm_reliable (classify m) |> <| nm_fragment := nm_fragment (classify m) |>
                 <| nm_priority := nm_priority (classify m) |>.
Proof.
  unfold classify. change XGL_WIRE_FLAG_ACK_ELICITING with (2 ^ 0). change XGL_WIRE_FLAG_FRAGMENTED with (2 ^ 2).
  rewrite !land_flag, !negb_involutive by lia. unfold xgl_frame_get_priority, XGL_TRAFFIC_PRIORITY_SHIFT.
  rewrite Z.shiftr_0_r. destruct m as [h0]. cbn. by repeat case_match.
Qed.

Lemma carried_packet id p h h0 l e xm pl :
  header_of id p h0 -> Forall tlv_ok (l ++ e) ->
  wh_source_id h = wh_source_id h0 -> wh_target_id h = wh_target_id h0 -> wh_connection_id h = wh_connection_id h0 ->
  wh_packet_number h = wh_packet_number h0 -> wh_packet_type h = wh_packet_type h0 ->
  wh_traffic_class h = wh_traffic_class h0 ->
  Z.testbit (wh_flags h) 0 = Z.testbit (wh_flags h0) 0 -> Z.testbit (wh_flags h) 2 = Z.testbit (wh_flags h0) 2 ->
  (pk_packet_type p = XGL_PACKET_TYPE_ACK -> network_reliability_class p <> XGL_RELIABILITY_NONE) ->
  carried id p pl l (xm_data_type xm) (xm_session_epoch xm) (frame_packet h (l ++ e) xm pl).
Proof.
  intros [Hok Hs Ht Hty Httl Hc Hn Hcls Hpr He Hf _] Htl E1 E2 E3 E4 E5 E6 F0 F2 Hack.
  rewrite He in F0. rewrite Hf in F2.
  unfold frame_packet, frame_metadata. generalize (header_crc h). intros c.
  match goal with |- context [classify ?m] => destruct (classify_fields m) as (Hrel & Hfrag & Hprio & ->) end.
  rewrite Hrel, Hfrag, Hprio. cbn [nm_header nm_reliable].
  change (wh_flags (h <| wh_header_crc16 := c |>)) with (wh_flags h).
  change (wh_traffic_class (h <| wh_header_crc16 := c |>)) with (wh_traffic_class h).
  change (wh_packet_type (h <| wh_header_crc16 := c |>)) with (wh_packet_type h).
  rewrite F0, F2, E6, E5, Hcls, Hpr, Hty. rewrite (u8_small (network_reliability_class p))
    by (destruct (reliability_cases p) as [-> |[-> | ->]]; done).
  constructor; cbn; try congruence; try done.
  - unfold packet_kind. destruct (reliability_cases p) as [Hr|[Hr|Hr]]; rewrite Hr in *; try done.
    cbn. unfold XGL_PACKET_TYPE_INVALID, XGL_PACKET_TYPE_DATA, XGL_PACKET_TYPE_ACK in *.
    destruct (Z.eqb_spec (pk_packet_type p) 0); [done|]. destruct (Z.eqb_spec (pk_packet_type p) 2); [|done].
    by destruct Hack.
  - exists e. split; [done|]. split; [by apply tlvs_bytes_ok|]. destruct (l ++ e); [by right|by left].
Qed.
