(* ===== verification/DatalinkLink.v ===== *)
(** * One frame across the data link

    The bytes that [xgl_datalink_send] transmits are one frame with the parts that
    the serializer writes, and the filter of the receiving data link lets such a
    frame through - also after it has been forwarded. *)
From S2P Require Import Prelude State Errors Serialize Crc Layer Wire WireExt ExtWalk Frame FrameView Parser Security Datalink ReplayTable DatalinkInv DatalinkSend DatalinkSafe DatalinkStream HashTable Route Network NetworkInv.

(** ** Transmission *)

(** What the serializer needs to know about the frame; [a] tells whether it signs. *)
Definition sendable (a : bool) (ap : xgl_auth_provider_t) (f : xgl_frame_t) (l : list tlv) (pl : bytes) : Prop :=
  let ext := tlvs_bytes l in
  provider_sound ap /\ frame_wf f /\ Forall tlv_ok l /\ scan_tag l 0 = Some 0 /\
  (a = false -> Z.land (wh_flags (sent_header a (trim f) ext)) XGL_WIRE_FLAG_AUTHENTICATED = 0) /\
  points_to (fr_extensions (trim f)) (fr_extensions_len f) ext /\ points_to (fr_payload (trim f)) (fr_payload_len f) pl /\
  wire_header_rejected (sent_header a (trim f) ext) = false /\ zlen ext <= 216 /\ zlen pl <= 65535.
(** The context signs with [ap], or does not sign. *)
Definition signs (c : xgl_datalink_ctx_t) (a : bool) (ap : xgl_auth_provider_t) : Prop :=
  dc_auth_required c = a /\ (a = true -> dc_auth_provider c = Ptr ap).
Definition tag_of (a : bool) (ap : xgl_auth_provider_t) : Z := if a then ap_tag_len ap else 0.

Section transmit.
  Context (w : dl_world) (phy : xgl_phy_ops_t) (f : xgl_frame_t) (a : bool) (ap : xgl_auth_provider_t)
    (l : list tlv) (pl : bytes).
  Context (Hf : sendable a ap f l pl) (Hc : signs (d_ctx w) a ap).
Let key := dc_auth_key_id (d_ctx w).
Let h := sent_header a (trim f) (tlvs_bytes l).
Let ll := sent_tlvs a (trim f) key (tag_of a ap) l.
Let n := xgl_frame_serialized_size (zlen pl) (zlen (tlvs_bytes l)) (tag_of a ap).

Lemma serialize_sendable buffer : bytes_ok buffer -> n <= zlen buffer ->
  exists t F rest, frame_parts h ll (tag_of a ap) (pl ++ t) F /\ zlen F = n /\ zlen t = tag_of a ap /\
    (if dc_auth_required (d_ctx w)
     then xgl_frame_serialize_authenticated buffer n f key (dc_auth_provider (d_ctx w)) 0
     else xgl_frame_serialize buffer n f 0) = Some (XGL_OK, n, F ++ rest) /\
    (a = true -> exists verify, ap_verify ap = Ptr verify /\
       verify key (canon (head_bytes h ll)) pl t = (XGL_OK, true)).
Proof.
  intros Hb Hn. destruct Hf as (Hap & Hwf & Hl & Hscan & Hflag & He & Hp & Hrej & Hel & Hpl). destruct Hc as [Ha Hprov].
  assert (0 <= n) as Hn0.
  { change (0 <= xgl_frame_serialized_size (zlen pl) (zlen (tlvs_bytes l)) (if a then ap_tag_len ap else 0)).
    rewrite (sent_size a pl l ap Hap). pose proof (zlen_nonneg pl). pose proof (zlen_nonneg (tlvs_bytes l)).
    pose proof (proj1 (proj1 Hap)). destruct a; lia. }
  destruct (cut_buffer buffer n) as (old & rest & -> & Hold); [lia|].
  destruct (serialize_parts a old rest pl n key 0 l (trim f) ap) as (t & F & Hhd & Htl & Htok & HF & HFn & Hrun & Hver);
    try done; try lia.
  { destruct a; [by exists 0|]. split; [done|]. by apply Hflag. }
  { apply Hwf. }
  assert (wh_payload_len h = zlen pl) as Hhpl by apply (sent_header_ok a pl l (trim f) (proj2 (proj2 Hwf)) Hp Hpl).
  exists t, F, rest. split; [|split; [done|split; [done|split; [|done]]]].
  - split; [done|]. split; [done|]. split; [|done]. rewrite zlen_app, Htl, Hhpl. by destruct a.
  - rewrite Ha. destruct a; [rewrite Hprov by done; by rewrite <- serialize_auth_trim by done|by rewrite <- serialize_trim by done].
Qed.

Lemma signs_tag_len : datalink_auth_tag_len (d_ctx w) = (XGL_OK, tag_of a ap).
Proof.
  destruct Hf as ((Htag & sign & verify & Hsign & _) & _). destruct Hc as [Ha Hprov].
  unfold datalink_auth_tag_len, tag_of. rewrite Ha. destruct a; [|done]. rewrite Hprov, Hsign by done. cbn [negb].
  rewrite bool_decide_eq_false_2 by done. cbn [orb]. by replace (_ || _) with false by lia.
Qed.

(** The result of the send function when memory and driver are there. *)
Definition transmitted (err : xgl_error_t) (w' : dl_world) : Prop :=
  err = XGL_OK /\ exists t F, frame_parts h ll (tag_of a ap) (pl ++ t) F /\ zlen F = n /\ zlen t = tag_of a ap /\
    d_trace w' = d_trace w ++ [dl_tx phy F] /\
    (a = true -> exists verify, ap_verify ap = Ptr verify /\
       verify key (canon (head_bytes h ll)) pl t = (XGL_OK, true)).

Lemma transmit_run buffer w1 : d_ctx w1 = d_ctx w -> d_trace w1 = d_trace w -> d_tx w1 = [] ->
  bytes_ok buffer -> n <= zlen buffer -> wp (serialize_and_transmit phy f buffer n) transmitted w1.
Proof.
  intros Hctx Htr Htx Hb Hn. destruct (serialize_sendable buffer Hb Hn) as (t & F & rest & Hp & HFn & Htl & Hser & Hver).
  unfold serialize_and_transmit. dl_step. dl_step. rewrite Hctx. dl_step. eapply wp_lift; [exact Hser|].
  cbn beta iota. cbn [is_ok negb]. unfold transmit_and_count, phy_transmit. dl_step. dl_step.
  eapply wp_lift; [apply rd_bytes_prefix; symmetry; exact HFn|]. dl_step. dl_step. unfold wp at 1, tx_answer.
  cbn [d_tx set_field]. rewrite Htx. cbn [is_ok negb]. unfold dl_stats. dl_step. dl_step. dl_step. split; [done|].
  exists t, F. split_and!; try done. cbn. by rewrite Htr.
Qed.

Lemma send_link_run : junk_ok (d_junk w) -> d_heap w = [] -> d_tx w = [] -> phy_tx phy <> NULL ->
  wp (xgl_datalink_send (Ptr phy) (Ptr f)) transmitted w.
Proof.
  intros Hj Hheap Htx Hphy. unfold xgl_datalink_send. rewrite bool_decide_eq_false_2 by done.
  dl_step. dl_step. rewrite signs_tag_len. cbn [is_ok negb].
  assert (xgl_frame_serialized_size (fr_payload_len f) (fr_extensions_len f) (tag_of a ap) = n) as ->.
  { destruct Hf as (_ & _ & _ & _ & _ & (-> & _) & (-> & _) & _). done. }
  destruct (Z.ltb_spec XGL_DATALINK_STACK_BUFFER_SIZE n) as [Hbig|Hsmall].
  - dl_step. unfold wp at 1, dl_malloc, alloc_answer. rewrite Hheap.
    unfold XGL_DATALINK_STACK_BUFFER_SIZE in Hbig. replace (n =? 0) with false by lia. cbn [negb].
    dl_step. dl_step. cbn [d_junk set_field]. destruct (Hj n ltac:(lia)) as [Hl Hb]. 
    apply transmit_run; try done. change (n <= zlen (d_junk w n)). lia.
  - dl_step. dl_step. destruct (Hj XGL_DATALINK_STACK_BUFFER_SIZE ltac:(done)) as [Hl Hb].
    apply transmit_run; try done. lia.
Qed.
End transmit.

(** ** Reception *)

(** On extensions that the network layer can read and that have no SECURITY among
    them, the walk notes the session epoch only. *)
Lemma plain_walk auth key l : Forall tlv_ok l -> existsb is_security l = false -> forall x0 xm m,
  tlv_walk ext_metadata_body l x0 = Some (inl xm) -> md_session_epoch m = xm_session_epoch x0 ->
  tlv_walk (rx_ext_body auth key) l m = Some (inl (m <| md_session_epoch := xm_session_epoch xm |>)).
Proof.
  induction 1 as [|[t v] l Hx _ IH]; intros Hsec x0 xm m Hw Hm; cbn [tlv_walk existsb] in *.
  { injection Hw as <-. rewrite <- Hm. by destruct m. }
  apply orb_false_iff in Hsec as [Ht Hsec]. specialize (IH Hsec). unfold is_security in Ht. cbn [fst] in Ht.
  apply bind_Some in Hw as (r & Hb & Hw). destruct r as [x1|]; [|done].
  assert (exists m1, rx_ext_body auth key m (tlv_ext (t, v)) = Some (inl m1) /\ md_session_epoch m1 = xm_session_epoch x1 /\
    m1 = m <| md_session_epoch := md_session_epoch m1 |>) as (m1 & Hb1 & Hm1 & Hsame).
  { unfold rx_ext_body, ext_metadata_body, tlv_ext in *. cbn [e_type e_len e_value fst snd mbind option_bind] in *. rewrite Ht.
    destruct (Z.eqb_spec t XGL_WIRE_EXT_DATA_TYPE) as [->|].
    { destruct (_ || _) in Hb; [done|]. apply bind_Some in Hb as (b & _ & [= <-]).
      exists m. split; [done|]. split; [exact Hm|]. by destruct m. }
    destruct (t =? XGL_WIRE_EXT_SESSION).
    - destruct (xm_session_epoch_found x0); [done|].
      apply bind_Some in Hb as ([err out] & Hdec & Hb). rewrite Hdec. cbn [mbind option_bind].
      destruct (decode_session_total v) as (err' & out' & Hdec' & Hok & _); [apply Hx|]. rewrite Hdec in Hdec'.
      injection Hdec' as <- <-. destruct (is_ok err) eqn:He; cbn [negb] in *; [|done]. injection Hb as <-.
      destruct Hok as (epoch & inc & ->); [by destruct err|]. eexists. split; [done|]. split; [done|]. by destruct m.
    - injection Hb as <-. exists m. split; [done|]. split; [done|]. by destruct m. }
  rewrite Hb1. cbn [mbind option_bind]. rewrite (IH x1 xm m1 Hw Hm1). rewrite Hsame. by destruct m.
Qed.
Lemma security_walk auth key required m nonce tag : 0 <= key < 4294967296 -> 1 <= tag < 256 ->
  (auth = true -> required = key) ->
  rx_ext_body auth required m (tlv_ext (XGL_WIRE_EXT_SECURITY, security_value key nonce tag)) =
    Some (inl (m <| md_auth_key_id := key |> <| md_auth_tag_len := tag |> <| md_has_security_ext := true |>)).
Proof.
  intros Hkey Htag Hreq. unfold rx_ext_body, tlv_ext. cbn [e_type e_len e_value fst snd mbind option_bind].
  rewrite Z.eqb_refl. change (zlen (security_value key nonce tag)) with 13. unfold security_value.
  rewrite decode_security_run; [|done|done|apply security_value_ok; lia].
  replace (tag =? 0) with false by lia. cbn [mbind option_bind is_ok negb orb].
  rewrite le_value_u32 by lia. replace (tag =? 0) with false by lia.
  destruct auth; cbn [andb]; [|done]. rewrite Hreq by done.
  change (md_auth_key_id (m <| md_auth_key_id := key |>)) with key. by rewrite Z.eqb_refl.
Qed.

(** What the receiver [c] and the sender agree on: with [a], the frame is signed
    under [key] by a provider whose [verify] accepts the tag [t]. *)
Definition agreed (c : xgl_datalink_ctx_t) (a : bool) (key : Z) (aad pl t : bytes) : Prop :=
  (dc_auth_required c = true -> a = true /\ dc_auth_key_id c = key) /\
  (a = true -> exists p verify, dc_auth_provider c = Ptr p /\ ap_verify p = Ptr verify /\
     1 <= ap_tag_len p <= XGL_AUTH_TAG_MAX_LEN /\ zlen t = ap_tag_len p /\ verify key aad pl t = (XGL_OK, true)).

Section accept.
  Context (c : xgl_datalink_ctx_t) (a : bool) (key nonce tag : Z) (h : xgl_wire_header_t) (l : list tlv)
    (pl t G : bytes) (xm : xgl_network_ext_metadata_t).
Let ll := if a then l ++ [(XGL_WIRE_EXT_SECURITY, security_value key nonce tag)] else l.
  Context (Hp : frame_parts h ll tag (pl ++ t) G) (Hl : Forall tlv_ok l) (Hsec : existsb is_security l = false)
    (Hx : tlv_walk ext_metadata_body l zero_ext_metadata = Some (inl xm))
    (Hpl : wh_payload_len h = zlen pl) (Ht : zlen t = tag)
    (Hflag : Z.land (wh_flags h) XGL_WIRE_FLAG_AUTHENTICATED = 0 <-> a = false)
    (Hkey : 0 <= key < 4294967296) (Hagree : agreed c a key (canon (head_bytes h ll)) pl t)
    (Hmax : zlen G <= XGL_DATALINK_MAX_FRAME_SIZE).

Definition link_meta : xgl_datalink_rx_metadata_t :=
  let m := (rx_start h) <| md_session_epoch := xm_session_epoch xm |> in
  rx_finish (if a then m <| md_auth_key_id := key |> <| md_auth_tag_len := tag |> <| md_has_security_ext := true |> else m).

Lemma link_rx_meta : rx_meta c G = Some link_meta.
Proof.
  unfold rx_meta. pose proof (decode_frame (dc_auth_required c) (dc_auth_key_id c) h ll tag (pl ++ t) G [] Hp ltac:(constructor)) as Hd.
  rewrite app_nil_r in Hd. rewrite Hd. replace (XGL_DATALINK_MAX_FRAME_SIZE <? zlen G) with false by lia.
  pose proof (plain_walk (dc_auth_required c) (dc_auth_key_id c) l Hl Hsec _ _ (rx_start h) Hx eq_refl) as Hw.
  destruct Hagree as [Hreq Hver]. unfold link_meta, ll. destruct a.
  - destruct (Hver eq_refl) as (p & verify & _ & _ & Htag & Htl & _). unfold XGL_AUTH_TAG_MAX_LEN in Htag.
    rewrite tlv_walk_app, Hw. cbn [mbind option_bind tlv_walk]. rewrite security_walk by (lia || (intros Hr; by apply Hreq in Hr as [_ ?])).
    done.
  - rewrite Hw. done.
Qed.

Lemma link_meta_fields : md_header link_meta = h <| wh_header_crc16 := header_crc h |> /\
  md_should_verify_auth link_meta = a /\ md_authenticated link_meta = a /\ md_has_security_ext link_meta = a /\
  md_payload_len link_meta = wh_payload_len h /\ (a = true -> md_auth_key_id link_meta = key) /\
  packet_id link_meta = ((wh_source_id h, wh_connection_id h, xm_session_epoch xm), wh_packet_number h).
Proof.
  assert (negb (Z.land (wh_flags h) XGL_WIRE_FLAG_AUTHENTICATED =? 0) = a) as Hf.
  { destruct (Z.eqb_spec (Z.land (wh_flags h) XGL_WIRE_FLAG_AUTHENTICATED) 0) as [H0|H0]; cbn [negb].
    - by apply Hflag in H0.
    - destruct a; [done|]. by destruct H0; apply Hflag. }
  unfold link_meta, rx_finish. destruct a; cbn; rewrite Hf; by split_and!.
Qed.

Lemma link_tag_accepted : a = true -> tag_accepted c G link_meta = true.
Proof.
  intros Ha. destruct link_meta_fields as (Hh & _ & _ & _ & Hmp & Hmk & _). destruct Hagree as [_ Hver].
  destruct (Hver Ha) as (p & verify & Hprov & Hv & Htag & Htl & Hok). unfold tag_accepted.
  rewrite Hh, Hmp, Hmk, Hprov by done. change (wh_header_len (h <| wh_header_crc16 := header_crc h |>)) with (wh_header_len h).
  pose proof (parts_zlen _ _ _ _ _ Hp) as HGz. pose proof (parts_bounds _ _ _ _ _ Hp) as Hbnd.
  destruct Hp as ((_ & _ & Hl' & _) & _ & _ & HG). pose proof (zlen_nonneg pl). unfold XGL_AUTH_TAG_MAX_LEN, XGL_CRC16_SIZE in *.
  assert (zlen (head_bytes h ll) = wh_header_len h) as Hhl by (unfold head_bytes; rewrite zlen_app, header_bytes_zlen; lia).
  rewrite (verify_auth_run _ _ _ _ _ _ verify); try done; try (unfold XGL_AUTH_TAG_MAX_LEN; lia).
  assert (G = head_bytes h ll ++ pl ++ t ++ le_bytes 2 (crc16 0xFFFF (head_bytes h ll ++ pl ++ t))) as HG'.
  { rewrite HG. unfold seal. by rewrite <- !app_assoc. }
  rewrite HG'. rewrite take_app_length' by (unfold zlen in *; lia).
  rewrite drop_app_length' by (unfold zlen in *; lia). rewrite take_app_length' by (unfold zlen in *; lia).
  rewrite app_assoc, drop_app_length' by (rewrite length_app; unfold zlen in *; lia).
  rewrite take_app_length' by (unfold zlen in *; lia). by rewrite Hok.
Qed.

(** Authentication matters only when the frame is signed; then it must be new. *)
Lemma frame_accepted M M' :
  (a = true -> memory_check M (wh_source_id h, wh_connection_id h, xm_session_epoch xm) (wh_packet_number h) =
                 (XGL_REPLAY_ACCEPT_NEW, M')) ->
  (frame_filter c M G).1 = true.
Proof.
  intros Hmem. destruct link_meta_fields as (_ & Hs & Hau & Hse & _ & _ & Hid). unfold frame_filter. rewrite link_rx_meta.
  pose proof link_tag_accepted as Htag. revert Hs Hau Hse Hid Htag. generalize link_meta. intros m Hs Hau Hse Hid Htag.
  pose proof Hagree as [Hreq Hver].
  assert (auth_impossible c m = false) as ->.
  { unfold auth_impossible. rewrite Hs, Hau, Hse. destruct a; cbn [negb orb andb].
    - destruct (Hver eq_refl) as (p & verify & -> & -> & _). rewrite bool_decide_eq_false_2 by done. by rewrite andb_false_r.
    - destruct (dc_auth_required c); [by destruct (Hreq eq_refl)|done]. }
  rewrite Hs. destruct a; cbn [negb]; [|done]. rewrite Htag by done. cbn [negb]. rewrite Hid. cbn [fst snd]. by rewrite Hmem.
Qed.
End accept.
