(* ===== verification/Stack.v ===== *)
(** * Network and data link together

    A packet given to the network layer of one node, sent by its data link,
    forwarded by any nodes, received by the data link of its target and handed up
    there by the network layer. *)
From S2P Require Import Prelude State Errors Serialize Layer Wire WireExt ExtWalk Frame FrameView Parser Security Datalink ReplayTable DatalinkInv DatalinkSend DatalinkSafe DatalinkStream HashTable Route Network NetworkInv NetworkPath NetworkSend DatalinkLink.

(** ** The header on the wire *)

Lemma scan_plain l : existsb is_security l = false -> forall t, scan_tag l t = Some t.
Proof.
  induction l as [|[ty v] l IH]; intros Hsec t; [done|]. cbn [existsb scan_tag] in *.
  apply orb_false_iff in Hsec as [Ht Hsec]. unfold is_security in Ht. cbn [fst] in Ht. rewrite Ht. by apply IH.
Qed.
(** The serializer adds HAS_EXTENSIONS and, when it signs, AUTHENTICATED. *)
Lemma sent_flags a f ext k : 0 <= k < 8 -> 
  Z.testbit (wh_flags (sent_header a f ext)) k =
    Z.testbit (wh_flags (fr_header f)) k || ((k =? 1) && (a || (0 <? zlen ext))) || ((k =? 4) && a).
Proof.
  intros Hk. unfold sent_header, auth_header, plain_header, wire_header_of_frame. destruct a; cbn [wh_flags set_field].
  - change (Z.testbit (u8 (Z.lor (Z.lor (wh_flags (fr_header f)) XGL_WIRE_FLAG_HAS_EXTENSIONS) XGL_WIRE_FLAG_AUTHENTICATED)) k =
      Z.testbit (wh_flags (fr_header f)) k || ((k =? 1) && true) || ((k =? 4) && true)).
    unfold u8. change 256 with (2 ^ 8). rewrite Z.mod_pow2_bits_low, !Z.lor_spec by lia. rewrite !andb_true_r.
    unfold XGL_WIRE_FLAG_HAS_EXTENSIONS, XGL_WIRE_FLAG_AUTHENTICATED. change 2 with (2 ^ 1). change 16 with (2 ^ 4).
    by rewrite !Z.pow2_bits_eqb, (Z.eqb_sym 1), (Z.eqb_sym 4) by lia.
  - change (Z.testbit (set_flag (0 <? zlen ext) XGL_WIRE_FLAG_HAS_EXTENSIONS (wh_flags (fr_header f))) k =
      Z.testbit (wh_flags (fr_header f)) k || ((k =? 1) && (0 <? zlen ext)) || ((k =? 4) && false)).
    rewrite set_flag_testbit, andb_false_r, orb_false_r by lia. unfold XGL_WIRE_FLAG_HAS_EXTENSIONS. change 2 with (2 ^ 1).
    rewrite Z.pow2_bits_eqb, (Z.eqb_sym 1) by lia. f_equal. apply andb_comm.
Qed.
Lemma sent_fields a f ext : let h := sent_header a f ext in let h0 := fr_header f in
  wh_source_id h = wh_source_id h0 /\ wh_target_id h = wh_target_id h0 /\ wh_connection_id h = wh_connection_id h0 /\
  wh_packet_number h = wh_packet_number h0 /\ wh_packet_type h = wh_packet_type h0 /\
  wh_traffic_class h = wh_traffic_class h0 /\ wh_ttl h = wh_ttl h0 /\ wh_version h = XGL_WIRE_VERSION /\
  wh_header_len h = u8 (24 + zlen ext + if a then 15 else 0).
Proof. by destruct a; split_and!; cbn; rewrite ?Z.add_0_r. Qed.

Lemma packet_kind_range p d : packet_ok p d -> 1 <= packet_kind p <= 7.
Proof.
  intros (_ & (_ & _ & Ht & _) & _). unfold packet_kind, XGL_PACKET_TYPE_ACK, XGL_PACKET_TYPE_INVALID, XGL_PACKET_TYPE_DATA.
  repeat case_if; lia.
Qed.

(** ** The two nodes *)

(** The sender: node [wn] with data link [wd], a route for the packet, and a
    packet that fits. *)
Record sender_ready (wn : nw_world) (es : list xgl_route_item_t) (wd : dl_world) (a : bool) (ap : xgl_auth_provider_t)
    (route : xgl_route_item_t) (phy : xgl_phy_ops_t) (p : xgl_packet_t) (d : xgl_packet_data_t) (l : list tlv)
    (xm : xgl_network_ext_metadata_t) : Prop := {
  sr_node : nw_ok wn es;
  sr_id : 0 < nc_local_id (n_ctx wn) < 65536;
  sr_lower : can_send (n_ctx wn) = true;
  sr_answers : n_down wn = [];
  sr_route : route_map es !! pk_target_id p = Some route;
  sr_phy : n_phys wn <$> ri_phy route = Ptr phy;
  sr_tx : phy_tx phy <> NULL;
  sr_data : pk_data p = Ptr d;
  sr_packet : packet_ok p d;
  sr_exts : exts_ok p l xm;
  sr_carries : carries_exts p l;
  sr_plain : existsb is_security l = false;
  sr_unsigned : a = false -> Z.testbit (pk_flags p) 4 = false;
  sr_ext_fit : zlen (tlvs_bytes (frame_exts p l xm)) <= 216;
  sr_fit : xgl_frame_serialized_size (pd_data_len d) (zlen (tlvs_bytes (frame_exts p l xm))) (tag_of a ap) <=
             Z.min XGL_DATALINK_MAX_FRAME_SIZE (ri_max_frame_size route);
  sr_tag : network_auth_tag_len (n_ctx wn) = Some (tag_of a ap);
  sr_provider : provider_sound ap;
  sr_signs : signs (d_ctx wd) a ap;
  sr_key : 0 <= dc_auth_key_id (d_ctx wd) < 4294967296;
  sr_junk : junk_ok (d_junk wd);
  sr_heap : d_heap wd = [];
  sr_driver : d_tx wd = []
}.

Section sender.
  Context (wn : nw_world) (es : list xgl_route_item_t) (wd : dl_world) (a : bool) (ap : xgl_auth_provider_t)
    (route : xgl_route_item_t) (phy : xgl_phy_ops_t) (p : xgl_packet_t) (d : xgl_packet_data_t) (l : list tlv)
    (xm : xgl_network_ext_metadata_t).
  Context (Hready : sender_ready wn es wd a ap route phy p d l xm).
Let id := nc_local_id (n_ctx wn).
Let lf := frame_exts p l xm.
Let pl := packet_payload d.
Let n := xgl_frame_serialized_size (zlen pl) (zlen (tlvs_bytes lf)) (tag_of a ap).

Lemma frame_exts_plain : existsb is_security lf = false.
Proof.
  unfold lf, frame_exts. pose proof (sr_plain _ _ _ _ _ _ _ _ _ _ _ Hready) as Hl. destruct (_ || _); [done|].
  by rewrite existsb_app, Hl.
Qed.
Lemma payload_size : zlen pl = pd_data_len d /\ zlen pl <= 65535.
Proof.
  destruct (sr_packet _ _ _ _ _ _ _ _ _ _ _ Hready) as ((Hv & Hle & _) & _).
  pose proof (payload_zlen d Hv). unfold pl. lia.
Qed.
Lemma sender_sendable f : frame_carries f lf pl -> header_of id p (fr_header f) -> sendable a ap f lf pl.
Proof.
  intros (Hwf & He & Hp) [Hok Hs Ht Hty _ _ _ _ _ _ _ Hau].
  pose proof (sr_exts _ _ _ _ _ _ _ _ _ _ _ Hready) as Hex. destruct (frame_exts_spec p l xm Hex) as (Hl & _).
  pose proof (sr_ext_fit _ _ _ _ _ _ _ _ _ _ _ Hready) as Hfit. pose proof (sr_id _ _ _ _ _ _ _ _ _ _ _ Hready) as Hid.
  pose proof (sr_packet _ _ _ _ _ _ _ _ _ _ _ Hready) as Hpk. destruct payload_size as [_ Hpl].
  split; [apply (sr_provider _ _ _ _ _ _ _ _ _ _ _ Hready)|]. split; [done|]. split; [done|].
  split; [apply scan_plain, frame_exts_plain|]. split.
  { intros Ha. pose proof (sr_unsigned _ _ _ _ _ _ _ _ _ _ _ Hready Ha) as H4. apply Z.eqb_eq.
    change XGL_WIRE_FLAG_AUTHENTICATED with (2 ^ 4). rewrite land_flag, sent_flags by lia.
    change (fr_header (trim f)) with (fr_header f). by rewrite Hau, H4, Ha. }
  split; [exact He|]. split; [exact Hp|]. split; [|split; [exact Hfit|exact Hpl]].
  destruct (sent_fields a (trim f) (tlvs_bytes lf)) as (E1 & E2 & _ & _ & E5 & _ & _ & E8 & E9).
  change (fr_header (trim f)) with (fr_header f) in *. unfold wire_header_rejected. rewrite E1, E2, E5, E8, E9, Hs, Ht, Hty.
  pose proof (packet_kind_range p d Hpk). destruct Hpk as (_ & (Hs0 & Ht0 & _) & _). pose proof (zlen_nonneg (tlvs_bytes lf)).
  rewrite u8_small by (fold lf in Hfit; destruct a; lia). unfold wire_packet_type_valid, sent_source, XGL_WIRE_BASE_HEADER_SIZE,
    XGL_PACKET_TYPE_INVALID, XGL_PACKET_TYPE_CLOSE, id in *. rewrite Z.eqb_refl. destruct (Z.eqb_spec (pk_source_id p) 0); destruct a; lia.
Qed.

Let key := dc_auth_key_id (d_ctx wd).
(** The frame [F] that both layers make of the packet. *)
Definition sent_as (f : xgl_frame_t) (t F : bytes) : Prop :=
  let h := sent_header a (trim f) (tlvs_bytes lf) in
  let ll := sent_tlvs a (trim f) key (tag_of a ap) lf in
  header_of id p (fr_header f) /\ frame_parts h ll (tag_of a ap) (pl ++ t) F /\ zlen F = n /\ zlen t = tag_of a ap /\
  (a = true -> exists verify, ap_verify ap = Ptr verify /\ verify key (canon (head_bytes h ll)) pl t = (XGL_OK, true)).

Lemma sender_sends : exists f t F wn' wd',
  xgl_network_send_with_handle (Ptr p) false wn = Some ((XGL_OK, Ptr (sent_packet id (Ptr phy) p)), wn') /\
  n_trace wn' = n_trace wn ++ [nw_down f (Ptr phy)] /\
  datalink_send_impl (Ptr (mk_frame_tx (Ptr f) (Ptr phy))) wd = Some (XGL_OK, wd') /\
  d_trace wd' = d_trace wd ++ [dl_tx phy F] /\ sent_as f t F.
Proof.
  pose proof payload_size as [Hplz Hple]. pose proof Hready as [].
  pose proof (send_run wn es p d l xm route (tag_of a ap) false) as Hrun. cbn zeta in Hrun. rewrite sr_phy0 in Hrun.
  specialize (Hrun ltac:(done) ltac:(done) ltac:(done) ltac:(done) ltac:(done) ltac:(done) ltac:(done) ltac:(done)
    ltac:(lia) ltac:(done)).
  apply wp_run in Hrun as ([r q] & wn' & Hrun & Hr & f & (_ & Htr) & Hcar & Hhd). rewrite sr_answers0 in Hr.
  injection Hr as -> ->. pose proof (sender_sendable f Hcar Hhd) as Hf.
  pose proof (send_link_run wd phy f a ap lf pl Hf sr_signs0 sr_junk0 sr_heap0 sr_driver0 sr_tx0) as Hlink.
  apply wp_run in Hlink as (err & wd' & Hlink & -> & t & F & Hp & HFz & Htl & Htrace & Hver).
  exists f, t, F, wn', wd'. by split_and!.
Qed.
End sender.

(** The receiver: a data link just initialised, and node [wr] which the packet is for. *)
Record receiver_ready (old : xgl_datalink_ctx_t) (config : xgl_datalink_config_t) (c : xgl_datalink_ctx_t)
    (junk : Z -> bytes) (iface : xgl_layer_interface_t) (rphy : xgl_phy_ops_t) (wr : nw_world)
    (esr : list xgl_route_item_t) (a : bool) (ap : xgl_auth_provider_t) (key id : Z) (p : xgl_packet_t) (size : Z) : Prop := {
  rr_init : xgl_datalink_init (Ptr old) (Ptr config) = (XGL_OK, Ptr c);
  rr_config : datalink_config_ok config;
  rr_junk : junk_ok junk;
  rr_upper : dc_upper_layer c = Ptr iface;
  rr_receive : li_receive iface <> NULL;
  rr_rx : phy_rx rphy <> NULL;
  rr_cache : size <= dcf_rx_cache_size config;
  rr_auth : dc_auth_required c = true -> a = true /\ dc_auth_key_id c = key;
  rr_provider : a = true -> dc_auth_provider c = Ptr ap;
  rr_node : nw_ok wr esr;
  rr_deliver : can_deliver (n_ctx wr) = true;
  rr_target : pk_target_id p = nc_local_id (n_ctx wr) \/ pk_target_id p = XGL_BROADCAST_ID;
  rr_source : sent_source id p <> pk_target_id p /\ sent_source id p <> XGL_BROADCAST_ID
}.

Section receiver.
  Context (wn : nw_world) (es : list xgl_route_item_t) (wd : dl_world) (a : bool) (ap : xgl_auth_provider_t)
    (route : xgl_route_item_t) (phy : xgl_phy_ops_t) (p : xgl_packet_t) (d : xgl_packet_data_t) (l : list tlv)
    (xm : xgl_network_ext_metadata_t).
  Context (Hready : sender_ready wn es wd a ap route phy p d l xm).
Let id := nc_local_id (n_ctx wn).
Let lf := frame_exts p l xm.
Let pl := packet_payload d.
Let key := dc_auth_key_id (d_ctx wd).
Let n := xgl_frame_serialized_size (zlen pl) (zlen (tlvs_bytes lf)) (tag_of a ap).
  Context (f : xgl_frame_t) (t F : bytes) (Hsent : sent_as wn wd a ap p d l xm f t F).
  Context (old : xgl_datalink_ctx_t) (config : xgl_datalink_config_t) (c : xgl_datalink_ctx_t)
    (junk : Z -> bytes) (iface : xgl_layer_interface_t) (rphy : xgl_phy_ops_t) (wr : nw_world)
    (esr : list xgl_route_item_t).
  Context (Hrecv : receiver_ready old config c junk iface rphy wr esr a ap key id p n).
  Context (k : Z) (G : bytes).
Let h := sent_header a (trim f) (tlvs_bytes lf).
Let ll := sent_tlvs a (trim f) key (tag_of a ap) lf.
  Context (HG : frame_parts (hops k h) ll (tag_of a ap) (pl ++ t) G) (HGz : zlen G = zlen F).

Lemma received_exts : exists xm', tlv_walk ext_metadata_body lf zero_ext_metadata = Some (inl xm') /\
  ext_meta ll = Some (XGL_OK, xm') /\ xm_data_type xm' = frame_data_type p xm /\
  xm_session_epoch xm' = xm_session_epoch xm /\ Forall tlv_ok lf /\ Forall tlv_ok ll.
Proof.
  destruct (frame_exts_spec p l xm (sr_exts _ _ _ _ _ _ _ _ _ _ _ Hready)) as (Hl & xm' & Hx & Hdt & Hep).
  exists xm'. destruct (ext_meta_walk _ _ Hl Hx) as [Hw _]. split; [exact Hw|]. split; [|split; [done|split; [done|split; [done|]]]].
  - unfold ll, sent_tlvs. destruct a; [by apply ext_meta_security|done].
  - destruct HG as ((_ & _ & _ & Htl & _) & _). exact Htl.
Qed.
Lemma received_payload : wh_payload_len h = zlen pl /\ zlen t = tag_of a ap.
Proof.
  destruct Hsent as (_ & (_ & _ & Hb & _) & _ & Ht & _). fold pl in Hb. rewrite zlen_app, Ht in Hb.
  split; [unfold h, lf; lia|done].
Qed.
Lemma received_flag : Z.land (wh_flags (hops k h)) XGL_WIRE_FLAG_AUTHENTICATED = 0 <-> a = false.
Proof.
  change (wh_flags (hops k h)) with (wh_flags h). rewrite <- Z.eqb_eq. change XGL_WIRE_FLAG_AUTHENTICATED with (2 ^ 4).
  unfold h. rewrite land_flag, sent_flags by lia. destruct Hsent as (Hhd & _). change (fr_header (trim f)) with (fr_header f).
  rewrite (ho_authenticated _ _ _ Hhd). pose proof (sr_unsigned _ _ _ _ _ _ _ _ _ _ _ Hready) as Hu.
  destruct a; cbn [andb orb]; [rewrite !orb_true_r; by split|]. by rewrite Hu by done.
Qed.
Lemma received_accepted : (frame_filter c ∅ G).1 = true.
Proof.
  destruct received_exts as (xm' & Hw & _ & _ & _ & Hl & _). destruct received_payload as [Hpl Ht].
  pose proof (sr_fit _ _ _ _ _ _ _ _ _ _ _ Hready) as Hfit. destruct Hrecv.
  destruct Hsent as (_ & HF & HFz & _ & Hver).
  destruct (payload_size wn es wd a ap route phy p d l xm Hready) as [Hplz _].
  eapply (frame_accepted c a key (wh_packet_number (fr_header (trim f))) (tag_of a ap) (hops k h) lf pl t G xm' HG);
    try done.
  - exact (frame_exts_plain wn es wd a ap route phy p d l xm Hready).
  - apply received_flag.
  - apply (sr_key _ _ _ _ _ _ _ _ _ _ _ Hready).
  - split; [done|]. intros Ha. destruct (Hver Ha) as (verify & Hv & Hok).
    exists ap, verify. split; [by apply rr_provider0|]. split; [done|].
    split; [apply (sr_provider _ _ _ _ _ _ _ _ _ _ _ Hready)|]. split; [rewrite Ht; unfold tag_of; by rewrite Ha|].
    rewrite canon_hops. exact Hok.
  - rewrite HGz, HFz, Hplz. exact (Z.le_trans _ _ _ Hfit (Z.le_min_l _ _)).
Qed.

Lemma received_frames timeout heap tx polls :
  Forall (fun x => bytes_ok x.2 /\ zlen x.2 <= XGL_DATALINK_RX_CHUNK_SIZE) polls ->
  within timeout (map fst polls) -> concat (map snd polls) = G ->
  exists w, datalink_calls (map (poll rphy timeout) polls) (mk_dl_world c heap tx [] junk []) =
      Some (map (fun _ => XGL_OK) polls, w) /\ up_frames (d_trace w) = [G].
Proof.
  intros Hpolls Htime Hdata. pose proof received_accepted as Hacc. destruct Hrecv. destruct Hsent as (_ & _ & HFz & _).
  destruct (stream_filtered old config c heap tx junk iface rphy timeout polls [([], G)]) as (w & Hrun & Hups); try done.
  - constructor; [|done]. split; [constructor|]. apply valid_frame_parts. split; [by eexists _, _, _, _|].
    cbn [snd]. rewrite HGz, HFz. exact rr_cache0.
  - cbn [map concat fst snd app]. by rewrite app_nil_r.
  - exists w. split; [exact Hrun|]. rewrite Hups. cbn [map filter_frames snd].
    destruct (frame_filter c ∅ G) as [ok M]. cbn [fst] in Hacc. by rewrite Hacc.
Qed.
Lemma received_packet : exists w' q,
  xgl_network_receive (Ptr G) (zlen G) wr = Some (answer (n_up wr), w') /\ n_trace w' = n_trace wr ++ [nw_up q] /\
  carried id p pl lf (frame_data_type p xm) (xm_session_epoch xm) (view_packet q) /\ pk_ttl q = XGL_DEFAULT_TTL - k.
Proof.
  destruct received_exts as (xm' & _ & Hx & Hdt & Hep & Hl & Hll). destruct received_payload as [Hpl Ht].
  destruct Hrecv, Hsent as (Hhd & _).
  pose proof (receive_follows wr esr (hops k h) ll (tag_of a ap) (pl ++ t) G [] rr_node0 HG ltac:(constructor)) as Hrun.
  rewrite app_nil_r in Hrun. apply wp_run in Hrun as (err & w' & Hrun & events & (_ & Htr) & Hf).
  destruct (sent_fields a (trim f) (tlvs_bytes lf)) as (E1 & E2 & E3 & E4 & E5 & E6 & _). fold h in E1, E2, E3, E4, E5, E6.
  unfold net_verdict in Hf. rewrite Hx in Hf.
  change (wh_source_id (hops k h)) with (wh_source_id h) in Hf. change (wh_target_id (hops k h)) with (wh_target_id h) in Hf.
  change (wh_payload_len (hops k h)) with (wh_payload_len h) in Hf.
  rewrite E1, E2, Hpl in Hf. change (fr_header (trim f)) with (fr_header f) in Hf.
  rewrite (ho_source _ _ _ Hhd), (ho_target _ _ _ Hhd) in Hf. destruct rr_source0 as [Hs1 Hs2].
  fold id in Hf. replace ((sent_source id p =? _) || (sent_source id p =? _)) with false in Hf by lia.
  replace ((pk_target_id p =? _) || (pk_target_id p =? _)) with true in Hf by lia.
  unfold follows in Hf. rewrite rr_deliver0 in Hf. destruct Hf as (-> & q & -> & Hq).
  exists w', q. split; [exact Hrun|]. split; [exact Htr|]. split.
  2: { change (pk_ttl q) with (pk_ttl (view_packet q)). rewrite Hq. unfold frame_packet, packet_of_frame, frame_metadata.
       match goal with |- context [classify ?m] => pose proof (proj1 (classify_same m)) as Hcl end.
       cbn [pk_ttl set_field]. transitivity (wh_ttl (hops k h)); [exact (f_equal wh_ttl Hcl)|].
       destruct (sent_fields a (trim f) (tlvs_bytes lf)) as (_ & _ & _ & _ & _ & _ & E7 & _). fold h in E7.
       change (wh_ttl h - k = XGL_DEFAULT_TTL - k). rewrite E7. change (fr_header (trim f)) with (fr_header f).
       by rewrite (ho_ttl _ _ _ Hhd). }
  rewrite Hq, <- Hdt, <- Hep. rewrite take_app_length' by (unfold zlen; lia).
  assert (exists e, ll = lf ++ e) as [e He].
  { unfold ll, sent_tlvs. destruct a; [by eexists|]. exists []. by rewrite app_nil_r. }
  rewrite He in *. apply (carried_packet id p (hops k h) (fr_header f)); try done.
  - change (wh_flags (hops k h)) with (wh_flags h). unfold h. rewrite sent_flags by lia. cbn [andb Z.eqb].
    rewrite !orb_false_r. done.
  - change (wh_flags (hops k h)) with (wh_flags h). unfold h. rewrite sent_flags by lia. cbn [andb Z.eqb].
    rewrite !orb_false_r. done.
  - apply (sr_packet _ _ _ _ _ _ _ _ _ _ _ Hready).
Qed.
End receiver.

(** ** A sample *)

(** Node 1 sends a reliable packet with data type 9 to node 2, signed under key 77. *)
Definition sample_data : xgl_packet_data_t := mk_packet_data 1 3 (Ptr [1; 2; 3]) NULL.
Definition sample_packet : xgl_packet_t :=
  zero_packet <| pk_target_id := 2 |> <| pk_session_id := 3 |> <| pk_packet_number := 42 |> <| pk_data_type := 9 |>
    <| pk_reliable := 1 |> <| pk_priority := 5 |> <| pk_data := Ptr sample_data |>.
Definition sample_sender : nw_world :=
  (sample_node 1) <| n_ctx := (n_ctx (sample_node 1)) <| nc_auth_required := true |>
                                <| nc_auth_key_id := 77 |> <| nc_auth_provider := Ptr xor_provider |> |>.
Definition sample_link : dl_world := mk_dl_world sample_datalink [] [] [] sample_junk [].
Definition sample_route : xgl_route_item_t := mk_route 2 (Ptr 7) 64 0 20.
Definition sample_sent_frame : xgl_frame_t :=
  match xgl_network_send_with_handle (Ptr sample_packet) false sample_sender with
  | Some (_, w) => match n_trace w with [nw_down f _] => f | _ => zero_frame end
  | None => zero_frame
  end.
Definition sample_sent_bytes : bytes :=
  match datalink_send_impl (Ptr (mk_frame_tx (Ptr sample_sent_frame) (Ptr sample_phy))) sample_link with
  | Some (_, w) => match d_trace w with [dl_tx _ F] => F | _ => [] end
  | None => []
  end.
Lemma sample_table_map : exists es, route_rep sample_table es /\ route_map es !! 2 = Some sample_route.
Proof.
  pose proof (route_init_rep 1 0 [] [] empty_table eq_refl ltac:(lia)) as H0. unfold sample_table.
  destruct (route_add_rep empty_table [] 2 7 64 0 20 [] H0 eq_refl) as (err & t & env & es & -> & Hrep & Hmap & Henv).
  exists es. split; [done|]. destruct (Henv eq_refl) as [-> _]. destruct Hmap as [[_ ->]|[? _]]; [|done].
  by rewrite lookup_insert_eq.
Qed.
Lemma sample_ready : exists es, sender_ready sample_sender es sample_link true xor_provider sample_route sample_phy
  sample_packet sample_data [] zero_ext_metadata.
Proof.
  destruct sample_table_map as (es & Hrep & Hroute). exists es.
  constructor; try done; try exact sample_junk_ok; try exact xor_provider_sound.
  - split; [|exact Hrep]. destruct (sample_node_ok 5) as (es' & Hj & _). exact Hj.
  - split; [split; [split; [vm_compute; split; congruence|repeat constructor; lia]|by vm_compute]|].
    split; [vm_compute; intuition congruence|]. by vm_compute.
  - split; [done|]. split; [done|]. split; [constructor|]. right. by vm_compute.
Qed.
Lemma sample_receiver : exists esr old, receiver_ready old sample_datalink_config sample_datalink sample_junk
  (mk_layer NULL (Ptr 3) NULL) sample_phy (sample_node 2) esr true xor_provider 77 1 sample_packet 48.
Proof.
  destruct (sample_node_ok 2) as [esr Hok].
  exists esr, (mk_datalink zero_parser NULL NULL NULL NULL 0 false 0 NULL [] [] NULL). constructor; try done; try exact sample_junk_ok.
  - split; [split; [vm_compute; discriminate|apply forallb_bytes_ok; vm_compute; reflexivity]|].
    intros _ q [= <-]. exact xor_provider_sound.
  - by left.
Qed.

(** ** The way of a packet *)

(** C1. A packet crosses the network.  Let a node be ready to send: a well-formed
    packet that fits the route's frame size, a route to its target with a driver,
    and a data link that signs its frames, or does not.  Then the network layer
    accepts the packet and hands one frame to the data link, which transmits one
    sequence of bytes on the route's driver.  Whatever nodes forward them in turn
    - with any routes, fewer than eight of them - a freshly initialised data
    link with the same key, polled in any pieces and within its timeout, passes
    up exactly one frame; and the network layer of the packet's target (or of
    any node, for a broadcast) hands up one packet with the source (the sending
    node where it was 0), target, packet number, type, reliability class, fragment
    flag, priority (its low three bits), data type and payload of the one sent, and
    with the TTL lowered by the number of hops.  The connection is the one sent, or
    the session id where that was 0.  The extensions are those sent, followed by
    those the stack adds (data type, security), and the session epoch is the one in
    the SESSION extension among them: the field [session_epoch] of the packet itself
    is not transmitted, without that extension the epoch arrives as 0
    ([epoch_not_transmitted]).  Ready means, of the packet: traffic class 0, flags that agree with the other
    fields, no SECURITY extension of its own, and at most 216 bytes of extensions
    with the data type; of the sender: memory and the driver do not fail, the lower
    layer is there; of the receiver: its cache takes the frame, its key is the
    sender's, and the source is neither the target nor the broadcast address. *)
Theorem packet_crosses_network (wn : nw_world) (es : list xgl_route_item_t) (wd : dl_world) (a : bool)
    (ap : xgl_auth_provider_t) (route : xgl_route_item_t) (phy : xgl_phy_ops_t) (p : xgl_packet_t)
    (d : xgl_packet_data_t) (l : list tlv) (xm : xgl_network_ext_metadata_t)
    (old : xgl_datalink_ctx_t) (config : xgl_datalink_config_t) (c : xgl_datalink_ctx_t)
    (junk : Z -> bytes) (iface : xgl_layer_interface_t) (rphy : xgl_phy_ops_t) (wr : nw_world)
    (esr : list xgl_route_item_t) (heap : heap_answers) (tx : list xgl_error_t) :
  sender_ready wn es wd a ap route phy p d l xm ->
  receiver_ready old config c junk iface rphy wr esr a ap (dc_auth_key_id (d_ctx wd)) (nc_local_id (n_ctx wn)) p
    (xgl_frame_serialized_size (zlen (packet_payload d)) (zlen (tlvs_bytes (frame_exts p l xm))) (tag_of a ap)) ->
  exists f F wn' wd',
    xgl_network_send_with_handle (Ptr p) false wn =
      Some ((XGL_OK, Ptr (sent_packet (nc_local_id (n_ctx wn)) (Ptr phy) p)), wn') /\
    n_trace wn' = n_trace wn ++ [nw_down f (Ptr phy)] /\
    datalink_send_impl (Ptr (mk_frame_tx (Ptr f) (Ptr phy))) wd = Some (XGL_OK, wd') /\
    d_trace wd' = d_trace wd ++ [dl_tx phy F] /\
    forall ws G timeout polls, travels F ws G -> Forall (fun w => exists es, nw_ok w es) ws ->
      Forall (fun x => bytes_ok x.2 /\ zlen x.2 <= XGL_DATALINK_RX_CHUNK_SIZE) polls ->
      within timeout (map fst polls) -> concat (map snd polls) = G ->
      (ws = [] \/ zlen ws < XGL_DEFAULT_TTL) /\
      (exists w, datalink_calls (map (poll rphy timeout) polls) (mk_dl_world c heap tx [] junk []) =
         Some (map (fun _ => XGL_OK) polls, w) /\ up_frames (d_trace w) = [G]) /\
      exists w' q, xgl_network_receive (Ptr G) (zlen G) wr = Some (answer (n_up wr), w') /\
        n_trace w' = n_trace wr ++ [nw_up q] /\
        carried (nc_local_id (n_ctx wn)) p (packet_payload d) (frame_exts p l xm) (frame_data_type p xm)
          (xm_session_epoch xm) (view_packet q) /\
        pk_ttl q = XGL_DEFAULT_TTL - zlen ws.
Proof.
  intros Hready Hrecv.
  destruct (sender_sends wn es wd a ap route phy p d l xm Hready) as (f & t & F & wn' & wd' & H1 & H2 & H3 & H4 & Hsent).
  exists f, F, wn', wd'. split; [exact H1|]. split; [exact H2|]. split; [exact H3|]. split; [exact H4|].
  intros ws G timeout polls Htr Hws Hpolls Htime Hdata. pose proof Hsent as (Hhd & HF & _).
  destruct (travel_parts F ws G Htr Hws _ _ _ _ HF) as [Hlen HG].
  assert (zlen G = zlen F) as HGz by by rewrite (parts_zlen _ _ _ _ _ HF), (parts_zlen _ _ _ _ _ HG).
  split; [|split].
  - destruct Hlen as [->|Hlen]; [by left|right]. rewrite <- (ho_ttl _ _ _ Hhd).
    destruct (sent_fields a (trim f) (tlvs_bytes (frame_exts p l xm))) as (_ & _ & _ & _ & _ & _ & E7 & _).
    change (fr_header f) with (fr_header (trim f)). by rewrite <- E7.
  - by eapply received_frames.
  - by eapply received_packet.
Qed.
(** The epoch of a packet makes no difference to what is sent. *)
Lemma epoch_not_transmitted p e ext cap frame :
  network_build_tx_frame (p <| pk_session_epoch := e |>) ext cap frame = network_build_tx_frame p ext cap frame.
Proof. reflexivity. Qed.
Definition sample_forwarded : bytes :=
  match n_trace (after (sample_node 5) sample_sent_bytes) with [nw_tx _ G] => G | _ => [] end.
Lemma packet_crosses_network_witness : exists F G w w' q,
  travels F [sample_node 5] G /\
  datalink_calls (map (poll sample_phy 100) [(10, G)]) (mk_dl_world sample_datalink [] [] [] sample_junk []) =
    Some ([XGL_OK], w) /\ up_frames (d_trace w) = [G] /\
  xgl_network_receive (Ptr G) (zlen G) (sample_node 2) = Some (XGL_OK, w') /\ n_trace w' = [nw_up q] /\
  carried 1 sample_packet [1; 2; 3] [(XGL_WIRE_EXT_DATA_TYPE, [9])] 9 0 (view_packet q) /\ pk_ttl q = 7.
Proof.
  destruct sample_ready as [es Hs]. destruct sample_receiver as (esr & old & Hr).
  destruct (packet_crosses_network _ _ _ _ _ _ _ _ _ _ _ _ _ _ _ _ _ _ _ [] [] Hs Hr)
    as (f & F & wn & wd & H1 & H2 & H3 & H4 & Hall).
  assert (f = sample_sent_frame) as -> by (unfold sample_sent_frame; rewrite H1, H2; reflexivity).
  assert (F = sample_sent_bytes) as -> by (unfold sample_sent_bytes; rewrite H3, H4; reflexivity).
  assert (travels sample_sent_bytes [sample_node 5] sample_forwarded) as Htr.
  { apply (travels_cons _ _ XGL_OK (after (sample_node 5) sample_sent_bytes) sample_phy sample_forwarded);
      [vm_compute; reflexivity..|]. constructor. }
  destruct (Hall [sample_node 5] sample_forwarded 100 [(10, sample_forwarded)] Htr) as (_ & (w & Hw & Hup) & w' & q & Hq & Hqt & Hc & Httl).
  - constructor; [exact (sample_node_ok 5)|constructor].
  - constructor; [|constructor]. split; [apply forallb_bytes_ok; vm_compute; reflexivity|vm_compute; discriminate].
  - intros i j u u' Hij Hi Hj. apply list_lookup_singleton_Some in Hi as [_ <-], Hj as [_ <-]. vm_compute. reflexivity.
  - apply app_nil_r.
  - exists sample_sent_bytes, sample_forwarded, w, w', q. split; [exact Htr|]. split; [exact Hw|]. split; [exact Hup|].
    split; [exact Hq|]. split; [exact Hqt|]. split; [exact Hc|exact Httl].
Defined.
