(* ===== verification/Memory.v ===== *)
(** * Addressable memory

    The memory pools compute with addresses and keep their free list inside the
    blocks, so they are modelled on a byte-addressed memory: the bytes the
    program owns, at the addresses where it owns them.  [malloc] and [free] of
    the C library hand out and take back regions of it.  Addresses and [size_t]
    have 64 bits and pointers are stored with their low byte first. *)
From S2P Require Import Prelude Serialize.

(** ** Bytes at addresses *)

Abbreviation memory := (gmap Z Z).

(** The [n] bytes at [a]; reading a byte that is not owned is undefined. *)
Fixpoint ld (m : memory) (a : Z) (n : nat) : M bytes :=
  match n with
  | O => ret []
  | S n => b ← m !! a; rest ← ld m (a + 1) n; ret (b :: rest)
  end.
(** [memcpy] of [bs] to [a]. *)
Fixpoint st (m : memory) (a : Z) (bs : bytes) : M memory :=
  match bs with
  | [] => ret m
  | b :: rest => _ ← m !! a; st (<[a := b]> m) (a + 1) rest
  end.

(** The bytes [a .. a + n - 1] are owned. *)
Definition owns (m : memory) (a n : Z) : Prop := forall x, a <= x < a + n -> is_Some (m !! x).

Lemma ld_spec m n : forall a bs,
  ld m a n = Some bs <-> length bs = n /\ forall i, (i < n)%nat -> m !! (a + Z.of_nat i) = bs !! i.
Proof.
  induction n as [|n IH]; intros a bs; cbn.
  { split; [intros [= <-]; split; [done|lia]|]. intros [Hl _]. by destruct bs. }
  split.
  - destruct (m !! a) as [b|] eqn:Hb; [|done]. cbn. destruct (ld m (a + 1) n) as [rest|] eqn:Hr; [|done].
    cbn. intros [= <-]. apply IH in Hr as [Hl Hr]. split; [cbn; lia|]. intros [|i] Hi.
    + by rewrite Z.add_0_r.
    + change ((b :: rest) !! S i) with (rest !! i). rewrite <- Hr by lia. f_equal. lia.
  - destruct bs as [|b rest]; [by intros [? _]|]. cbn. intros [Hl Hr].
    pose proof (Hr 0%nat ltac:(lia)) as H0. rewrite Z.add_0_r in H0. cbn in H0. rewrite H0. cbn.
    assert (ld m (a + 1) n = Some rest) as ->; [|done]. apply IH. split; [lia|]. intros i Hi.
    specialize (Hr (S i) ltac:(lia)). change ((b :: rest) !! S i) with (rest !! i) in Hr. rewrite <- Hr.
    f_equal. lia.
Qed.
Lemma ld_owns m a n : owns m a (Z.of_nat n) -> exists bs, ld m a n = Some bs.
Proof.
  revert a. induction n as [|n IH]; intros a Ho; [by eexists|]. cbn.
  destruct (Ho a ltac:(lia)) as [b ->]. cbn. destruct (IH (a + 1)) as [bs ->]; [|by eexists].
  intros x Hx. apply Ho. lia.
Qed.
Lemma ld_length m a n bs : ld m a n = Some bs -> length bs = n.
Proof. by intros [? _]%ld_spec. Qed.
(** Loads see only the bytes they cover. *)
Lemma ld_agree m m' a n : (forall x, a <= x < a + Z.of_nat n -> m' !! x = m !! x) -> ld m' a n = ld m a n.
Proof.
  revert a. induction n as [|n IH]; intros a Ha; [done|]. cbn. rewrite (Ha a) by lia.
  destruct (m !! a); [|done]. cbn. by rewrite IH by (intros; apply Ha; lia).
Qed.
Lemma ld_app m a n k : ld m a (n + k) = (b ← ld m a n; c ← ld m (a + Z.of_nat n) k; ret (b ++ c)).
Proof.
  revert a. induction n as [|n IH]; intros a; cbn.
  { rewrite Z.add_0_r. by destruct (ld m a k). }
  replace (a + Z.of_nat (S n)) with (a + 1 + Z.of_nat n) by lia.
  destruct (m !! a); [|done]. cbn. rewrite IH. destruct (ld m (a + 1) n) as [l|]; [|done]. cbn.
  by destruct (ld m (a + 1 + Z.of_nat n) k).
Qed.

Lemma st_owns m a bs : owns m a (zlen bs) -> exists m', st m a bs = Some m'.
Proof.
  revert m a. induction bs as [|b bs IH]; intros m a Ho; [by eexists|]. cbn. rewrite zlen_cons in Ho.
  pose proof (zlen_nonneg bs). destruct (Ho a ltac:(lia)) as [c ->]. cbn. apply IH. intros x Hx.
  destruct (decide (x = a)) as [->|]; [rewrite lookup_insert_eq; by eexists|].
  rewrite lookup_insert_ne by done. apply Ho. lia.
Qed.
Lemma st_spec bs : forall m a m' x, st m a bs = Some m' ->
  m' !! x = if decide (a <= x < a + zlen bs) then bs !! Z.to_nat (x - a) else m !! x.
Proof.
  induction bs as [|b bs IH]; intros m a m' x; cbn.
  { intros [= <-]. rewrite decide_False; [done|]. unfold zlen. cbn. lia. }
  destruct (m !! a) as [c|]; [|done]. cbn. intros Hst. rewrite (IH _ _ _ x Hst), zlen_cons. pose proof (zlen_nonneg bs).
  destruct (decide (x = a)) as [->|Hne].
  { rewrite decide_False, decide_True, Z.sub_diag by lia. by rewrite lookup_insert_eq. }
  rewrite lookup_insert_ne by done. destruct (decide (a + 1 <= x < a + 1 + zlen bs)).
  - rewrite decide_True by lia. replace (Z.to_nat (x - a)) with (S (Z.to_nat (x - (a + 1)))) by lia. done.
  - rewrite decide_False; [done|lia].
Qed.
Lemma st_other m a bs m' x : st m a bs = Some m' -> ~ a <= x < a + zlen bs -> m' !! x = m !! x.
Proof. intros Hst Hx. rewrite (st_spec _ _ _ _ x Hst). by rewrite decide_False. Qed.
Lemma st_ld m a bs m' : st m a bs = Some m' -> ld m' a (length bs) = Some bs.
Proof.
  intros Hst. apply ld_spec. split; [done|]. intros i Hi. rewrite (st_spec _ _ _ _ _ Hst).
  rewrite decide_True by (unfold zlen; lia). f_equal. lia.
Qed.
Lemma st_is_Some m a bs m' x : st m a bs = Some m' -> is_Some (m' !! x) <-> is_Some (m !! x).
Proof.
  revert m a. induction bs as [|b bs IH]; intros m a; cbn; [by intros [= <-]|].
  destruct (m !! a) as [c|] eqn:Ha; [|done]. cbn. intros Hst. rewrite (IH _ _ Hst).
  destruct (decide (x = a)) as [->|]; [rewrite lookup_insert_eq, Ha; split; by eexists|].
  by rewrite lookup_insert_ne.
Qed.
Lemma st_owned m a bs m' b n : st m a bs = Some m' -> owns m' b n <-> owns m b n.
Proof.
  intros Hst. unfold owns. split; intros Ho x Hx; specialize (Ho x Hx);
    by apply (st_is_Some _ _ _ _ x Hst).
Qed.
Lemma st_inv bs : forall m a m', st m a bs = Some m' -> owns m a (zlen bs).
Proof.
  induction bs as [|b bs IH]; intros m a m'; cbn; [intros _ x Hx; unfold zlen in Hx; cbn in Hx; lia|].
  destruct (m !! a) as [c|] eqn:Ha; [|done]. cbn. intros Ho%IH x Hx. rewrite zlen_cons in Hx.
  destruct (decide (x = a)) as [->|Hne]; [by eexists|]. specialize (Ho x ltac:(lia)).
  by rewrite lookup_insert_ne in Ho.
Qed.
Lemma owns_sub m a n b k : owns m a n -> a <= b -> b + k <= a + n -> owns m b k.
Proof. intros Ho Hb Hk x Hx. apply Ho. lia. Qed.
(** A load from a place the store does not touch. *)
Lemma st_ld_other m a bs m' b n : st m a bs = Some m' ->
  b + Z.of_nat n <= a \/ a + zlen bs <= b -> ld m' b n = ld m b n.
Proof. intros Hst Hd. apply ld_agree. intros x Hx. apply (st_other _ _ _ _ _ Hst). lia. Qed.

(** ** Pointers in memory *)

Definition SIZEOF_POINTER : Z := 8.
(** The null pointer. *)
Abbreviation NULLP := 0.
Definition is_addr (a : Z) : Prop := 0 <= a < 18446744073709551616.

Definition st_ptr (m : memory) (a p : Z) : M memory := st m a (le_bytes 8 p).
Definition ld_ptr (m : memory) (a : Z) : M Z := b ← ld m a 8; ret (le_value b).

Lemma st_ptr_owns m a p : owns m a SIZEOF_POINTER -> exists m', st_ptr m a p = Some m'.
Proof. intros. apply st_owns. by rewrite le_bytes_zlen. Qed.
Lemma st_ptr_ld m a p m' : is_addr p -> st_ptr m a p = Some m' -> ld_ptr m' a = Some p.
Proof.
  intros Hp Hst. unfold ld_ptr. pose proof (st_ld _ _ _ _ Hst) as Hl. rewrite le_bytes_length in Hl.
  rewrite Hl. cbn [mbind option_bind]. f_equal. apply le_value_le_bytes_small. exact Hp.
Qed.
Lemma st_ld_ptr_other m a bs m' b : st m a bs = Some m' ->
  b + SIZEOF_POINTER <= a \/ a + zlen bs <= b -> ld_ptr m' b = ld_ptr m b.
Proof. intros Hst Hd. unfold ld_ptr. by rewrite (st_ld_other _ _ _ _ _ _ Hst). Qed.

(** ** The C heap

    [malloc] takes its answers from an oracle: any region that is not in use and
    fits the address space may be handed out, with arbitrary contents; any other
    answer stands for exhaustion.  Releasing what was not handed out, or twice,
    is undefined. *)
Definition SIZE_MAX : Z := 18446744073709551615.
Record c_heap : Type := mk_c_heap {
  ch_bytes : memory;
  ch_regions : gmap Z Z;
  ch_answers : list Z;
  ch_junk : Z -> Z
}.
#[export] Instance eta_c_heap : EtaRecord c_heap :=
  Eta (fun r => mk_c_heap (ch_bytes r) (ch_regions r) (ch_answers r) (ch_junk r)).

Fixpoint add_region (m : memory) (junk : Z -> Z) (a : Z) (n : nat) : memory :=
  match n with O => m | S n => <[a := junk a]> (add_region m junk (a + 1) n) end.
Fixpoint del_region (m : memory) (a : Z) (n : nat) : memory :=
  match n with O => m | S n => delete a (del_region m (a + 1) n) end.
Definition vacant (m : memory) (a n : Z) : bool :=
  (0 <? a) && (a + n <=? SIZE_MAX) && forallb (fun x => bool_decide (m !! x = None)) (seqZ a n).

Definition malloc (size : Z) (h : c_heap) : Z * c_heap :=
  match ch_answers h with
  | [] => (NULLP, h)
  | a :: answers =>
      let h := h <| ch_answers := answers |> in
      if vacant (ch_bytes h) a size
      then (a, h <| ch_bytes := add_region (ch_bytes h) (ch_junk h) a (Z.to_nat size) |>
                 <| ch_regions := <[a := size]> (ch_regions h) |>)
      else (NULLP, h)
  end.
Definition free (p : Z) (h : c_heap) : M c_heap :=
  if p =? NULLP then ret h
  else
    n ← ch_regions h !! p;
    ret (h <| ch_bytes := del_region (ch_bytes h) p (Z.to_nat n) |> <| ch_regions := delete p (ch_regions h) |>).

Lemma add_region_spec m junk n : forall a x,
  add_region m junk a n !! x = if decide (a <= x < a + Z.of_nat n) then Some (junk x) else m !! x.
Proof.
  induction n as [|n IH]; intros a x; cbn [add_region]; [by rewrite decide_False by lia|].
  destruct (decide (x = a)) as [->|Hne]; [by rewrite lookup_insert_eq, decide_True by lia|].
  rewrite lookup_insert_ne, IH by done. destruct (decide (a + 1 <= x < _)).
  - by rewrite decide_True by lia.
  - by rewrite decide_False by lia.
Qed.
Lemma del_region_spec m n : forall a x,
  del_region m a n !! x = if decide (a <= x < a + Z.of_nat n) then None else m !! x.
Proof.
  induction n as [|n IH]; intros a x; cbn [del_region]; [by rewrite decide_False by lia|].
  destruct (decide (x = a)) as [->|Hne]; [by rewrite lookup_delete_eq, decide_True by lia|].
  rewrite lookup_delete_ne, IH by done. destruct (decide (a + 1 <= x < _)).
  - by rewrite decide_True by lia.
  - by rewrite decide_False by lia.
Qed.
Lemma vacant_spec m a n : 0 <= n -> vacant m a n = true <->
  0 < a /\ a + n <= SIZE_MAX /\ forall x, a <= x < a + n -> m !! x = None.
Proof.
  intros Hn. unfold vacant. rewrite !andb_true_iff, forallb_forall. setoid_rewrite <- list_elem_of_In.
  split.
  - intros [[H1 H2] H3]. split_and!; [lia|lia|]. intros x Hx. specialize (H3 x). rewrite elem_of_seqZ in H3.
    specialize (H3 Hx). by apply bool_decide_eq_true in H3.
  - intros (H1 & H2 & H3). split_and!; [lia|lia|]. intros x Hx%elem_of_seqZ. by apply bool_decide_eq_true, H3.
Qed.

(** Regions in use are owned and do not meet. *)
Definition heap_ok (h : c_heap) : Prop :=
  (forall a n, ch_regions h !! a = Some n -> 0 < a /\ 0 < n /\ a + n <= SIZE_MAX /\ owns (ch_bytes h) a n) /\
  (forall a n b k, ch_regions h !! a = Some n -> ch_regions h !! b = Some k -> a <> b -> a + n <= b \/ b + k <= a).

(** What [malloc] promises: a fresh region, or nothing. *)
Definition fresh_region (h : c_heap) (a size : Z) (h' : c_heap) : Prop :=
  0 < a /\ a + size <= SIZE_MAX /\ owns (ch_bytes h') a size /\
  (forall x, a <= x < a + size -> ch_bytes h !! x = None) /\
  (forall x, ~ a <= x < a + size -> ch_bytes h' !! x = ch_bytes h !! x) /\
  ch_regions h !! a = None /\ ch_regions h' = <[a := size]> (ch_regions h).
Lemma fresh_region_apart h a size h' b k : heap_ok h -> 0 < size -> fresh_region h a size h' ->
  ch_regions h !! b = Some k -> a + size <= b \/ b + k <= a.
Proof.
  intros [Hr _] Hsize (_ & _ & _ & Hvac & _) Hb. destruct (Hr b k Hb) as (_ & Hk & _ & Ho).
  destruct (decide (a + size <= b)); [lia|]. destruct (decide (b + k <= a)); [lia|].
  destruct (Ho (Z.max a b) ltac:(lia)) as [v Hv]. rewrite Hvac in Hv; [done|lia].
Qed.
Lemma fresh_region_ok h a size h' : heap_ok h -> 0 < size -> fresh_region h a size h' -> heap_ok h'.
Proof.
  intros Hok Hsize Hf. pose proof (fun b k => fresh_region_apart h a size h' b k Hok Hsize Hf) as Hnew.
  destruct Hok as [Hr Hd], Hf as (Ha & Hfit & Ho & Hvac & Hframe & Hno & Hreg). split; rewrite Hreg.
  - intros b k. destruct (decide (b = a)) as [->|Hne].
    { rewrite lookup_insert_eq. intros [= <-]. done. }
    rewrite lookup_insert_ne by done. intros Hb. destruct (Hr b k Hb) as (? & ? & ? & Hob). split_and!; [done..|].
    intros x Hx. rewrite Hframe; [by apply Hob|]. specialize (Hnew b k Hb). lia.
  - intros b k c j Hb Hc Hne.
    apply lookup_insert_Some in Hb as [[<- <-]|[Hba Hb]]; apply lookup_insert_Some in Hc as [[<- <-]|[Hca Hc]].
    + done.
    + specialize (Hnew c j Hc). lia.
    + specialize (Hnew b k Hb). lia.
    + by apply (Hd b k c j).
Qed.
Lemma malloc_spec size h : heap_ok h -> 0 < size ->
  let '(a, h') := malloc size h in
  heap_ok h' /\
  ((a = NULLP /\ ch_bytes h' = ch_bytes h /\ ch_regions h' = ch_regions h) \/ fresh_region h a size h').
Proof.
  intros Hok Hsize. unfold malloc. destruct (ch_answers h) as [|a answers]; [split; [done|by left]|].
  destruct (vacant _ a size) eqn:Hv; [|split; [exact Hok|by left]].
  cbn [ch_bytes] in Hv. apply vacant_spec in Hv as (Ha & Hfit & Hvac); [|lia].
  set (h' := _ <| ch_regions := _ |>).
  assert (fresh_region h a size h') as Hf; [|split; [exact (fresh_region_ok h a size h' Hok Hsize Hf)|by right]].
  assert (forall x, ch_bytes h' !! x = if decide (a <= x < a + size) then Some (ch_junk h x) else ch_bytes h !! x) as Hm.
  { intros x. unfold h'. cbn. rewrite add_region_spec. by rewrite Z2Nat.id by lia. }
  split_and!; [done|done|..|done].
  - intros x Hx. rewrite Hm, decide_True by done. by eexists.
  - exact Hvac.
  - intros x Hx. by rewrite Hm, decide_False.
  - destruct (ch_regions h !! a) as [k|] eqn:Hk; [|done]. destruct (proj1 Hok a k Hk) as (_ & Hk0 & _ & Ho).
    destruct (Ho a ltac:(lia)) as [v Hv]. cbn in Hvac. rewrite Hvac in Hv; [done|lia].
Qed.
(** [free] of a region in use. *)
Lemma free_spec h a n : heap_ok h -> ch_regions h !! a = Some n ->
  exists h', free a h = Some h' /\ heap_ok h' /\ ch_regions h' = delete a (ch_regions h) /\
    (forall x, ~ a <= x < a + n -> ch_bytes h' !! x = ch_bytes h !! x) /\
    (forall x, a <= x < a + n -> ch_bytes h' !! x = None).
Proof.
  intros [Hr Hd] Ha. destruct (Hr a n Ha) as (Hpos & Hn & _). unfold free. replace (a =? NULLP) with false by lia.
  rewrite Ha. cbn [mbind option_bind]. eexists. split; [done|].
  assert (forall x, ~ a <= x < a + n -> del_region (ch_bytes h) a (Z.to_nat n) !! x = ch_bytes h !! x) as Hframe.
  { intros x Hx. rewrite del_region_spec, decide_False; [done|]. rewrite Z2Nat.id; lia. }
  split; [|split; [done|split; [exact Hframe|]]].
  2: { intros x Hx. cbn. rewrite del_region_spec, decide_True; [done|]. rewrite Z2Nat.id; lia. }
  split; cbn.
  - intros b k. destruct (decide (b = a)) as [->|Hne]; [by rewrite lookup_delete_eq|].
    rewrite lookup_delete_ne by done. intros Hb. destruct (Hr b k Hb) as (? & ? & ? & Hob). split_and!; [done..|].
    intros x Hx. rewrite Hframe; [by apply Hob|]. destruct (Hd b k a n Hb Ha Hne); lia.
  - intros b k c j [_ Hb]%lookup_delete_Some [_ Hc]%lookup_delete_Some. by apply Hd.
Qed.

(** ** Regions that were taken from a heap and not yet given back *)
Record holding (h0 h : c_heap) (l : list (Z * Z)) : Prop := mk_holding {
  ho_heap : heap_ok h;
  ho_nodup : NoDup l.*1;
  ho_in a n : (a, n) ∈ l -> ch_regions h !! a = Some n /\ ch_regions h0 !! a = None;
  ho_out a : a ∉ l.*1 -> ch_regions h !! a = ch_regions h0 !! a;
  ho_bytes x : (forall a n, (a, n) ∈ l -> ~ a <= x < a + n) -> ch_bytes h !! x = ch_bytes h0 !! x;
  ho_vacant a n x : (a, n) ∈ l -> a <= x < a + n -> ch_bytes h0 !! x = None
}.
Lemma holding_start h : heap_ok h -> holding h h [].
Proof. intros Hok. split; [done|constructor|by intros a n ?%elem_of_nil|done|done|by intros a n x ?%elem_of_nil]. Qed.
Lemma holding_nil h0 h : holding h0 h [] -> ch_bytes h = ch_bytes h0 /\ ch_regions h = ch_regions h0.
Proof.
  intros H. split; apply map_eq; intros x; [apply (ho_bytes _ _ _ H)|apply (ho_out _ _ _ H)].
  - by intros a n ?%elem_of_nil.
  - by intros ?%elem_of_nil.
Qed.
Lemma holding_perm h0 h l l' : l ≡ₚ l' -> holding h0 h l -> holding h0 h l'.
Proof.
  intros Hp [H1 H2 H3 H4 H5 H6]. split; [done|by rewrite <- Hp|..]; try setoid_rewrite <- Hp; done.
Qed.
Lemma holding_acquire h0 h l a n h' : holding h0 h l -> 0 < n -> fresh_region h a n h' -> holding h0 h' ((a, n) :: l).
Proof.
  intros [Hok Hnd Hin Hout Hby Hvac] Hn Hf. pose proof Hf as (_ & _ & _ & Hnew & Hframe & Hno & Hregs).
  assert (a ∉ l.*1) as Hal.
  { rewrite list_elem_of_fmap. intros ([b k] & -> & Hb). destruct (Hin b k Hb) as [Hb' _]. cbn in Hno. congruence. }
  split; [by eapply fresh_region_ok|by constructor|..].
  - intros b k [[= -> ->]|Hb]%elem_of_cons.
    + rewrite Hregs, lookup_insert_eq. split; [done|]. by rewrite <- (Hout a Hal).
    + destruct (Hin b k Hb) as [Hb' Hb0]. rewrite Hregs, lookup_insert_ne; [done|]. intros ->. congruence.
  - intros b. cbn. rewrite not_elem_of_cons. intros [Hne Hb]. rewrite Hregs, lookup_insert_ne by done. by apply Hout.
  - intros x Hx. rewrite Hframe by (apply Hx; left). apply Hby. intros b k Hb. apply Hx. by right.
  - intros b k x [[= -> ->]|Hb]%elem_of_cons Hx; [|by eapply Hvac].
    rewrite <- Hby; [by apply Hnew|]. intros c j Hc Hxc. destruct (Hin c j Hc) as [Hc' _].
    destruct (proj1 Hok c j Hc') as (_ & _ & _ & Ho). destruct (Ho x Hxc) as [v Hv]. by rewrite Hnew in Hv.
Qed.
(** What a program does with the bytes of the regions it holds. *)
Lemma holding_write h0 h l m : holding h0 h l ->
  (forall x, is_Some (m !! x) <-> is_Some (ch_bytes h !! x)) ->
  (forall x, (forall a n, (a, n) ∈ l -> ~ a <= x < a + n) -> m !! x = ch_bytes h !! x) ->
  holding h0 (h <| ch_bytes := m |>) l.
Proof.
  intros [[Hr Hd] Hnd Hin Hout Hby Hvac] Hdom Hframe. split; try done.
  - split; [|done]. intros a n Ha. destruct (Hr a n Ha) as (? & ? & ? & Ho). split_and!; [done..|].
    intros x Hx. by apply Hdom, Ho.
  - intros x Hx. change (ch_bytes _) with m at 1. by rewrite Hframe, Hby.
Qed.
Lemma holding_release h0 h l a n : holding h0 h ((a, n) :: l) ->
  exists h', free a h = Some h' /\ holding h0 h' l.
Proof.
  intros [Hok Hnd Hin Hout Hby Hvac]. destruct (Hin a n ltac:(left)) as [Ha Ha0]. cbn in Hnd.
  apply NoDup_cons in Hnd as [Hal Hnd]. destruct (free_spec h a n Hok Ha) as (h' & Hrun & Hok' & Hregs & Hframe & Hgone).
  exists h'. split; [done|]. split; [done|done|..].
  - intros b k Hb. destruct (Hin b k ltac:(by right)) as [Hb' Hb0]. rewrite Hregs, lookup_delete_ne; [done|].
    intros ->. apply Hal, list_elem_of_fmap. by exists (b, k).
  - intros b Hb. rewrite Hregs. destruct (decide (b = a)) as [->|Hne]; [by rewrite lookup_delete_eq|].
    rewrite lookup_delete_ne by done. apply Hout. cbn. by apply not_elem_of_cons.
  - intros x Hx. destruct (decide (a <= x < a + n)) as [Hxa|Hxa].
    + rewrite Hgone by done. symmetry. apply (Hvac a n); [left|done].
    + rewrite Hframe by done. apply Hby. intros b k [[= -> ->]|Hb]%elem_of_cons; [done|by apply Hx].
  - intros b k x Hb. apply Hvac. by right.
Qed.
