(* ===== verification/Mempool.v ===== *)
(** * The fixed-size block pool

    src/src/memory/xgl_mempool.c: a buffer cut into blocks, the free ones linked
    through their first bytes.  The pool decides from addresses alone whether a
    pointer given back is one of its blocks and whether it is free already. *)
From S2P Require Import Prelude Serialize Memory.

(** ** The code *)

(** src/include/xgl/internal/xgl_mempool.h:25-32: xgl_mempool_t *)
Record xgl_mempool_t : Type := mk_mempool {
  mp_pool : Z;
  mp_block_size : Z;
  mp_block_count : Z;
  mp_free_count : Z;
  mp_peak_used : Z;
  mp_free_list : Z
}.
#[export] Instance eta_mempool : EtaRecord xgl_mempool_t :=
  Eta (fun r => mk_mempool (mp_pool r) (mp_block_size r) (mp_block_count r) (mp_free_count r)
                  (mp_peak_used r) (mp_free_list r)).
Definition zero_mempool : xgl_mempool_t := mk_mempool NULLP 0 0 0 0 NULLP.

(** src/src/memory/xgl_mempool.c:11-13: mempool_store_next *)
Definition mempool_store_next (m : memory) (block next : Z) : M memory := st_ptr m block next.

(** src/src/memory/xgl_mempool.c:15-19: mempool_load_next *)
Definition mempool_load_next (m : memory) (block : Z) : M Z := ld_ptr m block.

(** src/src/memory/xgl_mempool.c:21-23: mempool_size_overflows *)
Definition mempool_size_overflows (count block_size : Z) : bool :=
  negb (block_size =? 0) && (SIZE_MAX / block_size <? count).

(** src/src/memory/xgl_mempool.c:25-41: mempool_contains_block *)
Definition mempool_contains_block (pool : ptr xgl_mempool_t) (p : Z) : bool :=
  match pool with
  | NULL => false
  | Ptr pool =>
      if (mp_pool pool =? NULLP) || (p =? NULLP) || (mp_block_size pool =? 0) ||
         (mp_block_count pool =? 0) || mempool_size_overflows (mp_block_count pool) (mp_block_size pool)
      then false
      else
        let start := mp_pool pool in
        let end_ := u64 (start + u64 (mp_block_count pool * mp_block_size pool)) in
        if (p <? start) || (end_ <=? p) then false
        else (p - start) mod mp_block_size pool =? 0
  end.

(** src/src/memory/xgl_mempool.c:53-59: mempool_free_list_contains *)
Fixpoint free_list_scan (m : memory) (p : Z) (n : nat) (current : Z) : M bool :=
  match n with
  | O => ret false
  | S n =>
      if current =? NULLP then ret false
      else if current =? p then ret true
      else current ← mempool_load_next m current; free_list_scan m p n current
  end.

(** src/src/memory/xgl_mempool.c:43-62: mempool_free_list_contains *)
Definition mempool_free_list_contains (m : memory) (pool : ptr xgl_mempool_t) (p : Z) : M bool :=
  match pool with
  | NULL => ret false
  | Ptr pool =>
      if p =? NULLP then ret false
      else free_list_scan m p (Z.to_nat (mp_block_count pool)) (mp_free_list pool)
  end.

(** The loop over the [n] blocks from [block_ptr] on. *)
(** src/src/memory/xgl_mempool.c:105-109: xgl_mempool_init *)
Fixpoint mempool_link (n : nat) (block_ptr : Z) (pool : xgl_mempool_t) (m : memory)
    : M (xgl_mempool_t * memory) :=
  match n with
  | O => ret (pool, m)
  | S n =>
      m ← mempool_store_next m block_ptr (mp_free_list pool);
      mempool_link n (block_ptr + mp_block_size pool) (pool <| mp_free_list := block_ptr |>) m
  end.

(** src/src/memory/xgl_mempool.c:74-112: xgl_mempool_init *)
Definition xgl_mempool_init (pool : ptr xgl_mempool_t) (buffer buffer_size block_size : Z) (m : memory)
    : M (Z * ptr xgl_mempool_t * memory) :=
  match pool with
  | NULL => ret (-1, NULL, m)
  | Ptr pool =>
      if (buffer =? NULLP) || (buffer_size =? 0) || (block_size =? 0) then ret (-1, Ptr pool, m)
      else if block_size <? SIZEOF_POINTER then ret (-1, Ptr pool, m)
      else
        let pool := pool <| mp_block_count := buffer_size / block_size |> in
        if mp_block_count pool =? 0 then ret (-1, Ptr pool, m)
        else
          let pool := pool <| mp_pool := buffer |> <| mp_block_size := block_size |>
                           <| mp_free_count := mp_block_count pool |> <| mp_peak_used := 0 |>
                           <| mp_free_list := NULLP |> in
          '(pool, m) ← mempool_link (Z.to_nat (mp_block_count pool)) (mp_pool pool) pool m;
          ret (0, Ptr pool, m)
  end.

(** src/src/memory/xgl_mempool.c:118-125: xgl_mempool_destroy *)
Definition xgl_mempool_destroy (pool : ptr xgl_mempool_t) : ptr xgl_mempool_t :=
  match pool with NULL => NULL | Ptr _ => Ptr zero_mempool end.

(** The number of blocks in use, with the width of [size_t]. *)
Definition used_count (pool : xgl_mempool_t) : Z := u64 (mp_block_count pool - mp_free_count pool).

(** src/src/memory/xgl_mempool.c:135-161: xgl_mempool_alloc *)
Definition xgl_mempool_alloc (pool : ptr xgl_mempool_t) (m : memory) : M (Z * ptr xgl_mempool_t) :=
  match pool with
  | NULL => ret (NULLP, NULL)
  | Ptr pool =>
      if mp_free_list pool =? NULLP then ret (NULLP, Ptr pool)
      else
        let block := mp_free_list pool in
        next ← mempool_load_next m block;
        let pool := pool <| mp_free_list := next |> <| mp_free_count := u64 (mp_free_count pool - 1) |> in
        let used := used_count pool in
        ret (block, Ptr (if mp_peak_used pool <? used then pool <| mp_peak_used := used |> else pool))
  end.

(** src/src/memory/xgl_mempool.c:167-185: xgl_mempool_free *)
Definition xgl_mempool_free (pool : ptr xgl_mempool_t) (p : Z) (m : memory)
    : M (ptr xgl_mempool_t * memory) :=
  match pool with
  | NULL => ret (NULL, m)
  | Ptr pool =>
      if p =? NULLP then ret (Ptr pool, m)
      else if negb (mempool_contains_block (Ptr pool) p) then ret (Ptr pool, m)
      else if mp_block_count pool <=? mp_free_count pool then ret (Ptr pool, m)
      else
        free ← mempool_free_list_contains m (Ptr pool) p;
        if free : bool then ret (Ptr pool, m)
        else
          m ← mempool_store_next m p (mp_free_list pool);
          ret (Ptr (pool <| mp_free_list := p |> <| mp_free_count := u64 (mp_free_count pool + 1) |>), m)
  end.

(** src/src/memory/xgl_mempool.c:194-200: xgl_mempool_get_free_count *)
Definition xgl_mempool_get_free_count (pool : ptr xgl_mempool_t) : Z :=
  match pool with NULL => 0 | Ptr pool => mp_free_count pool end.

(** src/src/memory/xgl_mempool.c:205-211: xgl_mempool_get_used_count *)
Definition xgl_mempool_get_used_count (pool : ptr xgl_mempool_t) : Z :=
  match pool with NULL => 0 | Ptr pool => used_count pool end.

(** src/src/memory/xgl_mempool.c:216-222: xgl_mempool_get_peak_used *)
Definition xgl_mempool_get_peak_used (pool : ptr xgl_mempool_t) : Z :=
  match pool with NULL => 0 | Ptr pool => mp_peak_used pool end.

(** src/src/memory/xgl_mempool.c:227-233: xgl_mempool_is_empty *)
Definition xgl_mempool_is_empty (pool : ptr xgl_mempool_t) : bool :=
  match pool with NULL => true | Ptr pool => mp_free_count pool =? mp_block_count pool end.

(** src/src/memory/xgl_mempool.c:238-244: xgl_mempool_is_full *)
Definition xgl_mempool_is_full (pool : ptr xgl_mempool_t) : bool :=
  match pool with NULL => true | Ptr pool => mp_free_count pool =? 0 end.

(** src/src/memory/xgl_mempool.c:249-255: xgl_mempool_reset_stats *)
Definition xgl_mempool_reset_stats (pool : ptr xgl_mempool_t) : ptr xgl_mempool_t :=
  match pool with NULL => NULL | Ptr pool => Ptr (pool <| mp_peak_used := used_count pool |>) end.

(** ** What a pool promises

    The free blocks in the order they will be handed out, the blocks in use with
    their contents, and the most that were in use at a time. *)
Record pool_spec : Type := mk_pool_spec {
  ps_free : list Z;
  ps_live : gmap Z bytes;
  ps_peak : Z
}.
#[export] Instance eta_pool_spec : EtaRecord pool_spec :=
  Eta (fun r => mk_pool_spec (ps_free r) (ps_live r) (ps_peak r)).
(** What the users of a pool do: they take blocks, give back whatever they like,
    and write in the blocks they hold. *)
Inductive pool_op : Type :=
| op_alloc
| op_free (p : Z)
| op_write (a off : Z) (bs : bytes)
| op_reset.

Definition live_count (s : pool_spec) : Z := Z.of_nat (size (ps_live s)).

(** The contents of a block are arbitrary when it is handed out; giving back
    what is not in use is ignored. *)
Inductive pool_step : pool_spec -> pool_op -> Z -> pool_spec -> Prop :=
| step_alloc a c free live peak :
    pool_step (mk_pool_spec (a :: free) live peak) op_alloc a
      (mk_pool_spec free (<[a := c]> live) (Z.max peak (Z.of_nat (size live) + 1)))
| step_exhausted live peak :
    pool_step (mk_pool_spec [] live peak) op_alloc NULLP (mk_pool_spec [] live peak)
| step_free a c s : ps_live s !! a = Some c ->
    pool_step s (op_free a) 0 (mk_pool_spec (a :: ps_free s) (delete a (ps_live s)) (ps_peak s))
| step_ignored a s : ps_live s !! a = None -> pool_step s (op_free a) 0 s
| step_write a off bs c c' s : ps_live s !! a = Some c -> wr_bytes c off bs = Some c' ->
    pool_step s (op_write a off bs) 0 (s <| ps_live := <[a := c']> (ps_live s) |>)
| step_reset s : pool_step s op_reset 0 (s <| ps_peak := live_count s |>).

(** A user writes only in a block it holds. *)
Definition permitted (s : pool_spec) (op : pool_op) : Prop :=
  match op with
  | op_write a off bs => exists c c', ps_live s !! a = Some c /\ wr_bytes c off bs = Some c'
  | _ => True
  end.

Definition exec (op : pool_op) (pool : ptr xgl_mempool_t) (m : memory) : M (Z * ptr xgl_mempool_t * memory) :=
  match op with
  | op_alloc => '(a, pool) ← xgl_mempool_alloc pool m; ret (a, pool, m)
  | op_free p => '(pool, m) ← xgl_mempool_free pool p m; ret (0, pool, m)
  | op_write a off bs => m ← st m (a + off) bs; ret (0, pool, m)
  | op_reset => ret (0, xgl_mempool_reset_stats pool, m)
  end.

(** ** The pool keeps its promise *)

(** The list of the addresses [l] linked in memory, as the code walks it. *)
Fixpoint chain (m : memory) (head : Z) (l : list Z) : Prop :=
  match l with
  | [] => head = NULLP
  | a :: l => head = a /\ exists next, mempool_load_next m a = Some next /\ chain m next l
  end.
Lemma chain_agree m m' l : forall head, (forall a, a ∈ l -> ld_ptr m' a = ld_ptr m a) ->
  chain m head l -> chain m' head l.
Proof.
  induction l as [|a l IH]; intros head Ha; [done|]. intros [-> (next & Hn & Hc)]. split; [done|].
  exists next. unfold mempool_load_next in *. rewrite Ha by left. split; [done|]. apply IH; [|done].
  intros b Hb. apply Ha. by right.
Qed.
Lemma scan_chain m p l : p <> NULLP -> (forall a, a ∈ l -> a <> NULLP) -> forall n head,
  chain m head l -> (length l <= n)%nat -> free_list_scan m p n head = Some (bool_decide (p ∈ l)).
Proof.
  intros Hp Hnz n. revert n Hnz. induction l as [|a l IH]; intros n Hnz head.
  { intros ->. destruct n; reflexivity. }
  intros [-> (next & Hn & Hc)] Hlen. destruct n as [|n]; [cbn in Hlen; lia|]. cbn [free_list_scan].
  destruct (Z.eqb_spec a NULLP) as [->|_]; [by destruct (Hnz NULLP ltac:(left))|].
  destruct (Z.eqb_spec a p) as [->|Hne].
  { by rewrite bool_decide_eq_true_2 by left. }
  rewrite Hn. cbn [mbind option_bind].
  rewrite (IH n (fun b Hb => Hnz b (list_elem_of_further _ _ _ Hb)) next Hc) by (cbn in Hlen; lia).
  f_equal. apply bool_decide_ext. rewrite elem_of_cons. naive_solver.
Qed.

Section pool.
(** The buffer and how it is cut. *)
Context (B S : Z) (N : nat).
Definition region : Z := Z.of_nat N * S.
Hypothesis HB : 0 < B.
Hypothesis HS : SIZEOF_POINTER <= S.
Hypothesis HN : (0 < N)%nat.
Hypothesis Hfit : B + region <= SIZE_MAX.

Definition block (i : nat) : Z := B + Z.of_nat i * S.
Definition blocks : list Z := block <$> seq 0 N.

Lemma elem_blocks a : a ∈ blocks <-> exists i, (i < N)%nat /\ a = block i.
Proof.
  unfold blocks. rewrite list_elem_of_fmap. split; intros (i & H1 & H2).
  - exists i. apply elem_of_seq in H2. split; [lia|done].
  - exists i. split; [done|]. apply elem_of_seq. lia.
Qed.
Lemma blocks_NoDup : NoDup blocks.
Proof.
  unfold blocks. apply NoDup_fmap_2; [|apply NoDup_seq]. intros i j. unfold block, SIZEOF_POINTER in *.
  intros Heq. nia.
Qed.
(** A block lies in the buffer; different blocks do not meet. *)
Lemma block_inside a : a ∈ blocks -> B <= a /\ a + S <= B + region.
Proof. intros (i & Hi & ->)%elem_blocks. unfold block, region, SIZEOF_POINTER in *. nia. Qed.
Lemma blocks_apart a b : a ∈ blocks -> b ∈ blocks -> a <> b -> a + S <= b \/ b + S <= a.
Proof.
  intros (i & Hi & ->)%elem_blocks (j & Hj & ->)%elem_blocks. unfold block, SIZEOF_POINTER in *. intros Hne.
  destruct (Z.lt_total (Z.of_nat i) (Z.of_nat j)) as [|[Heq|]];
    [left; nia|destruct Hne; by rewrite Heq|right; nia].
Qed.
Lemma block_addr a : a ∈ blocks -> a <> NULLP /\ is_addr a.
Proof. intros Ha%block_inside. unfold is_addr, SIZE_MAX, SIZEOF_POINTER in *. lia. Qed.

Record pool_rep (m0 : memory) (p : xgl_mempool_t) (m : memory) (s : pool_spec) : Prop := mk_pool_rep {
  rep_pool : mp_pool p = B;
  rep_size : mp_block_size p = S;
  rep_count : mp_block_count p = Z.of_nat N;
  rep_free : mp_free_count p = zlen (ps_free s);
  rep_peak : mp_peak_used p = ps_peak s;
  rep_chain : chain m (mp_free_list p) (ps_free s);
  rep_blocks : ps_free s ++ (map_to_list (ps_live s)).*1 ≡ₚ blocks;
  rep_live a c : ps_live s !! a = Some c -> ld m a (Z.to_nat S) = Some c;
  rep_owns : owns m B region;
  rep_frame x : ~ B <= x < B + region -> m !! x = m0 !! x
}.

Lemma live_keys (live : gmap Z bytes) a : a ∈ (map_to_list live).*1 <-> is_Some (live !! a).
Proof.
  rewrite list_elem_of_fmap. split.
  - intros ([b c] & -> & Hb). apply elem_of_map_to_list in Hb. by eexists.
  - intros [c Hc]. exists (a, c). split; [done|]. by apply elem_of_map_to_list.
Qed.
Lemma overwrite_keys (live : gmap Z bytes) a c c' : live !! a = Some c ->
  (map_to_list (<[a := c']> live)).*1 ≡ₚ (map_to_list live).*1.
Proof.
  intros Ha. rewrite <- (insert_delete_eq live), (map_to_list_insert _ _ _ (lookup_delete_eq _ _)). cbn.
  by rewrite <- (map_to_list_delete live a c Ha).
Qed.
Lemma rep_mem m0 p m s a : pool_rep m0 p m s -> a ∈ blocks <-> a ∈ ps_free s \/ is_Some (ps_live s !! a).
Proof. intros H. by rewrite <- (rep_blocks _ _ _ _ H), elem_of_app, live_keys. Qed.
Lemma rep_disjoint m0 p m s a : pool_rep m0 p m s -> a ∈ ps_free s -> ps_live s !! a = None.
Proof.
  intros H Ha. pose proof blocks_NoDup as Hnd. rewrite <- (rep_blocks _ _ _ _ H) in Hnd.
  apply NoDup_app in Hnd as (_ & Hd & _). destruct (ps_live s !! a) eqn:E; [|done].
  destruct (Hd a Ha). apply live_keys. by eexists.
Qed.
Lemma rep_counts m0 p m s : pool_rep m0 p m s -> zlen (ps_free s) + live_count s = Z.of_nat N.
Proof.
  intros H. pose proof (Permutation_length (rep_blocks _ _ _ _ H)) as Hl. unfold blocks in Hl.
  rewrite length_app, !length_fmap, length_seq, length_map_to_list in Hl. unfold zlen, live_count. lia.
Qed.
Lemma rep_used m0 p m s : pool_rep m0 p m s -> used_count p = live_count s.
Proof.
  intros H. pose proof (rep_counts _ _ _ _ H). unfold used_count. rewrite (rep_count _ _ _ _ H), (rep_free _ _ _ _ H).
  pose proof (zlen_nonneg (ps_free s)). unfold region, SIZE_MAX, SIZEOF_POINTER, live_count in *.
  rewrite u64_small by nia. lia.
Qed.
Lemma rep_owns_block m0 p m s a : pool_rep m0 p m s -> a ∈ blocks -> owns m a S.
Proof. intros H Ha%block_inside. apply (owns_sub _ B region); [apply H|lia..]. Qed.

Lemma contains_block_spec m0 p m s a : pool_rep m0 p m s ->
  mempool_contains_block (Ptr p) a = bool_decide (a ∈ blocks).
Proof.
  intros H. unfold mempool_contains_block, mempool_size_overflows.
  rewrite (rep_pool _ _ _ _ H), (rep_size _ _ _ _ H), (rep_count _ _ _ _ H).
  unfold region, SIZE_MAX, SIZEOF_POINTER in *.
  assert (Z.of_nat N <= 18446744073709551615 / S) by (apply Z.div_le_lower_bound; nia).
  replace (B =? NULLP) with false by lia. replace (S =? 0) with false by lia.
  replace (Z.of_nat N =? 0) with false by lia. replace (18446744073709551615 / S <? Z.of_nat N) with false by lia.
  cbn [negb andb orb]. rewrite !orb_false_r, (u64_small (Z.of_nat N * S)), u64_small by nia.
  symmetry. case_bool_decide as Hin.
  - pose proof (block_addr _ Hin) as [Hnz _]. pose proof (block_inside _ Hin) as Hi. unfold region in Hi.
    replace (a =? NULLP) with false by lia. replace (_ || _) with false by lia.
    apply elem_blocks in Hin as (i & _ & ->). unfold block.
    replace (B + Z.of_nat i * S - B) with (Z.of_nat i * S) by lia. by rewrite Z_mod_mult.
  - destruct (a =? NULLP); [done|]. destruct (_ || _) eqn:E; [done|]. symmetry. apply Z.eqb_neq. intros Hmod.
    apply Hin, elem_blocks. exists (Z.to_nat ((a - B) / S)).
    pose proof (Z.div_mod (a - B) S ltac:(lia)) as Hdm. rewrite Hmod in Hdm.
    assert (0 <= (a - B) / S < Z.of_nat N).
    { split; [apply Z.div_pos; lia|apply Z.div_lt_upper_bound; lia]. }
    split; [lia|]. unfold block. rewrite Z2Nat.id by lia. lia.
Qed.

Lemma rep_reset m0 p m s : pool_rep m0 p m s ->
  pool_rep m0 (p <| mp_peak_used := used_count p |>) m (s <| ps_peak := live_count s |>).
Proof. intros H. pose proof (rep_used _ _ _ _ H). destruct H. by split. Qed.

Lemma rep_nonzero m0 p m s a : pool_rep m0 p m s -> a ∈ ps_free s -> a <> NULLP.
Proof. intros H Ha. apply block_addr, (rep_mem _ _ _ _ _ H). by left. Qed.
Lemma live_block m0 p m s a c : pool_rep m0 p m s -> ps_live s !! a = Some c -> a ∈ blocks /\ a ∉ ps_free s.
Proof.
  intros H Ha. split; [apply (rep_mem _ _ _ _ _ H); right; by eexists|].
  intros Hf. by rewrite (rep_disjoint _ _ _ _ _ H Hf) in Ha.
Qed.

Lemma rep_alloc m0 p m s : pool_rep m0 p m s ->
  match ps_free s with
  | [] => xgl_mempool_alloc (Ptr p) m = Some (NULLP, Ptr p)
  | a :: free => exists p' c, xgl_mempool_alloc (Ptr p) m = Some (a, Ptr p') /\
      pool_rep m0 p' m (mk_pool_spec free (<[a := c]> (ps_live s)) (Z.max (ps_peak s) (live_count s + 1)))
  end.
Proof.
  intros H. pose proof (rep_counts _ _ _ _ H) as Hcount. pose proof (fun a => rep_nonzero m0 p m s a H) as Hnz.
  unfold xgl_mempool_alloc.
  pose proof (rep_chain _ _ _ _ H) as Hc. destruct s as [[|a free] live peak]; cbn [ps_free ps_live] in *.
  { cbn in Hc. by rewrite Hc. }
  destruct Hc as [Hh (next & Hn & Hc)]. rewrite Hh. replace (a =? NULLP) with false by (symmetry; apply Z.eqb_neq, Hnz; left).
  rewrite Hn. cbn [mbind option_bind].
  assert (live !! a = None) as Hl by (apply (rep_disjoint _ _ _ _ a H); left).
  destruct (ld_owns m a (Z.to_nat S)) as [c Hld].
  { apply (owns_sub _ B region); [apply H|..]; destruct (block_inside a); try lia;
      try (apply (rep_mem _ _ _ _ _ H); left; left); unfold SIZEOF_POINTER in *; lia. }
  assert (u64 (mp_free_count p - 1) = zlen free) as Hfree.
  { rewrite (rep_free _ _ _ _ H). cbn [ps_free]. rewrite zlen_cons. pose proof (zlen_nonneg free).
    unfold live_count in Hcount. cbn in Hcount. rewrite zlen_cons in Hcount.
    unfold region, SIZE_MAX, SIZEOF_POINTER in *. rewrite u64_small by nia. lia. }
  set (p1 := p <| mp_free_list := next |> <| mp_free_count := u64 (mp_free_count p - 1) |>).
  assert (forall peak', pool_rep m0 (p1 <| mp_peak_used := peak' |>) m (mk_pool_spec free (<[a := c]> live) peak')) as Hrep.
  { intros peak'. destruct H. split; cbn in *; try done.
    - etrans; [|exact rep_blocks0]. rewrite (map_to_list_insert live a c Hl). cbn. symmetry.
      apply Permutation_middle.
    - intros b d. destruct (decide (b = a)) as [->|Hne]; [rewrite lookup_insert_eq; by intros [= <-]|].
      rewrite lookup_insert_ne by done. apply rep_live0. }
  assert (used_count p1 = live_count (mk_pool_spec (a :: free) live peak) + 1) as Hused.
  { pose proof (rep_used m0 _ m _ (Hrep 0)) as Hu.
    change (used_count (p1 <| mp_peak_used := 0 |>)) with (used_count p1) in Hu. rewrite Hu.
    unfold live_count. cbn. rewrite map_size_insert_None by done. lia. }
  rewrite Hused. pose proof (rep_peak _ _ _ _ H) as Hpk. cbn [ps_peak] in *.
  set (n := live_count _ + 1). change (mp_peak_used p1) with (mp_peak_used p).
  destruct (mp_peak_used p <? n) eqn:Hlt; eexists _, c; (split; [done|]).
  - rewrite Z.max_r by lia. apply Hrep.
  - rewrite Z.max_l by lia. specialize (Hrep peak).
    replace (p1 <| mp_peak_used := peak |>) with p1 in Hrep; [exact Hrep|]. rewrite <- Hpk. by destruct p.
Qed.

(** A store in one block of the pool keeps what is in the others. *)
Lemma store_block m a off bs m' : a ∈ blocks -> 0 <= off -> off + zlen bs <= S -> st m (a + off) bs = Some m' ->
  (forall b, b ∈ blocks -> b <> a -> ld m' b (Z.to_nat S) = ld m b (Z.to_nat S) /\ ld_ptr m' b = ld_ptr m b) /\
  (owns m B region -> owns m' B region) /\
  (forall x, ~ B <= x < B + region -> m' !! x = m !! x).
Proof.
  intros Ha Hoff Hlen Hst. pose proof (block_inside a Ha) as Hin. unfold SIZEOF_POINTER in *. split_and!.
  - intros b Hb Hne. destruct (blocks_apart a b Ha Hb) as [Hd|Hd]; [done|..];
      (split; [apply (st_ld_other _ _ _ _ _ _ Hst)|apply (st_ld_ptr_other _ _ _ _ _ Hst)]);
      rewrite ?Z2Nat.id by lia; unfold SIZEOF_POINTER; lia.
  - apply (st_owned _ _ _ _ _ _ Hst).
  - intros x Hx. apply (st_other _ _ _ _ _ Hst). lia.
Qed.

Lemma rep_free_ignored m0 p m s a : pool_rep m0 p m s -> ps_live s !! a = None ->
  xgl_mempool_free (Ptr p) a m = Some (Ptr p, m).
Proof.
  intros H Ha. unfold xgl_mempool_free. destruct (a =? NULLP) eqn:Ez; [done|].
  rewrite (contains_block_spec _ _ _ _ _ H). case_bool_decide as Hin; [|done]. cbn [negb].
  destruct (_ <=? _); [done|]. unfold mempool_free_list_contains. rewrite Ez.
  rewrite (scan_chain _ _ (ps_free s)); [..|apply H|].
  - rewrite bool_decide_eq_true_2; [done|]. apply (rep_mem _ _ _ _ _ H) in Hin as [|[c Hc]]; [done|congruence].
  - lia.
  - intros b. apply (rep_nonzero _ _ _ _ _ H).
  - pose proof (rep_counts _ _ _ _ H). rewrite (rep_count _ _ _ _ H). unfold live_count, zlen in *. lia.
Qed.

Lemma rep_free_block m0 p m s a c : pool_rep m0 p m s -> ps_live s !! a = Some c ->
  exists p' m', xgl_mempool_free (Ptr p) a m = Some (Ptr p', m') /\
    pool_rep m0 p' m' (mk_pool_spec (a :: ps_free s) (delete a (ps_live s)) (ps_peak s)).
Proof.
  intros H Ha. destruct (live_block _ _ _ _ _ _ H Ha) as [Hin Hnf]. destruct (block_addr a Hin) as [Hnz _].
  pose proof (rep_counts _ _ _ _ H) as Hcount.
  assert (0 < live_count s).
  { unfold live_count. destruct (size (ps_live s)) eqn:Hsz; [|lia]. apply map_size_empty_inv in Hsz.
    by rewrite Hsz, lookup_empty in Ha. }
  unfold xgl_mempool_free. replace (a =? NULLP) with false by lia.
  rewrite (contains_block_spec _ _ _ _ _ H), bool_decide_eq_true_2 by done. cbn [negb].
  rewrite (rep_count _ _ _ _ H), (rep_free _ _ _ _ H). replace (Z.of_nat N <=? zlen (ps_free s)) with false by lia.
  unfold mempool_free_list_contains. replace (a =? NULLP) with false by lia.
  rewrite (scan_chain _ _ (ps_free s)); [|done|intros b; apply (rep_nonzero _ _ _ _ _ H)|apply H|].
  2: { rewrite (rep_count _ _ _ _ H). unfold live_count, zlen in *. lia. }
  rewrite bool_decide_eq_false_2 by done. cbn [mbind option_bind].
  destruct (st_ptr_owns m a (mp_free_list p)) as [m' Hst].
  { apply (owns_sub _ a S); [by eapply rep_owns_block|unfold SIZEOF_POINTER in *; lia..]. }
  unfold mempool_store_next. rewrite Hst. cbn [mbind option_bind].
  assert (is_addr (mp_free_list p)) as Haddr.
  { pose proof (rep_chain _ _ _ _ H) as Hc. destruct (ps_free s) as [|b free] eqn:Hf; cbn in Hc.
    - rewrite Hc. done.
    - destruct Hc as [-> _]. apply block_addr, (rep_mem _ _ _ _ _ H). rewrite Hf. left. left. }
  unfold st_ptr in Hst. replace a with (a + 0) in Hst by lia.
  destruct (store_block m a 0 (le_bytes 8 (mp_free_list p)) m' Hin ltac:(lia) ltac:(rewrite le_bytes_zlen; unfold SIZEOF_POINTER in *; lia) Hst)
    as (Hother & Howns & Hframe). rewrite Z.add_0_r in Hst.
  assert (forall b, b ∈ ps_free s -> ld_ptr m' b = ld_ptr m b) as Hptr.
  { intros b Hb. apply Hother; [apply (rep_mem _ _ _ _ _ H); by left|by intros ->]. }
  eexists _, m'. split; [done|]. destruct H. split; cbn [mp_pool mp_block_size mp_block_count mp_free_count mp_peak_used mp_free_list ps_free ps_live ps_peak] in *; try done.
  - cbn. rewrite zlen_cons. unfold region, SIZE_MAX, SIZEOF_POINTER in *. pose proof (zlen_nonneg (ps_free s)).
    rewrite u64_small by nia. lia.
  - cbn. split; [done|]. exists (mp_free_list p). split; [exact (st_ptr_ld _ _ _ _ Haddr Hst)|].
    by apply (chain_agree m).
  - etrans; [|exact rep_blocks0]. cbn. rewrite <- (map_to_list_delete (ps_live s) a c Ha). cbn.
    apply Permutation_middle.
  - intros b d Hd. destruct (decide (b = a)) as [->|Hne]; [by rewrite lookup_delete_eq in Hd|].
    rewrite lookup_delete_ne in Hd by done. rewrite (proj1 (Hother b ltac:(
      apply (rep_mem m0 p m s); [by split|right; by eexists]) Hne)). by apply rep_live0.
  - by apply Howns.
  - intros x Hx. by rewrite Hframe, rep_frame0.
Qed.

Lemma rep_write m0 p m s a off bs c c' : pool_rep m0 p m s ->
  ps_live s !! a = Some c -> wr_bytes c off bs = Some c' ->
  exists m', st m (a + off) bs = Some m' /\ pool_rep m0 p m' (s <| ps_live := <[a := c']> (ps_live s) |>).
Proof.
  intros H Ha Hwr. destruct (live_block _ _ _ _ _ _ H Ha) as [Hin Hnf].
  pose proof (rep_live _ _ _ _ H a c Ha) as Hld. pose proof (ld_length _ _ _ _ Hld) as Hlen.
  assert (zlen c = S) as Hc by (unfold zlen, SIZEOF_POINTER in *; lia).
  pose proof (wr_bytes_zlen _ _ _ _ Hwr) as Hc'. destruct (wr_bytes_inv _ _ _ _ Hwr) as (Hoff & Hfit' & _).
  destruct (st_owns m (a + off) bs) as [m' Hst].
  { apply (owns_sub _ a S); [by eapply rep_owns_block|lia..]. }
  destruct (store_block m a off bs m' Hin Hoff ltac:(lia) Hst) as (Hother & Howns & Hframe).
  exists m'. split; [done|]. destruct H. split; cbn [ps_free ps_live ps_peak] in *; try done.
  - apply (chain_agree m); [|done]. intros b Hb.
    apply Hother; [apply (rep_mem m0 p m s); [by split|by left]|by intros ->].
  - etrans; [|exact rep_blocks0]. cbn. by rewrite (overwrite_keys _ _ _ _ Ha).
  - cbn. intros b d. destruct (decide (b = a)) as [->|Hne].
    + rewrite lookup_insert_eq. intros [= <-]. apply ld_spec. split; [unfold zlen in *; lia|]. intros i Hi.
      apply ld_spec in Hld as [_ Hld]. rewrite (st_spec _ _ _ _ _ Hst), Hld by done.
      pose proof (rd_wr_bytes _ _ _ _ (Z.of_nat i) Hwr) as Hrd.
      rewrite (rd_lookup c' (Z.of_nat i)), (rd_lookup c (Z.of_nat i)), Nat2Z.id in Hrd by lia.
      rewrite Hrd. destruct (decide (off <= Z.of_nat i < _)).
      * rewrite decide_True, rd_lookup by lia. f_equal. lia.
      * by rewrite decide_False by lia.
    + rewrite lookup_insert_ne by done. intros Hd. rewrite (proj1 (Hother b ltac:(
        apply (rep_mem m0 p m s); [by split|right; by eexists]) Hne)). by apply rep_live0.
  - by apply Howns.
  - intros x Hx. by rewrite Hframe, rep_frame0.
Qed.

(** One operation. *)
Lemma rep_step m0 p m s op : pool_rep m0 p m s -> permitted s op ->
  exists r p' m' s', exec op (Ptr p) m = Some (r, Ptr p', m') /\ pool_step s op r s' /\ pool_rep m0 p' m' s'.
Proof.
  intros H Hop. destruct op as [|a|a off bs|]; cbn [exec].
  - pose proof (rep_alloc _ _ _ _ H) as Hall. destruct s as [[|a free] live peak]; cbn [ps_free ps_live ps_peak] in Hall.
    + rewrite Hall. exists NULLP, p, m, (mk_pool_spec [] live peak). split_and!; [done|constructor|done].
    + destruct Hall as (p' & c & -> & H'). exists a, p', m. eexists. split_and!; [done| |exact H'].
      apply (step_alloc a c free live peak).
  - destruct (ps_live s !! a) as [c|] eqn:Ha.
    + destruct (rep_free_block _ _ _ _ _ _ H Ha) as (p' & m' & -> & H'). exists 0, p', m'. eexists.
      split_and!; [done|by econstructor|exact H'].
    + rewrite (rep_free_ignored _ _ _ _ _ H Ha). exists 0, p, m, s. split_and!; [done|by constructor|done].
  - destruct Hop as (c & c' & Ha & Hwr). destruct (rep_write _ _ _ _ _ _ _ _ _ H Ha Hwr) as (m' & -> & H').
    exists 0, p, m'. eexists. split_and!; [done|by econstructor|exact H'].
  - exists 0. eexists _, m, _. split_and!; [done|constructor|]. by apply rep_reset.
Qed.

(** The blocks after the initialization: all free, the last one first. *)
Definition fresh_spec : pool_spec := mk_pool_spec (reverse blocks) ∅ 0.

Lemma link_run (m0 : memory) n : forall i p (m : memory), (i + n = N)%nat -> mp_block_size p = S ->
  chain m (mp_free_list p) (reverse (block <$> seq 0 i)) -> is_addr (mp_free_list p) ->
  owns m B region -> (forall x, ~ B <= x < B + region -> m !! x = m0 !! x) ->
  exists h (m' : memory), mempool_link n (block i) p m = Some (p <| mp_free_list := h |>, m') /\
    chain m' h (reverse blocks) /\ owns m' B region /\ (forall x, ~ B <= x < B + region -> m' !! x = m0 !! x).
Proof.
  induction n as [|n IH]; intros i p m Hi Hsz Hc Haddr Howns Hframe; cbn [mempool_link].
  { exists (mp_free_list p), m. split; [by destruct p|]. split; [|done]. unfold blocks.
    replace N with i by lia. exact Hc. }
  assert (block i ∈ blocks) as Hin by (apply elem_blocks; exists i; split; [lia|done]).
  destruct (st_ptr_owns m (block i) (mp_free_list p)) as [m' Hst].
  { apply (owns_sub _ B region); [done|apply (block_inside _ Hin)|]. pose proof (block_inside _ Hin). lia. }
  unfold mempool_store_next. rewrite Hst. cbn [mbind option_bind].
  pose proof Hst as Hst0. unfold st_ptr in Hst0. replace (block i) with (block i + 0) in Hst0 by lia.
  destruct (store_block m (block i) 0 (le_bytes 8 (mp_free_list p)) m' Hin ltac:(lia)
    ltac:(rewrite le_bytes_zlen; unfold SIZEOF_POINTER in *; lia) Hst0) as (Hother & Howns' & Hframe').
  rewrite Hsz. replace (block i + S) with (block (1 + i)) by (unfold block; lia).
  destruct (IH (1 + i)%nat (p <| mp_free_list := block i |>) m') as (h & m2 & Hrun & Hres).
  - lia.
  - done.
  - rewrite Nat.add_comm, seq_app, fmap_app, reverse_app. cbn. split; [done|].
    exists (mp_free_list p). split; [exact (st_ptr_ld _ _ _ _ Haddr Hst)|].
    apply (chain_agree m); [|done]. intros a Ha. rewrite elem_of_reverse, list_elem_of_fmap in Ha.
    destruct Ha as (j & -> & Hj%elem_of_seq). apply Hother; [apply elem_blocks; exists j; split; [lia|done]|].
    unfold block, SIZEOF_POINTER in *. nia.
  - by apply block_addr.
  - by apply Howns'.
  - intros x Hx. by rewrite Hframe', Hframe.
  - exists h, m2. split; [exact Hrun|exact Hres].
Qed.

Lemma rep_init pool buffer_size m : N = Z.to_nat (buffer_size / S) -> 0 <= buffer_size -> owns m B buffer_size ->
  exists p m', xgl_mempool_init (Ptr pool) B buffer_size S m = Some (0, Ptr p, m') /\ pool_rep m p m' fresh_spec.
Proof.
  intros HeqN Hsize Howns. unfold SIZEOF_POINTER in *.
  assert (Z.of_nat N = buffer_size / S) as Hcount by (pose proof (Z.div_pos buffer_size S); lia).
  assert (region <= buffer_size) as Hreg.
  { unfold region. rewrite Hcount, Z.mul_comm. apply Z.mul_div_le. lia. }
  unfold xgl_mempool_init, SIZEOF_POINTER.
  replace (B =? NULLP) with false by lia. replace (S =? 0) with false by lia. replace (S <? 8) with false by lia.
  destruct (buffer_size =? 0) eqn:Hz; [apply Z.eqb_eq in Hz; subst buffer_size; rewrite Z.div_0_l in Hcount by lia; lia|].
  cbn [orb]. change (mp_block_count _) with (buffer_size / S) at 1. rewrite <- Hcount.
  replace (Z.of_nat N =? 0) with false by lia. cbn.
  rewrite Nat2Z.id.
  destruct (link_run m N 0 (mk_mempool B S (Z.of_nat N) (Z.of_nat N) 0 NULLP) m) as (h & m' & Hrun & Hc & Ho & Hf);
    try done; [by apply (owns_sub _ B buffer_size); [|lia..]|].
  replace (block 0) with B in Hrun by (unfold block; lia). rewrite Hrun.
  eexists _, m'. split; [done|]. split; cbn; try done.
  - unfold zlen. rewrite length_reverse. unfold blocks. by rewrite length_fmap, length_seq.
  - rewrite map_to_list_empty, app_nil_r. apply reverse_Permutation.
Qed.
(** ** The pool and its users *)

(** What holds between two operations: the blocks in use lie in the buffer, do not
    meet and have the contents that were last written; the counters are exact;
    the memory outside the buffer is as it was. *)
Definition in_order (m0 : memory) (pool : ptr xgl_mempool_t) (m : memory) (s : pool_spec) : Prop :=
  (forall a c, ps_live s !! a = Some c ->
     a ∈ blocks /\ B <= a /\ a + S <= B + region /\ ld m a (Z.to_nat S) = Some c /\
     forall b, is_Some (ps_live s !! b) -> a <> b -> a + S <= b \/ b + S <= a) /\
  xgl_mempool_get_used_count pool = live_count s /\
  xgl_mempool_get_free_count pool = Z.of_nat N - live_count s /\
  xgl_mempool_get_peak_used pool = ps_peak s /\
  xgl_mempool_is_empty pool = bool_decide (ps_live s = ∅) /\
  xgl_mempool_is_full pool = bool_decide (ps_free s = []) /\
  zlen (ps_free s) + live_count s = Z.of_nat N /\
  (forall x, ~ B <= x < B + region -> m !! x = m0 !! x).

Fixpoint serves (m0 : memory) (pool : ptr xgl_mempool_t) (m : memory) (s : pool_spec)
    (ops : list pool_op) : Prop :=
  in_order m0 pool m s /\
  match ops with
  | [] => True
  | op :: ops =>
      permitted s op ->
      exists r pool' m' s', exec op pool m = Some (r, pool', m') /\ pool_step s op r s' /\
        serves m0 pool' m' s' ops
  end.

Lemma rep_in_order m0 p m s : pool_rep m0 p m s -> in_order m0 (Ptr p) m s.
Proof.
  intros H. pose proof (rep_counts _ _ _ _ H) as Hcounts. unfold in_order.
  unfold xgl_mempool_get_used_count, xgl_mempool_get_free_count, xgl_mempool_get_peak_used,
    xgl_mempool_is_empty, xgl_mempool_is_full.
  rewrite (rep_used _ _ _ _ H), (rep_free _ _ _ _ H), (rep_count _ _ _ _ H), (rep_peak _ _ _ _ H).
  split_and!; try done; try lia.
  - intros a c Ha. assert (a ∈ blocks) as Hin by (apply (rep_mem _ _ _ _ _ H); right; by eexists).
    split; [done|]. destruct (block_inside _ Hin). split_and!; [done..|exact (rep_live _ _ _ _ H a c Ha)|].
    intros b Hb Hne. apply (blocks_apart); [done| |done].
    apply (rep_mem _ _ _ _ _ H). by right.
  - unfold live_count in *. apply eq_bool_prop_intro; rewrite !Is_true_true. rewrite Z.eqb_eq, bool_decide_eq_true.
    rewrite <- map_size_empty_iff. lia.
  - apply eq_bool_prop_intro; rewrite !Is_true_true. rewrite Z.eqb_eq, bool_decide_eq_true. unfold zlen. rewrite <- length_zero_iff_nil. lia.
  - apply H.
Qed.

Lemma rep_serves m0 ops : forall p m s, pool_rep m0 p m s -> serves m0 (Ptr p) m s ops.
Proof.
  induction ops as [|op ops IH]; intros p m s H; cbn [serves];
    (split; [by apply rep_in_order|]); [done|]. intros Hop.
  destruct (rep_step _ _ _ _ _ H Hop) as (r & p' & m' & s' & Hrun & Hstep & H').
  exists r, (Ptr p'), m', s'. split_and!; [done..|by apply IH].
Qed.

End pool.

(** ** Property *)

(** C29. A block pool is a safe allocator: cut from any buffer of at least one
    block, it serves any sequence of requests - allocations, releases of
    arbitrary pointers (foreign, misaligned, already released), writes of the
    users in the blocks they hold - without undefined behaviour and as specified:
    it hands out the free blocks last-released first and fails only when all are
    in use; blocks in use never overlap and keep what was written; a release of
    anything but a block in use changes nothing; the counters are exact and no
    byte outside the buffer is touched. *)
Theorem mempool_serves_clients (buffer buffer_size block_size : Z) (pool : xgl_mempool_t) (m : memory)
    (ops : list pool_op) :
  0 < buffer -> SIZEOF_POINTER <= block_size -> block_size <= buffer_size -> buffer + buffer_size <= SIZE_MAX ->
  owns m buffer buffer_size ->
  exists pool' m', xgl_mempool_init (Ptr pool) buffer buffer_size block_size m = Some (0, pool', m') /\
    serves buffer block_size (Z.to_nat (buffer_size / block_size)) m pool' m'
      (fresh_spec buffer block_size (Z.to_nat (buffer_size / block_size))) ops.
Proof.
  intros HB HS Hle Hfit Ho. unfold SIZEOF_POINTER in HS. set (N := Z.to_nat (buffer_size / block_size)).
  assert (0 < buffer_size / block_size) by (apply Z.div_str_pos; lia).
  assert (buffer + region block_size N <= SIZE_MAX) as Hreg.
  { unfold region, N. rewrite Z2Nat.id by lia. pose proof (Z.mul_div_le buffer_size block_size). lia. }
  destruct (rep_init buffer block_size N HB HS ltac:(lia) Hreg pool buffer_size m eq_refl ltac:(lia) Ho) as (p & m' & Hrun & Hrep).
  exists (Ptr p), m'. split; [exact Hrun|]. apply rep_serves; [done|done|lia|done|exact Hrep].
Qed.
(** Three blocks of eight bytes at 4096 that are handed out twice. *)
Definition sample_memory (a : Z) (n : nat) : memory := list_to_map ((fun i => (a + Z.of_nat i, 170)) <$> seq 0 n).
Lemma sample_memory_owns a n : owns (sample_memory a n) a (Z.of_nat n).
Proof.
  intros x Hx. unfold sample_memory. destruct (list_to_map _ !! x) eqn:E; [by eexists|].
  apply not_elem_of_list_to_map_2 in E. destruct E. rewrite <- list_fmap_compose, list_elem_of_fmap.
  exists (Z.to_nat (x - a)). split; [cbn; lia|]. apply elem_of_seq. lia.
Qed.
Definition sample_ops : list pool_op :=
  [op_alloc; op_alloc; op_write 4112 0 [1; 2; 3; 4; 5; 6; 7; 8]; op_free 4104; op_free 4104; op_free 4105; op_alloc; op_alloc; op_alloc].
Lemma mempool_serves_clients_witness :
  exists pool m, xgl_mempool_init (Ptr zero_mempool) 4096 30 8 (sample_memory 4096 30) = Some (0, pool, m) /\
    serves 4096 8 3 (sample_memory 4096 30) pool m (fresh_spec 4096 8 3) sample_ops.
Proof.
  apply (mempool_serves_clients 4096 30 8 zero_mempool (sample_memory 4096 30) sample_ops);
    [lia|unfold SIZEOF_POINTER; lia|lia|unfold SIZE_MAX; lia|apply (sample_memory_owns 4096 30)].
Defined.
