(* ===== verification/Allocator.v ===== *)
(** * Allocators

    src/src/memory/xgl_allocator.c dispatches a request to the C heap, to the
    application's allocator or to a tracking allocator
    (src/src/memory/xgl_tracking_allocator.c), which puts a header before each
    block and keeps accounts. *)
From S2P Require Import Prelude State Serialize Memory.

(** ** Data *)

(** src/include/xgl/internal/xgl_allocator.h:63-70: xgl_allocator_phase_t *)
Definition XGL_ALLOCATOR_PHASE_INIT : Z := 0.
Definition XGL_ALLOCATOR_PHASE_COUNT : Z := 5.

(** src/include/xgl/internal/xgl_allocator.h:75-82: xgl_allocator_stats_t *)
Record xgl_allocator_stats_t : Type := mk_alloc_stats {
  as_total_allocated : Z;
  as_total_freed : Z;
  as_current_allocated : Z;
  as_peak_allocated : Z;
  as_alloc_count : Z;
  as_free_count : Z
}.
#[export] Instance eta_alloc_stats : EtaRecord xgl_allocator_stats_t :=
  Eta (fun r => mk_alloc_stats (as_total_allocated r) (as_total_freed r) (as_current_allocated r)
                  (as_peak_allocated r) (as_alloc_count r) (as_free_count r)).
Definition zero_alloc_stats : xgl_allocator_stats_t := mk_alloc_stats 0 0 0 0 0 0.

(** The functions an allocator may name: those of this program, and the
    application's. *)
Inductive malloc_fn : Type := default_malloc | tracking_malloc | platform_malloc.
Inductive free_fn : Type := default_free | tracking_free | platform_free.
#[export] Instance malloc_fn_eq_dec : EqDecision malloc_fn.
Proof. solve_decision. Defined.
#[export] Instance free_fn_eq_dec : EqDecision free_fn.
Proof. solve_decision. Defined.

Record xgl_allocator_t : Type := mk_allocator {
  al_malloc : ptr malloc_fn;
  al_free : ptr free_fn;
  al_user_data : Z
}.

(** src/include/xgl/internal/xgl_allocator.h:94-100: xgl_tracking_allocator_t *)
Record xgl_tracking_allocator_t : Type := mk_tracker {
  ta_base : xgl_allocator_t;
  ta_underlying : ptr xgl_allocator_t;
  ta_stats : xgl_allocator_stats_t;
  ta_phase_stats : list xgl_allocator_stats_t;
  ta_current_phase : Z
}.
#[export] Instance eta_tracker : EtaRecord xgl_tracking_allocator_t :=
  Eta (fun r => mk_tracker (ta_base r) (ta_underlying r) (ta_stats r) (ta_phase_stats r) (ta_current_phase r)).

(** The build option XGL_ALLOW_FALLBACK_MALLOC, the heap, and the trackers by address. *)
Record alloc_world : Type := mk_alloc_world {
  aw_fallback : bool;
  aw_heap : c_heap;
  aw_trackers : gmap Z xgl_tracking_allocator_t
}.
#[export] Instance eta_alloc_world : EtaRecord alloc_world :=
  Eta (fun r => mk_alloc_world (aw_fallback r) (aw_heap r) (aw_trackers r)).
Abbreviation A := (ST alloc_world).

Definition heap_malloc (size : Z) : A Z := fun w =>
  let '(a, h) := malloc size (aw_heap w) in Some (a, w <| aw_heap := h |>).
Definition heap_free (p : Z) : A unit := fun w =>
  h ← free p (aw_heap w); Some (tt, w <| aw_heap := h |>).
Definition store (a : Z) (bs : bytes) : A unit := fun w =>
  m ← st (ch_bytes (aw_heap w)) a bs; Some (tt, w <| aw_heap := (aw_heap w) <| ch_bytes := m |> |>).
Definition load (a n : Z) : A bytes := fun w => bs ← ld (ch_bytes (aw_heap w)) a (Z.to_nat n); Some (bs, w).
(** A tracker, through a pointer that must be one. *)
Definition tracker_at (t : Z) : A xgl_tracking_allocator_t := fun w => x ← aw_trackers w !! t; Some (x, w).
Definition set_tracker (t : Z) (f : xgl_tracking_allocator_t -> xgl_tracking_allocator_t) : A unit := fun w =>
  x ← aw_trackers w !! t; Some (tt, w <| aw_trackers := <[t := f x]> (aw_trackers w) |>).

(** ** The allocation header *)

(** src/src/memory/xgl_tracking_allocator.c:14-18: xgl_alloc_header_t *)
Definition SIZEOF_ALLOC_HEADER : Z := 16.
(** src/src/memory/xgl_tracking_allocator.c:23-23: XGL_ALLOC_MAGIC *)
Definition XGL_ALLOC_MAGIC : Z := 2702232190.
Definition alloc_header (size magic phase : Z) : bytes := le_bytes 8 size ++ le_bytes 4 magic ++ le_bytes 4 phase.

(** src/src/memory/xgl_tracking_allocator.c:31-43: update_alloc_stats *)
Definition update_alloc_stats (size : Z) (s : xgl_allocator_stats_t) : xgl_allocator_stats_t :=
  let s := s <| as_total_allocated := u64 (as_total_allocated s + size) |>
             <| as_current_allocated := u64 (as_current_allocated s + size) |>
             <| as_alloc_count := u64 (as_alloc_count s + 1) |> in
  if as_peak_allocated s <? as_current_allocated s then s <| as_peak_allocated := as_current_allocated s |> else s.

(** src/src/memory/xgl_tracking_allocator.c:45-57: update_free_stats *)
Definition update_free_stats (size : Z) (s : xgl_allocator_stats_t) : xgl_allocator_stats_t :=
  let s := s <| as_total_freed := u64 (as_total_freed s + size) |> in
  let s := if size <=? as_current_allocated s
           then s <| as_current_allocated := u64 (as_current_allocated s - size) |>
           else s <| as_current_allocated := 0 |> in
  s <| as_free_count := u64 (as_free_count s + 1) |>.

(** [&phase_stats.phase[i]] updated in place. *)
Definition update_phase (i : Z) (f : xgl_allocator_stats_t -> xgl_allocator_stats_t)
    (l : list xgl_allocator_stats_t) : M (list xgl_allocator_stats_t) := s ← rd l i; wr l i (f s).

(** ** Dispatch *)

(** src/src/memory/xgl_tracking_allocator.c:59-64: xgl_tracking_allocator_is_alloc_callback *)
Definition xgl_tracking_allocator_is_alloc_callback (allocator : ptr xgl_allocator_t) : bool :=
  match allocator with
  | NULL => false
  | Ptr a => bool_decide (al_malloc a = Ptr tracking_malloc) && negb (al_user_data a =? NULLP)
  end.

(** src/src/memory/xgl_tracking_allocator.c:66-71: xgl_tracking_allocator_is_free_callback *)
Definition xgl_tracking_allocator_is_free_callback (allocator : ptr xgl_allocator_t) : bool :=
  match allocator with
  | NULL => false
  | Ptr a => bool_decide (al_free a = Ptr tracking_free) && negb (al_user_data a =? NULLP)
  end.

(** src/src/memory/xgl_allocator.c:43-49: xgl_allocator_get_default *)
Definition xgl_allocator_get_default (fallback : bool) : ptr xgl_allocator_t :=
  if fallback then Ptr (mk_allocator (Ptr default_malloc) (Ptr default_free) NULLP) else NULL.

(** Calling [allocator->malloc]; the tracking wrapper on its own refuses. *)
(** src/src/memory/xgl_tracking_allocator.c:133-136: tracking_malloc *)
Definition call_malloc (f : malloc_fn) (size : Z) : A Z :=
  match f with
  | tracking_malloc => mret NULLP
  | default_malloc | platform_malloc => heap_malloc size
  end.
(** src/src/memory/xgl_tracking_allocator.c:175-177: tracking_free *)
Definition call_free (f : free_fn) (p : Z) : A unit :=
  match f with
  | tracking_free => mret tt
  | default_free | platform_free => heap_free p
  end.

Section tracking.
(** [xgl_alloc] and [xgl_free] for the underlying allocator. *)
Context (alloc : ptr xgl_allocator_t -> Z -> A Z) (release : ptr xgl_allocator_t -> Z -> A unit).

(** src/src/memory/xgl_tracking_allocator.c:98-125: tracking_malloc_impl *)
Definition tracking_malloc_impl (tracker size : Z) : A Z :=
  if tracker =? NULLP then mret NULLP
  else
    t ← tracker_at tracker;
    if bool_decide (ta_underlying t = NULL) || (size =? 0) then mret NULLP
    else
      let total_size := u64 (size + SIZEOF_ALLOC_HEADER) in
      p ← alloc (ta_underlying t) total_size;
      if p =? NULLP then mret NULLP
      else
        t ← tracker_at tracker;
        let phase := ta_current_phase t in
        _ ← store p (alloc_header size XGL_ALLOC_MAGIC phase);
        phases ← lift (update_phase phase (update_alloc_stats size) (ta_phase_stats t));
        _ ← set_tracker tracker (fun t => t <| ta_stats := update_alloc_stats size (ta_stats t) |>
                                            <| ta_phase_stats := phases |>);
        mret (p + SIZEOF_ALLOC_HEADER).

(** src/src/memory/xgl_tracking_allocator.c:141-169: tracking_free_impl *)
Definition tracking_free_impl (tracker p : Z) : A unit :=
  if p =? NULLP then mret tt
  else if tracker =? NULLP then mret tt
  else
    t ← tracker_at tracker;
    if bool_decide (ta_underlying t = NULL) then mret tt
    else
      let actual := p - SIZEOF_ALLOC_HEADER in
      magic ← load (actual + 8) 4;
      if negb (le_value magic =? XGL_ALLOC_MAGIC) then mret tt
      else
        size ← load actual 8;
        phase ← load (actual + 12) 4;
        let size := le_value size in
        let phase := le_value phase in
        _ ← set_tracker tracker (fun t => t <| ta_stats := update_free_stats size (ta_stats t) |>);
        _ ← (if phase <? XGL_ALLOCATOR_PHASE_COUNT then
               phases ← lift (update_phase phase (update_free_stats size) (ta_phase_stats t));
               set_tracker tracker (fun t => t <| ta_phase_stats := phases |>)
             else mret tt);
        _ ← store (actual + 8) (le_bytes 4 0);
        release (ta_underlying t) actual.

(** src/src/memory/xgl_tracking_allocator.c:73-83: xgl_tracking_allocator_alloc_from_interface *)
Definition xgl_tracking_allocator_alloc_from_interface (allocator : xgl_allocator_t) (size : Z) : A Z :=
  if negb (xgl_tracking_allocator_is_alloc_callback (Ptr allocator)) then mret NULLP
  else tracking_malloc_impl (al_user_data allocator) size.

(** src/src/memory/xgl_tracking_allocator.c:85-93: xgl_tracking_allocator_free_from_interface *)
Definition xgl_tracking_allocator_free_from_interface (allocator : xgl_allocator_t) (p : Z) : A unit :=
  if negb (xgl_tracking_allocator_is_free_callback (Ptr allocator)) then mret tt
  else tracking_free_impl (al_user_data allocator) p.
End tracking.

(** More trackers on each other than expected. *)
Definition too_deep {X} : A X := fun _ => None.

(** A tracker may sit on a tracker; [depth] bounds how many. *)
(** src/src/memory/xgl_allocator.c:60-86: xgl_alloc *)
Fixpoint xgl_alloc (depth : nat) (allocator : ptr xgl_allocator_t) (size : Z) : A Z :=
  if size =? 0 then mret NULLP
  else
    fallback ← gets aw_fallback;
    let allocator := match allocator with NULL => xgl_allocator_get_default fallback | Ptr a => Ptr a end in
    match allocator with
    | NULL => mret NULLP
    | Ptr a =>
        match al_malloc a with
        | NULL => mret NULLP
        | Ptr f =>
            if xgl_tracking_allocator_is_alloc_callback (Ptr a) then
              match depth with
              | O => too_deep
              | S depth => xgl_tracking_allocator_alloc_from_interface (xgl_alloc depth) a size
              end
            else call_malloc f size
        end
    end.

(** src/src/memory/xgl_allocator.c:93-120: xgl_free *)
Fixpoint xgl_free (depth : nat) (allocator : ptr xgl_allocator_t) (p : Z) : A unit :=
  if p =? NULLP then mret tt
  else
    fallback ← gets aw_fallback;
    let allocator := match allocator with NULL => xgl_allocator_get_default fallback | Ptr a => Ptr a end in
    match allocator with
    | NULL => mret tt
    | Ptr a =>
        match al_free a with
        | NULL => mret tt
        | Ptr f =>
            if xgl_tracking_allocator_is_free_callback (Ptr a) then
              match depth with
              | O => too_deep
              | S depth => xgl_tracking_allocator_free_from_interface (xgl_free depth) a p
              end
            else call_free f p
        end
    end.

(** ** The tracking allocator *)

(** [tracker] is an object of the application at that address. *)
(** src/src/memory/xgl_tracking_allocator.c:183-205: xgl_tracking_allocator_init *)
Definition xgl_tracking_allocator_init (tracker : Z) (underlying : ptr xgl_allocator_t) : A Z :=
  if tracker =? NULLP then mret (-1)
  else
    fallback ← gets aw_fallback;
    let underlying := match underlying with NULL => xgl_allocator_get_default fallback | Ptr a => Ptr a end in
    match underlying with
    | NULL => mret (-1)
    | Ptr u =>
        let base := mk_allocator (Ptr tracking_malloc) (Ptr tracking_free) tracker in
        let t := mk_tracker base (Ptr u) zero_alloc_stats
                   (replicate (Z.to_nat XGL_ALLOCATOR_PHASE_COUNT) zero_alloc_stats) XGL_ALLOCATOR_PHASE_INIT in
        _ ← modify (fun w => w <| aw_trackers := <[tracker := t]> (aw_trackers w) |>);
        mret 0
    end.

(** src/src/memory/xgl_tracking_allocator.c:210-217: xgl_tracking_allocator_get_stats *)
Definition xgl_tracking_allocator_get_stats (tracker : Z) (stats : ptr xgl_allocator_stats_t)
    : A (ptr xgl_allocator_stats_t) :=
  match stats with
  | NULL => mret NULL
  | Ptr s => if tracker =? NULLP then mret (Ptr s) else t ← tracker_at tracker; mret (Ptr (ta_stats t))
  end.

(** What is still allocated counts as allocated afterwards. *)
(** src/src/memory/xgl_tracking_allocator.c:227-231: xgl_tracking_allocator_reset_stats *)
Definition reset_alloc_stats (s : xgl_allocator_stats_t) : xgl_allocator_stats_t :=
  s <| as_total_allocated := as_current_allocated s |> <| as_total_freed := 0 |>
    <| as_peak_allocated := as_current_allocated s |> <| as_alloc_count := 0 |> <| as_free_count := 0 |>.

(** src/src/memory/xgl_tracking_allocator.c:222-241: xgl_tracking_allocator_reset_stats *)
Definition xgl_tracking_allocator_reset_stats (tracker : Z) : A unit :=
  if tracker =? NULLP then mret tt
  else set_tracker tracker (fun t => t <| ta_stats := reset_alloc_stats (ta_stats t) |>
                                       <| ta_phase_stats := reset_alloc_stats <$> ta_phase_stats t |>).

(** src/src/memory/xgl_tracking_allocator.c:246-253: xgl_tracking_allocator_set_phase *)
Definition xgl_tracking_allocator_set_phase (tracker phase : Z) : A unit :=
  if (tracker =? NULLP) || (XGL_ALLOCATOR_PHASE_COUNT <=? phase) then mret tt
  else set_tracker tracker (fun t => t <| ta_current_phase := phase |>).

(** src/src/memory/xgl_tracking_allocator.c:258-266: xgl_tracking_allocator_get_phase_stats *)
Definition xgl_tracking_allocator_get_phase_stats (tracker : Z) (stats : ptr (list xgl_allocator_stats_t))
    : A (ptr (list xgl_allocator_stats_t)) :=
  match stats with
  | NULL => mret NULL
  | Ptr s => if tracker =? NULLP then mret (Ptr s) else t ← tracker_at tracker; mret (Ptr (ta_phase_stats t))
  end.

(** src/src/memory/xgl_tracking_allocator.c:271-278: xgl_tracking_allocator_get_interface *)
Definition xgl_tracking_allocator_get_interface (tracker : Z) : A (ptr xgl_allocator_t) :=
  if tracker =? NULLP then mret NULL else t ← tracker_at tracker; mret (Ptr (ta_base t)).

(** src/src/memory/xgl_tracking_allocator.c:283-285: xgl_tracking_alloc *)
Definition xgl_tracking_alloc (depth : nat) (tracker size : Z) : A Z :=
  tracking_malloc_impl (xgl_alloc depth) tracker size.
(** src/src/memory/xgl_tracking_allocator.c:290-292: xgl_tracking_free *)
Definition xgl_tracking_free (depth : nat) (tracker p : Z) : A unit :=
  tracking_free_impl (xgl_free depth) tracker p.
