(* ===== verification/AllocatorInv.v ===== *)
(** * The accounts of the tracking allocator

    A ledger of the blocks that are out - size and phase of each - with counters
    that never wrap, and that the tracking allocator keeps exactly these accounts,
    whatever its users do with the memory they were given. *)
From S2P Require Import Prelude State Serialize Memory Allocator.

(** ** Regions that do not meet fit the address space *)

Definition total_size (l : list (Z * Z)) : Z := foldr (fun x s => x.2 + s) 0 l.
Lemma total_size_app l k : total_size (l ++ k) = total_size l + total_size k.
Proof. unfold total_size. induction l as [|x l IH]; [done|]. cbn. rewrite IH. lia. Qed.
#[export] Instance total_size_perm : Proper ((≡ₚ) ==> (=)) total_size.
Proof. unfold total_size. induction 1; cbn; lia. Qed.

Definition apart (x y : Z * Z) : Prop := x.1 + x.2 <= y.1 \/ y.1 + y.2 <= x.1.
Lemma regions_fit n : forall l lo hi, (length l <= n)%nat -> lo <= hi -> NoDup l ->
  (forall x, x ∈ l -> lo <= x.1 /\ 0 <= x.2 /\ x.1 + x.2 <= hi) ->
  (forall x y, x ∈ l -> y ∈ l -> x <> y -> apart x y) -> total_size l <= hi - lo.
Proof.
  induction n as [|n IH]; intros l lo hi Hlen Hlo Hnd Hin Hd; destruct l as [|x l]; cbn in Hlen; try (cbn; lia).
  apply NoDup_cons in Hnd as [Hx Hnd]. destruct (Hin x ltac:(left)) as (Hx1 & Hx2 & Hx3).
  assert (forall y, y ∈ l -> apart x y /\ x <> y) as Hxy.
  { intros y Hy. assert (x <> y) by (by intros ->). split; [|done]. apply Hd; [left|by right|done]. }
  pose proof (filter_app_complement (fun y : Z * Z => y.1 + y.2 <= x.1) l) as Hperm.
  cbn [total_size foldr]. change (foldr _ 0 l) with (total_size l). rewrite <- Hperm, total_size_app.
  assert (total_size (filter (fun y => y.1 + y.2 <= x.1) l) <= x.1 - lo) as Hleft.
  { apply IH; [|lia|by apply NoDup_filter|..].
    - pose proof (length_filter (fun y : Z * Z => y.1 + y.2 <= x.1) l). lia.
    - intros y [Hy Hl]%list_elem_of_filter. destruct (Hin y ltac:(by right)). lia.
    - intros y z [_ Hy]%list_elem_of_filter [_ Hz]%list_elem_of_filter. apply Hd; by right. }
  assert (total_size (filter (fun y => ~ y.1 + y.2 <= x.1) l) <= hi - (x.1 + x.2)) as Hright.
  { apply IH; [|lia|by apply NoDup_filter|..].
    - pose proof (length_filter (fun y : Z * Z => ~ y.1 + y.2 <= x.1) l). lia.
    - intros y [Hy Hl]%list_elem_of_filter. destruct (Hin y ltac:(by right)). destruct (Hxy y Hl) as [[|] _]; lia.
    - intros y z [_ Hy]%list_elem_of_filter [_ Hz]%list_elem_of_filter. apply Hd; by right. }
  lia.
Qed.
Lemma heap_fits h (P : gmap Z Z) : heap_ok h -> P ⊆ ch_regions h -> total_size (map_to_list P) <= SIZE_MAX.
Proof.
  intros [Hr Hd] Hsub. replace SIZE_MAX with (SIZE_MAX - 0) by lia.
  apply (regions_fit (length (map_to_list P))); [done|done|apply NoDup_map_to_list|..].
  - intros [a n] Ha%elem_of_map_to_list. pose proof (lookup_weaken _ _ _ _ Ha Hsub) as Hw.
    destruct (Hr a n Hw) as (? & ? & ? & _). cbn. lia.
  - intros [a n] [b k] Ha%elem_of_map_to_list Hb%elem_of_map_to_list Hne. unfold apart. cbn.
    assert (a <> b) by (intros ->; rewrite Ha in Hb; injection Hb as ->; done).
    apply (Hd a n b k); [exact (lookup_weaken _ _ _ _ Ha Hsub)|exact (lookup_weaken _ _ _ _ Hb Hsub)|done].
Qed.

(** ** The ledger *)

(** The blocks that are out: address, size and phase. *)
Abbreviation held_blocks := (gmap Z (Z * Z)).
Definition weigh (f : Z * Z -> Z) (l : list (Z * (Z * Z))) : Z := foldr (fun x s => f x.2 + s) 0 l.
Definition weight (f : Z * Z -> Z) (held : held_blocks) : Z := weigh f (map_to_list held).
#[export] Instance weigh_perm f : Proper ((≡ₚ) ==> (=)) (weigh f).
Proof. unfold weigh. induction 1; cbn; lia. Qed.
Lemma weight_empty f : weight f ∅ = 0.
Proof. unfold weight. by rewrite map_to_list_empty. Qed.
Lemma weight_insert f held p x : held !! p = None -> weight f (<[p := x]> held) = f x + weight f held.
Proof. intros Hp. unfold weight. by rewrite (map_to_list_insert held p x Hp). Qed.
Lemma weight_delete f held p x : held !! p = Some x -> weight f held = f x + weight f (delete p held).
Proof. intros Hp. unfold weight. by rewrite <- (map_to_list_delete held p x Hp). Qed.

(** What all blocks, or those of one phase, contribute. *)
Definition in_total (x : Z * Z) : Z := x.1.
Definition in_phase (i : Z) (x : Z * Z) : Z := if decide (x.2 = i) then x.1 else 0.

(** Accounts that never wrap. *)
Definition credit (n : Z) (s : xgl_allocator_stats_t) : xgl_allocator_stats_t :=
  s <| as_total_allocated := as_total_allocated s + n |> <| as_current_allocated := as_current_allocated s + n |>
    <| as_peak_allocated := Z.max (as_peak_allocated s) (as_current_allocated s + n) |>
    <| as_alloc_count := as_alloc_count s + 1 |>.
Definition debit (n : Z) (s : xgl_allocator_stats_t) : xgl_allocator_stats_t :=
  s <| as_total_freed := as_total_freed s + n |> <| as_current_allocated := as_current_allocated s - n |>
    <| as_free_count := as_free_count s + 1 |>.
(** What the program stores of them. *)
Definition wrapped (s : xgl_allocator_stats_t) : xgl_allocator_stats_t :=
  mk_alloc_stats (u64 (as_total_allocated s)) (u64 (as_total_freed s)) (as_current_allocated s)
    (as_peak_allocated s) (u64 (as_alloc_count s)) (u64 (as_free_count s)).

Lemma credit_wrapped n s : 0 <= n -> 0 <= as_current_allocated s -> as_current_allocated s + n <= SIZE_MAX ->
  update_alloc_stats n (wrapped s) = wrapped (credit n s).
Proof.
  intros Hn Hc Hfit. unfold SIZE_MAX in Hfit. destruct s as [ta tf c p ac fc]. unfold update_alloc_stats, wrapped, credit.
  cbn in *. rewrite (u64_small (c + n)) by lia.
  replace (u64 (u64 ta + n)) with (u64 (ta + n)) by (unfold u64; by rewrite Zplus_mod_idemp_l).
  replace (u64 (u64 ac + 1)) with (u64 (ac + 1)) by (unfold u64; by rewrite Zplus_mod_idemp_l).
  destruct (p <? c + n) eqn:Hp; f_equal; lia.
Qed.
Lemma debit_wrapped n s : 0 <= n <= as_current_allocated s -> as_current_allocated s <= SIZE_MAX ->
  update_free_stats n (wrapped s) = wrapped (debit n s).
Proof.
  intros Hn Hfit. unfold SIZE_MAX in Hfit. destruct s as [ta tf c p ac fc]. unfold update_free_stats, wrapped, debit.
  cbn in *. replace (n <=? c) with true by lia. cbn.
  replace (u64 (u64 tf + n)) with (u64 (tf + n)) by (unfold u64; by rewrite Zplus_mod_idemp_l).
  replace (u64 (u64 fc + 1)) with (u64 (fc + 1)) by (unfold u64; by rewrite Zplus_mod_idemp_l).
  by rewrite (u64_small (c - n)) by lia.
Qed.

Record ledger : Type := mk_ledger {
  lg_held : held_blocks;
  lg_total : xgl_allocator_stats_t;
  lg_phases : list xgl_allocator_stats_t;
  lg_phase : Z
}.
#[export] Instance eta_ledger : EtaRecord ledger :=
  Eta (fun r => mk_ledger (lg_held r) (lg_total r) (lg_phases r) (lg_phase r)).
Definition fresh_ledger : ledger := mk_ledger ∅ zero_alloc_stats (replicate 5 zero_alloc_stats) 0.

Definition on_phase (i : Z) (f : xgl_allocator_stats_t -> xgl_allocator_stats_t) (l : list xgl_allocator_stats_t)
    : list xgl_allocator_stats_t := alter f (Z.to_nat i) l.

(** What users do: take a block, give one back, write in one, announce the next
    phase, start the statistics afresh. *)
Inductive track_op : Type :=
| tk_alloc (n : Z)
| tk_free (p : Z)
| tk_write (p off : Z) (bs : bytes)
| tk_phase (i : Z)
| tk_reset.

Inductive ledger_step : ledger -> track_op -> Z -> ledger -> Prop :=
| ls_alloc n p g : 0 < n -> p <> NULLP -> lg_held g !! p = None ->
    ledger_step g (tk_alloc n) p
      (mk_ledger (<[p := (n, lg_phase g)]> (lg_held g)) (credit n (lg_total g))
         (on_phase (lg_phase g) (credit n) (lg_phases g)) (lg_phase g))
| ls_refused n g : ledger_step g (tk_alloc n) NULLP g
| ls_free p n i g : lg_held g !! p = Some (n, i) ->
    ledger_step g (tk_free p) 0
      (mk_ledger (delete p (lg_held g)) (debit n (lg_total g)) (on_phase i (debit n) (lg_phases g)) (lg_phase g))
| ls_free_null g : ledger_step g (tk_free NULLP) 0 g
| ls_write p off bs g : ledger_step g (tk_write p off bs) 0 g
| ls_phase i g : ledger_step g (tk_phase i) 0 (if i <? XGL_ALLOCATOR_PHASE_COUNT then g <| lg_phase := i |> else g)
| ls_reset g : ledger_step g tk_reset 0
    (g <| lg_total := reset_alloc_stats (lg_total g) |> <| lg_phases := reset_alloc_stats <$> lg_phases g |>).

(** Users free only what they hold (or NULL), write only inside it, and ask for
    sizes that leave room for the header. *)
Definition lawful (g : ledger) (op : track_op) : Prop :=
  match op with
  | tk_alloc n => 0 <= n <= SIZE_MAX - SIZEOF_ALLOC_HEADER
  | tk_free p => p = NULLP \/ is_Some (lg_held g !! p)
  | tk_write p off bs => exists n i, lg_held g !! p = Some (n, i) /\ 0 <= off /\ off + zlen bs <= n
  | tk_phase i => 0 <= i
  | tk_reset => True
  end.

Definition run_op (depth : nat) (tracker : Z) (op : track_op) : A Z :=
  match op with
  | tk_alloc n => xgl_tracking_alloc depth tracker n
  | tk_free p => _ ← xgl_tracking_free depth tracker p; mret 0
  | tk_write p off bs => _ ← store (p + off) bs; mret 0
  | tk_phase i => _ ← xgl_tracking_allocator_set_phase tracker i; mret 0
  | tk_reset => _ ← xgl_tracking_allocator_reset_stats tracker; mret 0
  end.

(** ** The invariant *)

(** An allocator that is no tracking allocator: the heap's or the application's. *)
Definition direct (u : xgl_allocator_t) : Prop :=
  exists f g, al_malloc u = Ptr f /\ f <> tracking_malloc /\ al_free u = Ptr g /\ g <> tracking_free.
Lemma direct_alloc depth u n w : direct u -> n <> 0 -> xgl_alloc depth (Ptr u) n w = heap_malloc n w.
Proof.
  intros (f & g & Hf & Hft & Hg & _) Hn. destruct depth; cbn; (destruct (Z.eqb_spec n 0); [done|]); unfold mbind, ST_bind, gets; cbn;
    rewrite Hf, bool_decide_eq_false_2 by congruence; by destruct f.
Qed.
Lemma direct_free depth u p w : direct u -> p <> NULLP -> xgl_free depth (Ptr u) p w = heap_free p w.
Proof.
  intros (f & g & _ & _ & Hg & Hgt) Hp. destruct depth; cbn; (destruct (Z.eqb_spec p 0); [done|]); unfold mbind, ST_bind, gets; cbn;
    rewrite Hg, bool_decide_eq_false_2 by congruence; by destruct g.
Qed.

(** A block that is out: a region with its header. *)
Definition block_held (h : c_heap) (p n i : Z) : Prop :=
  0 < n /\ 0 <= i < XGL_ALLOCATOR_PHASE_COUNT /\ ch_regions h !! (p - SIZEOF_ALLOC_HEADER) = Some (n + SIZEOF_ALLOC_HEADER) /\
  ld (ch_bytes h) (p - SIZEOF_ALLOC_HEADER) 16 = Some (alloc_header n XGL_ALLOC_MAGIC i).

Record accounted (tracker : Z) (w : alloc_world) (g : ledger) : Prop := mk_accounted {
  ac_heap : heap_ok (aw_heap w);
  ac_tracker : exists base u, direct u /\ aw_trackers w !! tracker =
    Some (mk_tracker base (Ptr u) (wrapped (lg_total g)) (wrapped <$> lg_phases g) (lg_phase g));
  ac_phase : 0 <= lg_phase g < XGL_ALLOCATOR_PHASE_COUNT;
  ac_length : length (lg_phases g) = 5%nat;
  ac_held p n i : lg_held g !! p = Some (n, i) -> block_held (aw_heap w) p n i;
  ac_total : as_current_allocated (lg_total g) = weight in_total (lg_held g);
  ac_phases i s : lg_phases g !! i = Some s -> as_current_allocated s = weight (in_phase (Z.of_nat i)) (lg_held g)
}.

Lemma weight_le f1 f2 held : (forall p x, held !! p = Some x -> 0 <= f1 x <= f2 x) -> 0 <= weight f1 held <= weight f2 held.
Proof.
  intros Hf. unfold weight. assert (forall x, x ∈ map_to_list held -> 0 <= f1 x.2 <= f2 x.2) as Hl.
  { intros [p x] Hx%elem_of_map_to_list. by apply (Hf p). }
  induction (map_to_list held) as [|y l IH]; cbn; [lia|]. pose proof (Hl y ltac:(left)).
  assert (0 <= weigh f1 l <= weigh f2 l) by (apply IH; intros x Hx; apply Hl; by right). unfold weigh in *. lia.
Qed.
(** All blocks together fit the address space. *)
Lemma held_fits h held : heap_ok h -> (forall p n i, held !! p = Some (n, i) -> block_held h p n i) ->
  0 <= weight in_total held <= SIZE_MAX /\ forall i, 0 <= weight (in_phase i) held <= weight in_total held.
Proof.
  intros Hok Hb. assert (forall i, 0 <= weight (in_phase i) held <= weight in_total held) as Hph.
  { intros i. apply weight_le. intros p [n j] Hp. destruct (Hb p n j Hp). unfold in_phase, in_total. cbn.
    destruct (decide _); lia. }
  split; [|done]. specialize (Hph 0). split; [lia|].
  pose (region := fun x : Z * (Z * Z) => (x.1 - SIZEOF_ALLOC_HEADER, x.2.1 + SIZEOF_ALLOC_HEADER)).
  assert (weight in_total held <= total_size (region <$> map_to_list held)) as Hle.
  { unfold weight, weigh, total_size, in_total. clear. induction (map_to_list held) as [|[p [n i]] l IH]; cbn in *; [lia|].
    unfold SIZEOF_ALLOC_HEADER in *. lia. }
  etrans; [exact Hle|]. replace SIZE_MAX with (SIZE_MAX - 0) by lia. destruct Hok as [Hr Hd].
  assert (forall x, x ∈ region <$> map_to_list held -> ch_regions h !! x.1 = Some x.2) as Hreg.
  { intros x ([p [n i]] & -> & Hp%elem_of_map_to_list)%list_elem_of_fmap. by destruct (Hb p n i Hp) as (_ & _ & ? & _). }
  apply (regions_fit (length (region <$> map_to_list held))); [done|done|..].
  - assert ((region <$> map_to_list held).*1 = (fun p => p - SIZEOF_ALLOC_HEADER) <$> (map_to_list held).*1) as Heq.
    { rewrite <- !list_fmap_compose. done. }
    apply (NoDup_fmap_1 fst). rewrite Heq. apply NoDup_fmap_2; [intros a b Hab; unfold SIZEOF_ALLOC_HEADER in Hab; lia|apply NoDup_fst_map_to_list].
  - intros [a n] Ha%Hreg. destruct (Hr a n Ha) as (? & ? & ? & _). cbn. lia.
  - intros [a n] [b k] Ha%Hreg Hb'%Hreg Hne. apply (Hd a n b k); [done|done|]. cbn in *. intros ->. congruence.
Qed.

(** ** Rules of the effects *)

Lemma wp_store a bs Q w m : st (ch_bytes (aw_heap w)) a bs = Some m ->
  Q tt (w <| aw_heap := (aw_heap w) <| ch_bytes := m |> |>) -> wp (store a bs) Q w.
Proof. unfold wp, store. by intros ->. Qed.
Lemma wp_load a n bs Q w : ld (ch_bytes (aw_heap w)) a (Z.to_nat n) = Some bs -> Q bs w -> wp (load a n) Q w.
Proof. unfold wp, load. by intros ->. Qed.
Lemma wp_tracker_at t x Q w : aw_trackers w !! t = Some x -> Q x w -> wp (tracker_at t) Q w.
Proof. unfold wp, tracker_at. by intros ->. Qed.
Lemma wp_set_tracker t f x Q w : aw_trackers w !! t = Some x ->
  Q tt (w <| aw_trackers := <[t := f x]> (aw_trackers w) |>) -> wp (set_tracker t f) Q w.
Proof. unfold wp, set_tracker. by intros ->. Qed.

(** A store in one region keeps the other regions and the heap's structure. *)
Lemma store_heap_ok h a bs m : heap_ok h -> st (ch_bytes h) a bs = Some m -> heap_ok (h <| ch_bytes := m |>).
Proof.
  intros [Hr Hd] Hst. split; [|exact Hd]. intros b k Hb. destruct (Hr b k Hb) as (? & ? & ? & Ho).
  split_and!; [done..|]. by apply (st_owned _ _ _ _ _ _ Hst).
Qed.
Lemma block_held_store h a bs m p n i : st (ch_bytes h) a bs = Some m ->
  p <= a \/ a + zlen bs <= p - SIZEOF_ALLOC_HEADER ->
  block_held h p n i -> block_held (h <| ch_bytes := m |>) p n i.
Proof.
  intros Hst Hd (? & ? & Hreg & Hld). split_and!; [lia|lia|lia|done|]. unfold SIZEOF_ALLOC_HEADER in *. change (ch_bytes _) with m.
  rewrite (st_ld_other _ _ _ _ _ _ Hst); [done|lia].
Qed.
Lemma block_held_fresh h a size h' p n i : heap_ok h -> 0 < size -> fresh_region h a size h' ->
  block_held h p n i -> block_held h' p n i /\ (a + size <= p - SIZEOF_ALLOC_HEADER \/ p + n <= a).
Proof.
  intros Hok Hsize Hf (? & ? & Hreg & Hld).
  pose proof (fresh_region_apart _ _ _ _ _ _ Hok Hsize Hf Hreg) as Hd.
  destruct Hf as (_ & _ & _ & _ & Hframe & Hno & Hregs). split; [|lia]. split_and!; [done|lia|lia|..].
  - rewrite Hregs, lookup_insert_ne; [done|]. intros ->. congruence.
  - rewrite <- Hld. apply ld_agree. intros x Hx. apply Hframe. unfold SIZEOF_ALLOC_HEADER in *. lia.
Qed.
Lemma alloc_header_zlen n m i : zlen (alloc_header n m i) = SIZEOF_ALLOC_HEADER.
Proof. unfold alloc_header. by rewrite !zlen_app, !le_bytes_zlen. Qed.

Lemma on_phase_run i f l : 0 <= i < zlen l -> update_phase i f l = Some (on_phase i f l).
Proof.
  intros Hi. unfold update_phase, on_phase. destruct (rd_is_Some l i Hi) as [s Hs]. rewrite Hs. cbn [mbind option_bind].
  rewrite wr_Some by done. rewrite rd_lookup in Hs by lia. f_equal. apply list_eq. intros j.
  destruct (decide (j = Z.to_nat i)) as [->|Hne].
  - rewrite list_lookup_insert_eq by (unfold zlen in Hi; lia). by rewrite list_lookup_alter_eq, Hs.
  - by rewrite list_lookup_insert_ne, list_lookup_alter_ne by done.
Qed.
Lemma on_phase_wrapped i f f' l : (forall s, l !! Z.to_nat i = Some s -> f (wrapped s) = wrapped (f' s)) ->
  on_phase i f (wrapped <$> l) = wrapped <$> on_phase i f' l.
Proof.
  intros Hf. unfold on_phase. apply list_eq. intros j. rewrite list_lookup_fmap.
  destruct (decide (j = Z.to_nat i)) as [->|Hne].
  - rewrite !list_lookup_alter_eq, list_lookup_fmap. destruct (l !! Z.to_nat i) as [s|] eqn:E; [|done]. cbn. by rewrite Hf.
  - by rewrite !list_lookup_alter_ne, list_lookup_fmap by done.
Qed.
(** What the change of one phase does to the phases' balances. *)
Lemma phases_insert held p n i l : held !! p = None -> 0 <= i ->
  (forall j s, l !! j = Some s -> as_current_allocated s = weight (in_phase (Z.of_nat j)) held) ->
  forall j s, on_phase i (credit n) l !! j = Some s ->
    as_current_allocated s = weight (in_phase (Z.of_nat j)) (<[p := (n, i)]> held).
Proof.
  intros Hp Hi Hl j s. unfold on_phase. rewrite weight_insert by done. unfold in_phase at 1. cbn.
  destruct (decide (j = Z.to_nat i)) as [->|Hne].
  - rewrite list_lookup_alter_eq. destruct (l !! Z.to_nat i) as [s0|] eqn:E; [|done]. cbn. intros [= <-].
    rewrite decide_True by lia. cbn. rewrite (Hl _ _ E). lia.
  - rewrite list_lookup_alter_ne by done. intros Hs. rewrite decide_False by lia. by apply Hl.
Qed.
Lemma phases_delete held p n i l : held !! p = Some (n, i) -> 0 <= i ->
  (forall j s, l !! j = Some s -> as_current_allocated s = weight (in_phase (Z.of_nat j)) held) ->
  forall j s, on_phase i (debit n) l !! j = Some s ->
    as_current_allocated s = weight (in_phase (Z.of_nat j)) (delete p held).
Proof.
  intros Hp Hi Hl j s. unfold on_phase. pose proof (weight_delete (in_phase (Z.of_nat j)) held p _ Hp) as Hw.
  unfold in_phase at 2 in Hw. cbn in Hw. destruct (decide (j = Z.to_nat i)) as [->|Hne].
  - rewrite list_lookup_alter_eq. destruct (l !! Z.to_nat i) as [s0|] eqn:E; [|done]. cbn. intros [= <-].
    rewrite decide_True in Hw by lia. cbn. rewrite (Hl _ _ E). lia.
  - rewrite list_lookup_alter_ne by done. intros Hs. rewrite decide_False in Hw by lia. rewrite (Hl _ _ Hs). lia.
Qed.

(** ** The operations keep the accounts *)

Section operations.
Context (depth : nat) (T : Z).
Hypothesis HT : T <> NULLP.

Lemma header_parts h p n i : 0 <= n <= SIZE_MAX -> 0 <= i < XGL_ALLOCATOR_PHASE_COUNT ->
  ld h p 16 = Some (alloc_header n XGL_ALLOC_MAGIC i) ->
  ld h p 8 = Some (le_bytes 8 n) /\ ld h (p + 8) 4 = Some (le_bytes 4 XGL_ALLOC_MAGIC) /\ ld h (p + 12) 4 = Some (le_bytes 4 i).
Proof.
  intros Hn Hi Hld. change 16%nat with (8 + (4 + 4))%nat in Hld. rewrite !ld_app in Hld.
  change (Z.of_nat 8) with 8 in Hld. change (Z.of_nat 4) with 4 in Hld. replace (p + 8 + 4) with (p + 12) in Hld by lia.
  destruct (ld h p 8) as [a|] eqn:Ha; [|done]. destruct (ld h (p + 8) 4) as [b|] eqn:Hb; [|done].
  destruct (ld h (p + 12) 4) as [c|] eqn:Hc; [|done].
  cbn [mbind option_bind] in Hld. injection Hld as Heq.
  apply app_inj_1 in Heq as [-> Heq]; [|by rewrite (ld_length _ _ _ _ Ha), le_bytes_length].
  apply app_inj_1 in Heq as [-> ->]; [done|by rewrite (ld_length _ _ _ _ Hb), le_bytes_length].
Qed.

Lemma wp_direct_alloc u n Q w : direct u -> heap_ok (aw_heap w) -> 0 < n ->
  (forall a h', heap_ok h' ->
     (a = NULLP /\ ch_bytes h' = ch_bytes (aw_heap w) /\ ch_regions h' = ch_regions (aw_heap w)) \/
     fresh_region (aw_heap w) a n h' -> Q a (w <| aw_heap := h' |>)) ->
  wp (xgl_alloc depth (Ptr u) n) Q w.
Proof.
  intros Hu Hok Hn HQ. unfold wp. rewrite direct_alloc by (done || lia). unfold heap_malloc.
  pose proof (malloc_spec n (aw_heap w) Hok Hn) as Hm. destruct (malloc _ _) as [p h']. destruct Hm. by apply HQ.
Qed.
Lemma wp_direct_free u p n Q w : direct u -> heap_ok (aw_heap w) -> ch_regions (aw_heap w) !! p = Some n ->
  (forall h', heap_ok h' -> ch_regions h' = delete p (ch_regions (aw_heap w)) ->
     (forall x, ~ p <= x < p + n -> ch_bytes h' !! x = ch_bytes (aw_heap w) !! x) -> Q tt (w <| aw_heap := h' |>)) ->
  wp (xgl_free depth (Ptr u) p) Q w.
Proof.
  intros Hu Hok Hp HQ. destruct (proj1 Hok p n Hp). unfold wp. rewrite direct_free by (done || lia). unfold heap_free.
  destruct (free_spec _ _ _ Hok Hp) as (h' & -> & ? & ? & ? & _). cbn. by apply HQ.
Qed.

(** The block of a successful allocation, once its header is written. *)
Lemma new_block h p n i h' m : heap_ok h -> 0 < n -> 0 <= i < XGL_ALLOCATOR_PHASE_COUNT ->
  fresh_region h p (n + SIZEOF_ALLOC_HEADER) h' ->
  st (ch_bytes h') p (alloc_header n XGL_ALLOC_MAGIC i) = Some m ->
  heap_ok (h' <| ch_bytes := m |>) /\ block_held (h' <| ch_bytes := m |>) (p + SIZEOF_ALLOC_HEADER) n i /\
  forall q k j, block_held h q k j -> block_held (h' <| ch_bytes := m |>) q k j /\ q <> p + SIZEOF_ALLOC_HEADER.
Proof.
  intros Hok Hn Hi Hf Hst. assert (0 < n + SIZEOF_ALLOC_HEADER) as Hs by (unfold SIZEOF_ALLOC_HEADER; lia).
  pose proof (fresh_region_ok _ _ _ _ Hok Hs Hf) as Hok'. split; [by eapply store_heap_ok|]. split.
  - destruct Hf as (_ & _ & _ & _ & _ & _ & Hregs). replace (p + SIZEOF_ALLOC_HEADER - SIZEOF_ALLOC_HEADER) with p by lia.
    split_and!; [done|lia|lia|..].
    + replace (p + SIZEOF_ALLOC_HEADER - SIZEOF_ALLOC_HEADER) with p by lia. cbn. by rewrite Hregs, lookup_insert_eq.
    + replace (p + SIZEOF_ALLOC_HEADER - SIZEOF_ALLOC_HEADER) with p by lia. exact (st_ld _ _ _ _ Hst).
  - intros q k j Hq. destruct (block_held_fresh _ _ _ _ _ _ _ Hok Hs Hf Hq) as [Hq' Hd].
    destruct Hq as (Hk & _). unfold SIZEOF_ALLOC_HEADER in *. split; [|lia].
    apply (block_held_store _ _ _ _ _ _ _ Hst); [|done]. rewrite alloc_header_zlen. unfold SIZEOF_ALLOC_HEADER. lia.
Qed.

Lemma alloc_accounted n w g : accounted T w g -> 0 <= n <= SIZE_MAX - SIZEOF_ALLOC_HEADER ->
  wp (xgl_tracking_alloc depth T n) (fun p w' => exists g', ledger_step g (tk_alloc n) p g' /\ accounted T w' g') w.
Proof.
  intros Hac Hn. pose proof Hac as [Hok (base & u & Hu & Ht) Hph Hlen Hheld Htot Hphs].
  unfold xgl_tracking_alloc, tracking_malloc_impl. destruct (Z.eqb_spec T NULLP); [done|].
  st_step. eapply wp_tracker_at; [exact Ht|]. rewrite bool_decide_eq_false_2 by done.
  destruct (Z.eqb_spec n 0) as [->|Hn0]; cbn [orb]; [st_step; exists g; split; [constructor|exact Hac]|].
  assert (0 < n + SIZEOF_ALLOC_HEADER <= SIZE_MAX) as Hs by (unfold SIZE_MAX, SIZEOF_ALLOC_HEADER in *; lia).
  rewrite u64_small by (unfold SIZE_MAX in *; lia). st_step. apply wp_direct_alloc; [done|done|lia|].
  intros p h' Hok' [(-> & Hb & Hr)|Hf].
  { rewrite Z.eqb_refl. st_step. exists g. split; [constructor|]. split; try done; [by exists base, u|]. intros q k i Hq.
    change (aw_heap _) with h'. unfold block_held. rewrite Hb, Hr. by apply Hheld. }
  pose proof Hf as (Hp & Hfit & Ho & _ & _ & Hno & Hregs). destruct (Z.eqb_spec p NULLP); [lia|].
  st_step. eapply wp_tracker_at; [exact Ht|]. cbn [ta_current_phase ta_phase_stats].
  destruct (st_owns (ch_bytes h') p (alloc_header n XGL_ALLOC_MAGIC (lg_phase g))) as [m Hst].
  { rewrite alloc_header_zlen. apply (owns_sub _ p (n + SIZEOF_ALLOC_HEADER)); [done|lia..]. }
  st_step. eapply wp_store; [exact Hst|]. cbn [aw_heap].
  destruct (new_block (aw_heap w) p n (lg_phase g) h' m Hok ltac:(lia) Hph Hf Hst) as (Hok2 & Hnew & Hold).
  set (held' := <[p + SIZEOF_ALLOC_HEADER := (n, lg_phase g)]> (lg_held g)).
  assert (lg_held g !! (p + SIZEOF_ALLOC_HEADER) = None) as Hfresh.
  { destruct (lg_held g !! _) as [[k i]|] eqn:E; [|done]. by destruct (Hold _ _ _ (Hheld _ _ _ E)). }
  assert (forall q k i, held' !! q = Some (k, i) -> block_held (h' <| ch_bytes := m |>) q k i) as Hheld'.
  { intros q k i [[<- [= <- <-]]|[_ Hq]]%lookup_insert_Some; [done|]. by apply Hold, Hheld. }
  destruct (held_fits _ _ Hok2 Hheld') as [Hbound Hphb]. destruct (held_fits _ _ Hok Hheld) as [Hbound0 Hphb0].
  assert (n + weight in_total (lg_held g) = weight in_total held') as Hw by (unfold held'; by rewrite weight_insert).
  assert (n + weight (in_phase (lg_phase g)) (lg_held g) = weight (in_phase (lg_phase g)) held') as Hwp.
  { unfold held'. rewrite weight_insert by done. unfold in_phase at 2. cbn. by rewrite decide_True. }
  st_step. eapply wp_lift.
  { apply on_phase_run. unfold zlen. rewrite length_fmap, Hlen. exact Hph. }
  st_step. eapply wp_set_tracker; [exact Ht|]. cbn [ta_stats].
  rewrite on_phase_wrapped with (f' := credit n).
  2: { intros s Hs'. pose proof (Hphs _ _ Hs') as Hcur. rewrite Z2Nat.id in Hcur by lia.
       specialize (Hphb (lg_phase g)). specialize (Hphb0 (lg_phase g)). apply credit_wrapped; lia. }
  rewrite credit_wrapped by lia. st_step. eexists. split; [by apply (ls_alloc n); [lia|unfold SIZEOF_ALLOC_HEADER; lia|]|].
  split; cbn; try done.
  - exists base, u. split; [done|]. by rewrite lookup_insert_eq.
  - unfold on_phase. by rewrite length_alter.
  - rewrite Htot. fold held'. lia.
  - apply phases_insert; [done|lia|done].
Qed.

Lemma free_accounted p n i w g : accounted T w g -> lg_held g !! p = Some (n, i) ->
  wp (xgl_tracking_free depth T p)
    (fun _ w' => exists g', ledger_step g (tk_free p) 0 g' /\ accounted T w' g') w.
Proof.
  intros [Hok (base & u & Hu & Ht) Hph Hlen Hheld Htot Hphs] Hp.
  destruct (held_fits _ _ Hok Hheld) as [Hbound Hphb]. pose proof (Hheld _ _ _ Hp) as (Hn & Hi & Hreg & Hld).
  destruct (proj1 Hok _ _ Hreg) as (Hpos & _ & Hfit & _). set (q := p - SIZEOF_ALLOC_HEADER) in *.
  unfold SIZEOF_ALLOC_HEADER, XGL_ALLOCATOR_PHASE_COUNT in *.
  destruct (header_parts (ch_bytes (aw_heap w)) q n i ltac:(unfold SIZE_MAX in *; lia) Hi Hld) as (Hsize & Hmagic & Hphase).
  unfold xgl_tracking_free, tracking_free_impl. destruct (Z.eqb_spec p NULLP); [lia|]. destruct (Z.eqb_spec T NULLP); [done|].
  st_step. eapply wp_tracker_at; [exact Ht|]. rewrite bool_decide_eq_false_2 by done.
  unfold SIZEOF_ALLOC_HEADER. fold q.
  st_step. eapply wp_load; [exact Hmagic|]. rewrite le_value_u32 by done. cbn [negb Z.eqb Pos.eqb XGL_ALLOC_MAGIC].
  st_step. eapply wp_load; [exact Hsize|]. st_step. eapply wp_load; [exact Hphase|].
  rewrite le_value_u64, le_value_u32 by (unfold SIZE_MAX in *; lia).
  st_step. eapply wp_set_tracker; [exact Ht|]. cbn [ta_stats].
  pose proof (weight_delete in_total _ _ _ Hp) as Hw. pose proof (weight_delete (in_phase i) _ _ _ Hp) as Hwp.
  unfold in_total at 2 in Hw. unfold in_phase at 2 in Hwp. cbn [fst snd] in Hw, Hwp. rewrite decide_True in Hwp by done.
  assert (forall f, (forall x, 0 <= x.1 -> 0 <= f x) -> 0 <= weight f (delete p (lg_held g))) as Hnonneg.
  { intros f Hf. pose proof (weight_le (fun _ => 0) f (delete p (lg_held g))) as Hle.
    enough (0 <= weight (fun _ => 0) (delete p (lg_held g)) <= weight f (delete p (lg_held g))) by lia.
    apply Hle. intros a [k j] [_ Ha]%lookup_delete_Some. split; [done|]. apply Hf. destruct (Hheld _ _ _ Ha). cbn. lia. }
  pose proof (Hnonneg in_total ltac:(by unfold in_total)) as Hnn1.
  assert (0 <= weight (in_phase i) (delete p (lg_held g))) as Hnn2.
  { apply Hnonneg. intros x Hx. unfold in_phase. destruct (decide _); lia. }
  specialize (Hphb i). rewrite debit_wrapped by lia. unfold XGL_ALLOCATOR_PHASE_COUNT. replace (i <? 5) with true by lia.
  st_step. cbn [ta_phase_stats]. st_step. eapply wp_lift; [apply on_phase_run; unfold zlen; rewrite length_fmap, Hlen; exact Hi|].
  eapply wp_set_tracker; [apply lookup_insert_eq|].
  rewrite on_phase_wrapped with (f' := debit n).
  2: { intros s Hs. pose proof (Hphs _ _ Hs) as Hcur. rewrite Z2Nat.id in Hcur by lia. apply debit_wrapped; lia. }
  st_step. destruct (st_owns (ch_bytes (aw_heap w)) (q + 8) (le_bytes 4 0)) as [m Hst].
  { rewrite le_bytes_zlen. destruct (proj1 Hok _ _ Hreg) as (_ & _ & _ & Ho). apply (owns_sub _ q (n + 16)); [done|lia..]. }
  eapply wp_store; [exact Hst|]. pose proof (store_heap_ok _ _ _ _ Hok Hst) as Hok2.
  eapply wp_direct_free; [done|exact Hok2|exact Hreg|]. intros h' Hok' Hregs Hframe. eexists.
  split; [by apply (ls_free p n i)|]. split; cbn; try done.
  - exists base, u. split; [done|]. rewrite lookup_insert_eq. cbn. reflexivity.
  - unfold on_phase. by rewrite length_alter.
  - intros b k j [Hne Hb]%lookup_delete_Some. pose proof (Hheld _ _ _ Hb) as (Hk & Hj & Hbreg & Hbld).
    assert (q <> b - 16) as Hqb by (unfold q; lia).
    pose proof (proj2 Hok _ _ _ _ Hreg Hbreg Hqb) as Hapart. split_and!; [done|apply Hj|apply Hj|..].
    + rewrite Hregs. by rewrite lookup_delete_ne.
    + rewrite <- Hbld. apply ld_agree. intros x Hx. unfold SIZEOF_ALLOC_HEADER in *. rewrite Hframe by lia. cbn.
      apply (st_other _ _ _ _ _ Hst). rewrite le_bytes_zlen. lia.
  - lia.
  - apply phases_delete; [done|lia|done].
Qed.

Lemma write_accounted p off bs w g n i : accounted T w g -> lg_held g !! p = Some (n, i) ->
  0 <= off -> off + zlen bs <= n -> wp (store (p + off) bs) (fun _ w' => accounted T w' g) w.
Proof.
  intros [Hok Ht Hph Hlen Hheld Htot Hphs] Hp Hoff Hfit. destruct (Hheld _ _ _ Hp) as (Hn & Hi & Hreg & Hld).
  destruct (proj1 Hok _ _ Hreg) as (_ & _ & _ & Ho). unfold SIZEOF_ALLOC_HEADER in *.
  destruct (st_owns (ch_bytes (aw_heap w)) (p + off) bs) as [m Hst].
  { apply (owns_sub _ _ _ _ _ Ho); lia. }
  eapply wp_store; [exact Hst|]. split; try done; [by eapply store_heap_ok|].
  intros b k j Hb. pose proof (Hheld _ _ _ Hb) as Hbl. apply (block_held_store _ _ _ _ _ _ _ Hst); [|done].
  destruct (decide (b = p)) as [->|Hne]; [left; lia|]. destruct Hbl as (Hk & _ & Hbreg & _). unfold SIZEOF_ALLOC_HEADER in *.
  pose proof (proj2 Hok _ _ _ _ Hreg Hbreg ltac:(lia)). lia.
Qed.

Lemma reset_wrapped s : 0 <= as_current_allocated s <= SIZE_MAX -> reset_alloc_stats (wrapped s) = wrapped (reset_alloc_stats s).
Proof.
  intros Hs. unfold SIZE_MAX in Hs. destruct s as [a b c d e f]. unfold reset_alloc_stats, wrapped. cbn in *.
  by rewrite (u64_small c) by lia.
Qed.

Lemma op_accounted op w g : accounted T w g -> lawful g op ->
  wp (run_op depth T op) (fun r w' => exists g', ledger_step g op r g' /\ accounted T w' g') w.
Proof.
  intros Hac Hop. destruct op as [n|p|p off bs|i|]; cbn [run_op].
  - by apply alloc_accounted.
  - st_step. destruct Hop as [->|[[n i] Hp]].
    + unfold xgl_tracking_free, tracking_free_impl. rewrite Z.eqb_refl. st_step. st_step. exists g. split; [constructor|done].
    + eapply wp_mono; [by eapply free_accounted|]. intros ? w' Hq. st_step. exact Hq.
  - destruct Hop as (n & i & Hp & Hoff & Hfit). st_step. eapply wp_mono; [by eapply write_accounted|].
    intros ? w' Hq. st_step. exists g. split; [constructor|done].
  - cbn in Hop. destruct Hac as [Hok (base & u & Hu & Ht) Hph Hlen Hheld Htot Hphs]. unfold xgl_tracking_allocator_set_phase.
    destruct (Z.eqb_spec T NULLP); [done|]. cbn [orb]. st_step. rewrite Z.leb_antisym.
    assert (accounted T w g) as Hac by (split; try done; by exists base, u).
    pose proof (ls_phase i g) as Hstep. destruct (i <? XGL_ALLOCATOR_PHASE_COUNT) eqn:Hlt; cbn [negb].
    + eapply wp_set_tracker; [exact Ht|]. st_step. eexists. split; [exact Hstep|]. split; cbn; try done; [|lia].
      exists base, u. split; [done|]. by rewrite lookup_insert_eq.
    + st_step. st_step. exists g. by split.
  - destruct Hac as [Hok (base & u & Hu & Ht) Hph Hlen Hheld Htot Hphs]. unfold xgl_tracking_allocator_reset_stats.
    destruct (Z.eqb_spec T NULLP); [done|]. st_step. eapply wp_set_tracker; [exact Ht|]. st_step.
    destruct (held_fits _ _ Hok Hheld) as [Hbound Hphb].
    eexists. split; [constructor|]. split; cbn -[reset_alloc_stats wrapped]; try done.
    + exists base, u. split; [done|]. rewrite lookup_insert_eq. cbn -[reset_alloc_stats wrapped].
      rewrite reset_wrapped by lia. f_equal. f_equal.
      apply list_eq. intros j. rewrite !list_lookup_fmap. destruct (lg_phases g !! j) as [s|] eqn:E; [|done].
      cbn -[reset_alloc_stats wrapped]. specialize (Hphb (Z.of_nat j)). rewrite reset_wrapped; [done|]. rewrite (Hphs _ _ E). lia.
    + by rewrite length_fmap.
    + intros j s. rewrite list_lookup_fmap. destruct (lg_phases g !! j) as [s0|] eqn:E; [|done]. intros [= <-]. cbn. by apply Hphs.
Qed.
End operations.

(** ** The tracking allocator and its users *)

(** Between two operations: the statistics of the tracker are the accounts of
    the ledger, modulo the width of the counters; the bytes in use, in total and
    per phase, are the sizes of the blocks that are out; these are owned and do
    not meet. *)
Definition balanced (T : Z) (w : alloc_world) (g : ledger) : Prop :=
  (exists t, aw_trackers w !! T = Some t /\ ta_stats t = wrapped (lg_total g) /\ ta_phase_stats t = wrapped <$> lg_phases g) /\
  as_current_allocated (lg_total g) = weight in_total (lg_held g) /\
  (forall i s, lg_phases g !! i = Some s -> as_current_allocated s = weight (in_phase (Z.of_nat i)) (lg_held g)) /\
  weight in_total (lg_held g) <= SIZE_MAX /\
  (forall p n i, lg_held g !! p = Some (n, i) -> 0 < p /\ owns (ch_bytes (aw_heap w)) p n /\
     forall q k j, lg_held g !! q = Some (k, j) -> p <> q -> p + n <= q \/ q + k <= p).

Fixpoint tracks (depth : nat) (T : Z) (w : alloc_world) (g : ledger) (ops : list track_op) : Prop :=
  balanced T w g /\
  match ops with
  | [] => True
  | op :: ops =>
      lawful g op ->
      exists r w' g', run_op depth T op w = Some (r, w') /\ ledger_step g op r g' /\ tracks depth T w' g' ops
  end.

Lemma accounted_balanced T w g : accounted T w g -> balanced T w g.
Proof.
  intros [Hok (base & u & Hu & Ht) Hph Hlen Hheld Htot Hphs]. destruct (held_fits _ _ Hok Hheld) as [Hbound _].
  split_and!; [by eexists|done|done|lia|]. intros p n i Hp. destruct (Hheld _ _ _ Hp) as (Hn & _ & Hreg & _).
  destruct (proj1 Hok _ _ Hreg) as (Hpos & _ & _ & Ho). unfold SIZEOF_ALLOC_HEADER in *. split_and!; [lia| |].
  - apply (owns_sub _ _ _ _ _ Ho); lia.
  - intros q k j Hq Hne. destruct (Hheld _ _ _ Hq) as (Hk & _ & Hqreg & _). unfold SIZEOF_ALLOC_HEADER in *.
    pose proof (proj2 Hok _ _ _ _ Hreg Hqreg ltac:(lia)). lia.
Qed.
Lemma accounted_tracks depth T : T <> NULLP -> forall ops w g, accounted T w g -> tracks depth T w g ops.
Proof.
  intros HT ops. induction ops as [|op ops IH]; intros w g H; cbn [tracks]; (split; [by apply accounted_balanced|]); [done|].
  intros Hop. pose proof (op_accounted depth T HT op w g H Hop) as Hwp.
  apply wp_run in Hwp as (r & w' & Hrun & g' & Hstep & H'). exists r, w', g'. split_and!; [done..|by apply IH].
Qed.
Lemma init_accounted T u w : T <> NULLP -> direct u -> heap_ok (aw_heap w) ->
  exists w', xgl_tracking_allocator_init T (Ptr u) w = Some (0, w') /\ accounted T w' fresh_ledger.
Proof.
  intros HT Hu Hok. unfold xgl_tracking_allocator_init. destruct (Z.eqb_spec T NULLP); [done|].
  eexists. split; [reflexivity|]. split; cbn; try done.
  - eexists _, u. split; [done|]. by rewrite lookup_insert_eq.
  - intros i s Hs. rewrite weight_empty. do 5 (destruct i as [|i]; [by injection Hs as <-|]). done.
Qed.

(** ** Properties *)

(** C31. The tracking allocator keeps exact accounts: on top of an allocator whose
    two functions are given and serve requests from the heap - the C library's, the
    platform's or the application's, no other tracker ([direct]) - and
    whatever that one grants or refuses, every sequence of allocations of up to
    SIZE_MAX - 16 bytes (what leaves room for the header), releases
    of blocks that are out (or NULL), writes inside such blocks, changes of phase
    and resets is defined; the blocks handed out are owned and do not meet; and
    after every step the bytes in use, in total and per phase, are the sizes of
    the blocks that are out, the peak is the maximum since the last reset and the
    other counters are exact modulo 2^64. *)
Theorem tracking_accounts_exactly (depth : nat) (T : Z) (u : xgl_allocator_t) (w : alloc_world) (ops : list track_op) :
  T <> NULLP -> direct u -> heap_ok (aw_heap w) ->
  exists w', xgl_tracking_allocator_init T (Ptr u) w = Some (0, w') /\ tracks depth T w' fresh_ledger ops.
Proof.
  intros HT Hu Hok. destruct (init_accounted T u w HT Hu Hok) as (w' & Hrun & H).
  exists w'. split; [done|by apply accounted_tracks].
Qed.

Definition sample_heap : c_heap := mk_c_heap ∅ ∅ [4096; 4128; 0; 8192] (fun _ => 170).
Lemma sample_heap_ok : heap_ok sample_heap.
Proof. split; cbn; intros a n; [by rewrite lookup_empty|intros b k; by rewrite lookup_empty]. Qed.
Definition default_allocator : xgl_allocator_t := mk_allocator (Ptr default_malloc) (Ptr default_free) NULLP.
Lemma default_direct : direct default_allocator.
Proof. by exists default_malloc, default_free. Qed.
Definition sample_world : alloc_world := mk_alloc_world true sample_heap ∅.
(** Two blocks in two phases, a refusal, and a block given back. *)
Definition sample_track : list track_op :=
  [tk_alloc 10; tk_phase 3; tk_alloc 20; tk_write 4112 2 [1; 2; 3]; tk_alloc 30; tk_free 4112; tk_reset; tk_alloc 5].
Lemma tracking_accounts_exactly_witness :
  exists w, xgl_tracking_allocator_init 64 (Ptr default_allocator) sample_world = Some (0, w) /\
    tracks 0 64 w fresh_ledger sample_track.
Proof. apply (tracking_accounts_exactly 0 64 default_allocator sample_world sample_track); [done|apply default_direct|apply sample_heap_ok]. Defined.

(** C32. The size of the header is added without a check: a request for more than
    SIZE_MAX - 15 bytes wraps to a total of 1 to 15 bytes, and if the underlying
    allocator grants them, the header is written past the end of that region -
    undefined behaviour when the next byte belongs to nobody. *)
Theorem tracking_size_overflow (depth : nat) (T n p : Z) (w : alloc_world) (g : ledger) (h : c_heap) :
  accounted T w g -> T <> NULLP -> SIZE_MAX - 15 < n -> n <= SIZE_MAX ->
  malloc (n - (SIZE_MAX - 15)) (aw_heap w) = (p, h) -> p <> NULLP ->
  ch_bytes (aw_heap w) !! (p + (n - (SIZE_MAX - 15))) = None ->
  xgl_tracking_alloc depth T n w = None.
Proof.
  intros [Hok (base & u & Hu & Ht) _ _ _ _ _] HT Hn Hmax Hm Hp Hfree. set (k := n - (SIZE_MAX - 15)) in *. unfold SIZE_MAX in *.
  pose proof (malloc_spec k (aw_heap w) Hok ltac:(lia)) as Hspec. rewrite Hm in Hspec.
  destruct Hspec as (_ & [[-> _]|(_ & _ & _ & _ & Hframe & _)]); [done|].
  unfold xgl_tracking_alloc, tracking_malloc_impl. destruct (Z.eqb_spec T NULLP); [done|].
  unfold mbind, ST_bind, tracker_at. rewrite Ht. cbn [mbind option_bind ta_underlying].
  rewrite bool_decide_eq_false_2 by done. replace (n =? 0) with false by lia. cbn [orb].
  replace (u64 (n + SIZEOF_ALLOC_HEADER)) with k by (unfold u64, SIZEOF_ALLOC_HEADER, k; zlia).
  rewrite direct_alloc by (done || lia). unfold heap_malloc. rewrite Hm. destruct (Z.eqb_spec p NULLP); [done|].
  cbn [aw_trackers set_field]. change (aw_trackers (w <| aw_heap := h |>)) with (aw_trackers w). rewrite Ht.
  cbn [mbind option_bind]. unfold store at 1. cbn [aw_heap ta_current_phase].
  destruct (st (ch_bytes h) p (alloc_header n XGL_ALLOC_MAGIC (lg_phase g))) as [m|] eqn:Hst; [|done]. apply st_inv in Hst. rewrite alloc_header_zlen in Hst.
  destruct (Hst (p + k)) as [v Hv]; [unfold SIZEOF_ALLOC_HEADER, k; lia|]. by rewrite Hframe, Hfree in Hv by lia.
Qed.
Lemma tracking_size_overflow_witness :
  exists w, xgl_tracking_allocator_init 64 (Ptr default_allocator) sample_world = Some (0, w) /\
    xgl_tracking_alloc 0 64 SIZE_MAX w = None.
Proof.
  destruct (init_accounted 64 default_allocator sample_world ltac:(done) default_direct sample_heap_ok) as (w & Hrun & Hac).
  exists w. split; [exact Hrun|]. injection Hrun as <-.
  refine (tracking_size_overflow 0 64 SIZE_MAX 4096 _ fresh_ledger (malloc 15 sample_heap).2 Hac _ _ _ _ _ _);
    [done|unfold SIZE_MAX; lia|lia|vm_compute; reflexivity|done|vm_compute; reflexivity].
Defined.
