(* ===== verification/TieredPool.v ===== *)
(** * The tiered pool

    src/src/memory/xgl_tiered_pool.c, xgl_tiered_pool_stats.c: three block pools
    with blocks of 64, 256 and 1024 bytes; a request takes a block of the
    smallest pool that fits and is not exhausted, a release finds the pool by the
    address. *)
From S2P Require Import Prelude State Memory Mempool Allocator.

(** src/include/xgl/internal/xgl_tiered_pool.h:25-25: XGL_TIERED_POOL_SMALL_SIZE *)
Definition XGL_TIERED_POOL_SMALL_SIZE : Z := 64.
(** src/include/xgl/internal/xgl_tiered_pool.h:30-30: XGL_TIERED_POOL_MEDIUM_SIZE *)
Definition XGL_TIERED_POOL_MEDIUM_SIZE : Z := 256.
(** src/include/xgl/internal/xgl_tiered_pool.h:35-35: XGL_TIERED_POOL_LARGE_SIZE *)
Definition XGL_TIERED_POOL_LARGE_SIZE : Z := 1024.

(** src/include/xgl/internal/xgl_tiered_pool.h:44-57: xgl_tiered_pool_t *)
Record xgl_tiered_pool_t : Type := mk_tiered_pool {
  tp_small_pool : xgl_mempool_t;
  tp_medium_pool : xgl_mempool_t;
  tp_large_pool : xgl_mempool_t;
  tp_small_buffer : Z;
  tp_medium_buffer : Z;
  tp_large_buffer : Z;
  tp_small_count : Z;
  tp_medium_count : Z;
  tp_large_count : Z;
  tp_owns_buffers : bool
}.
#[export] Instance eta_tiered_pool : EtaRecord xgl_tiered_pool_t :=
  Eta (fun r => mk_tiered_pool (tp_small_pool r) (tp_medium_pool r) (tp_large_pool r) (tp_small_buffer r)
                  (tp_medium_buffer r) (tp_large_buffer r) (tp_small_count r) (tp_medium_count r)
                  (tp_large_count r) (tp_owns_buffers r)).
Definition zero_tiered_pool : xgl_tiered_pool_t :=
  mk_tiered_pool zero_mempool zero_mempool zero_mempool NULLP NULLP NULLP 0 0 0 false.

(** A pool that is part of a structure: its address is not NULL. *)
Definition embedded (p : ptr xgl_mempool_t) : xgl_mempool_t := default zero_mempool p.
(** A computation on the owned memory, in the world of the allocators. *)
Definition on_memory {X} (f : memory -> M (X * memory)) : A X := fun w =>
  '(x, m) ← f (ch_bytes (aw_heap w)); Some (x, w <| aw_heap := (aw_heap w) <| ch_bytes := m |> |>).
Definition pool_init (pool : xgl_mempool_t) (buffer buffer_size block_size : Z) : A (Z * xgl_mempool_t) :=
  on_memory (fun m => '(r, p, m) ← xgl_mempool_init (Ptr pool) buffer buffer_size block_size m; ret (r, embedded p, m)).
Definition pool_alloc (pool : xgl_mempool_t) : A (Z * xgl_mempool_t) :=
  on_memory (fun m => '(a, p) ← xgl_mempool_alloc (Ptr pool) m; ret (a, embedded p, m)).
Definition pool_free (pool : xgl_mempool_t) (p : Z) : A xgl_mempool_t :=
  on_memory (fun m => '(q, m) ← xgl_mempool_free (Ptr pool) p m; ret (embedded q, m)).
Definition pool_destroy (pool : xgl_mempool_t) : xgl_mempool_t := embedded (xgl_mempool_destroy (Ptr pool)).

(** src/src/memory/xgl_tiered_pool.c:12-14: tiered_pool_size_overflows *)
Definition tiered_pool_size_overflows (count block_size : Z) : bool := SIZE_MAX / block_size <? count.

(** src/src/memory/xgl_tiered_pool.c:16-29: tiered_pool_init_one *)
Definition tiered_pool_init_one (mempool : xgl_mempool_t) (buffer count block_size : Z) : A (Z * xgl_mempool_t) :=
  if count =? 0 then mret (0, mempool)
  else if (buffer =? NULLP) || tiered_pool_size_overflows count block_size then mret (-1, mempool)
  else pool_init mempool buffer (count * block_size) block_size.

(** src/src/memory/xgl_tiered_pool.c:31-48: tiered_pool_contains_block *)
Definition tiered_pool_contains_block (mempool : ptr xgl_mempool_t) (p : Z) : bool :=
  match mempool with
  | NULL => false
  | Ptr pool =>
      if (mp_pool pool =? NULLP) || (p =? NULLP) || (mp_block_size pool =? 0) ||
         (mp_block_count pool =? 0) || tiered_pool_size_overflows (mp_block_count pool) (mp_block_size pool)
      then false
      else
        let start := mp_pool pool in
        let end_ := u64 (start + u64 (mp_block_count pool * mp_block_size pool)) in
        if (p <? start) || (end_ <=? p) then false
        else (p - start) mod mp_block_size pool =? 0
  end.

(** One buffer of a pool that is being destroyed. *)
(** src/src/memory/xgl_tiered_pool.c:198-201: xgl_tiered_pool_destroy *)
Definition free_buffer (owns : bool) (buffer : Z) : A unit :=
  if owns && negb (buffer =? NULLP) then xgl_free 0 NULL buffer else mret tt.

(** src/src/memory/xgl_tiered_pool.c:181-213: xgl_tiered_pool_destroy *)
Definition xgl_tiered_pool_destroy (pool : ptr xgl_tiered_pool_t) : A (ptr xgl_tiered_pool_t) :=
  match pool with
  | NULL => mret NULL
  | Ptr pool =>
      let pool := if 0 <? tp_small_count pool then pool <| tp_small_pool := pool_destroy (tp_small_pool pool) |> else pool in
      let pool := if 0 <? tp_medium_count pool then pool <| tp_medium_pool := pool_destroy (tp_medium_pool pool) |> else pool in
      let pool := if 0 <? tp_large_count pool then pool <| tp_large_pool := pool_destroy (tp_large_pool pool) |> else pool in
      _ ← free_buffer (tp_owns_buffers pool) (tp_small_buffer pool);
      _ ← free_buffer (tp_owns_buffers pool) (tp_medium_buffer pool);
      _ ← free_buffer (tp_owns_buffers pool) (tp_large_buffer pool);
      mret (Ptr zero_tiered_pool)
  end.

(** One tier: nothing to do, or a buffer and a pool over it. *)
(** src/src/memory/xgl_tiered_pool.c:73-85: xgl_tiered_pool_init *)
Definition init_tier (pool : xgl_mempool_t) (count block_size : Z) : A (bool * Z * xgl_mempool_t) :=
  if 0 <? count then
    let buffer_size := u64 (count * block_size) in
    buffer ← xgl_alloc 0 NULL buffer_size;
    if buffer =? NULLP then mret (false, NULLP, pool)
    else
      '(r, pool) ← pool_init pool buffer buffer_size block_size;
      mret (r =? 0, buffer, pool)
  else mret (true, NULLP, pool).

(** src/src/memory/xgl_tiered_pool.c:58-122: xgl_tiered_pool_init *)
Definition xgl_tiered_pool_init (pool : ptr xgl_tiered_pool_t) (small_count medium_count large_count : Z)
    : A (Z * ptr xgl_tiered_pool_t) :=
  match pool with
  | NULL => mret (-1, NULL)
  | Ptr _ =>
      let fail pool := (pool ← xgl_tiered_pool_destroy (Ptr pool); mret (-1, pool)) in
      let pool := zero_tiered_pool <| tp_owns_buffers := true |> <| tp_small_count := small_count |>
                    <| tp_medium_count := medium_count |> <| tp_large_count := large_count |> in
      '(ok, buffer, p) ← init_tier (tp_small_pool pool) small_count XGL_TIERED_POOL_SMALL_SIZE;
      let pool := pool <| tp_small_buffer := buffer |> <| tp_small_pool := p |> in
      if negb ok then fail pool
      else
        '(ok, buffer, p) ← init_tier (tp_medium_pool pool) medium_count XGL_TIERED_POOL_MEDIUM_SIZE;
        let pool := pool <| tp_medium_buffer := buffer |> <| tp_medium_pool := p |> in
        if negb ok then fail pool
        else
          '(ok, buffer, p) ← init_tier (tp_large_pool pool) large_count XGL_TIERED_POOL_LARGE_SIZE;
          let pool := pool <| tp_large_buffer := buffer |> <| tp_large_pool := p |> in
          if negb ok then fail pool else mret (0, Ptr pool)
  end.

(** src/src/memory/xgl_tiered_pool.c:127-175: xgl_tiered_pool_init_static *)
Definition xgl_tiered_pool_init_static (pool : ptr xgl_tiered_pool_t) (small_buffer small_count
    medium_buffer medium_count large_buffer large_count : Z) : A (Z * ptr xgl_tiered_pool_t) :=
  match pool with
  | NULL => mret (-1, NULL)
  | Ptr _ =>
      let pool := zero_tiered_pool in
      '(r, p) ← tiered_pool_init_one (tp_small_pool pool) small_buffer small_count XGL_TIERED_POOL_SMALL_SIZE;
      let pool := pool <| tp_small_pool := p |> in
      if negb (r =? 0) then mret (-1, Ptr zero_tiered_pool)
      else
        '(r, p) ← tiered_pool_init_one (tp_medium_pool pool) medium_buffer medium_count XGL_TIERED_POOL_MEDIUM_SIZE;
        let pool := pool <| tp_medium_pool := p |> in
        if negb (r =? 0) then mret (-1, Ptr zero_tiered_pool)
        else
          '(r, p) ← tiered_pool_init_one (tp_large_pool pool) large_buffer large_count XGL_TIERED_POOL_LARGE_SIZE;
          let pool := pool <| tp_large_pool := p |> in
          if negb (r =? 0) then mret (-1, Ptr zero_tiered_pool)
          else
            mret (0, Ptr (pool <| tp_small_buffer := if 0 <? small_count then small_buffer else NULLP |>
                               <| tp_medium_buffer := if 0 <? medium_count then medium_buffer else NULLP |>
                               <| tp_large_buffer := if 0 <? large_count then large_buffer else NULLP |>
                               <| tp_small_count := small_count |> <| tp_medium_count := medium_count |>
                               <| tp_large_count := large_count |> <| tp_owns_buffers := false |>))
  end.

(** One tier of a request. *)
(** src/src/memory/xgl_tiered_pool.c:231-236: xgl_tiered_pool_alloc *)
Definition alloc_tier (size block_size count : Z) (pool : xgl_mempool_t) : A (Z * xgl_mempool_t) :=
  if (size <=? block_size) && (0 <? count) then pool_alloc pool else mret (NULLP, pool).

(** src/src/memory/xgl_tiered_pool.c:223-256: xgl_tiered_pool_alloc *)
Definition xgl_tiered_pool_alloc (pool : ptr xgl_tiered_pool_t) (size : Z) : A (Z * ptr xgl_tiered_pool_t) :=
  match pool with
  | NULL => mret (NULLP, NULL)
  | Ptr pool =>
      if size =? 0 then mret (NULLP, Ptr pool)
      else
        '(a, p) ← alloc_tier size XGL_TIERED_POOL_SMALL_SIZE (tp_small_count pool) (tp_small_pool pool);
        let pool := pool <| tp_small_pool := p |> in
        if negb (a =? NULLP) then mret (a, Ptr pool)
        else
          '(a, p) ← alloc_tier size XGL_TIERED_POOL_MEDIUM_SIZE (tp_medium_count pool) (tp_medium_pool pool);
          let pool := pool <| tp_medium_pool := p |> in
          if negb (a =? NULLP) then mret (a, Ptr pool)
          else
            '(a, p) ← alloc_tier size XGL_TIERED_POOL_LARGE_SIZE (tp_large_count pool) (tp_large_pool pool);
            mret (a, Ptr (pool <| tp_large_pool := p |>))
  end.

(** src/src/memory/xgl_tiered_pool.c:262-274: xgl_tiered_pool_free *)
Definition xgl_tiered_pool_free (pool : ptr xgl_tiered_pool_t) (p size : Z) : A (ptr xgl_tiered_pool_t) :=
  match pool with
  | NULL => mret NULL
  | Ptr pool =>
      if (p =? NULLP) || (size =? 0) then mret (Ptr pool)
      else if tiered_pool_contains_block (Ptr (tp_small_pool pool)) p then
        q ← pool_free (tp_small_pool pool) p; mret (Ptr (pool <| tp_small_pool := q |>))
      else if tiered_pool_contains_block (Ptr (tp_medium_pool pool)) p then
        q ← pool_free (tp_medium_pool pool) p; mret (Ptr (pool <| tp_medium_pool := q |>))
      else if tiered_pool_contains_block (Ptr (tp_large_pool pool)) p then
        q ← pool_free (tp_large_pool pool) p; mret (Ptr (pool <| tp_large_pool := q |>))
      else mret (Ptr pool)
  end.

(** ** Statistics *)

(** The sum of a counter over the tiers that exist, in bytes. *)
Definition tier_bytes (count counter block_size sum : Z) : Z :=
  if 0 <? count then u64 (sum + u64 (counter * block_size)) else sum.

(** src/src/memory/xgl_tiered_pool_stats.c:17-40: xgl_tiered_pool_get_free_memory *)
Definition xgl_tiered_pool_get_free_memory (pool : ptr xgl_tiered_pool_t) : Z :=
  match pool with
  | NULL => 0
  | Ptr pool =>
      let n := tier_bytes (tp_small_count pool) (xgl_mempool_get_free_count (Ptr (tp_small_pool pool))) XGL_TIERED_POOL_SMALL_SIZE 0 in
      let n := tier_bytes (tp_medium_count pool) (xgl_mempool_get_free_count (Ptr (tp_medium_pool pool))) XGL_TIERED_POOL_MEDIUM_SIZE n in
      tier_bytes (tp_large_count pool) (xgl_mempool_get_free_count (Ptr (tp_large_pool pool))) XGL_TIERED_POOL_LARGE_SIZE n
  end.

(** src/src/memory/xgl_tiered_pool_stats.c:45-68: xgl_tiered_pool_get_used_memory *)
Definition xgl_tiered_pool_get_used_memory (pool : ptr xgl_tiered_pool_t) : Z :=
  match pool with
  | NULL => 0
  | Ptr pool =>
      let n := tier_bytes (tp_small_count pool) (xgl_mempool_get_used_count (Ptr (tp_small_pool pool))) XGL_TIERED_POOL_SMALL_SIZE 0 in
      let n := tier_bytes (tp_medium_count pool) (xgl_mempool_get_used_count (Ptr (tp_medium_pool pool))) XGL_TIERED_POOL_MEDIUM_SIZE n in
      tier_bytes (tp_large_count pool) (xgl_mempool_get_used_count (Ptr (tp_large_pool pool))) XGL_TIERED_POOL_LARGE_SIZE n
  end.

(** src/src/memory/xgl_tiered_pool_stats.c:73-96: xgl_tiered_pool_get_peak_memory *)
Definition xgl_tiered_pool_get_peak_memory (pool : ptr xgl_tiered_pool_t) : Z :=
  match pool with
  | NULL => 0
  | Ptr pool =>
      let n := tier_bytes (tp_small_count pool) (xgl_mempool_get_peak_used (Ptr (tp_small_pool pool))) XGL_TIERED_POOL_SMALL_SIZE 0 in
      let n := tier_bytes (tp_medium_count pool) (xgl_mempool_get_peak_used (Ptr (tp_medium_pool pool))) XGL_TIERED_POOL_MEDIUM_SIZE n in
      tier_bytes (tp_large_count pool) (xgl_mempool_get_peak_used (Ptr (tp_large_pool pool))) XGL_TIERED_POOL_LARGE_SIZE n
  end.

(** src/src/memory/xgl_tiered_pool_stats.c:101-117: xgl_tiered_pool_reset_stats *)
Definition xgl_tiered_pool_reset_stats (pool : ptr xgl_tiered_pool_t) : ptr xgl_tiered_pool_t :=
  match pool with
  | NULL => NULL
  | Ptr pool =>
      let reset count p := if 0 <? count then embedded (xgl_mempool_reset_stats (Ptr p)) else p in
      Ptr (pool <| tp_small_pool := reset (tp_small_count pool) (tp_small_pool pool) |>
                <| tp_medium_pool := reset (tp_medium_count pool) (tp_medium_pool pool) |>
                <| tp_large_pool := reset (tp_large_count pool) (tp_large_pool pool) |>)
  end.
