(* ===== verification/TieredPoolInv.v ===== *)
(** * The tiered pool keeps its promise

    What the users of a tiered pool see, as three block pools, and that the code
    implements it from the allocation of its buffers to their release. *)
From S2P Require Import Prelude State Memory Mempool Allocator TieredPool.

(** ** The tiers *)

Inductive tier : Type := small | medium | large.
#[export] Instance tier_eq_dec : EqDecision tier.
Proof. solve_decision. Defined.
Definition tier_size (t : tier) : Z :=
  match t with
  | small => XGL_TIERED_POOL_SMALL_SIZE
  | medium => XGL_TIERED_POOL_MEDIUM_SIZE
  | large => XGL_TIERED_POOL_LARGE_SIZE
  end.
Definition before (t u : tier) : bool := tier_size t <? tier_size u.
Definition get_pool (pool : xgl_tiered_pool_t) (t : tier) : xgl_mempool_t :=
  match t with small => tp_small_pool pool | medium => tp_medium_pool pool | large => tp_large_pool pool end.
Definition set_pool (pool : xgl_tiered_pool_t) (t : tier) (p : xgl_mempool_t) : xgl_tiered_pool_t :=
  match t with
  | small => pool <| tp_small_pool := p |>
  | medium => pool <| tp_medium_pool := p |>
  | large => pool <| tp_large_pool := p |>
  end.
Definition get_count (pool : xgl_tiered_pool_t) (t : tier) : Z :=
  match t with small => tp_small_count pool | medium => tp_medium_count pool | large => tp_large_count pool end.
Definition get_buffer (pool : xgl_tiered_pool_t) (t : tier) : Z :=
  match t with small => tp_small_buffer pool | medium => tp_medium_buffer pool | large => tp_large_buffer pool end.

Lemma get_set_pool pool t p u : get_pool (set_pool pool t p) u = if decide (u = t) then p else get_pool pool u.
Proof. by destruct t, u. Qed.
Lemma get_set_count pool t p u : get_count (set_pool pool t p) u = get_count pool u.
Proof. by destruct t, u. Qed.
Lemma get_set_buffer pool t p u : get_buffer (set_pool pool t p) u = get_buffer pool u.
Proof. by destruct t, u. Qed.

(** ** What a tiered pool promises *)

(** The state of each tier. *)
Record tiers : Type := mk_tiers { ts_small : pool_spec; ts_medium : pool_spec; ts_large : pool_spec }.
Definition tier_of (ts : tiers) (t : tier) : pool_spec :=
  match t with small => ts_small ts | medium => ts_medium ts | large => ts_large ts end.
Coercion tier_of : tiers >-> Funclass.
Definition set_tier (ts : tiers) (t : tier) (s : pool_spec) : tiers :=
  match t with
  | small => mk_tiers s (ts_medium ts) (ts_large ts)
  | medium => mk_tiers (ts_small ts) s (ts_large ts)
  | large => mk_tiers (ts_small ts) (ts_medium ts) s
  end.

Inductive tiered_op : Type :=
| to_alloc (n : Z)
| to_free (p n : Z)
| to_write (a off : Z) (bs : bytes)
| to_reset.

(** A request is served by the smallest tier that fits and has a free block - the
    block has at least the size asked for - and fails only if there is none. *)
Inductive tiered_step : tiers -> tiered_op -> Z -> tiers -> Prop :=
| ts_alloc (ts : tiers) t n a s : 0 < n -> n <= tier_size t ->
    (forall u, before u t = true -> n <= tier_size u -> ps_free (ts u) = []) ->
    pool_step (ts t) op_alloc a s -> a <> NULLP ->
    tiered_step ts (to_alloc n) a (set_tier ts t s)
| ts_fail (ts : tiers) n : (forall t, 0 < n -> n <= tier_size t -> ps_free (ts t) = []) -> tiered_step ts (to_alloc n) NULLP ts
| ts_free (ts : tiers) t p n s c : 0 < n -> ps_live (ts t) !! p = Some c -> pool_step (ts t) (op_free p) 0 s ->
    tiered_step ts (to_free p n) 0 (set_tier ts t s)
| ts_ignored (ts : tiers) p n : n = 0 \/ (forall t, ps_live (ts t) !! p = None) -> tiered_step ts (to_free p n) 0 ts
| ts_write (ts : tiers) t a off bs s : pool_step (ts t) (op_write a off bs) 0 s ->
    tiered_step ts (to_write a off bs) 0 (set_tier ts t s)
| ts_reset (ts ts' : tiers) : (forall t, pool_step (ts t) op_reset 0 (ts' t)) -> tiered_step ts to_reset 0 ts'.

Definition tiered_permitted (ts : tiers) (op : tiered_op) : Prop :=
  match op with
  | to_alloc n | to_free _ n => 0 <= n
  | to_write a off bs => exists t, permitted (ts t) (op_write a off bs)
  | to_reset => True
  end.

Definition tiered_exec (op : tiered_op) (pool : ptr xgl_tiered_pool_t) : A (Z * ptr xgl_tiered_pool_t) :=
  match op with
  | to_alloc n => xgl_tiered_pool_alloc pool n
  | to_free p n => pool ← xgl_tiered_pool_free pool p n; mret (0, pool)
  | to_write a off bs => _ ← store (a + off) bs; mret (0, pool)
  | to_reset => mret (0, xgl_tiered_pool_reset_stats pool)
  end.

(** ** One tier *)

Definition geometry (B S : Z) (N : nat) : Prop :=
  0 < B /\ SIZEOF_POINTER <= S /\ (0 < N)%nat /\ B + region S N <= SIZE_MAX.
Definition no_pool : pool_spec := mk_pool_spec [] ∅ 0.
(** A tier with [N] blocks at [B]; without blocks there is no pool. *)
Definition tier_rep (B S : Z) (N : nat) (p : xgl_mempool_t) (m : memory) (s : pool_spec) : Prop :=
  match N with
  | O => p = zero_mempool /\ s = no_pool
  | _ => geometry B S N /\ pool_rep B S N m p m s
  end.

(** The pool only depends on its own region. *)
Lemma pool_rep_agree B S N m0 p m s m' : geometry B S N -> pool_rep B S N m0 p m s ->
  (forall x, B <= x < B + region S N -> m' !! x = m !! x) -> pool_rep B S N m' p m' s.
Proof.
  intros (HB & HS & HN & Hfit) H Heq.
  assert (forall a, a ∈ blocks B S N -> ld m' a (Z.to_nat S) = ld m a (Z.to_nat S) /\ ld_ptr m' a = ld_ptr m a) as Hld.
  { intros a Ha. pose proof (block_inside B S N HS HN a Ha). unfold SIZEOF_POINTER in *. split.
    - apply ld_agree. intros x Hx. apply Heq. lia.
    - unfold ld_ptr. rewrite (ld_agree m m'); [done|]. intros x Hx. apply Heq. lia. }
  pose proof H as [????? Hc Hb Hl Ho _]. split; try done.
  - apply (chain_agree m); [|done]. intros a Ha. apply Hld, (rep_mem _ _ _ _ _ _ _ _ H). by left.
  - intros a c Ha. rewrite (proj1 (Hld a ltac:(apply (rep_mem _ _ _ _ _ _ _ _ H); right; by eexists))). by apply Hl.
  - intros x Hx. rewrite Heq by done. by apply Ho.
Qed.
Lemma tier_rep_agree B S N p m s m' : tier_rep B S N p m s ->
  (forall x, B <= x < B + region S N -> m' !! x = m !! x) -> tier_rep B S N p m' s.
Proof.
  destruct N as [|N]; [done|]. intros [Hg H] Heq. split; [done|]. exact (pool_rep_agree _ _ _ _ _ _ _ _ Hg H Heq).
Qed.
(** An operation of a pool, with what it leaves alone. *)
Lemma tier_step B S N p m s op : geometry B S N -> pool_rep B S N m p m s -> permitted s op ->
  exists r p' m' s', exec op (Ptr p) m = Some (r, Ptr p', m') /\ pool_step s op r s' /\
    pool_rep B S N m' p' m' s' /\ (forall x, ~ B <= x < B + region S N -> m' !! x = m !! x).
Proof.
  intros (HB & HS & HN & Hfit) H Hop.
  destruct (rep_step B S N HB HS HN Hfit _ _ _ _ _ H Hop) as (r & p' & m' & s' & Hrun & Hstep & H').
  exists r, p', m', s'. split_and!; [done..| |apply H'].
  by apply (pool_rep_agree _ _ _ m p' m'); [|exact H'|].
Qed.

Lemma same_contains p a : tiered_pool_contains_block p a = mempool_contains_block p a.
Proof.
  destruct p as [p|]; [|done]. unfold tiered_pool_contains_block, mempool_contains_block,
    tiered_pool_size_overflows, mempool_size_overflows.
  destruct (mp_pool p =? NULLP), (a =? NULLP), (mp_block_size p =? 0), (mp_block_count p =? 0); done.
Qed.
Lemma tier_contains B S N p m s a : tier_rep B S N p m s ->
  tiered_pool_contains_block (Ptr p) a = bool_decide (a ∈ blocks B S N).
Proof.
  rewrite same_contains. destruct N as [|N]; [by intros [-> _]|]. intros [(HB & HS & HN & Hfit) H].
  exact (contains_block_spec B S (Datatypes.S N) HB HS HN Hfit _ _ _ _ a H).
Qed.
Lemma tier_live B S N p m s a c : tier_rep B S N p m s -> ps_live s !! a = Some c -> a ∈ blocks B S N.
Proof.
  destruct N as [|N]; [by intros [_ ->]|]. intros [_ H] Ha. apply (rep_mem _ _ _ _ _ _ _ _ H). right. by eexists.
Qed.

(** ** All tiers *)

Section tiers.
(** Where the buffers are and how many blocks they have; they do not meet. *)
Context (B : tier -> Z) (N : tier -> nat).
Definition in_tier (t : tier) (x : Z) : Prop := N t <> O /\ B t <= x < B t + region (tier_size t) (N t).
Hypothesis Hapart : forall t u x, in_tier t x -> in_tier u x -> t = u.

Record tiered_rep (pool : xgl_tiered_pool_t) (m : memory) (ts : tiers) : Prop := mk_tiered_rep {
  tr_tier t : tier_rep (B t) (tier_size t) (N t) (get_pool pool t) m (ts t);
  tr_count t : 0 < get_count pool t <-> N t <> O
}.

Lemma set_tier_spec (ts : tiers) t s u : set_tier ts t s u = if decide (u = t) then s else ts u.
Proof. by destruct t, u. Qed.
Lemma set_tier_id (ts : tiers) t : set_tier ts t (ts t) = ts.
Proof. by destruct ts, t. Qed.
Lemma rep_set_tier pool m ts t p' m' s' : tiered_rep pool m ts ->
  tier_rep (B t) (tier_size t) (N t) p' m' s' -> (forall x, ~ in_tier t x -> m' !! x = m !! x) ->
  tiered_rep (set_pool pool t p') m' (set_tier ts t s').
Proof.
  intros [Ht Hc] H' Hframe. split.
  - intros u. rewrite get_set_pool, set_tier_spec. destruct (decide (u = t)) as [->|Hne]; [done|].
    destruct (N u) eqn:Hu; [rewrite <- Hu; specialize (Ht u); by rewrite Hu in *|]. rewrite <- Hu.
    apply (tier_rep_agree _ _ _ _ m); [done|]. intros x Hx. apply Hframe. intros Hin. apply Hne.
    apply (Hapart u t x); [|done]. split; [by rewrite Hu|done].
  - intros u. rewrite get_set_count. apply Hc.
Qed.
(** An operation on the pool of a tier that exists. *)
Lemma rep_tier_op pool m ts t op : tiered_rep pool m ts -> N t <> O -> permitted (ts t) op ->
  exists r p' m' s', exec op (Ptr (get_pool pool t)) m = Some (r, Ptr p', m') /\ pool_step (ts t) op r s' /\
    tiered_rep (set_pool pool t p') m' (set_tier ts t s') /\ (forall x, ~ in_tier t x -> m' !! x = m !! x).
Proof.
  intros H HN Hop. pose proof (tr_tier _ _ _ H t) as Ht. destruct (N t) as [|n] eqn:Hn; [done|]. destruct Ht as [Hg Hrep].
  destruct (tier_step _ _ _ _ _ _ _ Hg Hrep Hop) as (r & p' & m' & s' & Hrun & Hstep & H' & Hframe).
  assert (forall x, ~ in_tier t x -> m' !! x = m !! x) as Hframe'.
  { intros x Hx. apply Hframe. intros Hin. apply Hx. unfold in_tier. by rewrite Hn. }
  exists r, p', m', s'. split_and!; [done|done| |done].
  apply (rep_set_tier pool m); [done| |done]. rewrite Hn. by split.
Qed.

Abbreviation mem w := (ch_bytes (aw_heap w)).

(** A tier's answer to a request. *)
Lemma alloc_tier_run t n pool ts w : tiered_rep pool (mem w) ts ->
  exists a p, alloc_tier n (tier_size t) (get_count pool t) (get_pool pool t) w = Some ((a, p), w) /\
    ((a = NULLP /\ p = get_pool pool t /\ (n <= tier_size t -> ps_free (ts t) = [])) \/
     (a <> NULLP /\ n <= tier_size t /\ exists s, pool_step (ts t) op_alloc a s /\
        tiered_rep (set_pool pool t p) (mem w) (set_tier ts t s))).
Proof.
  intros H. unfold alloc_tier. destruct (n <=? tier_size t) eqn:Hle; cbn [andb].
  2: { exists NULLP, (get_pool pool t). split; [done|]. left. split_and!; [done|done|lia]. }
  destruct (0 <? get_count pool t) eqn:Hc.
  2: { exists NULLP, (get_pool pool t). split; [done|]. left. split_and!; [done|done|]. intros _.
       pose proof (tr_tier _ _ _ H t) as Ht. destruct (N t) as [|n'] eqn:Hn; [by destruct Ht as [_ ->]|].
       pose proof (proj2 (tr_count _ _ _ H t)) as Hcount. rewrite Hn in Hcount. specialize (Hcount ltac:(done)). lia. }
  assert (N t <> O) as Hn by (apply (tr_count _ _ _ H); lia).
  pose proof (tr_tier _ _ _ H t) as Ht. destruct (N t) as [|n'] eqn:Hn'; [done|].
  destruct Ht as [Hg Hrep]. pose proof Hg as (HB & HS & HN & Hfit).
  pose proof (rep_alloc _ _ _ HB HS HN Hfit _ _ _ _ Hrep) as Halloc. unfold pool_alloc, on_memory.
  destruct (ts t) as [[|a free] live peak] eqn:Hts; cbn [ps_free ps_live ps_peak] in Halloc.
  - rewrite Halloc. exists NULLP, (get_pool pool t). split; [by destruct w as [? [] ?]|]. by left.
  - destruct Halloc as (p' & c & -> & H'). exists a, p'. split; [by destruct w as [? [] ?]|]. right.
    assert (a <> NULLP) as Hnz by (apply (rep_nonzero _ _ _ HB HS HN Hfit _ _ _ _ a Hrep); left).
    split; [done|]. split; [lia|]. eexists. split; [apply (step_alloc a c)|].
    apply (rep_set_tier pool (mem w)); [done| |done]. rewrite Hn'. split; [done|exact H'].
Qed.

(** ** The operations *)

Lemma set_get_pool pool t : set_pool pool t (get_pool pool t) = pool.
Proof. by destruct pool, t. Qed.

Definition same_buffers (pool pool' : xgl_tiered_pool_t) : Prop :=
  (forall t, get_buffer pool' t = get_buffer pool t) /\ tp_owns_buffers pool' = tp_owns_buffers pool.
Lemma same_buffers_refl pool : same_buffers pool pool.
Proof. done. Qed.
Lemma same_buffers_set pool t p : same_buffers pool (set_pool pool t p).
Proof. split; [intros u; apply get_set_buffer|by destruct t]. Qed.

Lemma alloc_run n pool ts w : tiered_rep pool (mem w) ts -> 0 <= n ->
  exists a pool' ts', xgl_tiered_pool_alloc (Ptr pool) n w = Some ((a, Ptr pool'), w) /\
    tiered_step ts (to_alloc n) a ts' /\ tiered_rep pool' (mem w) ts' /\ same_buffers pool pool'.
Proof.
  intros H Hn0. unfold xgl_tiered_pool_alloc. destruct (Z.eqb_spec n 0) as [->|Hn].
  { exists NULLP, pool, ts. split_and!; [done|apply ts_fail; intros; lia|done|done]. }
  unfold mbind, ST_bind.
  destruct (alloc_tier_run small n pool ts w H) as (a & p & Hrun & Hres). cbn [tier_size get_pool get_count] in Hrun. rewrite Hrun.
  destruct Hres as [(-> & -> & Hs)|(Ha & Hle & s & Hstep & H')].
  2: { destruct (Z.eqb_spec a NULLP); [done|]. exists a. eexists _, _. split; [done|]. split; [|split; [exact H'|apply (same_buffers_set pool small)]].
       apply (ts_alloc ts small); [lia|done| |done|done]. by intros []. }
  pose proof (set_get_pool pool small) as Hsame. cbn [set_pool get_pool] in Hsame. cbn [get_pool negb Z.eqb]. rewrite Hsame.
  destruct (alloc_tier_run medium n pool ts w H) as (a & p & Hrun' & Hres). cbn [tier_size get_pool get_count] in Hrun'. rewrite Hrun'.
  destruct Hres as [(-> & -> & Hm)|(Ha & Hle & s & Hstep & H')].
  2: { destruct (Z.eqb_spec a NULLP); [done|]. exists a. eexists _, _. split; [done|]. split; [|split; [exact H'|apply (same_buffers_set pool medium)]].
       apply (ts_alloc ts medium); [lia|done| |done|done]. by intros []. }
  clear Hsame. pose proof (set_get_pool pool medium) as Hsame. cbn [set_pool get_pool] in Hsame. cbn [get_pool negb Z.eqb]. rewrite Hsame.
  destruct (alloc_tier_run large n pool ts w H) as (a & p & Hrun'' & Hres). cbn [tier_size get_pool get_count] in Hrun''. rewrite Hrun''.
  destruct Hres as [(-> & -> & Hl)|(Ha & Hle & s & Hstep & H')].
  2: { exists a. eexists _, _. split; [done|]. split; [|split; [exact H'|apply (same_buffers_set pool large)]].
       apply (ts_alloc ts large); [lia|done| |done|done]. by intros []. }
  exists NULLP, pool, ts. pose proof (set_get_pool pool large) as Hsame'. cbn [set_pool get_pool] in Hsame'. cbn [get_pool].
  rewrite Hsame'. split_and!; [done| |done|done]. apply ts_fail. intros [] _ Hle; auto.
Qed.

(** Every byte of a tier is owned. *)
Lemma rep_owns_tier pool m ts t x : tiered_rep pool m ts -> in_tier t x -> is_Some (m !! x).
Proof.
  intros H [Hn Hx]. pose proof (tr_tier _ _ _ H t) as Ht. destruct (N t) as [|n]; [done|]. destruct Ht as [_ Hrep].
  by apply (rep_owns _ _ _ _ _ _ _ Hrep).
Qed.
#[local] Instance in_tier_dec t x : Decision (in_tier t x).
Proof. unfold in_tier. apply _. Defined.
Lemma tiers_dec x : (exists t, in_tier t x) \/ (forall t, ~ in_tier t x).
Proof.
  destruct (decide (in_tier small x)); [left; by exists small|]. destruct (decide (in_tier medium x)); [left; by exists medium|].
  destruct (decide (in_tier large x)); [left; by exists large|]. right. by intros [].
Qed.
Definition touches_tiers (m m' : memory) : Prop :=
  (forall x, is_Some (m' !! x) <-> is_Some (m !! x)) /\ (forall x, (forall t, ~ in_tier t x) -> m' !! x = m !! x).
Lemma rep_touches pool m ts pool' m' ts' t : tiered_rep pool m ts -> tiered_rep pool' m' ts' ->
  (forall x, ~ in_tier t x -> m' !! x = m !! x) -> touches_tiers m m'.
Proof.
  intros H H' Hframe. split; [|intros x Hx; by apply Hframe]. intros x. destruct (decide (in_tier t x)) as [Hx|Hx].
  - split; intros _; [exact (rep_owns_tier _ _ _ _ _ H Hx)|exact (rep_owns_tier _ _ _ _ _ H' Hx)].
  - by rewrite Hframe.
Qed.
Lemma touches_refl m : touches_tiers m m.
Proof. done. Qed.

Lemma on_memory_run {X} (f : memory -> M (X * memory)) w x m : f (mem w) = Some (x, m) ->
  on_memory f w = Some (x, w <| aw_heap := (aw_heap w) <| ch_bytes := m |> |>).
Proof. unfold on_memory. by intros ->. Qed.
Lemma free_tier_run t p pool ts w : tiered_rep pool (mem w) ts -> N t <> O ->
  exists q m s, pool_free (get_pool pool t) p w = Some (q, w <| aw_heap := (aw_heap w) <| ch_bytes := m |> |>) /\
    pool_step (ts t) (op_free p) 0 s /\ tiered_rep (set_pool pool t q) m (set_tier ts t s) /\ touches_tiers (mem w) m.
Proof.
  intros H Hn. destruct (rep_tier_op _ _ _ t (op_free p) H Hn I) as (r & q & m & s & Hrun & Hstep & H' & Hframe).
  exists q, m, s. cbn [exec] in Hrun. destruct (xgl_mempool_free _ _ _) as [[q' m']|] eqn:Hfree; [|done].
  cbn in Hrun. injection Hrun as <- -> ->. split; [|split_and!; [done|done|by eapply rep_touches]].
  apply on_memory_run. by rewrite Hfree.
Qed.
(** The tier a block belongs to is the only one that recognizes its address. *)
Lemma blocks_tier pool m ts t p : tiered_rep pool m ts -> p ∈ blocks (B t) (tier_size t) (N t) -> in_tier t p.
Proof.
  intros H Hp. pose proof (tr_tier _ _ _ H t) as Ht. unfold in_tier. destruct (N t) as [|n]; [by apply elem_of_nil in Hp|].
  destruct Ht as [(HB & HS & HN & _) _]. pose proof (block_inside _ _ _ HS HN _ Hp). unfold SIZEOF_POINTER in *. split; [done|lia].
Qed.
Lemma live_tier pool m ts t p c : tiered_rep pool m ts -> ps_live (ts t) !! p = Some c ->
  N t <> O /\ p <> NULLP /\ forall u, bool_decide (p ∈ blocks (B u) (tier_size u) (N u)) = bool_decide (u = t).
Proof.
  intros H Hc. pose proof (tier_live _ _ _ _ _ _ _ _ (tr_tier _ _ _ H t) Hc) as Hp.
  pose proof (blocks_tier _ _ _ _ _ H Hp) as Hin. split; [apply Hin|]. split.
  - pose proof (tr_tier _ _ _ H t) as Ht. destruct Hin as [Hn _]. destruct (N t) as [|n]; [done|].
    destruct Ht as [(HB & HS & HN & Hfit) _]. by apply (block_addr _ _ _ HB HS HN Hfit).
  - intros u. apply bool_decide_ext. split; [|by intros ->]. intros Hu. apply (Hapart u t p); [|done].
    exact (blocks_tier _ _ _ _ _ H Hu).
Qed.

Lemma free_run p n pool ts w : tiered_rep pool (mem w) ts -> 0 <= n ->
  exists pool' m ts', xgl_tiered_pool_free (Ptr pool) p n w = Some (Ptr pool', w <| aw_heap := (aw_heap w) <| ch_bytes := m |> |>) /\
    tiered_step ts (to_free p n) 0 ts' /\ tiered_rep pool' m ts' /\ touches_tiers (mem w) m /\ same_buffers pool pool'.
Proof.
  intros H Hn.
  assert (forall t, N t <> O -> p <> NULLP -> n <> 0 -> bool_decide (p ∈ blocks (B t) (tier_size t) (N t)) = true ->
    exists q m s, pool_free (get_pool pool t) p w = Some (q, w <| aw_heap := (aw_heap w) <| ch_bytes := m |> |>) /\
      tiered_rep (set_pool pool t q) m (set_tier ts t s) /\ touches_tiers (mem w) m /\
      tiered_step ts (to_free p n) 0 (set_tier ts t s)) as Htier.
  { intros t Hnt Hp Hn0 Hin%bool_decide_eq_true. destruct (free_tier_run t p pool ts w H Hnt) as (q & m & s & Hrun & Hstep & H' & Hm).
    exists q, m, s. split_and!; try done. inversion Hstep as [| |a c s' Hc|a s' Hc| |]; subst.
    - apply (ts_free ts t p n _ c); [lia|done|done].
    - rewrite set_tier_id. apply ts_ignored. right. intros u.
      destruct (ps_live (ts u) !! p) as [c|] eqn:Hu; [|done]. destruct (live_tier _ _ _ _ _ _ H Hu) as (_ & _ & Heq).
      specialize (Heq t). rewrite bool_decide_eq_true_2 in Heq by done. symmetry in Heq. apply bool_decide_eq_true in Heq. congruence. }
  assert (forall t, bool_decide (p ∈ blocks (B t) (tier_size t) (N t)) = true -> N t <> O) as Hex.
  { intros t Ht%bool_decide_eq_true. apply (blocks_tier _ _ _ _ _ H Ht). }
  assert (w = w <| aw_heap := (aw_heap w) <| ch_bytes := mem w |> |>) as Hw by (by destruct w as [? [] ?]).
  unfold xgl_tiered_pool_free. destruct (Z.eqb_spec p NULLP) as [->|Hp]; cbn [orb].
  { exists pool, (mem w), ts. rewrite <- Hw. split_and!; try done. apply ts_ignored. right. intros t.
    destruct (ps_live (ts t) !! NULLP) as [c|] eqn:Hc; [|done]. by destruct (live_tier _ _ _ _ _ _ H Hc) as (_ & ? & _). }
  destruct (Z.eqb_spec n 0) as [->|Hn0].
  { exists pool, (mem w), ts. rewrite <- Hw. split_and!; try done. apply ts_ignored. by left. }
  pose proof (fun t => tier_contains _ _ _ _ _ _ p (tr_tier _ _ _ H t)) as Hcont.
  rewrite (Hcont small : tiered_pool_contains_block (Ptr (tp_small_pool pool)) p = _).
  rewrite (Hcont medium : tiered_pool_contains_block (Ptr (tp_medium_pool pool)) p = _).
  rewrite (Hcont large : tiered_pool_contains_block (Ptr (tp_large_pool pool)) p = _).
  destruct (bool_decide _) eqn:Hs at 1; [|destruct (bool_decide _) eqn:Hm at 1; [|destruct (bool_decide _) eqn:Hl at 1]].
  1-3: unfold mbind, ST_bind.
  - destruct (Htier small (Hex small Hs) Hp Hn0 Hs) as (q & m & s & Hrun & H' & Hm & Hstep). cbn [get_pool] in Hrun. rewrite Hrun.
    eexists _, m, _. split; [done|]. split; [exact Hstep|]. split; [exact H'|]. split; [exact Hm|apply (same_buffers_set pool small)].
  - destruct (Htier medium (Hex medium Hm) Hp Hn0 Hm) as (q & m & s & Hrun & H' & Hmm & Hstep). cbn [get_pool] in Hrun. rewrite Hrun.
    eexists _, m, _. split; [done|]. split; [exact Hstep|]. split; [exact H'|]. split; [exact Hmm|apply (same_buffers_set pool medium)].
  - destruct (Htier large (Hex large Hl) Hp Hn0 Hl) as (q & m & s & Hrun & H' & Hmm & Hstep). cbn [get_pool] in Hrun. rewrite Hrun.
    eexists _, m, _. split; [done|]. split; [exact Hstep|]. split; [exact H'|]. split; [exact Hmm|apply (same_buffers_set pool large)].
  - exists pool, (mem w), ts. rewrite <- Hw. split_and!; try done. apply ts_ignored. right. intros t.
    destruct (ps_live (ts t) !! p) as [c|] eqn:Hc; [|done]. destruct (live_tier _ _ _ _ _ _ H Hc) as (_ & _ & Heq).
    specialize (Heq t). rewrite (bool_decide_eq_true_2 (t = t)) in Heq by done. destruct t; congruence.
Qed.

Lemma write_run a off bs pool (ts : tiers) t c c' w : tiered_rep pool (mem w) ts ->
  ps_live (ts t) !! a = Some c -> wr_bytes c off bs = Some c' ->
  exists m ts', store (a + off) bs w = Some (tt, w <| aw_heap := (aw_heap w) <| ch_bytes := m |> |>) /\
    tiered_step ts (to_write a off bs) 0 ts' /\ tiered_rep pool m ts' /\ touches_tiers (mem w) m.
Proof.
  intros H Ha Hwr. destruct (live_tier _ _ _ _ _ _ H Ha) as (Hn & _).
  assert (permitted (ts t) (op_write a off bs)) as Hop by (by exists c, c').
  destruct (rep_tier_op _ _ _ t _ H Hn Hop) as (r & p & m & s & Hrun & Hstep & H' & Hframe).
  cbn [exec] in Hrun. unfold store. destruct (st _ _ _) as [m'|]; [|done]. cbn in Hrun. injection Hrun as <- Hp ->.
  rewrite <- Hp, set_get_pool in H'. exists m. eexists. split; [done|]. split; [by econstructor|]. split; [done|by eapply rep_touches].
Qed.
Lemma reset_tier pool m (ts : tiers) t : tiered_rep pool m ts -> 
  exists s, pool_step (ts t) op_reset 0 s /\
    tier_rep (B t) (tier_size t) (N t)
      (if 0 <? get_count pool t then embedded (xgl_mempool_reset_stats (Ptr (get_pool pool t))) else get_pool pool t) m s.
Proof.
  intros H. eexists. split; [constructor|]. pose proof (tr_tier _ _ _ H t) as Ht. pose proof (tr_count _ _ _ H t) as Hc.
  destruct (N t) as [|n] eqn:Hn.
  - destruct Ht as [Hp Hs]. replace (0 <? get_count pool t) with false.
    + by rewrite Hs.
    + symmetry. apply Z.ltb_ge. destruct (Z.le_gt_cases (get_count pool t) 0) as [|Hgt]; [done|]. by apply Hc in Hgt.
  - replace (0 <? get_count pool t) with true by (symmetry; apply Z.ltb_lt, Hc; done).
    destruct Ht as [Hg Hrep]. pose proof Hg as (HB & HS & HN & Hfit). split; [done|]. by apply rep_reset.
Qed.
Lemma reset_run pool m (ts : tiers) : tiered_rep pool m ts -> exists pool' ts',
  xgl_tiered_pool_reset_stats (Ptr pool) = Ptr pool' /\ tiered_step ts to_reset 0 ts' /\ tiered_rep pool' m ts' /\
  same_buffers pool pool'.
Proof.
  intros H. destruct (reset_tier _ _ _ small H) as (s1 & Hs1 & H1). destruct (reset_tier _ _ _ medium H) as (s2 & Hs2 & H2).
  destruct (reset_tier _ _ _ large H) as (s3 & Hs3 & H3). eexists _, (mk_tiers s1 s2 s3). split; [reflexivity|].
  split; [constructor; by intros []|]. split; [|split; [by intros []|done]]. split; [by intros []|].
  intros t. pose proof (tr_count _ _ _ H t). by destruct t.
Qed.

Lemma op_run op pool (ts : tiers) w : tiered_rep pool (mem w) ts -> tiered_permitted ts op ->
  exists r pool' m ts', tiered_exec op (Ptr pool) w = Some ((r, Ptr pool'), w <| aw_heap := (aw_heap w) <| ch_bytes := m |> |>) /\
    tiered_step ts op r ts' /\ tiered_rep pool' m ts' /\ touches_tiers (mem w) m /\ same_buffers pool pool'.
Proof.
  intros H Hop. assert (w = w <| aw_heap := (aw_heap w) <| ch_bytes := mem w |> |>) as Hw by (by destruct w as [? [] ?]).
  destruct op as [n|p n|a off bs|]; cbn [tiered_exec].
  - destruct (alloc_run n pool ts w H Hop) as (a & pool' & ts' & Hrun & Hstep & H' & Hb).
    exists a, pool', (mem w), ts'. rewrite <- Hw. split_and!; try done; apply Hb.
  - destruct (free_run p n pool ts w H Hop) as (pool' & m & ts' & Hrun & Hstep & H' & Hm & Hb).
    exists 0, pool', m, ts'. unfold mbind, ST_bind. rewrite Hrun. split_and!; try done; try apply Hm; apply Hb.
  - destruct Hop as (t & c & c' & Ha & Hwr). destruct (write_run _ _ _ _ _ _ _ _ _ H Ha Hwr) as (m & ts' & Hrun & Hstep & H' & Hm).
    exists 0, pool, m, ts'. unfold mbind, ST_bind. rewrite Hrun. split_and!; try done; apply Hm.
  - destruct (reset_run _ _ _ H) as (pool' & ts' & Hrun & Hstep & H' & Hb). exists 0, pool', (mem w), ts'. rewrite <- Hw, Hrun.
    split_and!; try done; apply Hb.
Qed.
End tiers.

(** ** From the allocation of the buffers to their release *)

Abbreviation mem w := (ch_bytes (aw_heap w)).
Lemma default_alloc n w : aw_fallback w = true -> n <> 0 -> xgl_alloc 0 NULL n w = heap_malloc n w.
Proof. intros Hf Hn. cbn. destruct (Z.eqb_spec n 0); [done|]. unfold mbind, ST_bind, gets. cbn. by rewrite Hf. Qed.
Lemma default_release p w : aw_fallback w = true -> p <> NULLP -> xgl_free 0 NULL p w = heap_free p w.
Proof. intros Hf Hn. cbn. destruct (Z.eqb_spec p 0); [done|]. unfold mbind, ST_bind, gets. cbn. by rewrite Hf. Qed.

(** A world that differs from [w0] in what was taken from the heap only. *)
Definition took (w0 : alloc_world) (l : list (Z * Z)) (w : alloc_world) : Prop :=
  aw_fallback w = true /\ aw_trackers w = aw_trackers w0 /\ holding (aw_heap w0) (aw_heap w) l.
Definition as_before (w0 w : alloc_world) : Prop :=
  aw_fallback w = true /\ aw_trackers w = aw_trackers w0 /\
  mem w = mem w0 /\ ch_regions (aw_heap w) = ch_regions (aw_heap w0).
Lemma took_nothing w0 w : took w0 [] w -> as_before w0 w.
Proof. intros (? & ? & [? ?]%holding_nil). by split_and!. Qed.

(** The region of a buffer that may be missing. *)
Definition buffer_region (b n : Z) : list (Z * Z) := if b =? NULLP then [] else [(b, n)].

Lemma free_buffer_run w0 b n l w : took w0 (buffer_region b n ++ l) w ->
  exists w', free_buffer true b w = Some (tt, w') /\ took w0 l w'.
Proof.
  intros (Hf & Ht & H). unfold free_buffer, buffer_region in *. destruct (Z.eqb_spec b NULLP) as [->|Hb]; cbn [andb negb app] in *.
  - exists w. by split.
  - rewrite default_release by done. unfold heap_free. destruct (holding_release _ _ _ _ _ H) as (h & -> & H').
    eexists. by split.
Qed.
Lemma destroy_run w0 pool n1 n2 n3 w : tp_owns_buffers pool = true ->
  took w0 (buffer_region (tp_small_buffer pool) n1 ++ buffer_region (tp_medium_buffer pool) n2 ++
           buffer_region (tp_large_buffer pool) n3 ++ []) w ->
  exists w', xgl_tiered_pool_destroy (Ptr pool) w = Some (Ptr zero_tiered_pool, w') /\ as_before w0 w'.
Proof.
  intros Ho H. unfold xgl_tiered_pool_destroy.
  set (p1 := if 0 <? tp_small_count pool then _ else pool).
  set (p2 := if 0 <? tp_medium_count p1 then _ else p1).
  set (p3 := if 0 <? tp_large_count p2 then _ else p2).
  assert (same_buffers pool p3) as [Hbuf Howns].
  { unfold p3, p2, p1. destruct (0 <? tp_small_count pool); destruct (0 <? tp_medium_count _); destruct (0 <? tp_large_count _);
      (split; [by intros []|done]). }
  rewrite Howns, Ho. pose proof (Hbuf small) as H1. pose proof (Hbuf medium) as H2. pose proof (Hbuf large) as H3.
  cbn [get_buffer] in *. rewrite H1, H2, H3. unfold mbind, ST_bind.
  destruct (free_buffer_run _ _ _ _ _ H) as (w1 & -> & Hw1). destruct (free_buffer_run _ _ _ _ _ Hw1) as (w2 & -> & Hw2).
  destruct (free_buffer_run _ _ _ _ _ Hw2) as (w3 & -> & Hw3). exists w3. split; [done|]. by apply took_nothing.
Qed.

Lemma tier_size_bounds t : SIZEOF_POINTER <= tier_size t <= 1024.
Proof. by destruct t. Qed.
(** The blocks that a buffer for [count] of them has room for: [count], unless the
    size of the buffer wraps. *)
Definition tier_blocks (t : tier) (count : Z) : Z := u64 (count * tier_size t) / tier_size t.
Lemma tier_blocks_exact t count : 0 <= count * tier_size t < 18446744073709551616 -> tier_blocks t count = count.
Proof. intros H. unfold tier_blocks. rewrite u64_small by lia. apply Z.div_mul. by destruct t. Qed.
(** The buffer's size, even where the product wraps, is a number of blocks. *)
Lemma buffer_blocks t count : 0 <= count -> exists c, 0 <= c /\ u64 (count * tier_size t) = c * tier_size t.
Proof.
  intros Hc. assert (exists k, 0 < k /\ k * tier_size t = 18446744073709551616) as (k & Hk & Heq).
  { destruct t; [exists 288230376151711744|exists 72057594037927936|exists 18014398509481984]; done. }
  exists (count mod k). split; [apply Z.mod_pos_bound; lia|]. unfold u64. rewrite <- Heq.
  pose proof (tier_size_bounds t). unfold SIZEOF_POINTER in *. by rewrite Z.mul_mod_distr_r by lia.
Qed.

(** What was owned is as before. *)
Definition extends (m m' : memory) : Prop := forall x, is_Some (m !! x) -> m' !! x = m !! x.
Lemma extends_trans m1 m2 m3 : extends m1 m2 -> extends m2 m3 -> extends m1 m3.
Proof. intros H12 H23 x Hx. rewrite H23; [by apply H12|]. by rewrite H12. Qed.
Lemma tier_rep_extends B S N p m s m' : tier_rep B S N p m s -> extends m m' -> tier_rep B S N p m' s.
Proof.
  intros H He. apply (tier_rep_agree _ _ _ _ m); [done|]. intros x Hx. apply He.
  destruct N as [|N]; [unfold region in Hx; lia|]. destruct H as [_ H]. by apply (rep_owns _ _ _ _ _ _ _ H).
Qed.

Lemma init_tier_run w0 l t count w : took w0 l w -> 0 <= count ->
  exists ok b p w', init_tier zero_mempool count (tier_size t) w = Some ((ok, b, p), w') /\
    exists N, took w0 (buffer_region b (region (tier_size t) N) ++ l) w' /\ (b = NULLP <-> N = O) /\ extends (mem w) (mem w') /\
    (ok = true -> Z.of_nat N = tier_blocks t count /\ (0 < count <-> N <> O) /\ tier_rep b (tier_size t) N p (mem w') (fresh_spec b (tier_size t) N)).
Proof.
  intros (Hf & Htr & H) Hc. unfold init_tier. destruct (0 <? count) eqn:Hpos.
  2: { exists true, NULLP, zero_mempool, w. split; [done|]. exists O. split; [done|]. split; [done|]. split; [done|].
       intros _. split; [|split; [lia|done]]. replace count with 0 by lia. by destruct t. }
  destruct (buffer_blocks t count Hc) as (c & Hc0 & Hsize). rewrite Hsize. pose proof (tier_size_bounds t) as Hb.
  unfold SIZEOF_POINTER in Hb.
  assert (forall w', xgl_alloc 0 NULL (c * tier_size t) w = Some (NULLP, w') -> took w0 l w' -> extends (mem w) (mem w') ->
    exists ok b p w2, (buffer ← xgl_alloc 0 NULL (c * tier_size t);
      if buffer =? NULLP then mret (false, NULLP, zero_mempool)
      else '(r, pool) ← pool_init zero_mempool buffer (c * tier_size t) (tier_size t); mret (r =? 0, buffer, pool)) w =
      Some ((ok, b, p), w2) /\
    exists N, took w0 (buffer_region b (region (tier_size t) N) ++ l) w2 /\ (b = NULLP <-> N = O) /\ extends (mem w) (mem w2) /\
    (ok = true -> Z.of_nat N = tier_blocks t count /\ (0 < count <-> N <> O) /\ tier_rep b (tier_size t) N p (mem w2) (fresh_spec b (tier_size t) N))) as Hrefused.
  { intros w' Hrun Ht He. exists false, NULLP, zero_mempool, w'. unfold mbind at 1, ST_bind at 1. rewrite Hrun. split; [done|]. by exists O. }
  destruct (Z.eqb_spec c 0) as [->|Hc1]; [by apply (Hrefused w)|].
  assert (xgl_alloc 0 NULL (c * tier_size t) w = heap_malloc (c * tier_size t) w) as Hrun by (apply default_alloc; [done|nia]).
  pose proof (malloc_spec (c * tier_size t) (aw_heap w) (ho_heap _ _ _ H) ltac:(nia)) as Hm. unfold heap_malloc in Hrun.
  destruct (malloc _ _) as [b h']. destruct Hm as (Hok' & [(-> & Hby & Hreg)|Hfresh]).
  { apply (Hrefused _ Hrun); [|intros x _; cbn; by rewrite Hby]. split_and!; [done|done|]. destruct H as [_ ? Hi Ho Hbb ?].
    split; cbn; try rewrite Hreg; try rewrite Hby; done. }
  clear Hrefused. unfold mbind at 1, ST_bind at 1. rewrite Hrun. pose proof Hfresh as (Hbpos & Hfit & Hown & Hvac & Hframe & _).
  destruct (Z.eqb_spec b NULLP); [lia|]. set (N := Z.to_nat c).
  assert (region (tier_size t) N = c * tier_size t) as Hregion by (unfold region, N; rewrite Z2Nat.id by lia; done).
  assert (geometry b (tier_size t) N) as Hgeo.
  { split_and!; [lia|unfold SIZEOF_POINTER; lia|unfold N; lia|rewrite Hregion; lia]. }
  pose proof Hgeo as (HB & HS & HN & HF).
  destruct (rep_init b (tier_size t) N HB HS HN HF zero_mempool (c * tier_size t) (ch_bytes h')) as (p & m & Hinit & Hrep).
  { rewrite Z.div_mul by lia. done. } { nia. } { done. }
  assert (pool_init zero_mempool b (c * tier_size t) (tier_size t) (w <| aw_heap := h' |>) =
    Some ((0, p), w <| aw_heap := h' <| ch_bytes := m |> |>)) as Hpool.
  { unfold pool_init, on_memory. change (mem (w <| aw_heap := h' |>)) with (ch_bytes h'). rewrite Hinit. reflexivity. }
  unfold mbind, ST_bind. rewrite Hpool. exists true, b, p. eexists. split; [reflexivity|]. exists N.
  assert (holding (aw_heap w0) (h' <| ch_bytes := m |>) ((b, c * tier_size t) :: l)) as Hhold.
  { apply holding_write.
    - apply (holding_acquire _ _ _ _ _ _ H); [nia|done].
    - intros x. destruct (decide (b <= x < b + region (tier_size t) N)) as [Hx|Hx].
      + split; intros _; [rewrite Hregion in Hx; by apply Hown|by apply (rep_owns _ _ _ _ _ _ _ Hrep)].
      + by rewrite (rep_frame _ _ _ _ _ _ _ Hrep).
    - intros x Hx. apply (rep_frame _ _ _ _ _ _ _ Hrep). rewrite Hregion. apply Hx. left. }
  split; [|split; [split; [lia|unfold N; lia]|split]].
  - unfold buffer_region. destruct (Z.eqb_spec b NULLP); [lia|]. rewrite Hregion. by split_and!.
  - intros x [v Hv]. change (m !! x = mem w !! x). rewrite (rep_frame _ _ _ _ _ _ _ Hrep), Hframe; [done|..].
    + intros Hx. rewrite Hvac in Hv; done.
    + intros Hx. rewrite Hvac in Hv; [done|]. by rewrite <- Hregion.
  - intros _. split; [unfold tier_blocks; rewrite Hsize, Z.div_mul by lia; unfold N; lia|]. split; [unfold N; lia|]. change (mem (w <| aw_heap := h' <| ch_bytes := m |> |>)) with m.
    assert (pool_rep b (tier_size t) N m p m (fresh_spec b (tier_size t) N)) as Hrep'.
    { by apply (pool_rep_agree _ _ _ (ch_bytes h') p m). }
    destruct N as [|n']; [exfalso; clear -HN; lia|]. by split.
Qed.

(** ** A tiered pool in use *)

Definition buffers (B : tier -> Z) (N : tier -> nat) : list (Z * Z) :=
  buffer_region (B small) (region (tier_size small) (N small)) ++
  buffer_region (B medium) (region (tier_size medium) (N medium)) ++
  buffer_region (B large) (region (tier_size large) (N large)) ++ [].
Record in_use (w0 : alloc_world) (B : tier -> Z) (N : tier -> nat) (pool : xgl_tiered_pool_t) (w : alloc_world)
    (ts : tiers) : Prop := mk_in_use {
  iu_took : took w0 (buffers B N) w;
  iu_exists t : B t = NULLP <-> N t = O;
  iu_rep : tiered_rep B N pool (mem w) ts;
  iu_buffers t : get_buffer pool t = B t;
  iu_owns : tp_owns_buffers pool = true
}.

Lemma buffers_in B N t : (B t = NULLP <-> N t = O) -> N t <> O -> (B t, region (tier_size t) (N t)) ∈ buffers B N.
Proof.
  intros He Hn. unfold buffers, buffer_region. assert (B t <> NULLP) by (intros Hz; by apply He in Hz).
  destruct t, (Z.eqb_spec (B small) NULLP), (Z.eqb_spec (B medium) NULLP), (Z.eqb_spec (B large) NULLP); try done; cbn;
    set_solver.
Qed.
Lemma buffers_inj B N t u : NoDup (buffers B N).*1 -> B t <> NULLP -> B t = B u -> t = u.
Proof.
  unfold buffers, buffer_region. intros Hnd Ht Heq.
  destruct t, u; try done; exfalso; revert Hnd;
    destruct (Z.eqb_spec (B small) NULLP), (Z.eqb_spec (B medium) NULLP), (Z.eqb_spec (B large) NULLP); try congruence;
    cbn; rewrite ?NoDup_cons; set_solver.
Qed.
Lemma buffers_apart w0 B N w t u x : took w0 (buffers B N) w -> (forall t, B t = NULLP <-> N t = O) ->
  in_tier B N t x -> in_tier B N u x -> t = u.
Proof.
  intros (_ & _ & H) He [Ht Hxt] [Hu Hxu]. destruct (decide (B t = B u)) as [Heq|Hne].
  - apply (buffers_inj B N); [apply (ho_nodup _ _ _ H)| |done]. intros Hz. by apply He in Hz.
  - destruct (ho_in _ _ _ H _ _ (buffers_in B N t (He t) Ht)) as [Hrt _].
    destruct (ho_in _ _ _ H _ _ (buffers_in B N u (He u) Hu)) as [Hru _].
    destruct (proj2 (ho_heap _ _ _ H) _ _ _ _ Hrt Hru Hne); lia.
Qed.
Lemma buffers_cover B N a n x : (forall t, B t = NULLP <-> N t = O) -> (a, n) ∈ buffers B N -> a <= x < a + n ->
  exists t, in_tier B N t x.
Proof.
  intros He Hin Hx. unfold buffers, buffer_region in Hin.
  assert (exists t, (a, n) = (B t, region (tier_size t) (N t)) /\ B t <> NULLP) as (t & [= -> ->] & Ht).
  { rewrite !elem_of_app in Hin. destruct Hin as [Hin|[Hin|[Hin|Hin]]]; [..|by apply elem_of_nil in Hin];
      [exists small|exists medium|exists large]; revert Hin;
      [destruct (Z.eqb_spec (B small) NULLP)|destruct (Z.eqb_spec (B medium) NULLP)|destruct (Z.eqb_spec (B large) NULLP)];
      (by intros Hin%elem_of_nil) || (by intros Hin%list_elem_of_singleton). }
  exists t. split; [|done]. intros Hn. by apply Ht, He.
Qed.

Lemma in_use_step w0 B N pool w ts op : in_use w0 B N pool w ts -> tiered_permitted ts op ->
  exists r pool' w' ts', tiered_exec op (Ptr pool) w = Some ((r, Ptr pool'), w') /\ tiered_step ts op r ts' /\
    in_use w0 B N pool' w' ts'.
Proof.
  intros [Htook He Hrep Hbuf Ho] Hop.
  destruct (op_run B N (fun t u x => buffers_apart w0 B N w t u x Htook He) op pool ts w Hrep Hop)
    as (r & pool' & m & ts' & Hrun & Hstep & H' & [Hdom Hframe] & [Hb Ho']).
  exists r, pool'. eexists _, ts'. split; [exact Hrun|]. split; [done|]. destruct Htook as (Hf & Ht & H). split; try done.
  - split; [done|]. split; [done|]. apply holding_write; [done|done|]. intros x Hx. apply Hframe. intros t [Hn Hin].
    by apply (Hx _ _ (buffers_in B N t (He t) Hn)).
  - intros t. by rewrite Hb.
  - by rewrite Ho'.
Qed.
Lemma in_use_destroy w0 B N pool w ts : in_use w0 B N pool w ts ->
  exists w', xgl_tiered_pool_destroy (Ptr pool) w = Some (Ptr zero_tiered_pool, w') /\ as_before w0 w'.
Proof.
  intros [Htook _ _ Hbuf Ho]. apply (destroy_run w0 pool (region (tier_size small) (N small))
    (region (tier_size medium) (N medium)) (region (tier_size large) (N large))); [done|].
  pose proof (Hbuf small) as H1. pose proof (Hbuf medium) as H2. pose proof (Hbuf large) as H3. cbn [get_buffer] in *.
  by rewrite H1, H2, H3.
Qed.

(** Where a tier's list starts. *)
Definition fresh_tiers (B : tier -> Z) (N : tier -> nat) : tiers :=
  mk_tiers (fresh_spec (B small) (tier_size small) (N small)) (fresh_spec (B medium) (tier_size medium) (N medium))
    (fresh_spec (B large) (tier_size large) (N large)).
(** The tiers have the blocks that were asked for. *)
Definition has_blocks (N : tier -> nat) (small_count medium_count large_count : Z) : Prop :=
  Z.of_nat (N small) = tier_blocks small small_count /\ Z.of_nat (N medium) = tier_blocks medium medium_count /\
  Z.of_nat (N large) = tier_blocks large large_count.
Lemma took_perm w0 l l' w : l ≡ₚ l' -> took w0 l w -> took w0 l' w.
Proof. intros Hp (? & ? & ?). split_and!; [done|done|by eapply holding_perm]. Qed.

Lemma init_run pool0 c1 c2 c3 w : heap_ok (aw_heap w) -> aw_fallback w = true -> 0 <= c1 -> 0 <= c2 -> 0 <= c3 ->
  exists r pool w', xgl_tiered_pool_init (Ptr pool0) c1 c2 c3 w = Some ((r, Ptr pool), w') /\
    ((r = -1 /\ pool = zero_tiered_pool /\ as_before w w') \/
     (r = 0 /\ exists B N, has_blocks N c1 c2 c3 /\ in_use w B N pool w' (fresh_tiers B N))).
Proof.
  intros Hok Hf Hc1 Hc2 Hc3. assert (took w [] w) as H0 by (split_and!; [done|done|by apply holding_start]).
  unfold xgl_tiered_pool_init. unfold mbind at 1, ST_bind at 1.
  match goal with |- context [init_tier ?p c1 _] => change p with zero_mempool end.
  destruct (init_tier_run w [] small c1 w H0 Hc1) as (ok1 & b1 & p1 & w1 & Hr1 & N1 & T1 & E1 & X1 & K1).
  cbn [tier_size] in Hr1. rewrite Hr1. set (pool1 := _ <| tp_small_pool := p1 |>).
  assert (forall pool n1 n2 n3 w', tp_owns_buffers pool = true ->
    took w (buffer_region (tp_small_buffer pool) n1 ++ buffer_region (tp_medium_buffer pool) n2 ++
            buffer_region (tp_large_buffer pool) n3 ++ []) w' ->
    exists r q w2, (q ← xgl_tiered_pool_destroy (Ptr pool); mret (-1, q)) w' = Some ((r, Ptr q), w2) /\
      ((r = -1 /\ q = zero_tiered_pool /\ as_before w w2) \/
       (r = 0 /\ exists B N, has_blocks N c1 c2 c3 /\ in_use w B N q w2 (fresh_tiers B N)))) as Hfail.
  { intros pool n1 n2 n3 w' Ho Ht. destruct (destroy_run _ _ _ _ _ _ Ho Ht) as (w2 & Hrun & Hw2).
    exists (-1), zero_tiered_pool, w2. unfold mbind, ST_bind. rewrite Hrun. split; [done|]. by left. }
  destruct ok1; cbn [negb].
  2: { apply (Hfail pool1 (region (tier_size small) N1) 0 0); [done|exact T1]. }
  specialize (K1 eq_refl) as (M1 & C1 & R1). unfold mbind at 1, ST_bind at 1. match goal with |- context [init_tier ?p c2 _] => change p with zero_mempool end.
  destruct (init_tier_run w _ medium c2 w1 T1 Hc2) as (ok2 & b2 & p2 & w2 & Hr2 & N2 & T2 & E2 & X2 & K2).
  cbn [tier_size] in Hr2. rewrite Hr2. set (pool2 := _ <| tp_medium_pool := p2 |>).
  destruct ok2; cbn [negb].
  2: { apply (Hfail pool2 (region (tier_size small) N1) (region (tier_size medium) N2) 0); [done|].
       refine (took_perm _ _ _ _ _ T2). cbn. rewrite !app_nil_r. apply Permutation_app_comm. }
  specialize (K2 eq_refl) as (M2 & C2 & R2). unfold mbind at 1, ST_bind at 1. match goal with |- context [init_tier ?p c3 _] => change p with zero_mempool end.
  destruct (init_tier_run w _ large c3 w2 T2 Hc3) as (ok3 & b3 & p3 & w3 & Hr3 & N3 & T3 & E3 & X3 & K3).
  cbn [tier_size] in Hr3. rewrite Hr3. set (pool3 := _ <| tp_large_pool := p3 |>).
  assert (took w (buffer_region b1 (region (tier_size small) N1) ++ buffer_region b2 (region (tier_size medium) N2) ++
    buffer_region b3 (region (tier_size large) N3) ++ []) w3) as T.
  { refine (took_perm _ _ _ _ _ T3). rewrite !app_nil_r.
    etrans; [apply Permutation_app_comm|]. rewrite (Permutation_app_comm (buffer_region b2 _)). by rewrite <- app_assoc. }
  destruct ok3; cbn [negb].
  2: { by apply (Hfail pool3 _ _ _ _ eq_refl T). }
  specialize (K3 eq_refl) as (M3 & C3 & R3). exists 0, pool3, w3. split; [done|]. right. split; [done|].
  exists (fun t => match t with small => b1 | medium => b2 | large => b3 end),
    (fun t => match t with small => N1 | medium => N2 | large => N3 end).
  split; [by split_and!|].
  split; [exact T|by intros []| |by intros []|done]. split; [|by intros []]. intros [].
  - apply (tier_rep_extends _ _ _ _ (mem w1)); [exact R1|by eapply extends_trans].
  - apply (tier_rep_extends _ _ _ _ (mem w2)); [exact R2|done].
  - exact R3.
Qed.

(** What the users see: blocks in use keep what was written and do not meet,
    whatever their tiers; the statistics count them. *)
Definition tiers_in_order (pool : ptr xgl_tiered_pool_t) (w : alloc_world) (ts : tiers) : Prop :=
  (forall t a c, ps_live (ts t) !! a = Some c ->
     ld (mem w) a (Z.to_nat (tier_size t)) = Some c /\
     forall u b, is_Some (ps_live (ts u) !! b) -> (t, a) <> (u, b) -> a + tier_size t <= b \/ b + tier_size u <= a) /\
  xgl_tiered_pool_get_used_memory pool =
    u64 (live_count (ts small) * 64 + live_count (ts medium) * 256 + live_count (ts large) * 1024) /\
  xgl_tiered_pool_get_free_memory pool =
    u64 (zlen (ps_free (ts small)) * 64 + zlen (ps_free (ts medium)) * 256 + zlen (ps_free (ts large)) * 1024) /\
  xgl_tiered_pool_get_peak_memory pool =
    u64 (ps_peak (ts small) * 64 + ps_peak (ts medium) * 256 + ps_peak (ts large) * 1024).

Fixpoint tiered_serves (w0 : alloc_world) (pool : ptr xgl_tiered_pool_t) (w : alloc_world) (ts : tiers)
    (ops : list tiered_op) : Prop :=
  tiers_in_order pool w ts /\
  (exists w', xgl_tiered_pool_destroy pool w = Some (Ptr zero_tiered_pool, w') /\ as_before w0 w') /\
  match ops with
  | [] => True
  | op :: ops =>
      tiered_permitted ts op ->
      exists r pool' w' ts', tiered_exec op pool w = Some ((r, pool'), w') /\ tiered_step ts op r ts' /\
        tiered_serves w0 pool' w' ts' ops
  end.

Lemma tier_bytes_spec count counter n sum : (count <= 0 -> counter = 0) ->
  u64 (tier_bytes count counter n sum) = u64 (sum + counter * n).
Proof.
  intros Hc. unfold tier_bytes. destruct (0 <? count) eqn:Hpos.
  - unfold u64. rewrite Zmod_mod, Zplus_mod_idemp_r. done.
  - rewrite Hc by lia. f_equal. lia.
Qed.
Lemma tier_bytes_range count counter n sum : 0 <= sum < 18446744073709551616 ->
  0 <= tier_bytes count counter n sum < 18446744073709551616.
Proof. intros. unfold tier_bytes. destruct (_ <? _); [apply u64_range|done]. Qed.
Lemma three_tiers k1 k2 k3 c1 c2 c3 : (k1 <= 0 -> c1 = 0) -> (k2 <= 0 -> c2 = 0) -> (k3 <= 0 -> c3 = 0) ->
  tier_bytes k3 c3 1024 (tier_bytes k2 c2 256 (tier_bytes k1 c1 64 0)) = u64 (c1 * 64 + c2 * 256 + c3 * 1024).
Proof.
  intros H1 H2 H3.
  pose proof (tier_bytes_range k3 c3 1024 _ (tier_bytes_range k2 c2 256 _ (tier_bytes_range k1 c1 64 0 ltac:(lia)))) as Hr.
  rewrite <- (u64_small _ Hr), tier_bytes_spec by done. unfold u64 at 1. rewrite <- Zplus_mod_idemp_l. fold (u64 (tier_bytes k2 c2 256 (tier_bytes k1 c1 64 0))).
  rewrite tier_bytes_spec by done. unfold u64 at 1. rewrite Zplus_mod_idemp_l.
  rewrite <- Z.add_assoc, <- Zplus_mod_idemp_l. fold (u64 (tier_bytes k1 c1 64 0)). rewrite tier_bytes_spec by done.
  unfold u64. rewrite Zplus_mod_idemp_l. f_equal. lia.
Qed.
Lemma in_use_counts w0 B N pool w ts t : in_use w0 B N pool w ts ->
  xgl_mempool_get_used_count (Ptr (get_pool pool t)) = live_count (ts t) /\
  xgl_mempool_get_free_count (Ptr (get_pool pool t)) = zlen (ps_free (ts t)) /\
  xgl_mempool_get_peak_used (Ptr (get_pool pool t)) = ps_peak (ts t) /\
  (get_count pool t <= 0 -> live_count (ts t) = 0 /\ zlen (ps_free (ts t)) = 0 /\ ps_peak (ts t) = 0).
Proof.
  intros H. pose proof (tr_tier _ _ _ _ _ (iu_rep _ _ _ _ _ _ H) t) as Ht.
  pose proof (tr_count _ _ _ _ _ (iu_rep _ _ _ _ _ _ H) t) as Hc. unfold xgl_mempool_get_used_count, xgl_mempool_get_free_count, xgl_mempool_get_peak_used.
  destruct (N t) as [|n]; [destruct Ht as [-> ->]; by split_and!|]. destruct Ht as [(HB & HS & HN & HF) Hrep].
  split; [exact (rep_used _ _ _ HB HS HN HF _ _ _ _ Hrep)|]. split; [exact (rep_free _ _ _ _ _ _ _ Hrep)|].
  split; [exact (rep_peak _ _ _ _ _ _ _ Hrep)|]. intros Hle. assert (0 < get_count pool t) by (by apply Hc). lia.
Qed.
Lemma in_use_order w0 B N pool w ts : in_use w0 B N pool w ts -> tiers_in_order (Ptr pool) w ts.
Proof.
  intros H. pose proof H as [Htook He Hrep _ _]. split.
  2: { destruct (in_use_counts _ _ _ _ _ _ small H) as (U1 & F1 & P1 & Z1). destruct (in_use_counts _ _ _ _ _ _ medium H) as (U2 & F2 & P2 & Z2).
       destruct (in_use_counts _ _ _ _ _ _ large H) as (U3 & F3 & P3 & Z3). cbn [get_pool get_count] in *.
       unfold xgl_tiered_pool_get_used_memory, xgl_tiered_pool_get_free_memory, xgl_tiered_pool_get_peak_memory.
       rewrite U1, U2, U3, F1, F2, F3, P1, P2, P3. split_and!; apply three_tiers; intros Hle; (apply Z1 in Hle || apply Z2 in Hle || apply Z3 in Hle); apply Hle. }
  intros t a c Ha. pose proof (tr_tier _ _ _ _ _ Hrep t) as Ht.
  destruct (live_tier _ _ (fun t u x => buffers_apart w0 B N w t u x Htook He) _ _ _ _ _ _ Hrep Ha) as (Hnt & _).
  assert (a ∈ blocks (B t) (tier_size t) (N t)) as Hat by (exact (tier_live _ _ _ _ _ _ _ _ Ht Ha)).
  split. { destruct (N t) as [|n]; [done|]. destruct Ht as [_ Hr]. exact (rep_live _ _ _ _ _ _ _ Hr a c Ha). }
  intros u b [d Hb] Hne. pose proof (tr_tier _ _ _ _ _ Hrep u) as Hu.
  destruct (live_tier _ _ (fun t u x => buffers_apart w0 B N w t u x Htook He) _ _ _ _ _ _ Hrep Hb) as (Hnu & _).
  assert (b ∈ blocks (B u) (tier_size u) (N u)) as Hbu by (exact (tier_live _ _ _ _ _ _ _ _ Hu Hb)).
  assert (forall v x, N v <> O -> x ∈ blocks (B v) (tier_size v) (N v) -> B v <= x /\ x + tier_size v <= B v + region (tier_size v) (N v)) as Hin.
  { intros v x Hv. apply block_inside; [apply tier_size_bounds|lia]. }
  pose proof (Hin t a Hnt Hat) as Ia. pose proof (Hin u b Hnu Hbu) as Ib. pose proof (tier_size_bounds t). pose proof (tier_size_bounds u).
  unfold SIZEOF_POINTER in *. destruct (decide (t = u)) as [->|Htu].
  - apply (blocks_apart (B u) (tier_size u) (N u)); [apply tier_size_bounds|lia|done|done|congruence].
  - destruct (decide (a + tier_size t <= b)); [by left|]. destruct (decide (b + tier_size u <= a)); [by right|]. exfalso. apply Htu.
    apply (buffers_apart w0 B N w t u (Z.max a b) Htook He); (split; [done|lia]).
Qed.
Lemma in_use_serves w0 B N : forall ops pool w ts, in_use w0 B N pool w ts -> tiered_serves w0 (Ptr pool) w ts ops.
Proof.
  intros ops. induction ops as [|op ops IH]; intros pool w ts H; cbn [tiered_serves];
    (split; [by eapply in_use_order|]; split; [by eapply in_use_destroy|]); [done|]. intros Hop.
  destruct (in_use_step _ _ _ _ _ _ op H Hop) as (r & pool' & w' & ts' & Hrun & Hstep & H').
  exists r, (Ptr pool'), w', ts'. split_and!; [done..|by apply IH].
Qed.

(** ** Property *)

(** C30. The life of a tiered pool that takes its buffers from the C heap (the build
    with the malloc fallback, [aw_fallback]): whatever the heap grants or refuses,
    and even for counts whose buffer sizes wrap, the initialization either fails
    and leaves the heap exactly as it was (nothing leaks), or every tier starts
    with all its blocks free, as many as were asked for (as fit the buffer, where
    its size wraps), and the pool serves every
    sequence of requests - releases of arbitrary pointers included - as specified:
    each request gets a block of at least its size from the smallest tier that
    has one and fails only if none has; blocks in use never meet and keep what
    was written; the statistics - memory used, free, and used at most since
    the last reset, summed over the tiers - are exact modulo the width of size_t;
    and at any time the destruction of the pool gives all memory back. *)
Theorem tiered_pool_lifecycle (pool : xgl_tiered_pool_t) (small_count medium_count large_count : Z)
    (w : alloc_world) (ops : list tiered_op) :
  heap_ok (aw_heap w) -> aw_fallback w = true -> 0 <= small_count -> 0 <= medium_count -> 0 <= large_count ->
  exists r pool' w', xgl_tiered_pool_init (Ptr pool) small_count medium_count large_count w = Some ((r, pool'), w') /\
    ((r = -1 /\ pool' = Ptr zero_tiered_pool /\ as_before w w') \/
     (r = 0 /\ exists B N, has_blocks N small_count medium_count large_count /\
        tiered_serves w pool' w' (fresh_tiers B N) ops)).
Proof.
  intros Hok Hf H1 H2 H3. destruct (init_run pool _ _ _ w Hok Hf H1 H2 H3) as (r & q & w' & Hrun & Hres).
  exists r, (Ptr q), w'. split; [done|]. destruct Hres as [(-> & -> & Hb)|(-> & B & N & Hn & Hu)]; [by left|].
  right. split; [done|]. exists B, N. split; [done|]. by eapply in_use_serves.
Qed.

(** Two small blocks and a large one; the heap has room. *)
Definition sample_pool_world : alloc_world :=
  mk_alloc_world true (mk_c_heap ∅ ∅ [4096; 8192; 16384] (fun _ => 170)) ∅.
Definition sample_requests : list tiered_op :=
  [to_alloc 40; to_alloc 40; to_alloc 40; to_free 4096 40; to_free 4096 40; to_free 5000 1; to_alloc 300; to_reset].
Lemma tiered_pool_lifecycle_witness :
  exists r pool' w', xgl_tiered_pool_init (Ptr zero_tiered_pool) 2 0 1 sample_pool_world = Some ((r, pool'), w') /\
    ((r = -1 /\ pool' = Ptr zero_tiered_pool /\ as_before sample_pool_world w') \/
     (r = 0 /\ exists B N, has_blocks N 2 0 1 /\
        tiered_serves sample_pool_world pool' w' (fresh_tiers B N) sample_requests)).
Proof.
  apply (tiered_pool_lifecycle zero_tiered_pool 2 0 1 sample_pool_world sample_requests); [|done..].
  split; cbn; intros a n; [by rewrite lookup_empty|intros b k; by rewrite lookup_empty].
Defined.
