(* ===== verification/PacketPool.v ===== *)
(** * The packet pool (src/memory/xgl_packet_pool.c)

    An array of packets whose free ones are on an intrusive list, and packet data
    that is shared by reference counting.  A client that keeps to its own
    packets and references is served safely and without leaks; a packet that is
    freed twice, which the pool does not notice, is handed out twice. *)
From S2P Require Import Prelude State Layer LinkedList.

(** ** Data *)

(** Packet data by the address of its buffers; [owned_data] is NULL for borrowed data. *)
(** src/include/xgl/xgl_types.h:160-165: xgl_packet_data_t *)
Record shared_data_t := mk_shared {
  sd_ref_count : Z;
  sd_data_len : Z;
  sd_data : ptr addr;
  sd_owned_data : ptr addr
}.
#[export] Instance eta_shared : EtaRecord shared_data_t := Eta (fun d =>
  mk_shared (sd_ref_count d) (sd_data_len d) (sd_data d) (sd_owned_data d)).
(** A packet of the array: [pp_data] is its field [data], the others are in
    [pp_fields]; its list node is in the pool's [pl_nodes]. *)
Record pooled_packet := mk_pooled { pp_fields : xgl_packet_t; pp_data : ptr addr }.
#[export] Instance eta_pooled : EtaRecord pooled_packet := Eta (fun p => mk_pooled (pp_fields p) (pp_data p)).
Definition zero_pooled : pooled_packet := mk_pooled zero_packet NULL.

(** src/include/xgl/internal/xgl_packet_pool.h:86-93: xgl_packet_pool_t *)
Record xgl_packet_pool_t := mk_packet_pool {
  pl_packets : ptr (list pooled_packet);
  pl_nodes : heap;
  pl_free_list : xgl_list_t;
  pl_total_count : Z;
  pl_free_count : Z;
  pl_peak_used : Z
}.
#[export] Instance eta_packet_pool : EtaRecord xgl_packet_pool_t := Eta (fun p =>
  mk_packet_pool (pl_packets p) (pl_nodes p) (pl_free_list p) (pl_total_count p) (pl_free_count p) (pl_peak_used p)).
Definition zero_packet_pool : xgl_packet_pool_t := mk_packet_pool NULL ∅ xgl_list_init 0 0 0.

(** The pool, the packet data and the buffers that are allocated, and the answers
    of the allocator to come. *)
Record pk_world := mk_pk_world {
  pw_pool : xgl_packet_pool_t;
  pw_data : gmap addr shared_data_t;
  pw_buffers : gmap addr bytes;
  pw_heap : heap_answers
}.
#[export] Instance eta_pk_world : EtaRecord pk_world := Eta (fun w =>
  mk_pk_world (pw_pool w) (pw_data w) (pw_buffers w) (pw_heap w)).
Abbreviation K := (ST pk_world).

Definition pk_malloc (size : Z) : K bool := fun w =>
  let '(ok, heap) := alloc_answer size (pw_heap w) in Some (ok, w <| pw_heap := heap |>).
(** A dereference; undefined when there is no such object. *)
Definition deref {A} (f : pk_world -> M A) : K A := fun w => lift (f w) w.
Definition pk_get_pool : K xgl_packet_pool_t := gets pw_pool.
Definition pk_put_pool (p : xgl_packet_pool_t) : K unit := modify (fun w => w <| pw_pool := p |>).
(** [XGL_LIST_ENTRY] and its inverse: the packet of a node. *)
Definition node_of (i : nat) : addr := Pos.of_succ_nat i.
Definition entry_of (a : addr) : nat := Nat.pred (Pos.to_nat a).

(** ** Reference counting *)

(** src/src/memory/xgl_packet_pool.c:157-164: xgl_packet_data_ref *)
Definition xgl_packet_data_ref (data : ptr addr) : K unit :=
  match data with
  | NULL => mret tt
  | Ptr d =>
      o ← deref (fun w => pw_data w !! d);
      modify (fun w => w <| pw_data := <[d := (o <| sd_ref_count := u32 (sd_ref_count o + 1) |>)]> (pw_data w) |>)
  end.
(** [free] of a buffer that [owned_data] points to. *)
Definition free_owned (owned : ptr addr) : K unit :=
  match owned with
  | NULL => mret tt
  | Ptr b =>
      _ ← deref (fun w => pw_buffers w !! b);
      modify (fun w => w <| pw_buffers := delete b (pw_buffers w) |>)
  end.
(** src/src/memory/xgl_packet_pool.c:169-189: xgl_packet_data_unref *)
Definition xgl_packet_data_unref (data : ptr addr) : K unit :=
  match data with
  | NULL => mret tt
  | Ptr d =>
      o ← deref (fun w => pw_data w !! d);
      let o := if 0 <? sd_ref_count o then o <| sd_ref_count := sd_ref_count o - 1 |> else o in
      _ ← modify (fun w => w <| pw_data := <[d := o]> (pw_data w) |>);
      if sd_ref_count o =? 0 then
        _ ← free_owned (sd_owned_data o);
        modify (fun w => w <| pw_data := delete d (pw_data w) |>)
      else mret tt
  end.

Definition sizeof_packet_data : Z := 32.
(** src/src/memory/xgl_packet_pool.c:194-221: xgl_packet_data_create *)
Definition xgl_packet_data_create (data : ptr bytes) (len : Z) : K (ptr addr) :=
  match data with
  | NULL => mret NULL
  | Ptr data =>
      if len =? 0 then mret NULL
      else
        ok ← pk_malloc sizeof_packet_data;
        if negb ok then mret NULL
        else
          ok ← pk_malloc len;
          if negb ok then mret NULL
          else
            owned ← lift (rd_bytes data 0 len);
            b ← gets (fun w => fresh (dom (pw_buffers w)));
            d ← gets (fun w => fresh (dom (pw_data w)));
            _ ← modify (fun w => w <| pw_buffers := <[b := owned]> (pw_buffers w) |>
                   <| pw_data := <[d := mk_shared 1 len (Ptr b) (Ptr b)]> (pw_data w) |>);
            mret (Ptr d)
  end.

(** ** The pool *)

(** [memset] of a packet and [xgl_list_node_init] of its node. *)
(** src/src/memory/xgl_packet_pool.c:63-65: xgl_packet_pool_init *)
Definition clear_packet (pool : xgl_packet_pool_t) (i : nat) : M xgl_packet_pool_t :=
  packets ← pl_packets pool;
  packets ← wr packets (Z.of_nat i) zero_pooled;
  ret (pool <| pl_packets := Ptr packets |> <| pl_nodes := xgl_list_node_init (pl_nodes pool) (node_of i) |>).
(** src/src/memory/xgl_packet_pool.c:66-66: xgl_packet_pool_init *)
Definition append_free (pool : xgl_packet_pool_t) (i : nat) : M xgl_packet_pool_t :=
  '(nodes, list) ← xgl_list_insert_tail (pl_nodes pool) (pl_free_list pool) (node_of i);
  ret (pool <| pl_nodes := nodes |> <| pl_free_list := list |>).

(** [n] packets left from index [i]. *)
(** src/src/memory/xgl_packet_pool.c:62-67: xgl_packet_pool_init *)
Fixpoint packet_init_loop (n i : nat) (pool : xgl_packet_pool_t) : M xgl_packet_pool_t :=
  match n with
  | O => ret pool
  | S n => pool ← clear_packet pool i; pool ← append_free pool i; packet_init_loop n (S i) pool
  end.

(** [sizeof(xgl_packet_t)] with 64-bit pointers.  The product wraps, and the array
    has as many packets as fit what was allocated. *)
Definition sizeof_packet : Z := 96.
(** src/src/memory/xgl_packet_pool.c:38-70: xgl_packet_pool_init *)
Definition xgl_packet_pool_init (count : Z) : K Z :=
  if count =? 0 then mret (-1)
  else
    let size := u64 (count * sizeof_packet) in
    let pool := zero_packet_pool <| pl_total_count := count |> <| pl_free_count := count |> in
    ok ← pk_malloc size;
    if negb ok then _ ← pk_put_pool pool; mret (-1)
    else
      let packets := replicate (Z.to_nat (size / sizeof_packet)) zero_pooled in
      pool ← lift (packet_init_loop (Z.to_nat count) 0
                     (pool <| pl_packets := Ptr packets |> <| pl_free_list := xgl_list_init |>));
      _ ← pk_put_pool pool;
      mret 0.
(** src/src/memory/xgl_packet_pool.c:75-88: xgl_packet_pool_destroy *)
Definition xgl_packet_pool_destroy : K unit := pk_put_pool zero_packet_pool.

(** src/src/memory/xgl_packet_pool.c:97-123: xgl_packet_alloc *)
Definition xgl_packet_alloc : K (ptr nat) :=
  pool ← pk_get_pool;
  if xgl_list_is_empty (pl_free_list pool) then mret NULL
  else
    '(node, nodes, list) ← lift (xgl_list_remove_head (pl_nodes pool) (pl_free_list pool));
    let pool := pool <| pl_nodes := nodes |> <| pl_free_list := list |> in
    match node with
    | NULL => _ ← pk_put_pool pool; mret NULL
    | Ptr node =>
        let pool := pool <| pl_free_count := u64 (pl_free_count pool - 1) |> in
        let used_count := u64 (pl_total_count pool - pl_free_count pool) in
        let pool := if pl_peak_used pool <? used_count then pool <| pl_peak_used := used_count |> else pool in
        let packet := entry_of node in
        pool ← lift (clear_packet pool packet);
        _ ← pk_put_pool pool;
        mret (Ptr packet)
    end.

(** src/src/memory/xgl_packet_pool.c:128-148: xgl_packet_free *)
Definition xgl_packet_free (packet : ptr nat) : K unit :=
  match packet with
  | NULL => mret tt
  | Ptr i =>
      pool ← pk_get_pool;
      packets ← lift (pl_packets pool);
      p ← lift (rd packets (Z.of_nat i));
      _ ← match pp_data p with
          | NULL => mret tt
          | Ptr d => xgl_packet_data_unref (Ptr d)
          end;
      pool ← pk_get_pool;
      pool ← lift (clear_packet pool i);
      pool ← lift (append_free pool i);
      pk_put_pool (pool <| pl_free_count := u64 (pl_free_count pool + 1) |>)
  end.

(** ** Statistics *)

(** src/src/memory/xgl_packet_pool.c:230-235: xgl_packet_pool_get_free_count *)
Definition xgl_packet_pool_get_free_count (pool : xgl_packet_pool_t) : Z := pl_free_count pool.
(** src/src/memory/xgl_packet_pool.c:240-245: xgl_packet_pool_get_used_count *)
Definition xgl_packet_pool_get_used_count (pool : xgl_packet_pool_t) : Z :=
  u64 (pl_total_count pool - pl_free_count pool).
(** src/src/memory/xgl_packet_pool.c:250-255: xgl_packet_pool_get_peak_used *)
Definition xgl_packet_pool_get_peak_used (pool : xgl_packet_pool_t) : Z := pl_peak_used pool.
(** src/src/memory/xgl_packet_pool.c:260-265: xgl_packet_pool_is_empty *)
Definition xgl_packet_pool_is_empty (pool : xgl_packet_pool_t) : bool := pl_free_count pool =? pl_total_count pool.
(** src/src/memory/xgl_packet_pool.c:270-275: xgl_packet_pool_is_full *)
Definition xgl_packet_pool_is_full (pool : xgl_packet_pool_t) : bool := pl_free_count pool =? 0.
(** src/src/memory/xgl_packet_pool.c:280-285: xgl_packet_pool_reset_stats *)
Definition xgl_packet_pool_reset_stats : K unit :=
  pool ← pk_get_pool;
  pk_put_pool (pool <| pl_peak_used := xgl_packet_pool_get_used_count pool |>).

(** ** What clients are promised *)

(** The free packets in the order in which they will be handed out, the packets in
    use with what was written to them, the references that clients hold (one
    entry each), the contents of the live data and the peak of packets in use. *)
Record pk_client := mk_pk_client {
  kc_free : list nat;
  kc_held : gmap nat pooled_packet;
  kc_refs : list addr;
  kc_content : gmap addr bytes;
  kc_peak : Z
}.
#[export] Instance eta_pk_client : EtaRecord pk_client := Eta (fun c =>
  mk_pk_client (kc_free c) (kc_held c) (kc_refs c) (kc_content c) (kc_peak c)).
Definition pk_used (c : pk_client) : Z := Z.of_nat (size (kc_held c)).
(** All references: the clients' own and those of the packets in use. *)
Definition packet_refs (held : gmap nat pooled_packet) : list addr := omap (fun x => pp_data x.2) (map_to_list held).
Definition all_refs (c : pk_client) : list addr := kc_refs c ++ packet_refs (kc_held c).
(** Data lives as long as it is referenced. *)
Definition live_content (refs : list addr) (content : gmap addr bytes) : gmap addr bytes :=
  filter (fun x => x.1 ∈ refs) content.

(** Requests: those of the pool, and the client's own writes to its packets. *)
Inductive packet_op :=
| pk_alloc
| pk_free (i : nat)
| pk_create (data : bytes) (len : Z)
| pk_ref (d : addr)
| pk_unref (d : addr)
| pk_attach (i : nat) (d : addr)
| pk_write (i : nat) (fields : xgl_packet_t)
| pk_reset_stats.
Inductive packet_answer := pk_packet (p : ptr nat) | pk_data_at (d : ptr addr) | pk_done.

(** A client frees only packets in use, gives up only references it has, and
    attaches data to a packet only where there is none. *)
Definition op_allowed (c : pk_client) (op : packet_op) : Prop :=
  match op with
  | pk_alloc | pk_reset_stats => True
  | pk_free i => is_Some (kc_held c !! i)
  | pk_create data len => 0 <= len <= zlen data
  | pk_ref d | pk_unref d => d ∈ kc_refs c
  | pk_attach i d => d ∈ kc_refs c /\ exists p, kc_held c !! i = Some p /\ pp_data p = NULL
  | pk_write i _ => is_Some (kc_held c !! i)
  end.
Definition write_packet (i : nat) (f : pooled_packet -> pooled_packet) : K unit :=
  pool ← pk_get_pool;
  packets ← lift (pl_packets pool);
  p ← lift (rd packets (Z.of_nat i));
  packets ← lift (wr packets (Z.of_nat i) (f p));
  pk_put_pool (pool <| pl_packets := Ptr packets |>).
Definition packet_exec (op : packet_op) : K packet_answer :=
  match op with
  | pk_alloc => p ← xgl_packet_alloc; mret (pk_packet p)
  | pk_free i => _ ← xgl_packet_free (Ptr i); mret pk_done
  | pk_create data len => d ← xgl_packet_data_create (Ptr data) len; mret (pk_data_at d)
  | pk_ref d => _ ← xgl_packet_data_ref (Ptr d); mret pk_done
  | pk_unref d => _ ← xgl_packet_data_unref (Ptr d); mret pk_done
  | pk_attach i d => _ ← write_packet i (fun p => p <| pp_data := Ptr d |>); mret pk_done
  | pk_write i fields => _ ← write_packet i (fun p => p <| pp_fields := fields |>); mret pk_done
  | pk_reset_stats => _ ← xgl_packet_pool_reset_stats; mret pk_done
  end.

(** The specification: a queue of free packets, and references that are counted
    by being listed. *)
Inductive client_step : pk_client -> packet_op -> packet_answer -> pk_client -> Prop :=
| cs_alloc c i free :
    kc_free c = i :: free ->
    client_step c pk_alloc (pk_packet (Ptr i))
      (c <| kc_free := free |> <| kc_held := <[i := zero_pooled]> (kc_held c) |>
         <| kc_peak := Z.max (kc_peak c) (pk_used c + 1) |>)
| cs_exhausted c : kc_free c = [] -> client_step c pk_alloc (pk_packet NULL) c
| cs_free c i p :
    kc_held c !! i = Some p ->
    client_step c (pk_free i) pk_done
      (c <| kc_free := kc_free c ++ [i] |> <| kc_held := delete i (kc_held c) |>
         <| kc_content := live_content (kc_refs c ++ packet_refs (delete i (kc_held c))) (kc_content c) |>)
| cs_create c data len d :
    0 < len -> kc_content c !! d = None ->
    client_step c (pk_create data len) (pk_data_at (Ptr d))
      (c <| kc_refs := d :: kc_refs c |> <| kc_content := <[d := take (Z.to_nat len) data]> (kc_content c) |>)
| cs_no_memory c data len : client_step c (pk_create data len) (pk_data_at NULL) c
| cs_ref c d : client_step c (pk_ref d) pk_done (c <| kc_refs := d :: kc_refs c |>)
| cs_unref c d refs :
    kc_refs c ≡ₚ d :: refs ->
    client_step c (pk_unref d) pk_done
      (c <| kc_refs := refs |>
         <| kc_content := live_content (refs ++ packet_refs (kc_held c)) (kc_content c) |>)
| cs_attach c i d p refs :
    kc_held c !! i = Some p -> kc_refs c ≡ₚ d :: refs ->
    client_step c (pk_attach i d) pk_done
      (c <| kc_refs := refs |> <| kc_held := <[i := (p <| pp_data := Ptr d |>)]> (kc_held c) |>)
| cs_write c i p fields :
    kc_held c !! i = Some p ->
    client_step c (pk_write i fields) pk_done (c <| kc_held := <[i := (p <| pp_fields := fields |>)]> (kc_held c) |>)
| cs_reset_stats c : client_step c pk_reset_stats pk_done (c <| kc_peak := pk_used c |>).

(** ** References *)

Definition refs_of (d : addr) (R : list addr) : Z := zlen (filter (fun e => e = d) R).
#[export] Instance refs_of_proper d : Proper ((≡ₚ) ==> eq) (refs_of d).
Proof. intros R R' H. unfold refs_of, zlen. by rewrite H. Qed.
Lemma refs_of_cons d e R : refs_of d (e :: R) = (if decide (e = d) then 1 else 0) + refs_of d R.
Proof. unfold refs_of. rewrite filter_cons. case_decide; [rewrite zlen_cons; lia|lia]. Qed.
Lemma refs_of_nonneg d R : 0 <= refs_of d R.
Proof. apply zlen_nonneg. Qed.
Lemma refs_of_pos d R : 0 < refs_of d R <-> d ∈ R.
Proof.
  induction R as [|e R IH]; [split; [by cbv|by intros ?%elem_of_nil]|].
  rewrite refs_of_cons, elem_of_cons, <- IH. pose proof (refs_of_nonneg d R). case_decide as Hed; [split; [by left|lia]|].
  split; [right; lia|intros [?|?]; [congruence|lia]].
Qed.
Lemma refs_of_zero d R : refs_of d R = 0 <-> d ∉ R.
Proof. rewrite <- refs_of_pos. pose proof (refs_of_nonneg d R). lia. Qed.
Lemma refs_of_length d R : refs_of d R <= zlen R.
Proof. unfold refs_of, zlen. pose proof (length_filter (fun e => e = d) R). lia. Qed.

(** The data and the buffers that the references [R] keep alive. *)
Record data_ok (R : list addr) (content : gmap addr bytes) (data : gmap addr shared_data_t)
    (buffers : gmap addr bytes) : Prop := {
  do_live : forall d o, data !! d = Some o ->
    0 < refs_of d R /\ sd_ref_count o = refs_of d R /\
    exists b bs, sd_data o = Ptr b /\ sd_owned_data o = Ptr b /\ buffers !! b = Some bs /\
      content !! d = Some bs /\ sd_data_len o = zlen bs;
  do_dead : forall d, data !! d = None -> refs_of d R = 0 /\ content !! d = None;
  do_distinct : forall d1 d2 o1 o2, data !! d1 = Some o1 -> data !! d2 = Some o2 ->
    sd_owned_data o1 = sd_owned_data o2 -> d1 = d2;
  do_owned : forall b, is_Some (buffers !! b) -> exists d o, data !! d = Some o /\ sd_owned_data o = Ptr b
}.
Lemma data_ok_ext R R' content data buffers :
  (forall d, refs_of d R = refs_of d R') -> data_ok R content data buffers -> data_ok R' content data buffers.
Proof. intros H [Hl Hd Hi Ho]. split; intros; rewrite <- ?H; eauto. Qed.
Lemma data_ok_perm R R' content data buffers :
  R ≡ₚ R' -> data_ok R content data buffers -> data_ok R' content data buffers.
Proof. intros H. apply data_ok_ext. intros d. by rewrite H. Qed.

Lemma wp_deref {A} (f : pk_world -> M A) a (Q : A -> pk_world -> Prop) w : f w = Some a -> Q a w -> wp (deref f) Q w.
Proof. unfold wp, deref, lift. by intros ->. Qed.
Lemma wp_pk_get_pool Q w : Q (pw_pool w) w -> wp pk_get_pool Q w.
Proof. done. Qed.
Lemma wp_pk_put_pool p Q w : Q tt (w <| pw_pool := p |>) -> wp (pk_put_pool p) Q w.
Proof. done. Qed.
Ltac pk_step :=
  lazymatch goal with
  | |- wp pk_get_pool _ _ => apply wp_pk_get_pool
  | |- wp (pk_put_pool _) _ _ => apply wp_pk_put_pool
  | _ => st_step
  end.
Lemma data_ok_at R content data buffers d :
  data_ok R content data buffers -> d ∈ R -> exists o, data !! d = Some o.
Proof.
  intros H Hd. destruct (data !! d) as [o|] eqn:E; [by eauto|]. apply (do_dead _ _ _ _ H) in E as [E _].
  apply refs_of_pos in Hd. lia.
Qed.

Lemma data_ok_ref R content data buffers d o :
  data_ok R content data buffers -> data !! d = Some o ->
  data_ok (d :: R) content (<[d := (o <| sd_ref_count := sd_ref_count o + 1 |>)]> data) buffers.
Proof.
  intros [Hl Hd Hi Ho] Hdo. split.
  - intros e o' [[<- <-]|[Hne He]]%lookup_insert_Some; rewrite refs_of_cons.
    + rewrite decide_True by done. destruct (Hl _ _ Hdo) as (? & Hc & Hrest). cbn. rewrite Hc. split_and!; [lia|lia|done].
    + rewrite decide_False by done. apply (Hl _ _ He).
  - intros e [He Hne]%lookup_insert_None. rewrite refs_of_cons, decide_False by done. by apply Hd.
  - intros d1 d2 o1 o2 H1 H2 Heq. apply lookup_insert_Some in H1, H2.
    destruct H1 as [[<- <-]|[? ?]], H2 as [[<- <-]|[? ?]]; eauto.
  - intros b (e & o' & He & Hb)%Ho. destruct (decide (e = d)) as [->|Hne].
    + exists d, (o <| sd_ref_count := sd_ref_count o + 1 |>). rewrite lookup_insert_eq. replace o' with o in Hb by congruence. done.
    + exists e, o'. by rewrite lookup_insert_ne.
Qed.
Lemma data_ok_create R content data buffers d b bs :
  data_ok R content data buffers -> data !! d = None -> buffers !! b = None ->
  data_ok (d :: R) (<[d := bs]> content) (<[d := mk_shared 1 (zlen bs) (Ptr b) (Ptr b)]> data) (<[b := bs]> buffers).
Proof.
  intros [Hl Hd Hi Ho] Hfd Hfb.
  assert (forall e o, data !! e = Some o -> sd_owned_data o <> Ptr b) as Hnb.
  { intros e o He Heq. destruct (Hl _ _ He) as (_ & _ & b' & bs' & _ & Hb' & Hbs & _). congruence. }
  split.
  - intros e o' [[<- <-]|[Hne He]]%lookup_insert_Some; rewrite refs_of_cons.
    + rewrite decide_True by done. destruct (Hd _ Hfd) as [-> _]. split_and!; [lia|done|]. exists b, bs. by rewrite !lookup_insert_eq.
    + rewrite decide_False by done. destruct (Hl _ _ He) as (H1 & H2 & b' & bs' & H3 & H4 & H5 & H6 & H7).
      split_and!; [done..|]. exists b', bs'. rewrite !lookup_insert_ne; [done|done|]. intros ->. by eapply Hnb.
  - intros e [He Hne]%lookup_insert_None. rewrite refs_of_cons, decide_False, lookup_insert_ne by done. by apply Hd.
  - intros d1 d2 o1 o2 H1 H2 Heq. apply lookup_insert_Some in H1, H2.
    destruct H1 as [[<- <-]|[? H1]], H2 as [[<- <-]|[? H2]]; [done| | |by eauto]; cbn in Heq; exfalso; by eapply Hnb.
  - intros b' [<-|[Hne Hb]]%lookup_insert_is_Some.
    + exists d. eexists. by rewrite lookup_insert_eq.
    + apply Ho in Hb as (e & o & He & Hb). exists e, o. rewrite lookup_insert_ne; [done|]. congruence.
Qed.

Lemma live_content_lookup R content d :
  live_content R content !! d = if decide (d ∈ R) then content !! d else None.
Proof.
  unfold live_content. destruct (content !! d) as [bs|] eqn:E.
  - case_decide; [by apply map_lookup_filter_Some|]. apply map_lookup_filter_None. right. by intros ? _.
  - case_decide; apply map_lookup_filter_None; by left.
Qed.
Lemma data_ok_unref R content data buffers d o :
  data_ok (d :: R) content data buffers -> data !! d = Some o -> 0 < refs_of d R ->
  data_ok R (live_content R content) (<[d := (o <| sd_ref_count := sd_ref_count o - 1 |>)]> data) buffers.
Proof.
  intros [Hl Hd Hi Ho] Hdo Hpos. split.
  - intros e o' He. rewrite live_content_lookup. apply lookup_insert_Some in He as [[<- <-]|[Hne He]].
    + rewrite decide_True by (by apply refs_of_pos). destruct (Hl _ _ Hdo) as (_ & Hc & Hrest).
      rewrite refs_of_cons, decide_True in Hc by done. cbn. split_and!; [done|lia|done].
    + destruct (Hl _ _ He) as (Hp & Hc & Hrest). rewrite refs_of_cons, decide_False in Hp, Hc by done.
      rewrite decide_True by (by apply refs_of_pos). done.
  - intros e [He Hne]%lookup_insert_None. destruct (Hd _ He) as [Hr Hc].
    rewrite refs_of_cons, decide_False in Hr by done. rewrite live_content_lookup, Hc. split; [done|by destruct (decide (e ∈ R))].
  - intros d1 d2 o1 o2 H1 H2 Heq. apply lookup_insert_Some in H1, H2.
    destruct H1 as [[<- <-]|[? ?]], H2 as [[<- <-]|[? ?]]; eauto.
  - intros b (e & o' & He & Hb)%Ho. destruct (decide (e = d)) as [->|Hne].
    + exists d. eexists. rewrite lookup_insert_eq. split; [done|]. cbn. congruence.
    + exists e, o'. by rewrite lookup_insert_ne.
Qed.
Lemma data_ok_last R content data buffers d o b :
  data_ok (d :: R) content data buffers -> data !! d = Some o -> refs_of d R = 0 -> sd_owned_data o = Ptr b ->
  data_ok R (live_content R content) (delete d data) (delete b buffers).
Proof.
  intros [Hl Hd Hi Ho] Hdo Hz Hb. split.
  - intros e o' [Hne He]%lookup_delete_Some. destruct (Hl _ _ He) as (Hp & Hc & b' & bs & H1 & H2 & H3 & H4 & H5).
    rewrite refs_of_cons, decide_False in Hp, Hc by done.
    split_and!; [done..|]. exists b', bs. rewrite live_content_lookup, decide_True by (by apply refs_of_pos).
    rewrite lookup_delete_ne; [done|]. intros ->. apply Hne. eapply Hi; [exact Hdo|exact He|congruence].
  - intros e [->|He]%lookup_delete_None; rewrite live_content_lookup.
    + rewrite decide_False by (by apply refs_of_zero). done.
    + destruct (Hd _ He) as [Hr Hc]. rewrite refs_of_cons in Hr. pose proof (refs_of_nonneg e R). rewrite Hc.
      split; [destruct (decide (d = e)); lia|by destruct (decide (e ∈ R))].
  - intros d1 d2 o1 o2 [_ H1]%lookup_delete_Some [_ H2]%lookup_delete_Some. eauto.
  - intros b' [x [Hne Hx]%lookup_delete_Some]. destruct (Ho b') as (e & o' & He & Hb'); [by eexists|].
    exists e, o'. rewrite lookup_delete_ne; [done|]. intros <-. congruence.
Qed.

(** Giving up one reference: the count goes down, and the last one frees both. *)
Lemma unref_run R content d w :
  data_ok (d :: R) content (pw_data w) (pw_buffers w) ->
  wp (xgl_packet_data_unref (Ptr d)) (fun _ w' =>
    data_ok R (live_content R content) (pw_data w') (pw_buffers w') /\
    pw_pool w' = pw_pool w /\ pw_heap w' = pw_heap w) w.
Proof.
  intros H. destruct (data_ok_at _ _ _ _ d H ltac:(left)) as [o Hdo].
  destruct (do_live _ _ _ _ H _ _ Hdo) as (_ & Hc & b & bs & _ & Hb & Hbs & _).
  rewrite refs_of_cons, decide_True in Hc by done. pose proof (refs_of_nonneg d R) as Hn.
  unfold xgl_packet_data_unref. pk_step. eapply wp_deref; [exact Hdo|]. replace (0 <? sd_ref_count o) with true by lia.
  pk_step. pk_step. change (sd_ref_count (o <| sd_ref_count := sd_ref_count o - 1 |>)) with (sd_ref_count o - 1).
  destruct (Z.eqb_spec (sd_ref_count o - 1) 0) as [Hz|Hz].
  - pk_step. unfold free_owned. change (sd_owned_data (o <| sd_ref_count := sd_ref_count o - 1 |>)) with (sd_owned_data o).
    rewrite Hb. pk_step. eapply wp_deref; [exact Hbs|]. pk_step. pk_step.
    split; [|done]. cbn. rewrite delete_insert_eq. eapply data_ok_last; [exact H|exact Hdo|lia|exact Hb].
  - pk_step. split; [|done]. cbn. eapply data_ok_unref; [exact H|exact Hdo|lia].
Qed.

(** ** The free list *)

Lemma rd_nat {A} (l : list A) i x : l !! i = Some x -> rd l (Z.of_nat i) = Some x.
Proof. intros H. unfold rd. rewrite Nat2Z.id, H. by destruct i. Qed.
Lemma node_of_inj i j : node_of i = node_of j -> i = j.
Proof. unfold node_of. apply SuccNat2Pos.inj. Qed.
#[export] Instance node_of_Inj : Inj (=) (=) node_of := node_of_inj.
Lemma entry_node i : entry_of (node_of i) = i.
Proof. unfold entry_of, node_of. by rewrite SuccNat2Pos.id_succ. Qed.
Lemma list_rep_nodes h l xs x : list_rep h l xs -> x ∈ xs -> is_Some (h !! x).
Proof.
  intros H (pre & post & ->)%list_elem_of_split. apply list_rep_split in H as (_&_&_&_&_&_&Hx&_). by eexists.
Qed.
Lemma list_rep_insert h l xs x v : list_rep h l xs -> x ∉ xs -> list_rep (<[x := v]> h) l xs.
Proof. intros (H1 & H2 & H3) Hx. split; [done|]. split; [by apply dls_insert|done]. Qed.

(** [N] packets, of which [free] are on the list and [held] are in use. *)
Record pool_ok (N : nat) (free : list nat) (held : gmap nat pooled_packet) (packets : list pooled_packet)
    (nodes : heap) (fl : xgl_list_t) : Prop := {
  po_length : length packets = N;
  po_held : forall i p, held !! i = Some p -> packets !! i = Some p;
  po_list : list_rep nodes fl (node_of <$> free);
  po_nodes : forall i, (i < N)%nat -> is_Some (nodes !! node_of i);
  po_nodup : NoDup free;
  po_part : forall i, (i < N)%nat <-> i ∈ free \/ is_Some (held !! i);
  po_apart : forall i, i ∈ free -> held !! i = None;
  po_clean : forall i, i ∈ free -> packets !! i = Some zero_pooled
}.
(** The pool object. *)
Abbreviation pool_of N free packets nodes fl peak :=
  (mk_packet_pool (Ptr packets) nodes fl (Z.of_nat N) (zlen free) peak).

Lemma pool_ok_size N free held packets nodes fl :
  pool_ok N free held packets nodes fl -> zlen free + Z.of_nat (size held) = Z.of_nat N.
Proof.
  intros [_ _ _ _ Hnd Hpart Hapart _].
  assert (free ++ (map_to_list held).*1 ≡ₚ seq 0 N) as Hp.
  { apply NoDup_Permutation; [apply NoDup_app; split_and!; [done| |apply NoDup_fst_map_to_list]|apply NoDup_seq|].
    - intros i Hi ((j & p) & -> & Hj)%list_elem_of_fmap. apply elem_of_map_to_list in Hj. cbn in *. apply Hapart in Hi. congruence.
    - intros i. rewrite elem_of_app, elem_of_seq, list_elem_of_fmap. cbn. split.
      + intros [Hi|((j & p) & -> & Hj%elem_of_map_to_list)]; (split; [lia|]); apply Hpart; [by left|right; by eexists].
      + intros [_ [Hi|[p Hp]]%Hpart]; [by left|right]. exists (i, p). split; [done|]. by apply elem_of_map_to_list. }
  apply Permutation_length in Hp. rewrite length_app, length_fmap, length_map_to_list, length_seq in Hp. unfold zlen. lia.
Qed.

Section pool.
  Context (N : nat).

Lemma clear_run packets nodes fl total count peak i :
  (i < length packets)%nat ->
  clear_packet (mk_packet_pool (Ptr packets) nodes fl total count peak) i =
    Some (mk_packet_pool (Ptr (<[i := zero_pooled]> packets)) (<[node_of i := mk_node NULL NULL]> nodes) fl total count peak).
Proof.
  intros Hi. unfold clear_packet, wr. cbn [mbind option_bind pl_packets].
  replace ((0 <=? Z.of_nat i) && (Z.of_nat i <? zlen packets)) with true by (unfold zlen; lia). by rewrite Nat2Z.id.
Qed.
Lemma held_cleared i free held packets nodes fl p :
  pool_ok N free held packets nodes fl -> i ∈ free -> 
  forall j q, <[i := p]> held !! j = Some q -> <[i := p]> packets !! j = Some q.
Proof.
  intros H Hi j q [[<- <-]|[Hne Hj]]%lookup_insert_Some.
  - apply list_lookup_insert_eq. rewrite (po_length _ _ _ _ _ _ H). apply (po_part _ _ _ _ _ _ H). by left.
  - rewrite list_lookup_insert_ne by done. by apply (po_held _ _ _ _ _ _ H).
Qed.

(** Taking the first free packet out and clearing it. *)
Lemma take_run i free held packets nodes fl :
  pool_ok N (i :: free) held packets nodes fl ->
  exists nodes' fl', xgl_list_remove_head nodes fl = Some (Ptr (node_of i), nodes', fl') /\
    pool_ok N free (<[i := zero_pooled]> held) (<[i := zero_pooled]> packets) (<[node_of i := mk_node NULL NULL]> nodes') fl'.
Proof.
  intros H. pose proof (held_cleared i _ _ _ _ _ zero_pooled H ltac:(left)) as Hheld. destruct H as [Hlen _ Hlist Hnodes Hnd Hpart Hapart Hclean].
  apply NoDup_cons in Hnd as [Hni Hnd]. destruct (list_rep_peek _ _ _ Hlist) as (Hh & _).
  destruct (remove_rep nodes fl [] (node_of i) (fmap (M:=list) node_of free) Hlist) as (nodes' & fl' & Hrun & Hrep & Hu & Hx).
  exists nodes', fl'. unfold xgl_list_remove_head. rewrite Hh. cbn -[xgl_list_remove]. rewrite Hrun. split; [done|].
  assert (node_of i ∉ (node_of <$> free : list addr)) as Hfresh by (intros (j & ->%node_of_inj & ?)%list_elem_of_fmap; done).
  split; [by rewrite length_insert|done|by apply list_rep_insert| |done| | |].
  - intros j Hj. destruct (decide (j = i)) as [->|Hne]; [rewrite lookup_insert_eq; by eexists|].
    rewrite lookup_insert_ne by (by intros ?%node_of_inj). destruct (decide (j ∈ free)) as [Hf|Hf].
    + apply (list_rep_nodes _ _ _ _ Hrep). by apply list_elem_of_fmap_2.
    + rewrite Hu; [by apply Hnodes|]. cbn [app]. rewrite <- fmap_cons.
      intros (k & ->%node_of_inj & [->|?]%elem_of_cons)%list_elem_of_fmap; done.
  - intros j. rewrite Hpart, elem_of_cons, lookup_insert_is_Some. destruct (decide (i = j)); naive_solver.
  - intros j Hj. rewrite lookup_insert_ne by congruence. apply Hapart. by right.
  - intros j Hj. rewrite list_lookup_insert_ne by congruence. apply Hclean. by right.
Qed.
(** Clearing a packet in use and putting it at the end of the free list. *)
Lemma give_run i p free held packets nodes fl :
  pool_ok N free held packets nodes fl -> held !! i = Some p ->
  exists nodes' fl', xgl_list_insert_tail (<[node_of i := mk_node NULL NULL]> nodes) fl (node_of i) = Some (nodes', fl') /\
    pool_ok N (free ++ [i]) (delete i held) (<[i := zero_pooled]> packets) nodes' fl'.
Proof.
  intros [Hlen Hheld Hlist Hnodes Hnd Hpart Hapart Hclean] Hi.
  assert (i ∉ free) as Hni by (intros Hin%Hapart; congruence).
  assert (node_of i ∉ (node_of <$> free : list addr)) as Hfresh by (intros (j & ->%node_of_inj & ?)%list_elem_of_fmap; done).
  destruct (insert_tail_rep (<[node_of i := mk_node NULL NULL]> nodes) fl (fmap (M:=list) node_of free) (node_of i))
    as (nodes' & fl' & Hrun & Hrep & Hu); [by apply list_rep_insert|rewrite lookup_insert_eq; by eexists|done|].
  exists nodes', fl'. split; [done|]. rewrite <- fmap_app in Hrep || idtac.
  split; [by rewrite length_insert| |by rewrite fmap_app| | | | |].
  - intros j q [Hne Hj]%lookup_delete_Some. rewrite list_lookup_insert_ne by done. by apply Hheld.
  - intros j Hj. destruct (decide (j ∈ free \/ j = i)) as [Hf|Hf].
    + apply (list_rep_nodes _ _ _ _ Hrep). apply elem_of_app. destruct Hf as [Hf| ->]; [left; by apply list_elem_of_fmap_2|right; by left].
    + rewrite Hu; [rewrite lookup_insert_ne by (intros ?%node_of_inj; naive_solver); by apply Hnodes|].
      intros [->%node_of_inj|(k & ->%node_of_inj & ?)%list_elem_of_fmap]%elem_of_cons; naive_solver.
  - apply NoDup_app. split_and!; [done| |apply NoDup_singleton]. intros x Hx ->%list_elem_of_singleton. done.
  - intros j. rewrite Hpart, elem_of_app, list_elem_of_singleton, lookup_delete_is_Some. destruct (decide (i = j)) as [<-|]; naive_solver.
  - intros j [Hj| ->%list_elem_of_singleton]%elem_of_app; [|by rewrite lookup_delete_eq].
    rewrite lookup_delete_ne by (intros ->; done). by apply Hapart.
  - intros j [Hj| ->%list_elem_of_singleton]%elem_of_app.
    + rewrite list_lookup_insert_ne by (intros ->; done). by apply Hclean.
    + apply list_lookup_insert_eq. apply Hheld, lookup_lt_Some in Hi. lia.
Qed.
End pool.

(** ** Every request keeps the promise *)

Definition data_ref (p : pooled_packet) : list addr := match pp_data p with Ptr d => [d] | NULL => [] end.
Lemma packet_refs_insert held i p : held !! i = None -> packet_refs (<[i := p]> held) ≡ₚ data_ref p ++ packet_refs held.
Proof.
  intros Hi. unfold packet_refs, data_ref. rewrite (map_to_list_insert held i p Hi). cbn.
  by destruct (pp_data p).
Qed.
Lemma packet_refs_delete held i p : held !! i = Some p -> packet_refs held ≡ₚ data_ref p ++ packet_refs (delete i held).
Proof.
  intros Hi. rewrite <- (insert_delete_id held i p Hi) at 1. apply packet_refs_insert, lookup_delete_eq.
Qed.
Lemma packet_refs_update held i p q : held !! i = Some p ->
  data_ref p ++ packet_refs (<[i := q]> held) ≡ₚ data_ref q ++ packet_refs held.
Proof.
  intros Hi. rewrite <- insert_delete_eq, packet_refs_insert, (packet_refs_delete held i p Hi) by apply lookup_delete_eq.
  by rewrite !app_assoc, (Permutation_app_comm (data_ref p)).
Qed.

(** The world agrees with the specification. *)
Record pk_rep (N : nat) (w : pk_world) (c : pk_client) : Prop := {
  pr_pool : exists packets nodes fl, pw_pool w = pool_of N (kc_free c) packets nodes fl (kc_peak c) /\
    pool_ok N (kc_free c) (kc_held c) packets nodes fl;
  pr_data : data_ok (all_refs c) (kc_content c) (pw_data w) (pw_buffers w)
}.

Section requests.
  Context (N : nat) (HN : Z.of_nat N < 2 ^ 64).
Abbreviation good c op := (fun r w' => exists c', client_step c op r c' /\ pk_rep N w' c' /\
  zlen (all_refs c') <= zlen (all_refs c) + 1).


Lemma list_empty_spec nodes fl xs : list_rep nodes fl xs -> xgl_list_is_empty fl = bool_decide (xs = []).
Proof. intros H. by destruct (list_rep_peek _ _ _ H) as (_ & _ & ? & _). Qed.
Lemma pk_alloc_run i free held packets nodes fl peak data bufs hp :
  pool_ok N (i :: free) held packets nodes fl ->
  exists packets' nodes' fl', pool_ok N free (<[i := zero_pooled]> held) packets' nodes' fl' /\
    xgl_packet_alloc (mk_pk_world (pool_of N (i :: free) packets nodes fl peak) data bufs hp) =
      Some (Ptr i, mk_pk_world (pool_of N free packets' nodes' fl' (Z.max peak (Z.of_nat (size held) + 1))) data bufs hp).
Proof.
  intros H. pose proof (pool_ok_size _ _ _ _ _ _ H) as Hsize. rewrite zlen_cons in Hsize.
  destruct (take_run N i free held packets nodes fl H) as (nodes' & fl' & Hrun & H').
  exists (<[i := zero_pooled]> packets), (<[node_of i := mk_node NULL NULL]> nodes'), fl'. split; [exact H'|].
  unfold xgl_packet_alloc, mbind, ST_bind, pk_get_pool, gets. cbn [pw_pool pl_free_list pl_nodes].
  rewrite (list_empty_spec _ _ _ (po_list _ _ _ _ _ _ H)), bool_decide_eq_false_2 by done.
  unfold lift at 1. rewrite Hrun. cbn [mbind option_bind].
  pose proof (zlen_nonneg free). rewrite entry_node. cbn. rewrite zlen_cons.
  replace (u64 (1 + zlen free - 1)) with (zlen free) by (unfold u64; rewrite Z.mod_small; lia).
  replace (u64 (Z.of_nat N - zlen free)) with (Z.of_nat (size held) + 1) by (unfold u64; rewrite Z.mod_small; lia).
  replace (if peak <? _ then _ else _) with (pool_of N free packets nodes' fl' (Z.max peak (Z.of_nat (size held) + 1)))
    by (destruct (Z.ltb_spec peak (Z.of_nat (size held) + 1)); do 2 f_equal; lia).
  unfold lift. rewrite clear_run; [done|]. rewrite (po_length _ _ _ _ _ _ H). apply (po_part _ _ _ _ _ _ H). left. by left.
Qed.
Lemma alloc_sim w c : pk_rep N w c -> wp (packet_exec pk_alloc) (good c pk_alloc) w.
Proof.
  intros [(packets & nodes & fl & Hw & H) Hd]. destruct w as [pool data bufs hp]. cbn in Hw, Hd. subst pool.
  cbn [packet_exec]. pk_step. destruct (kc_free c) as [|i free] eqn:Hfree.
  - apply wp_run. exists NULL, (mk_pk_world (pool_of N (@nil nat) packets nodes fl (kc_peak c)) data bufs hp). split.
    + unfold xgl_packet_alloc, mbind, ST_bind, pk_get_pool, gets. cbn [pw_pool pl_free_list pl_nodes].
      by rewrite (list_empty_spec _ _ _ (po_list _ _ _ _ _ _ H)).
    + pk_step. exists c. split; [by constructor|]. split; [|lia]. split; [|done]. exists packets, nodes, fl. by rewrite Hfree.
  - destruct (pk_alloc_run i free (kc_held c) packets nodes fl (kc_peak c) data bufs hp H) as (packets' & nodes' & fl' & H' & Hrun).
    assert (kc_held c !! i = None) as Hi by (apply (po_apart _ _ _ _ _ _ H); left).
    apply wp_run. eexists _, _. split; [exact Hrun|]. pk_step. eexists. split; [by apply cs_alloc|].
    assert (all_refs (c <| kc_free := free |> <| kc_held := <[i := zero_pooled]> (kc_held c) |>
      <| kc_peak := Z.max (kc_peak c) (pk_used c + 1) |>) ≡ₚ all_refs c) as Hrefs.
    { unfold all_refs. cbn. by rewrite packet_refs_insert. }
    split; [|unfold zlen; rewrite Hrefs; lia]. split; [by exists packets', nodes', fl'|]. cbn.
    eapply data_ok_perm; [symmetry; exact Hrefs|done].
Qed.

Lemma data_ok_live R content data bufs : data_ok R content data bufs -> data_ok R (live_content R content) data bufs.
Proof.
  intros [Hl Hd Hi Ho]. split; [| |done|done].
  - intros d o Hdo. destruct (Hl d o Hdo) as (Hp & Hrest). rewrite live_content_lookup, decide_True by (by apply refs_of_pos). done.
  - intros d Hdd. destruct (Hd d Hdd) as [Hz Hc]. rewrite live_content_lookup, Hc. split; [done|by destruct (decide (d ∈ R))].
Qed.
Lemma drop_data_run p R content w :
  data_ok (data_ref p ++ R) content (pw_data w) (pw_buffers w) ->
  wp (match pp_data p with NULL => mret tt | Ptr d => xgl_packet_data_unref (Ptr d) end) (fun _ w' =>
    data_ok R (live_content R content) (pw_data w') (pw_buffers w') /\
    pw_pool w' = pw_pool w /\ pw_heap w' = pw_heap w) w.
Proof.
  unfold data_ref. destruct (pp_data p) as [d|]; [apply unref_run|]. intros H. apply wp_ret. split; [by apply data_ok_live|done].
Qed.
Lemma pk_free_run i p free held packets nodes fl peak w R content :
  pw_pool w = pool_of N free packets nodes fl peak ->
  pool_ok N free held packets nodes fl -> held !! i = Some p ->
  data_ok (data_ref p ++ R) content (pw_data w) (pw_buffers w) ->
  wp (xgl_packet_free (Ptr i)) (fun _ w' => (exists packets' nodes' fl',
      pw_pool w' = pool_of N (free ++ [i]) packets' nodes' fl' peak /\
      pool_ok N (free ++ [i]) (delete i held) packets' nodes' fl') /\
    data_ok R (live_content R content) (pw_data w') (pw_buffers w')) w.
Proof.
  intros Hw H Hi Hd. destruct (give_run N i p free held packets nodes fl H Hi) as (nodes' & fl' & Hrun & H').
  pose proof (pool_ok_size _ _ _ _ _ _ H') as Hsize'. pose proof (po_held _ _ _ _ _ _ H i p Hi) as Hp.
  assert (i < length packets)%nat as Hlt by (by eapply lookup_lt_Some).
  unfold xgl_packet_free. pk_step. pk_step. pk_step. rewrite Hw. eapply wp_lift; [reflexivity|]. pk_step.
  eapply wp_lift; [by apply rd_nat|].
  pk_step. eapply wp_mono; [by apply drop_data_run|]. intros _ w1 (Hd1 & Hw1 & _). pk_step. pk_step. rewrite Hw1, Hw.
  pk_step. eapply wp_lift; [by apply clear_run|]. pk_step.
  eapply wp_lift; [unfold append_free; cbn [pl_nodes pl_free_list]; by rewrite Hrun|]. pk_step. split; [|exact Hd1].
  exists (<[i := zero_pooled]> packets), nodes', fl'. split; [|done]. cbn.
  replace (zlen (free ++ [i])) with (u64 (zlen free + 1)); [done|]. rewrite zlen_app in *. pose proof (zlen_nonneg free).
  change (zlen [i]) with 1 in *. unfold u64. rewrite Z.mod_small; lia.
Qed.
Lemma free_sim w c i : pk_rep N w c -> op_allowed c (pk_free i) -> wp (packet_exec (pk_free i)) (good c (pk_free i)) w.
Proof.
  intros [(packets & nodes & fl & Hw & H) Hd] [p Hi]. cbn [packet_exec]. pk_step.
  set (R := kc_refs c ++ packet_refs (delete i (kc_held c))).
  assert (all_refs c ≡ₚ data_ref p ++ R) as Hall.
  { unfold all_refs, R. rewrite (packet_refs_delete _ _ _ Hi), !app_assoc. by rewrite (Permutation_app_comm (data_ref p)). }
  eapply wp_mono; [eapply (pk_free_run i p); [exact Hw|exact H|exact Hi|]|].
  { eapply data_ok_perm; [exact Hall|exact Hd]. }
  intros _ w' [Hpool Hdata]. pk_step. eexists. split; [by eapply cs_free|]. split; [by split|].
  unfold zlen. rewrite Hall, length_app. cbn. fold R. unfold all_refs. cbn. fold R. lia.
Qed.
Lemma wp_pk_malloc n Q w : (forall b hp, Q b (w <| pw_heap := hp |>)) -> wp (pk_malloc n) Q w.
Proof. intros HQ. unfold wp, pk_malloc. destruct (alloc_answer n (pw_heap w)) as [b hp]. apply HQ. Qed.
Lemma create_run data len R content w :
  0 <= len <= zlen data -> data_ok R content (pw_data w) (pw_buffers w) ->
  wp (xgl_packet_data_create (Ptr data) len) (fun r w' => pw_pool w' = pw_pool w /\
    match r with
    | NULL => pw_data w' = pw_data w /\ pw_buffers w' = pw_buffers w
    | Ptr d => 0 < len /\ content !! d = None /\
        data_ok (d :: R) (<[d := take (Z.to_nat len) data]> content) (pw_data w') (pw_buffers w')
    end) w.
Proof.
  intros Hlen Hd. cbn [xgl_packet_data_create]. destruct (Z.eqb_spec len 0) as [|Hz]; [by apply wp_ret|].
  pk_step. apply wp_pk_malloc. intros [] hp; [|by apply wp_ret]. cbn [negb].
  pk_step. apply wp_pk_malloc. intros [] hp'; [|by apply wp_ret]. cbn [negb].
  pk_step. eapply wp_lift. { unfold rd_bytes. by replace ((0 <=? 0) && (0 <=? len) && (0 + len <=? zlen data)) with true by lia. }
  repeat pk_step. split; [done|]. cbn.
  set (b := fresh (dom (pw_buffers w))). set (d := fresh (dom (pw_data w))).
  assert (pw_data w !! d = None) as Hfd by (apply not_elem_of_dom, is_fresh).
  assert (pw_buffers w !! b = None) as Hfb by (apply not_elem_of_dom, is_fresh).
  split; [lia|]. split; [by apply (do_dead _ _ _ _ Hd)|]. cbn [drop Z.to_nat].
  assert (zlen (take (Z.to_nat len) data) = len) as Hl by (unfold zlen in *; rewrite length_take; lia).
  pose proof (data_ok_create R content _ _ d b (take (Z.to_nat len) data) Hd Hfd Hfb) as Hnew. by rewrite Hl in Hnew.
Qed.
Lemma create_sim w c data len :
  pk_rep N w c -> op_allowed c (pk_create data len) -> wp (packet_exec (pk_create data len)) (good c (pk_create data len)) w.
Proof.
  intros [Hpool Hd] Hlen. cbn [packet_exec]. pk_step. eapply wp_mono; [by apply (create_run data len _ _ w Hlen Hd)|].
  intros [d|] w' [Hw Hr]; pk_step.
  - destruct Hr as (Hpos & Hc & Hdata). eexists. split; [by apply cs_create|]. split.
    + split; [by rewrite Hw|exact Hdata].
    + unfold all_refs. cbn. rewrite zlen_cons. lia.
  - destruct Hr as [Hr1 Hr2]. exists c. split; [constructor|]. split; [|lia]. split; [by rewrite Hw|by rewrite Hr1, Hr2].
Qed.

Lemma ref_sim w c d :
  pk_rep N w c -> op_allowed c (pk_ref d) -> zlen (all_refs c) < 2 ^ 32 - 1 -> wp (packet_exec (pk_ref d)) (good c (pk_ref d)) w.
Proof.
  intros [Hpool Hd] Hin Hb. cbn [op_allowed] in Hin. assert (d ∈ all_refs c) as Hall by (apply elem_of_app; by left).
  destruct (data_ok_at _ _ _ _ d Hd Hall) as [o Ho]. destruct (do_live _ _ _ _ Hd d o Ho) as (Hp & Hc & _).
  cbn [packet_exec xgl_packet_data_ref]. pk_step. pk_step. eapply wp_deref; [exact Ho|]. pk_step. pk_step.
  pose proof (refs_of_length d (all_refs c)).
  replace (u32 (sd_ref_count o + 1)) with (sd_ref_count o + 1) by (unfold u32; rewrite Z.mod_small; lia).
  eexists. split; [by apply cs_ref|]. split.
  - split; [exact Hpool|]. cbn. by apply data_ok_ref.
  - unfold all_refs. cbn. rewrite zlen_cons. lia.
Qed.
Lemma take_ref (d : addr) refs : d ∈ refs -> exists refs', refs ≡ₚ d :: refs'.
Proof. intros (pre & post & ->)%list_elem_of_split. exists (pre ++ post). by rewrite Permutation_middle. Qed.
Lemma unref_sim w c d :
  pk_rep N w c -> op_allowed c (pk_unref d) -> wp (packet_exec (pk_unref d)) (good c (pk_unref d)) w.
Proof.
  intros [Hpool Hd] Hin. cbn [op_allowed] in Hin. destruct (take_ref d _ Hin) as [refs Hrefs].
  assert (all_refs c ≡ₚ d :: (refs ++ packet_refs (kc_held c))) as Hall by (unfold all_refs; by rewrite Hrefs).
  cbn [packet_exec]. pk_step. eapply wp_mono; [apply unref_run; eapply data_ok_perm; [exact Hall|exact Hd]|].
  intros _ w' (Hdata & Hw & _). pk_step. eexists. split; [by apply cs_unref|]. split.
  - split; [by rewrite Hw|exact Hdata].
  - unfold zlen. rewrite Hall. unfold all_refs. cbn. lia.
Qed.

(** A client's write to a packet it holds. *)
Lemma pk_write_run i p f free held packets nodes fl peak w :
  pw_pool w = pool_of N free packets nodes fl peak -> pool_ok N free held packets nodes fl -> held !! i = Some p ->
  wp (write_packet i f) (fun _ w' => (exists packets', pw_pool w' = pool_of N free packets' nodes fl peak /\
      pool_ok N free (<[i := f p]> held) packets' nodes fl) /\ pw_data w' = pw_data w /\ pw_buffers w' = pw_buffers w) w.
Proof.
  intros Hw [Hlen Hheld Hlist Hnodes Hnd Hpart Hapart Hclean] Hi. pose proof (Hheld i p Hi) as Hp.
  assert (i < length packets)%nat as Hlt by (by eapply lookup_lt_Some).
  unfold write_packet. pk_step. pk_step. pk_step. rewrite Hw. eapply wp_lift; [reflexivity|]. pk_step.
  eapply wp_lift; [by apply rd_nat|]. pk_step.
  eapply wp_lift; [unfold wr; rewrite Nat2Z.id; by replace ((0 <=? Z.of_nat i) && (Z.of_nat i <? zlen packets)) with true by (unfold zlen; lia)|].
  pk_step. split; [|done]. eexists. split; [done|]. split; try done.
  - by rewrite length_insert.
  - intros j q [[<- <-]|[Hne Hj]]%lookup_insert_Some; [by apply list_lookup_insert_eq|].
    rewrite list_lookup_insert_ne by done. by apply Hheld.
  - intros j. rewrite Hpart, lookup_insert_is_Some. destruct (decide (i = j)) as [<-|]; [|naive_solver].
    split; [intros _; right; by left|]. intros _. right. by eexists.
  - intros j Hj. rewrite lookup_insert_ne; [by apply Hapart|]. intros <-. apply Hapart in Hj. congruence.
  - intros j Hj. rewrite list_lookup_insert_ne; [by apply Hclean|]. intros <-. apply Hapart in Hj. congruence.
Qed.
Lemma attach_sim w c i d :
  pk_rep N w c -> op_allowed c (pk_attach i d) -> wp (packet_exec (pk_attach i d)) (good c (pk_attach i d)) w.
Proof.
  intros [(packets & nodes & fl & Hw & H) Hd] (Hin & p & Hi & Hnull). destruct (take_ref d _ Hin) as [refs Hrefs].
  cbn [packet_exec]. pk_step. eapply wp_mono; [by eapply pk_write_run|].
  intros _ w' ((packets' & Hw' & H') & Hdat & Hbuf). pk_step. eexists. split; [by eapply cs_attach|].
  assert (all_refs c ≡ₚ refs ++ packet_refs (<[i := (p <| pp_data := Ptr d |>)]> (kc_held c))) as Hall.
  { unfold all_refs. rewrite Hrefs. pose proof (packet_refs_update (kc_held c) i p (p <| pp_data := Ptr d |>) Hi) as Hup.
    unfold data_ref at 1 in Hup. rewrite Hnull in Hup. cbn in Hup. rewrite Hup. apply Permutation_middle. }
  split; [|unfold zlen; rewrite Hall; unfold all_refs; cbn; lia]. split; [by exists packets', nodes, fl|]. rewrite Hdat, Hbuf.
  eapply data_ok_perm; [exact Hall|exact Hd].
Qed.
Lemma write_sim w c i fields :
  pk_rep N w c -> op_allowed c (pk_write i fields) -> wp (packet_exec (pk_write i fields)) (good c (pk_write i fields)) w.
Proof.
  intros [(packets & nodes & fl & Hw & H) Hd] [p Hi]. cbn [packet_exec]. pk_step. eapply wp_mono; [by eapply pk_write_run|].
  intros _ w' ((packets' & Hw' & H') & Hdat & Hbuf). pk_step. eexists. split; [by eapply cs_write|].
  assert (all_refs c ≡ₚ kc_refs c ++ packet_refs (<[i := (p <| pp_fields := fields |>)]> (kc_held c))) as Hall.
  { unfold all_refs. apply Permutation_app_head. pose proof (packet_refs_update (kc_held c) i p (p <| pp_fields := fields |>) Hi) as Hup.
    by apply (Permutation_app_inv_l (data_ref p)). }
  split; [|unfold zlen; rewrite Hall; unfold all_refs; cbn; lia]. split; [by exists packets', nodes, fl|]. rewrite Hdat, Hbuf.
  eapply data_ok_perm; [exact Hall|exact Hd].
Qed.
Lemma reset_sim w c : pk_rep N w c -> wp (packet_exec pk_reset_stats) (good c pk_reset_stats) w.
Proof.
  intros [(packets & nodes & fl & Hw & H) Hd]. cbn [packet_exec]. unfold xgl_packet_pool_reset_stats.
  repeat pk_step. eexists. split; [by constructor|]. split; [|unfold all_refs; cbn; lia].
  split; [|exact Hd]. exists packets, nodes, fl. split; [|exact H]. rewrite Hw. cbn.
  pose proof (pool_ok_size _ _ _ _ _ _ H) as Hs. pose proof (zlen_nonneg (kc_free c)).
  unfold xgl_packet_pool_get_used_count, pk_used. cbn. f_equal. unfold u64. rewrite Z.mod_small; lia.
Qed.
Lemma request_sim w c op :
  pk_rep N w c -> op_allowed c op -> zlen (all_refs c) < 2 ^ 32 - 1 -> wp (packet_exec op) (good c op) w.
Proof.
  intros Hw Hop Hb. destruct op.
  - by apply alloc_sim.
  - by apply free_sim.
  - by apply create_sim.
  - by apply ref_sim.
  - by apply unref_sim.
  - by apply attach_sim.
  - by apply write_sim.
  - by apply reset_sim.
Qed.
End requests.

(** ** The life of a pool *)

Definition fresh_client (N : nat) : pk_client := mk_pk_client (seq 0 N) ∅ [] ∅ 0.
Lemma init_loop_run n : forall i packets nodes fl total count peak,
  length packets = (i + n)%nat -> list_rep nodes fl (node_of <$> seq 0 i) ->
  (forall j, (j < i)%nat -> packets !! j = Some zero_pooled) ->
  exists packets' nodes' fl',
    packet_init_loop n i (mk_packet_pool (Ptr packets) nodes fl total count peak) =
      Some (mk_packet_pool (Ptr packets') nodes' fl' total count peak) /\
    length packets' = (i + n)%nat /\ list_rep nodes' fl' (node_of <$> seq 0 (i + n)) /\
    forall j, (j < i + n)%nat -> packets' !! j = Some zero_pooled.
Proof.
  induction n as [|n IH]; intros i packets nodes fl total count peak Hlen Hrep Hz; cbn [packet_init_loop].
  - rewrite Nat.add_0_r in *. by exists packets, nodes, fl.
  - rewrite clear_run by lia. cbn [mbind option_bind]. unfold append_free. cbn [pl_nodes pl_free_list].
    assert (node_of i ∉ (node_of <$> seq 0 i : list addr)) as Hfresh.
    { intros (j & ->%node_of_inj & Hj%elem_of_seq)%list_elem_of_fmap. lia. }
    destruct (insert_tail_rep (<[node_of i := mk_node NULL NULL]> nodes) fl (fmap (M:=list) node_of (seq 0 i)) (node_of i))
      as (nodes' & fl' & -> & Hrep' & _); [by apply list_rep_insert|rewrite lookup_insert_eq; by eexists|done|].
    cbn [mbind option_bind].
    destruct (IH (S i) (<[i := zero_pooled]> packets) nodes' fl' total count peak) as (packets' & nodes'' & fl'' & Hrun & Hl & Hr & Hz').
    + rewrite length_insert. lia.
    + by rewrite seq_S, fmap_app.
    + intros j Hj. destruct (decide (j = i)) as [->|]; [apply list_lookup_insert_eq; lia|].
      rewrite list_lookup_insert_ne by done. apply Hz. lia.
    + exists packets', nodes'', fl''. split; [exact Hrun|]. by replace (i + S n)%nat with (S i + n)%nat by lia.
Qed.
Lemma pk_init_run N hp : (0 < N)%nat -> Z.of_nat N * sizeof_packet < 2 ^ 64 ->
  wp (xgl_packet_pool_init (Z.of_nat N)) (fun r w => r = -1 /\ head hp = Some false \/
    r = 0 /\ head hp <> Some false /\ pk_rep N w (fresh_client N)) (mk_pk_world zero_packet_pool ∅ ∅ hp).
Proof.
  intros HN Hfit. unfold sizeof_packet in Hfit. unfold xgl_packet_pool_init. destruct (Z.eqb_spec (Z.of_nat N) 0) as [|_]; [lia|].
  replace (u64 (Z.of_nat N * sizeof_packet)) with (Z.of_nat N * sizeof_packet) by (unfold u64, sizeof_packet; rewrite Z.mod_small; lia).
  rewrite Z.div_mul, !Nat2Z.id by done. pk_step. unfold wp at 1, pk_malloc. cbn [pw_heap]. unfold alloc_answer.
  destruct (Z.eqb_spec (Z.of_nat N * sizeof_packet) 0) as [Hz|_]; [unfold sizeof_packet in Hz; lia|].
  destruct (init_loop_run N 0 (replicate N zero_pooled) ∅ xgl_list_init (Z.of_nat N) (Z.of_nat N) 0)
    as (packets & nodes & fl & Hrun & Hlen & Hrep & Hclean); [by rewrite length_replicate|by repeat constructor|lia|].
  assert (pk_rep N (mk_pk_world (pool_of N (seq 0 N) packets nodes fl 0) ∅ ∅ []) (fresh_client N)) as [Hp Hd].
  { split; [exists packets, nodes, fl; split; [done|]|].
    - split; try done; [|apply NoDup_seq| |].
      + intros i Hi. apply (list_rep_nodes _ _ _ _ Hrep). apply list_elem_of_fmap_2, elem_of_seq. lia.
      + intros i. cbn [kc_free kc_held fresh_client]. rewrite elem_of_seq. split; [left; lia|]. intros [?|[? ?]]; [lia|done].
      + intros i Hi%elem_of_seq. apply Hclean. lia.
    - assert (all_refs (fresh_client N) = []) as -> by (unfold all_refs, packet_refs; cbn; by rewrite map_to_list_empty).
      split; [intros d o Ho|intros d _|intros d1 d2 o1 o2 Ho|intros b [bs Hb]]; cbn in *; [| |by rewrite lookup_empty in Ho..|].
      + by rewrite lookup_empty in Ho.
      + by rewrite lookup_empty.
      + by rewrite lookup_empty in Hb. }
  assert (zlen (seq 0 N) = Z.of_nat N) as Hz by (unfold zlen; by rewrite length_seq).
  assert (forall hp' : heap_answers, head hp <> Some false ->
    wp (pool ← lift (packet_init_loop N 0 (zero_packet_pool <| pl_total_count := Z.of_nat N |> <| pl_free_count := Z.of_nat N |>
          <| pl_packets := Ptr (replicate N zero_pooled) |> <| pl_free_list := xgl_list_init |>)); _ ← pk_put_pool pool; mret 0)
      (fun r w => r = -1 /\ head hp = Some false \/ r = 0 /\ head hp <> Some false /\ pk_rep N w (fresh_client N))
      (mk_pk_world zero_packet_pool ∅ ∅ hp')) as Hok.
  { intros hp' Hh. pk_step. eapply wp_lift; [exact Hrun|]. repeat pk_step. right. split; [done|]. split; [done|].
    split; [|exact Hd]. rewrite Hz in Hp. exact Hp. }
  destruct hp as [|[|] hp]; [by apply Hok|by apply Hok|]. cbn [negb]. pk_step. pk_step. pk_step. by left.
Qed.

(** What can be seen between two requests: the counters are exact, every packet in
    use has what was written to it, data is allocated exactly while it is
    referenced, with its contents, and buffers exactly for such data. *)
Record packets_in_order (N : nat) (w : pk_world) (c : pk_client) : Prop := {
  pi_free : xgl_packet_pool_get_free_count (pw_pool w) = zlen (kc_free c);
  pi_used : xgl_packet_pool_get_used_count (pw_pool w) = pk_used c;
  pi_peak : xgl_packet_pool_get_peak_used (pw_pool w) = kc_peak c;
  pi_empty : xgl_packet_pool_is_empty (pw_pool w) = bool_decide (kc_held c = ∅);
  pi_full : xgl_packet_pool_is_full (pw_pool w) = bool_decide (kc_free c = []);
  pi_sum : zlen (kc_free c) + pk_used c = Z.of_nat N;
  pi_held : forall i p, kc_held c !! i = Some p -> i ∉ kc_free c /\
    exists packets, pl_packets (pw_pool w) = Ptr packets /\ packets !! i = Some p;
  pi_live : forall d, is_Some (pw_data w !! d) <-> d ∈ all_refs c;
  pi_content : forall d o, pw_data w !! d = Some o -> exists b bs, sd_data o = Ptr b /\ pw_buffers w !! b = Some bs /\
    kc_content c !! d = Some bs /\ sd_data_len o = zlen bs /\ sd_ref_count o = refs_of d (all_refs c);
  pi_buffers : forall b, is_Some (pw_buffers w !! b) -> exists d o, pw_data w !! d = Some o /\ sd_owned_data o = Ptr b
}.
Fixpoint packets_served (N : nat) (w : pk_world) (c : pk_client) (ops : list packet_op) : Prop :=
  packets_in_order N w c /\
  match ops with
  | [] => True
  | op :: ops => op_allowed c op ->
      exists r w' c', packet_exec op w = Some (r, w') /\ client_step c op r c' /\ packets_served N w' c' ops
  end.

Lemma rep_packets_in_order N w c : Z.of_nat N < 2 ^ 64 -> pk_rep N w c -> packets_in_order N w c.
Proof.
  intros HN [(packets & nodes & fl & Hw & H) Hd]. pose proof (pool_ok_size _ _ _ _ _ _ H) as Hsize.
  pose proof (zlen_nonneg (kc_free c)). assert (0 <= pk_used c) by (unfold pk_used; lia). fold (pk_used c) in Hsize.
  split; rewrite ?Hw; unfold xgl_packet_pool_get_free_count, xgl_packet_pool_get_used_count,
    xgl_packet_pool_get_peak_used, xgl_packet_pool_is_empty, xgl_packet_pool_is_full;
    cbn [pl_free_count pl_total_count pl_peak_used pl_packets]; try done.
  - unfold u64. rewrite Z.mod_small; lia.
  - apply eq_bool_prop_intro; rewrite !Is_true_true. rewrite Z.eqb_eq, bool_decide_eq_true, <- map_size_empty_iff. unfold pk_used in *. lia.
  - apply eq_bool_prop_intro; rewrite !Is_true_true. rewrite Z.eqb_eq, bool_decide_eq_true. unfold zlen. rewrite <- length_zero_iff_nil. lia.
  - intros i p Hi. split; [intros Hin; apply (po_apart _ _ _ _ _ _ H) in Hin; congruence|].
    exists packets. split; [done|]. by apply (po_held _ _ _ _ _ _ H).
  - intros d. split; [intros [o Ho]; apply refs_of_pos; apply (do_live _ _ _ _ Hd d o Ho)|].
    intros Hin. destruct (data_ok_at _ _ _ _ d Hd Hin) as [o Ho]. by eexists.
  - intros d o Ho. destruct (do_live _ _ _ _ Hd d o Ho) as (_ & Hc & b & bs & E1 & _ & E3 & E4 & E5). by exists b, bs.
  - apply (do_owned _ _ _ _ Hd).
Qed.
Lemma rep_packets_served N ops : Z.of_nat N < 2 ^ 64 -> forall w c,
  pk_rep N w c -> zlen (all_refs c) + zlen ops < 2 ^ 32 - 1 -> packets_served N w c ops.
Proof.
  intros HN. induction ops as [|op ops IH]; intros w c H Hb; (split; [by apply rep_packets_in_order|]); [done|].
  intros Hop. rewrite zlen_cons in Hb. pose proof (zlen_nonneg ops).
  assert (wp (packet_exec op) (fun r w' => exists c', client_step c op r c' /\ pk_rep N w' c' /\
    zlen (all_refs c') <= zlen (all_refs c) + 1) w) as Hrun by (apply request_sim; [done|done|done|lia]).
  apply wp_run in Hrun as (r & w' & Hrun & c' & Hstep & H' & Hb'). exists r, w', c'. split_and!; [done|done|].
  apply IH; [done|lia].
Qed.

(** ** Properties *)

(** C38. The packet pool serves its clients.  When its array is allocated, a pool of
    [N] packets serves every sequence of requests of clients that free only
    packets they hold and give up only references they have: nothing is
    undefined; packets are handed out cleared, first freed first, never one that
    is in use, and none only when all are in use; what a client writes to its
    packet stays; shared data is freed, with its buffer, exactly when the last
    reference - of a client or of a packet - is gone, so nothing leaks and
    nothing is used after it is freed; the counters are exact.  There are fewer than
    2^32 - 1 requests, so a reference count does not wrap. *)
Theorem packet_pool_serves_clients N hp ops :
  (0 < N)%nat -> Z.of_nat N * sizeof_packet < 2 ^ 64 -> zlen ops < 2 ^ 32 - 1 ->
  exists r w, xgl_packet_pool_init (Z.of_nat N) (mk_pk_world zero_packet_pool ∅ ∅ hp) = Some (r, w) /\
    (r = -1 /\ head hp = Some false \/
     r = 0 /\ head hp <> Some false /\ packets_served N w (fresh_client N) ops).
Proof.
  intros HN Hfit Hops. pose proof (pk_init_run N hp HN Hfit) as Hrun. apply wp_run in Hrun as (r & w & Hrun & Hr).
  exists r, w. split; [exact Hrun|]. destruct Hr as [Hr|(-> & Hh & Hrep)]; [by left|right]. split_and!; [done|done|].
  apply rep_packets_served; [unfold sizeof_packet in Hfit; lia|exact Hrep|]. unfold all_refs. cbn.
  unfold packet_refs. rewrite map_to_list_empty. cbn. change (zlen []) with 0. lia.
Qed.
(** Data that a client shares with a packet outlives the client's reference. *)
Definition sample_packet_ops : list packet_op :=
  [pk_alloc; pk_create [7; 8; 9] 3; pk_ref 1%positive; pk_attach 0 1%positive; pk_unref 1%positive; pk_alloc; pk_alloc;
   pk_free 0; pk_create [1] 1; pk_reset_stats; pk_alloc].
Lemma packet_pool_serves_clients_witness :
  exists r w, xgl_packet_pool_init 2 (mk_pk_world zero_packet_pool ∅ ∅ [true; true; true; true; false]) = Some (r, w) /\
    (r = -1 /\ Some true = Some false \/
     r = 0 /\ Some true <> Some false /\ packets_served 2 w (fresh_client 2) sample_packet_ops).
Proof.
  apply (packet_pool_serves_clients 2 [true; true; true; true; false] sample_packet_ops);
    [lia|unfold sizeof_packet; lia|vm_compute; reflexivity].
Defined.

(** A node that is appended to the list of which it is the only one. *)
Lemma insert_twice h l x : list_rep h l [x] ->
  xgl_list_insert_tail (<[x := mk_node NULL NULL]> h) l x =
    Some (<[x := mk_node (Ptr x) (Ptr x)]> h, mk_list (Ptr x) (Ptr x) 2).
Proof.
  intros (_ & _ & Hh & Ht & Hc). destruct l as [hd tl c]. cbn in Hh, Ht, Hc. subst hd tl c.
  unfold xgl_list_insert_tail, set_next, set_prev.
  repeat (rewrite lookup_insert_eq; cbn [mbind option_bind list_tail node_next node_prev set_field]; rewrite ?insert_insert_eq). done.
Qed.
Lemma remove_self h x :
  xgl_list_remove_head (<[x := mk_node (Ptr x) (Ptr x)]> h) (mk_list (Ptr x) (Ptr x) 2) =
    Some (Ptr x, <[x := mk_node NULL NULL]> h, mk_list (Ptr x) (Ptr x) 1).
Proof.
  unfold xgl_list_remove_head, xgl_list_remove, set_next, set_prev. cbn.
  by do 8 (rewrite ?lookup_insert_eq, ?insert_insert_eq; cbn).
Qed.

Lemma remove_only h x :
  xgl_list_remove_head (<[x := mk_node NULL NULL]> h) (mk_list (Ptr x) (Ptr x) 1) =
    Some (Ptr x, <[x := mk_node NULL NULL]> h, mk_list NULL NULL 0).
Proof.
  unfold xgl_list_remove_head, xgl_list_remove, set_next, set_prev. cbn.
  by do 8 (rewrite ?lookup_insert_eq, ?insert_insert_eq; cbn).
Qed.
Lemma free_again i packets nodes fl total count peak w :
  pw_pool w = mk_packet_pool (Ptr packets) nodes fl total count peak -> packets !! i = Some zero_pooled ->
  list_rep nodes fl [node_of i] ->
  wp (xgl_packet_free (Ptr i)) (fun _ w' => pw_pool w' = mk_packet_pool (Ptr (<[i := zero_pooled]> packets))
    (<[node_of i := mk_node (Ptr (node_of i)) (Ptr (node_of i))]> nodes) (mk_list (Ptr (node_of i)) (Ptr (node_of i)) 2)
    total (u64 (count + 1)) peak) w.
Proof.
  intros Hw Hp Hrep. unfold xgl_packet_free. pk_step. pk_step. pk_step. rewrite Hw. eapply wp_lift; [reflexivity|]. pk_step.
  eapply wp_lift; [by apply rd_nat|]. pk_step. apply wp_ret.
  pk_step. pk_step. rewrite Hw. pk_step. eapply wp_lift; [apply clear_run; by eapply lookup_lt_Some|]. pk_step.
  eapply wp_lift; [unfold append_free; cbn [pl_nodes pl_free_list]; by rewrite insert_twice|]. by pk_step.
Qed.
Lemma alloc_next i packets nodes nodes' fl fl' total count peak w :
  pw_pool w = mk_packet_pool (Ptr packets) nodes fl total count peak -> (i < length packets)%nat ->
  xgl_list_is_empty fl = false -> xgl_list_remove_head nodes fl = Some (Ptr (node_of i), nodes', fl') ->
  wp xgl_packet_alloc (fun r w' => r = Ptr i /\ exists count' peak',
    pw_pool w' = mk_packet_pool (Ptr (<[i := zero_pooled]> packets)) (<[node_of i := mk_node NULL NULL]> nodes') fl'
                   total count' peak') w.
Proof.
  intros Hw Hi He Hrun. unfold xgl_packet_alloc. pk_step. pk_step. rewrite Hw. cbn [pl_free_list pl_nodes]. rewrite He. cbv iota.
  pk_step. eapply wp_lift; [exact Hrun|]. cbv iota. pk_step.
  set (count' := u64 (count - 1)). set (used := u64 (total - count')). rewrite entry_node.
  eapply (wp_lift _ (mk_packet_pool (Ptr (<[i := zero_pooled]> packets)) (<[node_of i := mk_node NULL NULL]> nodes') fl'
    total count' (if peak <? used then used else peak))).
  - rewrite <- (clear_run packets nodes' fl' total count' (if peak <? used then used else peak) i Hi).
    cbn [pl_peak_used pl_total_count pl_free_count set_field]. fold count' used. by destruct (peak <? used).
  - pk_step. pk_step. split; [done|]. by exists count', (if peak <? used then used else peak).
Qed.

(** The packet pool does not notice a double free: when all packets are in use
    and a client frees the same packet twice, both calls succeed, and the next
    two allocations hand the packet out twice - two clients then write to it. *)
Theorem packet_double_free_hands_out_twice N w c i p :
  Z.of_nat N < 2 ^ 64 -> pk_rep N w c -> kc_free c = [] -> kc_held c !! i = Some p ->
  exists w', (_ ← xgl_packet_free (Ptr i); _ ← xgl_packet_free (Ptr i);
              a ← xgl_packet_alloc; b ← xgl_packet_alloc; mret (a, b)) w = Some (Ptr i, Ptr i, w').
Proof.
  intros HN [(packets & nodes & fl & Hw & H) Hd] Hfree Hi. rewrite Hfree in Hw, H.
  assert (all_refs c ≡ₚ data_ref p ++ (kc_refs c ++ packet_refs (delete i (kc_held c)))) as Hall.
  { unfold all_refs. rewrite (packet_refs_delete _ _ _ Hi), !app_assoc. by rewrite (Permutation_app_comm (data_ref p)). }
  assert (wp (_ ← xgl_packet_free (Ptr i); _ ← xgl_packet_free (Ptr i);
              a ← xgl_packet_alloc; b ← xgl_packet_alloc; mret (a, b)) (fun r _ => r = (Ptr i, Ptr i)) w) as Hrun.
  { pk_step. eapply wp_mono; [eapply (pk_free_run N); [|exact Hw|exact H|exact Hi|eapply data_ok_perm; [exact Hall|exact Hd]]|].
    { exact HN. }
    intros _ w1 ((packets1 & nodes1 & fl1 & Hw1 & H1) & _). cbn [app] in Hw1, H1.
    pose proof (po_clean _ _ _ _ _ _ H1 i (proj2 (list_elem_of_singleton i i) eq_refl)) as Hclean. pose proof (lookup_lt_Some _ _ _ Hclean) as Hlt.
    pk_step. eapply wp_mono; [eapply free_again; [exact Hw1|exact Hclean|apply (po_list _ _ _ _ _ _ H1)]|]. intros ? w2 Hw2.
    pk_step. eapply wp_mono; [eapply alloc_next; [exact Hw2|by rewrite length_insert|done|apply remove_self]|].
    intros a3 w3 (-> & count3 & peak3 & Hw3). pk_step.
    eapply wp_mono; [eapply alloc_next; [exact Hw3|by rewrite !length_insert|done|apply remove_only]|].
    intros b4 w4 (-> & _). by pk_step. }
  apply wp_run in Hrun as (r & w' & Hrun & ->). by exists w'.
Qed.
(** A pool of one packet, which is in use. *)
Definition sample_used_pool : pk_world :=
  mk_pk_world (mk_packet_pool (Ptr [zero_pooled]) {[1%positive := mk_node NULL NULL]} xgl_list_init 1 0 1) ∅ ∅ [].
Definition sample_user : pk_client := mk_pk_client [] {[0%nat := zero_pooled]} [] ∅ 1.
Lemma sample_used_rep : pk_rep 1 sample_used_pool sample_user.
Proof.
  split.
  - exists [zero_pooled], {[1%positive := mk_node NULL NULL]}, xgl_list_init. split; [done|]. split; cbn.
    + done.
    + intros i p [<- <-]%lookup_singleton_Some. done.
    + by repeat constructor.
    + intros i Hi. replace i with O by lia. by eexists.
    + constructor.
    + intros i. rewrite lookup_singleton_is_Some. split; [lia|]. intros [?%elem_of_nil| <-]; [done|lia].
    + by intros i ?%elem_of_nil.
    + by intros i ?%elem_of_nil.
  - split; cbn.
    + intros d o Ho. by rewrite lookup_empty in Ho.
    + intros d _. by rewrite lookup_empty.
    + intros d1 d2 o1 o2 Ho. by rewrite lookup_empty in Ho.
    + intros b [bs Hb]. by rewrite lookup_empty in Hb.
Qed.
Lemma packet_double_free_hands_out_twice_witness :
  exists w', (_ ← xgl_packet_free (Ptr 0%nat); _ ← xgl_packet_free (Ptr 0%nat);
              a ← xgl_packet_alloc; b ← xgl_packet_alloc; mret (a, b)) sample_used_pool = Some (Ptr 0%nat, Ptr 0%nat, w').
Proof.
  apply (packet_double_free_hands_out_twice 1 sample_used_pool sample_user 0 zero_pooled);
    [lia|exact sample_used_rep|reflexivity|reflexivity].
Defined.
