(* ===== verification/Config.v ===== *)
(** * Configuration (src/api/xgl_config.c)

    The configuration of an instance, its presets, and the validation that
    [xgl_create] insists on.  The validation is shown to decide the declarative
    reading of its limits, with the error code of each kind of fault. *)
From stdpp Require Import strings.
From S2P Require Import Prelude Errors Layer Wire Frame Parser Route Codec Network Memory Allocator.

(** ** Limits *)

Definition XGL_MIN_TX_POOL_SIZE : Z := 512.
Definition XGL_MAX_TX_POOL_SIZE : Z := 65536.
Definition XGL_MIN_RX_BUFFER_SIZE : Z := 64.
Definition XGL_MAX_RX_BUFFER_SIZE : Z := 4096.
Definition XGL_MIN_ACK_TIMEOUT_MS : Z := 100.
Definition XGL_MAX_ACK_TIMEOUT_MS : Z := 10000.
Definition XGL_MIN_RETRY_COUNT : Z := 1.
Definition XGL_MAX_RETRY_COUNT : Z := 10.
Definition XGL_MIN_WINDOW_SIZE : Z := 1.
Definition XGL_MAX_WINDOW_SIZE : Z := 32.
Definition XGL_MIN_FRAME_SIZE : Z := 64.
Definition XGL_MAX_FRAME_SIZE : Z := 2048.

(** ** Data *)

(** src/include/xgl/xgl_types.h:221-225: xgl_memory_config_t *)
Record xgl_memory_config_t := mk_memory_config {
  mc_tx_pool_size : Z;
  mc_rx_buffer_size : Z;
  mc_allocator : ptr xgl_allocator_t
}.
(** src/include/xgl/xgl_types.h:230-235: xgl_protocol_config_t *)
Record xgl_protocol_config_t := mk_protocol_config {
  pc_ack_timeout_ms : Z;
  pc_max_retry_count : Z;
  pc_window_size : Z;
  pc_max_frame_size : Z
}.
(** src/include/xgl/xgl_types.h:293-300: xgl_feature_config_t *)
Record xgl_feature_config_t := mk_feature_config {
  fc_enable_fragmentation : bool;
  fc_enable_compression : bool;
  fc_enable_encryption : bool;
  fc_thread_safe : bool;
  fc_peer_idle_timeout_ms : Z;
  fc_max_reassembly_slots : Z
}.
(** Callbacks are known by their address; an array is the list of its elements,
    which may be longer than the stated length. *)
(** src/include/xgl/xgl_types.h:305-352: xgl_config_t *)
Record xgl_config_t := mk_config {
  cg_name : string;
  cg_source_id : Z;
  cg_memory : xgl_memory_config_t;
  cg_protocol : xgl_protocol_config_t;
  cg_features : xgl_feature_config_t;
  cg_auth_required : bool;
  cg_auth_key_id : Z;
  cg_auth_provider : ptr xgl_auth_provider_t;
  cg_route_table : ptr (list xgl_route_item_t);
  cg_route_table_len : Z;
  cg_rx_callback : ptr Z;
  cg_error_callback : ptr Z;
  cg_callback_user_data : Z;
  cg_codecs : ptr (list xgl_codec_t);
  cg_codecs_len : Z;
  cg_log_callback : ptr Z
}.

(** ** Presets *)

(** src/include/xgl/xgl_types.h:472-502: XGL_CONFIG_PRESET_TINY *)
Definition XGL_CONFIG_PRESET_TINY : xgl_config_t :=
  mk_config "tiny" 1 (mk_memory_config 1024 160 NULL) (mk_protocol_config 1000 3 2 128)
    (mk_feature_config false false false false 60000 2)
    false 0 NULL NULL 0 NULL NULL 0 NULL 0 NULL.
(** src/include/xgl/xgl_types.h:507-537: XGL_CONFIG_PRESET_SMALL *)
Definition XGL_CONFIG_PRESET_SMALL : xgl_config_t :=
  mk_config "small" 1 (mk_memory_config 2048 288 NULL) (mk_protocol_config 1000 5 4 256)
    (mk_feature_config true false false false 60000 4)
    false 0 NULL NULL 0 NULL NULL 0 NULL 0 NULL.
(** src/include/xgl/xgl_types.h:542-572: XGL_CONFIG_PRESET_MEDIUM *)
Definition XGL_CONFIG_PRESET_MEDIUM : xgl_config_t :=
  mk_config "medium" 1 (mk_memory_config 4096 544 NULL) (mk_protocol_config 1000 5 8 512)
    (mk_feature_config true false false false 60000 8)
    false 0 NULL NULL 0 NULL NULL 0 NULL 0 NULL.
(** src/include/xgl/xgl_types.h:577-607: XGL_CONFIG_PRESET_LARGE *)
Definition XGL_CONFIG_PRESET_LARGE : xgl_config_t :=
  mk_config "large" 1 (mk_memory_config 8192 1056 NULL) (mk_protocol_config 1000 7 16 1024)
    (mk_feature_config true false false false 60000 16)
    false 0 NULL NULL 0 NULL NULL 0 NULL 0 NULL.
(** src/include/xgl/xgl_types.h:614-644: XGL_CONFIG_PRESET_PRODUCTION *)
Definition XGL_CONFIG_PRESET_PRODUCTION : xgl_config_t :=
  mk_config "production" 1 (mk_memory_config 8192 1056 NULL) (mk_protocol_config 1000 7 16 1024)
    (mk_feature_config true false false false 60000 16)
    true 1 NULL NULL 0 NULL NULL 0 NULL 0 NULL.

(** The structure after the call. *)
(** src/src/api/xgl_config.c:37-48: xgl_config_get_default *)
Definition xgl_config_get_default (config : ptr xgl_config_t) : ptr xgl_config_t :=
  match config with NULL => NULL | Ptr _ => Ptr XGL_CONFIG_PRESET_MEDIUM end.
(** src/src/api/xgl_config.c:55-62: xgl_config_get_preset_tiny *)
Definition xgl_config_get_preset_tiny (config : ptr xgl_config_t) : ptr xgl_config_t :=
  match config with NULL => NULL | Ptr _ => Ptr XGL_CONFIG_PRESET_TINY end.
(** src/src/api/xgl_config.c:69-76: xgl_config_get_preset_small *)
Definition xgl_config_get_preset_small (config : ptr xgl_config_t) : ptr xgl_config_t :=
  match config with NULL => NULL | Ptr _ => Ptr XGL_CONFIG_PRESET_SMALL end.
(** src/src/api/xgl_config.c:84-91: xgl_config_get_preset_medium *)
Definition xgl_config_get_preset_medium (config : ptr xgl_config_t) : ptr xgl_config_t :=
  match config with NULL => NULL | Ptr _ => Ptr XGL_CONFIG_PRESET_MEDIUM end.
(** src/src/api/xgl_config.c:98-105: xgl_config_get_preset_large *)
Definition xgl_config_get_preset_large (config : ptr xgl_config_t) : ptr xgl_config_t :=
  match config with NULL => NULL | Ptr _ => Ptr XGL_CONFIG_PRESET_LARGE end.
(** src/src/api/xgl_config.c:111-118: xgl_config_get_preset_production *)
Definition xgl_config_get_preset_production (config : ptr xgl_config_t) : ptr xgl_config_t :=
  match config with NULL => NULL | Ptr _ => Ptr XGL_CONFIG_PRESET_PRODUCTION end.

(** ** Validation *)

Definition outside (lo hi v : Z) : bool := (v <? lo) || (hi <? v).

(** The checks of the authentication settings, when authentication is required. *)
(** src/src/api/xgl_config.c:177-194: xgl_config_validate *)
Definition auth_config_rejected (config : xgl_config_t) : bool :=
  match mc_allocator (cg_memory config) with
  | NULL => true
  | Ptr a => bool_decide (al_malloc a = NULL) || bool_decide (al_free a = NULL)
  end ||
  match cg_auth_provider config with
  | NULL => true
  | Ptr p =>
      match ap_sign p, ap_verify p with
      | Ptr _, Ptr _ => (ap_tag_len p =? 0) || (XGL_AUTH_TAG_MAX_LEN <? ap_tag_len p)
      | _, _ => true
      end
  end.

(** The checks up to the size of the receive buffer, all with one error code. *)
(** src/src/api/xgl_config.c:135-200: xgl_config_validate *)
Definition config_rejected (thread_safe_build : bool) (config : xgl_config_t) : bool :=
  (cg_source_id config =? 0) || (cg_source_id config =? XGL_BROADCAST_ID) ||
  outside XGL_MIN_TX_POOL_SIZE XGL_MAX_TX_POOL_SIZE (mc_tx_pool_size (cg_memory config)) ||
  outside XGL_MIN_RX_BUFFER_SIZE XGL_MAX_RX_BUFFER_SIZE (mc_rx_buffer_size (cg_memory config)) ||
  outside XGL_MIN_ACK_TIMEOUT_MS XGL_MAX_ACK_TIMEOUT_MS (pc_ack_timeout_ms (cg_protocol config)) ||
  outside XGL_MIN_RETRY_COUNT XGL_MAX_RETRY_COUNT (pc_max_retry_count (cg_protocol config)) ||
  outside XGL_MIN_WINDOW_SIZE XGL_MAX_WINDOW_SIZE (pc_window_size (cg_protocol config)) ||
  outside XGL_MIN_FRAME_SIZE XGL_MAX_FRAME_SIZE (pc_max_frame_size (cg_protocol config)) ||
  (pc_max_frame_size (cg_protocol config) <? XGL_FRAME_HEADER_SIZE + XGL_CRC16_SIZE) ||
  fc_enable_compression (cg_features config) || fc_enable_encryption (cg_features config) ||
  (if cg_auth_required config then auth_config_rejected config else false) ||
  (if thread_safe_build then false else fc_thread_safe (cg_features config)).

(** A route that points to a driver which can receive and transmit. *)
(** src/src/api/xgl_config.c:219-239: xgl_config_validate *)
Definition route_rejected (phys : Z -> xgl_phy_ops_t) (route : xgl_route_item_t) : bool :=
  match ri_phy route with
  | NULL => true
  | Ptr phy => bool_decide (phy_tx (phys phy) = NULL) || bool_decide (phy_rx (phys phy) = NULL)
  end ||
  outside XGL_MIN_FRAME_SIZE XGL_MAX_FRAME_SIZE (ri_max_frame_size route) ||
  (ri_read_freq_hz route =? 0).

(** [n] routes are left, the next is [i]. *)
(** src/src/api/xgl_config.c:216-240: xgl_config_validate *)
Fixpoint validate_routes (phys : Z -> xgl_phy_ops_t) (routes : list xgl_route_item_t) (n : nat) (i : Z)
    : M xgl_error_t :=
  match n with
  | O => ret XGL_OK
  | S n =>
      route ← rd routes i;
      if route_rejected phys route then ret XGL_ERR_INVALID_PARAM
      else validate_routes phys routes n (i + 1)
  end.

(** [thread_safe_build] says whether the library is built with XGL_THREAD_SAFE;
    [phys] finds the driver structure that a route points to. *)
(** src/src/api/xgl_config.c:129-245: xgl_config_validate *)
Definition xgl_config_validate (thread_safe_build : bool) (phys : Z -> xgl_phy_ops_t) (config : ptr xgl_config_t)
    : M xgl_error_t :=
  match config with
  | NULL => ret XGL_ERR_NULL_POINTER
  | Ptr config =>
      if config_rejected thread_safe_build config then ret XGL_ERR_INVALID_PARAM
      else if mc_rx_buffer_size (cg_memory config) <? pc_max_frame_size (cg_protocol config)
      then ret XGL_ERR_BUFFER_TOO_SMALL
      else if (0 <? cg_route_table_len config) && bool_decide (cg_route_table config = NULL)
      then ret XGL_ERR_INVALID_PARAM
      else
        let routes := match cg_route_table config with Ptr routes => routes | NULL => [] end in
        validate_routes phys routes (Z.to_nat (cg_route_table_len config)) 0
  end.

(** ** What a valid configuration is *)

(** The authentication settings suffice to sign and to verify. *)
Definition auth_valid (config : xgl_config_t) : Prop :=
  (exists a, mc_allocator (cg_memory config) = Ptr a /\ al_malloc a <> NULL /\ al_free a <> NULL) /\
  (exists p sign verify, cg_auth_provider config = Ptr p /\ ap_sign p = Ptr sign /\ ap_verify p = Ptr verify /\
     ap_tag_len p <> 0 /\ ap_tag_len p <= XGL_AUTH_TAG_MAX_LEN).

(** Everything but the receive buffer and the routes. *)
Record limits_valid (thread_safe_build : bool) (config : xgl_config_t) : Prop := {
  lv_source : cg_source_id config <> 0 /\ cg_source_id config <> XGL_BROADCAST_ID;
  lv_tx_pool : XGL_MIN_TX_POOL_SIZE <= mc_tx_pool_size (cg_memory config) <= XGL_MAX_TX_POOL_SIZE;
  lv_rx_buffer : XGL_MIN_RX_BUFFER_SIZE <= mc_rx_buffer_size (cg_memory config) <= XGL_MAX_RX_BUFFER_SIZE;
  lv_ack_timeout : XGL_MIN_ACK_TIMEOUT_MS <= pc_ack_timeout_ms (cg_protocol config) <= XGL_MAX_ACK_TIMEOUT_MS;
  lv_retries : XGL_MIN_RETRY_COUNT <= pc_max_retry_count (cg_protocol config) <= XGL_MAX_RETRY_COUNT;
  lv_window : XGL_MIN_WINDOW_SIZE <= pc_window_size (cg_protocol config) <= XGL_MAX_WINDOW_SIZE;
  lv_frame : XGL_MIN_FRAME_SIZE <= pc_max_frame_size (cg_protocol config) <= XGL_MAX_FRAME_SIZE;
  lv_compression : fc_enable_compression (cg_features config) = false;
  lv_encryption : fc_enable_encryption (cg_features config) = false;
  lv_auth : cg_auth_required config = true -> auth_valid config;
  lv_thread_safe : fc_thread_safe (cg_features config) = true -> thread_safe_build = true
}.
Definition route_valid (phys : Z -> xgl_phy_ops_t) (route : xgl_route_item_t) : Prop :=
  (exists phy, ri_phy route = Ptr phy /\ phy_tx (phys phy) <> NULL /\ phy_rx (phys phy) <> NULL) /\
  XGL_MIN_FRAME_SIZE <= ri_max_frame_size route <= XGL_MAX_FRAME_SIZE /\ ri_read_freq_hz route <> 0.
(** The routes that the configuration names. *)
Definition config_routes (config : xgl_config_t) : list xgl_route_item_t :=
  match cg_route_table config with
  | Ptr routes => take (Z.to_nat (cg_route_table_len config)) routes
  | NULL => []
  end.
Record config_valid (thread_safe_build : bool) (phys : Z -> xgl_phy_ops_t) (config : xgl_config_t) : Prop := {
  cv_limits : limits_valid thread_safe_build config;
  cv_buffer : pc_max_frame_size (cg_protocol config) <= mc_rx_buffer_size (cg_memory config);
  cv_table : 0 < cg_route_table_len config -> cg_route_table config <> NULL;
  cv_routes : Forall (route_valid phys) (config_routes config)
}.
(** The route array is as long as stated. *)
Definition config_routes_ok (config : xgl_config_t) : Prop :=
  0 <= cg_route_table_len config /\
  match cg_route_table config with Ptr routes => cg_route_table_len config <= zlen routes | NULL => True end.

(** ** The validation decides it *)

Lemma outside_false lo hi v : outside lo hi v = false <-> lo <= v <= hi.
Proof. unfold outside. rewrite orb_false_iff. lia. Qed.
Lemma bool_decide_null {A} `{EqDecision A} (p : ptr A) : bool_decide (p = NULL) = false <-> p <> NULL.
Proof. apply bool_decide_eq_false. Qed.
Lemma auth_config_spec config : auth_config_rejected config = false <-> auth_valid config.
Proof.
  unfold auth_config_rejected, auth_valid. rewrite orb_false_iff. f_equiv.
  - destruct (mc_allocator _) as [a|]; [|split; [done|by intros (? & ? & _)]].
    rewrite orb_false_iff, !bool_decide_null. split; [by exists a|by intros (? & [= <-] & ?)].
  - destruct (cg_auth_provider config) as [p|]; [|split; [done|by intros (? & ? & ? & ? & _)]].
    destruct (ap_sign p) as [sign|] eqn:Hs; [|split; [done|intros (? & ? & ? & [= <-] & ? & _); congruence]].
    destruct (ap_verify p) as [verify|] eqn:Hv; [|split; [done|intros (? & ? & ? & [= <-] & _ & ? & _); congruence]].
    rewrite orb_false_iff. split; [intros ?; exists p, sign, verify; split_and!; [done..|lia|lia]|].
    intros (? & ? & ? & [= <-] & _ & _ & ?). lia.
Qed.
Lemma config_rejected_spec b config : config_rejected b config = false <-> limits_valid b config.
Proof.
  unfold config_rejected. rewrite !orb_false_iff, !outside_false. split.
  - intros H. destruct_and! H. constructor; try done; [lia|..].
    + intros Ha. rewrite Ha in *. by apply auth_config_spec.
    + intros Ht. rewrite Ht in *. by destruct b.
  - intros []. unfold XGL_MIN_FRAME_SIZE, XGL_FRAME_HEADER_SIZE, XGL_CRC16_SIZE in *. split_and!; try lia; try done.
    + destruct (cg_auth_required config); [|done]. by apply auth_config_spec; auto.
    + destruct b; [done|]. destruct (fc_thread_safe _); [by discriminate (lv_thread_safe0 eq_refl)|done].
Qed.
Lemma route_rejected_spec phys route : route_rejected phys route = false <-> route_valid phys route.
Proof.
  unfold route_rejected, route_valid. rewrite !orb_false_iff, outside_false, Z.eqb_neq.
  destruct (ri_phy route) as [phy|].
  - rewrite orb_false_iff, !bool_decide_null. split.
    + intros [[? ?] ?]. split; [by exists phy|done].
    + by intros [(? & [= <-] & ?) [? ?]].
  - split; [by intros [[? _] _]|by intros [(? & ? & _) _]].
Qed.
Lemma validate_routes_spec phys routes n : forall i,
  0 <= i -> i + Z.of_nat n <= zlen routes ->
  exists err, validate_routes phys routes n i = Some err /\ (err = XGL_OK \/ err = XGL_ERR_INVALID_PARAM) /\
    (err = XGL_OK <-> Forall (route_valid phys) (take n (drop (Z.to_nat i) routes))).
Proof.
  induction n as [|n IH]; intros i Hi Hn; cbn [validate_routes].
  { exists XGL_OK. rewrite take_0. split_and!; [done|by left|split; [constructor|done]]. }
  unfold zlen in Hn. destruct (lookup_lt_is_Some_2 routes (Z.to_nat i)) as [route Hr]; [lia|].
  unfold rd. rewrite (proj2 (Z.leb_le 0 i)), Hr by lia. cbn [mbind option_bind].
  rewrite (drop_S _ _ _ Hr). cbn [take].
  pose proof (Forall_cons (route_valid phys) route (take n (drop (S (Z.to_nat i)) routes))) as Hc.
  rewrite <- route_rejected_spec in Hc.
  destruct (route_rejected phys route).
  - exists XGL_ERR_INVALID_PARAM. split_and!; [done|by right|]. rewrite Hc. split; [done|by intros [? _]].
  - destruct (IH (i + 1)) as (err & -> & He & Hiff); [lia|unfold zlen; lia|].
    replace (Z.to_nat (i + 1)) with (S (Z.to_nat i)) in Hiff by lia.
    exists err. split_and!; [done..|]. rewrite Hiff, Hc. tauto.
Qed.

(** Exactly the valid configurations pass. *)
Lemma config_validate_iff b phys config : config_routes_ok config ->
  xgl_config_validate b phys (Ptr config) = Some XGL_OK <-> config_valid b phys config.
Proof.
  intros [Hn Hr]. cbn [xgl_config_validate]. pose proof (config_rejected_spec b config) as Hl. destruct (config_rejected b config).
  { split; [done|]. intros []. by discriminate (proj2 Hl). }
  pose proof (proj1 Hl eq_refl) as Hlim. clear Hl.
  destruct (Z.ltb_spec (mc_rx_buffer_size (cg_memory config)) (pc_max_frame_size (cg_protocol config))).
  { split; [done|]. intros []. lia. }
  destruct (cg_route_table config) as [routes|] eqn:E.
  - rewrite andb_false_r.
    destruct (validate_routes_spec phys routes (Z.to_nat (cg_route_table_len config)) 0) as (err & Hrun & _ & Hiff); [lia..|].
    rewrite Z2Nat.inj_0, drop_0 in Hiff. cbv iota. rewrite Hrun. transitivity (err = XGL_OK); [split; [by intros [= ->]|by intros ->]|].
    rewrite Hiff. split; [intros Hv; split; try done; by (rewrite E || (unfold config_routes; rewrite E))|].
    intros [_ _ _ Hv]. unfold config_routes in Hv. by rewrite E in Hv.
  - destruct (Z.ltb_spec 0 (cg_route_table_len config)) as [Hpos|]; [split; [done|]; intros []; rewrite E in *; by destruct cv_table0|].
    cbn [andb bool_decide]. replace (Z.to_nat (cg_route_table_len config)) with O by lia. split; [|done]. intros _.
    split; try done; [lia|]. unfold config_routes. rewrite E. constructor.
Qed.

(** Validation decides what a valid configuration is: for every
    configuration whose route array is as long as stated the function is
    defined; it answers [XGL_OK] exactly for the valid ones,
    [XGL_ERR_BUFFER_TOO_SMALL] exactly when all limits are kept but a frame of
    the maximal size does not fit the receive buffer, and
    [XGL_ERR_INVALID_PARAM] for all others. *)
Theorem config_validate_decides b phys config (Hr : config_routes_ok config) :
  exists err, xgl_config_validate b phys (Ptr config) = Some err /\
    (err = XGL_OK <-> config_valid b phys config) /\
    (err = XGL_ERR_BUFFER_TOO_SMALL <-> limits_valid b config /\
       mc_rx_buffer_size (cg_memory config) < pc_max_frame_size (cg_protocol config)) /\
    (err = XGL_OK \/ err = XGL_ERR_BUFFER_TOO_SMALL \/ err = XGL_ERR_INVALID_PARAM).
Proof.
  cbn [xgl_config_validate]. pose proof (config_rejected_spec b config) as Hl.
  destruct (config_rejected b config).
  { assert (~ limits_valid b config) as Hno by (intros Hv%Hl; discriminate).
    exists XGL_ERR_INVALID_PARAM. split_and!; auto; split; try done; [intros [? _ _ _]|intros [? _]]; contradiction. }
  pose proof (proj1 Hl eq_refl) as Hv. clear Hl. destruct (Z.ltb_spec (mc_rx_buffer_size (cg_memory config)) (pc_max_frame_size (cg_protocol config))) as [Hb|Hb].
  { exists XGL_ERR_BUFFER_TOO_SMALL. split_and!; auto; split; try done. intros []; lia. }
  assert (forall err, err = XGL_OK \/ err = XGL_ERR_INVALID_PARAM ->
    (err = XGL_OK <-> (0 < cg_route_table_len config -> cg_route_table config <> NULL) /\ Forall (route_valid phys) (config_routes config)) ->
    (err = XGL_OK <-> config_valid b phys config) /\
    (err = XGL_ERR_BUFFER_TOO_SMALL <-> limits_valid b config /\ mc_rx_buffer_size (cg_memory config) < pc_max_frame_size (cg_protocol config)) /\
    (err = XGL_OK \/ err = XGL_ERR_BUFFER_TOO_SMALL \/ err = XGL_ERR_INVALID_PARAM)) as Hfin.
  { intros err Herr Hiff. split; [|split; [|destruct Herr; auto]].
    - rewrite Hiff. split; [intros []; by constructor|by intros []].
    - split; [intros ->; by destruct Herr|intros [_ ?]; lia]. }
  destruct Hr as [Hn Hr]. unfold config_routes in Hfin. destruct (cg_route_table config) as [routes|] eqn:Ht.
  - rewrite andb_false_r. destruct (validate_routes_spec phys routes (Z.to_nat (cg_route_table_len config)) 0) as (err & Hrun & Herr & Hiff); [lia..|].
    exists err. split; [exact Hrun|]. apply Hfin; [done|]. rewrite Hiff. cbn. rewrite drop_0. split; [by split|by intros [_ ?]].
  - destruct (Z.ltb_spec 0 (cg_route_table_len config)).
    + exists XGL_ERR_INVALID_PARAM. split; [done|]. apply Hfin; [by right|]. split; [done|intros [H1 _]; by destruct H1].
    + exists XGL_OK. replace (Z.to_nat (cg_route_table_len config)) with O by lia. split; [done|]. apply Hfin; [by left|]. split; [split; [lia|constructor]|done].
Qed.

Definition sample_driver : xgl_phy_ops_t := mk_phy (Ptr 1) (Ptr 2) 0.
(** The small preset with one route, and a driver of 128-byte frames. *)
Definition sample_config_table : list xgl_route_item_t := [mk_route 2 (Ptr 0) 128 100 1].
Definition with_routes (routes : list xgl_route_item_t) (c : xgl_config_t) : xgl_config_t :=
  mk_config (cg_name c) (cg_source_id c) (cg_memory c) (cg_protocol c) (cg_features c) (cg_auth_required c)
    (cg_auth_key_id c) (cg_auth_provider c) (Ptr routes) (zlen routes) (cg_rx_callback c) (cg_error_callback c)
    (cg_callback_user_data c) (cg_codecs c) (cg_codecs_len c) (cg_log_callback c).
Definition sample_small : xgl_config_t := with_routes sample_config_table XGL_CONFIG_PRESET_SMALL.
Lemma config_validate_decides_witness :
  config_valid false (fun _ => sample_driver) sample_small /\
  xgl_config_validate false (fun _ => sample_driver) (Ptr sample_small) = Some XGL_OK.
Proof.
  assert (xgl_config_validate false (fun _ => sample_driver) (Ptr sample_small) = Some XGL_OK) as Hok by reflexivity.
  split; [|exact Hok].
  destruct (config_validate_decides false (fun _ => sample_driver) sample_small) as (err & Hrun & Hiff & _).
  - split; vm_compute; discriminate.
  - rewrite Hok in Hrun. injection Hrun as <-. by apply Hiff.
Defined.

(** The presets are valid as they are; the production preset only waits for its
    authentication provider and an allocator. *)
Lemma presets_valid b phys config :
  In config [XGL_CONFIG_PRESET_TINY; XGL_CONFIG_PRESET_SMALL; XGL_CONFIG_PRESET_MEDIUM; XGL_CONFIG_PRESET_LARGE] ->
  xgl_config_validate b phys (Ptr config) = Some XGL_OK.
Proof. cbn. intros H. destruct b; intuition (subst; reflexivity). Qed.
Example production_needs_a_provider b phys :
  xgl_config_validate b phys (Ptr XGL_CONFIG_PRESET_PRODUCTION) = Some XGL_ERR_INVALID_PARAM.
Proof. by destruct b. Qed.
