(* ===== verification/Instance.v ===== *)
(** * Instances (src/api/xgl_instance_internal.h, xgl_instance_lifecycle.c,
    xgl_instance.c, xgl_stats.c)

    The structure behind a handle: configuration, memory, routes, the contexts of
    the three layers and their interfaces; how it is created, initialised - with
    the chain of clean-ups when a step fails - and destroyed.  This is the build
    without XGL_THREAD_SAFE. *)
From S2P Require Import Prelude State Errors Layer Wire WireExt Parser Codec Window Rtt LinkedList Route Fragment Reliable Transport TransportApi Datalink Network Memory Mempool Allocator TieredPool PacketPool Config.

(** ** Data *)

(** src/include/xgl/xgl_types.h:398-426: xgl_statistics_t *)
Record xgl_statistics_t := mk_statistics {
  st_datalink : xgl_layer_stats_t;
  st_network : xgl_layer_stats_t;
  st_transport : xgl_layer_stats_t;
  st_tx_retries : Z;
  st_rx_header_crc_errors : Z;
  st_rx_crc16_errors : Z;
  st_avg_rtt_ms : Z;
  st_max_rtt_ms : Z;
  st_min_rtt_ms : Z;
  st_memory_used : Z;
  st_memory_peak : Z
}.
#[export] Instance eta_statistics : EtaRecord xgl_statistics_t := Eta (fun s =>
  mk_statistics (st_datalink s) (st_network s) (st_transport s) (st_tx_retries s) (st_rx_header_crc_errors s)
    (st_rx_crc16_errors s) (st_avg_rtt_ms s) (st_max_rtt_ms s) (st_min_rtt_ms s) (st_memory_used s)
    (st_memory_peak s)).
Definition zero_statistics : xgl_statistics_t :=
  mk_statistics zero_layer_stats zero_layer_stats zero_layer_stats 0 0 0 0 0 0 0 0.

(** A context or an interface is part of the structure; a pointer from one to
    another part is modelled by what it points to, so that a layer's counters are
    those in its context and the route table is the copy each layer has. *)
(** src/src/api/xgl_instance_internal.h:38-48: xgl_layer_contexts_t *)
Record xgl_layer_contexts_t := mk_layers {
  ly_datalink_ctx : xgl_datalink_ctx_t;
  ly_network_ctx : xgl_network_ctx_t;
  ly_transport_ctx : xgl_transport_ctx_t;
  ly_datalink_iface : xgl_layer_interface_t;
  ly_network_iface : xgl_layer_interface_t;
  ly_transport_iface : xgl_layer_interface_t
}.
#[export] Instance eta_layers : EtaRecord xgl_layer_contexts_t := Eta (fun l =>
  mk_layers (ly_datalink_ctx l) (ly_network_ctx l) (ly_transport_ctx l) (ly_datalink_iface l)
    (ly_network_iface l) (ly_transport_iface l)).

(** [in_rx_cache] is [layers.datalink_ctx.rx_cache] as an address; its contents
    are with the parser.  [in_route_last_read_ms] is the address of the array and
    its contents. *)
(** src/src/api/xgl_instance_internal.h:53-97: struct xgl_instance *)
Record xgl_instance := mk_instance {
  in_config : xgl_config_t;
  in_initialized : bool;
  in_allocator : ptr xgl_allocator_t;
  in_tx_pool : xgl_tiered_pool_t;
  in_packet_pool : xgl_packet_pool_t;
  in_route_table : xgl_route_table_t;
  in_route_last_read_ms : ptr (Z * list Z);
  in_route_last_read_count : Z;
  in_layers : xgl_layer_contexts_t;
  in_rx_cache : Z;
  in_stats : xgl_statistics_t;
  in_codec_registry : xgl_codec_registry_t;
  in_codec_storage : list xgl_codec_t
}.
#[export] Instance eta_instance : EtaRecord xgl_instance := Eta (fun i =>
  mk_instance (in_config i) (in_initialized i) (in_allocator i) (in_tx_pool i) (in_packet_pool i)
    (in_route_table i) (in_route_last_read_ms i) (in_route_last_read_count i) (in_layers i) (in_rx_cache i)
    (in_stats i) (in_codec_registry i) (in_codec_storage i)).

(** What [memset] leaves. *)
Definition zero_datalink : xgl_datalink_ctx_t :=
  mk_datalink zero_parser NULL NULL NULL NULL 0 false 0 NULL no_windows no_window_used NULL.
Definition zero_network : xgl_network_ctx_t := mk_network 0 NULL NULL NULL NULL NULL false 0 NULL.
Definition no_interface : xgl_layer_interface_t := mk_layer NULL NULL NULL.
Definition zero_layers : xgl_layer_contexts_t :=
  mk_layers zero_datalink zero_network zero_transport no_interface no_interface no_interface.
Definition zero_route_table : xgl_route_table_t := mk_route_table (HashTable.mk_hashtable NULL 0 0) NULL 0 0 0.
Definition CODEC_STORAGE_SIZE : Z := 4.
Definition zero_codecs : list xgl_codec_t := replicate (Z.to_nat CODEC_STORAGE_SIZE) zero_codec.
Definition new_instance (config : xgl_config_t) (allocator : ptr xgl_allocator_t) : xgl_instance :=
  mk_instance config false allocator zero_tiered_pool zero_packet_pool zero_route_table NULL 0 zero_layers NULLP
    zero_statistics (mk_codec_registry NULL 0 0) zero_codecs.

(** The C heap and the allocators, the answers of the allocator that the other
    components ask, what a fresh buffer holds, the drivers by their number, the
    instances by their address, and the calls of the error callback. *)
Record in_world := mk_in_world {
  iw_alloc : alloc_world;
  iw_heap : heap_answers;
  iw_junk : Z -> bytes;
  iw_phys : Z -> xgl_phy_ops_t;
  iw_instances : gmap Z xgl_instance;
  iw_errors : list xgl_error_t;
  iw_freed : list xgl_instance
}.
#[export] Instance eta_in_world : EtaRecord in_world := Eta (fun w =>
  mk_in_world (iw_alloc w) (iw_heap w) (iw_junk w) (iw_phys w) (iw_instances w) (iw_errors w) (iw_freed w)).
Abbreviation I := (ST in_world).

(** A dereference of a handle, and an update through it. *)
Definition get_instance (h : Z) : I xgl_instance := fun w => i ← iw_instances w !! h; Some (i, w).
Definition put_instance (h : Z) (f : xgl_instance -> xgl_instance) : I unit := fun w =>
  i ← iw_instances w !! h; Some (tt, w <| iw_instances := <[h := f i]> (iw_instances w) |>).
Definition put_layers (h : Z) (f : xgl_layer_contexts_t -> xgl_layer_contexts_t) : I unit :=
  put_instance h (fun i => i <| in_layers := f (in_layers i) |>).
(** The operations of the components, on their part of the world. *)
Definition on_alloc {X} (m : A X) : I X := fun w =>
  '(x, a) ← m (iw_alloc w); Some (x, w <| iw_alloc := a |>).
Definition on_heap {X} (m : heap_answers -> M (X * heap_answers)) : I X := fun w =>
  '(x, heap) ← m (iw_heap w); Some (x, w <| iw_heap := heap |>).
(** The pool of an instance; packet data is shared with the application only. *)
Definition on_packets {X} (h : Z) (m : K X) : I X :=
  i ← get_instance h;
  '(x, pool) ← on_heap (fun heap =>
    '(x, w) ← m (mk_pk_world (in_packet_pool i) ∅ ∅ heap); Some (x, pw_pool w, pw_heap w));
  _ ← put_instance h (fun i => i <| in_packet_pool := pool |>);
  mret x.
Definition on_transport {X} (h : Z) (m : T X) : I X :=
  i ← get_instance h;
  '(x, ctx) ← on_heap (fun heap =>
    '(x, w) ← m (mk_world (ly_transport_ctx (in_layers i)) heap [] [] 0 []); Some (x, w_ctx w, w_heap w));
  _ ← put_layers h (fun l => l <| ly_transport_ctx := ctx |>);
  mret x.

(** Trackers on trackers, up to this many. *)
Definition TRACKER_DEPTH : nat := 8.
Definition instance_alloc (i : xgl_instance) (size : Z) : I Z := on_alloc (xgl_alloc TRACKER_DEPTH (in_allocator i) size).
Definition instance_free (i : xgl_instance) (p : Z) : I unit := on_alloc (xgl_free TRACKER_DEPTH (in_allocator i) p).

(** ** Creation *)

(** [sizeof(struct xgl_instance)]: only that it is positive matters. *)
Definition sizeof_instance : Z := 4096.
(** src/src/api/xgl_instance_lifecycle.c:23-49: xgl_create *)
Definition xgl_create (config : ptr xgl_config_t) : I Z :=
  phys ← gets iw_phys;
  err ← lift (xgl_config_validate false phys config);
  if negb (is_ok err) then mret NULLP
  else
    config ← lift config;
    fallback ← gets (fun w => aw_fallback (iw_alloc w));
    let allocator := match mc_allocator (cg_memory config) with
      | NULL => xgl_allocator_get_default fallback
      | Ptr a => Ptr a
      end in
    let i := new_instance config allocator in
    handle ← instance_alloc i sizeof_instance;
    if handle =? NULLP then mret NULLP
    else
      _ ← modify (fun w => w <| iw_instances := <[handle := i]> (iw_instances w) |>);
      mret handle.

(** ** The clean-ups of [xgl_init], each followed by the next *)

(** src/src/api/xgl_instance.c:272-282: xgl_init *)
Definition cleanup_tx_pool (h : Z) (err : xgl_error_t) : I xgl_error_t :=
  i ← get_instance h;
  pool ← on_alloc (xgl_tiered_pool_destroy (Ptr (in_tx_pool i)));
  pool ← lift pool;
  _ ← put_instance h (fun i => i <| in_tx_pool := pool |>);
  mret err.
(** src/src/api/xgl_instance.c:269-270: xgl_init *)
Definition cleanup_packet_pool (h : Z) (err : xgl_error_t) : I xgl_error_t :=
  _ ← on_packets h xgl_packet_pool_destroy;
  cleanup_tx_pool h err.
(** src/src/api/xgl_instance.c:266-267: xgl_init *)
Definition cleanup_route_table (h : Z) (err : xgl_error_t) : I xgl_error_t :=
  _ ← put_instance h (fun i => i <| in_route_table := xgl_route_table_destroy (in_route_table i) |>);
  cleanup_packet_pool h err.
(** The address in a pointer to an array. *)
Definition address_of {X} (p : ptr (Z * X)) : Z := match p with NULL => NULLP | Ptr (a, _) => a end.
(** src/src/api/xgl_instance.c:261-264: xgl_init *)
Definition cleanup_route_read_times (h : Z) (err : xgl_error_t) : I xgl_error_t :=
  i ← get_instance h;
  _ ← instance_free i (address_of (in_route_last_read_ms i));
  _ ← put_instance h (fun i => i <| in_route_last_read_ms := NULL |> <| in_route_last_read_count := 0 |>);
  cleanup_route_table h err.
(** src/src/api/xgl_instance.c:258-259: xgl_init *)
Definition cleanup_rx_buffer (h rx_buffer : Z) (err : xgl_error_t) : I xgl_error_t :=
  i ← get_instance h;
  _ ← instance_free i rx_buffer;
  cleanup_route_read_times h err.
(** src/src/api/xgl_instance.c:251-256: xgl_init *)
Definition cleanup_datalink (h rx_buffer : Z) (err : xgl_error_t) : I xgl_error_t :=
  _ ← put_instance h (fun i => i <| in_rx_cache := NULLP |>);
  _ ← put_layers h (fun l => l <| ly_datalink_ctx := zero_datalink |>);
  cleanup_rx_buffer h rx_buffer err.
(** src/src/api/xgl_instance.c:247-249: xgl_init *)
Definition cleanup_network (h rx_buffer : Z) (err : xgl_error_t) : I xgl_error_t :=
  _ ← put_layers h (fun l => l <| ly_network_ctx := zero_network |>);
  cleanup_datalink h rx_buffer err.

(** ** Initialisation *)

(** Blocks of each size, and packets. *)
(** src/src/api/xgl_instance.c:58-65: xgl_init *)
Definition pool_counts (tx_pool_size : Z) : Z * Z * Z :=
  let small_count := tx_pool_size / XGL_TIERED_POOL_SMALL_SIZE * 4 / 10 in
  let medium_count := tx_pool_size / XGL_TIERED_POOL_MEDIUM_SIZE * 4 / 10 in
  let large_count := tx_pool_size / XGL_TIERED_POOL_LARGE_SIZE * 2 / 10 in
  (if small_count =? 0 then 1 else small_count,
   if medium_count =? 0 then 1 else medium_count,
   if large_count =? 0 then 1 else large_count).
(** src/src/api/xgl_instance.c:75-77: xgl_init *)
Definition packet_pool_count (tx_pool_size : Z) : Z :=
  let packet_count := tx_pool_size / 256 in
  let packet_count := if packet_count <? 4 then 4 else packet_count in
  if 64 <? packet_count then 64 else packet_count.

(** src/src/api/xgl_instance.c:68-72: xgl_init *)
Definition init_tx_pool (h : Z) : I Z :=
  i ← get_instance h;
  let '(small_count, medium_count, large_count) := pool_counts (mc_tx_pool_size (cg_memory (in_config i))) in
  '(r, pool) ← on_alloc (xgl_tiered_pool_init (Ptr (in_tx_pool i)) small_count medium_count large_count);
  pool ← lift pool;
  _ ← put_instance h (fun i => i <| in_tx_pool := pool |>);
  mret r.

(** The generation numbers the arrays of the table; the first is number 0. *)
(** src/src/api/xgl_instance.c:87-92: xgl_init *)
Definition init_route_table (h : Z) : I xgl_error_t :=
  '(err, table) ← on_heap (fun heap => ret (xgl_route_table_init XGL_ROUTE_TABLE_DEFAULT_SIZE 0 heap));
  _ ← put_instance h (fun i => i <| in_route_table := table |>);
  mret err.
(** src/src/api/xgl_instance.c:94-102: xgl_init *)
Definition load_routes (h : Z) : I xgl_error_t :=
  i ← get_instance h;
  let config := in_config i in
  if 0 <? cg_route_table_len config then
    '(err, table) ← on_heap (xgl_route_table_load (in_route_table i) (cg_route_table config) (cg_route_table_len config));
    _ ← put_instance h (fun i => i <| in_route_table := table |>);
    mret err
  else mret XGL_OK.
Definition sizeof_uint32 : Z := 4.
(** src/src/api/xgl_instance.c:104-117: xgl_init *)
Definition init_read_times (h : Z) : I xgl_error_t :=
  i ← get_instance h;
  let count := cg_route_table_len (in_config i) in
  if 0 <? count then
    a ← instance_alloc i (u64 (count * sizeof_uint32));
    let times := if a =? NULLP then NULL else Ptr (a, replicate (Z.to_nat count) 0) in
    _ ← put_instance h (fun i => i <| in_route_last_read_count := count |> <| in_route_last_read_ms := times |>);
    mret (if a =? NULLP then XGL_ERR_NO_MEMORY else XGL_OK)
  else mret XGL_OK.

(** src/src/api/xgl_instance.c:128-143: xgl_init *)
Definition datalink_config (i : xgl_instance) (rx_cache : bytes) : xgl_datalink_config_t :=
  let config := in_config i in
  mk_datalink_config (Ptr rx_cache) (mc_rx_buffer_size (cg_memory config)) (cg_source_id config)
    (Ptr (st_datalink (in_stats i))) (Ptr (st_rx_header_crc_errors (in_stats i)))
    (Ptr (st_rx_crc16_errors (in_stats i))) NULL (cg_error_callback config) (cg_auth_required config)
    (cg_auth_key_id config) (cg_auth_provider config).
(** src/src/api/xgl_instance.c:150-162: xgl_init *)
Definition network_config (i : xgl_instance) : xgl_network_config_t :=
  let config := in_config i in
  mk_network_config (cg_source_id config) (Ptr (in_route_table i)) NULL NULL (cg_error_callback config)
    (Ptr (st_network (in_stats i))) (cg_auth_required config) (cg_auth_key_id config) (cg_auth_provider config).
(** src/src/api/xgl_instance.c:169-190: xgl_init *)
Definition transport_config (i : xgl_instance) : xgl_transport_config_t :=
  let config := in_config i in
  let auth_tag_len := match cg_auth_provider config with
    | Ptr provider => if cg_auth_required config then u8 (ap_tag_len provider) else 0
    | NULL => 0
    end in
  mk_transport_config (cg_source_id config) (pc_max_retry_count (cg_protocol config))
    (pc_ack_timeout_ms (cg_protocol config)) (pc_window_size (cg_protocol config))
    (fc_enable_fragmentation (cg_features config)) (pc_max_frame_size (cg_protocol config)) auth_tag_len
    (Ptr (in_route_table i)) NULL (cg_rx_callback config) (cg_error_callback config)
    (Ptr (st_transport (in_stats i))) (Ptr (st_tx_retries (in_stats i)))
    (fc_peer_idle_timeout_ms (cg_features config)) (fc_max_reassembly_slots (cg_features config))
    (Ptr (in_codec_registry i)).

(** src/src/api/xgl_instance.c:144-147: xgl_init *)
Definition init_datalink (h rx_buffer : Z) (rx_cache : bytes) : I xgl_error_t :=
  i ← get_instance h;
  let '(err, ctx) := xgl_datalink_init (Ptr (ly_datalink_ctx (in_layers i))) (Ptr (datalink_config i rx_cache)) in
  ctx ← lift ctx;
  _ ← put_layers h (fun l => l <| ly_datalink_ctx := ctx |>);
  _ ← put_instance h (fun i => i <| in_rx_cache := rx_buffer |>);
  mret err.
(** src/src/api/xgl_instance.c:163-166: xgl_init *)
Definition init_network (h : Z) : I xgl_error_t :=
  i ← get_instance h;
  let '(err, ctx) := xgl_network_init (Ptr (ly_network_ctx (in_layers i))) (Ptr (network_config i)) in
  ctx ← lift ctx;
  _ ← put_layers h (fun l => l <| ly_network_ctx := ctx |>);
  mret err.
(** src/src/api/xgl_instance.c:191-194: xgl_init *)
Definition init_transport (h : Z) : I xgl_error_t :=
  i ← get_instance h;
  '(err, ctx) ← on_heap (fun heap =>
    ret (xgl_transport_init (Ptr (ly_transport_ctx (in_layers i))) (Ptr (transport_config i)) heap));
  ctx ← lift ctx;
  _ ← put_layers h (fun l => l <| ly_transport_ctx := ctx |>);
  mret err.

(** The functions of the layers; their addresses are different and not NULL. *)
(** src/src/datalink/xgl_datalink.c:129-142: xgl_datalink_get_interface *)
Definition xgl_datalink_get_interface : xgl_layer_interface_t := mk_layer (Ptr 0x100) (Ptr 0x101) (Ptr 0x102).
(** src/src/network/xgl_network.c:173-186: xgl_network_get_interface *)
Definition xgl_network_get_interface : xgl_layer_interface_t := mk_layer (Ptr 0x200) (Ptr 0x201) (Ptr 0x202).
(** src/src/transport/xgl_transport_interface.c:74-86: xgl_transport_get_interface *)
Definition xgl_transport_get_interface : xgl_layer_interface_t := mk_layer (Ptr 0x300) (Ptr 0x301) (Ptr 0x302).
(** The functions that give the interfaces only fail for NULL. *)
(** src/src/api/xgl_instance.c:197-217: xgl_init *)
Definition wire_layers (l : xgl_layer_contexts_t) : xgl_layer_contexts_t :=
  let l := l <| ly_datalink_iface := xgl_datalink_get_interface |>
             <| ly_network_iface := xgl_network_get_interface |>
             <| ly_transport_iface := xgl_transport_get_interface |> in
  l <| ly_datalink_ctx := ((ly_datalink_ctx l) <| dc_upper_layer := Ptr (ly_network_iface l) |>) |>
    <| ly_network_ctx := ((ly_network_ctx l) <| nc_lower_layer := Ptr (ly_datalink_iface l) |>
                                           <| nc_upper_layer := Ptr (ly_transport_iface l) |>) |>
    <| ly_transport_ctx := ((ly_transport_ctx l) <| tc_lower_layer := Ptr (ly_network_iface l) |>) |>.

(** [n] codecs left from index [i]; the result is the registry. *)
(** src/src/api/xgl_instance.c:225-237: xgl_init *)
Fixpoint register_codecs (config : xgl_config_t) (n : nat) (i : Z) (registry : xgl_codec_registry_t)
    : I xgl_codec_registry_t :=
  match n with
  | O => mret registry
  | S n =>
      codecs ← lift (cg_codecs config);
      codec ← lift (rd codecs i);
      '(err, registry) ← lift (xgl_codec_register (Ptr registry) (Ptr codec));
      registry ← lift registry;
      _ ← (if negb (is_ok err) && negb (bool_decide (cg_error_callback config = NULL))
           then modify (fun w => w <| iw_errors := iw_errors w ++ [err] |>)
           else mret tt);
      register_codecs config n (i + 1) registry
  end.
(** The transport layer has a pointer to the registry. *)
(** src/src/api/xgl_instance.c:223-237: xgl_init *)
Definition init_codecs (h : Z) : I unit :=
  i ← get_instance h;
  '(_, registry) ← lift (xgl_codec_registry_init (Ptr (in_codec_registry i)) (Ptr (in_codec_storage i)) CODEC_STORAGE_SIZE);
  registry ← lift registry;
  registry ← register_codecs (in_config i) (Z.to_nat (cg_codecs_len (in_config i))) 0 registry;
  _ ← put_instance h (fun i => i <| in_codec_registry := registry |>);
  put_layers h (fun l => l <| ly_transport_ctx := ((ly_transport_ctx l) <| tc_codec_registry := Ptr registry |>) |>).

(** From the receive buffer on; the tables are in place. *)
(** src/src/api/xgl_instance.c:120-239: xgl_init *)
Definition init_layers (h : Z) : I xgl_error_t :=
  i ← get_instance h;
  let rx_buffer_size := mc_rx_buffer_size (cg_memory (in_config i)) in
  rx_buffer ← instance_alloc i rx_buffer_size;
  if rx_buffer =? NULLP then cleanup_route_read_times h XGL_ERR_NO_MEMORY
  else
    rx_cache ← gets (fun w => iw_junk w rx_buffer_size);
    err ← init_datalink h rx_buffer rx_cache;
    if negb (is_ok err) then cleanup_rx_buffer h rx_buffer err
    else
      err ← init_network h;
      if negb (is_ok err) then cleanup_datalink h rx_buffer err
      else
        err ← init_transport h;
        if negb (is_ok err) then cleanup_network h rx_buffer err
        else
          _ ← put_layers h wire_layers;
          _ ← put_instance h (fun i => i <| in_initialized := true |>);
          _ ← init_codecs h;
          mret XGL_OK.

(** src/src/api/xgl_instance.c:27-283: xgl_init *)
Definition xgl_init (h : Z) : I xgl_error_t :=
  if h =? NULLP then mret XGL_ERR_NULL_POINTER
  else
    i ← get_instance h;
    if in_initialized i then mret XGL_ERR_ALREADY_INITIALIZED
    else
      _ ← put_instance h (fun i => i <| in_stats := (zero_statistics <| st_min_rtt_ms := UINT32_MAX |>) |>);
      r ← init_tx_pool h;
      if negb (r =? 0) then mret XGL_ERR_NO_MEMORY
      else
        r ← on_packets h (xgl_packet_pool_init (packet_pool_count (mc_tx_pool_size (cg_memory (in_config i)))));
        if negb (r =? 0) then cleanup_tx_pool h XGL_ERR_NO_MEMORY
        else
          err ← init_route_table h;
          if negb (is_ok err) then cleanup_packet_pool h err
          else
            err ← load_routes h;
            if negb (is_ok err) then cleanup_route_table h err
            else
              err ← init_read_times h;
              if negb (is_ok err) then cleanup_route_table h err
              else init_layers h.

(** ** Destruction *)

(** src/src/api/xgl_instance_lifecycle.c:59-88: xgl_destroy *)
Definition xgl_destroy (h : Z) : I unit :=
  if h =? NULLP then mret tt
  else
    _ ← on_transport h xgl_transport_destroy;
    i ← get_instance h;
    _ ← (if in_rx_cache i =? NULLP then mret tt
         else _ ← instance_free i (in_rx_cache i); put_instance h (fun i => i <| in_rx_cache := NULLP |>));
    _ ← (if bool_decide (in_route_last_read_ms i = NULL) then mret tt
         else
           _ ← instance_free i (address_of (in_route_last_read_ms i));
           put_instance h (fun i => i <| in_route_last_read_ms := NULL |> <| in_route_last_read_count := 0 |>));
    _ ← put_instance h (fun i => i <| in_route_table := xgl_route_table_destroy (in_route_table i) |>);
    _ ← on_packets h xgl_packet_pool_destroy;
    pool ← on_alloc (xgl_tiered_pool_destroy (Ptr (in_tx_pool i)));
    pool ← lift pool;
    _ ← put_instance h (fun i => i <| in_tx_pool := pool |>);
    i ← get_instance h;
    _ ← instance_free i h;
    modify (fun w => w <| iw_instances := delete h (iw_instances w) |> <| iw_freed := iw_freed w ++ [i] |>).

(** ** Statistics *)

(** The counters, where the layers keep them. *)
Definition live_stats (i : xgl_instance) : xgl_statistics_t :=
  let l := in_layers i in
  (in_stats i) <| st_datalink := default (st_datalink (in_stats i)) (dc_stats (ly_datalink_ctx l)) |>
    <| st_network := default (st_network (in_stats i)) (nc_stats (ly_network_ctx l)) |>
    <| st_transport := default (st_transport (in_stats i)) (tc_stats (ly_transport_ctx l)) |>
    <| st_tx_retries := default (st_tx_retries (in_stats i)) (tc_tx_retries (ly_transport_ctx l)) |>
    <| st_rx_header_crc_errors := default (st_rx_header_crc_errors (in_stats i)) (dc_rx_header_crc_errors (ly_datalink_ctx l)) |>
    <| st_rx_crc16_errors := default (st_rx_crc16_errors (in_stats i)) (dc_rx_crc16_errors (ly_datalink_ctx l)) |>.
Definition store_stats (s : xgl_statistics_t) (i : xgl_instance) : xgl_instance :=
  i <| in_stats := s |>
    <| in_layers := ((in_layers i)
         <| ly_datalink_ctx := ((ly_datalink_ctx (in_layers i))
              <| dc_stats := (fun _ => st_datalink s) <$> dc_stats (ly_datalink_ctx (in_layers i)) |>
              <| dc_rx_header_crc_errors := (fun _ => st_rx_header_crc_errors s) <$> dc_rx_header_crc_errors (ly_datalink_ctx (in_layers i)) |>
              <| dc_rx_crc16_errors := (fun _ => st_rx_crc16_errors s) <$> dc_rx_crc16_errors (ly_datalink_ctx (in_layers i)) |>) |>
         <| ly_network_ctx := ((ly_network_ctx (in_layers i))
              <| nc_stats := (fun _ => st_network s) <$> nc_stats (ly_network_ctx (in_layers i)) |>) |>
         <| ly_transport_ctx := ((ly_transport_ctx (in_layers i))
              <| tc_stats := (fun _ => st_transport s) <$> tc_stats (ly_transport_ctx (in_layers i)) |>
              <| tc_tx_retries := (fun _ => st_tx_retries s) <$> tc_tx_retries (ly_transport_ctx (in_layers i)) |>) |>) |>.
(** [stats] is the structure that the result is written to. *)
(** src/src/api/xgl_stats.c:25-62: xgl_stats_get *)
Definition xgl_stats_get (h : Z) (stats : ptr xgl_statistics_t) : I (xgl_error_t * ptr xgl_statistics_t) :=
  if h =? NULLP then mret (XGL_ERR_NULL_POINTER, stats)
  else match stats with
  | NULL => mret (XGL_ERR_NULL_POINTER, NULL)
  | Ptr _ =>
      i ← get_instance h;
      if negb (in_initialized i) then mret (XGL_ERR_NOT_INITIALIZED, stats)
      else mret (XGL_OK, Ptr (live_stats i))
  end.
(** src/src/api/xgl_stats.c:70-102: xgl_stats_reset *)
Definition xgl_stats_reset (h : Z) : I xgl_error_t :=
  if h =? NULLP then mret XGL_ERR_NULL_POINTER
  else
    i ← get_instance h;
    if negb (in_initialized i) then mret XGL_ERR_NOT_INITIALIZED
    else _ ← put_instance h (store_stats zero_statistics); mret XGL_OK.
