(* ===== verification/InstanceInv.v ===== *)
(** * The life of an instance

    Initialisation either succeeds, and then every layer is in the state from
    which its own theorems start, or it runs out of memory and gives everything
    back; destruction gives everything back from wherever the instance is. *)
From S2P Require Import Prelude State Errors Layer Wire WireExt Frame Parser Security Codec Window LinkedList HashTable Route Fragment Reliable Transport TransportInv TransportApi Datalink DatalinkInv DatalinkSend DatalinkSafe Network NetworkInv Memory Mempool Allocator TieredPool TieredPoolInv PacketPool Config Instance.

(** ** Memory that is held *)

Lemma heap_ok_same h h' : ch_bytes h' = ch_bytes h -> ch_regions h' = ch_regions h -> heap_ok h -> heap_ok h'.
Proof. unfold heap_ok. by intros -> ->. Qed.
Lemma took_start a : heap_ok (aw_heap a) -> aw_fallback a = true -> took a [] a.
Proof. intros Hok Hf. split_and!; [done|done|by apply holding_start]. Qed.
Lemma took_heap_ok a l a' : took a l a' -> heap_ok (aw_heap a').
Proof. by intros (_ & _ & []). Qed.
Lemma took_fallback a l a' : took a l a' -> aw_fallback a' = true.
Proof. by intros (? & _). Qed.
Lemma as_before_trans a b c : as_before a b -> as_before b c -> as_before a c.
Proof. intros (_ & H1 & H2 & H3) (? & H4 & H5 & H6). split_and!; congruence. Qed.

Lemma region_dec (l : list (Z * Z)) x : (exists a n, (a, n) ∈ l /\ a <= x < a + n) \/ forall a n, (a, n) ∈ l -> ~ a <= x < a + n.
Proof.
  destruct (decide (Exists (fun e => e.1 <= x < e.1 + e.2) l)) as [H|H].
  - left. apply Exists_exists in H as ([a n] & ? & ?). by exists a, n.
  - right. intros a n Hin Hx. apply H, Exists_exists. by exists (a, n).
Qed.
(** Taking in two steps. *)
Lemma holding_trans h0 h h' l l' : holding h0 h l -> holding h h' l' -> holding h0 h' (l' ++ l).
Proof.
  intros [Hok Hnd Hin Hout Hby Hvac] [Hok' Hnd' Hin' Hout' Hby' Hvac'].
  assert (forall a n, (a, n) ∈ l -> a ∉ l'.*1) as Hdisj.
  { intros a n Ha Ha'. apply list_elem_of_fmap in Ha' as ([b k] & -> & Hb). destruct (Hin' _ _ Hb) as [_ Hno].
    destruct (Hin _ _ Ha) as [Hyes _]. cbn in *. congruence. }
  split; [done|..].
  - rewrite fmap_app. apply NoDup_app. split; [done|]. split; [|done]. intros a Ha' Ha.
    apply list_elem_of_fmap in Ha as ([b k] & -> & Hb). by apply (Hdisj _ _ Hb).
  - intros a n [Ha|Ha]%elem_of_app.
    + destruct (Hin' _ _ Ha) as [Hr Hr0]. split; [done|]. rewrite <- (Hout a); [done|].
      intros Hl. apply list_elem_of_fmap in Hl as ([b k] & -> & Hb). destruct (Hin _ _ Hb). cbn in *. congruence.
    + destruct (Hin _ _ Ha) as [Hr Hr0]. split; [|done]. rewrite Hout'; [done|]. by eapply Hdisj.
  - intros a. rewrite fmap_app, not_elem_of_app. intros [Ha' Ha]. by rewrite Hout', Hout.
  - intros x Hx. rewrite Hby', Hby; [done|..]; intros a n Ha; apply Hx, elem_of_app; auto.
  - intros a n x [Ha|Ha]%elem_of_app Hx; [|by eapply Hvac]. pose proof (Hvac' _ _ _ Ha Hx) as Hno.
    destruct (region_dec l x) as [(b & k & Hb & Hxb)|Hx']; [|by rewrite <- Hby].
    destruct (Hin _ _ Hb) as [Hr _]. destruct (proj1 Hok _ _ Hr) as (_ & _ & _ & Ho). destruct (Ho x Hxb). congruence.
Qed.
Lemma took_trans a b c l l' : took a l b -> took b l' c -> took a (l' ++ l) c.
Proof. intros (_ & Ht & H) (Hf & Ht' & H'). split_and!; [done|congruence|by eapply holding_trans]. Qed.
Lemma took_as_before a l b c : took a l b -> as_before b c -> took a l c.
Proof.
  intros H (Hf & Ht & Hm & Hr). assert (took b [] c) as H'; [|exact (took_trans _ _ _ _ _ H H')].
  split_and!; [done|done|]. pose proof (took_heap_ok _ _ _ H) as Hok.
  split; [by apply (heap_ok_same (aw_heap b))|constructor|by intros ? ? ?%elem_of_nil|by rewrite Hr|by rewrite Hm|].
  by intros ? ? ? ?%elem_of_nil.
Qed.

(** ** Allocators that use the heap as it is *)

Definition plain (al : ptr xgl_allocator_t) : Prop :=
  exists a, al = Ptr a /\ (al_malloc a = Ptr default_malloc \/ al_malloc a = Ptr platform_malloc) /\
    (al_free a = Ptr default_free \/ al_free a = Ptr platform_free).
Lemma plain_alloc d al n a : plain al -> n <> 0 -> xgl_alloc d al n a = heap_malloc n a.
Proof.
  intros (p & -> & Hm & _) Hn. destruct d; cbn [xgl_alloc]; destruct (Z.eqb_spec n 0); try done;
    unfold mbind, ST_bind, gets, xgl_tracking_allocator_is_alloc_callback; destruct Hm as [-> | ->]; done.
Qed.
Lemma plain_free d al p a : plain al -> p <> NULLP -> xgl_free d al p a = heap_free p a.
Proof.
  intros (q & -> & _ & Hm) Hn. destruct d; cbn [xgl_free]; destruct (Z.eqb_spec p NULLP); try done;
    unfold mbind, ST_bind, gets, xgl_tracking_allocator_is_free_callback; destruct Hm as [-> | ->]; done.
Qed.
Lemma took_alloc d al n w0 l a : plain al -> 0 < n -> took w0 l a ->
  exists p a', xgl_alloc d al n a = Some (p, a') /\ took w0 (buffer_region p n ++ l) a' /\ extends (mem a) (mem a') /\
    took a (buffer_region p n) a'.
Proof.
  intros Hp Hn Ht. rewrite plain_alloc by (done || lia). unfold heap_malloc.
  pose proof (malloc_spec n (aw_heap a) (took_heap_ok _ _ _ Ht) Hn) as Hm. pose proof (took_fallback _ _ _ Ht) as Hf.
  destruct (malloc n (aw_heap a)) as [p h]. destruct Hm as (Hok & [(-> & Hby & Hreg)|Hfresh]).
  - exists NULLP. eexists. split; [done|]. cbn [buffer_region Z.eqb app].
    assert (as_before a (a <| aw_heap := h |>)) as Hb by by split_and!.
    split; [by eapply took_as_before|]. split; [intros x _; cbn; by rewrite Hby|].
    eapply took_as_before; [|exact Hb]. by apply took_start; [eapply took_heap_ok|].
  - pose proof Hfresh as (Hpos & _ & _ & Hvac & Hframe & _).
    assert (took a [(p, n)] (a <| aw_heap := h |>)) as H1.
    { split_and!; [done|done|]. eapply holding_acquire; [apply holding_start; by eapply took_heap_ok|done|done]. }
    exists p. eexists. split; [done|]. unfold buffer_region. destruct (Z.eqb_spec p NULLP); [lia|].
    split; [by eapply (took_trans _ _ _ _ [(p, n)])|]. split; [|done].
    intros x [v Hx]. cbn. apply Hframe. intros Hin. by rewrite Hvac in Hx.
Qed.
Lemma took_free d al p n w0 l a : plain al -> took w0 (buffer_region p n ++ l) a ->
  exists a', xgl_free d al p a = Some (tt, a') /\ took w0 l a'.
Proof.
  intros Hp Ht. unfold buffer_region in Ht. destruct (Z.eqb_spec p NULLP) as [->|Hnz].
  { exists a. split; [|exact Ht]. by destruct d. }
  rewrite plain_free by done. destruct Ht as (Hf & Htr & H). unfold heap_free.
  destruct (holding_release _ _ _ _ _ H) as (h & -> & H'). eexists. split; [done|]. by split_and!.
Qed.
(** The pool is still there when what came after it is gone. *)
Lemma destroy_later w0 B N pool w1 ts a : in_use w0 B N pool w1 ts -> took w1 [] a ->
  exists a', xgl_tiered_pool_destroy (Ptr pool) a = Some (Ptr zero_tiered_pool, a') /\ as_before w0 a'.
Proof.
  intros [Ht _ _ Hb Ho] Hl. apply (destroy_run w0 pool (region (tier_size small) (N small))
    (region (tier_size medium) (N medium)) (region (tier_size large) (N large))); [done|].
  pose proof (Hb small) as H1. pose proof (Hb medium) as H2. pose proof (Hb large) as H3. cbn [get_buffer] in *.
  rewrite H1, H2, H3. exact (took_trans _ _ _ _ _ Ht Hl).
Qed.
Lemma tiered_rep_extends B N pool m m' ts : tiered_rep B N pool m ts -> extends m m' -> tiered_rep B N pool m' ts.
Proof. intros [Ht Hc] He. split; [|done]. intros t. by eapply tier_rep_extends. Qed.

(** ** The steps of the functions *)

Lemma window_init_fails w0 size env err w env' : xgl_window_init_with_allocator w0 size env = (err, w, env') ->
  1 <= size <= 128 -> err = XGL_OK \/ err = XGL_ERR_NO_MEMORY /\ sw_ack_received w = NULL.
Proof.
  unfold xgl_window_init_with_allocator. intros Hi Hs. replace ((size =? 0) || (128 <? size)) with false in Hi by lia.
  destruct (alloc_answer size env) as [[] env1]; injection Hi as <- <- _; [by left|by right].
Qed.
(** The transport layer holds no memory: no window, no queued packet, no reassembly,
    no peer. *)
Definition transport_empty (c : xgl_transport_ctx_t) : Prop :=
  tc_fragment_mgr c = NULL /\ rq_packets (tc_reliable_queue c) = ∅ /\ sw_ack_received (tc_window c) = NULL /\ tc_peers c = [].
Lemma closable_fresh n c : tc_peers c = [] -> tc_reliable_queue c = xgl_reliable_init n -> closable c.
Proof. intros Hp Hq. split; [exists 0; rewrite Hp; constructor|]. exists []. rewrite Hq. apply init_rep. Qed.
Lemma transport_init_answers old config heap err c heap' :
  xgl_transport_init (Ptr old) (Ptr config) heap = (err, c, heap') -> cf_stats config <> NULL ->
  1 <= cf_window_size config <= 128 ->
  exists c', c = Ptr c' /\ closable c' /\ (err = XGL_OK \/ err = XGL_ERR_NO_MEMORY /\ transport_empty c').
Proof.
  unfold xgl_transport_init. intros Hi Hs Hw. rewrite bool_decide_eq_false_2 in Hi by done.
  destruct (xgl_window_init_with_allocator _ _ heap) as [[e win] heap1] eqn:Hwin.
  pose proof (window_init_fails _ _ _ _ _ _ Hwin Hw) as He.
  destruct (is_ok e) eqn:Hok; cbn [negb] in Hi.
  2: { injection Hi as <- <- _. eexists. split; [done|]. split; [by eapply closable_fresh|].
       destruct He as [-> |[-> He]]; [done|]. right. split; [done|]. by split_and!. }
  destruct (cf_enable_fragmentation config); cbn [negb] in Hi.
  - destruct (alloc_answer sizeof_fragment_manager heap1) as [[] heap2]; cbn [negb] in Hi; injection Hi as <- <- _;
      (eexists; split; [done|]; split; [by eapply closable_fresh|]); [by left|]. right. split; [done|]. by split_and!.
  - injection Hi as <- <- _. eexists. split; [done|]. split; [by eapply closable_fresh|]. by left.
Qed.
Lemma route_init_fails gen env err t env' : xgl_route_table_init XGL_ROUTE_TABLE_DEFAULT_SIZE gen env = (err, t, env') ->
  err = XGL_OK \/ err = XGL_ERR_NO_MEMORY /\ ht_buckets (rt_hashtable t) = NULL /\ rt_routes t = NULL.
Proof.
  unfold xgl_route_table_init, xgl_hashtable_init. intros Hi.
  change (negb (xgl_is_power_of_2 XGL_ROUTE_TABLE_DEFAULT_SIZE)) with false in Hi. cbn iota in Hi.
  destruct (alloc_answer _ env) as [[] env1]; [|injection Hi as <- <- _; by right].
  change (negb (is_ok XGL_OK)) with false in Hi. change (0 <? XGL_ROUTE_TABLE_DEFAULT_SIZE) with true in Hi. cbn iota in Hi.
  destruct (alloc_answer _ env1) as [[] env2]; injection Hi as <- <- _; [by left|by right].
Qed.
(** The loop only looks at the routes it is told of. *)
Lemma route_load_loop_app l1 l2 n : forall t i env, 0 <= i -> i + Z.of_nat n <= zlen l1 ->
  route_load_loop t (l1 ++ l2) n i env = route_load_loop t l1 n i env.
Proof.
  induction n as [|n IH]; intros t i env Hi Hn; [done|]. cbn [route_load_loop].
  rewrite !rd_lookup by lia. rewrite lookup_app_l by (unfold zlen in *; lia).
  destruct (l1 !! Z.to_nat i) as [r|]; [|done]. cbn [mbind option_bind].
  destruct (xgl_route_table_add _ _ _ _ _ _ _) as [[[err t'] env']|]; [|done]. cbn [mbind option_bind].
  destruct (negb (is_ok err)); [done|]. apply IH; lia.
Qed.
(** The pool forgets what it was. *)
Lemma packet_init_forgets n p d b hp : n <> 0 ->
  xgl_packet_pool_init n (mk_pk_world p d b hp) = xgl_packet_pool_init n (mk_pk_world zero_packet_pool d b hp).
Proof.
  intros Hn. unfold xgl_packet_pool_init. destruct (Z.eqb_spec n 0); [done|]. unfold mbind, ST_bind, pk_malloc. cbn [pw_heap].
  destruct (alloc_answer _ hp) as [[] hp']; cbn [negb]; [|done]. unfold lift.
  by destruct (packet_init_loop _ _ _).
Qed.

(** Without its array it holds nothing. *)
Lemma packet_init_refused n d b hp r w : n <> 0 ->
  xgl_packet_pool_init n (mk_pk_world zero_packet_pool d b hp) = Some (r, w) -> r <> 0 -> pl_packets (pw_pool w) = NULL.
Proof.
  intros Hn. unfold xgl_packet_pool_init. destruct (Z.eqb_spec n 0); [done|]. unfold mbind, ST_bind, pk_malloc. cbn [pw_heap].
  destruct (alloc_answer _ hp) as [[] hp']; cbn [negb]; [|by intros [= <- <-]]. unfold lift.
  destruct (packet_init_loop _ _ _); [|done]. cbn. by intros [= <- _].
Qed.

Section steps.
(** One instance among others, in its surroundings. *)
Context (others : gmap Z xgl_instance) (h : Z) (junk : Z -> bytes) (phys : Z -> xgl_phy_ops_t) (freed : list xgl_instance).
Definition with_instance (i : xgl_instance) (a : alloc_world) (hp : heap_answers) (es : list xgl_error_t) : in_world :=
  mk_in_world a hp junk phys (<[h := i]> others) es freed.

Lemma wp_get_instance Q i a hp es : Q i (with_instance i a hp es) -> wp (get_instance h) Q (with_instance i a hp es).
Proof. unfold wp, get_instance. cbn. by rewrite lookup_insert_eq. Qed.
Lemma wp_put_instance f Q i a hp es : Q tt (with_instance (f i) a hp es) -> wp (put_instance h f) Q (with_instance i a hp es).
Proof. unfold wp, put_instance, with_instance. cbn. rewrite lookup_insert_eq. cbn. by rewrite insert_insert_eq. Qed.
Lemma wp_put_layers f Q i a hp es : Q tt (with_instance (i <| in_layers := f (in_layers i) |>) a hp es) ->
  wp (put_layers h f) Q (with_instance i a hp es).
Proof. intros H. by apply wp_put_instance. Qed.
Lemma wp_on_alloc {X} (m : A X) x a' Q i a hp es : m a = Some (x, a') -> Q x (with_instance i a' hp es) ->
  wp (on_alloc m) Q (with_instance i a hp es).
Proof. intros Hm HQ. unfold wp, on_alloc. cbn. by rewrite Hm. Qed.
Lemma wp_on_heap {X} (m : heap_answers -> M (X * heap_answers)) x hp' Q i a hp es : m hp = Some (x, hp') ->
  Q x (with_instance i a hp' es) -> wp (on_heap m) Q (with_instance i a hp es).
Proof. intros Hm HQ. unfold wp, on_heap. cbn. by rewrite Hm. Qed.
End steps.
(** One step of a proof about an instance. *)
Ltac in_step :=
  cbv beta iota;
  lazymatch goal with
  | |- wp (get_instance _) _ _ => apply wp_get_instance
  | |- wp (put_instance _ _) _ _ => apply wp_put_instance
  | |- wp (put_layers _ _) _ _ => apply wp_put_layers
  | _ => st_step
  end.

Section instance.
Context (others : gmap Z xgl_instance) (h : Z) (junk : Z -> bytes) (phys : Z -> xgl_phy_ops_t) (freed : list xgl_instance).
Abbreviation here := (with_instance others h junk phys freed).
Lemma wp_on_packets {X} (m : K X) x k Q i a hp es : m (mk_pk_world (in_packet_pool i) ∅ ∅ hp) = Some (x, k) ->
  Q x (here (i <| in_packet_pool := pw_pool k |>) a (pw_heap k) es) ->
  wp (on_packets h m) Q (here i a hp es).
Proof.
  intros Hm HQ. unfold on_packets. in_step. in_step. in_step. eapply wp_on_heap; [by rewrite Hm|]. in_step. in_step. by in_step.
Qed.
Lemma wp_on_transport {X} (m : T X) x w Q i a hp es :
  m (mk_world (ly_transport_ctx (in_layers i)) hp [] [] 0 []) = Some (x, w) ->
  Q x (here (i <| in_layers := ((in_layers i) <| ly_transport_ctx := w_ctx w |>) |>) a (w_heap w) es) ->
  wp (on_transport h m) Q (here i a hp es).
Proof.
  intros Hm HQ. unfold on_transport. in_step. in_step. in_step. eapply wp_on_heap; [by rewrite Hm|]. in_step. in_step. by in_step.
Qed.

(** ** What an instance holds *)

(** The tiered pool, taken first, and the buffers that were taken after it. *)
Definition resources (w0 : alloc_world) (pool : xgl_tiered_pool_t) (l : list (Z * Z)) (a : alloc_world) : Prop :=
  exists B N w1 ts, in_use w0 B N pool w1 ts /\ took w1 l a.
Definition buffer_sizes (i : xgl_instance) : Z * Z :=
  (mc_rx_buffer_size (cg_memory (in_config i)), cg_route_table_len (in_config i) * sizeof_uint32).
Definition instance_buffers (i : xgl_instance) : list (Z * Z) :=
  buffer_region (in_rx_cache i) (buffer_sizes i).1 ++ buffer_region (address_of (in_route_last_read_ms i)) (buffer_sizes i).2.
Definition owned (w0 : alloc_world) (i : xgl_instance) (a : alloc_world) : Prop :=
  (in_tx_pool i = zero_tiered_pool /\ in_rx_cache i = NULLP /\ in_route_last_read_ms i = NULL /\ as_before w0 a) \/
  resources w0 (in_tx_pool i) (instance_buffers i ++ []) a.
(** The same for the packets, and for the routes and their index. *)
Definition table_empty (t : xgl_route_table_t) : Prop := ht_buckets (rt_hashtable t) = NULL /\ rt_routes t = NULL.
Definition tables_empty (i : xgl_instance) : Prop := pl_packets (in_packet_pool i) = NULL /\ table_empty (in_route_table i).
Lemma table_destroy_empty t : table_empty (xgl_route_table_destroy t).
Proof. split; [|done]. unfold xgl_route_table_destroy, xgl_hashtable_destroy. cbn. by destruct (ht_buckets (rt_hashtable t)) eqn:E. Qed.
(** No pointer to memory of the heap is left in the structure. *)
Record holds_nothing (i : xgl_instance) : Prop := {
  hn_tx_pool : in_tx_pool i = zero_tiered_pool;
  hn_rx_cache : in_rx_cache i = NULLP;
  hn_read_times : in_route_last_read_ms i = NULL;
  hn_tables : tables_empty i;
  hn_transport : transport_empty (ly_transport_ctx (in_layers i))
}.
(** Created, and not initialised; the tables may be there ... *)
Definition calm (i : xgl_instance) : Prop :=
  in_initialized i = false /\ in_tx_pool i = zero_tiered_pool /\ in_rx_cache i = NULLP /\ in_route_last_read_ms i = NULL /\
  in_codec_registry i = mk_codec_registry NULL 0 0 /\ zlen (in_codec_storage i) = CODEC_STORAGE_SIZE /\
  closable (ly_transport_ctx (in_layers i)) /\ transport_empty (ly_transport_ctx (in_layers i)).
(** ... or not: nothing is held. *)
Definition idle (i : xgl_instance) : Prop := calm i /\ tables_empty i.
Lemma idle_holds_nothing i : idle i -> holds_nothing i.
Proof. intros [(_ & ? & ? & ? & _ & _ & _ & ?) ?]. by split. Qed.
Definition same_setup (i i' : xgl_instance) : Prop :=
  in_config i' = in_config i /\ in_allocator i' = in_allocator i.
Lemma idle_new config al : idle (new_instance config al).
Proof. split; [|done]. split_and!; try done. by apply (closable_fresh 0). Qed.

Lemma idle_config i f : idle i -> idle (i <| in_stats := f |>).
Proof. done. Qed.

(** What a failed initialisation leaves. *)
Definition given_back (i0 : xgl_instance) (w0 : alloc_world) (err : xgl_error_t) (e : xgl_error_t) (w : in_world) : Prop :=
  e = err /\ exists i a hp es, w = here i a hp es /\ idle i /\ same_setup i0 i /\ as_before w0 a.
(** Idle but for the pools and the routes. *)
Definition nearly_idle (i0 i : xgl_instance) : Prop :=
  same_setup i0 i /\ calm (i <| in_tx_pool := zero_tiered_pool |>).

Lemma cleanup_tx_pool_wp i0 w0 i a hp es err : resources w0 (in_tx_pool i) [] a -> nearly_idle i0 i -> tables_empty i ->
  wp (cleanup_tx_pool h err) (given_back i0 w0 err) (here i a hp es).
Proof.
  intros (B & N & w1 & ts & Hu & Ht) [Hs Hi] He. destruct (destroy_later _ _ _ _ _ _ _ Hu Ht) as (a' & Hrun & Hb).
  unfold cleanup_tx_pool. in_step. in_step. in_step. eapply wp_on_alloc; [exact Hrun|].
  in_step. in_step. in_step. in_step. in_step. split; [done|]. eexists _, _, _, _. split; [reflexivity|]. by split_and!.
Qed.
Lemma cleanup_packet_pool_wp i0 w0 i a hp es err : resources w0 (in_tx_pool i) [] a -> nearly_idle i0 i -> table_empty (in_route_table i) ->
  wp (cleanup_packet_pool h err) (given_back i0 w0 err) (here i a hp es).
Proof.
  intros Hr Hi He. unfold cleanup_packet_pool. in_step. eapply wp_on_packets; [done|].
  apply cleanup_tx_pool_wp; [exact Hr|exact Hi|by split].
Qed.
Lemma cleanup_route_table_wp i0 w0 i a hp es err : resources w0 (in_tx_pool i) [] a -> nearly_idle i0 i ->
  wp (cleanup_route_table h err) (given_back i0 w0 err) (here i a hp es).
Proof. intros Hr Hi. unfold cleanup_route_table. in_step. in_step.
  apply cleanup_packet_pool_wp; [exact Hr|exact Hi|apply table_destroy_empty]. Qed.
Lemma cleanup_route_read_times_wp i0 w0 i n a hp es err : plain (in_allocator i) ->
  resources w0 (in_tx_pool i) (buffer_region (address_of (in_route_last_read_ms i)) n ++ []) a ->
  nearly_idle i0 (i <| in_route_last_read_ms := NULL |>) ->
  wp (cleanup_route_read_times h err) (given_back i0 w0 err) (here i a hp es).
Proof.
  intros Hp (B & N & w1 & ts & Hu & Ht) Hi. destruct (took_free TRACKER_DEPTH _ _ _ _ _ _ Hp Ht) as (a' & Hrun & Ht').
  unfold cleanup_route_read_times, instance_free. in_step. in_step. in_step. eapply wp_on_alloc; [exact Hrun|].
  in_step. in_step. apply cleanup_route_table_wp; [|exact Hi]. by exists B, N, w1, ts.
Qed.
Lemma cleanup_rx_buffer_wp i0 w0 i p k n a hp es err : plain (in_allocator i) ->
  resources w0 (in_tx_pool i) (buffer_region p k ++ buffer_region (address_of (in_route_last_read_ms i)) n ++ []) a ->
  nearly_idle i0 (i <| in_route_last_read_ms := NULL |>) ->
  wp (cleanup_rx_buffer h p err) (given_back i0 w0 err) (here i a hp es).
Proof.
  intros Hp (B & N & w1 & ts & Hu & Ht) Hi. destruct (took_free TRACKER_DEPTH _ _ _ _ _ _ Hp Ht) as (a' & Hrun & Ht').
  unfold cleanup_rx_buffer, instance_free. in_step. in_step. in_step. eapply wp_on_alloc; [exact Hrun|].
  apply (cleanup_route_read_times_wp i0 w0 i n); [done| |done]. by exists B, N, w1, ts.
Qed.
(** The layers' own clean-ups. *)
Lemma cleanup_network_wp i0 w0 i p k n a hp es err : plain (in_allocator i) ->
  resources w0 (in_tx_pool i) (buffer_region p k ++ buffer_region (address_of (in_route_last_read_ms i)) n ++ []) a ->
  nearly_idle i0 (i <| in_route_last_read_ms := NULL |> <| in_rx_cache := NULLP |>) ->
  wp (cleanup_network h p err) (given_back i0 w0 err) (here i a hp es).
Proof.
  intros Hp Hr Hi. unfold cleanup_network, cleanup_datalink. in_step. in_step. in_step. in_step. in_step. in_step.
  by apply (cleanup_rx_buffer_wp i0 w0 _ p k n).
Qed.
End instance.

(** ** What initialisation establishes *)

(** The configuration as C data: the arrays are as long as stated, integers are in
    the range of their type, and the application's functions do what they must. *)
Record config_typed (config : xgl_config_t) : Prop := {
  ct_routes : config_routes_ok config;
  ct_size : cg_route_table_len config * sizeof_route_item <= SIZE_MAX;
  ct_targets : Forall (fun r => is_u16 (ri_target_id r) = true) (config_routes config);
  ct_slots : is_u8 (fc_max_reassembly_slots (cg_features config)) = true;
  ct_auth : cg_auth_required config = true -> forall p, cg_auth_provider config = Ptr p -> provider_sound p;
  ct_codecs : match cg_codecs config with
    | NULL => cg_codecs_len config = 0
    | Ptr codecs => 0 <= cg_codecs_len config <= zlen codecs /\ Forall codec_safe codecs
    end
}.
Definition config_codecs (config : xgl_config_t) : list xgl_codec_t := default [] (cg_codecs config).

(** The layers point at each other. *)
Definition wired (l : xgl_layer_contexts_t) : Prop :=
  dc_upper_layer (ly_datalink_ctx l) = Ptr (ly_network_iface l) /\
  nc_lower_layer (ly_network_ctx l) = Ptr (ly_datalink_iface l) /\
  nc_upper_layer (ly_network_ctx l) = Ptr (ly_transport_iface l) /\
  tc_lower_layer (ly_transport_ctx l) = Ptr (ly_network_iface l).

(** The blocks and packets that the configured memory is divided into. *)
Definition pool_has_blocks (i : xgl_instance) (N : tier -> nat) : Prop :=
  let '(small_count, medium_count, large_count) := pool_counts (mc_tx_pool_size (cg_memory (in_config i))) in
  has_blocks N small_count medium_count large_count.
Definition packets_of (i : xgl_instance) : nat := Z.to_nat (packet_pool_count (mc_tx_pool_size (cg_memory (in_config i)))).

Record running (junk : Z -> bytes) (w0 : alloc_world) (i : xgl_instance) (a : alloc_world) : Prop := {
  rn_initialized : in_initialized i = true;
  (* the pools and buffers *)
  rn_memory : resources w0 (in_tx_pool i) (instance_buffers i ++ []) a;
  rn_blocks : exists B N, pool_has_blocks i N /\ tiered_rep B N (in_tx_pool i) (mem a) (fresh_tiers B N);
  rn_rx_cache : in_rx_cache i <> NULLP;
  rn_packets : exists hp, pk_rep (packets_of i) (mk_pk_world (in_packet_pool i) ∅ ∅ hp) (fresh_client (packets_of i));
  (* the routes, and a time for each *)
  rn_routes : exists es, route_rep (in_route_table i) es /\ route_map es = load_map (config_routes (in_config i)) ∅;
  rn_times : 0 < cg_route_table_len (in_config i) -> in_route_last_read_count i = cg_route_table_len (in_config i) /\
    exists p, in_route_last_read_ms i = Ptr (p, replicate (Z.to_nat (cg_route_table_len (in_config i))) 0);
  (* the layers *)
  rn_wired : wired (in_layers i);
  rn_datalink heap tx : dl_ok (ly_datalink_ctx (in_layers i)) (mk_dl_world (ly_datalink_ctx (in_layers i)) heap tx [] junk []);
  rn_auth : auth_ok (ly_datalink_ctx (in_layers i));
  rn_cache_size : p_cache_size (dc_parser (ly_datalink_ctx (in_layers i))) = mc_rx_buffer_size (cg_memory (in_config i));
  rn_network : nc_route_table (ly_network_ctx (in_layers i)) = Ptr (in_route_table i) /\
    nc_local_id (ly_network_ctx (in_layers i)) = cg_source_id (in_config i);
  rn_transport : ctx_ok 0 (ly_transport_ctx (in_layers i));
  (* the codecs *)
  rn_codecs : tc_codec_registry (ly_transport_ctx (in_layers i)) = Ptr (in_codec_registry i) /\
    Forall (fun c => c ∈ config_codecs (in_config i)) (registry_entries (in_codec_registry i))
}.

(** ** The registration of codecs *)

Definition registry_from (codecs : list xgl_codec_t) (r : xgl_codec_registry_t) : Prop :=
  registry_inv r /\ map_Forall (fun _ c => c ∈ codecs) (registry_map r).
Lemma registry_from_entries codecs r : registry_from codecs r -> Forall (fun c => c ∈ codecs) (registry_entries r).
Proof.
  intros [(_ & _ & Hnd & _) Hm]. apply Forall_forall. intros c Hc. apply (Hm (codec_key c)). unfold registry_map.
  apply elem_of_list_to_map; [by rewrite keys_of_entries|]. apply list_elem_of_fmap. by exists c.
Qed.
Lemma register_from codecs r c : registry_from codecs r -> c ∈ codecs ->
  exists err r', xgl_codec_register (Ptr r) (Ptr c) = Some (err, Ptr r') /\ registry_from codecs r'.
Proof.
  intros [Hinv Hm] Hc. destruct (codec_registry_is_a_map r c [] 0 Hinv ltac:(done)) as (_ & _ & r' & Hrun & Hinv' & Hr').
  eexists _, r'. split; [exact Hrun|]. split; [done|]. rewrite Hr'. destruct (is_ok _); [|done]. by apply map_Forall_insert_2.
Qed.

Section init.
Context (others : gmap Z xgl_instance) (h : Z) (junk : Z -> bytes) (phys : Z -> xgl_phy_ops_t) (freed : list xgl_instance).
Abbreviation here := (with_instance others h junk phys freed).

Lemma register_codecs_wp config codecs i a hp n : forall k r es, cg_codecs config = Ptr codecs ->
  0 <= k -> k + Z.of_nat n <= zlen codecs -> registry_from codecs r ->
  wp (register_codecs config n k r) (fun r' w => registry_from codecs r' /\ exists es', w = here i a hp es')
    (here i a hp es).
Proof.
  induction n as [|n IH]; intros k r es Hcs Hk Hn Hr; cbn [register_codecs].
  { in_step. split; [done|]. by eexists. }
  destruct (lookup_lt_is_Some_2 codecs (Z.to_nat k)) as [c Hc]; [unfold zlen in Hn; lia|].
  in_step. eapply wp_lift; [exact Hcs|]. in_step. eapply wp_lift; [by rewrite rd_lookup by lia|].
  destruct (register_from codecs r c Hr) as (err & r' & Hrun & Hr'); [by eapply list_elem_of_lookup_2|].
  in_step. eapply wp_lift; [exact Hrun|]. in_step. in_step. in_step.
  destruct (_ && _); in_step; eapply IH; done || lia.
Qed.
Lemma init_codecs_wp i a hp es : zlen (in_codec_storage i) = CODEC_STORAGE_SIZE ->
  match cg_codecs (in_config i) with
  | NULL => cg_codecs_len (in_config i) = 0 | Ptr codecs => 0 <= cg_codecs_len (in_config i) <= zlen codecs end ->
  wp (init_codecs h) (fun _ w => exists r es', registry_from (config_codecs (in_config i)) r /\
    w = here (i <| in_codec_registry := r |> <| in_layers := ((in_layers i) <| ly_transport_ctx :=
          ((ly_transport_ctx (in_layers i)) <| tc_codec_registry := Ptr r |>) |>) |>) a hp es') (here i a hp es).
Proof.
  intros Hst Hcs. unfold init_codecs. in_step. in_step. in_step.
  assert (exists r, xgl_codec_registry_init (Ptr (in_codec_registry i)) (Ptr (in_codec_storage i)) CODEC_STORAGE_SIZE =
    Some (XGL_OK, Ptr r) /\ registry_from (config_codecs (in_config i)) r) as (r & Hrun & Hr).
  { assert (registry_inv (mk_codec_registry NULL 0 0)) as H0 by (split_and!; try done; constructor).
    destruct (codec_registry_is_a_map (mk_codec_registry NULL 0 0) zero_codec (in_codec_storage i) CODEC_STORAGE_SIZE H0)
      as ((r & Hrun & Hinv & Hm) & _); [by rewrite Hst|].
    exists r. split; [exact Hrun|]. split; [done|]. rewrite Hm. by intros ? ? [=]. }
  eapply wp_lift; [exact Hrun|]. in_step. in_step. in_step.
  eapply (wp_mono _ (fun r' w => registry_from (config_codecs (in_config i)) r' /\ exists es', w = here i a hp es')).
  { unfold config_codecs in *. destruct (cg_codecs (in_config i)) as [codecs|] eqn:Hc.
    - apply (register_codecs_wp _ codecs); [done|done|lia|done].
    - replace (Z.to_nat (cg_codecs_len (in_config i))) with O by lia. cbn [register_codecs]. in_step. split; [done|]. by eexists. }
  intros r' w' [Hr' [es' ->]]. in_step. in_step. in_step. exists r', es'. split; [done|]. reflexivity.
Qed.

(** ** The stages *)

Context (i0 : xgl_instance) (w0 : alloc_world).
Hypothesis Hvalid : config_valid false phys (in_config i0).
Hypothesis Htyped : config_typed (in_config i0).
Hypothesis Hplain : plain (in_allocator i0).
Hypothesis Hjunk : junk_ok junk.

Definition init_post (err : xgl_error_t) (w : in_world) : Prop :=
  given_back others h junk phys freed i0 w0 XGL_ERR_NO_MEMORY err w \/
  err = XGL_OK /\ exists i a hp es, w = here i a hp es /\ same_setup i0 i /\ running junk w0 i a.
Lemma gave_back (m : I xgl_error_t) w : wp m (given_back others h junk phys freed i0 w0 XGL_ERR_NO_MEMORY) w -> wp m init_post w.
Proof. intros H. eapply wp_mono; [exact H|]. intros e w' Hw. by left. Qed.

(** The tables are in place; the layers come next. *)
Record ready (i : xgl_instance) (a : alloc_world) : Prop := {
  rd_setup : same_setup i0 i;
  rd_idle : calm (i <| in_tx_pool := zero_tiered_pool |> <| in_route_last_read_ms := NULL |>);
  rd_memory : resources w0 (in_tx_pool i) (buffer_region (address_of (in_route_last_read_ms i)) (buffer_sizes i).2 ++ []) a;
  rd_blocks : exists B N, pool_has_blocks i N /\ tiered_rep B N (in_tx_pool i) (mem a) (fresh_tiers B N);
  rd_packets : exists hp, pk_rep (packets_of i) (mk_pk_world (in_packet_pool i) ∅ ∅ hp) (fresh_client (packets_of i));
  rd_routes : exists es, route_rep (in_route_table i) es /\ route_map es = load_map (config_routes (in_config i)) ∅;
  rd_times : 0 < cg_route_table_len (in_config i) -> in_route_last_read_count i = cg_route_table_len (in_config i) /\
    exists p, in_route_last_read_ms i = Ptr (p, replicate (Z.to_nat (cg_route_table_len (in_config i))) 0)
}.

Lemma datalink_ready i rx old : in_config i = in_config i0 -> zlen rx = mc_rx_buffer_size (cg_memory (in_config i)) -> bytes_ok rx ->
  exists c, xgl_datalink_init (Ptr old) (Ptr (datalink_config i rx)) = (XGL_OK, Ptr c) /\
    forall u, let c' := c <| dc_upper_layer := u |> in
      (forall heap tx, dl_ok c' (mk_dl_world c' heap tx [] junk [])) /\ auth_ok c' /\
      p_cache_size (dc_parser c') = mc_rx_buffer_size (cg_memory (in_config i)).
Proof.
  intros Hc Hrx Hb. pose proof (lv_rx_buffer _ _ (cv_limits _ _ _ Hvalid)) as Hsz. rewrite <- Hc in Hsz.
  change XGL_MIN_RX_BUFFER_SIZE with 64 in Hsz. unfold xgl_datalink_init, xgl_parser_init. cbn [datalink_config dcf_rx_cache dcf_stats dcf_rx_cache_size].
  change (XGL_FRAME_HEADER_SIZE + XGL_CRC16_SIZE) with 26.
  destruct (Z.ltb_spec (mc_rx_buffer_size (cg_memory (in_config i))) 26) as [|Hge]; [lia|]. eexists. split; [reflexivity|]. intros u. cbn zeta.
  set (cfg := mk_datalink_config (Ptr rx) (mc_rx_buffer_size (cg_memory (in_config i))) (cg_source_id (in_config i))
    (Ptr (st_datalink (in_stats i))) (Ptr (st_rx_header_crc_errors (in_stats i))) (Ptr (st_rx_crc16_errors (in_stats i))) u
    (cg_error_callback (in_config i)) (cg_auth_required (in_config i)) (cg_auth_key_id (in_config i)) (cg_auth_provider (in_config i))).
  assert (datalink_config_ok cfg) as Hok.
  { split; [cbn; split; [lia|done]|]. cbn. rewrite Hc. apply (ct_auth _ Htyped). }
  assert (exists c, xgl_datalink_init (Ptr old) (Ptr cfg) = (XGL_OK, Ptr c) /\
    forall heap tx, dl_ok c (mk_dl_world c heap tx [] junk []) /\ auth_ok c /\ p_cache_size (dc_parser c) = dcf_rx_cache_size cfg) as (c & Hrun & Hres).
  { destruct (xgl_datalink_init (Ptr old) (Ptr cfg)) as [err c] eqn:Hrun.
    assert (err = XGL_OK /\ exists c', c = Ptr c') as [-> [c' ->]].
    { unfold xgl_datalink_init, xgl_parser_init in Hrun. cbn [cfg dcf_rx_cache dcf_stats dcf_rx_cache_size] in Hrun.
      change (XGL_FRAME_HEADER_SIZE + XGL_CRC16_SIZE) with 26 in Hrun. destruct (Z.ltb_spec (mc_rx_buffer_size (cg_memory (in_config i))) 26); [lia|].
      injection Hrun as <- <-. by eauto. }
    exists c'. split; [done|]. intros heap tx. by apply (datalink_init_ok _ _ _ heap tx junk Hrun Hok Hjunk). }
  revert Hrun. unfold xgl_datalink_init, xgl_parser_init. cbn [cfg dcf_rx_cache dcf_stats dcf_rx_cache_size].
  change (XGL_FRAME_HEADER_SIZE + XGL_CRC16_SIZE) with 26. destruct (Z.ltb_spec (mc_rx_buffer_size (cg_memory (in_config i))) 26); [lia|].
  intros [= <-]. split; [intros heap tx; apply (Hres heap tx)|]. by destruct (Hres [] []) as (_ & ? & ?).
Qed.

Lemma empty_registry : registry_inv (mk_codec_registry NULL 0 0).
Proof. split_and!; try done; constructor. Qed.
Lemma transport_ready i es : in_config i = in_config i0 -> in_codec_registry i = mk_codec_registry NULL 0 0 ->
  route_rep (in_route_table i) es -> config_ok (transport_config i).
Proof.
  intros Hc Hr He. pose proof (lv_window _ _ (cv_limits _ _ _ Hvalid)) as Hw. rewrite <- Hc in Hw.
  change XGL_MIN_WINDOW_SIZE with 1 in Hw. change XGL_MAX_WINDOW_SIZE with 32 in Hw.
  unfold config_ok. cbn [transport_config cf_codec_registry cf_route_table cf_window_size cf_max_reassembly_slots]. rewrite Hr. split.
  { split; [apply empty_registry|constructor]. }
  split; [by exists es|]. split; [apply is_u8_spec; lia|]. rewrite Hc. apply (ct_slots _ Htyped).
Qed.
(** What the wiring and the codecs change. *)
Lemma transport_wired c u r : ctx_ok 0 c -> registry_from (config_codecs (in_config i0)) r ->
  ctx_ok 0 (c <| tc_lower_layer := u |> <| tc_codec_registry := Ptr r |>).
Proof.
  intros (H1 & H2 & H3 & _ & H5 & H6 & H7) Hr. do 3 (split; [done|]). split; [|by split_and!]. cbn. split; [apply Hr|].
  pose proof (registry_from_entries _ _ Hr) as He. pose proof (ct_codecs _ Htyped) as Hc. unfold config_codecs in He.
  destruct (cg_codecs (in_config i0)) as [codecs|]; [|eapply Forall_impl; [exact He|]; by intros c' ?%elem_of_nil].
  destruct Hc as [_ Hc]. rewrite Forall_forall in Hc. eapply Forall_impl; [exact He|]. intros c'. apply Hc.
Qed.

Lemma resources_alloc d al n pool l a : plain al -> 0 < n -> resources w0 pool l a ->
  exists p a', xgl_alloc d al n a = Some (p, a') /\ resources w0 pool (buffer_region p n ++ l) a' /\ extends (mem a) (mem a').
Proof.
  intros Hp Hn (B & N & w1 & ts & Hu & Ht). destruct (took_alloc d al n w1 l a Hp Hn Ht) as (p & a' & Hrun & Ht' & He & _).
  exists p, a'. split; [done|]. split; [|done]. by exists B, N, w1, ts.
Qed.

(** The layers, once there is a receive buffer. *)
Definition start_layers (rx_buffer : Z) : I xgl_error_t :=
  rx_cache ← gets (fun w => iw_junk w (mc_rx_buffer_size (cg_memory (in_config i0))));
  err ← init_datalink h rx_buffer rx_cache;
  if negb (is_ok err) then cleanup_rx_buffer h rx_buffer err
  else
    err ← init_network h;
    if negb (is_ok err) then cleanup_datalink h rx_buffer err
    else
      err ← init_transport h;
      if negb (is_ok err) then cleanup_network h rx_buffer err
      else
        _ ← put_layers h wire_layers;
        _ ← put_instance h (fun i => i <| in_initialized := true |>);
        _ ← init_codecs h;
        mret XGL_OK.
Lemma start_layers_wp i a hp es p : ready i a -> p <> NULLP ->
  forall a', extends (mem a) (mem a') ->
  resources w0 (in_tx_pool i) (buffer_region p (buffer_sizes i).1 ++
    buffer_region (address_of (in_route_last_read_ms i)) (buffer_sizes i).2 ++ []) a' ->
  wp (start_layers p) init_post (here i a' hp es).
Proof.
  intros [Hs Hidle Hmem Hblocks Hpk Hrt Htm] Hp a' Hext Hres. destruct Hs as [Hc Hal].
  destruct Hidle as (Hi1 & _ & Hi3 & _ & Hi5 & Hi6 & Hi7 & _). cbn in Hi1, Hi3, Hi5, Hi6, Hi7.
  pose proof (lv_rx_buffer _ _ (cv_limits _ _ _ Hvalid)) as Hsz. change XGL_MIN_RX_BUFFER_SIZE with 64 in Hsz.
  pose proof (lv_window _ _ (cv_limits _ _ _ Hvalid)) as Hw.
  change XGL_MIN_WINDOW_SIZE with 1 in Hw. change XGL_MAX_WINDOW_SIZE with 32 in Hw.
  destruct Hrt as (rs & Hrep & Hmap). unfold start_layers. in_step. in_step. cbn [iw_junk with_instance].
  destruct (Hjunk (mc_rx_buffer_size (cg_memory (in_config i0))) ltac:(lia)) as [Hl Hb].
  in_step. unfold init_datalink. in_step. in_step.
  destruct (datalink_ready i (junk (mc_rx_buffer_size (cg_memory (in_config i0)))) (ly_datalink_ctx (in_layers i)) Hc ltac:(by rewrite Hc) Hb)
    as (dl & Hdl & Hdlok). rewrite Hdl. in_step. in_step. in_step. in_step. in_step. in_step. in_step.
  cbn [negb is_ok]. in_step. unfold init_network. in_step. in_step. cbn [xgl_network_init network_config ncf_route_table].
  rewrite bool_decide_eq_false_2 by done. in_step. in_step. in_step. in_step. in_step. cbn [negb is_ok]. in_step.
  unfold init_transport. in_step. in_step. in_step.
  match goal with |- context [xgl_transport_init (Ptr ?o) (Ptr ?c) _] =>
    destruct (xgl_transport_init (Ptr o) (Ptr c) hp) as [[err tc] hp'] eqn:Htc; change c with (transport_config i) in Htc end.
  eapply wp_on_heap; [exact (f_equal Some Htc)|].
  destruct (transport_init_answers _ _ _ _ _ _ Htc ltac:(done) ltac:(cbn; rewrite Hc; lia)) as (c & -> & Hcl & Herr).
  in_step. in_step. in_step. in_step. in_step. destruct Herr as [-> |[-> Hte]]; cbn [negb is_ok].
  2: { apply gave_back.
       eapply (cleanup_network_wp _ _ _ _ _ i0 w0 _ p (buffer_sizes i).1 (buffer_sizes i).2); [cbn; by rewrite Hal|exact Hres|].
       split; [by split|]. by split_and!. }
  destruct (init_world_ok _ _ _ _ _ [] 0 (replicate 512 0) Htc (transport_ready i rs Hc Hi5 Hrep) eq_refl) as (Hctx & _).
  { by apply Forall_replicate. }
  in_step. in_step. in_step. in_step. in_step.
  eapply wp_mono.
  { apply init_codecs_wp; [done|]. cbn. rewrite Hc. pose proof (ct_codecs _ Htyped) as Hcs. destruct (cg_codecs (in_config i0)); [by destruct Hcs|done]. }
  intros _ w (r & es' & Hr & ->). in_step. right. split; [done|]. eexists _, a', hp', es'. split; [reflexivity|]. split; [by split|].
  cbn in Hr. rewrite Hc in Hr.
  split; cbn [in_initialized in_tx_pool in_rx_cache in_packet_pool in_route_table in_layers in_codec_registry in_config in_route_last_read_ms in_route_last_read_count]; try done.
  - unfold instance_buffers. rewrite <- app_assoc. exact Hres.
  - destruct Hblocks as (B & N & Hnum & Hblk). exists B, N. split; [exact Hnum|]. by eapply tiered_rep_extends.
  - by exists rs.
  - intros heap tx. apply Hdlok.
  - eapply (Hdlok _).
  - eapply (Hdlok _).
  - by apply transport_wired.
  - split; [done|]. change (Forall (λ c0, c0 ∈ config_codecs (in_config i)) (registry_entries r)). rewrite Hc. by apply registry_from_entries.
Qed.
Lemma init_layers_wp i a hp es : ready i a -> wp (init_layers h) init_post (here i a hp es).
Proof.
  intros Hr. pose proof Hr as [[Hc Hal] Hidle Hmem _ _ _ _]. unfold init_layers, instance_alloc. in_step. in_step. in_step.
  pose proof (lv_rx_buffer _ _ (cv_limits _ _ _ Hvalid)) as Hsz. change XGL_MIN_RX_BUFFER_SIZE with 64 in Hsz.
  destruct (resources_alloc TRACKER_DEPTH (in_allocator i) (mc_rx_buffer_size (cg_memory (in_config i))) _ _ _
    ltac:(by rewrite Hal) ltac:(rewrite Hc; lia) Hmem) as (p & a' & Hrun & Hres & Hext).
  eapply wp_on_alloc; [exact Hrun|]. cbv beta. destruct (Z.eqb_spec p NULLP) as [->|Hp].
  - apply gave_back. eapply cleanup_route_read_times_wp; [by rewrite Hal|exact Hres|]. split; [by split|].
    destruct Hidle as (? & ? & ? & ? & ? & ? & ? & ?). by split_and!.
  - pose proof (start_layers_wp i a hp es p Hr Hp a' Hext Hres) as H. unfold start_layers in H. rewrite Hc. exact H.
Qed.

(** The stages that fill the tables. *)
Lemma counts_positive n : 0 <= n -> let '(s, m, l) := pool_counts n in 0 <= s /\ 0 <= m /\ 0 <= l.
Proof.
  intros Hn. unfold pool_counts, XGL_TIERED_POOL_SMALL_SIZE, XGL_TIERED_POOL_MEDIUM_SIZE, XGL_TIERED_POOL_LARGE_SIZE.
  repeat case_match; Z.div_mod_to_equations; lia.
Qed.
Lemma packet_count_bounds n : 4 <= packet_pool_count n <= 64.
Proof. unfold packet_pool_count. repeat case_match; lia. Qed.
Lemma init_tx_pool_wp i a hp es : took a [] a -> 0 <= mc_tx_pool_size (cg_memory (in_config i)) ->
  wp (init_tx_pool h) (fun r w => exists pool a', w = here (i <| in_tx_pool := pool |>) a' hp es /\
    (r = -1 /\ pool = zero_tiered_pool /\ as_before a a' \/
     r = 0 /\ exists B N, pool_has_blocks i N /\ in_use a B N pool a' (fresh_tiers B N))) (here i a hp es).
Proof.
  intros Ht Hn. unfold init_tx_pool, pool_has_blocks. in_step. in_step. pose proof (counts_positive _ Hn) as Hc.
  destruct (pool_counts _) as [[s m] l]. in_step. destruct Hc as (? & ? & ?).
  destruct (init_run (in_tx_pool i) s m l a (took_heap_ok _ _ _ Ht) (took_fallback _ _ _ Ht)) as (r & pool & a' & Hrun & Hr); [done..|].
  eapply wp_on_alloc; [exact Hrun|]. in_step. in_step. in_step. in_step. in_step. exists pool, a'. split; [done|].
  destruct Hr as [(? & ? & ?)|(? & ?)]; auto.
Qed.
Lemma init_packets_wp n i a hp es : 4 <= n <= 64 ->
  wp (on_packets h (xgl_packet_pool_init n)) (fun r w => exists pool hp', w = here (i <| in_packet_pool := pool |>) a hp' es /\
    (r <> 0 -> pl_packets pool = NULL) /\ (r = 0 -> exists hp, pk_rep (Z.to_nat n) (mk_pk_world pool ∅ ∅ hp) (fresh_client (Z.to_nat n)))) (here i a hp es).
Proof.
  intros Hn. pose proof (pk_init_run (Z.to_nat n) hp ltac:(lia) ltac:(unfold sizeof_packet; lia)) as Hrun.
  rewrite Z2Nat.id in Hrun by lia. apply wp_run in Hrun as (r & k & Hrun & Hr).
  eapply wp_on_packets; [rewrite packet_init_forgets by lia; exact Hrun|]. exists (pw_pool k), (pw_heap k). split; [done|].
  split; [apply (packet_init_refused n _ _ _ _ _ ltac:(lia) Hrun)|]. intros ->. destruct Hr as [[? _]|(_ & _ & Hr)]; [done|]. exists (pw_heap k).
  destruct Hr as [Hp Hd]. split; [exact Hp|].
  assert (all_refs (fresh_client (Z.to_nat n)) = []) as -> by (unfold all_refs, packet_refs; cbn; by rewrite map_to_list_empty).
  split; [intros d o Ho|intros d _|intros d1 d2 o1 o2 Ho|intros b [bs Hb]]; cbn in *; [| |by rewrite lookup_empty in Ho..|].
  + by rewrite lookup_empty in Ho.
  + by rewrite lookup_empty.
  + by rewrite lookup_empty in Hb.
Qed.
Lemma init_route_table_wp i a hp es :
  wp (init_route_table h) (fun err w => exists t hp', w = here (i <| in_route_table := t |>) a hp' es /\
    (err = XGL_OK /\ route_rep t [] \/ err = XGL_ERR_NO_MEMORY /\ table_empty t)) (here i a hp es).
Proof.
  unfold init_route_table. in_step. destruct (xgl_route_table_init XGL_ROUTE_TABLE_DEFAULT_SIZE 0 hp) as [[err t] hp'] eqn:Hrun.
  eapply wp_on_heap; [exact (f_equal Some Hrun)|]. in_step. in_step. in_step. exists t, hp'. split; [done|].
  destruct (route_init_fails _ _ _ _ _ Hrun) as [-> |[-> He]]; [left|right; by split]. split; [done|]. by eapply route_init_rep.
Qed.
Lemma load_routes_wp i a hp es : in_config i = in_config i0 -> route_rep (in_route_table i) [] ->
  wp (load_routes h) (fun err w => exists t hp', w = here (i <| in_route_table := t |>) a hp' es /\
    (err = XGL_OK /\ (exists rs, route_rep t rs /\ route_map rs = load_map (config_routes (in_config i)) ∅) \/
     err = XGL_ERR_NO_MEMORY)) (here i a hp es).
Proof.
  intros Hc Hrep. unfold load_routes. in_step. in_step. rewrite Hc. pose proof (ct_routes _ Htyped) as [Hn Hlen].
  destruct (Z.ltb_spec 0 (cg_route_table_len (in_config i0))) as [Hpos|Hz].
  2: { in_step. exists (in_route_table i), hp. split; [by destruct i|]. left. split; [done|]. exists []. split; [done|].
       unfold config_routes. replace (Z.to_nat (cg_route_table_len (in_config i0))) with O by lia. by destruct (cg_route_table _). }
  pose proof (cv_table _ _ _ Hvalid Hpos) as Hnn. pose proof (ct_targets _ Htyped) as Hu. pose proof (cv_routes _ _ _ Hvalid) as Hv.
  unfold config_routes in *. destruct (cg_route_table (in_config i0)) as [routes|]; [|done].
  set (n := Z.to_nat (cg_route_table_len (in_config i0))) in *.
  destruct (route_clear_rep _ _ Hrep) as (t1 & Hclear & Hrep1 & _).
  assert (Forall (fun r => is_u16 (ri_target_id r) = true /\ ri_phy r <> NULL) (take n routes)) as Hok.
  { apply Forall_forall. intros r Hr. rewrite Forall_forall in Hu, Hv. split; [by apply Hu|].
    destruct (Hv r Hr) as [(phy & -> & _) _]. done. }
  destruct (route_load_loop_rep (take n routes) [] t1 [] hp Hrep1 Hok) as (err & t & hp' & rs & Hrun & Hrep' & Hok' & Herr & _).
  assert (length (take n routes) = n) as Hl by (rewrite length_take; unfold zlen in Hlen; lia). rewrite Hl in Hrun.
  in_step. eapply wp_on_heap.
  { unfold xgl_route_table_load. rewrite Hclear. cbn [mbind option_bind]. change (Z.to_nat _) with n.
    rewrite <- (take_drop n routes), route_load_loop_app; [exact Hrun|done|unfold zlen; rewrite Hl; lia]. }
  in_step. in_step. in_step. exists t, hp'. split; [done|].
  destruct (decide (err = XGL_OK)) as [->|Hne]; [left|right; by apply Herr]. split; [done|]. exists rs. split; [done|]. by apply Hok'.
Qed.
Lemma init_read_times_wp pool i a hp es : in_config i = in_config i0 -> in_allocator i = in_allocator i0 ->
  in_route_last_read_ms i = NULL -> resources w0 pool [] a ->
  wp (init_read_times h) (fun err w => exists times count a', w = here (i <| in_route_last_read_count := count |>
        <| in_route_last_read_ms := times |>) a' hp es /\
    resources w0 pool (buffer_region (address_of times) (buffer_sizes i).2 ++ []) a' /\ extends (mem a) (mem a') /\
    (err = XGL_OK /\ (0 < cg_route_table_len (in_config i) -> count = cg_route_table_len (in_config i) /\
       exists p, times = Ptr (p, replicate (Z.to_nat (cg_route_table_len (in_config i))) 0)) \/
     err = XGL_ERR_NO_MEMORY /\ times = NULL)) (here i a hp es).
Proof.
  intros Hc Hal Hnull Hres. unfold init_read_times. in_step. in_step.
  destruct (Z.ltb_spec 0 (cg_route_table_len (in_config i))) as [Hpos|Hz].
  2: { in_step. exists NULL, (in_route_last_read_count i), a. split; [rewrite <- Hnull; by destruct i|]. split; [exact Hres|].
       split; [done|]. left. split; [done|lia]. }
  assert (u64 (cg_route_table_len (in_config i) * sizeof_uint32) = cg_route_table_len (in_config i) * sizeof_uint32) as Hsz.
  { apply u64_small. rewrite Hc in *. pose proof (ct_size _ Htyped) as Hs. unfold sizeof_uint32, sizeof_route_item, SIZE_MAX in *. lia. }
  rewrite Hsz. destruct (resources_alloc TRACKER_DEPTH (in_allocator i) (cg_route_table_len (in_config i) * sizeof_uint32) _ _ _
    ltac:(by rewrite Hal) ltac:(unfold sizeof_uint32; lia) Hres) as (p & a' & Hrun & Hres' & Hext).
  unfold instance_alloc. in_step. eapply wp_on_alloc; [exact Hrun|]. in_step. in_step. in_step.
  eexists _, _, a'. split; [reflexivity|]. destruct (Z.eqb_spec p NULLP) as [->|Hp].
  - split; [exact Hres'|]. split; [done|]. by right.
  - split; [exact Hres'|]. split; [done|]. left. split; [done|]. intros _. split; [done|]. by exists p.
Qed.

Lemma in_use_resources B N pool a ts : in_use w0 B N pool a ts -> resources w0 pool [] a.
Proof.
  intros H. exists B, N, a, ts. split; [done|]. pose proof (iu_took _ _ _ _ _ _ H) as Ht.
  apply took_start; [by eapply took_heap_ok|by eapply took_fallback].
Qed.
Lemma xgl_init_wp hp es : h <> NULLP -> idle i0 -> took w0 [] w0 -> wp (xgl_init h) init_post (here i0 w0 hp es).
Proof.
  intros Hh Hi Ht. unfold xgl_init. destruct (Z.eqb_spec h NULLP) as [|_]; [done|]. in_step. in_step.
  pose proof Hi as [(Hun & _ & Hrx & Hrt & Hreg & Hst & Hcl & Hte) [Hpe Hre]]. rewrite Hun. in_step. in_step. in_step.
  pose proof (lv_tx_pool _ _ (cv_limits _ _ _ Hvalid)) as Hpool. change XGL_MIN_TX_POOL_SIZE with 512 in Hpool.
  set (i1 := i0 <| in_stats := _ |>). eapply wp_mono; [apply (init_tx_pool_wp i1 w0 hp es Ht); cbn; lia|].
  intros r w (pool & a & -> & [(-> & -> & Hb)|(-> & B & N & Hnum & Hu)]); cbn [negb Z.eqb].
  { in_step. left. split; [done|]. eexists _, _, _, _. split; [reflexivity|]. split; [|by split_and!]. by split; split_and!. }
  pose proof (in_use_resources _ _ _ _ _ Hu) as Hres. in_step.
  eapply wp_mono; [apply init_packets_wp, packet_count_bounds|]. intros r w (pp & hp1 & -> & Hpn & Hpk).
  destruct (Z.eqb_spec r 0) as [->|Hr]; cbn [negb].
  2: { apply gave_back, cleanup_tx_pool_wp; [exact Hres| |split; [by apply Hpn|done]]. split; [done|]. by split_and!. }
  in_step. eapply wp_mono; [apply init_route_table_wp|]. intros err w (t & hp2 & -> & [[-> Hrep]|[-> Hempty]]); cbn [negb is_ok].
  2: { apply gave_back, cleanup_packet_pool_wp; [exact Hres| |exact Hempty]. split; [done|]. by split_and!. }
  in_step. eapply wp_mono; [by apply load_routes_wp|]. intros err w (t1 & hp3 & -> & [[-> Hrs]| ->]); cbn [negb is_ok].
  2: { apply gave_back, cleanup_route_table_wp; [exact Hres|]. split; [done|]. by split_and!. }
  in_step. eapply wp_mono; [by apply (init_read_times_wp pool)|].
  intros err w (times & count & a2 & -> & Hres2 & Hext & [[-> Htm]|[-> ->]]); cbn [negb is_ok].
  2: { apply gave_back, cleanup_route_table_wp; [exact Hres2|]. split; [done|]. by split_and!. }
  apply init_layers_wp. split; [done|by split_and!|exact Hres2| |by apply Hpk|exact Hrs|exact Htm].
  exists B, N. split; [exact Hnum|]. eapply tiered_rep_extends; [apply (iu_rep _ _ _ _ _ _ Hu)|exact Hext].
Qed.
End init.

(** ** Creation and destruction *)

Definition in_allocator_of (fallback : bool) (config : xgl_config_t) : ptr xgl_allocator_t :=
  match mc_allocator (cg_memory config) with NULL => xgl_allocator_get_default fallback | Ptr a => Ptr a end.
(** The world before an instance is created: instances live in allocated memory. *)
Record world_fit (w : in_world) : Prop := {
  wf_heap : heap_ok (aw_heap (iw_alloc w));
  wf_fallback : aw_fallback (iw_alloc w) = true;
  wf_junk : junk_ok (iw_junk w);
  wf_instances h i : iw_instances w !! h = Some i -> is_Some (ch_regions (aw_heap (iw_alloc w)) !! h)
}.
Lemma create_instance_run w config : world_fit w -> config_valid false (iw_phys w) config -> config_typed config ->
  plain (in_allocator_of true config) ->
  exists h a, xgl_create (Ptr config) w = Some (h, w <| iw_alloc := a |> <| iw_instances :=
      if h =? NULLP then iw_instances w else <[h := new_instance config (in_allocator_of true config)]> (iw_instances w) |>) /\
    took (iw_alloc w) (buffer_region h sizeof_instance) a /\ (h <> NULLP -> iw_instances w !! h = None).
Proof.
  intros [Hok Hf Hj Hin] Hv Ht Hp. pose proof (proj2 (config_validate_iff false (iw_phys w) config (ct_routes _ Ht)) Hv) as Hval.
  destruct (took_alloc TRACKER_DEPTH _ sizeof_instance (iw_alloc w) [] (iw_alloc w) Hp ltac:(done) (took_start _ Hok Hf))
    as (h & a & Hrun & Htook & _ & _). rewrite app_nil_r in Htook. exists h, a.
  unfold xgl_create, mbind, ST_bind, gets, lift at 1. rewrite Hval. cbn [mbind option_bind is_ok negb].
  unfold lift. cbn [mbind option_bind]. rewrite Hf. unfold instance_alloc, on_alloc. cbn [in_allocator new_instance].
  fold (in_allocator_of true config). rewrite Hrun. cbn [mbind option_bind]. split; [|split; [exact Htook|]].
  - by destruct (Z.eqb_spec h NULLP) as [->|]; destruct w.
  - intros Hh. destruct (iw_instances w !! h) as [i|] eqn:Hi; [|done]. destruct (Hin _ _ Hi) as [n Hn].
    unfold buffer_region in Htook. destruct (Z.eqb_spec h NULLP); [done|]. destruct Htook as (_ & _ & Hh').
    destruct (ho_in _ _ _ Hh' h sizeof_instance ltac:(left)) as [_ Hno]. congruence.
Qed.

Section lifecycle.
Context (others : gmap Z xgl_instance) (h : Z) (junk : Z -> bytes) (phys : Z -> xgl_phy_ops_t) (freed : list xgl_instance).
Abbreviation here := (with_instance others h junk phys freed).

(** Between two calls of the API, with the memory relative to [w0]. *)
Definition alive (w0 : alloc_world) (i : xgl_instance) (a : alloc_world) : Prop :=
  idle i /\ as_before w0 a \/ running junk w0 i a.
Lemma resources_before w0 a pool l a' : took w0 [] a -> resources a pool l a' -> resources w0 pool l a'.
Proof.
  intros Ht (B & N & w1 & ts & [H1 H2 H3 H4 H5] & Hl). exists B, N, w1, ts. split; [|done]. split; try done.
  pose proof (took_trans _ _ _ _ _ Ht H1) as H. by rewrite app_nil_r in H.
Qed.
Lemma running_before w0 a i a' : took w0 [] a -> running junk a i a' -> running junk w0 i a'.
Proof. intros Ht []. split; try done. by eapply resources_before. Qed.

Fixpoint init_calls (n : nat) (h : Z) : I (list xgl_error_t) :=
  match n with O => mret [] | S n => err ← xgl_init h; errs ← init_calls n h; mret (err :: errs) end.
(** Refused for want of memory, until one call succeeds. *)
Inductive init_answers : list xgl_error_t -> Prop :=
| ia_none : init_answers []
| ia_refused errs : init_answers errs -> init_answers (XGL_ERR_NO_MEMORY :: errs)
| ia_done errs : Forall (fun e => e = XGL_ERR_ALREADY_INITIALIZED) errs -> init_answers (XGL_OK :: errs).

Lemma init_calls_running w0 n i a hp es : h <> NULLP -> running junk w0 i a ->
  wp (init_calls n h) (fun errs w => Forall (fun e => e = XGL_ERR_ALREADY_INITIALIZED) errs /\ w = here i a hp es) (here i a hp es).
Proof.
  intros Hh Hr. induction n as [|n IH]; cbn [init_calls]; [by in_step|]. in_step. unfold xgl_init.
  destruct (Z.eqb_spec h NULLP); [done|]. in_step. in_step. rewrite (rn_initialized _ _ _ _ Hr). in_step. in_step.
  eapply wp_mono; [exact IH|]. intros errs w [He ->]. in_step. split; [by constructor|done].
Qed.
Lemma init_calls_wp w0 config n : config_valid false phys config -> config_typed config -> junk_ok junk -> h <> NULLP ->
  took w0 [] w0 -> forall i a hp es, in_config i = config -> plain (in_allocator i) -> idle i -> as_before w0 a ->
  wp (init_calls n h) (fun errs w => init_answers errs /\ exists i' a' hp' es', w = here i' a' hp' es' /\ same_setup i i' /\
    alive w0 i' a' /\ (XGL_OK ∈ errs -> in_initialized i' = true) /\ (XGL_OK ∉ errs -> idle i')) (here i a hp es).
Proof.
  intros Hv Ht Hj Hh Hw0. induction n as [|n IH]; intros i a hp es Hc Hp Hi Hb; cbn [init_calls].
  { in_step. split; [constructor|]. exists i, a, hp, es. split_and!; try done; [by left|by intros ?%elem_of_nil]. }
  assert (took w0 [] a) as Ha by by eapply took_as_before.
  in_step. eapply wp_mono.
  { apply (xgl_init_wp others h junk phys freed i a); try done; [by rewrite Hc..|].
    apply took_start; [by eapply took_heap_ok|by eapply took_fallback]. }
  intros err w [[-> (i1 & a1 & hp1 & es1 & -> & Hi1 & [Hs1 Hs2] & Hb1)]|(-> & i1 & a1 & hp1 & es1 & -> & [Hs1 Hs2] & Hr)]; in_step.
  - eapply wp_mono; [apply (IH i1 a1); [congruence|by rewrite Hs2|done|by eapply as_before_trans]|].
    intros errs w (Herrs & i2 & a2 & hp2 & es2 & -> & [Hs3 Hs4] & Hal & Hin & Hnot). in_step. split; [by constructor|].
    exists i2, a2, hp2, es2. split_and!; try done; [split; congruence| |].
    + intros [?|?]%elem_of_cons; [done|by apply Hin].
    + rewrite not_elem_of_cons. intros [_ ?]. by apply Hnot.
  - pose proof (running_before _ _ _ _ Ha Hr) as Hr'. eapply wp_mono; [by eapply (init_calls_running w0)|].
    intros errs w [He ->]. in_step. split; [by constructor|]. exists i1, a1, hp1, es1.
    split_and!; try done; [by right| |].
    + intros _. apply (rn_initialized _ _ _ _ Hr').
    + rewrite not_elem_of_cons. by intros [? _].
Qed.

(** What the layers and the application do with an instance: everything but the
    configuration and the memory it holds may change, as long as the transport
    layer is in order. *)
Record worked (i i' : xgl_instance) : Prop := {
  wk_setup : same_setup i i';
  wk_pool : in_tx_pool i' = in_tx_pool i;
  wk_rx : in_rx_cache i' = in_rx_cache i;
  wk_times : address_of (in_route_last_read_ms i') = address_of (in_route_last_read_ms i);
  wk_transport : closable (ly_transport_ctx (in_layers i'))
}.

(** The three steps that give the memory back. *)
Lemma destroy_buffers w0 i a : plain (in_allocator i) -> resources w0 (in_tx_pool i) (instance_buffers i ++ []) a ->
  exists a1 a2 a3, xgl_free TRACKER_DEPTH (in_allocator i) (in_rx_cache i) a = Some (tt, a1) /\
    xgl_free TRACKER_DEPTH (in_allocator i) (address_of (in_route_last_read_ms i)) a1 = Some (tt, a2) /\
    xgl_tiered_pool_destroy (Ptr (in_tx_pool i)) a2 = Some (Ptr zero_tiered_pool, a3) /\ as_before w0 a3.
Proof.
  intros Hp (B & N & w1 & ts & Hu & Ht). unfold instance_buffers in Ht. rewrite <- app_assoc in Ht.
  destruct (took_free TRACKER_DEPTH _ _ _ _ _ _ Hp Ht) as (a1 & H1 & Ht1).
  destruct (took_free TRACKER_DEPTH _ _ _ _ _ _ Hp Ht1) as (a2 & H2 & Ht2).
  destruct (destroy_later _ _ _ _ _ _ _ Hu Ht2) as (a3 & H3 & Hb). by exists a1, a2, a3.
Qed.
Lemma free_null d al a : xgl_free d al NULLP a = Some (tt, a).
Proof. by destruct d. Qed.
Lemma destroy_nothing a : xgl_tiered_pool_destroy (Ptr zero_tiered_pool) a = Some (Ptr zero_tiered_pool, a).
Proof. done. Qed.
Lemma alive_releases w0 i a : plain (in_allocator i) -> alive w0 i a ->
  exists a1 a2 a3, xgl_free TRACKER_DEPTH (in_allocator i) (in_rx_cache i) a = Some (tt, a1) /\
    xgl_free TRACKER_DEPTH (in_allocator i) (address_of (in_route_last_read_ms i)) a1 = Some (tt, a2) /\
    xgl_tiered_pool_destroy (Ptr (in_tx_pool i)) a2 = Some (Ptr zero_tiered_pool, a3) /\ as_before w0 a3.
Proof.
  intros Hp [[[(_ & -> & -> & -> & _) _] Hb]|Hr]; [|by apply destroy_buffers, (rn_memory _ _ _ _ Hr)].
  exists a, a, a. cbn [address_of]. by rewrite !free_null.
Qed.
Lemma xgl_destroy_wp wb w0 i i' a hp es : h <> NULLP -> plain (in_allocator i) ->
  took wb (buffer_region h sizeof_instance) w0 -> alive w0 i a -> worked i i' ->
  wp (xgl_destroy h) (fun _ w => exists a' hp', exists i4, w = mk_in_world a' hp' junk phys (delete h others) es (freed ++ [i4]) /\
      as_before wb a' /\ holds_nothing i4)
    (here i' a hp es).
Proof.
  intros Hh Hp Hbase Hal [[Hcfg Hall] Hpool Hrx Htm Htr]. unfold xgl_destroy. destruct (Z.eqb_spec h NULLP) as [|_]; [done|].
  destruct (alive_releases w0 i a Hp Hal) as (a1 & a2 & a3 & H1 & H2 & H3 & Hb). rewrite <- Hpool in H3.
  rewrite <- Htm, <- Hall in H2. rewrite <- Hrx, <- Hall in H1. unfold instance_free.
  pose proof (destroy_closable (mk_world (ly_transport_ctx (in_layers i')) hp [] [] 0 []) Htr) as Hd.
  apply wp_run in Hd as ([] & w & Hd & Hz). in_step. eapply wp_on_transport; [exact Hd|]. in_step. in_step.
  set (i1 := i' <| in_layers := _ |>). in_step.
  eapply (wp_mono _ (fun _ w1 => exists i2, w1 = here i2 a1 (w_heap w) es /\ in_rx_cache i2 = NULLP /\ (in_layers i2 = in_layers i1 /\ in_allocator i2 = in_allocator i') /\
    in_route_last_read_ms i2 = in_route_last_read_ms i')).
  { change (in_rx_cache i1) with (in_rx_cache i'). destruct (Z.eqb_spec (in_rx_cache i') NULLP) as [Hz0|Hnz].
    - rewrite Hz0, free_null in H1. injection H1 as ->. in_step. by eexists.
    - in_step. eapply wp_on_alloc; [exact H1|]. in_step. by eexists. }
  intros _ w1 (i2 & -> & Hrx2 & Hly2 & Htm2). in_step.
  eapply (wp_mono _ (fun _ w1 => exists i2, w1 = here i2 a2 (w_heap w) es /\ in_rx_cache i2 = NULLP /\ in_route_last_read_ms i2 = NULL /\
    (in_layers i2 = in_layers i1 /\ in_allocator i2 = in_allocator i'))).
  { change (in_route_last_read_ms i1) with (in_route_last_read_ms i'). destruct (bool_decide_reflect (in_route_last_read_ms i' = NULL)) as [Hn|Hn].
    - rewrite Hn, free_null in H2. injection H2 as ->. in_step. exists i2. split; [reflexivity|]. split; [exact Hrx2|]. split; [by rewrite Htm2|exact Hly2].
    - in_step. eapply wp_on_alloc; [exact H2|]. in_step. by eexists. }
  intros _ w2 (i3 & -> & Hrx3 & Htm3 & Hly3 & Hal3). in_step. in_step. in_step. eapply wp_on_packets; [done|]. in_step. eapply wp_on_alloc; [exact H3|].
  in_step. in_step. in_step. in_step. in_step. in_step. in_step.
  pose proof (took_as_before _ _ _ _ Hbase Hb) as Hlast.
  destruct (took_free TRACKER_DEPTH (in_allocator i') h sizeof_instance wb [] a3 ltac:(by rewrite Hall) ltac:(by rewrite app_nil_r)) as (a4 & H4 & Ht4).
  eapply wp_on_alloc; [cbn; rewrite Hal3; exact H4|]. in_step. eexists a4, _, _. split; [unfold with_instance; cbn; by rewrite delete_insert_eq|].
  split; [by apply took_nothing|]. split; [done|exact Hrx3|exact Htm3| |].
  - split; [done|apply table_destroy_empty].
  - cbn. rewrite Hly3. cbn. rewrite Hz. by split_and!.
Qed.
End lifecycle.

(** ** Properties *)

(** The world with another state of an instance. *)
Definition set_instance (h : Z) (i : xgl_instance) (w : in_world) : in_world :=
  w <| iw_instances := <[h := i]> (iw_instances w) |>.
(** The memory and the instances are what they were. *)
Definition nothing_held (w w' : in_world) : Prop :=
  as_before (iw_alloc w) (iw_alloc w') /\ iw_instances w' = iw_instances w.

Lemma init_calls_length n h : forall w errs w', init_calls n h w = Some (errs, w') -> length errs = n.
Proof.
  induction n as [|n IH]; intros w errs w'; cbn; [by intros [= <- _]|]. unfold mbind, ST_bind.
  destruct (xgl_init h w) as [[err w1]|]; [|done]. destruct (init_calls n h w1) as [[es w2]|] eqn:E; [|done].
  intros [= <- _]. cbn. f_equal. by eapply IH.
Qed.

(** C34. An instance gives back what it takes.  In the build with the malloc
    fallback, for a valid configuration (of the types and lengths that C data has, with
    a sound provider and safe codecs: [config_typed]) whose
    allocator passes requests on to the heap ([plain]: the default or the platform
    functions, no tracking), [xgl_create] either returns NULL with nothing taken,
    or a new instance.  Initialising it any number of times is defined and answers
    NO_MEMORY until one call succeeds - after a failed call the instance holds
    nothing, and the call can be repeated - and ALREADY_INITIALIZED from then on.
    At any point, and whatever the layers and the application did with the instance
    in between - its packet pool, its routes and its transport layer, whose queue
    and peers must be well formed, may be in any state, and it still names its
    receive buffer, its read times and its tiered pool - [xgl_destroy] is defined;
    the bytes and regions of the modelled heap, from which come the handle, these
    buffers and the pool, are those from before [xgl_create], each region having
    been freed exactly once; and at the moment the handle itself is freed no part
    of the structure holds memory any more: the transport layer has no window, queued
    packet, reassembly or peer, and the packet pool, the routes and their index are
    gone too (the memory of these parts is not on the modelled heap: that a part
    which forgets a pointer has freed it is in the translation of its destructor).
    No other instance has changed. *)
Theorem instance_returns_memory w config n :
  world_fit w -> config_valid false (iw_phys w) config -> config_typed config -> plain (in_allocator_of true config) ->
  exists h w1, xgl_create (Ptr config) w = Some (h, w1) /\
    (h = NULLP -> nothing_held w w1) /\
    (h <> NULLP -> exists errs w2 i, init_calls n h w1 = Some (errs, w2) /\ length errs = n /\ init_answers errs /\
       iw_instances w2 !! h = Some i /\ (XGL_OK ∈ errs -> in_initialized i = true) /\ (XGL_OK ∉ errs -> holds_nothing i) /\
       forall i', worked i i' -> exists w3, xgl_destroy h (set_instance h i' w2) = Some (tt, w3) /\ nothing_held w w3 /\
         exists last, iw_freed w3 = iw_freed w ++ [last] /\ holds_nothing last).
Proof.
  intros Hfit Hv Ht Hp. destruct (create_instance_run w config Hfit Hv Ht Hp) as (h & a & Hrun & Htook & Hnew). exists h.
  eexists. split; [exact Hrun|]. split.
  { intros ->. split; [by apply took_nothing|done]. }
  intros Hh. destruct (Z.eqb_spec h NULLP) as [|_]; [done|].
  set (i := new_instance config (in_allocator_of true config)).
  assert (took a [] a) as Ha by (apply took_start; [by eapply took_heap_ok|by eapply took_fallback]).
  pose proof (init_calls_wp (iw_instances w) h (iw_junk w) (iw_phys w) (iw_freed w) a config n Hv Ht (wf_junk _ Hfit) Hh Ha i a
    (iw_heap w) (iw_errors w) eq_refl Hp (idle_new _ _) ltac:(split_and!; [by eapply took_fallback|done..])) as Hinit.
  apply wp_run in Hinit as (errs & w2 & Hinit & Herrs & i2 & a2 & hp2 & es2 & -> & [Hc2 Hal2] & Halive & Hok & Hnot).
  eexists errs, _, i2. split; [by destruct w|]. split; [by eapply init_calls_length|]. split; [done|].
  split; [apply lookup_insert_eq|]. split; [done|].
  split; [intros Hno; by apply idle_holds_nothing, Hnot|]. intros i3 Hwork.
  pose proof (xgl_destroy_wp (iw_instances w) h (iw_junk w) (iw_phys w) (iw_freed w) (iw_alloc w) a i2 i3 a2 hp2 es2 Hh
    ltac:(by rewrite Hal2) Htook Halive Hwork) as Hd.
  apply wp_run in Hd as ([] & w3 & Hd & a3 & hp3 & i4 & -> & Hb & Hlast). eexists. split.
  { unfold set_instance, with_instance. cbn. rewrite insert_insert_eq. exact Hd. }
  split; [|by exists i4]. split; [done|]. cbn. by rewrite delete_id by (by apply Hnew).
Qed.

(** C33. Initialisation prepares every layer or nothing.  On a created instance
    that holds nothing ([idle]), with a valid and well-typed configuration
    ([config_typed]), in the build with the malloc fallback and with an allocator that
    passes requests on to the heap ([plain]: the default or the platform functions), [xgl_init] is defined and the only
    error is NO_MEMORY, wherever memory runs out; then the modelled heap is as
    before, and the instance is idle again, with the same configuration and
    allocator: it has no tiered pool, no receive buffer, no read times, no
    packets, no routes and no index, no codecs, and a transport layer without
    window, queue, reassembly and peers, so that another attempt starts from
    where this one did.  Otherwise it holds exactly its pools and buffers, with the
    numbers of blocks and packets that the configured pool size gives, all of them
    free, the route table is the map of the configured
    routes (a later route for a target overrides an earlier one), every route has
    a read time of zero, the layers point at each other, the registry has
    configured codecs only, and the contexts of the data link and the transport layer
    are in the states from which the safety of every sequence of calls is
    proved. *)
Theorem init_prepares_layers w h i :
  world_fit w -> iw_instances w !! h = Some i -> h <> NULLP -> idle i ->
  config_valid false (iw_phys w) (in_config i) -> config_typed (in_config i) -> plain (in_allocator i) ->
  exists err w' i', xgl_init h w = Some (err, w') /\ iw_instances w' = <[h := i']> (iw_instances w) /\ same_setup i i' /\
    (err = XGL_ERR_NO_MEMORY /\ as_before (iw_alloc w) (iw_alloc w') /\ idle i' \/
     err = XGL_OK /\ running (iw_junk w) (iw_alloc w) i' (iw_alloc w')).
Proof.
  intros [Hok Hf Hj _] Hi Hh Hidle Hv Ht Hp.
  pose proof (xgl_init_wp (iw_instances w) h (iw_junk w) (iw_phys w) (iw_freed w) i (iw_alloc w) Hv Ht Hp Hj (iw_heap w) (iw_errors w) Hh Hidle
    (took_start _ Hok Hf)) as Hrun.
  unfold with_instance in Hrun. rewrite insert_id in Hrun by done. apply wp_run in Hrun as (err & w' & Hrun & Hpost).
  replace (mk_in_world _ _ _ _ _ _ _) with w in Hrun by by destruct w.
  destruct Hpost as [[-> (i' & a & hp & es & -> & Hi' & Hs & Hb)]|(-> & i' & a & hp & es & -> & Hs & Hr)];
    eexists _, _, i'; (split; [exact Hrun|]); (split; [reflexivity|]); (split; [exact Hs|]); [left|right]; by split_and!.
Qed.

(** ** An instance on a small heap *)

Definition sample_memory : alloc_world :=
  mk_alloc_world true (mk_c_heap ∅ ∅ [0x10000; 0x20000; 0x30000; 0x40000; 0x50000; 0x60000] (fun _ => 85)) ∅.
Definition sample_surroundings : in_world :=
  mk_in_world sample_memory [] sample_junk (fun _ => sample_driver) ∅ [] [].
Lemma sample_typed : config_typed sample_small.
Proof.
  split; [split; vm_compute; discriminate|vm_compute; discriminate|by repeat constructor|done..].
Qed.
Lemma sample_valid : config_valid false (iw_phys sample_surroundings) sample_small.
Proof. apply config_validate_iff; [split; vm_compute; discriminate|reflexivity]. Qed.
Lemma sample_plain : plain (in_allocator_of true sample_small).
Proof. eexists. split; [reflexivity|]. split; by left. Qed.
Lemma empty_heap_ok answers junk : heap_ok (mk_c_heap ∅ ∅ answers junk).
Proof. split; cbn; [intros ? ? H|intros ? ? ? ? H]; by rewrite lookup_empty in H. Qed.
Lemma sample_fit : world_fit sample_surroundings.
Proof. split; [apply empty_heap_ok|done|apply sample_junk_ok|]. intros h i H. cbn in H. by rewrite lookup_empty in H. Qed.

(** Enough memory: the calls succeed. *)
Example sample_life_cycle :
  (fun '(x, w) => (x, iw_alloc w, in_rx_cache <$> iw_freed w)) <$>
    (h ← xgl_create (Ptr sample_small); errs ← init_calls 2 h; _ ← xgl_destroy h; mret (h, errs)) sample_surroundings =
  Some (0x10000, [XGL_OK; XGL_ERR_ALREADY_INITIALIZED],
        sample_memory <| aw_heap := mk_c_heap ∅ ∅ [] (fun _ => 85) |>, [NULLP]).
Proof. vm_compute. reflexivity. Qed.

Lemma created_fit w h i a : world_fit w -> took (iw_alloc w) (buffer_region h sizeof_instance) a -> h <> NULLP ->
  world_fit (w <| iw_alloc := a |> <| iw_instances := <[h := i]> (iw_instances w) |>).
Proof.
  intros [Hok Hf Hj Hin] Ht Hh. unfold buffer_region in Ht. destruct (Z.eqb_spec h NULLP); [done|].
  split; [by eapply took_heap_ok|by eapply took_fallback|done|]. intros k j Hk. destruct Ht as (_ & _ & H). cbn in *.
  destruct (decide (k = h)) as [->|Hne].
  - destruct (ho_in _ _ _ H h sizeof_instance ltac:(left)) as [-> _]. by eexists.
  - rewrite (ho_out _ _ _ H) by (cbn; by rewrite list_elem_of_singleton). rewrite lookup_insert_ne in Hk by done. by eapply Hin.
Qed.
Lemma init_prepares_layers_witness :
  exists w1 w2 i, xgl_create (Ptr sample_small) sample_surroundings = Some (0x10000, w1) /\
    xgl_init 0x10000 w1 = Some (XGL_OK, w2) /\ running (iw_junk w1) (iw_alloc w1) i (iw_alloc w2).
Proof.
  destruct (create_instance_run _ _ sample_fit sample_valid sample_typed sample_plain) as (h & a & Hrun & Htook & _).
  assert ((fst <$> xgl_create (Ptr sample_small) sample_surroundings) = Some 0x10000) as Hh by (vm_compute; reflexivity).
  assert ((fst <$> (h ← xgl_create (Ptr sample_small); xgl_init h) sample_surroundings) = Some XGL_OK) as Hinit by (vm_compute; reflexivity).
  rewrite Hrun in Hh. injection Hh as ->. unfold mbind, ST_bind in Hinit. rewrite Hrun in Hinit.
  change (0x10000 =? NULLP) with false in *. cbv iota in *.
  destruct (init_prepares_layers _ 0x10000 (new_instance sample_small (in_allocator_of true sample_small))
    (created_fit _ _ _ _ sample_fit Htook ltac:(done)) (lookup_insert_eq _ _ _) ltac:(done) (idle_new _ _) sample_valid sample_typed
    sample_plain) as (err & w2 & i & Hrun2 & _ & _ & Hres).
  rewrite Hrun2 in Hinit. injection Hinit as ->. destruct Hres as [(? & _)|[_ Hres]]; [done|].
  eexists _, w2, i. split; [exact Hrun|]. split; [exact Hrun2|exact Hres].
Defined.
Lemma instance_returns_memory_witness :
  exists h w1, xgl_create (Ptr sample_small) sample_surroundings = Some (h, w1) /\
    (h = NULLP -> nothing_held sample_surroundings w1) /\
    (h <> NULLP -> exists errs w2 i, init_calls 2 h w1 = Some (errs, w2) /\ length errs = 2%nat /\ init_answers errs /\
       iw_instances w2 !! h = Some i /\ (XGL_OK ∈ errs -> in_initialized i = true) /\ (XGL_OK ∉ errs -> holds_nothing i) /\
       forall i', worked i i' -> exists w3, xgl_destroy h (set_instance h i' w2) = Some (tt, w3) /\
         nothing_held sample_surroundings w3 /\ exists last, iw_freed w3 = iw_freed sample_surroundings ++ [last] /\ holds_nothing last).
Proof. exact (instance_returns_memory _ _ 2 sample_fit sample_valid sample_typed sample_plain). Defined.
