(* ===== verification/RuntimeInv.v ===== *)
(** * The deadline is exact

    Before the deadline that [xgl_next_deadline_ms] gives, a turn of the main loop
    finds no work; at the deadline it does. *)
From S2P Require Import Prelude State Errors Layer Wire LinkedList HashTable Route Window Fragment Reliable Transport Acks TransportLogic TransportInv TransportApi Network Config Instance Runtime.

(** ** Time that wraps *)

Lemma u32_inner a b : u32 (u32 a + b) = u32 (a + b).
Proof. unfold u32. by rewrite Zplus_mod_idemp_l. Qed.
Lemma u32_outer a b : u32 (a - u32 b) = u32 (a - b).
Proof. unfold u32. by rewrite Zminus_mod_idemp_r. Qed.
Lemma elapsed_later now start t : 0 <= t -> u32 (now - start) + t < 2 ^ 32 -> u32 (u32 (now + t) - start) = u32 (now - start) + t.
Proof.
  intros Ht Hlt. change (2 ^ 32) with 4294967296 in Hlt. pose proof (u32_range (now - start)).
  rewrite <- (Z.add_opp_r (u32 (now + t))), u32_inner. replace (now + t + - start) with (now - start + t) by lia.
  rewrite <- u32_inner. apply u32_small. lia.
Qed.
Lemma i32_range z : -2147483648 <= i32 z < 2147483648.
Proof. unfold i32. pose proof (u32_range z). destruct (Z.ltb_spec (u32 z) 2147483648); lia. Qed.
(** The only small number with these low bits. *)
Lemma i32_unique z v : u32 z = u32 v -> -2147483648 <= v < 2147483648 -> i32 z = v.
Proof. intros Heq Hv. unfold i32. rewrite Heq. destruct (Z.ltb_spec (u32 v) 2147483648); zlia. Qed.
Lemma u32_i32 z : u32 (i32 z) = u32 z.
Proof. unfold i32. destruct (Z.ltb_spec (u32 z) 2147483648); zlia. Qed.
Lemma remaining_time now ts timeout : 0 <= timeout <= 2 ^ 30 -> u32 (now - ts) < 2 ^ 30 ->
  i32 (u32 (ts + timeout) - now) = timeout - u32 (now - ts).
Proof.
  intros Hto Hel. change (2 ^ 30) with 1073741824 in *. pose proof (u32_range (now - ts)). apply i32_unique; [|lia].
  rewrite u32_outer, <- Z.add_opp_r, u32_inner. f_equal. lia.
Qed.
Lemma i32_compare a b now : - 2 ^ 30 < i32 (a - now) <= 2 ^ 30 -> - 2 ^ 30 < i32 (b - now) <= 2 ^ 30 ->
  i32 (a - b) = i32 (a - now) - i32 (b - now).
Proof.
  change (2 ^ 30) with 1073741824 in *. intros Ha Hb. apply i32_unique; [|lia].
  rewrite <- (u32_outer _ (i32 (b - now))), u32_i32, u32_outer.
  rewrite <- (Z.add_opp_r (i32 (a - now))), <- (u32_inner (i32 (a - now))), u32_i32, u32_inner. f_equal. lia.
Qed.

Lemma take_min_spec d c : deadline_take_min d c = Z.min d c.
Proof. unfold deadline_take_min. destruct (Z.ltb_spec c d); lia. Qed.

(** ** What may be due *)

(** A packet that waits for its ACK, a message that is being reassembled. *)
Definition packet_due (now : Z) (p : xgl_reliable_packet_t) : Prop :=
  rp_send_timestamp p <> 0 /\ rp_timeout_ms p <= u32 (now - rp_send_timestamp p).
(** Route [k] is to be read, whatever the rate of the loop. *)
Definition route_due (phys : Z -> xgl_phy_ops_t) (i : xgl_instance) (now k : Z) : Prop :=
  exists routes route, cg_route_table (in_config i) = Ptr routes /\ rd routes k = Some route /\
    0 <= k < cg_route_table_len (in_config i) /\ has_rx phys route = true /\
    forall freq_hz, should_read i freq_hz now k route = Some true.

(** The times in a transport context make sense: the deadline of a peer is the one
    [transport_update_peer_deadline] computes, timeouts are positive and, with the
    time since a packet was sent, far from wrapping. *)
Definition packet_timed (now : Z) (p : xgl_reliable_packet_t) : Prop :=
  rp_send_timestamp p <> 0 -> 0 < rp_timeout_ms p <= 2 ^ 30 /\ u32 (now - rp_send_timestamp p) < 2 ^ 30 /\
    u32 (rp_send_timestamp p + rp_timeout_ms p) <> 0.
Definition queue_timed (now : Z) (q : xgl_reliable_queue_t) : Prop :=
  forall a p, a ∈ rq_wait_ack_list q -> rq_packets q !! a = Some p -> packet_timed now p.
Record timed (now : Z) (c : xgl_transport_ctx_t) : Prop := {
  td_deadline p : p ∈ tc_peers c ->
    deadline_loop (tp_reliable_queue p) (rq_wait_ack_list (tp_reliable_queue p)) 0 = Some (tp_earliest_deadline_ms p);
  td_packets p : p ∈ tc_peers c -> queue_timed now (tp_reliable_queue p);
  td_buffers m b : tc_fragment_mgr c = Ptr m -> b ∈ fm_reassembly_list m -> rb_first_fragment_time b <> 0 ->
    0 < rb_timeout_ms b < 2 ^ 32
}.
Definition waiting (c : xgl_transport_ctx_t) (pkt : xgl_reliable_packet_t) : Prop :=
  exists p a, p ∈ tc_peers c /\ a ∈ rq_wait_ack_list (tp_reliable_queue p) /\
    rq_packets (tp_reliable_queue p) !! a = Some pkt.
Definition reassembling (c : xgl_transport_ctx_t) (b : xgl_reassembly_buffer_t) : Prop :=
  exists m, tc_fragment_mgr c = Ptr m /\ b ∈ fm_reassembly_list m.

(** ** The deadline of a peer *)

(** The time left of an absolute deadline; 0 stands for none. *)
Definition left_of (now e : Z) : Z := i32 (e - now).
Lemma timed_left now p : packet_timed now p -> rp_send_timestamp p <> 0 ->
  let abs := u32 (rp_send_timestamp p + rp_timeout_ms p) in
  left_of now abs = rp_timeout_ms p - u32 (now - rp_send_timestamp p) /\ - 2 ^ 30 < left_of now abs <= 2 ^ 30 /\ abs <> 0.
Proof.
  intros Ht Hts. destruct (Ht Hts) as (Hto & Hel & Hnz). cbn zeta. unfold left_of. rewrite remaining_time by lia.
  pose proof (u32_range (now - rp_send_timestamp p)). split; [done|]. split; [lia|done].
Qed.
(** The scan finds the least. *)
Lemma deadline_loop_least now q nodes : forall e E,
  (forall a p, a ∈ nodes -> rq_packets q !! a = Some p -> packet_timed now p) ->
  (e <> 0 -> - 2 ^ 30 < left_of now e <= 2 ^ 30) -> deadline_loop q nodes e = Some E ->
  (E <> 0 -> - 2 ^ 30 < left_of now E <= 2 ^ 30) /\
  (e <> 0 -> E <> 0 /\ left_of now E <= left_of now e) /\
  (forall a p, a ∈ nodes -> rq_packets q !! a = Some p -> rp_send_timestamp p <> 0 ->
     E <> 0 /\ left_of now E <= rp_timeout_ms p - u32 (now - rp_send_timestamp p)) /\
  (E = e \/ exists a p, a ∈ nodes /\ rq_packets q !! a = Some p /\ rp_send_timestamp p <> 0 /\
     left_of now E = rp_timeout_ms p - u32 (now - rp_send_timestamp p)).
Proof.
  induction nodes as [|a nodes IH]; intros e E Hp He; cbn [deadline_loop].
  { intros [= <-]. split_and!; [done|by intros|by intros ? ? ?%elem_of_nil|by left]. }
  destruct (rq_packets q !! a) as [p|] eqn:Ha; [|done]. cbn [mbind option_bind].
  pose proof (Hp a p ltac:(left) Ha) as Hpt.
  assert (forall a p, a ∈ nodes -> rq_packets q !! a = Some p -> packet_timed now p) as Hp' by (intros b r Hb; apply Hp; by right).
  destruct (Z.eqb_spec (rp_send_timestamp p) 0) as [Hz|Hts]; cbn [negb andb].
  - intros Hrun. destruct (IH e E Hp' He Hrun) as (H1 & H2 & H3 & H4). split_and!; [done|done| |].
    + intros b r [->|Hb]%elem_of_cons Hr Hne; [congruence|by eapply H3].
    + destruct H4 as [->|(b & r & Hb & Hrest)]; [by left|right]. exists b, r. split; [by right|done].
  - destruct (timed_left now p Hpt Hts) as (Hleft & Hbound & Hnz). destruct (Hpt Hts) as (Hto & _ & _).
    destruct (Z.ltb_spec 0 (rp_timeout_ms p)); [|lia]. set (abs := u32 (rp_send_timestamp p + rp_timeout_ms p)) in *.
    assert (forall e', (e' = abs \/ e' = e /\ e <> 0 /\ left_of now e <= left_of now abs) -> (e <> 0 -> left_of now e' <= left_of now e) ->
      deadline_loop q nodes e' = Some E ->
      (E <> 0 -> - 2 ^ 30 < left_of now E <= 2 ^ 30) /\ (e <> 0 -> E <> 0 /\ left_of now E <= left_of now e) /\
      (forall b r, b ∈ a :: nodes -> rq_packets q !! b = Some r -> rp_send_timestamp r <> 0 ->
         E <> 0 /\ left_of now E <= rp_timeout_ms r - u32 (now - rp_send_timestamp r)) /\
      (E = e \/ exists b r, b ∈ a :: nodes /\ rq_packets q !! b = Some r /\ rp_send_timestamp r <> 0 /\
         left_of now E = rp_timeout_ms r - u32 (now - rp_send_timestamp r))) as Hgo.
    { intros e' Hcase Hle Hrun.
      assert (e' <> 0 /\ - 2 ^ 30 < left_of now e' <= 2 ^ 30 /\ left_of now e' <= left_of now abs) as (Hn' & Hb' & Habs).
      { destruct Hcase as [->|(-> & He0 & Hle')]; (split; [done|]); (split; [by auto|lia]). }
      destruct (IH e' E Hp' ltac:(done) Hrun) as (H1 & H2 & H3 & H4). destruct (H2 Hn') as [HE HEl].
      split_and!; [done| | |].
      - intros He0. split; [done|]. specialize (Hle He0). lia.
      - intros b r [->|Hb]%elem_of_cons Hr Hne; [|by eapply H3]. rewrite Ha in Hr. injection Hr as <-. split; [done|]. lia.
      - destruct H4 as [->|(b & r & Hb & Hrest)]; [|right; exists b, r; split; [by right|done]].
        destruct Hcase as [->|(-> & _)]; [|by left]. right. exists a, p. split; [by left|]. split_and!; done. }
    destruct (Z.eqb_spec e 0) as [->|He0]; cbn [orb].
    + apply Hgo; [by left|done].
    + rewrite (i32_compare _ _ now); [|done|by apply He]. fold (left_of now abs) (left_of now e).
      destruct (Z.ltb_spec (left_of now abs - left_of now e) 0); [apply Hgo; [by left|lia]|apply Hgo; [right; split_and!; [done|done|lia]|lia]].
Qed.

(** ** A run of the transport layer that has nothing to do *)

Section quiet.
Context (bound now : Z).

Definition at_rest (q : xgl_reliable_queue_t) : Prop :=
  forall a p, a ∈ rq_wait_ack_list q -> rq_packets q !! a = Some p -> ~ packet_due now p /\
    (rp_send_timestamp p <> 0 -> 0 < rp_timeout_ms p <= 2 ^ 30).
Lemma body_at_rest i a p cnt w : peer_at w i p -> queue_ok (sw_next_packet_number (tp_tx_window p)) (tp_peer_id p) (tp_reliable_queue p) ->
  at_rest (tp_reliable_queue p) -> a ∈ rq_wait_ack_list (tp_reliable_queue p) ->
  wp (retransmission_body i a now cnt) (fun r w' => r = cnt /\ w' = w) w.
Proof.
  intros Hp Hq Hr Ha. destruct (queue_packet _ _ _ _ Hq Ha) as (c & Hc & _ & _). destruct (Hr a c Ha Hc) as [Hdue Hto].
  unfold retransmission_body. wp_step. eapply wp_get_queue; [done|]. wp_step. eapply wp_lift; [done|].
  destruct (Z.eqb_spec (rp_send_timestamp c) 0) as [|Hts]; [by wp_step|]. specialize (Hto Hts).
  change (2 ^ 30) with 1073741824 in Hto. rewrite (u32_small (rp_timeout_ms c)) by lia.
  destruct (Z.ltb_spec (u32 (now - rp_send_timestamp c)) (rp_timeout_ms c)) as [|Hge]; [by wp_step|]. by destruct Hdue.
Qed.
Lemma loop_at_rest i p w fuel : peer_at w i p ->
  queue_ok (sw_next_packet_number (tp_tx_window p)) (tp_peer_id p) (tp_reliable_queue p) -> at_rest (tp_reliable_queue p) ->
  forall pre rest cnt, rq_wait_ack_list (tp_reliable_queue p) = pre ++ rest -> (length rest <= fuel)%nat ->
  wp (retransmission_loop fuel i (head rest) (head (tail rest)) now cnt) (fun r w' => r = cnt /\ w' = w) w.
Proof.
  intros Hp Hq Hr. induction fuel as [|fuel IH]; intros pre [|a post] cnt Hl Hf; cbn [retransmission_loop head tail];
    try (by wp_step); [cbn in Hf; lia|].
  wp_step. eapply wp_mono; [eapply body_at_rest; try done; rewrite Hl; apply elem_of_app; right; by left|].
  intros r w' [-> ->]. wp_step. eapply wp_get_queue; [done|]. pose proof (queue_NoDup _ _ _ Hq) as Hnd. rewrite Hl in *.
  assert ((match head post with Ptr b => next_node (pre ++ a :: post) b | NULL => Some NULL end) = Some (head (tail post))) as Hnext.
  { destruct post as [|b rest]; [done|]. cbn [head tail]. replace (pre ++ a :: b :: rest) with ((pre ++ [a]) ++ b :: rest) in * by by rewrite <- app_assoc.
    apply next_node_spec. apply NoDup_app in Hnd as (_ & Hd & _). intros Hin. apply (Hd b Hin). by left. }
  wp_step. eapply wp_lift; [exact Hnext|]. apply (IH (pre ++ [a])); [by rewrite <- app_assoc|cbn in Hf; lia].
Qed.
(** The deadlines are those that were stored. *)
Definition deadline_kept (p : xgl_transport_peer_state_t) : Prop :=
  deadline_loop (tp_reliable_queue p) (rq_wait_ack_list (tp_reliable_queue p)) 0 = Some (tp_earliest_deadline_ms p).
Lemma retransmissions_at_rest w n : forall i, world_ok bound w -> (i + n <= n_peers w)%nat ->
  (forall p, p ∈ tc_peers (w_ctx w) -> at_rest (tp_reliable_queue p) /\ deadline_kept p) ->
  wp (retransmissions_loop n i now 0) (fun r w' => r = 0 /\ w' = w) w.
Proof.
  induction n as [|n IH]; intros i Hw Hi Hr; cbn [retransmissions_loop]; [by wp_step|].
  destruct (world_ok_at _ w i Hw ltac:(lia)) as (p & Hp & (Hq & _) & _).
  destruct (Hr p ltac:(by eapply list_elem_of_lookup_2)) as [Hrest Hd].
  unfold transport_process_retransmission_queue. wp_step. wp_step. eapply wp_get_queue; [done|].
  eapply wp_mono; [by apply (loop_at_rest i p w _ Hp Hq Hrest [])|]. intros r w' [-> ->].
  unfold transport_update_peer_deadline. wp_step. wp_step. eapply wp_get_peer; [done|]. wp_step. eapply wp_lift; [exact Hd|].
  eapply wp_put_peer; [done|]. rewrite with_peer_same.
  2: { unfold peer_at in *. rewrite Hp. by destruct p. }
  change (u32 (0 + 0)) with 0. apply IH; [done|lia|done].
Qed.
Lemma release_none f l m cnt : Forall (fun b => f b = false) l -> release_loop f l m cnt = (l, m, cnt).
Proof.
  induction 1 as [|b l Hb _ IH] in cnt |- *; [done|]. cbn [release_loop]. by rewrite Hb, IH.
Qed.
Lemma reclaim_sublist idle peers : forall n kept m, reclaim_loop idle now peers n = Some (kept, m) -> kept `sublist_of` peers.
Proof.
  induction peers as [|p peers IH]; intros n kept m; cbn [reclaim_loop]; [by intros [= <- _]|]. case_if.
  - destruct (xgl_reliable_destroy _); [|done]. cbn [mbind option_bind]. intros Hrun. apply sublist_cons. by eapply IH.
  - destruct (reclaim_loop idle now peers n) as [[k c]|] eqn:E; [|done]. cbn [mbind option_bind]. intros [= <- _].
    apply sublist_skip. by eapply IH.
Qed.

(** No packet and no message is due: apart from the peers that have been idle for
    too long nothing changes, and nothing is sent or reported. *)
Lemma transport_run_quiet w : world_ok bound w -> bound < 2 ^ 32 ->
  (forall p, p ∈ tc_peers (w_ctx w) -> at_rest (tp_reliable_queue p) /\ deadline_kept p) ->
  (forall b, reassembling (w_ctx w) b -> rbuf_timed_out now b = false) ->
  wp (xgl_transport_run now) (fun err w' => err = XGL_OK /\ exists kept, kept `sublist_of` tc_peers (w_ctx w) /\
    w' = w <| w_ctx := ((w_ctx w) <| tc_peers := kept |>) |>) w.
Proof.
  intros Hw Hb Hr Hre. unfold xgl_transport_run, transport_process_retransmissions. wp_step. wp_step. wp_step.
  eapply wp_mono; [apply retransmissions_at_rest; [done|unfold n_peers; lia|done]|]. intros cnt w1 [-> ->]. wp_step.
  unfold add_retries. change (0 <? 0) with false. cbv iota. wp_step. wp_step.
  eapply (wp_mono _ (fun _ w' => w' = w)).
  { unfold run_reassembly_timeouts. wp_step. wp_step. destruct (tc_fragment_mgr (w_ctx w)) as [m|] eqn:Hm; [|by wp_step].
    unfold xgl_fragment_process_timeouts. rewrite release_none.
    2: { apply Forall_forall. intros b Hin. apply Hre. by exists m. }
    cbn beta iota. wp_step. apply wp_put_ctx. change (0 <? 0) with false. cbv iota. wp_step.
    destruct w as [[] ?????], m; cbn in *; by rewrite Hm. }
  intros _ w2 ->. wp_step. unfold transport_reclaim_idle_peers. wp_step. wp_step. case_if.
  { wp_step. wp_step. split; [done|]. exists (tc_peers (w_ctx w)). split; [done|]. by destruct w as [[] ?????]. }
  pose proof Hw as ((Hp & _) & _).
  destruct (reclaim_loop_total bound (tc_peer_idle_timeout_ms (w_ctx w)) now _ 0 Hp) as (k & c & Hrun & _).
  wp_step. eapply wp_lift; [done|]. cbn beta iota. wp_step. wp_step. wp_step. wp_step. split; [done|]. exists k.
  split; [by eapply reclaim_sublist|done].
Qed.
End quiet.

(** ** The deadline is the least time left *)

(** [d] is the least of [d0] and the values that [P] holds of. *)
Definition least (d0 : Z) (P : Z -> Prop) (d : Z) : Prop :=
  d <= d0 /\ (forall c, P c -> d <= c) /\ (d = d0 \/ P d).
Lemma least_nothing d0 : least d0 (fun _ => False) d0.
Proof. split; [lia|]. split; [done|by left]. Qed.
Lemma least_take d0 c (P : Z -> Prop) d : least (deadline_take_min d0 c) P d -> least d0 (fun x => x = c \/ P x) d.
Proof.
  rewrite take_min_spec. intros (H1 & H2 & H3). split; [lia|]. split; [intros x [->|Hx]; [lia|by apply H2]|].
  destruct H3 as [->|?]; [|by right; right]. destruct (Z.min_spec d0 c) as [[? ->]|[? ->]]; [by left|by right; left].
Qed.
Lemma least_iff d0 (P Q : Z -> Prop) d : (forall c, P c <-> Q c) -> least d0 P d -> least d0 Q d.
Proof. intros He (H1 & H2 & H3). split; [done|]. split; [intros c Hc; by apply H2, He|]. destruct H3; [by left|right; by apply He]. Qed.
Lemma least_trans d0 P d1 Q d : least d0 P d1 -> least d1 Q d -> least d0 (fun x => P x \/ Q x) d.
Proof.
  intros (H1 & H2 & H3) (H4 & H5 & H6). split; [lia|]. split.
  - intros c [Hc|Hc]; [|by apply H5]. specialize (H2 c Hc). lia.
  - destruct H6 as [->|?]; [|by right; right]. destruct H3; [by left|by right; left].
Qed.

(** *** Packets *)
Definition time_left (now e : Z) : Z := Z.max 0 (left_of now e).
Lemma collect_reliable_least now peers : forall d0,
  least d0 (fun c => exists p, p ∈ peers /\ tp_earliest_deadline_ms p <> 0 /\ c = time_left now (tp_earliest_deadline_ms p))
    (collect_reliable_loop peers now d0).
Proof.
  induction peers as [|p peers IH]; intros d0; cbn [collect_reliable_loop].
  { eapply least_iff; [|apply least_nothing]. intros c. split; [done|by intros (? & ?%elem_of_nil & _)]. }
  destruct (Z.eqb_spec (tp_earliest_deadline_ms p) 0) as [Hz|Hnz].
  - eapply least_iff; [|apply IH]. intros c. split; intros (q & Hq & Hne & ->); exists q; (split; [|done]); [by right|].
    apply elem_of_cons in Hq as [->|]; [congruence|done].
  - assert ((if i32 (tp_earliest_deadline_ms p - now) <=? 0 then 0 else u32 (i32 (tp_earliest_deadline_ms p - now))) =
      time_left now (tp_earliest_deadline_ms p)) as ->.
    { unfold time_left, left_of. pose proof (i32_range (tp_earliest_deadline_ms p - now)).
      destruct (Z.leb_spec (i32 (tp_earliest_deadline_ms p - now)) 0); [lia|]. rewrite u32_small; lia. }
    eapply least_iff; [|apply least_take, IH]. intros c. split.
    + intros [->|(q & Hq & Hrest)]; [exists p; split; [by left|done]|exists q; split; [by right|done]].
    + intros (q & [->|Hq]%elem_of_cons & Hne & ->); [by left|right; by exists q].
Qed.
(** The packets of a peer are not due before its deadline, and one is at it. *)
Lemma peer_deadline_exact now q E : queue_timed now q -> deadline_loop q (rq_wait_ack_list q) 0 = Some E ->
  (forall t, 0 <= t < 2 ^ 31 -> (E <> 0 -> t < time_left now E) -> at_rest (u32 (now + t)) q) /\
  (E <> 0 -> exists a p, a ∈ rq_wait_ack_list q /\ rq_packets q !! a = Some p /\ packet_due (u32 (now + time_left now E)) p).
Proof.
  intros Hq Hrun. destruct (deadline_loop_least now q _ 0 E Hq ltac:(done) Hrun) as (Hb & _ & Hle & Hat).
  split.
  - intros t Ht HE a p Ha Hp. split; [|intros Hts; by apply (Hq a p)]. intros [Hts Hdue].
    destruct (Hle a p Ha Hp Hts) as [Hnz Hleft]. specialize (HE Hnz). destruct (Hq a p Ha Hp Hts) as (Hto & Hel & _).
    pose proof (u32_range (now - rp_send_timestamp p)). unfold time_left in HE.
    change (2 ^ 30) with 1073741824 in *. change (2 ^ 31) with 2147483648 in *. rewrite elapsed_later in Hdue by (change (2 ^ 32) with 4294967296; lia). lia.
  - intros Hnz. destruct Hat as [|(a & p & Ha & Hp & Hts & Hleft)]; [done|]. exists a, p. split; [done|]. split; [done|]. split; [done|].
    destruct (Hq a p Ha Hp Hts) as (Hto & Hel & _). specialize (Hb Hnz). pose proof (u32_range (now - rp_send_timestamp p)).
    change (2 ^ 30) with 1073741824 in *. unfold time_left. rewrite Hleft in *. rewrite elapsed_later by (change (2 ^ 32) with 4294967296; lia). lia.
Qed.

(** *** Messages that are being reassembled *)
Lemma delta_spec now start timeout : 0 < timeout < 2 ^ 32 ->
  let c := deadline_delta_ms now start timeout in
  0 <= c < 2 ^ 32 /\ (forall t, 0 <= t < c -> u32 (u32 (now + t) - start) < timeout) /\ timeout <= u32 (u32 (now + c) - start).
Proof.
  intros Hto. cbn zeta. unfold deadline_delta_ms. pose proof (u32_range (now - start)). change (2 ^ 32) with 4294967296 in *.
  destruct (Z.leb_spec timeout (u32 (now - start))).
  - split; [lia|]. split; [lia|]. rewrite elapsed_later; change (2 ^ 32) with 4294967296; lia.
  - split; [lia|]. split.
    + intros t Ht. rewrite elapsed_later; change (2 ^ 32) with 4294967296; lia.
    + rewrite elapsed_later; change (2 ^ 32) with 4294967296; lia.
Qed.
Lemma collect_reassembly_least now buffers : (forall b, b ∈ buffers -> rb_first_fragment_time b <> 0 -> 0 < rb_timeout_ms b < 2 ^ 32) -> forall d0,
  least d0 (fun c => exists b, b ∈ buffers /\ rb_first_fragment_time b <> 0 /\
    c = deadline_delta_ms now (rb_first_fragment_time b) (rb_timeout_ms b)) (collect_reassembly_loop buffers now d0).
Proof.
  induction buffers as [|b buffers IH]; intros Hb d0; cbn [collect_reassembly_loop].
  { eapply least_iff; [|apply least_nothing]. intros c. split; [done|by intros (? & ?%elem_of_nil & _)]. }
  assert (forall b, b ∈ buffers -> rb_first_fragment_time b <> 0 -> 0 < rb_timeout_ms b < 2 ^ 32) as Hb' by (intros; apply Hb; [by right|done]).
  specialize (IH Hb'). destruct (Z.eqb_spec (rb_first_fragment_time b) 0) as [Hz|Hnz].
  - eapply least_iff; [|apply IH]. intros c. split; intros (q & Hq & Hne & ->); exists q; (split; [|done]); [by right|].
    apply elem_of_cons in Hq as [->|]; [congruence|done].
  - pose proof (Hb b ltac:(left) Hnz) as Hto. destruct (Z.eqb_spec (rb_timeout_ms b) 0); [lia|]. cbn [orb].
    eapply least_iff; [|apply least_take, IH]. intros c. split.
    + intros [->|(q & Hq & Hrest)]; [exists b; split; [by left|done]|exists q; split; [by right|done]].
    + intros (q & [->|Hq]%elem_of_cons & Hne & ->); [by left|right; by exists q].
Qed.

(** *** Routes *)

(** A time is kept for as many routes as stated. *)
Definition times_ok (i : xgl_instance) : Prop :=
  match in_route_last_read_ms i with NULL => True | Ptr (_, times) => in_route_last_read_count i <= zlen times end.
Definition route_wait (i : xgl_instance) (now k : Z) (route : xgl_route_item_t) : M Z :=
  last ← (if ri_read_freq_hz route =? 0 then ret None else last_read i k);
  ret match last with
      | None => 0
      | Some last => if last =? 0 then 0 else deadline_delta_ms now last (read_interval (ri_read_freq_hz route))
      end.
Lemma last_read_total i k : times_ok i -> 0 <= k -> exists last, last_read i k = Some last.
Proof.
  unfold times_ok, last_read. intros Ht Hk. destruct (in_route_last_read_ms i) as [[a times]|]; [|by eexists].
  destruct (Z.ltb_spec k (in_route_last_read_count i)); [|by eexists]. rewrite rd_lookup by done.
  destruct (lookup_lt_is_Some_2 times (Z.to_nat k)) as [v ->]; [unfold zlen in Ht; lia|]. by eexists.
Qed.
Lemma read_interval_bounds f : 0 < f -> 1 <= read_interval f <= 1000.
Proof. intros Hf. unfold read_interval. destruct (Z.eqb_spec (1000 / f) 0); [lia|]. Z.div_mod_to_equations. nia. Qed.
Lemma route_wait_total i now k route : times_ok i -> 0 <= k -> exists c, route_wait i now k route = Some c.
Proof.
  intros Ht Hk. unfold route_wait. destruct (last_read_total i k Ht Hk) as [last Hl].
  destruct (ri_read_freq_hz route =? 0); [by eexists|]. rewrite Hl. by eexists.
Qed.
Lemma rate_limited_pos F route : rate_limited F route = true -> 0 < ri_read_freq_hz route.
Proof. unfold rate_limited. lia. Qed.
Lemma route_wait_before i now k route c t F : route_wait i now k route = Some c -> 0 <= t < c -> rate_limited F route = true ->
  should_read i F (u32 (now + t)) k route = Some false.
Proof.
  intros Hw Ht Hrl. pose proof (read_interval_bounds _ (rate_limited_pos _ _ Hrl)) as Hi. unfold should_read. rewrite Hrl.
  unfold route_wait in Hw. pose proof (rate_limited_pos _ _ Hrl). destruct (Z.eqb_spec (ri_read_freq_hz route) 0); [lia|].
  destruct (last_read i k) as [[last|]|]; [|by injection Hw as <-; lia|done]. cbn [mbind option_bind] in *. injection Hw as <-.
  destruct (Z.eqb_spec last 0); [lia|]. cbn [orb].
  destruct (delta_spec now last (read_interval (ri_read_freq_hz route)) ltac:(lia)) as (_ & Hb & _).
  do 2 f_equal. specialize (Hb t Ht). lia.
Qed.
Lemma route_wait_due i now k route c F : route_wait i now k route = Some c ->
  should_read i F (u32 (now + c)) k route = Some true.
Proof.
  intros Hw. unfold should_read. destruct (rate_limited F route) eqn:Hrl; [|done].
  pose proof (rate_limited_pos _ _ Hrl) as Hf. pose proof (read_interval_bounds _ Hf) as Hi. unfold route_wait in Hw.
  destruct (Z.eqb_spec (ri_read_freq_hz route) 0); [lia|].
  destruct (last_read i k) as [[last|]|]; [|done|done]. cbn [mbind option_bind] in *. injection Hw as <-.
  destruct (Z.eqb_spec last 0); [done|]. cbn [orb].
  destruct (delta_spec now last (read_interval (ri_read_freq_hz route)) ltac:(lia)) as (_ & _ & Hb).
  do 2 f_equal. lia.
Qed.
Section routes.
Context (phys : Z -> xgl_phy_ops_t).
Lemma collect_routes_least i now routes n : cg_route_table (in_config i) = Ptr routes -> times_ok i -> forall k d0,
  0 <= k -> k + Z.of_nat n <= zlen routes ->
  exists d, collect_routes_loop phys i now n k d0 = Some d /\
    least d0 (fun c => exists j route, k <= j < k + Z.of_nat n /\ rd routes j = Some route /\ has_rx phys route = true /\
      route_wait i now j route = Some c) d.
Proof.
  intros Hr Ht. induction n as [|n IH]; intros k d0 Hk Hn; cbn [collect_routes_loop].
  { exists d0. split; [done|]. eapply least_iff; [|apply least_nothing]. intros c. split; [done|]. intros (? & ? & ? & _). lia. }
  rewrite Hr. cbn [mbind option_bind].
  destruct (lookup_lt_is_Some_2 routes (Z.to_nat k)) as [route Hroute]; [unfold zlen in Hn; lia|].
  assert (rd routes k = Some route) as Hrd by (by rewrite rd_lookup). rewrite Hrd. cbn [mbind option_bind].
  assert (forall (P : Z -> Prop), (forall c, P c <-> has_rx phys route = true /\ route_wait i now k route = Some c) -> forall d,
    least d0 (fun c => P c \/ exists j route, k + 1 <= j < k + 1 + Z.of_nat n /\ rd routes j = Some route /\ has_rx phys route = true /\
      route_wait i now j route = Some c) d ->
    least d0 (fun c => exists j route, k <= j < k + Z.of_nat (S n) /\ rd routes j = Some route /\ has_rx phys route = true /\
      route_wait i now j route = Some c) d) as Hstep.
  { intros P HP d. apply least_iff. intros c. rewrite HP. split.
    - intros [[? ?]|(j & r & ? & ? & ? & ?)]; [exists k, route|exists j, r]; (split; [lia|done]).
    - intros (j & r & Hj & Hrj & ? & ?). destruct (decide (j = k)) as [->|]; [|right; exists j, r; split; [lia|done]].
      left. rewrite Hrd in Hrj. injection Hrj as <-. done. }
  destruct (has_rx phys route) eqn:Hrx; cbn [negb].
  - destruct (route_wait_total i now k route Ht Hk) as [c Hw]. unfold route_wait in Hw.
    destruct (if ri_read_freq_hz route =? 0 then _ else _) as [last|] eqn:Hl; [|done]. cbn [mbind option_bind] in *. injection Hw as <-.
    match goal with |- context [deadline_take_min d0 ?x] => set (v := x) end.
    destruct (IH (k + 1) (deadline_take_min d0 v) ltac:(lia) ltac:(lia)) as (d & Hd & Hleast).
    exists d. split; [exact Hd|]. apply (Hstep (fun x => x = v)); [|by apply least_take]. intros x. unfold route_wait. rewrite Hl. cbn [mbind option_bind].
    split; [intros ->; by split|by intros [_ [= <-]]].
  - destruct (IH (k + 1) d0 ltac:(lia) ltac:(lia)) as (d & Hd & Hleast). exists d. split; [exact Hd|].
    apply (Hstep (fun _ => False)); [intros c; split; [done|by intros [? _]]|]. eapply least_iff; [|exact Hleast]. intros c. tauto.
Qed.
End routes.

(** ** A turn of the main loop before the deadline *)

Section turn.
Context (phys : Z -> xgl_phy_ops_t).

Lemma note_read_spec i k now : times_ok i -> 0 <= k ->
  exists i', note_read i k now = Some i' /\ in_config i' = in_config i /\ in_initialized i' = in_initialized i /\ times_ok i' /\
    forall j, k < j -> last_read i' j = last_read i j.
Proof.
  unfold note_read, times_ok. intros Ht Hk. destruct (in_route_last_read_ms i) as [[a times]|] eqn:Hm.
  2: { exists i. split; [done|]. rewrite Hm. by split_and!. }
  destruct (Z.ltb_spec k (in_route_last_read_count i)) as [Hlt|Hge]; [|exists i; rewrite Hm; by split_and!].
  rewrite wr_Some by lia. cbn [mbind option_bind]. eexists. split; [reflexivity|]. split; [done|]. split; [done|]. split.
  - cbn. by rewrite zlen_insert.
  - intros j Hj. unfold last_read. rewrite Hm. cbn. destruct (j <? in_route_last_read_count i); [|done].
    rewrite !rd_lookup by lia. by rewrite list_lookup_insert_ne by lia.
Qed.
(** A call that reads a route which is not rate limited. *)
Definition reads_unlimited (freq_hz now : Z) (i : xgl_instance) (c : runtime_call) : Prop :=
  exists phy route, c = call_datalink_receive phy now XGL_DATALINK_RX_MAX_BYTES_PER_CALL /\
    route ∈ config_routes (in_config i) /\ ri_phy route = Ptr phy /\ has_rx phys route = true /\ rate_limited freq_hz route = false.
Lemma run_routes_skip i F now routes n : cg_route_table (in_config i) = Ptr routes -> 0 <= cg_route_table_len (in_config i) ->
  forall k i', in_config i' = in_config i -> times_ok i' -> (forall j, k <= j -> last_read i' j = last_read i j) ->
  0 <= k -> k + Z.of_nat n <= cg_route_table_len (in_config i) -> cg_route_table_len (in_config i) <= zlen routes ->
  (forall j route, k <= j -> rd routes j = Some route -> j < k + Z.of_nat n -> has_rx phys route = true -> rate_limited F route = true ->
     should_read i F now j route = Some false) ->
  exists calls i'', run_routes_loop phys i' F now n k = Some (calls, i'') /\ Forall (reads_unlimited F now i) calls.
Proof.
  intros Hr Hlen. induction n as [|n IH]; intros k i' Hc Ht Hl Hk Hn Hz Hs; cbn [run_routes_loop]; [by eexists [], i'|].
  rewrite Hc, Hr. cbn [mbind option_bind].
  destruct (lookup_lt_is_Some_2 routes (Z.to_nat k)) as [route Hroute]; [unfold zlen in Hz; lia|].
  assert (rd routes k = Some route) as Hrd by (by rewrite rd_lookup). rewrite Hrd. cbn [mbind option_bind].
  assert (exists calls i'', run_routes_loop phys i' F now n (k + 1) = Some (calls, i'') /\ Forall (reads_unlimited F now i) calls) as Hnext.
  { apply (IH (k + 1) i'); try done; [intros j Hj; apply Hl; lia|lia|lia|]. intros j r Hj Hrj Hjn. apply Hs; [lia|done|lia]. }
  destruct (ri_phy route) as [phy|] eqn:Hphy; [|exact Hnext]. destruct (has_rx phys route) eqn:Hrx; cbn [negb]; [|exact Hnext].
  destruct (rate_limited F route) eqn:Hrl.
  - assert (should_read i' F now k route = Some false) as ->; [|exact Hnext].
    rewrite <- (Hs k route ltac:(lia) Hrd ltac:(lia) Hrx Hrl). unfold should_read. by rewrite (Hl k ltac:(lia)).
  - unfold should_read. rewrite Hrl. cbn [mbind option_bind negb].
    destruct (note_read_spec i' k now Ht Hk) as (i1 & -> & Hc1 & _ & Ht1 & Hl1). cbn [mbind option_bind].
    destruct (IH (k + 1) i1) as (calls & i2 & -> & Hcalls); [congruence|done|intros j Hj; rewrite Hl1 by lia; apply Hl; lia|lia|lia|done| |].
    { intros j r Hj Hrj Hjn. apply Hs; [lia|done|lia]. }
    cbn [mbind option_bind]. eexists _, i2. split; [reflexivity|]. constructor; [|done]. exists phy, route. split; [done|].
    split; [|by split_and!]. unfold config_routes. rewrite Hr. apply list_elem_of_lookup. exists (Z.to_nat k).
    by rewrite lookup_take_lt by lia.
Qed.
Lemma run_before i F now : in_initialized i = true -> config_routes_ok (in_config i) -> times_ok i ->
  (0 < cg_route_table_len (in_config i) -> cg_route_table (in_config i) <> NULL) ->
  (forall routes j route, cg_route_table (in_config i) = Ptr routes -> rd routes j = Some route ->
     0 <= j < cg_route_table_len (in_config i) -> has_rx phys route = true -> rate_limited F route = true ->
     should_read i F now j route = Some false) ->
  exists calls i', xgl_run phys (Ptr i) F now = Some (calls ++ [call_transport_run now], Ptr i') /\
    Forall (reads_unlimited F now i) calls.
Proof.
  intros Hi [Hlen Hr] Ht Hnn Hs. cbn [xgl_run]. rewrite Hi. cbn [negb].
  assert (exists calls i'', run_routes_loop phys i F now (Z.to_nat (cg_route_table_len (in_config i))) 0 = Some (calls, i'') /\
    Forall (reads_unlimited F now i) calls) as (calls & i' & -> & Hcalls).
  { destruct (cg_route_table (in_config i)) as [routes|] eqn:Hroutes.
    - apply (run_routes_skip i F now routes); try done; [lia|]. intros j route Hj Hrj Hjn. by apply (Hs routes); [done|done|lia].
    - destruct (decide (0 < cg_route_table_len (in_config i))) as [Hp|Hp]; [by destruct (Hnn Hp)|].
      replace (Z.to_nat (cg_route_table_len (in_config i))) with O by lia. by eexists [], i. }
  cbn [mbind option_bind]. by eexists calls, i'.
Qed.

(** The three kinds of work together. *)
Definition route_left (i : xgl_instance) (now c : Z) : Prop :=
  exists routes j route, cg_route_table (in_config i) = Ptr routes /\ 0 <= j < cg_route_table_len (in_config i) /\
    rd routes j = Some route /\ has_rx phys route = true /\ route_wait i now j route = Some c.
Definition packet_left (c : xgl_transport_ctx_t) (now d : Z) : Prop :=
  exists p, p ∈ tc_peers c /\ tp_earliest_deadline_ms p <> 0 /\ d = time_left now (tp_earliest_deadline_ms p).
Definition message_left (c : xgl_transport_ctx_t) (now d : Z) : Prop :=
  exists b, reassembling c b /\ rb_first_fragment_time b <> 0 /\ d = deadline_delta_ms now (rb_first_fragment_time b) (rb_timeout_ms b).
Lemma next_deadline_least i now : in_initialized i = true -> config_routes_ok (in_config i) -> times_ok i ->
  (0 < cg_route_table_len (in_config i) -> cg_route_table (in_config i) <> NULL) ->
  timed now (ly_transport_ctx (in_layers i)) ->
  exists d, xgl_next_deadline_ms phys (Ptr i) now = Some d /\
    least XGL_NO_DEADLINE_MS (fun c => (route_left i now c \/ packet_left (ly_transport_ctx (in_layers i)) now c) \/
      message_left (ly_transport_ctx (in_layers i)) now c) d.
Proof.
  intros Hi [Hlen Hr] Ht Hnn Htd. cbn [xgl_next_deadline_ms]. rewrite Hi. cbn [negb].
  assert (exists d, collect_route_deadlines phys i now XGL_NO_DEADLINE_MS = Some d /\ least XGL_NO_DEADLINE_MS (route_left i now) d)
    as (d & -> & Hd).
  { unfold collect_route_deadlines, route_left. destruct (cg_route_table (in_config i)) as [routes|] eqn:Hroutes.
    - destruct (collect_routes_least phys i now routes (Z.to_nat (cg_route_table_len (in_config i))) Hroutes Ht 0 XGL_NO_DEADLINE_MS)
        as (d & Hd & Hl); [lia|lia|]. exists d. split; [done|]. eapply least_iff; [|exact Hl]. intros c. split.
      + intros (j & route & Hj & Hrest). exists routes, j, route. split; [done|]. split; [lia|done].
      + intros (rs & j & route & [= <-] & Hj & Hrest). exists j, route. split; [lia|done].
    - destruct (decide (0 < cg_route_table_len (in_config i))) as [Hp|Hp]; [by destruct (Hnn Hp)|].
      replace (Z.to_nat (cg_route_table_len (in_config i))) with O by lia. exists XGL_NO_DEADLINE_MS. split; [done|].
      eapply least_iff; [|apply least_nothing]. intros c. split; [done|]. by intros (? & ? & ? & ? & _). }
  cbn [mbind option_bind]. eexists. split; [reflexivity|]. eapply least_trans; [eapply least_trans; [exact Hd|apply collect_reliable_least]|].
  unfold collect_reassembly_deadlines, message_left, reassembling. destruct (tc_fragment_mgr _) as [m|] eqn:Hm.
  - eapply least_iff; [|apply collect_reassembly_least; intros b Hb Hne; by apply (td_buffers _ _ Htd m b)]. intros c. split.
    + intros (b & Hb & Hne & ->). exists b. split; [by exists m|done].
    + intros (b & (m' & [= <-] & Hb) & Hne & ->). by exists b.
  - eapply least_iff; [|apply least_nothing]. intros c. split; [done|]. by intros (b & (m' & ? & _) & _).
Qed.
End turn.

(** Before the time left of everything that waits, the transport layer rests. *)
Lemma transport_quiet_before bound now t w d : world_ok bound w -> bound < 2 ^ 32 -> timed now (w_ctx w) -> 0 <= t < d -> t < 2 ^ 31 ->
  (forall c, packet_left (w_ctx w) now c -> d <= c) -> (forall c, message_left (w_ctx w) now c -> d <= c) ->
  exists kept, xgl_transport_run (u32 (now + t)) w = Some (XGL_OK, w <| w_ctx := ((w_ctx w) <| tc_peers := kept |>) |>) /\
    kept `sublist_of` tc_peers (w_ctx w).
Proof.
  intros Hw Hb Htd Ht Ht31 Hpl Hml.
  assert (wp (xgl_transport_run (u32 (now + t))) (fun err w' => err = XGL_OK /\ exists kept, kept `sublist_of` tc_peers (w_ctx w) /\
    w' = w <| w_ctx := ((w_ctx w) <| tc_peers := kept |>) |>) w) as Hrun.
  { apply (transport_run_quiet bound); [done|done| |].
    - intros p Hp. split; [|by apply (td_deadline _ _ Htd)].
      apply (peer_deadline_exact now _ _ (td_packets _ _ Htd p Hp) (td_deadline _ _ Htd p Hp)); [lia|]. intros Hne.
      assert (d <= time_left now (tp_earliest_deadline_ms p)); [|lia]. apply Hpl. by exists p.
    - intros b Hbr. unfold rbuf_timed_out. destruct (Z.eqb_spec (rb_first_fragment_time b) 0) as [|Hne]; [done|].
      pose proof Hbr as (m & Hm & Hbm). pose proof (td_buffers _ _ Htd m b Hm Hbm Hne) as Hto.
      destruct (delta_spec now (rb_first_fragment_time b) (rb_timeout_ms b) Hto) as (_ & Hbefore & _).
      assert (d <= deadline_delta_ms now (rb_first_fragment_time b) (rb_timeout_ms b)) by (apply Hml; by exists b).
      specialize (Hbefore t ltac:(lia)). lia. }
  apply wp_run in Hrun as (err & w' & Hrun & -> & kept & Hk & ->). by exists kept.
Qed.
Lemma packet_due_at c now d : timed now c -> packet_left c now d -> exists p, waiting c p /\ packet_due (u32 (now + d)) p.
Proof.
  intros Htd (p & Hp & Hnz & ->).
  destruct (proj2 (peer_deadline_exact now _ _ (td_packets _ _ Htd p Hp) (td_deadline _ _ Htd p Hp)) Hnz)
    as (a & pkt & Ha & Hpkt & Hdue). exists pkt. split; [|done]. by exists p, a.
Qed.
Lemma message_due_at c now d : timed now c -> message_left c now d ->
  0 <= d /\ exists b, reassembling c b /\ rbuf_timed_out (u32 (now + d)) b = true.
Proof.
  intros Htd (b & Hbr & Hfirst & ->). pose proof Hbr as (m & Hm & Hbm).
  destruct (delta_spec now (rb_first_fragment_time b) (rb_timeout_ms b)) as (? & _ & Hdue); [by apply (td_buffers _ _ Htd m b)|].
  split; [lia|]. exists b. split; [done|]. unfold rbuf_timed_out. destruct (Z.eqb_spec (rb_first_fragment_time b) 0); [done|lia].
Qed.
Lemma route_left_nonneg phys i now d : route_left phys i now d -> 0 <= d.
Proof.
  intros (routes & j & route & _ & _ & _ & _ & Hrw). unfold route_wait in Hrw.
  destruct (if ri_read_freq_hz route =? 0 then _ else _) as [[last|]|]; cbn [mbind option_bind] in Hrw; [|by injection Hrw as <-|done].
  injection Hrw as <-. unfold deadline_delta_ms. repeat case_match; lia.
Qed.

(** ** The property *)

(** C25. The deadline is exact.  For an initialised instance whose transport layer
    is in order and whose times are far from wrapping, [xgl_next_deadline_ms]
    is defined.  At every time before the deadline (and less than 2^31 ms ahead) a turn of the main loop, at any rate,
    reads only routes whose own rate is at least the loop's (they are read in
    every turn), and the run of the transport layer sends, reports and changes
    nothing, but for peers that have been idle for too long.  At the deadline, if there is one,
    there is work: a route that is read at any rate of the loop, a packet to be
    retransmitted or given up, or a message whose reassembly times out. *)
Theorem next_deadline_exact phys i now bound w :
  in_initialized i = true -> config_routes_ok (in_config i) ->
  (0 < cg_route_table_len (in_config i) -> cg_route_table (in_config i) <> NULL) -> times_ok i ->
  w_ctx w = ly_transport_ctx (in_layers i) -> world_ok bound w -> bound < 2 ^ 32 -> timed now (w_ctx w) ->
  exists d, xgl_next_deadline_ms phys (Ptr i) now = Some d /\ 0 <= d <= XGL_NO_DEADLINE_MS /\
    (forall t freq_hz, 0 <= t < d -> t < 2 ^ 31 ->
       (exists calls i', xgl_run phys (Ptr i) freq_hz (u32 (now + t)) = Some (calls ++ [call_transport_run (u32 (now + t))], Ptr i') /\
          Forall (reads_unlimited phys freq_hz (u32 (now + t)) i) calls) /\
       exists kept, xgl_transport_run (u32 (now + t)) w = Some (XGL_OK, w <| w_ctx := ((w_ctx w) <| tc_peers := kept |>) |>) /\
         kept `sublist_of` tc_peers (w_ctx w)) /\
    (d <> XGL_NO_DEADLINE_MS ->
       (exists k, route_due phys i (u32 (now + d)) k) \/
       (exists p, waiting (w_ctx w) p /\ packet_due (u32 (now + d)) p) \/
       (exists b, reassembling (w_ctx w) b /\ rbuf_timed_out (u32 (now + d)) b = true)).
Proof.
  intros Hi Hr Hnn Ht Hctx Hw Hb Htd. rewrite Hctx in Htd.
  destruct (next_deadline_least phys i now Hi Hr Ht Hnn Htd) as (d & Hd & Hmax & Hle & Hat). rewrite <- Hctx in *.
  exists d. split; [done|]. split; [split; [|done]|split].
  - destruct Hat as [->|[[Hrl|(p & _ & _ & ->)]|Hml]]; [done|by eapply route_left_nonneg|unfold time_left; lia|].
    by apply (message_due_at _ _ _ Htd).
  - intros t F Ht0 Ht31. split.
    + apply run_before; try done. intros routes j route Hroutes Hj Hjn Hrx Hrl.
      destruct (route_wait_total i now j route Ht ltac:(lia)) as [c Hc].
      apply (route_wait_before i now j route c); [done| |done]. split; [lia|].
      assert (d <= c); [|lia]. apply Hle. left. left. by exists routes, j, route.
    + apply (transport_quiet_before bound now t w d Hw Hb Htd Ht0 Ht31); intros c Hc; apply Hle; [left; by right|by right].
  - intros Hne. destruct Hat as [->|[[(routes & j & route & Hroutes & Hj & Hrd & Hrx & Hrw)|Hpl]|Hml]]; [done|..].
    + left. exists j. exists routes, route. split_and!; try done; [lia|lia|]. intros F. by apply route_wait_due.
    + right. left. by apply packet_due_at.
    + right. right. by apply message_due_at.
Qed.

(** ** A sender that waits for an ACK *)

(** The world after some calls. *)
Definition world_after (cs : list (Z * bytes * transport_call)) (w : world) : world :=
  match transport_calls cs w with Some (_, w) => w | None => w end.
Lemma world_after_ok cs w : world_ok 0 w -> Forall call_ok cs -> bytes_sent cs < 2 ^ 32 -> world_ok (bytes_sent cs) (world_after cs w).
Proof.
  intros Hw Hcs Hmax. pose proof (calls_wp cs 0 w Hw ltac:(lia) Hcs ltac:(lia)) as Hrun. rewrite Z.add_0_l in Hrun.
  apply wp_run in Hrun as (errs & w' & Hrun & _ & Hok). unfold world_after. by rewrite Hrun.
Qed.
Definition sample_start : world := mk_world sample_transport [] [] [] 0 sample_stack.
Definition sample_sending : world := world_after (take 1 sample_calls) sample_start.
(** An instance with this transport layer, that has just read its only route. *)
Definition sample_polled (c : xgl_transport_ctx_t) : xgl_instance :=
  (new_instance sample_small NULL) <| in_initialized := true |> <| in_route_last_read_ms := Ptr (4096, [1004]) |>
    <| in_route_last_read_count := 1 |> <| in_layers := (zero_layers <| ly_transport_ctx := c |>) |>.
Lemma sample_start_ok : world_ok 0 sample_start.
Proof.
  apply (init_world_ok sample_config zero_transport _ []); [vm_compute; reflexivity|by split_and!|reflexivity|apply Forall_replicate; lia].
Qed.
Lemma sample_sending_ok : world_ok 90 sample_sending.
Proof.
  assert (bytes_sent (take 1 sample_calls) = 90) as Hsum by (vm_compute; reflexivity). rewrite <- Hsum.
  unfold sample_sending. apply world_after_ok; [exact sample_start_ok| |by rewrite Hsum].
  constructor; [|constructor]. split; [reflexivity|]. split; [apply Forall_replicate; lia|]. cbn. split; [|lia].
  split; [split; [by vm_compute|apply Forall_replicate; lia]|]. by split.
Qed.
(** The packets wait since time 10 for 1000 ms. *)
Definition sample_timed (p : xgl_transport_peer_state_t) : bool :=
  bool_decide (deadline_loop (tp_reliable_queue p) (rq_wait_ack_list (tp_reliable_queue p)) 0 = Some (tp_earliest_deadline_ms p)) &&
  forallb (fun a => match rq_packets (tp_reliable_queue p) !! a with
    | Some x => (rp_send_timestamp x =? 10) && (rp_timeout_ms x =? 1000) | None => true end) (rq_wait_ack_list (tp_reliable_queue p)).
Lemma timed_by_test c : forallb sample_timed (tc_peers c) = true ->
  match tc_fragment_mgr c with NULL => True | Ptr m => fm_reassembly_list m = [] end -> timed 1005 c.
Proof.
  rewrite forallb_forall. intros H Hm.
  assert (forall p, p ∈ tc_peers c -> sample_timed p = true) as H' by (intros p Hp; by apply H, list_elem_of_In).
  split.
  - intros p Hp. specialize (H' p Hp). apply andb_true_iff in H' as [Hd _]. by apply bool_decide_eq_true in Hd.
  - intros p Hp a x Ha Hx _. specialize (H' p Hp). apply andb_true_iff in H' as [_ Hq]. rewrite forallb_forall in Hq.
    specialize (Hq a ltac:(by apply list_elem_of_In)). rewrite Hx in Hq.
    assert (rp_send_timestamp x = 10) as -> by lia. assert (rp_timeout_ms x = 1000) as -> by lia. split; [lia|]. by split.
  - intros m b Hmgr Hb. rewrite Hmgr in Hm. rewrite Hm in Hb. by apply elem_of_nil in Hb.
Qed.
Lemma sample_sending_timed : timed 1005 (w_ctx sample_sending).
Proof. apply timed_by_test; [vm_compute; reflexivity|vm_compute; reflexivity]. Qed.
Lemma next_deadline_exact_witness :
  xgl_next_deadline_ms (fun _ => sample_driver) (Ptr (sample_polled (w_ctx sample_sending))) 1005 = Some 5 /\
  (exists kept, xgl_transport_run 1009 sample_sending = Some (XGL_OK, sample_sending <| w_ctx := ((w_ctx sample_sending) <| tc_peers := kept |>) |>)).
Proof.
  assert (xgl_next_deadline_ms (fun _ => sample_driver) (Ptr (sample_polled (w_ctx sample_sending))) 1005 = Some 5) as Hd by (vm_compute; reflexivity).
  assert (forall c, c = ly_transport_ctx (in_layers (sample_polled c))) as Hctx by done.
  destruct (next_deadline_exact (fun _ => sample_driver) (sample_polled (w_ctx sample_sending)) 1005 90 sample_sending eq_refl
    ltac:(split; vm_compute; discriminate) ltac:(done) ltac:(vm_compute; discriminate) (Hctx _) sample_sending_ok ltac:(lia)
    sample_sending_timed) as (d & Hrun & _ & Hbefore & _).
  rewrite Hd in Hrun. split; [exact Hd|]. injection Hrun as Hrun. subst d.
  destruct (proj2 (Hbefore 4 0 ltac:(lia) ltac:(lia))) as (kept & Hk & _). by exists kept.
Defined.
