(* ===== verification/SendApi.v ===== *)
(** * The send functions of the application (src/api/xgl_send.c,
    xgl_send_zerocopy.c)

    The checks of the arguments, the send that hands the data to the transport
    layer, and the zero-copy send, which builds the frame in the buffer of the
    application and hands it to the data link directly. *)
From S2P Require Import Prelude State Errors Layer Wire Frame Route Send Acks Transport Datalink Network Config Instance.

(** ** Sending through the transport layer *)

(** src/src/api/xgl_send.c:18-40: validate_tx_data *)
Definition validate_tx_data (tx_data : ptr xgl_tx_data_t) : xgl_error_t :=
  match tx_data with
  | NULL => XGL_ERR_NULL_POINTER
  | Ptr tx =>
      if bool_decide (Send.tx_data tx = NULL) && (0 <? tx_data_len tx) then XGL_ERR_NULL_POINTER
      else if tx_data_len tx =? 0 then XGL_ERR_INVALID_PARAM
      else if 7 <? tx_priority tx then XGL_ERR_INVALID_PARAM
      else XGL_OK
  end.
(** The transport context of the instance is the one of the world. *)
(** src/src/api/xgl_send.c:50-86: xgl_send *)
Definition xgl_send (handle : ptr xgl_instance) (tx_data : ptr xgl_tx_data_t) : T xgl_error_t :=
  match handle with
  | NULL => mret XGL_ERR_NULL_POINTER
  | Ptr i =>
      if negb (in_initialized i) then mret XGL_ERR_NOT_INITIALIZED
      else
        let err := validate_tx_data tx_data in
        if negb (is_ok err) then mret err
        else tx ← lift tx_data; xgl_transport_send tx
  end.

(** ** Sending without a copy *)

(** src/src/api/xgl_send_zerocopy.c:13-13: XGL_SEND_DEFAULT_TTL *)
Definition XGL_SEND_DEFAULT_TTL : Z := 8.
(** src/include/xgl/xgl_types.h:451-463: xgl_tx_data_zerocopy_t *)
Record xgl_tx_data_zerocopy_t := mk_tx_zerocopy {
  zc_buffer : ptr bytes;
  zc_buffer_size : Z;
  zc_data_offset : Z;
  zc_data_len : Z;
  zc_target_id : Z;
  zc_data_type : Z;
  zc_reliable : bool;
  zc_priority : Z;
  zc_timeout_ms : Z
}.

(** The sum is one of size_t, which wraps. *)
(** src/src/api/xgl_send_zerocopy.c:19-45: validate_tx_data_zerocopy *)
Definition validate_tx_data_zerocopy (tx_data : ptr xgl_tx_data_zerocopy_t) : xgl_error_t :=
  match tx_data with
  | NULL => XGL_ERR_NULL_POINTER
  | Ptr tx =>
      if bool_decide (zc_buffer tx = NULL) then XGL_ERR_NULL_POINTER
      else if zc_data_len tx =? 0 then XGL_ERR_INVALID_PARAM
      else if zc_data_offset tx <? XGL_FRAME_HEADER_SIZE then XGL_ERR_INVALID_PARAM
      else if zc_buffer_size tx <? u64 (zc_data_offset tx + zc_data_len tx + XGL_CRC16_SIZE)
      then XGL_ERR_BUFFER_TOO_SMALL
      else if 7 <? zc_priority tx then XGL_ERR_INVALID_PARAM
      else XGL_OK
  end.

(** src/src/api/xgl_send_zerocopy.c:86-90: xgl_send_zerocopy *)
Definition auth_unusable (config : xgl_config_t) : bool :=
  cg_auth_required config &&
  match cg_auth_provider config with
  | NULL => true
  | Ptr p => bool_decide (ap_sign p = NULL) || (ap_tag_len p =? 0) || (XGL_AUTH_TAG_MAX_LEN <? ap_tag_len p)
  end.
(** src/src/api/xgl_send_zerocopy.c:93-94: xgl_send_zerocopy *)
Definition zerocopy_ext_len (tx : xgl_tx_data_zerocopy_t) : Z :=
  if negb (zc_data_type tx =? 0) then XGL_DATA_TYPE_EXT_SIZE else 0.
(** src/src/api/xgl_send_zerocopy.c:95-103: xgl_send_zerocopy *)
Definition unauth_header_len (config : xgl_config_t) (tx : xgl_tx_data_zerocopy_t) : Z :=
  XGL_WIRE_BASE_HEADER_SIZE + zerocopy_ext_len tx +
  (if cg_auth_required config then XGL_SECURITY_EXT_SIZE else 0).
(** [size_t], which wraps. *)
(** src/src/api/xgl_send_zerocopy.c:96-100: xgl_send_zerocopy *)
Definition zerocopy_serialized_len (config : xgl_config_t) (tx : xgl_tx_data_zerocopy_t) : M Z :=
  auth_tag_len ← (if cg_auth_required config then p ← cg_auth_provider config; ret (ap_tag_len p) else ret 0);
  ret (u64 (xgl_frame_serialized_size (zc_data_len tx) (zerocopy_ext_len tx) auth_tag_len)).

(** The DATA_TYPE extension of the frame, if it has one. *)
(** src/src/api/xgl_send_zerocopy.c:116-132: xgl_send_zerocopy *)
Definition zerocopy_extension (tx : xgl_tx_data_zerocopy_t) : M (xgl_error_t * ptr bytes * Z) :=
  if negb (zc_data_type tx =? 0) then
    '(err, app_type_ext_written, app_type_ext) ←
      xgl_wire_encode_ext (replicate (Z.to_nat XGL_DATA_TYPE_EXT_SIZE) 0) XGL_DATA_TYPE_EXT_SIZE
        XGL_WIRE_EXT_DATA_TYPE (Ptr [zc_data_type tx]) 1 0;
    if negb (is_ok err) then ret (err, NULL, 0) else ret (XGL_OK, Ptr app_type_ext, app_type_ext_written)
  else ret (XGL_OK, NULL, 0).
(** The payload is a pointer into the buffer: what it points to now, as the builder
    sees it.  The serializer reads it later, from the buffer (see
    [serialize_authenticated_in_place]). *)
(** src/src/api/xgl_send_zerocopy.c:134-146: xgl_send_zerocopy *)
Definition zerocopy_frame_params (config : xgl_config_t) (tx : xgl_tx_data_zerocopy_t) (buffer : bytes)
    (extensions : ptr bytes) (extensions_len : Z) : xgl_frame_params_t :=
  mk_frame_params (cg_source_id config) (zc_target_id tx) (zc_data_type tx) XGL_PACKET_TYPE_DATA 0 0 0 0 0
    extensions extensions_len (Ptr (drop (Z.to_nat (zc_data_offset tx)) buffer)) (zc_data_len tx)
    false 0 false (zc_priority tx) 0 XGL_SEND_DEFAULT_TTL.
(** A pointer beyond the end of the buffer must not even be formed;
    [same_range_ok] says what the platform's [memcpy] does with a range that is
    copied onto itself. *)
(** src/src/api/xgl_send_zerocopy.c:111-157: xgl_send_zerocopy *)
Definition zerocopy_authenticated (same_range_ok : bool) (config : xgl_config_t) (tx : xgl_tx_data_zerocopy_t)
    (buffer : bytes) : M (xgl_error_t * Z * bytes) :=
  if negb (zc_data_offset tx =? unauth_header_len config tx) then ret (XGL_ERR_INVALID_PARAM, 0, buffer)
  else
    '(err, extensions, extensions_len) ← zerocopy_extension tx;
    if negb (is_ok err) then ret (err, 0, buffer)
    else if zlen buffer <? zc_data_offset tx then None
    else
      let '(err, frame) := xgl_frame_build (mk_frame zero_wire_header NULL 0 NULL 0 0)
        (zerocopy_frame_params config tx buffer extensions extensions_len) in
      if negb (is_ok err) then ret (err, 0, buffer)
      else serialize_authenticated_in_place same_range_ok (zc_data_offset tx) buffer (zc_buffer_size tx) frame
             (cg_auth_key_id config) (cg_auth_provider config) 0.
(** src/src/api/xgl_send_zerocopy.c:110-170: xgl_send_zerocopy *)
Definition zerocopy_build (same_range_ok : bool) (config : xgl_config_t) (tx : xgl_tx_data_zerocopy_t)
    (buffer : bytes) : M (xgl_error_t * Z * bytes) :=
  if cg_auth_required config then zerocopy_authenticated same_range_ok config tx buffer
  else xgl_frame_build_zerocopy buffer (zc_buffer_size tx) (zc_data_offset tx) (zc_data_len tx)
         (cg_source_id config) (zc_target_id tx) (zc_data_type tx) 0 false (zc_priority tx) 0.

(** The counters, where the layers keep them. *)
(** src/src/api/xgl_send_zerocopy.c:178-179: xgl_send_zerocopy *)
Definition count_sent (len : Z) (s : xgl_layer_stats_t) : xgl_layer_stats_t :=
  s <| ls_tx_packets := u64 (ls_tx_packets s + 1) |> <| ls_tx_bytes := u64 (ls_tx_bytes s + len) |>.
(** src/src/api/xgl_send_zerocopy.c:178-181: xgl_send_zerocopy *)
Definition count_zerocopy (len : Z) (i : xgl_instance) : xgl_instance :=
  i <| in_stats := ((in_stats i) <| st_transport := count_sent len (st_transport (in_stats i)) |>
                                 <| st_network := count_sent len (st_network (in_stats i)) |>) |>
    <| in_layers := ((in_layers i)
         <| ly_network_ctx := ((ly_network_ctx (in_layers i))
              <| nc_stats := count_sent len <$> nc_stats (ly_network_ctx (in_layers i)) |>) |>
         <| ly_transport_ctx := ((ly_transport_ctx (in_layers i))
              <| tc_stats := count_sent len <$> tc_stats (ly_transport_ctx (in_layers i)) |>) |>) |>.

Section zerocopy.
(** The drivers by their number, and the platform's [memcpy]. *)
Context (phys : Z -> xgl_phy_ops_t) (same_range_ok : bool).
(** The entry of the route table, or NULL. *)
(** src/src/api/xgl_send_zerocopy.c:80-81: xgl_send_zerocopy *)
Definition zerocopy_route (i : xgl_instance) (target_id : Z) : M (ptr xgl_route_item_t) :=
  p ← xgl_route_table_lookup (in_route_table i) target_id;
  match p with
  | NULL => ret NULL
  | Ptr p => route ← deref_route (in_route_table i) p; ret (Ptr route)
  end.
(** src/src/api/xgl_send_zerocopy.c:84-84: xgl_send_zerocopy *)
Definition driver_can_transmit (phy : ptr xgl_phy_ops_t) : bool :=
  match phy with NULL => false | Ptr phy => negb (bool_decide (phy_tx phy = NULL)) end.

(** Returns the error, the instance and the buffer of the application.  The data
    link context of the instance is the one of the world. *)
(** src/src/api/xgl_send_zerocopy.c:93-184: xgl_send_zerocopy *)
Definition zerocopy_on_route (i : xgl_instance) (tx : xgl_tx_data_zerocopy_t) (buffer : bytes)
    (route : xgl_route_item_t) : D (xgl_error_t * xgl_instance * bytes) :=
  let config := in_config i in
  serialized_len ← lift (zerocopy_serialized_len config tx);
  if ri_max_frame_size route <? serialized_len then mret (XGL_ERR_BUFFER_TOO_SMALL, i, buffer)
  else
    '(err, frame_len, buffer) ← lift (zerocopy_build same_range_ok config tx buffer);
    if negb (is_ok err) then mret (err, i, buffer)
    else
      err ← xgl_datalink_send_raw (phys <$> ri_phy route) (Ptr buffer) frame_len;
      mret (err, if is_ok err then count_zerocopy (zc_data_len tx) i else i, buffer).
(** src/src/api/xgl_send_zerocopy.c:51-193: xgl_send_zerocopy *)
Definition xgl_send_zerocopy (handle : ptr xgl_instance) (tx_data : ptr xgl_tx_data_zerocopy_t)
    : D (xgl_error_t * ptr xgl_instance * ptr bytes) :=
  let untouched := match tx_data with NULL => NULL | Ptr tx => zc_buffer tx end in
  match handle with
  | NULL => mret (XGL_ERR_NULL_POINTER, NULL, untouched)
  | Ptr i =>
      let answer err := mret (err, Ptr i, untouched) in
      if negb (in_initialized i) then answer XGL_ERR_NOT_INITIALIZED
      else
        let err := validate_tx_data_zerocopy tx_data in
        if negb (is_ok err) then answer err
        else
          tx ← lift tx_data;
          buffer ← lift (zc_buffer tx);
          if zc_reliable tx then answer XGL_ERR_INVALID_PARAM
          else
            route ← lift (zerocopy_route i (zc_target_id tx));
            match route with
            | NULL => answer XGL_ERR_ROUTE_NOT_FOUND
            | Ptr route =>
                if negb (driver_can_transmit (phys <$> ri_phy route)) then answer XGL_ERR_INVALID_PARAM
                else if auth_unusable (in_config i) then answer XGL_ERR_INVALID_PARAM
                else
                  '(err, i, buffer) ← zerocopy_on_route i tx buffer route;
                  mret (err, Ptr i, Ptr buffer)
            end
  end.
End zerocopy.
