(* ===== verification/SendApiInv.v ===== *)
(** * What a zero-copy send puts on the wire

    A request is refused, with nothing transmitted, or the driver gets exactly
    the frame of its data; and what the receiving data link does with a second
    authenticated frame. *)
From S2P Require Import Prelude State Errors Layer Wire WireExt ExtWalk Frame FrameView Parser Security Route Send Transport TransportInv Datalink ReplayTable DatalinkInv DatalinkSend DatalinkSafe DatalinkStream HashTable Network NetworkInv NetworkPath NetworkSend DatalinkLink Stack Config Instance SendApi.

(** ** Building the frame in place *)

(** The integers of a request fit their types, and its buffer is as long as it says. *)
Definition zerocopy_typed (tx : xgl_tx_data_zerocopy_t) (buffer : bytes) : Prop :=
  zc_buffer tx = Ptr buffer /\ bytes_ok buffer /\ 0 <= zc_buffer_size tx <= zlen buffer /\
  0 <= zc_data_offset tx < 2 ^ 64 /\ 0 <= zc_data_len tx < 2 ^ 64 /\ 1 <= zc_target_id tx < 65536 /\
  is_u8 (zc_data_type tx) = true /\ is_u8 (zc_priority tx) = true.
Definition zerocopy_payload (tx : xgl_tx_data_zerocopy_t) (buffer : bytes) : bytes :=
  slice buffer (zc_data_offset tx) (zc_data_len tx).
Definition zerocopy_tlvs (tx : xgl_tx_data_zerocopy_t) : list tlv :=
  if zc_data_type tx =? 0 then [] else [(XGL_WIRE_EXT_DATA_TYPE, [zc_data_type tx])].
Definition no_frame : xgl_frame_t := mk_frame zero_wire_header NULL 0 NULL 0 0.
(** The frame of the data: not reliable, with packet number 0. *)
Definition zerocopy_frame_of (source_id : Z) (tx : xgl_tx_data_zerocopy_t) (pl : bytes) : xgl_frame_t :=
  (xgl_frame_build no_frame (zerocopy_params source_id (zc_target_id tx) (zc_data_type tx) 0 (zc_priority tx) false pl)).2.

Lemma zerocopy_tlvs_bytes tx :
  tlvs_bytes (zerocopy_tlvs tx) = if zc_data_type tx =? 0 then [] else [XGL_WIRE_EXT_DATA_TYPE; 1; zc_data_type tx].
Proof. unfold zerocopy_tlvs. by destruct (zc_data_type tx =? 0). Qed.
Lemma zerocopy_ext_zlen tx : zerocopy_ext_len tx = zlen (tlvs_bytes (zerocopy_tlvs tx)).
Proof. rewrite zerocopy_tlvs_bytes. unfold zerocopy_ext_len. by destruct (zc_data_type tx =? 0). Qed.
Lemma zerocopy_tlvs_ok tx : is_u8 (zc_data_type tx) = true ->
  Forall tlv_ok (zerocopy_tlvs tx) /\ scan_tag (zerocopy_tlvs tx) 0 = Some 0 /\ existsb is_security (zerocopy_tlvs tx) = false /\
  0 <= zlen (tlvs_bytes (zerocopy_tlvs tx)) <= 3 /\ bytes_ok (tlvs_bytes (zerocopy_tlvs tx)).
Proof.
  intros Hdt%is_u8_spec. unfold zerocopy_tlvs. destruct (zc_data_type tx =? 0); [by split_and!|].
  assert (bytes_ok [zc_data_type tx]) as Hb by (constructor; [lia|constructor]).
  split; [|split; [done|split; [done|split; [done|]]]].
  - constructor; [|constructor]. split; [done|]. by split.
  - do 2 (constructor; [done|]). exact Hb.
Qed.
Lemma zerocopy_frame_builds source tx pl : zlen pl <= 65535 ->
  xgl_frame_build no_frame (zerocopy_params source (zc_target_id tx) (zc_data_type tx) 0 (zc_priority tx) false pl) =
    (XGL_OK, zerocopy_frame_of source tx pl).
Proof.
  intros Hpl. unfold zerocopy_frame_of, xgl_frame_build. cbn [fp_payload_len zerocopy_params]. unfold UINT16_MAX.
  by replace (65535 <? zlen pl) with false by lia.
Qed.

Section build.
Context (config : xgl_config_t) (tx : xgl_tx_data_zerocopy_t) (buffer : bytes) (a : bool) (ap : xgl_auth_provider_t).
Context (Htx : zerocopy_typed tx buffer) (Hsrc : 1 <= cg_source_id config < 65536) (Ha : cg_auth_required config = a)
  (Hap : provider_sound ap) (Hprov : a = true -> cg_auth_provider config = Ptr ap).
Let l := zerocopy_tlvs tx.
Let ext := tlvs_bytes l.
Let pl := zerocopy_payload tx buffer.
Let f := zerocopy_frame_of (cg_source_id config) tx pl.
Let key := cg_auth_key_id config.
Let n := xgl_frame_serialized_size (zc_data_len tx) (zlen ext) (tag_of a ap).

(** The frame fits between the start and the end of the buffer. *)
Definition zerocopy_fits : bool :=
  (zc_data_offset tx =? unauth_header_len config tx) && (zc_data_len tx <=? UINT16_MAX) &&
  (zc_data_offset tx + zc_data_len tx + tag_of a ap + XGL_CRC16_SIZE <=? zc_buffer_size tx).

Lemma header_room : unauth_header_len config tx = 24 + zlen ext + (if a then 15 else 0).
Proof.
  unfold unauth_header_len. rewrite zerocopy_ext_zlen, Ha. fold l. fold ext.
  change XGL_WIRE_BASE_HEADER_SIZE with 24. change XGL_SECURITY_EXT_SIZE with 15. by destruct a.
Qed.
Lemma tag_bounds : 0 <= tag_of a ap <= 32 /\ (a = true -> 1 <= tag_of a ap).
Proof. destruct Hap as (Htag & _). unfold XGL_AUTH_TAG_MAX_LEN, tag_of in *. destruct a; split; lia || done. Qed.
Lemma frame_room : n = 24 + zlen ext + (if a then 15 else 0) + zc_data_len tx + tag_of a ap + 2.
Proof.
  unfold n, xgl_frame_serialized_size, xgl_frame_auth_overhead. pose proof tag_bounds as [Htag Hpos].
  change XGL_WIRE_BASE_HEADER_SIZE with 24. change XGL_SECURITY_EXT_SIZE with 15. change XGL_CRC16_SIZE with 2.
  destruct a; cbn [tag_of] in *.
  - specialize (Hpos eq_refl). replace (0 <? ap_tag_len ap) with true by lia. lia.
  - cbn. lia.
Qed.

Context (Hoff : zc_data_offset tx = unauth_header_len config tx) (Hlen : zc_data_len tx <= 65535)
  (Hroom : zc_data_offset tx + zc_data_len tx <= zlen buffer).
Lemma payload_facts : zlen pl = zc_data_len tx /\ bytes_ok pl /\
  trim_ptr (Ptr (drop (Z.to_nat (zc_data_offset tx)) buffer)) (zc_data_len tx) = Ptr pl.
Proof.
  destruct Htx as (_ & Hb & _ & Ho & Hl & _). unfold pl, zerocopy_payload. split; [|split; [|done]].
  - rewrite zlen_take; [done|]. rewrite zlen_drop by lia. lia.
  - auto with xgl.
Qed.
Lemma zerocopy_frame_fields : wire_header_ok (fr_header f) = true /\ points_to (fr_extensions f) (fr_extensions_len f) ext /\
  points_to (fr_payload f) (fr_payload_len f) pl /\ wire_header_rejected (sent_header a f ext) = false /\
  (a = false -> Z.land (wh_flags (sent_header a f ext)) XGL_WIRE_FLAG_AUTHENTICATED = 0).
Proof.
  destruct Htx as (_ & _ & _ & _ & _ & Htgt & Hdt & Hpr). destruct payload_facts as (Hplz & Hplok & _).
  assert (zlen pl <= 65535) as Hmax by lia. pose proof (zerocopy_frame_builds (cg_source_id config) tx pl Hmax) as Hbuild.
  destruct (zerocopy_frame _ _ _ 0 _ _ _ _ _ Hsrc Htgt Hdt eq_refl Hpr Hmax Hbuild Hplok) as (Hplain & He & Hp & Hok).
  destruct (zerocopy_header_ok (cg_source_id config) (zc_target_id tx) (zc_data_type tx) 0 (zc_priority tx) false pl Hsrc Htgt Hdt eq_refl Hpr)
    as (Hfl & _ & Hrej).
  destruct (zerocopy_tlvs_ok tx Hdt) as (_ & _ & _ & Hez & _). fold l in Hez. fold ext in Hez.
  rewrite <- (zerocopy_tlvs_bytes tx) in *. fold l in Hplain, He, Hfl, Hrej. fold ext in Hplain, He, Hfl, Hrej. fold f in Hplain, He, Hp, Hok.
  split; [done|]. split; [done|]. split; [done|]. destruct a; cbn [sent_header].
  - split; [|done]. rewrite <- Hplain in Hrej. revert Hrej. unfold wire_header_rejected, auth_header, plain_header.
    cbn [wire_header_of_frame wh_version wh_header_len wh_packet_type wh_source_id wh_target_id set_field].
    rewrite !u8_small by lia. unfold XGL_WIRE_BASE_HEADER_SIZE. replace (24 + zlen ext + 15 <? 24) with false by lia.
    replace (24 + zlen ext <? 24) with false by lia. done.
  - rewrite Hplain. split; [done|]. intros _. cbn [zerocopy_header wh_flags]. by destruct (0 <? zlen ext).
Qed.
(** The frame that [xgl_frame_build] makes of the parameters of the signing branch. *)
Lemma signed_frame_builds : exists g, zerocopy_extension tx = Some (XGL_OK, fr_extensions g, fr_extensions_len g) /\
  xgl_frame_build no_frame (zerocopy_frame_params config tx buffer (fr_extensions g) (fr_extensions_len g)) = (XGL_OK, g) /\
  frame_wf g /\ fr_payload_len g = zc_data_len tx /\ points_to (fr_extensions (trim g)) (fr_extensions_len g) ext /\
  points_to (fr_payload (trim g)) (fr_payload_len g) pl /\ fr_header (trim g) = fr_header f /\
  fr_payload g = Ptr (drop (Z.to_nat (zc_data_offset tx)) buffer).
Proof.
  destruct payload_facts as (Hplz & Hplok & Htrim). destruct zerocopy_frame_fields as (Hok & _).
  pose proof Htx as (_ & Hb & _ & Ho & Hl & Htgt & Hdt%is_u8_spec & Hpr). pose proof (zlen_nonneg buffer).
  set (e := if zc_data_type tx =? 0 then NULL else Ptr ext).
  assert (view e (zlen ext) /\ points_to (trim_ptr e (zlen ext)) (zlen ext) ext) as [He Hpe].
  { destruct (zerocopy_tlvs_ok tx) as (_ & _ & _ & Hez & Hexok); [by apply is_u8_spec|]. fold l in Hez, Hexok. fold ext in Hez, Hexok.
    unfold e. destruct (Z.eqb_spec (zc_data_type tx) 0) as [Hz|Hz].
    - assert (ext = []) as Hnil by (unfold ext, l, zerocopy_tlvs; by rewrite Hz). rewrite Hnil. split; [done|].
      split; [done|]. split; [constructor|by right].
    - split; [cbn; split; [lia|done]|]. cbn. unfold zlen at 1. rewrite Nat2Z.id, firstn_all. split; [done|]. split; [done|by left]. }
  set (g := mk_frame (fr_header f) e (zlen ext) (Ptr (drop (Z.to_nat (zc_data_offset tx)) buffer)) (zc_data_len tx) 0).
  exists g. assert (zerocopy_extension tx = Some (XGL_OK, e, zlen ext)) as Hext.
  { unfold zerocopy_extension, e, ext, l, zerocopy_tlvs. destruct (zc_data_type tx =? 0); reflexivity. }
  split; [exact Hext|]. split; [|split; [|split; [done|split; [exact Hpe|split; [|by split]]]]].
  - unfold g, f, zerocopy_frame_of, xgl_frame_build. cbn [fr_extensions fr_extensions_len fp_payload_len zerocopy_params zerocopy_frame_params].
    unfold UINT16_MAX. replace (65535 <? zlen pl) with false by lia. replace (65535 <? zc_data_len tx) with false by lia.
    rewrite Hplz. unfold e, ext, l, zerocopy_tlvs, zerocopy_params. by destruct (zc_data_type tx =? 0).
  - split; [exact He|]. split; [|exact Hok]. cbn. split; [rewrite zlen_drop by lia; lia|auto with xgl].
  - unfold g. cbn [fr_payload fr_payload_len trim]. rewrite Htrim. split; [done|]. split; [done|by left].
Qed.

(** The header of that frame fills the buffer up to the payload, which stays where it is. *)
Lemma signed_header_run g : a = true -> frame_wf g -> points_to (fr_extensions (trim g)) (fr_extensions_len g) ext ->
  fr_header (trim g) = fr_header f -> zc_data_offset tx <= zc_buffer_size tx ->
  exists head, zlen head = zc_data_offset tx /\
    encode_authenticated_header buffer (zc_buffer_size tx) g key (u8 (ap_tag_len ap)) 0 =
      Some (XGL_OK, zc_data_offset tx, head ++ drop (Z.to_nat (zc_data_offset tx)) buffer).
Proof.
  intros Hcase Hwf Hge Hgh Hsize. destruct zerocopy_frame_fields as (Hok & _ & _ & Hrej & _).
  pose proof Htx as (_ & Hb & Hbs & Ho & Hl & Htgt & Hdt & Hpr). pose proof header_room as Hhr.
  destruct (zerocopy_tlvs_ok tx Hdt) as (_ & _ & _ & Hez & _). fold l in Hez. fold ext in Hez.
  pose proof tag_bounds as [Htag Hpos]. specialize (Hpos Hcase). rewrite Hcase in *. cbn [tag_of] in *. rewrite <- Hoff in Hhr.
  destruct (zlen_split3 buffer 24 (zlen ext)) as (o1 & o2 & o' & Hcut & H1 & H2); [lia|lia|lia|].
  pose proof (f_equal zlen Hcut) as Hz. rewrite !zlen_app in Hz. destruct (cut_buffer o' 15) as (o3 & rest & -> & H3); [lia|].
  exists (auth_aad (trim g) ext key (u8 (ap_tag_len ap))). split; [rewrite auth_aad_zlen; lia|].
  rewrite <- encode_auth_trim by done. rewrite Hcut at 1.
  rewrite (encode_authenticated_header_run o1 o2 o3 rest (zc_buffer_size tx) (trim g) ext); try done; try lia.
  - do 2 f_equal; [f_equal; lia|]. unfold auth_aad. rewrite <- !app_assoc. do 3 f_equal. rewrite Hcut, !app_assoc.
    symmetry. apply drop_app_length'. rewrite !length_app. unfold zlen in *. lia.
  - rewrite Hgh. exact Hok.
  - revert Hrej. cbn [sent_header]. unfold wire_header_rejected, auth_header, wire_header_of_frame. by rewrite Hgh.
  - rewrite u8_small; lia.
Qed.

(** What the builder promises when the frame fits: it is at the start of the buffer. *)
Definition built_in_place (same_range_ok : bool) : Prop :=
  exists t F, frame_parts (sent_header a f ext) (sent_tlvs a f key (tag_of a ap) l) (tag_of a ap) (pl ++ t) F /\
    zlen F = n /\ zlen t = tag_of a ap /\
    zerocopy_build same_range_ok config tx buffer = Some (XGL_OK, n, F ++ drop (Z.to_nat n) buffer) /\
    (a = true -> exists verify, ap_verify ap = Ptr verify /\
       verify key (canon (head_bytes (sent_header a f ext) (sent_tlvs a f key (tag_of a ap) l))) pl t = (XGL_OK, true)).
(** If copying the payload onto itself leaves it alone, the serializer does the
    same as with a payload that is elsewhere ... *)
Lemma signed_in_place g : a = true -> frame_wf g -> points_to (fr_extensions (trim g)) (fr_extensions_len g) ext ->
  fr_header (trim g) = fr_header f -> fr_payload g = Ptr (drop (Z.to_nat (zc_data_offset tx)) buffer) ->
  fr_payload_len g = zc_data_len tx -> zc_data_offset tx <= zc_buffer_size tx ->
  serialize_authenticated_in_place true (zc_data_offset tx) buffer (zc_buffer_size tx) g key (Ptr ap) 0 =
  xgl_frame_serialize_authenticated buffer (zc_buffer_size tx) g key (Ptr ap) 0.
Proof.
  intros Hcase Hwf Hge Hgh Hgp Hgl Hsize. apply serialize_with_copies. intros hl b.
  destruct (signed_header_run g Hcase Hwf Hge Hgh Hsize) as (head & Hhead & ->). intros [= <- <-].
  pose proof Htx as (_ & Hb & Hbs & Ho & Hl & _). rewrite Hgp, Hgl. unfold copy_if, memcpy_within.
  destruct (Z.ltb_spec 0 (zc_data_len tx)); [|done]. rewrite Z.eqb_refl.
  assert (zlen (drop (Z.to_nat (zc_data_offset tx)) buffer) = zlen buffer - zc_data_offset tx) as Hz by (rewrite zlen_drop; lia).
  rewrite rd_bytes_Some by (rewrite ?zlen_app, ?Hz; lia). rewrite rd_bytes_Some by (rewrite ?Hz; lia). cbn [mbind option_bind].
  set (rest := drop (Z.to_nat (zc_data_offset tx)) buffer) in *. rewrite drop_to_nat_0.
  assert (rest = take (Z.to_nat (zc_data_len tx)) rest ++ drop (Z.to_nat (zc_data_len tx)) rest) as Hrest by (by rewrite take_drop).
  rewrite <- Hhead. rewrite Hrest at 2. rewrite wr_bytes_app by done. by rewrite take_drop.
Qed.
Lemma signed_parts : a = true -> zc_data_offset tx + zc_data_len tx + tag_of a ap + 2 <= zc_buffer_size tx -> built_in_place true.
Proof.
  intros Hcase Hsize. pose proof signed_in_place as Hplace. unfold built_in_place. destruct payload_facts as (Hplz & Hplok & _). destruct zerocopy_frame_fields as (Hok & He & Hp & Hrej & Hflag).
  pose proof Htx as (_ & Hb & Hbs & Ho & Hl & Htgt & Hdt & Hpr). pose proof header_room as Hhr. pose proof frame_room as Hn.
  destruct (zerocopy_tlvs_ok tx Hdt) as (Hlok & Hscan & _ & Hez & Hexok). fold l in Hlok, Hscan, Hez, Hexok. fold ext in Hez, Hexok.
  rewrite Hhr in Hoff. pose proof (proj1 tag_bounds).
  destruct (cut_buffer buffer n) as (old & rest & Hcut & Hold); [lia|]. pose proof Hb as Hb'. rewrite Hcut in Hb'.
  assert (drop (Z.to_nat n) buffer = rest) as -> by (rewrite Hcut; apply drop_app_length'; unfold zlen in Hold; lia).
  assert (n = xgl_frame_serialized_size (zlen pl) (zlen ext) (tag_of a ap)) as Hn' by (unfold n; by rewrite Hplz).
  destruct signed_frame_builds as (g & Hext & Hg & Hwf & Hgl & Hge & Hgp & Hgh & Hgq).
  specialize (Hplace g Hcase Hwf Hge Hgh Hgq Hgl ltac:(lia)).
  unfold zerocopy_build. rewrite Ha. clearbody n. destruct a; [|done].
  assert (sent_header true (trim g) ext = sent_header true f ext) as Hsame.
  { cbn [sent_header]. unfold auth_header, wire_header_of_frame. rewrite Hgh. cbn [fr_payload_len trim]. rewrite Hgl.
    by rewrite (proj1 Hp), Hplz. }
  destruct (serialize_parts true old rest pl (zc_buffer_size tx) key 0 l (trim g) ap) as (t & F & Hhd & Ht & Htok & HF & HFn & Hrun & Hver);
    try done; try (rewrite <- Hn'; lia); try lia.
  { by exists 0. } { rewrite Hgh. exact Hok. } { fold ext. rewrite Hsame. exact Hrej. } { fold ext. lia. }
  { fold ext. cbn [tag_of] in Hn'. lia. } { fold ext. cbn [tag_of] in Hn'. lia. } { rewrite <- Hcut. lia. }
  cbn [tag_of] in Hn' |- *.
  fold ext in Hhd, HF, Hrun, Hver, HFn. rewrite Hsame in *.
  assert (sent_tlvs true (trim g) key (ap_tag_len ap) l = sent_tlvs true f key (ap_tag_len ap) l) as Hsl by (unfold sent_tlvs; by rewrite Hgh).
  rewrite Hsl in *. exists t, F. split; [|split; [by rewrite HFn, Hn'|split; [done|split; [|done]]]].
  - split; [done|]. split; [done|]. split; [|done]. rewrite zlen_app, Ht. cbn [tag_of]. f_equal.
    symmetry. by apply (sent_header_ok true pl l f Hok Hp ltac:(lia)).
  - unfold zerocopy_authenticated. rewrite Hhr, Hoff, Z.eqb_refl, <- Hoff. cbn [negb]. rewrite Hext. cbn [mbind option_bind is_ok negb].
    replace (zlen buffer <? zc_data_offset tx) with false by lia.
    fold no_frame. rewrite Hg. cbn [is_ok negb]. rewrite Hprov by done. fold key. rewrite Hplace, <- serialize_auth_trim by done.
    rewrite Hcut, Hn'. exact Hrun.
Qed.
Lemma plain_parts same : a = false -> zc_data_offset tx + zc_data_len tx + tag_of a ap + 2 <= zc_buffer_size tx -> built_in_place same.
Proof.
  intros Hcase Hsize. unfold built_in_place. destruct payload_facts as (Hplz & Hplok & _). destruct zerocopy_frame_fields as (Hok & He & Hp & Hrej & Hflag).
  pose proof Htx as (_ & Hb & Hbs & Ho & Hl & Htgt & Hdt & Hpr). pose proof header_room as Hhr. pose proof frame_room as Hn.
  destruct (zerocopy_tlvs_ok tx Hdt) as (Hlok & Hscan & _ & Hez & Hexok). fold l in Hlok, Hscan, Hez, Hexok. fold ext in Hez, Hexok.
  rewrite Hhr in Hoff. pose proof (proj1 tag_bounds).
  destruct (cut_buffer buffer n) as (old & rest & Hcut & Hold); [lia|]. pose proof Hb as Hb'. rewrite Hcut in Hb'.
  assert (drop (Z.to_nat n) buffer = rest) as -> by (rewrite Hcut; apply drop_app_length'; unfold zlen in Hold; lia).
  assert (n = xgl_frame_serialized_size (zlen pl) (zlen ext) (tag_of a ap)) as Hn' by (unfold n; by rewrite Hplz).
  unfold zerocopy_build. rewrite Ha. clearbody n. destruct a; [done|].
  assert (zlen pl <= 65535) as Hmax by lia.
  pose proof (zerocopy_frame_builds (cg_source_id config) tx pl Hmax) as Hbuild. fold f in Hbuild.
  destruct (zlen_split3 old (24 + zlen ext) (zlen pl)) as (hdr & pl' & crc & -> & Hhdr & Hplz'); [lia|lia|lia|].
  pose proof Hold as Hz. rewrite !zlen_app in Hz. cbn [tag_of] in *.
  assert (pl' = pl) as ->.
  { unfold pl, zerocopy_payload. rewrite Hcut, <- !app_assoc, drop_app_length' by (unfold zlen in *; lia).
    rewrite take_app_length'; [done|]. unfold zlen in *. lia. }
  destruct (serialize_parts false (hdr ++ pl ++ crc) rest pl (zc_buffer_size tx) 0 0 l f xor_provider) as (t & F & Hhd & Ht & Htok & HF & HFn & Hrun & _);
    try done; try (rewrite <- Hn'; lia); try lia.
  { exact xor_provider_sound. } { split; [done|]. by apply Hflag. } { fold ext. lia. } { fold ext. lia. } { fold ext. lia. } { rewrite <- Hcut. lia. }
  fold ext in Hhd, HF, Hrun, HFn. rewrite <- Hn' in *.
  exists t, F. split; [|split; [done|split; [done|split; [|done]]]].
  - split; [done|]. split; [done|]. split; [|done]. rewrite zlen_app, Ht. f_equal.
    symmetry. by apply (sent_header_ok false pl l f Hok Hp ltac:(lia)).
  - pose proof (zerocopy_build_run _ _ _ 0 _ _ _ _ _ Hsrc Htgt Hdt eq_refl Hpr Hmax Hbuild hdr crc rest (zc_buffer_size tx) 0) as Hz'.
    rewrite <- (zerocopy_tlvs_bytes tx) in Hz'. fold l in Hz'. fold ext in Hz'.
    rewrite Hoff, Z.add_0_r, <- Hplz. rewrite Hcut at 1. rewrite <- !app_assoc, Hz'; [|lia|lia|by rewrite <- !app_assoc in Hb'|lia].
    do 2 f_equal; [f_equal; lia|]. rewrite HF. cbn [sent_header sent_tlvs]. unfold head_bytes. fold ext.
    rewrite (zlen_0_nil t) by lia. by rewrite app_nil_r, <- app_assoc.
Qed.
Lemma zerocopy_parts same : a && negb same = false ->
  zc_data_offset tx + zc_data_len tx + tag_of a ap + 2 <= zc_buffer_size tx -> built_in_place same.
Proof.
  intros Hs. destruct (bool_decide_reflect (a = true)) as [Ht|Hf]; [|apply plain_parts; by destruct a].
  assert (same = true) as -> by (rewrite Ht in Hs; by destruct same). by apply signed_parts.
Qed.
End build.

(** The other requests are refused, after the sizes have been checked. *)
Section refuse.
Context (config : xgl_config_t) (tx : xgl_tx_data_zerocopy_t) (buffer : bytes) (a : bool) (ap : xgl_auth_provider_t).
Context (Htx : zerocopy_typed tx buffer) (Hsrc : 1 <= cg_source_id config < 65536) (Ha : cg_auth_required config = a)
  (Hap : provider_sound ap) (Hprov : a = true -> cg_auth_provider config = Ptr ap).

Definition refused (r : M (xgl_error_t * Z * bytes)) : Prop :=
  exists err m b, r = Some (err, m, b) /\ is_ok err = false.
Lemma signed_frame_refused same : a = true -> zc_data_offset tx = unauth_header_len config tx -> zc_data_len tx <= 65535 ->
  zc_data_offset tx + zc_data_len tx + 2 <= zc_buffer_size tx < zc_data_offset tx + zc_data_len tx + tag_of a ap + 2 ->
  refused (zerocopy_authenticated same config tx buffer).
Proof.
  intros Htrue Hoff Hlen Hsize. pose proof Htx as (_ & Hb & Hbs & Ho & Hl & Htgt & Hdt & Hpr).
  destruct (signed_frame_builds config tx buffer a ap Htx Hsrc Ha Hprov Hlen ltac:(lia)) as (g & Hext & Hg & Hwf & Hgl & Hge & Hgp & Hgh & _).
  destruct (signed_header_run config tx buffer a ap Htx Hsrc Ha Hap Hprov Hoff Hlen ltac:(lia) g Htrue Hwf Hge Hgh ltac:(lia))
    as (head & Hhead & Henc).
  pose proof Hap as (Htag & sign & verify & Hsign & _). unfold XGL_AUTH_TAG_MAX_LEN in Htag. rewrite Htrue in *. cbn [tag_of] in Hsize.
  unfold zerocopy_authenticated. rewrite Hoff, Z.eqb_refl, <- Hoff. cbn [negb]. rewrite Hext. cbn [mbind option_bind is_ok negb].
  replace (zlen buffer <? zc_data_offset tx) with false by lia.
  fold no_frame. rewrite Hg. cbn [is_ok negb]. rewrite (Hprov eq_refl).
  unfold serialize_authenticated_in_place, serialize_authenticated_with. rewrite Hsign, bool_decide_eq_false_2 by done.
  rewrite Hgl. unfold UINT16_MAX. replace (65535 <? zc_data_len tx) with false by lia.
  unfold XGL_AUTH_TAG_MAX_LEN. replace ((ap_tag_len ap =? 0) || _) with false by lia.
  rewrite Henc. cbn [mbind option_bind is_ok negb]. unfold XGL_CRC16_SIZE. replace (_ <? _) with true by lia. by eexists _, _, _.
Qed.
Lemma zerocopy_refused same : zerocopy_fits config tx a ap = false -> (a = true -> zc_data_offset tx <= zlen buffer) ->
  validate_tx_data_zerocopy (Ptr tx) = XGL_OK -> refused (zerocopy_build same config tx buffer).
Proof.
  intros Hfit Hinside Hvalid. pose proof (signed_frame_refused same) as Hsigned. pose proof Htx as (Hbuf & Hb & Hbs & Ho & Hl & Htgt & Hdt & Hpr).
  assert (u64 (zc_data_offset tx + zc_data_len tx + 2) <= zc_buffer_size tx) as Hsz.
  { revert Hvalid. unfold validate_tx_data_zerocopy, XGL_CRC16_SIZE. repeat case_if; try done. intros _. lia. }
  pose proof (header_room config tx a ap Ha Hprov) as Hhr. destruct (zerocopy_tlvs_ok tx Hdt) as (_ & _ & _ & Hez & _).
  pose proof (tag_bounds config tx a ap Ha Hap Hprov) as [Htag _].
  unfold zerocopy_fits, UINT16_MAX, XGL_CRC16_SIZE in Hfit. unfold zerocopy_build. rewrite Ha.
  destruct (Z.eqb_spec (zc_data_offset tx) (unauth_header_len config tx)) as [Hoff|Hoff].
  - destruct (Z.leb_spec (zc_data_len tx) 65535) as [Hlen|Hlen]; cbn [andb] in Hfit.
    + rewrite u64_small in Hsz by (destruct a; lia). destruct a; [apply Hsigned; [done|done|done|lia]|]. cbn [tag_of] in *. lia.
    + destruct a.
      * specialize (Hinside eq_refl). unfold zerocopy_authenticated. rewrite Hoff, Z.eqb_refl, <- Hoff. cbn [negb]. unfold zerocopy_extension.
        assert (forall e n, refused (if zlen buffer <? zc_data_offset tx then None else
          '(err, frame) ← Some (xgl_frame_build no_frame (zerocopy_frame_params config tx buffer e n));
          if negb (is_ok err) then ret (err, 0, buffer)
          else serialize_authenticated_in_place same (zc_data_offset tx) buffer (zc_buffer_size tx) frame (cg_auth_key_id config)
                 (cg_auth_provider config) 0)) as Hbig.
        { intros e n. replace (zlen buffer <? zc_data_offset tx) with false by lia. unfold xgl_frame_build. cbn [fp_payload_len zerocopy_frame_params]. unfold UINT16_MAX.
          replace (65535 <? zc_data_len tx) with true by lia. by eexists _, _, _. }
        destruct (negb (zc_data_type tx =? 0)); [|exact (Hbig NULL 0)]. exact (Hbig _ _).
      * unfold xgl_frame_build_zerocopy, UINT16_MAX. replace (65535 <? zc_data_len tx) with true by lia. by eexists _, _, _.
  - destruct a.
    + unfold zerocopy_authenticated. replace (zc_data_offset tx =? _) with false by lia. by eexists _, _, _.
    + unfold xgl_frame_build_zerocopy. destruct (UINT16_MAX <? zc_data_len tx); [by eexists _, _, _|].
      fold (zerocopy_ext_len tx). rewrite zerocopy_ext_zlen. change XGL_WIRE_BASE_HEADER_SIZE with 24.
      rewrite Z.add_0_r in Hhr. rewrite <- Hhr. replace (zc_data_offset tx =? _) with false by lia. cbn [negb]. rewrite orb_true_r.
      by eexists _, _, _.
Qed.
End refuse.

(** ** The send *)

(** The data link sends the first bytes of the buffer, and reports what the driver answers. *)
Definition raw_sent (w : dl_world) (phy : xgl_phy_ops_t) (F : bytes) (err : xgl_error_t) (w' : dl_world) : Prop :=
  err = default XGL_OK (head (d_tx w)) /\ d_tx w' = tail (d_tx w) /\
  d_trace w' = d_trace w ++ dl_tx phy F ::
    (if is_ok err || bool_decide (dc_error_callback (d_ctx w) = NULL) then [] else [dl_error err]).
Lemma send_raw_run w phy F rest : phy_tx phy <> NULL -> 0 < zlen F ->
  wp (xgl_datalink_send_raw (Ptr phy) (Ptr (F ++ rest)) (zlen F)) (raw_sent w phy F) w.
Proof.
  intros Hphy HF. unfold xgl_datalink_send_raw. rewrite bool_decide_eq_false_2 by done. replace (zlen F =? 0) with false by lia.
  cbn [orb]. unfold transmit_and_count, phy_transmit. dl_step. dl_step. eapply wp_lift; [by apply rd_bytes_prefix|].
  dl_step. dl_step. unfold wp at 1, tx_answer. cbn [d_tx set_field].
  assert (forall err (w1 : dl_world), err = default XGL_OK (head (d_tx w)) -> d_tx w1 = tail (d_tx w) -> d_ctx w1 = d_ctx w ->
    d_trace w1 = d_trace w ++ [dl_tx phy F] ->
    wp (if negb (is_ok err) then _ ← datalink_count_tx_error; _ ← datalink_report_tx_error err; mret err
        else _ ← dl_stats (fun s => s <| ls_tx_packets := u64 (ls_tx_packets s + 1) |> <| ls_tx_bytes := u64 (ls_tx_bytes s + zlen F) |>);
             mret XGL_OK) (raw_sent w phy F) w1) as Hanswer.
  { intros err w1 Herr Htx Hctx Htr. destruct (is_ok err) eqn:He; cbn [negb].
    - unfold dl_stats. dl_step. dl_step. dl_step. assert (err = XGL_OK) as -> by (by destruct err). unfold raw_sent.
      split; [done|]. split; [done|]. cbn [d_trace set_field]. by rewrite Htr.
    - unfold datalink_count_tx_error, datalink_report_tx_error, call_error, dl_stats. dl_step. dl_step. dl_step. dl_step. dl_step.
      match goal with |- context [bool_decide (dc_error_callback ?c = NULL)] => change (dc_error_callback c) with (dc_error_callback (d_ctx w1)) end. rewrite Hctx.
      destruct (bool_decide _) eqn:Hcb; dl_step; dl_step; unfold raw_sent; rewrite He, Hcb; cbn [orb];
        (split; [done|split; [done|]]); cbn [d_trace set_field]; rewrite Htr; [done|by rewrite <- app_assoc]. }
  destruct w as [ctx heap [|err tx] rx junk tr]; by apply Hanswer.
Qed.

Section request.
Context (phys : Z -> xgl_phy_ops_t) (same : bool) (i : xgl_instance) (es : list xgl_route_item_t) (tx : xgl_tx_data_zerocopy_t) (buffer : bytes)
  (a : bool) (ap : xgl_auth_provider_t).
(** The request is well-typed, and the instance is in order: it has routes, and signs with [ap] or not at all. *)
Record zerocopy_context : Prop := {
  zx_typed : zerocopy_typed tx buffer;
  zx_source : 1 <= cg_source_id (in_config i) < 65536;
  zx_auth : cg_auth_required (in_config i) = a;
  zx_sound : provider_sound ap;
  zx_provider : a = true -> cg_auth_provider (in_config i) = Ptr ap;
  zx_routes : route_rep (in_route_table i) es
}.
Definition zerocopy_size : Z :=
  xgl_frame_serialized_size (zc_data_len tx) (zlen (tlvs_bytes (zerocopy_tlvs tx))) (tag_of a ap).
(** The driver that gets the frame, if the request is acceptable. *)
Definition zerocopy_driver : ptr xgl_phy_ops_t :=
  if negb (in_initialized i) || (zc_data_len tx =? 0) || (7 <? zc_priority tx) || zc_reliable tx ||
     negb (zerocopy_fits (in_config i) tx a ap) then NULL
  else
    match route_map es !! zc_target_id tx with
    | None => NULL
    | Some route =>
        if negb (driver_can_transmit (phys <$> ri_phy route)) || (ri_max_frame_size route <? zerocopy_size) then NULL
        else phys <$> ri_phy route
    end.
Definition zerocopy_source : Z := cg_source_id (in_config i).
(** The frame of the request, with its tag [t]. *)
Definition zerocopy_bytes (t F : bytes) : Prop :=
  let pl := zerocopy_payload tx buffer in
  let f := zerocopy_frame_of zerocopy_source tx pl in
  let key := cg_auth_key_id (in_config i) in
  let h := sent_header a f (tlvs_bytes (zerocopy_tlvs tx)) in
  let ll := sent_tlvs a f key (tag_of a ap) (zerocopy_tlvs tx) in
  frame_parts h ll (tag_of a ap) (pl ++ t) F /\ zlen F = zerocopy_size /\ zlen t = tag_of a ap /\
  (a = true -> exists verify, ap_verify ap = Ptr verify /\ verify key (canon (head_bytes h ll)) pl t = (XGL_OK, true)).

Context (Hx : zerocopy_context).
Lemma zerocopy_usable : auth_unusable (in_config i) = false /\
  zerocopy_serialized_len (in_config i) tx = Some (u64 zerocopy_size).
Proof.
  destruct Hx as [Htx Hsrc Ha Hap Hprov _]. unfold auth_unusable, zerocopy_serialized_len, zerocopy_size. rewrite Ha, zerocopy_ext_zlen.
  destruct Hap as (Htag & sign & verify & Hsign & _). unfold XGL_AUTH_TAG_MAX_LEN in *. destruct a; [|done]. rewrite Hprov by done.
  cbn [andb mbind option_bind tag_of]. split; [|done]. rewrite Hsign, bool_decide_eq_false_2 by done. lia.
Qed.
Lemma zerocopy_lookup : zerocopy_route i (zc_target_id tx) = Some (route_map es !! zc_target_id tx).
Proof.
  destruct Hx as [(_ & _ & _ & _ & _ & Htgt & _) _ _ _ _ Hroutes]. unfold zerocopy_route.
  destruct (route_lookup_rep _ _ (zc_target_id tx) Hroutes) as (p & -> & Hp); [apply is_u16_spec; lia|]. cbn [mbind option_bind].
  destruct p as [p|]; [|by rewrite Hp]. destruct Hp as [-> Hne]. by destruct (route_map es !! zc_target_id tx).
Qed.
Lemma fits_sizes : zerocopy_fits (in_config i) tx a ap = true ->
  zc_data_offset tx = unauth_header_len (in_config i) tx /\ zc_data_len tx <= 65535 /\
  zc_data_offset tx + zc_data_len tx + tag_of a ap + 2 <= zc_buffer_size tx /\ 0 < zerocopy_size < 2 ^ 64 /\
  24 <= zc_data_offset tx /\ 0 <= tag_of a ap.
Proof.
  destruct Hx as [Htx Hsrc Ha Hap Hprov _]. unfold zerocopy_fits, UINT16_MAX, XGL_CRC16_SIZE. intros Hf.
  pose proof (header_room _ tx _ _ Ha Hprov) as Hhr. pose proof (tag_bounds _ tx _ _ Ha Hap Hprov) as [Htag _].
  pose proof (frame_room _ tx _ _ Ha Hap Hprov) as Hn. destruct (zerocopy_tlvs_ok tx) as (_ & _ & _ & Hez & _); [apply Htx|].
  destruct Htx as (_ & _ & _ & _ & Hl & _). unfold zerocopy_size. rewrite Hn. change (2 ^ 64) with 18446744073709551616.
  destruct a; split_and!; lia.
Qed.
Lemma fits_valid : zerocopy_fits (in_config i) tx a ap = true ->
  validate_tx_data_zerocopy (Ptr tx) = if (zc_data_len tx =? 0) || (7 <? zc_priority tx) then XGL_ERR_INVALID_PARAM else XGL_OK.
Proof.
  intros Hf. destruct (fits_sizes Hf) as (Hoff & Hlen & Hsize & _ & Ho & Ht). destruct Hx as [(Hbuf & _ & Hbs & _ & Hl & _) _ _ _ _ _].
  unfold validate_tx_data_zerocopy, XGL_FRAME_HEADER_SIZE, XGL_CRC16_SIZE. rewrite Hbuf, bool_decide_eq_false_2 by done.
  pose proof (u64_range (zc_data_offset tx + zc_data_len tx + 2)).
  destruct (zc_data_len tx =? 0); [done|]. replace (zc_data_offset tx <? 24) with false by lia.
  destruct (Z.le_gt_cases 18446744073709551616 (zc_data_offset tx + zc_data_len tx + 2)) as [Hbig|Hsmall].
  - exfalso. pose proof (header_room _ tx _ _ (zx_auth Hx) (zx_provider Hx)) as Hhr.
    destruct (zerocopy_tlvs_ok tx) as (_ & _ & _ & Hez & _); [apply (zx_typed Hx)|]. destruct a; lia.
  - rewrite u64_small by lia. by replace (zc_buffer_size tx <? _) with false by lia.
Qed.

(** On its route. *)
Definition request_answered (w : dl_world) (r : xgl_error_t * xgl_instance * bytes) (w' : dl_world) : Prop :=
  match zerocopy_driver with
  | NULL => is_ok r.1.1 = false /\ r.1.2 = i /\ w' = w
  | Ptr phy => exists t F, zerocopy_bytes t F /\ r.2 = F ++ drop (Z.to_nat zerocopy_size) buffer /\
      r.1.2 = (if is_ok r.1.1 then count_zerocopy (zc_data_len tx) i else i) /\ raw_sent w phy F r.1.1 w'
  end.
Lemma answered_error w err b : is_ok err = false -> zerocopy_driver = NULL -> request_answered w (err, i, b) w.
Proof. intros He Hd. unfold request_answered. by rewrite Hd. Qed.
(** The payload is not copied onto itself, or that is harmless; and it starts in the buffer. *)
Hypothesis Hdefined : zerocopy_driver <> NULL -> a && negb same = false.
Hypothesis Hinside : a = true -> zc_data_offset tx <= zlen buffer.
Lemma on_route_run w route : in_initialized i = true -> validate_tx_data_zerocopy (Ptr tx) = XGL_OK -> zc_reliable tx = false ->
  route_map es !! zc_target_id tx = Some route -> driver_can_transmit (phys <$> ri_phy route) = true ->
  wp (zerocopy_on_route phys same i tx buffer route) (request_answered w) w.
Proof.
  intros Hi Hvalid Hrel Hroute Hcan. pose proof Hx as [Htx Hsrc Ha Hap Hprov _]. destruct zerocopy_usable as [_ Hlen].
  unfold zerocopy_on_route. dl_step. eapply wp_lift; [exact Hlen|].
  destruct (zerocopy_fits (in_config i) tx a ap) eqn:Hfits.
  - destruct (fits_sizes Hfits) as (Hoff & Hdl & Hsize & Hn & _ & Ht). pose proof (fits_valid Hfits) as Hok. rewrite Hvalid in Hok.
    assert ((zc_data_len tx =? 0) || (7 <? zc_priority tx) = false) as Hargs by (by destruct ((zc_data_len tx =? 0) || (7 <? zc_priority tx))).
    assert (zerocopy_driver = if ri_max_frame_size route <? zerocopy_size then NULL else phys <$> ri_phy route) as Hd.
    { unfold zerocopy_driver. rewrite Hi, Hfits, Hrel, Hroute, Hcan. cbn [negb orb]. rewrite Hargs. done. }
    rewrite u64_small by (change 18446744073709551616 with (2 ^ 64); lia).
    destruct (ri_max_frame_size route <? zerocopy_size); [dl_step; by apply answered_error|].
    destruct (zerocopy_parts (in_config i) tx buffer a ap Htx Hsrc Ha Hap Hprov Hoff Hdl) with same as (t & F & Hp & HF & Htl & Hb & Hver);
      [destruct Htx as (_ & _ & ? & _); lia|apply Hdefined; rewrite Hd; by destruct (phys <$> ri_phy route)|lia|].
    dl_step. eapply wp_lift; [exact Hb|]. cbn beta iota. cbn [is_ok negb]. fold zerocopy_size in HF |- *.
    destruct (phys <$> ri_phy route) as [phy|] eqn:Hphy; [|done]. rewrite <- HF. dl_step. eapply wp_mono.
    { apply send_raw_run; [|lia]. cbn [driver_can_transmit] in Hcan. by destruct (bool_decide_reflect (phy_tx phy = NULL)). }
    intros err w' Hraw. dl_step. unfold request_answered. rewrite Hd. exists t, F. cbn [fst snd]. rewrite <- HF.
    split; [split; [exact Hp|by split]|]. split; [done|]. split; [done|exact Hraw].
  - assert (zerocopy_driver = NULL) as Hd by (unfold zerocopy_driver; rewrite Hfits; by rewrite orb_true_r).
    destruct (_ <? _); [dl_step; by apply answered_error|].
    destruct (zerocopy_refused (in_config i) tx buffer a ap Htx Hsrc Ha Hap Hprov same Hfits Hinside Hvalid) as (err & m & b & Hb & He).
    dl_step. eapply wp_lift; [exact Hb|]. cbn beta iota. rewrite He. cbn [negb]. dl_step. by apply answered_error.
Qed.
Lemma request_run w : wp (xgl_send_zerocopy phys same (Ptr i) (Ptr tx)) (fun r w' =>
  exists i' b', r = (r.1.1, Ptr i', Ptr b') /\ request_answered w (r.1.1, i', b') w') w.
Proof.
  pose proof Hx as [(Hbuf & _) _ _ _ _ _]. destruct zerocopy_usable as [Hus _].
  assert (forall err w', is_ok err = false -> zerocopy_driver = NULL -> w' = w ->
    wp (mret (err, Ptr i, zc_buffer tx) : D _) (fun r w' => exists i' b', r = (r.1.1, Ptr i', Ptr b') /\ request_answered w (r.1.1, i', b') w') w') as Herr.
  { intros err w' He Hd ->. dl_step. exists i, buffer. rewrite Hbuf. split; [done|]. by apply answered_error. }
  unfold xgl_send_zerocopy. destruct (in_initialized i) eqn:Hi; cbn [negb]; [|apply Herr; [done| |done]; unfold zerocopy_driver; by rewrite Hi].
  destruct (is_ok (validate_tx_data_zerocopy (Ptr tx))) eqn:Hv; cbn [negb].
  2: { apply Herr; [done| |done]. unfold zerocopy_driver. destruct (zerocopy_fits (in_config i) tx a ap) eqn:Hf; [|by rewrite orb_true_r].
       rewrite (fits_valid Hf) in Hv. rewrite Hi. cbn [negb orb]. by destruct (_ || (7 <? zc_priority tx)). }
  assert (validate_tx_data_zerocopy (Ptr tx) = XGL_OK) as Hvalid by (by destruct (validate_tx_data_zerocopy (Ptr tx))).
  dl_step. eapply wp_lift; [reflexivity|]. dl_step. eapply wp_lift; [exact Hbuf|].
  destruct (zc_reliable tx) eqn:Hrel; [apply Herr; [done| |done]; unfold zerocopy_driver; by rewrite Hrel, orb_true_r|].
  dl_step. eapply wp_lift; [exact zerocopy_lookup|].
  destruct (route_map es !! zc_target_id tx) as [route|] eqn:Hroute.
  2: { apply Herr; [done| |done]. unfold zerocopy_driver. rewrite Hroute. by destruct (_ || _). }
  destruct (driver_can_transmit (phys <$> ri_phy route)) eqn:Hcan; cbn [negb].
  2: { apply Herr; [done| |done]. unfold zerocopy_driver. rewrite Hroute, Hcan. by destruct (_ || _). }
  rewrite Hus. dl_step. eapply wp_mono; [by apply on_route_run|]. intros [[err i'] b'] w' Ha. dl_step. by exists i', b'.
Qed.
End request.


(** ** What the receiver makes of it *)

(** A signed frame whose tag is right is judged by its packet number alone. *)
Lemma signed_frame_filter c key nonce tag h l pl t G xm M :
  frame_parts h (l ++ [(XGL_WIRE_EXT_SECURITY, security_value key nonce tag)]) tag (pl ++ t) G ->
  Forall tlv_ok l -> existsb is_security l = false -> tlv_walk ext_metadata_body l zero_ext_metadata = Some (inl xm) ->
  wh_payload_len h = zlen pl -> zlen t = tag -> Z.land (wh_flags h) XGL_WIRE_FLAG_AUTHENTICATED <> 0 ->
  0 <= key < 4294967296 -> agreed c true key (canon (head_bytes h (l ++ [(XGL_WIRE_EXT_SECURITY, security_value key nonce tag)]))) pl t ->
  zlen G <= XGL_DATALINK_MAX_FRAME_SIZE ->
  frame_filter c M G =
    let '(r, M') := memory_check M (wh_source_id h, wh_connection_id h, xm_session_epoch xm) (wh_packet_number h) in
    (match r with
     | XGL_REPLAY_REJECT => false
     | XGL_REPLAY_ACCEPT_DUPLICATE => datalink_is_ack_eliciting h
     | XGL_REPLAY_ACCEPT_NEW => true
     end, M').
Proof.
  intros Hp Hl Hsec Hx Hpl Ht Hflag Hkey Hagree Hmax.
  assert (Z.land (wh_flags h) XGL_WIRE_FLAG_AUTHENTICATED = 0 <-> true = false) as Hiff by (split; [by intros|done]).
  pose proof (link_rx_meta c true key nonce tag h l pl t G xm Hp Hl Hsec Hx Ht Hiff Hkey Hagree Hmax) as Hm.
  destruct (link_meta_fields c true key nonce tag h l pl t G xm Hp Hiff Hagree) as (Hh & Hs & Hau & Hse & _ & _ & Hid).
  pose proof (link_tag_accepted c true key nonce tag h l pl t G xm Hp Hpl Ht Hiff Hagree eq_refl) as Htag.
  unfold frame_filter. rewrite Hm. revert Hh Hs Hau Hse Hid Htag. generalize (link_meta true key tag h xm). intros m Hh Hs Hau Hse Hid Htag.
  destruct Hagree as [_ Hver]. destruct (Hver eq_refl) as (p & verify & Hprov & Hv & _).
  assert (auth_impossible c m = false) as ->.
  { unfold auth_impossible. rewrite Hs, Hau, Hse, Hprov, Hv, bool_decide_eq_false_2 by done. by rewrite andb_false_r. }
  rewrite Hs, Htag, Hid, Hh. cbn [negb fst snd]. destruct (memory_check _ _ _) as [r M']. by destruct r.
Qed.
(** Every zero-copy frame has packet number 0, and asks for no ACK. *)
Lemma zerocopy_header_fields source tx pl a : let h := sent_header a (zerocopy_frame_of source tx pl) (tlvs_bytes (zerocopy_tlvs tx)) in
  1 <= source < 65536 -> 1 <= zc_target_id tx < 65536 -> is_u8 (zc_data_type tx) = true -> is_u8 (zc_priority tx) = true ->
  zlen pl <= 65535 -> bytes_ok pl ->
  wh_source_id h = source /\ wh_connection_id h = 0 /\ wh_packet_number h = 0 /\ wh_payload_len h = zlen pl /\
  datalink_is_ack_eliciting h = false /\ (a = true -> Z.land (wh_flags h) XGL_WIRE_FLAG_AUTHENTICATED <> 0).
Proof.
  cbn zeta. intros Hsrc Htgt Hdt Hpr Hpl Hok. pose proof (zerocopy_frame_builds source tx pl Hpl) as Hbuild.
  destruct (zerocopy_frame _ _ _ 0 _ _ _ _ _ Hsrc Htgt Hdt eq_refl Hpr Hpl Hbuild Hok) as (Hplain & _ & Hp & _).
  rewrite <- (zerocopy_tlvs_bytes tx) in Hplain. set (ext := tlvs_bytes (zerocopy_tlvs tx)) in *.
  set (f := zerocopy_frame_of source tx pl) in *. pose proof (zlen_nonneg pl).
  destruct (sent_fields a f ext) as (E1 & _ & E3 & E4 & _ & E6 & _).
  destruct (sent_fields false f ext) as (F1 & _ & F3 & F4 & _ & F6 & _). cbn [sent_header] in F1, F3, F4, F6.
  pose proof (sent_flags a f ext 0 ltac:(lia)) as B. pose proof (sent_flags false f ext 0 ltac:(lia)) as B0. cbn [sent_header] in B0.
  rewrite Hplain in F1, F3, F4, F6, B0. cbn [zerocopy_header wh_source_id wh_connection_id wh_packet_number wh_traffic_class] in F1, F3, F4, F6.
  rewrite E1, E3, E4, <- F1, <- F3, <- F4. split; [done|]. split; [done|]. split; [done|]. split; [|split].
  - transitivity (u16 (fr_payload_len f)); [by destruct a|]. rewrite (proj1 Hp), u16_small; [done|lia].
  - unfold datalink_is_ack_eliciting. rewrite E6, <- F6. apply is_u8_spec in Hpr.
    destruct (priority_small (zc_priority tx) ltac:(lia)) as (q & Hq & ->).
    assert (Z.land (wh_flags (sent_header a f ext)) XGL_WIRE_FLAG_ACK_ELICITING =? 0 = true) as ->.
    { change XGL_WIRE_FLAG_ACK_ELICITING with (2 ^ 0). rewrite land_flag, B by lia. cbn [orb andb Z.eqb] in B0 |- *.
      rewrite !orb_false_r in *. rewrite <- B0. unfold zerocopy_header. cbn [wh_flags]. by destruct (0 <? zlen ext). }
    assert (q = 0 \/ q = 1 \/ q = 2 \/ q = 3 \/ q = 4 \/ q = 5 \/ q = 6 \/ q = 7) as Hq8 by lia.
    repeat (destruct Hq8 as [->|Hq8]; [reflexivity|]). by rewrite Hq8.
  - intros ->. pose proof (sent_flags true f ext 4 ltac:(lia)) as B4. cbn [Z.eqb andb orb] in B4. rewrite orb_true_r in B4.
    intros Hz%Z.eqb_eq. change XGL_WIRE_FLAG_AUTHENTICATED with (2 ^ 4) in Hz. rewrite land_flag in Hz by lia. by rewrite B4 in Hz.
Qed.
Lemma zerocopy_walk tx : exists xm, tlv_walk ext_metadata_body (zerocopy_tlvs tx) zero_ext_metadata = Some (inl xm) /\ xm_session_epoch xm = 0.
Proof. unfold zerocopy_tlvs. destruct (zc_data_type tx =? 0); eexists; split; reflexivity. Qed.

(** A data link that was just initialised, with the key and the provider of the sender. *)
Record zerocopy_receiver (old : xgl_datalink_ctx_t) (config : xgl_datalink_config_t) (c : xgl_datalink_ctx_t)
    (junk : Z -> bytes) (iface : xgl_layer_interface_t) (rphy : xgl_phy_ops_t) (key : Z) (ap : xgl_auth_provider_t) : Prop := {
  zr_init : xgl_datalink_init (Ptr old) (Ptr config) = (XGL_OK, Ptr c);
  zr_config : datalink_config_ok config;
  zr_junk : junk_ok junk;
  zr_upper : dc_upper_layer c = Ptr iface;
  zr_receive : li_receive iface <> NULL;
  zr_rx : phy_rx rphy <> NULL;
  zr_key : dc_auth_required c = true -> dc_auth_key_id c = key;
  zr_provider : dc_auth_provider c = Ptr ap;
  zr_key_range : 0 <= key < 4294967296
}.
Section receiver.
Context (i : xgl_instance) (ap : xgl_auth_provider_t) (c : xgl_datalink_ctx_t).
Context (Hap : provider_sound ap) (Hkey : 0 <= cg_auth_key_id (in_config i) < 4294967296)
  (Hreq : dc_auth_required c = true -> dc_auth_key_id c = cg_auth_key_id (in_config i)) (Hprov : dc_auth_provider c = Ptr ap).
Lemma zerocopy_filtered es tx buffer t F M : zerocopy_context i es tx buffer true ap ->
  zerocopy_fits (in_config i) tx true ap = true -> zerocopy_bytes i tx buffer true ap t F -> zlen F <= XGL_DATALINK_MAX_FRAME_SIZE ->
  frame_filter c M F =
    let '(r, M') := memory_check M (zerocopy_source i, 0, 0) 0 in
    (match r with XGL_REPLAY_ACCEPT_NEW => true | _ => false end, M').
Proof.
  intros Hx Hfits (Hp & HF & Ht & Hver) Hmax. destruct (fits_sizes i es tx buffer true ap Hx Hfits) as (Hoff & Hlen & Hsize & _).
  pose proof Hx as [Htx Hsrc Ha _ Hpr _]. pose proof Htx as (_ & _ & Hbs & _ & _ & Htgt & Hdt & Hprio).
  pose proof (tag_bounds _ tx _ _ Ha Hap Hpr) as [Htag _].
  destruct (payload_facts (in_config i) tx buffer true ap Htx ltac:(lia)) as (Hplz & Hplok & _).
  destruct (zerocopy_header_fields (zerocopy_source i) tx (zerocopy_payload tx buffer) true Hsrc Htgt Hdt Hprio ltac:(lia) Hplok)
    as (E1 & E2 & E3 & E4 & E5 & E6).
  destruct (zerocopy_tlvs_ok tx Hdt) as (Hlok & _ & Hsec & _). destruct (zerocopy_walk tx) as (xm & Hw & Hep).
  cbn [sent_tlvs tag_of] in Hp, Ht, Hver. destruct (Hver eq_refl) as (verify & Hv & Hok).
  rewrite (signed_frame_filter c _ _ _ _ _ _ _ _ xm M Hp Hlok Hsec Hw E4 Ht (E6 eq_refl) Hkey); [|split; [by split; [done|apply Hreq]|]|done].
  - rewrite E1, E2, E3, Hep, E5. by destruct (memory_check _ _ _) as [[] M'].
  - intros _. exists ap, verify. split; [done|]. split; [done|]. split; [apply Hap|]. split; [done|exact Hok].
Qed.
(** The first frame of this sender is new, the next one is not. *)
Lemma memory_repeats sc : exists M, memory_check ∅ sc 0 = (XGL_REPLAY_ACCEPT_NEW, M) /\ (memory_check M sc 0).1 = XGL_REPLAY_ACCEPT_DUPLICATE.
Proof.
  exists {[sc := [0]]}. split; [done|]. unfold memory_check. rewrite lookup_singleton_eq. unfold replay_spec_check. cbn [rs_scope rs_seen rs_size].
  rewrite bool_decide_eq_true_2 by done. reflexivity.
Qed.
End receiver.

Lemma driver_accepts phys i es tx a ap phy : zerocopy_driver phys i es tx a ap = Ptr phy -> zerocopy_fits (in_config i) tx a ap = true.
Proof. unfold zerocopy_driver. destruct (zerocopy_fits _ _ _ _); [done|]. by rewrite orb_true_r. Qed.
(** When the driver accepts the bytes. *)
Lemma zerocopy_sent phys i es tx buffer a ap phy w : zerocopy_context i es tx buffer a ap ->
  zerocopy_driver phys i es tx a ap = Ptr phy -> d_tx w = [] ->
  exists t F b w', xgl_send_zerocopy phys true (Ptr i) (Ptr tx) w = Some ((XGL_OK, Ptr (count_zerocopy (zc_data_len tx) i), Ptr b), w') /\
    zerocopy_bytes i tx buffer a ap t F /\ d_trace w' = d_trace w ++ [dl_tx phy F] /\ d_tx w' = [].
Proof.
  intros Hx Hd Htx. destruct (fits_sizes i es tx buffer a ap Hx (driver_accepts _ _ _ _ _ _ _ Hd)) as (_ & _ & Hroom & _ & _ & Htag).
  pose proof (zx_typed _ _ _ _ _ _ Hx) as (_ & _ & Hbs & _ & Hdl & _).
  pose proof (request_run phys true i es tx buffer a ap Hx ltac:(intros _; apply andb_false_r) ltac:(intros _; lia) w) as Hrun.
  apply wp_run in Hrun as ([[err i0] b0] & w' & Hrun & i' & b' & [= -> ->] & Hans). unfold request_answered in Hans. rewrite Hd in Hans. cbn [fst snd] in Hans.
  destruct Hans as (t & F & HF & -> & -> & Herr & Ht & Htr). cbn [fst snd] in *. rewrite Htx in Herr, Ht. cbn in Herr, Ht. subst err.
  exists t, F. eexists _, w'. split; [exact Hrun|]. by split.
Qed.
Lemma counted_context n i es tx buffer a ap : zerocopy_context i es tx buffer a ap -> zerocopy_context (count_zerocopy n i) es tx buffer a ap.
Proof. intros []. by constructor. Qed.

(** ** Properties *)


(** C37. Finding: the authenticated frames of zero-copy sends all have packet
    number 0.  Two requests that an instance that signs accepts, one after the
    other, on a platform where [memcpy] leaves a range copied onto itself alone:
    both sends succeed and the driver gets a frame for each.  A freshly
    initialised data link with the same key, whose cache takes either frame and which is given the two frames in any pieces
    (within its timeout), passes up the first one only: the second one
    has the same packet number in the same session and asks for no ACK, so it is
    taken for a replay. *)
Theorem second_zerocopy_frame_dropped phys i es tx1 buffer1 tx2 buffer2 ap phy1 phy2 w old config c junk iface rphy :
  zerocopy_context i es tx1 buffer1 true ap -> zerocopy_context i es tx2 buffer2 true ap ->
  zerocopy_driver phys i es tx1 true ap = Ptr phy1 -> zerocopy_driver phys i es tx2 true ap = Ptr phy2 -> d_tx w = [] ->
  zerocopy_receiver old config c junk iface rphy (cg_auth_key_id (in_config i)) ap ->
  zerocopy_size tx1 true ap <= Z.min XGL_DATALINK_MAX_FRAME_SIZE (dcf_rx_cache_size config) ->
  zerocopy_size tx2 true ap <= Z.min XGL_DATALINK_MAX_FRAME_SIZE (dcf_rx_cache_size config) ->
  exists F1 F2 i1 i2 b1 b2 w1 w2,
    xgl_send_zerocopy phys true (Ptr i) (Ptr tx1) w = Some ((XGL_OK, Ptr i1, Ptr b1), w1) /\
    xgl_send_zerocopy phys true (Ptr i1) (Ptr tx2) w1 = Some ((XGL_OK, Ptr i2, Ptr b2), w2) /\
    d_trace w2 = d_trace w ++ [dl_tx phy1 F1; dl_tx phy2 F2] /\
    forall timeout polls heap tx, Forall (fun x => bytes_ok x.2 /\ zlen x.2 <= XGL_DATALINK_RX_CHUNK_SIZE) polls ->
      within timeout (map fst polls) -> concat (map snd polls) = F1 ++ F2 ->
      exists wr, datalink_calls (map (poll rphy timeout) polls) (mk_dl_world c heap tx [] junk []) =
          Some (map (fun _ => XGL_OK) polls, wr) /\ up_frames (d_trace wr) = [F1].
Proof.
  intros Hx1 Hx2 Hd1 Hd2 Htx [Hinit Hcfg Hjunk Hup Hrecv Hrx Hkey Hprov Hrange] Hs1 Hs2.
  destruct (zerocopy_sent phys i es tx1 buffer1 true ap phy1 w Hx1 Hd1 Htx) as (t1 & F1 & b1 & w1 & Hrun1 & HF1 & Htr1 & Htx1).
  destruct (zerocopy_sent phys (count_zerocopy (zc_data_len tx1) i) es tx2 buffer2 true ap phy2 w1
    (counted_context _ _ _ _ _ _ _ Hx2) Hd2 Htx1) as (t2 & F2 & b2 & w2 & Hrun2 & HF2 & Htr2 & _).
  exists F1, F2. eexists _, _, b1, b2, w1, w2. split; [exact Hrun1|]. split; [exact Hrun2|]. split; [by rewrite Htr2, Htr1, <- app_assoc|].
  intros timeout polls heap tx Hpolls Htime Hdata. pose proof HF1 as (Hp1 & Hz1 & _). pose proof HF2 as (Hp2 & Hz2 & _).
  destruct (stream_filtered old config c heap tx junk iface rphy timeout polls [([], F1); ([], F2)]) as (wr & Hrun & Hups); try done.
  - constructor; [|constructor; [|done]]; (split; [constructor|apply valid_frame_parts; split; [by eexists _, _, _, _|cbn [snd]; lia]]).
  - cbn [map concat fst snd app]. by rewrite app_nil_r.
  - exists wr. split; [exact Hrun|]. rewrite Hups. cbn [map filter_frames snd].
    destruct (memory_repeats (zerocopy_source i, 0, 0)) as (M & HM1 & HM2).
    rewrite (zerocopy_filtered i ap c (zx_sound _ _ _ _ _ _ Hx1) Hrange Hkey Hprov es tx1 buffer1 t1 F1 ∅ Hx1 (driver_accepts _ _ _ _ _ _ _ Hd1) HF1) by lia.
    rewrite HM1. cbn beta iota.
    rewrite (zerocopy_filtered i ap c (zx_sound _ _ _ _ _ _ Hx1) Hrange Hkey Hprov es tx2 buffer2 t2 F2 M Hx2 (driver_accepts _ _ _ _ _ _ _ Hd2) HF2) by lia.
    destruct (memory_check M (zerocopy_source i, 0, 0) 0) as [r M']. cbn [fst] in HM2. by rewrite HM2.
Qed.

(** Node 1 signs under key 77 and sends three bytes, and then three others, to node 2. *)
Definition sample_zerocopy (bs : bytes) : xgl_tx_data_zerocopy_t :=
  mk_tx_zerocopy (Ptr (replicate 39 0 ++ bs ++ replicate 5 0)) 47 39 3 2 0 false 5 0.
Definition sample_signing : xgl_instance :=
  (new_instance (mk_config (cg_name sample_small) 1 (cg_memory sample_small) (cg_protocol sample_small) (cg_features sample_small) true 77
     (Ptr xor_provider) NULL 0 NULL NULL 0 NULL 0 NULL) NULL) <| in_initialized := true |> <| in_route_table := sample_table |>.
Lemma sample_context : exists es, forall bs, zlen bs = 3 -> bytes_ok bs ->
  zerocopy_context sample_signing es (sample_zerocopy bs) (replicate 39 0 ++ bs ++ replicate 5 0) true xor_provider /\
  zerocopy_driver (fun _ => sample_phy) sample_signing es (sample_zerocopy bs) true xor_provider = Ptr sample_phy.
Proof.
  destruct sample_table_map as (es & Hrep & Hroute). exists es. intros bs Hl Hb. split.
  - constructor; try done; try exact xor_provider_sound; try exact Hrep. split; [done|]. split.
    + rewrite !Forall_app. split; [apply Forall_replicate; lia|]. split; [done|apply Forall_replicate; lia].
    + split; [rewrite !zlen_app, Hl; split; [done|vm_compute; discriminate]|]. by split_and!.
  - unfold zerocopy_driver. change (zc_target_id (sample_zerocopy bs)) with 2. rewrite Hroute. reflexivity.
Qed.
Lemma sample_zerocopy_receiver : exists old,
  zerocopy_receiver old sample_datalink_config sample_datalink sample_junk (mk_layer NULL (Ptr 3) NULL) sample_phy 77 xor_provider.
Proof.
  exists (mk_datalink zero_parser NULL NULL NULL NULL 0 false 0 NULL [] [] NULL). constructor; try done; try exact sample_junk_ok.
  split; [split; [vm_compute; discriminate|apply forallb_bytes_ok; vm_compute; reflexivity]|].
  intros _ q [= <-]. exact xor_provider_sound.
Qed.
(** The length makes the sum of the sizes wrap, so that a buffer of ten bytes seems
    large enough; the payload's address would be far behind its end. *)
Example zerocopy_pointer_beyond_buffer : forall same,
  xgl_send_zerocopy (fun _ => sample_phy) same (Ptr sample_signing)
    (Ptr (mk_tx_zerocopy (Ptr (replicate 10 0)) 10 39 (2 ^ 64 - 41) 2 0 false 5 0)) sample_link = None.
Proof. intros []; vm_compute; reflexivity. Qed.
Lemma second_zerocopy_frame_dropped_witness : exists F1 F2 i1 i2 b1 b2 w1 w2,
  xgl_send_zerocopy (fun _ => sample_phy) true (Ptr sample_signing) (Ptr (sample_zerocopy [1; 2; 3])) sample_link =
    Some ((XGL_OK, Ptr i1, Ptr b1), w1) /\
  xgl_send_zerocopy (fun _ => sample_phy) true (Ptr i1) (Ptr (sample_zerocopy [4; 5; 6])) w1 = Some ((XGL_OK, Ptr i2, Ptr b2), w2) /\
  d_trace w2 = [dl_tx sample_phy F1; dl_tx sample_phy F2] /\
  forall timeout polls heap tx, Forall (fun x => bytes_ok x.2 /\ zlen x.2 <= XGL_DATALINK_RX_CHUNK_SIZE) polls ->
    within timeout (map fst polls) -> concat (map snd polls) = F1 ++ F2 ->
    exists wr, datalink_calls (map (poll sample_phy timeout) polls) (mk_dl_world sample_datalink heap tx [] sample_junk []) =
        Some (map (fun _ => XGL_OK) polls, wr) /\ up_frames (d_trace wr) = [F1].
Proof.
  destruct sample_context as [es Hs]. destruct sample_zerocopy_receiver as [old Hr].
  destruct (Hs [1; 2; 3] eq_refl ltac:(repeat constructor; lia)) as [Hx1 Hd1].
  destruct (Hs [4; 5; 6] eq_refl ltac:(repeat constructor; lia)) as [Hx2 Hd2].
  apply (second_zerocopy_frame_dropped (fun _ => sample_phy) sample_signing es (sample_zerocopy [1; 2; 3]) (replicate 39 0 ++ [1; 2; 3] ++ replicate 5 0)
    (sample_zerocopy [4; 5; 6]) (replicate 39 0 ++ [4; 5; 6] ++ replicate 5 0) xor_provider sample_phy sample_phy sample_link old
    sample_datalink_config sample_datalink sample_junk (mk_layer NULL (Ptr 3) NULL) sample_phy
    Hx1 Hx2 Hd1 Hd2 eq_refl Hr);
    vm_compute; discriminate.
Defined.
