(* ===== verification/Mutex.v ===== *)
(** * Mutexes (include/xgl/internal/xgl_mutex.h, src/platform/xgl_mutex.c,
    xgl_mutex_guard.c)

    The POSIX branch over an abstract pthread implementation ([Pthread]), whose
    documented behaviour is stated in [PthreadLaws], and the lock guard.  [None] as the answer of a lock says that the caller waits. *)
From S2P Require Import Prelude Errors.

(** ** The operating system's mutexes *)

(** A thread is known by a number; the functions take the calling thread. *)
Abbreviation tid := nat.
Definition PTHREAD_MUTEX_RECURSIVE : Z := 1.

Class Pthread (os : Type) : Type := {
  pthread_mutex_init : Z -> os -> Z * os;
  pthread_mutex_lock : tid -> os -> option (Z * os);
  pthread_mutex_trylock : tid -> os -> Z * os;
  pthread_mutex_unlock : tid -> os -> Z * os;
  pthread_mutex_destroy : os -> os
}.

(** What POSIX documents of a recursive mutex: who holds it and how many times;
    a free one is given to whoever asks, a held one makes other threads wait, the
    last unlock of the holder frees it. *)
Class PthreadLaws (os : Type) `{Pthread os} : Type := {
  holder : os -> option (tid * nat);
  init_free m m' : pthread_mutex_init PTHREAD_MUTEX_RECURSIVE m = (0, m') -> holder m' = None;
  lock_free t m : holder m = None ->
    exists m', pthread_mutex_lock t m = Some (0, m') /\ holder m' = Some (t, 1%nat);
  lock_held t u n m : holder m = Some (u, n) -> u <> t -> pthread_mutex_lock t m = None;
  lock_again t n m r m' : holder m = Some (t, S n) -> pthread_mutex_lock t m = Some (r, m') ->
    (r = 0 /\ holder m' = Some (t, S (S n))) \/ (r <> 0 /\ holder m' = Some (t, S n));
  trylock_free t m : holder m = None ->
    exists m', pthread_mutex_trylock t m = (0, m') /\ holder m' = Some (t, 1%nat);
  trylock_held t u n m r m' : holder m = Some (u, n) -> u <> t ->
    pthread_mutex_trylock t m = (r, m') -> r <> 0 /\ holder m' = Some (u, n);
  unlock_last t m : holder m = Some (t, 1%nat) ->
    exists m', pthread_mutex_unlock t m = (0, m') /\ holder m' = None;
  unlock_inner t n m : holder m = Some (t, S (S n)) ->
    exists m', pthread_mutex_unlock t m = (0, m') /\ holder m' = Some (t, S n)
}.

(** The mutex that does just that. *)
#[export] Instance model_pthread : Pthread (option (tid * nat)) := {
  pthread_mutex_init _ _ := (0, None);
  pthread_mutex_lock t m :=
    match m with
    | None => Some (0, Some (t, 1%nat))
    | Some (u, n) => if decide (u = t) then Some (0, Some (t, S n)) else None
    end;
  pthread_mutex_trylock t m :=
    match m with
    | None => (0, Some (t, 1%nat))
    | Some (u, n) => if decide (u = t) then (0, Some (t, S n)) else (16, Some (u, n))
    end;
  pthread_mutex_unlock t m :=
    match m with
    | None => (1, None)
    | Some (u, n) =>
        if decide (u = t) then (0, match n with S (S n) => Some (t, S n) | _ => None end) else (1, m)
    end;
  pthread_mutex_destroy _ := None
}.
#[export] Instance model_pthread_laws : PthreadLaws (option (tid * nat)).
Proof.
  refine {| holder m := m |}; cbn.
  - by intros m m' [= <-].
  - intros t m ->. by eexists.
  - intros t u n m -> Hne. by rewrite decide_False.
  - intros t n m r m' ->. rewrite decide_True by done. intros [= <- <-]. by left.
  - intros t m ->. by eexists.
  - intros t u n m r m' -> Hne. rewrite decide_False by done. by intros [= <- <-].
  - intros t m ->. rewrite decide_True by done. by eexists.
  - intros t n m ->. rewrite decide_True by done. by eexists.
Defined.

(** ** The mutex of the library *)

(** src/include/xgl/internal/xgl_mutex.h:55-58: xgl_mutex_t *)
Record xgl_mutex_t (os : Type) : Type := mk_mutex {
  mx_mutex : os;
  mx_initialized : bool
}.
Arguments mk_mutex {os}.
Arguments mx_mutex {os}.
Arguments mx_initialized {os}.

Section posix.
Context {os : Type} `{Pthread os}.
Implicit Types (mutex : ptr (xgl_mutex_t os)) (t : tid).

(** src/src/platform/xgl_mutex.c:18-37: xgl_mutex_init *)
Definition xgl_mutex_init mutex : xgl_error_t * ptr (xgl_mutex_t os) :=
  match mutex with
  | NULL => (XGL_ERR_NULL_POINTER, NULL)
  | Ptr mutex =>
      let '(result, m) := pthread_mutex_init PTHREAD_MUTEX_RECURSIVE (mx_mutex mutex) in
      if negb (result =? 0) then (XGL_ERR_NO_MEMORY, Ptr (mk_mutex m (mx_initialized mutex)))
      else (XGL_OK, Ptr (mk_mutex m true))
  end.

(** src/src/platform/xgl_mutex.c:42-57: xgl_mutex_lock *)
Definition xgl_mutex_lock t mutex : option (xgl_error_t * ptr (xgl_mutex_t os)) :=
  match mutex with
  | NULL => Some (XGL_ERR_NULL_POINTER, NULL)
  | Ptr mutex =>
      if negb (mx_initialized mutex) then Some (XGL_ERR_NOT_INITIALIZED, Ptr mutex)
      else match pthread_mutex_lock t (mx_mutex mutex) with
           | None => None
           | Some (result, m) =>
               Some (if negb (result =? 0) then XGL_ERR_BUSY else XGL_OK,
                     Ptr (mk_mutex m (mx_initialized mutex)))
           end
  end.

(** src/src/platform/xgl_mutex.c:62-77: xgl_mutex_trylock *)
Definition xgl_mutex_trylock t mutex : xgl_error_t * ptr (xgl_mutex_t os) :=
  match mutex with
  | NULL => (XGL_ERR_NULL_POINTER, NULL)
  | Ptr mutex =>
      if negb (mx_initialized mutex) then (XGL_ERR_NOT_INITIALIZED, Ptr mutex)
      else let '(result, m) := pthread_mutex_trylock t (mx_mutex mutex) in
           (if result =? 0 then XGL_OK else XGL_ERR_BUSY, Ptr (mk_mutex m (mx_initialized mutex)))
  end.

(** src/src/platform/xgl_mutex.c:82-97: xgl_mutex_unlock *)
Definition xgl_mutex_unlock t mutex : xgl_error_t * ptr (xgl_mutex_t os) :=
  match mutex with
  | NULL => (XGL_ERR_NULL_POINTER, NULL)
  | Ptr mutex =>
      if negb (mx_initialized mutex) then (XGL_ERR_NOT_INITIALIZED, Ptr mutex)
      else let '(result, m) := pthread_mutex_unlock t (mx_mutex mutex) in
           (if negb (result =? 0) then XGL_ERR_BUSY else XGL_OK, Ptr (mk_mutex m (mx_initialized mutex)))
  end.

(** src/src/platform/xgl_mutex.c:102-109: xgl_mutex_destroy *)
Definition xgl_mutex_destroy mutex : ptr (xgl_mutex_t os) :=
  match mutex with
  | NULL => NULL
  | Ptr m =>
      if negb (mx_initialized m) then mutex
      else Ptr (mk_mutex (pthread_mutex_destroy (mx_mutex m)) false)
  end.

(** ** The lock guard *)

(** src/include/xgl/internal/xgl_mutex.h:135-138: xgl_mutex_guard_t *)
Record xgl_mutex_guard_t : Type := mk_guard {
  gd_mutex : ptr (xgl_mutex_t os);
  gd_locked : bool
}.

(** The guard carries the mutex it points to. *)
(** src/src/platform/xgl_mutex_guard.c:17-29: xgl_mutex_guard_lock *)
Definition xgl_mutex_guard_lock t mutex : option xgl_mutex_guard_t :=
  match mutex with
  | NULL => Some (mk_guard NULL false)
  | Ptr _ =>
      match xgl_mutex_lock t mutex with
      | None => None
      | Some (XGL_OK, mutex) => Some (mk_guard mutex true)
      | Some (_, mutex) => Some (mk_guard mutex false)
      end
  end.

(** src/src/platform/xgl_mutex_guard.c:34-39: xgl_mutex_guard_unlock *)
Definition xgl_mutex_guard_unlock t (guard : ptr xgl_mutex_guard_t) : ptr xgl_mutex_guard_t :=
  match guard with
  | NULL => NULL
  | Ptr guard =>
      if gd_locked guard && negb (bool_decide (gd_mutex guard = NULL))
      then Ptr (mk_guard (xgl_mutex_unlock t (gd_mutex guard)).2 false)
      else Ptr guard
  end.
End posix.

(** ** What the library's mutex does under the laws of the system's *)

Section laws.
Context {os : Type} `{PthreadLaws os}.
Implicit Types (t u : tid).

(** A mutex that is initialised and whose holder is [h]. *)
Definition mutex_held (mutex : xgl_mutex_t os) (h : option tid) : Prop :=
  mx_initialized mutex = true /\ holder (mx_mutex mutex) = (fun t => (t, 1%nat)) <$> h.

Lemma mutex_init_held mutex m : xgl_mutex_init (Ptr mutex) = (XGL_OK, Ptr m) -> mutex_held m None.
Proof.
  unfold xgl_mutex_init. destruct (pthread_mutex_init _ _) as [r m'] eqn:E.
  destruct (r =? 0) eqn:Hr; [|done]. intros [= <-]. split; [done|]. cbn.
  eapply (init_free (mx_mutex mutex)). rewrite E. f_equal. lia.
Qed.
Lemma mutex_lock_free t mutex : mutex_held mutex None ->
  exists m, xgl_mutex_lock t (Ptr mutex) = Some (XGL_OK, Ptr m) /\ mutex_held m (Some t).
Proof.
  intros [Hi Hh]. unfold xgl_mutex_lock. rewrite Hi. cbn [negb].
  destruct (lock_free t _ Hh) as (m' & -> & Hm). eexists. split; [reflexivity|]. by split.
Qed.
Lemma mutex_lock_held t u mutex : mutex_held mutex (Some u) -> u <> t -> xgl_mutex_lock t (Ptr mutex) = None.
Proof.
  intros [Hi Hh] Hne. unfold xgl_mutex_lock. rewrite Hi. cbn [negb]. by rewrite (lock_held t u 1 _ Hh Hne).
Qed.
Lemma mutex_unlock_held t mutex : mutex_held mutex (Some t) ->
  exists m, xgl_mutex_unlock t (Ptr mutex) = (XGL_OK, Ptr m) /\ mutex_held m None.
Proof.
  intros [Hi Hh]. unfold xgl_mutex_unlock. rewrite Hi. cbn [negb].
  destruct (unlock_last t _ Hh) as (m' & -> & Hm). eexists. split; [reflexivity|]. by split.
Qed.
Lemma mutex_trylock_held t u mutex : mutex_held mutex (Some u) -> u <> t ->
  exists m, xgl_mutex_trylock t (Ptr mutex) = (XGL_ERR_BUSY, Ptr m) /\ mutex_held m (Some u).
Proof.
  intros [Hi Hh] Hne. unfold xgl_mutex_trylock. rewrite Hi. cbn [negb].
  destruct (pthread_mutex_trylock t _) as [r m'] eqn:E.
  destruct (trylock_held t u 1 _ _ _ Hh Hne E) as [Hr Hm]. replace (r =? 0) with false by lia.
  eexists. split; [reflexivity|]. by split.
Qed.

(** A guard that is taken and released leaves the mutex as it was; released twice, the
    second time does nothing. *)
Lemma guard_balanced t mutex : mutex_held mutex None ->
  exists m g m', xgl_mutex_guard_lock t (Ptr mutex) = Some g /\ gd_locked g = true /\
    gd_mutex g = Ptr m /\ mutex_held m (Some t) /\
    xgl_mutex_guard_unlock t (Ptr g) = Ptr (mk_guard (Ptr m') false) /\ mutex_held m' None /\
    xgl_mutex_guard_unlock t (Ptr (mk_guard (Ptr m') false)) = Ptr (mk_guard (Ptr m') false).
Proof.
  intros Hm. destruct (mutex_lock_free t mutex Hm) as (m1 & Hl & H1).
  destruct (mutex_unlock_held t m1 H1) as (m2 & Hu & H2).
  exists m1, (mk_guard (Ptr m1) true), m2. unfold xgl_mutex_guard_lock. rewrite Hl.
  split_and!; try done. unfold xgl_mutex_guard_unlock. cbn [gd_locked gd_mutex andb].
  by rewrite bool_decide_eq_false_2, Hu by done.
Qed.
End laws.
