(* ===== verification/Threads.v ===== *)
(** * Threads around one mutex

    The functions that lock a mutex, work on a shared object, and unlock
    (src/memory/xgl_mempool_ts.c, src/core/xgl_list_ts.c) run in several threads
    at once.  A function is here the sequence of its atomic accesses to the
    shared object ([code]); a machine interleaves the threads access by access
    ([thread_step]); the trace records calls, returns and the moments at which the
    work of a call is complete.  The locked functions are linearizable: every
    interleaving is a sequential execution of the calls in the order of these
    moments. *)
From S2P Require Import Prelude Errors Mutex.

(** ** Code *)

(** The work on the shared object: atomic accesses (which may be undefined), then
    the result. *)
Inductive body (S R : Type) : Type :=
| Done (r : R)
| Access {A : Type} (f : S -> M (A * S)) (k : A -> body S R).
Arguments Done {S R}.
Arguments Access {S R A}.

Inductive code (S R : Type) : Type :=
| Return (r : R)
| Lock (k : xgl_error_t -> code S R)
| Work (b : body S R) (k : R -> code S R)
| Unlock (k : code S R).
Arguments Return {S R}.
Arguments Lock {S R}.
Arguments Work {S R}.
Arguments Unlock {S R}.

(** [xgl_mutex_lock(&x->mutex); r = ...; xgl_mutex_unlock(&x->mutex); return r;]
    The results of the lock and of the unlock are ignored. *)
Definition finish {S R} (r : R) : code S R := Unlock (Return r).
Definition guarded {S R} (b : body S R) : code S R := Lock (fun _ => Work b finish).

(** The work done without interruption. *)
Fixpoint run_body {S R} (b : body S R) (s : S) : M (R * S) :=
  match b with
  | Done r => ret (r, s)
  | Access f k => '(a, s) ← f s; run_body (k a) s
  end.

(** ** The machine *)

Section Threads.
Context {S R call : Type}.
Variable wrapper : call -> code S R.
Context {os : Type} `{PthreadLaws os}.

Record thread : Type := mk_thread {
  th_current : option (call * code S R);
  th_todo : list call
}.
Record config : Type := mk_config {
  cf_shared : S;
  cf_mutex : xgl_mutex_t os;
  cf_threads : list thread
}.

Inductive event : Type :=
| ev_call (t : tid) (c : call)
| ev_commit (t : tid) (c : call) (r : R)
| ev_return (t : tid) (c : call) (r : R).

Definition set_thread (cfg : config) (t : tid) (current : option (call * code S R)) (todo : list call) : config :=
  mk_config (cf_shared cfg) (cf_mutex cfg) (<[t := mk_thread current todo]> (cf_threads cfg)).

(** One step of thread [t]: calling the next function, taking the lock (or going
    on without it when locking fails), one access, having completed the work, unlocking,
    returning.  [None]:
    the thread cannot go on - it has finished, waits for the lock, or the
    access is undefined. *)
Definition thread_step (t : tid) (cfg : config) : option (list event * config) :=
  match cf_threads cfg !! t with
  | None => None
  | Some (mk_thread None []) => None
  | Some (mk_thread None (c :: todo)) => Some ([ev_call t c], set_thread cfg t (Some (c, wrapper c)) todo)
  | Some (mk_thread (Some (c, Lock k)) todo) =>
      match xgl_mutex_lock t (Ptr (cf_mutex cfg)) with
      | Some (err, Ptr m) =>
          Some ([], set_thread (mk_config (cf_shared cfg) m (cf_threads cfg)) t (Some (c, k err)) todo)
      | _ => None
      end
  | Some (mk_thread (Some (c, Work (Access f k) k')) todo) =>
      match f (cf_shared cfg) with
      | Some (a, s) =>
          Some ([], set_thread (mk_config s (cf_mutex cfg) (cf_threads cfg)) t (Some (c, Work (k a) k')) todo)
      | None => None
      end
  | Some (mk_thread (Some (c, Work (Done r) k)) todo) =>
      Some ([ev_commit t c r], set_thread cfg t (Some (c, k r)) todo)
  | Some (mk_thread (Some (c, Unlock k)) todo) =>
      match xgl_mutex_unlock t (Ptr (cf_mutex cfg)) with
      | (_, Ptr m) =>
          Some ([], set_thread (mk_config (cf_shared cfg) m (cf_threads cfg)) t (Some (c, k)) todo)
      | _ => None
      end
  | Some (mk_thread (Some (c, Return r)) todo) => Some ([ev_return t c r], set_thread cfg t None todo)
  end.

(** Any thread may take the next step. *)
Inductive reachable (cfg0 : config) : list event -> config -> Prop :=
| reach_start : reachable cfg0 [] cfg0
| reach_step trace cfg t evs cfg' :
    reachable cfg0 trace cfg -> thread_step t cfg = Some (evs, cfg') -> reachable cfg0 (trace ++ evs) cfg'.

(** The scheduler of a test run: which threads take the next steps. *)
Fixpoint schedule (ts : list tid) (cfg : config) : list event * config :=
  match ts with
  | [] => ([], cfg)
  | t :: ts =>
      match thread_step t cfg with
      | None => schedule ts cfg
      | Some (evs, cfg) => let '(trace, cfg) := schedule ts cfg in (evs ++ trace, cfg)
      end
  end.

Definition start (s : S) (m : xgl_mutex_t os) (programs : list (list call)) : config :=
  mk_config s m (mk_thread None <$> programs).

(** ** Sequential executions *)

(** What the function of a call does when nothing interferes. *)
Variable effect : call -> S -> M (R * S).

Inductive sequential (s0 : S) : list (call * R) -> S -> Prop :=
| seq_nil : sequential s0 [] s0
| seq_snoc l s c r s' : sequential s0 l s -> effect c s = Some (r, s') -> sequential s0 (l ++ [(c, r)]) s'.

Definition commits (trace : list event) : list (call * R) :=
  omap (fun e => match e with ev_commit _ c r => Some (c, r) | _ => None end) trace.
Definition event_thread (e : event) : tid :=
  match e with ev_call t _ | ev_commit t _ _ | ev_return t _ _ => t end.
Definition events_of (t : tid) (trace : list event) : list event :=
  filter (fun e => event_thread e = t) trace.

(** The events of one complete call: it takes effect once, between its call and its return,
    and returns what it had as effect; or it has no effect at all. *)
Inductive call_events (t : tid) (c : call) (r : R) : list event -> Prop :=
| events_effect b : wrapper c = guarded b -> call_events t c r [ev_call t c; ev_commit t c r; ev_return t c r]
| events_none : wrapper c = Return r -> call_events t c r [ev_call t c; ev_return t c r].

(** The events of a thread that has completed the calls [cs]. *)
Inductive thread_events (t : tid) : list call -> list event -> Prop :=
| te_nil : thread_events t [] []
| te_call cs c r evs l : thread_events t cs evs -> call_events t c r l -> thread_events t (cs ++ [c]) (evs ++ l).

(** A thread that still has [todo] to do, and has called [current] meanwhile. *)
Inductive thread_progress (t : tid) : thread -> list call -> list event -> Prop :=
| tp_idle cs todo evs : thread_events t cs evs -> thread_progress t (mk_thread None todo) (cs ++ todo) evs
| tp_called cs c todo evs : thread_events t cs evs ->
    thread_progress t (mk_thread (Some (c, wrapper c)) todo) (cs ++ c :: todo) (evs ++ [ev_call t c])
| tp_working cs c b b0 todo evs : thread_events t cs evs -> wrapper c = guarded b0 ->
    thread_progress t (mk_thread (Some (c, Work b finish)) todo) (cs ++ c :: todo) (evs ++ [ev_call t c])
| tp_finishing cs c r b0 todo evs : thread_events t cs evs -> wrapper c = guarded b0 ->
    thread_progress t (mk_thread (Some (c, finish r)) todo) (cs ++ c :: todo)
      (evs ++ [ev_call t c; ev_commit t c r])
| tp_committed cs c r b0 todo evs : thread_events t cs evs -> wrapper c = guarded b0 ->
    thread_progress t (mk_thread (Some (c, Return r)) todo) (cs ++ c :: todo)
      (evs ++ [ev_call t c; ev_commit t c r]).

(** Between lock and unlock. *)
Definition inside (th : thread) : Prop :=
  match th_current th with Some (_, Work _ _) | Some (_, Unlock _) => True | _ => False end.
#[local] Instance inside_dec th : Decision (inside th).
Proof. unfold inside. destruct (th_current th) as [[c []]|]; apply _. Defined.

(** ** Linearizability *)

(** Every function returns at once, or does its work between lock and unlock. *)
Hypothesis wrapper_ok : forall c, (exists r, wrapper c = Return r) \/
  exists b, wrapper c = guarded b /\ forall s, run_body b s = effect c s.

(** The shared object is [s] when the lock is free; otherwise the holder is on
    its way from [s] to the effect of its call, or has only the unlock left. *)
Definition consistent (h : option tid) (s : S) (cfg : config) : Prop :=
  match h with
  | None => cf_shared cfg = s
  | Some t => exists c k todo, cf_threads cfg !! t = Some (mk_thread (Some (c, k)) todo) /\
      match k with
      | Work b _ => run_body b (cf_shared cfg) = effect c s
      | Unlock _ => cf_shared cfg = s
      | _ => False
      end
  end /\
  forall u th, cf_threads cfg !! u = Some th -> inside th -> h = Some u.

Record linear (s0 : S) (programs : list (list call)) (trace : list event) (cfg : config) : Prop := mk_linear {
  ln_mutex : exists h s, mutex_held (cf_mutex cfg) h /\ sequential s0 (commits trace) s /\ consistent h s cfg;
  ln_threads : forall t th, cf_threads cfg !! t = Some th ->
    exists program, programs !! t = Some program /\ thread_progress t th program (events_of t trace)
}.

Lemma commits_app tr tr' : commits (tr ++ tr') = commits tr ++ commits tr'.
Proof. apply omap_app. Qed.
Lemma events_app t tr tr' : events_of t (tr ++ tr') = events_of t tr ++ events_of t tr'.
Proof. apply filter_app. Qed.
Lemma events_mine t evs : Forall (fun e => event_thread e = t) evs -> events_of t evs = evs.
Proof. unfold events_of. induction 1 as [|e evs He _ IH]; [done|]. by rewrite filter_cons_True, IH. Qed.
Lemma events_other t u evs : Forall (fun e => event_thread e = t) evs -> t <> u -> events_of u evs = [].
Proof.
  intros Hall Hne. unfold events_of. induction Hall as [|e evs He _ IH]; [done|].
  rewrite filter_cons_False by congruence. done.
Qed.

(** The threads that do not move keep what they have. *)
Lemma progress_update s0 programs trace cfg t th th' evs ths' :
  linear s0 programs trace cfg -> cf_threads cfg !! t = Some th -> ths' = <[t := th']> (cf_threads cfg) ->
  Forall (fun e => event_thread e = t) evs ->
  (forall program l, thread_progress t th program l -> thread_progress t th' program (l ++ evs)) ->
  forall u thu, ths' !! u = Some thu ->
    exists program, programs !! u = Some program /\ thread_progress u thu program (events_of u (trace ++ evs)).
Proof.
  intros Hlin Ht -> Hevs Hmove u thu Hu. rewrite events_app.
  destruct (decide (u = t)) as [->|Hne].
  - rewrite list_lookup_insert_eq in Hu by (by eapply lookup_lt_Some). injection Hu as <-.
    destruct (ln_threads _ _ _ _ Hlin t th Ht) as (program & Hp & Hl). exists program. split; [done|].
    rewrite (events_mine t evs) by done. by apply Hmove.
  - rewrite list_lookup_insert_ne in Hu by done. rewrite (events_other t u evs), app_nil_r by done.
    by apply (ln_threads _ _ _ _ Hlin).
Qed.

(** What a step does to the work on the shared object: a thread that is not inside neither
    before nor after does nothing; one enters, works, or leaves. *)
Lemma consistent_outside h s cfg t th current todo :
  consistent h s cfg -> cf_threads cfg !! t = Some th -> ~ inside th -> ~ inside (mk_thread current todo) ->
  consistent h s (set_thread cfg t current todo).
Proof.
  intros [Hs Hin] Ht Hth Hnew. pose proof (lookup_lt_Some _ _ _ Ht). split.
  - destruct h as [u|]; [|done]. destruct Hs as (c & b & todo' & Hu & Hrun). exists c, b, todo'. split; [|done].
    cbn. rewrite list_lookup_insert_ne; [done|]. intros ->. rewrite Ht in Hu. injection Hu as ->. apply Hth. by destruct b.
  - intros u thu Hu Hinu. cbn in Hu. destruct (decide (t = u)) as [<-|Hne].
    + rewrite list_lookup_insert_eq in Hu by done. injection Hu as <-. done.
    + rewrite list_lookup_insert_ne in Hu by done. by apply (Hin u thu).
Qed.
Lemma consistent_enter s cfg t th c b k todo m :
  consistent None s cfg -> cf_threads cfg !! t = Some th -> run_body b s = effect c s ->
  consistent (Some t) s (set_thread (mk_config (cf_shared cfg) m (cf_threads cfg)) t (Some (c, Work b k)) todo).
Proof.
  intros [Hs Hin] Ht Hrun. pose proof (lookup_lt_Some _ _ _ Ht). split.
  - exists c, (Work b k), todo. cbn. rewrite list_lookup_insert_eq by done. split; [done|]. by rewrite Hs.
  - intros u thu Hu Hinu. cbn in Hu. destruct (decide (t = u)) as [<-|Hne]; [done|].
    rewrite list_lookup_insert_ne in Hu by done. discriminate (Hin u thu Hu Hinu).
Qed.
Lemma consistent_work h s cfg t c (b b' : body S R) k todo s' :
  consistent h s cfg -> cf_threads cfg !! t = Some (mk_thread (Some (c, Work b k)) todo) ->
  run_body b' s' = run_body b (cf_shared cfg) ->
  consistent h s (set_thread (mk_config s' (cf_mutex cfg) (cf_threads cfg)) t (Some (c, Work b' k)) todo).
Proof.
  intros [Hs Hin] Ht Hrun. pose proof (lookup_lt_Some _ _ _ Ht) as Hlt.
  assert (h = Some t) as -> by (by apply (Hin t _ Ht)). split.
  - destruct Hs as (c' & b1 & todo' & Hu & Hb1). rewrite Ht in Hu. injection Hu as <- <- <-.
    exists c, (Work b' k), todo. cbn. rewrite list_lookup_insert_eq by done. split; [done|]. by rewrite Hrun.
  - intros u thu Hu Hinu. cbn in Hu. destruct (decide (t = u)) as [<-|Hne]; [done|].
    rewrite list_lookup_insert_ne in Hu by done. by apply (Hin u thu).
Qed.
Lemma consistent_commit h s cfg t c r k k' todo :
  consistent h s cfg -> cf_threads cfg !! t = Some (mk_thread (Some (c, Work (Done r) k)) todo) -> k r = Unlock k' ->
  effect c s = Some (r, cf_shared cfg) /\
  consistent h (cf_shared cfg) (set_thread cfg t (Some (c, k r)) todo).
Proof.
  intros [Hs Hin] Ht Hk. pose proof (lookup_lt_Some _ _ _ Ht) as Hlt.
  assert (h = Some t) as -> by (by apply (Hin t _ Ht)).
  destruct Hs as (c' & k1 & todo' & Hu & Hb1). rewrite Ht in Hu. injection Hu as <- <- <-.
  split; [by rewrite <- Hb1|]. split.
  - exists c, (k r), todo. cbn. rewrite list_lookup_insert_eq by done. by rewrite Hk.
  - intros u thu Hu Hinu. cbn in Hu. destruct (decide (t = u)) as [<-|Hne]; [done|].
    rewrite list_lookup_insert_ne in Hu by done. by apply (Hin u thu).
Qed.
Lemma consistent_leave h s cfg t c todo k m :
  consistent h s cfg -> cf_threads cfg !! t = Some (mk_thread (Some (c, Unlock k)) todo) ->
  ~ inside (mk_thread (Some (c, k)) todo) ->
  consistent None s (set_thread (mk_config (cf_shared cfg) m (cf_threads cfg)) t (Some (c, k)) todo).
Proof.
  intros [Hs Hin] Ht Hk. pose proof (lookup_lt_Some _ _ _ Ht) as Hlt.
  assert (h = Some t) as -> by (by apply (Hin t _ Ht)).
  destruct Hs as (c' & k1 & todo' & Hu & Hb1). rewrite Ht in Hu. injection Hu as <- <- <-.
  split; [done|].
  intros u thu Hu Hinu. cbn in Hu. destruct (decide (t = u)) as [<-|Hne].
  - rewrite list_lookup_insert_eq in Hu by done. by injection Hu as <-.
  - rewrite list_lookup_insert_ne in Hu by done. specialize (Hin u thu Hu Hinu). congruence.
Qed.

(** The code of a call that has begun. *)
Lemma progress_lock t c k todo program l :
  thread_progress t (mk_thread (Some (c, Lock k)) todo) program l ->
  exists b, Lock k = guarded b /\ (forall s, run_body b s = effect c s) /\
    forall err, thread_progress t (mk_thread (Some (c, k err)) todo) program l.
Proof.
  remember (mk_thread _ _) as th. destruct 1; try congruence; simplify_eq.
  destruct (wrapper_ok c) as [[r Hr]|(b & Hb & Hrun)]; [congruence|].
  rewrite Hb in *. unfold guarded in *. simplify_eq. exists b. split_and!; [done|done|]. intros err.
  by eapply tp_working.
Qed.
Lemma progress_work t c b b' k todo program l :
  thread_progress t (mk_thread (Some (c, Work b k)) todo) program l ->
  k = finish /\ thread_progress t (mk_thread (Some (c, Work b' k)) todo) program l.
Proof.
  remember (mk_thread _ _) as th. destruct 1; try (unfold finish in *; congruence); simplify_eq.
  - destruct (wrapper_ok c) as [[r Hr]|(b0 & Hb & _)]; unfold guarded in *; congruence.
  - split; [done|]. by eapply tp_working.
Qed.
Lemma progress_commit t c r b k todo program l :
  thread_progress t (mk_thread (Some (c, Work b k)) todo) program l ->
  thread_progress t (mk_thread (Some (c, k r)) todo) program (l ++ [ev_commit t c r]).
Proof.
  remember (mk_thread _ _) as th. destruct 1; try (unfold finish in *; congruence); simplify_eq.
  - destruct (wrapper_ok c) as [[r' Hr]|(b0 & Hb & _)]; unfold guarded in *; congruence.
  - rewrite <- app_assoc. by eapply tp_finishing.
Qed.
Lemma progress_unlock t c k todo program l :
  thread_progress t (mk_thread (Some (c, Unlock k)) todo) program l ->
  (exists r, k = Return r) /\ thread_progress t (mk_thread (Some (c, k)) todo) program l.
Proof.
  remember (mk_thread _ _) as th. destruct 1; try (unfold finish in *; congruence); simplify_eq.
  - destruct (wrapper_ok c) as [[r' Hr]|(b0 & Hb & _)]; unfold guarded in *; congruence.
  - unfold finish in *. simplify_eq. split; [by eexists|]. by eapply tp_committed.
Qed.
Lemma progress_return t c r todo program l :
  thread_progress t (mk_thread (Some (c, Return r)) todo) program l ->
  thread_progress t (mk_thread None todo) program (l ++ [ev_return t c r]).
Proof.
  remember (mk_thread _ _) as th. destruct 1; try congruence; simplify_eq;
    rewrite <- app_assoc, (cons_middle c), app_assoc; apply tp_idle; eapply te_call; try done.
  - by apply events_none.
  - by eapply events_effect.
Qed.

Lemma step_linear s0 programs trace cfg t evs cfg' :
  linear s0 programs trace cfg -> thread_step t cfg = Some (evs, cfg') ->
  linear s0 programs (trace ++ evs) cfg'.
Proof.
  intros Hlin. pose proof Hlin as [(h & s & Hm & Hseq & Hc) _]. unfold thread_step.
  destruct (cf_threads cfg !! t) as [th|] eqn:Ht; [|done]. pose proof (progress_update s0 programs trace cfg t) as Hup.
  destruct th as [[[c [r|k|[r|A f k] k'|k]]|] todo].
  - intros [= <- <-]. split.
    + exists h, s. rewrite commits_app, app_nil_r. split_and!; [done..|].
      eapply consistent_outside; [done|exact Ht|by intros []..].
    + eapply Hup; [exact Hlin|exact Ht|done|by repeat constructor|]. intros program l. apply progress_return.
  - destruct (xgl_mutex_lock t (Ptr (cf_mutex cfg))) as [[err [m|]]|] eqn:Hl; try done. intros [= <- <-].
    destruct (ln_threads _ _ _ _ Hlin t _ Ht) as (program & _ & Hp).
    destruct (progress_lock _ _ _ _ _ _ Hp) as (b & Hk & Hrun & _). unfold guarded in Hk. injection Hk as Hk.
    assert (h = None) as ->.
    { destruct h as [u|]; [|done]. destruct (decide (u = t)) as [->|Hne].
      - destruct Hc as [(c' & k' & todo' & Hu & Hk') _]. rewrite Ht in Hu. by injection Hu as <- <- <-.
      - by rewrite (mutex_lock_held t u _ Hm Hne) in Hl. }
    destruct (mutex_lock_free t _ Hm) as (m' & Hl' & Hm'). rewrite Hl' in Hl. injection Hl as <- <-. split.
    + exists (Some t), s. rewrite app_nil_r, Hk. split_and!; [done..|]. by eapply consistent_enter.
    + eapply Hup; [exact Hlin|exact Ht|done|done|]. intros program' l Hp'. rewrite app_nil_r.
      destruct (progress_lock _ _ _ _ _ _ Hp') as (_ & _ & _ & Hnext). apply Hnext.
  - intros [= <- <-]. destruct (ln_threads _ _ _ _ Hlin t _ Ht) as (program & _ & Hp).
    destruct (progress_work _ _ _ (Done r) _ _ _ _ Hp) as [-> _].
    destruct (consistent_commit _ _ _ _ _ _ _ _ _ Hc Ht eq_refl) as [Heff Hc']. split.
    + exists h, (cf_shared cfg). rewrite commits_app. split_and!; [done| |done]. by econstructor.
    + eapply Hup; [exact Hlin|exact Ht|done|by repeat constructor|]. intros program' l. apply progress_commit.
  - destruct (f (cf_shared cfg)) as [[a s']|] eqn:Hf; [|done]. intros [= <- <-]. split.
    + exists h, s. rewrite app_nil_r. split_and!; [done..|]. eapply consistent_work; [done|exact Ht|].
      cbn [run_body]. by rewrite Hf.
    + eapply Hup; [exact Hlin|exact Ht|done|done|]. intros program l Hp. rewrite app_nil_r.
      by eapply progress_work.
  - destruct (xgl_mutex_unlock t (Ptr (cf_mutex cfg))) as [err [m|]] eqn:Hl; [|done]. intros [= <- <-].
    assert (h = Some t) as -> by (by apply (proj2 Hc t _ Ht)).
    destruct (mutex_unlock_held t _ Hm) as (m' & Hl' & Hm'). rewrite Hl' in Hl. injection Hl as <- <-.
    destruct (ln_threads _ _ _ _ Hlin t _ Ht) as (program & _ & Hp). destruct (progress_unlock _ _ _ _ _ _ Hp) as [[r ->] _].
    split.
    + exists None, s. rewrite app_nil_r. split_and!; [done..|]. by eapply consistent_leave; [exact Hc|exact Ht|intros []].
    + eapply Hup; [exact Hlin|exact Ht|done|done|]. intros program' l Hp'. rewrite app_nil_r. by apply progress_unlock.
  - destruct todo as [|c todo]; [done|]. intros [= <- <-].
    assert (~ inside (mk_thread (Some (c, wrapper c)) todo)) as Hout.
    { unfold inside. cbn. destruct (wrapper_ok c) as [[r ->]|(b & -> & _)]; by intros []. }
    split.
    + exists h, s. rewrite commits_app, app_nil_r. split_and!; [done..|].
      eapply consistent_outside; [done|exact Ht|by intros []|done].
    + eapply Hup; [exact Hlin|exact Ht|done|by repeat constructor|]. intros program l.
      remember (mk_thread _ _) as th. destruct 1; try congruence; simplify_eq. by apply tp_called.
Qed.

Lemma start_linear s0 m programs : mutex_held m None -> linear s0 programs [] (start s0 m programs).
Proof.
  intros Hm. split.
  - exists None, s0. split_and!; [done|apply seq_nil|split; [done|]]. intros u th Hu. cbn in Hu.
    rewrite list_lookup_fmap in Hu. destruct (programs !! u); [|done]. by injection Hu as <-.
  - intros t th Ht. cbn in Ht. rewrite list_lookup_fmap in Ht. destruct (programs !! t) as [p|] eqn:Hp; [|done].
    injection Ht as <-. exists p. split; [done|]. apply (tp_idle t [] p []). constructor.
Qed.

Lemma reachable_linear s0 m programs trace cfg :
  mutex_held m None -> reachable (start s0 m programs) trace cfg -> linear s0 programs trace cfg.
Proof. induction 2; [by apply start_linear|by eapply step_linear]. Qed.

Lemma reachable_app cfg0 tr cfg tr' cfg' :
  reachable cfg0 tr cfg -> reachable cfg tr' cfg' -> reachable cfg0 (tr ++ tr') cfg'.
Proof.
  intros H1. induction 1 as [|tr' cfg1 t evs cfg2 H2 IH Hstep]; [by rewrite app_nil_r|].
  rewrite app_assoc. by eapply reach_step.
Qed.

Lemma schedule_reachable ts : forall cfg trace cfg',
  schedule ts cfg = (trace, cfg') -> reachable cfg trace cfg'.
Proof.
  induction ts as [|t ts IH]; intros cfg trace cfg'; cbn [schedule]; [intros [= <- <-]; constructor|].
  destruct (thread_step t cfg) as [[evs cfg1]|] eqn:Hstep; [|apply IH].
  destruct (schedule ts cfg1) as [trace1 cfg2] eqn:Hts. intros [= <- <-].
  apply (reachable_app _ evs cfg1); [|by apply IH].
  apply (reach_step cfg [] cfg t evs cfg1); [constructor|done].
Qed.

(** ** What follows *)

Lemma mutual_exclusion s0 programs trace cfg t u th thu : linear s0 programs trace cfg ->
  cf_threads cfg !! t = Some th -> cf_threads cfg !! u = Some thu -> inside th -> inside thu -> t = u.
Proof.
  intros [(h & s & _ & _ & [_ Hin]) _] Ht Hu Hth Hthu.
  pose proof (Hin _ _ Ht Hth). pose proof (Hin _ _ Hu Hthu). congruence.
Qed.

(** All threads are done. *)
Definition idle (th : thread) : Prop := match th with mk_thread None [] => True | _ => False end.
#[local] Instance idle_dec th : Decision (idle th).
Proof. unfold idle. destruct th as [[] []]; apply _. Defined.
Definition finished (cfg : config) : Prop := Forall idle (cf_threads cfg).

(** ** What has taken effect is part of the programs *)

Lemma call_commits t c r l : call_events t c r l -> (commits l).*1 `sublist_of` [c].
Proof. destruct 1; cbn; [done|apply sublist_nil_l]. Qed.
Lemma thread_commits t cs evs : thread_events t cs evs -> (commits evs).*1 `sublist_of` cs.
Proof.
  induction 1 as [|cs c r evs l _ IH Hl]; [done|]. rewrite commits_app, fmap_app.
  apply sublist_app; [done|]. by eapply call_commits.
Qed.
Lemma progress_commits t th program evs : thread_progress t th program evs ->
  (commits evs).*1 `sublist_of` program /\
  (forall c b k todo, th = mk_thread (Some (c, Work b k)) todo -> (commits evs).*1 ++ [c] `sublist_of` program).
Proof.
  destruct 1 as [cs todo evs Hcs|cs c todo evs Hcs|cs c b b0 todo evs Hcs Hw|cs c r b0 todo evs Hcs Hw|cs c r b0 todo evs Hcs Hw];
    apply thread_commits in Hcs.
  - split; [by apply sublist_inserts_r|discriminate].
  - rewrite commits_app, app_nil_r. split; [by apply sublist_inserts_r|]. intros c' b k todo' [= <- Hw _].
    destruct (wrapper_ok c) as [[r Hr]|(b0 & Hb & _)]; unfold guarded in *; congruence.
  - rewrite commits_app, app_nil_r. split; [by apply sublist_inserts_r|]. intros c' b' k' todo' [= <- _ _ _].
    apply sublist_app; [done|]. apply sublist_skip, sublist_nil_l.
  - rewrite commits_app, fmap_app. cbn. split; [|discriminate].
    apply sublist_app; [done|]. apply sublist_skip, sublist_nil_l.
  - rewrite commits_app, fmap_app. cbn. split; [|discriminate].
    apply sublist_app; [done|]. apply sublist_skip, sublist_nil_l.
Qed.

(** A trace is an interleaving of what its threads did. *)
Lemma concat_update {A} (f f' : tid -> list A) (a : list A) t l : NoDup l -> t ∈ l ->
  f' t = a ++ f t -> (forall u, u <> t -> f' u = f u) -> concat (f' <$> l) ≡ₚ a ++ concat (f <$> l).
Proof.
  intros Hnd Ht Hf Hother. induction Hnd as [|u l Hu Hnd IH]; [by apply elem_of_nil in Ht|].
  cbn. apply elem_of_cons in Ht as [<-|Ht].
  - rewrite Hf, <- app_assoc. do 2 f_equiv. apply reflexive_eq. f_equal. apply list_fmap_ext.
    intros i x Hx%list_elem_of_lookup_2. apply Hother. congruence.
  - rewrite (IH Ht), Hother by congruence. rewrite !app_assoc. f_equiv. apply Permutation_app_comm.
Qed.
Lemma commits_split n trace : Forall (fun e => (event_thread e < n)%nat) trace ->
  commits trace ≡ₚ concat ((fun t => commits (events_of t trace)) <$> seq 0 n).
Proof.
  induction 1 as [|e trace He _ IH].
  - cbn. generalize (seq 0 n). intros l. by induction l.
  - change (commits (e :: trace)) with (commits ([e] ++ trace)). rewrite commits_app, IH. symmetry.
    apply (concat_update _ _ _ (event_thread e)).
    + apply NoDup_seq.
    + apply elem_of_seq. lia.
    + unfold events_of. rewrite filter_cons_True by done. apply (commits_app [e]).
    + intros u Hu. unfold events_of. by rewrite filter_cons_False by congruence.
Qed.
Lemma concat_submseteq {A} (ls ls' : list (list A)) : Forall2 submseteq ls ls' -> concat ls ⊆+ concat ls'.
Proof. induction 1; [done|]. cbn. by apply submseteq_app. Qed.

Lemma reachable_threads s0 m programs trace cfg : reachable (start s0 m programs) trace cfg ->
  length (cf_threads cfg) = length programs /\
  Forall (fun e => (event_thread e < length programs)%nat) trace.
Proof.
  induction 1 as [|trace cfg t evs cfg' _ [Hlen Hall] Hstep].
  - split; [|done]. cbn. by rewrite length_fmap.
  - assert (forall cur todo cfg0, length (cf_threads (set_thread cfg0 t cur todo)) = length (cf_threads cfg0)) as Hset
      by (intros; cbn; apply length_insert).
    unfold thread_step in Hstep. destruct (cf_threads cfg !! t) as [th|] eqn:Ht; [|done].
    apply lookup_lt_Some in Ht. rewrite Hlen in Ht. rewrite Forall_app.
    destruct th as [[[c [r|k|[r|A f k] k'|k]]|] todo]; repeat case_match; try done;
      injection Hstep as <- <-; rewrite Hset; (split; [exact Hlen|split; [exact Hall|by repeat constructor]]).
Qed.

(** The calls that took effect, and the call of the thread that is inside. *)
Definition working (th : thread) : list call :=
  match th with mk_thread (Some (c, Work _ _)) _ => [c] | _ => [] end.
Lemma committed_within s0 programs trace cfg h : linear s0 programs trace cfg ->
  length (cf_threads cfg) = length programs ->
  Forall (fun e => (event_thread e < length programs)%nat) trace ->
  (forall t th, cf_threads cfg !! t = Some th -> inside th -> h = Some t) ->
  (commits trace).*1 ++
    match h with Some t => match cf_threads cfg !! t with Some th => working th | None => [] end | None => [] end
  ⊆+ concat programs.
Proof.
  intros Hlin Hlen Hall Hin. rewrite (commits_split _ _ Hall), Permutation_app_comm.
  set (extra := match h with Some t => _ | None => _ end).
  set (n := length programs) in *.
  set (mine := fun t => match cf_threads cfg !! t with Some th => working th | None => [] end).
  assert (concat ((fun t => mine t ++ (commits (events_of t trace)).*1) <$> seq 0 n) ≡ₚ
          extra ++ (concat ((fun t => commits (events_of t trace)) <$> seq 0 n)).*1) as <-.
  { assert (forall ls : list (list (call * R)), (concat ls).*1 = concat ((fun l => l.*1) <$> ls)) as ->
      by (intros ls; apply (List.concat_map fst)).
    assert (forall t, h <> Some t -> mine t = []) as Hnone.
    { intros t Ht. unfold mine. destruct (cf_threads cfg !! t) as [[[[c []]|] todo]|] eqn:E; try done.
      destruct Ht. by apply (Hin t _ E). }
    assert (forall f : tid -> list (call * R), ((fun l => l.*1) <$> (f <$> seq 0 n)) = (fun t => (f t).*1) <$> seq 0 n) as ->
      by (intros f; symmetry; apply list_fmap_compose).
    unfold extra. destruct h as [t|].
    - destruct (decide (t < n)%nat) as [Ht|Ht].
      + apply (concat_update _ _ _ t); [apply NoDup_seq|apply elem_of_seq; lia|done|].
        intros u Hu. rewrite Hnone; [done|congruence].
      + rewrite (lookup_ge_None_2 (cf_threads cfg) t) by lia. cbn. apply reflexive_eq. f_equal.
        apply list_fmap_ext. intros i u Hu%list_elem_of_lookup_2%elem_of_seq. rewrite Hnone; [done|].
        intros [= ->]. lia.
    - apply reflexive_eq. cbn. f_equal. apply list_fmap_ext. intros i u _. by rewrite Hnone. }
  apply concat_submseteq. apply Forall2_lookup. intros t. rewrite list_lookup_fmap.
  destruct (decide (t < n)%nat) as [Ht|Ht].
  - rewrite lookup_seq_lt by done. cbn.
    destruct (lookup_lt_is_Some_2 (cf_threads cfg) t ltac:(lia)) as [th Hth].
    destruct (ln_threads _ _ _ _ Hlin t th Hth) as (program & -> & Hp). constructor.
    destruct (progress_commits _ _ _ _ Hp) as [Hsub Hwork]. unfold mine. rewrite Hth.
    destruct th as [[[c [r|k|b k|k]]|] todo]; cbn [working app]; try by apply sublist_submseteq.
    change (c :: (commits (events_of t trace)).*1) with ([c] ++ (commits (events_of t trace)).*1).
    rewrite Permutation_app_comm. apply sublist_submseteq. by eapply Hwork.
  - rewrite lookup_seq_ge by lia. rewrite (lookup_ge_None_2 programs t) by lia. constructor.
Qed.

(** Where the effects of the programs' calls are defined, no thread is ever stuck in an
    undefined access, and while some thread has something to do, some thread can go on. *)
Lemma reachable_progress s0 m programs trace cfg :
  mutex_held m None -> reachable (start s0 m programs) trace cfg ->
  (forall l s c, sequential s0 l s -> l.*1 ++ [c] ⊆+ concat programs -> is_Some (effect c s)) ->
  (forall t th, cf_threads cfg !! t = Some th -> inside th -> is_Some (thread_step t cfg)) /\
  (finished cfg \/ exists t, is_Some (thread_step t cfg)).
Proof.
  intros Hm0 Hreach Hdef. pose proof (reachable_linear _ _ _ _ _ Hm0 Hreach) as Hlin.
  destruct (reachable_threads _ _ _ _ _ Hreach) as [Hlen Hevents].
  pose proof Hlin as [(h & s & Hm & Hseq & Hc) Hth].
  pose proof (committed_within _ _ _ _ h Hlin Hlen Hevents (proj2 Hc)) as Hwithin.
  assert (forall t th, cf_threads cfg !! t = Some th -> inside th -> is_Some (thread_step t cfg)) as Hinside.
  { intros t th Ht Hi. assert (h = Some t) as -> by (by apply (proj2 Hc t th)).
    destruct Hc as [(c & k0 & todo & Hu & Hrun) _]. rewrite Ht in Hu. injection Hu as ->.
    unfold thread_step. rewrite Ht. destruct k0 as [r|k|[r|A f k] k'|k]; try done.
    - rewrite Ht in Hwithin. destruct (Hdef _ _ c Hseq Hwithin) as [x Hx]. cbn [run_body] in Hrun. rewrite Hx in Hrun.
      destruct (f (cf_shared cfg)) as [[a s']|]; [by eexists|done].
    - destruct (mutex_unlock_held t _ Hm) as (m' & -> & _). by eexists. }
  split; [done|]. destruct h as [t|].
  - right. exists t. destruct Hc as [(c & k & todo & Hu & Hrun) _]. apply (Hinside t _ Hu). by destruct k.
  - destruct (decide (finished cfg)) as [Hall|Hsome]; [by left|].
    right. apply not_Forall_Exists, Exists_exists in Hsome as (th & Hin & Hne); [|apply _].
    apply list_elem_of_lookup in Hin as [t Ht]. exists t. unfold thread_step. rewrite Ht.
    destruct (Hth t th Ht) as (program & _ & Hp).
    destruct th as [[[c [r|k|b k|k]]|] todo].
      * by eexists.
      * destruct (mutex_lock_free t _ Hm) as (m' & -> & _). by eexists.
      * destruct (Hinside t _ Ht I) as [x Hx]. unfold thread_step in Hx. rewrite Ht in Hx. by rewrite Hx.
      * destruct (Hinside t _ Ht I) as [x Hx]. unfold thread_step in Hx. rewrite Ht in Hx. by rewrite Hx.
      * destruct todo; [by destruct (Hne I)|by eexists].
Qed.

(** ** Every run ends *)

(** What a step makes of a thread; each leaves less to do. *)
Definition moves (th' th : thread) : Prop :=
  match th with
  | mk_thread None [] => False
  | mk_thread None (c :: todo) => th' = mk_thread (Some (c, wrapper c)) todo
  | mk_thread (Some (c, Lock k)) todo => exists err, th' = mk_thread (Some (c, k err)) todo
  | mk_thread (Some (c, Work (Access f k) k')) todo => exists a, th' = mk_thread (Some (c, Work (k a) k')) todo
  | mk_thread (Some (c, Work (Done r) k)) todo => th' = mk_thread (Some (c, k r)) todo
  | mk_thread (Some (c, Unlock k)) todo => th' = mk_thread (Some (c, k)) todo
  | mk_thread (Some (c, Return r)) todo => th' = mk_thread None todo
  end.

Lemma thread_step_moves t cfg evs cfg' : thread_step t cfg = Some (evs, cfg') ->
  exists th th', cf_threads cfg !! t = Some th /\ moves th' th /\ cf_threads cfg' = <[t := th']> (cf_threads cfg).
Proof.
  unfold thread_step. destruct (cf_threads cfg !! t) as [th|]; [|done]. intros Hstep. exists th.
  destruct th as [[[c [r|k|[r|A f k] k'|k]]|] todo].
  - injection Hstep as <- <-. by eexists.
  - destruct (xgl_mutex_lock _ _) as [[err [m|]]|]; try done. injection Hstep as <- <-.
    eexists. split_and!; [done|by exists err|done].
  - injection Hstep as <- <-. by eexists.
  - destruct (f _) as [[a s']|]; [|done]. injection Hstep as <- <-.
    eexists. split_and!; [done|by exists a|done].
  - destruct (xgl_mutex_unlock _ _) as [err [m|]]; [|done]. injection Hstep as <- <-. by eexists.
  - destruct todo as [|c todo]; [done|]. injection Hstep as <- <-. by eexists.
Qed.

Lemma moves_wf th : Acc moves th.
Proof.
  assert (forall todo, Acc moves (mk_thread None todo) ->
    forall c k, Acc moves (mk_thread (Some (c, k)) todo)) as Hcode.
  { intros todo Hnone c k.
    assert (forall r, Acc moves (mk_thread (Some (c, Return r)) todo)) as Hret
      by (intros r; constructor; intros th' Hmv; cbn in Hmv; by subst th').
    induction k as [r|k IH|b k IHk|k IH]; [apply Hret| | |].
    - constructor. intros th' Hmv. destruct Hmv as [err ->]. apply IH.
    - induction b as [r|A f k' IH]; constructor; intros th' Hmv.
      + cbn in Hmv. subst th'. apply IHk.
      + destruct Hmv as [a ->]. apply IH.
    - constructor. intros th' Hmv. cbn in Hmv. by subst th'. }
  destruct th as [current todo].
  assert (Acc moves (mk_thread None todo)) as Hnone.
  { induction todo as [|c todo IH]; constructor; intros th' Hmv; [done|]. cbn in Hmv. subst th'. by apply Hcode. }
  destruct current as [[c k]|]; [by apply Hcode|done].
Qed.

(** Threads that move one at a time. *)
Definition one_moves (ths' ths : list thread) : Prop :=
  exists t th th', ths !! t = Some th /\ moves th' th /\ ths' = <[t := th']> ths.
Lemma one_moves_wf ths : Acc one_moves ths.
Proof.
  induction ths as [|th ths IH]; [constructor; by intros ths' (t & th & th' & Ht & _)|].
  revert ths IH. induction (moves_wf th) as [th _ IHth]. intros ths Hths.
  induction Hths as [ths Hacc IHths]. constructor. intros ths' ([|t] & th0 & th' & Ht & Hmv & ->).
  - injection Ht as <-. cbn. apply IHth; [done|]. by constructor.
  - cbn. apply IHths. by exists t, th0, th'.
Qed.

(** No run goes on for ever. *)
Definition goes_to (cfg' cfg : config) : Prop := exists t evs, thread_step t cfg = Some (evs, cfg').
Lemma goes_to_wf cfg : Acc goes_to cfg.
Proof.
  remember (cf_threads cfg) as ths eqn:E. revert cfg E. induction (one_moves_wf ths) as [ths _ IH].
  intros cfg ->. constructor. intros cfg' (t & evs & Hstep).
  destruct (thread_step_moves _ _ _ _ Hstep) as (th & th' & Ht & Hmv & E).
  eapply IH; [|reflexivity]. rewrite E. by exists t, th, th'.
Qed.

(** ** An orderly run

    At most one thread is inside; every thread is in the middle of its program, each of its
    completed calls with one moment of effect between call and return; no
    access is undefined; unless all are done, some thread can go on; the run ends. *)
Record orderly (programs : list (list call)) (trace : list event) (cfg : config) : Prop := {
  od_exclusion t u th thu : cf_threads cfg !! t = Some th -> cf_threads cfg !! u = Some thu ->
    inside th -> inside thu -> t = u;
  od_threads t th : cf_threads cfg !! t = Some th ->
    exists program, programs !! t = Some program /\ thread_progress t th program (events_of t trace);
  od_defined t th : cf_threads cfg !! t = Some th -> inside th -> is_Some (thread_step t cfg);
  od_progress : finished cfg \/ exists t, is_Some (thread_step t cfg);
  od_ends : Acc goes_to cfg
}.

(** The calls that have taken effect are a sequential execution of calls of the
    programs; it has led to the shared object when nobody is inside. *)
Lemma reachable_orderly s0 m programs trace cfg :
  mutex_held m None -> reachable (start s0 m programs) trace cfg ->
  (forall l s c, sequential s0 l s -> l.*1 ++ [c] ⊆+ concat programs -> is_Some (effect c s)) ->
  orderly programs trace cfg /\
  exists s, sequential s0 (commits trace) s /\ (commits trace).*1 ⊆+ concat programs /\
    (Forall (fun th => ~ inside th) (cf_threads cfg) -> cf_shared cfg = s).
Proof.
  intros Hm Hreach Hdef. pose proof (reachable_linear _ _ _ _ _ Hm Hreach) as Hlin.
  destruct (reachable_progress _ _ _ _ _ Hm Hreach Hdef) as [Hdefined Hgo]. split.
  - split; [|apply (ln_threads _ _ _ _ Hlin)|exact Hdefined|exact Hgo|apply goes_to_wf].
    intros t u th thu. by apply (mutual_exclusion _ _ _ _ _ _ _ _ Hlin).
  - destruct (reachable_threads _ _ _ _ _ Hreach) as [Hlen Hevents].
    destruct (ln_mutex _ _ _ _ Hlin) as (h & s & _ & Hseq & Hc). exists s. split; [exact Hseq|]. split.
    + etransitivity; [|apply (committed_within _ _ _ _ h Hlin Hlen Hevents (proj2 Hc))].
      by apply submseteq_inserts_r.
    + intros Hout. destruct h as [t|]; [|apply Hc].
      destruct Hc as [(c & k & todo & Ht & Hk) _]. rewrite Forall_lookup in Hout. destruct (Hout t _ Ht). by destruct k.
Qed.
End Threads.
