(* ===== verification/MempoolTs.v ===== *)
(** * The thread-safe block pool (src/memory/xgl_mempool_ts.c)

    The functions of [Mempool] between lock and unlock of one mutex, run by any
    number of threads whose accesses to the pool interleave ([Threads]).  Each
    function of the pool is given as some sequence of atomic accesses that, without
    interference, does what the function of [Mempool] does ([inner]). *)
From S2P Require Import Prelude Errors Memory Mempool Mutex Threads.

(** ** Set-up *)

(** src/include/xgl/internal/xgl_mempool.h:129-132: xgl_mempool_ts_t *)
Record xgl_mempool_ts_t (os : Type) : Type := mk_mempool_ts {
  mts_pool : xgl_mempool_t;
  mts_mutex : xgl_mutex_t os
}.
Arguments mk_mempool_ts {os}.
Arguments mts_pool {os}.
Arguments mts_mutex {os}.

(** src/src/memory/xgl_mempool_ts.c:17-31: xgl_mempool_ts_init *)
Definition xgl_mempool_ts_init {os} `{Pthread os} (pool : ptr (xgl_mempool_ts_t os))
    (buffer buffer_size block_size : Z) (m : memory) : M (Z * ptr (xgl_mempool_ts_t os) * memory) :=
  match pool with
  | NULL => ret (-1, NULL, m)
  | Ptr pool =>
      '(result, inner, m) ← xgl_mempool_init (Ptr (mts_pool pool)) buffer buffer_size block_size m;
      inner ← inner;
      if negb (result =? 0) then ret (result, Ptr (mk_mempool_ts inner (mts_mutex pool)), m)
      else
        let '(err, mutex) := xgl_mutex_init (Ptr (mts_mutex pool)) in
        mutex ← mutex;
        ret (error_code err, Ptr (mk_mempool_ts inner mutex), m)
  end.

(** src/src/memory/xgl_mempool_ts.c:36-43: xgl_mempool_ts_destroy *)
Definition xgl_mempool_ts_destroy {os} `{Pthread os} (pool : ptr (xgl_mempool_ts_t os))
    : M (ptr (xgl_mempool_ts_t os)) :=
  match pool with
  | NULL => ret NULL
  | Ptr pool =>
      mutex ← xgl_mutex_destroy (Ptr (mts_mutex pool));
      inner ← xgl_mempool_destroy (Ptr (mts_pool pool));
      ret (Ptr (mk_mempool_ts inner mutex))
  end.

(** ** Calls *)

(** The calls to the pool that is inside; a boolean result is 0 or 1, the result of
    a [void] function is 0. *)
Inductive pool_call : Type :=
| call_alloc
| call_free (p : Z)
| call_get_free_count
| call_get_used_count
| call_get_peak_used
| call_is_empty
| call_is_full
| call_reset_stats.

Abbreviation shared_pool := (xgl_mempool_t * memory)%type.

Definition pool_effect (c : pool_call) (s : shared_pool) : M (Z * shared_pool) :=
  let '(pool, m) := s in
  match c with
  | call_alloc => '(block, pool) ← xgl_mempool_alloc (Ptr pool) m; pool ← pool; ret (block, (pool, m))
  | call_free p => '(pool, m) ← xgl_mempool_free (Ptr pool) p m; pool ← pool; ret (0, (pool, m))
  | call_get_free_count => ret (xgl_mempool_get_free_count (Ptr pool), s)
  | call_get_used_count => ret (xgl_mempool_get_used_count (Ptr pool), s)
  | call_get_peak_used => ret (xgl_mempool_get_peak_used (Ptr pool), s)
  | call_is_empty => ret (Z.b2z (xgl_mempool_is_empty (Ptr pool)), s)
  | call_is_full => ret (Z.b2z (xgl_mempool_is_full (Ptr pool)), s)
  | call_reset_stats => pool ← xgl_mempool_reset_stats (Ptr pool); ret (0, (pool, m))
  end.

Section wrappers.
(** How the functions of the pool access it. *)
Variable inner : pool_call -> body shared_pool Z.

(** The argument is NULL or the pool that the threads share. *)
Implicit Type pool : ptr unit.

(** src/src/memory/xgl_mempool_ts.c:48-60: xgl_mempool_ts_alloc *)
Definition xgl_mempool_ts_alloc pool : code shared_pool Z :=
  match pool with NULL => Return NULLP | Ptr _ => guarded (inner call_alloc) end.

(** src/src/memory/xgl_mempool_ts.c:65-73: xgl_mempool_ts_free *)
Definition xgl_mempool_ts_free pool (p : Z) : code shared_pool Z :=
  match pool with
  | NULL => Return 0
  | Ptr _ => if p =? NULLP then Return 0 else guarded (inner (call_free p))
  end.

(** src/src/memory/xgl_mempool_ts.c:78-90: xgl_mempool_ts_get_free_count *)
Definition xgl_mempool_ts_get_free_count pool : code shared_pool Z :=
  match pool with NULL => Return 0 | Ptr _ => guarded (inner call_get_free_count) end.

(** src/src/memory/xgl_mempool_ts.c:95-107: xgl_mempool_ts_get_used_count *)
Definition xgl_mempool_ts_get_used_count pool : code shared_pool Z :=
  match pool with NULL => Return 0 | Ptr _ => guarded (inner call_get_used_count) end.

(** src/src/memory/xgl_mempool_ts.c:112-124: xgl_mempool_ts_get_peak_used *)
Definition xgl_mempool_ts_get_peak_used pool : code shared_pool Z :=
  match pool with NULL => Return 0 | Ptr _ => guarded (inner call_get_peak_used) end.

(** src/src/memory/xgl_mempool_ts.c:129-141: xgl_mempool_ts_is_empty *)
Definition xgl_mempool_ts_is_empty pool : code shared_pool Z :=
  match pool with NULL => Return 1 | Ptr _ => guarded (inner call_is_empty) end.

(** src/src/memory/xgl_mempool_ts.c:146-158: xgl_mempool_ts_is_full *)
Definition xgl_mempool_ts_is_full pool : code shared_pool Z :=
  match pool with NULL => Return 1 | Ptr _ => guarded (inner call_is_full) end.

(** src/src/memory/xgl_mempool_ts.c:163-171: xgl_mempool_ts_reset_stats *)
Definition xgl_mempool_ts_reset_stats pool : code shared_pool Z :=
  match pool with NULL => Return 0 | Ptr _ => guarded (inner call_reset_stats) end.

(** What a thread runs for a call on the shared pool. *)
Definition pool_wrapper (c : pool_call) : code shared_pool Z :=
  match c with
  | call_alloc => xgl_mempool_ts_alloc (Ptr tt)
  | call_free p => xgl_mempool_ts_free (Ptr tt) p
  | call_get_free_count => xgl_mempool_ts_get_free_count (Ptr tt)
  | call_get_used_count => xgl_mempool_ts_get_used_count (Ptr tt)
  | call_get_peak_used => xgl_mempool_ts_get_peak_used (Ptr tt)
  | call_is_empty => xgl_mempool_ts_is_empty (Ptr tt)
  | call_is_full => xgl_mempool_ts_is_full (Ptr tt)
  | call_reset_stats => xgl_mempool_ts_reset_stats (Ptr tt)
  end.

Lemma pool_wrapper_ok (inner_ok : forall c s, run_body (inner c) s = pool_effect c s) c :
  (exists r, pool_wrapper c = Return r) \/
  exists b, pool_wrapper c = guarded b /\ forall s, run_body b s = pool_effect c s.
Proof.
  destruct c; cbn; try (right; eexists; by split).
  destruct (p =? NULLP); [left; by eexists|right; eexists; by split].
Qed.
End wrappers.

(** ** What the threads see

    The pool of [Mempool], one call after the other. *)
Inductive call_step (N : nat) : pool_spec -> pool_call -> Z -> pool_spec -> Prop :=
| cs_alloc s a s' : pool_step s op_alloc a s' -> call_step N s call_alloc a s'
| cs_free s p s' : pool_step s (op_free p) 0 s' -> call_step N s (call_free p) 0 s'
| cs_free_count s : call_step N s call_get_free_count (Z.of_nat N - live_count s) s
| cs_used_count s : call_step N s call_get_used_count (live_count s) s
| cs_peak s : call_step N s call_get_peak_used (ps_peak s) s
| cs_is_empty s : call_step N s call_is_empty (Z.b2z (bool_decide (ps_live s = ∅))) s
| cs_is_full s : call_step N s call_is_full (Z.b2z (bool_decide (ps_free s = []))) s
| cs_reset s s' : pool_step s op_reset 0 s' -> call_step N s call_reset_stats 0 s'.

Inductive pool_history (N : nat) (s0 : pool_spec) : list (pool_call * Z) -> pool_spec -> Prop :=
| ph_nil : pool_history N s0 [] s0
| ph_snoc l s c r s' : pool_history N s0 l s -> call_step N s c r s' -> pool_history N s0 (l ++ [(c, r)]) s'.

Section pool.
Context (B S : Z) (N : nat).
Hypothesis HB : 0 < B.
Hypothesis HS : SIZEOF_POINTER <= S.
Hypothesis HN : (0 < N)%nat.
Hypothesis Hfit : B + region S N <= SIZE_MAX.

Lemma effect_step m0 p m s c : pool_rep B S N m0 p m s ->
  exists r p' m' s', pool_effect c (p, m) = Some (r, (p', m')) /\ call_step N s c r s' /\
    pool_rep B S N m0 p' m' s'.
Proof.
  intros Hrep. assert (forall op, permitted s op ->
    exists r p' m' s', exec op (Ptr p) m = Some (r, Ptr p', m') /\ pool_step s op r s' /\ pool_rep B S N m0 p' m' s')
    as Hstep by (intros op; by apply rep_step).
  pose proof (rep_in_order B S N HB HS HN Hfit _ _ _ _ Hrep) as (_ & Hused & Hfree & Hpeak & Hempty & Hfull & _).
  destruct c as [|a| | | | | |]; cbn [pool_effect].
  - destruct (Hstep op_alloc I) as (r & p' & m' & s' & Hrun & Hs & Hrep'). cbn [exec] in Hrun.
    destruct (xgl_mempool_alloc (Ptr p) m) as [[a p1]|]; [|done]. cbn in Hrun |- *. simplify_eq.
    eexists _, _, _, _. split; [done|]. by split; [apply cs_alloc|].
  - destruct (Hstep (op_free a) I) as (r & p' & m' & s' & Hrun & Hs & Hrep'). cbn [exec] in Hrun.
    destruct (xgl_mempool_free (Ptr p) a m) as [[p1 m1]|]; [|done]. cbn in Hrun |- *. simplify_eq.
    eexists _, _, _, _. split; [done|]. by split; [apply cs_free|].
  - eexists _, _, _, s. rewrite Hfree. split; [done|]. by split; [constructor|].
  - eexists _, _, _, s. rewrite Hused. split; [done|]. by split; [constructor|].
  - eexists _, _, _, s. rewrite Hpeak. split; [done|]. by split; [constructor|].
  - eexists _, _, _, s. rewrite Hempty. split; [done|]. by split; [constructor|].
  - eexists _, _, _, s. rewrite Hfull. split; [done|]. by split; [constructor|].
  - destruct (Hstep op_reset I) as (r & p' & m' & s' & Hrun & Hs & Hrep'). cbn [exec] in Hrun. cbn in Hrun |- *.
    simplify_eq. eexists _, _, _, _. split; [done|]. by split; [apply cs_reset|].
Qed.

Lemma sequential_history m0 p m s l x : pool_rep B S N m0 p m s -> sequential pool_effect (p, m) l x ->
  exists s', pool_history N s l s' /\ pool_rep B S N m0 x.1 x.2 s'.
Proof.
  intros Hrep. induction 1 as [|l x c r x' Hseq (s1 & Hh & Hrep1) Heff]; [by exists s; split; [constructor|]|].
  destruct x as [p1 m1]. destruct (effect_step m0 p1 m1 s1 c Hrep1) as (r' & p2 & m2 & s2 & Heff' & Hs & Hrep2).
  rewrite Heff in Heff'. simplify_eq. exists s2. split; [by econstructor|done].
Qed.
End pool.

(** ** Property *)

Lemma mempool_ts_init_run {os} `{PthreadLaws os} (ts : xgl_mempool_ts_t os) buffer buffer_size block_size m p m' :
  xgl_mempool_init (Ptr (mts_pool ts)) buffer buffer_size block_size m = Some (0, Ptr p, m') ->
  exists r mutex, xgl_mempool_ts_init (Ptr ts) buffer buffer_size block_size m =
      Some (r, Ptr (mk_mempool_ts p mutex), m') /\ (r = 0 -> mutex_held mutex None).
Proof.
  intros Hrun. unfold xgl_mempool_ts_init. rewrite Hrun. cbn [mbind option_bind Z.eqb negb].
  destruct (xgl_mutex_init (Ptr (mts_mutex ts))) as [err [mutex|]] eqn:E.
  - cbn. eexists _, mutex. split; [done|]. intros Hr. apply (mutex_init_held (mts_mutex ts)).
    rewrite E. by destruct err.
  - unfold xgl_mutex_init in E. destruct (pthread_mutex_init _ _) as [res os']. by destruct (negb (res =? 0)).
Qed.

(** C39. A thread-safe pool may be used from any number of threads: whatever
    programs of calls they run, and however their accesses to the pool
    interleave, at most one thread is inside the pool at a time; each call takes
    effect at one moment between its call and its return, and in the order of
    these moments the calls are an execution of the sequential pool - so no block
    is in the hands of two threads, and whenever nobody is inside, the blocks
    and counters are in order; no access is undefined; as long as a thread
    has something to do some thread can go on, and every run ends.  All this
    holds of any mutex that behaves as POSIX says. *)
Theorem shared_pool_linearizable {os : Type} `{PthreadLaws os} (inner : pool_call -> body shared_pool Z)
    (buffer buffer_size block_size : Z) (m : memory) (ts : xgl_mempool_ts_t os) (programs : list (list pool_call)) :
  (forall c s, run_body (inner c) s = pool_effect c s) ->
  0 < buffer -> SIZEOF_POINTER <= block_size -> block_size <= buffer_size -> buffer + buffer_size <= SIZE_MAX ->
  owns m buffer buffer_size ->
  let N := Z.to_nat (buffer_size / block_size) in
  exists r ts' m', xgl_mempool_ts_init (Ptr ts) buffer buffer_size block_size m = Some (r, Ptr ts', m') /\
    (r = 0 -> forall trace cfg,
      reachable (pool_wrapper inner) (start (mts_pool ts', m') (mts_mutex ts') programs) trace cfg ->
      orderly (pool_wrapper inner) programs trace cfg /\
      exists s, pool_history N (fresh_spec buffer block_size N) (commits trace) s /\
         (Forall (fun th => ~ inside th) (cf_threads cfg) ->
          in_order buffer block_size N m (Ptr (cf_shared cfg).1) (cf_shared cfg).2 s)).
Proof.
  intros Hinner HB HS Hle Hfit Ho N. unfold SIZEOF_POINTER in HS.
  assert (0 < buffer_size / block_size) by (apply Z.div_str_pos; lia).
  assert (buffer + region block_size N <= SIZE_MAX) as Hreg.
  { unfold region, N. rewrite Z2Nat.id by lia. pose proof (Z.mul_div_le buffer_size block_size). lia. }
  destruct (rep_init buffer block_size N HB HS ltac:(lia) Hreg (mts_pool ts) buffer_size m eq_refl ltac:(lia) Ho)
    as (p & m' & Hrun & Hrep).
  destruct (mempool_ts_init_run ts _ _ _ _ _ _ Hrun) as (r & mutex & Hts & Hmutex).
  exists r, (mk_mempool_ts p mutex), m'. split; [exact Hts|]. intros Hr trace cfg Hreach.
  pose proof (pool_wrapper_ok inner Hinner) as Hwrap. cbn [mts_pool mts_mutex] in Hreach.
  pose proof (fun l x => sequential_history buffer block_size N HB HS ltac:(lia) Hreg m p m' _ l x Hrep) as Hhist.
  destruct (reachable_orderly _ _ Hwrap _ _ _ _ _ (Hmutex Hr) Hreach) as [Hord ([p1 m1] & Hseq & _ & Hshared)].
  { intros l [p1 m1] c Hseq _. destruct (Hhist _ _ Hseq) as (s1 & _ & Hrep1).
    destruct (effect_step buffer block_size N HB HS ltac:(lia) Hreg m p1 m1 s1 c Hrep1) as (? & ? & ? & ? & -> & _).
    by eexists. }
  destruct (Hhist _ _ Hseq) as (s & Hh & Hrep'). split; [exact Hord|]. exists s. split; [exact Hh|].
  intros Hout. rewrite (Hshared Hout). by apply rep_in_order; [|done|lia| |].
Qed.

(** Two threads on a pool of three blocks; each function reads the whole pool, and
    later writes the whole of what it computed - without the lock the threads would
    overwrite each other's work. *)
Definition racy_inner (c : pool_call) : body shared_pool Z :=
  Access (fun s => Some (s, s)) (fun old => Access (fun _ => pool_effect c old) Done).
Lemma racy_inner_ok c s : run_body (racy_inner c) s = pool_effect c s.
Proof. cbn. by destruct (pool_effect c s) as [[r s']|]. Qed.
Definition sample_programs : list (list pool_call) :=
  [[call_alloc; call_free 4112; call_get_used_count]; [call_alloc; call_alloc; call_is_full]].
(** The second thread tries at once, waits, and then goes on in turn with the first. *)
Definition sample_schedule : list tid := mjoin (replicate 30 [0; 1; 1]%nat).
Definition sample_ts : xgl_mempool_ts_t (option (tid * nat)) := mk_mempool_ts zero_mempool (mk_mutex None false).
Definition sample_run (ts : xgl_mempool_ts_t (option (tid * nat))) (m : memory) :=
  schedule (pool_wrapper racy_inner) sample_schedule (start (mts_pool ts, m) (mts_mutex ts) sample_programs).
Definition sample_commits : M (list (pool_call * Z)) :=
  '(_, ts, m) ← xgl_mempool_ts_init (Ptr sample_ts) 4096 30 8 (sample_memory 4096 30);
  ts ← ts; ret (commits (sample_run ts m).1).
Definition sample_order : list (pool_call * Z) :=
  [(call_alloc, 4112); (call_alloc, 4104); (call_alloc, 4096);
    (call_free 4112, 0); (call_is_full, 0); (call_get_used_count, 2)].
Lemma shared_pool_linearizable_witness :
  exists ts m trace cfg s,
    xgl_mempool_ts_init (Ptr sample_ts) 4096 30 8 (sample_memory 4096 30) = Some (0, Ptr ts, m) /\
    reachable (pool_wrapper racy_inner) (start (mts_pool ts, m) (mts_mutex ts) sample_programs) trace cfg /\
    commits trace = sample_order /\ pool_history 3 (fresh_spec 4096 8 3) sample_order s.
Proof.
  destruct (shared_pool_linearizable racy_inner 4096 30 8 (sample_memory 4096 30) sample_ts sample_programs)
    as (r & ts & m & Hrun & Hall);
    [apply racy_inner_ok|lia|unfold SIZEOF_POINTER; lia|lia|unfold SIZE_MAX; lia|apply (sample_memory_owns 4096 30)|].
  assert ((fun x => x.1.1) <$> xgl_mempool_ts_init (Ptr sample_ts) 4096 30 8 (sample_memory 4096 30) = Some 0) as Hr
    by (vm_compute; reflexivity).
  assert (sample_commits = Some sample_order) as Hcommits by (vm_compute; reflexivity).
  unfold sample_commits in Hcommits.
  rewrite Hrun in Hr, Hcommits. injection Hr as ->. cbn [mbind option_bind] in Hcommits.
  destruct (sample_run ts m) as [trace cfg] eqn:E. injection Hcommits as Hcommits. cbn [fst] in Hcommits.
  pose proof (schedule_reachable _ _ _ _ _ E) as Hreach.
  destruct (Hall eq_refl trace cfg Hreach) as (_ & s & Hs & _).
  rewrite Hcommits in Hs. exists ts, m, trace, cfg, s. split; [exact Hrun|]. split; [exact Hreach|].
  split; [exact Hcommits|exact Hs].
Defined.
