(* ===== verification/ListTs.v ===== *)
(** * The thread-safe list (src/core/xgl_list_ts.c)

    The functions of [LinkedList] between lock and unlock of one mutex, run by any
    number of threads whose accesses interleave ([Threads]); as a queue of
    nodes that several threads fill and several threads empty. *)
From S2P Require Import Prelude Errors LinkedList Mutex Threads.

(** ** Set-up *)

(** src/include/xgl/internal/xgl_list.h:199-202: xgl_list_ts_t *)
Record xgl_list_ts_t (os : Type) : Type := mk_list_ts {
  lts_list : xgl_list_t;
  lts_mutex : xgl_mutex_t os
}.
Arguments mk_list_ts {os}.
Arguments lts_list {os}.
Arguments lts_mutex {os}.

(** src/src/core/xgl_list_ts.c:17-24: xgl_list_ts_init *)
Definition xgl_list_ts_init {os} `{Pthread os} (list : ptr (xgl_list_ts_t os)) : M (Z * ptr (xgl_list_ts_t os)) :=
  match list with
  | NULL => ret (-1, NULL)
  | Ptr list =>
      let '(err, mutex) := xgl_mutex_init (Ptr (lts_mutex list)) in
      mutex ← mutex;
      ret (error_code err, Ptr (mk_list_ts xgl_list_init mutex))
  end.

(** src/src/core/xgl_list_ts.c:29-35: xgl_list_ts_destroy *)
Definition xgl_list_ts_destroy {os} `{Pthread os} (list : ptr (xgl_list_ts_t os)) : M (ptr (xgl_list_ts_t os)) :=
  match list with
  | NULL => ret NULL
  | Ptr list => mutex ← xgl_mutex_destroy (Ptr (lts_mutex list)); ret (Ptr (mk_list_ts (lts_list list) mutex))
  end.

(** ** Calls *)

Inductive list_call : Type :=
| lc_is_empty
| lc_count
| lc_insert_head (node : ptr addr)
| lc_insert_tail (node : ptr addr)
| lc_remove (node : ptr addr)
| lc_remove_head
| lc_remove_tail
| lc_peek_head
| lc_peek_tail.
Inductive list_result : Type :=
| res_void
| res_bool (b : bool)
| res_size (n : Z)
| res_node (node : ptr addr).

Abbreviation shared_list := (heap * xgl_list_t)%type.

(** The functions of the list return at once when the node is NULL. *)
Definition list_effect (c : list_call) (s : shared_list) : M (list_result * shared_list) :=
  let '(h, l) := s in
  match c with
  | lc_is_empty => ret (res_bool (xgl_list_is_empty l), s)
  | lc_count => ret (res_size (xgl_list_count l), s)
  | lc_insert_head (Ptr node) => s ← xgl_list_insert_head h l node; ret (res_void, s)
  | lc_insert_tail (Ptr node) => s ← xgl_list_insert_tail h l node; ret (res_void, s)
  | lc_remove (Ptr node) => s ← xgl_list_remove h l node; ret (res_void, s)
  | lc_insert_head NULL | lc_insert_tail NULL | lc_remove NULL => ret (res_void, s)
  | lc_remove_head => '(node, h, l) ← xgl_list_remove_head h l; ret (res_node node, (h, l))
  | lc_remove_tail => '(node, h, l) ← xgl_list_remove_tail h l; ret (res_node node, (h, l))
  | lc_peek_head => ret (res_node (xgl_list_peek_head l), s)
  | lc_peek_tail => ret (res_node (xgl_list_peek_tail l), s)
  end.

Section wrappers.
(** How the functions of the list access it. *)
Variable inner : list_call -> body shared_list list_result.
Abbreviation list_code := (code shared_list list_result).

(** The argument is NULL or the list that the threads share. *)
Implicit Type list : ptr unit.

(** src/src/core/xgl_list_ts.c:40-52: xgl_list_ts_is_empty *)
Definition xgl_list_ts_is_empty list : list_code :=
  match list with NULL => Return (res_bool true) | Ptr _ => guarded (inner lc_is_empty) end.

(** src/src/core/xgl_list_ts.c:57-69: xgl_list_ts_count *)
Definition xgl_list_ts_count list : list_code :=
  match list with NULL => Return (res_size 0) | Ptr _ => guarded (inner lc_count) end.

(** src/src/core/xgl_list_ts.c:74-82: xgl_list_ts_insert_head *)
Definition xgl_list_ts_insert_head list (node : ptr addr) : list_code :=
  match list, node with
  | Ptr _, Ptr _ => guarded (inner (lc_insert_head node))
  | _, _ => Return res_void
  end.

(** src/src/core/xgl_list_ts.c:87-95: xgl_list_ts_insert_tail *)
Definition xgl_list_ts_insert_tail list (node : ptr addr) : list_code :=
  match list, node with
  | Ptr _, Ptr _ => guarded (inner (lc_insert_tail node))
  | _, _ => Return res_void
  end.

(** src/src/core/xgl_list_ts.c:100-108: xgl_list_ts_remove *)
Definition xgl_list_ts_remove list (node : ptr addr) : list_code :=
  match list, node with
  | Ptr _, Ptr _ => guarded (inner (lc_remove node))
  | _, _ => Return res_void
  end.

(** src/src/core/xgl_list_ts.c:113-125: xgl_list_ts_remove_head *)
Definition xgl_list_ts_remove_head list : list_code :=
  match list with NULL => Return (res_node NULL) | Ptr _ => guarded (inner lc_remove_head) end.

(** src/src/core/xgl_list_ts.c:130-142: xgl_list_ts_remove_tail *)
Definition xgl_list_ts_remove_tail list : list_code :=
  match list with NULL => Return (res_node NULL) | Ptr _ => guarded (inner lc_remove_tail) end.

(** src/src/core/xgl_list_ts.c:147-159: xgl_list_ts_peek_head *)
Definition xgl_list_ts_peek_head list : list_code :=
  match list with NULL => Return (res_node NULL) | Ptr _ => guarded (inner lc_peek_head) end.

(** src/src/core/xgl_list_ts.c:164-176: xgl_list_ts_peek_tail *)
Definition xgl_list_ts_peek_tail list : list_code :=
  match list with NULL => Return (res_node NULL) | Ptr _ => guarded (inner lc_peek_tail) end.

(** What a thread runs for a call on the shared list. *)
Definition list_wrapper (c : list_call) : list_code :=
  match c with
  | lc_is_empty => xgl_list_ts_is_empty (Ptr tt)
  | lc_count => xgl_list_ts_count (Ptr tt)
  | lc_insert_head node => xgl_list_ts_insert_head (Ptr tt) node
  | lc_insert_tail node => xgl_list_ts_insert_tail (Ptr tt) node
  | lc_remove node => xgl_list_ts_remove (Ptr tt) node
  | lc_remove_head => xgl_list_ts_remove_head (Ptr tt)
  | lc_remove_tail => xgl_list_ts_remove_tail (Ptr tt)
  | lc_peek_head => xgl_list_ts_peek_head (Ptr tt)
  | lc_peek_tail => xgl_list_ts_peek_tail (Ptr tt)
  end.

Lemma list_wrapper_ok (inner_ok : forall c s, run_body (inner c) s = list_effect c s) c :
  (exists r, list_wrapper c = Return r) \/
  exists b, list_wrapper c = guarded b /\ forall s, run_body b s = list_effect c s.
Proof. destruct c as [| |[]|[]|[]| | | |]; cbn; try (right; eexists; by split); left; by eexists. Qed.
End wrappers.

(** ** A queue of nodes *)

(** The list of [LinkedList], one call after the other. *)
Inductive queue_step : list addr -> list_call -> list_result -> list addr -> Prop :=
| qs_is_empty xs : queue_step xs lc_is_empty (res_bool (bool_decide (xs = []))) xs
| qs_count xs : queue_step xs lc_count (res_size (zlen xs)) xs
| qs_insert_head xs x : queue_step xs (lc_insert_head (Ptr x)) res_void (x :: xs)
| qs_insert_tail xs x : queue_step xs (lc_insert_tail (Ptr x)) res_void (xs ++ [x])
| qs_null c xs : c ∈ [lc_insert_head NULL; lc_insert_tail NULL; lc_remove NULL] -> queue_step xs c res_void xs
| qs_remove_head xs : queue_step xs lc_remove_head (res_node (head xs)) (tail xs)
| qs_remove_tail xs : queue_step xs lc_remove_tail (res_node (last xs)) (take (length xs - 1) xs)
| qs_peek_head xs : queue_step xs lc_peek_head (res_node (head xs)) xs
| qs_peek_tail xs : queue_step xs lc_peek_tail (res_node (last xs)) xs.
Inductive queue_history : list (list_call * list_result) -> list addr -> Prop :=
| qh_nil : queue_history [] []
| qh_snoc l xs c r xs' : queue_history l xs -> queue_step xs c r xs' -> queue_history (l ++ [(c, r)]) xs'.

(** The nodes a call puts in, and takes out. *)
Definition inserts (c : list_call) : list addr :=
  match c with lc_insert_head (Ptr x) | lc_insert_tail (Ptr x) => [x] | _ => [] end.
Definition removes (e : list_call * list_result) : list addr :=
  match e with (lc_remove_head, res_node (Ptr x)) | (lc_remove_tail, res_node (Ptr x)) => [x] | _ => [] end.

(** Threads that use the list as a queue: each inserts nodes that nobody else inserts,
    and takes nodes from the ends. *)
Record queue_clients (h : heap) (programs : list (list list_call)) : Prop := {
  qc_inserts : NoDup (concat programs ≫= inserts);
  qc_nodes : Forall (fun x => is_Some (h !! x)) (concat programs ≫= inserts);
  qc_removes : Forall (fun c => forall x, c <> lc_remove (Ptr x)) (concat programs)
}.

(** What holds after the calls [l]. *)
Record queue_state (h0 : heap) (l : list (list_call * list_result)) (s : shared_list) (xs : list addr) : Prop := {
  qst_history : queue_history l xs;
  qst_list : list_rep s.1 s.2 xs;
  qst_nodes : (l ≫= removes) ++ xs ≡ₚ l.*1 ≫= inserts;
  qst_heap : forall x, x ∉ l.*1 ≫= inserts -> s.1 !! x = h0 !! x
}.

Lemma bind_snoc {A B} (f : A -> list B) (l : list A) e : (l ++ [e]) ≫= f = (l ≫= f) ++ f e.
Proof. rewrite bind_app. cbn. by rewrite app_nil_r. Qed.
Lemma split_last (xs : list addr) : xs ≡ₚ from_option (fun x => [x]) [] (last xs) ++ take (length xs - 1) xs.
Proof.
  destruct xs as [|x xs _] using rev_ind; [done|].
  rewrite last_snoc, length_app, Nat.add_sub, take_app_length. cbn. apply Permutation_app_comm.
Qed.

(** How one call that the clients may make changes what holds. *)
Lemma queue_state_snoc h0 l s xs c r s' xs' : queue_state h0 l s xs ->
  queue_step xs c r xs' -> list_rep s'.1 s'.2 xs' ->
  removes (c, r) ++ xs' ≡ₚ xs ++ inserts c ->
  (forall x, x ∉ xs -> x ∉ inserts c -> s'.1 !! x = s.1 !! x) ->
  queue_state h0 (l ++ [(c, r)]) s' xs'.
Proof.
  intros [Hh Hrep Hn Hheap] Hstep Hrep' Hnodes Hframe. split.
  - by econstructor.
  - done.
  - rewrite fmap_app, bind_snoc. cbn [fmap list_fmap fst]. rewrite bind_snoc, <- Hn, <- !app_assoc.
    f_equiv. done.
  - intros x Hx. rewrite fmap_app in Hx. cbn [fmap list_fmap fst] in Hx.
    rewrite bind_snoc, not_elem_of_app in Hx. destruct Hx as [Hx Hc]. rewrite Hframe; [by apply Hheap| |done].
    intros Hin. apply Hx. rewrite <- Hn. apply elem_of_app. by right.
Qed.

Lemma queue_effect h0 l s xs c : queue_state h0 l s xs ->
  (forall x, c <> lc_remove (Ptr x)) -> NoDup ((l.*1 ++ [c]) ≫= inserts) ->
  Forall (fun x => is_Some (h0 !! x)) (inserts c) ->
  exists r s' xs', list_effect c s = Some (r, s') /\ queue_state h0 (l ++ [(c, r)]) s' xs'.
Proof.
  intros Hst Hrm Hnd Hok. pose proof Hst as [Hh Hrep Hn Hheap]. pose proof (fun r s2 xs2 => queue_state_snoc _ _ _ _ c r s2 xs2 Hst) as Hnext.
  destruct s as [h lst]. cbn [fst snd] in *.
  rewrite bind_snoc in Hnd. destruct (list_rep_peek h lst xs Hrep) as (Hhd & Htl & He & Hc).
  assert (forall x, x ∈ inserts c -> is_Some (h !! x) /\ x ∉ xs) as Hfresh.
  { intros x Hx. apply NoDup_app in Hnd as (_ & Hnd & _).
    assert (x ∉ l.*1 ≫= inserts) as Hx' by (intros Hin; by destruct (Hnd x Hin)).
    rewrite Hheap by done. split; [by apply (proj1 (Forall_forall _ _) Hok)|].
    intros Hin. apply Hx'. rewrite <- Hn. apply elem_of_app. by right. }
  destruct c as [| |[x|]|[x|]|[x|]| | | |]; cbn [list_effect].
  - rewrite He. eexists _, _, xs. split; [done|]. eapply Hnext; [constructor|done|by rewrite app_nil_r|done].
  - rewrite Hc. eexists _, _, xs. split; [done|]. eapply Hnext; [constructor|done|by rewrite app_nil_r|done].
  - destruct (Hfresh x) as [Hx Hx']; [by left|].
    destruct (insert_head_rep h lst xs x Hrep Hx Hx') as (h' & l' & -> & Hrep' & Hu).
    eexists _, _, (x :: xs). split; [done|]. eapply Hnext; [constructor|done| |].
    + cbn. apply Permutation_cons_append.
    + intros y Hy Hy'. apply Hu. cbn in Hy'. set_solver.
  - eexists _, _, xs. split; [done|]. eapply Hnext; [constructor; set_solver|done|by rewrite app_nil_r|done].
  - destruct (Hfresh x) as [Hx Hx']; [by left|].
    destruct (insert_tail_rep h lst xs x Hrep Hx Hx') as (h' & l' & -> & Hrep' & Hu).
    eexists _, _, (xs ++ [x]). split; [done|]. eapply Hnext; [constructor|done|done|].
    intros y Hy Hy'. apply Hu. cbn in Hy'. set_solver.
  - eexists _, _, xs. split; [done|]. eapply Hnext; [constructor; set_solver|done|by rewrite app_nil_r|done].
  - by destruct (Hrm x).
  - eexists _, _, xs. split; [done|]. eapply Hnext; [constructor; set_solver|done|by rewrite app_nil_r|done].
  - destruct (remove_head_rep h lst xs Hrep) as (h' & l' & -> & Hrep' & Hu).
    eexists _, _, (tail xs). split; [done|]. eapply Hnext; [constructor|done| |].
    + cbn [inserts]. rewrite app_nil_r. by destruct xs.
    + intros y Hy _. by apply Hu.
  - destruct (remove_tail_rep h lst xs Hrep) as (h' & l' & -> & Hrep' & Hu).
    eexists _, _, (take (length xs - 1) xs). split; [done|]. eapply Hnext; [constructor|done| |].
    + cbn [inserts]. rewrite app_nil_r. pose proof (split_last xs) as E. destruct (last xs); by symmetry.
    + intros y Hy _. by apply Hu.
  - unfold xgl_list_peek_head. rewrite Hhd. eexists _, _, xs. split; [done|].
    eapply Hnext; [constructor|done|by rewrite app_nil_r|done].
  - unfold xgl_list_peek_tail. rewrite Htl. eexists _, _, xs. split; [done|].
    eapply Hnext; [constructor|done|by rewrite app_nil_r|done].
Qed.

(** The calls the clients make keep to the rules. *)
Lemma clients_allow h programs l c : queue_clients h programs -> l ++ [c] ⊆+ concat programs ->
  (forall x, c <> lc_remove (Ptr x)) /\ NoDup ((l ++ [c]) ≫= inserts) /\
  Forall (fun x => is_Some (h !! x)) (inserts c).
Proof.
  intros [Hins Hnodes Hrm] [k Hk]%submseteq_Permutation. rewrite Hk in Hins, Hnodes, Hrm.
  rewrite bind_app in Hins, Hnodes. rewrite bind_snoc, !Forall_app in Hnodes. rewrite !Forall_app in Hrm.
  split; [|split; [apply NoDup_app in Hins as [Hl _]; exact Hl|tauto]].
  destruct Hrm as [[_ Hc] _]. exact (proj1 (Forall_singleton _ _) Hc).
Qed.
Lemma queue_sequential h0 programs l s : queue_clients h0 programs ->
  sequential list_effect (h0, xgl_list_init) l s -> l.*1 ⊆+ concat programs ->
  exists xs, queue_state h0 l s xs.
Proof.
  intros Hclients. induction 1 as [|l s c r s' _ IH Heff]; intros Hsub.
  - exists []. split; cbn; [constructor|by repeat constructor|done|done].
  - rewrite fmap_app in Hsub. cbn [fmap list_fmap fst] in Hsub.
    destruct IH as [xs Hst]; [etransitivity; [by apply submseteq_inserts_r|exact Hsub]|].
    destruct (clients_allow _ _ _ _ Hclients Hsub) as (Hrm & Hnd & Hok).
    destruct (queue_effect h0 l s xs c Hst Hrm Hnd Hok) as (r' & s1 & xs1 & Heff' & Hst').
    rewrite Heff in Heff'. simplify_eq. by exists xs1.
Qed.

(** ** Property *)

(** C40. A thread-safe list is a queue for any number of threads: when each thread
    inserts nodes of its own, each at most once, and takes nodes from the ends, then whatever the
    programs and however their accesses interleave, the run is orderly; the
    calls, in the order of the moments at which they take effect, are those of a
    sequence; and the nodes that were taken out together with those
    still in the list are exactly the nodes that were put in - none is lost, none
    is handed out twice.  Whenever nobody is inside, the links of the list are in
    order.  All this holds of any mutex that behaves as POSIX says. *)
Theorem shared_list_is_queue {os : Type} `{PthreadLaws os} (inner : list_call -> body shared_list list_result)
    (h : heap) (ts : xgl_list_ts_t os) (programs : list (list list_call)) :
  (forall c s, run_body (inner c) s = list_effect c s) -> queue_clients h programs ->
  exists r ts', xgl_list_ts_init (Ptr ts) = Some (r, Ptr ts') /\
    (r = 0 -> forall trace cfg,
      reachable (list_wrapper inner) (start (h, lts_list ts') (lts_mutex ts') programs) trace cfg ->
      orderly (list_wrapper inner) programs trace cfg /\
      exists xs, queue_history (commits trace) xs /\
        NoDup ((commits trace ≫= removes) ++ xs) /\
        (commits trace ≫= removes) ++ xs ≡ₚ (commits trace).*1 ≫= inserts /\
        (Forall (fun th => ~ inside th) (cf_threads cfg) ->
         list_rep (cf_shared cfg).1 (cf_shared cfg).2 xs)).
Proof.
  intros Hinner Hclients. unfold xgl_list_ts_init.
  destruct (xgl_mutex_init (Ptr (lts_mutex ts))) as [err [mutex|]] eqn:E.
  2: { unfold xgl_mutex_init in E. destruct (pthread_mutex_init _ _) as [res os']. by destruct (negb (res =? 0)). }
  cbn [mbind option_bind]. eexists _, _. split; [done|]. cbn [lts_list lts_mutex]. intros Hr trace cfg Hreach.
  assert (mutex_held mutex None) as Hmutex by (apply (mutex_init_held (lts_mutex ts)); rewrite E; by destruct err).
  destruct (reachable_orderly _ _ (list_wrapper_ok inner Hinner) _ _ _ _ _ Hmutex Hreach)
    as [Hord (s & Hseq & Hsub & Hshared)].
  { intros l s c Hseq Hsub. destruct (clients_allow _ _ _ _ Hclients Hsub) as (Hrm & Hnd & Hok).
    destruct (queue_sequential h programs l s Hclients Hseq) as [xs Hst];
      [etransitivity; [by apply submseteq_inserts_r|exact Hsub]|].
    destruct (queue_effect h l s xs c Hst Hrm Hnd Hok) as (r & s1 & xs1 & -> & _). by eexists. }
  destruct (queue_sequential h programs _ s Hclients Hseq Hsub) as [xs [Hh Hrep Hn _]].
  split; [exact Hord|]. exists xs. split; [exact Hh|]. split; [|split; [exact Hn|]].
  - rewrite Hn. destruct Hclients as [Hnd _ _]. apply submseteq_Permutation in Hsub as [k Hk].
    rewrite Hk, bind_app in Hnd. apply NoDup_app in Hnd as [Hnd _]. exact Hnd.
  - intros Hout. by rewrite (Hshared Hout).
Qed.

(** A thread that puts in three nodes and two threads that take two each; each function
    reads the whole list, and later writes the whole of what it computed. *)
Definition racy_list (c : list_call) : body shared_list list_result :=
  Access (fun s => Some (s, s)) (fun old => Access (fun _ => list_effect c old) Done).
Lemma racy_list_ok c s : run_body (racy_list c) s = list_effect c s.
Proof. cbn. by destruct (list_effect c s) as [[r s']|]. Qed.
Definition sample_heap : heap :=
  list_to_map ((fun a => (a, mk_node NULL NULL)) <$> [1%positive; 2%positive; 3%positive]).
Definition sample_clients : list (list list_call) :=
  [[lc_insert_tail (Ptr 1%positive); lc_insert_tail (Ptr 2%positive); lc_insert_head (Ptr 3%positive)];
   [lc_remove_head; lc_remove_head]; [lc_remove_tail; lc_count]].
Definition sample_list : xgl_list_ts_t (option (tid * nat)) := mk_list_ts xgl_list_init (mk_mutex None false).
Definition sample_turns : list tid := mjoin (replicate 30 [0; 1; 2; 0]%nat).
Definition sample_result :=
  schedule (list_wrapper racy_list) sample_turns
    (start (sample_heap, xgl_list_init) (mk_mutex (None : option (tid * nat)) true) sample_clients).
Lemma sample_clients_ok : queue_clients sample_heap sample_clients.
Proof.
  split.
  - apply (bool_decide_unpack _). vm_compute. exact I.
  - repeat constructor; by eexists.
  - repeat constructor; discriminate.
Qed.
Definition sample_history : list (list_call * list_result) :=
  [(lc_insert_tail (Ptr 1%positive), res_void); (lc_remove_head, res_node (Ptr 1%positive));
   (lc_remove_tail, res_node NULL); (lc_insert_tail (Ptr 2%positive), res_void);
   (lc_remove_head, res_node (Ptr 2%positive)); (lc_count, res_size 0);
   (lc_insert_head (Ptr 3%positive), res_void)].
Lemma shared_list_is_queue_witness :
  exists trace cfg xs,
    reachable (list_wrapper racy_list)
      (start (sample_heap, xgl_list_init) (mk_mutex (None : option (tid * nat)) true) sample_clients) trace cfg /\
    commits trace = sample_history /\ queue_history sample_history xs /\
    (sample_history ≫= removes) ++ xs ≡ₚ sample_history.*1 ≫= inserts.
Proof.
  destruct (shared_list_is_queue racy_list sample_heap sample_list sample_clients racy_list_ok sample_clients_ok)
    as (r & ts & Hrun & Hall).
  assert (commits sample_result.1 = sample_history) as Hcommits by (vm_compute; reflexivity).
  destruct sample_result as [trace cfg] eqn:E. cbn [fst] in Hcommits. pose proof (schedule_reachable _ _ _ _ _ E) as Hreach.
  exists trace, cfg.
  injection Hrun as <- <-. destruct (Hall eq_refl trace cfg Hreach) as (_ & xs & Hh & _ & Hn & _).
  rewrite Hcommits in Hh, Hn. exists xs. split; [exact Hreach|]. split; [exact Hcommits|split; [exact Hh|exact Hn]].
Defined.
